(* ===== verification/_CoqProject ===== *)
-Q . S2P
Prelude.v
Mem.v
KAlloc.v
Vm.v
VmFacts.v
VmProps.v
VmWitness.v
KernelVm.v
Buddy.v
Locks.v
Sched.v
SchedProps.v
Time.v
Pipe.v
HashMap.v
Buf.v
Sdcard.v
SdcardProps.v
Virtio.v
VirtioProps.v
VirtioRefine.v
VirtioDriver.v
Fat32.v
Fat32Props.v
Fat32Files.v
Fat32Lookup.v
Fat32Create.v
Fat32Witness.v
SList.v
Dirent.v
Fat32Dir.v
Fat32Init.v
DevFs.v
Vfs.v
VfsProps.v
DevFsProps.v
VfsWitness.v
Fat32Tree.v
Fat32TreeWitness.v
Fat32CreateWitness.v
OldVfs.v
VfsCalls.v
Exec.v
OldCalls.v
LazyLoad.v
Syscall.v
SyscallProps.v
SyscallWitness.v
OldVfsProps.v
OldFat.v
OldFatProps.v
Boot.v
Console.v
Bits.v
Sysctl.v
SysctlProps.v
Rtc.v
Clock.v
FpioaTable.v
Fpioa.v
Utils.v
Plic.v
Dmac.v
Spi.v
SpiProps.v
Gpiohs.v
Printk.v
Panic.v
Trap.v
User.v
Ulib.v
UserProps.v
Shell.v
ShellProps.v
ShellSound.v
Main.v
New.v
