(* ===== verification/Prelude.v ===== *)
(** * StartOS: a verification library for the kernel

    StartOS is a teaching kernel for RISC-V in C++ (src/kernel, src/sstl).  User
    programs enter it through traps; system calls act on the running task, its
    page table and its open files; files are reached through a virtual file
    system with two file systems behind it, which read and write disks through a
    buffer cache.  This library models these parts as functions on explicit
    states and proves what makes them correct.  Two ports share the code: QEMU
    with a virtio disk, and the K210 board, with drivers for its clocks, pins,
    SPI and DMA controllers, SD card and real-time clock.

    ** How the model follows the code

    A function of the kernel is a definition of the same name.  It is a
    computation in [M S], the state monad over the component's state [S] whose
    outcome is a result, [Panic] or [NoFuel] (this file).  [panic] of the code, a
    null or wild pointer that is followed and an index outside an array are
    [Panic]; a wait that can never end, such as spinning on a lock this CPU
    holds, is [NoFuel].  Integers are [Z], wrapped by [u8] .. [u64], [i32] where
    the code's types wrap.  Memory is a function from addresses to bytes (Mem.v)
    wherever the code works through raw pointers: free lists, page tables,
    strings, user buffers, trap frames, directory entries on disk.  Objects that
    are only reached through members are records in a [gmap] from addresses.

    A loop is a [Fixpoint] on the number of its turns where the code counts
    them; otherwise it takes fuel, and the theorems give a bound that is enough:
    one unit per page for mappings and copies, the length of a path or string
    plus one, the number of clusters of the table for chains of clusters, the
    number of nodes plus one for lists and buckets.  Statements that a function
    completes are proved for every amount of fuel above the bound.

    The CPU that runs the scheduler is one (boot/main.cpp parks the other); what
    a function does under a lock, between taking it and releasing it or going to
    sleep, is one step, and Locks.v shows that the lock really excludes others.
    A task that sleeps is a continuation: [kont] in Sched.v, [pcont] in Pipe.v,
    [CSlept] in Console.v.

    ** The files

    - Prelude.v: outcomes, the monad, machine integers, tactics and hints.
    - Mem.v: memory and common/string.cpp.
    - KAlloc.v: memory/MemAllocator.cpp, and the class [PageAllocator], what a
      page allocator promises; Buddy.v: memory/BuddyAllocator.cpp over it;
      New.v: StartOS.cpp.
    - Vm.v: memory/VmManager.cpp over any [PageAllocator].  VmFacts.v: page
      tables as trees read off memory.  VmProps.v: the theorems.  VmWitness.v: a
      concrete machine.  KernelVm.v: the kernel's own table, [initKernelVm], and
      its theorem.
    - Locks.v: os/Intr.cpp and os/SpinLock.cpp on one CPU and on many.
    - Sched.v: os/TaskScheduler.cpp, task.cpp, Timer.cpp, SleepLock.cpp,
      memory/mmap.cpp, over the classes [PageAllocator] and [FileLayer];
      SchedProps.v: a weakest-precondition calculus and the theorems.
    - Time.v: fs/fat32/fat_utils.cpp, os/time.cpp.
    - Pipe.v: fs/Pipe.cpp.
    - HashMap.v: sstl/map.hpp; SList.v: sstl/list.hpp.
    - Buf.v: fs/buf/BufferLayer.cpp over block devices.
    - Virtio.v: driver/virtio.cpp.  VirtioProps.v: what a device does that follows
      the specification ([served_by]), the abstract block device ([astep]) and
      the invariant; VirtioRefine.v: every step of the driver refines it;
      VirtioDriver.v: runs, the theorem and a concrete device.
    - Fat32.v, Fat32Dir.v: fs/fat32/fat32_file_system.cpp over the buffer cache
      and the hash map; Fat32Props.v, Fat32Files.v: chains and file contents;
      Fat32Lookup.v: a directory as the list of its entries; Fat32Create.v: what
      [Create] writes and [Lookup] then finds; Fat32Witness.v,
      Fat32CreateWitness.v: concrete disks.  Fat32Init.v: [Init], from the boot
      sector to the geometry.
    - Dirent.v: [filldir] of fs/vfs/file_system.hpp.
    - DevFs.v: fs/devfs/device_file_system.cpp.
    - Vfs.v: fs/vfs/vfs.cpp over the class [FsLayer], the virtual functions of a
      file system.  VfsProps.v: the class [FsLaws], what [VfsManager] needs of
      them, and the theorems.  DevFsProps.v: the device file system satisfies
      [FsLaws].  VfsWitness.v: a concrete one.  Fat32Tree.v: FAT32 as an
      instance of [FsLayer], the proof of [FsLaws] and what reading a path gives;
      Fat32TreeWitness.v: a disk with a directory and a file.
    - OldVfs.v: the old file layer, fs/vfs/Vfs.cpp and
      fs/devfs/DeviceFileSystem.cpp, on the same files as Vfs.v; OldVfsProps.v:
      its theorems.  OldFat.v: the FAT library behind it, fs/fat32/Fat.cpp;
      OldFatProps.v: its sectors, its table and its lock.
    - VfsCalls.v: the class [FileCalls], what [exec] and the system calls need of
      files; Vfs.v implements it and, with OldVfs.v, [FileLayer].
    - Exec.v: os/Exec.cpp, startos/binformat.cpp; LazyLoad.v: its theorem.
    - OldCalls.v: the class [OldCalls], the system calls that go through OldVfs.v.
    - Syscall.v: os/syscall.cpp, SyscallFile.cpp, syscallProc.cpp.
      SyscallProps.v: the class [FileTable] and the theorem; SyscallWitness.v: a
      concrete kernel.
    - Console.v: device/Console.cpp; Printk.v: common/printk.cpp, and Panic.v:
      its [panic], [backtrace] and lock; Trap.v: os/trap.cpp over the operations
      the handlers call; Boot.v: [forkret] and the timer; Main.v: boot/main.cpp
      on two CPUs.
    - Bits.v: bit fields of registers.  Sysctl.v: driver/sysctl.c;
      SysctlProps.v: the tables of gates, lines and clocks it is proved against;
      Rtc.v: driver/rtc.c; Clock.v: device/Clock.cpp, [CurrentTimeSpec] and the theorem
      of the clock; FpioaTable.v, Fpioa.v: driver/fpioa.c.
    - Utils.v, Gpiohs.v, Plic.v, Dmac.v, Spi.v: driver/utils.cpp, gpiohs.cpp,
      Plic.cpp, dmac.cpp and spi.cpp over classes of what their registers do;
      SpiProps.v: the documented SPI controller.  Sdcard.v: device/Sdcard.cpp over
      the bytes on the bus; SdcardProps.v: the card and the theorem.
    - User.v: user programs as the system calls they make, user/printf.c, echo.c,
      cat.c, wc.c and init.c; Ulib.v: user/ulib.c; UserProps.v: what comes out of
      echo, cat and wc.  Shell.v: user/shell.c; ShellProps.v: its grammar, what
      the parser makes of a sentence and what a command runs; ShellSound.v: the
      parser accepts nothing else, and stops.

    ** What is proved

    - Memory: the page allocator starts with all pages and refines a stack of
      pages; the buddy allocator returns aligned blocks of free memory, merges
      them back and, whatever its clients do with their blocks, loses none.  Page tables: [mappages], [walkAddr],
      [userUnmap], [copyin], [copyout] do what their contracts say of the tree
      of tables, the free pages and the user's bytes, on success and on failure.
      The kernel's own table is exactly the intended map: identity, nothing
      writable and executable, nothing open to the user.
    - Start: the second CPU goes on only when the first has initialised everything.
    - Tasks: mutual exclusion of the spin lock; the invariant of the task table
      over all operations of the scheduler, and which calls stop the kernel; what
      [wait] and [exit] do on every branch, the files and areas a task leaves
      included; the descriptor table.  Traps return to a user program or end it.
    - System calls: [descriptors_hold_files] takes the descriptor calls from the
      trap frame to the result and ties the descriptors of all tasks to the
      reference counts of the files, through [FileTable] to the virtual file
      system and any file system that satisfies [FsLaws].
      [segment_page_loads] follows a segment from the program header to the byte
      the program reads.
    - Files: path resolution and [openat] against a reference walk over a tree;
      the table of open files under any sequence of calls; cluster chains, file
      reads and writes of FAT32, and a created file is found again; the buffer
      cache is transparent; directory records can be read back.
      [path_reads_file] puts them together: a path on a FAT32 disk leads to the
      bytes the disk holds for it.
    - Disks: with any conforming device, any number of tasks in the virtio driver
      see an atomic block device, and served requests return.  With any card that
      answers as its specification says, the SD card driver is a block device.
      The SPI driver exchanges bytes with the other side at any pace of the bus.
    - The old file layer: the mount point that serves a path; [chdir] on every
      branch, paths that overrun its array included, and the file handles it
      loses, which run out.  Its FAT library reads
      and writes the cluster table one entry at a time; freeing a chain frees two
      clusters of it, and reading behind the end of a file keeps the lock.
    - Containers and text: the hash map refines a finite map and its iterator is
      complete; pipes refine a bounded queue and lose no wakeup; the console's
      line discipline; [printf] prints the numerals of the positional system.
    - The shell: the parser accepts exactly the lines of a grammar and stops on
      every line, and what a line runs is the meaning of its command: programs,
      arguments and descriptors.  cat copies and wc counts its input however it is
      cut; [atoi] reads what [printf] prints.
    - Time: FAT and UNIX time and [mktime] agree with the Gregorian calendar; the
      real-time clock shows what it was set to, and [CurrentTimeSpec] its seconds;
      what it refuses, and the month that reads outside a table.
    - The board: a pin function is on one pin at most; clock gates, resets and
      frequencies are those of literal tables of register bits and formulas.

    Several theorems are proved of a component against a class, with an instance
    that another component provides: [PageAllocator] by KAlloc.v, [FsLaws] by
    DevFsProps.v and by Fat32Tree.v, [FileTable] by SyscallProps.v.

    ** Not modelled

    - What the hardware does beyond the classes and devices the drivers are proved
      against, and the SBI calls.  A disk is its bytes, the console its input and
      output bytes; delays and memory fences have no effect.
    - trampoline.S, kernelvec.S, switch.S and entry.S: assembly; [pswitch] is the
      saved continuation.
    - Self-tests and log output.
    - The old file layer reaches its FAT library (mkdirat, chdir, mount and
      umount still do) through the class [OldWorld] of OldVfs.v; OldFat.v is not
      an instance of it.  fs/disk is an older copy of the virtio driver whose
      header is gone.  [CreateCmdTxt] writes two fixed files for a boot script.
    - What a system call does after it has given up the CPU, beyond the code of
      [wait], [sleepTime] and the sleep locks: the store of its result.
    - The allocator of user programs (the shell's model counts the blocks that
      [malloc] has left), ls and the list of test cases; firmware (rustsbi), tools. *)
From Stdlib Require Export ZArith Lia.
From stdpp Require Export base tactics numbers list gmap strings.

#[export] Set Default Goal Selector "!".
Global Open Scope Z_scope.

(** ** Outcomes

    [panic] (kernel/common/printk.cpp) never returns: a computation either
    completes, panics, or, for a loop that is run with fuel, runs out of it. *)
Inductive outcome (A : Type) : Type :=
| Done (a : A)
| Panic (msg : string)
| NoFuel.
Arguments Done {A} a.
Arguments Panic {A} msg.
Arguments NoFuel {A}.

#[global] Instance outcome_ret : MRet outcome := λ A a, Done a.
#[global] Instance outcome_bind : MBind outcome := λ A B f m,
  match m with Done a => f a | Panic e => Panic e | NoFuel => NoFuel end.

(** State-passing computations over a state type [S]. *)
Definition M (S A : Type) : Type := S → outcome (A * S).

#[global] Instance M_ret S : MRet (M S) := λ A a s, Done (a, s).
#[global] Instance M_bind S : MBind (M S) := λ A B f m s,
  match m s with
  | Done (a, s') => f a s'
  | Panic e => Panic e
  | NoFuel => NoFuel
  end.

Definition panic {S A : Type} (msg : string) : M S A := λ _, Panic msg.
Definition get {S : Type} : M S S := λ s, Done (s, s).
Definition gets {S A : Type} (f : S → A) : M S A := λ s, Done (f s, s).
Definition modify {S : Type} (f : S → S) : M S unit := λ s, Done (tt, f s).

(** Running a bind whose first part is known. *)
Lemma M_bind_Done {S A B : Type} (f : A → M S B) (c : M S A) s a s1 :
  c s = Done (a, s1) → (c ≫= f) s = f a s1.
Proof. intros E. unfold mbind, M_bind. by rewrite E. Qed.
Lemma M_bind_Panic {S A B : Type} (f : A → M S B) (c : M S A) s msg :
  c s = Panic msg → (c ≫= f) s = Panic msg.
Proof. intros E. unfold mbind, M_bind. by rewrite E. Qed.

(** Take the first step of the computation in the goal; [E] says what it does. *)
Ltac step E := rewrite (M_bind_Done _ _ _ _ _ E).

(** [⟪ c ⟫ s ⇓ r]: run from [s], the computation completes with [r]. *)
Declare Scope kernel_scope.
Delimit Scope kernel_scope with kernel.
Notation "⟪ c ⟫ s ⇓ r" := (c s = Done r)
  (at level 70, c at level 99, s at level 9, r at level 69, no associativity) : kernel_scope.
Global Open Scope kernel_scope.

Lemma M_bind_inv {S A B : Type} (f : A → M S B) (c : M S A) s r :
  (c ≫= f) s = Done r → ∃ a s1, c s = Done (a, s1) ∧ f a s1 = Done r.
Proof. unfold mbind, M_bind. destruct (c s) as [[a s1]|?|]; [by eauto|done..]. Qed.

(** ** Machine integers: a w-bit value is a [Z], wrapped where the code wraps. *)
Definition u8 (z : Z) : Z := z mod 2 ^ 8.
Definition u16 (z : Z) : Z := z mod 2 ^ 16.
Definition u32 (z : Z) : Z := z mod 2 ^ 32.
Definition u64 (z : Z) : Z := z mod 2 ^ 64.
Definition i32 (z : Z) : Z := (z + 2 ^ 31) mod 2 ^ 32 - 2 ^ 31.
Definition i64 (z : Z) : Z := (z + 2 ^ 63) mod 2 ^ 64 - 2 ^ 63.

Lemma u8_small z : 0 ≤ z < 256 → u8 z = z.
Proof. intros. unfold u8. apply Z.mod_small. lia. Qed.
Lemma u16_small z : 0 ≤ z < 2 ^ 16 → u16 z = z.
Proof. intros. unfold u16. apply Z.mod_small. lia. Qed.
Lemma u32_small z : 0 ≤ z < 2 ^ 32 → u32 z = z.
Proof. intros. unfold u32. apply Z.mod_small. lia. Qed.
Lemma u64_small z : 0 ≤ z < 2 ^ 64 → u64 z = z.
Proof. intros. unfold u64. apply Z.mod_small. lia. Qed.
Lemma i32_small z : - 2 ^ 31 ≤ z < 2 ^ 31 → i32 z = z.
Proof. intros. unfold i32. rewrite Z.mod_small; lia. Qed.
Lemma i64_small z : - 2 ^ 63 ≤ z < 2 ^ 63 → i64 z = z.
Proof. intros. unfold i64. rewrite Z.mod_small; lia. Qed.
Lemma u8_range z : 0 ≤ u8 z < 256.
Proof. unfold u8. apply Z.mod_pos_bound. lia. Qed.
Lemma u32_range z : 0 ≤ u32 z < 2 ^ 32.
Proof. unfold u32. apply Z.mod_pos_bound. lia. Qed.
Lemma u64_range z : 0 ≤ u64 z < 2 ^ 64.
Proof. unfold u64. apply Z.mod_pos_bound. lia. Qed.

(** Masking and shifting as division: the forms the proofs reason with. *)
Lemma land_ones_mod a k : 0 ≤ k → Z.land a (2 ^ k - 1) = a mod 2 ^ k.
Proof. intros. rewrite <- Z.land_ones by lia. by rewrite Z.ones_equiv. Qed.

Lemma land_lnot_ones a k : 0 ≤ k → Z.land a (- 2 ^ k) = a - a mod 2 ^ k.
Proof.
  intros Hk. replace (- 2 ^ k) with (Z.lnot (Z.ones k)) by (rewrite Z.ones_equiv; unfold Z.lnot; lia).
  rewrite <- Z.ldiff_land, Z.ldiff_ones_r, Z.shiftl_mul_pow2, Z.shiftr_div_pow2 by lia.
  pose proof (Z.div_mod a (2 ^ k) ltac:(lia)). lia.
Qed.

(** [|] of a value aligned to [2^k] and a value below [2^k] is a sum. *)
Lemma lor_add_disjoint a b k : 0 ≤ k → 0 ≤ b < 2 ^ k → a mod 2 ^ k = 0 → Z.lor a b = a + b.
Proof.
  intros Hk Hb Ha.
  rewrite <- (Z.add_lor_land a b). replace (Z.land a b) with 0; [lia|].
  symmetry. apply Z.bits_inj'. intros n Hn. rewrite Z.land_spec, Z.bits_0.
  destruct (decide (n < k)).
  - rewrite <- (Z.mod_pow2_bits_low a k n), Ha, Z.bits_0 by lia. done.
  - rewrite <- (Z.mod_small b (2 ^ k)), Z.mod_pow2_bits_high, andb_false_r by lia. done.
Qed.

(** ** Tactics *)

(** Case on the boolean test or the [match] at the head of the goal and turn
    boolean comparisons into arithmetic. *)
Ltac bool_arith :=
  repeat match goal with
  | H : (_ <? _) = true |- _ => apply Z.ltb_lt in H
  | H : (_ <? _) = false |- _ => apply Z.ltb_ge in H
  | H : (_ <=? _) = true |- _ => apply Z.leb_le in H
  | H : (_ <=? _) = false |- _ => apply Z.leb_gt in H
  | H : (_ =? _) = true |- _ => apply Z.eqb_eq in H
  | H : (_ =? _) = false |- _ => apply Z.eqb_neq in H
  | H : bool_decide _ = true |- _ => apply bool_decide_eq_true in H
  | H : bool_decide _ = false |- _ => apply bool_decide_eq_false in H
  | H : (_ && _)%bool = true |- _ => apply andb_true_iff in H; destruct H
  | H : (_ || _)%bool = false |- _ => apply orb_false_iff in H; destruct H
  | H : negb _ = true |- _ => apply negb_true_iff in H
  | H : negb _ = false |- _ => apply negb_false_iff in H
  end.

Tactic Notation "case_bool" constr(b) := destruct b eqn:?; bool_arith.

(** Run the next bind of an [M] computation whose result is known. *)
Ltac unfold_M := unfold mbind, mret, M_bind, M_ret, panic, get, gets, modify in *.

(** [lia] with [/] and [mod] by constants turned into equations. *)
Ltac dlia := Z.to_euclidean_division_equations; lia.

(** ** Hints: [auto with startos] closes width and range side conditions. *)
Create HintDb startos.
Create Rewrite HintDb startos_w.
#[export] Hint Resolve u8_range u32_range u64_range : startos.
#[export] Hint Rewrite u8_small u16_small u32_small u64_small i32_small i64_small using lia : startos_w.
