(* ===== verification/Mem.v ===== *)
(** * Byte-addressed memory and kernel/common/string.cpp

    Memory is a total function from addresses to bytes: the kernel runs on a
    direct map of physical memory and the C++ code reads and writes it through
    raw pointers.  A multi-byte object is little-endian, as on RISC-V.  The
    second half models the string and block routines of string.cpp on that
    memory, one definition per function, a [while] loop being a [Fixpoint] on
    the counter it decrements, or on fuel where it runs until a NUL byte. *)
From S2P Require Import Prelude.

Definition mem := Z → Z.

(** ** Loads and stores *)

(** Address ranges are half-open: [a <= x < a + n]. *)
Definition in_range (x a n : Z) : bool := (a <=? x) && (x <? a + n).

Definition upd (m : mem) (a v : Z) : mem := λ x, if x =? a then v else m x.

(** A load or store of [n] bytes at [a]. *)
Fixpoint ld (n : nat) (m : mem) (a : Z) : Z :=
  match n with
  | O => 0
  | S n => m a + 256 * ld n m (a + 1)
  end.

Fixpoint st (n : nat) (m : mem) (a v : Z) : mem :=
  match n with
  | O => m
  | S n => st n (upd m a (u8 v)) (a + 1) (v / 256)
  end.

Definition ld64 : mem → Z → Z := ld 8.
Definition st64 : mem → Z → Z → mem := st 8.
Definition ld32 : mem → Z → Z := ld 4.
Definition st32 : mem → Z → Z → mem := st 4.

(** Every byte is in [0, 256). *)
Definition mem_ok (m : mem) : Prop := ∀ x, 0 ≤ m x < 256.

(** ** string.cpp *)

(** [memset(dst, c, n)]: [n] is [uint_t], the byte stored is [(char)c]. *)
Fixpoint memset_loop (m : mem) (dst c : Z) (n : nat) : mem :=
  match n with
  | O => m
  | S n => memset_loop (upd m dst (u8 c)) (dst + 1) c n
  end.

(** The observable behaviour of the loop; [memset_loop_spec] below shows that
    the loop computes it. *)
Definition memset (m : mem) (dst c n : Z) : mem :=
  λ x, if in_range x dst (u32 n) then u8 c else m x.
#[global] Arguments memset : simpl never.

(** [memcmp]: the difference of the first two bytes that differ, else 0. *)
Fixpoint memcmp (m : mem) (v1 v2 : Z) (n : nat) : Z :=
  match n with
  | O => 0
  | S n => if m v1 =? m v2 then memcmp m (v1 + 1) (v2 + 1) n else m v1 - m v2
  end.

(** [while (n-- > 0) *--d = *--s;] *)
Fixpoint copy_backward (m : mem) (d s : Z) (n : nat) : mem :=
  match n with
  | O => m
  | S n => copy_backward (upd m (d - 1) (m (s - 1))) (d - 1) (s - 1) n
  end.

(** [while (n-- > 0) *d++ = *s++;] *)
Fixpoint copy_forward (m : mem) (d s : Z) (n : nat) : mem :=
  match n with
  | O => m
  | S n => copy_forward (upd m d (m s)) (d + 1) (s + 1) n
  end.

Definition memmove (m : mem) (dst src n : Z) : mem :=
  let n := u32 n in
  if (src <? dst) && (dst <? src + n)
  then copy_backward m (dst + n) (src + n) (Z.to_nat n)
  else copy_forward m dst src (Z.to_nat n).

Definition memcpy : mem → Z → Z → Z → mem := memmove.

(** [strlen]: the loop runs until the NUL byte. *)
Fixpoint strlen (fuel : nat) (m : mem) (s : Z) : outcome Z :=
  match fuel with
  | O => NoFuel
  | S fuel =>
      if m s =? 0 then Done 0
      else match strlen fuel m (s + 1) with Done n => Done (n + 1) | e => e end
  end.

Fixpoint strcmp (fuel : nat) (m : mem) (p q : Z) : outcome Z :=
  match fuel with
  | O => NoFuel
  | S fuel =>
      if negb (m p =? 0) && negb (m q =? 0) && (m p =? m q)
      then strcmp fuel m (p + 1) (q + 1)
      else Done (m p - m q)
  end.

Fixpoint strncmp (m : mem) (p q : Z) (n : nat) : Z :=
  match n with
  | O => 0
  | S n => if negb (m p =? 0) && (m p =? m q) then strncmp m (p + 1) (q + 1) n
           else m p - m q
  end.

Definition toLowCase (c : Z) : Z := if (65 <=? c) && (c <=? 90) then c + 32 else c.

(** The [while] loop of [strncasecmp]; [n] is at least 1 on entry. *)
Fixpoint strncasecmp_loop (m : mem) (p1 p2 : Z) (n : nat) : Z :=
  match n with
  | O => 0
  | S n' =>
      let result := toLowCase (m p1) - toLowCase (m p2) in
      if result =? 0 then
        if m p1 =? 0 then result else
        match n' with
        | O => result
        | S _ => strncasecmp_loop m (p1 + 1) (p2 + 1) n'
        end
      else result
  end.

Definition strncasecmp (m : mem) (s1 s2 : Z) (n : nat) : Z :=
  if (s1 =? s2) || (Nat.eqb n 0) then 0 else strncasecmp_loop m s1 s2 n.

(** [while (n-- > 0) *s++ = 0;] *)
Fixpoint zero_fill (m : mem) (s : Z) (n : nat) : mem :=
  match n with
  | O => m
  | S n => zero_fill (upd m s 0) (s + 1) n
  end.

(** [strncpy]: copy up to and including the NUL, then pad with zeros. *)
Fixpoint strncpy (m : mem) (s t : Z) (n : nat) : mem :=
  match n with
  | O => m
  | S n =>
      let m' := upd m s (m t) in
      if m t =? 0 then zero_fill m' (s + 1) n else strncpy m' (s + 1) (t + 1) n
  end.

(** [while (--n > 0 && ( *s++ = *t++) != 0); *s = 0;], entered with [n >= 1]:
    the fixpoint's argument is [n - 1]. *)
Fixpoint safestrcpy_loop (m : mem) (s t : Z) (n : nat) : mem :=
  match n with
  | O => upd m s 0
  | S n =>
      let m' := upd m s (m t) in
      if m t =? 0 then upd m' (s + 1) 0 else safestrcpy_loop m' (s + 1) (t + 1) n
  end.

Definition safestrcpy (m : mem) (s t n : Z) : mem :=
  if n <=? 0 then m else safestrcpy_loop m s t (Z.to_nat (n - 1)).

(** [strchr]/[strrchr]: 0 (a null pointer) when the character is absent. *)
Fixpoint strchr (fuel : nat) (m : mem) (s c : Z) : outcome Z :=
  match fuel with
  | O => NoFuel
  | S fuel => if m s =? 0 then Done 0 else if m s =? c then Done s else strchr fuel m (s + 1) c
  end.

Fixpoint strrchr_loop (fuel : nat) (m : mem) (s c ans : Z) : outcome Z :=
  match fuel with
  | O => NoFuel
  | S fuel =>
      if m s =? 0 then Done ans
      else strrchr_loop fuel m (s + 1) c (if m s =? c then s else ans)
  end.

Definition strrchr (fuel : nat) (m : mem) (s c : Z) : outcome Z := strrchr_loop fuel m s c 0.

(** [CopyCharToWchar(dst, src, len)]: the second loop never runs, since the
    first one ends with [i = len]. *)
Fixpoint CopyCharToWchar (m : mem) (dst src : Z) (len : nat) : mem :=
  match len with
  | O => m
  | S len =>
      let m1 := upd m (dst + 1) 0 in
      CopyCharToWchar (upd m1 dst (m1 src)) (dst + 2) (src + 1) len
  end.

Fixpoint CopyWcharToChar (m : mem) (dst src : Z) (len : nat) : mem :=
  match len with
  | O => m
  | S len => CopyWcharToChar (upd m dst (m src)) (dst + 1) (src + 2) len
  end.

(** [wcsncmp]: [wchar_t] is a 32-bit [int].  [ret] is 0 whenever the loop goes on,
    so that is the result when it ends. *)
Fixpoint wcsncmp (fuel : nat) (m : mem) (s1 s2 len : Z) : outcome Z :=
  match fuel with
  | O => NoFuel
  | S fuel =>
      if len =? 0 then Done 0
      else
        let c := i32 (ld32 m s1) in
        if c =? 0 then Done 0
        else
          let ret := i32 (c - i32 (ld32 m s2)) in
          if negb (ret =? 0) then Done ret else wcsncmp fuel m (s1 + 4) (s2 + 4) (i32 (len - 1))
  end.

(** ** Laws of loads and stores *)

Lemma in_range_true x a n : in_range x a n = true ↔ a ≤ x < a + n.
Proof. unfold in_range. rewrite andb_true_iff, Z.leb_le, Z.ltb_lt. done. Qed.
Lemma in_range_false x a n : in_range x a n = false ↔ ¬ (a ≤ x < a + n).
Proof. rewrite <- in_range_true. destruct (in_range x a n); naive_solver. Qed.

(** Decide a range test from arithmetic hypotheses. *)
Ltac range_case :=
  repeat match goal with
  | |- context [in_range ?x ?a ?n] =>
      let E := fresh "E" in destruct (in_range x a n) eqn:E;
      [apply in_range_true in E | apply in_range_false in E]; try lia
  | |- context [?x =? ?y] =>
      let E := fresh "E" in destruct (Z.eqb_spec x y) as [E|E]; try lia
  end.

Lemma upd_eq m a v : upd m a v a = v.
Proof. unfold upd. by rewrite Z.eqb_refl. Qed.
Lemma upd_ne m a v x : x ≠ a → upd m a v x = m x.
Proof. intros. unfold upd. by range_case. Qed.

Lemma mem_ok_upd m a v : mem_ok m → 0 ≤ v < 256 → mem_ok (upd m a v).
Proof. intros Hm Hv x. unfold upd. by range_case; try apply Hm. Qed.

Lemma ld_ext n m m' a :
  (∀ x, a ≤ x < a + Z.of_nat n → m x = m' x) → ld n m a = ld n m' a.
Proof.
  revert a. induction n as [|n IH]; intros a H; [done|]. cbn [ld].
  rewrite H by lia. f_equal. f_equal. apply IH. intros x Hx. apply H. lia.
Qed.

Lemma ld_range n m a : mem_ok m → 0 ≤ ld n m a < 256 ^ Z.of_nat n.
Proof.
  intros Hm. revert a. induction n as [|n IH]; intros a; [cbn; lia|].
  cbn [ld]. specialize (IH (a + 1)). specialize (Hm a).
  rewrite Nat2Z.inj_succ, Z.pow_succ_r by lia. lia.
Qed.

Lemma st_other n m a v x : ¬ (a ≤ x < a + Z.of_nat n) → st n m a v x = m x.
Proof.
  revert m a v. induction n as [|n IH]; intros m a v H; [done|].
  cbn [st]. rewrite IH by lia. apply upd_ne. lia.
Qed.

Lemma st_ok n m a v : mem_ok m → mem_ok (st n m a v).
Proof.
  revert m a v. induction n as [|n IH]; intros m a v H; [done|].
  cbn [st]. apply IH, mem_ok_upd; [done|]. apply u8_range.
Qed.

Lemma ld_st_same n m a v : ld n (st n m a v) a = v mod 256 ^ Z.of_nat n.
Proof.
  revert m a v. induction n as [|n IH]; intros m a v; [by rewrite Z.mod_1_r|].
  cbn [st ld]. rewrite st_other, upd_eq, IH by lia.
  rewrite Nat2Z.inj_succ, Z.pow_succ_r by lia.
  rewrite Z.rem_mul_r by lia. reflexivity.
Qed.

Lemma ld_st_disjoint n k m a b v :
  a + Z.of_nat n ≤ b ∨ b + Z.of_nat k ≤ a → ld n (st k m b v) a = ld n m a.
Proof. intros H. apply ld_ext. intros x Hx. apply st_other. lia. Qed.

Lemma ld64_st64_same m a v : 0 ≤ v < 2 ^ 64 → ld64 (st64 m a v) a = v.
Proof. intros. unfold ld64, st64. rewrite ld_st_same. apply Z.mod_small. lia. Qed.
Lemma ld64_st64_ne m a b v :
  a + 8 ≤ b ∨ b + 8 ≤ a → ld64 (st64 m b v) a = ld64 m a.
Proof. intros. apply ld_st_disjoint. lia. Qed.
Lemma st64_ok m a v : mem_ok m → mem_ok (st64 m a v).
Proof. apply st_ok. Qed.
Lemma ld64_range m a : mem_ok m → 0 ≤ ld64 m a < 2 ^ 64.
Proof. apply (ld_range 8). Qed.
Lemma st64_other m a v x : ¬ (a ≤ x < a + 8) → st64 m a v x = m x.
Proof. intros. apply st_other. lia. Qed.

#[global] Arguments ld64 : simpl never.
#[global] Arguments st64 : simpl never.
#[global] Arguments ld32 : simpl never.
#[global] Arguments st32 : simpl never.

(** ** memset, memmove *)

Lemma memset_in m dst c n x : dst ≤ x < dst + u32 n → memset m dst c n x = u8 c.
Proof. intros. unfold memset. by range_case. Qed.
Lemma memset_out m dst c n x : ¬ (dst ≤ x < dst + u32 n) → memset m dst c n x = m x.
Proof. intros. unfold memset. by range_case. Qed.
Lemma memset_ok m dst c n : mem_ok m → mem_ok (memset m dst c n).
Proof. intros H x. unfold memset. by range_case; (apply u8_range || apply H). Qed.

Lemma memset_loop_lookup m dst c n x :
  memset_loop m dst c n x = if in_range x dst (Z.of_nat n) then u8 c else m x.
Proof.
  revert m dst. induction n as [|n IH]; intros m dst; cbn [memset_loop].
  - by range_case.
  - rewrite IH. unfold upd. range_case; done.
Qed.

Lemma memset_loop_spec m dst c n x :
  memset_loop m dst c (Z.to_nat (u32 n)) x = memset m dst c n x.
Proof.
  rewrite memset_loop_lookup. unfold memset.
  rewrite Z2Nat.id by (pose proof (u32_range n); lia). done.
Qed.

Lemma ld_memset_out n m a dst c k :
  a + Z.of_nat n ≤ dst ∨ dst + u32 k ≤ a → ld n (memset m dst c k) a = ld n m a.
Proof. intros H. apply ld_ext. intros x Hx. apply memset_out. lia. Qed.

Lemma ld_memset_zero n m a dst k :
  dst ≤ a → a + Z.of_nat n ≤ dst + u32 k → ld n (memset m dst 0 k) a = 0.
Proof.
  revert a. induction n as [|n IH]; intros a H1 H2; [done|].
  cbn [ld]. rewrite memset_in, IH by lia. done.
Qed.

Lemma copy_backward_lookup m d s n x :
  s ≤ d →
  copy_backward m d s n x =
  if in_range x (d - Z.of_nat n) (Z.of_nat n) then m (s - d + x) else m x.
Proof.
  revert m d s. induction n as [|n IH]; intros m d s H; cbn [copy_backward].
  - by range_case.
  - rewrite IH by lia. unfold upd. range_case; f_equal; lia.
Qed.

Lemma copy_forward_lookup m d s n x :
  d ≤ s ∨ s + Z.of_nat n ≤ d →
  copy_forward m d s n x = if in_range x d (Z.of_nat n) then m (s - d + x) else m x.
Proof.
  revert m d s. induction n as [|n IH]; intros m d s H; cbn [copy_forward].
  - by range_case.
  - rewrite IH by lia. unfold upd. range_case; f_equal; lia.
Qed.

(** [memmove] is the simultaneous copy, whatever the overlap. *)
Lemma memmove_lookup m dst src n x :
  memmove m dst src n x = if in_range x dst (u32 n) then m (src - dst + x) else m x.
Proof.
  unfold memmove. pose proof (u32_range n).
  destruct ((src <? dst) && (dst <? src + u32 n)) eqn:E.
  - bool_arith. rewrite copy_backward_lookup by lia. rewrite Z2Nat.id by lia.
    range_case; f_equal; lia.
  - rewrite andb_false_iff in E. rewrite copy_forward_lookup.
    + rewrite Z2Nat.id by lia. done.
    + rewrite Z2Nat.id by lia. destruct E as [E|E]; bool_arith; lia.
Qed.

Lemma memmove_ok m dst src n : mem_ok m → mem_ok (memmove m dst src n).
Proof. intros H x. rewrite memmove_lookup. range_case; apply H. Qed.

Lemma memmove_out m dst src n x :
  ¬ (dst ≤ x < dst + u32 n) → memmove m dst src n x = m x.
Proof. intros. rewrite memmove_lookup. by range_case. Qed.

(** ** C strings

    [cstr m s l]: the bytes [l], none of them NUL, are stored at [s] and
    followed by a NUL. *)
Fixpoint cstr (m : mem) (s : Z) (l : list Z) : Prop :=
  match l with
  | [] => m s = 0
  | b :: l => m s = b ∧ b ≠ 0 ∧ cstr m (s + 1) l
  end.

(** [bytes_at m s l]: the bytes [l] are stored at [s]. *)
Fixpoint bytes_at (m : mem) (s : Z) (l : list Z) : Prop :=
  match l with
  | [] => True
  | b :: l => m s = b ∧ bytes_at m (s + 1) l
  end.

Lemma cstr_ext m m' s l :
  (∀ x, s ≤ x < s + Z.of_nat (length l) + 1 → m x = m' x) → cstr m s l → cstr m' s l.
Proof.
  revert s. induction l as [|b l IH]; intros s H; cbn [cstr length] in *.
  - intros <-. symmetry. apply H. lia.
  - intros (<- & Hb & Hl). rewrite <- H by lia.
    split_and!; [done..|]. apply IH; [|done]. intros x Hx. apply H. lia.
Qed.

Lemma bytes_at_ext m m' s l :
  (∀ x, s ≤ x < s + Z.of_nat (length l) → m x = m' x) → bytes_at m s l → bytes_at m' s l.
Proof.
  revert s. induction l as [|b l IH]; intros s H; cbn [bytes_at length] in *; [done|].
  intros (<- & Hl). split; [symmetry; apply H; lia|].
  apply IH; [|done]. intros x Hx. apply H. lia.
Qed.

(** Strings and byte sequences split at any point. *)
Lemma cstr_app m s l1 l2 :
  cstr m s (l1 ++ l2) ↔ bytes_at m s l1 ∧ Forall (λ b, b ≠ 0) l1 ∧ cstr m (s + Z.of_nat (length l1)) l2.
Proof.
  revert s. induction l1 as [|b l1 IH]; intros s; cbn [app cstr bytes_at length].
  - rewrite Z.add_0_r. naive_solver.
  - rewrite IH, Forall_cons.
    replace (s + 1 + Z.of_nat (length l1)) with (s + Z.of_nat (S (length l1))) by lia.
    naive_solver.
Qed.

Lemma cstr_intro m s l : bytes_at m s l → Forall (λ b, b ≠ 0) l → m (s + Z.of_nat (length l)) = 0 → cstr m s l.
Proof. intros. rewrite <- (app_nil_r l), cstr_app. done. Qed.

Lemma bytes_at_split m a l1 l2 :
  bytes_at m a (l1 ++ l2) ↔ bytes_at m a l1 ∧ bytes_at m (a + Z.of_nat (length l1)) l2.
Proof.
  revert a. induction l1 as [|b l1 IH]; intros a; cbn [app bytes_at length]; [rewrite Z.add_0_r; naive_solver|].
  rewrite IH. replace (a + 1 + Z.of_nat (length l1)) with (a + Z.of_nat (S (length l1))) by lia. naive_solver.
Qed.

Lemma strlen_cstr m s l fuel :
  cstr m s l → (length l < fuel)%nat → strlen fuel m s = Done (Z.of_nat (length l)).
Proof.
  revert m s fuel. induction l as [|b l IH]; intros m s [|fuel] Hl Hf;
    cbn [cstr strlen length] in *; try lia.
  - by rewrite Hl.
  - destruct Hl as (-> & Hb & Hl). apply Z.eqb_neq in Hb as ->.
    rewrite IH by (done || lia). f_equal. lia.
Qed.

(** The order [strcmp] decides on byte lists without NUL. *)
Fixpoint lex_diff (l1 l2 : list Z) : Z :=
  match l1, l2 with
  | [], [] => 0
  | [], b :: _ => - b
  | a :: _, [] => a
  | a :: l1, b :: l2 => if a =? b then lex_diff l1 l2 else a - b
  end.

Lemma strcmp_cstr m p q l1 l2 fuel :
  cstr m p l1 → cstr m q l2 → (length l1 < fuel)%nat →
  strcmp fuel m p q = Done (lex_diff l1 l2).
Proof.
  revert p q l2 fuel. induction l1 as [|a l1 IH]; intros p q l2 [|fuel] H1 H2 Hf;
    cbn [cstr strcmp length lex_diff] in *; try lia.
  - rewrite H1. cbn. destruct l2; cbn in H2.
    + by rewrite H2.
    + destruct H2 as (-> & ? & ?). done.
  - destruct H1 as (-> & Ha & H1). apply Z.eqb_neq in Ha as Ha'. rewrite Ha'.
    destruct l2 as [|b l2]; cbn in H2.
    + rewrite H2. cbn. f_equal. lia.
    + destruct H2 as (-> & Hb & H2). apply Z.eqb_neq in Hb as ->. cbn.
      destruct (a =? b); [apply IH; done || lia|done].
Qed.

Lemma lex_diff_eq l1 l2 :
  Forall (λ b, 0 < b) l1 → Forall (λ b, 0 < b) l2 → lex_diff l1 l2 = 0 ↔ l1 = l2.
Proof.
  intros H1. revert l2. induction H1 as [|a l1 Ha H1 IH]; intros [|b l2] H2; cbn; try done.
  - inversion H2; subst. split; [lia|done].
  - split; [lia|done].
  - inversion H2; subst. destruct (Z.eqb_spec a b) as [->|].
    + rewrite IH by done. split; congruence.
    + split; [lia|congruence].
Qed.

Lemma strchr_cstr m s l c fuel :
  cstr m s l → (length l < fuel)%nat → s ≠ 0 →
  strchr fuel m s c =
  Done (match list_find (c =.) l with Some (i, _) => s + Z.of_nat i | None => 0 end).
Proof.
  intros H Hf _. revert s fuel H Hf.
  induction l as [|b l IH]; intros s [|fuel] H Hf; cbn [cstr strchr length] in *; try lia.
  - by rewrite H.
  - destruct H as (-> & Hb & H). apply Z.eqb_neq in Hb as ->. cbn [list_find].
    destruct (Z.eqb_spec b c) as [->|Hne].
    + rewrite decide_True by done. f_equal. lia.
    + rewrite decide_False by congruence. rewrite IH by (done || lia).
      destruct (list_find (c =.) l) as [[i y]|]; cbn; [f_equal; lia|done].
Qed.

(** The last occurrence of a character. *)
Fixpoint last_index (c : Z) (l : list Z) : option nat :=
  match l with
  | [] => None
  | b :: l =>
      match last_index c l with Some i => Some (S i) | None => if b =? c then Some O else None end
  end.
Lemma last_index_lt c l i : last_index c l = Some i → (i < length l)%nat.
Proof.
  revert i. induction l as [|b l IH]; intros i; cbn; [done|].
  destruct (last_index c l) as [j|]; [intros [= <-]; specialize (IH j eq_refl); lia|].
  destruct (b =? c); intros [= <-]. lia.
Qed.

Lemma strrchr_cstr m s l c fuel :
  cstr m s l → (length l < fuel)%nat →
  strrchr fuel m s c = Done (match last_index c l with Some i => s + Z.of_nat i | None => 0 end).
Proof.
  unfold strrchr. generalize 0 as ans. revert s fuel.
  induction l as [|b l IH]; intros s [|fuel] ans H Hf; cbn [cstr strrchr_loop length last_index] in *; try lia.
  - by rewrite H.
  - destruct H as (-> & Hb & H). apply Z.eqb_neq in Hb as ->. rewrite IH by (done || lia).
    destruct (last_index c l) as [i|]; [f_equal; lia|]. destruct (b =? c); [f_equal; lia|done].
Qed.

Lemma zero_fill_lookup m s n x :
  zero_fill m s n x = if in_range x s (Z.of_nat n) then 0 else m x.
Proof.
  revert m s. induction n as [|n IH]; intros m s; cbn [zero_fill].
  - by range_case.
  - rewrite IH. unfold upd. by range_case.
Qed.

Lemma strncpy_out m s t n x : ¬ (s ≤ x < s + Z.of_nat n) → strncpy m s t n x = m x.
Proof.
  revert m s t. induction n as [|n IH]; intros m s t H; cbn [strncpy]; [done|].
  destruct (m t =? 0).
  - rewrite zero_fill_lookup, upd_ne by lia. by range_case.
  - rewrite IH, upd_ne by lia. done.
Qed.

Lemma bytes_at_zero m s n :
  (∀ x, s ≤ x < s + Z.of_nat n → m x = 0) → bytes_at m s (replicate n 0).
Proof.
  revert s. induction n as [|n IH]; intros s H; cbn; [done|].
  split; [apply H; lia|]. apply IH. intros. apply H. lia.
Qed.

(** [strncpy] writes exactly [n] bytes: the string cut at [n], zero-padded. *)
Lemma strncpy_bytes m s t l n :
  cstr m t l →
  s + Z.of_nat n ≤ t ∨ t + Z.of_nat (length l) + 1 ≤ s →
  bytes_at (strncpy m s t n) s (take n l ++ replicate (n - length l) 0).
Proof.
  revert m s t l. induction n as [|n IH]; intros m s t l Hl Hd; [done|].
  cbn [strncpy]. destruct l as [|b l]; cbn [cstr length] in *.
  - rewrite Hl. cbn. split.
    + rewrite zero_fill_lookup, upd_eq. by range_case.
    + apply bytes_at_zero.
      intros x Hx. rewrite zero_fill_lookup. by range_case.
  - destruct Hl as (-> & Hb & Hl). apply Z.eqb_neq in Hb as ->. cbn. split.
    + rewrite strncpy_out, upd_eq by lia. done.
    + apply IH; [|lia]. eapply cstr_ext; [|exact Hl].
      intros x Hx. rewrite upd_ne by lia. done.
Qed.

Lemma safestrcpy_loop_out m s t n x :
  ¬ (s ≤ x ≤ s + Z.of_nat n) → safestrcpy_loop m s t n x = m x.
Proof.
  revert m s t. induction n as [|n IH]; intros m s t H; cbn [safestrcpy_loop].
  - apply upd_ne. lia.
  - destruct (m t =? 0).
    + rewrite !upd_ne by lia. done.
    + rewrite IH, upd_ne by lia. done.
Qed.

Lemma safestrcpy_loop_cstr m s t l n :
  cstr m t l →
  s + Z.of_nat n < t ∨ t + Z.of_nat (length l) + 1 ≤ s →
  cstr (safestrcpy_loop m s t n) s (take n l).
Proof.
  revert m s t l. induction n as [|n IH]; intros m s t l Hl Hd; cbn [safestrcpy_loop].
  - cbn. apply upd_eq.
  - destruct l as [|b l]; cbn [cstr length] in *.
    + rewrite Hl. cbn. rewrite upd_ne, upd_eq by lia. done.
    + destruct Hl as (-> & Hb & Hl). pose proof Hb as Hb'.
      apply Z.eqb_neq in Hb' as ->. cbn. split_and!; [|done|].
      * rewrite safestrcpy_loop_out, upd_eq by lia. done.
      * apply IH; [|lia]. eapply cstr_ext; [|exact Hl].
        intros x Hx. rewrite upd_ne by lia. done.
Qed.

Lemma CopyCharToWchar_out m dst src n x :
  ¬ (dst ≤ x < dst + 2 * Z.of_nat n) → CopyCharToWchar m dst src n x = m x.
Proof.
  revert m dst src. induction n as [|n IH]; intros m dst src H; cbn; [done|].
  rewrite IH, !upd_ne by lia. done.
Qed.

Lemma CopyWcharToChar_out m dst src n x :
  ¬ (dst ≤ x < dst + Z.of_nat n) → CopyWcharToChar m dst src n x = m x.
Proof.
  revert m dst src. induction n as [|n IH]; intros m dst src H; cbn; [done|].
  rewrite IH, !upd_ne by lia. done.
Qed.

(** Byte [i] of the destination of either conversion. *)
Lemma CopyCharToWchar_lookup m dst src n i :
  (dst + 2 * Z.of_nat n ≤ src ∨ src + Z.of_nat n ≤ dst) → 0 ≤ i < Z.of_nat n →
  CopyCharToWchar m dst src n (dst + 2 * i) = m (src + i) ∧
  CopyCharToWchar m dst src n (dst + 2 * i + 1) = 0.
Proof.
  revert m dst src i. induction n as [|n IH]; intros m dst src i Hd Hi; [lia|].
  cbn [CopyCharToWchar]. destruct (decide (i = 0)) as [->|Hi0].
  - rewrite !CopyCharToWchar_out by lia. unfold upd. split; range_case; f_equal; lia.
  - specialize (IH (upd (upd m (dst + 1) 0) dst (upd m (dst + 1) 0 src))
      (dst + 2) (src + 1) (i - 1) ltac:(lia) ltac:(lia)) as [IH1 IH2].
    replace (dst + 2 + 2 * (i - 1)) with (dst + 2 * i) in IH1, IH2 by lia.
    rewrite IH1, IH2, !upd_ne by lia. split; [f_equal; lia|done].
Qed.

Lemma CopyWcharToChar_lookup m dst src n i :
  (dst + Z.of_nat n ≤ src ∨ src + 2 * Z.of_nat n ≤ dst) → 0 ≤ i < Z.of_nat n →
  CopyWcharToChar m dst src n (dst + i) = m (src + 2 * i).
Proof.
  revert m dst src i. induction n as [|n IH]; intros m dst src i Hd Hi; [lia|].
  cbn [CopyWcharToChar]. destruct (decide (i = 0)) as [->|Hi0].
  - rewrite CopyWcharToChar_out by lia. unfold upd. range_case; f_equal; lia.
  - specialize (IH (upd m dst (m src)) (dst + 1) (src + 2) (i - 1) ltac:(lia) ltac:(lia)).
    replace (dst + 1 + (i - 1)) with (dst + i) in IH by lia.
    rewrite IH, upd_ne by lia. f_equal. lia.
Qed.

(** The wide characters [l] at [a]. *)
Fixpoint wide (m : mem) (a : Z) (l : list Z) : Prop :=
  match l with [] => True | c :: l => i32 (ld32 m a) = c ∧ wide m (a + 4) l end.

(** [wcsncmp] compares up to [len] characters or the end of the first string:
    whatever follows in the second one, the strings count as equal. *)
Lemma wcsncmp_prefix m : ∀ l fuel s1 s2 len,
  wide m s1 (l ++ [0]) → wide m s2 l → Forall (λ c, c ≠ 0) l → (length l < fuel)%nat →
  Z.of_nat (length l) ≤ len < 2 ^ 31 → wcsncmp fuel m s1 s2 len = Done 0.
Proof.
  induction l as [|c l IH]; intros [|fuel] s1 s2 len H1 H2 Hl Hf Hlen; cbn [length] in *; try lia; cbn [wcsncmp].
  - destruct H1 as [-> _]. by destruct (len =? 0).
  - destruct H1 as [-> H1], H2 as [-> H2]. apply Forall_cons in Hl as [Hc Hl].
    rewrite (proj2 (Z.eqb_neq len 0)), (proj2 (Z.eqb_neq c 0)) by (done || lia).
    rewrite Z.sub_diag. change (i32 0 =? 0) with true. cbn [negb]. rewrite i32_small by lia.
    apply IH; [done..|lia|lia].
Qed.
