(* ===== verification/KAlloc.v ===== *)
(** * The physical page allocator: kernel/memory/MemAllocator.cpp

    Free pages form an intrusive singly linked list: the first eight bytes of
    a free page hold the address of the next one.  The state [kmem] is the
    memory together with the allocator's fields.  The allocator runs under its
    spin lock, so one operation is one atomic step here (Locks.v models the
    lock itself).  The class [PageAllocator] is what the page allocator
    promises to the buddy allocator and to the page tables. *)
From S2P Require Import Prelude Mem.

(** riscv.hpp *)
Definition PGSIZE : Z := 4096.
Definition PGROUNDUP (sz : Z) : Z := Z.land (u64 (sz + PGSIZE - 1)) (Z.lnot (PGSIZE - 1)).
Definition PGROUNDDOWN (a : Z) : Z := Z.land a (Z.lnot (PGSIZE - 1)).

(** memlayout.hpp *)
Definition PHYSTOP : Z := 0x80600000.
(** The kernel image is linked above the firmware at this address. *)
Definition RUSTSBI_BASE : Z := 0x80000000.

(** The allocator's fields next to the memory they point into. *)
Record kmem := Kmem {
  km_mem : mem;
  freeList : Z;
  npage : Z;
  total_page_ : Z;
}.

(** [p] is a page the VM code can put in a page table entry. *)
Definition page_ok (p : Z) : Prop := p mod PGSIZE = 0 ∧ 0 < p ∧ p + PGSIZE ≤ 2 ^ 56.

Definition same_outside (p : Z) (m m' : mem) : Prop :=
  ∀ x, ¬ (p ≤ x < p + PGSIZE) → m' x = m x.

(** The interface of a page allocator.  [pg_inv s l]: the pages [l] are free,
    in the order in which they will be handed out. *)
Class PageAllocator (S : Type) := {
  pg_alloc : M S Z;
  pg_free : Z → M S unit;
  pg_mem : S → mem;
  pg_set_mem : mem → S → S;
  pg_inv : S → list Z → Prop;
  pg_managed : Z → Prop;
  pg_get_set : ∀ m s, pg_mem (pg_set_mem m s) = m;
  pg_inv_pages : ∀ s l, pg_inv s l → NoDup l ∧ Forall (λ p, page_ok p ∧ pg_managed p) l;
  pg_inv_mem : ∀ s l, pg_inv s l → mem_ok (pg_mem s);
  pg_inv_set_mem : ∀ s l m,
    pg_inv s l → mem_ok m →
    (∀ p x, p ∈ l → p ≤ x < p + PGSIZE → m x = pg_mem s x) →
    pg_inv (pg_set_mem m s) l;
  pg_alloc_none : ∀ s, pg_inv s [] → pg_alloc s = Done (0, s);
  pg_alloc_some : ∀ s p l, pg_inv s (p :: l) →
    ∃ s', pg_alloc s = Done (p, s') ∧ pg_inv s' l ∧ same_outside p (pg_mem s) (pg_mem s');
  pg_free_ok : ∀ s p l, pg_inv s l → page_ok p → pg_managed p → p ∉ l →
    ∃ s', pg_free p s = Done (tt, s') ∧ pg_inv s' (p :: l) ∧ same_outside p (pg_mem s) (pg_mem s');
}.

Module MemAllocator.
Section allocator.
(** [end]: the first address after the kernel image, set by the linker. *)
Context (kend : Z).

Definition alloc : M kmem Z := λ s,
  let r := freeList s in
  if r =? 0 then Done (r, s)
  else Done (r, Kmem (memset (km_mem s) r 5 PGSIZE) (ld64 (km_mem s) r)
                     (i32 (npage s - 1)) (total_page_ s)).

Definition free (pa : Z) : M kmem unit := λ s,
  if negb (pa mod PGSIZE =? 0) || (pa <? kend) || (PHYSTOP <=? pa)
  then Panic "kfree"
  else Done (tt, Kmem (st64 (memset (km_mem s) pa 5 PGSIZE) pa (freeList s)) pa
                      (i32 (npage s + 1)) (total_page_ s)).

(** [for (; p + PGSIZE <= paEnd; p += PGSIZE) { total_page_++; free(p); }] *)
Fixpoint freeRange_loop (fuel : nat) (p paEnd : Z) : M kmem unit :=
  match fuel with
  | O => λ _, NoFuel
  | S fuel =>
      if p + PGSIZE <=? paEnd then
        modify (λ s, Kmem (km_mem s) (freeList s) (npage s) (i32 (total_page_ s + 1)));;
        free p;;
        freeRange_loop fuel (p + PGSIZE) paEnd
      else mret tt
  end.

Definition freeRange (fuel : nat) (paStart paEnd : Z) : M kmem unit :=
  freeRange_loop fuel (PGROUNDUP paStart) paEnd.

Definition init (fuel : nat) : M kmem unit :=
  modify (λ s, Kmem (km_mem s) (freeList s) 0 (total_page_ s));;
  freeRange fuel kend PHYSTOP.

(** [npage * PGSIZE] is an [int] product converted to [uint64_t]. *)
Definition FreeMemOfBytes (s : kmem) : Z := u64 (i32 (npage s * PGSIZE)).
Definition TotalMemOfBytes (s : kmem) : Z := u64 (i32 (total_page_ s * PGSIZE)).

(** ** The free list *)

(** [chain m h l]: following the next pointers from [h] visits [l]. *)
Fixpoint chain (m : mem) (h : Z) (l : list Z) : Prop :=
  match l with
  | [] => h = 0
  | p :: l => h = p ∧ chain m (ld64 m p) l
  end.

(** A page the allocator accepts. *)
Definition managed (p : Z) : Prop := kend ≤ p < PHYSTOP.

Record inv (s : kmem) (l : list Z) : Prop := {
  inv_mem : mem_ok (km_mem s);
  inv_chain : chain (km_mem s) (freeList s) l;
  inv_nodup : NoDup l;
  inv_pages : Forall (λ p, page_ok p ∧ managed p) l;
  inv_npage : npage s = Z.of_nat (length l);
}.

(** ** Lemmas *)

Lemma chain_ext m m' h l :
  (∀ p x, p ∈ l → p ≤ x < p + 8 → m' x = m x) → chain m h l → chain m' h l.
Proof.
  revert h. induction l as [|p l IH]; intros h H; [done|]. intros [-> Hc]. split; [done|].
  replace (ld64 m' p) with (ld64 m p).
  - apply IH; [|done]. intros q x Hq Hqx. apply (H q); [by right|done].
  - apply ld_ext. intros x Hx. symmetry. apply (H p); [by left|lia].
Qed.

(** Two different aligned pages do not overlap. *)
Lemma pages_disjoint p q x :
  page_ok p → page_ok q → p ≠ q → p ≤ x < p + PGSIZE → ¬ (q ≤ x < q + PGSIZE).
Proof. unfold page_ok, PGSIZE. intros (Hp & _) (Hq & _) Hne Hx Hx'. apply Hne. dlia. Qed.

Lemma pages_length l :
  NoDup l → Forall (λ p, page_ok p ∧ managed p) l → Z.of_nat (length l) < 2 ^ 30.
Proof.
  intros Hnd Hok.
  assert (length l ≤ Z.to_nat 525824)%nat; [|lia].
  assert (NoDup ((λ p, p / PGSIZE) <$> l)) as Hnd'.
  { apply NoDup_fmap_2_strong; [|done]. intros p q Hp Hq Heq.
    rewrite Forall_forall in Hok. destruct (Hok p Hp) as [[] ?], (Hok q Hq) as [[] ?].
    unfold PGSIZE in *. dlia. }
  rewrite <- (length_fmap (λ p, p / PGSIZE) l), <- (length_seqZ 0 525824).
  apply submseteq_length, NoDup_submseteq; [done|].
  intros q (p & -> & Hp)%list_elem_of_fmap.
  rewrite Forall_forall in Hok. destruct (Hok p Hp) as [(? & ? & ?) [? ?]].
  apply elem_of_seqZ. unfold PGSIZE, PHYSTOP in *. dlia.
Qed.

Lemma inv_set_mem s l m :
  inv s l → mem_ok m →
  (∀ p x, p ∈ l → p ≤ x < p + PGSIZE → m x = km_mem s x) →
  inv (Kmem m (freeList s) (npage s) (total_page_ s)) l.
Proof.
  intros [] Hm Hag. split; cbn; try done.
  eapply chain_ext; [|done]. intros p x Hp Hx. apply (Hag p); [done|]. unfold PGSIZE. lia.
Qed.

Lemma alloc_none s : inv s [] → alloc s = Done (0, s).
Proof. intros [_ Hc _ _ _]. cbn in Hc. unfold alloc. by rewrite Hc. Qed.

Lemma alloc_some s p l :
  inv s (p :: l) →
  ∃ s', alloc s = Done (p, s') ∧ inv s' l ∧ same_outside p (km_mem s) (km_mem s') ∧
        (∀ x, p ≤ x < p + PGSIZE → km_mem s' x = 5).
Proof.
  intros [Hm [Hh Hc] Hnd Hok Hn]. unfold alloc. rewrite Hh.
  pose proof (pages_length _ Hnd Hok) as Hlen.
  apply NoDup_cons in Hnd as [Hp Hnd]. apply Forall_cons in Hok as [[Hpok Hpm] Hok].
  destruct (Z.eqb_spec p 0) as [->|_]; [destruct Hpok; lia|].
  eexists; split; [done|]. cbn [length] in *.
  assert (u32 PGSIZE = PGSIZE) as Hsz by done.
  split_and!; [split; cbn|..].
  - by apply memset_ok.
  - eapply chain_ext; [|done]. intros q x Hq Hx. apply memset_out. rewrite Hsz.
    rewrite Forall_forall in Hok. apply (pages_disjoint q p); [apply Hok, Hq|done|by intros ->|].
    unfold PGSIZE. lia.
  - done.
  - done.
  - rewrite Hn, i32_small; lia.
  - intros x Hx. apply memset_out. by rewrite Hsz.
  - intros x Hx. cbn. rewrite memset_in by (rewrite Hsz; lia). done.
Qed.

Lemma free_ok s p l :
  inv s l → page_ok p → managed p → p ∉ l →
  ∃ s', free p s = Done (tt, s') ∧ inv s' (p :: l) ∧ same_outside p (km_mem s) (km_mem s').
Proof.
  intros [Hm Hc Hnd Hok Hn] Hpok Hpm Hpl. unfold free.
  assert (negb (p mod PGSIZE =? 0) || (p <? kend) || (PHYSTOP <=? p) = false) as ->.
  { destruct Hpok as (-> & _), Hpm. rewrite !orb_false_iff. cbn.
    split_and!; [done|apply Z.ltb_ge; lia|apply Z.leb_gt; lia]. }
  eexists; split; [done|].
  assert (u32 PGSIZE = PGSIZE) as Hsz by done.
  assert (0 ≤ freeList s < 2 ^ 64) as Hh.
  { destruct l as [|q l]; [rewrite Hc; lia|]. destruct Hc as [-> _].
    apply Forall_cons in Hok as [[(? & ? & ?) _] _]. unfold PGSIZE in *. lia. }
  assert (NoDup (p :: l)) as Hnd' by (by constructor).
  assert (Forall (λ p, page_ok p ∧ managed p) (p :: l)) as Hok' by (by constructor).
  pose proof (pages_length _ Hnd' Hok') as Hlen. cbn [length] in *.
  assert (∀ x, ¬ (p ≤ x < p + PGSIZE) →
    st64 (memset (km_mem s) p 5 PGSIZE) p (freeList s) x = km_mem s x) as Hout.
  { intros x Hx. rewrite st64_other by (unfold PGSIZE in *; lia).
    apply memset_out. by rewrite Hsz. }
  split_and!; [split; cbn|..]; try done.
  - by apply st64_ok, memset_ok.
  - split; [done|]. rewrite ld64_st64_same by done.
    eapply chain_ext; [|done]. intros q x Hq Hx. apply Hout.
    rewrite Forall_forall in Hok. apply (pages_disjoint q p); [apply Hok, Hq|done|by intros ->|].
    unfold PGSIZE. lia.
  - rewrite Hn, i32_small; lia.
Qed.

Lemma free_panics s p :
  p mod PGSIZE ≠ 0 ∨ ¬ managed p → free p s = Panic "kfree".
Proof.
  intros H. unfold free.
  assert (negb (p mod PGSIZE =? 0) || (p <? kend) || (PHYSTOP <=? p) = true) as ->; [|done].
  rewrite !orb_true_iff, negb_true_iff, Z.eqb_neq, Z.ltb_lt, Z.leb_le.
  unfold managed in H. lia.
Qed.

#[export] Program Instance page_allocator : PageAllocator kmem := {|
  pg_alloc := alloc;
  pg_free := free;
  pg_mem := km_mem;
  pg_set_mem m s := Kmem m (freeList s) (npage s) (total_page_ s);
  pg_inv := inv;
  pg_managed := managed;
|}.
Next Obligation. done. Qed.
Next Obligation. by intros s l []. Qed.
Next Obligation. by intros s l []. Qed.
Next Obligation. apply inv_set_mem. Qed.
Next Obligation. apply alloc_none. Qed.
Next Obligation.
  intros s p l H. destruct (alloc_some s p l H) as (s' & ? & ? & ? & _). eauto.
Qed.
Next Obligation. apply free_ok. Qed.

(** The pages [p, p + PGSIZE, ...], [n] of them. *)
Fixpoint pages (p : Z) (n : nat) : list Z :=
  match n with O => [] | S n => p :: pages (p + PGSIZE) n end.

Lemma length_pages p n : length (pages p n) = n.
Proof. revert p. induction n as [|n IH]; intros p; cbn; [done|]. by rewrite IH. Qed.

Lemma PGROUNDUP_spec a :
  0 ≤ a < 2 ^ 63 → PGROUNDUP a mod PGSIZE = 0 ∧ a ≤ PGROUNDUP a < a + PGSIZE.
Proof.
  intros Ha. unfold PGROUNDUP. change (Z.lnot (PGSIZE - 1)) with (- 2 ^ 12).
  rewrite land_lnot_ones, u64_small by (unfold PGSIZE; lia).
  change (2 ^ 12) with 4096. unfold PGSIZE. dlia.
Qed.

Lemma PGROUNDDOWN_spec a : PGROUNDDOWN a = a - a mod PGSIZE.
Proof. unfold PGROUNDDOWN. by apply (land_lnot_ones a 12). Qed.

Lemma freeRange_loop_spec n fuel p b s l :
  inv s l → page_ok p → kend ≤ p → b ≤ PHYSTOP → (∀ q, q ∈ l → q < p) →
  n = Z.to_nat ((b - p) / PGSIZE) → (n < fuel)%nat →
  0 ≤ total_page_ s → total_page_ s + Z.of_nat n < 2 ^ 31 →
  ∃ s', freeRange_loop fuel p b s = Done (tt, s') ∧ inv s' (rev (pages p n) ++ l) ∧
        total_page_ s' = total_page_ s + Z.of_nat n.
Proof.
  revert fuel p s l. induction n as [|n IH]; intros fuel p s l Hs Hp Hk Hb Hl Hn Hf Ht Htb;
    destruct fuel as [|fuel]; try lia; cbn [freeRange_loop].
  - destruct (Z.leb_spec (p + PGSIZE) b) as [Hle|Hle].
    { exfalso. unfold PGSIZE in *. enough (1 ≤ (b - p) / 4096) by lia. dlia. }
    exists s. split_and!; [done| |lia]. by cbn.
  - destruct (Z.leb_spec (p + PGSIZE) b) as [Hle|Hle].
    2: { exfalso. unfold PGSIZE in *. enough ((b - p) / 4096 < 1) by lia. dlia. }
    set (s1 := Kmem (km_mem s) (freeList s) (npage s) (i32 (total_page_ s + 1))).
    assert (inv s1 l) as Hs1 by (destruct Hs; by split).
    destruct (free_ok s1 p l) as (s2 & Hfree & Hs2 & _); [done|done| |..].
    { unfold managed, PGSIZE in *. lia. }
    { intros Hin%Hl. lia. }
    assert (total_page_ s2 = total_page_ s + 1) as Ht2.
    { revert Hfree. unfold free. destruct (_ || _ : bool); [done|]. intros [= <-]. cbn.
      apply i32_small. lia. }
    destruct (IH fuel (p + PGSIZE) s2 (p :: l)) as (s' & Hloop & Hs' & Ht'); try lia.
    + done.
    + unfold page_ok, PGSIZE, PHYSTOP in *. dlia.
    + unfold PGSIZE. lia.
    + unfold PGSIZE. intros q [->|Hq%Hl]%elem_of_cons; lia.
    + unfold PGSIZE in *. replace (b - (p + 4096)) with (b - p + (-1) * 4096) by lia.
      rewrite Z.div_add by lia. lia.
    + exists s'. split_and!; [|by cbn; rewrite <- app_assoc|lia].
      unfold mbind, M_bind, modify. fold s1. by rewrite Hfree.
Qed.
End allocator.
End MemAllocator.

(** ** Properties *)

(** Claim C29. At boot, [MemAllocator::init] frees every whole page between the
    end of the kernel image (linked above RUSTSBI_BASE) and PHYSTOP: starting from zeroed fields, the free
    list then holds exactly these pages, the highest one first, both page
    counters equal their number and no call panics. *)
Theorem init_frees_all_pages (kend : Z) (m : mem) (n : nat) (fuel : nat) :
  RUSTSBI_BASE ≤ kend ≤ PHYSTOP → mem_ok m →
  n = Z.to_nat ((PHYSTOP - PGROUNDUP kend) / PGSIZE) → (n < fuel)%nat →
  ∃ s', MemAllocator.init kend fuel (Kmem m 0 0 0) = Done (tt, s') ∧
        MemAllocator.inv kend s' (rev (MemAllocator.pages (PGROUNDUP kend) n)) ∧
        MemAllocator.TotalMemOfBytes s' = PGSIZE * Z.of_nat n ∧
        MemAllocator.FreeMemOfBytes s' = PGSIZE * Z.of_nat n.
Proof.
  intros Hk Hm Hn Hf.
  destruct (MemAllocator.PGROUNDUP_spec kend) as [Hal Hup]; [unfold RUSTSBI_BASE, PHYSTOP in *; lia|].
  unfold RUSTSBI_BASE in *. assert (Z.of_nat n ≤ 1536) as Hn'.
  { subst n. unfold PHYSTOP, PGSIZE in *. dlia. }
  destruct (MemAllocator.freeRange_loop_spec kend n fuel (PGROUNDUP kend) PHYSTOP (Kmem m 0 0 0) [])
    as (s' & Hr & Hi & Ht); cbn [total_page_]; try done; try lia.
  - split; cbn; try done. by constructor.
  - unfold page_ok, PHYSTOP, PGSIZE in *. lia.
  - intros q Hq. by apply not_elem_of_nil in Hq.
  - rewrite app_nil_r in Hi. exists s'. split_and!; [done|done|..];
      unfold MemAllocator.TotalMemOfBytes, MemAllocator.FreeMemOfBytes.
    + rewrite Ht. cbn [total_page_]. unfold PGSIZE. rewrite i32_small, u64_small; lia.
    + destruct Hi as [_ _ _ _ ->]. rewrite length_rev, MemAllocator.length_pages.
      unfold PGSIZE. rewrite i32_small, u64_small; lia.
Qed.

(** Claim C15. [alloc] and [free] implement a stack of free pages: [alloc]
    returns the page freed last, filled with the junk byte 5, or a null
    pointer exactly when no page is free; [free] accepts exactly the aligned
    pages of the managed range and panics on any other address; neither
    touches memory outside that page, and the invariant is preserved. *)
Theorem alloc_free_refine_stack (kend : Z) (s : kmem) (l : list Z) :
  MemAllocator.inv kend s l →
  (l = [] → MemAllocator.alloc s = Done (0, s)) ∧
  (∀ p l', l = p :: l' → ∃ s', MemAllocator.alloc s = Done (p, s') ∧
     MemAllocator.inv kend s' l' ∧ same_outside p (km_mem s) (km_mem s') ∧
     (∀ x, p ≤ x < p + PGSIZE → km_mem s' x = 5)) ∧
  (∀ p, page_ok p → MemAllocator.managed kend p → p ∉ l →
     ∃ s', MemAllocator.free kend p s = Done (tt, s') ∧
     MemAllocator.inv kend s' (p :: l) ∧ same_outside p (km_mem s) (km_mem s') ∧
     ∃ s'', MemAllocator.alloc s' = Done (p, s'') ∧ MemAllocator.inv kend s'' l) ∧
  (∀ p, p mod PGSIZE ≠ 0 ∨ ¬ MemAllocator.managed kend p →
     MemAllocator.free kend p s = Panic "kfree").
Proof.
  intros Hs. split_and!.
  - intros ->. by eapply MemAllocator.alloc_none.
  - intros p l' ->. by apply MemAllocator.alloc_some.
  - intros p Hp Hm Hl. destruct (MemAllocator.free_ok kend s p l) as (s' & ? & Hs' & ?); try done.
    exists s'. split_and!; [done..|].
    destruct (MemAllocator.alloc_some kend s' p l Hs') as (s'' & ? & ? & _). eauto.
  - intros p. apply MemAllocator.free_panics.
Qed.
