(* ===== verification/Vm.v ===== *)
(** * Page tables and user memory: kernel/memory/VmManager.cpp

    Sv39 page tables in physical memory, over any [PageAllocator].  A page
    table pointer is the address of its root page; a PTE pointer is the address
    of the entry.  Unbounded loops take fuel; the loops over the 512 entries of
    a table recurse on the entry count. *)
From S2P Require Import Prelude Mem KAlloc.

(** riscv.hpp *)
Definition PTE_V : Z := 1.
Definition PTE_R : Z := 2.
Definition PTE_W : Z := 4.
Definition PTE_X : Z := 8.
Definition PTE_U : Z := 16.
Definition PA2PTE (pa : Z) : Z := u64 (Z.shiftl (Z.shiftr pa 12) 10).
Definition PTE2PA (pte : Z) : Z := u64 (Z.shiftl (Z.shiftr pte 10) 12).
Definition PTE_FLAGS (pte : Z) : Z := Z.land pte 0x3FF.
Definition PXSHIFT (level : Z) : Z := 12 + 9 * level.
Definition PX (level va : Z) : Z := Z.land (Z.shiftr va (PXSHIFT level)) 0x1FF.
Definition MAXVA : Z := Z.shiftl 1 (9 + 9 + 9 + 12 - 1).
Definition SATP_SV39 : Z := Z.shiftl 8 60.
Definition MAKE_SATP (pagetable : Z) : Z := Z.lor SATP_SV39 (Z.shiftr pagetable 12).
(** memlayout.hpp *)
Definition TRAMPOLINE : Z := MAXVA - PGSIZE.
Definition TRAPFRAME : Z := TRAMPOLINE - PGSIZE.

(** [a & b] as a C condition. *)
Definition has (a b : Z) : bool := negb (Z.land a b =? 0).

Section vm.
Context {S : Type} `{PA : PageAllocator S}.

Definition rd64 (a : Z) : M S Z := gets (λ s, ld64 (pg_mem s) a).
Definition wr64 (a v : Z) : M S unit := modify (λ s, pg_set_mem (st64 (pg_mem s) a v) s).
Definition wr8 (a v : Z) : M S unit := modify (λ s, pg_set_mem (upd (pg_mem s) a v) s).
Definition kmemset (a c n : Z) : M S unit :=
  modify (λ s, pg_set_mem (memset (pg_mem s) a c n) s).
Definition kmemmove (d s n : Z) : M S unit :=
  modify (λ st, pg_set_mem (memmove (pg_mem st) d s n) st).

(** The loop [for (level = 2; level > 0; level--)] of [walk]: [levels] table
    levels are left; the address of the level-0 entry, or 0. *)
Fixpoint walk_loop (levels : nat) (pagetable va : Z) (alloc : bool) : M S Z :=
  match levels with
  | O => mret (pagetable + 8 * PX 0 va)
  | Datatypes.S n =>
      let pte := pagetable + 8 * PX (Z.of_nat levels) va in
      e ← rd64 pte;
      if has e PTE_V then walk_loop n (PTE2PA e) va alloc
      else if negb alloc then mret 0
      else
        p ← pg_alloc;
        if p =? 0 then mret 0
        else
          kmemset p 0 PGSIZE;;
          wr64 pte (Z.lor (PA2PTE p) PTE_V);;
          walk_loop n p va alloc
  end.

Definition walk (pagetable va : Z) (alloc : bool) : M S Z :=
  if MAXVA <=? va then panic "walk" else walk_loop 2 pagetable va alloc.

Fixpoint mappages_loop (fuel : nat) (pagetable a last pa perm : Z) : M S Z :=
  match fuel with
  | O => λ _, NoFuel
  | Datatypes.S fuel =>
      pte ← walk pagetable a true;
      if pte =? 0 then mret (-1)
      else
        e ← rd64 pte;
        if has e PTE_V then panic "remap"
        else
          wr64 pte (Z.lor (Z.lor (PA2PTE pa) perm) PTE_V);;
          if a =? last then mret 0
          else mappages_loop fuel pagetable (u64 (a + PGSIZE)) last (u64 (pa + PGSIZE)) perm
  end.

Definition mappages (fuel : nat) (pagetable va size pa perm : Z) : M S Z :=
  mappages_loop fuel pagetable (PGROUNDDOWN va) (PGROUNDDOWN (u64 (va + size - 1))) pa perm.

Definition walkAddr (pagetable va : Z) : M S Z :=
  if MAXVA <=? va then mret 0
  else
    pte ← walk pagetable va false;
    if pte =? 0 then mret 0
    else
      e ← rd64 pte;
      if negb (has e PTE_V) then mret 0
      else if negb (has e PTE_U) then mret 0
      else mret (PTE2PA e).

Definition kernel_vm_map (fuel : nat) (kernel_pagetable va pa sz perm : Z) : M S unit :=
  r ← mappages fuel kernel_pagetable va sz pa perm;
  if negb (r =? 0) then panic "kvmmap" else mret tt.

(** The entries from [i] on: [n] of them are left.  [rec] frees a child. *)
Fixpoint freewalk_entries (rec : Z → M S unit) (pagetable i : Z) (n : nat) : M S unit :=
  match n with
  | O => mret tt
  | Datatypes.S n =>
      pte ← rd64 (pagetable + 8 * i);
      (if has pte PTE_V && negb (has pte (Z.lor (Z.lor PTE_R PTE_W) PTE_X)) then
         rec (PTE2PA pte);;
         wr64 (pagetable + 8 * i) 0
       else if has pte PTE_V then panic "freewalk: leaf"
       else mret tt);;
      freewalk_entries rec pagetable (i + 1) n
  end.

(** [depth] bounds the recursion: a well-formed table has three levels. *)
Fixpoint freewalk (depth : nat) (pagetable : Z) : M S unit :=
  match depth with
  | O => λ _, NoFuel
  | Datatypes.S depth =>
      freewalk_entries (freewalk depth) pagetable 0 512;;
      pg_free pagetable
  end.

(** One iteration of the loop of [userUnmap]. *)
Definition unmap_one (pagetable a : Z) (do_free : bool) : M S unit :=
  pte ← walk pagetable a false;
  if pte =? 0 then mret tt
  else
    e ← rd64 pte;
    if negb (has e PTE_V) then mret tt
    else if PTE_FLAGS e =? PTE_V then panic "uvmunmap: not a leaf"
    else
      (if do_free then pg_free (PTE2PA e) else mret tt);;
      wr64 pte 0.

Fixpoint userUnmap_loop (fuel : nat) (pagetable a stop : Z) (do_free : bool) : M S unit :=
  match fuel with
  | O => λ _, NoFuel
  | Datatypes.S fuel =>
      if a <? stop then
        unmap_one pagetable a do_free;;
        userUnmap_loop fuel pagetable (u64 (a + PGSIZE)) stop do_free
      else mret tt
  end.

Definition userUnmap (fuel : nat) (pagetable va npages : Z) (do_free : bool) : M S unit :=
  if negb (va mod PGSIZE =? 0) then panic "uvmunmap: not aligned"
  else userUnmap_loop fuel pagetable va (u64 (va + npages * PGSIZE)) do_free.

Definition FreeUserPageTable (fuel : nat) (pagetable sz : Z) : M S unit :=
  (if 0 <? sz then userUnmap fuel pagetable 0 (PGROUNDUP sz / PGSIZE) true else mret tt);;
  freewalk 3 pagetable.

Definition userDealloc (fuel : nat) (pagetable oldsz newsz : Z) : M S Z :=
  if oldsz <=? newsz then mret oldsz
  else
    (if PGROUNDUP newsz <? PGROUNDUP oldsz then
       let npages := i32 ((PGROUNDUP oldsz - PGROUNDUP newsz) / PGSIZE) in
       userUnmap fuel pagetable (PGROUNDUP newsz) (u64 npages) true
     else mret tt);;
    mret newsz.

(** [PTE_W | PTE_X | PTE_R | PTE_U | PTE_V] *)
Definition user_perm : Z := Z.lor (Z.lor (Z.lor (Z.lor PTE_W PTE_X) PTE_R) PTE_U) PTE_V.

(** On failure the code rolls back with [userDealloc(pagetable, a, oldsz)],
    [oldsz] being rounded up already. *)
Fixpoint userAlloc_loop (fuel : nat) (pagetable a oldsz newsz : Z) : M S Z :=
  match fuel with
  | O => λ _, NoFuel
  | Datatypes.S fuel' =>
      if a <? newsz then
        mem ← pg_alloc;
        if mem =? 0 then
          userDealloc fuel pagetable a oldsz;; mret 0
        else
          kmemset mem 0 PGSIZE;;
          r ← mappages fuel pagetable a PGSIZE mem user_perm;
          if negb (r =? 0) then
            pg_free mem;;
            userDealloc fuel pagetable a oldsz;;
            mret 0
          else userAlloc_loop fuel' pagetable (u64 (a + PGSIZE)) oldsz newsz
      else mret newsz
  end.

Definition userAlloc (fuel : nat) (pagetable oldsz newsz : Z) : M S Z :=
  if newsz <? oldsz then mret oldsz
  else userAlloc_loop fuel pagetable (PGROUNDUP oldsz) (PGROUNDUP oldsz) newsz.

Definition userCreate : M S Z :=
  pagetable ← pg_alloc;
  if pagetable =? 0 then mret 0
  else kmemset pagetable 0 PGSIZE;; mret pagetable.

Fixpoint copyin (fuel : nat) (pagetable dst vsrc len : Z) : M S Z :=
  match fuel with
  | O => λ _, NoFuel
  | Datatypes.S fuel =>
      if 0 <? len then
        let va0 := PGROUNDDOWN vsrc in
        pa0 ← walkAddr pagetable va0;
        if pa0 =? 0 then mret (-1)
        else
          let n := PGSIZE - (vsrc - va0) in
          let n := if len <? n then len else n in
          kmemmove dst (pa0 + (vsrc - va0)) n;;
          copyin fuel pagetable (dst + n) (u64 (vsrc + n)) (len - n)
      else mret 0
  end.

(** The inner loop of [copyinstr]: returns ([got_null], [dst], [maxsz]). *)
Fixpoint copyinstr_page (p dst maxsz : Z) (n : nat) : M S (bool * Z * Z) :=
  match n with
  | O => mret (false, dst, maxsz)
  | Datatypes.S n =>
      c ← gets (λ s, pg_mem s p);
      if c =? 0 then wr8 dst 0;; mret (true, dst, maxsz)
      else wr8 dst c;; copyinstr_page (p + 1) (dst + 1) (maxsz - 1) n
  end.

Fixpoint copyinstr (fuel : nat) (pagetable dst vsrc maxsz : Z) : M S Z :=
  match fuel with
  | O => λ _, NoFuel
  | Datatypes.S fuel =>
      if 0 <? maxsz then
        let va0 := PGROUNDDOWN vsrc in
        pa0 ← walkAddr pagetable va0;
        if pa0 =? 0 then mret (-1)
        else
          let n := PGSIZE - (vsrc - va0) in
          let n := if maxsz <? n then maxsz else n in
          r ← copyinstr_page (pa0 + (vsrc - va0)) dst maxsz (Z.to_nat n);
          let '(got_null, dst, maxsz) := r in
          if (got_null : bool) then mret 0
          else copyinstr fuel pagetable dst (u64 (va0 + PGSIZE)) maxsz
      else mret (-1)
  end.

Fixpoint copyout (fuel : nat) (pagetable vdst src len : Z) : M S Z :=
  match fuel with
  | O => λ _, NoFuel
  | Datatypes.S fuel =>
      if 0 <? len then
        let va0 := PGROUNDDOWN vdst in
        pa0 ← walkAddr pagetable va0;
        if pa0 =? 0 then mret (-1)
        else
          let n := PGSIZE - (vdst - va0) in
          let n := if len <? n then len else n in
          kmemmove (pa0 + (vdst - va0)) src n;;
          copyout fuel pagetable (u64 (vdst + n)) (src + n) (len - n)
      else mret 0
  end.

(** [for (int i = 0; i < sz; i += PGSIZE)] of [userVmCopy]. *)
Fixpoint userVmCopy_loop (fuel : nat) (oldPg newPg i sz : Z) : M S Z :=
  match fuel with
  | O => λ _, NoFuel
  | Datatypes.S fuel' =>
      if i <? sz then
        pte ← walk oldPg i false;
        if pte =? 0 then panic "userVmCopy: pte not present"
        else
          e ← rd64 pte;
          if negb (has e PTE_V) then userVmCopy_loop fuel' oldPg newPg (i + PGSIZE) sz
          else
            let pa := PTE2PA e in
            let flags := PTE_FLAGS e in
            mem ← pg_alloc;
            if mem =? 0 then panic "userVmCopy: alloc mem fail"
            else
              kmemmove mem pa PGSIZE;;
              r ← mappages fuel newPg i PGSIZE mem flags;
              if r <? 0 then pg_free mem;; panic "userVmCopy: mappages fail"
              else userVmCopy_loop fuel' oldPg newPg (i + PGSIZE) sz
      else mret 0
  end.

Definition userVmCopy (fuel : nat) (oldPg newPg sz : Z) : M S Z :=
  userVmCopy_loop fuel oldPg newPg 0 sz.
End vm.
