(* ===== verification/VmFacts.v ===== *)
(** * Facts about page tables

    The tree of tables that a root page spans, read off memory: [node m root p]
    is the table reached from [root] by the entry indices [p].  A tree is well
    formed when distinct paths reach distinct pages; then a store to one entry
    changes only what lies below that entry, and the tables never overlap the
    free pages. *)
From S2P Require Import Prelude Mem KAlloc Vm.

(** ** Bit-level facts *)

Lemma PX_spec level va :
  0 ≤ level → 0 ≤ va → PX level va = (va / 2 ^ (12 + 9 * level)) mod 512.
Proof.
  intros Hl Hv. unfold PX, PXSHIFT. rewrite Z.shiftr_div_pow2 by lia.
  change 0x1FF with (2 ^ 9 - 1). rewrite land_ones_mod by lia. done.
Qed.

Lemma PX_range level va : 0 ≤ level → 0 ≤ va → 0 ≤ PX level va < 512.
Proof. intros. rewrite PX_spec by done. apply Z.mod_pos_bound. lia. Qed.

Lemma PX_inj va va' :
  0 ≤ va < MAXVA → 0 ≤ va' < MAXVA →
  PX 2 va = PX 2 va' → PX 1 va = PX 1 va' → PX 0 va = PX 0 va' → va / PGSIZE = va' / PGSIZE.
Proof.
  change MAXVA with (2 ^ 38). unfold PGSIZE. intros Hv Hv'. rewrite !PX_spec by lia.
  change (2 ^ (12 + 9 * 2)) with 1073741824. change (2 ^ (12 + 9 * 1)) with 2097152.
  change (2 ^ (12 + 9 * 0)) with 4096. intros. dlia.
Qed.

Lemma PX_page level va va' :
  0 ≤ level → 0 ≤ va → 0 ≤ va' → va / PGSIZE = va' / PGSIZE → PX level va = PX level va'.
Proof.
  intros Hl Hv Hv' H. rewrite !PX_spec by done.
  rewrite Z.pow_add_r by lia. rewrite <- !Z.div_div by lia.
  change (2 ^ 12) with PGSIZE. by rewrite H.
Qed.

Lemma PTE2PA_spec e : 0 ≤ e < 2 ^ 64 → PTE2PA e = u64 (e / 1024 * 4096).
Proof.
  intros. unfold PTE2PA. rewrite Z.shiftl_mul_pow2, Z.shiftr_div_pow2 by lia. done.
Qed.

Lemma PA2PTE_spec pa : 0 ≤ pa < 2 ^ 56 → PA2PTE pa = pa / 4096 * 1024.
Proof.
  intros. unfold PA2PTE. rewrite Z.shiftl_mul_pow2, Z.shiftr_div_pow2 by lia.
  apply u64_small. change (2 ^ 12) with 4096. change (2 ^ 10) with 1024. dlia.
Qed.

(** A PTE built from an aligned page and flags below bit 10. *)
Lemma mk_pte pa flags :
  page_ok pa → 0 ≤ flags < 1024 → Z.lor (PA2PTE pa) flags = PA2PTE pa + flags.
Proof.
  intros (Hal & H0 & H56) Hf. unfold PGSIZE in *. apply (lor_add_disjoint _ _ 10); [lia|lia|].
  rewrite PA2PTE_spec by lia. change (2 ^ 10) with 1024. dlia.
Qed.

Lemma pte_range pa flags :
  page_ok pa → 0 ≤ flags < 1024 → 0 ≤ PA2PTE pa + flags < 2 ^ 64.
Proof.
  intros (Hal & H0 & H56) Hf. unfold PGSIZE in *. rewrite PA2PTE_spec by lia. dlia.
Qed.

Lemma pte_pa pa flags : page_ok pa → 0 ≤ flags < 1024 → PTE2PA (PA2PTE pa + flags) = pa.
Proof.
  intros Hp Hf. rewrite PTE2PA_spec by (by apply pte_range).
  destruct Hp as (Hal & H0 & H56). unfold PGSIZE in *. rewrite PA2PTE_spec by lia.
  replace ((pa / 4096 * 1024 + flags) / 1024) with (pa / 4096) by dlia.
  rewrite u64_small; dlia.
Qed.

(** Flags of a built PTE, bit by bit. *)
Lemma has_flag pa flags k :
  page_ok pa → 0 ≤ flags < 1024 → 0 ≤ k < 10 →
  has (PA2PTE pa + flags) (2 ^ k) = Z.testbit flags k.
Proof.
  intros Hp Hf Hk. rewrite <- mk_pte by done. unfold has.
  assert (Z.testbit (PA2PTE pa) k = false) as Hpa.
  { destruct Hp as (Hal & H0 & H56). unfold PGSIZE in *. rewrite PA2PTE_spec by lia.
    change 1024 with (2 ^ 10). apply Z.mul_pow2_bits_low. lia. }
  assert (∀ z, Z.land z (2 ^ k) = if Z.testbit z k then 2 ^ k else 0) as Hland.
  { intros z. apply Z.bits_inj'. intros n Hn. rewrite Z.land_spec.
    destruct (decide (n = k)) as [->|Hne].
    - rewrite Z.pow2_bits_true, andb_true_r by lia.
      destruct (Z.testbit z k) eqn:E; [by rewrite Z.pow2_bits_true by lia|by rewrite Z.bits_0].
    - rewrite Z.pow2_bits_false, andb_false_r by lia.
      destruct (Z.testbit z k); [by rewrite Z.pow2_bits_false by lia|by rewrite Z.bits_0]. }
  rewrite Hland, Z.lor_spec, Hpa. cbn. destruct (Z.testbit flags k); cbn; [|done].
  apply negb_true_iff, Z.eqb_neq. lia.
Qed.

Lemma has_V pa flags :
  page_ok pa → 0 ≤ flags < 1024 → Z.odd flags = true → has (PA2PTE pa + flags) PTE_V = true.
Proof.
  intros. change PTE_V with (2 ^ 0). rewrite has_flag by (done || lia). by rewrite Z.bit0_odd.
Qed.

(** ** The tree of tables *)

(** The table the [i]-th entry of table [t] points to, if valid. *)
Definition child (m : mem) (t i : Z) : option Z :=
  let e := ld64 m (t + 8 * i) in
  if has e PTE_V then Some (PTE2PA e) else None.

Fixpoint node (m : mem) (t : Z) (p : list Z) : option Z :=
  match p with
  | [] => Some t
  | i :: p => t' ← child m t i; node m t' p
  end.

Definition path_ok (p : list Z) : Prop := Forall (λ i, 0 ≤ i < 512) p ∧ (length p ≤ 2)%nat.

(** The path and the address of the PTE of [va], and the valid PTE itself. *)
Definition vpath (va : Z) : list Z := [PX 2 va; PX 1 va].
Definition slot (m : mem) (root va : Z) : option Z :=
  t ← node m root (vpath va); Some (t + 8 * PX 0 va).
Definition entry (m : mem) (root va : Z) : option Z :=
  a ← slot m root va;
  let e := ld64 m a in if has e PTE_V then Some e else None.

Record tree (m : mem) (root : Z) : Prop := {
  tree_pages : ∀ p t, path_ok p → node m root p = Some t → page_ok t;
  tree_inj : ∀ p q t, path_ok p → path_ok q →
    node m root p = Some t → node m root q = Some t → p = q;
}.

Definition in_page (p x : Z) : Prop := p ≤ x < p + PGSIZE.

(** The byte [x] lies in one of the tables of [root]. *)
Definition in_tables (m : mem) (root x : Z) : Prop :=
  ∃ p t, path_ok p ∧ node m root p = Some t ∧ in_page t x.

Lemma node_snoc m t p i : node m t (p ++ [i]) = t' ← node m t p; child m t' i.
Proof.
  revert t. induction p as [|j p IH]; intros t; cbn.
  - by destruct (child m t i).
  - destruct (child m t j); cbn; [apply IH|done].
Qed.

Lemma node_below_None m t0 p t i r :
  node m t0 p = Some t → child m t i = None → node m t0 (p ++ i :: r) = None.
Proof.
  intros Ht Hi. revert t0 Ht. induction p as [|j p IH]; intros t0; cbn.
  - intros [= ->]. by rewrite Hi.
  - destruct (child m t0 j); cbn; [apply IH|done].
Qed.

Lemma path_ok_snoc p i : path_ok (p ++ [i]) → path_ok p.
Proof. intros [Hf Hl]. rewrite length_app in Hl. apply Forall_app in Hf as [Hf _]. cbn in Hl.
  split; [done|lia]. Qed.

Lemma path_ok_snoc_idx p i : path_ok (p ++ [i]) → 0 ≤ i < 512.
Proof. intros [Hf _]. apply Forall_app in Hf as [_ Hf].
  by apply Forall_cons in Hf as [? _]. Qed.

Lemma vpath_ok va : 0 ≤ va → path_ok (vpath va).
Proof. intros. split; [|done]. repeat constructor; apply PX_range; lia. Qed.

Lemma root_ok m root : tree m root → page_ok root.
Proof. intros [Hp _]. apply (Hp []); [|done]. split; [constructor|cbn; lia]. Qed.

Lemma child_agree m m' t i :
  (∀ x, t + 8 * i ≤ x < t + 8 * i + 8 → m' x = m x) → child m' t i = child m t i.
Proof.
  intros H. unfold child. replace (ld64 m' (t + 8 * i)) with (ld64 m (t + 8 * i)); [done|].
  apply ld_ext. intros x Hx. symmetry. apply H. lia.
Qed.

Lemma entry_in_page t i x :
  0 ≤ i < 512 → t + 8 * i ≤ x < t + 8 * i + 8 → in_page t x.
Proof. unfold in_page, PGSIZE. lia. Qed.

(** A change of memory that leaves the tables alone leaves the tree alone. *)
Lemma node_frame m m' root p :
  (∀ x, in_tables m root x → m' x = m x) → path_ok p → node m' root p = node m root p.
Proof.
  intros Hag. induction p as [|i p IH] using rev_ind; intros Hp; [done|].
  rewrite !node_snoc, IH by (by eapply path_ok_snoc).
  destruct (node m root p) as [t|] eqn:Ht; cbn; [|done].
  apply child_agree. intros x Hx. apply Hag. exists p, t. split_and!.
  - by eapply path_ok_snoc.
  - done.
  - apply (entry_in_page _ i); [by eapply path_ok_snoc_idx|done].
Qed.

Lemma tree_frame m m' root :
  (∀ x, in_tables m root x → m' x = m x) → tree m root → tree m' root.
Proof.
  intros Hag [Hp Hi]. split.
  - intros p t Hpok. rewrite (node_frame _ _ _ _ Hag) by done. eauto.
  - intros p q t Hpok Hqok. rewrite !(node_frame _ _ _ _ Hag) by done. eauto.
Qed.

Lemma slot_frame m m' root va :
  0 ≤ va → (∀ x, in_tables m root x → m' x = m x) → slot m' root va = slot m root va.
Proof. intros Hv Hag. unfold slot. rewrite (node_frame _ _ _ _ Hag); [done|by apply vpath_ok]. Qed.

(** The eight bytes of the PTE of [va] lie in a table. *)
Lemma slot_in_tables m root va a x :
  0 ≤ va → slot m root va = Some a → a ≤ x < a + 8 → in_tables m root x.
Proof.
  unfold slot. intros Hv Hs Hx. destruct (node m root (vpath va)) as [t|] eqn:Ht; [|done].
  injection Hs as <-. exists (vpath va), t. split_and!; [by apply vpath_ok|done|].
  apply (entry_in_page _ (PX 0 va)); [apply PX_range; lia|done].
Qed.

Lemma entry_frame m m' root va :
  0 ≤ va → (∀ x, in_tables m root x → m' x = m x) → entry m' root va = entry m root va.
Proof.
  intros Hv Hag. unfold entry. rewrite (slot_frame m) by done.
  destruct (slot m root va) as [a|] eqn:Ha; cbn; [|done].
  replace (ld64 m' a) with (ld64 m a); [done|]. apply ld_ext. intros x Hx. symmetry.
  apply Hag. by eapply slot_in_tables.
Qed.

(** A store to entry [i] of the table at [p] changes only what is below it. *)
Lemma node_store m m' root p t i q :
  tree m root → path_ok p → node m root p = Some t → 0 ≤ i < 512 →
  (∀ x, in_tables m root x → ¬ (t + 8 * i ≤ x < t + 8 * i + 8) → m' x = m x) →
  path_ok q → ¬ (p ++ [i]) `prefix_of` q → node m' root q = node m root q.
Proof.
  intros Htr Hp Ht Hi Hag. induction q as [|k q IH] using rev_ind; intros Hq Hpre; [done|].
  assert (path_ok q) as Hq' by (by eapply path_ok_snoc).
  rewrite !node_snoc, IH; [|done|].
  2: { intros H. apply Hpre. by apply prefix_app_r. }
  destruct (node m root q) as [t'|] eqn:Ht'; cbn; [|done].
  apply path_ok_snoc_idx in Hq as Hk.
  apply child_agree. intros x Hx. apply Hag.
  { exists q, t'. split_and!; [done..|]. by apply (entry_in_page _ k). }
  destruct (decide (t' = t)) as [->|Hne].
  - assert (q = p) as -> by (by eapply (tree_inj _ _ Htr)).
    assert (k ≠ i) by (intros ->; by apply Hpre). lia.
  - intros Hx'. apply (MemAllocator.pages_disjoint t' t x); [..|exact Hne| |].
    + by eapply (tree_pages _ _ Htr).
    + by eapply (tree_pages _ _ Htr p).
    + by apply (entry_in_page _ k).
    + by apply (entry_in_page _ i).
Qed.

(** ** Address spaces *)

Section space.
Context {S : Type} `{PA : PageAllocator S}.

(** [space s root l]: a well-formed address space next to the free list [l]. *)
Record space (s : S) (root : Z) (l : list Z) : Prop := {
  sp_inv : pg_inv s l;
  sp_tree : tree (pg_mem s) root;
  sp_free : ∀ p t, path_ok p → node (pg_mem s) root p = Some t → t ∉ l;
}.

(** [grows]: tables were added from the free list, mappings kept. *)
Record grows (root : Z) (s : S) (l : list Z) (s' : S) (l' : list Z) : Prop := {
  gr_space : space s' root l';
  gr_new : ∃ new, l = new ++ l';
  gr_old : ∀ p t, path_ok p → node (pg_mem s) root p = Some t → node (pg_mem s') root p = Some t;
  gr_from : ∀ p t, path_ok p → node (pg_mem s') root p = Some t →
    node (pg_mem s) root p = Some t ∨ t ∈ l;
  gr_entry : ∀ va, 0 ≤ va → entry (pg_mem s') root va = entry (pg_mem s) root va;
  gr_frame : ∀ x, ¬ in_tables (pg_mem s) root x → (∀ q, q ∈ l → ¬ in_page q x) →
    pg_mem s' x = pg_mem s x;
}.

Lemma grows_refl root s l : space s root l → grows root s l s l.
Proof. intros H. split; [done|by exists []|by auto..]. Qed.
Lemma grows_trans root s1 l1 s2 l2 s3 l3 :
  grows root s1 l1 s2 l2 → grows root s2 l2 s3 l3 → grows root s1 l1 s3 l3.
Proof.
  intros [A1 [n1 A2] A3 A4 A5 A6] [B1 [n2 B2] B3 B4 B5 B6]. subst l1 l2.
  split; [done|exists (n1 ++ n2); by rewrite app_assoc|by eauto|..].
  - intros p t Hp [H|H]%B4; [by apply A4|right; apply elem_of_app; by right|done].
  - intros va Hv. by rewrite B5, A5.
  - intros x Hx Hl. rewrite B6, A6; [done|done|done|..].
    + intros (p & t & Hp & Ht & Hin). destruct (A4 p t Hp Ht) as [H|H].
      * apply Hx. by exists p, t.
      * by apply (Hl t).
    + intros q Hq. apply Hl, elem_of_app. by right.
Qed.

(** A table page handed out by the allocator is not one of the tree. *)
Lemma space_fresh s root p l q t :
  space s root (p :: l) → path_ok q → node (pg_mem s) root q = Some t → t ≠ p.
Proof. intros Hs Hq Ht ->. eapply (sp_free _ _ _ Hs); [done..|by left]. Qed.

Lemma in_tables_not_free s root l q x :
  space s root l → q ∈ l → in_tables (pg_mem s) root x → ¬ in_page q x.
Proof.
  intros Hs Hq (p & t & Hp & Ht & Hin) Hx.
  destruct (pg_inv_pages _ _ (sp_inv _ _ _ Hs)) as [_ Hok]. rewrite Forall_forall in Hok.
  apply (MemAllocator.pages_disjoint t q x); [|by apply Hok|intros ->|done|done].
  - by eapply (tree_pages _ _ (sp_tree _ _ _ Hs)).
  - by eapply (sp_free _ _ _ Hs).
Qed.

(** Writing outside the tables and the free pages preserves the space. *)
Lemma space_set_mem s root l m :
  space s root l → mem_ok m →
  (∀ x, in_tables (pg_mem s) root x → m x = pg_mem s x) →
  (∀ q x, q ∈ l → in_page q x → m x = pg_mem s x) →
  space (pg_set_mem m s) root l.
Proof.
  intros [Hi Ht Hf] Hm Htab Hfree. split.
  - apply pg_inv_set_mem; [done..|]. intros p x Hp Hx. by apply (Hfree p).
  - rewrite pg_get_set. by apply (tree_frame (pg_mem s)).
  - intros p t Hp. rewrite pg_get_set, (node_frame (pg_mem s)) by done. by apply Hf.
Qed.

(** The page [c] as a new table below the entry [(p, i)], in memory [m']. *)
Definition linked (m m' : mem) (p : list Z) (t i c : Z) : Prop :=
  (∀ x, in_page c x → m' x = 0) ∧
  ld64 m' (t + 8 * i) = PA2PTE c + PTE_V ∧
  (∀ x, ¬ in_page c x → ¬ (t + 8 * i ≤ x < t + 8 * i + 8) → m' x = m x).

Lemma linked_child_new m m' p t i c :
  linked m m' p t i c → page_ok c → child m' t i = Some c.
Proof.
  intros (_ & Hld & _) Hc. unfold child. rewrite Hld.
  by rewrite has_V, pte_pa by (done || unfold PTE_V; lia).
Qed.

Lemma linked_child_zero m m' p t i c k :
  linked m m' p t i c → 0 ≤ k < 512 → child m' c k = None.
Proof.
  intros (Hz & _ & _) Hk. unfold child.
  replace (ld64 m' (c + 8 * k)) with 0; [done|].
  rewrite (ld_ext 8 m' (λ _, 0)); [done|]. intros x Hx. apply Hz.
  apply (entry_in_page _ k); [done|lia].
Qed.

Section link.
Context (s : S) (root : Z) (l : list Z) (c : Z) (m' : mem) (p : list Z) (t i : Z).
Context (Hs : space s root (c :: l)) (Hp : path_ok (p ++ [i]))
  (Ht : node (pg_mem s) root p = Some t) (Hnone : child (pg_mem s) t i = None)
  (Hl : linked (pg_mem s) m' p t i c).

Lemma link_page_ok : page_ok c ∧ pg_managed c.
Proof.
  destruct (pg_inv_pages _ _ (sp_inv _ _ _ Hs)) as [_ Hok].
  apply Forall_cons in Hok as [? _]. done.
Qed.

Lemma link_agree x :
  in_tables (pg_mem s) root x → ¬ (t + 8 * i ≤ x < t + 8 * i + 8) → m' x = pg_mem s x.
Proof.
  intros Hx Hne. apply Hl; [|done]. eapply in_tables_not_free; [exact Hs|by left|done].
Qed.

Lemma link_node_old q : path_ok q → ¬ (p ++ [i]) `prefix_of` q → node m' root q = node (pg_mem s) root q.
Proof.
  intros Hq Hpre. eapply node_store; [apply Hs|by eapply path_ok_snoc|exact Ht| |by apply link_agree|done..].
  by eapply path_ok_snoc_idx.
Qed.

Lemma link_node_new : node m' root (p ++ [i]) = Some c.
Proof.
  rewrite node_snoc, link_node_old, Ht.
  - cbn. eapply linked_child_new; [done|]. apply link_page_ok.
  - by eapply path_ok_snoc.
  - intros [k Hk]. apply (f_equal length) in Hk. rewrite !length_app in Hk. cbn in Hk. lia.
Qed.

Lemma link_node q u :
  path_ok q → node m' root q = Some u →
  (q = p ++ [i] ∧ u = c) ∨ (¬ (p ++ [i]) `prefix_of` q ∧ node (pg_mem s) root q = Some u).
Proof.
  intros Hq Hu. destruct (decide ((p ++ [i]) `prefix_of` q)) as [Hpre|Hpre].
  - left. destruct Hpre as [r ->]. destruct r as [|k r].
    + rewrite app_nil_r in *. rewrite link_node_new in Hu. by injection Hu as <-.
    + exfalso. destruct Hq as [Hq Hlen]. rewrite !length_app in Hlen. cbn in Hlen.
      destruct r; cbn in Hlen; [|lia].
      rewrite node_snoc, link_node_new in Hu. cbn in Hu.
      apply Forall_app in Hq as [_ Hq]. apply Forall_cons in Hq as [Hk _].
      by rewrite (linked_child_zero _ _ _ _ _ _ _ Hl Hk) in Hu.
  - right. rewrite link_node_old in Hu by done. done.
Qed.

Lemma link_node_None q : (p ++ [i]) `prefix_of` q → node (pg_mem s) root q = None.
Proof.
  intros [r ->]. rewrite <- app_assoc. by eapply node_below_None.
Qed.

Lemma link_tree : tree m' root.
Proof.
  destruct (sp_tree _ _ _ Hs) as [Hpg Hinj]. split.
  - intros q u Hq Hu. destruct (link_node q u Hq Hu) as [[-> ->]|[_ Hu']].
    + apply link_page_ok.
    + by eapply Hpg.
  - intros q q' u Hq Hq' Hu Hu'.
    destruct (link_node q u Hq Hu) as [[-> ->]|[_ Hu1]],
      (link_node q' _ Hq' Hu') as [[-> E]|[_ Hu2]]; [done|..].
    + by destruct (space_fresh s root c l q' c Hs Hq' Hu2).
    + subst u. by destruct (space_fresh s root c l q c Hs Hq Hu1).
    + by eapply Hinj.
Qed.
Lemma link_entry va : 0 ≤ va → entry m' root va = entry (pg_mem s) root va.
Proof.
  intros Hv. unfold entry, slot. pose proof (vpath_ok va Hv) as Hvp.
  assert (0 ≤ PX 0 va < 512) as Hk by (apply PX_range; lia).
  destruct (decide ((p ++ [i]) `prefix_of` vpath va)) as [Hpre|Hpre].
  - rewrite (link_node_None _ Hpre). destruct (node m' root (vpath va)) as [u|] eqn:Hu; cbn; [|done].
    destruct (link_node _ _ Hvp Hu) as [[_ ->]|[? _]]; [|done].
    pose proof (linked_child_zero _ _ _ _ _ _ _ Hl Hk) as Hz. unfold child in Hz.
    by destruct (has (ld64 m' (c + 8 * PX 0 va)) PTE_V).
  - rewrite link_node_old by done.
    destruct (node (pg_mem s) root (vpath va)) as [u|] eqn:Hu; cbn; [|done].
    replace (ld64 m' (u + 8 * PX 0 va)) with (ld64 (pg_mem s) (u + 8 * PX 0 va)); [done|].
    apply ld_ext. intros x Hx. symmetry.
    assert (in_page u x) as Hux by (by eapply entry_in_page).
    apply link_agree; [by exists (vpath va), u|].
    intros Hx'. assert (in_page t x) as Htx.
    { eapply entry_in_page; [|done]. by eapply path_ok_snoc_idx. }
    assert (u ≠ t) as Hne.
    { intros ->. assert (vpath va = p) as Heq.
      { eapply (tree_inj _ _ (sp_tree _ _ _ Hs)); [done|by eapply path_ok_snoc|done|done]. }
      destruct Hp as [_ Hlen]. rewrite length_app, <- Heq in Hlen. cbn in Hlen. lia. }
    apply (MemAllocator.pages_disjoint u t x); [..|done|done|done].
    + by eapply (tree_pages _ _ (sp_tree _ _ _ Hs) (vpath va)).
    + eapply (tree_pages _ _ (sp_tree _ _ _ Hs) p); [by eapply path_ok_snoc|done].
Qed.

Lemma link_grows s' : pg_mem s' = m' → pg_inv s' l → grows root s (c :: l) s' l.
Proof.
  intros Hm Hinv. split; rewrite ?Hm.
  - split; [done|rewrite Hm; apply link_tree|]. rewrite Hm. intros q u Hq Hu.
    destruct (link_node q u Hq Hu) as [[-> ->]|[_ Hu']].
    + destruct (pg_inv_pages _ _ (sp_inv _ _ _ Hs)) as [Hnd _]. by apply NoDup_cons in Hnd as [? _].
    + intros Hin. eapply (sp_free _ _ _ Hs); [done..|by right].
  - by exists [c].
  - intros q u Hq Hu. rewrite link_node_old; [done..|].
    intros Hpre. by rewrite (link_node_None _ Hpre) in Hu.
  - intros q u Hq Hu. destruct (link_node q u Hq Hu) as [[_ ->]|[_ ?]]; [right; by left|by left].
  - apply link_entry.
  - intros x Hx Hfree. apply Hl.
    + apply Hfree. by left.
    + intros Hx'. apply Hx. exists p, t. split_and!; [by eapply path_ok_snoc|done|].
      eapply entry_in_page; [|done]. by eapply path_ok_snoc_idx.
Qed.
End link.

(** ** walk *)

(** Allocating a zeroed page and linking it at an invalid entry. *)
Lemma alloc_link s root p t i c l :
  space s root (c :: l) → path_ok (p ++ [i]) → node (pg_mem s) root p = Some t →
  child (pg_mem s) t i = None →
  ∃ s', (∀ (k : Z → M S Z), (pa ← pg_alloc;
           if pa =? 0 then mret 0
           else kmemset pa 0 PGSIZE;; wr64 (t + 8 * i) (Z.lor (PA2PTE pa) PTE_V);; k pa) s
         = k c s') ∧
        grows root s (c :: l) s' l ∧ node (pg_mem s') root (p ++ [i]) = Some c.
Proof.
  intros Hs Hp Ht Hnone. destruct (pg_alloc_some s c l (sp_inv _ _ _ Hs)) as (s1 & Ha & Hi1 & Hout).
  destruct (link_page_ok _ _ _ _ Hs) as [Hc _].
  assert (page_ok t) as Htok.
  { eapply (tree_pages _ _ (sp_tree _ _ _ Hs) p); [by eapply path_ok_snoc|done]. }
  assert (0 ≤ i < 512) as Hib by (by eapply path_ok_snoc_idx).
  assert (t ≠ c) as Htc.
  { intros ->. eapply (sp_free _ _ _ Hs p); [by eapply path_ok_snoc|done|by left]. }
  assert (∀ x, t + 8 * i ≤ x < t + 8 * i + 8 → ¬ in_page c x) as Hsep.
  { intros x Hx. apply (MemAllocator.pages_disjoint t c x); [done..|]. by apply (entry_in_page _ i). }
  set (v := Z.lor (PA2PTE c) PTE_V).
  set (m1 := memset (pg_mem s1) c 0 PGSIZE). set (m' := st64 m1 (t + 8 * i) v).
  assert (linked (pg_mem s) m' p t i c) as Hl.
  { unfold linked, m', m1. split_and!.
    - intros x Hx. rewrite st64_other by (intros ?; by apply (Hsep x)). by apply memset_in.
    - rewrite ld64_st64_same.
      + unfold v. rewrite mk_pte by (done || unfold PTE_V; lia). done.
      + unfold v. rewrite mk_pte by (done || unfold PTE_V; lia). apply pte_range; [done|]. unfold PTE_V. lia.
    - intros x Hx Hx'. rewrite st64_other, memset_out by done. by apply Hout. }
  set (s2 := pg_set_mem m1 s1). set (s3 := pg_set_mem m' s2).
  assert (mem_ok (pg_mem s1)) as Hm1 by (by eapply pg_inv_mem).
  assert (pg_inv s2 l) as Hi2.
  { apply pg_inv_set_mem; [done|by apply memset_ok|]. intros q x Hq Hx. apply memset_out.
    apply (MemAllocator.pages_disjoint q c x); [|done| |done].
    - destruct (pg_inv_pages _ _ (sp_inv _ _ _ Hs)) as [_ Hok]. rewrite Forall_forall in Hok.
      apply Hok. by right.
    - destruct (pg_inv_pages _ _ (sp_inv _ _ _ Hs)) as [Hnd _]. apply NoDup_cons in Hnd as [? _].
      by intros ->. }
  assert (pg_inv s3 l) as Hi3.
  { apply pg_inv_set_mem; [done|by apply st64_ok, memset_ok|]. intros q x Hq Hx.
    unfold s2. rewrite pg_get_set. apply st64_other. intros Hx'.
    eapply (in_tables_not_free s root (c :: l) q x Hs); [by right| |exact Hx].
    exists p, t. split_and!; [by eapply path_ok_snoc|done|by apply (entry_in_page _ i)]. }
  exists s3. split_and!.
  - intros k. unfold mbind, M_bind. rewrite Ha.
    destruct (Z.eqb_spec c 0) as [->|_]; [destruct Hc; lia|].
    unfold kmemset, wr64, modify. cbn. fold m1 s2 v. unfold s2 at 1. rewrite pg_get_set. done.
  - eapply (link_grows s root l c m' p t i); try done. unfold s3. by rewrite pg_get_set.
  - unfold s3. rewrite pg_get_set. by eapply (link_node_new s root l c m').
Qed.

(** The result of [walk] with allocation, from a table [k] levels above the
    last: it fails only if there are fewer than [k] free pages. *)
Definition walk_post (k : nat) (root va : Z) (s : S) (l : list Z) (res : outcome (Z * S)) : Prop :=
  ∃ r s' l', res = Done (r, s') ∧ grows root s l s' l' ∧
    ((r = 0 ∧ l' = [] ∧ (length l < k)%nat) ∨
     (r ≠ 0 ∧ slot (pg_mem s') root va = Some r ∧ (length l ≤ length l' + k)%nat)).

Lemma walk_post_trans k root va s1 l1 s2 l2 res :
  grows root s1 l1 s2 l2 → (length l1 ≤ Datatypes.S (length l2))%nat →
  walk_post k root va s2 l2 res → walk_post (Datatypes.S k) root va s1 l1 res.
Proof.
  intros Hg Hl (r & s' & l' & ? & ? & Hr). exists r, s', l'. split_and!; [done|by eapply grows_trans|].
  destruct Hr as [(? & ? & ?)|(? & ? & ?)]; [left; split_and!; [done..|lia]|right; split_and!; [done..|lia]].
Qed.

Lemma walk_loop_step n root va s l p t :
  path_ok (p ++ [PX (Z.of_nat (Datatypes.S n)) va]) →
  space s root l → node (pg_mem s) root p = Some t →
  (∀ s' l' t', grows root s l s' l' →
     node (pg_mem s') root (p ++ [PX (Z.of_nat (Datatypes.S n)) va]) = Some t' →
     walk_post n root va s' l' (walk_loop n t' va true s')) →
  walk_post (Datatypes.S n) root va s l (walk_loop (Datatypes.S n) t va true s).
Proof.
  intros Hpok Hs Ht IH. cbn [walk_loop negb].
  set (i := PX (Z.of_nat (Datatypes.S n)) va) in *.
  unfold mbind at 1, M_bind at 1, rd64, gets.
  destruct (child (pg_mem s) t i) as [t'|] eqn:Hch.
  - assert (has (ld64 (pg_mem s) (t + 8 * i)) PTE_V = true ∧
            t' = PTE2PA (ld64 (pg_mem s) (t + 8 * i))) as [-> ->].
    { unfold child in Hch. destruct (has _ _); [by injection Hch as <-|done]. }
    eapply walk_post_trans; [by apply grows_refl|lia|].
    apply IH; [by apply grows_refl|]. by rewrite node_snoc, Ht.
  - assert (has (ld64 (pg_mem s) (t + 8 * i)) PTE_V = false) as ->.
    { unfold child in Hch. by destruct (has _ _). }
    destruct l as [|c l].
    + exists 0, s, []. split_and!; [|by apply grows_refl|left; split_and!; [done..|cbn; lia]].
      unfold mbind, M_bind. rewrite pg_alloc_none by apply Hs. done.
    + destruct (alloc_link s root p t i c l Hs Hpok Ht Hch) as (s' & Hrun & Hg & Hnode).
      rewrite (Hrun (λ pa, walk_loop n pa va true)).
      eapply walk_post_trans; [done|cbn; lia|]. by apply IH.
Qed.

Lemma slot_nonzero m root va a : 0 ≤ va → tree m root → slot m root va = Some a → 0 < a.
Proof.
  unfold slot. intros Hv Htr. destruct (node m root (vpath va)) as [t|] eqn:Ht; cbn; [|done].
  intros [= <-]. destruct (tree_pages _ _ Htr _ _ (vpath_ok va Hv) Ht) as (_ & ? & _).
  pose proof (PX_range 0 va). lia.
Qed.

Lemma path_ok_1 va : 0 ≤ va → path_ok ([] ++ [PX 2 va]).
Proof. intros. split; [repeat constructor; apply PX_range; lia|cbn; lia]. Qed.
Lemma path_ok_2 va : 0 ≤ va → path_ok ([PX 2 va] ++ [PX 1 va]).
Proof. intros. by apply vpath_ok. Qed.

(** [walk] with allocation: the address of the PTE, or 0 when pages ran out. *)
Lemma walk_alloc root va s l :
  space s root l → 0 ≤ va < MAXVA → walk_post 2 root va s l (walk root va true s).
Proof.
  intros Hs Hva. unfold walk. destruct (Z.leb_spec MAXVA va); [lia|].
  apply (walk_loop_step 1 root va s l [] root); [apply path_ok_1; lia|done|done|].
  intros s1 l1 t1 Hg1 Ht1.
  apply (walk_loop_step 0 root va s1 l1 [PX 2 va] t1); [apply path_ok_2; lia|apply Hg1|done|].
  intros s2 l2 t2 Hg2 Ht2. cbn [walk_loop].
  assert (slot (pg_mem s2) root va = Some (t2 + 8 * PX 0 va)) as Hsl.
  { unfold slot. change (Z.of_nat 1) with 1 in Ht2. change (vpath va) with ([PX 2 va] ++ [PX 1 va]).
    by rewrite Ht2. }
  exists (t2 + 8 * PX 0 va), s2, l2. split_and!; [done|by apply grows_refl, Hg2|].
  right. split; [|split; [done|lia]]. eapply slot_nonzero in Hsl; [lia|lia|]. apply Hg2.
Qed.

Lemma walk_noalloc root va s :
  0 ≤ va < MAXVA →
  walk root va false s = Done (default 0 (slot (pg_mem s) root va), s).
Proof.
  intros Hva. unfold walk. destruct (Z.leb_spec MAXVA va); [lia|].
  unfold slot. cbn [walk_loop vpath node negb]. unfold child, mbind, M_bind, rd64, gets.
  change (Z.of_nat 2) with 2. change (Z.of_nat 1) with 1.
  destruct (has (ld64 (pg_mem s) (root + 8 * PX 2 va)) PTE_V); cbn; [|done].
  destruct (has (ld64 (pg_mem s) (PTE2PA (ld64 (pg_mem s) (root + 8 * PX 2 va)) + 8 * PX 1 va)) PTE_V);
    cbn; done.
Qed.

(** When the tables are there, [walk] allocates nothing. *)
(** One table of level 0 serves 2 MB of addresses. *)
Lemma slot_same_table m root a b :
  0 ≤ a → 0 ≤ b → a / 2 ^ 21 = b / 2 ^ 21 → is_Some (slot m root a) → is_Some (slot m root b).
Proof.
  intros Ha Hb Heq. assert (vpath b = vpath a) as Hp.
  { unfold vpath. rewrite !PX_spec by lia. unfold PXSHIFT. change (12 + 9 * 2) with 30. change (12 + 9 * 1) with 21.
    assert (a / 2 ^ 30 = b / 2 ^ 30) by dlia. congruence. }
  unfold slot. rewrite Hp. destruct (node m root (vpath a)); cbn; [by eexists|by intros []].
Qed.

Lemma walk_hit root va alloc s a :
  0 ≤ va < MAXVA → slot (pg_mem s) root va = Some a → walk root va alloc s = Done (a, s).
Proof.
  intros Hva Ha. unfold walk. destruct (Z.leb_spec MAXVA va); [lia|].
  revert Ha. unfold slot. cbn [walk_loop vpath node]. unfold child, mbind, M_bind, rd64, gets.
  change (Z.of_nat 2) with 2. change (Z.of_nat 1) with 1.
  destruct (has (ld64 (pg_mem s) (root + 8 * PX 2 va)) PTE_V); cbn; [|done].
  destruct (has (ld64 (pg_mem s) (PTE2PA (ld64 (pg_mem s) (root + 8 * PX 2 va)) + 8 * PX 1 va)) PTE_V);
    cbn; [|done]. by intros [= ->].
Qed.

(** ** Storing a PTE *)

Section set_pte.
Context (s : S) (root : Z) (l : list Z) (va a v : Z).
Context (Hs : space s root l) (Hva : 0 ≤ va < MAXVA) (Ha : slot (pg_mem s) root va = Some a)
  (Hv : 0 ≤ v < 2 ^ 64).
Let m' := st64 (pg_mem s) a v.

Lemma set_pte_slot_eq : ∃ t, node (pg_mem s) root (vpath va) = Some t ∧ a = t + 8 * PX 0 va.
Proof.
  revert Ha. unfold slot. destruct (node _ root (vpath va)) as [t|]; [|done].
  intros [= <-]. eauto.
Qed.

Lemma set_pte_node q : path_ok q → node m' root q = node (pg_mem s) root q.
Proof.
  intros Hq. destruct set_pte_slot_eq as (t & Ht & Heq).
  eapply (node_store _ _ _ (vpath va) t (PX 0 va)); [apply Hs|apply vpath_ok; lia|done| | |done|].
  - apply PX_range; lia.
  - intros x _ Hx. apply st64_other. rewrite Heq. done.
  - intros [r Hr]. destruct Hq as [_ Hlen]. rewrite Hr, !length_app in Hlen. cbn in Hlen. lia.
Qed.

Lemma set_pte_slot va' : 0 ≤ va' → slot m' root va' = slot (pg_mem s) root va'.
Proof. intros. unfold slot. rewrite set_pte_node; [done|by apply vpath_ok]. Qed.

Lemma set_pte_space : space (pg_set_mem m' s) root l.
Proof.
  destruct Hs as [Hi Ht Hf]. split.
  - apply pg_inv_set_mem; [done|apply st64_ok; by eapply pg_inv_mem|].
    intros q x Hq Hx. apply st64_other. intros Hx'.
    eapply (in_tables_not_free s root l q x Hs); [done| |done].
    eapply slot_in_tables; [|exact Ha|done]. lia.
  - rewrite pg_get_set. destruct Ht as [Hp Hi']. split.
    + intros p t Hpo. rewrite set_pte_node by done. eauto.
    + intros p q t Hpo Hqo. rewrite !set_pte_node by done. eauto.
  - intros p t Hpo. rewrite pg_get_set, set_pte_node by done. by apply Hf.
Qed.

Lemma set_pte_entry_same va' :
  0 ≤ va' → va' / PGSIZE = va / PGSIZE →
  entry m' root va' = if has v PTE_V then Some v else None.
Proof.
  intros Hva' Heq. unfold entry. rewrite set_pte_slot by done.
  assert (slot (pg_mem s) root va' = Some a) as ->.
  { rewrite <- Ha. unfold slot, vpath.
    by rewrite (PX_page 2 va' va), (PX_page 1 va' va), (PX_page 0 va' va) by (done || lia). }
  cbn. unfold m'. by rewrite ld64_st64_same.
Qed.

Lemma set_pte_entry_other va' :
  0 ≤ va' < MAXVA → va' / PGSIZE ≠ va / PGSIZE → entry m' root va' = entry (pg_mem s) root va'.
Proof.
  intros Hva' Hne. unfold entry. rewrite set_pte_slot by lia.
  destruct set_pte_slot_eq as (t & Ht & Heq).
  destruct (slot (pg_mem s) root va') as [b|] eqn:Hb; cbn; [|done].
  revert Hb. unfold slot. destruct (node _ root (vpath va')) as [t'|] eqn:Ht'; [|done]. intros [= <-].
  unfold m'. rewrite ld64_st64_ne; [done|].
  assert (0 ≤ PX 0 va < 512 ∧ 0 ≤ PX 0 va' < 512) as [Hk Hk'] by (split; apply PX_range; lia).
  assert (0 ≤ va ∧ 0 ≤ va') as [Hva0 Hva0'] by lia.
  destruct (decide (t' = t)) as [->|Htne].
  - assert (vpath va' = vpath va) as Hvp.
    { eapply (tree_inj _ _ (sp_tree _ _ _ Hs)); [by apply vpath_ok..|done|done]. }
    injection Hvp as H2 H1. assert (PX 0 va' ≠ PX 0 va); [|lia].
    intros H0. apply Hne. by apply PX_inj.
  - destruct (tree_pages _ _ (sp_tree _ _ _ Hs) _ _ (vpath_ok va Hva0) Ht) as (? & ? & ?).
    destruct (tree_pages _ _ (sp_tree _ _ _ Hs) _ _ (vpath_ok va' Hva0') Ht') as (? & ? & ?).
    unfold PGSIZE in *. dlia.
Qed.
End set_pte.
End space.

Section total.
Context {S : Type} `{PageAllocator S}.
(** Without allocation, [walkAddr] completes on any page table and changes nothing. *)
Lemma walk_loop_noalloc_total n root va s : ∃ a, walk_loop n root va false s = Done (a, s).
Proof.
  revert root. induction n as [|n IH]; intros root; [by eexists|]. cbn [walk_loop].
  unfold_M. unfold rd64, gets. destruct (has _ PTE_V); [apply IH|by eexists].
Qed.
Lemma walkAddr_total root va s : ∃ pa, walkAddr root va s = Done (pa, s).
Proof.
  unfold walkAddr. destruct (Z.leb_spec MAXVA va) as [Hx|Hx]; [by eexists|].
  unfold walk. apply Z.leb_gt in Hx as ->. unfold_M.
  destruct (walk_loop_noalloc_total 2 root va s) as [a ->].
  destruct (a =? 0); [by eexists|]. unfold rd64, gets.
  repeat (case_match; [by eexists|]). by eexists.
Qed.
End total.
