(* ===== verification/VmProps.v ===== *)
(** * What the page-table operations do

    Functional specifications of [mappages], [walkAddr], [userUnmap],
    [copyin] and [copyout] on a well-formed address space, and the properties
    of kernel/memory/VmManager.cpp that follow. *)
From S2P Require Import Prelude Mem KAlloc Vm VmFacts.

Section props.
Context {S : Type} `{PA : PageAllocator S}.

(** Tables may be added and mappings changed; nothing else is written. *)
Record evolves (root : Z) (s : S) (l : list Z) (s' : S) (l' : list Z) : Prop := {
  ev_space : space s' root l';
  ev_new : ∃ new, l = new ++ l';
  ev_from : ∀ p t, path_ok p → node (pg_mem s') root p = Some t →
    node (pg_mem s) root p = Some t ∨ t ∈ l;
  ev_frame : ∀ x, ¬ in_tables (pg_mem s) root x → (∀ q, q ∈ l → ¬ in_page q x) →
    pg_mem s' x = pg_mem s x;
}.

Lemma grows_evolves root s l s' l' : grows root s l s' l' → evolves root s l s' l'.
Proof. intros []. by split. Qed.

Lemma evolves_trans root s1 l1 s2 l2 s3 l3 :
  evolves root s1 l1 s2 l2 → evolves root s2 l2 s3 l3 → evolves root s1 l1 s3 l3.
Proof.
  intros [A1 [n1 A2] A4 A6] [B1 [n2 B2] B4 B6]. subst l1 l2.
  split; [done|exists (n1 ++ n2); by rewrite app_assoc|..].
  - intros p t Hp [H|H]%B4; [by apply A4|right; apply elem_of_app; by right|done].
  - intros x Hx Hl. rewrite B6, A6; [done|done|done|..].
    + intros (p & t & Hp & Ht & Hin). destruct (A4 p t Hp Ht) as [H|H].
      * apply Hx. by exists p, t.
      * by apply (Hl t).
    + intros q Hq. apply Hl, elem_of_app. by right.
Qed.

Lemma set_pte_evolves s root l va a v :
  space s root l → 0 ≤ va < MAXVA → slot (pg_mem s) root va = Some a →
  evolves root s l (pg_set_mem (st64 (pg_mem s) a v) s) l.
Proof.
  intros Hs Hva Ha. split; [by eapply set_pte_space|by exists []|..]; rewrite ?pg_get_set.
  - intros p t Hp. erewrite set_pte_node by done. by left.
  - intros x Hx _. apply st64_other. intros Hx'. apply Hx.
    eapply slot_in_tables; [|done|done]. lia.
Qed.

(** The PTE that [mappages] writes for the page [pa]. *)
Definition mk_entry (pa perm : Z) : Z := Z.lor (Z.lor (PA2PTE pa) perm) PTE_V.

Lemma lor_V_range perm : 0 ≤ perm < 1024 → 0 ≤ Z.lor perm PTE_V < 1024.
Proof.
  intros. split; [apply Z.lor_nonneg; unfold PTE_V; lia|].
  destruct (decide (Z.lor perm PTE_V = 0)) as [->|Hne]; [lia|].
  change 1024 with (2 ^ 10). apply Z.log2_lt_pow2.
  { assert (0 ≤ Z.lor perm PTE_V); [apply Z.lor_nonneg; unfold PTE_V; lia|lia]. }
  rewrite Z.log2_lor by (unfold PTE_V; lia). apply Z.max_lub_lt; [|unfold PTE_V; cbn; lia].
  destruct (decide (perm = 0)) as [->|]; [cbn; lia|]. apply Z.log2_lt_pow2; lia.
Qed.

Lemma mk_entry_eq pa perm :
  page_ok pa → 0 ≤ perm < 1024 → mk_entry pa perm = PA2PTE pa + Z.lor perm PTE_V.
Proof.
  intros Hp Hperm. unfold mk_entry. rewrite <- Z.lor_assoc.
  apply mk_pte; [done|]. by apply lor_V_range.
Qed.

Lemma mk_entry_range pa perm : page_ok pa → 0 ≤ perm < 1024 → 0 ≤ mk_entry pa perm < 2 ^ 64.
Proof. intros. rewrite mk_entry_eq by done. apply pte_range; [done|]. by apply lor_V_range. Qed.

Lemma mk_entry_V pa perm : page_ok pa → 0 ≤ perm < 1024 → has (mk_entry pa perm) PTE_V = true.
Proof.
  intros. rewrite mk_entry_eq by done. apply has_V; [done|by apply lor_V_range|].
  rewrite <- Z.bit0_odd, Z.lor_spec. change (Z.testbit PTE_V 0) with true. apply orb_true_r.
Qed.

Lemma mk_entry_pa pa perm : page_ok pa → 0 ≤ perm < 1024 → PTE2PA (mk_entry pa perm) = pa.
Proof. intros. rewrite mk_entry_eq by done. apply pte_pa; [done|]. by apply lor_V_range. Qed.

Lemma mk_entry_U pa perm :
  page_ok pa → 0 ≤ perm < 1024 → has (mk_entry pa perm) PTE_U = Z.testbit perm 4.
Proof.
  intros. rewrite mk_entry_eq by done. change PTE_U with (2 ^ 4).
  rewrite has_flag by (done || by apply lor_V_range || lia).
  rewrite Z.lor_spec. change (Z.testbit PTE_V 4) with false. apply orb_false_r.
Qed.

(** ** mappages *)

(** The mapping after the pages [vpn, vpn + n] were mapped to [pa, ...]. *)
Definition mapped (m : mem) (root vpn n pa perm va : Z) : option Z :=
  if (vpn <=? va / PGSIZE) && (va / PGSIZE <=? vpn + n)
  then Some (mk_entry (pa + (va / PGSIZE - vpn) * PGSIZE) perm)
  else entry m root va.

(** Pages that tables for the pages [vpn .. vpn + n] can take: two for each 2 MB. *)
Definition table_pages (vpn n : Z) : Z := 2 * ((vpn + n) / 512 - vpn / 512 + 1).
Definition mappages_post (root vpn n pa perm : Z) (s : S) (l : list Z)
    (res : outcome (Z * S)) : Prop :=
  ∃ r s' l', res = Done (r, s') ∧ evolves root s l s' l' ∧
    ((r = 0 ∧ Z.of_nat (length l) ≤ Z.of_nat (length l') + table_pages vpn n ∧ ∀ va, 0 ≤ va < MAXVA →
        entry (pg_mem s') root va = mapped (pg_mem s) root vpn n pa perm va) ∨
     (r = -1 ∧ l' = [] ∧ Z.of_nat (length l) < table_pages vpn n)).

(** [walk] with allocation takes pages only where a table is missing. *)
Lemma walk_slot root a s l :
  space s root l → 0 ≤ a < MAXVA →
  ∃ r s' l', walk root a true s = Done (r, s') ∧ grows root s l s' l' ∧
    ((r = 0 ∧ l' = [] ∧ (length l < 2)%nat ∧ slot (pg_mem s) root a = None) ∨
     (r ≠ 0 ∧ slot (pg_mem s') root a = Some r ∧ (length l ≤ length l' + 2)%nat ∧
      (is_Some (slot (pg_mem s) root a) → l' = l))).
Proof.
  intros Hs Ha. destruct (slot (pg_mem s) root a) as [b|] eqn:Hb.
  - exists b, s, l. rewrite (walk_hit _ _ _ _ b) by done. split; [done|]. split; [by apply grows_refl|]. right.
    pose proof (slot_nonzero _ _ _ _ (proj1 Ha) (sp_tree _ _ _ Hs) Hb). split; [lia|]. split; [done|]. by split; [lia|].
  - destruct (walk_alloc root a s l Hs Ha) as (r & s' & l' & -> & Hg & Hr). exists r, s', l'. split; [done|]. split; [done|].
    destruct Hr as [(? & ? & ?)|(? & ? & ?)]; [by left|right]. by split_and!.
Qed.

(** One iteration of the loop: out of pages, or the page is mapped. *)
Lemma mappages_step fuel root a last pa perm s l :
  space s root l → 0 ≤ a < MAXVA → entry (pg_mem s) root a = None →
  page_ok pa → 0 ≤ perm < 1024 →
  ∃ s' l', evolves root s l s' l' ∧
    ((l' = [] ∧ (length l < 2)%nat ∧ slot (pg_mem s) root a = None ∧
      mappages_loop (Datatypes.S fuel) root a last pa perm s = Done (-1, s')) ∨
     (is_Some (slot (pg_mem s') root a) ∧ (length l ≤ length l' + 2)%nat ∧
      (is_Some (slot (pg_mem s) root a) → l' = l) ∧
      (∀ va, 0 ≤ va < MAXVA →
        entry (pg_mem s') root va = mapped (pg_mem s) root (a / PGSIZE) 0 pa perm va) ∧
      mappages_loop (Datatypes.S fuel) root a last pa perm s =
      if a =? last then Done (0, s')
      else mappages_loop fuel root (u64 (a + PGSIZE)) last (u64 (pa + PGSIZE)) perm s')).
Proof.
  intros Hs Ha Hnone Hpa Hperm. cbn [mappages_loop]. unfold mbind, M_bind.
  destruct (walk_slot root a s l Hs Ha) as (r & s1 & l1 & -> & Hg & Hr).
  destruct Hr as [(-> & -> & Hl & Hsn)|(Hr0 & Hslot & Hlen & Hsame)].
  { exists s1, []. split; [by apply grows_evolves|by left]. }
  apply Z.eqb_neq in Hr0 as ->. unfold rd64, gets.
  assert (has (ld64 (pg_mem s1) r) PTE_V = false) as ->.
  { pose proof (gr_entry _ _ _ _ _ Hg a (proj1 Ha)) as He. rewrite Hnone in He.
    unfold entry in He. rewrite Hslot in He. cbn in He. by destruct (has _ _). }
  unfold wr64, modify. change (Z.lor (Z.lor (PA2PTE pa) perm) PTE_V) with (mk_entry pa perm).
  exists (pg_set_mem (st64 (pg_mem s1) r (mk_entry pa perm)) s1), l1. split.
  { eapply evolves_trans; [by apply grows_evolves|]. eapply set_pte_evolves; [apply Hg|done..]. }
  right. pose proof (mk_entry_range pa perm Hpa Hperm).
  split. { rewrite pg_get_set, (set_pte_slot s1 root l1 a r) by (done || apply Hg || lia). by rewrite Hslot. }
  split; [done|]. split; [done|]. split; [|by destruct (a =? last)].
  intros va Hva. rewrite pg_get_set. unfold mapped.
  destruct (decide (va / PGSIZE = a / PGSIZE)) as [He|He].
  - rewrite (set_pte_entry_same s1 root l1 a r) by (done || apply Hg || lia).
    rewrite mk_entry_V by done.
    rewrite He, Z.add_0_r, !Z.leb_refl. cbn. by rewrite Z.sub_diag, Z.add_0_r.
  - rewrite (set_pte_entry_other s1 root l1 a r) by (done || apply Hg || lia).
    rewrite (gr_entry _ _ _ _ _ Hg) by lia.
    destruct ((a / PGSIZE <=? va / PGSIZE) && (va / PGSIZE <=? a / PGSIZE + 0)) eqn:E; [|done].
    bool_arith. lia.
Qed.

(** Mapping one page and then the [n] that follow it is mapping [n + 1]. *)
Lemma mapped_succ m m' root vpn n pa perm va :
  0 ≤ n → entry m' root va = mapped m root vpn 0 pa perm va →
  mapped m' root (vpn + 1) n (pa + PGSIZE) perm va = mapped m root vpn (n + 1) pa perm va.
Proof.
  intros Hn He. unfold mapped in *. rewrite He. set (v := va / PGSIZE).
  destruct (Z.leb_spec vpn v), (Z.leb_spec (vpn + 1) v), (Z.leb_spec v (vpn + 1 + n)),
    (Z.leb_spec v (vpn + (n + 1))), (Z.leb_spec v (vpn + 0)); cbn; try lia; try done.
  f_equal. f_equal. lia.
Qed.

(** The tables that [n + 1] pages from [a] on still need. *)
Definition missing (m : mem) (root a n : Z) : Z :=
  match slot m root a with
  | Some _ => table_pages (a / PGSIZE) n - 2
  | None => table_pages (a / PGSIZE) n
  end.
Lemma missing_next m root a n :
  0 ≤ a → is_Some (slot m root a) → 0 ≤ n → missing m root (a + PGSIZE) n ≤ table_pages (a / PGSIZE) (n + 1) - 2.
Proof.
  intros Ha Hs Hn. unfold missing, table_pages. assert ((a + PGSIZE) / PGSIZE = a / PGSIZE + 1) as -> by (unfold PGSIZE; dlia).
  replace (a / PGSIZE + 1 + n) with (a / PGSIZE + (n + 1)) by lia.
  destruct (decide (a / 2 ^ 21 = (a + PGSIZE) / 2 ^ 21)) as [He|Hne].
  - destruct (slot_same_table m root a (a + PGSIZE) Ha ltac:(unfold PGSIZE; lia) He Hs) as [b ->].
    assert ((a / PGSIZE) / 512 ≤ (a / PGSIZE + 1) / 512) by (apply Z.div_le_mono; lia). lia.
  - assert ((a / PGSIZE + 1) / 512 = a / PGSIZE / 512 + 1) by (unfold PGSIZE in *; dlia).
    destruct (slot m root (a + PGSIZE)); lia.
Qed.

Lemma mappages_loop_count n fuel root a pa perm s l :
  space s root l → a mod PGSIZE = 0 → 0 ≤ a → a + Z.of_nat n * PGSIZE < MAXVA →
  (∀ va, 0 ≤ va < MAXVA → a / PGSIZE ≤ va / PGSIZE ≤ a / PGSIZE + Z.of_nat n →
     entry (pg_mem s) root va = None) →
  page_ok pa → pa + Z.of_nat n * PGSIZE + PGSIZE ≤ 2 ^ 56 → 0 ≤ perm < 1024 → (n < fuel)%nat →
  ∃ r s' l', mappages_loop fuel root a (a + Z.of_nat n * PGSIZE) pa perm s = Done (r, s') ∧ evolves root s l s' l' ∧
    ((r = 0 ∧ Z.of_nat (length l) ≤ Z.of_nat (length l') + missing (pg_mem s) root a (Z.of_nat n) ∧
      ∀ va, 0 ≤ va < MAXVA →
        entry (pg_mem s') root va = mapped (pg_mem s) root (a / PGSIZE) (Z.of_nat n) pa perm va) ∨
     (r = -1 ∧ l' = [] ∧ Z.of_nat (length l) < missing (pg_mem s) root a (Z.of_nat n))).
Proof.
  revert fuel a pa s l.
  induction n as [|n IH]; intros [|fuel] a pa s l Hs Hal Ha Hmax Hnone Hpa Hpab Hperm Hf; try lia.
  all: assert (0 ≤ a < MAXVA) as Hav by (unfold PGSIZE in *; lia).
  all: assert (entry (pg_mem s) root a = None) as Hna by (apply Hnone; lia).
  - assert (table_pages (a / PGSIZE) (Z.of_nat 0) = 2) as Ht by (unfold table_pages; rewrite Z.add_0_r; lia).
    destruct (mappages_step fuel root a (a + Z.of_nat 0 * PGSIZE) pa perm s l)
      as (s' & l' & Hev & [(-> & Hl & Hn & ->)|(_ & Hl & Hsame & Hent & ->)]); try done.
    + exists (-1), s', []. split_and!; [done..|right]. unfold missing. rewrite Hn, Ht. split_and!; [done..|lia].
    + rewrite Z.mul_0_l, Z.add_0_r, Z.eqb_refl. exists 0, s', l'. split_and!; [done..|left]. split_and!; [done| |done].
      unfold missing. rewrite Ht. destruct (slot (pg_mem s) root a); [rewrite Hsame by done|]; lia.
  - destruct (mappages_step fuel root a (a + Z.of_nat (Datatypes.S n) * PGSIZE) pa perm s l)
      as (s2 & l2 & Hev & [(-> & Hl & Hn & ->)|(Hsl & Hl & Hsame & Hent & ->)]); try done.
    { exists (-1), s2, []. split_and!; [done..|right]. split_and!; [done..|]. unfold missing. rewrite Hn.
      unfold table_pages. assert (a / PGSIZE / 512 ≤ (a / PGSIZE + Z.of_nat (Datatypes.S n)) / 512) by (apply Z.div_le_mono; lia). lia. }
    destruct (Z.eqb_spec a (a + Z.of_nat (Datatypes.S n) * PGSIZE)) as [He|_]; [unfold PGSIZE in *; lia|].
    assert (a + Z.of_nat (Datatypes.S n) * PGSIZE = a + PGSIZE + Z.of_nat n * PGSIZE) as -> by (unfold PGSIZE; lia).
    rewrite (u64_small (a + PGSIZE)), (u64_small (pa + PGSIZE))
      by (change MAXVA with (2 ^ 38) in *; destruct Hpa as (? & ? & ?); unfold PGSIZE in *; lia).
    assert ((a + PGSIZE) / PGSIZE = a / PGSIZE + 1) as Hdiv by (unfold PGSIZE in *; dlia).
    pose proof (missing_next (pg_mem s2) root a (Z.of_nat n) ltac:(lia) Hsl ltac:(lia)) as Hmiss.
    replace (Z.of_nat n + 1) with (Z.of_nat (Datatypes.S n)) in Hmiss by lia.
    assert (Z.of_nat (length l) - Z.of_nat (length l2) + table_pages (a / PGSIZE) (Z.of_nat (Datatypes.S n)) - 2 ≤
      missing (pg_mem s) root a (Z.of_nat (Datatypes.S n))) as Hm.
    { unfold missing. destruct (slot (pg_mem s) root a); [rewrite Hsame by done|]; lia. }
    destruct (IH fuel (a + PGSIZE) (pa + PGSIZE) s2 l2) as (r' & s' & l' & Hrun & Hev' & Hres);
      try (unfold PGSIZE in *; lia).
    + apply Hev.
    + unfold PGSIZE in *. dlia.
    + intros va Hva Hin. rewrite Hdiv in Hin. rewrite Hent by lia. unfold mapped.
      destruct (_ && _) eqn:E; [bool_arith; lia|]. apply Hnone; lia.
    + destruct Hpa as (? & ? & ?). unfold page_ok, PGSIZE in *. dlia.
    + exists r', s', l'. split_and!; [done|by eapply evolves_trans|].
      destruct Hres as [(-> & Hc & He)|(-> & -> & Hc)]; [left|right; split_and!; [done..|lia]].
      split; [done|]. split; [lia|]. intros va Hva. rewrite He, Hdiv by done.
      rewrite (mapped_succ (pg_mem s)) by (lia || by apply Hent). f_equal. lia.
Qed.
Lemma mappages_loop_spec n fuel root a pa perm s l :
  space s root l → a mod PGSIZE = 0 → 0 ≤ a → a + Z.of_nat n * PGSIZE < MAXVA →
  (∀ va, 0 ≤ va < MAXVA → a / PGSIZE ≤ va / PGSIZE ≤ a / PGSIZE + Z.of_nat n →
     entry (pg_mem s) root va = None) →
  page_ok pa → pa + Z.of_nat n * PGSIZE + PGSIZE ≤ 2 ^ 56 → 0 ≤ perm < 1024 → (n < fuel)%nat →
  mappages_post root (a / PGSIZE) (Z.of_nat n) pa perm s l
    (mappages_loop fuel root a (a + Z.of_nat n * PGSIZE) pa perm s).
Proof.
  intros Hs Hal Ha Hmax Hnone Hpa Hpab Hperm Hf.
  destruct (mappages_loop_count n fuel root a pa perm s l) as (r & s' & l' & E & Hev & Hres); try done.
  exists r, s', l'. split; [done|]. split; [done|].
  assert (missing (pg_mem s) root a (Z.of_nat n) ≤ table_pages (a / PGSIZE) (Z.of_nat n)) by (unfold missing; destruct (slot _ _ _); lia).
  destruct Hres as [(-> & ? & ?)|(-> & -> & ?)]; [left; split_and!; [done|lia|done]|right; split_and!; [done..|lia]].
Qed.

(** ** walkAddr *)

(** What a user access to [va] translates to, 0 if it faults. *)
Definition translate (m : mem) (root va : Z) : Z :=
  if MAXVA <=? va then 0
  else match entry m root va with
       | Some e => if has e PTE_U then PTE2PA e else 0
       | None => 0
       end.

Lemma walkAddr_spec root va s :
  tree (pg_mem s) root → 0 ≤ va → walkAddr root va s = Done (translate (pg_mem s) root va, s).
Proof.
  intros Htr Hva. unfold walkAddr, translate. destruct (Z.leb_spec MAXVA va); [done|].
  unfold mbind, M_bind. rewrite walk_noalloc by lia. unfold entry.
  destruct (slot (pg_mem s) root va) as [a|] eqn:Ha; cbn; [|done].
  apply slot_nonzero in Ha as Hpos; [|done..].
  destruct (Z.eqb_spec a 0) as [->|_]; [lia|]. unfold rd64, gets.
  destruct (has (ld64 (pg_mem s) a) PTE_V); cbn; [|done].
  by destruct (has (ld64 (pg_mem s) a) PTE_U).
Qed.

(** The physical address of the user byte at [va]. *)
Definition phys (m : mem) (root va : Z) : option Z :=
  let p := translate m root va in
  if p =? 0 then None else Some (p + va mod PGSIZE).

Lemma entry_page m root va va' :
  0 ≤ va → 0 ≤ va' → va / PGSIZE = va' / PGSIZE → entry m root va = entry m root va'.
Proof.
  intros Hv Hv' H. unfold entry, slot, vpath.
  by rewrite (PX_page 2 va va'), (PX_page 1 va va'), (PX_page 0 va va') by (done || lia).
Qed.

Lemma translate_page m root va va' :
  0 ≤ va → 0 ≤ va' → va / PGSIZE = va' / PGSIZE → translate m root va = translate m root va'.
Proof.
  intros Hv Hv' H. unfold translate. rewrite (entry_page m root va va') by done.
  assert ((MAXVA <=? va) = (MAXVA <=? va')) as ->; [|done].
  change MAXVA with (2 ^ 38). unfold PGSIZE in *.
  destruct (Z.leb_spec (2 ^ 38) va), (Z.leb_spec (2 ^ 38) va'); dlia.
Qed.

Lemma phys_frame m m' root va :
  0 ≤ va → (∀ x, in_tables m root x → m' x = m x) → phys m' root va = phys m root va.
Proof.
  intros Hva Hag. unfold phys, translate. by rewrite (entry_frame m m') by done.
Qed.

(** [va], in its page, the page's translation and the bytes up to its end. *)
Lemma phys_chunk m root va i :
  0 ≤ va → 0 ≤ i < PGSIZE - va mod PGSIZE →
  phys m root (va + i) =
    let p := translate m root (PGROUNDDOWN va) in
    if p =? 0 then None else Some (p + va mod PGSIZE + i).
Proof.
  intros Hva Hi. unfold phys. rewrite MemAllocator.PGROUNDDOWN_spec.
  rewrite (translate_page m root (va + i) (va - va mod PGSIZE)) by (unfold PGSIZE in *; dlia).
  destruct (_ =? 0); [done|]. f_equal.
  replace ((va + i) mod PGSIZE) with (va mod PGSIZE + i) by (unfold PGSIZE in *; dlia). lia.
Qed.

(** ** copyout *)

(** A user range is [safe] when the bytes it is mapped to are neither in the
    page tables, nor free, nor in the kernel buffer [buf, buf + len). *)
Definition safe_range (s : S) (root : Z) (l : list Z) (va buf len : Z) : Prop :=
  ∀ i x, 0 ≤ i < len → phys (pg_mem s) root (va + i) = Some x →
    ¬ in_tables (pg_mem s) root x ∧ (∀ q, q ∈ l → ¬ in_page q x) ∧ ¬ (buf ≤ x < buf + len).

(** No byte of the range is mapped twice. *)
Definition unaliased (m : mem) (root va len : Z) : Prop :=
  ∀ i j x, 0 ≤ i < len → 0 ≤ j < len →
    phys m root (va + i) = Some x → phys m root (va + j) = Some x → i = j.

Definition all_mapped (m : mem) (root va len : Z) : Prop :=
  ∀ i, 0 ≤ i < len → phys m root (va + i) ≠ None.

(** User memory [va, va + len) received the kernel bytes at [src]. *)
Definition copied_out (m m' : mem) (root va src len : Z) : Prop :=
  (∀ i x, 0 ≤ i < len → phys m root (va + i) = Some x → m' x = m (src + i)) ∧
  (∀ x, (∀ i, 0 ≤ i < len → phys m root (va + i) ≠ Some x) → m' x = m x).

Definition copyout_post (root va src len : Z) (s : S) (l : list Z) (res : outcome (Z * S)) : Prop :=
  ∃ r s', res = Done (r, s') ∧ space s' root l ∧
    (∀ x, in_tables (pg_mem s) root x → pg_mem s' x = pg_mem s x) ∧
    ((r = 0 ∧ all_mapped (pg_mem s) root va len ∧ copied_out (pg_mem s) (pg_mem s') root va src len) ∨
     (r = -1 ∧ ¬ all_mapped (pg_mem s) root va len)).

(** The number of bytes one iteration copies. *)
Definition chunk (va len : Z) : Z :=
  let n := PGSIZE - (va - PGROUNDDOWN va) in if len <? n then len else n.

Lemma chunk_spec va len :
  0 ≤ va → 0 < len → 0 < chunk va len ≤ len ∧ chunk va len ≤ PGSIZE - va mod PGSIZE ∧
  u32 (chunk va len) = chunk va len.
Proof.
  intros Hva Hlen. unfold chunk. rewrite MemAllocator.PGROUNDDOWN_spec.
  assert (0 ≤ va mod PGSIZE < PGSIZE) by (unfold PGSIZE; dlia).
  destruct (Z.ltb_spec len (PGSIZE - (va - (va - va mod PGSIZE)))); split_and!; try lia;
    apply u32_small; unfold PGSIZE in *; lia.
Qed.

(** The state after copying one chunk to user page [p]. *)
Lemma copyout_chunk s root l va src len p :
  space s root l → 0 ≤ va → 0 < len → safe_range s root l va src len →
  translate (pg_mem s) root (PGROUNDDOWN va) = p → p ≠ 0 →
  let n := chunk va len in
  let m1 := memmove (pg_mem s) (p + va mod PGSIZE) src n in
  space (pg_set_mem m1 s) root l ∧
  (∀ x, in_tables (pg_mem s) root x → m1 x = pg_mem s x) ∧
  (∀ x, src ≤ x < src + len → m1 x = pg_mem s x) ∧
  (∀ i, 0 ≤ i < n → phys (pg_mem s) root (va + i) = Some (p + va mod PGSIZE + i)) ∧
  (∀ i, 0 ≤ i < n → m1 (p + va mod PGSIZE + i) = pg_mem s (src + i)) ∧
  (∀ x, (∀ i, 0 ≤ i < n → phys (pg_mem s) root (va + i) ≠ Some x) → m1 x = pg_mem s x).
Proof.
  intros Hs Hva Hlen Hsafe Hp Hp0 n m1.
  destruct (chunk_spec va len Hva Hlen) as (Hn & Hnp & Hu). fold n in Hn, Hnp, Hu.
  assert (∀ i, 0 ≤ i < n → phys (pg_mem s) root (va + i) = Some (p + va mod PGSIZE + i)) as Hphys.
  { intros i Hi. rewrite phys_chunk, Hp by lia. cbn. by apply Z.eqb_neq in Hp0 as ->. }
  assert (∀ x, (∀ i, 0 ≤ i < n → phys (pg_mem s) root (va + i) ≠ Some x) → m1 x = pg_mem s x) as Hout.
  { intros x Hx. unfold m1. apply memmove_out. rewrite Hu. intros Hx'.
    apply (Hx (x - (p + va mod PGSIZE))); [lia|]. rewrite Hphys by lia. f_equal. lia. }
  assert (∀ x, in_tables (pg_mem s) root x → m1 x = pg_mem s x) as Htab.
  { intros x Hx. apply Hout. intros i Hi Heq. by destruct (Hsafe i x ltac:(lia) Heq). }
  split_and!; [|done| |done| |done].
  - apply space_set_mem; [done|apply memmove_ok; eapply pg_inv_mem, Hs|done|].
    intros q x Hq Hx. apply Hout. intros i Hi Heq.
    destruct (Hsafe i x ltac:(lia) Heq) as (_ & Hfree & _). by apply (Hfree q).
  - intros x Hx. apply Hout. intros i Hi Heq. by destruct (Hsafe i x ltac:(lia) Heq) as (_ & _ & ?).
  - intros i Hi. unfold m1. rewrite memmove_lookup, Hu. range_case; f_equal; lia.
Qed.

Lemma safe_range_shift s s' root l va src len n :
  (∀ x, in_tables (pg_mem s) root x → pg_mem s' x = pg_mem s x) →
  (∀ x, in_tables (pg_mem s') root x → pg_mem s x = pg_mem s' x) →
  0 ≤ va → 0 ≤ n ≤ len → safe_range s root l va src len →
  safe_range s' root l (va + n) (src + n) (len - n).
Proof.
  intros Hag Hag' Hva Hn Hsafe i x Hi Hx.
  rewrite (phys_frame (pg_mem s)) in Hx by (done || lia).
  rewrite <- Z.add_assoc in Hx. destruct (Hsafe (n + i) x ltac:(lia) Hx) as (H1 & H2 & H3).
  split_and!; [|done|lia]. intros (p & t & Hp & Ht & Hin). apply H1.
  exists p, t. split_and!; [done| |done]. by rewrite (node_frame (pg_mem s)) in Ht.
Qed.

Lemma in_tables_agree m m' root x :
  (∀ x, in_tables m root x → m' x = m x) → in_tables m' root x ↔ in_tables m root x.
Proof.
  intros Hag. split; intros (p & t & Hp & Ht & Hin); exists p, t;
    (split_and!; [done| |done]); [by rewrite (node_frame m m') in Ht|by rewrite (node_frame m m')].
Qed.

(** Copying a prefix and then the rest is copying the whole range. *)
Lemma copied_out_app m m1 m2 root va src n len :
  0 ≤ n ≤ len → unaliased m root va len →
  (∀ x, src ≤ x < src + len → m1 x = m x) →
  (∀ j, 0 ≤ j → phys m1 root (va + j) = phys m root (va + j)) →
  copied_out m m1 root va src n → copied_out m1 m2 root (va + n) (src + n) (len - n) →
  copied_out m m2 root va src len.
Proof.
  intros Hn Hun Hsrc Hph [Ha1 Ha2] [Hb1 Hb2].
  assert (∀ j, 0 ≤ j → phys m1 root (va + n + j) = phys m root (va + (n + j))) as Hph'.
  { intros j Hj. rewrite <- Z.add_assoc. apply Hph. lia. }
  split.
  - intros i x Hi Hx. destruct (decide (i < n)) as [Hlt|Hge].
    + rewrite Hb2; [apply Ha1; [lia|done]|]. intros j Hj. rewrite Hph' by lia. intros Hxj.
      pose proof (Hun i (n + j) x ltac:(lia) ltac:(lia) Hx Hxj). lia.
    + rewrite (Hb1 (i - n) x); [|lia|].
      * rewrite Hsrc by lia. f_equal. lia.
      * rewrite Hph' by lia. by replace (n + (i - n)) with i by lia.
  - intros x Hx. rewrite Hb2.
    + apply Ha2. intros i Hi. apply Hx. lia.
    + intros j Hj. rewrite Hph' by lia. apply Hx. lia.
Qed.

Lemma copyout_loop_spec fuel root va src len s l :
  space s root l → 0 ≤ va → 0 ≤ len → va + len < 2 ^ 64 → len < Z.of_nat fuel →
  safe_range s root l va src len → unaliased (pg_mem s) root va len →
  copyout_post root va src len s l (copyout fuel root va src len s).
Proof.
  revert va src len s. induction fuel as [|fuel IH]; intros va src len s Hs Hva Hlen Hmax Hf Hsafe Hun; [lia|].
  cbn [copyout]. destruct (Z.ltb_spec 0 len) as [Hpos|Hz].
  2: { exists 0, s. split_and!; [done..|]. left. split_and!; [done| |].
       - intros i Hi. lia.
       - split; [intros; lia|done]. }
  unfold mbind at 1, M_bind at 1.
  rewrite walkAddr_spec by (apply Hs || (rewrite MemAllocator.PGROUNDDOWN_spec; unfold PGSIZE; dlia)).
  set (p := translate (pg_mem s) root (PGROUNDDOWN va)).
  destruct (chunk_spec va len Hva Hpos) as (Hn & Hnp & Hu).
  destruct (Z.eqb_spec p 0) as [Hp0|Hp0].
  { exists (-1), s. split_and!; [done..|]. right. split; [done|]. intros Hall.
    apply (Hall 0); [lia|]. rewrite phys_chunk by lia. fold p. cbn. by rewrite Hp0. }
  destruct (copyout_chunk s root l va src len p Hs Hva Hpos Hsafe eq_refl Hp0)
    as (Hs1 & Htab & Hsrc & Hphys & Hin & Hout).
  fold (chunk va len). set (n := chunk va len) in *.
  replace (va - PGROUNDDOWN va) with (va mod PGSIZE) by (rewrite MemAllocator.PGROUNDDOWN_spec; lia).
  unfold mbind, M_bind, kmemmove, modify.
  set (m1 := memmove (pg_mem s) (p + va mod PGSIZE) src n) in *. set (s1 := pg_set_mem m1 s) in *.
  assert (pg_mem s1 = m1) as Hm1 by apply pg_get_set.
  assert (∀ x, in_tables (pg_mem s1) root x → pg_mem s x = pg_mem s1 x) as Htab'.
  { intros x Hx. rewrite Hm1 in *. rewrite in_tables_agree in Hx by exact Htab. by rewrite Htab. }
  assert (∀ j, 0 ≤ j → phys (pg_mem s1) root (va + j) = phys (pg_mem s) root (va + j)) as Hph1.
  { intros j Hj. rewrite Hm1. apply phys_frame; [lia|done]. }
  rewrite u64_small by lia.
  destruct (IH (va + n) (src + n) (len - n) s1) as (r & s' & Hrun & Hs' & Htabs & Hres); try lia.
  - done.
  - eapply safe_range_shift; [|exact Htab'|lia|lia|done]. by rewrite Hm1.
  - intros i j x Hi Hj. rewrite <- !Z.add_assoc, !Hph1 by lia. intros Hxi Hxj.
    assert (n + i = n + j); [|lia]. by apply (Hun (n + i) (n + j) x); [lia..| |].
  - exists r, s'. split_and!; [done|done| |].
    { intros x Hx. rewrite Htabs, Hm1; [by apply Htab|]. rewrite Hm1. by rewrite in_tables_agree. }
    destruct Hres as [(-> & Hall & Hc1 & Hc2)|(-> & Hnall)]; [left|right]; (split; [done|]).
    2: { intros Hall. apply Hnall. intros i Hi. rewrite <- Z.add_assoc, Hph1 by lia. apply Hall. lia. }
    rewrite Hm1 in *. split.
    + intros i Hi. destruct (decide (i < n)) as [Hlt|Hge]; [by rewrite Hphys by lia|].
      specialize (Hall (i - n) ltac:(lia)). rewrite <- Z.add_assoc, Hph1 in Hall by lia.
      by replace (n + (i - n)) with i in Hall by lia.
    + apply (copied_out_app _ m1 _ _ _ _ n); [lia|done|done|done| |by split].
      split; [|done].
      intros i x Hi Hx. rewrite Hphys in Hx by done. injection Hx as <-. by apply Hin.
Qed.

(** ** copyin *)

(** A kernel buffer [buf, buf + len) is usable when it meets neither the page
    tables, nor a free page, nor the bytes that user range [va] maps to. *)
Definition safe_buf (s : S) (root : Z) (l : list Z) (va buf len : Z) : Prop :=
  ∀ y, buf ≤ y < buf + len →
    ¬ in_tables (pg_mem s) root y ∧ (∀ q, q ∈ l → ¬ in_page q y) ∧
    (∀ i, 0 ≤ i < len → phys (pg_mem s) root (va + i) ≠ Some y).

(** The kernel buffer received the user bytes of [va, va + len). *)
Definition copied_in (m m' : mem) (root va dst len : Z) : Prop :=
  (∀ i x, 0 ≤ i < len → phys m root (va + i) = Some x → m' (dst + i) = m x) ∧
  (∀ x, ¬ (dst ≤ x < dst + len) → m' x = m x).

Definition copyin_post (root va dst len : Z) (s : S) (l : list Z) (res : outcome (Z * S)) : Prop :=
  ∃ r s', res = Done (r, s') ∧ space s' root l ∧
    (∀ x, ¬ (dst ≤ x < dst + len) → pg_mem s' x = pg_mem s x) ∧
    ((r = 0 ∧ all_mapped (pg_mem s) root va len ∧ copied_in (pg_mem s) (pg_mem s') root va dst len) ∨
     (r = -1 ∧ ¬ all_mapped (pg_mem s) root va len)).

(** Writing inside a usable buffer preserves the address space. *)
Lemma safe_buf_space s root l va dst len m1 :
  space s root l → safe_buf s root l va dst len → mem_ok m1 →
  (∀ x, ¬ (dst ≤ x < dst + len) → m1 x = pg_mem s x) → space (pg_set_mem m1 s) root l.
Proof.
  intros Hs Hbuf Hm Hout. apply space_set_mem; [done|done|..].
  - intros x Hx. apply Hout. intros Hx'. by destruct (Hbuf x Hx') as [? _].
  - intros q x Hq Hx. apply Hout. intros Hx'. destruct (Hbuf x Hx') as (_ & Hfree & _). by apply (Hfree q).
Qed.

Lemma safe_buf_shift s s' root l va dst len n :
  (∀ x, in_tables (pg_mem s) root x → pg_mem s' x = pg_mem s x) →
  0 ≤ va → 0 ≤ n ≤ len → safe_buf s root l va dst len →
  safe_buf s' root l (va + n) (dst + n) (len - n).
Proof.
  intros Hag Hva Hn Hbuf y Hy. destruct (Hbuf y ltac:(lia)) as (H1 & H2 & H3).
  split_and!; [by rewrite in_tables_agree|done|].
  intros i Hi. rewrite (phys_frame (pg_mem s)), <- Z.add_assoc by (done || lia). apply H3. lia.
Qed.

Lemma copied_in_app m m1 m2 root va dst n len :
  0 ≤ n ≤ len →
  (∀ j x, 0 ≤ j < len → phys m root (va + j) = Some x → ¬ (dst ≤ x < dst + len)) →
  (∀ j, 0 ≤ j → phys m1 root (va + j) = phys m root (va + j)) →
  copied_in m m1 root va dst n → copied_in m1 m2 root (va + n) (dst + n) (len - n) →
  copied_in m m2 root va dst len.
Proof.
  intros Hn Hsep Hph [Ha1 Ha2] [Hb1 Hb2]. split.
  - intros i x Hi Hx. destruct (decide (i < n)) as [Hlt|Hge].
    + rewrite Hb2 by lia. apply Ha1; [lia|done].
    + replace (dst + i) with (dst + n + (i - n)) by lia. rewrite (Hb1 (i - n) x); [|lia|].
      * apply Ha2. specialize (Hsep i x Hi Hx). lia.
      * rewrite <- Z.add_assoc, Hph by lia. by replace (n + (i - n)) with i by lia.
  - intros x Hx. rewrite Hb2, Ha2 by lia. done.
Qed.

Lemma copyin_loop_spec fuel root va dst len s l :
  space s root l → 0 ≤ va → 0 ≤ len → va + len < 2 ^ 64 → len < Z.of_nat fuel →
  safe_buf s root l va dst len →
  copyin_post root va dst len s l (copyin fuel root dst va len s).
Proof.
  revert va dst len s. induction fuel as [|fuel IH]; intros va dst len s Hs Hva Hlen Hmax Hf Hbuf; [lia|].
  cbn [copyin]. destruct (Z.ltb_spec 0 len) as [Hpos|Hz].
  2: { exists 0, s. split_and!; [done..|]. left. split_and!; [done| |].
       - intros i Hi. lia.
       - split; [intros; lia|done]. }
  unfold mbind at 1, M_bind at 1.
  rewrite walkAddr_spec by (apply Hs || (rewrite MemAllocator.PGROUNDDOWN_spec; unfold PGSIZE; dlia)).
  set (p := translate (pg_mem s) root (PGROUNDDOWN va)).
  destruct (chunk_spec va len Hva Hpos) as (Hn & Hnp & Hu).
  destruct (Z.eqb_spec p 0) as [Hp0|Hp0].
  { exists (-1), s. split_and!; [done..|]. right. split; [done|]. intros Hall.
    apply (Hall 0); [lia|]. rewrite phys_chunk by lia. fold p. cbn. by rewrite Hp0. }
  fold (chunk va len). set (n := chunk va len) in *.
  replace (va - PGROUNDDOWN va) with (va mod PGSIZE) by (rewrite MemAllocator.PGROUNDDOWN_spec; lia).
  unfold mbind, M_bind, kmemmove, modify. rewrite u64_small by lia.
  set (m1 := memmove (pg_mem s) dst (p + va mod PGSIZE) n). set (s1 := pg_set_mem m1 s).
  assert (pg_mem s1 = m1) as Hm1 by apply pg_get_set.
  assert (∀ x, ¬ (dst ≤ x < dst + n) → m1 x = pg_mem s x) as Hout.
  { intros x Hx. apply memmove_out. by rewrite Hu. }
  assert (∀ i, 0 ≤ i < n → phys (pg_mem s) root (va + i) = Some (p + va mod PGSIZE + i)) as Hphys.
  { intros i Hi. rewrite phys_chunk by lia. fold p. cbn. by apply Z.eqb_neq in Hp0 as ->. }
  assert (∀ x, in_tables (pg_mem s) root x → pg_mem s1 x = pg_mem s x) as Htab.
  { intros x Hx. rewrite Hm1. apply Hout. intros Hx'. by destruct (Hbuf x ltac:(lia)) as [? _]. }
  assert (∀ j, 0 ≤ j → phys (pg_mem s1) root (va + j) = phys (pg_mem s) root (va + j)) as Hph1.
  { intros j Hj. apply phys_frame; [lia|done]. }
  assert (space s1 root l) as Hs1.
  { eapply safe_buf_space; [done|done|apply memmove_ok; eapply pg_inv_mem, Hs|].
    intros x Hx. apply Hout. lia. }
  destruct (IH (va + n) (dst + n) (len - n) s1) as (r & s' & Hrun & Hs' & Hfr & Hres); try lia.
  - done.
  - eapply safe_buf_shift; [done|lia|lia|done].
  - exists r, s'. split_and!; [done|done| |].
    { intros x Hx. rewrite Hfr, Hm1 by lia. apply Hout. lia. }
    destruct Hres as [(-> & Hall & Hc)|(-> & Hnall)]; [left|right]; (split; [done|]).
    2: { intros Hall. apply Hnall. intros i Hi. rewrite <- Z.add_assoc, Hph1 by lia. apply Hall. lia. }
    rewrite Hm1 in *. split.
    + intros i Hi. destruct (decide (i < n)) as [Hlt|Hge]; [by rewrite Hphys by lia|].
      specialize (Hall (i - n) ltac:(lia)). rewrite <- Z.add_assoc, Hph1 in Hall by lia.
      by replace (n + (i - n)) with i in Hall by lia.
    + apply (copied_in_app _ m1 _ _ _ _ n); [lia| |done| |done].
      * intros j x Hj Hx Hx'. destruct (Hbuf x Hx') as (_ & _ & Hno). by apply (Hno j).
      * split; [|done]. intros i x Hi Hx. rewrite Hphys in Hx by done. injection Hx as <-.
        unfold m1. rewrite memmove_lookup, Hu. range_case; f_equal; lia.
Qed.

(** ** userUnmap *)

(** The page behind [e] may be given back: it is an aligned managed page, not
    free already and not a table. *)
Definition releasable (s : S) (root : Z) (l : list Z) (e : Z) : Prop :=
  page_ok (PTE2PA e) ∧ pg_managed (PTE2PA e) ∧ (PTE2PA e ∉ l) ∧
  (∀ x, in_page (PTE2PA e) x → ¬ in_tables (pg_mem s) root x).

Lemma free_space s root l p :
  space s root l → page_ok p → pg_managed p → p ∉ l →
  (∀ x, in_page p x → ¬ in_tables (pg_mem s) root x) →
  ∃ s', pg_free p s = Done (tt, s') ∧ space s' root (p :: l) ∧
    (∀ x, in_tables (pg_mem s) root x → pg_mem s' x = pg_mem s x) ∧
    same_outside p (pg_mem s) (pg_mem s').
Proof.
  intros Hs Hp Hm Hl Hsep. destruct (pg_free_ok s p l (sp_inv _ _ _ Hs) Hp Hm Hl) as (s' & Hf & Hi & Hout).
  assert (∀ x, in_tables (pg_mem s) root x → pg_mem s' x = pg_mem s x) as Htab.
  { intros x Hx. apply Hout. intros Hx'. by apply (Hsep x). }
  exists s'. split_and!; [done| |done|done]. split; [done|..].
  - apply (tree_frame (pg_mem s)); [done|apply Hs].
  - intros q t Hq. rewrite (node_frame (pg_mem s)) by done. intros Ht.
    intros [->|Hin]%elem_of_cons; [|by eapply (sp_free _ _ _ Hs)].
    apply (Hsep p); [unfold in_page, PGSIZE; lia|]. exists q, p. split_and!; [done..|].
    unfold in_page, PGSIZE. lia.
Qed.

(** Unmapping the page of [a]: the entry is cleared, and with [do_free] its
    page becomes free; an absent mapping is skipped. *)
Lemma unmap_one_spec s root l a do_free :
  space s root l → 0 ≤ a < MAXVA →
  (∀ e, entry (pg_mem s) root a = Some e →
     PTE_FLAGS e ≠ PTE_V ∧ (do_free = true → releasable s root l e)) →
  ∃ s' l', unmap_one root a do_free s = Done (tt, s') ∧ space s' root l' ∧
    l' = (if do_free then match entry (pg_mem s) root a with
                          | Some e => PTE2PA e :: l | None => l end else l) ∧
    (∀ x, in_tables (pg_mem s') root x ↔ in_tables (pg_mem s) root x) ∧
    (∀ va, 0 ≤ va < MAXVA → entry (pg_mem s') root va =
       if (va / PGSIZE =? a / PGSIZE) then None else entry (pg_mem s) root va).
Proof.
  intros Hs Ha Hent. unfold unmap_one, mbind, M_bind. rewrite walk_noalloc by done.
  assert (entry (pg_mem s) root a = None → ∀ va, 0 ≤ va < MAXVA → entry (pg_mem s) root va =
    if (va / PGSIZE =? a / PGSIZE) then None else entry (pg_mem s) root va) as Habsent.
  { intros Hn va Hva. destruct (Z.eqb_spec (va / PGSIZE) (a / PGSIZE)) as [Heq|]; [|done].
    by rewrite (entry_page _ _ va a) by (done || lia). }
  destruct (slot (pg_mem s) root a) as [b|] eqn:Hb; cbn [default].
  2: { assert (entry (pg_mem s) root a = None) as Hn by (unfold entry; by rewrite Hb).
       rewrite Hn in *. exists s, l. split_and!; [done|done|by destruct do_free|done|by apply Habsent]. }
  change (id b) with b. apply slot_nonzero in Hb as Hpos; [|lia|apply Hs].
  destruct (Z.eqb_spec b 0) as [->|_]; [lia|]. unfold rd64, gets.
  assert (entry (pg_mem s) root a =
    if has (ld64 (pg_mem s) b) PTE_V then Some (ld64 (pg_mem s) b) else None) as He.
  { unfold entry. by rewrite Hb. }
  destruct (has (ld64 (pg_mem s) b) PTE_V); cbn [negb].
  2: { rewrite He in *. exists s, l. split_and!; [done|done|by destruct do_free|done|by apply Habsent]. }
  set (e := ld64 (pg_mem s) b) in *. destruct (Hent e He) as [Hfl Hrel].
  apply Z.eqb_neq in Hfl as ->. rewrite He.
  assert (∃ s1 l1, (if do_free then pg_free (PTE2PA e) else mret tt) s = Done (tt, s1) ∧
    space s1 root l1 ∧ l1 = (if do_free then PTE2PA e :: l else l) ∧
    (∀ x, in_tables (pg_mem s) root x → pg_mem s1 x = pg_mem s x)) as (s1 & l1 & -> & Hs1 & -> & Htab).
  { destruct do_free; [|by exists s, l]. destruct (Hrel eq_refl) as (H1 & H2 & H3 & H4).
    destruct (free_space s root l _ Hs H1 H2 H3 H4) as (s1 & ? & ? & ? & _). by exists s1, (PTE2PA e :: l). }
  assert (slot (pg_mem s1) root a = Some b) as Hb1 by (rewrite (slot_frame (pg_mem s)); [done|lia|done]).
  unfold wr64, modify. eexists _, _. split_and!; [done|eapply set_pte_space; [done|done|exact Hb1]|done|..].
  - intros x. rewrite pg_get_set. rewrite <- (in_tables_agree (pg_mem s) (pg_mem s1)) by done.
    pose proof (set_pte_node s1 root _ a b 0 Hs1 Ha Hb1) as Hnode.
    split; intros (p & t & Hp & Ht & Hin); exists p, t; (split_and!; [done| |done]);
      [by rewrite <- Hnode|by rewrite Hnode].
  - intros va Hva. rewrite pg_get_set. destruct (Z.eqb_spec (va / PGSIZE) (a / PGSIZE)) as [Heq|Hne].
    + rewrite (set_pte_entry_same s1 root (if do_free then PTE2PA e :: l else l) a b) by (done || lia). done.
    + rewrite (set_pte_entry_other s1 root (if do_free then PTE2PA e :: l else l) a b) by (done || lia).
      apply entry_frame; [lia|done].
Qed.

(** What unmapping the pages [vpn, vpn + n) requires of their entries. *)
Definition unmappable (s : S) (root : Z) (l : list Z) (vpn n : Z) (do_free : bool) : Prop :=
  ∀ va e, 0 ≤ va < MAXVA → vpn ≤ va / PGSIZE < vpn + n → entry (pg_mem s) root va = Some e →
    PTE_FLAGS e ≠ PTE_V ∧
    (do_free = true → releasable s root l e ∧
      ∀ va' e', 0 ≤ va' < MAXVA → vpn ≤ va' / PGSIZE < vpn + n →
        entry (pg_mem s) root va' = Some e' → PTE2PA e' = PTE2PA e → va' / PGSIZE = va / PGSIZE).

(** The free list afterwards: with [do_free] it gains the unmapped pages. *)
Definition freed (m : mem) (root vpn n : Z) (do_free : bool) (l l' : list Z) : Prop :=
  ∀ q, q ∈ l' ↔ q ∈ l ∨ (do_free = true ∧ ∃ va e, 0 ≤ va < MAXVA ∧
    vpn ≤ va / PGSIZE < vpn + n ∧ entry m root va = Some e ∧ q = PTE2PA e).

Lemma freed_succ (s s1 : S) root a n (do_free : bool) l l1 l' :
  0 ≤ a < MAXVA → 0 ≤ n →
  l1 = (if do_free then match entry (pg_mem s) root a with
                        | Some e => PTE2PA e :: l | None => l end else l) →
  (∀ va e, 0 ≤ va < MAXVA → a / PGSIZE + 1 ≤ va / PGSIZE →
     entry (pg_mem s1) root va = Some e ↔ entry (pg_mem s) root va = Some e) →
  freed (pg_mem s1) root (a / PGSIZE + 1) n do_free l1 l' →
  freed (pg_mem s) root (a / PGSIZE) (n + 1) do_free l l'.
Proof.
  intros Ha Hn Hl1 Hlater Hfr q. rewrite (Hfr q). split.
  - intros [Hq|(Hdf & va & e & Hva & Hin & He & Hq)].
    + subst l1. destruct do_free; [|by left].
      destruct (entry (pg_mem s) root a) as [e|] eqn:He; [|by left].
      apply elem_of_cons in Hq as [->|?]; [right|by left].
      split; [done|]. exists a, e. split_and!; [lia|lia|lia|lia|done|done].
    + right. split; [done|]. exists va, e. apply Hlater in He; [|done|lia]. split_and!; try done; lia.
  - intros [Hq|(Hdf & va & e & Hva & Hin & He & Hq)].
    + left. subst l1. destruct do_free; [|done]. destruct (entry _ _ _); [by right|done].
    + destruct (decide (va / PGSIZE = a / PGSIZE)) as [Heq|Hne].
      * left. subst l1 do_free. rewrite (entry_page _ _ va a) in He by (done || lia).
        rewrite He, Hq. by left.
      * right. split; [done|]. exists va, e. split_and!; try done; try lia. apply Hlater; [done|lia|done].
Qed.

Lemma userUnmap_loop_spec n fuel root a do_free s l :
  space s root l → a mod PGSIZE = 0 → 0 ≤ a → a + Z.of_nat n * PGSIZE ≤ MAXVA → (n < fuel)%nat →
  unmappable s root l (a / PGSIZE) (Z.of_nat n) do_free →
  ∃ s' l', userUnmap_loop fuel root a (a + Z.of_nat n * PGSIZE) do_free s = Done (tt, s') ∧
    space s' root l' ∧ freed (pg_mem s) root (a / PGSIZE) (Z.of_nat n) do_free l l' ∧
    (∀ va, 0 ≤ va < MAXVA → entry (pg_mem s') root va =
       if (a / PGSIZE <=? va / PGSIZE) && (va / PGSIZE <? a / PGSIZE + Z.of_nat n)
       then None else entry (pg_mem s) root va).
Proof.
  revert fuel a s l. induction n as [|n IH]; intros [|fuel] a s l Hs Hal Ha Hmax Hf Hun; try lia;
    cbn [userUnmap_loop].
  { destruct (Z.ltb_spec a (a + Z.of_nat 0 * PGSIZE)); [lia|]. exists s, l. split_and!; [done..| |].
    - intros q. split; [by left|]. intros [?|(_ & va & e & _ & ? & _)]; [done|lia].
    - intros va Hva. destruct (_ && _) eqn:E; [bool_arith; lia|done]. }
  destruct (Z.ltb_spec a (a + Z.of_nat (Datatypes.S n) * PGSIZE)); [|unfold PGSIZE in *; lia].
  assert (0 ≤ a < MAXVA) as Hav by (unfold PGSIZE in *; lia).
  destruct (unmap_one_spec s root l a do_free Hs Hav) as (s1 & l1 & Hrun1 & Hs1 & Hl1 & Htab & Hent1).
  { intros e He. destruct (Hun a e Hav ltac:(lia) He) as [? Hrel]. split; [done|].
    intros Hdf. by destruct (Hrel Hdf). }
  unfold mbind, M_bind. rewrite Hrun1.
  rewrite u64_small by (change MAXVA with (2 ^ 38) in *; unfold PGSIZE in *; lia).
  assert ((a + PGSIZE) / PGSIZE = a / PGSIZE + 1) as Hdiv by (unfold PGSIZE in *; dlia).
  replace (a + Z.of_nat (Datatypes.S n) * PGSIZE) with (a + PGSIZE + Z.of_nat n * PGSIZE) by (unfold PGSIZE; lia).
  assert (∀ va e, 0 ≤ va < MAXVA → a / PGSIZE + 1 ≤ va / PGSIZE →
    entry (pg_mem s1) root va = Some e ↔ entry (pg_mem s) root va = Some e) as Hlater.
  { intros va e Hva Hin. rewrite Hent1 by done. destruct (Z.eqb_spec (va / PGSIZE) (a / PGSIZE)); [lia|done]. }
  destruct (IH fuel (a + PGSIZE) s1 l1) as (s' & l' & Hrun & Hs' & Hfr & Hent); try (unfold PGSIZE in *; lia).
  - done.
  - unfold PGSIZE in *. dlia.
  - rewrite Hdiv. intros va e Hva Hin He. apply Hlater in He; [|done|lia].
    destruct (Hun va e Hva ltac:(lia) He) as [Hfl Hrel]. split; [done|]. intros Hdf.
    destruct (Hrel Hdf) as [(R1 & R2 & R3 & R4) Hinj]. split; [split_and!|].
    + done.
    + done.
    + rewrite Hl1, Hdf. destruct (entry (pg_mem s) root a) as [e0|] eqn:He0; [|done].
      intros [Heq|?]%elem_of_cons; [|done].
      pose proof (Hinj a e0 Hav ltac:(lia) He0 (eq_sym Heq)). lia.
    + intros x Hx. rewrite Htab. by apply R4.
    + intros va' e' Hva' Hin' He'. apply Hlater in He'; [|done|lia]. apply (Hinj va' e'); [done|lia|done].
  - exists s', l'. split_and!; [done|done| |].
    + rewrite Hdiv in Hfr. replace (Z.of_nat (Datatypes.S n)) with (Z.of_nat n + 1) by lia.
      eapply freed_succ; [done|lia|exact Hl1|exact Hlater|done].
    + intros va Hva. rewrite Hent, Hent1, Hdiv by done.
      destruct (Z.leb_spec (a / PGSIZE + 1) (va / PGSIZE)), (Z.leb_spec (a / PGSIZE) (va / PGSIZE)),
        (Z.ltb_spec (va / PGSIZE) (a / PGSIZE + 1 + Z.of_nat n)),
        (Z.ltb_spec (va / PGSIZE) (a / PGSIZE + Z.of_nat (Datatypes.S n))),
        (Z.eqb_spec (va / PGSIZE) (a / PGSIZE)); cbn; try lia; done.
Qed.
End props.

(** ** Properties *)

Section properties.
Context {S : Type} `{PA : PageAllocator S}.

Lemma mappages_ok (s : S) (root : Z) (l : list Z) (va size pa perm : Z) (fuel : nat) :
  let n := (va + size - 1) / PGSIZE - va / PGSIZE in
  space s root l → 0 ≤ va → 0 < size → va + size ≤ MAXVA →
  (∀ va', 0 ≤ va' < MAXVA → va / PGSIZE ≤ va' / PGSIZE ≤ va / PGSIZE + n →
     entry (pg_mem s) root va' = None) →
  page_ok pa → pa + n * PGSIZE + PGSIZE ≤ 2 ^ 56 → 0 ≤ perm < 1024 → n < Z.of_nat fuel →
  mappages_post root (va / PGSIZE) n pa perm s l (mappages fuel root va size pa perm s).
Proof.
  intros n Hs Hva Hsz Hmax Hnone Hpa Hpab Hperm Hf. unfold mappages.
  assert (0 ≤ n) as Hn by (unfold n, PGSIZE; dlia).
  rewrite u64_small by (change MAXVA with (2 ^ 38) in *; lia).
  rewrite !MemAllocator.PGROUNDDOWN_spec.
  assert ((va - va mod PGSIZE) / PGSIZE = va / PGSIZE) as Hdiv by (unfold PGSIZE; dlia).
  replace (va + size - 1 - (va + size - 1) mod PGSIZE)
    with (va - va mod PGSIZE + Z.of_nat (Z.to_nat n) * PGSIZE)
    by (rewrite Z2Nat.id by done; unfold n, PGSIZE; dlia).
  pose proof (mappages_loop_spec (Z.to_nat n) fuel root (va - va mod PGSIZE) pa perm s l) as H.
  rewrite Hdiv, Z2Nat.id in H by done. rewrite Z2Nat.id by done. apply H; try done.
  - unfold PGSIZE. dlia.
  - unfold PGSIZE. dlia.
  - unfold n, PGSIZE in *. change MAXVA with (2 ^ 38) in *. dlia.
  - lia.
Qed.

Lemma mappages_remap (s : S) (root : Z) (l : list Z) (va size pa perm e : Z) (fuel : nat) :
  space s root l → 0 ≤ va < MAXVA → entry (pg_mem s) root (PGROUNDDOWN va) = Some e → (0 < fuel)%nat →
  mappages fuel root va size pa perm s = Panic "remap".
Proof.
  intros Hs Hva He Hf. destruct fuel as [|fuel]; [lia|]. unfold mappages. cbn [mappages_loop].
  assert (0 ≤ PGROUNDDOWN va < MAXVA) as Ha by (rewrite MemAllocator.PGROUNDDOWN_spec; unfold PGSIZE; dlia).
  revert He. unfold entry. destruct (slot (pg_mem s) root (PGROUNDDOWN va)) as [b|] eqn:Hb; [|done].
  cbn. destruct (has (ld64 (pg_mem s) b) PTE_V) eqn:HV; [|done]. intros _.
  unfold mbind, M_bind. rewrite (walk_hit _ _ _ _ b) by done.
  apply slot_nonzero in Hb; [|lia|apply Hs]. destruct (Z.eqb_spec b 0); [lia|].
  unfold rd64, gets. by rewrite HV.
Qed.

(** Claim C16. [mappages] maps every page that [va, va + size) touches to the
    consecutive physical pages from [pa] with the given permission bits and
    the valid bit, leaves every other mapping as it was and writes only to the
    tables and to pages it took from the free list, at most two for each 2 MB;
    or it returns -1, and then fewer pages than that were free.  It needs one
    unit of fuel per page.  A page that is mapped is never remapped: when the
    first page of the range has a valid entry, it panics. *)
Theorem mappages_maps_range (s : S) (root : Z) (l : list Z) (va size pa perm : Z) (fuel : nat) :
  let n := (va + size - 1) / PGSIZE - va / PGSIZE in
  space s root l → 0 ≤ va → 0 < size → va + size ≤ MAXVA →
  page_ok pa → pa + n * PGSIZE + PGSIZE ≤ 2 ^ 56 → 0 ≤ perm < 1024 → n < Z.of_nat fuel →
  ((∀ va', 0 ≤ va' < MAXVA → va / PGSIZE ≤ va' / PGSIZE ≤ va / PGSIZE + n → entry (pg_mem s) root va' = None) →
   mappages_post root (va / PGSIZE) n pa perm s l (mappages fuel root va size pa perm s)) ∧
  (∀ e, entry (pg_mem s) root (PGROUNDDOWN va) = Some e → mappages fuel root va size pa perm s = Panic "remap").
Proof.
  intros n Hs Hva Hsz Hmax Hpa Hpab Hperm Hf. assert (0 ≤ n) as Hn by (unfold n, PGSIZE; dlia).
  split; [intros Hnone; by apply mappages_ok|]. intros e He. eapply mappages_remap; [done|lia|done|lia].
Qed.

(** [walkAddr] returns the physical page of a user-accessible
    mapping and 0 for every other address, including those from MAXVA on, and
    changes nothing. *)
Theorem walkAddr_translates (s : S) (root va : Z) :
  tree (pg_mem s) root → 0 ≤ va →
  walkAddr root va s = Done (translate (pg_mem s) root va, s) ∧
  (MAXVA ≤ va → translate (pg_mem s) root va = 0) ∧
  (∀ e, va < MAXVA → entry (pg_mem s) root va = Some e →
     translate (pg_mem s) root va = if has e PTE_U then PTE2PA e else 0) ∧
  (va < MAXVA → entry (pg_mem s) root va = None → translate (pg_mem s) root va = 0).
Proof.
  intros Htr Hva. split_and!; [by apply walkAddr_spec|..]; unfold translate.
  - intros H. by apply Z.leb_le in H as ->.
  - intros e H ->. by apply Z.leb_gt in H as ->.
  - intros H ->. by destruct (_ <=? _).
Qed.

(** Claim C30. [copyout] writes the kernel bytes [src, src + len) to the user
    range through the page table, across page boundaries, and touches no other
    byte; it returns 0 exactly when every byte of the range is mapped for the
    user, and -1 otherwise. *)
Theorem copyout_writes_user_range (s : S) (root : Z) (l : list Z) (va src len : Z) (fuel : nat) :
  space s root l → 0 ≤ va → 0 ≤ len → va + len < 2 ^ 64 → len < Z.of_nat fuel →
  safe_range s root l va src len → unaliased (pg_mem s) root va len →
  copyout_post root va src len s l (copyout fuel root va src len s).
Proof. apply copyout_loop_spec. Qed.

(** [copyin] reads the user range through the page table into the
    kernel buffer, across page boundaries, and writes nothing outside the
    buffer; it returns 0 exactly when every byte of the range is mapped for
    the user, and -1 otherwise. *)
Theorem copyin_reads_user_range (s : S) (root : Z) (l : list Z) (va dst len : Z) (fuel : nat) :
  space s root l → 0 ≤ va → 0 ≤ len → va + len < 2 ^ 64 → len < Z.of_nat fuel →
  safe_buf s root l va dst len →
  copyin_post root va dst len s l (copyin fuel root dst va len s).
Proof. apply copyin_loop_spec. Qed.

(** What [copyout] stored, [copyin] reads back: after both succeed,
    the second kernel buffer holds the bytes of the first. *)
Theorem copyout_copyin_roundtrip (s : S) (root : Z) (l : list Z) (va src dst len : Z) (fuel : nat) :
  space s root l → 0 ≤ va → 0 ≤ len → va + len < 2 ^ 64 → len < Z.of_nat fuel →
  all_mapped (pg_mem s) root va len →
  safe_range s root l va src len → unaliased (pg_mem s) root va len →
  safe_buf s root l va dst len →
  ∃ s1 s2, copyout fuel root va src len s = Done (0, s1) ∧
    copyin fuel root dst va len s1 = Done (0, s2) ∧
    (∀ i, 0 ≤ i < len → pg_mem s2 (dst + i) = pg_mem s (src + i)).
Proof.
  intros Hs Hva Hlen Hmax Hf Hall Hsafe Hun Hbuf.
  destruct (copyout_loop_spec fuel root va src len s l) as (r & s1 & Hrun & Hs1 & Htab & Hres); try done.
  destruct Hres as [(-> & _ & Hc & _)|[_ Hn]]; [|done].
  assert (safe_buf s1 root l va dst len) as Hbuf1.
  { pose proof (safe_buf_shift s s1 root l va dst len 0 Htab Hva) as H.
    rewrite !Z.add_0_r, Z.sub_0_r in H. apply H; [lia|done]. }
  assert (∀ j, 0 ≤ j → phys (pg_mem s1) root (va + j) = phys (pg_mem s) root (va + j)) as Hph.
  { intros j Hj. apply phys_frame; [lia|done]. }
  destruct (copyin_loop_spec fuel root va dst len s1 l) as (r & s2 & Hrun2 & _ & _ & Hres2); try done.
  destruct Hres2 as [(-> & _ & Hc2 & _)|[_ Hn]].
  - exists s1, s2. split_and!; [done..|]. intros i Hi.
    destruct (phys (pg_mem s) root (va + i)) as [x|] eqn:Hx; [|by destruct (Hall i Hi)].
    rewrite (Hc2 i x), (Hc i x); [done..|]. rewrite Hph; [done|lia].
  - destruct Hn. intros i Hi. rewrite Hph by lia. by apply Hall.
Qed.

(** Claim C31. [userUnmap] removes the mappings of exactly the [npages] pages
    from [va] on; with [do_free] the physical pages behind them, and no other,
    become free, each once; without it the free list keeps its pages. *)
Theorem userUnmap_removes_range (s : S) (root : Z) (l : list Z) (va npages : Z)
    (do_free : bool) (fuel : nat) :
  space s root l → va mod PGSIZE = 0 → 0 ≤ va → 0 ≤ npages → va + npages * PGSIZE ≤ MAXVA →
  npages < Z.of_nat fuel → unmappable s root l (va / PGSIZE) npages do_free →
  ∃ s' l', userUnmap fuel root va npages do_free s = Done (tt, s') ∧
    space s' root l' ∧ freed (pg_mem s) root (va / PGSIZE) npages do_free l l' ∧
    (∀ va', 0 ≤ va' < MAXVA → entry (pg_mem s') root va' =
       if (va / PGSIZE <=? va' / PGSIZE) && (va' / PGSIZE <? va / PGSIZE + npages)
       then None else entry (pg_mem s) root va').
Proof.
  intros Hs Hal Hva Hn Hmax Hf Hun. unfold userUnmap. rewrite Hal. cbn [negb Z.eqb].
  rewrite u64_small by (change MAXVA with (2 ^ 38) in *; unfold PGSIZE in *; lia).
  pose proof (userUnmap_loop_spec (Z.to_nat npages) fuel root va do_free s l) as H.
  rewrite Z2Nat.id in H by done. apply H; (done || lia).
Qed.
End properties.
