(* ===== verification/VmWitness.v ===== *)
(** * A concrete machine for the memory theorems

    A zeroed memory with a root table at [R], three free pages linked through
    their first words and a data page [D]; every memory theorem is applied to
    it, which shows that its hypotheses can hold together. *)
From S2P Require Import Prelude Mem KAlloc Vm VmFacts VmProps.

Definition kend0 : Z := 0x80200000.
Definition R : Z := 0x80300000.
Definition P1 : Z := 0x80400000.
Definition P2 : Z := 0x80401000.
Definition P3 : Z := 0x80402000.
Definition D : Z := 0x80500000.
Definition zero_mem : mem := λ _, 0.
Definition mem0 : mem := st64 (st64 zero_mem P1 P2) P2 P3.
Definition s0 : kmem := Kmem mem0 P1 3 3.
Definition free0 : list Z := [P1; P2; P3].

#[local] Instance pa0 : PageAllocator kmem := MemAllocator.page_allocator kend0.

(** User read/write permission: R | W | U. *)
Definition perm_rwu : Z := 22.

(** The state in which the user page 0x1000 is mapped to [D]. *)
Definition s1 : kmem :=
  match mappages 1 R 0x1000 PGSIZE D perm_rwu s0 with Done (_, s) => s | _ => s0 end.

Ltac page_const := unfold kend0, R, P1, P2, P3, D, PGSIZE, PHYSTOP in *.

Lemma zero_mem_ok : mem_ok zero_mem.
Proof. intros x. unfold zero_mem. lia. Qed.

Lemma page_ok_const p : p mod PGSIZE = 0 → 0x80200000 ≤ p < 0x80600000 → page_ok p.
Proof. intros. unfold page_ok, PGSIZE in *. lia. Qed.

Lemma inv0 : MemAllocator.inv kend0 s0 free0.
Proof.
  split; cbn [km_mem s0 freeList npage].
  - apply st64_ok, st64_ok, zero_mem_ok.
  - unfold free0, mem0. split; [done|].
    rewrite ld64_st64_ne by (page_const; lia). rewrite ld64_st64_same by (page_const; lia).
    split; [done|]. rewrite ld64_st64_same by (page_const; lia). split; [done|].
    rewrite !ld64_st64_ne by (page_const; lia). done.
  - unfold free0. repeat constructor; page_const; set_unfold; lia.
  - unfold free0, MemAllocator.managed.
    repeat constructor; page_const; try lia; apply page_ok_const; (done || lia).
  - done.
Qed.

Lemma mem0_zero x : R ≤ x < R + PGSIZE → mem0 x = 0.
Proof. intros. unfold mem0. rewrite !st64_other by (page_const; lia). done. Qed.

Lemma child0 i : 0 ≤ i < 512 → child mem0 R i = None.
Proof.
  intros Hi. unfold child. replace (ld64 mem0 (R + 8 * i)) with 0; [done|].
  rewrite (ld_ext 8 mem0 zero_mem); [done|]. intros x Hx. apply mem0_zero. unfold PGSIZE. lia.
Qed.

Lemma node0 p t : path_ok p → node mem0 R p = Some t → p = [] ∧ t = R.
Proof.
  intros [Hf _]. destruct p as [|i p]; cbn; [by intros [= ->]|].
  apply Forall_cons in Hf as [Hi _]. by rewrite child0.
Qed.

Lemma tree0 : tree mem0 R.
Proof.
  split.
  - intros p t Hp Ht. destruct (node0 p t Hp Ht) as [_ ->]. apply page_ok_const; [done|page_const; lia].
  - intros p q t Hp Hq Ht Ht'. destruct (node0 p t Hp Ht) as [-> _]. by destruct (node0 q t Hq Ht') as [-> _].
Qed.

Lemma space0 : space s0 R free0.
Proof.
  split; [apply inv0|apply tree0|]. intros p t Hp Ht. destruct (node0 p t Hp Ht) as [_ ->].
  unfold free0. rewrite !not_elem_of_cons. page_const. split_and!; [lia..|apply not_elem_of_nil].
Qed.

Lemma entry0 va : 0 ≤ va → entry mem0 R va = None.
Proof.
  intros Hva. unfold entry, slot. destruct (node mem0 R (vpath va)) as [t|] eqn:Ht; [|done].
  by destruct (node0 _ _ (vpath_ok va Hva) Ht).
Qed.

Lemma D_ok : page_ok D.
Proof. apply page_ok_const; [done|page_const; lia]. Qed.

(** The result code of a computation, without its state. *)
Definition code_of {A : Type} (o : outcome (Z * A)) : option Z :=
  match o with Done (r, _) => Some r | _ => None end.

Lemma s1_code : code_of (mappages 1 R 0x1000 PGSIZE D perm_rwu s0) = Some 0.
Proof. vm_compute. reflexivity. Qed.

Lemma s1_result : mappages 1 R 0x1000 PGSIZE D perm_rwu s0 = Done (0, s1).
Proof.
  pose proof s1_code as H. unfold s1.
  destruct (mappages 1 R 0x1000 PGSIZE D perm_rwu s0) as [[r s]|msg|]; cbn in H; by simplify_eq.
Qed.

Lemma Done_inj {A B : Type} (a a' : A) (b b' : B) : Done (a, b) = Done (a', b') → a = a' ∧ b = b'.
Proof. by intros [= -> ->]. Qed.

#[local] Opaque s1.

Lemma s1_post : ∃ l1, evolves R s0 free0 s1 l1 ∧
  ∀ va, 0 ≤ va < MAXVA → entry (pg_mem s1) R va = mapped mem0 R 1 0 D perm_rwu va.
Proof.
  destruct (mappages_loop_spec 0 1 R 0x1000 D perm_rwu s0 free0) as (r & s' & l' & Hrun & Hev & Hres).
  - apply space0.
  - reflexivity.
  - lia.
  - reflexivity.
  - intros va Hva _. apply entry0. lia.
  - apply D_ok.
  - page_const. lia.
  - unfold perm_rwu. lia.
  - lia.
  - pose proof s1_result as H1.
    change (mappages 1 R 0x1000 PGSIZE D perm_rwu s0)
      with (mappages_loop 1 R 0x1000 (0x1000 + Z.of_nat 0 * PGSIZE) D perm_rwu s0) in H1.
    rewrite Hrun in H1. apply Done_inj in H1 as [-> <-]. exists l'. split; [exact Hev|].
    destruct Hres as [(_ & _ & H)|(H & _)]; [exact H|discriminate H].
Qed.

Lemma s1_entry va : 0 ≤ va < MAXVA →
  entry (pg_mem s1) R va = if va / PGSIZE =? 1 then Some (mk_entry D perm_rwu) else None.
Proof.
  intros Hva. destruct s1_post as (l1 & _ & H). rewrite H by done. unfold mapped.
  rewrite entry0 by lia. destruct (Z.eqb_spec (va / PGSIZE) 1) as [->|Hne]; [done|].
  destruct (_ && _) eqn:E; [bool_arith; lia|done].
Qed.

Lemma s1_phys i : 0 ≤ i < PGSIZE → phys (pg_mem s1) R (0x1000 + i) = Some (D + i).
Proof.
  intros Hi. unfold phys, translate. destruct (Z.leb_spec MAXVA (0x1000 + i)) as [H|H].
  { change MAXVA with (2 ^ 38) in H. unfold PGSIZE in *. lia. }
  rewrite s1_entry by lia. assert ((0x1000 + i) / PGSIZE = 1) as -> by (unfold PGSIZE in *; dlia).
  cbn [Z.eqb Pos.eqb].
  rewrite mk_entry_U by (apply D_ok || done). rewrite mk_entry_pa by (apply D_ok || done).
  change (Z.testbit perm_rwu 4) with true. cbn [negb].
  change (D =? 0) with false. cbn match. f_equal. f_equal. unfold PGSIZE in *. dlia.
Qed.

(** The tables and free pages of [s1] are among the root and [free0]. *)
Lemma s1_tables x : in_tables (pg_mem s1) R x → in_page R x ∨ ∃ q, q ∈ free0 ∧ in_page q x.
Proof.
  destruct s1_post as (l1 & [_ _ Hfrom _] & _). intros (p & t & Hp & Ht & Hin).
  destruct (Hfrom p t Hp Ht) as [H|H].
  - left. by destruct (node0 p t Hp H) as [_ ->].
  - right. by exists t.
Qed.

Lemma free0_range q x : q ∈ free0 → in_page q x → P1 ≤ x < P3 + PGSIZE.
Proof.
  unfold free0, in_page. rewrite !elem_of_cons, elem_of_nil. page_const. lia.
Qed.

Lemma s1_tables_range x : in_tables (pg_mem s1) R x → R ≤ x < P3 + PGSIZE.
Proof.
  intros [H|(q & Hq & H)]%s1_tables; [unfold in_page in H; page_const; lia|].
  apply (free0_range q) in H; [|done]. page_const. lia.
Qed.

Definition src0 : Z := 0x80510000.
Definition dst0 : Z := 0x80520000.

Lemma s1_space : ∃ l1, space s1 R l1 ∧ (∀ q, q ∈ l1 → q ∈ free0).
Proof.
  destruct s1_post as (l1 & [Hs [new Hnew] _ _] & _). exists l1. split; [done|].
  intros q Hq. rewrite Hnew. apply elem_of_app. by right.
Qed.

Lemma s1_safe l1 : (∀ q, q ∈ l1 → q ∈ free0) → safe_range s1 R l1 0x1100 src0 16.
Proof.
  intros Hl i x Hi Hx. replace (0x1100 + i) with (0x1000 + (0x100 + i)) in Hx by lia.
  rewrite s1_phys in Hx by (unfold PGSIZE; lia). injection Hx as <-. split_and!.
  - intros H%s1_tables_range. page_const. lia.
  - intros q Hq H. apply (free0_range q) in H; [|by apply Hl]. page_const. lia.
  - unfold src0. page_const. lia.
Qed.

Lemma s1_unaliased : unaliased (pg_mem s1) R 0x1100 16.
Proof.
  intros i j x Hi Hj. replace (0x1100 + i) with (0x1000 + (0x100 + i)) by lia.
  replace (0x1100 + j) with (0x1000 + (0x100 + j)) by lia.
  rewrite !s1_phys by (unfold PGSIZE; lia). intros [= <-] [= H]. lia.
Qed.

Lemma s1_mapped : all_mapped (pg_mem s1) R 0x1100 16.
Proof.
  intros i Hi. replace (0x1100 + i) with (0x1000 + (0x100 + i)) by lia.
  by rewrite s1_phys by (unfold PGSIZE; lia).
Qed.

Lemma s1_buf l1 : (∀ q, q ∈ l1 → q ∈ free0) → safe_buf s1 R l1 0x1100 dst0 16.
Proof.
  intros Hl y Hy. unfold dst0 in Hy. split_and!.
  - intros H%s1_tables_range. page_const. lia.
  - intros q Hq H. apply (free0_range q) in H; [|by apply Hl]. page_const. lia.
  - intros i Hi. replace (0x1100 + i) with (0x1000 + (0x100 + i)) by lia.
    rewrite s1_phys by (unfold PGSIZE; lia). intros [= H]. page_const. lia.
Qed.

Lemma page1_user : 0 ≤ 0x1000 < MAXVA.
Proof. split; [lia|reflexivity]. Qed.

(** ** The theorems at these inputs *)

Lemma init_frees_all_pages_witness :
  ∃ s', MemAllocator.init kend0 1025 (Kmem zero_mem 0 0 0) = Done (tt, s') ∧
        MemAllocator.inv kend0 s' (rev (MemAllocator.pages (PGROUNDUP kend0) 1024)) ∧
        MemAllocator.TotalMemOfBytes s' = PGSIZE * Z.of_nat 1024 ∧
        MemAllocator.FreeMemOfBytes s' = PGSIZE * Z.of_nat 1024.
Proof.
  apply init_frees_all_pages; [unfold RUSTSBI_BASE; page_const; lia|apply zero_mem_ok|reflexivity|lia].
Defined.

Lemma alloc_free_refine_stack_witness : ∃ s', MemAllocator.alloc s0 = Done (P1, s').
Proof.
  destruct (proj1 (proj2 (alloc_free_refine_stack kend0 s0 free0 inv0)) P1 [P2; P3] eq_refl) as (s' & H & _).
  exists s'. exact H.
Defined.

Lemma mappages_maps_range_witness :
  mappages_post R 1 0 D perm_rwu s0 free0 (mappages 1 R 0x1000 PGSIZE D perm_rwu s0).
Proof.
  apply (mappages_maps_range s0 R free0 0x1000 PGSIZE D perm_rwu 1).
  - apply space0.
  - lia.
  - reflexivity.
  - discriminate.
  - apply D_ok.
  - discriminate.
  - unfold perm_rwu. lia.
  - reflexivity.
  - intros va Hva _. apply entry0. lia.
Defined.

Lemma walkAddr_translates_witness : walkAddr R 0x1000 s0 = Done (0, s0).
Proof.
  destruct (walkAddr_translates (PA := pa0) s0 R 0x1000) as (H & _ & _ & H0); [apply tree0|lia|].
  rewrite H, H0; [reflexivity|reflexivity|apply entry0; lia].
Defined.

Lemma copyout_writes_user_range_witness :
  ∃ l1, copyout_post R 0x1100 src0 16 s1 l1 (copyout 17 R 0x1100 src0 16 s1).
Proof.
  destruct s1_space as (l1 & Hs & Hl). exists l1.
  apply copyout_writes_user_range; [exact Hs|lia..|by apply s1_safe|apply s1_unaliased].
Defined.

Lemma copyin_reads_user_range_witness :
  ∃ l1, copyin_post R 0x1100 dst0 16 s1 l1 (copyin 17 R dst0 0x1100 16 s1).
Proof.
  destruct s1_space as (l1 & Hs & Hl). exists l1.
  apply copyin_reads_user_range; [exact Hs|lia..|by apply s1_buf].
Defined.

Lemma copyout_copyin_roundtrip_witness :
  ∃ s2 s3, copyout 17 R 0x1100 src0 16 s1 = Done (0, s2) ∧
    copyin 17 R dst0 0x1100 16 s2 = Done (0, s3) ∧
    (∀ i, 0 ≤ i < 16 → pg_mem s3 (dst0 + i) = pg_mem s1 (src0 + i)).
Proof.
  destruct s1_space as (l1 & Hs & Hl).
  apply (copyout_copyin_roundtrip s1 R l1 0x1100 src0 dst0 16 17); [exact Hs|lia..| | | |].
  - apply s1_mapped.
  - by apply s1_safe.
  - apply s1_unaliased.
  - by apply s1_buf.
Defined.

Lemma userUnmap_removes_range_witness :
  ∃ s' l1 l', userUnmap 2 R 0x1000 1 true s1 = Done (tt, s') ∧
    freed (pg_mem s1) R 1 1 true l1 l' ∧ entry (pg_mem s') R 0x1000 = None.
Proof.
  destruct s1_space as (l1 & Hs & Hl).
  destruct (userUnmap_removes_range s1 R l1 0x1000 1 true 2) as (s' & l' & H1 & _ & H2 & H3);
    [exact Hs|reflexivity|lia|lia|discriminate|lia|..].
  - intros va e Hva Hin He. change (0x1000 / PGSIZE) with 1 in Hin.
    rewrite s1_entry in He by exact Hva. assert (va / PGSIZE = 1) as Hp by lia. rewrite Hp in He.
    cbn [Z.eqb Pos.eqb] in He. injection He as <-. split; [by vm_compute|]. intros _. split.
    + unfold releasable. rewrite mk_entry_pa by (apply D_ok || done). split_and!.
      * apply D_ok.
      * cbn. unfold MemAllocator.managed. page_const. lia.
      * intros Hq%Hl. revert Hq. unfold free0. rewrite !elem_of_cons, elem_of_nil. page_const. lia.
      * intros x Hx H%s1_tables_range. unfold in_page in Hx. page_const. lia.
    + intros va' e' _ Hin' _ _. change (0x1000 / PGSIZE) with 1 in Hin'. lia.
  - exists s', l1, l'. split_and!; [exact H1|exact H2|]. rewrite (H3 0x1000 page1_user). reflexivity.
Defined.
