(* ===== verification/KernelVm.v ===== *)
(** * The kernel's own page table: [initKernelVm] of kernel/memory/VmManager.cpp

    Which addresses the kernel maps at boot on either platform
    (include/memlayout.hpp), and the theorem that the table it builds is exactly
    that map. *)
From S2P Require Import Prelude Mem KAlloc Vm VmFacts VmProps.

(** [#ifdef QEMU] / [#ifdef K210] *)
Inductive platform := QEMU | K210.

Definition UART (p : platform) : Z := match p with QEMU => 0x10000000 | K210 => 0x38000000 end.
Definition VIRTIO0 : Z := 0x10001000.
Definition PLIC : Z := 0x0c000000.
Definition GPIOHS : Z := 0x38001000.
Definition DMAC : Z := 0x50000000.
Definition SPI_SLAVE : Z := 0x50240000.
Definition FPIOA : Z := 0x502B0000.
Definition SPI0 : Z := 0x52000000.
Definition SPI1 : Z := 0x53000000.
Definition SPI2 : Z := 0x54000000.
Definition SYSCTL : Z := 0x50440000.
Definition RTC : Z := 0x50460000.
Definition KERNBASE (p : platform) : Z := match p with QEMU => 0x80200000 | K210 => 0x80020000 end.
Definition PTE_RW : Z := Z.lor PTE_R PTE_W.
Definition PTE_RX : Z := Z.lor PTE_R PTE_X.

Section boot.
Context {S : Type} `{PA : PageAllocator S}.
(** The end of the kernel's code, where trampoline.S was linked, and a bound for
    the pages of one call. *)
Context (pl : platform) (etext trampoline : Z) (fuel : nat).

Definition initKernelVm : M S Z :=
  kernel_pagetable ← pg_alloc;
  kmemset kernel_pagetable 0 PGSIZE;;
  let kernel_vm_map := kernel_vm_map fuel kernel_pagetable in
  kernel_vm_map (UART pl) (UART pl) PGSIZE PTE_RW;;
  (match pl with
   | QEMU => kernel_vm_map VIRTIO0 VIRTIO0 PGSIZE PTE_RW
   | K210 => mret tt
   end);;
  kernel_vm_map PLIC PLIC 0x4000 PTE_RW;;
  kernel_vm_map (PLIC + 0x200000) (PLIC + 0x200000) 0x4000 PTE_RW;;
  kernel_vm_map (KERNBASE pl) (KERNBASE pl) (etext - KERNBASE pl) PTE_RX;;
  kernel_vm_map etext etext (PHYSTOP - etext) PTE_RW;;
  kernel_vm_map TRAMPOLINE trampoline PGSIZE PTE_RX;;
  (match pl with
   | QEMU => mret tt
   | K210 =>
       kernel_vm_map GPIOHS GPIOHS 0x1000 PTE_RW;;
       kernel_vm_map DMAC DMAC 0x1000 PTE_RW;;
       kernel_vm_map SPI_SLAVE SPI_SLAVE 0x1000 PTE_RW;;
       kernel_vm_map FPIOA FPIOA 0x1000 PTE_RW;;
       kernel_vm_map SPI0 SPI0 0x1000 PTE_RW;;
       kernel_vm_map SPI1 SPI1 0x1000 PTE_RW;;
       kernel_vm_map SPI2 SPI2 0x1000 PTE_RW;;
       kernel_vm_map SYSCTL SYSCTL 0x1000 PTE_RW;;
       kernel_vm_map RTC RTC 0x1000 PTE_RW
   end);;
  mret kernel_pagetable.

(** ** The map as a list of regions, in whole pages *)
Record region := Region { r_va : Z; r_pa : Z; r_pages : Z; r_perm : Z }.
Definition device (a n : Z) : region := Region a a n PTE_RW.
Definition regions : list region :=
  [device (UART pl) 1] ++
  match pl with QEMU => [device VIRTIO0 1] | K210 => [] end ++
  [device PLIC 4; device (PLIC + 0x200000) 4;
   Region (KERNBASE pl) (KERNBASE pl) ((etext - KERNBASE pl) / PGSIZE) PTE_RX;
   Region etext etext ((PHYSTOP - etext) / PGSIZE) PTE_RW;
   Region TRAMPOLINE trampoline 1 PTE_RX] ++
  match pl with
  | QEMU => []
  | K210 => map (λ a, device a 1) [GPIOHS; DMAC; SPI_SLAVE; FPIOA; SPI0; SPI1; SPI2; SYSCTL; RTC]
  end.
Definition in_region (r : region) (va : Z) : bool :=
  (r_va r / PGSIZE <=? va / PGSIZE) && (va / PGSIZE <? r_va r / PGSIZE + r_pages r).
(** The entry of the kernel's table for [va]. *)
Definition kernel_map (rs : list region) (va : Z) : option Z :=
  match List.find (λ r, in_region r va) rs with
  | Some r => Some (mk_entry (r_pa r + (va / PGSIZE - r_va r / PGSIZE) * PGSIZE) (r_perm r))
  | None => None
  end.
End boot.

(** [w_satp(MAKE_SATP(kernel_pagetable))]; the fences have no effect here. *)
Definition initHartVm {S : Type} (w_satp : Z → S → S) (kernel_pagetable : Z) : M S unit :=
  modify (w_satp (MAKE_SATP kernel_pagetable)).

(** What [vmprint] prints, a line at a time: the header, and for each valid
    entry its depth (the number of "..") with the arguments of the [printf]. *)
Inductive vmline := PageTable (pagetable : Z) | Pte (depth : nat) (i pte pa : Z).

(** [more] = 4 - [n] levels are still printed. *)
Fixpoint vmprint (m : mem) (more : nat) (pagetable : Z) : list vmline :=
  match more with
  | O => []
  | Datatypes.S more' =>
      (if (more =? 3)%nat then [PageTable pagetable] else []) ++
      flat_map (λ i,
        let pte := ld64 m (pagetable + 8 * i) in
        if has pte PTE_V
        then Pte (4 - more) i pte (PTE2PA pte) :: vmprint m more' (PTE2PA pte)
        else []) (seqZ 0 512)
  end.

(** ** A list of regions mapped one after the other *)

Definition region_ok (r : region) : Prop :=
  r_va r mod PGSIZE = 0 ∧ 0 ≤ r_va r ∧ 0 < r_pages r < 2048 ∧
  r_va r + r_pages r * PGSIZE ≤ MAXVA ∧
  page_ok (r_pa r) ∧ r_pa r + r_pages r * PGSIZE ≤ 2 ^ 56 ∧ 0 ≤ r_perm r < 1024.
Definition apart (r r' : region) : Prop :=
  r_va r / PGSIZE + r_pages r ≤ r_va r' / PGSIZE ∨ r_va r' / PGSIZE + r_pages r' ≤ r_va r / PGSIZE.
(** The pages the tables of the regions can take. *)
Definition tables_of (rs : list region) : Z :=
  foldr (λ r n, table_pages (r_va r / PGSIZE) (r_pages r - 1) + n) 0 rs.

Lemma in_region_spec r va :
  in_region r va = true ↔ r_va r / PGSIZE ≤ va / PGSIZE < r_va r / PGSIZE + r_pages r.
Proof. unfold in_region. rewrite andb_true_iff, Z.leb_le, Z.ltb_lt. done. Qed.

Lemma kernel_map_cons r rs va :
  kernel_map (r :: rs) va =
  if in_region r va then Some (mk_entry (r_pa r + (va / PGSIZE - r_va r / PGSIZE) * PGSIZE) (r_perm r))
  else kernel_map rs va.
Proof. unfold kernel_map. cbn. by destruct (in_region r va). Qed.

Lemma kernel_map_apart r rs va :
  Forall (apart r) rs → in_region r va = true → kernel_map rs va = None.
Proof.
  intros Hap Hin. induction Hap as [|r' rs H Hap IH]; [done|]. rewrite kernel_map_cons, IH.
  destruct (in_region r' va) eqn:E; [|done].
  apply in_region_spec in Hin, E. unfold apart in H. lia.
Qed.

Section build.
Context {S : Type} `{PA : PageAllocator S}.

Fixpoint map_regions (fuel : nat) (root : Z) (rs : list region) (k : M S Z) : M S Z :=
  match rs with
  | [] => k
  | r :: rs =>
      kernel_vm_map fuel root (r_va r) (r_pa r) (r_pages r * PGSIZE) (r_perm r);;
      map_regions fuel root rs k
  end.

Lemma kernel_vm_map_ok fuel root s l r :
  space s root l → region_ok r → (2048 ≤ fuel)%nat →
  (∀ va, 0 ≤ va < MAXVA → in_region r va = true → entry (pg_mem s) root va = None) →
  table_pages (r_va r / PGSIZE) (r_pages r - 1) ≤ Z.of_nat (length l) →
  ∃ s' l', kernel_vm_map fuel root (r_va r) (r_pa r) (r_pages r * PGSIZE) (r_perm r) s = Done (tt, s') ∧
    evolves root s l s' l' ∧
    Z.of_nat (length l) ≤ Z.of_nat (length l') + table_pages (r_va r / PGSIZE) (r_pages r - 1) ∧
    ∀ va, 0 ≤ va < MAXVA →
      entry (pg_mem s') root va = match kernel_map [r] va with Some e => Some e | None => entry (pg_mem s) root va end.
Proof.
  intros Hs (Hal & Hva & Hn & Hmax & Hpa & Hpab & Hperm) Hf Hnone Hl.
  assert ((r_va r + r_pages r * PGSIZE - 1) / PGSIZE - r_va r / PGSIZE = r_pages r - 1) as Hlast
    by (unfold PGSIZE in *; dlia).
  destruct (mappages_ok s root l (r_va r) (r_pages r * PGSIZE) (r_pa r) (r_perm r) fuel)
    as (c & s' & l' & Hrun & Hev & Hres); try done; rewrite ?Hlast; try (unfold PGSIZE in *; lia).
  { intros va' Hv' Hin. apply Hnone; [done|]. apply in_region_spec. lia. }
  rewrite Hlast in Hres. destruct Hres as [(-> & Hcount & Hent)|(_ & _ & Hlt)]; [|lia].
  exists s', l'. split_and!; [|done|done|].
  - unfold kernel_vm_map. by step Hrun.
  - intros va Hv. rewrite Hent by done. unfold mapped. rewrite kernel_map_cons. unfold in_region.
    destruct (Z.leb_spec (r_va r / PGSIZE) (va / PGSIZE)),
      (Z.leb_spec (va / PGSIZE) (r_va r / PGSIZE + (r_pages r - 1))),
      (Z.ltb_spec (va / PGSIZE) (r_va r / PGSIZE + r_pages r)); cbn; try lia; done.
Qed.

Lemma map_regions_ok fuel root k rs s l :
  space s root l → Forall region_ok rs → ForallOrdPairs apart rs → (2048 ≤ fuel)%nat →
  (∀ va, 0 ≤ va < MAXVA → is_Some (kernel_map rs va) → entry (pg_mem s) root va = None) →
  tables_of rs ≤ Z.of_nat (length l) →
  ∃ s' l', map_regions fuel root rs k s = k s' ∧ evolves root s l s' l' ∧
    ∀ va, 0 ≤ va < MAXVA →
      entry (pg_mem s') root va = match kernel_map rs va with Some e => Some e | None => entry (pg_mem s) root va end.
Proof.
  intros Hs Hok Hap Hf. revert s l Hs.
  induction Hap as [|r rs Hr Hap IH]; intros s l Hs Hnone Hl.
  { exists s, l. split_and!; [done|by apply grows_evolves, grows_refl|done]. }
  apply Forall_cons in Hok as [Hrok Hok]. cbn [tables_of foldr] in Hl. fold (tables_of rs) in Hl.
  assert (0 ≤ tables_of rs) as Hpos.
  { clear -Hok. induction Hok as [|r rs H _ IH]; cbn; [lia|]. fold (tables_of rs).
    destruct H as (_ & ? & ? & _). unfold table_pages.
    assert (r_va r / PGSIZE / 512 ≤ (r_va r / PGSIZE + (r_pages r - 1)) / 512) by (apply Z.div_le_mono; lia). lia. }
  destruct (kernel_vm_map_ok fuel root s l r) as (s1 & l1 & Hrun & Hev & Hc & Hent); [done..| |lia|].
  { intros va Hv Hin. apply Hnone; [done|]. rewrite kernel_map_cons, Hin. by eexists. }
  destruct (IH Hok s1 l1) as (s' & l' & Hrun' & Hev' & Hent').
  - apply Hev.
  - intros va Hv [e He]. rewrite Hent by done. rewrite kernel_map_cons.
    destruct (in_region r va) eqn:Hin; [by rewrite (kernel_map_apart r rs) in He|]. cbn.
    apply Hnone; [done|]. rewrite kernel_map_cons, Hin. by eexists.
  - lia.
  - exists s', l'. split_and!; [cbn [map_regions]; by step Hrun|by eapply evolves_trans|].
    intros va Hv. rewrite Hent', Hent, !kernel_map_cons by done.
    destruct (in_region r va) eqn:Hin; [by rewrite (kernel_map_apart r rs)|]. by destruct (kernel_map rs va).
Qed.

(** A zeroed page is an empty table. *)
Lemma zero_page_space s p l :
  pg_inv s l → page_ok p → p ∉ l → (∀ x, in_page p x → pg_mem s x = 0) →
  space s p l ∧ ∀ va, 0 ≤ va → entry (pg_mem s) p va = None.
Proof.
  intros Hinv Hp Hl Hz.
  assert (∀ i, 0 ≤ i < 512 → child (pg_mem s) p i = None) as Hc.
  { intros i Hi. unfold child. replace (ld64 (pg_mem s) (p + 8 * i)) with 0; [done|].
    rewrite (ld_ext 8 (pg_mem s) (λ _, 0)); [done|]. intros x Hx. apply Hz. by eapply entry_in_page. }
  assert (∀ q t, path_ok q → node (pg_mem s) p q = Some t → q = [] ∧ t = p) as Hn.
  { intros [|i q] t [Hf _]; cbn; [by intros [= ->]|]. apply Forall_cons in Hf as [Hi _]. by rewrite Hc. }
  split; [split; [done|split|]|].
  - intros q t Hq Ht. by destruct (Hn q t Hq Ht) as [_ ->].
  - intros q q' t Hq Hq' Ht Ht'. destruct (Hn q t Hq Ht) as [-> _]. by destruct (Hn q' t Hq' Ht') as [-> _].
  - intros q t Hq Ht. by destruct (Hn q t Hq Ht) as [_ ->].
  - intros va Hva. unfold entry, slot. destruct (node (pg_mem s) p (vpath va)) as [t|] eqn:Ht; [|done].
    by destruct (Hn _ _ (vpath_ok va Hva) Ht).
Qed.

Lemma new_table s p l :
  pg_inv s (p :: l) →
  ∃ s1 s2, pg_alloc s = Done (p, s1) ∧ kmemset p 0 PGSIZE s1 = Done (tt, s2) ∧
    space s2 p l ∧ ∀ va, 0 ≤ va → entry (pg_mem s2) p va = None.
Proof.
  intros Hinv. destruct (pg_inv_pages _ _ Hinv) as [Hnd Hok].
  apply NoDup_cons in Hnd as [Hp Hnd]. apply Forall_cons in Hok as [[Hpok _] Hok].
  destruct (pg_alloc_some s p l Hinv) as (s1 & Ha & Hinv1 & _). exists s1.
  eexists. split; [done|]. split; [done|]. assert (u32 PGSIZE = PGSIZE) as Hsz by done.
  apply zero_page_space; [|done|done|].
  - apply pg_inv_set_mem; [done|apply memset_ok; by eapply pg_inv_mem|].
    intros q x Hq Hx. apply memset_out. rewrite Hsz. rewrite Forall_forall in Hok.
    apply (MemAllocator.pages_disjoint q p); [apply Hok, Hq|done|by intros ->|done].
  - intros x Hx. rewrite pg_get_set, memset_in; [done|]. by rewrite Hsz.
Qed.

(** [initKernelVm] maps [regions]. *)
Lemma bind_assoc {A B} (m : M S A) (k : M S B) (k' : M S Z) s :
  ((m;; k);; k') s = (m;; (k;; k')) s.
Proof. unfold mbind, M_bind. by destruct (m s) as [[]| |]. Qed.
Lemma mret_bind (k : M S Z) s : (mret tt;; k) s = k s.
Proof. done. Qed.
Lemma bind_ext {A} (m : M S A) (k k' : M S Z) s : (∀ s, k s = k' s) → (m;; k) s = (m;; k') s.
Proof. intros H. unfold mbind, M_bind. destruct (m s) as [[]| |]; [apply H|done..]. Qed.

Lemma initKernelVm_regions pl etext trampoline fuel s root s1 s2 :
  etext mod PGSIZE = 0 →
  pg_alloc s = Done (root, s1) → kmemset root 0 PGSIZE s1 = Done (tt, s2) →
  initKernelVm pl etext trampoline fuel s =
    map_regions fuel root (regions pl etext trampoline) (mret root) s2.
Proof.
  intros He Ha Hm. unfold initKernelVm. step Ha. step Hm.
  assert ((etext - KERNBASE pl) / PGSIZE * PGSIZE = etext - KERNBASE pl) as Hk
    by (destruct pl; unfold KERNBASE, PGSIZE in *; dlia).
  assert ((PHYSTOP - etext) / PGSIZE * PGSIZE = PHYSTOP - etext) as Hp by (unfold PHYSTOP, PGSIZE in *; dlia).
  destruct pl; cbn [regions app map_regions map device r_va r_pa r_pages r_perm];
    rewrite Hk, Hp; [reflexivity|].
  apply bind_ext. intros ?. rewrite mret_bind. do 5 (apply bind_ext; intros ?). repeat (rewrite bind_assoc; apply bind_ext; intros ?). reflexivity.
Qed.
End build.

Ltac region_arith :=
  unfold region_ok, apart, device, KERNBASE, PHYSTOP, page_ok in *; cbn [r_va r_pa r_pages r_perm] in *;
  unfold UART, VIRTIO0, PLIC, GPIOHS, DMAC, SPI_SLAVE, FPIOA, SPI0, SPI1, SPI2, SYSCTL, RTC in *;
  change MAXVA with (2 ^ 38) in *; change PTE_RW with 6 in *; change PTE_RX with 10 in *;
  change TRAMPOLINE with (2 ^ 38 - 4096) in *; unfold PGSIZE in *.

Lemma regions_ok pl etext trampoline :
  etext mod PGSIZE = 0 → KERNBASE pl < etext < PHYSTOP → page_ok trampoline →
  Forall region_ok (regions pl etext trampoline) ∧
  ForallOrdPairs apart (regions pl etext trampoline) ∧ tables_of (regions pl etext trampoline) ≤ 34.
Proof.
  intros He Hk Ht. split_and!.
  - destruct pl; cbn [regions app map]; repeat apply Forall_cons_2; try apply Forall_nil_2; region_arith; dlia.
  - destruct pl; cbn [regions app map]; repeat apply FOP_cons; try apply FOP_nil;
      repeat apply Forall_cons_2; try apply Forall_nil_2; region_arith; dlia.
  - assert ((etext - KERNBASE pl) / PGSIZE = etext / PGSIZE - KERNBASE pl / PGSIZE) as Hk1
      by (destruct pl; region_arith; dlia).
    assert ((PHYSTOP - etext) / PGSIZE = PHYSTOP / PGSIZE - etext / PGSIZE) as Hk2 by (region_arith; dlia).
    unfold tables_of, table_pages. destruct pl; cbn [regions app map foldr device r_va r_pa r_pages r_perm];
      rewrite Hk1, Hk2; region_arith; dlia.
Qed.

Lemma kernel_map_in r rs va :
  ForallOrdPairs apart rs → r ∈ rs → in_region r va = true →
  kernel_map rs va = Some (mk_entry (r_pa r + (va / PGSIZE - r_va r / PGSIZE) * PGSIZE) (r_perm r)).
Proof.
  intros Hap Hr Hin. induction Hap as [|r' rs H Hap IH]; [by apply not_elem_of_nil in Hr|].
  rewrite kernel_map_cons. apply elem_of_cons in Hr as [->|Hr]; [by rewrite Hin|].
  destruct (in_region r' va) eqn:E; [|by apply IH].
  apply in_region_spec in Hin, E. rewrite Forall_forall in H. apply H in Hr. unfold apart in Hr. lia.
Qed.

Lemma kernel_map_inv rs va e :
  kernel_map rs va = Some e →
  ∃ r, r ∈ rs ∧ in_region r va = true ∧
    e = mk_entry (r_pa r + (va / PGSIZE - r_va r / PGSIZE) * PGSIZE) (r_perm r).
Proof.
  induction rs as [|r rs IH]; [done|]. rewrite kernel_map_cons. destruct (in_region r va) eqn:E.
  - intros [= <-]. exists r. split_and!; [by left|done|done].
  - intros (r' & ? & ? & ?)%IH. exists r'. split_and!; [by right|done|done].
Qed.

(** The page of a region that holds [va]. *)
Lemma region_page r va :
  region_ok r → in_region r va = true → page_ok (r_pa r + (va / PGSIZE - r_va r / PGSIZE) * PGSIZE).
Proof.
  intros (_ & _ & _ & _ & Hpa & Hpab & _) Hin%in_region_spec. unfold page_ok, PGSIZE in *. dlia.
Qed.

Lemma mk_entry_flag pa perm k :
  page_ok pa → 0 ≤ perm < 1024 → 0 < k < 10 → has (mk_entry pa perm) (2 ^ k) = Z.testbit perm k.
Proof.
  intros. rewrite mk_entry_eq, has_flag by (done || by apply lor_V_range || lia).
  rewrite Z.lor_spec. change PTE_V with (2 ^ 0). rewrite (Z.pow2_bits_false 0) by lia. apply orb_false_r.
Qed.

Lemma regions_perm pl etext trampoline r :
  r ∈ regions pl etext trampoline → r_perm r = PTE_RW ∨ r_perm r = PTE_RX.
Proof.
  intros Hr. enough (Forall (λ r, r_perm r = PTE_RW ∨ r_perm r = PTE_RX) (regions pl etext trampoline)) as H.
  { rewrite Forall_forall in H. by apply H. }
  destruct pl; cbn [regions app map]; repeat apply Forall_cons_2; try apply Forall_nil_2;
    (left; reflexivity) || (right; reflexivity).
Qed.

Section properties.
Context {S : Type} `{PA : PageAllocator S}.

(** Claim C5. With 35 free pages [initKernelVm] completes and returns a
    well-formed table that maps exactly the regions the code names and nothing
    else: the devices of the platform, the kernel's code, the rest of the memory
    and the trampoline page.  No entry is open to user programs, none can be
    both written and executed, and every address of the memory from KERNBASE up
    to PHYSTOP is mapped to itself, so that the kernel can go on using physical
    addresses once [initHartVm] has switched paging on. *)
Theorem initKernelVm_maps_kernel (pl : platform) (etext trampoline : Z) (fuel : nat) (s : S) (l : list Z) :
  pg_inv s l → 35 ≤ Z.of_nat (length l) → (2048 ≤ fuel)%nat →
  etext mod PGSIZE = 0 → KERNBASE pl < etext < PHYSTOP → page_ok trampoline →
  ∃ root s' l', initKernelVm pl etext trampoline fuel s = Done (root, s') ∧ space s' root l' ∧
    (∀ va, 0 ≤ va < MAXVA → entry (pg_mem s') root va = kernel_map (regions pl etext trampoline) va) ∧
    (∀ va e, 0 ≤ va < MAXVA → entry (pg_mem s') root va = Some e →
       has e PTE_U = false ∧ has e PTE_W && has e PTE_X = false) ∧
    (∀ va, KERNBASE pl ≤ va < PHYSTOP →
       ∃ e, entry (pg_mem s') root va = Some e ∧ PTE2PA e + va mod PGSIZE = va).
Proof.
  intros Hinv Hl Hf He Hk Ht. destruct l as [|root l]; [cbn in Hl; lia|].
  destruct (regions_ok pl etext trampoline He Hk Ht) as (Hok & Hap & Htab).
  destruct (new_table s root l Hinv) as (s1 & s2 & Ha & Hm & Hs & Hnone).
  destruct (map_regions_ok fuel root (mret root) (regions pl etext trampoline) s2 l)
    as (s' & l' & Hrun & Hev & Hent); [done..|intros va ? _; apply Hnone; lia|cbn [length] in Hl; lia|].
  exists root, s', l'. split; [by erewrite initKernelVm_regions|]. split; [apply Hev|].
  assert (∀ va, 0 ≤ va < MAXVA → entry (pg_mem s') root va = kernel_map (regions pl etext trampoline) va) as Hmap.
  { intros va Hva. rewrite Hent, Hnone by lia. by destruct (kernel_map _ va). }
  rewrite Forall_forall in Hok.
  split_and!; [exact Hmap|..].
  - intros va e Hva. rewrite Hmap by done. intros (r & Hr & Hin & ->)%kernel_map_inv.
    pose proof (region_page r va (Hok r Hr) Hin) as Hp. pose proof (Hok r Hr) as Hr'.
    destruct Hr' as (_ & _ & _ & _ & _ & _ & Hperm). apply regions_perm in Hr.
    change PTE_U with (2 ^ 4). change PTE_W with (2 ^ 2). change PTE_X with (2 ^ 3).
    rewrite !mk_entry_flag by (done || lia). by destruct Hr as [-> | ->].
  - intros va Hva. assert (0 ≤ va < MAXVA) as Hva' by (destruct pl; region_arith; lia).
    assert (∃ r, r ∈ regions pl etext trampoline ∧ in_region r va = true ∧ r_pa r = r_va r ∧ r_va r mod PGSIZE = 0)
      as (r & Hr & Hin & Hid & Hal).
    { destruct (Z.lt_ge_cases va etext);
        [exists (Region (KERNBASE pl) (KERNBASE pl) ((etext - KERNBASE pl) / PGSIZE) PTE_RX)
        |exists (Region etext etext ((PHYSTOP - etext) / PGSIZE) PTE_RW)];
        rewrite in_region_spec; (split; [destruct pl; set_solver|]); destruct pl; region_arith; dlia. }
    eexists. rewrite Hmap, (kernel_map_in r) by done. split; [done|].
    rewrite mk_entry_pa; [|by apply region_page; [apply Hok|]|by apply Hok].
    rewrite Hid. unfold PGSIZE in *. dlia.
Qed.
End properties.

(** ** A machine with 64 free pages *)

Definition boot_pages : Z := 0x80400000.
Definition boot_kend : Z := 0x80300000.
Definition boot_empty : kmem := Kmem (λ _, 0) 0 0 0.
Definition boot_mem : kmem :=
  match MemAllocator.freeRange_loop boot_kend 65 boot_pages (boot_pages + 64 * PGSIZE) boot_empty with
  | Done (_, s) => s | _ => boot_empty end.
Lemma boot_mem_inv : MemAllocator.inv boot_kend boot_mem (rev (MemAllocator.pages boot_pages 64)).
Proof.
  assert (MemAllocator.inv boot_kend boot_empty []) as H0.
  { split; [intros x; cbn; lia|reflexivity|constructor|constructor|reflexivity]. }
  edestruct (MemAllocator.freeRange_loop_spec boot_kend (Z.to_nat 64) 65 boot_pages (boot_pages + 64 * PGSIZE)
    boot_empty [] H0) as (s & E & H & _).
  - unfold page_ok, boot_pages, PGSIZE. split_and!; [reflexivity|lia|lia].
  - unfold boot_kend, boot_pages. lia.
  - unfold boot_pages, PGSIZE, PHYSTOP. lia.
  - intros q Hq. by apply not_elem_of_nil in Hq.
  - reflexivity.
  - lia.
  - unfold boot_empty. cbn [total_page_]. lia.
  - unfold boot_empty. cbn [total_page_]. lia.
  - unfold boot_mem. rewrite E. by rewrite app_nil_r in H.
Qed.

Lemma initKernelVm_maps_kernel_witness :
  ∃ root s' l',
    initKernelVm (PA := MemAllocator.page_allocator boot_kend) K210 0x80060000 0x8005f000 2048 boot_mem
      = Done (root, s') ∧ space (PA := MemAllocator.page_allocator boot_kend) s' root l' ∧
    (∀ va, 0 ≤ va < MAXVA → entry (km_mem s') root va = kernel_map (regions K210 0x80060000 0x8005f000) va).
Proof.
  destruct (initKernelVm_maps_kernel (PA := MemAllocator.page_allocator boot_kend) K210 0x80060000 0x8005f000 2048
    boot_mem (rev (MemAllocator.pages boot_pages 64))) as (root & s' & l' & H1 & H2 & H3 & _).
  - apply boot_mem_inv.
  - rewrite length_rev, MemAllocator.length_pages. lia.
  - lia.
  - reflexivity.
  - unfold KERNBASE, PHYSTOP. lia.
  - unfold page_ok, PGSIZE. split_and!; reflexivity || lia.
  - exists root, s', l'. split_and!; assumption.
Defined.
