(* ===== verification/Buddy.v ===== *)
(** * The buddy allocator: kernel/memory/BuddyAllocator.cpp

    Sizes below a page are served from free lists of blocks of [2^4] to [2^12]
    bytes, chained through their first eight bytes; a page comes from the page
    allocator (the interface [PageAllocator]) and goes back when its blocks
    have merged.  The first byte of a block in use holds its level.

    An access to [freelist] outside its [MAX_LEVEL + 1] slots is undefined in
    C++; the model stops with [Panic "freelist index"] there. *)
From S2P Require Import Prelude Mem KAlloc.

Definition MIN_LEVEL : Z := 4.
Definition MAX_LEVEL : Z := 12.

(** [1 << lv] is an [int] shift. *)
Definition _get_buddy (block lv : Z) : Z := Z.lxor block (Z.shiftl 1 lv).

(** [while (size > sz) { sz <<= 1; lv++; }] with [size_t sz = 1 << MIN_LEVEL]. *)
Fixpoint _calc_level_loop (fuel : nat) (size sz lv : Z) : outcome Z :=
  match fuel with
  | O => NoFuel
  | S fuel => if sz <? size then _calc_level_loop fuel size (u64 (Z.shiftl sz 1)) (lv + 1) else Done lv
  end.

Definition _calc_level (fuel : nat) (size : Z) : outcome Z :=
  _calc_level_loop fuel size (Z.shiftl 1 MIN_LEVEL) MIN_LEVEL.

(** [buddy_block_t **list]: the head of a level's list, or the [next] field of
    the block at an address. *)
Inductive slot := Head (i : Z) | Next (p : Z).

(** The allocator object, above the page allocator's state. *)
Record buddy (P : Type) := Buddy {
  bd_freelist : list Z;
  maxlv : Z;
  minlv : Z;
  bd_pages : P;
}.
Arguments Buddy {P}. Arguments bd_freelist {P}. Arguments maxlv {P}.
Arguments minlv {P}. Arguments bd_pages {P}.

Module BuddyAllocator.
Section ops.
Context {P : Type} `{PageAllocator P}.

Definition bd_mem (s : buddy P) : mem := pg_mem (bd_pages s).

Definition rd_freelist (i : Z) : M (buddy P) Z := λ s,
  match bd_freelist s !! Z.to_nat i with
  | Some v => Done (v, s)
  | None => Panic "freelist index"
  end.
Definition wr_freelist (i v : Z) : M (buddy P) unit := λ s,
  match bd_freelist s !! Z.to_nat i with
  | Some _ => Done (tt, Buddy (<[Z.to_nat i := v]> (bd_freelist s)) (maxlv s) (minlv s) (bd_pages s))
  | None => Panic "freelist index"
  end.
Definition wr_mem (f : mem → mem) : M (buddy P) unit :=
  modify (λ s, Buddy (bd_freelist s) (maxlv s) (minlv s) (pg_set_mem (f (bd_mem s)) (bd_pages s))).
Definition rd_next (p : Z) : M (buddy P) Z := gets (λ s, ld64 (bd_mem s) p).
Definition wr_next (p v : Z) : M (buddy P) unit := wr_mem (λ m, st64 m p v).
Definition rd_slot (r : slot) : M (buddy P) Z :=
  match r with Head i => rd_freelist i | Next p => rd_next p end.
Definition wr_slot (r : slot) (v : Z) : M (buddy P) unit :=
  match r with Head i => wr_freelist i v | Next p => wr_next p v end.
Definition pages_do {A : Type} (c : M P A) : M (buddy P) A := λ s,
  match c (bd_pages s) with
  | Done (a, p) => Done (a, Buddy (bd_freelist s) (maxlv s) (minlv s) p)
  | Panic e => Panic e
  | NoFuel => NoFuel
  end.

Definition init : M (buddy P) unit :=
  modify (λ s, Buddy (replicate 13 0) MAX_LEVEL MIN_LEVEL (bd_pages s)).

(** [for (;; ++i)]: take the first block of the first non-empty list. *)
Fixpoint find_block (fuel : nat) (i : Z) : M (buddy P) (Z * Z) :=
  match fuel with
  | O => λ _, NoFuel
  | S fuel =>
      block ← rd_freelist i;
      if negb (block =? 0) then
        nx ← rd_next block;
        wr_freelist i nx;;
        mret (block, i)
      else
        mx ← gets maxlv;
        if mx <=? i then mret (0, i) else find_block fuel (i + 1)
  end.

(** [for (; i > lv; i--)] with [i = lv + n]. *)
Fixpoint split_block (n : nat) (block lv : Z) : M (buddy P) unit :=
  match n with
  | O => mret tt
  | S n =>
      let i1 := lv + Z.of_nat n in
      let bud := _get_buddy block i1 in
      h ← rd_freelist i1;
      wr_next bud h;;
      wr_freelist i1 bud;;
      split_block n block lv
  end.

Definition alloc (fuel : nat) (sz : Z) : M (buddy P) Z := λ s,
  match _calc_level fuel (u64 (sz + 8)) with
  | Done lv =>
      ('(block, i) ← find_block fuel lv;
       block ← (if block =? 0 then
                  p ← pages_do pg_alloc;
                  if p =? 0 then panic "buddy alloc" else mret p
                else mret block);
       split_block (Z.to_nat (i - lv)) block lv;;
       wr_mem (λ m, upd m block (u8 lv));;
       mret (block + 8)) s
  | Panic e => Panic e
  | NoFuel => NoFuel
  end.

(** The [while] loop of [free]: advance the pointer [list] to the slot that
    holds [buddy], or to the one that holds [NULL]. *)
Fixpoint find_slot (fuel : nat) (bud : Z) (r : slot) : M (buddy P) slot :=
  match fuel with
  | O => λ _, NoFuel
  | S fuel =>
      v ← rd_slot r;
      if negb (v =? 0) && negb (v =? bud) then find_slot fuel bud (Next v) else mret r
  end.

Fixpoint free_loop (fuel : nat) (block i : Z) : M (buddy P) unit :=
  match fuel with
  | O => λ _, NoFuel
  | S fuel' =>
      mx ← gets maxlv;
      if i =? mx then pages_do (pg_free block)
      else
        let bud := _get_buddy block i in
        r ← find_slot fuel bud (Head i);
        v ← rd_slot r;
        if negb (v =? bud) then
          h ← rd_freelist i;
          wr_next block h;;
          wr_freelist i block
        else
          nx ← rd_next v;
          wr_slot r nx;;
          free_loop fuel' (if block <? bud then block else bud) (i + 1)
  end.

Definition free (fuel : nat) (pa : Z) : M (buddy P) unit :=
  i ← gets (λ s, bd_mem s (pa - 8));
  free_loop fuel (pa - 8) i.
End ops.
End BuddyAllocator.

(** ** Geometry of blocks *)

Ltac level_cases i :=
  let H := fresh in
  assert (i = 4 ∨ i = 5 ∨ i = 6 ∨ i = 7 ∨ i = 8 ∨ i = 9 ∨ i = 10 ∨ i = 11 ∨ i = 12) as H by lia;
  destruct H as [->|[->|[->|[->|[->|[->|[->|[->| ->]]]]]]]].

Lemma pow2_level i : 4 ≤ i ≤ 12 → 16 ≤ 2 ^ i ≤ 4096.
Proof. intros. level_cases i; lia. Qed.

Lemma pow2_succ i : 0 ≤ i → 2 ^ (i + 1) = 2 * 2 ^ i.
Proof. intros. rewrite Z.pow_add_r; lia. Qed.

(** A block is aligned to its size; its buddy is the other half of the block
    of the next level. *)
Lemma get_buddy_cases b i :
  0 ≤ i → b mod 2 ^ i = 0 →
  (_get_buddy b i = b + 2 ^ i ∧ b mod 2 ^ (i + 1) = 0) ∨
  (_get_buddy b i = b - 2 ^ i ∧ (b - 2 ^ i) mod 2 ^ (i + 1) = 0).
Proof.
  intros Hi Hb. unfold _get_buddy. rewrite Z.shiftl_1_l.
  assert (∀ c, c mod 2 ^ (i + 1) = 0 → Z.lxor c (2 ^ i) = c + 2 ^ i) as Heven.
  { intros c Hc. symmetry. apply Z.add_nocarry_lxor.
    pose proof (lor_add_disjoint c (2 ^ i) (i + 1) ltac:(lia)) as E.
    rewrite pow2_succ in E by lia. pose proof (Z.add_lor_land c (2 ^ i)).
    rewrite pow2_succ in Hc by lia. specialize (E ltac:(lia) Hc). lia. }
  pose proof (pow2_succ i Hi) as Hs.
  destruct (decide (b mod 2 ^ (i + 1) = 0)) as [He|Ho]; [left; by rewrite Heven|right].
  assert ((b - 2 ^ i) mod 2 ^ (i + 1) = 0) as Hc.
  { assert (0 < 2 ^ i) by lia. rewrite Hs in *. set (p := 2 ^ i) in *. clearbody p.
    pose proof (Z.div_mod b p ltac:(lia)) as E. rewrite Hb in E. set (q := b / p) in *.
    clearbody q. assert (b = q * p) as -> by lia.
    destruct (Z.Even_or_Odd q) as [[k ->]|[k ->]].
    - exfalso. apply Ho. replace (2 * k * p) with (k * (2 * p)) by lia. apply Z.mod_mul. lia.
    - replace ((2 * k + 1) * p - p) with (k * (2 * p)) by lia. apply Z.mod_mul. lia. }
  split; [|done].
  replace b with (b - 2 ^ i + 2 ^ i) at 1 by lia.
  rewrite <- (Heven _ Hc). by rewrite Z.lxor_assoc, Z.lxor_nilpotent, Z.lxor_0_r.
Qed.

(** ** Tilings

    The abstract state: the blocks cut out of pages taken from the page
    allocator, by start address, with their level and use.  A block is [Held]
    while an operation works on it. *)
Inductive kind := Free | Held | Alloc.
#[global] Instance kind_eq_dec : EqDecision kind.
Proof. solve_decision. Defined.

Abbreviation blocks := (gmap Z (Z * kind)).

Section tiling.
Context {P : Type} `{PageAllocator P}.

(** A block of level [i] at [b], whose page is not in the page list [l]. *)
Definition blk_ok (l : list Z) (b i : Z) : Prop :=
  4 ≤ i ≤ 12 ∧ b mod 2 ^ i = 0 ∧
  page_ok (b - b mod 4096) ∧ pg_managed (b - b mod 4096) ∧ b - b mod 4096 ∉ l.

Record tiling (l : list Z) (T : blocks) : Prop := {
  ti_blk : ∀ b i k, T !! b = Some (i, k) → blk_ok l b i ∧ (k = Free → i < 12);
  ti_disj : ∀ b1 i1 k1 b2 i2 k2 x, T !! b1 = Some (i1, k1) → T !! b2 = Some (i2, k2) →
    b1 ≤ x < b1 + 2 ^ i1 → b2 ≤ x < b2 + 2 ^ i2 → b1 = b2;
  (** two free buddies would have merged *)
  ti_canon : ∀ b i, T !! b = Some (i, Free) → T !! _get_buddy b i ≠ Some (i, Free);
  (** the blocks cover the pages they were cut from *)
  ti_cover : ∀ b i k x, T !! b = Some (i, k) →
    b - b mod 4096 ≤ x < b - b mod 4096 + 4096 →
    ∃ b' i' k', T !! b' = Some (i', k') ∧ b' ≤ x < b' + 2 ^ i';
}.

Definition owned (T : blocks) (p : Z) : Prop :=
  ∃ b i k, T !! b = Some (i, k) ∧ p = b - b mod 4096.

Lemma blk_in_page b i :
  4 ≤ i ≤ 12 → b mod 2 ^ i = 0 → b - b mod 4096 ≤ b ∧ b + 2 ^ i ≤ b - b mod 4096 + 4096.
Proof. intros Hi Hb. level_cases i; cbn in *; dlia. Qed.

Lemma same_page b x : b - b mod 4096 ≤ x < b - b mod 4096 + 4096 → x - x mod 4096 = b - b mod 4096.
Proof. dlia. Qed.

(** Nested or disjoint. *)
Lemma blk_nested b1 i1 b2 i2 x :
  4 ≤ i1 ≤ i2 → i2 ≤ 12 → b1 mod 2 ^ i1 = 0 → b2 mod 2 ^ i2 = 0 →
  b1 ≤ x < b1 + 2 ^ i1 → b2 ≤ x < b2 + 2 ^ i2 → b2 ≤ b1 ∧ b1 + 2 ^ i1 ≤ b2 + 2 ^ i2.
Proof.
  intros Hi Hi2 H1 H2 Hx1 Hx2.
  assert (b2 mod 2 ^ i1 = 0) as H2'.
  { replace i2 with (i1 + (i2 - i1)) in H2 by lia. rewrite Z.pow_add_r in H2 by lia.
    apply Z.mod_divide; [lia|]. pose proof (Z.pow_pos_nonneg 2 (i2 - i1)). apply Z.mod_divide in H2; [|nia].
    etrans; [|exact H2]. by exists (2 ^ (i2 - i1)); lia. }
  assert ((b2 + 2 ^ i2) mod 2 ^ i1 = 0) as H2''.
  { replace i2 with (i1 + (i2 - i1)) by lia. rewrite Z.pow_add_r, Z.mul_comm, Z.mod_add by lia. done. }
  clear H2. set (c := b2 + 2 ^ i2) in *. clearbody c.
  assert (0 < 2 ^ i1) by lia. set (p := 2 ^ i1) in *. clearbody p.
  apply Z.mod_divide in H1 as [q1 ->], H2' as [q2 ->], H2'' as [q3 ->]; try lia.
  assert (q2 < q1 + 1) by nia. assert (q1 < q3) by nia. split; nia.
Qed.

Lemma get_buddy_involutive b i : _get_buddy (_get_buddy b i) i = b.
Proof. unfold _get_buddy. by rewrite Z.lxor_assoc, Z.lxor_nilpotent, Z.lxor_0_r. Qed.

Lemma get_buddy_inj b c i : _get_buddy b i = _get_buddy c i → b = c.
Proof. intros E. by rewrite <- (get_buddy_involutive b i), E, get_buddy_involutive. Qed.

Lemma get_buddy_ne b i : 0 ≤ i → _get_buddy b i ≠ b.
Proof.
  intros Hi Hb. unfold _get_buddy in Hb. rewrite Z.shiftl_1_l in Hb.
  assert (Z.lxor b (Z.lxor b (2 ^ i)) = 0) as E by (rewrite Hb; apply Z.lxor_nilpotent).
  rewrite <- Z.lxor_assoc, Z.lxor_nilpotent, Z.lxor_0_l in E. lia.
Qed.

Lemma tiling_self l T b i k : tiling l T → T !! b = Some (i, k) → b ≤ b < b + 2 ^ i.
Proof. intros HT Hb. apply HT in Hb as [[? _] _]. pose proof (pow2_level i ltac:(lia)). lia. Qed.

(** Changing the use of a block. *)
Lemma tiling_kind l T b i k k' :
  tiling l T → T !! b = Some (i, k) →
  (k' = Free → i < 12 ∧ T !! _get_buddy b i ≠ Some (i, Free)) →
  tiling l (<[b := (i, k')]> T).
Proof.
  intros HT Hb Hk. split.
  - intros c j q [[-> [= <- <-]]|[? Hc]]%lookup_insert_Some; [|by apply HT in Hc].
    split; [by apply HT in Hb as []|by apply Hk].
  - assert (∀ c j q, <[b := (i, k')]> T !! c = Some (j, q) → ∃ q', T !! c = Some (j, q')) as Hin.
    { intros c j q [[-> [= <- <-]]|[? Hc]]%lookup_insert_Some; eauto. }
    intros b1 i1 k1 b2 i2 k2 x [? H1]%Hin [? H2]%Hin. by eapply (ti_disj _ _ HT).
  - intros c j [[-> [= <- ->]]|[Hne Hc]]%lookup_insert_Some [[Hb' E]|[? Hd]]%lookup_insert_Some.
    + by eapply get_buddy_ne; [|symmetry; exact Hb']; apply HT in Hb as [[? _] _]; lia.
    + by apply Hk in Hd.
    + injection E as -> ->. destruct Hk as [_ Hk]; [done|]. apply Hk.
      rewrite Hb'. by rewrite get_buddy_involutive.
    + by apply (ti_canon _ _ HT) in Hc.
  - intros c j q x Hc Hx.
    assert (∃ q', T !! c = Some (j, q')) as [q' Hc'].
    { apply lookup_insert_Some in Hc as [[-> [= <- <-]]|[? Hc]]; eauto. }
    destruct (ti_cover _ _ HT _ _ _ _ Hc' Hx) as (d & e & f & Hd & Hdx).
    destruct (decide (d = b)) as [->|].
    + rewrite Hb in Hd. injection Hd as <- <-. exists b, i, k'. by rewrite lookup_insert_eq.
    + exists d, e, f. by rewrite lookup_insert_ne.
Qed.

(** The two halves of a block. *)
Lemma split_geometry l b i :
  blk_ok l b i → 4 < i →
  2 ^ i = 2 * 2 ^ (i - 1) ∧ _get_buddy b (i - 1) = b + 2 ^ (i - 1) ∧
  (b + 2 ^ (i - 1)) - (b + 2 ^ (i - 1)) mod 4096 = b - b mod 4096 ∧
  blk_ok l b (i - 1) ∧ blk_ok l (b + 2 ^ (i - 1)) (i - 1).
Proof.
  intros (Hi12 & Hal & Hpg) Hi.
  pose proof (pow2_succ (i - 1) ltac:(lia)) as Hs. replace (i - 1 + 1) with i in Hs by lia.
  pose proof (pow2_level (i - 1) ltac:(lia)) as Hp.
  pose proof (blk_in_page b i ltac:(lia) Hal) as Hin.
  assert (b mod 2 ^ (i - 1) = 0) as Hal'.
  { rewrite Hs in Hal. apply Z.mod_divide; [lia|]. apply Z.mod_divide in Hal; [|lia].
    etrans; [|exact Hal]. by exists 2. }
  set (h := 2 ^ (i - 1)) in *.
  assert ((b + h) - (b + h) mod 4096 = b - b mod 4096) as E by (apply same_page; lia).
  assert (_get_buddy b (i - 1) = b + h) as Hbud.
  { destruct (get_buddy_cases b (i - 1) ltac:(lia) Hal') as [[? _]|[_ E']]; [done|].
    exfalso. replace (i - 1 + 1) with i in E' by lia. rewrite Hs in *. fold h in E', Hal.
    clearbody h. apply Z.mod_divide in E' as [u E'], Hal as [v Hv]; try lia.
    assert (h * (2 * (v - u) - 1) = 0) as F by lia. apply Z.mul_eq_0 in F. lia. }
  unfold blk_ok. rewrite E. split_and!; try done; try lia; try apply Hpg.
  replace (b + h) with (b + 1 * h) by lia. by rewrite Z.mod_add by lia.
Qed.

(** Cutting a block into its two halves, the upper one free. *)
Lemma tiling_split l T b i :
  tiling l T → T !! b = Some (i, Held) → 4 < i →
  T !! (b + 2 ^ (i - 1)) = None ∧
  tiling l (<[b + 2 ^ (i - 1) := (i - 1, Free)]> (<[b := (i - 1, Held)]> T)).
Proof.
  intros HT Hb Hi.
  destruct (split_geometry l b i) as (Hs & Hbud & Hpb & Hblk1 & Hblk2); [by eapply ti_blk|done|].
  pose proof (tiling_self _ _ _ _ _ HT Hb) as Hself.
  assert (i ≤ 12) by (apply (ti_blk _ _ HT) in Hb as [[? _] _]; lia). assert (0 < 2 ^ i) by lia.
  set (h := 2 ^ (i - 1)) in *.
  assert (T !! (b + h) = None) as Hnone.
  { destruct (T !! (b + h)) as [[j k]|] eqn:Hj; [|done]. exfalso.
    assert (b = b + h); [|lia]. eapply (ti_disj _ _ HT _ _ _ _ _ _ (b + h) Hb Hj); [lia|].
    by eapply tiling_self. }
  split; [done|].
  assert (∀ c j q, <[b + h := (i - 1, Free)]> (<[b := (i - 1, Held)]> T) !! c = Some (j, q) →
    (c = b + h ∧ j = i - 1 ∧ q = Free) ∨ (c = b ∧ j = i - 1 ∧ q = Held) ∨
    (c ≠ b ∧ c ≠ b + h ∧ T !! c = Some (j, q))) as Hcase.
  { intros c j q [[-> [= <- <-]]|[? [[-> [= <- <-]]|[? Hc]]%lookup_insert_Some]]%lookup_insert_Some;
      [by left|by right; left|by right; right]. }
  assert (∀ c j q x, c ≠ b → T !! c = Some (j, q) → c ≤ x < c + 2 ^ j → ¬ (b ≤ x < b + 2 ^ i)) as Hout.
  { intros c j q x Hne Hc Hx Hx'. apply Hne. by eapply (ti_disj _ _ HT). }
  split.
  - intros c j q [(-> & -> & ->)|[(-> & -> & ->)|(? & ? & Hc)]]%Hcase.
    + split; [done|lia].
    + done.
    + by apply HT in Hc.
  - intros b1 i1 k1 b2 i2 k2 x
      [(-> & -> & ->)|[(-> & -> & ->)|(? & ? & Hc1)]]%Hcase
      [(-> & -> & ->)|[(-> & -> & ->)|(? & ? & Hc2)]]%Hcase Hx1 Hx2; fold h in Hx1, Hx2;
      first [done|lia|by eapply (ti_disj _ _ HT)|exfalso].
    + eapply (Hout b2); [done..|]. lia.
    + eapply (Hout b2); [done..|]. lia.
    + eapply (Hout b1); [done..|]. lia.
    + eapply (Hout b1); [done..|]. lia.
  - intros c j [(-> & -> & _)|[(-> & -> & ?)|(? & ? & Hc)]]%Hcase; [|done|].
    + assert (_get_buddy (b + h) (i - 1) = b) as -> by (rewrite <- Hbud; apply get_buddy_involutive).
      intros [(? & _)|[(_ & _ & ?)|(? & _)]]%Hcase; [lia|done|done].
    + intros [(Hg & -> & _)|[(_ & _ & ?)|(? & ? & Hd)]]%Hcase; [|done|].
      * rewrite <- Hbud in Hg. apply get_buddy_inj in Hg. congruence.
      * by apply (ti_canon _ _ HT _ _ Hc).
  - intros c j q x Hc Hx.
    assert (∃ c' j' q', T !! c' = Some (j', q') ∧ c' - c' mod 4096 = c - c mod 4096) as (c' & j' & q' & Hc' & Hpc).
    { apply Hcase in Hc as [(-> & -> & ->)|[(-> & -> & ->)|(? & ? & Hc)]]; eauto 6. }
    rewrite <- Hpc in Hx. destruct (ti_cover _ _ HT _ _ _ _ Hc' Hx) as (d & e & f & Hd & Hdx).
    destruct (decide (d = b)) as [->|Hdb].
    + rewrite Hb in Hd. injection Hd as <- <-. destruct (decide (x < b + h)).
      * exists b, (i - 1), Held. rewrite lookup_insert_ne, lookup_insert_eq by lia. split; [done|lia].
      * exists (b + h), (i - 1), Free. rewrite lookup_insert_eq. split; [done|lia].
    + exists d, e, f. rewrite !lookup_insert_ne; [done|congruence|]. intros <-. congruence.
Qed.

(** The block made of two buddies. *)
Lemma merge_geometry l b i :
  blk_ok l b i → i < 12 →
  let bud := _get_buddy b i in
  let mn := if b <? bud then b else bud in
  blk_ok l mn (i + 1) ∧ mn - mn mod 4096 = b - b mod 4096 ∧
  2 ^ (i + 1) = 2 * 2 ^ i ∧ (mn = b ∧ bud = b + 2 ^ i ∨ mn = bud ∧ b = bud + 2 ^ i).
Proof.
  intros (Hi & Hal & Hpg) Hi12 bud mn.
  pose proof (pow2_level i Hi). pose proof (pow2_succ i ltac:(lia)) as Hs.
  pose proof (blk_in_page b i ltac:(lia) Hal) as Hin.
  subst bud mn. destruct (get_buddy_cases b i ltac:(lia) Hal) as [[-> E]|[-> E]].
  - rewrite (proj2 (Z.ltb_lt _ _)) by lia. split_and!; try done; [|by left].
    unfold blk_ok. split_and!; try done; try lia; apply Hpg.
  - rewrite (proj2 (Z.ltb_ge _ _)) by lia.
    pose proof (blk_in_page (b - 2 ^ i) (i + 1) ltac:(lia) E) as Hin'.
    assert (b - 2 ^ i - (b - 2 ^ i) mod 4096 = b - b mod 4096) as Hp.
    { symmetry. apply same_page. lia. }
    split_and!; try done; [|right; lia].
    unfold blk_ok. rewrite Hp. split_and!; try done; try lia; apply Hpg.
Qed.

Lemma tiling_merge l T b i :
  tiling l T → T !! b = Some (i, Held) → T !! _get_buddy b i = Some (i, Free) →
  tiling l (<[(if b <? _get_buddy b i then b else _get_buddy b i) := (i + 1, Held)]>
            (delete (_get_buddy b i) (delete b T))).
Proof.
  intros HT Hb Hbud.
  destruct (ti_blk _ _ HT _ _ _ Hb) as [Hok _].
  destruct (ti_blk _ _ HT _ _ _ Hbud) as [Hok' Hi12]. specialize (Hi12 eq_refl).
  destruct (merge_geometry l b i Hok Hi12) as (Hmok & Hmp & Hs & Hmn).
  set (bud := _get_buddy b i) in *. set (mn := if b <? bud then b else bud) in *.
  assert (∀ x, mn ≤ x < mn + 2 ^ (i + 1) ↔ b ≤ x < b + 2 ^ i ∨ bud ≤ x < bud + 2 ^ i) as Hrng.
  { intros x. rewrite Hs. destruct Hmn as [[E1 E2]|[E1 E2]]; rewrite E1, E2; lia. }
  clearbody mn bud.
  assert (∀ c j q, <[mn := (i + 1, Held)]> (delete bud (delete b T)) !! c = Some (j, q) →
    (c = mn ∧ j = i + 1 ∧ q = Held) ∨ (c ≠ b ∧ c ≠ bud ∧ T !! c = Some (j, q))) as Hcase.
  { intros c j q [[-> [= <- <-]]|[_ [? [? Hc]%lookup_delete_Some]%lookup_delete_Some]]%lookup_insert_Some;
      [by left|by right]. }
  assert (∀ c j q x, c ≠ b → c ≠ bud → T !! c = Some (j, q) → c ≤ x < c + 2 ^ j →
    ¬ (mn ≤ x < mn + 2 ^ (i + 1))) as Hout.
  { intros c j q x Hne Hne' Hc Hx [Hx'|Hx']%Hrng; [apply Hne|apply Hne']; by eapply (ti_disj _ _ HT). }
  split.
  - intros c j q [(-> & -> & ->)|(_ & _ & Hc)]%Hcase; [done|by apply HT in Hc].
  - intros b1 i1 k1 b2 i2 k2 x [(-> & -> & ->)|(Hn1 & Hn1' & Hc1)]%Hcase
      [(-> & -> & ->)|(Hn2 & Hn2' & Hc2)]%Hcase Hx1 Hx2.
    + done.
    + exfalso. by eapply (Hout b2).
    + exfalso. by eapply (Hout b1).
    + by eapply (ti_disj _ _ HT).
  - intros c j [(_ & _ & ?)|(_ & _ & Hc)]%Hcase; [done|].
    intros [(_ & _ & ?)|(_ & _ & Hd)]%Hcase; [done|]. by apply (ti_canon _ _ HT _ _ Hc).
  - intros c j q x Hc Hx.
    assert (∃ c' j' q', T !! c' = Some (j', q') ∧ c' - c' mod 4096 = c - c mod 4096) as (c' & j' & q' & Hc' & Hpc).
    { apply Hcase in Hc as [(-> & -> & ->)|(_ & _ & Hc)]; eauto 6. }
    rewrite <- Hpc in Hx. destruct (ti_cover _ _ HT _ _ _ _ Hc' Hx) as (d & e & f & Hd & Hdx).
    destruct (decide (d = b ∨ d = bud)) as [Hdb|Hdb].
    + exists mn, (i + 1), Held. rewrite lookup_insert_eq. split; [done|]. apply Hrng.
      destruct Hdb as [-> | ->]; simplify_eq; auto.
    + apply Decidable.not_or in Hdb as [Hd1 Hd2]. exists d, e, f.
      assert (mn ≠ d) by (destruct Hmn as [[-> _]|[-> _]]; congruence).
      by rewrite lookup_insert_ne, !lookup_delete_ne by congruence.
Qed.

(** A fresh page is one block; a page-sized block can leave. *)
Lemma tiling_page_in p l T :
  tiling (p :: l) T → NoDup (p :: l) → page_ok p → pg_managed p →
  tiling l (<[p := (12, Held)]> T) ∧ T !! p = None.
Proof.
  intros HT [Hpl _]%NoDup_cons Hp Hm. assert (p mod 4096 = 0) as Hal by apply Hp.
  assert (p - p mod 4096 = p) as Hpp by lia.
  assert (∀ c j q, T !! c = Some (j, q) → c - c mod 4096 ≠ p ∧ blk_ok l c j) as Hne.
  { intros c j q [(? & ? & ? & ? & Hni) _]%(ti_blk _ _ HT). apply not_elem_of_cons in Hni as [? ?].
    split; [congruence|]. unfold blk_ok. tauto. }
  assert (∀ c j q x, T !! c = Some (j, q) → c ≤ x < c + 2 ^ j → ¬ (p ≤ x < p + 2 ^ 12)) as Hout.
  { intros c j q x Hc Hx Hx'. destruct (Hne _ _ _ Hc) as [Hn (? & Hcal & _)]. apply Hn.
    pose proof (blk_in_page c j ltac:(lia) Hcal). rewrite <- Hpp.
    change (2 ^ 12) with 4096 in *.
    rewrite <- (same_page c x) by lia. apply same_page. lia. }
  split.
  2: { destruct (T !! p) as [[j k]|] eqn:Hj; [|done]. by destruct (Hne _ _ _ Hj) as [? _]. }
  split.
  - intros c j q [[<- [= <- <-]]|[? Hc]]%lookup_insert_Some.
    + split; [|done]. unfold blk_ok. rewrite Hpp.
      refine (conj _ (conj Hal (conj Hp (conj Hm Hpl)))). lia.
    + split; [by eapply Hne|]. by apply (ti_blk _ _ HT) in Hc as [_ ?].
  - intros b1 i1 k1 b2 i2 k2 x [[<- [= <- <-]]|[? Hc1]]%lookup_insert_Some
      [[<- [= <- <-]]|[? Hc2]]%lookup_insert_Some Hx1 Hx2.
    + done.
    + exfalso. by eapply (Hout b2).
    + exfalso. by eapply (Hout b1).
    + by eapply (ti_disj _ _ HT).
  - intros c j [[_ [= ]]|[? Hc]]%lookup_insert_Some [[_ [= ]]|[? Hd]]%lookup_insert_Some.
    by apply (ti_canon _ _ HT _ _ Hc).
  - intros c j q x [[<- [= <- <-]]|[? Hc]]%lookup_insert_Some Hx.
    + exists p, 12, Held. rewrite lookup_insert_eq. split; [done|]. lia.
    + destruct (ti_cover _ _ HT _ _ _ _ Hc Hx) as (d & e & f & Hd & Hdx).
      exists d, e, f. rewrite lookup_insert_ne; [done|]. intros <-.
      by destruct (Hne _ _ _ Hd).
Qed.

Lemma tiling_page_out b l T :
  tiling l T → T !! b = Some (12, Held) → tiling (b :: l) (delete b T).
Proof.
  intros HT Hb. destruct (ti_blk _ _ HT _ _ _ Hb) as [(_ & Hal & Hok & Hm & Hl) _].
  change (2 ^ 12) with 4096 in Hal. assert (b - b mod 4096 = b) as Hbb by lia.
  assert (∀ c j q, c ≠ b → T !! c = Some (j, q) → c - c mod 4096 ≠ b) as Hne.
  { intros c j q Hcb Hc Hcp. apply Hcb. symmetry.
    eapply (ti_disj _ _ HT _ _ _ _ _ _ c Hb Hc); [|by eapply tiling_self]. change (2 ^ 12) with 4096. dlia. }
  split.
  - intros c j q [Hcb Hc]%lookup_delete_Some. pose proof (Hne _ _ _ (not_eq_sym Hcb) Hc).
    apply (ti_blk _ _ HT) in Hc as [(? & ? & ? & ? & ?) ?]. split; [|done].
    unfold blk_ok. rewrite not_elem_of_cons. tauto.
  - intros b1 i1 k1 b2 i2 k2 x [_ Hc1]%lookup_delete_Some [_ Hc2]%lookup_delete_Some.
    by eapply (ti_disj _ _ HT).
  - intros c j [_ Hc]%lookup_delete_Some [_ Hd]%lookup_delete_Some. by apply (ti_canon _ _ HT _ _ Hc).
  - intros c j q x [Hcb Hc]%lookup_delete_Some Hx.
    destruct (ti_cover _ _ HT _ _ _ _ Hc Hx) as (d & e & f & Hd & Hdx).
    exists d, e, f. rewrite lookup_delete_ne; [done|]. intros <-. rewrite Hb in Hd. injection Hd as <- <-.
    eapply Hne; [|exact Hc|]; [done|]. rewrite <- (same_page c x) by done.
    rewrite <- Hbb. apply same_page. change (2 ^ 12) with 4096 in *. lia.
Qed.
End tiling.

(** ** The free lists *)

Section lists.
Context {P : Type} `{PageAllocator P}.

(** [F i b]: the block [b] is free at level [i]. *)
Definition lists (m : mem) (fl : list Z) (F : Z → Z → Prop) : Prop :=
  ∀ i, 0 ≤ i ≤ 12 → ∃ h li, fl !! Z.to_nat i = Some h ∧ MemAllocator.chain m h li ∧
    NoDup li ∧ ∀ b, b ∈ li ↔ F i b.

(** The slot that holds the element after [pre]. *)
Definition slot_after (i : Z) (pre : list Z) : slot :=
  match last pre with None => Head i | Some q => Next q end.

(** Free cells are inside the address space and do not overlap. *)
Definition cells (F : Z → Z → Prop) : Prop :=
  (∀ i b, F i b → 0 < b < 2 ^ 64) ∧
  (∀ i b j c x, F i b → F j c → b ≤ x < b + 8 → c ≤ x < c + 8 → i = j ∧ b = c).

Lemma chain_head m h l : MemAllocator.chain m h l → h = default 0 (head l).
Proof. destruct l; cbn; [done|]. by intros [-> _]. Qed.

Lemma chain_unlink m h pre q b post F :
  cells F → (∀ c, c ∈ pre ++ q :: b :: post → ∃ j, F j c) → NoDup (pre ++ q :: b :: post) →
  mem_ok m →
  MemAllocator.chain m h (pre ++ q :: b :: post) →
  MemAllocator.chain (st64 m q (ld64 m b)) h (pre ++ q :: post).
Proof.
  intros [HF HD] Hin Hnd Hm. revert h. induction pre as [|p pre IH]; intros h; cbn.
  - intros (-> & E & Hc). split; [done|]. rewrite ld64_st64_same by by apply ld64_range.
    eapply MemAllocator.chain_ext; [|exact Hc]. intros c x Hc' Hx. apply st64_other.
    intros Hqx. cbn in Hnd. apply NoDup_cons in Hnd as [Hq _]. apply Hq. right.
    destruct (Hin q) as [? Hq']; [by left|]. destruct (Hin c) as [? Hcc]; [by right; right|].
    by destruct (HD _ _ _ _ x Hq' Hcc Hqx Hx) as [_ ->].
  - intros [-> Hc]. split; [done|]. cbn in Hnd. apply NoDup_cons in Hnd as [Hp Hnd].
    rewrite ld64_st64_ne.
    + apply IH; [|done|done]. intros c Hc'. apply Hin. by right.
    + destruct (Hin p) as [? Hp']; [by left|].
      destruct (Hin q) as [? Hq']; [right; apply elem_of_app; right; by left|].
      assert (p ≠ q) as Hne by (intros ->; apply Hp, elem_of_app; right; by left).
      destruct (decide (p + 8 ≤ q ∨ q + 8 ≤ p)); [lia|]. exfalso. apply Hne.
      apply (HD _ _ _ _ (Z.max p q) Hp' Hq'); lia.
Qed.

Lemma lists_other m fl F i0 v (F' : Z → Z → Prop) m' :
  lists m fl F → 0 ≤ i0 ≤ 12 →
  (∀ i b, i ≠ i0 → F' i b ↔ F i b) →
  (∀ i b x, i ≠ i0 → F i b → b ≤ x < b + 8 → m' x = m x) →
  (∃ li, MemAllocator.chain m' v li ∧ NoDup li ∧ ∀ b, b ∈ li ↔ F' i0 b) →
  lists m' (<[Z.to_nat i0 := v]> fl) F'.
Proof.
  intros HL Hi0 HF Hm (l0 & Hc0 & Hn0 & He0) i Hi.
  destruct (HL i Hi) as (h & li & Hh & Hc & Hn & He).
  destruct (decide (i = i0)) as [->|Hne].
  - exists v, l0. rewrite list_lookup_insert_eq by by eapply lookup_lt_Some. done.
  - exists h, li. rewrite list_lookup_insert_ne by lia. split_and!; try done.
    + eapply MemAllocator.chain_ext; [|done]. intros b x Hb Hx. apply (Hm i b); [done|by apply He|done].
    + intros b. by rewrite HF.
Qed.

Lemma lists_push m fl (F F' : Z → Z → Prop) b i h :
  lists m fl F → cells F → 0 ≤ i ≤ 12 → fl !! Z.to_nat i = Some h → ¬ F i b → b ≠ 0 →
  (∀ j c, F' j c ↔ F j c ∨ (j = i ∧ c = b)) →
  (∀ j c x, F j c → c ≤ x < c + 8 → ¬ (b ≤ x < b + 8)) →
  lists (st64 m b h) (<[Z.to_nat i := b]> fl) F'.
Proof.
  intros HL [HC _] Hi Hh Hb Hb0 HF Hcell.
  assert (∀ j c x, F j c → c ≤ x < c + 8 → st64 m b h x = m x) as Hm.
  { intros j c x Hc Hx. apply st64_other. by eapply Hcell. }
  eapply lists_other; [done|done| | |].
  - intros j c Hne. rewrite HF. tauto.
  - intros j c x _. apply Hm.
  - destruct (HL i Hi) as (h' & li & Hh' & Hc & Hn & He). rewrite Hh in Hh'. injection Hh' as <-.
    assert (0 ≤ h < 2 ^ 64) as Hhr.
    { rewrite (chain_head _ _ _ Hc). destruct li as [|c li]; cbn; [lia|].
      assert (0 < c < 2 ^ 64) by (eapply HC, He; by left). lia. }
    exists (b :: li). split_and!.
    + split; [done|]. rewrite ld64_st64_same by done.
      eapply MemAllocator.chain_ext; [|done]. intros c x Hc' Hx. eapply Hm; [by apply He|done].
    + constructor; [by rewrite He|done].
    + intros c. rewrite elem_of_cons, HF, He. tauto.
Qed.

(** Unlinking the element after [pre] from the list of level [i]. *)
Lemma lists_unlink m fl (F F' : Z → Z → Prop) b i h pre post :
  lists m fl F → cells F → 0 ≤ i ≤ 12 → mem_ok m → fl !! Z.to_nat i = Some h →
  MemAllocator.chain m h (pre ++ b :: post) → NoDup (pre ++ b :: post) →
  (∀ c, c ∈ pre ++ b :: post ↔ F i c) →
  (∀ j c, F' j c ↔ F j c ∧ ¬ (j = i ∧ c = b)) →
  match slot_after i pre with
  | Head _ => lists m (<[Z.to_nat i := ld64 m b]> fl) F'
  | Next q => lists (st64 m q (ld64 m b)) fl F' ∧ F i q ∧ q ≠ b
  end.
Proof.
  intros HL HC Hi Hm Hh Hc Hn He HF.
  assert (∀ j c, j ≠ i → F' j c ↔ F j c) as Hne by (intros j c ?; rewrite HF; tauto).
  unfold slot_after. destruct (last pre) as [q|] eqn:Hq.
  - apply last_Some in Hq as [pre' ->]. rewrite <- app_assoc in *. cbn in *.
    assert (F i q) as Hq by (apply He; apply elem_of_app; right; by left).
    assert (q ≠ b) as Hqb.
    { apply NoDup_app in Hn as (_ & _ & Hn). apply NoDup_cons in Hn as [Hn _]. intros ->. apply Hn. by left. }
    split_and!; [|done|done].
    rewrite <- (list_insert_id fl (Z.to_nat i) h Hh).
    eapply lists_other; [done|done|done| |].
    + intros j c x Hj Hcj Hx. apply st64_other. intros Hx'. apply Hj.
      by destruct (proj2 HC _ _ _ _ x Hcj Hq Hx Hx').
    + exists (pre' ++ q :: post). split_and!.
      * eapply chain_unlink; [done| |done|done|done]. intros c Hcc%He. eauto.
      * eapply sublist_NoDup; [exact Hn|].
        apply sublist_app; [done|]. apply sublist_skip. by apply sublist_cons.
      * intros c. rewrite HF, <- He, !elem_of_app, !elem_of_cons.
        assert (c = b → (c ∉ pre') ∧ c ≠ q ∧ (c ∉ post)); [|tauto]. intros ->.
        rewrite NoDup_app, !NoDup_cons, not_elem_of_cons in Hn.
        destruct Hn as (_ & Hn & _ & ? & _). split_and!; try done.
        intros ?. eapply Hn; [done|]. right. by left.
  - apply last_None in Hq as ->. cbn in *. destruct Hc as [-> Hc].
    eapply lists_other; [done|done|done|done|].
    apply NoDup_cons in Hn as [Hb Hn]. exists post. split_and!; [done..|].
    intros c. rewrite HF, <- He, elem_of_cons.
    assert (c = b → c ∉ post) by (by intros ->). tauto.
Qed.

(** [find_slot] on a well-formed list: it stops at the slot that holds [bud],
    or at the end of the list. *)
Lemma rd_slot_after i s h pre rest :
  bd_freelist s !! Z.to_nat i = Some h →
  MemAllocator.chain (BuddyAllocator.bd_mem s) h (pre ++ rest) →
  BuddyAllocator.rd_slot (slot_after i pre) s = Done (default 0 (head rest), s).
Proof.
  intros Hh Hc. unfold slot_after. destruct (last pre) as [q|] eqn:Hq.
  - apply last_Some in Hq as [pre' ->]. rewrite <- app_assoc in Hc. cbn.
    assert (∀ h', MemAllocator.chain (BuddyAllocator.bd_mem s) h' (pre' ++ [q] ++ rest) →
      ld64 (BuddyAllocator.bd_mem s) q = default 0 (head rest)) as E.
    { clear. induction pre' as [|p pre' IH]; intros h'; cbn.
      - intros [-> Hc]. by apply chain_head in Hc.
      - intros [-> Hc]. by eapply IH. }
    unfold BuddyAllocator.rd_next, gets. by erewrite E.
  - apply last_None in Hq as ->. cbn. unfold BuddyAllocator.rd_freelist. rewrite Hh.
    cbn in Hc. by apply chain_head in Hc as ->.
Qed.

Lemma find_slot_spec fuel bud i s h li pre rest :
  bd_freelist s !! Z.to_nat i = Some h →
  MemAllocator.chain (BuddyAllocator.bd_mem s) h li → li = pre ++ rest →
  (0 ∉ li) → (bud ∉ pre) → bud ≠ 0 → (length rest < fuel)%nat →
  ∃ pre', BuddyAllocator.find_slot fuel bud (slot_after i pre) s = Done (slot_after i pre', s) ∧
    (((bud ∉ li) ∧ BuddyAllocator.rd_slot (slot_after i pre') s = Done (0, s)) ∨
     (∃ post, li = pre' ++ bud :: post ∧
              BuddyAllocator.rd_slot (slot_after i pre') s = Done (bud, s))).
Proof.
  intros Hh Hc -> H0 Hpre Hb0. revert pre rest Hc H0 Hpre.
  induction fuel as [|fuel IH]; intros pre rest Hc H0 Hpre Hf; [lia|].
  pose proof (rd_slot_after _ _ _ _ _ Hh Hc) as Hrd.
  cbn [BuddyAllocator.find_slot]. unfold mbind, M_bind. rewrite Hrd.
  destruct rest as [|v rest]; cbn -[Z.eqb] in *.
  - exists pre. split; [done|]. left. by rewrite app_nil_r.
  - assert (v ≠ 0) as Hv by (intros ->; apply H0, elem_of_app; right; by left).
    rewrite (proj2 (Z.eqb_neq v 0)) by done.
    destruct (Z.eqb_spec v bud) as [->|Hvb]; cbn.
    + exists pre. split; [done|]. right. by exists rest.
    + destruct (IH (pre ++ [v]) rest) as (pre' & Hr & Hres).
      * by rewrite <- app_assoc.
      * by rewrite <- app_assoc.
      * by intros [?|?%list_elem_of_singleton]%elem_of_app.
      * cbn in Hf. lia.
      * exists pre'. rewrite <- app_assoc in Hres. split; [|exact Hres].
        rewrite <- Hr. unfold slot_after. by rewrite last_snoc.
Qed.
End lists.

(** ** The invariant and the steps of the operations *)

Section inv.
Context {P : Type} `{PageAllocator P}.
Import BuddyAllocator.

Lemma bd_mem_set fl mx mn m (p : P) : bd_mem (Buddy fl mx mn (pg_set_mem m p)) = m.
Proof. unfold bd_mem. cbn. by rewrite pg_get_set. Qed.

Definition isfree (T : blocks) (i b : Z) : Prop := T !! b = Some (i, Free).

Record inv (s : buddy P) (T : blocks) (l : list Z) : Prop := {
  bi_len : length (bd_freelist s) = 13%nat;
  bi_maxlv : maxlv s = MAX_LEVEL;
  bi_tiling : tiling l T;
  bi_pages : pg_inv (bd_pages s) l;
  bi_lists : lists (bd_mem s) (bd_freelist s) (isfree T);
  bi_level : ∀ b i, T !! b = Some (i, Alloc) → bd_mem s b = i;
}.

(** What an operation may not touch: the blocks in use. *)
Definition frame (T : blocks) (m m' : mem) : Prop :=
  ∀ b i x, T !! b = Some (i, Alloc) → b ≤ x < b + 2 ^ i → m' x = m x.

Lemma tiling_range l T b i k :
  tiling l T → T !! b = Some (i, k) → 0 < b ∧ b + 2 ^ i ≤ 2 ^ 56 ∧ 16 ≤ 2 ^ i.
Proof.
  intros HT Hb. destruct (ti_blk _ _ HT _ _ _ Hb) as [(Hi & Hal & (_ & ? & ?) & _) _].
  pose proof (blk_in_page b i Hi Hal). pose proof (pow2_level i Hi). unfold PGSIZE in *. lia.
Qed.

Lemma tiling_cells l T : tiling l T → cells (isfree T).
Proof.
  intros HT. split.
  - intros i b Hb. pose proof (tiling_range _ _ _ _ _ HT Hb). lia.
  - intros i b j c x Hb Hc Hx Hx'.
    pose proof (tiling_range _ _ _ _ _ HT Hb). pose proof (tiling_range _ _ _ _ _ HT Hc).
    assert (b = c) as -> by (eapply (ti_disj _ _ HT _ _ _ _ _ _ x Hb Hc); lia).
    unfold isfree in *. split; [congruence|done].
Qed.

(** Writing inside blocks that are not in use. *)
Lemma write_ok s T l m :
  inv s T l → mem_ok m →
  (∀ x, m x = bd_mem s x ∨ ∃ b i k, T !! b = Some (i, k) ∧ k ≠ Alloc ∧ b ≤ x < b + 2 ^ i) →
  pg_inv (pg_set_mem m (bd_pages s)) l ∧ frame T (bd_mem s) m.
Proof.
  intros Hs Hm Hx. pose proof (bi_tiling _ _ _ Hs) as HT. split.
  - apply pg_inv_set_mem; [apply Hs|done|]. intros p x Hp Hpx.
    destruct (Hx x) as [E|(b & i & k & Hb & _ & Hbx)]; [done|]. exfalso.
    destruct (ti_blk _ _ HT _ _ _ Hb) as [(Hi & Hal & _ & _ & Hl) _]. apply Hl.
    pose proof (blk_in_page b i Hi Hal) as Hin. rewrite <- (same_page b x) by lia.
    destruct (pg_inv_pages _ _ (bi_pages _ _ _ Hs)) as [_ Hpl].
    rewrite Forall_forall in Hpl. destruct (Hpl p Hp) as [(Hpal & _) _]. unfold PGSIZE in *.
    replace (x - x mod 4096) with p by dlia. done.
  - intros b i x Hb Hbx. destruct (Hx x) as [E|(c & j & k & Hc & Hk & Hcx)]; [done|].
    exfalso. assert (b = c) as -> by (by eapply (ti_disj _ _ HT)). congruence.
Qed.

(** The state after an operation: same memory outside free and held blocks. *)
Lemma inv_intro s T l T' m fl :
  inv s T l → tiling l T' → length fl = 13%nat → mem_ok m →
  (∀ x, m x = bd_mem s x ∨ ∃ b i k, T !! b = Some (i, k) ∧ k ≠ Alloc ∧ b ≤ x < b + 2 ^ i) →
  lists m fl (isfree T') →
  (∀ b i, T' !! b = Some (i, Alloc) → T !! b = Some (i, Alloc) ∨ m b = i) →
  inv (Buddy fl (maxlv s) (minlv s) (pg_set_mem m (bd_pages s))) T' l ∧ frame T (bd_mem s) m.
Proof.
  intros Hs HT' Hfl Hm Hx HL Hlv. destruct (write_ok _ _ _ _ Hs Hm Hx) as [Hpg Hfr].
  split; [|done]. split; unfold bd_mem; cbn; rewrite ?pg_get_set; try done; [apply Hs|].
  intros b i Hb. destruct (Hlv b i Hb) as [Hb'|]; [|done].
  rewrite (Hfr b i b Hb') by by eapply tiling_self, Hb'; apply Hs. by apply Hs.
Qed.
Lemma inv_mem_ok s T l : inv s T l → mem_ok (bd_mem s).
Proof. intros Hs. eapply pg_inv_mem. apply Hs. Qed.

(** Only the lists' heads change. *)
Lemma inv_heads s T l T' fl :
  inv s T l → tiling l T' → length fl = 13%nat → lists (bd_mem s) fl (isfree T') →
  (∀ b i, T' !! b = Some (i, Alloc) → T !! b = Some (i, Alloc)) →
  inv (Buddy fl (maxlv s) (minlv s) (bd_pages s)) T' l.
Proof.
  intros Hs HT' Hfl HL Hlv. split; unfold bd_mem; cbn; try done; try apply Hs.
  intros b i Hb%Hlv. by apply Hs.
Qed.

(** The blocks in use and the pages the allocator owns stay the same. *)
Definition same_use (T T' : blocks) : Prop :=
  (∀ c j, T' !! c = Some (j, Alloc) ↔ T !! c = Some (j, Alloc)) ∧
  (∀ p, owned T' p ↔ owned T p).

(** At most the block [b] is held. *)
Definition holds (b : Z) (T : blocks) : Prop := ∀ c j, T !! c = Some (j, Held) → c = b.

Lemma same_use_refl T : same_use T T.
Proof. split; done. Qed.
Lemma same_use_trans T1 T2 T3 : same_use T1 T2 → same_use T2 T3 → same_use T1 T3.
Proof. intros [A B] [C D]. split; [intros; by rewrite C|intros; by rewrite D]. Qed.

Lemma frame_trans T1 T2 m1 m2 m3 :
  frame T1 m1 m2 → same_use T1 T2 → frame T2 m2 m3 → frame T1 m1 m3.
Proof.
  intros H1 [HA _] H2 b i x Hb Hx. rewrite (H2 b i x); [by eapply H1|by apply HA|done].
Qed.

Lemma owned_kind T b i k k' p :
  T !! b = Some (i, k) → owned (<[b := (i, k')]> T) p ↔ owned T p.
Proof.
  intros Hb. split; intros (c & j & q & Hc & ->).
  - apply lookup_insert_Some in Hc as [[-> [= <- <-]]|[_ Hc]]; unfold owned; eauto 6.
  - destruct (decide (c = b)) as [->|].
    + exists b, i, k'. by rewrite lookup_insert_eq.
    + exists c, j, q. by rewrite lookup_insert_ne.
Qed.

Lemma same_use_kind T b i k k' :
  T !! b = Some (i, k) → k ≠ Alloc → k' ≠ Alloc → same_use T (<[b := (i, k')]> T).
Proof.
  intros Hb Hk Hk'. split; [|intros p; by eapply owned_kind].
  intros c j. rewrite lookup_insert_Some. split.
  - intros [[_ [= _ ?]]|[_ ?]]; done.
  - intros Hc. right. split; [|done]. intros <-. rewrite Hb in Hc. by injection Hc.
Qed.

Lemma holds_release b i k T : holds b T → k ≠ Held → holds b (<[b := (i, k)]> T) ∧
  ∀ c j, <[b := (i, k)]> T !! c ≠ Some (j, Held).
Proof.
  intros Hh Hk. split; intros c j.
  - intros [[_ [= _ ?]]|[_ Hc]]%lookup_insert_Some; [done|by eapply Hh].
  - intros [[_ [= _ ?]]|[Hne Hc]]%lookup_insert_Some; [done|]. apply Hne. symmetry. by eapply Hh.
Qed.

(** [block->next = freelist[i]; freelist[i] = block;] with [block] inside a
    held block. *)
Lemma push_ok s T T' l b b0 i i0 :
  inv s T l → tiling l T' → 0 ≤ i ≤ 12 →
  T !! b0 = Some (i0, Held) → b0 ≤ b → b + 8 ≤ b0 + 2 ^ i0 →
  (∀ c j, isfree T' j c ↔ isfree T j c ∨ (j = i ∧ c = b)) →
  (∀ c j, T' !! c = Some (j, Alloc) → T !! c = Some (j, Alloc)) →
  ∃ s', (h ← rd_freelist i; wr_next b h;; wr_freelist i b) s = Done (tt, s') ∧
        inv s' T' l ∧ frame T (bd_mem s) (bd_mem s').
Proof.
  intros Hs HT' Hi Hb0 Hlo Hhi HF HA. pose proof (bi_tiling _ _ _ Hs) as HT.
  pose proof (tiling_range _ _ _ _ _ HT Hb0).
  destruct (bi_lists _ _ _ Hs i Hi) as (h & _ & Hh & _).
  unfold mbind, M_bind, rd_freelist, wr_next, wr_mem, modify. rewrite Hh.
  unfold wr_freelist. cbn. rewrite Hh. eexists. split; [done|].
  assert (∀ j c x, isfree T j c → c ≤ x < c + 8 → ¬ (b0 ≤ x < b0 + 2 ^ i0)) as Hcell.
  { intros j c x Hc Hx Hx'. pose proof (tiling_range _ _ _ _ _ HT Hc).
    assert (b0 = c) as <- by (eapply (ti_disj _ _ HT _ _ _ _ _ _ x Hb0 Hc); lia).
    unfold isfree in Hc. congruence. }
  unfold bd_mem at 3. cbn. rewrite pg_get_set.
  apply (inv_intro s T); try done.
  - rewrite length_insert. apply Hs.
  - apply st64_ok. by eapply inv_mem_ok.
  - intros x. destruct (decide (b ≤ x < b + 8)).
    + right. exists b0, i0, Held. split_and!; [done|done|lia|lia].
    + left. by apply st64_other.
  - apply (lists_push _ _ (isfree T) (isfree T') b i h);
      [apply Hs|by eapply tiling_cells|done|done| |lia|by intros; apply HF|].
    + intros Hc. eapply (Hcell i b b); [done|lia|lia].
    + intros j c x Hc Hx Hx'. eapply (Hcell j c x); [done..|lia].
  - intros c j Hc. left. by apply HA.
Qed.

(** [find_block] takes a free block or finds none of the level asked for. *)
Lemma find_block_ok fuel s T l i :
  inv s T l → 0 ≤ i ≤ 12 → (Z.to_nat (12 - i) < fuel)%nat →
  (∃ b j s', find_block fuel i s = Done ((b, j), s') ∧ i ≤ j ≤ 12 ∧ T !! b = Some (j, Free) ∧
     inv s' (<[b := (j, Held)]> T) l ∧ bd_mem s' = bd_mem s) ∨
  (find_block fuel i s = Done ((0, 12), s) ∧ ∀ b j, i ≤ j ≤ 12 → T !! b ≠ Some (j, Free)).
Proof.
  intros Hs. revert i. induction fuel as [|fuel IH]; intros i Hi Hf; [lia|].
  pose proof (bi_tiling _ _ _ Hs) as HT.
  destruct (bi_lists _ _ _ Hs i Hi) as (h & li & Hh & Hc & Hn & He).
  cbn [find_block]. unfold mbind, M_bind, rd_freelist. rewrite Hh. cbn -[Z.leb].
  destruct li as [|b li]; cbn in Hc.
  - subst h. cbn -[Z.leb]. rewrite (bi_maxlv _ _ _ Hs).
    assert (∀ b, T !! b ≠ Some (i, Free)) as Hno.
    { intros b Hb. apply He in Hb. by apply not_elem_of_nil in Hb. }
    destruct (Z.leb_spec MAX_LEVEL i) as [Hle|Hlt]; unfold MAX_LEVEL in *.
    + right. assert (i = 12) as -> by lia. split; [done|]. intros b j Hj.
      assert (j = 12) as -> by lia. apply Hno.
    + destruct (IH (i + 1)) as [(b & j & s' & Hr & Hj & Hrest)|[Hr Hrest]]; [lia|lia|..].
      * left. exists b, j, s'. split; [done|]. split; [lia|done].
      * right. split; [done|]. intros b j Hj. destruct (decide (j = i)) as [->|]; [apply Hno|].
        apply Hrest. lia.
  - destruct Hc as [-> Hc]. assert (T !! b = Some (i, Free)) as Hb by (apply He; by left).
    pose proof (tiling_range _ _ _ _ _ HT Hb).
    rewrite (proj2 (Z.eqb_neq b 0)) by lia. cbn. unfold wr_freelist. cbn. rewrite Hh.
    left. eexists b, i, _. split; [done|]. split_and!; [lia|lia|done| |done].
    eapply inv_heads; [done|by eapply tiling_kind| | |].
    + rewrite length_insert. apply Hs.
    + pose proof (lists_unlink (bd_mem s) (bd_freelist s) (isfree T)
        (isfree (<[b := (i, Held)]> T)) b i b [] li) as HU. cbn in HU.
      apply HU; try done; [apply Hs|by eapply tiling_cells|by eapply inv_mem_ok|].
      intros j c. unfold isfree. rewrite lookup_insert_Some.
      destruct (decide (b = c)) as [<-|Hbc]; [rewrite Hb|].
      * split; [by intros [[_ [= ]]|[? _]]|]. intros [[= <-] Hn']. by destruct Hn'.
      * split; [intros [[? _]|[_ ?]]; [done|]; split; [done|by intros [_ ->]]|intros [? _]; by right].
    + intros c j [[_ [= ]]|[_ ?]]%lookup_insert_Some; done.
Qed.

Lemma split_block_ok n s T l b lv :
  inv s T l → T !! b = Some (lv + Z.of_nat n, Held) → holds b T → 4 ≤ lv →
  ∃ s' T', split_block n b lv s = Done (tt, s') ∧ inv s' T' l ∧
    T' !! b = Some (lv, Held) ∧ holds b T' ∧ same_use T T' ∧ frame T (bd_mem s) (bd_mem s').
Proof.
  intros Hs Hb Hh Hlv. revert s T Hs Hb Hh. induction n as [|n IH]; intros s T Hs Hb Hh.
  { exists s, T. rewrite Z.add_0_r in Hb. by split_and!. }
  pose proof (bi_tiling _ _ _ Hs) as HT. pose proof (ti_blk _ _ HT _ _ _ Hb) as [Hok _].
  replace (lv + Z.of_nat (Datatypes.S n)) with (lv + Z.of_nat n + 1) in * by lia.
  set (i := lv + Z.of_nat n) in *.
  destruct (split_geometry l b (i + 1)) as (Hp2 & Hbud & Hpg & _ & _); [done|lia|].
  destruct (tiling_split l T b (i + 1)) as [Hnone HT']; [done|done|lia|].
  replace (i + 1 - 1) with i in * by lia.
  pose proof (pow2_level i) as Hpow. destruct Hok as [Hi12 _].
  cbn [split_block]. fold i. rewrite Hbud.
  assert (same_use T (<[b + 2 ^ i := (i, Free)]> (<[b := (i, Held)]> T))) as Huse.
  { split.
    - intros c j. rewrite !lookup_insert_Some. split.
      + intros [[_ [= ]]|[_ [[_ [= ]]|[_ ?]]]]. done.
      + intros Hc. right. split; [congruence|]. right. split; [congruence|done].
    - intros p. split.
      + intros (c & j & q & [[<- [= <- <-]]|[_ [[<- [= <- <-]]|[_ Hc]]%lookup_insert_Some]]%lookup_insert_Some & ->).
        * rewrite Hpg. by exists b, (i + 1), Held.
        * by exists b, (i + 1), Held.
        * by exists c, j, q.
      + intros (c & j & q & Hc & ->). destruct (decide (c = b)) as [->|Hcb].
        * exists b, i, Held. rewrite lookup_insert_ne, lookup_insert_eq by lia. done.
        * exists c, j, q. rewrite !lookup_insert_ne by congruence. done. }
  destruct (push_ok s T (<[b + 2 ^ i := (i, Free)]> (<[b := (i, Held)]> T)) l (b + 2 ^ i) b i (i + 1))
    as (s1 & Hpush & Hs1 & Hf1); try done; try lia.
  { intros c j. unfold isfree. rewrite !lookup_insert_Some.
    split.
    - intros [[<- [= <-]]|[_ [[_ [= ]]|[_ ?]]]]; [by right|by left].
    - intros [Hc|[-> ->]]; [|by left]. right. split; [congruence|]. right. split; [congruence|done]. }
  { intros c j. apply Huse. }
  destruct (IH s1 _ Hs1) as (s' & T' & Hrun & Hs' & Hb' & Hh' & Huse' & Hf').
  { rewrite lookup_insert_ne, lookup_insert_eq by lia. done. }
  { intros c j [[_ [= ]]|[_ [[<- _]|[_ Hc]]%lookup_insert_Some]]%lookup_insert_Some; [done|].
    by eapply Hh. }
  exists s', T'. split_and!; try done; [|by eapply same_use_trans|by eapply frame_trans].
  revert Hpush. unfold mbind, M_bind. destruct (rd_freelist i s) as [[h s0]| |]; [|done|done].
  cbn beta iota. destruct (wr_next (b + 2 ^ i) h s0) as [[[] s2]| |]; [|done|done].
  cbn beta iota. by intros ->.
Qed.

(** Taking a page from the page allocator and giving one back. *)
Lemma page_in_ok s T p l :
  inv s T (p :: l) → (∀ c j, T !! c ≠ Some (j, Held)) →
  ∃ s', pages_do pg_alloc s = Done (p, s') ∧ inv s' (<[p := (12, Held)]> T) l ∧ T !! p = None ∧
    p ≠ 0 ∧ frame T (bd_mem s) (bd_mem s').
Proof.
  intros Hs Hnh. pose proof (bi_tiling _ _ _ Hs) as HT.
  destruct (pg_inv_pages _ _ (bi_pages _ _ _ Hs)) as [Hnd [[Hp Hm] _]%Forall_cons].
  destruct (tiling_page_in p l T HT Hnd Hp Hm) as [HT' Hnone].
  destruct (pg_alloc_some _ _ _ (bi_pages _ _ _ Hs)) as (q & Hq & Hqi & Hout).
  unfold pages_do. rewrite Hq. eexists. split; [done|].
  assert (∀ c j k x, T !! c = Some (j, k) → c ≤ x < c + 2 ^ j → pg_mem q x = bd_mem s x) as Hmem.
  { intros c j k x Hc Hx. apply Hout. intros Hpx.
    assert (p = c); [|congruence].
    eapply (ti_disj _ _ HT' _ _ _ _ _ _ x); [by rewrite lookup_insert_eq|
      rewrite lookup_insert_ne; [done|congruence]|exact Hpx|done]. }
  split_and!; try done; [|by destruct Hp; lia|intros b i x; apply Hmem].
  split; unfold bd_mem; cbn; try done; try apply Hs.
  - intros i Hi. destruct (bi_lists _ _ _ Hs i Hi) as (h & li & Hh & Hc & Hn & He).
    exists h, li. split_and!; try done.
    + eapply MemAllocator.chain_ext; [|done]. intros c x Hcl Hx. apply He in Hcl.
      pose proof (tiling_range _ _ _ _ _ HT Hcl). eapply Hmem; [done|lia].
    + intros c. rewrite He. unfold isfree. rewrite lookup_insert_Some. split; [|by intros [[_ [= ]]|[_ ?]]].
      intros Hc'. right. split; [congruence|done].
  - intros c j [[_ [= ]]|[_ Hc]]%lookup_insert_Some. fold (pg_mem q).
    rewrite (Hmem c j Alloc c Hc) by (by apply (tiling_self _ _ _ _ _ HT Hc)). by apply Hs.
Qed.

Lemma page_out_ok s T b l :
  inv s T l → T !! b = Some (12, Held) → holds b T →
  ∃ s', pages_do (pg_free b) s = Done (tt, s') ∧ inv s' (delete b T) (b :: l) ∧
    frame T (bd_mem s) (bd_mem s').
Proof.
  intros Hs Hb Hh. pose proof (bi_tiling _ _ _ Hs) as HT.
  pose proof (tiling_page_out _ _ _ HT Hb) as HT'.
  destruct (ti_blk _ _ HT _ _ _ Hb) as [(_ & Hal & Hp & Hm & Hl) _].
  change (2 ^ 12) with 4096 in Hal. replace (b - b mod 4096) with b in * by lia.
  destruct (pg_free_ok _ _ _ (bi_pages _ _ _ Hs) Hp Hm Hl) as (q & Hq & Hqi & Hout).
  unfold pages_do. rewrite Hq. eexists. split; [done|].
  assert (∀ c j k x, c ≠ b → T !! c = Some (j, k) → c ≤ x < c + 2 ^ j → pg_mem q x = bd_mem s x) as Hmem.
  { intros c j k x Hne Hc Hx. apply Hout. intros Hpx. apply Hne.
    by eapply (ti_disj _ _ HT _ _ _ _ _ _ x). }
  assert (∀ c j k, k ≠ Held → T !! c = Some (j, k) → c ≠ b) as Hne.
  { intros c j k Hk Hc ->. rewrite Hb in Hc. by injection Hc. }
  split_and!; try done; [|intros c i x Hc; eapply Hmem; [by apply (Hne c i Alloc)|done]].
  split; unfold bd_mem; cbn; try done; try apply Hs.
  - intros i Hi. destruct (bi_lists _ _ _ Hs i Hi) as (h & li & Hh' & Hc & Hn & He).
    exists h, li. split_and!; try done.
    + eapply MemAllocator.chain_ext; [|done]. intros c x Hcl Hx. apply He in Hcl.
      pose proof (tiling_range _ _ _ _ _ HT Hcl). eapply Hmem; [by apply (Hne c i Free)|done|lia].
    + intros c. rewrite He. unfold isfree. rewrite lookup_delete_Some. split; [|by intros [_ ?]].
      intros Hc'. split; [|done]. intros <-. by apply (Hne b i Free).
  - intros c j [Hcb Hc]%lookup_delete_Some.
    rewrite (Hmem c j Alloc c) by (done || by apply (tiling_self _ _ _ _ _ HT Hc)). by apply Hs.
Qed.

(** No page is gained or lost. *)
Definition same_pages (T : blocks) (l : list Z) (T' : blocks) (l' : list Z) : Prop :=
  ∀ p, (owned T' p ∨ p ∈ l') ↔ (owned T p ∨ p ∈ l).

Lemma free_list_size (T : blocks) i li :
  NoDup li → (∀ b, b ∈ li → isfree T i b) → (length li ≤ size T)%nat.
Proof.
  intros Hn Hin. rewrite <- (size_list_to_set (C := gset Z) li), <- (size_dom (D := gset Z) T) by done.
  apply subseteq_size. intros b Hb%elem_of_list_to_set. apply elem_of_dom. eexists. by apply Hin.
Qed.

Lemma owned_delete l T b k p :
  tiling l T → T !! b = Some (12, k) → (p = b ∨ owned (delete b T) p) ↔ owned T p.
Proof.
  intros HT Hb. destruct (ti_blk _ _ HT _ _ _ Hb) as [(_ & Hal & _) _].
  change (2 ^ 12) with 4096 in Hal. split.
  - intros [->|(c & j & q & [_ Hc]%lookup_delete_Some & ->)]; [|by exists c, j, q].
    exists b, 12, k. split; [done|lia].
  - intros (c & j & q & Hc & ->). destruct (decide (c = b)) as [->|]; [left; lia|].
    right. exists c, j, q. by rewrite lookup_delete_ne.
Qed.

(** The blocks after a merge. *)
Definition merged (T : blocks) (b i : Z) : blocks :=
  <[(if b <? _get_buddy b i then b else _get_buddy b i) := (i + 1, Held)]>
    (delete (_get_buddy b i) (delete b T)).

Section merge.
Context (l : list Z) (T : blocks) (b i : Z).
Context (HT : tiling l T) (Hb : T !! b = Some (i, Held)) (Hbud : T !! _get_buddy b i = Some (i, Free)).
Let bud := _get_buddy b i.
Let mn := if b <? bud then b else bud.

Local Lemma merge_facts :
  i < 12 ∧ 4 ≤ i ∧ bud ≠ b ∧ (mn = b ∨ mn = bud) ∧
  mn - mn mod 4096 = b - b mod 4096 ∧ bud - bud mod 4096 = b - b mod 4096.
Proof.
  destruct (ti_blk _ _ HT _ _ _ Hbud) as [Hok' Hi12]. specialize (Hi12 eq_refl).
  destruct (ti_blk _ _ HT _ _ _ Hb) as [Hok _].
  destruct (merge_geometry l b i Hok Hi12) as (_ & Hpg & _ & Hmn).
  destruct (merge_geometry l (_get_buddy b i) i Hok' Hi12) as (_ & E & _).
  rewrite get_buddy_involutive in E. destruct Hok as [Hi _].
  pose proof (get_buddy_ne b i ltac:(lia)). subst mn bud. cbv zeta in *.
  split_and!; try done; try lia; try tauto. revert E Hpg.
  destruct (Z.ltb_spec b (_get_buddy b i)), (Z.ltb_spec (_get_buddy b i) b); lia.
Qed.

Lemma merged_lookup c j k : k ≠ Held → merged T b i !! c = Some (j, k) ↔ T !! c = Some (j, k) ∧ c ≠ bud.
Proof.
  intros Hk. destruct merge_facts as (_ & _ & Hne & Hmb & _).
  unfold merged. fold bud. fold mn. rewrite lookup_insert_Some, !lookup_delete_Some. split.
  - intros [[_ [= _ ?]]|(_ & ? & _ & ?)]; done.
  - intros [Hc' Hcb]. right. assert (c ≠ b) by congruence.
    split_and!; try done. destruct Hmb as [-> | ->]; done.
Qed.

Lemma merged_same_use : same_use T (merged T b i).
Proof.
  destruct merge_facts as (_ & _ & Hne & Hmb & Hp1 & Hp2). split.
  - intros c j. rewrite merged_lookup by done. split; [tauto|]. intros Hc'. split; [done|].
    intros ->. subst bud. congruence.
  - intros p. split; intros (c & j & q & Hc' & ->).
    + unfold merged in Hc'. apply lookup_insert_Some in Hc' as [[<- [= <- <-]]|[_ Hc']].
      * by exists b, i, Held.
      * apply lookup_delete_Some in Hc' as [_ [_ Hc']%lookup_delete_Some]. by exists c, j, q.
    + destruct (decide (c = b ∨ c = bud)) as [Hcb|Hcb].
      * exists mn, (i + 1), Held. unfold merged. fold bud. fold mn. rewrite lookup_insert_eq. split; [done|].
        destruct Hcb as [-> | ->]; congruence.
      * apply Decidable.not_or in Hcb as [? ?]. exists c, j, q. split; [|done].
        unfold merged. fold bud. fold mn.
        rewrite lookup_insert_ne, !lookup_delete_ne by (destruct Hmb; congruence). done.
Qed.

Lemma merged_size : Datatypes.S (size (merged T b i)) = size T.
Proof.
  destruct merge_facts as (_ & _ & Hne & Hmb & _). unfold merged. fold bud. fold mn.
  assert (delete bud (delete b T) !! mn = None) as Hmnone.
  { rewrite !lookup_delete_None. destruct Hmb as [-> | ->]; auto. }
  rewrite map_size_insert_None by done.
  assert (is_Some (delete b T !! bud)) as Hd1 by (rewrite lookup_delete_ne by done; by eexists).
  assert (is_Some (T !! b)) as Hd2 by by eexists.
  rewrite (map_size_delete_Some _ _ Hd1), (map_size_delete_Some _ _ Hd2).
  destruct (size T) as [|[|n]] eqn:E; [|exfalso|done].
  - apply map_size_empty_inv in E. rewrite E in Hb. by rewrite lookup_empty in Hb.
  - pose proof (map_size_delete_Some _ _ Hd2) as E2. rewrite E in E2.
    apply map_size_empty_inv in E2. rewrite E2 in Hd1. by destruct Hd1.
Qed.

Lemma merged_holds : holds b T → holds mn (merged T b i).
Proof.
  intros Hh c j. unfold merged. intros [[<- _]|[_ [_ [Hcb Hc']%lookup_delete_Some]%lookup_delete_Some]]%lookup_insert_Some; [done|].
  by apply Hh in Hc'.
Qed.
End merge.

(** One merge: the free buddy leaves its list. *)
Lemma merge_ok s T l b i h pre post :
  inv s T l → T !! b = Some (i, Held) → 0 ≤ i ≤ 12 →
  bd_freelist s !! Z.to_nat i = Some h →
  MemAllocator.chain (bd_mem s) h (pre ++ _get_buddy b i :: post) →
  NoDup (pre ++ _get_buddy b i :: post) →
  (∀ c, c ∈ pre ++ _get_buddy b i :: post ↔ isfree T i c) →
  ∃ s', wr_slot (slot_after i pre) (ld64 (bd_mem s) (_get_buddy b i)) s = Done (tt, s') ∧
    inv s' (merged T b i) l ∧ frame T (bd_mem s) (bd_mem s').
Proof.
  intros Hs Hb Hi Hfl Hc Hn He. pose proof (bi_tiling _ _ _ Hs) as HT.
  assert (T !! _get_buddy b i = Some (i, Free)) as Hbud by (apply He, elem_of_app; right; by left).
  pose proof (tiling_merge l T b i HT Hb Hbud : tiling l (merged T b i)) as HT'.
  pose proof (merged_lookup l T b i HT Hb Hbud) as Hlk.
  destruct (merged_same_use l T b i HT Hb Hbud) as [HA _].
  assert (∀ j c, isfree (merged T b i) j c ↔ isfree T j c ∧ ¬ (j = i ∧ c = _get_buddy b i)) as HF.
  { intros j c. unfold isfree. rewrite Hlk by done. split; [tauto|].
    intros [Hc' Hno]. split; [done|]. intros ->. apply Hno. split; [congruence|done]. }
  pose proof (inv_mem_ok _ _ _ Hs) as Hm.
  pose proof (lists_unlink _ _ _ _ (_get_buddy b i) i h pre post (bi_lists _ _ _ Hs)
    (tiling_cells _ _ HT) Hi Hm Hfl Hc Hn He HF) as HU.
  destruct (slot_after i pre) as [i'|q] eqn:Hslot.
  - assert (i' = i) as ->. { unfold slot_after in Hslot. destruct (last pre); congruence. }
    cbn [wr_slot]. unfold wr_freelist. rewrite Hfl. eexists. split; [done|].
    split; [|done]. eapply inv_heads; try done; [rewrite length_insert; apply Hs|by intros; apply HA].
  - destruct HU as (HL & HFq & Hqb). cbn [wr_slot]. unfold wr_next, wr_mem, modify.
    eexists. split; [done|]. pose proof (tiling_range _ _ _ _ _ HT HFq).
    rewrite bd_mem_set.
    apply (inv_intro s T); try done; [apply Hs|by apply st64_ok| |by intros; left; apply HA].
    intros x. destruct (decide (q ≤ x < q + 8)); [|left; by apply st64_other].
    right. exists q, i, Free. split_and!; [done|done|lia|lia].
Qed.

Lemma free_loop_ok fuel s T l b i :
  inv s T l → T !! b = Some (i, Held) → holds b T → (Z.to_nat (12 - i) + size T < fuel)%nat →
  ∃ s' T' l', free_loop fuel b i s = Done (tt, s') ∧ inv s' T' l' ∧
    (∀ c j, T' !! c ≠ Some (j, Held)) ∧ frame T (bd_mem s) (bd_mem s') ∧
    (∀ c j, T' !! c = Some (j, Alloc) ↔ T !! c = Some (j, Alloc)) ∧ same_pages T l T' l'.
Proof.
  revert s T b i. induction fuel as [|fuel IH]; intros s T b i Hs Hb Hh Hf; [lia|].
  pose proof (bi_tiling _ _ _ Hs) as HT. destruct (ti_blk _ _ HT _ _ _ Hb) as [[Hi _] _].
  cbn [free_loop]. erewrite M_bind_Done by reflexivity. cbn beta.
  rewrite (bi_maxlv _ _ _ Hs). unfold MAX_LEVEL.
  destruct (Z.eqb_spec i 12) as [->|Hi12].
  { destruct (page_out_ok s T b l Hs Hb Hh) as (s' & Hr & Hs' & Hfr).
    exists s', (delete b T), (b :: l). split_and!; try done.
    - intros c j [Hne Hc]%lookup_delete_Some. apply Hne. symmetry. by eapply Hh.
    - intros c j. rewrite lookup_delete_Some. split; [tauto|]. intros Hc. split; [congruence|done].
    - intros p. rewrite elem_of_cons, <- (owned_delete l T b Held p HT Hb). tauto. }
  destruct (bi_lists _ _ _ Hs i ltac:(lia)) as (h & li & Hfl & Hc & Hn & He).
  set (bud := _get_buddy b i).
  assert (∀ c, c ∈ li → c ≠ 0) as Hnz.
  { intros c Hcl%He. pose proof (tiling_range _ _ _ _ _ HT Hcl). lia. }
  assert (bud ≠ 0) as Hbud0.
  { pose proof (tiling_range _ _ _ _ _ HT Hb). pose proof (pow2_level i Hi).
    destruct (ti_blk _ _ HT _ _ _ Hb) as [(_ & Hal & (Hpp & ? & _) & _) _].
    pose proof (blk_in_page b i Hi Hal).
    pose proof (pow2_level (i + 1) ltac:(lia)). pose proof (pow2_succ i ltac:(lia)).
    assert (4096 ≤ b) by dlia.
    subst bud. destruct (get_buddy_cases b i ltac:(lia) Hal) as [[-> _]|[-> _]]; lia. }
  destruct (find_slot_spec (Datatypes.S fuel) bud i s h li [] li) as (pre & Hr & Hres); try done.
  { intros H0. by apply Hnz in H0. }
  { by apply not_elem_of_nil. }
  { pose proof (free_list_size T i li Hn (λ c, proj1 (He c))). lia. }
  unfold slot_after at 1 in Hr. cbn [last] in Hr.
  rewrite (M_bind_Done _ _ _ _ _ Hr).
  destruct Hres as [[Hnb Hv]|(post & -> & Hv)]; rewrite (M_bind_Done _ _ _ _ _ Hv).
  - rewrite (proj2 (Z.eqb_neq 0 bud)) by done. cbn [negb].
    assert (T !! bud ≠ Some (i, Free)) as Hnf by (intros Hc'; by apply Hnb, He).
    destruct (push_ok s T (<[b := (i, Free)]> T) l b b i i) as (s' & Hrun & Hs' & Hfr); try done; try lia.
    { by eapply tiling_kind; [done|done|]; intros _; split; [lia|]. }
    { pose proof (pow2_level i Hi). lia. }
    { intros c j. unfold isfree. rewrite lookup_insert_Some.
      destruct (decide (b = c)) as [<-|]; [|intuition congruence]. rewrite Hb.
      split; [intros [[_ [= ->]]|[? _]]; [by right|done]|intros [?|[-> _]]; [done|by left]]. }
    { intros c j [[_ [= ]]|[_ ?]]%lookup_insert_Some. done. }
    destruct (holds_release b i Free T Hh) as [_ Hnh]; [done|].
    destruct (same_use_kind T b i Held Free Hb) as [HA HO]; [done..|].
    exists s', (<[b := (i, Free)]> T), l. split_and!; try done.
    intros p. by rewrite HO.
  - rewrite Z.eqb_refl. cbn [negb].
    assert (T !! bud = Some (i, Free)) as Hbud by (apply He, elem_of_app; right; by left).
    destruct (merge_ok s T l b i h pre post Hs Hb ltac:(lia) Hfl Hc Hn He) as (s1 & Hrun & Hs1 & Hfr).
    fold bud in Hrun. erewrite M_bind_Done by reflexivity. rewrite (M_bind_Done _ _ _ _ _ Hrun).
    pose proof (merged_same_use l T b i HT Hb Hbud) as Huse.
    pose proof (merged_size l T b i HT Hb Hbud) as Hsz.
    pose proof (merged_holds T b i Hh) as Hh'.
    destruct (IH s1 (merged T b i) (if b <? bud then b else bud) (i + 1)) as
      (s' & T' & l' & Hr' & Hs' & Hnh & Hfr' & HA & HP); try done.
    { unfold merged. by rewrite lookup_insert_eq. }
    { lia. }
    exists s', T', l'. split_and!; try done.
    + by eapply frame_trans.
    + intros c j. rewrite HA. apply Huse.
    + intros p. rewrite (HP p). by rewrite (proj2 Huse p).
Qed.

Lemma _calc_level_spec fuel size :
  size ≤ 8192 → (10 < fuel)%nat →
  ∃ lv, _calc_level fuel size = Done lv ∧ 4 ≤ lv ≤ 13 ∧ size ≤ 2 ^ lv ∧ (4 < lv → 2 ^ (lv - 1) < size).
Proof.
  intros Hs Hf. unfold _calc_level, MIN_LEVEL. change (Z.shiftl 1 4) with (2 ^ 4).
  assert (∀ n lv, 4 ≤ lv ≤ 13 → (4 < lv → 2 ^ (lv - 1) < size) → (Z.to_nat (13 - lv) < n)%nat →
    ∃ lv', _calc_level_loop n size (2 ^ lv) lv = Done lv' ∧ 4 ≤ lv' ≤ 13 ∧ size ≤ 2 ^ lv' ∧
    (4 < lv' → 2 ^ (lv' - 1) < size)) as Hloop; [|apply Hloop; lia].
  induction n as [|n IH]; intros lv Hlv Hlo Hn; [lia|]. cbn [_calc_level_loop].
  destruct (Z.ltb_spec (2 ^ lv) size) as [Hlt|Hge]; [|by exists lv].
  assert (lv ≠ 13) by (intros ->; lia).
  replace (u64 (Z.shiftl (2 ^ lv) 1)) with (2 ^ (lv + 1)).
  - apply IH; [lia| |lia]. intros _. by replace (lv + 1 - 1) with lv by lia.
  - pose proof (pow2_level lv ltac:(lia)). rewrite Z.shiftl_mul_pow2 by lia.
    rewrite u64_small by lia. rewrite pow2_succ by lia. lia.
Qed.

Definition no_held (T : blocks) : Prop := ∀ c j, T !! c ≠ Some (j, Held).

(** The block to cut up: from a free list or from a fresh page. *)
Definition get_block (fuel : nat) (lv : Z) : M (buddy P) (Z * Z) :=
  '(block, i) ← find_block fuel lv;
  block ← (if block =? 0 then
             p ← pages_do pg_alloc;
             if p =? 0 then panic "buddy alloc" else mret p
           else mret block);
  mret (block, i).

Lemma alloc_get_block fuel sz s lv :
  _calc_level fuel (u64 (sz + 8)) = Done lv →
  alloc fuel sz s =
    ('(block, i) ← get_block fuel lv;
     split_block (Z.to_nat (i - lv)) block lv;;
     wr_mem (λ m, upd m block (u8 lv));;
     mret (block + 8)) s.
Proof.
  intros Hlv. unfold alloc, get_block. rewrite Hlv. unfold mbind, M_bind. cbn beta iota.
  destruct (find_block fuel lv s) as [[[b i] s1]| |]; [|done..]. cbn beta iota.
  match goal with |- match ?e with _ => _ end = _ => by destruct e as [[b' s2]| |] end.
Qed.

Lemma get_block_ok fuel s T l lv :
  inv s T l → no_held T → 4 ≤ lv ≤ 12 → (9 < fuel)%nat →
  (∃ b i s' T' l', get_block fuel lv s = Done ((b, i), s') ∧ inv s' T' l' ∧ lv ≤ i ∧ T' !! b = Some (i, Held) ∧
     holds b T' ∧ (∀ j, T !! b ≠ Some (j, Alloc)) ∧
     (∀ c j, T' !! c = Some (j, Alloc) ↔ T !! c = Some (j, Alloc)) ∧
     same_pages T l T' l' ∧ frame T (bd_mem s) (bd_mem s')) ∨
  (l = [] ∧ (∀ b j, lv ≤ j ≤ 12 → T !! b ≠ Some (j, Free)) ∧ get_block fuel lv s = Panic "buddy alloc").
Proof.
  intros Hs Hnh Hlv Hf. unfold get_block. pose proof (bi_tiling _ _ _ Hs) as HT.
  destruct (find_block_ok fuel s T l lv Hs ltac:(lia) ltac:(lia))
    as [(b & j & s' & Hr & Hj & Hb & Hs' & Hm)|[Hr Hno]]; rewrite (M_bind_Done _ _ _ _ _ Hr).
  - left. pose proof (tiling_range _ _ _ _ _ HT Hb). rewrite (proj2 (Z.eqb_neq b 0)) by lia.
    erewrite M_bind_Done by reflexivity.
    destruct (same_use_kind T b j Free Held Hb) as [HA HO]; [done..|].
    exists b, j, s', (<[b := (j, Held)]> T), l. split_and!; try done; try lia.
    + by rewrite lookup_insert_eq.
    + intros c k [[-> _]|[_ Hc]]%lookup_insert_Some; [done|by apply Hnh in Hc].
    + intros k. by rewrite Hb.
    + intros p. by rewrite HO.
    + by rewrite Hm.
  - destruct l as [|p l]; [right|left].
    + split_and!; [done|done|]. apply M_bind_Panic. cbn [Z.eqb].
      assert (pages_do pg_alloc s = Done (0, s)) as Hz.
      { unfold pages_do. rewrite pg_alloc_none by apply Hs. by destruct s. }
      by rewrite (M_bind_Done _ _ _ _ _ Hz).
    + destruct (page_in_ok s T p l Hs Hnh) as (s' & Hp & Hs' & Hnone & Hp0 & Hfr).
      cbn [Z.eqb]. erewrite M_bind_Done; last first.
      { rewrite (M_bind_Done _ _ _ _ _ Hp). by rewrite (proj2 (Z.eqb_neq p 0)). }
      exists p, 12, s', (<[p := (12, Held)]> T), l. split_and!; try done; try lia.
      * by rewrite lookup_insert_eq.
      * intros c k [[-> _]|[_ Hc]]%lookup_insert_Some; [done|by apply Hnh in Hc].
      * intros j. by rewrite Hnone.
      * intros c j. rewrite lookup_insert_Some. split; [by intros [[_ [= ]]|[_ ?]]|].
        intros Hc. right. split; [congruence|done].
      * assert (p - p mod 4096 = p) as Hpp.
        { destruct (pg_inv_pages _ _ (bi_pages _ _ _ Hs)) as [_ [[[E _] _] _]%Forall_cons].
          unfold PGSIZE in E. lia. }
        intros q. rewrite elem_of_cons. split.
        -- intros [(c & j & k & [[<- [= <- <-]]|[_ Hc]]%lookup_insert_Some & ->)|?]; [|left; by exists c, j, k|tauto].
           rewrite Hpp. tauto.
        -- intros [(c & j & k & Hc & ->)|[->|?]]; [left| left|by right].
           ++ exists c, j, k. rewrite lookup_insert_ne by congruence. done.
           ++ exists p, 12, Held. by rewrite lookup_insert_eq.
Qed.

(** The block becomes one in use. *)
Lemma mark_ok s T l b lv :
  inv s T l → T !! b = Some (lv, Held) → holds b T →
  ∃ s', wr_mem (λ m, upd m b (u8 lv)) s = Done (tt, s') ∧ inv s' (<[b := (lv, Alloc)]> T) l ∧
    no_held (<[b := (lv, Alloc)]> T) ∧ frame T (bd_mem s) (bd_mem s') ∧
    (∀ p, owned (<[b := (lv, Alloc)]> T) p ↔ owned T p).
Proof.
  intros Hs Hb Hh. pose proof (bi_tiling _ _ _ Hs) as HT.
  destruct (ti_blk _ _ HT _ _ _ Hb) as [[Hlv _] _].
  pose proof (tiling_range _ _ _ _ _ HT Hb).
  unfold wr_mem, modify. eexists. split; [done|]. rewrite bd_mem_set.
  assert (u8 lv = lv) as -> by (apply u8_small; lia).
  destruct (inv_intro s T l (<[b := (lv, Alloc)]> T) (upd (bd_mem s) b lv) (bd_freelist s)) as [Hs' Hfr].
  - done.
  - by eapply tiling_kind.
  - apply Hs.
  - apply mem_ok_upd; [by eapply inv_mem_ok|lia].
  - intros x. destruct (decide (x = b)) as [->|]; [|left; by apply upd_ne].
    right. exists b, lv, Held. split_and!; [done|done|lia|lia].
  - intros i Hi. destruct (bi_lists _ _ _ Hs i Hi) as (h & li & Hh' & Hc & Hn & He).
    exists h, li. split_and!; try done.
    + eapply MemAllocator.chain_ext; [|done]. intros c x Hcl Hx. apply He in Hcl.
      pose proof (tiling_range _ _ _ _ _ HT Hcl). apply upd_ne. intros ->.
      assert (b = c); [|unfold isfree in *; congruence].
      eapply (ti_disj _ _ HT _ _ _ _ _ _ b Hb Hcl); lia.
    + intros c. rewrite He. unfold isfree. rewrite lookup_insert_Some. split; [|by intros [[_ [= ]]|[_ ?]]].
      intros Hc'. right. split; [congruence|done].
  - intros c j [[<- [= <-]]|[_ ?]]%lookup_insert_Some; [right; apply upd_eq|by left].
  - destruct (holds_release b lv Alloc T Hh) as [_ Hnh]; [done|].
    split_and!; try done. intros p. by eapply owned_kind.
Qed.
End inv.

(** ** Properties *)

(** A block that becomes in use is apart from those in use before. *)
Lemma blocks_apart {P : Type} `{PageAllocator P} (s : buddy P) (T : blocks) (l : list Z) b lv k c j k' :
  inv s T l → T !! b = Some (lv, k) → T !! c = Some (j, k') → c ≠ b → c + 2 ^ j ≤ b ∨ b + 2 ^ lv ≤ c.
Proof.
  intros Hs Hb Hc Hne. pose proof (tiling_range _ _ _ _ _ (bi_tiling _ _ _ Hs) Hc).
  pose proof (tiling_range _ _ _ _ _ (bi_tiling _ _ _ Hs) Hb).
  destruct (decide (c + 2 ^ j ≤ b ∨ b + 2 ^ lv ≤ c)); [done|]. exfalso. apply Hne.
  eapply (ti_disj _ _ (bi_tiling _ _ _ Hs) _ _ _ _ _ _ (Z.max b c) Hc Hb); lia.
Qed.

(** A request above 4088 bytes indexes past the free lists. *)
Lemma alloc_too_big {P : Type} `{PageAllocator P} (s : buddy P) (T : blocks) (l : list Z) (sz : Z) (fuel : nat) :
  inv s T l → 4088 < sz < 4096 → (10 < fuel)%nat → BuddyAllocator.alloc fuel sz s = Panic "freelist index".
Proof.
  intros Hs Hsz Hf. destruct (_calc_level_spec fuel (sz + 8)) as (lv & Hlv & Hr & Hfit & Hmin); [lia|lia|].
  assert (lv = 13) as ->.
  { destruct (decide (lv ≤ 12)); [|lia]. pose proof (pow2_level lv ltac:(lia)). lia. }
  rewrite (alloc_get_block fuel sz s 13) by (by rewrite u64_small by lia).
  apply M_bind_Panic, M_bind_Panic. destruct fuel as [|fuel]; [lia|]. cbn [BuddyAllocator.find_block].
  apply M_bind_Panic. unfold BuddyAllocator.rd_freelist.
  by rewrite lookup_ge_None_2 by (rewrite (bi_len _ _ _ Hs); lia).
Qed.

Lemma alloc_block_ok {P : Type} `{PageAllocator P} (s : buddy P) (T : blocks) (l : list Z) (sz : Z) (fuel : nat) :
  inv s T l → no_held T → 0 ≤ sz ≤ 4088 → (10 < fuel)%nat →
  (∃ b lv s' T' l', BuddyAllocator.alloc fuel sz s = Done (b + 8, s') ∧ inv s' T' l' ∧ no_held T' ∧
     sz + 8 ≤ 2 ^ lv ∧ (4 < lv → 2 ^ (lv - 1) < sz + 8) ∧ b mod 2 ^ lv = 0 ∧
     (∀ c j, T' !! c = Some (j, Alloc) ↔ (c = b ∧ j = lv) ∨ T !! c = Some (j, Alloc)) ∧
     (∀ c j, T !! c = Some (j, Alloc) → c + 2 ^ j ≤ b ∨ b + 2 ^ lv ≤ c) ∧
     frame T (BuddyAllocator.bd_mem s) (BuddyAllocator.bd_mem s') ∧ same_pages T l T' l') ∨
  (l = [] ∧ (∀ b j, sz + 8 ≤ 2 ^ j → 4 ≤ j → T !! b ≠ Some (j, Free)) ∧
   BuddyAllocator.alloc fuel sz s = Panic "buddy alloc").
Proof.
  intros Hs Hnh Hsz Hf. pose proof (bi_tiling _ _ _ Hs) as HT.
  destruct (_calc_level_spec fuel (sz + 8)) as (lv & Hlv & Hr & Hfit & Hmin); [lia|lia|].
  assert (lv ≠ 13) by (intros ->; specialize (Hmin ltac:(lia)); lia).
  rewrite (alloc_get_block fuel sz s lv) by (by rewrite u64_small by lia).
  destruct (get_block_ok fuel s T l lv) as
  [(b & i & s1 & T1 & l1 & Hg & Hs1 & Hi & Hb1 & Hh1 & Hna & HA1 & HP1 & Hf1)|(-> & Hno & Hg)]; try done; try lia.
  + left. destruct (ti_blk _ _ (bi_tiling _ _ _ Hs1) _ _ _ Hb1) as [[Hi12 _] _].
  destruct (split_block_ok (Z.to_nat (i - lv)) s1 T1 l1 b lv) as
    (s2 & T2 & Hr2 & Hs2 & Hb2 & Hh2 & [HA2 HO2] & Hf2); try done; try lia.
  { by replace (lv + Z.of_nat (Z.to_nat (i - lv))) with i by lia. }
  destruct (mark_ok s2 T2 l1 b lv Hs2 Hb2 Hh2) as (s3 & Hr3 & Hs3 & Hnh3 & Hf3 & HO3).
  assert (∀ c j, <[b := (lv, Alloc)]> T2 !! c = Some (j, Alloc) ↔
    (c = b ∧ j = lv) ∨ T !! c = Some (j, Alloc)) as HA3.
  { intros c j. rewrite lookup_insert_Some, HA2, HA1. split; [intros [[<- [= <-]]|[_ ?]]; auto|].
    intros [[-> ->]|Hc]; [by left|right]. split; [|done]. intros <-. by apply Hna in Hc. }
  exists b, lv, s3, (<[b := (lv, Alloc)]> T2), l1.
  split_and!; try done.
  * rewrite (M_bind_Done _ _ _ _ _ Hg), (M_bind_Done _ _ _ _ _ Hr2). by rewrite (M_bind_Done _ _ _ _ _ Hr3).
  * by destruct (ti_blk _ _ (bi_tiling _ _ _ Hs2) _ _ _ Hb2) as [(_ & ? & _) _].
  * intros c j Hc. assert (T2 !! c = Some (j, Alloc)) as Hc2 by (by apply HA2, HA1).
    apply (blocks_apart s2 T2 l1 b lv _ c j _ Hs2 Hb2 Hc2). congruence.
  * intros c j x Hc Hx. assert (T1 !! c = Some (j, Alloc)) as Hc1 by (by apply HA1).
    assert (T2 !! c = Some (j, Alloc)) as Hc2 by (by apply HA2).
    rewrite (Hf3 c j x Hc2 Hx), (Hf2 c j x Hc1 Hx). by apply (Hf1 c j).
  * intros p. rewrite HO3, HO2. apply HP1.
  + right. split_and!; [done| |].
  * intros b j Hj Hj4 Hb. apply (Hno b j); [|done].
    destruct (ti_blk _ _ HT _ _ _ Hb) as [[? _] _]. split; [|lia].
    destruct (decide (lv ≤ j)); [done|]. exfalso.
    assert (2 ^ j ≤ 2 ^ (lv - 1)) by (apply Z.pow_le_mono_r; lia). lia.
  * by rewrite (M_bind_Panic _ _ _ _ Hg).
Qed.

(** Claim C17. A request of at most 4088 bytes gets a block of the smallest
    power of two that holds it and its 8-byte header, disjoint from every block
    in use, whose contents do not change; no page is lost.  [alloc] panics only
    when no page and no large enough block is free.  For the sizes 4089 to
    4095, which the header of the class allows, it reads past [freelist]. *)
Theorem buddy_alloc_block {P : Type} `{PageAllocator P} (s : buddy P) (T : blocks) (l : list Z)
    (sz : Z) (fuel : nat) :
  inv s T l → no_held T → 0 ≤ sz < 4096 → (10 < fuel)%nat →
  (sz ≤ 4088 →
    (∃ b lv s' T' l', BuddyAllocator.alloc fuel sz s = Done (b + 8, s') ∧ inv s' T' l' ∧ no_held T' ∧
       sz + 8 ≤ 2 ^ lv ∧ (4 < lv → 2 ^ (lv - 1) < sz + 8) ∧ b mod 2 ^ lv = 0 ∧
       (∀ c j, T' !! c = Some (j, Alloc) ↔ (c = b ∧ j = lv) ∨ T !! c = Some (j, Alloc)) ∧
       (∀ c j, T !! c = Some (j, Alloc) → c + 2 ^ j ≤ b ∨ b + 2 ^ lv ≤ c) ∧
       frame T (BuddyAllocator.bd_mem s) (BuddyAllocator.bd_mem s') ∧ same_pages T l T' l') ∨
    (l = [] ∧ (∀ b j, sz + 8 ≤ 2 ^ j → 4 ≤ j → T !! b ≠ Some (j, Free)) ∧
     BuddyAllocator.alloc fuel sz s = Panic "buddy alloc")) ∧
  (4088 < sz → BuddyAllocator.alloc fuel sz s = Panic "freelist index").
Proof.
  intros Hs Hnh Hsz Hf. split; intros Hsz'; [apply alloc_block_ok; (done || lia)|].
  apply (alloc_too_big s T l); (done || lia).
Qed.

Lemma free_block_ok {P : Type} `{PageAllocator P} (s : buddy P) (T : blocks) (l : list Z)
    (b lv : Z) (fuel : nat) :
  inv s T l → no_held T → T !! b = Some (lv, Alloc) → (8 + size T < fuel)%nat →
  ∃ s' T' l', BuddyAllocator.free fuel (b + 8) s = Done (tt, s') ∧ inv s' T' l' ∧ no_held T' ∧
    (∀ c j, T' !! c = Some (j, Alloc) ↔ T !! c = Some (j, Alloc) ∧ c ≠ b) ∧
    (∀ c j x, T !! c = Some (j, Alloc) → c ≠ b → c ≤ x < c + 2 ^ j →
       BuddyAllocator.bd_mem s' x = BuddyAllocator.bd_mem s x) ∧
    same_pages T l T' l'.
Proof.
  intros Hs Hnh Hb Hf. pose proof (bi_tiling _ _ _ Hs) as HT.
  destruct (ti_blk _ _ HT _ _ _ Hb) as [[Hlv _] _].
  set (T1 := <[b := (lv, Held)]> T).
  assert (tiling l T1) as HT1 by by eapply tiling_kind.
  assert (∀ c j k, k ≠ Held → T1 !! c = Some (j, k) ↔ T !! c = Some (j, k) ∧ c ≠ b) as Hlk.
  { intros c j k Hk. subst T1. rewrite lookup_insert_Some. split; [intros [[_ [= _ ?]]|[? ?]]; done|].
    intros [Hc Hne]. by right. }
  assert (∀ j c, isfree T1 j c ↔ isfree T j c) as HF.
  { intros j c. unfold isfree. rewrite Hlk by done. split; [tauto|]. intros Hc. split; [done|congruence]. }
  assert (inv s T1 l) as Hs1.
  { split; try apply Hs; [done| |intros c j [Hc _]%Hlk; [by apply Hs|done]].
    intros i Hi. destruct (bi_lists _ _ _ Hs i Hi) as (h & li & ? & ? & ? & He).
    exists h, li. split_and!; try done. intros c. by rewrite HF. }
  destruct (free_loop_ok fuel s T1 l b lv Hs1) as (s' & T' & l' & Hr & Hs' & Hnh' & Hfr & HA & HP).
  { subst T1. by rewrite lookup_insert_eq. }
  { intros c j [[<- _]|[_ Hc]]%lookup_insert_Some; [done|by apply Hnh in Hc]. }
  { subst T1. rewrite map_size_insert_Some by (by eexists). lia. }
  exists s', T', l'. split_and!; try done.
  - unfold BuddyAllocator.free. erewrite M_bind_Done by reflexivity. cbn beta.
    replace (b + 8 - 8) with b by lia. by rewrite (bi_level _ _ _ Hs _ _ Hb).
  - intros c j. rewrite HA. by apply Hlk.
  - intros c j x Hc Hne Hx. eapply Hfr; [|exact Hx]. by apply Hlk.
  - intros p. rewrite (HP p). subst T1. by rewrite (owned_kind T b lv Alloc Held p Hb).
Qed.

(** Claim C18. Freeing a block in use by the address [alloc] returned for it
    terminates without panic, takes exactly that block out of use, merges it
    with its free buddies as far as they reach (the invariant excludes two free
    buddies), leaves the other blocks in use untouched and loses no page: a
    block that grows to a page goes back to the page allocator. *)
Theorem buddy_free_block {P : Type} `{PageAllocator P} (s : buddy P) (T : blocks) (l : list Z)
    (b lv : Z) (fuel : nat) :
  inv s T l → no_held T → T !! b = Some (lv, Alloc) → (8 + size T < fuel)%nat →
  ∃ s' T' l', BuddyAllocator.free fuel (b + 8) s = Done (tt, s') ∧ inv s' T' l' ∧ no_held T' ∧
    (∀ c j, T' !! c = Some (j, Alloc) ↔ T !! c = Some (j, Alloc) ∧ c ≠ b) ∧
    (∀ c j x, T !! c = Some (j, Alloc) → c ≠ b → c ≤ x < c + 2 ^ j →
       BuddyAllocator.bd_mem s' x = BuddyAllocator.bd_mem s x) ∧
    same_pages T l T' l'.
Proof. apply free_block_ok. Qed.

(** Without blocks in use there is no free block either. *)
Lemma tiling_no_free {P : Type} `{PageAllocator P} l T :
  tiling l T → (∀ c j, T !! c ≠ Some (j, Alloc)) → no_held T → T = ∅.
Proof.
  intros HT HA HH.
  assert (∀ n i b, (Z.to_nat i < n)%nat → T !! b ≠ Some (i, Free)) as Hno.
  { induction n as [|n IH]; intros i b Hn Hb; [lia|].
    destruct (ti_blk _ _ HT _ _ _ Hb) as [(Hi & Hal & Hp) Hi12]. specialize (Hi12 eq_refl).
    destruct (merge_geometry l b i) as (Hmok & Hmp & Hs & Hmn); [by split|done|].
    set (bud := _get_buddy b i) in *. set (mn := if b <? bud then b else bud) in *. clearbody mn.
    destruct Hmok as (_ & Hmal & _). pose proof (blk_in_page mn (i + 1) ltac:(lia) Hmal) as Hin.
    assert (0 < 2 ^ i) by lia.
    destruct (ti_cover _ _ HT b i Free bud Hb) as (c & j & k & Hc & Hcx); [lia|].
    destruct k; [|by apply HH in Hc|by apply HA in Hc].
    destruct (ti_blk _ _ HT _ _ _ Hc) as [(Hj & Hcal & _) _].
    destruct (decide (j < i)) as [Hji|Hji]; [by eapply (IH j c); [lia|]|].
    destruct (decide (j = i)) as [->|Hne].
    - apply (ti_canon _ _ HT b i Hb). assert (c = bud) as ->; [|done].
      assert (bud mod 2 ^ i = 0) as Hbal.
      { subst bud. destruct (get_buddy_cases b i ltac:(lia) Hal) as [[-> _]|[-> _]].
        - replace (b + 2 ^ i) with (b + 1 * 2 ^ i) by lia. by rewrite Z.mod_add by lia.
        - replace (b - 2 ^ i) with (b + (-1) * 2 ^ i) by lia. by rewrite Z.mod_add by lia. }
      destruct (blk_nested bud i c i bud); try done; lia.
    - destruct (blk_nested mn (i + 1) c j bud) as [? ?]; try done; try lia.
      assert (b = c); [|congruence].
      eapply (ti_disj _ _ HT _ _ _ _ _ _ b Hb Hc); lia. }
  apply map_eq. intros b. rewrite lookup_empty. destruct (T !! b) as [[i []]|] eqn:Hb; [..|done].
  - by eapply (Hno (Datatypes.S (Z.to_nat i)) i b) in Hb; [|lia].
  - by apply HH in Hb.
  - by apply HA in Hb.
Qed.

(** ** Programs that use the allocator *)

Section fuel.
Context {P : Type} `{PageAllocator P}.
Import BuddyAllocator.

(** More fuel does not change a result. *)
Lemma find_slot_more bud fuel : ∀ r s x fuel', (fuel ≤ fuel')%nat →
  find_slot fuel bud r s = Done x → find_slot fuel' bud r s = Done x.
Proof.
  induction fuel as [|fuel IH]; intros r s x fuel' Hle; [done|]. destruct fuel' as [|fuel']; [lia|].
  cbn [find_slot]. unfold mbind, M_bind. destruct (rd_slot r s) as [[v s1]| |]; [|done..].
  destruct (_ && _); [|done]. apply IH. lia.
Qed.
Lemma free_loop_more fuel : ∀ b i s x fuel', (fuel ≤ fuel')%nat →
  free_loop fuel b i s = Done x → free_loop fuel' b i s = Done x.
Proof.
  induction fuel as [|fuel IH]; intros b i s x fuel' Hle; [done|]. destruct fuel' as [|fuel']; [lia|].
  cbn [free_loop]. unfold gets, mbind, M_bind. destruct (i =? maxlv s); [done|].
  destruct (find_slot (Datatypes.S fuel) _ _ s) as [[r s1]| |] eqn:E; [|done..].
  rewrite (find_slot_more _ _ _ _ _ (Datatypes.S fuel') Hle E).
  destruct (rd_slot r s1) as [[v s2]| |]; [|done..]. destruct (negb _); [done|].
  destruct (rd_next v s2) as [[nx s3]| |]; [|done..]. destruct (wr_slot r nx s3) as [[u s4]| |]; [|done..].
  apply IH. lia.
Qed.
Lemma free_more fuel fuel' pa s x : (fuel ≤ fuel')%nat → free fuel pa s = Done x → free fuel' pa s = Done x.
Proof. intros Hle. unfold free, gets, mbind, M_bind. by apply free_loop_more. Qed.
End fuel.

Section clients.
Context {P : Type} `{PageAllocator P}.

(** The allocator and the blocks its clients have not freed: address and size. *)
Definition client : Type := buddy P * list (Z * Z).
(** A client asks for memory, gives a block back, or writes to one it has. *)
Inductive client_step : client → client → Prop :=
| alloc_step fuel sz p s s' live :
    0 ≤ sz ≤ 4088 → (10 < fuel)%nat → BuddyAllocator.alloc fuel sz s = Done (p, s') →
    client_step (s, live) (s', (p, sz) :: live)
| free_step fuel k p sz s s' live :
    live !! k = Some (p, sz) → BuddyAllocator.free fuel p s = Done (tt, s') →
    client_step (s, live) (s', delete k live)
| write_step p sz m s live :
    (p, sz) ∈ live → mem_ok m → (∀ x, ¬ (p ≤ x < p + sz) → m x = BuddyAllocator.bd_mem s x) →
    client_step (s, live) (Buddy (bd_freelist s) (maxlv s) (minlv s) (pg_set_mem m (bd_pages s)), live).

(** The clients' blocks are the blocks in use, and no page is lost. *)
Record clients_ok (l0 : list Z) (c : client) (T : blocks) (l : list Z) : Prop := {
  co_inv : inv (fst c) T l;
  co_held : no_held T;
  co_nodup : NoDup (snd c).*1;
  co_live : ∀ b j, T !! b = Some (j, Alloc) → b + 8 ∈ (snd c).*1;
  co_fits : ∀ p sz, (p, sz) ∈ snd c → ∃ j, T !! (p - 8) = Some (j, Alloc) ∧ sz + 8 ≤ 2 ^ j;
  co_pages : same_pages ∅ l0 T l;
}.

Lemma same_pages_trans T1 l1 T2 l2 T3 l3 :
  same_pages T1 l1 T2 l2 → same_pages T2 l2 T3 l3 → same_pages T1 l1 T3 l3.
Proof. intros H1 H2 p. rewrite (H2 p). apply H1. Qed.

(** Writing in a block in use, behind its header. *)
Lemma client_write_ok s T l b j m :
  inv s T l → T !! b = Some (j, Alloc) → mem_ok m →
  (∀ x, ¬ (b + 8 ≤ x < b + 2 ^ j) → m x = BuddyAllocator.bd_mem s x) →
  inv (Buddy (bd_freelist s) (maxlv s) (minlv s) (pg_set_mem m (bd_pages s))) T l.
Proof.
  intros Hs Hb Hm Hx. pose proof (bi_tiling _ _ _ Hs) as HT.
  assert (∀ c i k x, T !! c = Some (i, k) → c ≠ b → c ≤ x < c + 2 ^ i → m x = BuddyAllocator.bd_mem s x) as Hoth.
  { intros c i k x Hc Hne Hcx. apply Hx. intros Hbx. apply Hne.
    eapply (ti_disj _ _ HT _ _ _ _ _ _ x Hc Hb); lia. }
  split; rewrite ?bd_mem_set; try apply Hs; try done.
  - apply pg_inv_set_mem; [apply Hs|done|]. intros p x Hp Hpx. apply Hx. intros Hbx.
    destruct (ti_blk _ _ HT _ _ _ Hb) as [(Hi & Hal & _ & _ & Hl) _]. apply Hl.
    pose proof (blk_in_page b j Hi Hal) as Hin. rewrite <- (same_page b x) by lia.
    destruct (pg_inv_pages _ _ (bi_pages _ _ _ Hs)) as [_ Hpl].
    rewrite Forall_forall in Hpl. destruct (Hpl p Hp) as [(Hpal & _) _]. unfold PGSIZE in *.
    replace (x - x mod 4096) with p by dlia. done.
  - intros i Hi. destruct (bi_lists _ _ _ Hs i Hi) as (h & li & Hh & Hc & Hn & He).
    exists h, li. split_and!; try done. eapply MemAllocator.chain_ext; [|done]. intros c x Hcl Hcx.
    apply He in Hcl. pose proof (tiling_range _ _ _ _ _ HT Hcl).
    eapply (Hoth c); [exact Hcl|intros ->; unfold isfree in *; congruence|lia].
  - intros c i Hc. pose proof (tiling_self _ _ _ _ _ HT Hc).
    destruct (decide (c = b)) as [->|]; [rewrite Hx by lia|rewrite (Hoth c i Alloc c) by (done || lia)]; by apply Hs.
Qed.

Lemma client_step_ok l0 c c' T l :
  clients_ok l0 c T l → client_step c c' → ∃ T' l', clients_ok l0 c' T' l'.
Proof.
  intros [Hs Hh Hn HL HF HP] Hstep.
  destruct Hstep as [fuel sz p s s' live Hsz Hf E|fuel k p sz s s' live Hk E|p sz m s live Hin Hm Hx]; cbn [fst snd] in *.
  - destruct (alloc_block_ok s T l sz fuel Hs Hh Hsz Hf) as
      [(b & lv & s1 & T' & l' & E' & Hs' & Hh' & Hfit & _ & _ & HA & Hap & _ & HP')|(_ & _ & E')];
      rewrite E' in E; [injection E as <- <-|done].
    assert (T' !! b = Some (lv, Alloc)) as Hb by (apply HA; by left).
    exists T', l'. split; cbn [fst snd]; [done..| | | |by eapply same_pages_trans].
    + rewrite fmap_cons. constructor; [|done]. intros ((q & sq) & Eq & Hq)%list_elem_of_fmap. cbn in Eq.
      destruct (HF q sq Hq) as (j & Hj & _). replace (q - 8) with b in Hj by lia.
      pose proof (tiling_range _ _ _ _ _ (bi_tiling _ _ _ Hs) Hj). pose proof (tiling_range _ _ _ _ _ (bi_tiling _ _ _ Hs') Hb).
      destruct (Hap b j Hj); lia.
    + intros c j [[-> _]|Hc%HL]%HA; [by left|by right].
    + intros q sq [[= -> ->]|Hq]%elem_of_cons.
      * exists lv. by replace (b + 8 - 8) with b by lia.
      * destruct (HF q sq Hq) as (j & Hj & ?). exists j. split; [|done]. apply HA. by right.
  - assert ((p, sz) ∈ live) as Hin by by eapply list_elem_of_lookup_2.
    destruct (HF p sz Hin) as (lv & Hb & _).
    destruct (free_block_ok s T l (p - 8) lv (Nat.max fuel (9 + size T)) Hs Hh Hb ltac:(lia)) as
      (s1 & T' & l' & E' & Hs' & Hh' & HA & _ & HP').
    replace (p - 8 + 8) with p in E' by lia.
    rewrite (free_more fuel (Nat.max fuel (9 + size T)) p s (tt, s') ltac:(lia) E) in E'. injection E' as <-.
    assert (live ≡ₚ (p, sz) :: delete k live) as Hperm by by apply delete_Permutation.
    rewrite Hperm in Hn. apply NoDup_cons in Hn as [Hp Hn].
    exists T', l'. split; cbn [fst snd]; [done..| | |by eapply same_pages_trans].
    + intros c j [Hc Hne]%HA. apply HL in Hc. rewrite Hperm in Hc. apply elem_of_cons in Hc as [E2|Hc]; [|done].
      cbn in E2. lia.
    + intros q sq Hq. destruct (HF q sq) as (j & Hj & ?).
      { rewrite Hperm. by right. }
      exists j. split; [|done]. apply HA. split; [done|]. intros E2. assert (q = p) as -> by lia.
      apply Hp. apply list_elem_of_fmap. by exists (p, sq).
  - destruct (HF p sz Hin) as (j & Hj & Hfit). exists T, l. split; cbn [fst snd]; try done.
    apply (client_write_ok s T l (p - 8) j m Hs Hj Hm). intros x Hnx. apply Hx. lia.
Qed.

Lemma clients_start s l : pg_inv (bd_pages s) l → clients_ok l (Buddy (replicate 13 0) MAX_LEVEL MIN_LEVEL (bd_pages s), []) ∅ l.
Proof.
  intros Hp. split; cbn [fst snd]; [|by intros c j|constructor|by intros b j|by intros p sz ?%not_elem_of_nil|done].
  split; try done.
  intros i Hi. exists 0, []. split_and!; [|done|constructor|].
  - apply lookup_replicate_2. lia.
  - intros b. unfold isfree. rewrite lookup_empty. split; [by intros ?%not_elem_of_nil|done].
Qed.

Lemma clients_reach l0 c c' T l :
  clients_ok l0 c T l → rtc client_step c c' → ∃ T' l', clients_ok l0 c' T' l'.
Proof.
  intros Hc Hr. revert T l Hc. induction Hr as [c|c1 c2 c3 Hst _ IH]; intros T l Hc; [by exists T, l|].
  destruct (client_step_ok _ _ _ _ _ Hc Hst) as (T' & l' & Hc'). by eapply IH.
Qed.

(** With no block in use the lists are empty. *)
Lemma lists_empty s l : inv s ∅ l → bd_freelist s = replicate 13 0.
Proof.
  intros Hs. assert (∀ i, (i < 13)%nat → bd_freelist s !! i = Some 0) as Hz.
  { intros i Hi. destruct (bi_lists _ _ _ Hs (Z.of_nat i) ltac:(lia)) as (h & li & Hh & Hc & _ & He).
    rewrite Nat2Z.id in Hh. rewrite Hh. apply chain_head in Hc as ->.
    destruct li as [|b li]; [done|]. exfalso.
    assert (isfree ∅ (Z.of_nat i) b) as Hb by (apply He; by left).
    unfold isfree in Hb. by rewrite lookup_empty in Hb. }
  apply list_eq. intros i. destruct (decide (i < 13)%nat) as [Hi|Hi].
  - rewrite (Hz i Hi). by rewrite lookup_replicate_2.
  - rewrite !lookup_ge_None_2; [done|by rewrite length_replicate; lia|rewrite (bi_len _ _ _ Hs); lia].
Qed.
End clients.

(** Claim C33. Programs that use the allocator: after [init] on a page
    allocator with the free pages [l], and any sequence of [alloc]s of at most
    4088 bytes, [free]s of blocks that have not been freed, and writes of the
    clients to the bytes they asked for, the blocks of the clients do not
    overlap, each can be freed, a further [alloc] gives a block or panics for
    want of memory, and nothing leaks: when every block has been freed, the
    free lists are empty and exactly the pages [l] are back in the page
    allocator. *)
Theorem buddy_no_leak {P : Type} `{PageAllocator P} (s0 s1 s : buddy P) (l : list Z) (live : list (Z * Z)) :
  pg_inv (bd_pages s0) l → BuddyAllocator.init s0 = Done (tt, s1) → rtc client_step (s1, []) (s, live) →
  (∀ i j p q sp sq, live !! i = Some (p, sp) → live !! j = Some (q, sq) → i ≠ j → p + sp ≤ q ∨ q + sq ≤ p) ∧
  (∀ p sz, (p, sz) ∈ live → ∃ n, ∀ fuel, (n ≤ fuel)%nat → ∃ s', BuddyAllocator.free fuel p s = Done (tt, s')) ∧
  (∀ sz fuel, 0 ≤ sz ≤ 4088 → (10 < fuel)%nat →
     (∃ p s', BuddyAllocator.alloc fuel sz s = Done (p, s')) ∨ BuddyAllocator.alloc fuel sz s = Panic "buddy alloc") ∧
  (live = [] → bd_freelist s = replicate 13 0 ∧ ∃ l', pg_inv (bd_pages s) l' ∧ l' ≡ₚ l).
Proof.
  intros Hp [= <-] Hr. destruct (clients_reach l _ _ ∅ l (clients_start s0 l Hp) Hr) as (T & l' & [Hs Hh Hn HL HF HP]).
  cbn [fst snd] in *. split_and!.
  - intros i j p q sp sq Hi Hj Hne. destruct (HF p sp) as (jp & Hbp & ?); [by eapply list_elem_of_lookup_2|].
    destruct (HF q sq) as (jq & Hbq & ?); [by eapply list_elem_of_lookup_2|].
    destruct (blocks_apart s T l' (p - 8) jp Alloc (q - 8) jq Alloc Hs Hbp Hbq); [|lia..].
    intros E. apply Hne. eapply (NoDup_lookup live.*1); [done|by rewrite list_lookup_fmap, Hi|].
    rewrite list_lookup_fmap, Hj. cbn. f_equal. lia.
  - intros p sz Hin. destruct (HF p sz Hin) as (j & Hb & _). exists (9 + size T)%nat. intros fuel Hf.
    destruct (free_block_ok s T l' (p - 8) j fuel Hs Hh Hb ltac:(lia)) as (s' & _ & _ & E & _).
    replace (p - 8 + 8) with p in E by lia. by exists s'.
  - intros sz fuel Hsz Hf. destruct (alloc_block_ok s T l' sz fuel Hs Hh Hsz Hf) as
      [(b & lv & s' & _ & _ & E & _)|(_ & _ & E)]; [left; by exists (b + 8), s'|by right].
  - intros ->. assert (T = ∅) as ->.
    { apply (tiling_no_free l' T (bi_tiling _ _ _ Hs)); [|done]. intros c j Hc%HL. by apply not_elem_of_nil in Hc. }
    split; [by eapply lists_empty|]. exists l'. split; [apply Hs|].
    apply NoDup_Permutation; [by eapply pg_inv_pages, Hs|by eapply pg_inv_pages, Hp|].
    intros p. specialize (HP p). assert (¬ owned ∅ p) as Hno by (intros (b & i & k & Hb & _); by rewrite lookup_empty in Hb).
    tauto.
Qed.

(** ** Witnesses: one free page, no block cut yet *)

Module BuddyWitness.
#[local] Instance pages0 : PageAllocator kmem := MemAllocator.page_allocator 0x80300000.
Definition k0 : kmem := Kmem (λ _, 0) 0x80400000 1 1.
Definition b0 : buddy kmem := Buddy (replicate 13 0) 12 4 k0.

Lemma b0_inv : inv b0 ∅ [0x80400000].
Proof.
  split; try done.
  - split; cbn.
    + done.
    + done.
    + apply NoDup_singleton.
    + apply Forall_singleton. done.
    + done.
  - intros i Hi. exists 0, []. split_and!.
    + apply lookup_replicate_2. lia.
    + done.
    + constructor.
    + intros b. unfold isfree. rewrite lookup_empty. split; [by intros ?%not_elem_of_nil|done].
Qed.

Lemma buddy_alloc_block_witness :
  (∃ b lv s' T' l', BuddyAllocator.alloc 11 100 b0 = Done (b + 8, s') ∧ inv s' T' l' ∧ no_held T' ∧
     100 + 8 ≤ 2 ^ lv ∧ (4 < lv → 2 ^ (lv - 1) < 100 + 8) ∧ b mod 2 ^ lv = 0 ∧
     (∀ c j, T' !! c = Some (j, Alloc) ↔ (c = b ∧ j = lv) ∨ (∅ : blocks) !! c = Some (j, Alloc)) ∧
     (∀ c j, (∅ : blocks) !! c = Some (j, Alloc) → c + 2 ^ j ≤ b ∨ b + 2 ^ lv ≤ c) ∧
     frame ∅ (BuddyAllocator.bd_mem b0) (BuddyAllocator.bd_mem s') ∧ same_pages ∅ [0x80400000] T' l') ∧
  BuddyAllocator.alloc 11 4090 b0 = Panic "freelist index".
Proof.
  split.
  - destruct (buddy_alloc_block b0 ∅ [0x80400000] 100 11 b0_inv) as [Hok _];
      [by intros c j|lia|lia|]. destruct (Hok ltac:(lia)) as [Hr|(? & _)]; [exact Hr|done].
  - apply (buddy_alloc_block b0 ∅ [0x80400000] 4090 11 b0_inv); [by intros c j|lia|lia|lia].
Defined.

(** The same page as one block in use. *)
Definition k1 : kmem := Kmem (upd (λ _, 0) 0x80400000 12) 0 0 1.
Definition b1 : buddy kmem := Buddy (replicate 13 0) 12 4 k1.
Definition T1 : blocks := {[ 0x80400000 := (12, Alloc) ]}.

Lemma b1_inv : inv b1 T1 [].
Proof.
  assert (∀ c j k, T1 !! c = Some (j, k) → c = 0x80400000 ∧ j = 12 ∧ k = Alloc) as Hlk.
  { intros c j k. unfold T1. by intros [<- [= <- <-]]%lookup_singleton_Some. }
  split; try done.
  - split.
    + intros b i k (-> & -> & ->)%Hlk. split; [|done]. split_and!; try done. apply not_elem_of_nil.
    + intros * (-> & _)%Hlk (-> & _)%Hlk. done.
    + intros b i (_ & _ & ?)%Hlk. done.
    + intros b i k x (-> & _)%Hlk Hx. exists 0x80400000, 12, Alloc. done.
  - split; cbn; [|done|constructor|constructor|done]. apply mem_ok_upd; [done|lia].
  - intros i Hi. exists 0, []. split_and!.
    + apply lookup_replicate_2. lia.
    + done.
    + constructor.
    + intros b. split; [by intros ?%not_elem_of_nil|]. by intros (_ & _ & ?)%Hlk.
  - intros b i (-> & -> & _)%Hlk. done.
Qed.

Lemma buddy_free_block_witness :
  ∃ s' T' l', BuddyAllocator.free 10 (0x80400000 + 8) b1 = Done (tt, s') ∧ inv s' T' l' ∧ no_held T' ∧
    (∀ c j, T' !! c = Some (j, Alloc) ↔ T1 !! c = Some (j, Alloc) ∧ c ≠ 0x80400000) ∧
    (∀ c j x, T1 !! c = Some (j, Alloc) → c ≠ 0x80400000 → c ≤ x < c + 2 ^ j →
       BuddyAllocator.bd_mem s' x = BuddyAllocator.bd_mem b1 x) ∧
    same_pages T1 [] T' l'.
Proof.
  apply (buddy_free_block b1 T1 [] 0x80400000 12 10 b1_inv).
  - intros c j. unfold T1. by intros [_ [= ]]%lookup_singleton_Some.
  - apply lookup_singleton_eq.
  - vm_compute. lia.
Defined.

(** Two blocks of the page, a byte written to the first, both freed. *)
Definition result {A : Type} (c : M (buddy kmem) A) (s : buddy kmem) : buddy kmem :=
  match c s with Done (_, s') => s' | _ => s end.
Lemma result_is (c : M (buddy kmem) Z) s p :
  match c s with Done (a, _) => a = p | _ => False end → c s = Done (p, result c s).
Proof. unfold result. by destruct (c s) as [[a s']| |]; [intros ->|..]. Qed.
Lemma result_tt (c : M (buddy kmem) unit) s :
  match c s with Done _ => true | _ => false end = true → c s = Done (tt, result c s).
Proof. unfold result. by destruct (c s) as [[[] s']| |]. Qed.
Definition used1 : buddy kmem := result (BuddyAllocator.alloc 11 100) b0.
Definition used2 : buddy kmem := result (BuddyAllocator.alloc 11 1000) used1.
Definition wrote : buddy kmem :=
  Buddy (bd_freelist used2) (maxlv used2) (minlv used2) (pg_set_mem (upd (BuddyAllocator.bd_mem used2) 0x80400008 7) (bd_pages used2)).
Definition freed1 : buddy kmem := result (BuddyAllocator.free 20 0x80400008) wrote.
Definition freed2 : buddy kmem := result (BuddyAllocator.free 20 0x80400408) freed1.
Lemma k0_pages : pg_inv k0 [0x80400000].
Proof. apply b0_inv. Qed.
Lemma used2_steps : rtc client_step (b0, []) (used2, [(0x80400408, 1000); (0x80400008, 100)]).
Proof.
  apply (rtc_l _ _ (used1, [(0x80400008, 100)])).
  { apply (alloc_step 11); [lia|lia|]. apply result_is. vm_compute. reflexivity. }
  apply (rtc_l _ _ (used2, [(0x80400408, 1000); (0x80400008, 100)])); [|apply rtc_refl].
  apply (alloc_step 11); [lia|lia|]. apply result_is. vm_compute. reflexivity.
Qed.
Lemma used2_mem : mem_ok (BuddyAllocator.bd_mem used2).
Proof.
  destruct (clients_reach [0x80400000] _ _ ∅ _ (clients_start b0 _ k0_pages) used2_steps) as (T & l & Hc).
  eapply inv_mem_ok, (co_inv _ _ _ _ Hc).
Qed.
Lemma buddy_no_leak_witness :
  bd_freelist freed2 = replicate 13 0 ∧ ∃ l', pg_inv (bd_pages freed2) l' ∧ l' ≡ₚ [0x80400000].
Proof.
  apply (buddy_no_leak b0 b0 freed2 [0x80400000] [] k0_pages eq_refl); [|reflexivity].
  transitivity (used2, [(0x80400408, 1000); (0x80400008, 100)]); [exact used2_steps|].
  apply (rtc_l _ _ (wrote, [(0x80400408, 1000); (0x80400008, 100)])).
  { apply (write_step 0x80400008 100); [by right; left|apply mem_ok_upd; [apply used2_mem|lia]|].
    intros x Hx. apply upd_ne. lia. }
  apply (rtc_l _ _ (freed1, [(0x80400408, 1000)])).
  { apply (free_step 20 1 0x80400008 100); [reflexivity|]. apply result_tt. vm_compute. reflexivity. }
  apply (rtc_l _ _ (freed2, [])); [|apply rtc_refl].
  apply (free_step 20 0 0x80400408 1000); [reflexivity|]. apply result_tt. vm_compute. reflexivity.
Defined.
End BuddyWitness.
