(* ===== verification/Locks.v ===== *)
(** * Interrupt nesting and spin locks: kernel/os/Intr.cpp, SpinLock.cpp

    [push_off] and [pop_off] act on one CPU's [noff], [intr_enable] and the
    interrupt enable bit of [sstatus].  A spin lock is shared: the second part
    is a step relation in which any number of CPUs run [lock()] and [unlock()]
    of one lock, each atomic action of the code being one step, with the
    memory barriers as program order. *)
From stdpp Require Import functions.
From S2P Require Import Prelude.

(** kernel/os/Cpu.cpp: the fields the locks use, and [sstatus.SIE]. *)
Record cpu := Cpu {
  noff : Z;
  intr_enable : bool;
  sie : bool;
}.

Module Intr.
Definition intr_get : M cpu bool := gets sie.
Definition intr_set (b : bool) : M cpu unit := modify (λ c, Cpu (noff c) (intr_enable c) b).

Definition push_off : M cpu unit :=
  old ← intr_get;
  intr_set false;;
  modify (λ c, if noff c =? 0 then Cpu (noff c) old (sie c) else c);;
  modify (λ c, Cpu (i32 (noff c + 1)) (intr_enable c) (sie c)).

Definition pop_off : M cpu unit :=
  on ← intr_get;
  if (on : bool) then panic "pop_off - interruptible"
  else
    n ← gets noff;
    if n <? 1 then panic "pop_off"
    else
      modify (λ c, Cpu (i32 (noff c - 1)) (intr_enable c) (sie c));;
      c ← get;
      if (noff c =? 0) && intr_enable c then intr_set true else mret tt.
End Intr.

(** [Cpu::init] *)
Definition cpu_init (c : cpu) : cpu := Cpu 0 false (sie c).

Record spinlock := Spin {
  locked : bool;
  lk_cpuid : Z;
}.

Module SpinLock.
(** [init] on the CPU [c]; the name is for messages only. *)
Definition init (c : Z) : spinlock := Spin false c.

Definition holding (c : Z) (l : spinlock) : bool := locked l && (lk_cpuid l =? c).

(** The atomic exchange and the plain stores of [lock] and [unlock]. *)
Definition test_and_set (l : spinlock) : bool * spinlock := (locked l, Spin true (lk_cpuid l)).
Definition set_cpuid (c : Z) (l : spinlock) : spinlock := Spin (locked l) c.
Definition lock_release (l : spinlock) : spinlock := Spin false (lk_cpuid l).

(** Where a CPU is: outside, in the spin loop, past the exchange, in the
    critical section, between the two stores of [unlock], before [pop_off],
    or in [panic]. *)
Inductive pc := Outside | Spinning | Acquired | Critical | Releasing | Popping | Panicked (msg : string).

Record sys := Sys { cpus : Z → cpu; lk : spinlock; pcs : Z → pc }.

Definition set_pc (s : sys) (c : Z) (p : pc) : sys := Sys (cpus s) (lk s) (<[c := p]> (pcs s)).
Definition set_cpu (s : sys) (c : Z) (u : cpu) : sys := Sys (<[c := u]> (cpus s)) (lk s) (pcs s).
Definition set_lk (s : sys) (l : spinlock) : sys := Sys (cpus s) l (pcs s).

Inductive step : sys → sys → Prop :=
| step_lock s c u : 0 ≤ c → pcs s c = Outside → Intr.push_off (cpus s c) = Done (tt, u) →
    step s (set_pc (set_cpu s c u) c
              (if holding c (lk s) then Panicked "re-acquire" else Spinning))
| step_spin s c old l : pcs s c = Spinning → test_and_set (lk s) = (old, l) →
    step s (set_pc (set_lk s l) c (if (old : bool) then Spinning else Acquired))
| step_owner s c : pcs s c = Acquired →
    step s (set_pc (set_lk s (set_cpuid c (lk s))) c Critical)
| step_unlock s c : pcs s c = Critical →
    step s (if holding c (lk s) then set_pc (set_lk s (set_cpuid (-1) (lk s))) c Releasing
            else set_pc s c (Panicked "unlock"))
| step_release s c : pcs s c = Releasing →
    step s (set_pc (set_lk s (lock_release (lk s))) c Popping)
| step_pop s c u : pcs s c = Popping → Intr.pop_off (cpus s c) = Done (tt, u) →
    step s (set_pc (set_cpu s c u) c Outside)
| step_pop_panic s c msg : pcs s c = Popping → Intr.pop_off (cpus s c) = Panic msg →
    step s (set_pc s c (Panicked msg)).

(** All CPUs outside, the lock as [l]. *)
Definition start (u : Z → cpu) (l : spinlock) : sys := Sys u l (λ _, Outside).

Definition inside (p : pc) : bool :=
  match p with Acquired | Critical | Releasing => true | _ => false end.
End SpinLock.

(** ** Interrupt nesting *)

(** A CPU in a consistent state: with a nesting depth, interrupts are off. *)
Definition cpu_ok (u : cpu) : Prop := 0 ≤ noff u < 2 ^ 31 - 1 ∧ (0 < noff u → sie u = false).

(** After [push_off]. *)
Definition pushed (u : cpu) : cpu :=
  Cpu (noff u + 1) (if noff u =? 0 then sie u else intr_enable u) false.

Lemma push_off_spec u : cpu_ok u → Intr.push_off u = Done (tt, pushed u).
Proof.
  intros [Hn _]. unfold Intr.push_off, Intr.intr_get, Intr.intr_set, pushed. unfold_M. cbn.
  rewrite i32_small by (destruct (noff u =? 0); cbn; lia).
  by destruct (noff u =? 0).
Qed.

(** The same depth and interrupt enable bit; [intr_enable] counts only inside
    a nesting. *)
Definition same_level (u v : cpu) : Prop :=
  noff v = noff u ∧ sie v = sie u ∧ (0 < noff u → intr_enable v = intr_enable u).

Lemma pop_off_pushed u :
  cpu_ok u → ∃ v, Intr.pop_off (pushed u) = Done (tt, v) ∧ same_level u v.
Proof.
  intros [Hn Hs].
  exists (Cpu (noff u) (if noff u =? 0 then sie u else intr_enable u) (sie u)).
  unfold Intr.pop_off. erewrite M_bind_Done by reflexivity. cbn [sie pushed].
  erewrite M_bind_Done by reflexivity. cbn [noff pushed].
  assert ((noff u + 1 <? 1) = false) as -> by lia.
  erewrite M_bind_Done by reflexivity. erewrite M_bind_Done by reflexivity. cbn [noff intr_enable pushed].
  replace (noff u + 1 - 1) with (noff u) by lia. rewrite i32_small by lia.
  unfold same_level. cbn [noff intr_enable sie].
  destruct (Z.eqb_spec (noff u) 0) as [E|E]; cbn [andb].
  - split; [|split_and!; [done..|lia]]. by destruct (sie u).
  - rewrite (Hs ltac:(lia)). done.
Qed.

(** ** The lock system *)
Import SpinLock.

Section system.
Context (u0 : Z → cpu) (Hu0 : ∀ c, cpu_ok (u0 c)).

Record inv (s : sys) : Prop := {
  inv_excl : ∀ c d, inside (pcs s c) = true → inside (pcs s d) = true → c = d;
  inv_locked : locked (lk s) = true ↔ ∃ c, inside (pcs s c) = true;
  inv_owner : ∀ c, pcs s c = Critical → lk_cpuid (lk s) = c;
  (** interrupts are off from [push_off] on *)
  inv_cpu : ∀ c, match pcs s c with
                 | Outside => same_level (u0 c) (cpus s c)
                 | Panicked _ => True
                 | _ => ∃ u, same_level (u0 c) u ∧ cpus s c = pushed u
                 end;
  (** the only panic the code can reach *)
  inv_panic : ∀ c msg, pcs s c = Panicked msg → msg = "re-acquire"%string;
}.

Lemma same_level_ok u v : cpu_ok u → same_level u v → cpu_ok v.
Proof. intros [? Hs] (E1 & E2 & _). unfold cpu_ok. rewrite E1, E2. done. Qed.

Lemma same_level_trans u v w : same_level u v → same_level v w → same_level u w.
Proof.
  intros (E1 & E2 & E3) (F1 & F2 & F3). split_and!; [congruence|congruence|].
  intros Hn. rewrite F3, E3; [done|lia|lia].
Qed.

Lemma inv_start l : locked l = false → inv (start u0 l).
Proof.
  intros Hl. split; cbn; try done.
  rewrite Hl. split; [done|]. by intros [c ?].
Qed.

(** One CPU moves; the others keep their place. *)
Definition moves (c : Z) (s s' : sys) : Prop :=
  ∀ d, d ≠ c → pcs s' d = pcs s d ∧ cpus s' d = cpus s d.

Lemma inv_upd s s' c :
  inv s → moves c s s' →
  (inside (pcs s' c) = true → inside (pcs s c) = true ∨ locked (lk s) = false) →
  (locked (lk s') = true ↔ inside (pcs s' c) = true ∨ ∃ d, d ≠ c ∧ inside (pcs s d) = true) →
  (pcs s' c = Critical → lk_cpuid (lk s') = c) →
  (∀ d, d ≠ c → pcs s d = Critical → lk_cpuid (lk s') = d) →
  match pcs s' c with
  | Outside => same_level (u0 c) (cpus s' c)
  | Panicked msg => msg = "re-acquire"%string
  | _ => ∃ v, same_level (u0 c) v ∧ cpus s' c = pushed v
  end →
  inv s'.
Proof.
  intros Hs Hm Hin Hl Hcr Hot Hp.
  assert (inside (pcs s' c) = true → ∀ d, d ≠ c → inside (pcs s d) = true → False) as Hno.
  { intros [E|E]%Hin d Hd Hdi; [by apply Hd, (inv_excl _ Hs)|].
    assert (locked (lk s) = true) by (apply (inv_locked _ Hs); eauto). congruence. }
  assert (∀ d, d ≠ c → pcs s' d = pcs s d) as Hpc by (intros d Hd; by apply Hm).
  split.
  - intros d e. destruct (decide (d = c)) as [->|Hd], (decide (e = c)) as [->|He];
      try done.
    + rewrite (Hpc e He). intros H1 H2. exfalso. exact (Hno H1 e He H2).
    + rewrite (Hpc d Hd). intros H1 H2. exfalso. exact (Hno H2 d Hd H1).
    + rewrite (Hpc d Hd), (Hpc e He). apply (inv_excl _ Hs).
  - rewrite Hl. split.
    + intros [E|(d & Hd & E)]; [eauto|]. exists d. by rewrite Hpc.
    + intros [d E]. destruct (decide (d = c)) as [->|Hd]; [auto|]. rewrite Hpc in E by done. eauto.
  - intros d. destruct (decide (d = c)) as [->|Hd]; [done|]. rewrite Hpc by done. auto.
  - intros d. destruct (decide (d = c)) as [->|Hd]; [by destruct (pcs s' c)|].
    destruct (Hm d Hd) as [-> ->]. apply (inv_cpu _ Hs).
  - intros d msg. destruct (decide (d = c)) as [->|Hd]; [by intros E; rewrite E in Hp|].
    rewrite Hpc by done. apply (inv_panic _ Hs).
Qed.

Lemma set_pc_moves c (s s1 : sys) p :
  pcs s1 = pcs s → (∀ d, d ≠ c → cpus s1 d = cpus s d) → moves c s (set_pc s1 c p).
Proof.
  intros E F d Hd. unfold set_pc. cbn. rewrite E, fn_lookup_insert_ne by congruence. auto.
Qed.

(** No other CPU is inside while [c] is, or while the lock is free. *)
Lemma inv_others s c d :
  inv s → inside (pcs s c) = true ∨ locked (lk s) = false → d ≠ c → inside (pcs s d) = true → False.
Proof.
  intros Hs [E|E] Hd Hdi; [by apply Hd, (inv_excl _ Hs)|].
  assert (locked (lk s) = true) by (apply (inv_locked _ Hs); eauto). congruence.
Qed.

Lemma inv_in_cpu s c :
  inv s → (pcs s c ≠ Outside) → (∀ m, pcs s c ≠ Panicked m) →
  ∃ u, same_level (u0 c) u ∧ cpus s c = pushed u.
Proof.
  intros Hs H1 H2. pose proof (inv_cpu _ Hs c) as H. by destruct (pcs s c) eqn:E; try done; destruct (H2 msg).
Qed.

Lemma inv_critical_holding s c : inv s → pcs s c = Critical → holding c (lk s) = true.
Proof.
  intros Hs Hc. unfold holding. rewrite (inv_owner _ Hs c Hc), Z.eqb_refl, andb_true_r.
  apply (inv_locked _ Hs). exists c. by rewrite Hc.
Qed.

Lemma inv_step s s' : inv s → step s s' → inv s'.
Proof.
  intros Hs Hst. destruct Hst as [s c u Hc0 Hc Hu|s c old l Hc Hl|s c Hc|s c Hc|s c Hc|s c u Hc Hu|s c msg Hc Hu].
  - pose proof (inv_cpu _ Hs c) as Hl. rewrite Hc in Hl.
    rewrite push_off_spec in Hu by (by eapply same_level_ok). injection Hu as <-.
    assert (∀ p, pcs (set_pc (set_cpu s c (pushed (cpus s c))) c p) c = p) as Hp.
    { intros p. apply fn_lookup_insert. }
    apply (inv_upd s _ c Hs).
    { apply set_pc_moves; [done|]. intros d Hd. by apply fn_lookup_insert_ne. }
    all: rewrite ?Hp; destruct (holding c (lk s)); cbn; try done.
    + rewrite (inv_locked _ Hs). split; [intros [d Hd]; right|intros [|(d & _ & ?)]; [done|eauto]].
      exists d. split; [|done]. intros ->. by rewrite Hc in Hd.
    + rewrite (inv_locked _ Hs). split; [intros [d Hd]; right|intros [|(d & _ & ?)]; [done|eauto]].
      exists d. split; [|done]. intros ->. by rewrite Hc in Hd.
    + intros d _. apply (inv_owner _ Hs).
    + intros d _. apply (inv_owner _ Hs).
    + exists (cpus s c). split; [done|]. apply fn_lookup_insert.
  - injection Hl as <- <-. destruct (inv_in_cpu s c Hs) as (u & Hu & Hcu); [by rewrite Hc|by rewrite Hc|].
    set (s' := set_pc _ _ _).
    assert (pcs s' c = if locked (lk s) then Spinning else Acquired) as Hp by apply fn_lookup_insert.
    apply (inv_upd s _ c Hs); [by apply set_pc_moves|rewrite ?Hp..].
    + destruct (locked (lk s)); [done|auto].
    + split; [|done]. intros _. destruct (locked (lk s)) eqn:E; [right|by left].
      apply (inv_locked _ Hs) in E as [d Hd]. exists d. split; [|done]. intros ->. by rewrite Hc in Hd.
    + by destruct (locked (lk s)).
    + intros d _. apply (inv_owner _ Hs).
    + destruct (locked (lk s)); exists u; done.
  - destruct (inv_in_cpu s c Hs) as (u & Hu & Hcu); [by rewrite Hc|by rewrite Hc|].
    assert (inside (pcs s c) = true) as Hin by by rewrite Hc.
    apply (inv_upd s _ c Hs); [by apply set_pc_moves|cbn; rewrite ?fn_lookup_insert; cbn..].
    + by left.
    + split; [by left|]. intros _. apply (inv_locked _ Hs). eauto.
    + done.
    + intros d Hd Hdc. exfalso. eapply (inv_others s c d); [done|by left|done|by rewrite Hdc].
    + exists u. done.
  - destruct (inv_in_cpu s c Hs) as (u & Hu & Hcu); [by rewrite Hc|by rewrite Hc|].
    assert (inside (pcs s c) = true) as Hin by by rewrite Hc.
    rewrite (inv_critical_holding s c Hs Hc).
    apply (inv_upd s _ c Hs); [by apply set_pc_moves|cbn; rewrite ?fn_lookup_insert; cbn..].
    + by left.
    + split; [by left|]. intros _. apply (inv_locked _ Hs). eauto.
    + done.
    + intros d Hd Hdc. exfalso. eapply (inv_others s c d); [done|by left|done|by rewrite Hdc].
    + exists u. done.
  - destruct (inv_in_cpu s c Hs) as (u & Hu & Hcu); [by rewrite Hc|by rewrite Hc|].
    assert (inside (pcs s c) = true) as Hin by by rewrite Hc.
    apply (inv_upd s _ c Hs); [by apply set_pc_moves|cbn; rewrite ?fn_lookup_insert; cbn..].
    + done.
    + split; [done|]. intros [|(d & Hd & Hdi)]; [done|]. exfalso.
      eapply (inv_others s c d); [done|by left|done|done].
    + done.
    + intros d Hd Hdc. exfalso. eapply (inv_others s c d); [done|by left|done|by rewrite Hdc].
    + exists u. done.
  - destruct (inv_in_cpu s c Hs) as (v & Hv & Hcv); [by rewrite Hc|by rewrite Hc|].
    rewrite Hcv in Hu. destruct (pop_off_pushed v) as (w & Hw & Hvw); [by eapply same_level_ok|].
    rewrite Hw in Hu. injection Hu as <-.
    apply (inv_upd s _ c Hs); [apply set_pc_moves; [done|intros d Hd; by apply fn_lookup_insert_ne]|
      cbn; rewrite ?fn_lookup_insert; cbn..].
    + done.
    + rewrite (inv_locked _ Hs). split; [intros [d Hd]; right|intros [|(d & _ & ?)]; [done|eauto]].
      exists d. split; [|done]. intros ->. by rewrite Hc in Hd.
    + done.
    + intros d _. apply (inv_owner _ Hs).
    + by eapply same_level_trans.
  - exfalso. destruct (inv_in_cpu s c Hs) as (v & Hv & Hcv); [by rewrite Hc|by rewrite Hc|].
    rewrite Hcv in Hu. destruct (pop_off_pushed v) as (w & Hw & _); [by eapply same_level_ok|].
    by rewrite Hw in Hu.
Qed.

(** With the owner field cleared, [holding] never answers for another CPU. *)
Record calm (s : sys) : Prop := {
  calm_owner : lk_cpuid (lk s) = -1 ∨ pcs s (lk_cpuid (lk s)) = Critical;
  calm_pc : ∀ c m, pcs s c ≠ Panicked m;
}.

Lemma calm_upd s s' c :
  calm s → (∀ d, d ≠ c → pcs s' d = pcs s d) → (∀ m, pcs s' c ≠ Panicked m) →
  (lk_cpuid (lk s') = lk_cpuid (lk s) ∧ pcs s c ≠ Critical) ∨ lk_cpuid (lk s') = -1 ∨
    (lk_cpuid (lk s') = c ∧ pcs s' c = Critical) →
  calm s'.
Proof.
  intros [Ho Hp] Hd Hc Hl. split.
  - destruct Hl as [[-> Hn]|[->|[-> E]]]; [|by left|by right].
    destruct Ho as [->|Ho]; [by left|right]. rewrite Hd; [done|]. congruence.
  - intros d m. destruct (decide (d = c)) as [->|]; [apply Hc|]. rewrite Hd by done. apply Hp.
Qed.

Lemma calm_step s s' : inv s → calm s → step s s' → calm s'.
Proof.
  intros Hs Hcm Hst.
  assert (∀ c p (s1 : sys), pcs s1 = pcs s → ∀ d, d ≠ c → pcs (set_pc s1 c p) d = pcs s d) as Hne.
  { intros c p s1 E d Hd. cbn. by rewrite fn_lookup_insert_ne, E. }
  assert (∀ (s1 : sys) c p, pcs (set_pc s1 c p) c = p) as Hp by (intros; apply fn_lookup_insert).
  destruct Hst as [s c u Hc0 Hc Hu|s c old l Hc Hl|s c Hc|s c Hc|s c Hc|s c u Hc Hu|s c msg Hc Hu];
    (apply (calm_upd s _ c Hcm); [first [by apply Hne|by destruct (holding _ _); apply Hne]|rewrite ?Hp..]).
  - assert (holding c (lk s) = false) as ->; [|done]. unfold holding.
    destruct (calm_owner _ Hcm) as [->|Hcr].
    + rewrite (proj2 (Z.eqb_neq (-1) c)) by lia. by rewrite andb_false_r.
    + destruct (Z.eqb_spec (lk_cpuid (lk s)) c) as [<-|]; [congruence|by rewrite andb_false_r].
  - left. split; [done|by rewrite Hc].
  - by destruct old.
  - injection Hl as <- <-. left. split; [done|by rewrite Hc].
  - done.
  - by right; right.
  - rewrite (inv_critical_holding s c Hs Hc). by rewrite Hp.
  - rewrite (inv_critical_holding s c Hs Hc). by right; left.
  - done.
  - left. split; [done|by rewrite Hc].
  - done.
  - left. split; [done|by rewrite Hc].
  - exfalso. destruct (inv_in_cpu s c Hs) as (v & Hv & Hcv); [by rewrite Hc|by rewrite Hc|].
    rewrite Hcv in Hu. destruct (pop_off_pushed v) as (w & Hw & _); [by eapply same_level_ok|].
    by rewrite Hw in Hu.
  - left. split; [done|by rewrite Hc].
Qed.

Lemma reach_inv l s : locked l = false → rtc step (start u0 l) s → inv s.
Proof.
  intros Hl Hr. remember (start u0 l) as s0 eqn:E.
  assert (inv s0) as H0 by (subst; by apply inv_start). clear E.
  induction Hr; [done|]. apply IHHr. by eapply inv_step.
Qed.

Lemma reach_calm l s : locked l = false → lk_cpuid l = -1 → rtc step (start u0 l) s → calm s.
Proof.
  intros Hl Ho Hr. remember (start u0 l) as s0 eqn:E.
  assert (inv s0) as H0 by (subst; by apply inv_start).
  assert (calm s0) as H1 by (subst; split; [by left|done]). clear E.
  induction Hr as [|a b c Hab Hbc IH]; [done|]. apply IH; [by eapply inv_step|by eapply calm_step].
Qed.
End system.

(** ** Properties *)

(** Claim C21. For any number of CPUs running [lock()] and [unlock()] on one
    lock, from any state in which it is released: at most one CPU is between
    its successful exchange and its release; inside the critical section the
    lock is held by that CPU, with interrupts off; back outside, each CPU has
    its nesting depth and interrupt enable bit back; [unlock] never panics, and
    neither does [lock] when the owner field was cleared to -1. *)
Theorem spinlock_mutual_exclusion (u0 : Z → cpu) (l : spinlock) (s : sys) :
  (∀ c, cpu_ok (u0 c)) → locked l = false → rtc step (start u0 l) s →
  (∀ c d, inside (pcs s c) = true → inside (pcs s d) = true → c = d) ∧
  (∀ c, pcs s c = Critical → holding c (lk s) = true ∧ sie (cpus s c) = false) ∧
  (∀ c, pcs s c = Outside → same_level (u0 c) (cpus s c)) ∧
  (∀ c msg, pcs s c = Panicked msg → msg = "re-acquire"%string ∧ lk_cpuid l ≠ -1).
Proof.
  intros Hu Hl Hr. pose proof (reach_inv u0 Hu l s Hl Hr) as Hs. split_and!.
  - apply (inv_excl _ _ Hs).
  - intros c Hc. split; [by eapply inv_critical_holding|].
    destruct (inv_in_cpu u0 s c Hs) as (u & _ & ->); [by rewrite Hc|by rewrite Hc|done].
  - intros c Hc. pose proof (inv_cpu _ _ Hs c) as H. by rewrite Hc in H.
  - intros c msg Hc. split; [by eapply inv_panic|]. intros Ho.
    destruct (reach_calm u0 Hu l s Hl Ho Hr) as [_ Hp]. by apply Hp in Hc.
Qed.

(** [init] stores the id of the initialising CPU instead of -1, so the first
    acquisition can make that CPU panic: CPU 1 has taken the lock but not yet
    stored its id when CPU 0 calls [lock]. *)
Lemma init_reacquire_race (u0 : Z → cpu) :
  (∀ c, cpu_ok (u0 c)) →
  ∃ s, rtc step (start u0 (init 0)) s ∧ pcs s 0 = Panicked "re-acquire" ∧ pcs s 1 = Acquired.
Proof.
  intros Hu. eexists. split; [|split].
  - eapply rtc_l. { apply (step_lock _ 1 (pushed (u0 1))); [lia|done|by apply push_off_spec]. }
    eapply rtc_l. { apply (step_spin _ 1 false (Spin true 0)); done. }
    eapply rtc_l; [|apply rtc_refl].
    apply (step_lock _ 0 (pushed (u0 0))); [done|done|by apply push_off_spec].
  - done.
  - done.
Qed.

(** Two CPUs: the first in the critical section, the second spinning. *)
Definition sys0 : sys := start (λ _, Cpu 0 false true) (Spin false (-1)).
Definition sys1 : sys := set_pc (set_cpu sys0 0 (Cpu 1 true false)) 0 Spinning.
Definition sys2 : sys := set_pc (set_lk sys1 (Spin true (-1))) 0 Acquired.
Definition sys3 : sys := set_pc (set_cpu sys2 1 (Cpu 1 true false)) 1 Spinning.
Definition two_cpus : sys := set_pc (set_lk sys3 (set_cpuid 0 (lk sys3))) 0 Critical.

Lemma two_cpus_reachable : rtc step sys0 two_cpus.
Proof.
  apply (rtc_l _ _ sys1). { exact (step_lock sys0 0 (Cpu 1 true false) ltac:(lia) eq_refl eq_refl). }
  apply (rtc_l _ _ sys2). { exact (step_spin sys1 0 false (Spin true (-1)) eq_refl eq_refl). }
  apply (rtc_l _ _ sys3). { exact (step_lock sys2 1 (Cpu 1 true false) ltac:(lia) eq_refl eq_refl). }
  apply rtc_once. exact (step_owner sys3 0 eq_refl).
Qed.

Lemma spinlock_mutual_exclusion_witness :
  (∀ c d, inside (pcs two_cpus c) = true → inside (pcs two_cpus d) = true → c = d) ∧
  (∀ c, pcs two_cpus c = Critical → holding c (lk two_cpus) = true ∧ sie (cpus two_cpus c) = false) ∧
  (∀ c, pcs two_cpus c = Outside → same_level (Cpu 0 false true) (cpus two_cpus c)) ∧
  (∀ c msg, pcs two_cpus c = Panicked msg → msg = "re-acquire"%string ∧ lk_cpuid (Spin false (-1)) ≠ -1).
Proof.
  apply (spinlock_mutual_exclusion (λ _, Cpu 0 false true) (Spin false (-1)) two_cpus);
    [by intros c|done|exact two_cpus_reachable].
Defined.
