(* ===== verification/Sched.v ===== *)
(** * Tasks and scheduling: kernel/os/TaskScheduler.cpp, task.cpp, Timer.cpp,
    SleepLock.cpp and kernel/memory/mmap.cpp

    The task table is a list of [NTASK] tasks and a [Task *] is an index into
    it.  Only hart 0 runs the scheduler (boot/main.cpp parks the other one), so
    the state holds one CPU.  A context saved by [pswitch] is a value of
    [kont]: the point of the kernel code at which the task goes on.  An
    operation runs until it returns to its caller or switches to the
    scheduler; [sched_visit] is one iteration of the scheduler's loop and runs
    the task it picks up to its next such point.

    Memory, page tables and files live in the world [W]: memory and pages
    behind [PageAllocator], the file layer behind [FileLayer] (Vfs.v and
    Fat32.v model the code behind the latter). *)
From stdpp Require Import functions.
From S2P Require Import Prelude Mem KAlloc Vm Locks.

(** kernel/include/param.hpp *)
Definition NTASK : nat := 50.
Definition NOFILE : nat := 120.
Definition NOMMAPFILE : nat := 60.
Definition NFILE : Z := 100.
Definition MAXPATH : nat := 64.
(** kernel/memory/mmap.cpp *)
Definition NVMA : nat := 60.
Definition KSTACK_SIZE : Z := PGSIZE * 2.
(** lib/fcntl.h *)
Definition PROT_READ : Z := 1.
Definition PROT_WRITE : Z := 2.
Definition PROT_EXEC : Z := 4.
Definition MAP_SHARED : Z := 1.

Inductive procstate := UNUSED | SLEEPING | RUNNABLE | RUNNING | ZOMBIE.
#[global] Instance procstate_eq_dec : EqDecision procstate.
Proof. solve_decision. Defined.

(** A sleep channel is an address: null, a [Task *], [&timer::ticks], a
    [SleepLock *] or the address of another kernel object. *)
Inductive chan := NoChan | ChTask (i : nat) | ChTicks | ChSleep (a : Z) | ChAddr (a : Z).
#[global] Instance chan_eq_dec : EqDecision chan.
Proof. solve_decision. Defined.

(** A [SpinLock *]: of a task, of the timer, inside a sleep lock. *)
Inductive lockref := LTask (i : nat) | LTimer | LSleep (a : Z).
#[global] Instance lockref_eq_dec : EqDecision lockref.
Proof. solve_decision. Defined.

(** Who called [sleep], and so what runs when it returns. *)
Inductive sleeper :=
| InWait (vaddr : Z)
| InWait4 (pid : Z) (vaddr : Z)
| InSleepTime (now sleep_ticks : Z)
| InSleepLock (a : Z).

(** A saved context; [ie] is the local [intr_enable] of [prepareSched]. *)
Inductive kont :=
| KForkret
| KYield (ie : bool)
| KSleep (ie : bool) (lk : lockref) (who : sleeper)
| KExit.

(** kernel/include/memory/mmap.hpp; [v_type] is [PROG] or [DATA]. *)
Record vma := Vma {
  v_addr : Z;
  v_type : Z;
  v_length : Z;
  v_prot : Z;
  v_flag : Z;
  v_f : Z;
  v_ip : Z;
  v_offset : Z;
}.
Definition zero_vma : vma := Vma 0 0 0 0 0 0 0 0.

Record sleeplock := Sleep { sl_locked : Z; sl_pid : Z }.

(** kernel/include/os/Process.hpp, without the lock, which [locks] holds.
    Arrays are lists; [openFiles] holds [struct file *], 0 when closed. *)
Record task := Task {
  state : procstate;
  parent : option nat;
  tchan : chan;
  killed : Z;
  xstate : Z;
  pid : Z;
  trapframe : Z;
  pagetable : Z;
  openFiles : list Z;
  currentDir : list Z;
  cwd : Z;
  sticks : Z;
  uticks : Z;
  tvma : list (option nat);
  kstack : Z;
  ctx : kont;
  name : list Z;
  sz : Z;
  sig_table : list Z;
}.

Definition set_state (x : procstate) (t : task) : task := Task x (parent t) (tchan t) (killed t)
  (xstate t) (pid t) (trapframe t) (pagetable t) (openFiles t) (currentDir t) (cwd t) (sticks t)
  (uticks t) (tvma t) (kstack t) (ctx t) (name t) (sz t) (sig_table t).
Definition set_parent (x : option nat) (t : task) : task := Task (state t) x (tchan t) (killed t)
  (xstate t) (pid t) (trapframe t) (pagetable t) (openFiles t) (currentDir t) (cwd t) (sticks t)
  (uticks t) (tvma t) (kstack t) (ctx t) (name t) (sz t) (sig_table t).
Definition set_tchan (x : chan) (t : task) : task := Task (state t) (parent t) x (killed t)
  (xstate t) (pid t) (trapframe t) (pagetable t) (openFiles t) (currentDir t) (cwd t) (sticks t)
  (uticks t) (tvma t) (kstack t) (ctx t) (name t) (sz t) (sig_table t).
Definition set_killed (x : Z) (t : task) : task := Task (state t) (parent t) (tchan t) x (xstate
  t) (pid t) (trapframe t) (pagetable t) (openFiles t) (currentDir t) (cwd t) (sticks t) (uticks
  t) (tvma t) (kstack t) (ctx t) (name t) (sz t) (sig_table t).
Definition set_xstate (x : Z) (t : task) : task := Task (state t) (parent t) (tchan t) (killed t)
  x (pid t) (trapframe t) (pagetable t) (openFiles t) (currentDir t) (cwd t) (sticks t) (uticks t)
  (tvma t) (kstack t) (ctx t) (name t) (sz t) (sig_table t).
Definition set_pid (x : Z) (t : task) : task := Task (state t) (parent t) (tchan t) (killed t)
  (xstate t) x (trapframe t) (pagetable t) (openFiles t) (currentDir t) (cwd t) (sticks t) (uticks
  t) (tvma t) (kstack t) (ctx t) (name t) (sz t) (sig_table t).
Definition set_trapframe (x : Z) (t : task) : task := Task (state t) (parent t) (tchan t) (killed
  t) (xstate t) (pid t) x (pagetable t) (openFiles t) (currentDir t) (cwd t) (sticks t) (uticks t)
  (tvma t) (kstack t) (ctx t) (name t) (sz t) (sig_table t).
Definition set_pagetable (x : Z) (t : task) : task := Task (state t) (parent t) (tchan t) (killed
  t) (xstate t) (pid t) (trapframe t) x (openFiles t) (currentDir t) (cwd t) (sticks t) (uticks t)
  (tvma t) (kstack t) (ctx t) (name t) (sz t) (sig_table t).
Definition set_openFiles (x : list Z) (t : task) : task := Task (state t) (parent t) (tchan t)
  (killed t) (xstate t) (pid t) (trapframe t) (pagetable t) x (currentDir t) (cwd t) (sticks t)
  (uticks t) (tvma t) (kstack t) (ctx t) (name t) (sz t) (sig_table t).
Definition set_currentDir (x : list Z) (t : task) : task := Task (state t) (parent t) (tchan t)
  (killed t) (xstate t) (pid t) (trapframe t) (pagetable t) (openFiles t) x (cwd t) (sticks t)
  (uticks t) (tvma t) (kstack t) (ctx t) (name t) (sz t) (sig_table t).
Definition set_cwd (x : Z) (t : task) : task := Task (state t) (parent t) (tchan t) (killed t)
  (xstate t) (pid t) (trapframe t) (pagetable t) (openFiles t) (currentDir t) x (sticks t) (uticks
  t) (tvma t) (kstack t) (ctx t) (name t) (sz t) (sig_table t).
Definition set_sticks (x : Z) (t : task) : task := Task (state t) (parent t) (tchan t) (killed t)
  (xstate t) (pid t) (trapframe t) (pagetable t) (openFiles t) (currentDir t) (cwd t) x (uticks t)
  (tvma t) (kstack t) (ctx t) (name t) (sz t) (sig_table t).
Definition set_uticks (x : Z) (t : task) : task := Task (state t) (parent t) (tchan t) (killed t)
  (xstate t) (pid t) (trapframe t) (pagetable t) (openFiles t) (currentDir t) (cwd t) (sticks t) x
  (tvma t) (kstack t) (ctx t) (name t) (sz t) (sig_table t).
Definition set_tvma (x : list (option nat)) (t : task) : task := Task (state t) (parent t) (tchan
  t) (killed t) (xstate t) (pid t) (trapframe t) (pagetable t) (openFiles t) (currentDir t) (cwd
  t) (sticks t) (uticks t) x (kstack t) (ctx t) (name t) (sz t) (sig_table t).
Definition set_kstack (x : Z) (t : task) : task := Task (state t) (parent t) (tchan t) (killed t)
  (xstate t) (pid t) (trapframe t) (pagetable t) (openFiles t) (currentDir t) (cwd t) (sticks t)
  (uticks t) (tvma t) x (ctx t) (name t) (sz t) (sig_table t).
Definition set_ctx (x : kont) (t : task) : task := Task (state t) (parent t) (tchan t) (killed t)
  (xstate t) (pid t) (trapframe t) (pagetable t) (openFiles t) (currentDir t) (cwd t) (sticks t)
  (uticks t) (tvma t) (kstack t) x (name t) (sz t) (sig_table t).
Definition set_name (x : list Z) (t : task) : task := Task (state t) (parent t) (tchan t) (killed
  t) (xstate t) (pid t) (trapframe t) (pagetable t) (openFiles t) (currentDir t) (cwd t) (sticks
  t) (uticks t) (tvma t) (kstack t) (ctx t) x (sz t) (sig_table t).
Definition set_sz (x : Z) (t : task) : task := Task (state t) (parent t) (tchan t) (killed t)
  (xstate t) (pid t) (trapframe t) (pagetable t) (openFiles t) (currentDir t) (cwd t) (sticks t)
  (uticks t) (tvma t) (kstack t) (ctx t) (name t) x (sig_table t).
Definition set_sig_table (x : list Z) (t : task) : task := Task (state t) (parent t) (tchan t)
  (killed t) (xstate t) (pid t) (trapframe t) (pagetable t) (openFiles t) (currentDir t) (cwd t)
  (sticks t) (uticks t) (tvma t) (kstack t) (ctx t) (name t) (sz t) x.

Record ks (W : Type) := KS {
  tasks : list task;
  vma_table : list vma;
  locks : lockref → spinlock;
  sleeplocks : Z → sleeplock;
  kcpu : cpu;
  cur_task : option nat;
  initTask : option nat;
  ticks : Z;
  world : W;
}.
Arguments KS {W}.
Arguments tasks {W}. Arguments vma_table {W}. Arguments locks {W}. Arguments sleeplocks {W}. Arguments kcpu {W}. Arguments cur_task {W}. Arguments initTask {W}. Arguments ticks {W}. Arguments world {W}. 
Definition set_tasks {W} (x : list task) (s : ks W) : ks W := KS x (vma_table s) (locks s)
  (sleeplocks s) (kcpu s) (cur_task s) (initTask s) (ticks s) (world s).
Definition set_vma_table {W} (x : list vma) (s : ks W) : ks W := KS (tasks s) x (locks s)
  (sleeplocks s) (kcpu s) (cur_task s) (initTask s) (ticks s) (world s).
Definition set_locks {W} (x : lockref → spinlock) (s : ks W) : ks W := KS (tasks s) (vma_table s)
  x (sleeplocks s) (kcpu s) (cur_task s) (initTask s) (ticks s) (world s).
Definition set_sleeplocks {W} (x : Z → sleeplock) (s : ks W) : ks W := KS (tasks s) (vma_table s)
  (locks s) x (kcpu s) (cur_task s) (initTask s) (ticks s) (world s).
Definition set_kcpu {W} (x : cpu) (s : ks W) : ks W := KS (tasks s) (vma_table s) (locks s)
  (sleeplocks s) x (cur_task s) (initTask s) (ticks s) (world s).
Definition set_cur_task {W} (x : option nat) (s : ks W) : ks W := KS (tasks s) (vma_table s)
  (locks s) (sleeplocks s) (kcpu s) x (initTask s) (ticks s) (world s).
Definition set_initTask {W} (x : option nat) (s : ks W) : ks W := KS (tasks s) (vma_table s)
  (locks s) (sleeplocks s) (kcpu s) (cur_task s) x (ticks s) (world s).
Definition set_ticks {W} (x : Z) (s : ks W) : ks W := KS (tasks s) (vma_table s) (locks s)
  (sleeplocks s) (kcpu s) (cur_task s) (initTask s) x (world s).
Definition set_world {W} (x : W) (s : ks W) : ks W := KS (tasks s) (vma_table s) (locks s)
  (sleeplocks s) (kcpu s) (cur_task s) (initTask s) (ticks s) x.

(** ** The file layer the tasks use *)
Class FileLayer (W : Type) := {
  vfs_dup : Z → M W Z;
  vfs_close : Z → M W unit;
  vfs_old_close : Z → M W unit;
  vfs_rewind : Z → M W unit;
  (** The old write, with the page table of the caller. *)
  vfs_write : Z → Z → bool → Z → Z → Z → M W Z;
  inode_dup : Z → M W Z;
  inode_free : Z → M W unit;
  inode_read : Z → Z → Z → Z → bool → M W Z;
}.

(** [safestrcpy] between [char] arrays of two structures: [n] bytes at most,
    the last one NUL, and one more NUL behind that of a shorter string.  Bytes
    beyond [dst] would overwrite what follows it. *)
Fixpoint safestrcpy_arr (dst src : list Z) (n : nat) : list Z :=
  match n with
  | O => dst
  | S O => 0 :: drop 1 dst
  | S n => match src with
           | c :: src => if c =? 0 then 0 :: 0 :: drop 2 dst else c :: safestrcpy_arr (drop 1 dst) src n
           | [] => 0 :: 0 :: drop 2 dst
           end
  end.

(** [strlen] of a [char] array. *)
Fixpoint strlen_arr (l : list Z) : nat :=
  match l with c :: l => if c =? 0 then O else S (strlen_arr l) | [] => O end.

Section ops.
Context {W : Type} `{PageAllocator W, FileLayer W}.
(** The page of trampoline.S and a bound for the loops over pages. *)
Context (trampoline : Z) (fuel : nat).
Abbreviation K := (M (ks W)).

(** ** Access to the state *)

Definition in_world {A : Type} (c : M W A) : K A := λ s,
  match c (world s) with
  | Done (a, w) => Done (a, set_world w s)
  | Panic e => Panic e
  | NoFuel => NoFuel
  end.
Definition on_cpu {A : Type} (c : M cpu A) : K A := λ s,
  match c (kcpu s) with
  | Done (a, u) => Done (a, set_kcpu u s)
  | Panic e => Panic e
  | NoFuel => NoFuel
  end.
(** [taskTable[i]]; outside the table the access is undefined. *)
Definition tsk (i : nat) : K task := λ s,
  match tasks s !! i with Some t => Done (t, s) | None => Panic "taskTable index" end.
Definition upd_task (i : nat) (f : task → task) : K unit :=
  modify (λ s, set_tasks (alter f i (tasks s)) s).
(** Following a [Task *], [struct vma *]. *)
Definition deref (p : option nat) : K nat :=
  match p with Some i => mret i | None => panic "null pointer" end.

(** ** SpinLock on the one CPU: a held lock would spin for ever. *)
Definition holding (l : lockref) : K bool := gets (λ s, SpinLock.holding 0 (locks s l)).
Definition set_lock (l : lockref) (k : spinlock) : K unit :=
  modify (λ s, set_locks (<[l := k]> (locks s)) s).

(** On one CPU the loop on a held lock never ends. *)
Definition spin_forever : K unit := λ _, NoFuel.

Definition lock (l : lockref) : K unit :=
  on_cpu Intr.push_off;;
  h ← holding l;
  if (h : bool) then panic "re-acquire"
  else
    k ← gets (λ s, locks s l);
    let '(old, k) := SpinLock.test_and_set k in
    if (old : bool) then spin_forever
    else set_lock l (SpinLock.set_cpuid 0 k).

Definition unlock (l : lockref) : K unit :=
  h ← holding l;
  if negb h then panic "unlock"
  else
    k ← gets (λ s, locks s l);
    set_lock l (SpinLock.lock_release (SpinLock.set_cpuid (-1) k));;
    on_cpu Intr.pop_off.

Definition myTask : K (option nat) :=
  on_cpu Intr.push_off;;
  t ← gets cur_task;
  on_cpu Intr.pop_off;;
  mret t.

(** ** The task table *)

(** [f] for every index of the table, from [i] on. *)
Fixpoint for_tasks (f : nat → K unit) (i n : nat) : K unit :=
  match n with O => mret tt | S n => f i;; for_tasks f (S i) n end.

(** [stack] is the array of kernel stacks. *)
Definition initTaskTable (stack : Z) : K unit :=
  for_tasks (λ i,
    set_lock (LTask i) (SpinLock.init 0);;
    upd_task i (λ t, set_openFiles (replicate NOFILE 0) (set_currentDir (replicate MAXPATH 0)
      (set_uticks 0 (set_tvma (replicate NOMMAPFILE None) (set_sticks 0 (set_sz 0 (set_xstate 0
      (set_killed 0 (set_state UNUSED (set_trapframe 0 (set_kstack (stack + KSTACK_SIZE * Z.of_nat i)
      (set_pid (Z.of_nat i) t))))))))))))) 0 NTASK.

Definition taskPagetable (tf : Z) : M W Z :=
  pagetable ← userCreate;
  if pagetable =? 0 then mret 0
  else
    r ← mappages fuel pagetable TRAMPOLINE PGSIZE trampoline (Z.lor PTE_R PTE_X);
    if r <? 0 then FreeUserPageTable fuel pagetable 0;; mret 0
    else
      r ← mappages fuel pagetable TRAPFRAME PGSIZE tf (Z.lor PTE_R PTE_W);
      if r <? 0 then
        userUnmap fuel pagetable TRAMPOLINE 1 false;;
        FreeUserPageTable fuel pagetable 0;;
        mret 0
      else mret pagetable.

(** [sizeof(struct trapframe)] and the offsets used. *)
Definition TF_SIZE : Z := 288.
Definition TF_EPC : Z := 24.
Definition TF_SP : Z := 48.
Definition TF_A0 : Z := 112.

(** The search loop of [allocTask], with the body after [found]. *)
Fixpoint allocTask_from (i n : nat) : K (option nat) :=
  match n with
  | O => mret None
  | S n =>
      lock (LTask i);;
      t ← tsk i;
      if decide (state t = UNUSED) then
        tf ← in_world pg_alloc;
        upd_task i (set_trapframe tf);;
        if tf =? 0 then unlock (LTask i);; mret None
        else
          pgt ← in_world (taskPagetable tf);
          upd_task i (set_pagetable pgt);;
          in_world (kmemset tf 0 TF_SIZE);;
          upd_task i (λ t, set_ctx KForkret (set_openFiles (replicate NOFILE 0)
            (set_sig_table (replicate (length (sig_table t)) 0)
            (set_tvma (replicate NOMMAPFILE None) t))));;
          unlock (LTask i);;
          mret (Some i)
      else unlock (LTask i);; allocTask_from (S i) n
  end.
Definition allocTask : K (option nat) := allocTask_from 1 (NTASK - 1).

(** [UserVmInit] of VmManager.cpp: [src] holds [sz] bytes of initcode. *)
Definition UserVmInit (pagetable src size : Z) : M W unit :=
  mem ← pg_alloc;
  kmemset mem 0 PGSIZE;;
  mappages fuel pagetable 0 PGSIZE mem user_perm;;
  kmemmove mem src size;;
  mem ← pg_alloc;
  kmemset mem 0 PGSIZE;;
  mappages fuel pagetable 4096 PGSIZE mem user_perm;;
  kmemmove mem (src + 4096) (u32 (size - 4096)).

(** "initcode" with the bytes that follow the literal in the image. *)
Definition initFirstTask (initcode size : Z) (literal : list Z) : K unit :=
  p ← allocTask;
  i ← deref p;
  t ← tsk i;
  in_world (UserVmInit (pagetable t) initcode size);;
  upd_task i (set_sz (PGSIZE + PGSIZE));;
  in_world (wr64 (trapframe t + TF_EPC) 0x106);;
  in_world (wr64 (trapframe t + TF_SP) (PGSIZE * 2));;
  upd_task i (λ t, set_state RUNNABLE (set_currentDir (<[O := 47]> (currentDir t))
    (set_name (take 16 literal) t)));;
  modify (set_initTask (Some i)).

(** ** Switching *)

(** [prepareSched] up to [pswitch], and what the scheduler does when its own
    [pswitch] returns: [c->task = 0; task->lock.unlock()]. *)
Definition prepareSched (k : bool → kont) : K unit :=
  p ← myTask;
  i ← deref p;
  h ← holding (LTask i);
  if negb h then panic "sched p->lock"
  else
    n ← gets (λ s, noff (kcpu s));
    if negb (n =? 1) then panic "sched locks"
    else
      t ← tsk i;
      if decide (state t = RUNNING) then panic "sched running"
      else
        on ← on_cpu Intr.intr_get;
        if (on : bool) then panic "sched interruptible"
        else
          ie ← gets (λ s, intr_enable (kcpu s));
          upd_task i (set_ctx (k ie));;
          modify (set_cur_task None);;
          unlock (LTask i).

Definition yield : K unit :=
  p ← myTask;
  i ← deref p;
  lock (LTask i);;
  upd_task i (set_state RUNNABLE);;
  prepareSched KYield.

(** [sleep] up to the switch. *)
Definition sleep (c : chan) (lk : lockref) (who : sleeper) : K unit :=
  p ← myTask;
  i ← deref p;
  (if decide (lk ≠ LTask i) then lock (LTask i);; unlock lk else mret tt);;
  upd_task i (λ t, set_state SLEEPING (set_tchan c t));;
  prepareSched (λ ie, KSleep ie lk who).

(** [sleep] after the switch, in task [i]. *)
Definition wake_up_in (i : nat) (lk : lockref) : K unit :=
  upd_task i (set_tchan NoChan);;
  if decide (lk ≠ LTask i) then unlock (LTask i);; lock lk else mret tt.

Definition wakeup (c : chan) : K unit :=
  for_tasks (λ i,
    lock (LTask i);;
    t ← tsk i;
    (if decide (state t = SLEEPING ∧ tchan t = c) then upd_task i (set_state RUNNABLE) else mret tt);;
    unlock (LTask i)) 0 NTASK.

(** ** Waiting for children *)

(** Kernel address of [taskTable[i].xstate]; the model keeps the field in the
    record and stores it there before [copyout] reads it. *)
Context (xstate_at : nat → Z).
Definition copyout_xstate (pgt vaddr : Z) (i : nat) : K Z :=
  t ← tsk i;
  in_world (modify (λ w, pg_set_mem (st32 (pg_mem w) (xstate_at i) (u32 (xstate t))) w);;
            copyout fuel pgt vaddr (xstate_at i) 4).

Definition FreeTaskPagetable (pgt size : Z) : M W unit :=
  userUnmap fuel pgt TRAMPOLINE 1 false;;
  userUnmap fuel pgt TRAPFRAME 1 false;;
  FreeUserPageTable fuel pgt size.

Definition freeTask (i : nat) : K unit :=
  t ← tsk i;
  (if negb (trapframe t =? 0) then in_world (pg_free (trapframe t)) else mret tt);;
  upd_task i (set_trapframe 0);;
  (if negb (pagetable t =? 0) then in_world (FreeTaskPagetable (pagetable t) (u64 (sz t))) else mret tt);;
  upd_task i (λ t, set_parent None (set_state UNUSED (set_xstate 0 (set_killed 0 (set_tchan NoChan
    (set_name (<[O := 0]> (name t)) (set_sz 0 (set_pagetable 0
    (set_tvma (replicate NOMMAPFILE None) t))))))))).

(** One pass over the table in [wait]: a result, or whether there are children. *)
Fixpoint wait_scan (i : nat) (vaddr : Z) (c n : nat) (havechild : bool) : K (Z + bool) :=
  match n with
  | O => mret (inr havechild)
  | S n =>
      ch ← tsk c;
      if decide (parent ch = Some i) then
        lock (LTask c);;
        ch ← tsk c;
        if decide (state ch = ZOMBIE) then
          t ← tsk i;
          r ← (if negb (vaddr =? 0) then copyout_xstate (pagetable t) vaddr c else mret 0);
          if r <? 0 then
            unlock (LTask c);; unlock (LTask i);; mret (inl (-1))
          else
            freeTask c;;
            unlock (LTask c);; unlock (LTask i);; mret (inl (pid ch))
        else unlock (LTask c);; wait_scan i vaddr (S c) n true
      else wait_scan i vaddr (S c) n havechild
  end.

(** The [for (;;)] of [wait]: [None] when the task went to sleep. *)
Definition wait_loop (i : nat) (vaddr : Z) : K (option Z) :=
  r ← wait_scan i vaddr 0 NTASK false;
  match r with
  | inl r => mret (Some r)
  | inr false => unlock (LTask i);; mret (Some (-1))
  | inr true => sleep (ChTask i) (LTask i) (InWait vaddr);; mret None
  end.

Definition wait (vaddr : Z) : K (option Z) :=
  p ← myTask;
  i ← deref p;
  lock (LTask i);;
  wait_loop i vaddr.

(** One iteration of the loop of [wait4]; [<<] on the [int] [xstate]. *)
Definition wait4_loop (i : nat) (pid_ vaddr : Z) : K (option Z) :=
  let c := Z.to_nat pid_ in
  lock (LTask c);;
  upd_task c (λ t, set_xstate (i32 (Z.shiftl (xstate t) 8)) t);;
  ch ← tsk c;
  if decide (state ch = ZOMBIE) then
    t ← tsk i;
    r ← (if negb (vaddr =? 0) then copyout_xstate (pagetable t) vaddr c else mret 0);
    if r <? 0 then
      unlock (LTask c);; unlock (LTask i);; mret (Some (-1))
    else
      freeTask c;;
      unlock (LTask c);; unlock (LTask i);; mret (Some pid_)
  else
    unlock (LTask c);;
    sleep (ChTask i) (LTask i) (InWait4 pid_ vaddr);;
    mret None.

Definition wait4 (pid_ vaddr : Z) : K (option Z) :=
  if Z.of_nat NTASK <=? pid_ then mret (Some (-1))
  else if pid_ <? 0 then panic "taskTable index"
  else
    let c := Z.to_nat pid_ in
    p ← myTask;
    i ← deref p;
    lock (LTask c);;
    ch ← tsk c;
    if decide (parent ch ≠ Some i) then unlock (LTask c);; mret (Some (-1))
    else
      unlock (LTask c);;
      lock (LTask i);;
      wait4_loop i pid_ vaddr.

(** ** Timer sleep and sleep locks *)

(** The loop of [sleepTime], with the timer lock held. *)
Definition sleepTime_loop (now sleep_ticks : Z) : K (option unit) :=
  t ← gets ticks;
  if u64 (u64 t - now) <? sleep_ticks then
    sleep ChTicks LTimer (InSleepTime now sleep_ticks);; mret None
  else unlock LTimer;; mret (Some tt).

Definition sleepTime (sleep_ticks : Z) : K (option unit) :=
  now ← gets (λ s, u64 (ticks s));
  lock LTimer;;
  sleepTime_loop now sleep_ticks.

Definition SleepLock_init (a : Z) : K unit :=
  set_lock (LSleep a) (SpinLock.init 0);;
  modify (λ s, set_sleeplocks (<[a := Sleep 0 0]> (sleeplocks s)) s).

(** [while (this->locked) sleep(this, &this->spinlock);] and what follows. *)
Definition SleepLock_loop (a : Z) : K (option unit) :=
  l ← gets (λ s, sleeplocks s a);
  if negb (sl_locked l =? 0) then
    sleep (ChSleep a) (LSleep a) (InSleepLock a);; mret None
  else
    p ← myTask;
    i ← deref p;
    t ← tsk i;
    modify (λ s, set_sleeplocks (<[a := Sleep 1 (pid t)]> (sleeplocks s)) s);;
    unlock (LSleep a);;
    mret (Some tt).

Definition SleepLock_lock (a : Z) : K (option unit) :=
  lock (LSleep a);; SleepLock_loop a.

Definition SleepLock_unlock (a : Z) : K unit :=
  lock (LSleep a);;
  modify (λ s, set_sleeplocks (<[a := Sleep 0 0]> (sleeplocks s)) s);;
  wakeup (ChSleep a);;
  unlock (LSleep a).

(** ** The scheduler *)

(** A task goes on from its saved context; [pswitch] has just returned. *)
Definition resume (i : nat) (k : kont) : K unit :=
  match k with
  | KForkret => unlock (LTask i)
  | KYield ie =>
      on_cpu (modify (λ c, Cpu (noff c) ie (sie c)));;
      unlock (LTask i)
  | KSleep ie lk who =>
      on_cpu (modify (λ c, Cpu (noff c) ie (sie c)));;
      wake_up_in i lk;;
      match who with
      | InWait vaddr => wait_loop i vaddr;; mret tt
      | InWait4 pid_ vaddr => wait4_loop i pid_ vaddr;; mret tt
      | InSleepTime now n => sleepTime_loop now n;; mret tt
      | InSleepLock a => SleepLock_loop a;; mret tt
      end
  | KExit => panic "exit"
  end.

(** One iteration of the inner loop of [scheduler]. *)
Definition sched_visit (i : nat) : K unit :=
  lock (LTask i);;
  t ← tsk i;
  (if decide (state t = ZOMBIE) then
     p ← gets initTask;
     j ← deref p;
     upd_task j (set_state RUNNABLE)
   else mret tt);;
  t ← tsk i;
  if decide (state t = RUNNABLE) then
    upd_task i (set_state RUNNING);;
    modify (set_cur_task (Some i));;
    resume i (ctx t)
  else unlock (LTask i).

(** The start of an iteration of the outer loop. *)
Definition sched_begin : K unit := on_cpu (Intr.intr_set true).

(** [timer::handleIntr]; [user] is [SPP == 0]. *)
Definition handleIntr (user : bool) : K unit :=
  lock LTimer;;
  modify (λ s, set_ticks (i32 (ticks s + 1)) s);;
  n ← gets ticks;
  if n =? 10 * 60 then panic "run out of time"
  else
    wakeup ChTicks;;
    unlock LTimer;;
    p ← myTask;
    match p with
    | None => mret tt
    | Some i =>
        lock (LTask i);;
        (if user then upd_task i (λ t, set_uticks (i32 (uticks t + 1)) t)
         else upd_task i (λ t, set_sticks (i32 (sticks t + 1)) t));;
        unlock (LTask i)
    end.

(** ** Memory areas: mmap.cpp and task.cpp *)

Definition vma_at (v : nat) : K vma := λ s,
  match vma_table s !! v with Some a => Done (a, s) | None => Panic "vma index" end.
Definition upd_vma (v : nat) (f : vma → vma) : K unit :=
  modify (λ s, set_vma_table (alter f v (vma_table s)) s).

Definition InitVmaTable : K unit := modify (set_vma_table (replicate NVMA zero_vma)).

Fixpoint allocVma_from (v n : nat) : K nat :=
  match n with
  | O => panic "not enough vma"
  | S n =>
      a ← vma_at v;
      if (v_ip a =? 0) && (v_addr a =? 0) && (v_length a =? 0) then mret v
      else allocVma_from (S v) n
  end.
Definition allocVma : K nat := allocVma_from 0 NVMA.

Definition vma_free (v : nat) : K unit :=
  a ← vma_at v;
  (if negb (v_ip a =? 0) then in_world (inode_free (v_ip a)) else mret tt);;
  upd_vma v (λ _, zero_vma).

(** [PTE_V | PTE_U] and the bits of [prot]. *)
Definition prot_perm (base prot : Z) : Z :=
  let p := base in
  let p := if negb (Z.land prot PROT_READ =? 0) then Z.lor p PTE_R else p in
  let p := if negb (Z.land prot PROT_WRITE =? 0) then Z.lor p PTE_W else p in
  if negb (Z.land prot PROT_EXEC =? 0) then Z.lor p PTE_X else p.
Definition MkPtePerm (prot : Z) : Z := prot_perm 0 prot.

Definition LoadIfContain (a : vma) (pgt va : Z) : M W bool :=
  let stop := u64 (v_addr a + v_length a) in
  if (va <? PGROUNDDOWN (v_addr a)) || (PGROUNDUP stop <=? va) then mret false
  else
    let va := if va <? v_addr a then v_addr a else va in
    let va := if stop <=? va then u64 (stop - 1) else va in
    pa ← walkAddr pgt va;
    if negb (pa =? 0) then mret false
    else
      mem ← pg_alloc;
      kmemset mem 0 PGSIZE;;
      let va := PGROUNDDOWN va in
      mappages fuel pgt va PGSIZE mem (prot_perm (Z.lor PTE_V PTE_U) (v_prot a));;
      if v_ip a =? 0 then mret true
      else
        let va := if va <? v_addr a then v_addr a else va in
        let high := PGROUNDUP (u64 (va + 1)) in
        let high := if stop <? high then stop else high in
        let nread := i32 (high - va) in
        let nread := if PGSIZE <? nread then PGSIZE else nread in
        let file_off := u32 (v_offset a + (va - v_addr a)) in
        let pa := mem + va - PGROUNDDOWN va in
        inode_read (v_ip a) pa file_off nread false;;
        mret true.

(** The loop of [LoadIfValid] over [this->vma]. *)
Fixpoint load_from_vmas (vs : list (option nat)) (pgt va : Z) : K bool :=
  match vs with
  | [] => mret false
  | None :: vs => load_from_vmas vs pgt va
  | Some v :: vs =>
      a ← vma_at v;
      b ← in_world (LoadIfContain a pgt va);
      if (b : bool) then mret true else load_from_vmas vs pgt va
  end.

Definition LoadIfValid (i : nat) (va : Z) : K bool :=
  t ← tsk i;
  pa ← in_world (walkAddr (pagetable t) va);
  if negb (pa =? 0) then mret false
  else
    b ← load_from_vmas (tvma t) (pagetable t) va;
    if (b : bool) then mret true
    else if va <? u64 (sz t) then
      in_world (
        mem ← pg_alloc;
        kmemset mem 0 PGSIZE;;
        mappages fuel (pagetable t) (PGROUNDDOWN va) PGSIZE mem
          (Z.lor (Z.lor (Z.lor PTE_V PTE_U) PTE_R) PTE_W));;
      mret true
    else mret false.

Fixpoint modify_prot (vs : list (option nat)) (pgt va len prot : Z) : K unit :=
  match vs with
  | [] => mret tt
  | None :: vs => modify_prot vs pgt va len prot
  | Some v :: vs =>
      a ← vma_at v;
      (if (v_addr a <=? va) && (va <? u64 (v_addr a + len)) then
         upd_vma v (λ a, Vma (v_addr a) (v_type a) (v_length a) (Z.lor (v_prot a) prot)
                            (v_flag a) (v_f a) (v_ip a) (v_offset a));;
         in_world (
           pte ← walk pgt (PGROUNDDOWN va) false;
           if pte =? 0 then mret tt
           else e ← rd64 pte; wr64 pte (Z.lor e (MkPtePerm prot)))
       else mret tt);;
      modify_prot vs pgt va len prot
  end.

Definition ModifyMemProt (i : nat) (va len prot : Z) : K Z :=
  t ← tsk i;
  modify_prot (tvma t) (pagetable t) va len prot;;
  mret 0.

(** ** File descriptors *)

(** The first index in [[from, from + n)] that holds NULL. *)
Fixpoint first_closed (fs : list Z) (from n : nat) : outcome (option nat) :=
  match n with
  | O => Done None
  | S n => match fs !! from with
           | None => Panic "openFiles index"
           | Some fp => if fp =? 0 then Done (Some from) else first_closed fs (S from) n
           end
  end.

Definition lift {A : Type} (o : outcome A) : K A := λ s,
  match o with Done a => Done (a, s) | Panic e => Panic e | NoFuel => NoFuel end.

Definition AllocFd (i : nat) (from to_ : Z) : K Z :=
  lock (LTask i);;
  let from := if from <? 0 then 0 else from in
  let to_ := if to_ <? 0 then Z.of_nat NOFILE else to_ in
  t ← tsk i;
  r ← lift (first_closed (openFiles t) (Z.to_nat from) (Z.to_nat (to_ - from)));
  unlock (LTask i);;
  match r with
  | Some fd => mret (Z.of_nat fd)
  | None => panic "alloc fd"
  end.

Definition registerFileHandle (fp fd : Z) : K Z :=
  if (NFILE <? fd) || (fp =? 0) then mret (-1)
  else
    p ← myTask;
    i ← deref p;
    lock (LTask i);;
    t ← tsk i;
    if fd <? 0 then
      r ← lift (first_closed (openFiles t) 0 NOFILE);
      match r with
      | Some k =>
          upd_task i (set_openFiles (<[k := fp]> (openFiles t)));;
          unlock (LTask i);;
          mret (Z.of_nat k)
      | None => panic "register file handle"
      end
    else
      match openFiles t !! Z.to_nat fd with
      | None => panic "openFiles index"
      | Some old =>
          if old =? 0 then
            upd_task i (set_openFiles (<[Z.to_nat fd := fp]> (openFiles t)));;
            unlock (LTask i);;
            mret fd
          else unlock (LTask i);; mret (-1)
      end.

Definition getFileByfd (fd : Z) : K Z :=
  if (fd <? 0) || (Z.of_nat NOFILE <? fd) then mret 0
  else
    p ← myTask;
    i ← deref p;
    lock (LTask i);;
    t ← tsk i;
    match openFiles t !! Z.to_nat fd with
    | None => panic "openFiles index"
    | Some fp => unlock (LTask i);; mret fp
    end.

(** ** Creating and ending tasks *)

(** The loop of [CopyUserMem]; [i] is an [int]. *)
Fixpoint CopyUserMem_loop (n : nat) (oldPg newPg i stop : Z) : M W Z :=
  match n with
  | O => λ _, NoFuel
  | S n =>
      if u64 i <? stop then
        pte ← walk oldPg (u64 i) false;
        if pte =? 0 then panic "CopyUserMem: pte not present"
        else
          e ← rd64 pte;
          if negb (has e PTE_V) then CopyUserMem_loop n oldPg newPg (i32 (i + PGSIZE)) stop
          else
            mem ← pg_alloc;
            if mem =? 0 then panic "CopyUserMem: alloc mem fail"
            else
              kmemmove mem (PTE2PA e) PGSIZE;;
              r ← mappages fuel newPg (u64 i) PGSIZE mem (PTE_FLAGS e);
              if r <? 0 then pg_free mem;; panic "CopyUserMem: mappages fail"
              else CopyUserMem_loop n oldPg newPg (i32 (i + PGSIZE)) stop
      else mret 0
  end.
Definition CopyUserMem (oldPg newPg addr size : Z) : M W Z :=
  CopyUserMem_loop fuel oldPg newPg (i32 addr) (u64 (addr + size)).

Fixpoint CopyVmaMem (vs : list (option nat)) (psz oldPg newPg : Z) : K unit :=
  match vs with
  | [] => mret tt
  | None :: vs => CopyVmaMem vs psz oldPg newPg
  | Some v :: vs =>
      a ← vma_at v;
      (if v_addr a <? u64 psz then mret tt
       else in_world (CopyUserMem oldPg newPg (v_addr a) (v_length a));; mret tt);;
      CopyVmaMem vs psz oldPg newPg
  end.

(** [child->openFiles[i] = dup(task->openFiles[i])] for the open ones. *)
Fixpoint dup_files (fs : list Z) : M W (list Z) :=
  match fs with
  | [] => mret []
  | fp :: fs =>
      fp' ← (if negb (fp =? 0) then vfs_dup fp else mret 0);
      fs' ← dup_files fs;
      mret (fp' :: fs')
  end.

(** The loop over [task->vma]; [dup_area] keeps what the area refers to. *)
Fixpoint dup_vmas (dup_area : vma → M W unit) (vs : list (option nat)) : K (list (option nat)) :=
  match vs with
  | [] => mret []
  | None :: vs => r ← dup_vmas dup_area vs; mret (None :: r)
  | Some v :: vs =>
      a ← vma_at v;
      c ← allocVma;
      upd_vma c (λ _, a);;
      in_world (dup_area a);;
      r ← dup_vmas dup_area vs;
      mret (Some c :: r)
  end.

(** The part [fork] and [clone] share after the child's memory is there. *)
Definition finish_child (i j : nat) (dup_area : vma → M W unit) : K unit :=
  t ← tsk i;
  fs ← in_world (dup_files (openFiles t));
  upd_task j (set_openFiles fs);;
  vs ← dup_vmas dup_area (tvma t);
  upd_task j (set_tvma vs);;
  upd_task j (λ c, set_name (safestrcpy_arr (name c) (name t) 17)
    (set_currentDir (safestrcpy_arr (currentDir c) (currentDir t) (S (strlen_arr (currentDir t)))) c)).

Definition fork : K Z :=
  p ← myTask;
  i ← deref p;
  q ← allocTask;
  match q with
  | None => mret (-1)
  | Some j =>
      t ← tsk i;
      c ← tsk j;
      r ← in_world (userVmCopy fuel (pagetable t) (pagetable c) (sz t));
      if r <? 0 then mret (-1)
      else
        CopyVmaMem (tvma t) (sz t) (pagetable t) (pagetable c);;
        upd_task j (λ c, set_parent (Some i) (set_sz (sz t) c));;
        d ← in_world (inode_dup (cwd t));
        upd_task j (set_cwd d);;
        in_world (kmemmove (trapframe c) (trapframe t) TF_SIZE);;
        in_world (wr64 (trapframe c + TF_A0) 0);;
        upd_task j (set_sig_table (sig_table t));;
        finish_child i j (λ a, if negb (v_ip a =? 0) then inode_dup (v_ip a);; mret tt else mret tt);;
        upd_task j (set_state RUNNABLE);;
        c ← tsk j;
        mret (pid c)
  end.

Definition clone (stack flags : Z) : K Z :=
  p ← myTask;
  i ← deref p;
  q ← allocTask;
  match q with
  | None => mret (-1)
  | Some j =>
      t ← tsk i;
      c ← tsk j;
      r ← in_world (userVmCopy fuel (pagetable t) (pagetable c) (sz t));
      if r <? 0 then mret (-1)
      else
        d ← in_world (inode_dup (cwd t));
        upd_task j (λ c, set_parent (Some i) (set_sz (sz t) (set_cwd d c)));;
        in_world (kmemmove (trapframe c) (trapframe t) TF_SIZE);;
        in_world (wr64 (trapframe c + TF_A0) 0);;
        finish_child i j (λ a, vfs_dup (v_f a);; mret tt);;
        in_world (wr64 (trapframe c + TF_SP) stack);;
        upd_task j (set_state RUNNABLE);;
        c ← tsk j;
        mret (pid c)
  end.

Definition growtask (n : Z) : K Z :=
  p ← myTask;
  i ← deref p;
  t ← tsk i;
  let size := u32 (sz t) in
  if 0 <? n then
    r ← in_world (userAlloc fuel (pagetable t) size (u32 (size + n)));
    if u32 r =? 0 then mret (-1) else upd_task i (set_sz (i32 r));; mret 0
  else if n <? 0 then
    r ← in_world (userDealloc fuel (pagetable t) size (u32 (size + n)));
    upd_task i (set_sz (i32 r));; mret 0
  else upd_task i (set_sz (i32 size));; mret 0.

(** The loop of [exit] over [openFiles]. *)
Fixpoint close_files (i : nat) (fd n : nat) : K unit :=
  match n with
  | O => mret tt
  | S n =>
      t ← tsk i;
      match openFiles t !! fd with
      | None => panic "openFiles index"
      | Some fp =>
          if negb (fp =? 0) then
            in_world (vfs_old_close fp);;
            upd_task i (λ t, set_openFiles (<[fd := 0]> (openFiles t)) t)
          else mret tt
      end;;
      close_files i (S fd) n
  end.

(** The loop of [exit] over [vma]. *)
Fixpoint drop_vmas (i : nat) (k n : nat) : K unit :=
  match n with
  | O => mret tt
  | S n =>
      t ← tsk i;
      match tvma t !! k with
      | Some (Some v) =>
          a ← vma_at v;
          (if negb (Z.land (v_flag a) MAP_SHARED =? 0) then
             in_world (vfs_rewind (v_f a);; vfs_write (pagetable t) (v_f a) true (v_addr a) (v_length a) 0);; mret tt
           else mret tt);;
          in_world (userUnmap fuel (pagetable t) (PGROUNDDOWN (v_addr a))
                      (PGROUNDUP (v_length a) / PGSIZE) true);;
          vma_free v;;
          upd_task i (λ t, set_tvma (<[k := None]> (tvma t)) t)
      | _ => mret tt
      end;;
      drop_vmas i (S k) n
  end.

(** [wakeup(task->parent)]: the channel of a [Task *], null for no parent. *)
Definition chan_of (p : option nat) : chan := match p with Some i => ChTask i | None => NoChan end.

(** [status] is overwritten before it is used. *)
Definition exit (status : Z) : K unit :=
  p ← myTask;
  i ← deref p;
  ini ← gets initTask;
  if decide (ini = Some i) then panic "init task exit"
  else
    let status := 0 in
    close_files i 0 NOFILE;;
    upd_task i (set_currentDir (replicate MAXPATH 0));;
    for_tasks (λ c,
      ch ← tsk c;
      if decide (parent ch = Some i) then upd_task c (set_parent ini) else mret tt) 0 NTASK;;
    drop_vmas i 0 NOMMAPFILE;;
    upd_task i (λ t, set_xstate status (set_state ZOMBIE t));;
    t ← tsk i;
    wakeup (chan_of (parent t));;
    lock (LTask i);;
    prepareSched (λ _, KExit).

Definition CountOfTask (s : ks W) : nat :=
  length (filter (λ t, state t = RUNNABLE ∨ state t = RUNNING ∨ state t = SLEEPING) (tasks s)).

(** [sig] is not used; [pid] indexes the table unchecked. *)
Definition kill (pid_ sig : Z) : K Z :=
  if pid_ <? 0 then panic "taskTable index"
  else
    t ← tsk (Z.to_nat pid_);
    if decide (state t = ZOMBIE ∨ state t = UNUSED) then mret (-1)
    else upd_task (Z.to_nat pid_) (set_killed 1);; mret 0.

(** [len] is an [int], also for [copyout]; [memmove] takes an unsigned one. *)
Definition either_copyout (user_dst : bool) (dst src len : Z) : K Z :=
  p ← myTask;
  if user_dst then
    i ← deref p;
    t ← tsk i;
    in_world (copyout fuel (pagetable t) dst src (i32 len))
  else in_world (kmemmove dst src (u32 (i32 len)));; mret 0.

Definition either_copyin (user_src : bool) (dst src len : Z) : K Z :=
  p ← myTask;
  if user_src then
    i ← deref p;
    t ← tsk i;
    in_world (copyin fuel (pagetable t) dst src len)
  else in_world (kmemmove dst src (u32 len));; mret 0.

(** [struct tms]: stime, utime, cutime, cstime. *)
Definition tms : Type := Z * Z * Z * Z.

Fixpoint times_loop (i c n : nat) (cu cs : Z) : K (Z * Z) :=
  match n with
  | O => mret (cu, cs)
  | S n =>
      lock (LTask c);;
      ch ← tsk c;
      unlock (LTask c);;
      if decide (parent ch = Some i) then times_loop i (S c) n (cu + uticks ch) (cs + sticks ch)
      else times_loop i (S c) n cu cs
  end.

Definition taskTimes : K tms :=
  p ← myTask;
  i ← deref p;
  t ← tsk i;
  '(cu, cs) ← times_loop i 0 NTASK 0 0;
  mret (sticks t, uticks t, cu, cs).
End ops.
