(* ===== verification/SchedProps.v ===== *)
(** * Tasks and scheduling: invariant and behaviour

    [wp F c Q s]: run from [s], the computation [c] ends in a state of [Q], or,
    if [F] allows it, fails; an operation of the world may fail, the
    scheduler's own code may not. *)
From stdpp Require Import functions.
From S2P Require Import Prelude Mem KAlloc Vm Locks Sched.

Definition wp {S A : Type} (F : Prop) (c : M S A) (Q : A → S → Prop) (s : S) : Prop :=
  match c s with Done (a, s') => Q a s' | _ => F end.

Section wp.
Context {S : Type}.

Lemma wp_ret {A} F (a : A) (Q : A → S → Prop) s : Q a s → wp F (mret a) Q s.
Proof. done. Qed.
Lemma wp_bind {A B} F (c : M S A) (f : A → M S B) Q s :
  wp F c (λ a s', wp F (f a) Q s') s → wp F (c ≫= f) Q s.
Proof. unfold wp, mbind, M_bind. by destruct (c s) as [[a s']| |]. Qed.
Lemma wp_bind_inv {A B} F (c : M S A) (f : A → M S B) Q s :
  wp F (c ≫= f) Q s → wp F c (λ a s', wp F (f a) Q s') s.
Proof. unfold wp, mbind, M_bind. by destruct (c s) as [[a s']| |]. Qed.
Lemma wp_mono {A} F (c : M S A) (Q Q' : A → S → Prop) s :
  wp F c Q s → (∀ a s', Q a s' → Q' a s') → wp F c Q' s.
Proof. unfold wp. destruct (c s) as [[a s']| |]; auto. Qed.
Lemma wp_modify F (f : S → S) (Q : unit → S → Prop) s : Q tt (f s) → wp F (modify f) Q s.
Proof. done. Qed.
Lemma wp_gets {A} F (f : S → A) (Q : A → S → Prop) s : Q (f s) s → wp F (gets f) Q s.
Proof. done. Qed.
Lemma wp_done {A} (c : M S A) Q s : wp False c Q s → ∃ a s', c s = Done (a, s') ∧ Q a s'.
Proof. unfold wp. destruct (c s) as [[a s']| |]; [eauto|done|done]. Qed.
Lemma wp_weak {A} (F F' : Prop) (c : M S A) Q s : wp F c Q s → (F → F') → wp F' c Q s.
Proof. unfold wp. destruct (c s) as [[a s']| |]; auto. Qed.
End wp.

Section rules.
Context {W : Type} `{PageAllocator W, FileLayer W}.
Implicit Types (s : ks W) (F : Prop).

(** The locks [L] are held, in this order of acquisition, and no others. *)
Record holds (L : list lockref) (s : ks W) : Prop := {
  h_locked : ∀ l, locked (locks s l) = bool_decide (l ∈ L);
  h_cpuid : ∀ l, l ∈ L → lk_cpuid (locks s l) = 0;
  h_noff : noff (kcpu s) = Z.of_nat (length L);
  h_sie : L ≠ [] → sie (kcpu s) = false;
  h_nodup : NoDup L;
}.

(** The same state up to the locks and the CPU's interrupt state. *)
Definition relocked (s s' : ks W) : Prop := ∃ lks u, s' = set_locks lks (set_kcpu u s).

Lemma relocked_fields s s' : relocked s s' →
  tasks s' = tasks s ∧ vma_table s' = vma_table s ∧ sleeplocks s' = sleeplocks s ∧
  cur_task s' = cur_task s ∧ initTask s' = initTask s ∧ ticks s' = ticks s ∧ world s' = world s.
Proof. by intros (lks & u & ->). Qed.

Lemma relocked_trans s1 s2 s3 : relocked s1 s2 → relocked s2 s3 → relocked s1 s3.
Proof. intros (? & ? & ->) (lks & u & ->). by exists lks, u. Qed.
Lemma relocked_refl s : relocked s s.
Proof. exists (locks s), (kcpu s). by destruct s. Qed.

Lemma wp_push_off F Q s :
  cpu_ok (kcpu s) → Q tt (set_kcpu (pushed (kcpu s)) s) → wp F (on_cpu Intr.push_off) Q s.
Proof. intros Hc HQ. unfold wp, on_cpu. by rewrite push_off_spec. Qed.

Lemma wp_on_cpu_modify F f (Q : unit → ks W → Prop) s :
  Q tt (set_kcpu (f (kcpu s)) s) → wp F (on_cpu (modify f)) Q s.
Proof. done. Qed.

Lemma holds_cpu_ok L s : holds L s → (length L < 100)%nat → cpu_ok (kcpu s).
Proof.
  intros [_ _ Hn Hs _] Hl. split; [lia|]. intros Hp. apply Hs. intros ->. rewrite Hn in Hp. done.
Qed.

Lemma holds_not_mine L s l : holds L s → l ∉ L → SpinLock.holding 0 (locks s l) = false.
Proof.
  intros [Hl _ _ _ _] Hni. unfold SpinLock.holding. by rewrite Hl, bool_decide_false.
Qed.
Lemma holds_mine L s l : holds L s → l ∈ L → SpinLock.holding 0 (locks s l) = true.
Proof.
  intros [Hl Hc _ _ _] Hi. unfold SpinLock.holding. by rewrite Hl, bool_decide_true, Hc.
Qed.

Lemma wp_lock F L l Q s :
  holds L s → l ∉ L → (length L < 100)%nat →
  (∀ s', relocked s s' → holds (l :: L) s' → Q tt s') → wp F (lock l) Q s.
Proof.
  intros Hh Hni Hlen HQ. apply wp_bind, wp_push_off; [by eapply holds_cpu_ok|].
  apply wp_bind, wp_gets. cbn. rewrite (holds_not_mine L s l Hh Hni).
  apply wp_bind, wp_gets. cbn. destruct (locks s l) as [b c] eqn:E. cbn.
  assert (b = false) as ->.
  { pose proof (h_locked _ _ Hh l) as Hb. rewrite E in Hb. cbn in Hb. by rewrite Hb, bool_decide_false. }
  apply wp_modify. apply HQ; [by exists (<[l := SpinLock.set_cpuid 0 (Spin true c)]> (locks s)), (pushed (kcpu s))|].
  destruct Hh as [Hl Hc Hn Hs Hnd]. split; cbn.
  - intros l'. destruct (decide (l' = l)) as [->|Hne].
    + rewrite fn_lookup_insert, bool_decide_true; [done|by left].
    + rewrite fn_lookup_insert_ne, Hl by done. apply bool_decide_ext. rewrite elem_of_cons. tauto.
  - intros l' [->|Hi]%elem_of_cons; [by rewrite fn_lookup_insert|].
    rewrite fn_lookup_insert_ne; [auto|]. by intros ->.
  - lia.
  - done.
  - by constructor.
Qed.

Lemma wp_unlock F L l Q s :
  holds (l :: L) s → (length L < 100)%nat →
  (∀ s', relocked s s' → holds L s' → Q tt s') → wp F (unlock l) Q s.
Proof.
  intros Hh Hlen HQ. apply wp_bind, wp_gets. cbn.
  rewrite (holds_mine _ s l Hh) by by left. cbn.
  apply wp_bind, wp_gets, wp_bind, wp_modify. cbn.
  destruct Hh as [Hl Hc Hn Hs Hnd]. cbn in Hn. apply NoDup_cons in Hnd as [Hni Hnd].
  unfold wp, on_cpu, Intr.pop_off, Intr.intr_get, Intr.intr_set. unfold_M. cbn.
  rewrite Hs by done. rewrite (proj2 (Z.ltb_ge _ _)) by lia. rewrite i32_small by lia.
  replace (noff (kcpu s) - 1) with (Z.of_nat (length L)) by lia.
  assert (∀ u, noff u = Z.of_nat (length L) → (L ≠ [] → sie u = false) →
    holds L (set_kcpu u (set_locks (<[l := SpinLock.lock_release (SpinLock.set_cpuid (-1) (locks s l))]> (locks s)) s))) as Hok.
  { intros u Hu Hsu. split; cbn; try done.
    - intros l'. destruct (decide (l' = l)) as [->|Hne].
      + by rewrite fn_lookup_insert, bool_decide_false.
      + rewrite fn_lookup_insert_ne, Hl by done. apply bool_decide_ext. rewrite elem_of_cons. tauto.
    - intros l' Hi. rewrite fn_lookup_insert_ne by (by intros ->). apply Hc. by right. }
  destruct ((Z.of_nat (length L) =? 0) && intr_enable (kcpu s))%bool eqn:E;
    (apply HQ; [eexists _, _; reflexivity|apply Hok; cbn; try done]).
  - apply andb_true_iff in E as [E%Z.eqb_eq _]. by destruct L.
  - intros _. by apply Hs.
Qed.

(** Releasing the first of two locks. *)
Lemma wp_unlock_2 F l l' Q s :
  holds [l'; l] s → (∀ s', relocked s s' → holds [l'] s' → Q tt s') → wp F (unlock l) Q s.
Proof.
  intros [Hl Hc Hn Hs Hnd] HQ. eapply (wp_unlock F [l'] l); [|cbn; lia|done]. split.
  - intros k. rewrite Hl. apply bool_decide_ext. rewrite !elem_of_cons. tauto.
  - intros k Hk. apply Hc. rewrite !elem_of_cons in *. tauto.
  - done.
  - intros _. by apply Hs.
  - apply NoDup_cons in Hnd as [Hni _]. constructor; [|apply NoDup_singleton].
    rewrite list_elem_of_singleton in *. congruence.
Qed.

Lemma wp_myTask F L Q s :
  holds L s → (length L < 100)%nat →
  (∀ s', relocked s s' → holds L s' → Q (cur_task s') s') → wp F myTask Q s.
Proof.
  intros Hh Hlen HQ. pose proof (holds_cpu_ok L s Hh Hlen) as Hc.
  apply wp_bind, wp_push_off; [done|]. apply wp_bind, wp_gets. cbn. apply wp_bind.
  unfold wp, on_cpu. cbn. destruct (pop_off_pushed (kcpu s) Hc) as (v & -> & Hn & Hs & _).
  apply (HQ (set_kcpu v s)); [by exists (locks s), v|]. destruct Hh. split; cbn; try done; try congruence.
  intros HL. rewrite Hs. auto.
Qed.

Lemma wp_tsk F i t Q s : tasks s !! i = Some t → Q t s → wp F (tsk i) Q s.
Proof. intros E HQ. unfold wp, tsk. by rewrite E. Qed.
Lemma wp_deref F i (Q : nat → ks W → Prop) s : Q i s → wp F (deref (Some i)) Q s.
Proof. done. Qed.

Lemma wp_in_world {A} F (c : M W A) (Q : A → ks W → Prop) s :
  wp F c (λ a w, Q a (set_world w s)) (world s) → wp F (in_world c) Q s.
Proof. unfold wp, in_world. by destruct (c (world s)) as [[a w]| |]. Qed.
Lemma holds_ext L s s' : locks s' = locks s → kcpu s' = kcpu s → holds L s → holds L s'.
Proof. intros E1 E2 [? ? ? ? ?]. split; rewrite ?E1, ?E2; done. Qed.

(** Only the tasks, the locks and the CPU differ. *)
Definition same_rest (s s' : ks W) : Prop :=
  vma_table s' = vma_table s ∧ sleeplocks s' = sleeplocks s ∧ cur_task s' = cur_task s ∧
  initTask s' = initTask s ∧ ticks s' = ticks s ∧ world s' = world s.
Lemma same_rest_refl s : same_rest s s.
Proof. done. Qed.
Lemma relocked_rest s s' : relocked s s' → tasks s' = tasks s ∧ same_rest s s'.
Proof. intros (? & ? & ? & ? & ? & ? & ?)%relocked_fields. done. Qed.
Lemma same_rest_trans s1 s2 s3 : same_rest s1 s2 → same_rest s2 s3 → same_rest s1 s3.
Proof.
  intros (? & ? & ? & ? & ? & ?) (? & ? & ? & ? & ? & ?). unfold same_rest. split_and!; congruence.
Qed.

Lemma wp_for_tasks F (f : nat → M (ks W) unit) (I : nat → ks W → Prop) n i s :
  I i s → (∀ j s, (i ≤ j < i + n)%nat → I j s → wp F (f j) (λ _, I (Datatypes.S j)) s) →
  wp F (for_tasks f i n) (λ _, I (i + n)%nat) s.
Proof.
  revert i s. induction n as [|n IH]; intros i s Hi Hf; cbn [for_tasks].
  { apply wp_ret. by rewrite Nat.add_0_r. }
  apply wp_bind. eapply wp_mono; [apply Hf; [lia|done]|]. intros [] s' Hs'.
  replace (i + Datatypes.S n)%nat with (Datatypes.S i + n)%nat by lia.
  apply IH; [done|]. intros j s'' Hj. apply Hf. lia.
Qed.

Definition wake (c : chan) (t : task) : task :=
  if decide (state t = SLEEPING ∧ tchan t = c) then set_state RUNNABLE t else t.

Lemma lookup_map_upto {A} (f : A → A) (l l' : list A) n :
  (∀ k, l' !! k = (λ t, if decide (k < n)%nat then f t else t) <$> l !! k) →
  (length l ≤ n)%nat → l' = f <$> l.
Proof.
  intros Hl Hn. apply list_eq. intros k. rewrite Hl, list_lookup_fmap.
  destruct (l !! k) as [t|] eqn:E; [|done]. cbn. apply lookup_lt_Some in E.
  by rewrite decide_True by lia.
Qed.

(** A loop that visits every task under its lock and rewrites it in place. *)
Lemma wp_map_tasks F (f : nat → M (ks W) unit) (g : task → task) L s :
  holds L s → length (tasks s) = NTASK →
  (∀ j s0 t, holds L s0 → tasks s0 !! j = Some t →
     wp F (f j) (λ _ s1, holds L s1 ∧ tasks s1 = alter g j (tasks s0) ∧ same_rest s0 s1) s0) →
  wp F (for_tasks f 0 NTASK) (λ _ s', holds L s' ∧ tasks s' = g <$> tasks s ∧ same_rest s s') s.
Proof.
  intros Hh Hlen Hf.
  eapply wp_mono; [apply (wp_for_tasks F f (λ j s', holds L s' ∧ same_rest s s' ∧
    ∀ k, tasks s' !! k = (λ t, if decide (k < j)%nat then g t else t) <$> tasks s !! k))|].
  - split_and!; [done|done|]. intros k. by destruct (tasks s !! k).
  - intros j s0 Hj (Hh0 & Hr0 & Ht0).
    destruct (lookup_lt_is_Some_2 (tasks s) j) as [t Ht]; [lia|].
    pose proof (Ht0 j) as Hj0. rewrite Ht in Hj0. cbn in Hj0. rewrite decide_False in Hj0 by lia.
    eapply wp_mono; [by eapply Hf|]. cbn. intros _ s1 (Hh1 & Ht1 & Hr1).
    split_and!; [done|by eapply same_rest_trans|]. intros k. rewrite Ht1.
    destruct (decide (k = j)) as [->|Hne].
    + rewrite list_lookup_alter_eq, Hj0, Ht. cbn. by rewrite decide_True by lia.
    + rewrite list_lookup_alter_ne, Ht0 by congruence. destruct (tasks s !! k); [|done]. cbn.
      destruct (decide (k < j)%nat), (decide (k < Datatypes.S j)%nat); (done || lia).
  - cbn. intros _ s' (Hh' & Hr' & Ht'). split_and!; [done| |done].
    eapply lookup_map_upto; [exact Ht'|]. rewrite Hlen. done.
Qed.

Lemma alter_id {A} (f : A → A) (l : list A) i t : l !! i = Some t → f t = t → alter f i l = l.
Proof.
  intros Hi Hf. apply list_eq. intros k. destruct (decide (k = i)) as [->|].
  - by rewrite list_lookup_alter_eq, Hi; cbn; rewrite Hf.
  - by rewrite list_lookup_alter_ne by congruence.
Qed.

Lemma alter_alter {A} (f g : A → A) (l : list A) i : alter f i (alter g i l) = alter (λ t, f (g t)) i l.
Proof.
  apply list_eq. intros k. destruct (decide (k = i)) as [->|].
  - rewrite !list_lookup_alter_eq. by destruct (l !! i).
  - by rewrite !list_lookup_alter_ne by congruence.
Qed.

Lemma alter_as_insert {A} (f : A → A) (l : list A) i t : l !! i = Some t → alter f i l = <[i := f t]> l.
Proof.
  intros Hi. apply list_eq. intros k. destruct (decide (k = i)) as [->|].
  - rewrite list_lookup_alter_eq, Hi, list_lookup_insert_eq; [done|]. by eapply lookup_lt_Some.
  - by rewrite list_lookup_alter_ne, list_lookup_insert_ne by congruence.
Qed.

Lemma alter_ext_at {A} (f g : A → A) (l : list A) i t : l !! i = Some t → f t = g t → alter f i l = alter g i l.
Proof.
  intros Hi Hf. apply list_eq. intros k. destruct (decide (k = i)) as [->|].
  - rewrite !list_lookup_alter_eq, Hi. cbn. by rewrite Hf.
  - by rewrite !list_lookup_alter_ne by congruence.
Qed.

Lemma wp_wakeup F c L s :
  holds L s → (length L < 90)%nat → (∀ i, LTask i ∉ L) → length (tasks s) = NTASK →
  wp F (wakeup c) (λ _ s', holds L s' ∧ tasks s' = wake c <$> tasks s ∧ same_rest s s') s.
Proof.
  intros Hh HL Hno Hlen. unfold wakeup.
  apply (wp_map_tasks F _ (wake c)); [done|done|]. intros j s0 t Hh0 Ht.
  apply wp_bind. eapply wp_lock; [done|apply Hno|lia|]. intros s1 R1 Hh1.
  apply relocked_rest in R1 as [E1 R1]. apply wp_bind, (wp_tsk _ _ t); [by rewrite E1|]. apply wp_bind.
  unfold wake. assert (∀ x, same_rest s0 (set_tasks x s1)) as Rx by (intros x; done || apply R1).
  destruct (decide (state t = SLEEPING ∧ tchan t = c)) as [Hd|Hd].
  - apply wp_modify. eapply (wp_unlock _ L); [by eapply holds_ext, Hh1|lia|]. intros s2 R2 Hh2.
    apply relocked_rest in R2 as [E2 R2]. split_and!; [done| |by eapply same_rest_trans].
    rewrite E2. cbn. rewrite E1. apply (alter_ext_at _ _ _ _ t); [done|]. by rewrite decide_True.
  - apply wp_ret. eapply (wp_unlock _ L); [done|lia|]. intros s2 R2 Hh2.
    apply relocked_rest in R2 as [E2 R2]. split_and!; [done| |by eapply same_rest_trans].
    rewrite E2, E1. symmetry. apply (alter_id _ _ _ t); [done|]. by rewrite decide_False.
Qed.

(** [prepareSched] and [sleep] by the running task [i]. *)
Lemma wp_prepareSched F k i t s (Q : unit → ks W → Prop) :
  holds [LTask i] s → cur_task s = Some i → tasks s !! i = Some t → state t ≠ RUNNING →
  (∀ s' ie, holds [] s' → tasks s' = alter (set_ctx (k ie)) i (tasks s) → cur_task s' = None →
     same_rest (set_cur_task None s) s' → Q tt s') →
  wp F (prepareSched k) Q s.
Proof.
  intros Hh Hc Ht Hst HQ. unfold prepareSched. apply wp_bind. eapply wp_myTask; [done|cbn; lia|].
  intros s1 R1 Hh1. apply relocked_rest in R1 as [E1 R1].
  assert (cur_task s1 = Some i) as -> by (destruct R1 as (_ & _ & -> & _); done).
  apply wp_bind, wp_deref. apply wp_bind, wp_gets.
  rewrite (holds_mine _ _ _ Hh1) by by left. cbn [negb]. apply wp_bind, wp_gets.
  rewrite (h_noff _ _ Hh1). cbn [length Z.eqb negb Z.of_nat]. cbn.
  apply wp_bind, (wp_tsk _ _ t); [by rewrite E1|]. rewrite decide_False by done.
  apply wp_bind. unfold wp at 1, on_cpu, Intr.intr_get, gets. cbn.
  rewrite (h_sie _ _ Hh1) by done. apply wp_bind, wp_gets, wp_bind, wp_modify, wp_bind, wp_modify.
  eapply (wp_unlock _ []); [by eapply holds_ext, Hh1|cbn; lia|]. intros s2 R2 Hh2.
  apply relocked_rest in R2 as [E2 R2]. apply (HQ s2 (intr_enable (kcpu s1))); [done| | |].
  - rewrite E2. cbn. by rewrite E1.
  - by destruct R2 as (_ & _ & -> & _).
  - destruct R1 as (? & ? & ? & ? & ? & ?), R2 as (? & ? & ? & ? & ? & ?).
    unfold same_rest. cbn in *. split_and!; congruence.
Qed.

Lemma wp_sleep F c lk who i t s (Q : unit → ks W → Prop) :
  holds [lk] s → lk = LTask i ∨ (∀ j, lk ≠ LTask j) →
  cur_task s = Some i → tasks s !! i = Some t →
  (∀ s' ie, holds [] s' →
     tasks s' = alter (λ t, set_ctx (KSleep ie lk who) (set_state SLEEPING (set_tchan c t))) i (tasks s) →
     cur_task s' = None → same_rest (set_cur_task None s) s' → Q tt s') →
  wp F (sleep c lk who) Q s.
Proof.
  intros Hh Hlk Hc Ht HQ. unfold sleep. apply wp_bind. eapply wp_myTask; [done|cbn; lia|].
  intros s1 R1 Hh1. apply relocked_rest in R1 as [E1 R1].
  assert (cur_task s1 = Some i) as Hc1 by (destruct R1 as (_ & _ & -> & _); done). rewrite Hc1.
  apply wp_bind, wp_deref.
  assert (∀ s2, holds [LTask i] s2 → tasks s2 = tasks s → same_rest s s2 → wp F
    (upd_task i (λ t, set_state SLEEPING (set_tchan c t));;
     prepareSched (λ ie, KSleep ie lk who)) Q s2) as Hgo.
  { intros s2 Hh2 E2 R2. apply wp_bind, wp_modify.
    eapply (wp_prepareSched _ _ i (set_state SLEEPING (set_tchan c t))); [by eapply holds_ext, Hh2|..].
    - cbn. by destruct R2 as (_ & _ & -> & _).
    - cbn. by rewrite E2, list_lookup_alter_eq, Ht.
    - done.
    - intros s3 ie Hh3 E3 Hc3 R3. apply (HQ s3 ie); [done| |done|].
      + rewrite E3. cbn. rewrite E2. by rewrite alter_alter.
      + destruct R2 as (? & ? & ? & ? & ? & ?), R3 as (? & ? & ? & ? & ? & ?).
        unfold same_rest. cbn in *. split_and!; congruence. }
  apply wp_bind. destruct (decide (lk ≠ LTask i)) as [Hne|He].
  - apply wp_bind. eapply wp_lock; [done| |cbn; lia|]; [rewrite list_elem_of_singleton; congruence|].
    intros s2 R2 Hh2. apply relocked_rest in R2 as [E2 R2].
    eapply (wp_unlock_2 _ lk (LTask i)); [done|].
    intros s3 R3 Hh3. apply relocked_rest in R3 as [E3 R3].
    apply Hgo; [done|congruence|]. by eapply same_rest_trans, same_rest_trans.
  - apply wp_ret. apply dec_stable in He as ->. by apply Hgo.
Qed.

(** ** The invariant of the task table *)

Definition lock_of (i : nat) (who : sleeper) : lockref :=
  match who with
  | InWait _ | InWait4 _ _ => LTask i
  | InSleepTime _ _ => LTimer
  | InSleepLock a => LSleep a
  end.
Definition chan_for (i : nat) (who : sleeper) : chan :=
  match who with
  | InWait _ | InWait4 _ _ => ChTask i
  | InSleepTime _ _ => ChTicks
  | InSleepLock a => ChSleep a
  end.
Definition who_ok (i : nat) (who : sleeper) : Prop :=
  match who with InWait4 p _ => 0 ≤ p < Z.of_nat NTASK ∧ Z.to_nat p ≠ i | _ => True end.

(** A saved context from which the task can go on. *)
Definition kont_ok (i : nat) (k : kont) : Prop :=
  match k with
  | KSleep _ lk who => lk = lock_of i who ∧ who_ok i who
  | KExit => False
  | _ => True
  end.

Record task_ok (cur : option nat) (i : nat) (t : task) : Prop := {
  to_running : state t = RUNNING ↔ cur = Some i;
  to_pid : pid t = Z.of_nat i;
  to_parent : ∀ j, parent t = Some j → (j < NTASK)%nat ∧ j ≠ i;
  to_runnable : state t = RUNNABLE → kont_ok i (ctx t);
  to_sleeping : state t = SLEEPING → kont_ok i (ctx t) ∧
    ∃ ie lk who, ctx t = KSleep ie lk who ∧ tchan t = chan_for i who;
  to_files : length (openFiles t) = NOFILE;
}.

Record tasks_ok (cur init : option nat) (ts : list task) : Prop := {
  ok_len : length ts = NTASK;
  ok_task : ∀ i t, ts !! i = Some t → task_ok cur i t;
  ok_cur : ∀ i, cur = Some i → (i < NTASK)%nat;
  ok_init : ∃ j t, init = Some j ∧ ts !! j = Some t ∧ state t ≠ UNUSED ∧ state t ≠ ZOMBIE ∧ parent t = None;
}.

(** The kernel outside its critical sections: no lock is held, the running
    task is the one of the CPU and no other. *)
Definition wf (s : ks W) : Prop :=
  holds [] s ∧ tasks_ok (cur_task s) (initTask s) (tasks s).

Lemma ok_lookup cur init ts i : tasks_ok cur init ts → (i < NTASK)%nat → ∃ t, ts !! i = Some t ∧ task_ok cur i t.
Proof.
  intros Ht Hi. destruct (lookup_lt_is_Some_2 ts i) as [t E]; [rewrite (ok_len _ _ _ Ht); done|].
  exists t. split; [done|]. by eapply ok_task.
Qed.

Lemma ok_current cur init ts i :
  tasks_ok cur init ts → cur = Some i → ∃ t, ts !! i = Some t ∧ task_ok cur i t ∧ state t = RUNNING.
Proof.
  intros Ht Hc. destruct (ok_lookup _ _ _ i Ht) as (t & E & Hok); [by eapply ok_cur|].
  exists t. split_and!; [done..|]. by apply (to_running _ _ _ Hok).
Qed.

(** Changing one task, and perhaps which one runs. *)
Lemma ok_alter cur cur' init ts i t f :
  tasks_ok cur init ts → ts !! i = Some t → task_ok cur' i (f t) →
  (∀ k, k ≠ i → cur' = Some k ↔ cur = Some k) →
  (init = Some i → state (f t) ≠ UNUSED ∧ state (f t) ≠ ZOMBIE ∧ parent (f t) = None) →
  tasks_ok cur' init (alter f i ts).
Proof.
  intros Ht Hi Hf Hc Hini. split.
  - rewrite length_alter. apply Ht.
  - intros k t'. destruct (decide (k = i)) as [->|Hne].
    + rewrite list_lookup_alter_eq, Hi. by intros [= <-].
    + rewrite list_lookup_alter_ne by done. intros [Hr ? ? ? ? ?]%(ok_task _ _ _ Ht).
      split; try done. rewrite Hr. symmetry. by apply Hc.
  - intros k Hk. destruct (decide (k = i)) as [->|Hne].
    + apply lookup_lt_Some in Hi. by rewrite (ok_len _ _ _ Ht) in Hi.
    + apply (ok_cur _ _ _ Ht). by apply Hc.
  - destruct (ok_init _ _ _ Ht) as (j & tj & Hj & Htj & Hst). destruct (decide (j = i)) as [->|Hne].
    + destruct (Hini Hj) as (? & ? & ?). exists i, (f t). by rewrite list_lookup_alter_eq, Hi.
    + exists j, tj. rewrite list_lookup_alter_ne by done. done.
Qed.

Lemma task_ok_wake c cur i t : task_ok cur i t → task_ok cur i (wake c t).
Proof.
  intros Ht. unfold wake. destruct (decide _) as [[Hs _]|]; [|done].
  destruct Ht as [Hr ? ? Hrun Hsl ?]. split; cbn; try done.
  - split; [done|]. intros E%Hr. congruence.
  - intros _. by apply Hsl.
Qed.

Lemma ok_wake c cur init ts : tasks_ok cur init ts → tasks_ok cur init (wake c <$> ts).
Proof.
  intros Ht. split.
  - rewrite length_fmap. apply Ht.
  - intros i t. rewrite list_lookup_fmap. destruct (ts !! i) as [t'|] eqn:E; [|done].
    intros [= <-]. apply task_ok_wake. by eapply ok_task.
  - apply Ht.
  - destruct (ok_init _ _ _ Ht) as (j & t & Hj & Htj & H1 & H2 & H3).
    exists j, (wake c t). rewrite list_lookup_fmap, Htj. cbn.
    split_and!; [done|done|..]; unfold wake; by destruct (decide _).
Qed.

(** The running task [i] goes to sleep in [who]. *)
Lemma ok_sleep cur init ts i t ie who :
  tasks_ok cur init ts → cur = Some i → ts !! i = Some t → who_ok i who →
  tasks_ok None init (alter (λ t, set_ctx (KSleep ie (lock_of i who) who)
    (set_state SLEEPING (set_tchan (chan_for i who) t))) i ts).
Proof.
  intros Ht Hc Hi Hw. destruct (ok_task _ _ _ Ht i t Hi) as [Hr ? ? ? ? ?].
  eapply ok_alter; [done|done| | |].
  - split; cbn; try done. intros _. split; [done|]. by exists ie, (lock_of i who), who.
  - intros k Hk. rewrite Hc. split; congruence.
  - intros Hini. cbn. destruct (ok_init _ _ _ Ht) as (j & tj & Hj & Htj & ? & ? & ?).
    split_and!; [done..|]. congruence.
Qed.

(** ** Waiting *)
Context (fuel : nat) (xstate_at : nat → Z).

(** What [freeTask] leaves of a task. *)
Definition freed (t : task) : task :=
  set_parent None (set_state UNUSED (set_xstate 0 (set_killed 0 (set_tchan NoChan
    (set_name (<[O := 0]> (name t)) (set_sz 0 (set_pagetable 0
    (set_tvma (replicate NOMMAPFILE None) (set_trapframe 0 t))))))))).

(** The part of reaping the child [ch] that works on the world: copying the
    status out, and then freeing trap frame and page table. *)
Definition free_mem (ch : task) : M W unit :=
  (if negb (trapframe ch =? 0) then pg_free (trapframe ch) else mret tt);;
  (if negb (pagetable ch =? 0) then FreeTaskPagetable fuel (pagetable ch) (u64 (sz ch)) else mret tt).
Definition reap_world (pgt vaddr : Z) (c : nat) (ch : task) : M W bool :=
  r ← (if negb (vaddr =? 0) then
         modify (λ w, pg_set_mem (st32 (pg_mem w) (xstate_at c) (u32 (xstate ch))) w);;
         copyout fuel pgt vaddr (xstate_at c) 4
       else mret 0);
  if r <? 0 then mret false else free_mem ch;; mret true.

Lemma wp_freeTask F c ch s (Q : unit → ks W → Prop) :
  tasks s !! c = Some ch →
  wp F (free_mem ch) (λ _ w, Q tt (set_world w (set_tasks (alter freed c (tasks s)) s))) (world s) →
  wp F (freeTask fuel c) Q s.
Proof.
  intros Hc HQ. unfold freeTask. apply wp_bind, (wp_tsk _ _ ch); [done|]. apply wp_bind.
  unfold free_mem in HQ. revert HQ. unfold wp at 1 2. unfold mbind at 1, M_bind at 1.
  assert (∀ w', wp F (if negb (pagetable ch =? 0) then FreeTaskPagetable fuel (pagetable ch) (u64 (sz ch))
      else mret tt) (λ _ w, Q tt (set_world w (set_tasks (alter freed c (tasks s)) s))) w' →
    wp F (upd_task c (set_trapframe 0);;
      (if negb (pagetable ch =? 0) then in_world (FreeTaskPagetable fuel (pagetable ch) (u64 (sz ch)))
       else mret tt);;
      upd_task c (λ t, set_parent None (set_state UNUSED (set_xstate 0 (set_killed 0 (set_tchan NoChan
        (set_name (<[O := 0]> (name t)) (set_sz 0 (set_pagetable 0
        (set_tvma (replicate NOMMAPFILE None) t)))))))))) Q (set_world w' s)) as Hrest.
  { intros w' HQ. apply wp_bind, wp_modify, wp_bind.
    assert (∀ w, Q tt (set_world w (set_tasks (alter freed c (tasks s)) s)) →
      wp F (upd_task c (λ t, set_parent None (set_state UNUSED (set_xstate 0 (set_killed 0 (set_tchan NoChan
        (set_name (<[O := 0]> (name t)) (set_sz 0 (set_pagetable 0
        (set_tvma (replicate NOMMAPFILE None) t))))))))))  Q
        (set_world w (set_tasks (alter (set_trapframe 0) c (tasks s)) s))) as Hlast.
    { intros w Hw. apply wp_modify. cbn. rewrite alter_alter. exact Hw. }
    destruct (negb (pagetable ch =? 0)).
    - apply wp_in_world. eapply wp_mono; [exact HQ|]. intros [] w Hw. by apply Hlast.
    - apply wp_ret. by apply Hlast. }
  destruct (negb (trapframe ch =? 0)).
  - unfold in_world. destruct (pg_free (trapframe ch) (world s)) as [[[] w']| |]; [|done|done].
    intros HQ. apply Hrest. exact HQ.
  - intros HQ. specialize (Hrest (world s)). destruct s. by apply Hrest.
Qed.

Lemma wp_unlock_both {A} F c i (k : M (ks W) A) (Q : A → ks W → Prop) s :
  holds [LTask c; LTask i] s →
  (∀ s', holds [] s' → tasks s' = tasks s → same_rest s s' → wp F k Q s') →
  wp F (unlock (LTask c);; unlock (LTask i);; k) Q s.
Proof.
  intros Hh HQ. apply wp_bind. eapply wp_unlock; [done|cbn; lia|].
  intros s1 R1 Hh1. apply relocked_rest in R1 as [E1 R1]. apply wp_bind.
  eapply wp_unlock; [done|cbn; lia|]. intros s2 R2 Hh2. apply relocked_rest in R2 as [E2 R2].
  apply HQ; [done|congruence|]. by eapply same_rest_trans.
Qed.

Lemma wp_reap {A} F i c t ch vaddr (x y : A) s (Q : A → ks W → Prop) :
  holds [LTask c; LTask i] s → tasks s !! i = Some t → tasks s !! c = Some ch →
  wp F (reap_world (pagetable t) vaddr c ch) (λ b w, ∀ s', holds [] s' →
     tasks s' = (if (b : bool) then alter freed c (tasks s) else tasks s) →
     same_rest (set_world w s) s' → Q (if b then y else x) s') (world s) →
  wp F (t ← tsk i;
        r ← (if negb (vaddr =? 0) then copyout_xstate fuel xstate_at (pagetable t) vaddr c else mret 0);
        if r <? 0 then unlock (LTask c);; unlock (LTask i);; mret x
        else freeTask fuel c;; unlock (LTask c);; unlock (LTask i);; mret y) Q s.
Proof.
  intros Hh Hi Hc HQ. apply wp_bind, (wp_tsk _ _ t); [done|].
  apply wp_bind_inv in HQ. apply wp_bind.
  assert (∀ r w, wp F (if r <? 0 then mret false else free_mem ch;; mret true)
     (λ b w, ∀ s', holds [] s' →
       tasks s' = (if (b : bool) then alter freed c (tasks s) else tasks s) →
       same_rest (set_world w s) s' → Q (if b then y else x) s') w →
     wp F (if r <? 0 then unlock (LTask c);; unlock (LTask i);; mret x
        else freeTask fuel c;; unlock (LTask c);; unlock (LTask i);; mret y) Q (set_world w s)) as Hr.
  { intros r w. destruct (r <? 0).
    - intros Hq. apply wp_unlock_both; [by eapply holds_ext, Hh|]. intros s' Hh' E R. by apply wp_ret, Hq.
    - intros Hq. apply wp_bind_inv in Hq. apply wp_bind, (wp_freeTask _ _ ch); [done|].
      eapply wp_mono; [exact Hq|]. intros [] w' Hq'.
      apply wp_unlock_both; [by eapply holds_ext, Hh|]. intros s' Hh' E R. by apply wp_ret, Hq'. }
  destruct (negb (vaddr =? 0)).
  - unfold copyout_xstate. apply wp_bind, (wp_tsk _ _ ch); [done|]. apply wp_in_world.
    eapply wp_mono; [exact HQ|]. intros r w. apply Hr.
  - apply wp_ret. specialize (Hr 0 (world s)). destruct s. by apply Hr.
Qed.

(** The first zombie child of [i] among the tasks from [c] on. *)
Definition zombie_child (ts : list task) (i c : nat) : Prop :=
  ∃ ch, ts !! c = Some ch ∧ parent ch = Some i ∧ state ch = ZOMBIE.
Definition child_of (ts : list task) (i c : nat) : Prop :=
  ∃ ch, ts !! c = Some ch ∧ parent ch = Some i.

Lemma wp_wait_scan F i vaddr n c have s (Q : Z + bool → ks W → Prop) cur init :
  holds [LTask i] s → tasks_ok cur init (tasks s) → (c + n ≤ NTASK)%nat →
  (∀ s' have', holds [LTask i] s' → tasks s' = tasks s → same_rest s s' →
     (∀ k, (c ≤ k < c + n)%nat → ¬ zombie_child (tasks s) i k) →
     (have' = true ↔ have = true ∨ ∃ k, (c ≤ k < c + n)%nat ∧ child_of (tasks s) i k) →
     Q (inr have') s') →
  (∀ s' z ch t, holds [LTask z; LTask i] s' → tasks s' = tasks s → same_rest s s' →
     (c ≤ z < c + n)%nat → (∀ k, (c ≤ k < z)%nat → ¬ zombie_child (tasks s) i k) →
     tasks s !! z = Some ch → parent ch = Some i → state ch = ZOMBIE → tasks s !! i = Some t →
     wp F (reap_world (pagetable t) vaddr z ch) (λ b w, ∀ s2, holds [] s2 →
       tasks s2 = (if (b : bool) then alter freed z (tasks s) else tasks s) →
       same_rest (set_world w s) s2 → Q (inl (if b then pid ch else -1)) s2) (world s)) →
  wp F (wait_scan fuel xstate_at i vaddr c n have) Q s.
Proof.
  intros Hh Ht. revert c have s Hh Ht. induction n as [|n IH]; intros c have s Hh Ht Hn Hnone Hz.
  { apply wp_ret, Hnone; try done; [intros; lia|]. split; [auto|]. intros [?|(k & ? & _)]; [done|lia]. }
  destruct (ok_lookup _ _ _ c Ht ltac:(lia)) as (ch & Hch & Hchok).
  cbn [wait_scan]. apply wp_bind, (wp_tsk _ _ ch); [done|].
  (* the rest of the scan, when [c] is not a zombie child *)
  assert (¬ zombie_child (tasks s) i c → ∀ s1 have1, holds [LTask i] s1 → tasks s1 = tasks s →
    same_rest s s1 → (have1 = true ↔ have = true ∨ child_of (tasks s) i c) →
    wp F (wait_scan fuel xstate_at i vaddr (Datatypes.S c) n have1) Q s1) as Hrest.
  { intros Hcz s1 have1 Hh1 E1 R1 Hhave. apply IH; [done|by rewrite E1|lia|..]; rewrite ?E1.
    - intros s2 have2 Hh2 E2 R2 Hno Hhave2. apply Hnone; try done.
      + by eapply same_rest_trans.
      + intros k Hk. destruct (decide (k = c)) as [->|]; [done|]. apply Hno. lia.
      + rewrite Hhave2, Hhave. split.
        * intros [[?|?]|(k & ? & ?)]; [by left|right; exists c; split; [lia|done]|].
          right. exists k. split; [lia|done].
        * intros [?|(k & Hk & ?)]; [auto|]. destruct (decide (k = c)) as [->|]; [auto|].
          right. exists k. split; [lia|done].
    - intros s2 z zt t Hh2 E2 R2 Hzr Hfirst Hzt Hp Hst Hi.
      assert (world s1 = world s) as -> by apply R1.
      eapply wp_mono; [eapply (Hz s2 z zt t); try done; [by eapply same_rest_trans|lia|]|].
      + intros k Hk. destruct (decide (k = c)) as [->|]; [done|]. apply Hfirst. lia.
      + cbn. intros b w Hq s3 Hh3 E3 R3. apply Hq; [done|done|].
        destruct R1 as (? & ? & ? & ? & ? & ?), R3 as (? & ? & ? & ? & ? & ?).
        unfold same_rest. cbn in *. split_and!; congruence. }
  destruct (decide (parent ch = Some i)) as [Hp|Hp].
  - apply wp_bind. destruct (to_parent _ _ _ Hchok i Hp) as [_ Hci].
    eapply wp_lock; [done|rewrite list_elem_of_singleton; congruence|cbn; lia|].
    intros s1 R1 Hh1. apply relocked_rest in R1 as [E1 R1].
    apply wp_bind, (wp_tsk _ _ ch); [by rewrite E1|].
    destruct (decide (state ch = ZOMBIE)) as [Hst|Hst].
    + assert (∃ t, tasks s !! i = Some t) as [t Hi].
      { destruct (lookup_lt_is_Some_2 (tasks s) i) as [t ?]; [|eauto].
        rewrite (ok_len _ _ _ Ht). by apply (to_parent _ _ _ Hchok). }
      eapply wp_reap; [done|by rewrite E1|by rewrite E1|].
      assert (world s1 = world s) as -> by apply R1. rewrite E1.
      eapply wp_mono; [eapply (Hz s1 c ch t); try done; [lia|intros; lia]|].
      cbn. intros b w Hq s3 Hh3 E3 R3.
      assert (Q (inl (if b then pid ch else -1)) s3) as Hq'; [|by destruct b].
      apply Hq; [done|done|].
      destruct R1 as (? & ? & ? & ? & ? & ?), R3 as (? & ? & ? & ? & ? & ?).
      unfold same_rest. cbn in *. split_and!; congruence.
    + apply wp_bind. eapply wp_unlock; [done|cbn; lia|].
      intros s2 R2 Hh2. apply relocked_rest in R2 as [E2 R2].
      apply Hrest; [|done|congruence|by eapply same_rest_trans|].
      * intros (ch' & Hch' & _ & ?). congruence.
      * split; [|done]. intros _. right. by exists ch.
  - apply Hrest; try done.
    + intros (ch' & Hch' & ? & _). congruence.
    + split; [auto|]. intros [?|(ch' & Hch' & ?)]; [done|congruence].
Qed.

Lemma wp_wait_loop F i vaddr s (Q : option Z → ks W → Prop) :
  holds [LTask i] s → tasks_ok (cur_task s) (initTask s) (tasks s) → cur_task s = Some i →
  (∀ s', holds [] s' → tasks s' = tasks s → same_rest s s' →
     (∀ k, ¬ child_of (tasks s) i k) → Q (Some (-1)) s') →
  (∀ s' ie, holds [] s' →
     tasks s' = alter (λ t, set_ctx (KSleep ie (LTask i) (InWait vaddr))
       (set_state SLEEPING (set_tchan (ChTask i) t))) i (tasks s) →
     cur_task s' = None → same_rest (set_cur_task None s) s' →
     (∃ k, child_of (tasks s) i k) → (∀ k, ¬ zombie_child (tasks s) i k) → Q None s') →
  (∀ z ch t, zombie_child (tasks s) i z → (∀ k, (k < z)%nat → ¬ zombie_child (tasks s) i k) →
     tasks s !! z = Some ch → parent ch = Some i → state ch = ZOMBIE → tasks s !! i = Some t →
     wp F (reap_world (pagetable t) vaddr z ch) (λ b w, ∀ s', holds [] s' →
       tasks s' = (if (b : bool) then alter freed z (tasks s) else tasks s) →
       same_rest (set_world w s) s' → Q (Some (if b then pid ch else -1)) s') (world s)) →
  wp F (wait_loop fuel xstate_at i vaddr) Q s.
Proof.
  intros Hh Ht Hc Hno Hsl Hz. unfold wait_loop. apply wp_bind.
  assert (∀ k, child_of (tasks s) i k → (k < NTASK)%nat) as Hlt.
  { intros k (ch & Hk & _). apply lookup_lt_Some in Hk. by rewrite (ok_len _ _ _ Ht) in Hk. }
  assert (∀ k, zombie_child (tasks s) i k → (k < NTASK)%nat) as Hltz.
  { intros k (ch & Hk & Hp & _). apply Hlt. by exists ch. }
  destruct (ok_current _ _ _ i Ht Hc) as (t & Hi & Htok & Hst).
  eapply (wp_wait_scan F i vaddr NTASK 0); [done|done|lia|..].
  - intros s' have' Hh' E R Hnz Hhave. destruct have'; cbn.
    + apply wp_bind. eapply (wp_sleep F _ (LTask i) _ i t); [done|by left| |by rewrite E|].
      { by destruct R as (_ & _ & -> & _). }
      intros s2 ie Hh2 E2 Hc2 R2. apply wp_ret. apply (Hsl s2 ie); try done.
      * by rewrite E2, E.
      * destruct R as (? & ? & ? & ? & ? & ?), R2 as (? & ? & ? & ? & ? & ?).
        unfold same_rest. cbn in *. split_and!; congruence.
      * destruct (proj1 Hhave eq_refl) as [?|(k & _ & ?)]; [done|eauto].
      * intros k Hk. apply (Hnz k); [|done]. pose proof (Hltz k Hk). lia.
    + apply wp_bind. eapply wp_unlock; [done|cbn; lia|].
      intros s2 R2 Hh2. apply relocked_rest in R2 as [E2 R2]. apply wp_ret, Hno; [done|congruence| |].
      * by eapply same_rest_trans.
      * intros k Hk. assert (false = true); [|done]. apply Hhave. right. exists k. split; [|done].
        pose proof (Hlt k Hk). lia.
  - intros s' z ch t' Hh' E R Hzr Hfirst Hzt Hp Hzs Hi'.
    eapply wp_mono; [eapply (Hz z ch t'); try done|].
    + by exists ch.
    + intros k Hk. apply Hfirst. lia.
    + cbn. intros b w Hq s3 Hh3 E3 R3. apply wp_ret, Hq; done.
Qed.

Lemma wp_enter_task {A} F i (c : nat → M (ks W) A) s (Q : A → ks W → Prop) :
  wf s → cur_task s = Some i →
  (∀ s', holds [LTask i] s' → tasks s' = tasks s → same_rest s s' → wp F (c i) Q s') →
  wp F (p ← myTask; i ← deref p; lock (LTask i);; c i) Q s.
Proof.
  intros [Hh Ht] Hc HQ. apply wp_bind. eapply wp_myTask; [done|cbn; lia|].
  intros s1 R1 Hh1. apply relocked_rest in R1 as [E1 R1].
  assert (cur_task s1 = Some i) as -> by (destruct R1 as (_ & _ & -> & _); done).
  apply wp_bind, wp_deref, wp_bind. eapply wp_lock; [done|by apply not_elem_of_nil|cbn; lia|].
  intros s2 R2 Hh2. apply relocked_rest in R2 as [E2 R2]. apply HQ; [done|congruence|].
  by eapply same_rest_trans.
Qed.

(** Reaping a zombie keeps the invariant. *)
Lemma ok_freed cur init ts z ch :
  tasks_ok cur init ts → ts !! z = Some ch → state ch = ZOMBIE → tasks_ok cur init (alter freed z ts).
Proof.
  intros Ht Hz Hst. destruct (ok_task _ _ _ Ht z ch Hz) as [Hr ? ? ? ? ?].
  eapply ok_alter; [done|done| |done|].
  - split; cbn; try done. split; [done|]. intros E%Hr. congruence.
  - intros Hini. destruct (ok_init _ _ _ Ht) as (j & tj & Hj & Htj & ? & ? & ?). congruence.
Qed.

Lemma wf_same_rest s s' :
  wf s → holds [] s' → tasks s' = tasks s → same_rest s s' → wf s'.
Proof. intros [_ Ht] Hh E (_ & _ & Hc & Hi & _ & _). split; [done|]. by rewrite E, Hc, Hi. Qed.

(** ** The operations keep the invariant *)

Lemma wp_wait_loop_wf F i vaddr s :
  F → holds [LTask i] s → tasks_ok (cur_task s) (initTask s) (tasks s) → cur_task s = Some i →
  wp F (wait_loop fuel xstate_at i vaddr) (λ _, wf) s.
Proof.
  intros HF Hh Ht Hc. destruct (ok_current _ _ _ i Ht Hc) as (t & Hi & _).
  apply wp_wait_loop; try done.
  - intros s' Hh' E (_ & _ & Hc' & Hi' & _) _. split; [done|]. by rewrite E, Hc', Hi'.
  - intros s' ie Hh' E Hc' (_ & _ & _ & Hi' & _) _ _. split; [done|]. rewrite E, Hc', Hi'.
    by apply (ok_sleep (cur_task s) _ _ i t ie (InWait vaddr)).
  - intros z ch t' _ _ Hz _ Hzs _. unfold wp. destruct (reap_world _ _ _ _ _) as [[b w]| |]; [|done|done].
    intros s' Hh' E (_ & _ & Hc' & Hi' & _). split; [done|]. rewrite Hc', Hi', E.
    destruct b; [by eapply ok_freed|done].
Qed.

Lemma ok_xstate cur init ts c ch x :
  tasks_ok cur init ts → ts !! c = Some ch → tasks_ok cur init (alter (λ t, set_xstate (x t) t) c ts).
Proof.
  intros Ht Hc. destruct (ok_task _ _ _ Ht c ch Hc) as [Hr ? ? ? ? ?].
  eapply ok_alter; [done|done|by split|done|]. intros Hini.
  destruct (ok_init _ _ _ Ht) as (j & tj & Hj & Htj & ? & ? & ?). cbn.
  assert (tj = ch) as -> by congruence. done.
Qed.

Lemma wp_wait4_loop_wf F i p vaddr s :
  F → holds [LTask i] s → tasks_ok (cur_task s) (initTask s) (tasks s) → cur_task s = Some i →
  who_ok i (InWait4 p vaddr) →
  wp F (wait4_loop fuel xstate_at i p vaddr) (λ _, wf) s.
Proof.
  intros HF Hh Ht Hc [Hp Hpi]. destruct (ok_current _ _ _ i Ht Hc) as (t & Hi & _).
  unfold wait4_loop. set (c := Z.to_nat p) in *.
  destruct (ok_lookup _ _ _ c Ht) as (ch & Hch & _); [subst c; unfold NTASK in *; lia|].
  apply wp_bind. eapply wp_lock; [done|rewrite list_elem_of_singleton; congruence|cbn; lia|].
  intros s1 R1 Hh1. apply relocked_rest in R1 as [E1 (_ & _ & C1 & I1 & _)].
  apply wp_bind, wp_modify. cbv beta.
  set (ch' := set_xstate (i32 (Z.shiftl (xstate ch) 8)) ch).
  set (s1' := set_tasks _ s1).
  assert (tasks s1' !! c = Some ch') as Hch'.
  { subst s1'. cbn. by rewrite E1, list_lookup_alter_eq, Hch. }
  assert (tasks s1' !! i = Some t) as Hi'.
  { subst s1'. cbn. by rewrite E1, list_lookup_alter_ne by congruence. }
  assert (holds [LTask c; LTask i] s1') as Hh1' by by eapply holds_ext, Hh1.
  assert (tasks_ok (cur_task s1') (initTask s1') (tasks s1')) as Ht'.
  { subst s1'. cbn. rewrite C1, I1, E1.
    by apply (ok_xstate _ _ _ c ch (λ t, i32 (Z.shiftl (xstate t) 8))). }
  apply wp_bind, (wp_tsk _ _ ch'); [done|].
  destruct (decide (state ch' = ZOMBIE)) as [Hz|Hz].
  - eapply wp_reap; [done|done|exact Hch'|].
    unfold wp. destruct (reap_world _ _ _ _ _) as [[b w]| |]; [|done|done].
    intros s' Hh' E (_ & _ & Hc' & Ii' & _). split; [done|]. rewrite Hc', Ii', E.
    destruct b; [by eapply ok_freed|done].
  - apply wp_bind. eapply wp_unlock; [done|cbn; lia|].
    intros s2 R2 Hh2. apply relocked_rest in R2 as [E2 (_ & _ & C2 & I2 & _)]. apply wp_bind.
    eapply (wp_sleep F _ (LTask i) _ i t); [done|by left| |by rewrite E2|].
    { rewrite C2. subst s1'. cbn. congruence. }
    intros s3 ie Hh3 E3 C3 (_ & _ & _ & I3 & _). apply wp_ret. split; [done|].
    rewrite C3, I3, E3, E2. cbn. rewrite I2.
    apply (ok_sleep (cur_task s1') _ _ i t ie (InWait4 p vaddr)); try done.
    subst s1'. cbn. congruence.
Qed.

Lemma wp_sleepTime_loop_wf F i now n s :
  holds [LTimer] s → tasks_ok (cur_task s) (initTask s) (tasks s) → cur_task s = Some i →
  wp F (sleepTime_loop now n) (λ _, wf) s.
Proof.
  intros Hh Ht Hc. destruct (ok_current _ _ _ i Ht Hc) as (t & Hi & _).
  unfold sleepTime_loop. apply wp_bind, wp_gets. destruct (_ <? n); apply wp_bind.
  - eapply (wp_sleep F _ LTimer _ i t); [done|by right|done|done|].
    intros s3 ie Hh3 E3 C3 (_ & _ & _ & I3 & _). apply wp_ret. split; [done|].
    rewrite C3, I3, E3. by apply (ok_sleep (cur_task s) _ _ i t ie (InSleepTime now n)).
  - eapply wp_unlock; [done|cbn; lia|].
    intros s2 R2 Hh2. apply relocked_rest in R2 as [E2 (_ & _ & C2 & I2 & _)]. apply wp_ret.
    split; [done|]. by rewrite C2, I2, E2.
Qed.

Lemma wp_SleepLock_loop_wf F i a s :
  holds [LSleep a] s → tasks_ok (cur_task s) (initTask s) (tasks s) → cur_task s = Some i →
  wp F (SleepLock_loop a) (λ _, wf) s.
Proof.
  intros Hh Ht Hc. destruct (ok_current _ _ _ i Ht Hc) as (t & Hi & _).
  unfold SleepLock_loop. apply wp_bind, wp_gets. destruct (negb _); apply wp_bind.
  - eapply (wp_sleep F _ (LSleep a) _ i t); [done|by right|done|done|].
    intros s3 ie Hh3 E3 C3 (_ & _ & _ & I3 & _). apply wp_ret. split; [done|].
    rewrite C3, I3, E3. by apply (ok_sleep (cur_task s) _ _ i t ie (InSleepLock a)).
  - eapply wp_myTask; [done|cbn; lia|]. intros s1 R1 Hh1.
    apply relocked_rest in R1 as [E1 (_ & _ & C1 & I1 & _)]. rewrite C1, Hc.
    apply wp_bind, wp_deref, wp_bind, (wp_tsk _ _ t); [by rewrite E1|].
    apply wp_bind, wp_modify, wp_bind. eapply wp_unlock; [by eapply holds_ext, Hh1|cbn; lia|].
    intros s2 R2 Hh2. apply relocked_rest in R2 as [E2 (_ & _ & C2 & I2 & _)]. apply wp_ret.
    split; [done|]. rewrite C2, I2, E2. cbn. by rewrite C1, I1, E1.
Qed.

Lemma ok_tchan cur init ts i t c :
  tasks_ok cur init ts → ts !! i = Some t → state t = RUNNING →
  tasks_ok cur init (alter (set_tchan c) i ts).
Proof.
  intros Ht Hi Hst. destruct (ok_task _ _ _ Ht i t Hi) as [Hr ? ? ? ? ?].
  eapply ok_alter; [done|done| |done|].
  - split; cbn; try done. congruence.
  - intros Hini. destruct (ok_init _ _ _ Ht) as (j & tj & Hj & Htj & ? & ? & ?).
    assert (tj = t) as -> by congruence. done.
Qed.

(** Whether a saved context goes on with an operation of the world. *)
Definition resumes_world (k : kont) : Prop :=
  match k with KSleep _ _ (InWait _ | InWait4 _ _) => True | _ => False end.

Lemma wp_resume_wf (F : Prop) i t s :
  (resumes_world (ctx t) → F) →
  holds [LTask i] s → tasks_ok (cur_task s) (initTask s) (tasks s) → cur_task s = Some i →
  tasks s !! i = Some t → state t = RUNNING → kont_ok i (ctx t) →
  wp F (resume fuel xstate_at i (ctx t)) (λ _, wf) s.
Proof.
  intros HF Hh Ht Hc Hi Hst Hk.
  assert (∀ s1, holds [LTask i] s1 → tasks s1 = tasks s → cur_task s1 = cur_task s →
    initTask s1 = initTask s → wp F (unlock (LTask i)) (λ _, wf) s1) as Hun.
  { intros s1 Hh1 E1 C1 I1. eapply wp_unlock; [done|cbn; lia|].
    intros s2 R2 Hh2. apply relocked_rest in R2 as [E2 (_ & _ & C2 & I2 & _)].
    split; [done|]. by rewrite C2, I2, E2, C1, I1, E1. }
  assert (∀ ie, holds [LTask i] (set_kcpu (Cpu (noff (kcpu s)) ie (sie (kcpu s))) s)) as Hie.
  { intros ie. by destruct Hh. }
  destruct (ctx t) as [|ie|ie lk who|]; cbn [resume].
  - by apply Hun.
  - apply wp_bind, wp_on_cpu_modify. apply Hun; [apply Hie|reflexivity..].
  - apply wp_bind, wp_on_cpu_modify.
    set (s1 := set_kcpu _ s). destruct Hk as [-> Hwho].
    set (s2 := set_tasks (alter (set_tchan NoChan) i (tasks s1)) s1).
    assert (tasks_ok (cur_task s2) (initTask s2) (tasks s2)) as Ht2 by (by eapply ok_tchan).
    assert (holds [LTask i] s2) as Hh2 by (by eapply holds_ext, (Hie ie)).
    apply wp_bind. unfold wake_up_in. apply wp_bind, wp_modify. fold s2.
    destruct who as [v|p v|now n|a]; cbn [lock_of].
    + rewrite decide_False by (intros Hne; by apply Hne). apply wp_ret, wp_bind.
      eapply wp_mono; [apply (wp_wait_loop_wf F); try done; by apply HF|]. intros r s3 H3. by apply wp_ret.
    + rewrite decide_False by (intros Hne; by apply Hne). apply wp_ret, wp_bind.
      eapply wp_mono; [apply (wp_wait4_loop_wf F); try done; by apply HF|]. intros r s3 H3. by apply wp_ret.
    + rewrite decide_True by done. apply wp_bind. eapply wp_unlock; [done|cbn; lia|].
      intros s3 R3 Hh3. apply relocked_rest in R3 as [E3 (_ & _ & C3 & I3 & _)].
      eapply wp_lock; [done|by apply not_elem_of_nil|cbn; lia|].
      intros s4 R4 Hh4. apply relocked_rest in R4 as [E4 (_ & _ & C4 & I4 & _)]. apply wp_bind.
      eapply wp_mono; [apply (wp_sleepTime_loop_wf F i)|]; [done| | |by intros r s5 H5; apply wp_ret].
      * by rewrite C4, I4, E4, C3, I3, E3.
      * rewrite C4, C3. done.
    + rewrite decide_True by done. apply wp_bind. eapply wp_unlock; [done|cbn; lia|].
      intros s3 R3 Hh3. apply relocked_rest in R3 as [E3 (_ & _ & C3 & I3 & _)].
      eapply wp_lock; [done|by apply not_elem_of_nil|cbn; lia|].
      intros s4 R4 Hh4. apply relocked_rest in R4 as [E4 (_ & _ & C4 & I4 & _)]. apply wp_bind.
      eapply wp_mono; [apply (wp_SleepLock_loop_wf F i)|]; [done| | |by intros r s5 H5; apply wp_ret].
      * by rewrite C4, I4, E4, C3, I3, E3.
      * rewrite C4, C3. done.
  - done.
Qed.

(** Preparing a step: the first lock taken outside the critical sections. *)
Lemma wp_lock_wf {A} F l (c : M (ks W) A) s (Q : A → ks W → Prop) :
  holds [] s → (∀ s', holds [l] s' → tasks s' = tasks s → same_rest s s' → wp F c Q s') →
  wp F (lock l;; c) Q s.
Proof.
  intros Hh HQ. apply wp_bind. eapply wp_lock; [done|by apply not_elem_of_nil|cbn; lia|].
  intros s2 R2 Hh2. apply relocked_rest in R2 as [E2 R2]. by apply HQ.
Qed.
Lemma wp_unlock_wf F l s :
  holds [l] s → tasks_ok (cur_task s) (initTask s) (tasks s) → wp F (unlock l) (λ _, wf) s.
Proof.
  intros Hh Ht. eapply wp_unlock; [done|cbn; lia|].
  intros s2 R2 Hh2. apply relocked_rest in R2 as [E2 (_ & _ & C2 & I2 & _)]. split; [done|].
  by rewrite C2, I2, E2.
Qed.

Lemma wp_yield_wf F i s : wf s → cur_task s = Some i → wp F yield (λ _, wf) s.
Proof.
  intros Hwf Hc. destruct Hwf as [Hh Ht] eqn:Hd. clear Hd.
  destruct (ok_current _ _ _ i Ht Hc) as (t & Hi & Hti & Hst).
  unfold yield. apply (wp_enter_task F i (λ i, upd_task i (set_state RUNNABLE);; prepareSched KYield)); [done|done|].
  intros s1 Hh1 E1 (_ & _ & C1 & I1 & _). apply wp_bind, wp_modify.
  eapply (wp_prepareSched F _ i (set_state RUNNABLE t)); [by eapply holds_ext, Hh1|cbn; congruence| |done|].
  { cbn. by rewrite E1, list_lookup_alter_eq, Hi. }
  intros s2 ie Hh2 E2 C2 (_ & _ & _ & I2 & _). split; [done|]. rewrite C2, I2, E2. cbn.
  rewrite E1, I1, alter_alter. destruct Hti as [Hr ? ? ? ? ?].
  eapply (ok_alter (cur_task s)); [done|done| | |].
  - split; cbn; done.
  - intros k Hk. rewrite Hc. split; congruence.
  - intros Hini. destruct (ok_init _ _ _ Ht) as (j & tj & Hj & Htj & ? & ? & ?).
    assert (tj = t) as -> by congruence. done.
Qed.

(** The scheduler wakes [initTask] when it sees a zombie; on one CPU no task
    runs at that moment. *)
Lemma ok_init_runnable init ts j tj :
  tasks_ok None init ts → init = Some j → ts !! j = Some tj →
  tasks_ok None init (alter (set_state RUNNABLE) j ts).
Proof.
  intros Ht Hj Htj. destruct (ok_task _ _ _ Ht j tj Htj) as [Hr ? ? Hrun Hsl ?].
  destruct (ok_init _ _ _ Ht) as (j' & tj' & Hj' & Htj' & Hu & Hz & Hp).
  assert (j' = j) as -> by congruence. assert (tj' = tj) as -> by congruence.
  eapply ok_alter; [done|done| |done|done]. split; cbn; try done.
  intros _. destruct (state tj) eqn:E; first [done|by apply Hsl|by apply Hrun|by discriminate (proj1 Hr eq_refl)].
Qed.

Definition visit_world (s : ks W) (i : nat) : Prop :=
  ∃ t, tasks s !! i = Some t ∧ resumes_world (ctx t).

Lemma wp_sched_visit_wf (F : Prop) i s :
  (visit_world s i → F) → wf s → cur_task s = None → (i < NTASK)%nat →
  wp F (sched_visit fuel xstate_at i) (λ _, wf) s.
Proof.
  intros HF [Hh Ht] Hc Hi. destruct (ok_lookup _ _ _ i Ht Hi) as (t & Hti & Htok).
  unfold sched_visit. apply wp_lock_wf; [done|]. intros s1 Hh1 E1 (_ & _ & C1 & I1 & _).
  apply wp_bind, (wp_tsk _ _ t); [by rewrite E1|]. apply wp_bind.
  assert (∀ s2 t2, holds [LTask i] s2 → tasks_ok None (initTask s2) (tasks s2) → cur_task s2 = None →
    tasks s2 !! i = Some t2 → ctx t2 = ctx t →
    wp F (t ← tsk i;
          if decide (state t = RUNNABLE) then
            upd_task i (set_state RUNNING);; modify (set_cur_task (Some i));; resume fuel xstate_at i (ctx t)
          else unlock (LTask i)) (λ _, wf) s2) as Hrun.
  { intros s2 t2 Hh2 Ht2 C2 Hi2 Hctx. apply wp_bind, (wp_tsk _ _ t2); [done|].
    destruct (ok_task _ _ _ Ht2 i t2 Hi2) as [Hr ? ? Hk Hsl ?].
    destruct (decide (state t2 = RUNNABLE)) as [Hst|Hst].
    - apply wp_bind, wp_modify, wp_bind, wp_modify.
      apply (wp_resume_wf F i (set_state RUNNING t2)).
      + cbn. rewrite Hctx. intros Hw. apply HF. by exists t.
      + by eapply holds_ext, Hh2.
      + cbn. eapply ok_alter; [exact Ht2|exact Hi2| | |].
        * split; cbn; try done.
        * intros k Hk'. split; congruence.
        * intros Hini. destruct (ok_init _ _ _ Ht2) as (j & tj & Hj & Htj & ? & ? & ?).
          assert (tj = t2) as -> by congruence. done.
      + done.
      + cbn. by rewrite list_lookup_alter_eq, Hi2.
      + done.
      + by apply Hk.
    - apply wp_unlock_wf; [done|]. by rewrite C2. }
  assert (tasks_ok None (initTask s1) (tasks s1)) as Ht1 by (rewrite I1, E1, <- Hc; done).
  destruct (decide (state t = ZOMBIE)) as [Hz|Hz].
  - destruct (ok_init _ _ _ Ht1) as (j & tj & Hj & Htj & Hu & Hnz & Hp).
    apply wp_bind, wp_gets. rewrite Hj. apply wp_bind, wp_deref, wp_modify.
    assert (i ≠ j) by (intros ->; rewrite E1 in Htj; congruence).
    apply (Hrun _ t); [by eapply holds_ext, Hh1| |cbn; congruence| |done].
    + cbn. rewrite Hj. rewrite Hj in Ht1. by eapply ok_init_runnable.
    + cbn. by rewrite list_lookup_alter_ne, E1 by congruence.
  - apply wp_ret. apply (Hrun _ t); [done|done|congruence|by rewrite E1|done].
Qed.

Lemma wp_wait_wf (F : Prop) i vaddr s :
  F → wf s → cur_task s = Some i → wp F (wait fuel xstate_at vaddr) (λ _, wf) s.
Proof.
  intros HF Hwf Hc. unfold wait. apply (wp_enter_task F i (λ i, wait_loop fuel xstate_at i vaddr)); [done|done|].
  intros s1 Hh1 E1 (_ & _ & C1 & I1 & _). apply wp_wait_loop_wf; [done|done| |congruence].
  rewrite C1, I1, E1. apply Hwf.
Qed.

Lemma wp_wait4_wf (F : Prop) i p vaddr s :
  F → wf s → cur_task s = Some i → 0 ≤ p → wp F (wait4 fuel xstate_at p vaddr) (λ _, wf) s.
Proof.
  intros HF Hwf Hc Hp. pose proof Hwf as [Hh Ht]. unfold wait4.
  destruct (Z.leb_spec (Z.of_nat NTASK) p) as [|Hlt]; [by apply wp_ret|].
  rewrite (proj2 (Z.ltb_ge p 0)) by lia. set (c := Z.to_nat p).
  assert (c < NTASK)%nat as Hcn by (subst c; lia).
  destruct (ok_lookup _ _ _ c Ht Hcn) as (ch & Hch & Hcok).
  apply wp_bind. eapply wp_myTask; [done|cbn; lia|]. intros s1 R1 Hh1.
  apply relocked_rest in R1 as [E1 (_ & _ & C1 & I1 & _)]. rewrite C1, Hc.
  apply wp_bind, wp_deref, wp_lock_wf; [done|]. intros s2 Hh2 E2 (_ & _ & C2 & I2 & _).
  apply wp_bind, (wp_tsk _ _ ch); [by rewrite E2, E1|].
  assert (tasks_ok (cur_task s2) (initTask s2) (tasks s2)) as Ht2 by (by rewrite C2, I2, E2, C1, I1, E1).
  destruct (decide (parent ch ≠ Some i)) as [Hpa|Hpa].
  - apply wp_bind. eapply wp_mono; [by apply wp_unlock_wf|]. intros [] s3 H3. by apply wp_ret.
  - apply dec_stable in Hpa. destruct (to_parent _ _ _ Hcok i Hpa) as [_ Hic].
    apply wp_bind. eapply wp_unlock; [done|cbn; lia|]. intros s3 R3 Hh3.
    apply relocked_rest in R3 as [E3 (_ & _ & C3 & I3 & _)].
    apply wp_lock_wf; [done|]. intros s4 Hh4 E4 (_ & _ & C4 & I4 & _).
    apply wp_wait4_loop_wf; [done|done| |congruence|split; [lia|intros E; by apply Hic]].
    by rewrite C4, I4, E4, C3, I3, E3.
Qed.

Lemma wp_sleepTime_wf F i n s : wf s → cur_task s = Some i → wp F (sleepTime n) (λ _, wf) s.
Proof.
  intros [Hh Ht] Hc. unfold sleepTime. apply wp_bind, wp_gets, wp_lock_wf; [done|].
  intros s1 Hh1 E1 (_ & _ & C1 & I1 & _). apply (wp_sleepTime_loop_wf F i); [done| |congruence].
  by rewrite C1, I1, E1.
Qed.

Lemma wp_SleepLock_lock_wf F i a s : wf s → cur_task s = Some i → wp F (SleepLock_lock a) (λ _, wf) s.
Proof.
  intros [Hh Ht] Hc. unfold SleepLock_lock. apply wp_lock_wf; [done|].
  intros s1 Hh1 E1 (_ & _ & C1 & I1 & _). apply (wp_SleepLock_loop_wf F i); [done| |congruence].
  by rewrite C1, I1, E1.
Qed.

Lemma wp_wakeup_wf F c l s :
  holds [l] s → (∀ i, l ≠ LTask i) → tasks_ok (cur_task s) (initTask s) (tasks s) →
  wp F (wakeup c) (λ _ s', holds [l] s' ∧ cur_task s' = cur_task s ∧
    tasks_ok (cur_task s') (initTask s') (tasks s')) s.
Proof.
  intros Hh Hl Ht. eapply wp_mono; [apply (wp_wakeup F c [l]); [done|cbn; lia| |apply Ht]|].
  - intros i. rewrite list_elem_of_singleton. intros E. by apply (Hl i).
  - cbn. intros _ s' (Hh' & E & (_ & _ & C & I & _)). split_and!; [done|done|].
    rewrite C, I, E. by apply ok_wake.
Qed.

Lemma wp_SleepLock_unlock_wf F a s : wf s → wp F (SleepLock_unlock a) (λ _, wf) s.
Proof.
  intros [Hh Ht]. unfold SleepLock_unlock. apply wp_lock_wf; [done|].
  intros s1 Hh1 E1 (_ & _ & C1 & I1 & _). apply wp_bind, wp_modify, wp_bind.
  eapply wp_mono; [apply (wp_wakeup_wf F _ (LSleep a)); [by eapply holds_ext, Hh1|done|]|].
  - cbn. by rewrite C1, I1, E1.
  - cbn. intros _ s2 (Hh2 & _ & Ht2). by apply wp_unlock_wf.
Qed.

Lemma wp_wakeup_event F c s : wf s → wp F (wakeup c) (λ _, wf) s.
Proof.
  intros [Hh Ht]. eapply wp_mono; [apply (wp_wakeup F c []); [done|cbn; lia|intros; apply not_elem_of_nil|apply Ht]|].
  cbn. intros _ s' (Hh' & E & (_ & _ & C & I & _)). split; [done|]. rewrite C, I, E. by apply ok_wake.
Qed.

(** A field that the invariant does not mention. *)
Lemma ok_field cur init ts i f :
  (∀ t, state (f t) = state t ∧ pid (f t) = pid t ∧ parent (f t) = parent t ∧ ctx (f t) = ctx t ∧
     tchan (f t) = tchan t ∧ length (openFiles (f t)) = length (openFiles t)) →
  tasks_ok cur init ts → tasks_ok cur init (alter f i ts).
Proof.
  intros Hf Ht. destruct (ts !! i) as [t|] eqn:Hi.
  - destruct (Hf t) as (H1 & H2 & H3 & H4 & H5 & H6).
    eapply ok_alter; [done|done| |done|].
    + destruct (ok_task _ _ _ Ht i t Hi). split; rewrite ?H1, ?H2, ?H3, ?H4, ?H5, ?H6; done.
    + intros Hini. destruct (ok_init _ _ _ Ht) as (j & tj & Hj & Htj & ? & ? & ?).
      rewrite H1, H3. assert (tj = t) as -> by congruence. done.
  - replace (alter f i ts) with ts; [done|]. apply list_eq. intros k.
    destruct (decide (k = i)) as [->|]; [by rewrite list_lookup_alter_eq, Hi|by rewrite list_lookup_alter_ne].
Qed.

Lemma wp_handleIntr_wf F user s : wf s → i32 (ticks s + 1) ≠ 600 → wp F (handleIntr user) (λ _, wf) s.
Proof.
  intros [Hh Ht] Hn. unfold handleIntr. apply wp_lock_wf; [done|].
  intros s1 Hh1 E1 (_ & _ & C1 & I1 & T1 & _). apply wp_bind, wp_modify, wp_bind, wp_gets. cbn.
  rewrite T1, (proj2 (Z.eqb_neq _ _)) by done. apply wp_bind.
  eapply wp_mono; [apply (wp_wakeup_wf F _ LTimer); [by eapply holds_ext, Hh1|done|]|].
  { cbn. by rewrite C1, I1, E1. }
  cbn. intros _ s2 (Hh2 & C2 & Ht2). apply wp_bind. eapply wp_unlock; [done|cbn; lia|].
  intros s3 R3 Hh3. apply relocked_rest in R3 as [E3 (_ & _ & C3 & I3 & _)]. apply wp_bind.
  eapply wp_myTask; [done|cbn; lia|]. intros s4 R4 Hh4. apply relocked_rest in R4 as [E4 (_ & _ & C4 & I4 & _)].
  assert (tasks_ok (cur_task s4) (initTask s4) (tasks s4)) as Ht4 by (by rewrite C4, I4, E4, C3, I3, E3).
  destruct (cur_task s4) as [i|] eqn:Hc4; [|apply wp_ret; split; [done|by rewrite Hc4]].
  apply wp_lock_wf; [done|]. intros s5 Hh5 E5 (_ & _ & C5 & I5 & _). apply wp_bind.
  destruct user; apply wp_modify; (apply wp_unlock_wf; [by eapply holds_ext, Hh5|]); cbn;
    rewrite C5, I5, E5, Hc4; by apply ok_field.
Qed.

Lemma wp_kill_wf F p sig s : wf s → 0 ≤ p < Z.of_nat NTASK → wp F (kill p sig) (λ _, wf) s.
Proof.
  intros [Hh Ht] Hp. unfold kill. rewrite (proj2 (Z.ltb_ge p 0)) by lia.
  destruct (ok_lookup _ _ _ (Z.to_nat p) Ht) as (t & Hi & _); [lia|].
  apply wp_bind, (wp_tsk _ _ t); [done|]. destruct (decide _); [by apply wp_ret|].
  apply wp_bind, wp_modify, wp_ret. split; [by eapply holds_ext, Hh|]. cbn. by apply ok_field.
Qed.

(** ** Exit *)

(** The task [i] works on its own entry: the rest of the table stays [ts]. *)
Record own (i : nat) (ts : list task) (cur init : option nat) (t : task) (s : ks W) : Prop := {
  own_holds : holds [] s;
  own_tasks : tasks s = <[i := t]> ts;
  own_cur : cur_task s = cur;
  own_init : initTask s = init;
}.

Lemma alter_insert {A} (f : A → A) (l : list A) i x : alter f i (<[i := x]> l) = <[i := f x]> l.
Proof.
  apply list_eq. intros k. destruct (decide (k = i)) as [->|].
  - rewrite list_lookup_alter_eq. destruct (decide (i < length l)%nat).
    + by rewrite !list_lookup_insert_eq by done.
    + by rewrite !lookup_ge_None_2 by (rewrite length_insert; lia).
  - by rewrite list_lookup_alter_ne, !list_lookup_insert_ne by congruence.
Qed.

Lemma own_lookup i ts cur init t s : own i ts cur init t s → (i < length ts)%nat → tasks s !! i = Some t.
Proof. intros [_ -> _ _] Hi. by apply list_lookup_insert_eq. Qed.

Lemma own_upd i ts cur init t s f :
  own i ts cur init t s → own i ts cur init (f t) (set_tasks (alter f i (tasks s)) s).
Proof.
  intros [Hh Ht Hc Hi]. split; [by eapply holds_ext, Hh| |done|done]. cbn. by rewrite Ht, alter_insert.
Qed.

Lemma own_world i ts cur init t s w : own i ts cur init t s → own i ts cur init t (set_world w s).
Proof. intros [Hh Ht Hc Hi]. split; [by eapply holds_ext, Hh|done..]. Qed.

(** [follows o o' Q]: the kernel's run [o'] ends the way the world's run [o]
    does, and when it returns, [Q] holds of both results. *)
Definition follows {A B} (o : outcome (B * W)) (o' : outcome (A * ks W)) (Q : B → W → A → ks W → Prop) : Prop :=
  match o with
  | Done (b, w) => ∃ a s', o' = Done (a, s') ∧ Q b w a s'
  | Panic e => o' = Panic e
  | NoFuel => o' = NoFuel
  end.
Lemma follows_bind {A A' B B'} (d : M W B) (e : B → M W B') (c : M (ks W) A) (k : A → M (ks W) A') w s Q :
  follows (d w) (c s) (λ b w1 a s1, follows (e b w1) (k a s1) Q) → follows ((d ≫= e) w) ((c ≫= k) s) Q.
Proof.
  unfold follows at 1, mbind, M_bind. destruct (d w) as [[b w1]| |]; [|by intros ->..].
  by intros (a & s1 & -> & Hk).
Qed.
Lemma follows_step {A A' B} (o : outcome (B * W)) (c : M (ks W) A) (k : A → M (ks W) A') s Q :
  wp False c (λ a s1, follows o (k a s1) Q) s → follows o ((c ≫= k) s) Q.
Proof. intros (a & s1 & E & Hk)%wp_done. by rewrite (M_bind_Done _ _ _ _ _ E). Qed.
(** The kernel goes on, the world is as it shall be. *)
Lemma follows_then {A A' B} (o : outcome (B * W)) (c : M (ks W) A) (k : A → M (ks W) A') s Q :
  follows o (c s) (λ b w a s1, ∃ a' s2, k a s1 = Done (a', s2) ∧ Q b w a' s2) → follows o ((c ≫= k) s) Q.
Proof.
  unfold follows, mbind, M_bind. destruct o as [[b w]| |]; [|by intros ->..].
  intros (a & s1 & -> & Hk). exact Hk.
Qed.
Lemma follows_world {B} (d : M W B) s Q :
  (∀ b w, Q b w b (set_world w s)) → follows (d (world s)) (in_world d s) Q.
Proof. intros HQ. unfold in_world. destruct (d (world s)) as [[b w]| |]; cbn; eauto. Qed.
Lemma follows_ret {A B} (b : B) (a : A) w s Q : Q b w a s → follows ((mret b : M W B) w) ((mret a : M (ks W) A) s) Q.
Proof. intros HQ. by exists a, s. Qed.
Lemma follows_wp {A B} (o : outcome (B * W)) (c : M (ks W) A) s (Q : B → W → A → ks W → Prop) (Q' : A → ks W → Prop) :
  follows o (c s) Q → (∀ b w a s', Q b w a s' → Q' a s') → wp True c Q' s.
Proof.
  unfold follows, wp. destruct o as [[b w]| |]; [|by intros ->..].
  intros (a & s' & -> & Hq) HQ. by eapply HQ.
Qed.

(** What closing the open ones of the files [fs] does to the world. *)
Fixpoint close_world (fs : list Z) : M W unit :=
  match fs with
  | [] => mret tt
  | fp :: fs => (if negb (fp =? 0) then vfs_old_close fp else mret tt);; close_world fs
  end.
(** What giving up the areas [vs] does to the world: a shared one is written
    back to its file, its pages are unmapped and freed, its inode is released.
    An area that was given up is zero. *)
Definition drop_area (pgt : Z) (a : vma) : M W unit :=
  (if negb (Z.land (v_flag a) MAP_SHARED =? 0) then
     vfs_rewind (v_f a);; vfs_write pgt (v_f a) true (v_addr a) (v_length a) 0;; mret tt
   else mret tt);;
  userUnmap fuel pgt (PGROUNDDOWN (v_addr a)) (PGROUNDUP (v_length a) / PGSIZE) true;;
  (if negb (v_ip a =? 0) then inode_free (v_ip a) else mret tt).
Definition dropped1 (vt : list vma) (o : option nat) : list vma :=
  match o with Some v => <[v := zero_vma]> vt | None => vt end.
Definition dropped : list vma → list (option nat) → list vma := foldl dropped1.
Fixpoint drop_world (pgt : Z) (vt : list vma) (vs : list (option nat)) : M W unit :=
  match vs with
  | [] => mret tt
  | o :: vs =>
      match o with
      | Some v => match vt !! v with Some a => drop_area pgt a | None => panic "vma index" end
      | None => mret tt
      end;;
      drop_world pgt (dropped1 vt o) vs
  end.

Lemma close_files_follows i ts cur init n : ∀ fd t s Q,
  (i < length ts)%nat → own i ts cur init t s → (fd + n)%nat = length (openFiles t) →
  (∀ s' w, own i ts cur init (set_openFiles (take fd (openFiles t) ++ replicate n 0) t) s' → world s' = w →
     vma_table s' = vma_table s → Q tt w tt s') →
  follows (close_world (drop fd (openFiles t)) (world s)) (close_files i fd n s) Q.
Proof.
  induction n as [|n IH]; intros fd t s Q Hi Hown Hn HQ.
  { rewrite drop_ge by lia. apply follows_ret, HQ; [|done..]. rewrite take_ge, app_nil_r by lia. by destruct t. }
  destruct (lookup_lt_is_Some_2 (openFiles t) fd) as [fp Hfp]; [lia|].
  rewrite (drop_S _ _ _ Hfp). cbn [close_files close_world].
  apply follows_step, (wp_tsk _ _ t); [by eapply own_lookup|]. rewrite Hfp.
  assert (∀ s1 w, own i ts cur init (set_openFiles (<[fd := 0]> (openFiles t)) t) s1 → world s1 = w →
    vma_table s1 = vma_table s →
    follows (close_world (drop (Datatypes.S fd) (openFiles t)) w) (close_files i (Datatypes.S fd) n s1) Q) as Hrest.
  { intros s1 w Hown1 <- Hv. rewrite <- (drop_insert_lt (openFiles t) (Datatypes.S fd) fd 0) by lia.
    apply (IH (Datatypes.S fd) (set_openFiles (<[fd := 0]> (openFiles t)) t) s1 Q Hi Hown1).
    - cbn. rewrite length_insert. lia.
    - intros s' w' Hown' Hw Hv'. apply HQ; [|done|congruence].
      replace (take fd (openFiles t) ++ replicate (Datatypes.S n) 0) with
        (take (Datatypes.S fd) (<[fd := 0]> (openFiles t)) ++ replicate n 0); [exact Hown'|].
      rewrite (take_S_r _ _ 0) by (apply list_lookup_insert_eq; lia).
      by rewrite take_insert_ge, <- app_assoc by lia. }
  apply follows_bind. destruct (Z.eqb_spec fp 0) as [->|Hfp0]; cbn [negb].
  - apply follows_ret, Hrest; [|done..]. rewrite list_insert_id by done. by destruct t.
  - apply follows_then, follows_world. intros [] w. exists tt. eexists. split; [reflexivity|].
    apply Hrest; [|done..].
    apply (own_upd _ _ _ _ t (set_world w s) (λ t, set_openFiles (<[fd := 0]> (openFiles t)) t)). by apply own_world.
Qed.

Lemma drop_area_follows i k v t a s Q : ∀ ts cur init,
  own i ts cur init t s → vma_table s !! v = Some a →
  (∀ s' w, own i ts cur init (set_tvma (<[k := None]> (tvma t)) t) s' → world s' = w →
     vma_table s' = <[v := zero_vma]> (vma_table s) → Q tt w tt s') →
  follows (drop_area (pagetable t) a (world s))
    ((a ← vma_at v;
      (if negb (Z.land (v_flag a) MAP_SHARED =? 0) then
         in_world (vfs_rewind (v_f a);; vfs_write (pagetable t) (v_f a) true (v_addr a) (v_length a) 0);; mret tt
       else mret tt);;
      in_world (userUnmap fuel (pagetable t) (PGROUNDDOWN (v_addr a)) (PGROUNDUP (v_length a) / PGSIZE) true);;
      vma_free v;;
      upd_task i (λ t, set_tvma (<[k := None]> (tvma t)) t)) s) Q.
Proof.
  intros ts cur init Hown Ha HQ. apply follows_step. unfold wp at 1, vma_at. rewrite Ha. unfold drop_area.
  assert (∀ s1, own i ts cur init t s1 → vma_table s1 = vma_table s → follows
    ((userUnmap fuel (pagetable t) (PGROUNDDOWN (v_addr a)) (PGROUNDUP (v_length a) / PGSIZE) true;;
      (if negb (v_ip a =? 0) then inode_free (v_ip a) else mret tt)) (world s1))
    ((in_world (userUnmap fuel (pagetable t) (PGROUNDDOWN (v_addr a)) (PGROUNDUP (v_length a) / PGSIZE) true);;
      vma_free v;; upd_task i (λ t, set_tvma (<[k := None]> (tvma t)) t)) s1) Q) as Hgo.
  { intros s1 Hown1 Hv1. apply follows_bind, follows_world. intros [] w1. unfold vma_free.
    apply follows_then. set (s2 := set_world w1 s1).
    assert (own i ts cur init t s2) as Hown2 by by apply own_world.
    apply follows_step. unfold wp at 1, vma_at. cbn [s2 vma_table set_world]. rewrite Hv1, Ha.
    apply follows_then.
    assert (∀ s3 w, own i ts cur init t s3 → vma_table s3 = vma_table s → world s3 = w →
      ∃ a' s4, upd_vma v (λ _, zero_vma) s3 = Done (a', s4) ∧
        ∃ a'' s5, upd_task i (λ t, set_tvma (<[k := None]> (tvma t)) t) s4 = Done (a'', s5) ∧ Q tt w a'' s5) as Hlast.
    { intros s3 w Hown3 Hv3 Hw3. do 2 eexists. split; [reflexivity|]. do 2 eexists. split; [reflexivity|].
      apply HQ; [|done|cbn; by rewrite Hv3, list_insert_alter].
      apply (own_upd i ts cur init t (set_vma_table _ s3) (λ t, set_tvma (<[k := None]> (tvma t)) t)).
      destruct Hown3 as [Hh ? ? ?]. split; [by eapply holds_ext, Hh|done..]. }
    destruct (negb (v_ip a =? 0)).
    - apply (follows_world _ s2). intros [] w2. apply Hlast; [by apply own_world|done..].
    - apply follows_ret. by apply Hlast. }
  apply follows_bind. destruct (negb (Z.land (v_flag a) MAP_SHARED =? 0)).
  - assert (∀ w, (vfs_rewind (v_f a);; vfs_write (pagetable t) (v_f a) true (v_addr a) (v_length a) 0;; mret tt) w =
      ((vfs_rewind (v_f a);; vfs_write (pagetable t) (v_f a) true (v_addr a) (v_length a) 0) ≫= λ _, mret tt) w) as E.
    { intros w. unfold mbind, M_bind. by destruct (vfs_rewind (v_f a) w) as [[[] ?]| |]. }
    rewrite E. apply follows_bind, follows_world. intros b w. apply follows_ret.
    apply (Hgo (set_world w s)); [by apply own_world|done].
  - apply follows_ret, (Hgo s); done.
Qed.

Lemma drop_vmas_follows i ts cur init n : ∀ k t s Q,
  (i < length ts)%nat → own i ts cur init t s →
  (∀ s' w vs, own i ts cur init (set_tvma vs t) s' → world s' = w →
     vma_table s' = dropped (vma_table s) (take n (drop k (tvma t))) →
     (∀ m, vs !! m = if decide (k ≤ m < k + n)%nat then (λ _, None) <$> tvma t !! m else tvma t !! m) → Q tt w tt s') →
  follows (drop_world (pagetable t) (vma_table s) (take n (drop k (tvma t))) (world s)) (drop_vmas fuel i k n s) Q.
Proof.
  induction n as [|n IH]; intros k t s Q Hi Hown HQ.
  { apply follows_ret, (HQ _ _ (tvma t)); [by destruct t|done|done|].
    intros m. by rewrite decide_False by lia. }
  cbn [drop_vmas]. apply follows_step, (wp_tsk _ _ t); [by eapply own_lookup|].
  destruct (tvma t !! k) as [o|] eqn:Hk.
  2: { apply follows_step, wp_ret. pose proof Hk as Hk'. apply lookup_ge_None in Hk'.
    replace (take (S n) (drop k (tvma t))) with (take n (drop (Datatypes.S k) (tvma t))) in *
      by by rewrite !drop_ge, !take_nil by lia.
    apply IH; [done|done|]. intros s' w vs Hown' Hw Hv Hvs. apply (HQ _ _ vs); [done..|].
    intros m. rewrite Hvs. destruct (decide (m = k)) as [->|].
    - rewrite Hk. by destruct (decide _), (decide _).
    - by destruct (decide (Datatypes.S k ≤ m < Datatypes.S k + n)%nat), (decide (k ≤ m < k + Datatypes.S n)%nat); try lia. }
  pose proof (lookup_lt_Some _ _ _ Hk) as Hlt. rewrite (drop_S _ _ _ Hk) in *. cbn [take drop_world].
  assert (∀ s1 w, own i ts cur init (set_tvma (<[k := None]> (tvma t)) t) s1 → world s1 = w →
    vma_table s1 = dropped1 (vma_table s) o →
    follows (drop_world (pagetable t) (dropped1 (vma_table s) o) (take n (drop (Datatypes.S k) (tvma t))) w)
      (drop_vmas fuel i (Datatypes.S k) n s1) Q) as Hrest.
  { intros s1 w Hown1 <- Hv. rewrite <- (drop_insert_lt (tvma t) (Datatypes.S k) k None) by lia.
    rewrite <- Hv. apply (IH (Datatypes.S k) (set_tvma (<[k := None]> (tvma t)) t) s1 Q Hi Hown1).
    cbn [tvma set_tvma]. intros s' w' vs Hown' Hw Hv' Hvs. rewrite drop_insert_lt, Hv in Hv' by lia.
    apply (HQ _ _ vs); [exact Hown'|done|exact Hv'|]. intros m. rewrite Hvs.
    destruct (decide (m = k)) as [->|].
    - rewrite Hk, decide_False, decide_True by lia. by apply list_lookup_insert_eq.
    - rewrite !list_lookup_insert_ne by done.
      by destruct (decide (Datatypes.S k ≤ m < Datatypes.S k + n)%nat), (decide (k ≤ m < k + Datatypes.S n)%nat); try lia. }
  apply follows_bind. destruct o as [v|].
  - destruct (vma_table s !! v) as [a|] eqn:Ha.
    + apply (drop_area_follows i k v t a s _ ts cur init Hown Ha). intros s' w Hown' Hw Hv. by apply Hrest.
    + unfold panic, follows. unfold mbind at 1, M_bind at 1, vma_at. by rewrite Ha.
  - apply follows_ret, Hrest; [|done..]. rewrite list_insert_id by done. by destruct t.
Qed.

Definition reparent (i : nat) (ini : option nat) (t : task) : task :=
  if decide (parent t = Some i) then set_parent ini t else t.

Lemma wp_reparent F i ini s (Q : unit → ks W → Prop) :
  holds [] s → length (tasks s) = NTASK →
  (∀ s', holds [] s' → tasks s' = reparent i ini <$> tasks s → same_rest s s' → Q tt s') →
  wp F (for_tasks (λ c, ch ← tsk c;
          if decide (parent ch = Some i) then upd_task c (set_parent ini) else mret tt) 0 NTASK) Q s.
Proof.
  intros Hh Hlen HQ. eapply wp_mono; [apply (wp_map_tasks F _ (reparent i ini) []); [done|done|]|].
  - intros j s0 t Hh0 Ht. apply wp_bind, (wp_tsk _ _ t); [done|].
    destruct (decide (parent t = Some i)) as [Hp|Hp].
    + apply wp_modify. split_and!; [by eapply holds_ext, Hh0| |done]. cbn.
      apply (alter_ext_at _ _ _ _ t); [done|]. unfold reparent. by rewrite decide_True.
    + apply wp_ret. split_and!; [done| |done]. symmetry. apply (alter_id _ _ _ t); [done|].
      unfold reparent. by rewrite decide_False.
  - cbn. intros [] s' (? & ? & ?). by apply HQ.
Qed.

(** What [exit] leaves: [i] is a zombie with closed files and no areas, its
    children belong to init, and the tasks that slept on its parent's channel
    are runnable. *)
Definition exited (i : nat) (t : task) (ini : option nat) (s s' : ks W) : Prop :=
  holds [] s' ∧ cur_task s' = None ∧ initTask s' = ini ∧ length (tasks s') = NTASK ∧
  (∃ t', tasks s' !! i = Some t' ∧ state t' = ZOMBIE ∧ xstate t' = 0 ∧ ctx t' = KExit ∧
     parent t' = parent t ∧ pid t' = pid t ∧ openFiles t' = replicate NOFILE 0 ∧
     (∀ m, (m < NOMMAPFILE)%nat → tvma t' !! m = (λ _, None) <$> tvma t !! m)) ∧
  (∀ k, k ≠ i → tasks s' !! k = (λ c, wake (chan_of (parent t)) (reparent i ini c)) <$> tasks s !! k).

(** The areas of the task [t]. *)
Definition areas (t : task) : list (option nat) := take NOMMAPFILE (tvma t).
(** What the exit of [t] does to the files and the memory. *)
Definition exit_world (vt : list vma) (t : task) : M W unit :=
  close_world (openFiles t);; drop_world (pagetable t) vt (areas t).

(** The end of [exit], from the reparenting that found the task in [t2]. *)
Lemma exit_end i t t2 ini s s4 :
  holds [] s4 → tasks s4 = <[i := t2]> (reparent i ini <$> tasks s) → cur_task s4 = Some i → initTask s4 = ini →
  length (tasks s) = NTASK → (i < NTASK)%nat → parent t2 = parent t → pid t2 = pid t →
  openFiles t2 = replicate NOFILE 0 → (∀ m, (m < NOMMAPFILE)%nat → tvma t2 !! m = (λ _, None) <$> tvma t !! m) →
  wp False (upd_task i (λ t, set_xstate 0 (set_state ZOMBIE t));;
    t ← tsk i;
    wakeup (chan_of (parent t));;
    lock (LTask i);;
    prepareSched (λ _, KExit))
    (λ _ s', exited i t ini s s' ∧ world s' = world s4 ∧ vma_table s' = vma_table s4) s4.
Proof.
  intros Hh4 E4 C4 I4 Hlen Hlt Hpa Hpid Hof Hvs.
  apply wp_bind, wp_modify. set (t4 := set_xstate 0 (set_state ZOMBIE t2)). set (s4' := set_tasks _ s4).
  assert (tasks s4' = <[i := t4]> (reparent i ini <$> tasks s)) as E4' by (cbn; by rewrite E4, alter_insert).
  assert (tasks s4' !! i = Some t4) as Hi4.
  { rewrite E4'. apply list_lookup_insert_eq. by rewrite length_fmap, Hlen. }
  assert (holds [] s4') as Hh4' by by eapply holds_ext, Hh4.
  apply wp_bind, (wp_tsk _ _ t4); [done|]. apply wp_bind.
  eapply wp_mono; [apply (wp_wakeup False _ []); [exact Hh4'|cbn; lia|intros; apply not_elem_of_nil|]|].
  { by rewrite E4', length_insert, length_fmap. }
  cbv beta. intros [] s5 (Hh5 & E5 & (V5 & _ & C5 & I5 & _ & W5)).
  assert (tasks s5 !! i = Some t4) as Hi5 by (by rewrite E5, list_lookup_fmap, Hi4).
  apply wp_lock_wf; [done|]. intros s6 Hh6 E6 (V6 & _ & C6 & I6 & _ & W6).
  eapply (wp_prepareSched False _ i t4); [done|rewrite C6, C5; exact C4|by rewrite E6|done|].
  intros s7 ie Hh7 E7 C7 (V7 & _ & _ & I7 & _ & W7). unfold s4' in V5, W5, I5. cbn in V5, W5, I5, V7, W7, I7.
  split; [|split; [congruence..]]. split_and!; [done|done| | | |].
  - congruence.
  - by rewrite E7, length_alter, E6, E5, length_fmap, E4', length_insert, length_fmap.
  - exists (set_ctx KExit t4). rewrite E7, list_lookup_alter_eq, E6, Hi5. done.
  - intros k Hk. rewrite E7, list_lookup_alter_ne, E6, E5, list_lookup_fmap by done.
    rewrite E4', list_lookup_insert_ne, list_lookup_fmap by done.
    cbn [t4 parent set_xstate set_state]. rewrite Hpa. by destruct (tasks s !! k).
Qed.

Lemma exit_follows i t status s :
  wf s → cur_task s = Some i → tasks s !! i = Some t → initTask s ≠ Some i →
  follows (exit_world (vma_table s) t (world s)) (exit fuel status s)
    (λ _ w _ s', exited i t (initTask s) s s' ∧ world s' = w ∧ vma_table s' = dropped (vma_table s) (areas t)).
Proof.
  intros [Hh Ht] Hc Hi Hini. destruct (ok_task _ _ _ Ht i t Hi) as [Hr Hpid Hpar _ _ Hfiles].
  pose proof (ok_len _ _ _ Ht) as Hlen. pose proof (lookup_lt_Some _ _ _ Hi) as Hlt.
  unfold exit. apply follows_step. eapply wp_myTask; [done|cbn; lia|]. intros s1 R1 Hh1.
  apply relocked_rest in R1 as [E1 (V1 & _ & C1 & I1 & _ & W1)]. rewrite C1, Hc.
  apply follows_step, wp_deref, follows_step, wp_gets. rewrite decide_False by congruence.
  assert (own i (tasks s) (cur_task s) (initTask s) t s1) as Hown1.
  { split; [done| |done|done]. by rewrite E1, list_insert_id. }
  rewrite <- W1, <- V1. unfold exit_world. apply follows_bind.
  apply (close_files_follows i (tasks s) (cur_task s) (initTask s) NOFILE 0 t s1); [done|done|by rewrite Hfiles|].
  cbn [take app]. intros s2 w Hown2 <- V2.
  apply follows_step, wp_modify.
  apply (own_upd _ _ _ _ _ _ (set_currentDir (replicate MAXPATH 0))) in Hown2. revert Hown2.
  set (t2 := set_currentDir _ _). set (s2' := set_tasks _ s2). intros [Hh2 E2 C2 I2].
  apply follows_step, wp_reparent; [done|by rewrite E2, length_insert|].
  intros s3 Hh3 E3 (V3 & _ & C3 & I3 & _ & W3). cbn in W3, V3.
  assert (parent t2 ≠ Some i) as Hnp by (intros E; by apply Hpar in E as [_ ?]).
  assert (own i (reparent i (initTask s) <$> tasks s) (cur_task s) (initTask s) t2 s3) as Hown3.
  { split; [done| |congruence|congruence]. rewrite E3, E2, I1. apply list_eq. intros k.
    rewrite list_lookup_fmap. destruct (decide (k = i)) as [->|].
    - rewrite !list_lookup_insert_eq by (rewrite ?length_fmap; done). cbn.
      unfold reparent. by rewrite decide_False.
    - by rewrite !list_lookup_insert_ne, list_lookup_fmap by done. }
  rewrite <- V2, <- V3, <- W3. apply follows_then.
  apply (drop_vmas_follows i (reparent i (initTask s) <$> tasks s) (cur_task s) (initTask s)
    NOMMAPFILE 0 t2 s3); [by rewrite length_fmap|exact Hown3|].
  intros s4 w vs [Hh4 E4 C4 I4] <- V4 Hvs.
  destruct (wp_done _ _ _ (exit_end i t _ (initTask s) s s4 Hh4 E4 (eq_trans C4 Hc) I4 Hlen
    ltac:(by rewrite <- Hlen) eq_refl eq_refl eq_refl ltac:(intros m Hm; cbn; rewrite Hvs; by rewrite decide_True by lia)))
    as (a & s5 & E5 & Hex & W5 & V5).
  eexists _, _. split; [exact E5|]. split_and!; [done|done|]. by rewrite V5.
Qed.

Lemma exited_wf i t s s' :
  wf s → cur_task s = Some i → tasks s !! i = Some t → initTask s ≠ Some i →
  exited i t (initTask s) s s' → wf s'.
Proof.
  intros [_ Ht] Hc Hi Hini (Hh' & C' & I' & Hlen & (t' & Hi' & Hst & _ & Hctx & Hpa & Hpid & Hfi & _) & Hoth).
  split; [done|]. rewrite C', I'. destruct (ok_init _ _ _ Ht) as (j & tj & Hj & Htj & Hu & Hz & Hp).
  assert (∀ k c, tasks s !! k = Some c → k ≠ i → task_ok None k (reparent i (initTask s) c)) as Hrep.
  { intros k c Hk Hki. destruct (ok_task _ _ _ Ht k c Hk) as [Hr Hpd Hpar Hrun Hsl Hof].
    assert (state c ≠ RUNNING) as Hnr by (intros E%Hr; congruence).
    unfold reparent. destruct (decide _) as [Hpk|]; split; cbn; try done.
    - intros j' Hj'. split; [|intros ->].
      + assert (j' = j) as -> by congruence. apply lookup_lt_Some in Htj. by rewrite (ok_len _ _ _ Ht) in Htj.
      + assert (k = j) as -> by congruence. assert (c = tj) as -> by congruence. congruence. }
  split.
  - done.
  - intros k c. destruct (decide (k = i)) as [->|Hki].
    + rewrite Hi'. intros [= <-]. destruct (ok_task _ _ _ Ht i t Hi) as [_ ? Hpar _ _ _].
      split; rewrite ?Hst; try done; [congruence|by rewrite Hpa|by rewrite Hfi, length_replicate].
    + rewrite Hoth by done. destruct (tasks s !! k) as [c0|] eqn:Hk; [|done].
      intros [= <-]. apply task_ok_wake. by apply Hrep.
  - done.
  - assert (j ≠ i) as Hji by congruence.
    exists j, (wake (chan_of (parent t)) (reparent i (initTask s) tj)).
    rewrite Hoth, Htj by done. cbn. split_and!; [done|done|..]; unfold wake, reparent;
      destruct (decide _) as [E|], (decide _); cbn; congruence.
Qed.

(** ** The kernel as a transition system *)

Inductive event :=
| EvBegin | EvVisit (i : nat) | EvYield | EvWait (vaddr : Z) | EvWait4 (p vaddr : Z)
| EvSleepTime (n : Z) | EvSleepLock (a : Z) | EvSleepUnlock (a : Z) | EvWakeup (c : chan)
| EvKill (p sig : Z) | EvTick (user : bool) | EvExit (status : Z).

Definition run (e : event) : M (ks W) unit :=
  match e with
  | EvBegin => sched_begin
  | EvVisit i => sched_visit fuel xstate_at i
  | EvYield => yield
  | EvWait vaddr => wait fuel xstate_at vaddr;; mret tt
  | EvWait4 p vaddr => wait4 fuel xstate_at p vaddr;; mret tt
  | EvSleepTime n => sleepTime n;; mret tt
  | EvSleepLock a => SleepLock_lock a;; mret tt
  | EvSleepUnlock a => SleepLock_unlock a
  | EvWakeup c => wakeup c
  | EvKill p sig => kill p sig;; mret tt
  | EvTick user => handleIntr user
  | EvExit status => exit fuel status
  end.

(** The scheduler acts when no task runs, a task when it runs; a timer
    interrupt comes at any time. *)
Definition enabled (e : event) (s : ks W) : Prop :=
  match e with
  | EvBegin => cur_task s = None
  | EvVisit i => cur_task s = None ∧ (i < NTASK)%nat
  | EvTick _ => True
  | _ => is_Some (cur_task s)
  end.

(** The calls that stop the kernel: the 600th tick, the exit of init, and the
    accesses outside the task table with an unchecked pid. *)
Definition stops (e : event) (s : ks W) : option string :=
  match e with
  | EvTick _ => if i32 (ticks s + 1) =? 600 then Some "run out of time" else None
  | EvWait4 p _ => if p <? 0 then Some "taskTable index" else None
  | EvKill p _ => if (p <? 0) || (Z.of_nat NTASK <=? p) then Some "taskTable index" else None
  | EvExit _ => if decide (cur_task s = initTask s) then Some "init task exit" else None
  | _ => None
  end.

(** The events that run operations of the memory and of the file layer. *)
Definition uses_world (e : event) (s : ks W) : Prop :=
  match e with
  | EvWait _ | EvWait4 _ _ | EvExit _ => True
  | EvVisit i => visit_world s i
  | _ => False
  end.

Definition kstep (s s' : ks W) : Prop := ∃ e, enabled e s ∧ run e s = Done (tt, s').

Lemma stops_panic e s m : wf s → enabled e s → stops e s = Some m → run e s = Panic m.
Proof.
  intros [Hh Ht] He. destruct e as [| | | |p v| | | | |p sig|user|status]; cbn [stops]; try discriminate;
    cbn [run enabled] in *.
  - destruct (Z.ltb_spec p 0) as [Hp|]; [|done]. intros [= <-]. apply M_bind_Panic. unfold wait4.
    rewrite (proj2 (Z.leb_gt _ _)) by (unfold NTASK; lia). by rewrite (proj2 (Z.ltb_lt p 0)).
  - destruct (Z.ltb_spec p 0) as [Hp|Hp]; cbn [orb].
    { intros [= <-]. apply M_bind_Panic. unfold kill. by rewrite (proj2 (Z.ltb_lt p 0)). }
    destruct (Z.leb_spec (Z.of_nat NTASK) p) as [Hp'|]; [|done]. intros [= <-]. apply M_bind_Panic. unfold kill.
    rewrite (proj2 (Z.ltb_ge p 0)) by lia. apply M_bind_Panic. unfold tsk.
    by rewrite lookup_ge_None_2 by (rewrite (ok_len _ _ _ Ht); lia).
  - destruct (Z.eqb_spec (i32 (ticks s + 1)) 600) as [E|]; [|done]. intros [= <-]. unfold handleIntr.
    destruct (wp_done (lock LTimer) (λ _ s', ticks s' = ticks s) s) as ([] & s1 & E1 & T1).
    { eapply wp_lock; [exact Hh|apply not_elem_of_nil|cbn; lia|]. by intros s' (lks & u & ->) _. }
    rewrite (M_bind_Done _ _ _ _ _ E1). erewrite M_bind_Done by reflexivity. erewrite M_bind_Done by reflexivity.
    cbn [ticks set_ticks]. by rewrite T1, E.
  - destruct (decide _) as [E|]; [|done]. intros [= <-]. destruct He as [i Hc]. unfold exit.
    destruct (wp_done myTask (λ p s', p = cur_task s ∧ initTask s' = initTask s) s) as (p & s1 & E1 & -> & I1).
    { eapply wp_myTask; [exact Hh|cbn; lia|]. by intros s' (lks & u & ->) _. }
    rewrite (M_bind_Done _ _ _ _ _ E1), Hc. erewrite M_bind_Done by reflexivity. erewrite M_bind_Done by reflexivity.
    by rewrite decide_True by congruence.
Qed.

Lemma wp_run_wf e s : wf s → enabled e s → stops e s = None → wp (uses_world e s) (run e) (λ _, wf) s.
Proof.
  intros Hwf He Hst.
  assert (∀ {A} F (c : M (ks W) A), wp F c (λ _, wf) s → wp F (c;; mret tt) (λ _, wf) s) as Hret.
  { intros A F c Hc. apply wp_bind. by eapply wp_mono; [exact Hc|]. }
  destruct e; cbn [run uses_world] in *.
  - apply (wp_on_cpu_modify _ (λ c, Cpu (noff c) (intr_enable c) true)).
    split; [|apply Hwf]. destruct Hwf as [[? ? ? ? ?] _]. by split.
  - apply wp_sched_visit_wf; [done|done|apply He|apply He].
  - destruct He as [i Hc]. by apply (wp_yield_wf _ i).
  - destruct He as [i Hc]. by apply Hret, (wp_wait_wf _ i).
  - destruct He as [i Hc]. cbn in Hst. destruct (Z.ltb_spec p 0); [done|]. by apply Hret, (wp_wait4_wf _ i).
  - destruct He as [i Hc]. by apply Hret, (wp_sleepTime_wf _ i).
  - destruct He as [i Hc]. by apply Hret, (wp_SleepLock_lock_wf _ i).
  - by apply wp_SleepLock_unlock_wf.
  - by apply wp_wakeup_event.
  - cbn in Hst. destruct (Z.ltb_spec p 0), (Z.leb_spec (Z.of_nat NTASK) p); try done. by apply Hret, wp_kill_wf.
  - cbn in Hst. destruct (Z.eqb_spec (i32 (ticks s + 1)) 600); [done|]. by apply wp_handleIntr_wf.
  - destruct He as [i Hc]. cbn in Hst. destruct (decide _) as [|Hini]; [done|]. rewrite Hc in Hini.
    destruct (ok_current _ _ _ i (proj2 Hwf) Hc) as (t & Hi & _).
    eapply follows_wp; [apply (exit_follows i t status s); [done..|congruence]|].
    cbn. intros _ w _ s' [Hex _]. eapply exited_wf, Hex; [done..|congruence].
Qed.

Lemma steps_wf s s' : wf s → rtc kstep s s' → wf s'.
Proof.
  intros Hwf Hr. induction Hr as [|s1 s2 s3 (e & He & Hrun) _ IH]; [done|]. apply IH.
  destruct (stops e s1) as [m|] eqn:Hst; [by rewrite (stops_panic e s1 m Hwf He Hst) in Hrun|].
  pose proof (wp_run_wf e s1 Hwf He Hst) as Hw. unfold wp in Hw. by rewrite Hrun in Hw.
Qed.
End rules.

(** ** Properties *)

Section properties.
Context {W : Type} `{PageAllocator W, FileLayer W} (fuel : nat) (xstate_at : nat → Z).


(** [wait] up to its loop: the task's lock is taken. *)
Lemma wait_enter (s : ks W) (i : nat) (t : task) (vaddr : Z) (Q : option Z → ks W → Prop) :
  wf s → cur_task s = Some i → tasks s !! i = Some t →
  (∀ s1, holds [LTask i] s1 → tasks s1 = tasks s → same_rest s s1 →
    tasks_ok (cur_task s1) (initTask s1) (tasks s1) → cur_task s1 = Some i →
    wp False (wait_loop fuel xstate_at i vaddr) Q s1) →
  ∃ r s', wait fuel xstate_at vaddr s = Done (r, s') ∧ Q r s'.
Proof.
  intros Hwf Hc Hi HQ. pose proof (proj2 Hwf) as Ht. apply wp_done. unfold wait.
  apply (wp_enter_task False i (λ i, wait_loop fuel xstate_at i vaddr)); [done..|].
  intros s1 Hh E R. pose proof R as (_ & _ & C & I & _). apply HQ; [done..|by rewrite E, C, I|by rewrite C].
Qed.

Lemma wait_no_child (s : ks W) (i : nat) (t : task) (vaddr : Z) :
  wf s → cur_task s = Some i → tasks s !! i = Some t → (∀ k, ¬ child_of (tasks s) i k) →
  ∃ s', wait fuel xstate_at vaddr s = Done (Some (-1), s') ∧ wf s' ∧ tasks s' = tasks s.
Proof.
  intros Hwf Hc Hi Hno. pose proof (proj2 Hwf) as Ht.
  destruct (wait_enter s i t vaddr (λ r s', r = Some (-1) ∧ wf s' ∧ tasks s' = tasks s)) as (r & s' & Hr & -> & ?);
    [done..| |eauto].
  intros s1 Hh1 E1 R1 Ht1 C1. apply wp_wait_loop; [done..| | |]; rewrite ?E1.
  - intros s' Hh' E' R' _. split_and!; [done| |done].
    apply (wf_same_rest s); [done|done|done|]. by eapply same_rest_trans.
  - intros s' ie _ _ _ _ [k Hk]. by apply Hno in Hk.
  - intros z ch t' (c & Hz & Hp & _). exfalso. eapply Hno. by exists c.
Qed.

Lemma wait_sleeps (s : ks W) (i : nat) (t : task) (vaddr : Z) :
  wf s → cur_task s = Some i → tasks s !! i = Some t →
  (∃ k, child_of (tasks s) i k) → (∀ k, ¬ zombie_child (tasks s) i k) →
  ∃ s', wait fuel xstate_at vaddr s = Done (None, s') ∧ wf s' ∧ cur_task s' = None ∧
    ∃ t', tasks s' = <[i := t']> (tasks s) ∧ state t' = SLEEPING ∧ tchan t' = ChTask i.
Proof.
  intros Hwf Hc Hi [k Hk] Hnz. pose proof (proj2 Hwf) as Ht.
  destruct (wait_enter s i t vaddr (λ r s', r = None ∧ wf s' ∧ cur_task s' = None ∧
    ∃ t', tasks s' = <[i := t']> (tasks s) ∧ state t' = SLEEPING ∧ tchan t' = ChTask i))
    as (r & s' & Hr & -> & ?); [done..| |eauto].
  intros s1 Hh1 E1 R1 Ht1 C1. apply wp_wait_loop; [done..| | |]; rewrite ?E1.
  - intros s' _ _ _ Hno. by apply Hno in Hk.
  - intros s' ie Hh' E' C' (_ & _ & _ & I' & _) _ _. split; [done|]. split.
    + split; [done|]. rewrite C', I', E'. cbn. destruct R1 as (_ & _ & _ & -> & _).
      by apply (ok_sleep (cur_task s) _ _ i t ie (InWait vaddr)).
    + split; [done|]. rewrite E', (alter_as_insert _ _ _ t) by done. eexists. by split.
  - intros z ch t' Hz. by apply Hnz in Hz.
Qed.

Lemma wait_reaps (s : ks W) (i : nat) (t : task) (vaddr : Z) (z : nat) (ch : task) (b : bool) (w : W) :
  wf s → cur_task s = Some i → tasks s !! i = Some t →
  tasks s !! z = Some ch → parent ch = Some i → state ch = ZOMBIE →
  (∀ k, (k < z)%nat → ¬ zombie_child (tasks s) i k) →
  reap_world fuel xstate_at (pagetable t) vaddr z ch (world s) = Done (b, w) →
  ∃ s', wait fuel xstate_at vaddr s = Done (Some (if b then Z.of_nat z else -1), s') ∧ wf s' ∧
    world s' = w ∧ tasks s' = if b then alter freed z (tasks s) else tasks s.
Proof.
  intros Hwf Hc Hi Hz Hp Hst Hfirst Hw. pose proof (proj2 Hwf) as Ht.
  destruct (wait_enter s i t vaddr (λ r s', r = Some (if b then Z.of_nat z else -1) ∧ wf s' ∧ world s' = w ∧
    tasks s' = if b then alter freed z (tasks s) else tasks s)) as (r & s' & Hr & -> & ?); [done..| |eauto].
  intros s1 Hh1 E1 R1 Ht1 C1. assert (zombie_child (tasks s) i z) as Hzc by by exists ch.
  apply wp_wait_loop; [done..| | |]; rewrite ?E1.
  - intros s' _ _ _ Hno. exfalso. apply (Hno z). by exists ch.
  - intros s' ie _ _ _ _ _ Hno. by apply Hno in Hzc.
  - intros z' ch' t' Hz' Hfirst' Hch' _ _ Hi'.
    assert (z' = z) as ->.
    { destruct (Nat.lt_trichotomy z' z) as [Hlt|[->|Hlt]]; [|done|].
      - by apply (Hfirst z') in Hz'.
      - by apply (Hfirst' z) in Hzc. }
    assert (ch' = ch) as -> by congruence. assert (t' = t) as -> by congruence.
    assert (world s1 = world s) as -> by apply R1. unfold wp. rewrite Hw.
    intros s' Hh' E' R'. pose proof R' as (_ & _ & C' & I' & _ & W').
    assert (pid ch = Z.of_nat z) as Hpid by apply (to_pid _ _ _ (ok_task _ _ _ Ht z ch Hz)).
    split; [by rewrite <- Hpid|]. split; [|by split].
    split; [done|]. rewrite C', I', E'. cbn. destruct R1 as (_ & _ & -> & -> & _).
    destruct b; [by eapply ok_freed|done].
Qed.

(** Claim C34. [wait] returns -1 when the task has no child, sleeps on its own
    channel when it has children but no zombie, and otherwise reaps the first
    zombie child: if copying the status out succeeds, its slot is free again
    and its pid is returned; if not, -1 and the child stays a zombie. *)
Theorem wait_reaps_first_zombie (s : ks W) (i : nat) (t : task) (vaddr : Z) :
  wf s → cur_task s = Some i → tasks s !! i = Some t →
  ((∀ k, ¬ child_of (tasks s) i k) →
     ∃ s', wait fuel xstate_at vaddr s = Done (Some (-1), s') ∧ wf s' ∧ tasks s' = tasks s) ∧
  ((∃ k, child_of (tasks s) i k) → (∀ k, ¬ zombie_child (tasks s) i k) →
     ∃ s', wait fuel xstate_at vaddr s = Done (None, s') ∧ wf s' ∧ cur_task s' = None ∧
       ∃ t', tasks s' = <[i := t']> (tasks s) ∧ state t' = SLEEPING ∧ tchan t' = ChTask i) ∧
  (∀ z ch b w, tasks s !! z = Some ch → parent ch = Some i → state ch = ZOMBIE →
     (∀ k, (k < z)%nat → ¬ zombie_child (tasks s) i k) →
     reap_world fuel xstate_at (pagetable t) vaddr z ch (world s) = Done (b, w) →
     ∃ s', wait fuel xstate_at vaddr s = Done (Some (if b then Z.of_nat z else -1), s') ∧ wf s' ∧
       world s' = w ∧ tasks s' = if b then alter freed z (tasks s) else tasks s).
Proof.
  intros Hwf Hc Hi. split_and!.
  - by apply (wait_no_child s i t).
  - by apply (wait_sleeps s i t).
  - intros z ch b w ? ? ? ? ?. by apply (wait_reaps s i t vaddr z ch b w).
Qed.

(** Claim C35. [exit] of a task other than init, whatever [status] it is
    given: the files and the memory see [exit_world] - every open file is
    closed, in the order of the descriptors, then every area is written back if
    shared, unmapped and its inode released. If that panics or runs out of
    fuel, so does [exit]; otherwise [exit] completes: the task is a zombie with
    exit status 0, no open file and no area, its areas are free again, its
    children belong to init, a parent asleep in [wait] is runnable again, so no
    wakeup is lost, the invariant holds and the CPU is free. *)
Theorem exit_wakes_parent (s : ks W) (i : nat) (t : task) (status : Z) :
  wf s → cur_task s = Some i → tasks s !! i = Some t → initTask s ≠ Some i →
  match exit_world fuel (vma_table s) t (world s) with
  | Done (_, w) => ∃ s', exit fuel status s = Done (tt, s') ∧ wf s' ∧ cur_task s' = None ∧
      world s' = w ∧ vma_table s' = dropped (vma_table s) (areas t) ∧
      (∃ t', tasks s' !! i = Some t' ∧ state t' = ZOMBIE ∧ xstate t' = 0 ∧ parent t' = parent t ∧
         openFiles t' = replicate NOFILE 0 ∧ (∀ m v, (m < NOMMAPFILE)%nat → tvma t' !! m ≠ Some (Some v))) ∧
      (∀ k c, tasks s !! k = Some c → parent c = Some i →
         ∃ c', tasks s' !! k = Some c' ∧ parent c' = initTask s) ∧
      (∀ p tp, parent t = Some p → tasks s !! p = Some tp → state tp = SLEEPING → tchan tp = ChTask p →
         ∃ tp', tasks s' !! p = Some tp' ∧ state tp' = RUNNABLE)
  | Panic m => exit fuel status s = Panic m
  | NoFuel => exit fuel status s = NoFuel
  end.
Proof.
  intros Hwf Hc Hi Hini. pose proof (proj2 Hwf) as Ht.
  pose proof (exit_follows fuel i t status s Hwf Hc Hi Hini) as Hf. unfold follows in Hf.
  destruct (exit_world fuel (vma_table s) t (world s)) as [[[] w]| |]; [|done..].
  destruct Hf as ([] & s' & Hrun & Hex & Hw & Hv).
  exists s'. split; [done|]. split; [by eapply exited_wf|].
  destruct Hex as (_ & C' & _ & _ & (t' & Hi' & ? & ? & ? & ? & ? & ? & Hvs) & Hoth).
  split_and!; [done..| | |].
  - exists t'. split_and!; [done..|]. intros m v Hm. rewrite Hvs by done. by destruct (tvma t !! m).
  - intros k c Hk Hpc.
    assert (k ≠ i) as Hki by (intros ->; by apply (to_parent _ _ _ (ok_task _ _ _ Ht i c Hk)) in Hpc as [_ ?]).
    rewrite Hoth, Hk by done. eexists. split; [done|]. unfold wake, reparent.
    rewrite (decide_True _ _ Hpc). by destruct (decide _).
  - intros p tp Hp Htp Hst Hch.
    rewrite Hoth, Htp by by apply (to_parent _ _ _ (ok_task _ _ _ Ht i t Hi)). eexists. split; [done|].
    unfold wake. rewrite Hp. cbn [chan_of]. unfold reparent.
    rewrite decide_True; [done|]. by destruct (decide _).
Qed.

(** [first_closed] finds the lowest closed descriptor. *)
(** ** The descriptor table *)

(** The lowest closed descriptor from [k] on. *)
Fixpoint lowest_closed (fds : list Z) (k : nat) : option nat :=
  match fds with
  | [] => None
  | fp :: fds => if fp =? 0 then Some k else lowest_closed fds (Datatypes.S k)
  end.
(** Where [registerFileHandle] stores: the lowest closed descriptor, or the
    requested one if it is closed. *)
Definition slot_for (fds : list Z) (fd : Z) : option nat :=
  if fd <? 0 then lowest_closed fds 0
  else if decide (fds !! Z.to_nat fd = Some 0) then Some (Z.to_nat fd) else None.
(** The file behind a descriptor, null for none. *)
Definition fd_file (fds : list Z) (fd : Z) : Z :=
  if fd <? 0 then 0 else default 0 (fds !! Z.to_nat fd).

Lemma fd_file_nat fds (k : nat) : fd_file fds (Z.of_nat k) = default 0 (fds !! k).
Proof. unfold fd_file. by rewrite (proj2 (Z.ltb_ge _ 0)), Nat2Z.id by lia. Qed.

Lemma first_closed_lowest fs n from :
  (from + n = length fs)%nat → first_closed fs from n = Done (lowest_closed (drop from fs) from).
Proof.
  revert from. induction n as [|n IH]; intros from Hn; cbn [first_closed].
  - by rewrite drop_ge by lia.
  - destruct (lookup_lt_is_Some_2 fs from) as [x Hx]; [lia|].
    rewrite Hx, (drop_S _ _ _ Hx). cbn [lowest_closed]. destruct (x =? 0); [done|]. apply IH. lia.
Qed.

Lemma lowest_closed_spec fds k :
  match lowest_closed fds k with
  | Some j => (k ≤ j)%nat ∧ fds !! (j - k)%nat = Some 0 ∧ ∀ m, (m < j - k)%nat → fds !! m ≠ Some 0
  | None => ∀ m, fds !! m ≠ Some 0
  end.
Proof.
  revert k. induction fds as [|x fds IH]; intros k; cbn [lowest_closed]; [done|].
  destruct (Z.eqb_spec x 0) as [->|Hx].
  - rewrite Nat.sub_diag. split_and!; [lia|done|intros; lia].
  - specialize (IH (Datatypes.S k)). destruct (lowest_closed fds (Datatypes.S k)) as [j|].
    + destruct IH as (Hle & Hj & Hlow). split_and!; [lia| |].
      * by replace (j - k)%nat with (Datatypes.S (j - Datatypes.S k)) by lia.
      * intros [|m] Hm; cbn; [congruence|]. apply Hlow. lia.
    + intros [|m]; cbn; [congruence|apply IH].
Qed.

Lemma lowest_closed_is fds k :
  fds !! k = Some 0 → (∀ j, (j < k)%nat → fds !! j ≠ Some 0) → lowest_closed fds 0 = Some k.
Proof.
  intros Hk Hlow. pose proof (lowest_closed_spec fds 0) as Hs.
  destruct (lowest_closed fds 0) as [j|]; [|by apply Hs in Hk].
  rewrite Nat.sub_0_r in Hs. destruct Hs as (_ & Hj & Hlow').
  destruct (Nat.lt_trichotomy j k) as [Hlt|[->|Hlt]]; [by apply Hlow in Hlt|done|by apply Hlow' in Hlt].
Qed.

Lemma slot_for_closed fds fd k : slot_for fds fd = Some k → fds !! k = Some 0.
Proof.
  unfold slot_for. destruct (fd <? 0).
  - intros Hk. pose proof (lowest_closed_spec fds 0) as Hs. rewrite Hk, Nat.sub_0_r in Hs. apply Hs.
  - destruct (decide _) as [Hfd|]; [|done]. by intros [= <-].
Qed.

(** Between two calls: nothing but the CPU's interrupt state differs. *)
Definition quiet (s s' : ks W) : Prop := wf s' ∧ tasks s' = tasks s ∧ same_rest s s'.
(** The state after storing [fp] at descriptor [k]. *)
Definition stored (s s' : ks W) (i k : nat) (t : task) (fp : Z) : Prop :=
  wf s' ∧ same_rest s s' ∧
  tasks s' = <[i := set_openFiles (<[k := fp]> (openFiles t)) t]> (tasks s).

Lemma wp_leave_task {A} F (s s1 : ks W) i (a : A) (Q : A → ks W → Prop) :
  wf s → holds [LTask i] s1 → tasks s1 = tasks s → same_rest s s1 →
  (∀ s', quiet s s' → Q a s') → wp F (unlock (LTask i);; mret a) Q s1.
Proof.
  intros Hwf Hh1 E1 R1 HQ. apply wp_bind. eapply wp_unlock; [done|cbn; lia|]. intros s2 R2 Hh2.
  apply relocked_rest in R2 as [E2 R2]. apply wp_ret, HQ.
  assert (tasks s2 = tasks s) as E by congruence. pose proof (same_rest_trans _ _ _ R1 R2) as R.
  split_and!; [by apply (wf_same_rest s)|done|done].
Qed.

(** The members the invariant is about are those of before. *)
Lemma tasks_ok_keep cur init ts i t (g : task → task) :
  tasks_ok cur init ts → ts !! i = Some t →
  state (g t) = state t → pid (g t) = pid t → parent (g t) = parent t → ctx (g t) = ctx t → tchan (g t) = tchan t →
  length (openFiles (g t)) = length (openFiles t) →
  tasks_ok cur init (<[i := g t]> ts).
Proof.
  intros Ht Hi E1 E2 E3 E4 E5 E6. rewrite <- (alter_as_insert g) by done.
  destruct (ok_task _ _ _ Ht i t Hi) as [? ? ? ? ? Hf]. eapply ok_alter; [exact Ht|done| |done|].
  - by split; rewrite ?E1, ?E2, ?E3, ?E4, ?E5, ?E6.
  - intros Hini. destruct (ok_init _ _ _ Ht) as (j & tj & Hj & Htj & ? & ? & ?).
    assert (tj = t) as -> by congruence. by rewrite E1, E3.
Qed.
Lemma tasks_ok_fd cur init ts i t k fp :
  tasks_ok cur init ts → ts !! i = Some t →
  tasks_ok cur init (<[i := set_openFiles (<[k := fp]> (openFiles t)) t]> ts).
Proof.
  intros Ht Hi. apply (tasks_ok_keep _ _ _ _ _ (set_openFiles (<[k := fp]> (openFiles t))) Ht Hi); try done.
  cbn. by rewrite length_insert.
Qed.

Lemma wp_store_fd F (s : ks W) i t k fp (r : Z) (Q : Z → ks W → Prop) s1 :
  wf s → tasks s !! i = Some t → holds [LTask i] s1 → tasks s1 = tasks s → same_rest s s1 →
  (∀ s', stored s s' i k t fp → Q r s') →
  wp F (upd_task i (set_openFiles (<[k := fp]> (openFiles t)));; unlock (LTask i);; mret r) Q s1.
Proof.
  intros [Hh Ht] Hi Hh1 E1 R1 HQ. apply wp_bind, wp_modify, wp_bind.
  eapply wp_unlock; [by eapply holds_ext, Hh1|cbn; lia|]. intros s2 R2 Hh2.
  apply relocked_rest in R2 as [E2 R2]. apply wp_ret, HQ.
  assert (tasks s2 = <[i := set_openFiles (<[k := fp]> (openFiles t)) t]> (tasks s)) as E.
  { rewrite E2. cbn. rewrite E1. by apply alter_as_insert. }
  assert (same_rest s s2) as R by (eapply same_rest_trans; [exact R1|exact R2]).
  split_and!; [split; [done|]|done|done].
  destruct R as (_ & _ & -> & -> & _). rewrite E. by apply tasks_ok_fd.
Qed.

Lemma wp_getFileByfd F (s : ks W) i t fd (Q : Z → ks W → Prop) :
  wf s → cur_task s = Some i → tasks s !! i = Some t → fd ≠ Z.of_nat NOFILE →
  (∀ s', quiet s s' → Q (fd_file (openFiles t) fd) s') → wp F (getFileByfd fd) Q s.
Proof.
  intros Hwf Hc Hi Hfd HQ. unfold getFileByfd.
  destruct (ok_task _ _ _ (proj2 Hwf) i t Hi) as [_ _ _ _ _ Hlen].
  assert (quiet s s) as Hrefl by by split_and!.
  destruct ((fd <? 0) || (Z.of_nat NOFILE <? fd)) eqn:E.
  - apply wp_ret. specialize (HQ s Hrefl). unfold fd_file in HQ. destruct (fd <? 0) eqn:E0; [done|].
    cbn in E. bool_arith. rewrite lookup_ge_None_2 in HQ; [done|lia].
  - apply orb_false_iff in E as [E0 E]. bool_arith.
    apply (wp_enter_task F i (λ i, t ← tsk i;
      match openFiles t !! Z.to_nat fd with
      | None => panic "openFiles index"
      | Some fp => unlock (LTask i);; mret fp
      end)); [done|done|].
    intros s1 Hh1 E1 R1. apply wp_bind, (wp_tsk _ _ t); [by rewrite E1|].
    destruct (lookup_lt_is_Some_2 (openFiles t) (Z.to_nat fd)) as [fp Hfp]; [lia|].
    rewrite Hfp. apply (wp_leave_task F s); try done. intros s' Hs'. specialize (HQ s' Hs').
    unfold fd_file in HQ. rewrite (proj2 (Z.ltb_ge fd 0)), Hfp in HQ by done. done.
Qed.

(** [registerFileHandle] as a whole; only a full table makes it panic. *)
Lemma wp_registerFileHandle F (s : ks W) i t fp fd (Q : Z → ks W → Prop) :
  wf s → cur_task s = Some i → tasks s !! i = Some t → fp ≠ 0 → fd ≤ NFILE →
  match slot_for (openFiles t) fd with
  | Some k => ∀ s', stored s s' i k t fp → Q (Z.of_nat k) s'
  | None => 0 ≤ fd ∧ ∀ s', quiet s s' → Q (-1) s'
  end → wp F (registerFileHandle fp fd) Q s.
Proof.
  intros Hwf Hc Hi Hfp Hfd HQ. unfold registerFileHandle, slot_for in *.
  rewrite (proj2 (Z.ltb_ge NFILE fd)), (proj2 (Z.eqb_neq fp 0)) by done. cbn [orb].
  destruct (ok_task _ _ _ (proj2 Hwf) i t Hi) as [_ _ _ _ _ Hlen].
  eapply (wp_enter_task F i); [done|done|]. intros s1 Hh1 E1 R1.
  apply wp_bind, (wp_tsk _ _ t); [by rewrite E1|]. destruct (fd <? 0) eqn:Hneg; bool_arith.
  - apply wp_bind. unfold wp at 1, lift. rewrite first_closed_lowest, drop_0 by lia.
    destruct (lowest_closed (openFiles t) 0) as [k|]; [|lia]. by apply (wp_store_fd F s i t).
  - destruct (lookup_lt_is_Some_2 (openFiles t) (Z.to_nat fd)) as [old Hold].
    { rewrite Hlen. unfold NFILE, NOFILE in *. lia. }
    rewrite Hold in HQ |- *. destruct (Z.eqb_spec old 0) as [->|Hne].
    + rewrite decide_True in HQ by done. apply (wp_store_fd F s i t); [done..|].
      intros s' Hs'. rewrite <- (Z2Nat.id fd) at 1 by done. by apply HQ.
    + rewrite decide_False in HQ by congruence. destruct HQ as [_ HQ]. by apply (wp_leave_task F s).
Qed.

(** What runs before the lock of the running task is taken. *)
Lemma enter_task_run (s : ks W) i :
  wf s → cur_task s = Some i →
  ∃ s1, holds [LTask i] s1 ∧ tasks s1 = tasks s ∧ same_rest s s1 ∧
    ∀ (A : Type) (c : nat → M (ks W) A), (p ← myTask; i ← deref p; lock (LTask i);; c i) s = c i s1.
Proof.
  intros [Hh Ht] Hc.
  destruct (wp_done _ (λ r s', r = Some i ∧ holds [] s' ∧ relocked s s') _
    (wp_myTask False [] _ s Hh ltac:(cbn; lia) (λ s' R Hh', conj
      (eq_trans (proj1 (proj2 (proj2 (proj2 (relocked_fields s s' R))))) Hc) (conj Hh' R))))
    as (r & s0 & Hr & -> & Hh0 & R0).
  destruct (wp_done _ (λ _ s', holds [LTask i] s' ∧ relocked s0 s') _
    (wp_lock False [] (LTask i) _ s0 Hh0 (not_elem_of_nil _) ltac:(cbn; lia) (λ s' R Hh', conj Hh' R)))
    as ([] & s1 & Hl & Hh1 & R1).
  apply relocked_rest in R0 as [E0 R0], R1 as [E1 R1]. exists s1.
  split_and!; [done|congruence|by eapply same_rest_trans|].
  intros A c. rewrite (M_bind_Done _ _ _ _ _ Hr). cbn [deref].
  erewrite M_bind_Done by reflexivity. by rewrite (M_bind_Done _ _ _ _ _ Hl).
Qed.

Lemma register_full (s : ks W) i t fp fd :
  wf s → cur_task s = Some i → tasks s !! i = Some t → fp ≠ 0 → fd < 0 →
  lowest_closed (openFiles t) 0 = None → registerFileHandle fp fd s = Panic "register file handle".
Proof.
  intros Hwf Hc Hi Hfp Hfd Hno. destruct (ok_task _ _ _ (proj2 Hwf) i t Hi) as [_ _ _ _ _ Hlen].
  unfold registerFileHandle. rewrite (proj2 (Z.ltb_ge NFILE fd)), (proj2 (Z.eqb_neq fp 0)) by (unfold NFILE; lia).
  cbn [orb]. destruct (enter_task_run s i Hwf Hc) as (s1 & _ & E1 & _ & Hrun). etrans; [apply Hrun|].
  erewrite M_bind_Done by (unfold tsk; by rewrite E1, Hi). rewrite (proj2 (Z.ltb_lt fd 0)) by done.
  rewrite (M_bind_Done _ _ s1 None s1); [done|].
  unfold lift. by rewrite first_closed_lowest, drop_0, Hno by lia.
Qed.

Lemma get_past_table (s : ks W) i t :
  wf s → cur_task s = Some i → tasks s !! i = Some t →
  getFileByfd (Z.of_nat NOFILE) s = Panic "openFiles index".
Proof.
  intros Hwf Hc Hi. destruct (ok_task _ _ _ (proj2 Hwf) i t Hi) as [_ _ _ _ _ Hlen].
  unfold getFileByfd. destruct (enter_task_run s i Hwf Hc) as (s1 & _ & E1 & _ & Hrun). etrans; [apply Hrun|].
  erewrite M_bind_Done by (unfold tsk; by rewrite E1, Hi). rewrite lookup_ge_None_2; [done|].
  rewrite Hlen, Nat2Z.id. done.
Qed.

(** The descriptor table.  [registerFileHandle fp fd] with [fd < 0]
    stores [fp] at the lowest closed descriptor, with [0 <= fd <= NFILE] at
    [fd] if that is closed; [getFileByfd] then returns it.  A descriptor in use
    or above NFILE, or a null file, gives -1 and changes nothing; a full table
    panics.  [getFileByfd] answers null outside [0, NOFILE] but reads past
    [openFiles] for [fd = NOFILE]. *)
Theorem fd_table (s : ks W) (i : nat) (t : task) (fp : Z) :
  wf s → cur_task s = Some i → tasks s !! i = Some t → fp ≠ 0 →
  (∀ fd k, fd < 0 → openFiles t !! k = Some 0 → (∀ j, (j < k)%nat → openFiles t !! j ≠ Some 0) →
     ∃ s', registerFileHandle fp fd s = Done (Z.of_nat k, s') ∧ stored s s' i k t fp ∧
       ∃ s'', getFileByfd (Z.of_nat k) s' = Done (fp, s'')) ∧
  (∀ fd, fd < 0 → (∀ j, openFiles t !! j ≠ Some 0) →
     registerFileHandle fp fd s = Panic "register file handle") ∧
  (∀ fd, 0 ≤ fd ≤ NFILE → ∃ r s', registerFileHandle fp fd s = Done (r, s') ∧
     if decide (openFiles t !! Z.to_nat fd = Some 0) then r = fd ∧ stored s s' i (Z.to_nat fd) t fp
     else r = -1 ∧ wf s' ∧ tasks s' = tasks s) ∧
  (∀ fd, NFILE < fd → registerFileHandle fp fd s = Done (-1, s)) ∧
  (∀ fd, fd < 0 ∨ Z.of_nat NOFILE < fd → getFileByfd fd s = Done (0, s)) ∧
  getFileByfd (Z.of_nat NOFILE) s = Panic "openFiles index".
Proof.
  intros Hwf Hc Hi Hfp0. destruct (ok_task _ _ _ (proj2 Hwf) i t Hi) as [_ _ _ _ _ Hlen]. split_and!.
  - intros fd k Hfd Hk Hlow. pose proof (lowest_closed_is _ _ Hk Hlow) as Hk'.
    pose proof (lookup_lt_Some _ _ _ Hi) as Hil. pose proof (lookup_lt_Some _ _ _ Hk) as Hkl.
    destruct (wp_done _ _ _ (wp_registerFileHandle False s i t fp fd
      (λ r s', r = Z.of_nat k ∧ stored s s' i k t fp) Hwf Hc Hi Hfp0 ltac:(unfold NFILE; lia)
      ltac:(unfold slot_for; by rewrite (proj2 (Z.ltb_lt fd 0)), Hk' by done))) as (r & s' & Hr & -> & Hst).
    exists s'. split; [done|]. split; [done|]. destruct Hst as (Hwf' & R' & E').
    destruct (wp_done _ _ _ (wp_getFileByfd False s' i (set_openFiles (<[k := fp]> (openFiles t)) t)
      (Z.of_nat k) (λ r _, r = fp) Hwf' ltac:(destruct R' as (_ & _ & -> & _); done)
      ltac:(rewrite E'; by apply list_lookup_insert_eq) ltac:(lia)
      ltac:(intros; rewrite fd_file_nat; cbn; by rewrite list_lookup_insert_eq))) as (r & s'' & Hg & ->).
    by exists s''.
  - intros fd Hfd Hno. apply (register_full s i t); try done.
    pose proof (lowest_closed_spec (openFiles t) 0) as Hs.
    destruct (lowest_closed _ _) as [j|]; [|done]. destruct Hs as (_ & Hj & _). by apply Hno in Hj.
  - intros fd Hfd. apply wp_done, (wp_registerFileHandle False s i t); [done..|lia|].
    unfold slot_for. rewrite (proj2 (Z.ltb_ge fd 0)) by lia. destruct (decide _).
    + intros s' Hs'. rewrite Z2Nat.id by lia. done.
    + split; [lia|]. intros s' (? & ? & _). done.
  - intros fd Hfd. unfold registerFileHandle. by rewrite (proj2 (Z.ltb_lt NFILE fd)).
  - intros fd Hfd. unfold getFileByfd.
    assert ((fd <? 0) || (Z.of_nat NOFILE <? fd) = true)%bool as ->; [|done].
    apply orb_true_iff. rewrite !Z.ltb_lt. done.
  - by apply (get_past_table s i t).
Qed.
End properties.

(** [allocTask] returns the slot without marking it: its state stays UNUSED
    until [fork] sets it RUNNABLE, so a second [allocTask] in between (from a
    task scheduled by a timer interrupt in the kernel) finds the same slot. *)
Section alloc_slot.
Context {W : Type} `{PageAllocator W} (trampoline : Z) (fuel : nat).

Local Lemma wp_unlock_raw l (s : ks W) : wp True (unlock l) (λ _ s', tasks s' = tasks s) s.
Proof.
  unfold unlock. apply wp_bind, wp_gets. destruct (negb _); [done|].
  apply wp_bind, wp_gets, wp_bind, wp_modify. unfold wp, on_cpu. cbn.
  by destruct (Intr.pop_off _) as [[[] u]| |].
Qed.
Local Lemma wp_lock_raw l (s : ks W) : wp True (lock l) (λ _ s', tasks s' = tasks s) s.
Proof.
  unfold lock. apply wp_bind. unfold wp at 1, on_cpu. destruct (Intr.push_off _) as [[[] u]| |]; [|done|done].
  apply wp_bind, wp_gets. destruct (SpinLock.holding _ _); [done|].
  apply wp_bind, wp_gets. destruct (SpinLock.test_and_set _) as [[] k]; [done|]. by apply wp_modify.
Qed.
Local Lemma wp_world_raw {A} (c : M W A) (s : ks W) : wp True (in_world c) (λ _ s', tasks s' = tasks s) s.
Proof. unfold wp, in_world. by destruct (c (world s)) as [[a w]| |]. Qed.

Lemma allocTask_leaves_unused (s s' : ks W) j :
  allocTask trampoline fuel s = Done (Some j, s') → ∃ t, tasks s' !! j = Some t ∧ state t = UNUSED.
Proof.
  assert (∀ n i s, wp True (allocTask_from trampoline fuel i n)
    (λ r s', ∀ j, r = Some j → ∃ t, tasks s' !! j = Some t ∧ state t = UNUSED) s) as Hgen.
  { clear s s' j. induction n as [|n IH]; intros i s; cbn [allocTask_from]; [by apply wp_ret|].
    apply wp_bind. eapply wp_mono; [apply wp_lock_raw|]. intros [] s1 E1. apply wp_bind.
    unfold wp at 1, tsk. destruct (tasks s1 !! i) as [t|] eqn:Hi; [|done].
    destruct (decide (state t = UNUSED)) as [Hu|Hu].
    - apply wp_bind. eapply wp_mono; [apply wp_world_raw|]. intros tf s2 E2. apply wp_bind, wp_modify.
      destruct (tf =? 0); [apply wp_bind; eapply wp_mono; [apply wp_unlock_raw|by intros; apply wp_ret]|].
      apply wp_bind. eapply wp_mono; [apply wp_world_raw|]. intros pgt s3 E3. apply wp_bind, wp_modify, wp_bind.
      eapply wp_mono; [apply wp_world_raw|]. intros [] s4 E4. apply wp_bind, wp_modify, wp_bind.
      eapply wp_mono; [apply wp_unlock_raw|]. intros [] s5 E5. apply wp_ret. intros j [= <-].
      rewrite E5. cbn. rewrite E4. cbn. rewrite E3. cbn. rewrite E2.
      rewrite !list_lookup_alter_eq, Hi. by eexists.
    - apply wp_bind. eapply wp_mono; [apply wp_unlock_raw|]. intros [] s2 E2. apply IH. }
  intros Hrun. pose proof (Hgen (NTASK - 1)%nat 1%nat s) as Hw. unfold wp in Hw.
  unfold allocTask in Hrun. rewrite Hrun in Hw. by apply Hw.
Qed.
End alloc_slot.

(** ** Witnesses *)

Module SchedWitness.
#[local] Instance pages0 : PageAllocator kmem := MemAllocator.page_allocator 0x80300000.
#[local] Instance files0 : FileLayer kmem := {|
  vfs_dup fp := mret fp; vfs_close _ := mret tt; vfs_old_close _ := mret tt; vfs_rewind _ := mret tt;
  vfs_write _ _ _ _ n _ := mret n; inode_dup ip := mret ip; inode_free _ := mret tt;
  inode_read _ _ _ n _ := mret n |}.

Definition mk_task (i : nat) (st : procstate) (p : option nat) (c : chan) (k : kont) : task :=
  Task st p c 0 0 (Z.of_nat i) 0 0 (replicate NOFILE 0) (replicate MAXPATH 0) 0 0 0
    (replicate NOMMAPFILE None) 0 k (replicate 16 0) 0 [].

(** Init (1) sleeps in [wait] and its child (2) runs; or init runs and the
    child is a zombie. *)
Definition table (t1 t2 : task) : list task :=
  (λ i, if decide (i = 1%nat) then t1 else if decide (i = 2%nat) then t2
        else mk_task i UNUSED None NoChan KForkret) <$> seq 0 NTASK.
Definition kernel_in {W : Type} (w : W) (t1 t2 : task) (cur : nat) : ks W :=
  KS (table t1 t2) (replicate NVMA zero_vma) (λ _, Spin false (-1)) (λ _, Sleep 0 0)
     (Cpu 0 true true) (Some cur) (Some 1%nat) 0 w.
Definition kernel : task → task → nat → ks kmem := kernel_in (Kmem (λ _, 0) 0 0 0).
Definition child_runs : ks kmem :=
  kernel (mk_task 1 SLEEPING None (ChTask 1) (KSleep true (LTask 1) (InWait 0)))
         (mk_task 2 RUNNING (Some 1%nat) NoChan KForkret) 2.
Definition child_dead : ks kmem :=
  kernel (mk_task 1 RUNNING None NoChan KForkret) (mk_task 2 ZOMBIE (Some 1%nat) NoChan KExit) 1.

Lemma table_lookup t1 t2 i t :
  table t1 t2 !! i = Some t →
  (i < NTASK)%nat ∧ ((i = 1%nat ∧ t = t1) ∨ (i = 2%nat ∧ t = t2) ∨
  (i ≠ 1%nat ∧ i ≠ 2%nat ∧ t = mk_task i UNUSED None NoChan KForkret)).
Proof.
  unfold table. rewrite list_lookup_fmap. destruct (seq 0 NTASK !! i) as [j|] eqn:E; [|done].
  apply lookup_seq in E as [-> Hi]. cbn. intros [= <-]. split; [lia|].
  destruct (decide _); [auto|]. destruct (decide _); auto 6.
Qed.

Lemma kernel_wf {W : Type} (w : W) t1 t2 cur :
  (cur = 1 ∨ cur = 2)%nat → task_ok (Some cur) 1 t1 → task_ok (Some cur) 2 t2 →
  state t1 ≠ UNUSED → state t1 ≠ ZOMBIE → parent t1 = None → wf (kernel_in w t1 t2 cur).
Proof.
  intros Hcur H1 H2 Hu Hz Hp. split; [split; cbn; first [by intros l ?%not_elem_of_nil|done|constructor]|]. split.
  - unfold kernel_in, table. cbn [tasks]. by rewrite length_fmap, length_seq.
  - intros i t (Hi & [[-> ->]|[[-> ->]|(? & ? & ->)]])%table_lookup; [done|done|].
    split; cbn; try done. split; [done|]. intros [= ->]. lia.
  - intros i [= <-]. unfold NTASK. lia.
  - by exists 1%nat, t1.
Qed.

Lemma child_runs_wf : wf child_runs.
Proof.
  apply (kernel_wf (Kmem (λ _, 0) 0 0 0)); try done; [by right| |].
  - split; cbn; try done. intros _. split; [done|]. by exists true, (LTask 1), (InWait 0).
  - split; cbn; try done. intros j [= <-]. unfold NTASK. lia.
Qed.
Lemma child_dead_wf : wf child_dead.
Proof.
  apply (kernel_wf (Kmem (λ _, 0) 0 0 0)); try done; [by left|].
  - split; cbn; try done. intros j [= <-]. unfold NTASK. lia.
Qed.

(** A tick, the exit of the child, and init picked up by the scheduler: it goes
    on in [wait] and reaps the child. *)
Abbreviation call := (run 10 (λ _, 0x80400000)).
Definition after (e : event) (s : ks kmem) : ks kmem := match call e s with Done (_, s') => s' | _ => s end.
Definition ticked : ks kmem := after (EvTick true) child_runs.
Definition exited2 : ks kmem := after (EvExit 7) ticked.
Definition begun : ks kmem := after EvBegin exited2.
Definition reaped : ks kmem := after (EvVisit 1) begun.
Lemma after_step e s : enabled e s → match call e s with Done _ => true | _ => false end = true → kstep 10 (λ _, 0x80400000) s (after e s).
Proof.
  intros He Hd. exists e. split; [done|]. unfold after. by destruct (call e s) as [[[] s']| |].
Qed.
Lemma reaped_steps : rtc (kstep 10 (λ _, 0x80400000)) child_runs reaped.
Proof.
  apply (rtc_l _ _ ticked); [apply after_step; [exact I|vm_compute; reflexivity]|].
  apply (rtc_l _ _ exited2); [apply after_step; [exists 2%nat|]; vm_compute; reflexivity|].
  apply (rtc_l _ _ begun); [apply after_step; vm_compute; reflexivity|].
  apply (rtc_l _ _ reaped); [apply after_step; [split; [|unfold NTASK; lia]|]; vm_compute; reflexivity|].
  apply rtc_refl.
Qed.


Lemma wait_reaps_first_zombie_witness :
  ∃ s', wait 10 (λ _, 0x80400000) 0 child_dead = Done (Some 2, s') ∧ wf s' ∧
    world s' = world child_dead ∧ tasks s' = alter freed 2%nat (tasks child_dead).
Proof.
  apply (wait_reaps_first_zombie 10 (λ _, 0x80400000) child_dead 1
    (mk_task 1 RUNNING None NoChan KForkret) 0 child_dead_wf eq_refl eq_refl) with
    (z := 2%nat) (ch := mk_task 2 ZOMBIE (Some 1%nat) NoChan KExit) (b := true); try done.
  intros k Hk (ch & Hch & Hp & _). apply table_lookup in Hch as (_ & [[-> ->]|[[-> ->]|(? & ? & ->)]]);
    cbn in Hp; (done || lia).
Defined.

(** A file layer that marks in memory what was closed, written and released,
    and a child of init that leaves an open file and a shared area. *)
Definition mark (a v : Z) : M kmem unit := modify (λ s, Kmem (upd (km_mem s) a v) (freeList s) (npage s) (total_page_ s)).
#[local] Instance files1 : FileLayer kmem := {|
  vfs_dup fp := mret fp; vfs_close _ := mret tt; vfs_old_close fp := mark fp 1; vfs_rewind _ := mret tt;
  vfs_write _ fp _ _ n _ := mark fp n;; mret n; inode_dup ip := mret ip; inode_free ip := mark ip 2;
  inode_read _ _ _ n _ := mret n |}.
Definition leaving : task :=
  set_openFiles (<[3%nat := 0x80500000]> (replicate NOFILE 0)) (set_tvma (<[2%nat := Some 5%nat]> (replicate NOMMAPFILE None))
    (mk_task 2 RUNNING (Some 1%nat) NoChan KForkret)).
Definition shared_area : vma := Vma 0x1000 0 100 3 MAP_SHARED 0x80600000 0x80700000 0.
Definition child_leaves : ks kmem :=
  set_vma_table (<[5%nat := shared_area]> (replicate NVMA zero_vma))
    (kernel (mk_task 1 SLEEPING None (ChTask 1) (KSleep true (LTask 1) (InWait 0))) leaving 2).
Lemma child_leaves_wf : wf child_leaves.
Proof.
  destruct (kernel_wf (Kmem (λ _, 0) 0 0 0) (mk_task 1 SLEEPING None (ChTask 1) (KSleep true (LTask 1) (InWait 0))) leaving 2)
    as [Hh Ht]; try done; [by right|..].
  - split; cbn; try done. intros _. split; [done|]. by exists true, (LTask 1), (InWait 0).
  - split; cbn; try done. intros j [= <-]. unfold NTASK. lia.
  - split; [by eapply holds_ext, Hh|exact Ht].
Qed.

Lemma exit_wakes_parent_witness :
  ∃ s', exit 10 7 child_leaves = Done (tt, s') ∧ wf s' ∧ cur_task s' = None ∧
    (km_mem (world s') 0x80500000, km_mem (world s') 0x80600000, km_mem (world s') 0x80700000) = (1, 100, 2) ∧
    vma_table s' !! 5%nat = Some zero_vma ∧
    (∃ t', tasks s' !! 2%nat = Some t' ∧ state t' = ZOMBIE ∧ openFiles t' = replicate NOFILE 0) ∧
    (∃ t', tasks s' !! 1%nat = Some t' ∧ state t' = RUNNABLE).
Proof.
  pose proof (exit_wakes_parent 10 child_leaves 2 leaving 7 child_leaves_wf eq_refl eq_refl ltac:(done)) as H.
  assert (match exit_world 10 (vma_table child_leaves) leaving (world child_leaves) with
          | Done (_, w) => (km_mem w 0x80500000, km_mem w 0x80600000, km_mem w 0x80700000) = (1, 100, 2)
          | _ => False end) as Hw by (vm_compute; reflexivity).
  destruct (exit_world 10 (vma_table child_leaves) leaving (world child_leaves)) as [[[] w]|m|]; [|destruct Hw..].
  destruct H as (s' & Hrun & Hwf & Hc & Hw' & Hv & (t' & Ht' & Hz & _ & _ & Hof & _) & _ & Hpar).
  exists s'. split; [exact Hrun|]. split; [exact Hwf|]. split; [exact Hc|]. split; [rewrite Hw'; exact Hw|].
  split; [rewrite Hv; vm_compute; reflexivity|]. split; [exists t'; exact (conj Ht' (conj Hz Hof))|].
  exact (Hpar 1%nat (mk_task 1 SLEEPING None (ChTask 1) (KSleep true (LTask 1) (InWait 0))) eq_refl eq_refl eq_refl eq_refl).
Defined.

Lemma fd_table_witness :
  ∃ s', registerFileHandle 0x80500000 (-1) child_runs = Done (0, s') ∧
    stored child_runs s' 2 0 (mk_task 2 RUNNING (Some 1%nat) NoChan KForkret) 0x80500000 ∧
    ∃ s'', getFileByfd 0 s' = Done (0x80500000, s'').
Proof.
  apply (fd_table child_runs 2 (mk_task 2 RUNNING (Some 1%nat) NoChan KForkret) 0x80500000
    child_runs_wf eq_refl eq_refl ltac:(lia)) with (k := 0%nat); [lia|done|intros; lia].
Defined.
End SchedWitness.
