(* ===== verification/Time.v ===== *)
(** * Calendar conversions: kernel/fs/fat32/fat_utils.cpp and kernel/os/time.cpp

    Seconds since 1970-01-01 ([time_t], a 64-bit [long]) to and from the packed
    16-bit FAT date and time, and [mktime].  The reference is the proleptic
    Gregorian calendar, defined by adding up the lengths of years and months. *)
From S2P Require Import Prelude.

Definition SECS_PER_MIN : Z := 60.
Definition SECS_PER_HOUR : Z := 60 * 60.
Definition SECS_PER_DAY : Z := SECS_PER_HOUR * 24.
Definition UNIX_SECS_1980 : Z := 315532800.
Definition UNIX_SECS_2108 : Z := 4354819200.
Definition DAYS_DELTA : Z := 365 * 10 + 2.
Definition YEAR_2100 : Z := 120.
Definition IS_LEAP_YEAR (y : Z) : bool := (Z.land y 3 =? 0) && negb (y =? YEAR_2100).

Definition days_in_year_table : list Z :=
  [0; 0; 31; 59; 90; 120; 151; 181; 212; 243; 273; 304; 334; 0; 0; 0].
Definition days_in_year (month : Z) : Z := nth (Z.to_nat month) days_in_year_table 0.

(** [leap_day = (year + 3) / 4; if (year > YEAR_2100) leap_day--;] *)
Definition leap_days (year : Z) : Z :=
  let leap_day := (year + 3) / 4 in
  if YEAR_2100 <? year then leap_day - 1 else leap_day.

(** The [tv_sec] of [FatTime2Unix] ([tv_nsec] is 0). *)
Definition FatTime2Unix (date time : Z) : Z :=
  let year := Z.shiftr date 9 in
  let month := Z.max 1 (Z.land (Z.shiftr date 5) 0xf) in
  let day := Z.max 1 (Z.land date 0x1f) - 1 in
  let leap_day := leap_days year in
  let leap_day := if IS_LEAP_YEAR year && (2 <? month) then leap_day + 1 else leap_day in
  let second := Z.shiftl (Z.land time 0x1f) 1 in
  let second := second + Z.land (Z.shiftr time 5) 0x3f * SECS_PER_MIN in
  let second := second + Z.shiftr time 11 * SECS_PER_HOUR in
  second + (year * 365 + leap_day + days_in_year month + day + DAYS_DELTA) * SECS_PER_DAY.

(** [for (month = 1; month < 12; month++) if (days_in_year[month + 1] > day) break;] *)
Fixpoint find_month (n : nat) (month day : Z) : Z :=
  match n with
  | O => month
  | S n => if month <? 12
           then if day <? days_in_year (month + 1) then month else find_month n (month + 1) day
           else month
  end.

(** The month and the 0-based day of the month of day [day] of the year. *)
Definition month_day (leap : bool) (day : Z) : Z * Z :=
  if leap && (day =? days_in_year 3) then (2, day - days_in_year 2)
  else
    let day := if leap && (days_in_year 3 <? day) then day - 1 else day in
    let month := find_month 12 1 day in
    (month, day - days_in_year month).

(** The packed ([date], [time]) of [UnixTime2Fat]. *)
Definition UnixTime2Fat (second : Z) : Z * Z :=
  if second <? UNIX_SECS_1980 then (Z.lor (Z.lor (Z.shiftl 0 9) (Z.shiftl 1 5)) 1, 0)
  else if UNIX_SECS_2108 <=? second then
    (Z.lor (Z.lor (Z.shiftl 127 9) (Z.shiftl 12 5)) 31,
     Z.lor (Z.lor (Z.shiftl 23 11) (Z.shiftl 59 5)) 29)
  else
    let day := second / SECS_PER_DAY - DAYS_DELTA in
    let year := day / 365 in
    let year := if day <? year * 365 + leap_days year then year - 1 else year in
    let day := day - (year * 365 + leap_days year) in
    let '(month, day) := month_day (IS_LEAP_YEAR year) day in
    let time := Z.lor (Z.lor (Z.shiftl ((second / SECS_PER_HOUR) mod 24) 11)
                             (Z.shiftl ((second / SECS_PER_MIN) mod 60) 5))
                      (Z.shiftr (second mod SECS_PER_MIN) 1) in
    let date := Z.lor (Z.lor (Z.shiftl year 9) (Z.shiftl month 5)) (day + 1) in
    (u16 date, u16 time).

(** time.cpp: all arithmetic on [unsigned int] until the cast to 64 bits. *)
Definition mktime (year0 mon0 day hour min sec : Z) : Z :=
  let mon := u32 (mon0 - 2) in
  let '(mon, year) :=
    if i32 mon <=? 0 then (u32 (mon + 12), u32 (year0 - 1)) else (mon, year0) in
  let days := u32 (year / 4 - year / 100 + year / 400 + u32 (367 * mon) / 12 + day) in
  u64 ((((days + u32 (year * 365) - 719499) * 24 + hour) * 60 + min) * 60 + sec).

(** ** The Gregorian calendar *)

Definition gregorian_leap (y : Z) : bool :=
  (y mod 4 =? 0) && (negb (y mod 100 =? 0) || (y mod 400 =? 0)).
Definition year_length (y : Z) : Z := if gregorian_leap y then 366 else 365.
Definition month_length (leap : bool) (m : Z) : Z :=
  if m =? 2 then (if leap then 29 else 28)
  else if (m =? 4) || (m =? 6) || (m =? 9) || (m =? 11) then 30 else 31.

(** The days from January 1st of year [y] on: [n] years, and [n] months. *)
Fixpoint years_days (y : Z) (n : nat) : Z :=
  match n with O => 0 | S n => years_days y n + year_length (y + Z.of_nat n) end.
Fixpoint months_days (leap : bool) (n : nat) : Z :=
  match n with O => 0 | S n => months_days leap n + month_length leap (1 + Z.of_nat n) end.

(** Days from 1970-01-01 to year [y], month [m], day [d]. *)
Definition civil_days (y m d : Z) : Z :=
  years_days 1970 (Z.to_nat (y - 1970)) + months_days (gregorian_leap y) (Z.to_nat (m - 1)) + (d - 1).

Definition valid_date (y m d : Z) : Prop := 1 ≤ m ≤ 12 ∧ 1 ≤ d ≤ month_length (gregorian_leap y) m.
Definition valid_time (h mi s : Z) : Prop := 0 ≤ h < 24 ∧ 0 ≤ mi < 60 ∧ 0 ≤ s < 60.

(** The fields of a packed FAT date and time. *)
Definition fat_date (year month day : Z) : Z := year * 512 + month * 32 + day.
Definition fat_time (h mi s : Z) : Z := h * 2048 + mi * 32 + s.

(** ** Lemmas *)

Lemma years_days_closed n :
  let y := 1970 + Z.of_nat n in
  years_days 1970 n = 365 * Z.of_nat n + (y - 1) / 4 - (y - 1) / 100 + (y - 1) / 400 - 477.
Proof.
  induction n as [|n IH]; [reflexivity|]. cbn [years_days]. cbv zeta in *. rewrite IH.
  unfold year_length, gregorian_leap. rewrite Nat2Z.inj_succ.
  set (y := 1970 + Z.of_nat n). replace (1970 + Z.succ (Z.of_nat n) - 1) with y by lia.
  replace (Z.of_nat n) with (y - 1970) by lia. clearbody y. clear.
  destruct (Z.eqb_spec (y mod 4) 0), (Z.eqb_spec (y mod 100) 0), (Z.eqb_spec (y mod 400) 0);
    cbn [andb orb negb]; dlia.
Qed.

(** The days before a month, as the table in the code has them. *)
Lemma months_days_table (leap : bool) m :
  1 ≤ m ≤ 12 →
  months_days leap (Z.to_nat (m - 1)) = days_in_year m + (if leap && (2 <? m) then 1 else 0).
Proof.
  intros Hm. assert (∃ n, (n < 12)%nat ∧ m = 1 + Z.of_nat n) as (n & Hn & ->).
  { exists (Z.to_nat (m - 1)). lia. }
  do 12 (destruct n as [|n]; [by destruct leap|]). lia.
Qed.

Lemma month_length_bound leap m : 28 ≤ month_length leap m ≤ 31.
Proof. unfold month_length. repeat case_match; lia. Qed.

(** The code's leap years are the Gregorian ones between 1980 and 2107. *)
Lemma IS_LEAP_YEAR_gregorian y :
  0 ≤ y < 128 → IS_LEAP_YEAR y = gregorian_leap (1980 + y).
Proof.
  intros Hy. unfold IS_LEAP_YEAR, gregorian_leap, YEAR_2100.
  assert (Z.land y 3 = y mod 4) as -> by (by apply (land_ones_mod y 2)).
  destruct (Z.eqb_spec (y mod 4) 0), (Z.eqb_spec y 120), (Z.eqb_spec ((1980 + y) mod 4) 0),
    (Z.eqb_spec ((1980 + y) mod 100) 0), (Z.eqb_spec ((1980 + y) mod 400) 0); cbn; try done; dlia.
Qed.

(** Day number of January 1st of year 1980 + [y]. *)
Lemma year_start y :
  0 ≤ y ≤ 128 → years_days 1970 (Z.to_nat (1980 + y - 1970)) = DAYS_DELTA + y * 365 + leap_days y.
Proof.
  intros Hy. rewrite years_days_closed. rewrite Z2Nat.id by lia.
  unfold leap_days, YEAR_2100, DAYS_DELTA. destruct (Z.ltb_spec 120 y); dlia.
Qed.

Lemma year_start_succ y :
  0 ≤ y < 128 →
  (y + 1) * 365 + leap_days (y + 1) =
  y * 365 + leap_days y + (if IS_LEAP_YEAR y then 366 else 365).
Proof.
  intros Hy. unfold leap_days, IS_LEAP_YEAR, YEAR_2100.
  assert (Z.land y 3 = y mod 4) as -> by (by apply (land_ones_mod y 2)).
  destruct (Z.ltb_spec 120 (y + 1)), (Z.ltb_spec 120 y), (Z.eqb_spec (y mod 4) 0), (Z.eqb_spec y 120);
    cbn [andb negb]; dlia.
Qed.

(** Finite checks of the month tables, over one common and one leap year. *)
Definition check_month_day (leap : bool) (d : Z) : bool :=
  let '(m, k) := month_day leap d in
  (1 <=? m) && (m <=? 12) && (0 <=? k) && (k + 1 <=? month_length leap m) &&
  (months_days leap (Z.to_nat (m - 1)) + k =? d).

Lemma check_month_day_true :
  forallb (λ n, check_month_day false (Z.of_nat n)) (List.seq 0 365) &&
  forallb (λ n, check_month_day true (Z.of_nat n)) (List.seq 0 366) = true.
Proof. vm_compute. reflexivity. Qed.

Lemma month_day_spec (leap : bool) d m k :
  0 ≤ d < (if leap then 366 else 365) → month_day leap d = (m, k) →
  1 ≤ m ≤ 12 ∧ 0 ≤ k ∧ k + 1 ≤ month_length leap m ∧
  months_days leap (Z.to_nat (m - 1)) + k = d.
Proof.
  intros Hd Hmk. pose proof check_month_day_true as H.
  apply andb_true_iff in H as [H0 H1]. rewrite List.forallb_forall in H0, H1.
  assert (check_month_day leap d = true) as Hc.
  { replace d with (Z.of_nat (Z.to_nat d)) by lia.
    destruct leap; [apply H1|apply H0]; apply List.in_seq; lia. }
  unfold check_month_day in Hc. rewrite Hmk in Hc. bool_arith. lia.
Qed.

Definition check_day_month (leap : bool) (m d : Z) : bool :=
  if d <=? month_length leap m
  then bool_decide (month_day leap (months_days leap (Z.to_nat (m - 1)) + d - 1) = (m, d - 1))
  else true.

Lemma check_day_month_true :
  forallb (λ leap, forallb (λ m, forallb (λ d, check_day_month leap (Z.of_nat m) (Z.of_nat d))
    (List.seq 1 31)) (List.seq 1 12)) [true; false] = true.
Proof. vm_compute. reflexivity. Qed.

Lemma month_day_inverse (leap : bool) m d :
  1 ≤ m ≤ 12 → 1 ≤ d ≤ month_length leap m →
  month_day leap (months_days leap (Z.to_nat (m - 1)) + d - 1) = (m, d - 1).
Proof.
  intros Hm Hd. pose proof check_day_month_true as H. pose proof (month_length_bound leap m).
  rewrite List.forallb_forall in H. specialize (H leap ltac:(destruct leap; cbn; auto)). cbv beta in H.
  rewrite List.forallb_forall in H.
  specialize (H (Z.to_nat m) ltac:(apply List.in_seq; lia)). cbv beta in H.
  rewrite List.forallb_forall in H. specialize (H (Z.to_nat d) ltac:(apply List.in_seq; lia)).
  cbv beta in H. rewrite !Z2Nat.id in H by lia. unfold check_day_month in H.
  destruct (Z.leb_spec d (month_length leap m)); [|lia]. by apply bool_decide_eq_true in H.
Qed.

Lemma months_days_range (leap : bool) m d :
  1 ≤ m ≤ 12 → 1 ≤ d ≤ month_length leap m →
  0 ≤ months_days leap (Z.to_nat (m - 1)) + d - 1 < (if leap then 366 else 365).
Proof.
  intros Hm Hd. assert (∃ n, (n < 12)%nat ∧ m = 1 + Z.of_nat n) as (n & Hn & ->).
  { exists (Z.to_nat (m - 1)). lia. }
  do 12 (destruct n as [|n]; [destruct leap;
    match goal with |- context [months_days ?b ?k] =>
      let v := eval vm_compute in (months_days b k) in change (months_days b k) with v end;
    match type of Hd with context [month_length ?b ?k] =>
      let v := eval vm_compute in (month_length b k) in change (month_length b k) with v in Hd end; lia|]). lia.
Qed.

(** ** Packed fields *)

Lemma lor_shiftl a b k : 0 ≤ k → 0 ≤ b < 2 ^ k → Z.lor (Z.shiftl a k) b = a * 2 ^ k + b.
Proof.
  intros Hk Hb. rewrite Z.shiftl_mul_pow2 by done. apply (lor_add_disjoint _ _ k); [done|done|].
  apply Z.mod_mul. lia.
Qed.

(** The three fields of a packed 16-bit word with 5-bit and [w]-bit low parts. *)
Lemma pack_fields a b c w :
  5 ≤ w → 0 ≤ c < 32 → 0 ≤ b < 2 ^ (w - 5) → 0 ≤ a →
  Z.lor (Z.lor (Z.shiftl a w) (Z.shiftl b 5)) c = a * 2 ^ w + b * 32 + c.
Proof.
  intros Hw Hc Hb Ha.
  assert (2 ^ w = 2 ^ (w - 5) * 32) as Hpw.
  { change 32 with (2 ^ 5). rewrite <- Z.pow_add_r by lia. f_equal. lia. }
  rewrite (Z.shiftl_mul_pow2 b 5) by lia. rewrite lor_shiftl by (change (2 ^ 5) with 32; nia).
  change (2 ^ 5) with 32. apply (lor_add_disjoint _ _ 5); [lia|lia|].
  rewrite Hpw. change (2 ^ 5) with 32.
  replace (a * (2 ^ (w - 5) * 32) + b * 32) with ((a * 2 ^ (w - 5) + b) * 32) by lia.
  apply Z.mod_mul. lia.
Qed.

Lemma fat_date_fields y m d :
  0 ≤ y < 128 → 1 ≤ m ≤ 12 → 1 ≤ d ≤ 31 →
  Z.shiftr (fat_date y m d) 9 = y ∧ Z.land (Z.shiftr (fat_date y m d) 5) 0xf = m ∧
  Z.land (fat_date y m d) 0x1f = d.
Proof.
  intros Hy Hm Hd. unfold fat_date. rewrite !Z.shiftr_div_pow2 by lia.
  change 0xf with (2 ^ 4 - 1). change 0x1f with (2 ^ 5 - 1). rewrite !land_ones_mod by lia.
  change (2 ^ 9) with 512. change (2 ^ 5) with 32. change (2 ^ 4) with 16. split_and!; dlia.
Qed.

Lemma fat_time_fields h mi s :
  0 ≤ h < 24 → 0 ≤ mi < 60 → 0 ≤ s < 30 →
  Z.shiftr (fat_time h mi s) 11 = h ∧ Z.land (Z.shiftr (fat_time h mi s) 5) 0x3f = mi ∧
  Z.land (fat_time h mi s) 0x1f = s.
Proof.
  intros Hh Hmi Hs. unfold fat_time. rewrite !Z.shiftr_div_pow2 by lia.
  change 0x3f with (2 ^ 6 - 1). change 0x1f with (2 ^ 5 - 1). rewrite !land_ones_mod by lia.
  change (2 ^ 11) with 2048. change (2 ^ 5) with 32. change (2 ^ 6) with 64. split_and!; dlia.
Qed.

(** ** Both directions *)

(** Seconds from 1970 to a date and time. *)
Definition civil_secs (y m d h mi s : Z) : Z :=
  civil_days y m d * 86400 + h * 3600 + mi * 60 + s.

Definition valid_fat (y m d h mi s : Z) : Prop :=
  0 ≤ y < 128 ∧ valid_date (1980 + y) m d ∧ 0 ≤ h < 24 ∧ 0 ≤ mi < 60 ∧ 0 ≤ s < 30.

(** Days of a valid FAT date, in the code's terms. *)
Lemma civil_days_fat y m d :
  0 ≤ y < 128 →
  civil_days (1980 + y) m d =
  DAYS_DELTA + (y * 365 + leap_days y) + (months_days (IS_LEAP_YEAR y) (Z.to_nat (m - 1)) + d - 1).
Proof.
  intros Hy. unfold civil_days. rewrite year_start, IS_LEAP_YEAR_gregorian by lia. lia.
Qed.

Lemma FatTime2Unix_civil y m d h mi s :
  valid_fat y m d h mi s →
  FatTime2Unix (fat_date y m d) (fat_time h mi s) = civil_secs (1980 + y) m d h mi (2 * s).
Proof.
  intros (Hy & [Hm Hd] & Hh & Hmi & Hs).
  pose proof (month_length_bound (gregorian_leap (1980 + y)) m).
  destruct (fat_date_fields y m d) as (E1 & E2 & E3); [lia..|].
  destruct (fat_time_fields h mi s) as (F1 & F2 & F3); [lia..|].
  unfold FatTime2Unix, civil_secs. rewrite E1, E2, E3, F1, F2, F3.
  rewrite !Z.max_r by lia. rewrite civil_days_fat, months_days_table by done.
  rewrite Z.shiftl_mul_pow2 by lia. change (2 ^ 1) with 2.
  change SECS_PER_DAY with 86400. change SECS_PER_HOUR with 3600. change SECS_PER_MIN with 60.
  destruct (IS_LEAP_YEAR y && (2 <? m)); lia.
Qed.

(** The year the code finds for a day number, and the day of that year. *)
Definition find_year (day : Z) : Z :=
  let year := day / 365 in if day <? year * 365 + leap_days year then year - 1 else year.

Lemma find_year_unique day y :
  0 ≤ y < 128 → y * 365 + leap_days y ≤ day < (y + 1) * 365 + leap_days (y + 1) →
  find_year day = y.
Proof.
  intros Hy. unfold find_year, leap_days, YEAR_2100. intros Hd.
  destruct (Z.ltb_spec 120 y), (Z.ltb_spec 120 (y + 1)), (Z.ltb_spec 120 (day / 365));
    match goal with |- context [if ?b then _ else _] => destruct b eqn:E end; bool_arith; dlia.
Qed.

Lemma find_year_exists day :
  0 ≤ day < 46751 → ∃ y, 0 ≤ y < 128 ∧ y * 365 + leap_days y ≤ day < (y + 1) * 365 + leap_days (y + 1).
Proof.
  intros Hd. exists (find_year day). unfold find_year, leap_days, YEAR_2100.
  repeat case_match; bool_arith; dlia.
Qed.

Lemma UnixTime2Fat_fields y m d h mi s r :
  valid_fat y m d h mi s → 0 ≤ r < 2 →
  UnixTime2Fat (civil_secs (1980 + y) m d h mi (2 * s) + r) = (fat_date y m d, fat_time h mi s).
Proof.
  intros (Hy & [Hm Hd] & Hh & Hmi & Hs) Hr.
  rewrite <- IS_LEAP_YEAR_gregorian in Hd by done.
  pose proof (month_length_bound (IS_LEAP_YEAR y) m).
  pose proof (months_days_range _ m d Hm Hd) as Hdoy.
  pose proof (year_start_succ y Hy) as Hys.
  assert (0 ≤ y * 365 + leap_days y ≤ 46751 - 365) as Hyb.
  { unfold leap_days, YEAR_2100. destruct (Z.ltb_spec 120 y); dlia. }
  assert (y * 365 + leap_days y + (if IS_LEAP_YEAR y then 366 else 365) ≤ 46751) as Hyb2.
  { rewrite <- Hys. unfold leap_days, YEAR_2100. destruct (Z.ltb_spec 120 (y + 1)); dlia. }
  unfold civil_secs. rewrite civil_days_fat by done.
  set (doy := months_days (IS_LEAP_YEAR y) (Z.to_nat (m - 1)) + d - 1) in *.
  set (ys := y * 365 + leap_days y) in *.
  set (sec := (DAYS_DELTA + ys + doy) * 86400 + h * 3600 + mi * 60 + 2 * s + r).
  assert (sec / 86400 = DAYS_DELTA + ys + doy) as Hday by (unfold sec, DAYS_DELTA; dlia).
  assert ((sec / 3600) mod 24 = h ∧ (sec / 60) mod 60 = mi ∧ sec mod 60 = 2 * s + r) as (Eh & Emi & Es).
  { unfold sec, DAYS_DELTA. split_and!; dlia. }
  unfold UnixTime2Fat. destruct (Z.ltb_spec sec UNIX_SECS_1980) as [Hlt|_].
  { unfold sec, UNIX_SECS_1980, DAYS_DELTA in Hlt. lia. }
  destruct (Z.leb_spec UNIX_SECS_2108 sec) as [Hge|_].
  { unfold sec, UNIX_SECS_2108, DAYS_DELTA in Hge. destruct (IS_LEAP_YEAR y); lia. }
  change SECS_PER_DAY with 86400. change SECS_PER_HOUR with 3600. change SECS_PER_MIN with 60.
  rewrite Hday, Eh, Emi, Es. replace (DAYS_DELTA + ys + doy - DAYS_DELTA) with (ys + doy) by lia.
  fold (find_year (ys + doy)). rewrite (find_year_unique _ y) by (fold ys; lia).
  fold ys. replace (ys + doy - ys) with doy by lia.
  unfold doy. rewrite month_day_inverse by done.
  assert (Z.shiftr (2 * s + r) 1 = s) as ->.
  { rewrite Z.shiftr_div_pow2 by lia. change (2 ^ 1) with 2. dlia. }
  rewrite !pack_fields by (change (2 ^ (11 - 5)) with 64; change (2 ^ (9 - 5)) with 16; lia).
  change (2 ^ 11) with 2048. change (2 ^ 9) with 512. unfold fat_date, fat_time.
  rewrite !u16_small by lia. f_equal. lia.
Qed.

Lemma UnixTime2Fat_exists sec :
  UNIX_SECS_1980 ≤ sec < UNIX_SECS_2108 →
  ∃ y m d h mi s, valid_fat y m d h mi s ∧
    sec = civil_secs (1980 + y) m d h mi (2 * s) + sec mod 2.
Proof.
  unfold UNIX_SECS_1980, UNIX_SECS_2108. intros Hsec.
  destruct (find_year_exists (sec / 86400 - DAYS_DELTA)) as (y & Hy & Hd); [unfold DAYS_DELTA; dlia|].
  rewrite year_start_succ in Hd by done.
  set (doy := sec / 86400 - DAYS_DELTA - (y * 365 + leap_days y)).
  destruct (month_day (IS_LEAP_YEAR y) doy) as [m k] eqn:Hmk.
  apply month_day_spec in Hmk as (Hm & Hk & Hkl & Hsum); [|unfold doy; lia].
  exists y, m, (k + 1), ((sec / 3600) mod 24), ((sec / 60) mod 60), ((sec mod 60) / 2). split.
  - split_and!; [lia|lia| |dlia..]. split; [lia|]. rewrite <- IS_LEAP_YEAR_gregorian by done. lia.
  - unfold civil_secs. rewrite civil_days_fat by done.
    replace (months_days (IS_LEAP_YEAR y) (Z.to_nat (m - 1)) + (k + 1) - 1) with doy by lia.
    unfold doy. dlia.
Qed.

(** ** mktime *)

Lemma gregorian_leap_cases y :
  (gregorian_leap y = true → y mod 4 = 0 ∧ (y mod 100 ≠ 0 ∨ y mod 400 = 0)) ∧
  (gregorian_leap y = false → y mod 4 ≠ 0 ∨ (y mod 100 = 0 ∧ y mod 400 ≠ 0)).
Proof.
  unfold gregorian_leap. split; intros H.
  - bool_arith. split; [done|]. apply orb_true_iff in H0 as [H0|H0]; bool_arith; auto.
  - apply andb_false_iff in H as [H|H]; bool_arith; auto.
Qed.

(** A concrete month: evaluate its table entry, then compare the two sums. *)
Ltac mktime_month Hl1 Hl2 :=
  match goal with |- context [days_in_year ?k] =>
    let v := eval vm_compute in (days_in_year k) in change (days_in_year k) with v end;
  match goal with |- context [2 <? ?k] =>
    let v := eval vm_compute in (2 <? k) in change (2 <? k) with v end;
  destruct (gregorian_leap _); cbn [andb];
  [specialize (Hl1 eq_refl)|specialize (Hl2 eq_refl)]; dlia.

Lemma mktime_civil y m d h mi s :
  1970 ≤ y < 1000000 → 1 ≤ m ≤ 12 → 1 ≤ d ≤ 31 → valid_time h mi s →
  mktime y m d h mi s = civil_secs y m d h mi s.
Proof.
  intros Hy Hm Hd (Hh & Hmi & Hs). unfold mktime, civil_secs, civil_days.
  rewrite months_days_table, years_days_closed, Z2Nat.id by lia.
  assert (∃ n, (n < 12)%nat ∧ m = 1 + Z.of_nat n) as (n & Hn & ->).
  { exists (Z.to_nat (m - 1)). lia. }
  replace (1970 + (y - 1970)) with y by lia.
  destruct (gregorian_leap_cases y) as [Hl1 Hl2].
  assert (∀ mon year, 0 < mon ≤ 12 → 1969 ≤ year < 1000000 → 1970 ≤ year ∨ 11 ≤ mon →
    u64 ((((u32 (year / 4 - year / 100 + year / 400 + u32 (367 * mon) / 12 + d)
             + u32 (year * 365) - 719499) * 24 + h) * 60 + mi) * 60 + s) =
    (year / 4 - year / 100 + year / 400 + 367 * mon / 12 + d + year * 365 - 719499) * 86400
      + h * 3600 + mi * 60 + s) as Hmain.
  { intros mon year Hmon Hyear Hor. rewrite (u32_small (367 * mon)), (u32_small (year * 365)) by lia.
    rewrite u32_small by dlia. rewrite u64_small; [lia|]. dlia. }
  match goal with |- (let '(mon, year) := ?c in _) = _ =>
    assert (c = if 1 + Z.of_nat n <=? 2 then (1 + Z.of_nat n + 10, y - 1)
                else (1 + Z.of_nat n - 2, y)) as -> end.
  { destruct (Z.leb_spec (1 + Z.of_nat n) 2) as [Hle|Hgt].
    - assert (n = 0 ∨ n = 1)%nat as [-> | ->] by lia; cbn -[u32 Z.sub]; by rewrite (u32_small (y - 1)) by lia.
    - rewrite (u32_small (1 + _ - 2)), i32_small by lia.
      destruct (Z.leb_spec (1 + Z.of_nat n - 2) 0); [lia|done]. }
  destruct (Z.leb_spec (1 + Z.of_nat n) 2) as [Hle|Hgt]; rewrite Hmain by lia.
  all: do 12 (destruct n as [|n]; [try lia; mktime_month Hl1 Hl2|]); lia.
Qed.

(** ** Properties *)

(** Claim C32. Converting a UNIX time of 1980 to 2107 to the packed FAT format
    and back gives the same second, rounded down to the even second FAT
    stores; times outside saturate to the first and the last FAT time.  The
    other way round, every valid FAT date and time survives, and the seconds it
    stands for are those of the Gregorian calendar: the sum of the year and
    month lengths since 1970. *)
Theorem unix_fat_unix (sec : Z) :
  (UNIX_SECS_1980 ≤ sec < UNIX_SECS_2108 →
     FatTime2Unix (UnixTime2Fat sec).1 (UnixTime2Fat sec).2 = sec - sec mod 2) ∧
  (sec < UNIX_SECS_1980 → UnixTime2Fat sec = (fat_date 0 1 1, fat_time 0 0 0)) ∧
  (UNIX_SECS_2108 ≤ sec → UnixTime2Fat sec = (fat_date 127 12 31, fat_time 23 59 29)) ∧
  (∀ y m d h mi s, valid_fat y m d h mi s →
     FatTime2Unix (fat_date y m d) (fat_time h mi s) = civil_secs (1980 + y) m d h mi (2 * s) ∧
     UnixTime2Fat (FatTime2Unix (fat_date y m d) (fat_time h mi s)) = (fat_date y m d, fat_time h mi s)).
Proof.
  split_and!.
  - intros Hsec. destruct (UnixTime2Fat_exists sec Hsec) as (y & m & d & h & mi & s & Hv & Heq).
    rewrite Heq at 1 2. rewrite UnixTime2Fat_fields by (done || dlia). cbn [fst snd].
    rewrite FatTime2Unix_civil by done. lia.
  - intros H. unfold UnixTime2Fat. by apply Z.ltb_lt in H as ->.
  - intros H. unfold UnixTime2Fat.
    destruct (Z.ltb_spec sec UNIX_SECS_1980); [unfold UNIX_SECS_1980, UNIX_SECS_2108 in *; lia|].
    by apply Z.leb_le in H as ->.
  - intros y m d h mi s Hv. rewrite FatTime2Unix_civil by done. split; [done|].
    rewrite <- (UnixTime2Fat_fields y m d h mi s 0) by (done || lia). by rewrite Z.add_0_r.
Qed.

Lemma unix_fat_unix_witness :
  FatTime2Unix (UnixTime2Fat 1626699517).1 (UnixTime2Fat 1626699517).2 = 1626699516 ∧
  UnixTime2Fat (FatTime2Unix (fat_date 40 2 29) (fat_time 23 59 29)) = (fat_date 40 2 29, fat_time 23 59 29).
Proof.
  destruct (unix_fat_unix 1626699517) as (H1 & _ & _ & H2). split.
  - rewrite H1; [reflexivity|]. split; [discriminate|reflexivity].
  - apply H2. repeat split; vm_compute; congruence.
Defined.

(** [mktime] computes Gregorian calendar time: for a year from 1970
    to 999999 the result is the number of seconds in all the years, months and
    days before, without overflow of its 32-bit intermediate values; so it
    agrees with [FatTime2Unix] on every valid FAT date. *)
Theorem mktime_gregorian (y m d h mi s : Z) :
  1970 ≤ y < 1000000 → valid_date y m d → valid_time h mi s →
  mktime y m d h mi s = civil_secs y m d h mi s ∧
  (∀ s2, valid_fat (y - 1980) m d h mi s2 →
     mktime y m d h mi (2 * s2) = FatTime2Unix (fat_date (y - 1980) m d) (fat_time h mi s2)).
Proof.
  intros Hy [Hm Hd] Ht. pose proof (month_length_bound (gregorian_leap y) m).
  split; [apply mktime_civil; (done || lia)|]. intros s2 Hv.
  rewrite FatTime2Unix_civil by done. replace (1980 + (y - 1980)) with y by lia.
  destruct Ht as (? & ? & ?), Hv as (? & ? & ? & ? & ?).
  apply mktime_civil; unfold valid_time; lia.
Qed.

Lemma mktime_gregorian_witness : mktime 2021 7 19 12 58 36 = civil_secs 2021 7 19 12 58 36.
Proof. apply mktime_gregorian; [lia|split; vm_compute; split; discriminate|unfold valid_time; lia]. Defined.
