(* ===== verification/Pipe.v ===== *)
(** * Pipes: kernel/fs/Pipe.cpp

    A pipe is a ring of [PIPESIZE] bytes with two 32-bit counters that only
    grow.  Everything a call does between taking [lock_] and releasing it, or
    going to sleep, is one step: Locks.v shows that the lock excludes other
    CPUs.  A call that sleeps leaves the point at which it goes on, a [pcont],
    in the table of the tasks that use the pipe; [sleep] and [wakeup] act on
    that table the way TaskScheduler.cpp does (Sched.v models them in full). *)
From S2P Require Import Prelude Mem KAlloc Vm VmFacts VmProps VmWitness.

Definition PIPESIZE : Z := 512.

(** The channels [&nread] and [&nwrite]. *)
Inductive wchan := ChRead | ChWrite.
#[global] Instance wchan_eq_dec : EqDecision wchan.
Proof. solve_decision. Defined.
Inductive EndType := READ_END | WRITE_END.

Record pipe := MkPipe {
  readopen : bool;
  writeopen : bool;
  nwrite : Z;
  nread : Z;
  data : list Z;
}.

(** What a sleeping call goes on with: [read] its loop, [write] its inner loop
    at byte [i]. *)
Inductive pcont := KRead (addr n : Z) | KWrite (addr n : Z) (i : nat).
Inductive pstate := PIdle | PAsleep (c : wchan) (k : pcont) | PReady (k : pcont).
Record ptask := PTask { pt_killed : bool; pt_pagetable : Z; pt_state : pstate }.

Record pst (W : Type) := PS { pp : pipe; users : list ptask; pw : W }.
Arguments PS {W}. Arguments pp {W}. Arguments users {W}. Arguments pw {W}.

(** The end of a step of a call. *)
Inductive pres := Ret (r : Z) | Slept.

Definition wake_one (c : wchan) (t : ptask) : ptask :=
  match pt_state t with
  | PAsleep c' k => if decide (c' = c) then PTask (pt_killed t) (pt_pagetable t) (PReady k) else t
  | _ => t
  end.
Definition put_state (x : pstate) (t : ptask) : ptask := PTask (pt_killed t) (pt_pagetable t) x.

Section pipes.
Context {W : Type} `{PageAllocator W}.
(** The address of the local variable [ch] and the bound of the copy loop. *)
Context (ch : Z) (fuel : nat).
Abbreviation PM := (M (pst W)).

Definition in_w {A : Type} (c : M W A) : PM A := λ s,
  match c (pw s) with
  | Done (a, w) => Done (a, PS (pp s) (users s) w)
  | Panic e => Panic e
  | NoFuel => NoFuel
  end.
Definition set_pipe (p : pipe) : PM unit := modify (λ s, PS p (users s) (pw s)).
Definition wakeup (c : wchan) : PM unit := modify (λ s, PS (pp s) (wake_one c <$> users s) (pw s)).
Definition sleep (me : nat) (c : wchan) (k : pcont) : PM unit :=
  modify (λ s, PS (pp s) (alter (put_state (PAsleep c k)) me (users s)) (pw s)).
Definition task_of (me : nat) : PM ptask := λ s,
  match users s !! me with Some t => Done (t, s) | None => Panic "task" end.

(** [copyout(task->pagetable, va, &ch, 1)] with [ch = b], and
    [copyin(task->pagetable, &ch, va, 1)]. *)
Definition copy_byte_out (pagetable va b : Z) : M W Z :=
  wr8 ch b;; copyout fuel pagetable va ch 1.
Definition copy_byte_in (pagetable va : Z) : M W (Z * Z) :=
  r ← copyin fuel pagetable ch va 1;
  b ← gets (λ w, pg_mem w ch);
  mret (r, b).

Definition Pipe : pipe := MkPipe true true 0 0 (replicate (Z.to_nat PIPESIZE) 0).

(** The loop of [read]: [m] bytes are left; the result is the final [i]. *)
Fixpoint read_loop (pagetable addr i : Z) (m : nat) : PM Z :=
  match m with
  | O => mret i
  | S m =>
      p ← gets pp;
      if nread p =? nwrite p then mret i
      else
        let b := nth (Z.to_nat (nread p mod PIPESIZE)) (data p) 0 in
        set_pipe (MkPipe (readopen p) (writeopen p) (nwrite p) (u32 (nread p + 1)) (data p));;
        r ← in_w (copy_byte_out pagetable (u64 (addr + i)) b);
        if r =? -1 then mret i else read_loop pagetable addr (i + 1) m
  end.

Definition read (me : nat) (addr n : Z) : PM pres :=
  t ← task_of me;
  p ← gets pp;
  if (nread p =? nwrite p) && writeopen p then
    if pt_killed t then mret (Ret (-1))
    else sleep me ChRead (KRead addr n);; mret Slept
  else
    i ← read_loop (pt_pagetable t) addr 0 (Z.to_nat n);
    wakeup ChWrite;;
    mret (Ret i).

(** The loop of [write] from byte [i] on; [m] bytes are left. *)
Fixpoint write_loop (me : nat) (t : ptask) (addr n : Z) (i m : nat) : PM pres :=
  match m with
  | O => wakeup ChRead;; mret (Ret (Z.of_nat i))
  | S m =>
      p ← gets pp;
      if nwrite p =? u32 (nread p + PIPESIZE) then
        if negb (readopen p) || pt_killed t then mret (Ret (-1))
        else wakeup ChRead;; sleep me ChWrite (KWrite addr n i);; mret Slept
      else
        '(r, b) ← in_w (copy_byte_in (pt_pagetable t) (u64 (addr + Z.of_nat i)));
        if r =? -1 then wakeup ChRead;; mret (Ret (Z.of_nat i))
        else
          set_pipe (MkPipe (readopen p) (writeopen p) (u32 (nwrite p + 1)) (nread p)
            (<[Z.to_nat (nwrite p mod PIPESIZE) := b]> (data p)));;
          write_loop me t addr n (S i) m
  end.

Definition write_from (me : nat) (addr n : Z) (i : nat) : PM pres :=
  t ← task_of me;
  write_loop me t addr n i (Z.to_nat n - i).
Definition write (me : nat) (addr n : Z) : PM pres := write_from me addr n 0.

(** [close] frees the pipe when both ends are closed: the result says so. *)
Definition close (ty : EndType) : PM bool :=
  p ← gets pp;
  match ty with
  | READ_END =>
      set_pipe (MkPipe false (writeopen p) (nwrite p) (nread p) (data p));; wakeup ChWrite
  | WRITE_END =>
      set_pipe (MkPipe (readopen p) false (nwrite p) (nread p) (data p));; wakeup ChRead
  end;;
  p ← gets pp;
  mret (negb (readopen p) && negb (writeopen p)).

(** A call of task [me], and a woken task going on with its call. *)
Inductive call := CRead (addr n : Z) | CWrite (addr n : Z).
Definition start (me : nat) (c : call) : PM pres :=
  match c with CRead addr n => read me addr n | CWrite addr n => write me addr n end.
Definition go_on (me : nat) (k : pcont) : PM pres :=
  match k with KRead addr n => read me addr n | KWrite addr n i => write_from me addr n i end.

(** ** Abstract specification: a bounded queue

    The state is the queue of bytes in the pipe and the world; [spec_read] and
    [spec_write] do not mention the ring or the counters. *)
Definition QM (A : Type) := M (list Z * W) A.
Definition q_w {A : Type} (c : M W A) : QM A := λ s,
  match c (snd s) with
  | Done (a, w) => Done (a, (fst s, w))
  | Panic e => Panic e
  | NoFuel => NoFuel
  end.

(** Take bytes from the front while there are some and the copies succeed. *)
Fixpoint spec_read (pagetable addr i : Z) (m : nat) : QM Z :=
  match m with
  | O => mret i
  | S m =>
      q ← gets fst;
      match q with
      | [] => mret i
      | b :: q =>
          modify (λ s, (q, snd s));;
          r ← q_w (copy_byte_out pagetable (u64 (addr + i)) b);
          if r =? -1 then mret i else spec_read pagetable addr (i + 1) m
      end
  end.

(** Why the loop of [write] ended: all done, a failed copy, a full queue. *)
Inductive wend := WDone | WFault | WFull.
Fixpoint spec_write (pagetable addr : Z) (i m : nat) : QM (wend * nat) :=
  match m with
  | O => mret (WDone, i)
  | S m =>
      q ← gets fst;
      if Z.of_nat (length q) =? PIPESIZE then mret (WFull, i)
      else
        '(r, b) ← q_w (copy_byte_in pagetable (u64 (addr + Z.of_nat i)));
        if r =? -1 then mret (WFault, i)
        else modify (λ s, (fst s ++ [b], snd s));; spec_write pagetable addr (S i) m
  end.

(** The pipe [p] holds the queue [q]. *)
Record holds (p : pipe) (q : list Z) : Prop := {
  h_data : length (data p) = Z.to_nat PIPESIZE;
  h_read : 0 ≤ nread p < 2 ^ 32;
  h_write : nwrite p = u32 (nread p + Z.of_nat (length q));
  h_len : Z.of_nat (length q) ≤ PIPESIZE;
  h_ring : ∀ j : nat, (j < length q)%nat →
    data p !! Z.to_nat ((nread p + Z.of_nat j) mod PIPESIZE) = q !! j;
}.

Definition same_ends (p p' : pipe) : Prop := readopen p' = readopen p ∧ writeopen p' = writeopen p.

(** ** Lemmas *)
Lemma holds_empty p q : holds p q → (nread p =? nwrite p) = bool_decide (q = []).
Proof.
  intros [Hd Hr Hw Hl _]. rewrite Hw. destruct q as [|b q].
  - rewrite bool_decide_true by done. rewrite Z.add_0_r, u32_small by lia. by apply Z.eqb_eq.
  - rewrite bool_decide_false by done. apply Z.eqb_neq. unfold u32, PIPESIZE in *.
    cbn [length] in *. dlia.
Qed.

Lemma holds_full p q :
  holds p q → (nwrite p =? u32 (nread p + PIPESIZE)) = (Z.of_nat (length q) =? PIPESIZE).
Proof.
  intros [Hd Hr Hw Hl _]. rewrite Hw. unfold u32, PIPESIZE in *.
  destruct (Z.eqb_spec (Z.of_nat (length q)) 512) as [->|Hne]; [by apply Z.eqb_eq|].
  apply Z.eqb_neq. dlia.
Qed.

Lemma mod_u32 a : u32 a mod PIPESIZE = a mod PIPESIZE.
Proof. unfold u32, PIPESIZE. dlia. Qed.

Lemma ring_index a : (Z.to_nat (a mod PIPESIZE) < Z.to_nat PIPESIZE)%nat.
Proof. unfold PIPESIZE. pose proof (Z.mod_pos_bound a 512). lia. Qed.

(** Taking the byte at [nread], putting one at [nwrite]. *)
Lemma holds_take p b q :
  holds p (b :: q) →
  nth (Z.to_nat (nread p mod PIPESIZE)) (data p) 0 = b ∧
  holds (MkPipe (readopen p) (writeopen p) (nwrite p) (u32 (nread p + 1)) (data p)) q.
Proof.
  intros [Hd Hr Hw Hl Hring]. split.
  - specialize (Hring 0%nat ltac:(cbn; lia)). rewrite Z.add_0_r in Hring. cbn in Hring.
    by apply nth_lookup_Some with (d := 0) in Hring.
  - split; cbn [nread nwrite data readopen writeopen]; [done|apply u32_range|..].
    + rewrite Hw. unfold u32. cbn [length]. rewrite Zplus_mod_idemp_l. f_equal. lia.
    + cbn [length] in Hl. lia.
    + intros j Hj. specialize (Hring (Datatypes.S j) ltac:(cbn; lia)).
      etransitivity; [|exact Hring]. do 2 f_equal. unfold u32, PIPESIZE. dlia.
Qed.

Lemma holds_put p q b :
  holds p q → Z.of_nat (length q) ≠ PIPESIZE →
  holds (MkPipe (readopen p) (writeopen p) (u32 (nwrite p + 1)) (nread p)
    (<[Z.to_nat (nwrite p mod PIPESIZE) := b]> (data p))) (q ++ [b]).
Proof.
  intros [Hd Hr Hw Hl Hring] Hne. split; cbn [nread nwrite data readopen writeopen].
  - by rewrite length_insert.
  - done.
  - rewrite length_app, Hw. unfold u32. rewrite Zplus_mod_idemp_l. f_equal. cbn. lia.
  - rewrite length_app. cbn. lia.
  - intros j Hj. rewrite length_app in Hj. cbn in Hj. rewrite Hw, mod_u32.
    destruct (decide (j = length q)) as [->|Hj'].
    + rewrite list_lookup_insert_eq by (rewrite Hd; apply ring_index).
      rewrite lookup_app_r, Nat.sub_diag by lia. done.
    + rewrite list_lookup_insert_ne by (unfold PIPESIZE in *; dlia).
      rewrite (lookup_app_l q) by lia. apply Hring. lia.
Qed.

Lemma u64_addr a : 0 ≤ u64 a < 2 ^ 64.
Proof. apply u64_range. Qed.

Lemma copy_byte_out_total pagetable a b w :
  (2 ≤ fuel)%nat → ∃ r w', copy_byte_out pagetable (u64 a) b w = Done (r, w') ∧ (r = 0 ∨ r = -1).
Proof.
  intros Hf. unfold copy_byte_out. pose proof (u64_range a). destruct fuel as [|[|f]]; [lia..|].
  unfold wr8. unfold_M. cbn [copyout]. cbn. unfold_M.
  match goal with |- context [walkAddr ?g ?v ?x] => destruct (walkAddr_total g v x) as [pa ->] end.
  destruct (pa =? 0); [by eauto|]. unfold kmemmove, modify.
  assert ((1 <? PGSIZE - (u64 a - PGROUNDDOWN (u64 a))) = true ∨
      PGSIZE - (u64 a - PGROUNDDOWN (u64 a)) = 1)
    as [Hn|Hn].
  { rewrite MemAllocator.PGROUNDDOWN_spec. pose proof (Z.mod_pos_bound (u64 a) PGSIZE ltac:(done)).
    rewrite Z.ltb_lt. lia. }
  - rewrite Hn. cbn. eauto.
  - rewrite Hn. cbn. eauto.
Qed.

Lemma copy_byte_in_total pagetable a w :
  (2 ≤ fuel)%nat → ∃ r b w', copy_byte_in pagetable (u64 a) w = Done ((r, b), w') ∧ (r = 0 ∨ r = -1).
Proof.
  intros Hf. unfold copy_byte_in. pose proof (u64_range a). destruct fuel as [|[|f]]; [lia..|].
  unfold_M. cbn [copyin]. cbn. unfold_M.
  match goal with |- context [walkAddr ?g ?v ?x] => destruct (walkAddr_total g v x) as [pa ->] end.
  destruct (pa =? 0); [by eauto 10|]. unfold kmemmove, modify.
  assert ((1 <? PGSIZE - (u64 a - PGROUNDDOWN (u64 a))) = true ∨
      PGSIZE - (u64 a - PGROUNDDOWN (u64 a)) = 1)
    as [Hn|Hn].
  { rewrite MemAllocator.PGROUNDDOWN_spec. pose proof (Z.mod_pos_bound (u64 a) PGSIZE ltac:(done)).
    rewrite Z.ltb_lt. lia. }
  - rewrite Hn. cbn. eauto 10.
  - rewrite Hn. cbn. eauto 10.
Qed.

Lemma read_loop_spec m pagetable addr i s q :
  (2 ≤ fuel)%nat → holds (pp s) q →
  ∃ i' taken q' w' p',
    spec_read pagetable addr i m (q, pw s) = Done (i', (q', w')) ∧
    read_loop pagetable addr i m s = Done (i', PS p' (users s) w') ∧
    holds p' q' ∧ same_ends (pp s) p' ∧
    q = taken ++ q' ∧ Z.of_nat (length taken) - 1 ≤ i' - i ≤ Z.of_nat (length taken).
Proof.
  intros Hf. revert i s q. induction m as [|m IH]; intros i s q Hq.
  { exists i, [], q, (pw s), (pp s). destruct s. cbn. split_and!; try done; lia. }
  cbn [spec_read read_loop]. unfold_M. rewrite (holds_empty _ q) by done. destruct q as [|b q]; cbn.
  { exists i, [], [], (pw s), (pp s). destruct s. cbn. split_and!; try done; lia. }
  destruct (holds_take _ _ _ Hq) as [-> Hq'].
  unfold set_pipe, in_w, q_w. unfold_M. cbn.
  destruct (copy_byte_out_total pagetable (addr + i) b (pw s) Hf) as (r & w' & -> & [-> | ->]); cbn.
  - destruct (IH (i + 1) (PS _ (users s) w') q Hq') as (i' & taken & q' & w2 & p' & E1 & E2 & Hp & He & -> & Hlen).
    exists i', (b :: taken), q', w2, p'. cbn in *. split_and!; try done; lia.
  - exists i, [b], q, w'. eexists. split_and!; try done; cbn; lia.
Qed.

(** How a [write] that got to byte [i] ends. *)
Definition write_end (me : nat) (t : ptask) (addr n : Z) (why : wend) (i : nat) (p : pipe)
    (us : list ptask) (w : W) : pres * pst W :=
  match why with
  | WDone | WFault => (Ret (Z.of_nat i), PS p (wake_one ChRead <$> us) w)
  | WFull =>
      if negb (readopen p) || pt_killed t then (Ret (-1), PS p us w)
      else (Slept, PS p (alter (put_state (PAsleep ChWrite (KWrite addr n i))) me
                          (wake_one ChRead <$> us)) w)
  end.

Lemma write_loop_spec m me t addr n i s q :
  (2 ≤ fuel)%nat → holds (pp s) q →
  ∃ why i' put w' p',
    spec_write (pt_pagetable t) addr i m (q, pw s) = Done ((why, i'), (q ++ put, w')) ∧
    write_loop me t addr n i m s = Done (write_end me t addr n why i' p' (users s) w') ∧
    holds p' (q ++ put) ∧ same_ends (pp s) p' ∧ length put = (i' - i)%nat ∧ (i ≤ i' ≤ i + m)%nat ∧
    (why = WFull → Z.of_nat (length (q ++ put)) = PIPESIZE).
Proof.
  intros Hf. revert i s q. induction m as [|m IH]; intros i s q Hq.
  { exists WDone, i, [], (pw s), (pp s). rewrite app_nil_r, Nat.sub_diag. cbn.
    split_and!; try done; lia. }
  cbn [spec_write write_loop]. unfold_M. rewrite (holds_full _ q) by done. cbn [fst].
  destruct (Z.eqb_spec (Z.of_nat (length q)) PIPESIZE) as [Hfull|Hroom].
  { exists WFull, i, [], (pw s), (pp s). rewrite app_nil_r, Nat.sub_diag.
    split_and!; try done; [|lia..]. unfold write_end. by destruct (negb _ || _), s. }
  unfold in_w, q_w. cbn.
  destruct (copy_byte_in_total (pt_pagetable t) (addr + Z.of_nat i) (pw s) Hf)
    as (r & b & w' & -> & [-> | ->]); cbn.
  - pose proof (holds_put _ _ b Hq Hroom) as Hq'.
    destruct (IH (Datatypes.S i) (PS _ (users s) w') _ Hq')
      as (why & i' & put & w2 & p' & E1 & E2 & Hp & He & Hlen & Hi & Hwhy).
    exists why, i', (b :: put), w2, p'. rewrite <- app_assoc in *. cbn in *.
    split_and!; try done; lia.
  - exists WFault, i, [], w', (pp s). rewrite app_nil_r, Nat.sub_diag. cbn.
    split_and!; try done; lia.
Qed.

(** ** Sleeping and waking *)

(** A [write] that returns -1 has given up: the pipe was full and nobody can
    read it any more, or the writer was killed. *)
Definition gave_up (writing : bool) (r : pres) : bool :=
  match r with Ret r => writing && (r =? -1) | Slept => false end.
Definition is_write (c : call) : bool := match c with CWrite _ _ => true | CRead _ _ => false end.
Definition k_write (k : pcont) : bool := match k with KWrite _ _ _ => true | KRead _ _ => false end.

(** A task starts a call, a woken task goes on with its call, a task is
    killed, an end is closed while the other one is open.  The label tells
    whether a [write] gave up. *)
Inductive step : bool → pst W → pst W → Prop :=
| step_call me t c r s s' :
    users s !! me = Some t → pt_state t = PIdle → start me c s = Done (r, s') →
    step (gave_up (is_write c) r) s s'
| step_resume me t k r s s' :
    users s !! me = Some t → pt_state t = PReady k →
    go_on me k (PS (pp s) (alter (put_state PIdle) me (users s)) (pw s)) = Done (r, s') →
    step (gave_up (k_write k) r) s s'
| step_kill me s :
    step false s (PS (pp s) (alter (λ t, PTask true (pt_pagetable t) (pt_state t)) me (users s)) (pw s))
| step_close ty s s' : close ty s = Done (false, s') → step false s s'.

(** A task asleep has a reason to be. *)
Definition asleep_ok (p : pipe) (q : list Z) (t : ptask) : Prop :=
  match pt_state t with
  | PAsleep ChRead _ => q = [] ∧ writeopen p = true
  | PAsleep ChWrite _ => Z.of_nat (length q) = PIPESIZE ∧ readopen p = true
  | _ => True
  end.
Definition no_lost_wakeup (s : pst W) : Prop :=
  ∃ q, holds (pp s) q ∧ Forall (asleep_ok (pp s) q) (users s).

(** After waking [c] only sleepers on the other channel are left. *)
Lemma asleep_wake c p q p' q' t :
  asleep_ok p q t →
  (c = ChRead → Z.of_nat (length q) = PIPESIZE → readopen p = true →
     Z.of_nat (length q') = PIPESIZE ∧ readopen p' = true) →
  (c = ChWrite → q = [] → writeopen p = true → q' = [] ∧ writeopen p' = true) →
  asleep_ok p' q' (wake_one c t).
Proof.
  unfold asleep_ok, wake_one. intros Ht HR HW.
  destruct (pt_state t) as [|c' k|k] eqn:E; [by rewrite E| |by rewrite E].
  destruct (decide (c' = c)) as [->|Hne]; [done|]. rewrite E.
  destruct c, c'; try done; naive_solver.
Qed.

Lemma Forall_alter_state x p q me us :
  Forall (asleep_ok p q) us → asleep_ok p q (PTask false 0 x) →
  Forall (asleep_ok p q) (alter (put_state x) me us).
Proof. intros H1 H2. apply Forall_alter; [done|]. intros t _ _. done. Qed.

Lemma read_no_lost me addr n t r s s' :
  (2 ≤ fuel)%nat → no_lost_wakeup s → users s !! me = Some t →
  read me addr n s = Done (r, s') → no_lost_wakeup s'.
Proof.
  intros Hf (q & Hq & Hall) Ht. unfold read, task_of. unfold_M. rewrite Ht, (holds_empty _ q) by done.
  case_match eqn:Hc.
  - apply andb_true_iff in Hc as [->%bool_decide_eq_true Hwo]. destruct (pt_killed t).
    { intros [= <- <-]. by exists []. }
    unfold sleep, modify. intros [= <- <-]. exists []. split; [done|]. cbn.
    by apply Forall_alter_state.
  - destruct (read_loop_spec (Z.to_nat n) (pt_pagetable t) addr 0 s q Hf Hq)
      as (i' & taken & q' & w' & p' & _ & -> & Hp & [He1 He2] & -> & _).
    unfold wakeup, modify. intros [= <- <-]. exists q'. split; [done|]. cbn.
    apply Forall_fmap. eapply Forall_impl; [exact Hall|]. intros u Hu. cbn.
    eapply asleep_wake; [exact Hu|done|]. intros _ [_ ->]%app_eq_nil Hwo. by rewrite He2.
Qed.

Lemma write_no_lost me addr n i t r s s' :
  (2 ≤ fuel)%nat → no_lost_wakeup s → users s !! me = Some t → gave_up true r = false →
  write_from me addr n i s = Done (r, s') → no_lost_wakeup s'.
Proof.
  intros Hf (q & Hq & Hall) Ht Hg. unfold write_from, task_of. unfold_M. rewrite Ht.
  destruct (write_loop_spec (Z.to_nat n - i) me t addr n i s q Hf Hq)
    as (why & i' & put & w' & p' & _ & -> & Hp & [He1 He2] & Hlen & Hi & Hwhy).
  assert (∀ u, asleep_ok (pp s) q u → asleep_ok p' (q ++ put) (wake_one ChRead u)) as Hwake.
  { intros u Hu. eapply asleep_wake; [exact Hu| |done]. intros _ Hl Hro.
    destruct Hp as [_ _ _ Hlen' _]. rewrite length_app in *. rewrite He1. split; [lia|done]. }
  assert (Forall (asleep_ok p' (q ++ put)) (wake_one ChRead <$> users s)) as Hall'.
  { apply Forall_fmap. eapply Forall_impl; [exact Hall|]. intros u Hu. by apply Hwake. }
  unfold write_end. destruct why; [by intros [= <- <-]; eexists|by intros [= <- <-]; eexists|].
  destruct (negb (readopen p') || pt_killed t) eqn:Hstop; intros [= <- <-]; [done|].
  apply orb_false_iff in Hstop as [Hro%negb_false_iff _].
  exists (q ++ put). split; [done|]. cbn. apply Forall_alter_state; [done|]. cbn. auto.
Qed.

Lemma step_no_lost s s' :
  (2 ≤ fuel)%nat → step false s s' → no_lost_wakeup s → no_lost_wakeup s'.
Proof.
  intros Hf Hstep Hs. remember false as g eqn:Hg.
  destruct Hstep as [me t c r s s' Ht _ Hrun|me t k r s s' Ht Hk Hrun|me s|ty s s' Hrun].
  - destruct c as [addr n|addr n]; [by eapply read_no_lost|by eapply (write_no_lost me addr n 0)].
  - set (s1 := PS (pp s) (alter (put_state PIdle) me (users s)) (pw s)) in *.
    assert (no_lost_wakeup s1).
    { destruct Hs as (q & Hq & Hall). exists q. split; [done|]. by apply Forall_alter_state. }
    assert (users s1 !! me = Some (put_state PIdle t)).
    { cbn. by rewrite list_lookup_alter, decide_True, Ht by done. }
    destruct k as [addr n|addr n i]; [by eapply read_no_lost|by eapply (write_no_lost me addr n i)].
  - destruct Hs as (q & Hq & Hall). exists q. split; [done|]. apply Forall_alter; [done|].
    intros t Ht' Ht. exact Ht.
  - destruct Hs as (q & Hq & Hall). revert Hrun. unfold close, set_pipe, wakeup. unfold_M.
    destruct Hq as [Hd Hr Hw Hl Hring].
    destruct ty; cbn; intros [= _ <-]; exists q; (split; [by split|]); cbn; apply Forall_fmap;
      (eapply Forall_impl; [exact Hall|]); intros t Ht; cbn; (eapply asleep_wake; [exact Ht|..]); done.
Qed.

(** Claim C10. A pipe is a first-in first-out queue of at most [PIPESIZE] bytes.
    [read] of an empty pipe fails for a killed task, sleeps while somebody can
    write, and otherwise takes bytes from the front in order until [n] were
    copied, the queue is empty or a copy to the user fails (the byte of the
    failed copy is lost), and wakes the writers.  [write] appends the user's
    bytes in order; it ends when all are in or a copy from the user fails, and
    wakes the readers; when the queue is full it wakes the readers and sleeps,
    or fails if nobody can read or the task was killed. *)
Theorem pipe_refines_queue (s : pst W) (q : list Z) (me : nat) (t : ptask) (addr n : Z) :
  (2 ≤ fuel)%nat → holds (pp s) q → users s !! me = Some t →
  (q = [] → writeopen (pp s) = true →
     read me addr n s =
       if pt_killed t then Done (Ret (-1), s)
       else Done (Slept, PS (pp s) (alter (put_state (PAsleep ChRead (KRead addr n))) me (users s)) (pw s))) ∧
  (q ≠ [] ∨ writeopen (pp s) = false →
     ∃ i taken q' w' p',
       spec_read (pt_pagetable t) addr 0 (Z.to_nat n) (q, pw s) = Done (i, (q', w')) ∧
       read me addr n s = Done (Ret i, PS p' (wake_one ChWrite <$> users s) w') ∧
       holds p' q' ∧ same_ends (pp s) p' ∧ q = taken ++ q' ∧
       Z.of_nat (length taken) - 1 ≤ i ≤ Z.of_nat (length taken)) ∧
  (∃ why i put w' p',
     spec_write (pt_pagetable t) addr 0 (Z.to_nat n) (q, pw s) = Done ((why, i), (q ++ put, w')) ∧
     write me addr n s = Done (write_end me t addr n why i p' (users s) w') ∧
     holds p' (q ++ put) ∧ same_ends (pp s) p' ∧ length put = i ∧
     (why = WFull → Z.of_nat (length (q ++ put)) = PIPESIZE)).
Proof.
  intros Hf Hq Ht. unfold read, write, write_from, task_of. split_and!.
  - intros -> Hwo. unfold_M. rewrite Ht, (holds_empty _ []), Hwo by done. cbn.
    unfold sleep, modify. by destruct (pt_killed t).
  - intros Hor. unfold_M. rewrite Ht, (holds_empty _ q) by done.
    assert (bool_decide (q = []) && writeopen (pp s) = false) as ->.
    { destruct Hor as [Hne| ->]; [by rewrite bool_decide_false|apply andb_false_r]. }
    destruct (read_loop_spec (Z.to_nat n) (pt_pagetable t) addr 0 s q Hf Hq)
      as (i & taken & q' & w' & p' & E & -> & Hp & He & Hq' & Hlen).
    exists i, taken, q', w', p'. unfold wakeup, modify. split_and!; try done; lia.
  - unfold_M. rewrite Ht, Nat.sub_0_r.
    destruct (write_loop_spec (Z.to_nat n) me t addr n 0 s q Hf Hq)
      as (why & i & put & w' & p' & E & -> & Hp & He & Hlen & Hi & Hwhy).
    exists why, i, put, w', p'. split_and!; try done; lia.
Qed.

(** Claim C11. No wakeup is lost: as long as no [write] gives up, a task asleep
    in [read] means that the pipe is empty and can still be written, and a task
    asleep in [write] that it is full and can still be read, whatever calls of
    any number of tasks, kills and closes happened before. *)
Theorem pipe_no_lost_wakeup (s s' : pst W) :
  (2 ≤ fuel)%nat → no_lost_wakeup s → rtc (step false) s s' → no_lost_wakeup s'.
Proof.
  intros Hf Hs Hrun. induction Hrun as [s|s1 s2 s3 Hstep _ IH]; [done|].
  apply IH. by eapply step_no_lost.
Qed.

End pipes.

(** ** A concrete machine, and the wakeup a killed writer loses *)
Module PipeWitness.
Import VmWitness.
#[local] Existing Instance pa0.

(** Two tasks with the page at 0x1000 mapped; the pipe is empty. *)
Definition ps0 : pst kmem := PS Pipe [PTask false R PIdle; PTask true R PIdle] s1.
Definition ch0 : Z := 0x80510000.

Definition run {A} (r : outcome (A * pst kmem)) : pst kmem :=
  match r with Done (_, s) => s | _ => ps0 end.
Definition ps1 : pst kmem := run (read ch0 2 0 0x1000 4 ps0).
Definition ps2 : pst kmem := run (write ch0 2 1 0x1000 513 ps1).

Lemma Pipe_holds : holds Pipe [].
Proof. split; try done. intros j Hj. cbn in Hj. lia. Qed.

(** Task 1 was killed: its [write] fills the pipe and returns -1 without
    waking the reader, which sleeps next to a full pipe. *)
Lemma killed_writer_loses_wakeup :
  pt_state <$> users ps2 !! 0%nat = Some (PAsleep ChRead (KRead 0x1000 4)) ∧
  nwrite (pp ps2) - nread (pp ps2) = PIPESIZE ∧
  match write ch0 2 1 0x1000 513 ps1 with Done (r, _) => r = Ret (-1) | _ => False end.
Proof. vm_compute. done. Qed.

Lemma pipe_refines_queue_witness :
  holds (pp ps0) [] ∧
  read ch0 2 0 0x1000 4 ps0 =
    Done (Slept, PS Pipe [PTask false R (PAsleep ChRead (KRead 0x1000 4)); PTask true R PIdle] s1).
Proof.
  split; [apply Pipe_holds|].
  exact (proj1 (pipe_refines_queue ch0 2 ps0 [] 0 (PTask false R PIdle) 0x1000 4
    ltac:(lia) Pipe_holds eq_refl) eq_refl eq_refl).
Defined.

Lemma pipe_no_lost_wakeup_witness : no_lost_wakeup (W := kmem) ps1.
Proof.
  apply (pipe_no_lost_wakeup ch0 2 ps0); [lia| |].
  - exists []. split; [apply Pipe_holds|]. repeat constructor.
  - apply rtc_once.
    exact (step_call ch0 2 0 (PTask false R PIdle) (CRead 0x1000 4) Slept ps0 ps1 eq_refl eq_refl eq_refl).
Defined.
End PipeWitness.
