(* ===== verification/HashMap.v ===== *)
(** * The kernel's hash map and list: sstl/map.hpp, sstl/list.hpp

    Nodes are heap cells reached through pointers, 0 being null; the buckets
    are the array [hashtable_].  [operator new] is the buddy allocator
    (Buddy.v): here it is a function that gives the address of a cell not in
    use, which is what [Buddy.buddy_alloc_block] shows of it as long as memory
    is left; without memory [Buddy.alloc] panics, and the map's operation does
    not return.  The operations
    hold the map's spin lock from start to end, so each is one step. *)
From S2P Require Import Prelude.

(** [HashMapNode]. *)
Record node := Node { nnext : Z; nkey : Z; nval : Z }.
Definition set_next (x : Z) (n : node) : node := Node x (nkey n) (nval n).

Record hst := HS { heap : gmap Z node; hashtable : list Z; bits : Z }.

Definition hash_64 (val bits : Z) : Z :=
  let hash := u64 val in
  let n := hash in
  let n := u64 (Z.shiftl n 18) in
  let hash := u64 (hash - n) in
  let n := u64 (Z.shiftl n 33) in
  let hash := u64 (hash - n) in
  let n := u64 (Z.shiftl n 3) in
  let hash := u64 (hash + n) in
  let n := u64 (Z.shiftl n 3) in
  let hash := u64 (hash - n) in
  let n := u64 (Z.shiftl n 4) in
  let hash := u64 (hash + n) in
  let n := u64 (Z.shiftl n 2) in
  let hash := u64 (hash + n) in
  Z.shiftr hash (64 - bits).

(** The member function [hash]: a [uint_t]. *)
Definition hash (bits key : Z) : Z := u32 (hash_64 key (u32 (bits - 1))).

Section map.
Context (new_node : gmap Z node → Z).
Abbreviation HM := (M hst).

Definition deref (a : Z) : HM node := λ s,
  match heap s !! a with Some n => Done (n, s) | None => Panic "bad pointer" end.
Definition store (a : Z) (n : node) : HM unit :=
  modify (λ s, HS (<[a := n]> (heap s)) (hashtable s) (bits s)).
Definition new (n : node) : HM Z :=
  a ← gets (λ s, new_node (heap s));
  store a n;;
  mret a.
Definition delete_node (a : Z) : HM unit :=
  modify (λ s, HS (delete a (heap s)) (hashtable s) (bits s)).
Definition bucket (h : Z) : HM Z := λ s,
  match hashtable s !! Z.to_nat h with Some a => Done (a, s) | None => Panic "bad index" end.
Definition set_bucket (h a : Z) : HM unit :=
  modify (λ s, HS (heap s) (<[Z.to_nat h := a]> (hashtable s)) (bits s)).

(** The constructor; [1 << order] is an [int]. *)
Definition map_new (order : Z) (hp : gmap Z node) : hst :=
  HS hp (replicate (Z.to_nat (i32 (Z.shiftl 1 order))) 0) order.

(** [while (node != nullptr && node->key != key) node = node->next;] *)
Fixpoint find (fuel : nat) (node key : Z) : HM Z :=
  match fuel with
  | O => λ _, NoFuel
  | S fuel =>
      if node =? 0 then mret 0
      else
        n ← deref node;
        if nkey n =? key then mret node else find fuel (nnext n) key
  end.

Definition put (fuel : nat) (key val : Z) : HM unit :=
  h ← gets (λ s, hash (bits s) key);
  head ← bucket h;
  node ← find fuel head key;
  if negb (node =? 0) then panic "hash map put"
  else
    putval ← new (Node 0 key val);
    first ← bucket h;
    store putval (Node first key val);;
    set_bucket h putval.

Definition get (fuel : nat) (key : Z) : HM Z :=
  h ← gets (λ s, hash (bits s) key);
  head ← bucket h;
  node ← find fuel head key;
  if node =? 0 then mret 0 else n ← deref node; mret (nval n).

(** [while (node->next != nullptr && node->key != key)] *)
Fixpoint poll_loop (fuel : nat) (dummy node key : Z) : HM (Z * Z) :=
  match fuel with
  | O => λ _, NoFuel
  | S fuel =>
      n ← deref node;
      if negb (nnext n =? 0) && negb (nkey n =? key) then poll_loop fuel node (nnext n) key
      else mret (dummy, node)
  end.

(** A fresh [Node] has indeterminate fields; zeros stand for them. *)
Definition poll (fuel : nat) (key : Z) : HM Z :=
  h ← gets (λ s, hash (bits s) key);
  dummy ← new (Node 0 0 0);
  head ← bucket h;
  if head =? 0 then panic "poll"
  else
    d ← deref dummy;
    store dummy (set_next head d);;
    '(dummy, node) ← poll_loop fuel dummy head key;
    if node =? 0 then mret 0
    else
      n ← deref node;
      d ← deref dummy;
      store dummy (set_next (nnext n) d);;
      n ← deref node;
      (if head =? node then set_bucket h (nnext n) else mret tt);;
      delete_node node;;
      mret (nval n).

(** The first nonempty bucket at or after [i], of the [n] left. *)
Fixpoint first_from (i : Z) (n : nat) : HM Z :=
  match n with
  | O => mret 0
  | S n => a ← bucket i; if a =? 0 then first_from (i + 1) n else mret a
  end.
Definition begin_ : HM Z :=
  n ← gets (λ s, length (hashtable s));
  first_from 0 n.
(** [MapIterator::operator++]. *)
Definition advance (node : Z) : HM Z :=
  old ← deref node;
  if nnext old =? 0 then
    index ← gets (λ s, hash (bits s) (nkey old));
    n ← gets (λ s, length (hashtable s));
    first_from (index + 1) (n - Z.to_nat (index + 1))
  else mret (nnext old).

(** A loop [for (it = begin(); it != nullptr; it++)] that collects the nodes. *)
Fixpoint iterate (fuel : nat) (it : Z) : HM (list node) :=
  match fuel with
  | O => λ _, NoFuel
  | S fuel =>
      if it =? 0 then mret []
      else
        n ← deref it;
        next ← advance it;
        l ← iterate fuel next;
        mret (n :: l)
  end.
End map.

(** ** What the heap holds *)
Definition cell : Type := Z * Z * Z.
Definition c_addr (c : cell) : Z := c.1.1.
Definition c_key (c : cell) : Z := c.1.2.
Definition c_val (c : cell) : Z := c.2.

(** The list of cells linked from [a]. *)
Fixpoint chain (hp : gmap Z node) (a : Z) (cs : list cell) : Prop :=
  match cs with
  | [] => a = 0
  | c :: cs => a = c_addr c ∧ a ≠ 0 ∧
      ∃ nx, hp !! a = Some (Node nx (c_key c) (c_val c)) ∧ chain hp nx cs
  end.

(** The map [m] is stored in the buckets [B]. *)
Record repr (s : hst) (B : Z → list cell) (m : gmap Z Z) : Prop := {
  r_bits : 2 ≤ bits s ≤ 32;
  r_len : Z.of_nat (length (hashtable s)) = 2 ^ bits s;
  r_chain : ∀ i a, hashtable s !! i = Some a → chain (heap s) a (B (Z.of_nat i));
  r_addr : ∀ i, NoDup (c_addr <$> B i);
  r_disj : ∀ i j c c', c ∈ B i → c' ∈ B j → c_addr c = c_addr c' → i = j;
  r_hash : ∀ i c, c ∈ B i → hash (bits s) (c_key c) = i;
  r_keys : ∀ i, NoDup (c_key <$> B i);
  r_map : ∀ k v, m !! k = Some v ↔ ∃ a, (a, k, v) ∈ B (hash (bits s) k);
}.

Lemma hash_range b key : 2 ≤ b ≤ 32 → 0 ≤ hash b key < 2 ^ (b - 1).
Proof.
  intros Hb. unfold hash. rewrite (u32_small (b - 1)) by lia.
  set (h := hash_64 key (b - 1)).
  assert (0 ≤ h < 2 ^ (b - 1)) as Hh.
  { unfold h, hash_64. match goal with |- context [Z.shiftr ?x _] => set (y := x) end.
    assert (0 ≤ y < 2 ^ 64) as Hy by apply u64_range.
    rewrite Z.shiftr_div_pow2 by lia. split; [apply Z.div_pos; lia|].
    apply Z.div_lt_upper_bound; [lia|]. rewrite <- Z.pow_add_r by lia.
    replace (64 - (b - 1) + (b - 1)) with 64 by lia. lia. }
  rewrite u32_small; [done|]. split; [lia|]. apply Z.lt_le_trans with (2 ^ (b - 1)); [lia|].
  apply Z.pow_le_mono_r; lia.
Qed.

(** ** Chains *)
Lemma bucket_chain_ext hp hp' a cs :
  (∀ c, c ∈ cs → hp' !! c_addr c = hp !! c_addr c) → chain hp a cs → chain hp' a cs.
Proof.
  revert a. induction cs as [|c cs IH]; intros a Hext; [done|].
  intros (-> & Ha & nx & Hn & Hc). split_and!; [done..|]. exists nx. split.
  - rewrite Hext; [done|by left].
  - apply IH; [|done]. intros c' Hc'. apply Hext. by right.
Qed.

Lemma chain_lookup hp a cs c :
  chain hp a cs → c ∈ cs →
  c_addr c ≠ 0 ∧ ∃ nx, hp !! c_addr c = Some (Node nx (c_key c) (c_val c)).
Proof.
  revert a. induction cs as [|c' cs IH]; intros a; [by intros _ ?%elem_of_nil|].
  intros (-> & Ha & nx & Hn & Hc) [->|Hin]%elem_of_cons; [by eauto|by eapply IH].
Qed.

Lemma chain_size hp a cs :
  chain hp a cs → NoDup (c_addr <$> cs) → (length cs ≤ size hp)%nat.
Proof.
  intros Hc Hnd. rewrite <- (size_dom (D:=gset Z)), <- (length_fmap c_addr cs), <- (size_list_to_set (C:=gset Z)) by done.
  apply subseteq_size. intros x [c [-> Hc']]%elem_of_list_to_set%list_elem_of_fmap.
  destruct (chain_lookup _ _ _ _ Hc Hc') as (_ & nx & Hn). by apply elem_of_dom_2 in Hn.
Qed.

Lemma chain_null hp cs : chain hp 0 cs → cs = [].
Proof. destruct cs; [done|]. by intros (_ & ? & _). Qed.

Lemma find_spec fuel key s a cs :
  chain (heap s) a cs → (length cs < fuel)%nat →
  ∃ r, find fuel a key s = Done (r, s) ∧
    ((r = 0 ∧ key ∉ c_key <$> cs) ∨
     (r ≠ 0 ∧ ∃ c nx, c ∈ cs ∧ c_key c = key ∧ heap s !! r = Some (Node nx key (c_val c)))).
Proof.
  revert a cs. induction fuel as [|fuel IH]; intros a cs Hc Hf; [lia|]. cbn [find].
  destruct cs as [|c cs].
  { rewrite Hc. cbn. exists 0. split; [done|left]. split; [done|]. apply not_elem_of_nil. }
  destruct Hc as (-> & Ha & nx & Hn & Hc). apply Z.eqb_neq in Ha as Ha'. rewrite Ha'.
  unfold deref. unfold_M. rewrite Hn. cbn [nkey nnext].
  destruct (Z.eqb_spec (c_key c) key) as [<-|Hne].
  - exists (c_addr c). split; [done|right]. split; [done|]. exists c, nx. split; [by left|done].
  - destruct (IH nx cs Hc ltac:(cbn in Hf; lia)) as (r & Hr & Hcase). exists r. split; [done|].
    destruct Hcase as [[-> Hnin]|(Hr0 & c' & nx' & Hin & Hkey & Hl)].
    + left. split; [done|]. cbn. by apply not_elem_of_cons.
    + right. split; [done|]. exists c', nx'. split; [by right|done].
Qed.

Section ops.
Context (new_node : gmap Z node → Z).
Context (new_fresh : ∀ hp, new_node hp ≠ 0 ∧ hp !! new_node hp = None).

Lemma bucket_size s B m i : repr s B m → (length (B i) ≤ size m)%nat.
Proof.
  intros Hr. rewrite <- (size_dom m), <- (length_fmap c_key (B i)).
  rewrite <- (size_list_to_set (C := gset Z)) by apply (r_keys _ _ _ Hr).
  apply subseteq_size. intros k [c [-> Hc]]%elem_of_list_to_set%list_elem_of_fmap. apply elem_of_dom.
  exists (c_val c). apply (r_map _ _ _ Hr). exists (c_addr c). rewrite (r_hash _ _ _ Hr _ _ Hc).
  by destruct c as [[??]?].
Qed.

Lemma repr_bucket s B m key :
  repr s B m →
  ∃ a, bucket (hash (bits s) key) s = Done (a, s) ∧ chain (heap s) a (B (hash (bits s) key)) ∧
       hashtable s !! Z.to_nat (hash (bits s) key) = Some a ∧
       Z.of_nat (Z.to_nat (hash (bits s) key)) = hash (bits s) key ∧
       (length (B (hash (bits s) key)) ≤ size m)%nat.
Proof.
  intros Hr. destruct (Hr) as [Hb Hl Hc Ha _ _ _ _]. destruct (hash_range (bits s) key Hb) as [Hh1 Hh2].
  assert (2 ^ (bits s - 1) ≤ 2 ^ bits s) by (apply Z.pow_le_mono_r; lia).
  destruct (lookup_lt_is_Some_2 (hashtable s) (Z.to_nat (hash (bits s) key))) as [a Ha']; [lia|].
  pose proof (Hc _ _ Ha') as Hca. rewrite Z2Nat.id in Hca by lia.
  exists a. unfold bucket. rewrite Ha'. split_and!; [done..|lia|]. by eapply bucket_size.
Qed.

Lemma get_spec fuel s B m key :
  repr s B m → (size m < fuel)%nat → get fuel key s = Done (default 0 (m !! key), s).
Proof.
  intros Hr Hf. destruct (repr_bucket s B m key Hr) as (a & Hb & Hc & _ & _ & Hlen).
  unfold get. unfold_M. rewrite Hb.
  destruct (find_spec fuel key s a _ Hc ltac:(lia)) as (r & -> & [[-> Hnin]|(Hr0 & c & nx & Hin & <- & Hl)]).
  - cbn. destruct (m !! key) as [v|] eqn:Hm; [|done]. exfalso. apply Hnin.
    apply (r_map _ _ _ Hr) in Hm as [x Hx]. apply list_elem_of_fmap. by exists (x, key, v).
  - apply Z.eqb_neq in Hr0 as ->. unfold deref. rewrite Hl. cbn.
    replace (m !! c_key c) with (Some (c_val c)); [done|]. symmetry. apply (r_map _ _ _ Hr).
    exists (c_addr c). by destruct c as [[??]?].
Qed.

Lemma repr_cell s B m i c :
  repr s B m → c ∈ B i →
  0 ≤ i < 2 ^ bits s ∧ c_addr c ≠ 0 ∧
  (∃ nx, heap s !! c_addr c = Some (Node nx (c_key c) (c_val c))) ∧
  m !! c_key c = Some (c_val c).
Proof.
  intros Hr Hc. pose proof (r_hash _ _ _ Hr _ _ Hc) as Hh. pose proof (r_bits _ _ _ Hr) as Hb.
  destruct (hash_range (bits s) (c_key c) Hb) as [H1 H2].
  assert (2 ^ (bits s - 1) ≤ 2 ^ bits s) by (apply Z.pow_le_mono_r; lia).
  pose proof (r_len _ _ _ Hr).
  destruct (lookup_lt_is_Some_2 (hashtable s) (Z.to_nat i)) as [a Ha]; [lia|].
  pose proof (r_chain _ _ _ Hr _ _ Ha) as Hca. rewrite Z2Nat.id in Hca by lia.
  destruct (chain_lookup _ _ _ _ Hca Hc) as [? ?]. split_and!; [lia..|done|done|].
  apply (r_map _ _ _ Hr). rewrite Hh. exists (c_addr c). by destruct c as [[??]?].
Qed.

(** Replacing the contents of bucket [h] by the cells [cs], linked from [a]. *)
Lemma repr_update s B m key a cs hp' m' :
  let h := hash (bits s) key in
  repr s B m → chain hp' a cs →
  (∀ i c, i ≠ h → c ∈ B i → hp' !! c_addr c = heap s !! c_addr c) →
  NoDup (c_addr <$> cs) → NoDup (c_key <$> cs) → (∀ c, c ∈ cs → hash (bits s) (c_key c) = h) →
  (∀ i c c', i ≠ h → c ∈ B i → c' ∈ cs → c_addr c ≠ c_addr c') →
  (∀ k v, m' !! k = Some v ↔ if decide (hash (bits s) k = h) then ∃ x, (x, k, v) ∈ cs else m !! k = Some v) →
  repr (HS hp' (<[Z.to_nat h := a]> (hashtable s)) (bits s)) (λ i, if decide (i = h) then cs else B i) m'.
Proof.
  intros h Hr Hc Hext Hna Hnk Hh Hd Hm. destruct (hash_range (bits s) key (r_bits _ _ _ Hr)) as [Hh1 _].
  fold h in Hh1. split; cbn [heap hashtable bits].
  - apply Hr.
  - rewrite length_insert. apply Hr.
  - intros i a' Hi. destruct (decide (Z.of_nat i = h)) as [Heq|Hne].
    + replace i with (Z.to_nat h) in Hi by lia.
      apply list_lookup_insert_Some in Hi as [(_ & <- & _)|[? _]]; done.
    + rewrite list_lookup_insert_ne in Hi by lia. eapply bucket_chain_ext; [|by eapply (r_chain _ _ _ Hr)].
      intros c Hc'. by eapply Hext.
  - intros i. destruct (decide (i = h)); [done|apply Hr].
  - intros i j c c'. destruct (decide (i = h)), (decide (j = h)); [congruence|..]; intros H1 H2 H3.
    + exfalso. by eapply (Hd j c' c).
    + exfalso. by eapply (Hd i c c').
    + by eapply (r_disj _ _ _ Hr).
  - intros i c. destruct (decide (i = h)) as [->|]; [apply Hh|apply Hr].
  - intros i. destruct (decide (i = h)); [done|apply Hr].
  - intros k v. rewrite Hm. destruct (decide _); [done|apply Hr].
Qed.

Lemma repr_fresh s B m i c : repr s B m → c ∈ B i → c_addr c ≠ new_node (heap s).
Proof.
  intros Hr Hc Heq. destruct (repr_cell _ _ _ _ _ Hr Hc) as (_ & _ & [nx Hn] & _).
  rewrite Heq, (proj2 (new_fresh (heap s))) in Hn. done.
Qed.

Lemma put_spec fuel s B m key val :
  repr s B m → (size m < fuel)%nat →
  (m !! key ≠ None → put new_node fuel key val s = Panic "hash map put") ∧
  (m !! key = None →
     ∃ s' B', put new_node fuel key val s = Done (tt, s') ∧ repr s' B' (<[key := val]> m) ∧
       size (heap s') = Datatypes.S (size (heap s))).
Proof.
  intros Hr Hf. destruct (repr_bucket s B m key Hr) as (a & Hb & Hc & Ht & Hid & Hlen).
  set (h := hash (bits s) key) in *. unfold put. unfold_M. fold h. rewrite Hb.
  destruct (find_spec fuel key s a _ Hc ltac:(lia)) as (r & -> & [[-> Hnin]|(Hr0 & c & nx & Hin & <- & Hl)]).
  2: { apply Z.eqb_neq in Hr0 as ->. split; [done|].
    destruct (repr_cell _ _ _ _ _ Hr Hin) as (_ & _ & _ & ->). done. }
  cbn. assert (m !! key = None) as Hm.
  { destruct (m !! key) as [v|] eqn:Hm; [|done]. exfalso. apply Hnin.
    apply (r_map _ _ _ Hr) in Hm as [x Hx]. apply list_elem_of_fmap. by exists (x, key, v). }
  split; [by rewrite Hm|]. intros _. unfold new, store, set_bucket, bucket. unfold_M. cbn.
  rewrite Ht. cbn. destruct (new_fresh (heap s)) as [Hp0 Hp]. rewrite insert_insert_eq.
  eexists. eexists. split; [done|]. cbn [heap]. split; [|by apply map_size_insert_None].
  apply (repr_update s B m key _ ((new_node (heap s), key, val) :: B h)); fold h; try done.
  - cbn. split_and!; [done..|]. exists a. rewrite lookup_insert_eq. split; [done|].
    eapply bucket_chain_ext; [|done]. intros c Hc'. apply lookup_insert_ne. apply not_eq_sym. by eapply repr_fresh.
  - intros i c _ Hc'. apply lookup_insert_ne. apply not_eq_sym. by eapply repr_fresh.
  - cbn. apply NoDup_cons. split; [|apply Hr]. intros [c [Heq Hc']]%list_elem_of_fmap.
    by apply (repr_fresh _ _ _ _ _ Hr Hc').
  - cbn. apply NoDup_cons. split; [done|apply Hr].
  - intros c [->|Hc']%elem_of_cons; [done|by apply (r_hash _ _ _ Hr)].
  - intros i c c' Hi Hc' [->|Hc'']%elem_of_cons; [by eapply repr_fresh|].
    intros Heq. by eapply Hi, (r_disj _ _ _ Hr).
  - intros k v. destruct (decide (k = key)) as [->|Hk].
    + rewrite lookup_insert_eq, decide_True by done. split; [intros [= ->]; eexists; by left|].
      intros [x [[= _ ->]|Hx]%elem_of_cons]; [done|]. exfalso. apply Hnin, list_elem_of_fmap. by exists (x, key, v).
    + rewrite lookup_insert_ne by done. rewrite (r_map _ _ _ Hr). destruct (decide (hash (bits s) k = h)) as [Heq|]; [rewrite Heq|symmetry; apply (r_map _ _ _ Hr)].
      split; intros [x Hx]; exists x; [by right|]. by apply elem_of_cons in Hx as [[= -> ->]|].
Qed.

(** ** [poll] *)
Definition last_addr (dummy : Z) (cs : list cell) : Z := default dummy (c_addr <$> last cs).

Lemma last_addr_cons d c cs : last_addr d (c :: cs) = last_addr (c_addr c) cs.
Proof. unfold last_addr. rewrite last_cons. by destruct (last cs). Qed.
Lemma last_addr_in d cs : last_addr d cs = d ∧ cs = [] ∨ ∃ c, c ∈ cs ∧ last_addr d cs = c_addr c.
Proof.
  revert d. induction cs as [|c cs IH]; intros d; [by left|right]. rewrite last_addr_cons.
  destruct (IH (c_addr c)) as [[-> _]|(c' & Hc' & ->)]; [exists c|exists c']; (split; [|done]); by constructor.
Qed.

Lemma poll_loop_spec fuel dummy a key s cs :
  chain (heap s) a cs → cs ≠ [] → (length cs ≤ fuel)%nat →
  ∃ cs1 c cs2, cs = cs1 ++ c :: cs2 ∧
    poll_loop fuel dummy a key s = Done ((last_addr dummy cs1, c_addr c), s) ∧
    (key ∉ c_key <$> cs1) ∧ (c_key c = key ∨ cs2 = []).
Proof.
  revert dummy a cs.
  induction fuel as [|fuel IH]; intros dummy a [|c cs] Hc Hne Hf; try done; cbn in Hf; [lia|].
  destruct Hc as (-> & Ha & nx & Hn & Hc). cbn [poll_loop]. unfold deref. unfold_M. rewrite Hn. cbn.
  destruct cs as [|c' cs].
  { rewrite Hc. cbn. exists [], c, []. split_and!; try done; [apply not_elem_of_nil|by right]. }
  destruct (Hc) as (Hnx & Hnx0 & _). apply Z.eqb_neq in Hnx0 as ->. cbn.
  destruct (Z.eqb_spec (c_key c) key) as [Hk|Hk]; cbn.
  { exists [], c, (c' :: cs). split_and!; try done; [apply not_elem_of_nil|by left]. }
  destruct (IH (c_addr c) nx (c' :: cs) Hc ltac:(done) ltac:(cbn in *; lia)) as (cs1 & d & cs2 & -> & E & Hnin & Hd).
  exists (c :: cs1), d, cs2. rewrite last_addr_cons. split_and!; try done. cbn. by apply not_elem_of_cons.
Qed.

(** Unlinking the cell [c] behind the nonempty list [cs1]. *)
Lemma bucket_unlink hp a cs1 c cs2 d nx nd :
  chain hp a (cs1 ++ c :: cs2) → NoDup (c_addr <$> cs1 ++ c :: cs2) →
  hp !! c_addr c = Some (Node nx (c_key c) (c_val c)) → cs1 ≠ [] →
  hp !! last_addr d cs1 = Some nd →
  chain (delete (c_addr c) (<[last_addr d cs1 := set_next nx nd]> hp)) a (cs1 ++ cs2).
Proof.
  intros Hc Hnd Hcn Hne Hl.
  assert (∀ hp' b, (∀ c', c' ∈ cs2 → hp' !! c_addr c' = hp !! c_addr c') → chain hp b cs2 → chain hp' b cs2)
    as Hext by (intros; by eapply bucket_chain_ext).
  revert a d Hc Hnd Hl. induction cs1 as [|e cs1 IH]; intros a d Hc Hnd Hl; [done|].
  rewrite last_addr_cons in *. destruct Hc as (-> & Ha & ny & Hn & Hc).
  cbn [app fmap list_fmap] in Hnd. apply NoDup_cons in Hnd as [Hnin Hnd].
  destruct cs1 as [|e' cs1].
  - cbn in *. destruct Hc as (-> & Hc0 & ny' & Hn' & Hc). rewrite Hn' in Hcn. injection Hcn as ->.
    rewrite Hn in Hl. injection Hl as <-. apply not_elem_of_cons in Hnin as [Hne' Hnin].
    apply NoDup_cons in Hnd as [Hnin' Hnd].
    split_and!; [done..|]. exists nx. split.
    + rewrite lookup_delete_ne, lookup_insert_eq by congruence. done.
    + apply Hext; [|done]. intros c' Hc'. apply (list_elem_of_fmap_2 c_addr) in Hc'.
      rewrite lookup_delete_ne, lookup_insert_ne; [done|congruence..].
  - assert (c_addr e ≠ c_addr c) as Hec.
    { intros Heq. apply Hnin. rewrite Heq. apply list_elem_of_fmap_2, elem_of_app. right. by left. }
    assert (last_addr (c_addr e) (e' :: cs1) ≠ c_addr e) as Hel.
    { destruct (last_addr_in (c_addr e) (e' :: cs1)) as [[_ ?]|(c' & Hc' & ->)]; [done|].
      intros Heq. apply Hnin. rewrite <- Heq. apply list_elem_of_fmap_2, elem_of_app. by left. }
    cbn [app]. split_and!; [done..|]. exists ny. split.
    + rewrite lookup_delete_ne, lookup_insert_ne by congruence. done.
    + by apply IH.
Qed.

Lemma unlink_repr s B m key a cs1 c cs2 hp3 :
  let h := hash (bits s) key in
  repr s B m → B h = cs1 ++ c :: cs2 → chain hp3 a (cs1 ++ cs2) →
  (∀ i c', i ≠ h → c' ∈ B i → hp3 !! c_addr c' = heap s !! c_addr c') →
  repr (HS hp3 (<[Z.to_nat h := a]> (hashtable s)) (bits s))
    (λ i, if decide (i = h) then cs1 ++ cs2 else B i) (delete (c_key c) m).
Proof.
  intros h Hr Hb Hc Hext.
  assert (∀ c', c' ∈ cs1 ++ cs2 → c' ∈ B h) as Hin.
  { intros c'. rewrite Hb, !elem_of_app, elem_of_cons. tauto. }
  pose proof (r_addr _ _ _ Hr h) as Hna. pose proof (r_keys _ _ _ Hr h) as Hnk. rewrite Hb in Hna, Hnk.
  rewrite fmap_app, fmap_cons in Hna, Hnk. rewrite <- Permutation_middle in Hna, Hnk.
  apply NoDup_cons in Hna as [_ Hna]. apply NoDup_cons in Hnk as [Hnotin Hnk]. rewrite <- fmap_app in Hna, Hnk, Hnotin.
  apply (repr_update s B m key); fold h; try done.
  - intros c' Hc'. by apply (r_hash _ _ _ Hr), Hin.
  - intros i c1 c2 Hi H1 H2 Heq. by eapply Hi, (r_disj _ _ _ Hr); [exact H1|by apply Hin|].
  - intros k v. rewrite lookup_delete_Some. assert (c ∈ B h) as Hcb by (rewrite Hb; apply elem_of_app; right; by left).
    pose proof (r_hash _ _ _ Hr _ _ Hcb) as Hch.
    destruct (decide (hash (bits s) k = h)) as [Heq|Hneq]; [|split; [tauto|intros; split; [congruence|done]]].
    rewrite (r_map _ _ _ Hr k v), Heq. split.
    + intros [Hk [x Hx]]. exists x. rewrite Hb, elem_of_app, elem_of_cons in Hx. rewrite elem_of_app.
      destruct Hx as [?|[<-|?]]; [by left|done|by right].
    + intros [x Hx]. split; [|exists x; by apply Hin]. intros Hk. apply Hnotin, list_elem_of_fmap.
      by exists (x, k, v).
Qed.

Lemma poll_spec fuel s B m key :
  repr s B m → (size m < fuel)%nat →
  let b := B (hash (bits s) key) in
  (b = [] → poll new_node fuel key s = Panic "poll") ∧
  (b ≠ [] → ∃ k v s' B', poll new_node fuel key s = Done (v, s') ∧ m !! k = Some v ∧
     hash (bits s) k = hash (bits s) key ∧ (m !! key ≠ None → k = key) ∧
     repr s' B' (delete k m) ∧ size (heap s') = size (heap s)).
Proof.
  intros Hr Hf b. destruct (repr_bucket s B m key Hr) as (a & Hb & Hc & Ht & Hid & Hlen).
  set (h := hash (bits s) key) in *. fold b in Hc, Hlen.
  unfold poll, new, store, bucket. unfold_M. fold h. cbn. rewrite Ht.
  destruct (new_fresh (heap s)) as [Hp0 Hp]. set (d0 := new_node (heap s)) in *.
  split; [intros Hnil; by rewrite Hnil in Hc; rewrite Hc|]. intros Hne.
  assert (a ≠ 0) as Ha0. { intros ->. by apply chain_null in Hc. }
  apply Z.eqb_neq in Ha0 as Ha0'. rewrite Ha0'. unfold deref. cbn. rewrite lookup_insert_eq. cbn.
  rewrite insert_insert_eq. set (hp1 := <[d0 := set_next a (Node 0 0 0)]> (heap s)).
  assert (∀ i c, c ∈ B i → c_addr c ≠ d0) as Hfr by (intros i c Hc'; by eapply repr_fresh).
  assert (chain hp1 a b) as Hc1.
  { eapply bucket_chain_ext; [|exact Hc]. intros c Hc'. apply lookup_insert_ne. apply not_eq_sym. by eapply Hfr. }
  destruct (poll_loop_spec fuel d0 a key (HS hp1 (hashtable s) (bits s)) b Hc1 Hne ltac:(lia))
    as (cs1 & c & cs2 & Hsplit & -> & Hnin & Hk).
  assert (c ∈ b) as Hcb by (rewrite Hsplit; apply elem_of_app; right; by left).
  destruct (repr_cell _ _ _ _ _ Hr Hcb) as (_ & Hca & [nx Hcn] & Hmc).
  apply Z.eqb_neq in Hca as Hca'. rewrite Hca'. cbn [heap].
  assert (hp1 !! c_addr c = Some (Node nx (c_key c) (c_val c))) as Hcn1.
  { unfold hp1. rewrite lookup_insert_ne; [done|]. apply not_eq_sym. by eapply Hfr. }
  rewrite Hcn1. cbn [nnext nval].
  set (p := last_addr d0 cs1). assert (∃ nd, hp1 !! p = Some nd) as [nd Hnd].
  { destruct (last_addr_in d0 cs1) as [[Hp' _]|(c' & Hc' & Hp')]; fold p in Hp'; rewrite Hp'.
    - unfold hp1. rewrite lookup_insert_eq. by eexists.
    - destruct (chain_lookup hp1 a b c' Hc1) as (_ & ny & Hy); [|by eexists].
      rewrite Hsplit. apply elem_of_app. by left. }
  assert (p ≠ c_addr c) as Hpc.
  { destruct (last_addr_in d0 cs1) as [[Hp' _]|(c' & Hc' & Hp')]; fold p in Hp'; rewrite Hp'.
    - apply not_eq_sym. by eapply Hfr.
    - pose proof (r_addr _ _ _ Hr h) as Hna. fold b in Hna. rewrite Hsplit, fmap_app in Hna.
      apply NoDup_app in Hna as (_ & Hna & _). intros Heq. apply (Hna (c_addr c')); [by apply list_elem_of_fmap_2|].
      rewrite Heq. by left. }
  cbn [heap]. fold p. rewrite Hnd. cbn [heap]. rewrite lookup_insert_ne, Hcn1 by done. cbn [nnext nval].
  set (hp3 := delete (c_addr c) (<[p := set_next nx nd]> hp1)).
  assert (size hp3 = size (heap s)) as Hsize.
  { unfold hp3. rewrite map_size_delete_Some by (eexists; by rewrite lookup_insert_ne).
    rewrite map_size_insert_Some by (by eexists). unfold hp1. rewrite map_size_insert_None by done. lia. }
  assert (∀ i c', i ≠ h → c' ∈ B i → hp3 !! c_addr c' = heap s !! c_addr c') as Hext.
  { intros i c' Hi Hc'. unfold hp3. rewrite lookup_delete_ne.
    2: { intros Heq. by eapply Hi, (r_disj _ _ _ Hr); [exact Hc'|exact Hcb|]. }
    assert (p ≠ c_addr c') as Hpc'.
    { destruct (last_addr_in d0 cs1) as [[Hp' _]|(e & He & Hp')]; fold p in Hp'; rewrite Hp'.
      - apply not_eq_sym. by eapply Hfr.
      - intros Heq. eapply Hi, (r_disj _ _ _ Hr); [exact Hc'| |by symmetry].
        fold b. rewrite Hsplit. apply elem_of_app. by left. }
    rewrite lookup_insert_ne by done. unfold hp1. apply lookup_insert_ne. apply not_eq_sym. by eapply Hfr. }
  exists (c_key c), (c_val c).
  assert (m !! key ≠ None → c_key c = key) as Hkey.
  { intros Hm. destruct Hk as [?| ->]; [done|]. destruct (m !! key) as [v|] eqn:Hmv; [|done].
    apply (r_map _ _ _ Hr) in Hmv as [x Hx]. fold h in Hx. fold b in Hx. rewrite Hsplit, elem_of_app in Hx.
    destruct Hx as [Hx|[Hx| ?%elem_of_nil]%elem_of_cons]; [|by rewrite <- Hx|done].
    exfalso. apply Hnin, list_elem_of_fmap. by exists (x, key, v). }
  destruct cs1 as [|e cs1].
  - cbn in p. rewrite Hsplit in Hc1. destruct Hc1 as (-> & _ & ny & Hny & Hc2).
    assert (ny = nx) as -> by congruence. rewrite Z.eqb_refl. cbn.
    eexists. eexists. split; [done|]. split_and!; [done|by apply (r_hash _ _ _ Hr)|done| |done].
    apply (unlink_repr s B m key nx [] c cs2 hp3); try done.
    assert (NoDup (c_addr <$> b)) as Hna by apply Hr. rewrite Hsplit in Hna. cbn [app] in Hna.
    rewrite fmap_cons in Hna. apply NoDup_cons in Hna as [Hna _].
    eapply bucket_chain_ext; [|exact Hc2]. intros c' Hc'. apply (list_elem_of_fmap_2 c_addr) in Hc' as Hc''.
    unfold hp3. rewrite lookup_delete_ne by (intros Heq; apply Hna; by rewrite Heq).
    apply lookup_insert_ne. unfold p.
    apply not_eq_sym, (Hfr h). fold b. rewrite Hsplit. by right.
  - assert (a ≠ c_addr c) as Hac.
    { rewrite Hsplit in Hc1. destruct Hc1 as (-> & _). assert (NoDup (c_addr <$> b)) as Hna by apply Hr.
      rewrite Hsplit in Hna. cbn [app] in Hna. rewrite fmap_cons in Hna.
      apply NoDup_cons in Hna as [Hna _]. intros Heq. apply Hna.
      rewrite Heq. apply list_elem_of_fmap_2, elem_of_app. right. by left. }
    apply Z.eqb_neq in Hac as ->. cbn.
    eexists. eexists. split; [done|]. split_and!; [done|by apply (r_hash _ _ _ Hr)|done| |done].
    pose proof (unlink_repr s B m key a (e :: cs1) c cs2 hp3 Hr Hsplit) as Hu. fold h in Hu.
    rewrite list_insert_id in Hu by done. apply Hu; [|done].
    rewrite Hsplit in Hc1. apply bucket_unlink; try done.
    assert (NoDup (c_addr <$> b)) as Hna by apply Hr. by rewrite Hsplit in Hna.
Qed.

(** ** Iteration *)
Definition kv (c : cell) : Z * Z := (c_key c, c_val c).
Definition node_kv (n : node) : Z * Z := (nkey n, nval n).

(** The cells of the [n] buckets from [i] on. *)
Fixpoint rest (B : Z → list cell) (i : Z) (n : nat) : list cell :=
  match n with O => [] | S n => B i ++ rest B (i + 1) n end.

Lemma rest_elem B i n c : c ∈ rest B i n ↔ ∃ j, i ≤ j < i + Z.of_nat n ∧ c ∈ B j.
Proof.
  revert i. induction n as [|n IH]; intros i; cbn [rest].
  - rewrite elem_of_nil. split; [done|]. intros (j & Hj & _). lia.
  - rewrite elem_of_app, IH. split.
    + intros [Hc|(j & Hj & Hc)]; [exists i|exists j]; (split; [lia|done]).
    + intros (j & Hj & Hc). destruct (decide (j = i)) as [->|]; [by left|right]. exists j. split; [lia|done].
Qed.

Lemma repr_chain_at s B m i :
  repr s B m → 0 ≤ i < Z.of_nat (length (hashtable s)) →
  ∃ a, bucket i s = Done (a, s) ∧ chain (heap s) a (B i).
Proof.
  intros Hr Hi. destruct (lookup_lt_is_Some_2 (hashtable s) (Z.to_nat i)) as [a Ha]; [lia|].
  exists a. unfold bucket. rewrite Ha. split; [done|].
  pose proof (r_chain _ _ _ Hr _ _ Ha) as Hc. by rewrite Z2Nat.id in Hc by lia.
Qed.

Lemma first_from_spec s B m n i :
  repr s B m → 0 ≤ i → i + Z.of_nat n = Z.of_nat (length (hashtable s)) →
  ∃ a, first_from i n s = Done (a, s) ∧
    ((a = 0 ∧ rest B i n = []) ∨
     (∃ j k, a ≠ 0 ∧ 0 ≤ j ∧ chain (heap s) a (B j) ∧ rest B i n = B j ++ rest B (j + 1) k ∧
        j + 1 + Z.of_nat k = Z.of_nat (length (hashtable s)))).
Proof.
  intros Hr. revert i. induction n as [|n IH]; intros i Hi Hn; cbn [first_from rest].
  { exists 0. split; [done|by left]. }
  destruct (repr_chain_at s B m i Hr) as (a & Ha & Hc); [lia|]. unfold_M. rewrite Ha.
  destruct (Z.eqb_spec a 0) as [->|Ha0].
  - apply chain_null in Hc. rewrite Hc. cbn. apply IH; lia.
  - exists a. split; [done|right]. exists i, n. split_and!; try done; lia.
Qed.

Lemma iterate_spec fuel s B m a i k cs cs0 :
  repr s B m → chain (heap s) a cs → cs ≠ [] → B i = cs0 ++ cs → 0 ≤ i →
  i + 1 + Z.of_nat k = Z.of_nat (length (hashtable s)) →
  (length (cs ++ rest B (i + 1) k) < fuel)%nat →
  ∃ l, iterate fuel a s = Done (l, s) ∧ node_kv <$> l = kv <$> (cs ++ rest B (i + 1) k).
Proof.
  intros Hr. revert a i k cs cs0. induction fuel as [|fuel IH]; intros a i k cs cs0 Hc Hne HB Hi Hk Hf; [lia|].
  destruct cs as [|c cs]; [done|]. destruct Hc as (-> & Ha & nx & Hn & Hc). cbn [iterate].
  apply Z.eqb_neq in Ha as ->. unfold advance, deref. unfold_M. rewrite Hn. cbv beta iota. rewrite Hn. cbn [nnext nkey].
  assert (hash (bits s) (c_key c) = i) as Hhash.
  { apply (r_hash _ _ _ Hr). rewrite HB. apply elem_of_app. right. by left. }
  destruct (Z.eqb_spec nx 0) as [->|Hnx].
  - apply chain_null in Hc as ->. cbv beta iota. rewrite Hhash.
    destruct (first_from_spec s B m k (i + 1) Hr) as (a & Ha & Hcase); [lia..|].
    replace (length (hashtable s) - Z.to_nat (i + 1))%nat with k by lia. rewrite Ha.
    cbn [app length] in Hf. destruct Hcase as [[-> Hrest]|(j & k' & Ha0 & Hj & Hcj & Hrest & Hk')].
    + cbn in *. destruct fuel as [|fuel]; [rewrite Hrest in Hf; cbn in Hf; lia|]. cbn. eexists. split; [done|].
      cbn. by rewrite Hrest.
    + destruct (IH a j k' (B j) []) as (l & -> & Hl); try done.
      * intros Hnil. rewrite Hnil in Hcj. cbn in Hcj. done.
      * rewrite <- Hrest. lia.
      * eexists. split; [done|]. cbn. by rewrite Hl, Hrest.
  - destruct (IH nx i k cs (cs0 ++ [c])) as (l & -> & Hl); try done.
    + intros ->. cbn in Hc. done.
    + by rewrite <- app_assoc.
    + cbn in Hf. lia.
    + eexists. split; [done|]. cbn. by rewrite Hl.
Qed.

Lemma rest_keys s B m n i :
  repr s B m → NoDup (c_key <$> rest B i n) ∧ NoDup (c_addr <$> rest B i n).
Proof.
  intros Hr. revert i. induction n as [|n IH]; intros i; cbn [rest]; [split; constructor|].
  rewrite !fmap_app, !NoDup_app. destruct (IH (i + 1)) as [IH1 IH2]. split_and!; try done; try apply Hr.
  - intros k [c [-> Hc]]%list_elem_of_fmap [c' [Heq Hc']]%list_elem_of_fmap.
    apply rest_elem in Hc' as (j & Hj & Hc'). apply (r_hash _ _ _ Hr) in Hc, Hc'. rewrite Heq, Hc' in Hc. lia.
  - intros k [c [-> Hc]]%list_elem_of_fmap [c' [Heq Hc']]%list_elem_of_fmap.
    apply rest_elem in Hc' as (j & Hj & Hc'). pose proof (r_disj _ _ _ Hr _ _ _ _ Hc Hc' Heq). lia.
Qed.

Lemma rest_size s B m n : repr s B m → (length (rest B 0 n) ≤ size (heap s))%nat.
Proof.
  intros Hr. destruct (rest_keys s B m n 0 Hr) as [_ Hnd].
  rewrite <- (size_dom (D:=gset Z)), <- (length_fmap c_addr), <- (size_list_to_set (C:=gset Z)) by done.
  apply subseteq_size. intros x [c [-> Hc']]%elem_of_list_to_set%list_elem_of_fmap.
  apply rest_elem in Hc' as (j & _ & Hc). destruct (repr_cell _ _ _ _ _ Hr Hc) as (_ & _ & [nx Hn] & _).
  by apply elem_of_dom_2 in Hn.
Qed.

(** The heap of [s] stores the map [m]. *)
Definition stored (s : hst) (m : gmap Z Z) : Prop := ∃ B, repr s B m.

Lemma get_stored fuel s m key : stored s m → (size m < fuel)%nat → get fuel key s = Done (default 0 (m !! key), s).
Proof. intros [B Hr] Hs. by eapply get_spec. Qed.
Lemma put_stored fuel s m key val :
  stored s m → (size m < fuel)%nat → m !! key = None →
  ∃ s', put new_node fuel key val s = Done (tt, s') ∧ stored s' (<[key := val]> m).
Proof.
  intros [B Hr] Hs Hk. destruct (put_spec fuel s B m key val Hr Hs) as [_ Hput].
  destruct (Hput Hk) as (s' & B' & E & Hr' & _). exists s'. split; [done|by exists B'].
Qed.

Lemma map_new_stored order hp : 2 ≤ order ≤ 30 → stored (map_new order hp) ∅.
Proof.
  intros Ho. exists (λ _, []). split; cbn -[i32]; try done.
  - lia.
  - pose proof (Z.pow_le_mono_r 2 order 30). rewrite length_replicate.
    rewrite Z.shiftl_1_l, i32_small; lia.
  - intros i a [-> _]%lookup_replicate. done.
  - intros i. constructor.
  - by intros i j c c' ?%elem_of_nil.
  - by intros i c ?%elem_of_nil.
  - intros i. constructor.
  - intros k v. rewrite lookup_empty. split; [done|]. by intros [x ?%elem_of_nil].
Qed.

(** Claim C14. The hash map implements a finite map: a new one is empty, [get]
    gives the value or null, [put] inserts a new key and panics on one that is
    there, and [poll] removes a key that is there and returns its value.
    [poll] of an absent key panics when its bucket is empty, and otherwise
    removes some other key of that bucket and returns its value. *)
Theorem hash_map_refines_gmap (fuel : nat) (order : Z) (hp : gmap Z node) (s : hst) (m : gmap Z Z) (key val : Z) :
  2 ≤ order ≤ 30 → stored s m → (size m < fuel)%nat →
  stored (map_new order hp) ∅ ∧
  get fuel key s = Done (default 0 (m !! key), s) ∧
  match m !! key with
  | Some v =>
      put new_node fuel key val s = Panic "hash map put" ∧
      ∃ s', poll new_node fuel key s = Done (v, s') ∧ stored s' (delete key m)
  | None =>
      (∃ s', put new_node fuel key val s = Done (tt, s') ∧ stored s' (<[key := val]> m)) ∧
      (poll new_node fuel key s = Panic "poll" ∨
       ∃ k v s', k ≠ key ∧ m !! k = Some v ∧ hash (bits s) k = hash (bits s) key ∧
         poll new_node fuel key s = Done (v, s') ∧ stored s' (delete k m))
  end.
Proof.
  intros Ho [B Hr] Hf. split; [by apply map_new_stored|]. split; [by eapply get_spec|].
  destruct (put_spec fuel s B m key val Hr Hf) as [Hp1 Hp2].
  destruct (poll_spec fuel s B m key Hr Hf) as [Hq1 Hq2].
  destruct (m !! key) as [v|] eqn:Hm.
  - split; [by apply Hp1|]. destruct Hq2 as (k & v' & s' & B' & Hrun & Hkv & _ & Hk & Hr' & _).
    { apply (r_map _ _ _ Hr) in Hm as [x Hx]. intros Hnil. rewrite Hnil in Hx. by apply elem_of_nil in Hx. }
    rewrite Hk in * by done. rewrite Hm in Hkv. injection Hkv as <-. exists s'. split; [done|by exists B'].
  - destruct Hp2 as (s' & B' & Hrun & Hr' & _); [done|]. split; [exists s'; split; [done|by exists B']|].
    destruct (decide (B (hash (bits s) key) = [])) as [Hnil|Hne]; [left; by apply Hq1|right].
    destruct (Hq2 Hne) as (k & v & s2 & B2 & Hrun2 & Hkv & Hh & _ & Hr2 & _).
    exists k, v, s2. split_and!; try done; [congruence|by exists B2].
Qed.

(** A loop over the iterators of the map, from [begin()] to null,
    visits every entry of the map exactly once and changes nothing. *)
Theorem map_iterator_complete (fuel : nat) (s : hst) (m : gmap Z Z) :
  stored s m → (size (heap s) < fuel)%nat →
  ∃ l, (a ← begin_; iterate fuel a) s = Done (l, s) ∧ NoDup (nkey <$> l) ∧
    ∀ k v, m !! k = Some v ↔ (k, v) ∈ node_kv <$> l.
Proof.
  intros [B Hr] Hf. set (n := length (hashtable s)).
  destruct (first_from_spec s B m n 0 Hr) as (a & Ha & Hcase); [lia..|].
  assert (∃ l, iterate fuel a s = Done (l, s) ∧ node_kv <$> l = kv <$> rest B 0 n) as (l & Hl & Hkv).
  { pose proof (rest_size s B m n Hr). destruct Hcase as [[-> Hrest]|(j & k & Ha0 & Hj & Hcj & Hrest & Hk)].
    - destruct fuel as [|fuel]; [lia|]. exists []. by rewrite Hrest.
    - rewrite Hrest in *. eapply (iterate_spec fuel s B m a j k (B j) []); try done; [|lia].
      intros Hnil. rewrite Hnil in Hcj. cbn in Hcj. done. }
  exists l. unfold begin_. unfold_M. fold n. rewrite Ha, Hl. split_and!; [done|..].
  - assert (nkey <$> l = c_key <$> rest B 0 n) as ->; [|by eapply rest_keys].
    replace (nkey <$> l) with (fst <$> (node_kv <$> l)) by (by rewrite <- list_fmap_compose).
    rewrite Hkv. by rewrite <- list_fmap_compose.
  - intros k v. rewrite Hkv, (r_map _ _ _ Hr), list_elem_of_fmap. split.
    + intros [x Hx]. exists (x, k, v). split; [done|]. apply rest_elem. exists (hash (bits s) k).
      split; [|done]. destruct (repr_cell _ _ _ _ _ Hr Hx) as (Hi & _). pose proof (r_len _ _ _ Hr). lia.
    + intros ([[x k'] v'] & [= -> ->] & Hx). apply rest_elem in Hx as (j & _ & Hx).
      pose proof (r_hash _ _ _ Hr _ _ Hx) as Hj. unfold c_key, c_val in *. cbn [fst snd] in *.
      rewrite Hj. by exists x.
Qed.
End ops.

(** ** A concrete map *)
Module MapWitness.
Definition new0 (hp : gmap Z node) : Z :=
  Z.pos (fresh (set_map Z.to_pos (dom hp) : gset positive)).
Lemma new0_fresh hp : new0 hp ≠ 0 ∧ hp !! new0 hp = None.
Proof.
  split; [done|]. apply not_elem_of_dom. intros Hin. unfold new0 in Hin.
  apply (is_fresh (set_map Z.to_pos (dom hp) : gset positive)).
  apply elem_of_map. eexists. split; [|exact Hin]. done.
Qed.

Definition m0 : hst := map_new 5 ∅.

Lemma hash_map_refines_gmap_witness :
  get 1 7 m0 = Done (0, m0) ∧ ∃ s', put new0 1 7 42 m0 = Done (tt, s') ∧ stored s' {[7 := 42]}.
Proof.
  pose proof (hash_map_refines_gmap new0 new0_fresh 1 5 ∅ m0 ∅ 7 42 ltac:(lia)
    (map_new_stored 5 ∅ ltac:(lia)) ltac:(apply Nat.lt_0_1)) as (_ & Hget & Hput & _).
  split; [exact Hget|exact Hput].
Defined.

Lemma map_iterator_complete_witness :
  ∃ l, (a ← begin_; iterate 1 a) m0 = Done (l, m0) ∧ NoDup (nkey <$> l) ∧
    ∀ k v, (∅ : gmap Z Z) !! k = Some v ↔ (k, v) ∈ node_kv <$> l.
Proof.
  apply (map_iterator_complete 1 m0 ∅ (map_new_stored 5 ∅ ltac:(lia)) ltac:(apply Nat.lt_0_1)).
Defined.

(** Removing an absent key removes another one: 5 and 39 share a bucket. *)
Definition m1 : hst := match put new0 9 5 42 m0 with Done (_, s) => s | _ => m0 end.
Lemma poll_absent_key_removes_another :
  ∃ k, hash 5 k = hash 5 5 ∧ k ≠ 5 ∧ get 9 k m1 = Done (0, m1) ∧ get 9 5 m1 = Done (42, m1) ∧
    match poll new0 9 k m1 with
    | Done (v, s') => v = 42 ∧ get 9 5 s' = Done (0, s')
    | _ => False
    end.
Proof. exists 39. vm_compute. split_and!; done. Qed.
End MapWitness.
