(* ===== verification/Buf.v ===== *)
(** * The buffer cache: kernel/fs/buf/BufferLayer.cpp, with the block devices
    behind it (kernel/device/virtio_disk.cpp, DeviceManager.cpp)

    A device is its bytes: [VirtioRead] and [VirtioWrite] move one sector, which
    is what VirtioDriver.v proves of the driver.  The cache is used by one task
    at a time: a sleep lock that is held would put the task to sleep for ever,
    which is [NoFuel] here. *)
From S2P Require Import Prelude Mem.

Definition BUFFER_NUM : nat := 20.
Definition BSIZE : Z := 4096.

(** [n] bytes of a memory or device from [a] on, and storing them. *)
Fixpoint rd_bytes (m : mem) (a : Z) (n : nat) : list Z :=
  match n with O => [] | S n => m a :: rd_bytes m (a + 1) n end.
Fixpoint wr_bytes (m : mem) (a : Z) (l : list Z) : mem :=
  match l with [] => m | x :: l => upd (wr_bytes m (a + 1) l) a x end.

(** ** Block devices *)

(** The sector loops of [VirtioDisk::read] and [VirtioDisk::write]; the
    position in [buf] is the position in the list. *)
Fixpoint rd_sectors (d : mem) (sector : Z) (n : nat) : list Z :=
  match n with O => [] | S n => rd_bytes d (sector * 512) 512 ++ rd_sectors d (sector + 1) n end.
Fixpoint wr_sectors (d : mem) (sector : Z) (n : nat) (l : list Z) : mem :=
  match n with
  | O => d
  | S n => wr_sectors (wr_bytes d (sector * 512) (take 512 l)) (sector + 1) n (drop 512 l)
  end.

Definition bad_range (offset n : Z) : bool := negb (Z.rem n 512 =? 0) || negb (Z.rem offset 512 =? 0).
(** [offset], [n] and their sum are [int]s. *)
Definition n_sectors (offset n : Z) : nat := Z.to_nat (Z.quot (i32 (offset + n)) 512 - Z.quot offset 512).

(** [read] into a buffer that holds [old]: the result and the new contents. *)
Definition VirtioDisk_read (d : mem) (old : list Z) (offset n : Z) : Z * list Z :=
  if bad_range offset n then (-1, old)
  else let l := rd_sectors d (Z.quot offset 512) (n_sectors offset n) in (n, l ++ drop (length l) old).
Definition VirtioDisk_write (d : mem) (l : list Z) (offset n : Z) : Z * mem :=
  if bad_range offset n then (-1, d)
  else (n, wr_sectors d (Z.quot offset 512) (n_sectors offset n) l).

(** ** The cache *)
Record buf := Buf {
  valid : Z;
  bdev : Z;
  blockno : Z;
  last_use_tick : Z;
  locked : bool;
  refcnt : Z;
  bdata : list Z;
}.

Record bl := BL {
  bufCache : list buf;
  rw_devs : Z → mem;
  first_data_sector : Z;
  sectors_per_cluster : Z;
  bticks : Z;
}.
Abbreviation BM := (M bl).

Definition set_bufs (l : list buf) (s : bl) : bl :=
  BL l (rw_devs s) (first_data_sector s) (sectors_per_cluster s) (bticks s).
Definition set_dev (dev : Z) (d : mem) (s : bl) : bl :=
  BL (bufCache s) (λ x, if x =? dev then d else rw_devs s x) (first_data_sector s) (sectors_per_cluster s) (bticks s).

Definition buf_at (i : nat) : BM buf := λ s,
  match bufCache s !! i with Some b => Done (b, s) | None => Panic "bad buffer" end.
Definition put_buf (i : nat) (b : buf) : BM unit := modify (λ s, set_bufs (<[i := b]> (bufCache s)) s).

(** [dev::RwDevRead] and [dev::RwDevWrite]: the offset is an [int]. *)
Definition RwDevRead (dev : Z) (old : list Z) (offset n : Z) : BM (Z * list Z) :=
  gets (λ s, VirtioDisk_read (rw_devs s dev) old (i32 offset) n).
Definition RwDevWrite (dev : Z) (l : list Z) (offset n : Z) : BM Z := λ s,
  let '(r, d) := VirtioDisk_write (rw_devs s dev) l (i32 offset) n in Done (r, set_dev dev d s).

(** [memset] of the cache; only the first buffer's lock is initialised, 20 times. *)
Definition zero_buf : buf := Buf 0 0 0 0 false 0 (replicate (Z.to_nat BSIZE) 0).
Definition init : BM unit := modify (set_bufs (replicate BUFFER_NUM zero_buf)).

(** [b->sleeplock.lock()] and [unlock()]. *)
Definition asleep_for_ever : BM unit := λ _, NoFuel.
Definition lock_buf (i : nat) : BM unit :=
  b ← buf_at i;
  if locked b then asleep_for_ever
  else put_buf i (Buf (valid b) (bdev b) (blockno b) (last_use_tick b) true (refcnt b) (bdata b)).
Definition unlock_buf (i : nat) : BM unit :=
  b ← buf_at i;
  put_buf i (Buf (valid b) (bdev b) (blockno b) (last_use_tick b) false (refcnt b) (bdata b)).

(** The loop of [allocBuffer]: the buffer of the block, or the free buffer
    that was used the longest time ago. *)
Fixpoint scan (bs : list buf) (i : nat) (block : Z) (earliest : option (nat * Z)) : nat + option nat :=
  match bs with
  | [] => inr (fst <$> earliest)
  | b :: bs =>
      let earliest :=
        if (refcnt b =? 0) &&
           match earliest with None => true | Some (_, t) => last_use_tick b <? t end
        then Some (i, last_use_tick b) else earliest in
      if blockno b =? block then inl i else scan bs (S i) block earliest
  end.

Definition allocBuffer (dev block : Z) : BM nat :=
  r ← gets (λ s, scan (bufCache s) 0 block None);
  t ← gets bticks;
  match r with
  | inl i =>
      b ← buf_at i;
      put_buf i (Buf (valid b) (bdev b) (blockno b) t (locked b) (u32 (refcnt b + 1)) (bdata b));;
      lock_buf i;;
      mret i
  | inr None => panic "alloc buf"
  | inr (Some i) =>
      b ← buf_at i;
      put_buf i (Buf 0 dev block t (locked b) 1 (bdata b));;
      lock_buf i;;
      mret i
  end.

Definition freeBuffer (i : nat) : BM unit :=
  b ← buf_at i;
  put_buf i (Buf (valid b) (bdev b) (blockno b) (last_use_tick b) (locked b) (u32 (refcnt b - 1)) (bdata b));;
  unlock_buf i.

Definition FirstSectorOfCluster (s : bl) (cluster : Z) : Z :=
  u32 (first_data_sector s + u32 (cluster - 2) * sectors_per_cluster s).

Definition read (dev cluster : Z) : BM nat :=
  i ← allocBuffer dev cluster;
  b ← buf_at i;
  (if valid b =? 0 then
     sector ← gets (λ s, FirstSectorOfCluster s cluster);
     '(_, l) ← RwDevRead dev (bdata b) (sector * 512) BSIZE;
     put_buf i (Buf (valid b) (bdev b) (blockno b) (last_use_tick b) (locked b) (refcnt b) l)
   else mret tt);;
  b ← buf_at i;
  put_buf i (Buf 1 (bdev b) (blockno b) (last_use_tick b) (locked b) (refcnt b) (bdata b));;
  mret i.

Definition write (i : nat) : BM unit :=
  b ← buf_at i;
  sector ← gets (λ s, FirstSectorOfCluster s (blockno b));
  RwDevWrite (bdev b) (bdata b) (sector * 512) BSIZE;;
  mret tt.

(** What the file system does with a block: look at its data, and change its
    data and write it back. *)
Definition read_block (dev cluster : Z) : BM (list Z) :=
  i ← read dev cluster;
  b ← buf_at i;
  freeBuffer i;;
  mret (bdata b).
Definition write_block (dev cluster : Z) (f : list Z → list Z) : BM unit :=
  i ← read dev cluster;
  b ← buf_at i;
  put_buf i (Buf (valid b) (bdev b) (blockno b) (last_use_tick b) (locked b) (refcnt b) (f (bdata b)));;
  write i;;
  freeBuffer i.

(** ** Lemmas: sectors and bytes *)
Lemma length_rd_bytes m a n : length (rd_bytes m a n) = n.
Proof. revert a. induction n as [|n IH]; intros a; cbn; [done|by rewrite IH]. Qed.
Lemma rd_bytes_lookup m a n i : (i < n)%nat → rd_bytes m a n !! i = Some (m (a + Z.of_nat i)).
Proof.
  revert a i. induction n as [|n IH]; intros a [|i] Hi; cbn; [lia|lia|by rewrite Z.add_0_r|].
  rewrite IH by lia. do 2 f_equal. lia.
Qed.
Lemma rd_bytes_ext m m' a n :
  (∀ x, a ≤ x < a + Z.of_nat n → m' x = m x) → rd_bytes m' a n = rd_bytes m a n.
Proof.
  revert a. induction n as [|n IH]; intros a Hx; [done|]. cbn. rewrite Hx by lia. f_equal.
  apply IH. intros x Hx'. apply Hx. lia.
Qed.
Lemma rd_bytes_app m a n k : rd_bytes m a (n + k) = rd_bytes m a n ++ rd_bytes m (a + Z.of_nat n) k.
Proof.
  revert a. induction n as [|n IH]; intros a; cbn; [f_equal; lia|]. rewrite IH.
  replace (a + 1 + Z.of_nat n) with (a + Z.of_nat (S n)) by lia. done.
Qed.
Lemma wr_bytes_out m a l x : ¬ (a ≤ x < a + Z.of_nat (length l)) → wr_bytes m a l x = m x.
Proof.
  revert a. induction l as [|y l IH]; intros a Hx; cbn; [done|]. cbn in Hx.
  rewrite upd_ne by lia. apply IH. lia.
Qed.
Lemma wr_bytes_in m a l i y : l !! i = Some y → wr_bytes m a l (a + Z.of_nat i) = y.
Proof.
  revert a i. induction l as [|z l IH]; intros a i Hi; [done|]. cbn. destruct i as [|i]; cbn in Hi.
  - injection Hi as ->. by rewrite Z.add_0_r, upd_eq.
  - rewrite upd_ne by lia. replace (a + Z.of_nat (S i)) with (a + 1 + Z.of_nat i) by lia. by apply IH.
Qed.
Lemma rd_wr_bytes m a l : rd_bytes (wr_bytes m a l) a (length l) = l.
Proof.
  apply list_eq. intros i. destruct (decide (i < length l)%nat) as [Hi|Hi].
  - rewrite rd_bytes_lookup by done. destruct (lookup_lt_is_Some_2 l i Hi) as [y Hy].
    by rewrite Hy, (wr_bytes_in _ _ _ _ y).
  - rewrite !lookup_ge_None_2; [done|lia|]. rewrite length_rd_bytes. lia.
Qed.
Lemma wr_bytes_app m a l1 l2 :
  wr_bytes m a (l1 ++ l2) = wr_bytes (wr_bytes m (a + Z.of_nat (length l1)) l2) a l1.
Proof.
  revert a. induction l1 as [|x l1 IH]; intros a; cbn; [f_equal; lia|]. rewrite IH.
  replace (a + 1 + Z.of_nat (length l1)) with (a + Z.of_nat (S (length l1))) by lia. done.
Qed.
Lemma wr_bytes_at m a l x :
  wr_bytes m a l x = default (m x) (if decide (a ≤ x) then l !! Z.to_nat (x - a) else None).
Proof.
  destruct (decide (a ≤ x)) as [Hx|Hx]; [|by rewrite wr_bytes_out by lia].
  destruct (l !! Z.to_nat (x - a)) as [y|] eqn:Hy; cbn.
  - rewrite <- (wr_bytes_in m a l (Z.to_nat (x - a)) y) by done. f_equal. lia.
  - apply lookup_ge_None_1 in Hy. apply wr_bytes_out. lia.
Qed.

Lemma rd_sectors_bytes d s n : rd_sectors d s n = rd_bytes d (s * 512) (512 * n).
Proof.
  revert s. induction n as [|n IH]; intros s; [done|]. cbn [rd_sectors].
  rewrite IH. replace (512 * S n)%nat with (512 + 512 * n)%nat by lia. rewrite rd_bytes_app.
  f_equal. f_equal. lia.
Qed.
Lemma wr_sectors_bytes d s n l x :
  length l = (512 * n)%nat → wr_sectors d s n l x = wr_bytes d (s * 512) l x.
Proof.
  revert d s l. induction n as [|n IH]; intros d s l Hl.
  { rewrite Nat.mul_0_r in Hl. by apply length_zero_iff_nil in Hl as ->. }
  cbn [wr_sectors]. rewrite IH by (rewrite length_drop; lia).
  assert (length (take 512 l) = 512%nat) as Ht by (rewrite length_take; lia).
  rewrite <- (take_drop 512 l) at 3. rewrite wr_bytes_app, Ht.
  change (Z.of_nat 512) with 512. replace (s * 512 + 512) with ((s + 1) * 512) by lia.
  destruct (decide (s * 512 ≤ x < s * 512 + 512)) as [Hx|Hx].
  - rewrite (wr_bytes_out _ ((s + 1) * 512)) by lia.
    destruct (lookup_lt_is_Some_2 (take 512 l) (Z.to_nat (x - s * 512))) as [y Hy]; [lia|].
    replace x with (s * 512 + Z.of_nat (Z.to_nat (x - s * 512))) by lia.
    by rewrite !(wr_bytes_in _ _ _ _ y).
  - rewrite (wr_bytes_out _ (s * 512) (take 512 l)) by lia.
    rewrite (wr_bytes_at (wr_bytes d _ _)), (wr_bytes_at d ((s + 1) * 512)), (wr_bytes_out d (s * 512)) by lia.
    done.
Qed.

Lemma VirtioDisk_read_ok d old off n :
  0 ≤ off → 0 ≤ n → off + n < 2 ^ 31 → off mod 512 = 0 → n mod 512 = 0 → Z.of_nat (length old) = n →
  VirtioDisk_read d old off n = (n, rd_bytes d off (Z.to_nat n)).
Proof.
  intros Ho Hn Hsm Hom Hnm Hl. unfold VirtioDisk_read, bad_range, n_sectors. rewrite i32_small by lia.
  rewrite !Z.rem_mod_nonneg, Hom, Hnm, !Z.quot_div_nonneg by lia. cbn.
  rewrite rd_sectors_bytes, length_rd_bytes. rewrite drop_ge by dlia. rewrite app_nil_r.
  f_equal. f_equal; dlia.
Qed.
Lemma VirtioDisk_write_ok d l off n :
  0 ≤ off → 0 ≤ n → off + n < 2 ^ 31 → off mod 512 = 0 → n mod 512 = 0 → Z.of_nat (length l) = n →
  ∃ d', VirtioDisk_write d l off n = (n, d') ∧ ∀ x, d' x = wr_bytes d off l x.
Proof.
  intros Ho Hn Hsm Hom Hnm Hl. unfold VirtioDisk_write, bad_range, n_sectors. rewrite i32_small by lia.
  rewrite !Z.rem_mod_nonneg, Hom, Hnm, !Z.quot_div_nonneg by lia. cbn. eexists. split; [done|].
  intros x. rewrite wr_sectors_bytes by dlia. f_equal. dlia.
Qed.

(** ** Coherence

    Blocks are 4096 bytes: eight sectors per cluster, all below 2 GB, since
    offsets are [int]s. *)
Definition base (s : bl) (c : Z) : Z := (first_data_sector s + (c - 2) * 8) * 512.
Definition vblock (s : bl) (c : Z) : Prop := 2 ≤ c ∧ base s c + BSIZE < 2 ^ 31.
Definition dblock (s : bl) (dev c : Z) : list Z := rd_bytes (rw_devs s dev) (base s c) (Z.to_nat BSIZE).

Record buf_ok (P : Z → Prop) (s : bl) (b : buf) : Prop := {
  bo_len : Z.of_nat (length (bdata b)) = BSIZE;
  bo_block : valid b ≠ 0 → vblock s (blockno b);
  bo_data : valid b ≠ 0 → P (blockno b) → bdata b = dblock s (bdev b) (blockno b);
}.

(** Every valid buffer of a block in [P] holds what its device holds ([P] leaves
    out blocks that were written past the cache); no block but the initial 0
    has two buffers; and all belong to one device, because [allocBuffer]
    compares block numbers only. *)
Record coherent (dev : Z) (P : Z → Prop) (s : bl) : Prop := {
  co_spc : sectors_per_cluster s = 8;
  co_fds : 0 ≤ first_data_sector s < 2 ^ 31;
  co_len : length (bufCache s) = BUFFER_NUM;
  co_buf : ∀ i b, bufCache s !! i = Some b → buf_ok P s b;
  co_dev : ∀ i b, bufCache s !! i = Some b → blockno b ≠ 0 → bdev b = dev;
  co_unique : ∀ i j b b', bufCache s !! i = Some b → bufCache s !! j = Some b' →
    blockno b = blockno b' → blockno b ≠ 0 → i = j;
}.
Definition quiet (s : bl) : Prop := ∀ i b, bufCache s !! i = Some b → locked b = false ∧ refcnt b = 0.

(** The free buffer used the longest time ago, if any is free. *)
Definition lru (bs : list buf) (i0 : nat) (e r : option (nat * Z)) : Prop :=
  match r with
  | None => e = None ∧ Forall (λ b, refcnt b ≠ 0) bs
  | Some (k, t) =>
      (e = Some (k, t) ∨ ∃ j b, k = (i0 + j)%nat ∧ bs !! j = Some b ∧ refcnt b = 0 ∧ last_use_tick b = t) ∧
      Forall (λ b, refcnt b = 0 → t ≤ last_use_tick b) bs ∧
      (∀ k0 t0, e = Some (k0, t0) → t ≤ t0)
  end.

Lemma scan_spec bs i0 c e :
  match scan bs i0 c e with
  | inl k => ∃ j b, k = (i0 + j)%nat ∧ bs !! j = Some b ∧ blockno b = c
  | inr r => (∀ j b, bs !! j = Some b → blockno b ≠ c) ∧ ∃ r', r = fst <$> r' ∧ lru bs i0 e r'
  end.
Proof.
  revert i0 e. induction bs as [|b bs IH]; intros i0 e; cbn [scan].
  { split; [done|]. exists e. split; [done|]. destruct e as [[k t]|]; cbn; [|done].
    split_and!; [by left|constructor|]. intros k0 t0 [= <- <-]. lia. }
  set (e1 := if _ && _ then _ else e).
  assert (match e1 with
          | None => e = None ∧ refcnt b ≠ 0
          | Some (k, t) => (e = Some (k, t) ∨ (k = i0 ∧ refcnt b = 0 ∧ last_use_tick b = t)) ∧
              (refcnt b = 0 → t ≤ last_use_tick b) ∧ (∀ k0 t0, e = Some (k0, t0) → t ≤ t0)
          end) as He1.
  { unfold e1. destruct (Z.eqb_spec (refcnt b) 0) as [Hr|Hr]; cbn.
    - destruct e as [[k t]|]; [|split_and!; [by right|lia|done]].
      destruct (Z.ltb_spec (last_use_tick b) t).
      + split_and!; [by right|lia|]. intros k0 t0 [= <- <-]. lia.
      + split_and!; [by left|lia|]. intros k0 t0 [= <- <-]. lia.
    - destruct e as [[k t]|]; [|done]. split_and!; [by left|lia|]. intros k0 t0 [= <- <-]. lia. }
  destruct (Z.eqb_spec (blockno b) c) as [Hb|Hb].
  { exists 0%nat, b. split_and!; [lia|done|done]. }
  specialize (IH (S i0) e1). destruct (scan bs (S i0) c e1) as [k|r].
  - destruct IH as (j & b' & -> & Hj & Hc). exists (S j), b'. split_and!; [lia|done|done].
  - destruct IH as [Hn (r' & -> & Hl)]. split; [intros [|j] b' Hj; [by injection Hj as <-|by eapply Hn]|].
    exists r'. split; [done|]. destruct r' as [[k t]|]; cbn in Hl |- *.
    + destruct Hl as (Hk & Hall & Hmin). split_and!.
      * destruct Hk as [He|(j & b' & -> & Hj & Hr & Ht)]; [|right; exists (S j), b'; split_and!; [lia|done..]].
        rewrite He in He1. destruct He1 as ([?|(-> & Hr & Ht)] & _); [by left|].
        right. exists 0%nat, b. split_and!; [lia|done..].
      * constructor; [|done]. intros Hr. destruct e1 as [[k1 t1]|]; [|by destruct He1].
        destruct He1 as (_ & He1 & _). specialize (He1 Hr). specialize (Hmin k1 t1 eq_refl). lia.
      * intros k0 t0 He. destruct e1 as [[k1 t1]|]; [|by destruct He1 as [-> _]].
        destruct He1 as (_ & _ & He1). specialize (He1 k0 t0 He). specialize (Hmin k1 t1 eq_refl). lia.
    + destruct Hl as [-> Hall]. destruct He1 as [-> Hr]. split; [done|by constructor].
Qed.

Lemma FirstSector_ok dev P s c :
  coherent dev P s → vblock s c → FirstSectorOfCluster s c * 512 = base s c ∧ 0 ≤ base s c.
Proof.
  intros [Hs Hf _ _ _ _] [Hc Hb]. unfold FirstSectorOfCluster, base, BSIZE in *. rewrite Hs.
  rewrite (u32_small (c - 2)) by lia. rewrite u32_small by lia. lia.
Qed.

Lemma length_dblock s dev c : Z.of_nat (length (dblock s dev c)) = BSIZE.
Proof. unfold dblock, BSIZE. rewrite length_rd_bytes. lia. Qed.

Lemma disk_read_ok dev P s c old :
  coherent dev P s → vblock s c → Z.of_nat (length old) = BSIZE →
  RwDevRead dev old (FirstSectorOfCluster s c * 512) BSIZE s = Done ((BSIZE, dblock s dev c), s).
Proof.
  intros Hc Hv Hl. destruct (FirstSector_ok dev P s c Hc Hv) as [-> Hb]. destruct Hv as [_ Hv].
  unfold RwDevRead, gets, dblock. unfold BSIZE in *. rewrite i32_small by lia.
  rewrite VirtioDisk_read_ok; [done|lia|lia|lia| |done|done]. unfold base. dlia.
Qed.

Lemma set_bufs_base l s c : base (set_bufs l s) c = base s c.
Proof. done. Qed.

(** The state in which buffer [i] is handed out holding block [c]. *)
Definition got (dev c : Z) (s : bl) : buf := Buf 1 dev c (bticks s) true 1 (dblock s dev c).

Ltac use_read Hrd s dev b c :=
  match goal with |- context [VirtioDisk_read ?d ?o ?off BSIZE] =>
    change (VirtioDisk_read d o off BSIZE)
      with (VirtioDisk_read (rw_devs s dev) (bdata b) (i32 (FirstSectorOfCluster s c * 512)) BSIZE)
  end.

Lemma read_spec dev P s c :
  coherent dev P s → quiet s → vblock s c → P c →
  ∃ i, read dev c s = Done (i, set_bufs (<[i := got dev c s]> (bufCache s)) s) ∧
    (i < BUFFER_NUM)%nat ∧ (∀ j b, j ≠ i → bufCache s !! j = Some b → blockno b ≠ c).
Proof.
  intros Hc Hq Hv HP. assert (c ≠ 0) as Hc0 by (destruct Hv; lia).
  unfold read, allocBuffer. unfold_M. pose proof (scan_spec (bufCache s) 0 c None) as Hscan.
  destruct (scan (bufCache s) 0 c None) as [k|r].
  - destruct Hscan as (i & b & -> & Hi & Hb). cbn [Nat.add].
    destruct (Hq i b Hi) as [Hlk Hrc]. destruct (co_buf _ _ _ Hc i b Hi) as [Hlen _ Hdata].
    pose proof (lookup_lt_Some _ _ _ Hi) as Hlt. rewrite (co_len _ _ _ Hc) in Hlt.
    assert (bdev b = dev) as Hdev by (eapply co_dev; [done..|by rewrite Hb]).
    exists i. split_and!; [|done|].
    + unfold buf_at, put_buf, lock_buf, modify. unfold_M. rewrite Hi. cbn.
      unfold buf_at. cbn. rewrite list_lookup_insert_eq by (by rewrite (co_len _ _ _ Hc)). cbn.
      rewrite Hlk. cbn. rewrite list_insert_insert_eq, list_lookup_insert_eq by (by rewrite (co_len _ _ _ Hc)). cbn.
      destruct (Z.eqb_spec (valid b) 0) as [Hval|Hval].
      * pose proof (disk_read_ok dev P s c (bdata b) Hc Hv Hlen) as Hrd.
        unfold RwDevRead, gets in Hrd |- *. cbn. injection Hrd as Hrd. use_read Hrd s dev b c. rewrite Hrd. cbn.
        rewrite list_insert_insert_eq, list_lookup_insert_eq by (by rewrite (co_len _ _ _ Hc)). cbn.
        rewrite list_insert_insert_eq. unfold got. rewrite Hrc, Hdev, Hb. done.
      * cbn. rewrite list_lookup_insert_eq by (by rewrite (co_len _ _ _ Hc)). cbn.
        rewrite list_insert_insert_eq. rewrite Hdata by (done || by rewrite Hb).
        unfold got. rewrite Hrc, Hdev, Hb. done.
    + intros j b' Hj Hb' Heq. apply Hj. eapply (co_unique _ _ _ Hc); [done..|congruence|congruence].
  - destruct Hscan as [Hno (r' & -> & Hl)]. destruct r' as [[i t]|].
    2: { destruct Hl as [_ Hl]. exfalso. destruct (bufCache s) as [|b bs] eqn:Hbs.
      - pose proof (co_len _ _ _ Hc) as Hlen. by rewrite Hbs in Hlen.
      - inversion Hl as [|? ? Hr _]. apply Hr. apply (Hq 0%nat). by rewrite Hbs. }
    destruct Hl as ([?|(i' & b & -> & Hi & Hrc & Ht)] & _ & _); [done|]. cbn [fmap option_fmap option_map fst Nat.add].
    destruct (Hq i' b Hi) as [Hlk _]. destruct (co_buf _ _ _ Hc i' b Hi) as [Hlen _ _].
    pose proof (lookup_lt_Some _ _ _ Hi) as Hlt. rewrite (co_len _ _ _ Hc) in Hlt.
    exists i'. split_and!; [|done|by intros j b' _; apply Hno].
    unfold buf_at, put_buf, lock_buf, modify. unfold_M. rewrite Hi. cbn.
    unfold buf_at. cbn. rewrite list_lookup_insert_eq by (by rewrite (co_len _ _ _ Hc)). cbn.
    rewrite Hlk. cbn. rewrite list_insert_insert_eq, list_lookup_insert_eq by (by rewrite (co_len _ _ _ Hc)). cbn.
    pose proof (disk_read_ok dev P s c (bdata b) Hc Hv Hlen) as Hrd.
    unfold RwDevRead, gets in Hrd |- *. cbn. injection Hrd as Hrd. use_read Hrd s dev b c. rewrite Hrd. cbn.
    rewrite list_insert_insert_eq, list_lookup_insert_eq by (by rewrite (co_len _ _ _ Hc)). cbn.
    by rewrite list_insert_insert_eq.
Qed.

Lemma dblock_eq s s' dev c :
  rw_devs s' dev = rw_devs s dev → first_data_sector s' = first_data_sector s →
  dblock s' dev c = dblock s dev c.
Proof. intros Hd Hf. unfold dblock, base. by rewrite Hd, Hf. Qed.

(** Handing back a buffer that holds block [c] of the devices [dv]. *)
Definition done_with (dev c t : Z) (l : list Z) : buf := Buf 1 dev c t false 0 l.

Lemma coherent_put dev P s s' c i l :
  coherent dev P s → quiet s → vblock s c → (i < BUFFER_NUM)%nat →
  (∀ j b, j ≠ i → bufCache s !! j = Some b → blockno b ≠ c) →
  sectors_per_cluster s' = sectors_per_cluster s → first_data_sector s' = first_data_sector s →
  bufCache s' = <[i := done_with dev c (bticks s) l]> (bufCache s) →
  Z.of_nat (length l) = BSIZE → l = dblock s' dev c →
  (∀ c', vblock s c' → P c' → c' ≠ c → dblock s' dev c' = dblock s dev c') →
  (∀ dev', dev' ≠ dev → ∀ c', dblock s' dev' c' = dblock s dev' c') →
  coherent dev P s' ∧ quiet s'.
Proof.
  intros Hc Hq Hv Hi Hno Hspc Hfds Hb Hl Hdata Hother Hdevs.
  assert (c ≠ 0) as Hc0 by (destruct Hv; lia).
  assert (∀ j b, bufCache s' !! j = Some b →
    j = i ∧ b = done_with dev c (bticks s) l ∨ j ≠ i ∧ bufCache s !! j = Some b) as Hcase.
  { intros j b. rewrite Hb, list_lookup_insert_Some. intros [(<- & <- & _)|[? ?]]; [by left|by right]. }
  assert (∀ x, vblock s' x ↔ vblock s x) as Hvb by (intros x; unfold vblock, base; by rewrite Hfds).
  split; [split|].
  - rewrite Hspc. apply Hc.
  - rewrite Hfds. apply Hc.
  - rewrite Hb, length_insert. apply Hc.
  - intros j b [[_ ->]|[Hj Hb']]%Hcase; [by split; [|intros _; apply Hvb|]|].
    destruct (co_buf _ _ _ Hc j b Hb') as [Hlen Hvc Hd]. split; [done|by intros ?%Hvc; apply Hvb|].
    intros Hval HP. rewrite Hd by done. symmetry.
    destruct (decide (bdev b = dev)) as [->|Hdev]; [|by apply Hdevs]. apply Hother; [by apply Hvc|done|by eapply Hno].
  - intros j b [[_ ->]|[Hj Hb']]%Hcase Hbn; [done|]. by eapply (co_dev _ _ _ Hc).
  - intros j k b b' [[-> ->]|[Hj Hb1]]%Hcase [[-> ->]|[Hk Hb2]]%Hcase Heq Hne; cbn in *; [done|..].
    + exfalso. by eapply (Hno k).
    + exfalso. by eapply (Hno j).
    + by eapply (co_unique _ _ _ Hc).
  - intros j b [[_ ->]|[Hj Hb']]%Hcase; [done|by eapply Hq].
Qed.

Lemma free_got dev c t l i s :
  (i < length (bufCache s))%nat →
  freeBuffer i (set_bufs (<[i := Buf 1 dev c t true 1 l]> (bufCache s)) s) =
    Done (tt, set_bufs (<[i := done_with dev c t l]> (bufCache s)) s).
Proof.
  intros Hi. unfold freeBuffer, unlock_buf, buf_at, put_buf, modify. unfold_M. cbn.
  rewrite list_lookup_insert_eq by done. cbn.
  rewrite list_insert_insert_eq, list_lookup_insert_eq by done. cbn. by rewrite list_insert_insert_eq.
Qed.

Lemma read_free_spec dev P s c :
  coherent dev P s → quiet s → vblock s c → P c →
  ∃ i l, (i < BUFFER_NUM)%nat ∧
    read dev c s = Done (i, set_bufs (<[i := got dev c s]> (bufCache s)) s) ∧
    buf_at i (set_bufs (<[i := got dev c s]> (bufCache s)) s) =
      Done (got dev c s, set_bufs (<[i := got dev c s]> (bufCache s)) s) ∧
    freeBuffer i (set_bufs (<[i := got dev c s]> (bufCache s)) s) = Done (tt, set_bufs l s) ∧
    coherent dev P (set_bufs l s) ∧ quiet (set_bufs l s).
Proof.
  intros Hc Hq Hv HP. destruct (read_spec dev P s c Hc Hq Hv HP) as (i & Hrun & Hi & Hno).
  exists i, (<[i := done_with dev c (bticks s) (dblock s dev c)]> (bufCache s)).
  split_and!; [done|done| |apply free_got; by rewrite (co_len _ _ _ Hc)|..].
  - unfold buf_at. cbn. by rewrite list_lookup_insert_eq by (by rewrite (co_len _ _ _ Hc)).
  - eapply (coherent_put dev P s _ c i (dblock s dev c));
      [exact Hc|exact Hq|exact Hv|exact Hi|exact Hno|done|done|done|apply length_dblock|..];
      first [symmetry; by apply dblock_eq|intros; by apply dblock_eq].
  - eapply (coherent_put dev P s _ c i (dblock s dev c));
      [exact Hc|exact Hq|exact Hv|exact Hi|exact Hno|done|done|done|apply length_dblock|..];
      first [symmetry; by apply dblock_eq|intros; by apply dblock_eq].
Qed.

Lemma read_block_spec dev P s c :
  coherent dev P s → quiet s → vblock s c → P c →
  ∃ l, read_block dev c s = Done (dblock s dev c, set_bufs l s) ∧
    coherent dev P (set_bufs l s) ∧ quiet (set_bufs l s).
Proof.
  intros Hc Hq Hv HP. destruct (read_free_spec dev P s c Hc Hq Hv HP) as (i & l & _ & Hrd & Hat & Hfr & Hl).
  exists l. unfold read_block. unfold_M. by rewrite Hrd, Hat, Hfr.
Qed.

Lemma disk_write_ok dev P s s' c l :
  coherent dev P s → vblock s c → Z.of_nat (length l) = BSIZE →
  first_data_sector s' = first_data_sector s → sectors_per_cluster s' = sectors_per_cluster s →
  rw_devs s' = rw_devs s →
  ∃ d, RwDevWrite dev l (FirstSectorOfCluster s' c * 512) BSIZE s' = Done (BSIZE, set_dev dev d s') ∧
    ∀ x, d x = wr_bytes (rw_devs s dev) (base s c) l x.
Proof.
  intros Hc Hv Hl Hf Hp Hd. destruct (FirstSector_ok dev P s c Hc Hv) as [Hs Hb].
  assert (FirstSectorOfCluster s' c = FirstSectorOfCluster s c) as ->
    by (unfold FirstSectorOfCluster; by rewrite Hf, Hp).
  rewrite Hs. destruct Hv as [_ Hv]. unfold RwDevWrite. rewrite Hd. unfold BSIZE in *.
  rewrite i32_small by lia.
  destruct (VirtioDisk_write_ok (rw_devs s dev) l (base s c) 4096) as (d & -> & Hd'); try done.
  - unfold base. dlia.
  - by exists d.
Qed.

(** Two blocks do not overlap. *)
Lemma wr_block_other s dev c c' l m :
  vblock s c → vblock s c' → c' ≠ c → Z.of_nat (length l) = BSIZE →
  (∀ x, m x = wr_bytes (rw_devs s dev) (base s c) l x) →
  rd_bytes m (base s c') (Z.to_nat BSIZE) = rd_bytes (rw_devs s dev) (base s c') (Z.to_nat BSIZE).
Proof.
  intros Hv Hv' Hne Hl Hm. apply rd_bytes_ext. intros x Hx. rewrite Hm. apply wr_bytes_out.
  unfold base, BSIZE in *. lia.
Qed.
Lemma wr_block_same s dev c l m :
  Z.of_nat (length l) = BSIZE → (∀ x, m x = wr_bytes (rw_devs s dev) (base s c) l x) →
  rd_bytes m (base s c) (Z.to_nat BSIZE) = l.
Proof.
  intros Hl Hm. rewrite (rd_bytes_ext (wr_bytes (rw_devs s dev) (base s c) l)) by (intros; apply Hm).
  replace (Z.to_nat BSIZE) with (length l) by lia. apply rd_wr_bytes.
Qed.

(** Taking the buffer of block [c], changing its data to [data], writing it to
    the device and giving it back. *)
Lemma read_write_spec dev P s c data :
  coherent dev P s → quiet s → vblock s c → P c → Z.of_nat (length data) = BSIZE →
  ∃ i l d b3, (i < BUFFER_NUM)%nat ∧
    read dev c s = Done (i, set_bufs (<[i := got dev c s]> (bufCache s)) s) ∧
    buf_at i (set_bufs (<[i := got dev c s]> (bufCache s)) s) =
      Done (got dev c s, set_bufs (<[i := got dev c s]> (bufCache s)) s) ∧
    put_buf i (Buf 1 dev c (bticks s) true 1 data) (set_bufs (<[i := got dev c s]> (bufCache s)) s) =
      Done (tt, set_bufs (<[i := Buf 1 dev c (bticks s) true 1 data]> (bufCache s)) s) ∧
    write i (set_bufs (<[i := Buf 1 dev c (bticks s) true 1 data]> (bufCache s)) s) = Done (tt, b3) ∧
    freeBuffer i b3 = Done (tt, set_dev dev d (set_bufs l s)) ∧
    (∀ x, d x = wr_bytes (rw_devs s dev) (base s c) data x) ∧
    coherent dev P (set_dev dev d (set_bufs l s)) ∧ quiet (set_dev dev d (set_bufs l s)).
Proof.
  intros Hc Hq Hv HP Hf. destruct (read_spec dev P s c Hc Hq Hv HP) as (i & Hrun & Hi & Hno).
  assert (i < length (bufCache s))%nat as Hil by (by rewrite (co_len _ _ _ Hc)).
  set (s2 := set_bufs (<[i := Buf 1 dev c (bticks s) true 1 data]> (bufCache s)) s).
  destruct (disk_write_ok dev P s s2 c data Hc Hv Hf) as (d & Hwr & Hd); [done..|].
  exists i, (<[i := done_with dev c (bticks s) data]> (bufCache s)), d, (set_dev dev d s2).
  split; [done|]. split; [done|]. split; [unfold buf_at; cbn; by rewrite list_lookup_insert_eq|].
  split; [unfold put_buf, modify, s2, set_bufs; cbn; by rewrite list_insert_insert_eq|]. split.
  { unfold write, buf_at. unfold_M. fold s2. cbn [s2 bufCache set_bufs].
    rewrite list_lookup_insert_eq by done. fold s2. cbn [bdev blockno bdata]. by rewrite Hwr. }
  split.
  { pose proof (free_got dev c (bticks s) data i (set_dev dev d s) Hil) as Hfree. exact Hfree. }
  split; [done|].
  eapply (coherent_put dev P s _ c i data Hc Hq Hv Hi Hno); try done.
  - unfold dblock. cbn [rw_devs set_dev]. rewrite Z.eqb_refl. symmetry. by eapply (wr_block_same s dev).
  - intros c' Hv' _ Hne. unfold dblock. cbn [rw_devs set_dev]. rewrite Z.eqb_refl. by eapply (wr_block_other s dev c).
  - intros dev' Hdev c'. unfold dblock. cbn [rw_devs set_dev]. by apply Z.eqb_neq in Hdev as ->.
Qed.

Lemma write_block_spec dev P s c f :
  coherent dev P s → quiet s → vblock s c → P c →
  Z.of_nat (length (f (dblock s dev c))) = BSIZE →
  ∃ l d, write_block dev c f s = Done (tt, set_dev dev d (set_bufs l s)) ∧
    (∀ x, d x = wr_bytes (rw_devs s dev) (base s c) (f (dblock s dev c)) x) ∧
    coherent dev P (set_dev dev d (set_bufs l s)) ∧ quiet (set_dev dev d (set_bufs l s)).
Proof.
  intros Hc Hq Hv HP Hf.
  destruct (read_write_spec dev P s c _ Hc Hq Hv HP Hf) as (i & l & d & b3 & _ & Hrd & Hat & Hput & Hwr & Hfr & Hd & Hco).
  exists l, d. unfold write_block. unfold_M. rewrite Hrd, Hat. cbn [got valid bdev blockno last_use_tick locked refcnt bdata].
  by rewrite Hput, Hwr, Hfr.
Qed.

(** ** The cache is invisible *)
Inductive bop := ORead (c : Z) | OWrite (c : Z) (f : list Z → list Z).
Definition op_ok (s : bl) (o : bop) : Prop :=
  match o with
  | ORead c => vblock s c
  | OWrite c f => vblock s c ∧ ∀ l, Z.of_nat (length l) = BSIZE → Z.of_nat (length (f l)) = BSIZE
  end.

(** Through the cache, and on the bare device. *)
Fixpoint run_cached (dev : Z) (ops : list bop) : BM (list (list Z)) :=
  match ops with
  | [] => mret []
  | ORead c :: ops => l ← read_block dev c; ls ← run_cached dev ops; mret (l :: ls)
  | OWrite c f :: ops => write_block dev c f;; run_cached dev ops
  end.
Fixpoint run_bare (off : Z → Z) (ops : list bop) (d : mem) : list (list Z) * mem :=
  match ops with
  | [] => ([], d)
  | ORead c :: ops =>
      let '(ls, d') := run_bare off ops d in (rd_bytes d (off c) (Z.to_nat BSIZE) :: ls, d')
  | OWrite c f :: ops =>
      run_bare off ops (wr_bytes d (off c) (f (rd_bytes d (off c) (Z.to_nat BSIZE))))
  end.

Lemma wr_bytes_ext m m' a l x : (∀ y, m' y = m y) → wr_bytes m' a l x = wr_bytes m a l x.
Proof. intros Hm. rewrite !wr_bytes_at. by rewrite Hm. Qed.

Lemma run_bare_ext off ops d d' :
  (∀ x, d' x = d x) →
  (run_bare off ops d').1 = (run_bare off ops d).1 ∧
  ∀ x, (run_bare off ops d').2 x = (run_bare off ops d).2 x.
Proof.
  revert d d'. induction ops as [|[c|c f] ops IH]; intros d d' Hd; cbn [run_bare]; [done|..].
  - specialize (IH d d' Hd). destruct (run_bare off ops d'), (run_bare off ops d). cbn in *.
    rewrite (rd_bytes_ext d d') by (intros; apply Hd). destruct IH as [-> ?]. done.
  - apply IH. intros x. rewrite (rd_bytes_ext d d') by (intros; apply Hd). by apply wr_bytes_ext.
Qed.

(** Claim C8. The cache is invisible to the user of one device ([allocBuffer]
    compares block numbers only): any sequence of reads and updates, through
    [allocBuffer], [read], [write] and [freeBuffer], of blocks that end below
    2^31 bytes completes, and gives the results and the device contents of the
    same sequence on the bare device.  On a miss the buffer that was used
    longest ago is taken, not the one that came in first. *)
Theorem buffer_cache_transparent (dev : Z) (s : bl) (ops : list bop) :
  coherent dev (λ _, True) s → quiet s → Forall (op_ok s) ops →
  (∃ s', run_cached dev ops s = Done ((run_bare (base s) ops (rw_devs s dev)).1, s') ∧
     coherent dev (λ _, True) s' ∧ quiet s' ∧
     ∀ x, rw_devs s' dev x = (run_bare (base s) ops (rw_devs s dev)).2 x) ∧
  (∀ c i b, allocBuffer dev c s = Done (i, b) → Forall (λ b, blockno b ≠ c) (bufCache s) →
     ∃ v, bufCache s !! i = Some v ∧ Forall (λ b, last_use_tick v ≤ last_use_tick b) (bufCache s)).
Proof.
  intros Hc Hq Hops. split.
  - revert s Hc Hq Hops. induction ops as [|[c|c f] ops IH]; intros s Hc Hq Hops; [by exists s|..];
      apply Forall_cons in Hops as [Hop Hops]; cbn [run_cached run_bare].
    + destruct (read_block_spec dev _ s c Hc Hq Hop I) as (l & Hrun & Hc' & Hq').
      destruct (IH _ Hc' Hq' Hops) as (s2 & Hrun2 & Hc2 & Hq2 & Hd2). exists s2. unfold_M.
      rewrite Hrun, Hrun2. change (base (set_bufs l s)) with (base s).
      change (rw_devs (set_bufs l s) dev) with (rw_devs s dev) in *.
      change (base (set_bufs l s)) with (base s) in Hd2.
      destruct (run_bare (base s) ops (rw_devs s dev)). done.
    + destruct Hop as [Hv Hf].
      destruct (write_block_spec dev _ s c f Hc Hq Hv I (Hf _ (length_dblock s dev c))) as (l & d & Hrun & Hd & Hc' & Hq').
      destruct (IH _ Hc' Hq' Hops) as (s2 & Hrun2 & Hc2 & Hq2 & Hd2). exists s2. unfold_M.
      rewrite Hrun, Hrun2. change (base (set_dev dev d (set_bufs l s))) with (base s) in *.
      cbn [rw_devs set_dev] in *. rewrite Z.eqb_refl in *.
      destruct (run_bare_ext (base s) ops _ d Hd) as [Heq1 Heq2]. rewrite Heq1. unfold dblock in *.
      split_and!; try done. intros x. by rewrite Hd2, Heq2.
  - intros c i s' Hrun Hmiss. unfold allocBuffer in Hrun. revert Hrun. unfold_M.
    pose proof (scan_spec (bufCache s) 0 c None) as Hscan. rewrite Forall_lookup in Hmiss.
    destruct (scan (bufCache s) 0 c None) as [k|r].
    { destruct Hscan as (j & b & -> & Hj & Hb). by destruct (Hmiss j b Hj). }
    destruct Hscan as [_ (r' & -> & Hl)]. destruct r' as [[k t]|]; [|done]. cbn [fmap option_fmap option_map fst].
    destruct Hl as ([?|(j & b & -> & Hj & _ & Ht)] & Hall & _); [done|]. cbn [Nat.add] in *.
    unfold buf_at at 1. rewrite Hj. unfold lock_buf, buf_at, put_buf, modify. unfold_M. cbn.
    pose proof (lookup_lt_Some _ _ _ Hj) as Hlt. rewrite list_lookup_insert_eq by done. cbn.
    destruct (Hq j b Hj) as [-> _]. cbn. intros [= <- _]. exists b. split; [done|].
    rewrite Forall_lookup in Hall |- *. intros x bx Hx. rewrite Ht. apply (Hall x bx Hx). by apply (Hq x).
Qed.

(** ** A concrete cache *)
Module BufWitness.
(** Two devices, one all 0 and one all 1; the first data sector is 16. *)
Definition b0 : bl :=
  BL (replicate BUFFER_NUM zero_buf) (λ dev _, dev) 16 8 7.

Lemma b0_coherent : coherent 0 (λ _, True) b0 ∧ quiet b0.
Proof.
  split; [split|]; try done.
  - intros i b [-> _]%lookup_replicate. split; [|done|done]. unfold zero_buf. cbn [bdata].
    by rewrite length_replicate.
  - by intros i b [-> _]%lookup_replicate.
  - by intros i j b b' [-> _]%lookup_replicate [-> _]%lookup_replicate.
  - by intros i b [-> _]%lookup_replicate.
Qed.

Lemma buffer_cache_transparent_witness :
  ∃ s', run_cached 0 [ORead 2; OWrite 3 (λ l, rev l); ORead 3] b0 =
    Done ((run_bare (base b0) [ORead 2; OWrite 3 (λ l, rev l); ORead 3] (rw_devs b0 0)).1, s') ∧ quiet s'.
Proof.
  destruct (buffer_cache_transparent 0 b0 [ORead 2; OWrite 3 (λ l, rev l); ORead 3]
    (proj1 b0_coherent) (proj2 b0_coherent)) as [(s' & Hrun & _ & Hq & _) _].
  - repeat constructor; try (unfold vblock, base, BSIZE; cbn; lia).
    intros l Hl. by rewrite length_rev.
  - exists s'. exact (conj Hrun Hq).
Defined.

(** Two devices that use the same block number share one buffer: after block 2
    of device 0 was read, device 1 gets its contents. *)
Lemma devices_share_buffers :
  match (l0 ← read_block 0 2; l1 ← read_block 1 2; mret (hd 7 l0, hd 7 l1)) b0 with
  | Done (r, _) => r = (0, 0)
  | _ => False
  end.
Proof. vm_compute. done. Qed.

(** A sector written past the cache, as [ZeroCluster] and [UpdateInode] do, is
    not seen by the next read of a cached block. *)
Lemma direct_write_is_not_seen :
  match (read_block 0 2;; RwDevWrite 0 (replicate 512 9) (16 * 512) 512;; l ← read_block 0 2; mret (hd 7 l)) b0 with
  | Done (r, s) => r = 0 ∧ rw_devs s 0 (16 * 512) = 9
  | _ => False
  end.
Proof. vm_compute. done. Qed.
End BufWitness.
