(* ===== verification/Sdcard.v ===== *)
(** * The SD card driver: kernel/device/Sdcard.cpp

    The card is reached over the SPI bus in SPI mode.  What the functions of
    driver/spi.cpp and driver/gpiohs.cpp do to the bus, registers and DMA, is the
    class [SpiBus]: bytes go out, bytes come in, and pin 7 selects the card; Spi.v,
    Dmac.v and Gpiohs.v model the functions themselves.
    Printed messages are left out.  The sleep lock of the card is held inside one
    call only; taking it while it is held is [NoFuel], as in Buf.v. *)
From S2P Require Import Prelude Mem Buf.

Class SpiBus (C : Type) := {
  gpiohs_output : C → C;
  gpiohs_high : bool → C → C;
  spi_send_data_standard : list Z → C → C;
  spi_receive_data_standard : nat → C → list Z * C;
  spi_send_data_standard_dma : list Z → C → C;
  spi_receive_data_standard_dma : nat → C → list Z * C;
}.

Record sdcard (C : Type) := Sd { bus : C; is_standard_sd : bool; sleepLock : bool }.
Arguments Sd {C}. Arguments bus {C}. Arguments is_standard_sd {C}. Arguments sleepLock {C}.

Definition SD_CMD0 : Z := 0.
Definition SD_CMD8 : Z := 8.
Definition SD_CMD58 : Z := 58.
Definition SD_CMD55 : Z := 55.
Definition SD_ACMD41 : Z := 41.
Definition SD_CMD16 : Z := 16.
Definition SD_CMD17 : Z := 17.
Definition SD_CMD24 : Z := 24.
Definition SD_CMD13 : Z := 13.
Definition SECTOR : Z := 512.
Definition START_BLOCK_TOKEN : Z := 0xfe.

Section sdcard.
Context {C : Type} `{SpiBus C}.
Abbreviation SM := (M (sdcard C)).

Definition on_bus (f : C → C) : SM unit := modify (λ s, Sd (f (bus s)) (is_standard_sd s) (sleepLock s)).
Definition from_bus (f : C → list Z * C) : SM (list Z) := λ s,
  let '(l, c) := f (bus s) in Done (l, Sd c (is_standard_sd s) (sleepLock s)).
Definition SD_CS_HIGH : SM unit := on_bus (gpiohs_high true).
Definition SD_CS_LOW : SM unit := on_bus (gpiohs_high false).
Definition sd_lowlevel_init : SM unit := on_bus gpiohs_output.
Definition sd_write_data (l : list Z) : SM unit := on_bus (spi_send_data_standard l).
Definition sd_read_data (n : nat) : SM (list Z) := from_bus (spi_receive_data_standard n).
Definition sd_write_data_dma (l : list Z) : SM unit := on_bus (spi_send_data_standard_dma l).
Definition sd_read_data_dma (n : nat) : SM (list Z) := from_bus (spi_receive_data_standard_dma n).
(** [sd_read_data(&result, 1)]. *)
Definition sd_read_byte : SM Z := l ← sd_read_data 1; mret (nth 0 l 0).

Definition sd_frame (cmd arg crc : Z) : list Z :=
  [Z.lor cmd 0x40; u8 (Z.shiftr arg 24); u8 (Z.shiftr arg 16); u8 (Z.shiftr arg 8); u8 arg; crc].
Definition sd_send_cmd (cmd arg crc : Z) : SM unit := SD_CS_LOW;; sd_write_data (sd_frame cmd arg crc).
Definition sd_end_cmd : SM unit := SD_CS_HIGH;; sd_write_data [0xff].

(** [while (timeout--)] from 0xff. *)
Fixpoint get_response_loop (timeout : nat) : SM Z :=
  match timeout with
  | O => mret 0xff
  | S timeout => r ← sd_read_byte; if negb (r =? 0xff) then mret r else get_response_loop timeout
  end.
Definition sd_get_response_R1 : SM Z := get_response_loop (Z.to_nat 0xff).
Definition sd_get_response_R3_rest : SM (list Z) := sd_read_data 4.
Definition sd_get_response_R7_rest : SM (list Z) := sd_read_data 4.

(** [while (--timeout)]: the body runs [timeout - 1] times at most; the loops give
    whether they were left by [break]. *)
Definition turns (timeout : Z) : nat := Z.to_nat (timeout - 1).

Fixpoint cmd0_loop (n : nat) : SM bool :=
  match n with
  | O => mret false
  | S n =>
      sd_send_cmd SD_CMD0 0 0x95;;
      r ← sd_get_response_R1;
      sd_end_cmd;;
      if r =? 1 then mret true else cmd0_loop n
  end.
Definition switch_to_SPI_mode : SM Z := ok ← cmd0_loop (turns 0xff); mret (if (ok : bool) then 0 else 0xff).

Definition verify_operation_condition : SM Z :=
  sd_send_cmd SD_CMD8 0x01aa 0x87;;
  r ← sd_get_response_R1;
  frame ← sd_get_response_R7_rest;
  sd_end_cmd;;
  mret (if r =? 9 then 0xff
        else if (r =? 1) && (Z.land (nth 2 frame 0) 0x0f =? 1) && (nth 3 frame 0 =? 0xaa) then 0 else 0xff).

Fixpoint read_OCR_loop (n : nat) : SM Z :=
  match n with
  | O => mret 0xff
  | S n =>
      sd_send_cmd SD_CMD58 0 0;;
      r ← sd_get_response_R1;
      ocr ← sd_get_response_R3_rest;
      sd_end_cmd;;
      if (r =? 1) && negb (Z.land (nth 1 ocr 0) 0x1f =? 0) && negb (Z.land (nth 2 ocr 0) 0x80 =? 0) then mret 0
      else read_OCR_loop n
  end.
Definition read_OCR : SM Z := read_OCR_loop (turns 0xff).

Fixpoint set_SDXC_loop (n : nat) : SM Z :=
  match n with
  | O => mret 0xff
  | S n =>
      sd_send_cmd SD_CMD55 0 0;;
      r ← sd_get_response_R1;
      sd_end_cmd;;
      if negb (r =? 1) then mret 0xff
      else
        sd_send_cmd SD_ACMD41 0x40000000 0;;
        r ← sd_get_response_R1;
        sd_end_cmd;;
        if r =? 0 then mret 0 else set_SDXC_loop n
  end.
Definition set_SDXC_capacity : SM Z := set_SDXC_loop (turns 0xfff).

Definition set_standard (b : bool) : SM unit := modify (λ s, Sd (bus s) b (sleepLock s)).
Fixpoint cmd16_loop (n : nat) : SM bool :=
  match n with
  | O => mret false
  | S n =>
      sd_send_cmd SD_CMD16 SECTOR 0;;
      r ← sd_get_response_R1;
      sd_end_cmd;;
      if r =? 0 then mret true else cmd16_loop n
  end.
(** [BSIZE] is 512 in this file. *)
Fixpoint check_block_size_loop (timeout : nat) : SM Z :=
  match timeout with
  | O => mret 0xff
  | S timeout =>
      sd_send_cmd SD_CMD58 0 0;;
      r ← sd_get_response_R1;
      ocr ← sd_get_response_R3_rest;
      sd_end_cmd;;
      if r =? 0 then
        if negb (Z.land (nth 0 ocr 0) 0x40 =? 0) then set_standard false;; mret 0
        else
          ok ← cmd16_loop (turns 0xff);
          if negb (ok : bool) then mret 0xff else set_standard true;; mret 0
      else check_block_size_loop timeout
  end.
Definition check_block_size : SM Z := check_block_size_loop (Z.to_nat 0xff).

Definition sd_init : SM Z :=
  sd_lowlevel_init;;
  SD_CS_LOW;;
  sd_write_data (replicate 10 0xff);;
  r ← switch_to_SPI_mode;
  if negb (r =? 0) then mret 0xff
  else
    r ← verify_operation_condition;
    if negb (r =? 0) then mret 0xff
    else
      r ← read_OCR;
      if negb (r =? 0) then mret 0xff
      else
        r ← set_SDXC_capacity;
        if negb (r =? 0) then mret 0xff
        else
          r ← check_block_size;
          if negb (r =? 0) then mret 0xff else mret 0.

Definition set_lock (b : bool) : SM unit := modify (λ s, Sd (bus s) (is_standard_sd s) b).
Definition lock_card : SM unit := λ s, if sleepLock s then NoFuel else set_lock true s.
Definition unlock_card : SM unit := set_lock false.

Definition init : SM unit :=
  result ← sd_init;
  set_lock false;;
  if negb (result =? 0) then panic "sdcard_init failed" else mret tt.

Definition sd_address (sectorno : Z) : SM Z :=
  gets (λ s, u32 (if is_standard_sd s then i32 (Z.shiftl sectorno 9) else sectorno)).

(** [while (--timeout)] over bytes from the card, until one satisfies [p]. *)
Fixpoint wait_byte (n : nat) (p : Z → bool) : SM bool :=
  match n with
  | O => mret false
  | S n => b ← sd_read_byte; if p b then mret true else wait_byte n p
  end.

(** The 512 bytes that end up in [buf]. *)
Definition sdcard_read_sector (sectorno : Z) : SM (list Z) :=
  address ← sd_address sectorno;
  lock_card;;
  sd_send_cmd SD_CMD17 address 0;;
  result ← sd_get_response_R1;
  if negb (result =? 0) then unlock_card;; panic "sdcard: fail to read"
  else
    ok ← wait_byte (turns 0xffffff) (λ b, b =? START_BLOCK_TOKEN);
    if negb (ok : bool) then panic "sdcard: timeout waiting for reading"
    else
      l ← sd_read_data_dma (Z.to_nat SECTOR);
      sd_read_data 2;;
      sd_end_cmd;;
      unlock_card;;
      mret l.

Definition sdcard_write_sector (l : list Z) (sectorno : Z) : SM unit :=
  address ← sd_address sectorno;
  lock_card;;
  sd_send_cmd SD_CMD24 address 0;;
  r ← sd_get_response_R1;
  if negb (r =? 0) then unlock_card;; panic "sdcard: fail to write"
  else
    sd_write_data [START_BLOCK_TOKEN];;
    sd_write_data_dma l;;
    sd_write_data [0xff; 0xff];;
    ok ← wait_byte (turns 0xfff) (λ b, Z.land b 0x1f =? 0x05);
    if negb (ok : bool) then unlock_card;; panic "sdcard: invalid response token"
    else
      ok ← wait_byte (turns 0xffffff) (λ b, negb (b =? 0));
      if negb (ok : bool) then unlock_card;; panic "sdcard: timeout waiting for response"
      else
        sd_end_cmd;;
        sd_send_cmd SD_CMD13 0 0;;
        result ← sd_get_response_R1;
        error_code ← sd_read_byte;
        sd_end_cmd;;
        if negb (result =? 0) || negb (error_code =? 0) then
          unlock_card;; panic "sdcard: an error occurs when writing"
        else unlock_card.

(** [for (; sector < end; sector++, buf += 512)] *)
Fixpoint read_sectors (sector : Z) (n : nat) : SM (list Z) :=
  match n with
  | O => mret []
  | S n => l ← sdcard_read_sector sector; r ← read_sectors (sector + 1) n; mret (l ++ r)
  end.
Fixpoint write_sectors (sector : Z) (n : nat) (l : list Z) : SM unit :=
  match n with
  | O => mret tt
  | S n => sdcard_write_sector (take 512 l) sector;; write_sectors (sector + 1) n (drop 512 l)
  end.

(** [read] into a buffer that holds [old]: the result and the new contents. *)
Definition read (old : list Z) (offset n : Z) : SM (Z * list Z) :=
  if bad_range offset n then mret (-1, old)
  else l ← read_sectors (Z.quot offset 512) (n_sectors offset n); mret (n, l ++ drop (length l) old).
Definition write (l : list Z) (offset n : Z) : SM Z :=
  if bad_range offset n then mret (-1)
  else write_sectors (Z.quot offset 512) (n_sectors offset n) l;; mret n.
End sdcard.
