(* ===== verification/SdcardProps.v ===== *)
(** * The SD card driver implements a block device

    [card] is what the SD specification says of a card in SPI mode, as far as the
    driver goes: commands and their answers, with any delays that are shorter
    than the driver's patience.  With any such card, the driver's initialisation
    succeeds and its [read] and [write] are those of the virtio disk in Buf.v on
    the contents of the card. *)
From S2P Require Import Prelude Mem Buf Sdcard.

(** ** The card *)
Inductive phase := Idle | Ready.

(** [card_out]: the bytes it will send, 0xff after them.  [card_rx]: the block that
    is being written and the bytes received for it.  [card_acmd41]: how often it
    still answers that it is busy.  The delays are taken from streams. *)
Record card := Card {
  card_data : mem;
  high_capacity : bool;
  selected : bool;
  card_phase : phase;
  card_out : list Z;
  card_rx : option (Z * list Z);
  card_acmd41 : nat;
  card_time : nat;
  answer_delay : nat → nat;
  read_delay : nat → nat;
  busy_delay : nat → nat;
}.
Definition set_out (l : list Z) (c : card) : card := Card (card_data c) (high_capacity c) (selected c) (card_phase c)
  l (card_rx c) (card_acmd41 c) (card_time c) (answer_delay c) (read_delay c) (busy_delay c).
Definition tick (c : card) : card := Card (card_data c) (high_capacity c) (selected c) (card_phase c)
  (card_out c) (card_rx c) (card_acmd41 c) (S (card_time c)) (answer_delay c) (read_delay c) (busy_delay c).
Definition with_rx (x : option (Z * list Z)) (c : card) : card := Card (card_data c) (high_capacity c) (selected c)
  (card_phase c) (card_out c) x (card_acmd41 c) (card_time c) (answer_delay c) (read_delay c) (busy_delay c).
Definition with_phase (p : phase) (k : nat) (c : card) : card := Card (card_data c) (high_capacity c) (selected c) p
  (card_out c) (card_rx c) k (card_time c) (answer_delay c) (read_delay c) (busy_delay c).
Definition with_data (m : mem) (c : card) : card := Card m (high_capacity c) (selected c) (card_phase c)
  (card_out c) (card_rx c) (card_acmd41 c) (card_time c) (answer_delay c) (read_delay c) (busy_delay c).

Definition wait (n : nat) : list Z := replicate n 0xff.
(** An answer after some bytes of 0xff. *)
Definition answer (l : list Z) (c : card) : card := set_out (wait (answer_delay c (card_time c)) ++ l) (tick c).
Definition r1 (c : card) : Z := match card_phase c with Idle => 1 | Ready => 0 end.
(** The operating conditions: powered up, the capacity class once it is known. *)
Definition ocr (c : card) : list Z :=
  [match card_phase c with Idle => 0 | Ready => if high_capacity c then 0xc0 else 0x80 end; 0xff; 0x80; 0].
Definition byte_address (arg : Z) (c : card) : Z := if high_capacity c then arg * 512 else arg.

Definition command (cmd arg : Z) (c : card) : card :=
  if cmd =? 0 then answer [1] (with_phase Idle (card_acmd41 c) c)
  else if cmd =? 8 then answer ([r1 c; 0; 0; Z.land (arg / 256) 0xf; arg mod 256]) c
  else if cmd =? 58 then answer (r1 c :: ocr c) c
  else if cmd =? 55 then answer [r1 c] c
  else if cmd =? 41 then
    match card_acmd41 c with
    | O => answer [0] (with_phase Ready 0 c)
    | S k => answer [1] (with_phase Idle k c)
    end
  else if cmd =? 16 then answer [r1 c] c
  else if cmd =? 17 then
    answer ([r1 c] ++ wait (read_delay c (card_time c)) ++ [0xfe] ++
            rd_bytes (card_data c) (byte_address arg c) 512 ++ [0; 0]) c
  else if cmd =? 24 then with_rx (Some (byte_address arg c, [])) (answer [r1 c] c)
  else if cmd =? 13 then answer [r1 c; 0] c
  else answer [4] c.

(** Bytes from the host: the block being written, a command frame, or nothing of
    interest. *)
Definition receive (l : list Z) (c : card) : card :=
  if selected c then
    match card_rx c with
    | Some (a, acc) =>
        let acc := acc ++ l in
        if Nat.ltb (length acc) 515 then with_rx (Some (a, acc)) c
        else
          with_rx None (answer (0xe5 :: replicate (busy_delay c (card_time c)) 0 ++ [0xff])
            (with_data (wr_bytes (card_data c) a (take 512 (drop 1 acc))) c))
    | None =>
        match l with
        | [b; a3; a2; a1; a0; _] =>
            if (64 <=? b) && (b <? 128) then command (b - 64) (((a3 * 256 + a2) * 256 + a1) * 256 + a0) c else c
        | _ => c
        end
    end
  else c.
Definition select (high : bool) (c : card) : card :=
  Card (card_data c) (high_capacity c) (negb high) (card_phase c)
    (if high then [] else card_out c) (if high then None else card_rx c)
    (card_acmd41 c) (card_time c) (answer_delay c) (read_delay c) (busy_delay c).
Definition transmit (n : nat) (c : card) : list Z * card :=
  (take n (card_out c ++ wait n), set_out (drop n (card_out c)) c).

#[export] Instance card_bus : SpiBus card := {|
  gpiohs_output c := c;
  gpiohs_high := select;
  spi_send_data_standard := receive;
  spi_receive_data_standard := transmit;
  spi_send_data_standard_dma := receive;
  spi_receive_data_standard_dma := transmit;
|}.

(** The delays are shorter than what the driver waits for. *)
Record patient (c : card) : Prop := {
  pt_answer t : (answer_delay c t < 255)%nat;
  pt_read t : (read_delay c t < turns 0xffffff)%nat;
  pt_busy t : (busy_delay c t < turns 0xffffff)%nat;
}.

(** ** Bytes in and out *)
Section bytes.
Implicit Types (c : card) (std lk : bool).

Lemma transmit_run c l rest n : card_out c = l ++ rest → length l = n → transmit n c = (l, set_out rest c).
Proof.
  intros E <-. unfold transmit. rewrite E, <- app_assoc, take_app_length, drop_app_length. done.
Qed.
Lemma read_byte_run c b rest std lk :
  card_out c = b :: rest → sd_read_byte (Sd c std lk) = Done (b, Sd (set_out rest c) std lk).
Proof.
  intros E. unfold sd_read_byte, sd_read_data, from_bus.
  rewrite (M_bind_Done _ _ _ [b] (Sd (set_out rest c) std lk)); [done|].
  cbn [bus is_standard_sd sleepLock spi_receive_data_standard card_bus].
  by rewrite (transmit_run c [b] rest 1).
Qed.
Lemma set_out_twice l l' c : set_out l (set_out l' c) = set_out l c.
Proof. done. Qed.

Lemma response_loop_run std lk : ∀ k n c r rest, card_out c = wait k ++ r :: rest → r ≠ 0xff → (k < n)%nat →
  get_response_loop n (Sd c std lk) = Done (r, Sd (set_out rest c) std lk).
Proof.
  induction k as [|k IH]; intros [|n] c r rest E Hr Hn; try lia; cbn [get_response_loop].
  - step (read_byte_run c r rest std lk E). by rewrite (proj2 (Z.eqb_neq r 0xff) Hr).
  - step (read_byte_run c 0xff (wait k ++ r :: rest) std lk E). change (0xff =? 0xff) with true. cbn [negb].
    rewrite (IH n (set_out (wait k ++ r :: rest) c) r rest); [done|done|done|lia].
Qed.
Lemma response_run c r l std lk : patient c → r ≠ 0xff →
  sd_get_response_R1 (Sd (answer (r :: l) c) std lk) = Done (r, Sd (set_out l (tick c)) std lk).
Proof.
  intros Hp Hr. unfold sd_get_response_R1.
  rewrite (response_loop_run std lk (answer_delay c (card_time c)) _ (answer (r :: l) c) r l); [done|done|done|].
  pose proof (pt_answer c Hp (card_time c)). lia.
Qed.

Lemma wait_byte_run std lk p b rest : p b = true → ∀ l n c,
  card_out c = l ++ b :: rest → Forall (λ x, p x = false) l → (length l < n)%nat →
  wait_byte n p (Sd c std lk) = Done (true, Sd (set_out rest c) std lk).
Proof.
  intros Hb. induction l as [|x l IH]; intros [|n] c E Hl Hn; cbn [length] in *; try lia; cbn [wait_byte].
  - step (read_byte_run c b rest std lk E). by rewrite Hb.
  - apply Forall_cons in Hl as [Hx Hl]. step (read_byte_run c x (l ++ b :: rest) std lk E). rewrite Hx.
    rewrite (IH n (set_out (l ++ b :: rest) c)); [done|done|done|lia].
Qed.

Lemma frame_run cmd arg crc c : 0 ≤ cmd < 64 → 0 ≤ arg < 2 ^ 32 → card_rx c = None →
  receive (sd_frame cmd arg crc) (select false c) = command cmd arg (select false c).
Proof.
  intros Hc Ha Hrx. unfold receive. cbn [selected select negb card_rx]. rewrite Hrx. unfold sd_frame.
  assert (Z.lor cmd 64 = cmd + 64) as ->.
  { rewrite Z.lor_comm, (lor_add_disjoint 64 cmd 6) by (done || lia). lia. }
  rewrite (proj2 (Z.leb_le 64 (cmd + 64))), (proj2 (Z.ltb_lt (cmd + 64) 128)) by lia. cbn [andb].
  f_equal; [lia|]. unfold u8. rewrite !Z.shiftr_div_pow2 by lia. dlia.
Qed.

Lemma send_cmd_run cmd arg crc c std lk : 0 ≤ cmd < 64 → 0 ≤ arg < 2 ^ 32 → card_rx c = None →
  sd_send_cmd cmd arg crc (Sd c std lk) = Done (tt, Sd (command cmd arg (select false c)) std lk).
Proof.
  intros Hc Ha Hrx. unfold sd_send_cmd, SD_CS_LOW, sd_write_data, on_bus, modify. unfold_M.
  cbn [bus is_standard_sd sleepLock gpiohs_high spi_send_data_standard card_bus]. by rewrite frame_run.
Qed.
Lemma end_cmd_run c std lk : sd_end_cmd (Sd c std lk) = Done (tt, Sd (select true c) std lk).
Proof. done. Qed.
End bytes.

(** ** The card between two commands *)
Section driver.
Context (hc : bool) (ad rd bd : nat → nat).
Hypothesis short_answer : ∀ t, (ad t < 255)%nat.
Hypothesis short_read : ∀ t, (rd t < turns 0xffffff)%nat.
Hypothesis short_busy : ∀ t, (bd t < turns 0xffffff)%nat.
Implicit Types (std lk : bool) (d : mem).

Definition crd d (sel : bool) (ph : phase) (out : list Z) (rx : option (Z * list Z)) (k t : nat) : card :=
  Card d hc sel ph out rx k t ad rd bd.
(** At rest: nothing is pending. *)
Definition rests d ph k std lk (s : sdcard card) : Prop := ∃ sel t, s = Sd (crd d sel ph [] None k t) std lk.

Lemma crd_patient d sel ph out rx k t : patient (crd d sel ph out rx k t).
Proof. by split. Qed.

(** A command and the first byte of its answer. *)
Lemma ask {A} cmd arg crc d sel ph out k t std lk r l c (f : Z → M (sdcard card) A) :
  0 ≤ cmd < 64 → 0 ≤ arg < 2 ^ 32 → r ≠ 0xff → patient c →
  command cmd arg (crd d true ph out None k t) = answer (r :: l) c →
  (sd_send_cmd cmd arg crc;; r ← sd_get_response_R1; f r) (Sd (crd d sel ph out None k t) std lk) =
  f r (Sd (set_out l (tick c)) std lk).
Proof.
  intros Hc Ha Hr Hp E. step (send_cmd_run cmd arg crc (crd d sel ph out None k t) std lk Hc Ha eq_refl).
  change (select false (crd d sel ph out None k t)) with (crd d true ph out None k t). rewrite E.
  by step (response_run c r l std lk Hp Hr).
Qed.

Lemma ask_at_rest {A} cmd crc d sel ph out k t std lk (f : Z → M (sdcard card) A) arg r l ph' k' :
  0 ≤ cmd < 64 → 0 ≤ arg < 2 ^ 32 → r ≠ 0xff →
  command cmd arg (crd d true ph out None k t) = answer (r :: l) (crd d true ph' out None k' t) →
  (sd_send_cmd cmd arg crc;; r ← sd_get_response_R1; f r) (Sd (crd d sel ph out None k t) std lk) =
  f r (Sd (crd d true ph' l None k' (S t)) std lk).
Proof. intros Hc Ha Hr E. by rewrite (ask cmd arg crc d sel ph out k t std lk r l _ f Hc Ha Hr (crd_patient _ _ _ _ _ _ _) E). Qed.

Lemma receive_more d sel ph out rx k t n l rest std lk : out = l ++ rest → length l = n →
  sd_read_data n (Sd (crd d sel ph out rx k t) std lk) = Done (l, Sd (crd d sel ph rest rx k t) std lk).
Proof.
  intros E Hl. unfold sd_read_data, from_bus. cbn [bus is_standard_sd sleepLock spi_receive_data_standard card_bus].
  by rewrite (transmit_run (crd d sel ph out rx k t) l rest n E Hl).
Qed.
Lemma receive_more_dma d sel ph out rx k t n l rest std lk : out = l ++ rest → length l = n →
  sd_read_data_dma n (Sd (crd d sel ph out rx k t) std lk) = Done (l, Sd (crd d sel ph rest rx k t) std lk).
Proof. exact (receive_more d sel ph out rx k t n l rest std lk). Qed.

Lemma sector_address d sector sel ph out rx k t lk : 0 ≤ sector → sector * 512 < 2 ^ 31 →
  ∃ a, sd_address sector (Sd (crd d sel ph out rx k t) (negb hc) lk) =
    Done (a, Sd (crd d sel ph out rx k t) (negb hc) lk) ∧ 0 ≤ a < 2 ^ 32 ∧
  byte_address a (crd d true ph out rx k t) = sector * 512.
Proof.
  intros H0 H1. unfold sd_address, gets, byte_address. cbn [is_standard_sd high_capacity crd].
  destruct hc; cbn [negb]; eexists; (split; [reflexivity|]).
  - rewrite u32_small by lia. lia.
  - rewrite Z.shiftl_mul_pow2 by lia. change (2 ^ 9) with 512. rewrite i32_small, u32_small by lia. lia.
Qed.

Lemma wait_not_token n : Forall (λ x, (x =? START_BLOCK_TOKEN) = false) (wait n).
Proof. apply Forall_replicate. done. Qed.

(** Reading a sector gives its bytes. *)
Lemma read_sector_run d sector s : 0 ≤ sector → sector * 512 < 2 ^ 31 → rests d Ready 0 (negb hc) false s →
  ∃ s', sdcard_read_sector sector s = Done (rd_bytes d (sector * 512) 512, s') ∧ rests d Ready 0 (negb hc) false s'.
Proof.
  intros H0 H1 (sel & t & ->). unfold sdcard_read_sector.
  destruct (sector_address d sector sel Ready [] None 0 t false H0 H1) as (a & Ea & Ha & Hba). step Ea.
  erewrite M_bind_Done by reflexivity. cbn [bus is_standard_sd sleepLock].
  rewrite (ask_at_rest SD_CMD17 0 d sel Ready [] 0 t (negb hc) true _ a 0
    (wait (rd t) ++ [0xfe] ++ rd_bytes d (sector * 512) 512 ++ [0; 0]) Ready 0); [|unfold SD_CMD17; lia|done|done|].
  2:{ rewrite <- Hba. reflexivity. }
  change (negb (0 =? 0)) with false. cbv iota.
  rewrite (M_bind_Done _ _ _ true (Sd (crd d true Ready (rd_bytes d (sector * 512) 512 ++ [0; 0]) None 0 (S t)) (negb hc) true)).
  2:{ apply (wait_byte_run (negb hc) true (λ b, b =? START_BLOCK_TOKEN) 0xfe
        (rd_bytes d (sector * 512) 512 ++ [0; 0]) eq_refl (wait (rd t))); [done|apply wait_not_token|].
      unfold wait. rewrite length_replicate. apply short_read. }
  cbn [negb].
  rewrite (M_bind_Done _ _ _ _ _ (receive_more_dma d true Ready _ None 0 (S t) (Z.to_nat SECTOR)
    (rd_bytes d (sector * 512) 512) [0; 0] (negb hc) true eq_refl (length_rd_bytes _ _ _))).
  rewrite (M_bind_Done _ _ _ _ _ (receive_more d true Ready [0; 0] None 0 (S t) 2 [0; 0] [] (negb hc) true eq_refl eq_refl)).
  step (end_cmd_run (crd d true Ready [] None 0 (S t)) (negb hc) true).
  eexists. split; [reflexivity|]. by exists false, (S t).
Qed.

(** Writing a sector replaces its bytes. *)
Lemma write_data_run c std lk l : sd_write_data l (Sd c std lk) = Done (tt, Sd (receive l c) std lk).
Proof. done. Qed.

Lemma receive_part l c a acc : selected c = true → card_rx c = Some (a, acc) → (length (acc ++ l) < 515)%nat →
  receive l c = with_rx (Some (a, acc ++ l)) c.
Proof. intros Hs Hr Hl. unfold receive. by rewrite Hs, Hr, (proj2 (Nat.ltb_lt _ _) Hl). Qed.
Lemma receive_last l c a acc : selected c = true → card_rx c = Some (a, acc) → (515 ≤ length (acc ++ l))%nat →
  receive l c = with_rx None (answer (0xe5 :: replicate (busy_delay c (card_time c)) 0 ++ [0xff])
    (with_data (wr_bytes (card_data c) a (take 512 (drop 1 (acc ++ l)))) c)).
Proof. intros Hs Hr Hl. unfold receive. by rewrite Hs, Hr, (proj2 (Nat.ltb_ge _ _) Hl). Qed.

Lemma block_received d t a l : length l = 512%nat →
  receive [0xff; 0xff] (receive l (receive [START_BLOCK_TOKEN] (crd d true Ready [] (Some (a, [])) 0 t))) =
  crd (wr_bytes d a l) true Ready (wait (ad t) ++ 0xe5 :: replicate (bd t) 0 ++ [0xff]) None 0 (S t).
Proof.
  intros Hl. set (c := crd d true Ready [] (Some (a, [])) 0 t).
  rewrite (receive_part [START_BLOCK_TOKEN] c a []); [|done|done|cbn; lia].
  rewrite (receive_part l _ a [START_BLOCK_TOKEN]); [|done|done|cbn; lia].
  rewrite (receive_last [0xff; 0xff] _ a (START_BLOCK_TOKEN :: l)); [|done|done|rewrite length_app; cbn; lia].
  assert (take 512 (drop 1 ((START_BLOCK_TOKEN :: l) ++ [0xff; 0xff])) = l) as -> by exact (take_app_length' l _ 512 (eq_sym Hl)).
  reflexivity.
Qed.

Lemma write_sector_run d sector l s : 0 ≤ sector → sector * 512 < 2 ^ 31 → length l = 512%nat →
  rests d Ready 0 (negb hc) false s →
  ∃ s', sdcard_write_sector l sector s = Done (tt, s') ∧ rests (wr_bytes d (sector * 512) l) Ready 0 (negb hc) false s'.
Proof.
  intros H0 H1 Hl (sel & t & ->). unfold sdcard_write_sector.
  destruct (sector_address d sector sel Ready [] None 0 t false H0 H1) as (a & Ea & Ha & Hba). step Ea.
  erewrite M_bind_Done by reflexivity. cbn [bus is_standard_sd sleepLock].
  rewrite (ask SD_CMD24 a 0 d sel Ready [] 0 t (negb hc) true 0 [] (crd d true Ready [] (Some (sector * 512, [])) 0 t));
    [|unfold SD_CMD24; lia|done|done|apply crd_patient|rewrite <- Hba; reflexivity].
  change (negb (0 =? 0)) with false. cbv iota.
  set (d1 := wr_bytes d (sector * 512) l).
  change (set_out [] (tick ?c)) with (crd d true Ready [] (Some (sector * 512, [])) 0 (S t)).
  step (write_data_run (crd d true Ready [] (Some (sector * 512, [])) 0 (S t)) (negb hc) true [START_BLOCK_TOKEN]).
  erewrite M_bind_Done; [|exact (write_data_run _ (negb hc) true l)].
  erewrite M_bind_Done; [|exact (write_data_run _ (negb hc) true [0xff; 0xff])].
  rewrite (block_received d (S t) (sector * 512) l Hl). fold d1.
  rewrite (M_bind_Done _ _ _ true (Sd (crd d1 true Ready (replicate (bd (S t)) 0 ++ [0xff]) None 0 (S (S t))) (negb hc) true)).
  2:{ apply (wait_byte_run (negb hc) true (λ b, Z.land b 0x1f =? 0x05) 0xe5 (replicate (bd (S t)) 0 ++ [0xff]) eq_refl
        (wait (ad (S t)))); [done|by apply Forall_replicate|].
      unfold wait. rewrite length_replicate. pose proof (short_answer (S t)). unfold turns. lia. }
  cbn [negb].
  rewrite (M_bind_Done _ _ _ true (Sd (crd d1 true Ready [] None 0 (S (S t))) (negb hc) true)).
  2:{ apply (wait_byte_run (negb hc) true (λ b, negb (b =? 0)) 0xff [] eq_refl (replicate (bd (S t)) 0));
        [done|by apply Forall_replicate|]. rewrite length_replicate. apply short_busy. }
  cbn [negb]. step (end_cmd_run (crd d1 true Ready [] None 0 (S (S t))) (negb hc) true).
  change (select true _) with (crd d1 false Ready [] None 0 (S (S t))).
  rewrite (ask_at_rest SD_CMD13 0 d1 false Ready [] 0 (S (S t)) (negb hc) true _ 0 0 [0] Ready 0);
    [|unfold SD_CMD13; lia|lia|done|done].
  step (read_byte_run (crd d1 true Ready [0] None 0 (S (S (S t)))) 0 [] (negb hc) true eq_refl).
  change (set_out [] _) with (crd d1 true Ready [] None 0 (S (S (S t)))).
  step (end_cmd_run (crd d1 true Ready [] None 0 (S (S (S t)))) (negb hc) true).
  eexists. split; [reflexivity|]. by exists false, (S (S (S t))).
Qed.

(** ** Initialisation *)
Lemma cmd0_loop_run n d sel ph k t std lk :
  cmd0_loop (S n) (Sd (crd d sel ph [] None k t) std lk) = Done (true, Sd (crd d false Idle [] None k (S t)) std lk).
Proof.
  cbn [cmd0_loop].
  rewrite (ask_at_rest SD_CMD0 0x95 d sel ph [] k t std lk _ 0 1 [] Idle k); [|unfold SD_CMD0; lia|lia|done|done].
  by step (end_cmd_run (crd d true Idle [] None k (S t)) std lk).
Qed.
Lemma switch_run d sel ph k t std lk :
  switch_to_SPI_mode (Sd (crd d sel ph [] None k t) std lk) = Done (0, Sd (crd d false Idle [] None k (S t)) std lk).
Proof. unfold switch_to_SPI_mode. change (turns 0xff) with (S 253). by step (cmd0_loop_run 253 d sel ph k t std lk). Qed.
Lemma verify_run d k t std lk :
  verify_operation_condition (Sd (crd d false Idle [] None k t) std lk) =
  Done (0, Sd (crd d false Idle [] None k (S t)) std lk).
Proof.
  unfold verify_operation_condition.
  rewrite (ask_at_rest SD_CMD8 0x87 d false Idle [] k t std lk _ 0x1aa 1 [0; 0; 1; 0xaa] Idle k);
    [|unfold SD_CMD8; lia|lia|done|done].
  rewrite (M_bind_Done _ _ _ _ _ (receive_more d true Idle _ None k (S t) 4 [0; 0; 1; 0xaa] [] std lk eq_refl eq_refl)).
  by step (end_cmd_run (crd d true Idle [] None k (S t)) std lk).
Qed.
Lemma read_OCR_run n d k t std lk :
  read_OCR_loop (S n) (Sd (crd d false Idle [] None k t) std lk) = Done (0, Sd (crd d false Idle [] None k (S t)) std lk).
Proof.
  cbn [read_OCR_loop].
  rewrite (ask_at_rest SD_CMD58 0 d false Idle [] k t std lk _ 0 1 [0; 0xff; 0x80; 0] Idle k);
    [|unfold SD_CMD58; lia|lia|done|done].
  rewrite (M_bind_Done _ _ _ _ _ (receive_more d true Idle _ None k (S t) 4 [0; 0xff; 0x80; 0] [] std lk eq_refl eq_refl)).
  by step (end_cmd_run (crd d true Idle [] None k (S t)) std lk).
Qed.
Lemma cmd55_run {A} d k t std lk (f : Z → M (sdcard card) A) :
  (sd_send_cmd SD_CMD55 0 0;; r ← sd_get_response_R1; sd_end_cmd;; f r) (Sd (crd d false Idle [] None k t) std lk) =
  f 1 (Sd (crd d false Idle [] None k (S t)) std lk).
Proof.
  rewrite (ask_at_rest SD_CMD55 0 d false Idle [] k t std lk _ 0 1 [] Idle k); [|unfold SD_CMD55; lia|lia|done|done].
  by step (end_cmd_run (crd d true Idle [] None k (S t)) std lk).
Qed.
Lemma set_SDXC_run d std lk : ∀ k n t, (k < n)%nat →
  ∃ t', set_SDXC_loop n (Sd (crd d false Idle [] None k t) std lk) = Done (0, Sd (crd d false Ready [] None 0 t') std lk).
Proof.
  induction k as [|k IH]; intros [|n] t Hn; try lia; cbn [set_SDXC_loop].
  all: rewrite cmd55_run; change (negb (1 =? 1)) with false; cbv iota.
  - rewrite (ask_at_rest SD_ACMD41 0 d false Idle [] 0 (S t) std lk _ 0x40000000 0 [] Ready 0);
      [|unfold SD_ACMD41; lia|lia|done|done].
    step (end_cmd_run (crd d true Ready [] None 0 (S (S t))) std lk). by exists (S (S t)).
  - rewrite (ask_at_rest SD_ACMD41 0 d false Idle [] (S k) (S t) std lk _ 0x40000000 1 [] Idle k);
      [|unfold SD_ACMD41; lia|lia|done|done].
    step (end_cmd_run (crd d true Idle [] None k (S (S t))) std lk). change (1 =? 0) with false. cbv iota.
    apply (IH n (S (S t))). lia.
Qed.
Lemma cmd16_loop_run n d t std lk :
  cmd16_loop (S n) (Sd (crd d false Ready [] None 0 t) std lk) =
  Done (true, Sd (crd d false Ready [] None 0 (S t)) std lk).
Proof.
  cbn [cmd16_loop].
  rewrite (ask_at_rest SD_CMD16 0 d false Ready [] 0 t std lk _ SECTOR 0 [] Ready 0);
    [|unfold SD_CMD16; lia|unfold SECTOR; lia|done|done].
  by step (end_cmd_run (crd d true Ready [] None 0 (S t)) std lk).
Qed.
Lemma check_block_size_run n d t std lk :
  ∃ t', check_block_size_loop (S n) (Sd (crd d false Ready [] None 0 t) std lk) =
    Done (0, Sd (crd d false Ready [] None 0 t') (negb hc) lk).
Proof.
  cbn [check_block_size_loop]. set (b := if hc then 0xc0 else 0x80).
  rewrite (ask_at_rest SD_CMD58 0 d false Ready [] 0 t std lk _ 0 0 [b; 0xff; 0x80; 0] Ready 0);
    [|unfold SD_CMD58; lia|lia|done|done].
  rewrite (M_bind_Done _ _ _ _ _ (receive_more d true Ready _ None 0 (S t) 4 [b; 0xff; 0x80; 0] [] std lk eq_refl eq_refl)).
  step (end_cmd_run (crd d true Ready [] None 0 (S t)) std lk). cbn [nth]. change (0 =? 0) with true. cbv iota.
  assert (negb (Z.land b 0x40 =? 0) = hc) as -> by (unfold b; by destruct hc).
  destruct hc; [by exists (S t)|]. change (turns 0xff) with (S 253).
  step (cmd16_loop_run 253 d (S t) std lk). by exists (S (S t)).
Qed.

(** From power-up to the first request. *)
Lemma init_run d sel ph k t std lk : (k < turns 0xfff)%nat →
  ∃ s', init (Sd (crd d sel ph [] None k t) std lk) = Done (tt, s') ∧ rests d Ready 0 (negb hc) false s'.
Proof.
  intros Hk.
  assert (∃ t', sd_init (Sd (crd d sel ph [] None k t) std lk) =
    Done (0, Sd (crd d false Ready [] None 0 t') (negb hc) lk)) as [t' E].
  { unfold sd_init. erewrite M_bind_Done by reflexivity. erewrite M_bind_Done by reflexivity.
    rewrite (M_bind_Done _ _ _ tt (Sd (crd d true ph [] None k t) std lk)) by reflexivity.
    step (switch_run d true ph k t std lk). change (negb (0 =? 0)) with false. cbv iota.
    step (verify_run d k (S t) std lk). change (negb (0 =? 0)) with false. cbv iota.
    unfold read_OCR. change (turns 0xff) with (S 253). step (read_OCR_run 253 d k (S (S t)) std lk). change (negb (0 =? 0)) with false. cbv iota.
    destruct (set_SDXC_run d std lk k (turns 0xfff) (S (S (S t))) Hk) as (t1 & E1).
    unfold set_SDXC_capacity. step E1. change (negb (0 =? 0)) with false. cbv iota.
    unfold check_block_size. change (Z.to_nat 0xff) with (S 254).
    destruct (check_block_size_run 254 d t1 std lk) as (t2 & E2). step E2. by exists t2. }
  unfold init. step E. erewrite M_bind_Done by reflexivity. change (negb (0 =? 0)) with false. cbv iota.
  eexists. split; [reflexivity|]. by exists false, t'.
Qed.

(** ** Requests *)
Lemma read_sectors_run d : ∀ n sector s, 0 ≤ sector → (sector + Z.of_nat n) * 512 ≤ 2 ^ 31 →
  rests d Ready 0 (negb hc) false s →
  ∃ s', read_sectors sector n s = Done (rd_sectors d sector n, s') ∧ rests d Ready 0 (negb hc) false s'.
Proof.
  induction n as [|n IH]; intros sector s H0 H1 Hs; [by exists s|]. cbn [read_sectors rd_sectors].
  destruct (read_sector_run d sector s) as (s1 & E1 & Hs1); [lia|lia|done|]. step E1.
  destruct (IH (sector + 1) s1) as (s2 & E2 & Hs2); [lia|lia|done|]. step E2. by exists s2.
Qed.
Lemma write_sectors_run : ∀ n d sector l s, 0 ≤ sector → (sector + Z.of_nat n) * 512 ≤ 2 ^ 31 →
  length l = (512 * n)%nat → rests d Ready 0 (negb hc) false s →
  ∃ s', write_sectors sector n l s = Done (tt, s') ∧ rests (wr_sectors d sector n l) Ready 0 (negb hc) false s'.
Proof.
  induction n as [|n IH]; intros d sector l s H0 H1 Hl Hs; [by exists s|]. cbn [write_sectors wr_sectors].
  destruct (write_sector_run d sector (take 512 l) s) as (s1 & E1 & Hs1); [lia|lia|rewrite length_take; lia|done|]. step E1.
  apply (IH _ (sector + 1)); [lia|lia|rewrite length_drop; lia|done].
Qed.
End driver.

(** What the users of the device ask for, and what the virtio disk of Buf.v does
    on the bytes [d]. *)
Inductive request :=
| ReadReq (old : list Z) (offset n : Z)
| WriteReq (l : list Z) (offset n : Z).
Definition request_ok (q : request) : Prop :=
  match q with
  | ReadReq _ offset n => 0 ≤ offset ∧ 0 ≤ n ∧ offset + n < 2 ^ 31
  | WriteReq l offset n => 0 ≤ offset ∧ 0 ≤ n ∧ offset + n < 2 ^ 31 ∧ Z.of_nat (length l) = n
  end.
Definition serve {C} `{SpiBus C} (q : request) : M (sdcard C) (Z * list Z) :=
  match q with
  | ReadReq old offset n => Sdcard.read old offset n
  | WriteReq l offset n => r ← Sdcard.write l offset n; mret (r, [])
  end.
Definition disk_serve (q : request) (d : mem) : (Z * list Z) * mem :=
  match q with
  | ReadReq old offset n => (VirtioDisk_read d old offset n, d)
  | WriteReq l offset n => let '(r, d) := VirtioDisk_write d l offset n in ((r, []), d)
  end.
Fixpoint serve_all {C} `{SpiBus C} (qs : list request) : M (sdcard C) (list (Z * list Z)) :=
  match qs with [] => mret [] | q :: qs => r ← serve q; rs ← serve_all qs; mret (r :: rs) end.
Fixpoint disk_serve_all (qs : list request) (d : mem) : list (Z * list Z) * mem :=
  match qs with
  | [] => ([], d)
  | q :: qs => let '(r, d) := disk_serve q d in let '(rs, d) := disk_serve_all qs d in (r :: rs, d)
  end.

Lemma serve_run hc ad rd bd d q s :
  (∀ t, (ad t < 255)%nat) → (∀ t, (rd t < turns 0xffffff)%nat) → (∀ t, (bd t < turns 0xffffff)%nat) →
  request_ok q → rests hc ad rd bd d Ready 0 (negb hc) false s →
  ∃ s', serve q s = Done (fst (disk_serve q d), s') ∧
    rests hc ad rd bd (snd (disk_serve q d)) Ready 0 (negb hc) false s'.
Proof.
  intros Ha Hr Hb Hq Hs. destruct q as [old offset n|l offset n]; cbn [serve disk_serve request_ok] in *.
  - unfold Sdcard.read, VirtioDisk_read. destruct (bad_range offset n) eqn:E; [by exists s|].
    unfold bad_range, n_sectors in *. rewrite !i32_small in * by lia. rewrite !Z.rem_mod_nonneg, !Z.quot_div_nonneg in * by lia.
    destruct (read_sectors_run hc ad rd bd Ha Hr Hb d (Z.to_nat ((offset + n) / 512 - offset / 512)) (offset / 512) s)
      as (s' & E' & Hs'); [dlia|dlia|done|]. step E'. by exists s'.
  - unfold Sdcard.write, VirtioDisk_write. destruct (bad_range offset n) eqn:E; [by exists s|].
    unfold bad_range, n_sectors in *. rewrite !i32_small in * by lia. rewrite !Z.rem_mod_nonneg, !Z.quot_div_nonneg in * by lia.
    apply orb_false_iff in E as [En Eo]. apply negb_false_iff, Z.eqb_eq in En. apply negb_false_iff, Z.eqb_eq in Eo.
    destruct (write_sectors_run hc ad rd bd Ha Hr Hb (Z.to_nat ((offset + n) / 512 - offset / 512)) d (offset / 512) l s)
      as (s' & E' & Hs'); [dlia|dlia|dlia|done|].
    exists s'. split; [|done]. rewrite (M_bind_Done _ _ _ n s'); [done|]. by step E'.
Qed.


Lemma serve_all_run hc ad rd bd qs : ∀ d s,
  (∀ t, (ad t < 255)%nat) → (∀ t, (rd t < turns 0xffffff)%nat) → (∀ t, (bd t < turns 0xffffff)%nat) →
  Forall request_ok qs → rests hc ad rd bd d Ready 0 (negb hc) false s →
  ∃ s', serve_all qs s = Done (fst (disk_serve_all qs d), s') ∧
    rests hc ad rd bd (snd (disk_serve_all qs d)) Ready 0 (negb hc) false s'.
Proof.
  induction qs as [|q qs IH]; intros d s Ha Hr Hb Hqs Hs; [by exists s|]. apply Forall_cons in Hqs as [Hq Hqs].
  destruct (serve_run hc ad rd bd d q s Ha Hr Hb Hq Hs) as (s1 & E1 & Hs1). cbn [serve_all disk_serve_all].
  destruct (disk_serve q d) as [r d1]. cbn [fst snd] in *.
  destruct (IH d1 s1 Ha Hr Hb Hqs Hs1) as (s2 & E2 & Hs2).
  destruct (disk_serve_all qs d1) as [rs d2]. cbn [fst snd] in *.
  exists s2. split; [|done]. step E1. by step E2.
Qed.

(** Claim C3: with any SD card, of either capacity class, that answers as the
    specification says and within the time the driver waits, the driver's
    initialisation succeeds, whatever the card was doing, and any sequence of
    reads and writes within the first 2 GiB gives the results and leaves the
    contents that the virtio disk gives for them. *)
Theorem sd_card_is_block_device (c : card) (std lk : bool) qs :
  patient c → card_out c = [] → card_rx c = None → (card_acmd41 c < turns 0xfff)%nat → Forall request_ok qs →
  ∃ s', (Sdcard.init;; serve_all qs) (Sd c std lk) = Done (fst (disk_serve_all qs (card_data c)), s') ∧
    card_data (bus s') = snd (disk_serve_all qs (card_data c)).
Proof.
  intros Hp Ho Hx Hk Hqs. destruct c as [d hc sel ph out rx k t ad rd bd]. cbn in *. subst out rx.
  destruct Hp as [Ha Hr Hb]. cbn in *.
  destruct (init_run hc ad rd bd Ha Hr Hb d sel ph k t std lk Hk) as (s1 & E1 & Hs1).
  destruct (serve_all_run hc ad rd bd qs d s1 Ha Hr Hb Hqs Hs1) as (s2 & E2 & sel2 & t2 & Es).
  exists s2. split; [|by subst s2]. unfold crd in E1. step E1. exact E2.
Qed.

(** A standard-capacity card that is busy for a while: a sector is written and
    read back. *)
Module SdcardWitness.
Definition card0 : card := Card (λ _, 0) false true Idle [] None 3 0 (λ t, Nat.modulo t 9) (λ _, 20%nat) (λ _, 1000%nat).
Definition requests : list request := [WriteReq (replicate 512 7) 1024 512; ReadReq (replicate 512 0) 1024 512].

Lemma sd_card_is_block_device_witness :
  ∃ s', (Sdcard.init;; serve_all requests) (Sd card0 false true) = Done ([(512, []); (512, replicate 512 7)], s').
Proof.
  destruct (sd_card_is_block_device card0 false true requests) as (s' & E & _).
  - split; cbn [card0 answer_delay read_delay busy_delay].
    + intros t. pose proof (Nat.mod_upper_bound t 9). lia.
    + intros _. unfold turns. lia.
    + intros _. unfold turns. lia.
  - reflexivity.
  - reflexivity.
  - cbn [card0 card_acmd41]. unfold turns. lia.
  - repeat constructor; lia.
  - exists s'. rewrite E. by do 2 f_equal.
Defined.
End SdcardWitness.
