(* ===== verification/Virtio.v ===== *)
(** * The virtio block driver: kernel/driver/virtio.cpp

    The driver and the device share a table of descriptors and two rings in
    memory.  A call of [VirtioRw] takes three descriptors, or sleeps until some
    are given back, publishes the chain in the available ring and sleeps until
    the interrupt handler has seen it in the used ring.  Everything between
    taking [vdiskLock] and releasing it or going to sleep is one step.  The
    device is not ours: it is a relation that is only assumed to follow the
    virtio specification ([served_by] below). *)
From S2P Require Import Prelude Mem KAlloc Buf.

(** driver/virtio.hpp *)
Definition NUM : Z := 8.
(** [BSIZE] of virtio.cpp *)
Definition SECTOR : Z := 512.
Definition VRING_DESC_F_NEXT : Z := 1.
Definition VRING_DESC_F_WRITE : Z := 2.
Definition VIRTIO_BLK_T_IN : Z := 0.
Definition VIRTIO_BLK_T_OUT : Z := 1.
Definition VIRTIO_MMIO_MAGIC_VALUE : Z := 0x000.
Definition VIRTIO_MMIO_VERSION : Z := 0x004.
Definition VIRTIO_MMIO_DEVICE_ID : Z := 0x008.
Definition VIRTIO_MMIO_VENDOR_ID : Z := 0x00c.
Definition VIRTIO_MMIO_DEVICE_FEATURES : Z := 0x010.
Definition VIRTIO_MMIO_DRIVER_FEATURES : Z := 0x020.
Definition VIRTIO_MMIO_GUEST_PAGE_SIZE : Z := 0x028.
Definition VIRTIO_MMIO_QUEUE_SEL : Z := 0x030.
Definition VIRTIO_MMIO_QUEUE_NUM_MAX : Z := 0x034.
Definition VIRTIO_MMIO_QUEUE_NUM : Z := 0x038.
Definition VIRTIO_MMIO_QUEUE_PFN : Z := 0x040.
Definition VIRTIO_MMIO_QUEUE_NOTIFY : Z := 0x050.
Definition VIRTIO_MMIO_INTERRUPT_STATUS : Z := 0x060.
Definition VIRTIO_MMIO_INTERRUPT_ACK : Z := 0x064.
Definition VIRTIO_MMIO_STATUS : Z := 0x070.
Definition VIRTIO_CONFIG_S_ACKNOWLEDGE : Z := 1.
Definition VIRTIO_CONFIG_S_DRIVER : Z := 2.
Definition VIRTIO_CONFIG_S_DRIVER_OK : Z := 4.
Definition VIRTIO_CONFIG_S_FEATURES_OK : Z := 8.
Definition VIRTIO_BLK_F_RO : Z := 5.
Definition VIRTIO_BLK_F_SCSI : Z := 7.
Definition VIRTIO_BLK_F_CONFIG_WCE : Z := 11.
Definition VIRTIO_BLK_F_MQ : Z := 12.
Definition VIRTIO_F_ANY_LAYOUT : Z := 27.
Definition VIRTIO_RING_F_INDIRECT_DESC : Z := 28.
Definition VIRTIO_RING_F_EVENT_IDX : Z := 29.

(** What a descriptor points to: [&ops[i]], a buffer, [&info[i].status]. *)
Inductive vptr := PNull | POp (i : Z) | PBuf (a : Z) | PStatus (i : Z).
Record virtq_desc := VDesc { d_addr : vptr; d_len : Z; d_flags : Z; d_next : Z }.
Record virtio_blk_req := BlkReq { r_type : Z; r_reserved : Z; r_sector : Z }.
Record vinfo := VInfo { i_data : Z; i_finish : bool; i_status : Z }.

(** [struct VirtioDisk]: the three regions of [pages], then the driver's own
    book-keeping. *)
Record VirtioDisk := VD {
  desc : list virtq_desc;
  avail_idx : Z;
  avail_ring : list Z;
  used_ring_idx : Z;
  used_ring : list (Z * Z);
  free : list bool;
  used_idx : Z;
  info : list vinfo;
  ops : list virtio_blk_req;
}.

(** A call, the channels [&free[0]] and [buf], where a sleeping call goes on. *)
Record vreq := VReq { q_buf : Z; q_sector : Z; q_write : bool }.
Inductive vchan := ChFree | ChBuf (a : Z).
#[global] Instance vchan_eq_dec : EqDecision vchan.
Proof. solve_decision. Defined.
Inductive vkont := KAlloc (r : vreq) | KWait (r : vreq) (idx : Z * Z * Z).
Inductive vtask := TIdle | TAsleep (c : vchan) (k : vkont) | TReady (k : vkont).

(** The machine: the driver, the tasks, the memory of the buffers, the
    registers that were written, and the device: the contents of the disk, how
    far it has read the available ring, and the requests it is working on. *)
Record vst := VS {
  vd : VirtioDisk;
  tasks : list vtask;
  vmem : mem;
  regs : list (Z * Z);
  disk : mem;
  seen : Z;
  pending : list Z;
}.
Abbreviation VM := (M vst).
Inductive vres := VRet | VSlept.

(** An index outside the array is [None]. *)
Definition at_ {A : Type} (l : list A) (i : Z) : option A :=
  if 0 <=? i then l !! Z.to_nat i else None.

Definition set_vd (d : VirtioDisk) (s : vst) : vst :=
  VS d (tasks s) (vmem s) (regs s) (disk s) (seen s) (pending s).
Definition with_desc (l : list virtq_desc) (d : VirtioDisk) : VirtioDisk :=
  VD l (avail_idx d) (avail_ring d) (used_ring_idx d) (used_ring d) (free d) (used_idx d) (info d) (ops d).
Definition with_avail (i : Z) (l : list Z) (d : VirtioDisk) : VirtioDisk :=
  VD (desc d) i l (used_ring_idx d) (used_ring d) (free d) (used_idx d) (info d) (ops d).
Definition with_free (l : list bool) (d : VirtioDisk) : VirtioDisk :=
  VD (desc d) (avail_idx d) (avail_ring d) (used_ring_idx d) (used_ring d) l (used_idx d) (info d) (ops d).
Definition with_used_idx (i : Z) (d : VirtioDisk) : VirtioDisk :=
  VD (desc d) (avail_idx d) (avail_ring d) (used_ring_idx d) (used_ring d) (free d) i (info d) (ops d).
Definition with_info (l : list vinfo) (d : VirtioDisk) : VirtioDisk :=
  VD (desc d) (avail_idx d) (avail_ring d) (used_ring_idx d) (used_ring d) (free d) (used_idx d) l (ops d).
Definition with_ops (l : list virtio_blk_req) (d : VirtioDisk) : VirtioDisk :=
  VD (desc d) (avail_idx d) (avail_ring d) (used_ring_idx d) (used_ring d) (free d) (used_idx d) (info d) l.

Definition get_at {A : Type} (f : VirtioDisk → list A) (i : Z) : VM A := λ s,
  match at_ (f (vd s)) i with Some x => Done (x, s) | None => Panic "index" end.
Definition put_at {A : Type} (f : VirtioDisk → list A) (w : list A → VirtioDisk → VirtioDisk)
    (i : Z) (x : A) : VM unit := λ s,
  match at_ (f (vd s)) i with
  | Some _ => Done (tt, set_vd (w (<[Z.to_nat i := x]> (f (vd s))) (vd s)) s)
  | None => Panic "index"
  end.
Definition put_desc := put_at desc with_desc.
Definition put_free := put_at free with_free.
Definition put_info := put_at info with_info.
Definition put_op := put_at ops with_ops.

Definition wr_reg (r v : Z) : VM unit :=
  modify (λ s, VS (vd s) (tasks s) (vmem s) (regs s ++ [(r, v)]) (disk s) (seen s) (pending s)).
Definition set_tasks (f : list vtask → list vtask) : VM unit :=
  modify (λ s, VS (vd s) (f (tasks s)) (vmem s) (regs s) (disk s) (seen s) (pending s)).
Definition wake_one (c : vchan) (t : vtask) : vtask :=
  match t with TAsleep c' k => if decide (c' = c) then TReady k else t | _ => t end.
Definition wakeup (c : vchan) : VM unit := set_tasks (fmap (wake_one c)).
Definition sleep (me : nat) (c : vchan) (k : vkont) : VM unit := set_tasks (alter (λ _, TAsleep c k) me).

(** ** Start-up *)

(** [R]: what the registers of the device read; [pages]: the address of the
    shared pages.  [vdiskLock.init] is left out. *)
Definition clear_bit (x k : Z) : Z := Z.land x (Z.lnot (Z.shiftl 1 k)).
Definition VirtioInit (R : Z → Z) (pages : Z) : VM unit :=
  if negb (R VIRTIO_MMIO_MAGIC_VALUE =? 0x74726976) || negb (R VIRTIO_MMIO_VERSION =? 1) ||
     negb (R VIRTIO_MMIO_DEVICE_ID =? 2) || negb (R VIRTIO_MMIO_VENDOR_ID =? 0x554d4551)
  then panic "could not find virtio disk"
  else
    let status := Z.lor 0 VIRTIO_CONFIG_S_ACKNOWLEDGE in
    wr_reg VIRTIO_MMIO_STATUS status;;
    let status := Z.lor status VIRTIO_CONFIG_S_DRIVER in
    wr_reg VIRTIO_MMIO_STATUS status;;
    let features := R VIRTIO_MMIO_DEVICE_FEATURES in
    let features := clear_bit features VIRTIO_BLK_F_RO in
    let features := clear_bit features VIRTIO_BLK_F_SCSI in
    let features := clear_bit features VIRTIO_BLK_F_CONFIG_WCE in
    let features := clear_bit features VIRTIO_BLK_F_MQ in
    let features := clear_bit features VIRTIO_F_ANY_LAYOUT in
    let features := clear_bit features VIRTIO_RING_F_EVENT_IDX in
    let features := clear_bit features VIRTIO_RING_F_INDIRECT_DESC in
    wr_reg VIRTIO_MMIO_DRIVER_FEATURES (u32 features);;
    let status := Z.lor status VIRTIO_CONFIG_S_FEATURES_OK in
    wr_reg VIRTIO_MMIO_STATUS status;;
    let status := Z.lor status VIRTIO_CONFIG_S_DRIVER_OK in
    wr_reg VIRTIO_MMIO_STATUS status;;
    wr_reg VIRTIO_MMIO_GUEST_PAGE_SIZE PGSIZE;;
    wr_reg VIRTIO_MMIO_QUEUE_SEL 0;;
    let max := R VIRTIO_MMIO_QUEUE_NUM_MAX in
    if max =? 0 then panic "virtio disk has no queue 0"
    else if max <? NUM then panic "virtio disk max queue too short"
    else
      wr_reg VIRTIO_MMIO_QUEUE_NUM NUM;;
      modify (λ s, set_vd (VD (replicate 8 (VDesc PNull 0 0 0)) 0 (replicate 8 0) 0 (replicate 8 (0, 0))
        (free (vd s)) (used_idx (vd s)) (info (vd s)) (ops (vd s))) s);;
      wr_reg VIRTIO_MMIO_QUEUE_PFN (u32 (Z.shiftr pages 12));;
      modify (λ s, set_vd (with_free (replicate 8 true) (vd s)) s).

(** ** Descriptors *)

(** The loop of [alloc_desc] from [i] on; [n] are left. *)
Fixpoint alloc_desc_loop (i : Z) (n : nat) : VM Z :=
  match n with
  | O => mret (-1)
  | S n =>
      f ← get_at free i;
      if (f : bool) then put_free i false;; mret i else alloc_desc_loop (i + 1) n
  end.
Definition alloc_desc : VM Z := alloc_desc_loop 0 (Z.to_nat NUM).

Definition free_desc (i : Z) : VM unit :=
  if NUM <=? i then panic "free_desc 1"
  else
    f ← get_at free i;
    if (f : bool) then panic "free_desc 2"
    else put_desc i (VDesc PNull 0 0 0);; put_free i true;; wakeup ChFree.

Fixpoint free_chain (fuel : nat) (i : Z) : VM unit :=
  match fuel with
  | O => λ _, NoFuel
  | S fuel =>
      d ← get_at desc i;
      free_desc i;;
      if Z.land (d_flags d) VRING_DESC_F_NEXT =? 0 then mret tt else free_chain fuel (d_next d)
  end.

Fixpoint free_descs (idx : list Z) : VM unit :=
  match idx with [] => mret tt | i :: idx => free_desc i;; free_descs idx end.
(** [n] descriptors are still to be found; [None] is the result -1. *)
Fixpoint alloc3_loop (n : nat) (idx : list Z) : VM (option (list Z)) :=
  match n with
  | O => mret (Some idx)
  | S n =>
      i ← alloc_desc;
      if i <? 0 then free_descs idx;; mret None else alloc3_loop n (idx ++ [i])
  end.
Definition alloc3_desc : VM (option (list Z)) := alloc3_loop 3 [].

(** ** Requests *)

(** From [req = ...] up to the notification of the device. *)
Definition submit (r : vreq) (idx : Z * Z * Z) : VM unit :=
  let '(i0, i1, i2) := idx in
  put_op i0 (BlkReq (if q_write r then VIRTIO_BLK_T_OUT else VIRTIO_BLK_T_IN) 0 (q_sector r));;
  put_desc i0 (VDesc (POp i0) 16 VRING_DESC_F_NEXT i1);;
  let flags := if q_write r then 0 else VRING_DESC_F_WRITE in
  put_desc i1 (VDesc (PBuf (q_buf r)) SECTOR (Z.lor flags VRING_DESC_F_NEXT) i2);;
  put_desc i2 (VDesc (PStatus i0) 1 VRING_DESC_F_WRITE 0);;
  put_info i0 (VInfo (q_buf r) false 0xff);;
  a ← gets (λ s, avail_idx (vd s));
  put_at avail_ring (with_avail a) (a mod NUM) i0;;
  modify (λ s, set_vd (with_avail (u16 (a + 1)) (avail_ring (vd s)) (vd s)) s);;
  wr_reg VIRTIO_MMIO_QUEUE_NOTIFY 0.

(** The loop that waits for the interrupt handler, and what follows it. *)
Definition wait_finish (me : nat) (r : vreq) (idx : Z * Z * Z) : VM vres :=
  let '(i0, i1, i2) := idx in
  i ← get_at info i0;
  if i_finish i then
    put_info i0 (VInfo 0 (i_finish i) (i_status i));;
    free_chain (Z.to_nat NUM) i0;;
    mret VRet
  else sleep me (ChBuf (q_buf r)) (KWait r idx);; mret VSlept.

Definition VirtioRw (me : nat) (r : vreq) : VM vres :=
  idx ← alloc3_desc;
  match idx with
  | Some [i0; i1; i2] => submit r (i0, i1, i2);; wait_finish me r (i0, i1, i2)
  | _ => sleep me ChFree (KAlloc r);; mret VSlept
  end.
Definition VirtioRead (me : nat) (buf sectorno : Z) : VM vres := VirtioRw me (VReq buf (u64 sectorno) false).
Definition VirtioWrite (me : nat) (buf sectorno : Z) : VM vres := VirtioRw me (VReq buf (u64 sectorno) true).

(** A woken call goes on; the task is at work again. *)
Definition go_on (me : nat) (k : vkont) : VM vres :=
  set_tasks (alter (λ _, TIdle) me);;
  match k with KAlloc r => VirtioRw me r | KWait r idx => wait_finish me r idx end.

(** ** The interrupt handler *)
Fixpoint intr_loop (fuel : nat) : VM unit :=
  match fuel with
  | O => λ _, NoFuel
  | S fuel =>
      d ← gets vd;
      if used_idx d =? used_ring_idx d then mret tt
      else
        '(id, _) ← get_at used_ring (used_idx d mod NUM);
        i ← get_at info id;
        if negb (i_status i =? 0) then panic "virtio_disk_intr status"
        else
          put_info id (VInfo (i_data i) true (i_status i));;
          wakeup (ChBuf (i_data i));;
          modify (λ s, set_vd (with_used_idx (u16 (used_idx d + 1)) (vd s)) s);;
          intr_loop fuel
  end.
Definition VirtioIntr (R : Z → Z) : VM unit :=
  wr_reg VIRTIO_MMIO_INTERRUPT_ACK (Z.land (R VIRTIO_MMIO_INTERRUPT_STATUS) 3);;
  intr_loop (S (Z.to_nat NUM)).
