(* ===== verification/VirtioProps.v ===== *)
(** * The virtio driver is a block device

    What the virtio specification says of a device, the block device that
    callers of [VirtioRw] see (requests that are served in some order, each at
    one moment between its call and its return), and the theorem that the
    driver with any conforming device refines it. *)
From S2P Require Import Prelude Mem KAlloc Buf Virtio.

(** ** The device, as the specification of virtio documents it *)

(** The request behind the chain of descriptors at [h]: its header, the buffer,
    whether the device may write the buffer, and where the status goes. *)
Definition chain_of (d : VirtioDisk) (h : Z) : option (virtio_blk_req * Z * bool * Z) :=
  match at_ (desc d) h with
  | Some (VDesc (POp k) l0 f0 n0) =>
      match at_ (ops d) k, at_ (desc d) n0 with
      | Some q, Some (VDesc (PBuf a) l1 f1 n1) =>
          match at_ (desc d) n1 with
          | Some (VDesc (PStatus j) l2 f2 _) =>
              if Z.testbit f0 0 && Z.testbit f1 0 && negb (Z.testbit f2 0) && Z.testbit f2 1 && negb (Z.testbit f0 1) &&
                 (l0 =? 16) && (l1 =? SECTOR) && (l2 =? 1) &&
                 (((r_type q =? VIRTIO_BLK_T_IN) && Z.testbit f1 1) ||
                  ((r_type q =? VIRTIO_BLK_T_OUT) && negb (Z.testbit f1 1))) &&
                 bool_decide (is_Some (at_ (info d) j))
              then Some (q, a, Z.testbit f1 1, j) else None
          | _ => None
          end
      | _, _ => None
      end
  | _ => None
  end.

(** Moving one sector between the disk and a buffer. *)
Definition transfer (into_memory : bool) (a sector : Z) (m d : mem) : mem * mem :=
  if into_memory then (wr_bytes m a (rd_bytes d (sector * SECTOR) (Z.to_nat SECTOR)), d)
  else (m, wr_bytes d (sector * SECTOR) (rd_bytes m a (Z.to_nat SECTOR))).

Definition fetched (h : Z) (s : vst) : vst :=
  VS (vd s) (tasks s) (vmem s) (regs s) (disk s) (u16 (seen s + 1)) (pending s ++ [h]).
Definition served (p : list Z) (h : Z) (q : virtio_blk_req) (a : Z) (w : bool) (j len : Z) (s : vst) : vst :=
  let '(m, d) := transfer w a (r_sector q) (vmem s) (disk s) in
  let v := vd s in
  VS (VD (desc v) (avail_idx v) (avail_ring v) (u16 (used_ring_idx v + 1))
        (<[Z.to_nat (used_ring_idx v mod NUM) := (h, len)]> (used_ring v)) (free v) (used_idx v)
        (alter (λ i, VInfo (i_data i) (i_finish i) 0) (Z.to_nat j) (info v)) (ops v))
    (tasks s) m (regs s) d (seen s) p.

(** The device takes the next chain from the available ring, or completes any
    chain it has taken: it moves the sector, stores status 0 and puts the head
    into the used ring.  A chain that is not a block request allows anything.
    Reading and writing of the medium itself is assumed not to fail. *)
Inductive served_by : vst → vst → Prop :=
| dev_fetch s h :
    seen s ≠ avail_idx (vd s) → at_ (avail_ring (vd s)) (seen s mod NUM) = Some h →
    served_by s (fetched h s)
| dev_done s p1 h p2 q a w j len :
    pending s = p1 ++ h :: p2 → chain_of (vd s) h = Some (q, a, w, j) →
    served_by s (served (p1 ++ p2) h q a w j len s)
| dev_undefined s h s' : h ∈ pending s → chain_of (vd s) h = None → served_by s s'.

(** ** Events and the abstract block device *)
Inductive event := ECall (me : nat) (r : vreq) | EReturn (me : nat) (r : vreq).

Inductive phase := AIdle | APending (r : vreq) | ADone (r : vreq).
Record ast := AS { a_tasks : list phase; a_mem : mem; a_disk : mem }.

Definition perform (r : vreq) (m d : mem) : mem * mem := transfer (negb (q_write r)) (q_buf r) (q_sector r) m d.

Inductive astep : ast → option event → ast → Prop :=
| a_call me r ts m d : ts !! me = Some AIdle →
    astep (AS ts m d) (Some (ECall me r)) (AS (<[me := APending r]> ts) m d)
| a_serve me r ts m d m' d' : ts !! me = Some (APending r) → perform r m d = (m', d') →
    astep (AS ts m d) None (AS (<[me := ADone r]> ts) m' d')
| a_return me r ts m d : ts !! me = Some (ADone r) →
    astep (AS ts m d) (Some (EReturn me r)) (AS (<[me := AIdle]> ts) m d).

Definition req_of (k : vkont) : vreq := match k with KAlloc r => r | KWait r _ => r end.
(** A request whose status byte is 0 has been served. *)
Definition is_served (d : VirtioDisk) (i : Z) : bool :=
  match at_ (info d) i with Some v => i_status v =? 0 | None => false end.
Definition phase_of (d : VirtioDisk) (t : vtask) : phase :=
  match t with
  | TIdle => AIdle
  | TAsleep _ (KAlloc r) | TReady (KAlloc r) => APending r
  | TAsleep _ (KWait r (i, _, _)) | TReady (KWait r (i, _, _)) =>
      if is_served d i then ADone r else APending r
  end.
Definition abs (s : vst) : ast := AS (phase_of (vd s) <$> tasks s) (vmem s) (disk s).

(** ** Arrays and rings *)
Section arrays.
Context {A : Type}.
Implicit Types (l : list A) (x : A).

Lemma at_range l i x : at_ l i = Some x → 0 ≤ i < Z.of_nat (length l).
Proof. unfold at_. destruct (Z.leb_spec 0 i); [|done]. intros ?%lookup_lt_Some. lia. Qed.
Lemma at_some l i : 0 ≤ i < Z.of_nat (length l) → ∃ x, at_ l i = Some x.
Proof.
  intros. unfold at_. destruct (Z.leb_spec 0 i); [|lia]. apply lookup_lt_is_Some_2. lia.
Qed.
Lemma at_insert l i x : 0 ≤ i < Z.of_nat (length l) → at_ (<[Z.to_nat i := x]> l) i = Some x.
Proof. intros. unfold at_. destruct (Z.leb_spec 0 i); [|lia]. apply list_lookup_insert_eq. lia. Qed.
Lemma at_insert_ne l i j x : 0 ≤ i → i ≠ j → at_ (<[Z.to_nat i := x]> l) j = at_ l j.
Proof. intros. unfold at_. destruct (Z.leb_spec 0 j); [|done]. apply list_lookup_insert_ne. lia. Qed.
Lemma at_insert_Some l i j x y :
  0 ≤ i → at_ (<[Z.to_nat i := x]> l) j = Some y → (i = j ∧ x = y) ∨ (i ≠ j ∧ at_ l j = Some y).
Proof.
  intros Hi H. destruct (decide (i = j)) as [->|]; [|rewrite at_insert_ne in H by done; by right].
  left. split; [done|]. pose proof (at_range _ _ _ H) as Hr. rewrite length_insert in Hr.
  rewrite at_insert in H by done. by injection H.
Qed.

(** [ring buf head tail q]: the ring holds the queue [q]; the indices count
    modulo 2^16. *)
Record ring (buf : list A) (head tail : Z) (q : list A) : Prop := {
  rg_len : length buf = Z.to_nat NUM;
  rg_head : 0 ≤ head < 2 ^ 16;
  rg_tail : tail = u16 (head + Z.of_nat (length q));
  rg_room : Z.of_nat (length q) ≤ NUM;
  rg_at : ∀ j : nat, (j < length q)%nat → at_ buf ((head + Z.of_nat j) mod NUM) = q !! j;
}.

Lemma ring_nil buf i : length buf = Z.to_nat NUM → 0 ≤ i < 2 ^ 16 → ring buf i i [].
Proof.
  intros. split; [done..| |done|cbn; lia]. cbn. rewrite Z.add_0_r. unfold u16. by rewrite Z.mod_small.
Qed.
Lemma ring_empty buf head tail q : ring buf head tail q → head = tail ↔ q = [].
Proof.
  intros [Hl Hh -> Hr _]. destruct q as [|x q]; cbn [length].
  - rewrite Z.add_0_r. unfold u16. rewrite Z.mod_small by done. done.
  - split; [|done]. unfold u16, NUM in *. cbn [length] in Hr. dlia.
Qed.
Lemma mod_u16 a : u16 a mod NUM = a mod NUM.
Proof. unfold u16, NUM. dlia. Qed.
Lemma ring_pop buf head tail x q :
  ring buf head tail (x :: q) → at_ buf (head mod NUM) = Some x ∧ ring buf (u16 (head + 1)) tail q.
Proof.
  intros [Hl Hh -> Hr Hat]. cbn [length] in *. split.
  - specialize (Hat 0%nat ltac:(lia)). by rewrite Z.add_0_r in Hat.
  - split; [done|unfold u16; dlia|unfold u16; rewrite Zplus_mod_idemp_l; f_equal; lia|lia|].
    intros j Hj. specialize (Hat (S j) ltac:(lia)). etransitivity; [|exact Hat]. f_equal.
    unfold u16, NUM. dlia.
Qed.
Lemma ring_push buf head tail q x :
  ring buf head tail q → Z.of_nat (length q) < NUM →
  ring (<[Z.to_nat (tail mod NUM) := x]> buf) head (u16 (tail + 1)) (q ++ [x]).
Proof.
  intros [Hl Hh -> Hr Hat] Hroom. split.
  - by rewrite length_insert.
  - done.
  - rewrite length_app. unfold u16. rewrite Zplus_mod_idemp_l. f_equal. cbn. lia.
  - rewrite length_app. cbn. lia.
  - intros j Hj. rewrite length_app in Hj. cbn in Hj. rewrite mod_u16.
    assert (0 ≤ (head + Z.of_nat (length q)) mod NUM < 8) as Hi by (apply Z.mod_pos_bound; done).
    destruct (decide (j = length q)) as [->|Hj'].
    + rewrite at_insert by (rewrite Hl; exact Hi). by rewrite lookup_app_r, Nat.sub_diag by lia.
    + rewrite at_insert_ne, lookup_app_l by (unfold NUM in *; dlia || lia). apply Hat. lia.
Qed.
End arrays.

(** ** Descriptors *)

Definition n_free (l : list bool) : nat := length (filter (λ b, b = true) l).

Lemma n_free_take l i : at_ l i = Some true → n_free l = S (n_free (<[Z.to_nat i := false]> l)).
Proof.
  intros H. pose proof (at_range _ _ _ H) as Hr. unfold at_ in H.
  destruct (Z.leb_spec 0 i); [|done]. unfold n_free.
  rewrite <- (take_drop_middle _ _ _ H) at 1. rewrite insert_take_drop by lia.
  rewrite !filter_app, !length_app, filter_cons_True, filter_cons_False by done. cbn. lia.
Qed.
Lemma n_free_0 l i : n_free l = 0%nat → at_ l i ≠ Some true.
Proof. intros H Hi. apply n_free_take in Hi. lia. Qed.
Lemma n_free_all l : (∀ j, 0 ≤ j < Z.of_nat (length l) → at_ l j = Some false) → n_free l = 0%nat.
Proof.
  intros H. assert (Forall (λ b, b = false) l) as Hl.
  { apply Forall_lookup. intros i b Hb. specialize (H (Z.of_nat i)). pose proof (lookup_lt_Some _ _ _ Hb).
    unfold at_ in H. rewrite Nat2Z.id, Hb in H. destruct (Z.leb_spec 0 (Z.of_nat i)); [|lia].
    specialize (H ltac:(lia)). by injection H. }
  unfold n_free. clear H. induction Hl as [|b l -> _ IH]; [done|]. by rewrite filter_cons_False.
Qed.

Definition take_desc (i : Z) (s : vst) : vst := set_vd (with_free (<[Z.to_nat i := false]> (free (vd s))) (vd s)) s.

Lemma get_at_ok {A} (f : VirtioDisk → list A) i x s : at_ (f (vd s)) i = Some x → get_at f i s = Done (x, s).
Proof. intros H. unfold get_at. by rewrite H. Qed.
Lemma put_at_ok {A} (f : VirtioDisk → list A) w i x s :
  0 ≤ i < Z.of_nat (length (f (vd s))) →
  put_at f w i x s = Done (tt, set_vd (w (<[Z.to_nat i := x]> (f (vd s))) (vd s)) s).
Proof. intros [y H]%at_some. unfold put_at. by rewrite H. Qed.

Lemma alloc_desc_loop_ok n i s :
  0 ≤ i → i + Z.of_nat n = Z.of_nat (length (free (vd s))) →
  (∃ j, at_ (free (vd s)) j = Some true ∧ alloc_desc_loop i n s = Done (j, take_desc j s)) ∨
  ((∀ j, i ≤ j < Z.of_nat (length (free (vd s))) → at_ (free (vd s)) j = Some false) ∧
   alloc_desc_loop i n s = Done (-1, s)).
Proof.
  revert i. induction n as [|n IH]; intros i Hi Hn; cbn [alloc_desc_loop].
  { right. split; [lia|done]. }
  destruct (at_some (free (vd s)) i ltac:(lia)) as [b Hb]. step (get_at_ok free i b s Hb).
  destruct b.
  - left. exists i. split; [done|]. unfold put_free. step (put_at_ok free with_free i false s ltac:(lia)). done.
  - destruct (IH (i + 1)) as [H|[H ?]]; [lia..|by left|right]. split; [|done].
    intros j Hj. destruct (decide (j = i)) as [->|]; [done|]. apply H. lia.
Qed.

Lemma alloc_desc_ok s :
  length (free (vd s)) = Z.to_nat NUM →
  (∃ j, at_ (free (vd s)) j = Some true ∧ 0 ≤ j ∧ alloc_desc s = Done (j, take_desc j s)) ∨
  (n_free (free (vd s)) = 0%nat ∧ alloc_desc s = Done (-1, s)).
Proof.
  intros Hl. destruct (alloc_desc_loop_ok (Z.to_nat NUM) 0 s) as [(j & Hj & E)|[H E]]; [lia|lia|..].
  - left. exists j. split_and!; [done| |done]. apply at_range in Hj. lia.
  - right. split; [|done]. apply n_free_all. intros j Hj. apply H. lia.
Qed.

Definition give_desc (i : Z) (s : vst) : vst :=
  VS (with_free (<[Z.to_nat i := true]> (free (vd s)))
       (with_desc (<[Z.to_nat i := VDesc PNull 0 0 0]> (desc (vd s))) (vd s)))
    (wake_one ChFree <$> tasks s) (vmem s) (regs s) (disk s) (seen s) (pending s).

Lemma free_desc_ok i s :
  length (desc (vd s)) = Z.to_nat NUM → length (free (vd s)) = Z.to_nat NUM →
  at_ (free (vd s)) i = Some false → free_desc i s = Done (tt, give_desc i s).
Proof.
  intros Hd Hf Hi. pose proof (at_range _ _ _ Hi) as Hr. rewrite Hf in Hr. unfold free_desc.
  destruct (Z.leb_spec NUM i); [unfold NUM in *; lia|]. step (get_at_ok free i false s Hi).
  unfold put_desc, put_free. step (put_at_ok desc with_desc i (VDesc PNull 0 0 0) s ltac:(rewrite Hd; lia)).
  step (put_at_ok free with_free i true (set_vd (with_desc (<[Z.to_nat i := VDesc PNull 0 0 0]> (desc (vd s))) (vd s)) s)
    ltac:(cbn; rewrite Hf; lia)).
  reflexivity.
Qed.

Lemma insert_back {A} (l : list A) i x y : at_ l i = Some x → <[Z.to_nat i := x]> (<[Z.to_nat i := y]> l) = l.
Proof.
  unfold at_. destruct (0 <=? i); [|done]. intros H. rewrite list_insert_insert_eq. by apply list_insert_id.
Qed.
Lemma wake_idem c t : wake_one c (wake_one c t) = wake_one c t.
Proof.
  destruct t as [|c' k|k]; cbn; try done. destruct (decide (c' = c)) as [->|]; cbn; [done|]. by rewrite decide_False.
Qed.

(** A failed [alloc3_desc] has only cleared free descriptors and woken sleepers. *)
Definition gave_back (s s' : vst) : Prop :=
  ∃ de ts, s' = VS (with_desc de (vd s)) ts (vmem s) (regs s) (disk s) (seen s) (pending s) ∧
    length de = length (desc (vd s)) ∧
    (∀ j, at_ (free (vd s)) j = Some false → at_ de j = at_ (desc (vd s)) j) ∧
    (ts = tasks s ∨ ts = wake_one ChFree <$> tasks s).

Lemma alloc3_desc_ok s :
  length (desc (vd s)) = Z.to_nat NUM → length (free (vd s)) = Z.to_nat NUM →
  (∃ i0 i1 i2, i0 ≠ i1 ∧ i0 ≠ i2 ∧ i1 ≠ i2 ∧ 
     at_ (free (vd s)) i0 = Some true ∧ at_ (free (vd s)) i1 = Some true ∧ at_ (free (vd s)) i2 = Some true ∧
     alloc3_desc s = Done (Some [i0; i1; i2], take_desc i2 (take_desc i1 (take_desc i0 s)))) ∨
  ((n_free (free (vd s)) < 3)%nat ∧ ∃ s', alloc3_desc s = Done (None, s') ∧ gave_back s s').
Proof.
  intros Hd Hf. unfold alloc3_desc. cbn [alloc3_loop].
  destruct (alloc_desc_ok s Hf) as [(i0 & Hi0 & Hp0 & E0)|[H0 E0]]; step E0.
  2: { right. split; [lia|]. exists s. split; [done|]. exists (desc (vd s)), (tasks s).
    split_and!; [by destruct s as [[] ? ? ? ? ? ?]|done|done|by left]. }
  destruct (Z.ltb_spec i0 0); [lia|]. set (s1 := take_desc i0 s). pose proof (at_range _ _ _ Hi0) as Hr0.
  assert (length (free (vd s1)) = Z.to_nat NUM) as Hf1 by (cbn; by rewrite length_insert).
  assert (at_ (free (vd s1)) i0 = Some false) as Ht0 by (cbn; by rewrite at_insert).
  destruct (alloc_desc_ok s1 Hf1) as [(i1 & Hi1 & Hp1 & E1)|[H1 E1]]; step E1.
  2: { right. split; [rewrite (n_free_take _ _ Hi0); change (free (vd s1)) with (<[Z.to_nat i0 := false]> (free (vd s))) in H1; lia|]. change (-1 <? 0) with true. cbn [app].
    assert (free_descs [i0] s1 = Done (tt, give_desc i0 s1)) as E2
      by (cbn [free_descs]; by step (free_desc_ok i0 s1 Hd Hf1 Ht0)).
    step E2. eexists. split; [done|].
    exists (<[Z.to_nat i0 := VDesc PNull 0 0 0]> (desc (vd s))), (wake_one ChFree <$> tasks s). split_and!.
    - unfold give_desc, s1, take_desc. cbn. rewrite insert_back by done. done.
    - by rewrite length_insert.
    - intros j Hj. rewrite at_insert_ne; [done|done|]. intros ->. congruence.
    - by right. }
  destruct (Z.ltb_spec i1 0); [lia|]. set (s2 := take_desc i1 s1). pose proof (at_range _ _ _ Hi1) as Hr1.
  assert (i0 ≠ i1) as H01 by (intros ->; congruence).
  assert (length (free (vd s2)) = Z.to_nat NUM) as Hf2 by (cbn; by rewrite !length_insert).
  assert (at_ (free (vd s)) i1 = Some true) as Hi1' by (cbn in Hi1; by rewrite at_insert_ne in Hi1).
  assert (at_ (free (vd s2)) i1 = Some false) as Ht1 by (cbn in *; by rewrite at_insert).
  assert (at_ (free (vd s2)) i0 = Some false) as Ht0' by (cbn in *; rewrite at_insert_ne; [done|done|congruence]).
  destruct (alloc_desc_ok s2 Hf2) as [(i2 & Hi2 & Hp2 & E2)|[H2 E2]]; step E2.
  2: { right. split; [rewrite (n_free_take _ _ Hi0); pose proof (n_free_take _ _ Hi1) as Hn;
      change (free (vd s2)) with (<[Z.to_nat i1 := false]> (free (vd s1))) in H2;
      change (free (vd s1)) with (<[Z.to_nat i0 := false]> (free (vd s))) in *; lia|]. change (-1 <? 0) with true. cbn [app].
    assert (at_ (free (vd (give_desc i0 s2))) i1 = Some false) as Hg by (cbn [give_desc vd with_free free]; by rewrite at_insert_ne).
    assert (free_descs [i0; i1] s2 = Done (tt, give_desc i1 (give_desc i0 s2))) as E3.
    { cbn [free_descs]. step (free_desc_ok i0 s2 Hd Hf2 Ht0').
      by step (free_desc_ok i1 (give_desc i0 s2) ltac:(cbn; by rewrite length_insert) ltac:(cbn; by rewrite !length_insert) Hg). }
    step E3. eexists. split; [done|].
    exists (<[Z.to_nat i1 := VDesc PNull 0 0 0]> (<[Z.to_nat i0 := VDesc PNull 0 0 0]> (desc (vd s)))),
      (wake_one ChFree <$> tasks s). split_and!.
    - unfold give_desc, s2, s1, take_desc. cbn.
      rewrite (list_insert_insert_ne _ (Z.to_nat i0) (Z.to_nat i1)) by lia.
      rewrite (insert_back (free (vd s)) i0), (insert_back (free (vd s)) i1) by done. unfold with_desc, with_free. cbn. f_equal.
      rewrite <- list_fmap_compose. apply list_fmap_ext. intros ? t _. apply wake_idem.
    - by rewrite !length_insert.
    - intros j Hj. rewrite !at_insert_ne; [done|done|congruence|done|congruence].
    - by right. }
  destruct (Z.ltb_spec i2 0); [lia|]. left. exists i0, i1, i2.
  assert (i1 ≠ i2) as H12 by (intros ->; congruence).
  assert (i0 ≠ i2) as H02 by (intros ->; congruence).
  split_and!; [done..| |done]. cbn in Hi2. by rewrite !at_insert_ne in Hi2.
Qed.

(** ** The invariant *)

(** The request and the descriptors of a call that has been submitted. *)
Definition waits (t : vtask) : option (vreq * (Z * Z * Z)) :=
  match t with TAsleep _ (KWait r idx) | TReady (KWait r idx) => Some (r, idx) | _ => None end.
Definition own (ts : list vtask) (me : nat) (r : vreq) (i0 i1 i2 : Z) : Prop :=
  ∃ t, ts !! me = Some t ∧ waits t = Some (r, (i0, i1, i2)).

(** The chain of a submitted request. *)
Record laid (d : VirtioDisk) (r : vreq) (i0 i1 i2 : Z) : Prop := {
  ld_ne : i0 ≠ i1 ∧ i0 ≠ i2 ∧ i1 ≠ i2;
  ld_free : ∀ i, i ∈ [i0; i1; i2] → at_ (free d) i = Some false;
  ld_d0 : at_ (desc d) i0 = Some (VDesc (POp i0) 16 VRING_DESC_F_NEXT i1);
  ld_d1 : at_ (desc d) i1 = Some (VDesc (PBuf (q_buf r)) SECTOR
    (Z.lor (if q_write r then 0 else VRING_DESC_F_WRITE) VRING_DESC_F_NEXT) i2);
  ld_d2 : at_ (desc d) i2 = Some (VDesc (PStatus i0) 1 VRING_DESC_F_WRITE 0);
  ld_op : at_ (ops d) i0 = Some (BlkReq (if q_write r then VIRTIO_BLK_T_OUT else VIRTIO_BLK_T_IN) 0 (q_sector r));
}.

(** A request is on its way to or in the device, or served and in the used
    ring, or seen by the interrupt handler. *)
Definition phase_ok (d : VirtioDisk) (aq pd : list Z) (uq : list (Z * Z)) (r : vreq) (i0 : Z) : Prop :=
  (at_ (info d) i0 = Some (VInfo (q_buf r) false 0xff) ∧ i0 ∈ aq ++ pd) ∨
  (at_ (info d) i0 = Some (VInfo (q_buf r) false 0) ∧ i0 ∈ uq.*1) ∨
  (at_ (info d) i0 = Some (VInfo (q_buf r) true 0) ∧ i0 ∉ aq ++ pd ++ uq.*1).

(** Why a task is asleep. *)
Definition asleep_ok (d : VirtioDisk) (c : vchan) (k : vkont) : Prop :=
  match c, k with
  | ChFree, KAlloc _ => (n_free (free d) < 3)%nat
  | ChBuf a, KWait r (i0, _, _) => a = q_buf r ∧ ∃ st, at_ (info d) i0 = Some (VInfo a false st)
  | _, _ => False
  end.

Record inv (d : VirtioDisk) (ts : list vtask) (sn : Z) (pd aq : list Z) (uq : list (Z * Z)) : Prop := {
  iv_len : length (desc d) = Z.to_nat NUM ∧ length (free d) = Z.to_nat NUM ∧
           length (info d) = Z.to_nat NUM ∧ length (ops d) = Z.to_nat NUM;
  iv_aq : ring (avail_ring d) sn (avail_idx d) aq;
  iv_uq : ring (used_ring d) (used_idx d) (used_ring_idx d) uq;
  iv_laid : ∀ me r i0 i1 i2, own ts me r i0 i1 i2 → laid d r i0 i1 i2;
  iv_excl : ∀ me me' r r' i0 i1 i2 j0 j1 j2 i, own ts me r i0 i1 i2 → own ts me' r' j0 j1 j2 →
    i ∈ [i0; i1; i2] → i ∈ [j0; j1; j2] → me = me';
  iv_busy : ∀ i, at_ (free d) i = Some false → ∃ me r i0 i1 i2, own ts me r i0 i1 i2 ∧ i ∈ [i0; i1; i2];
  iv_queue : NoDup (aq ++ pd ++ uq.*1);
  iv_heads : ∀ h, h ∈ aq ++ pd ++ uq.*1 → ∃ me r i1 i2, own ts me r h i1 i2;
  iv_phase : ∀ me r i0 i1 i2, own ts me r i0 i1 i2 → phase_ok d aq pd uq r i0;
  iv_sleep : ∀ me c k, ts !! me = Some (TAsleep c k) → asleep_ok d c k;
}.
Definition Inv (s : vst) : Prop := ∃ aq uq, inv (vd s) (tasks s) (seen s) (pending s) aq uq.

Lemma waits_wake c t : waits (wake_one c t) = waits t.
Proof. destruct t as [|c' k|k]; cbn; try done. by destruct (decide (c' = c)). Qed.
Lemma own_wake c ts me r i0 i1 i2 : own (wake_one c <$> ts) me r i0 i1 i2 ↔ own ts me r i0 i1 i2.
Proof.
  unfold own. split.
  - intros (t & (t' & -> & Ht)%list_lookup_fmap_Some & Hw). rewrite waits_wake in Hw. by exists t'.
  - intros (t & Ht & Hw). exists (wake_one c t). rewrite list_lookup_fmap, Ht, waits_wake. done.
Qed.
Lemma own_alter t' ts me me' r i0 i1 i2 :
  own (alter (λ _, t') me ts) me' r i0 i1 i2 ↔
  (me' = me ∧ (me < length ts)%nat ∧ waits t' = Some (r, (i0, i1, i2))) ∨ (me' ≠ me ∧ own ts me' r i0 i1 i2).
Proof.
  unfold own. rewrite list_lookup_alter. destruct (decide (me = me')) as [->|Hne].
  - split.
    + intros (t & Ht & Hw). destruct (ts !! me') eqn:E; [|done]. injection Ht as <-.
      left. split_and!; [done|by eapply lookup_lt_Some|done].
    + intros [(_ & Hl & Hw)|[? _]]; [|done]. destruct (lookup_lt_is_Some_2 _ _ Hl) as [t ->]. by exists t'.
  - split; [intros H; by right|]. intros [(-> & _)|[_ H]]; [done|exact H].
Qed.
Lemma own_det ts me r r' i0 i1 i2 j0 j1 j2 :
  own ts me r i0 i1 i2 → own ts me r' j0 j1 j2 → r = r' ∧ i0 = j0 ∧ i1 = j1 ∧ i2 = j2.
Proof. intros (t & Ht & Hw) (t' & Ht' & Hw'). by simplify_eq. Qed.

Lemma inv_wake d ts sn pd aq uq c :
  inv d ts sn pd aq uq → inv d (wake_one c <$> ts) sn pd aq uq.
Proof.
  intros []. split; try done.
  - intros * H%own_wake. eauto.
  - intros * H%own_wake H'%own_wake. eauto.
  - intros i (me & r & i0 & i1 & i2 & H & ?)%iv_busy0. exists me, r, i0, i1, i2. by rewrite own_wake.
  - intros h (me & r & i1 & i2 & H)%iv_heads0. exists me, r, i1, i2. by rewrite own_wake.
  - intros * H%own_wake. eauto.
  - intros me c' k (t & Ht & Hl)%list_lookup_fmap_Some. apply (iv_sleep0 me).
    destruct t as [|c2 k2|k2]; cbn in Ht; try done. destruct (decide (c2 = c)); by simplify_eq.
Qed.

(** Replacing the state of a task that keeps what it owns. *)
Lemma inv_retask d ts sn pd aq uq me t t' :
  inv d ts sn pd aq uq → ts !! me = Some t → waits t' = waits t →
  (∀ c k, t' = TAsleep c k → asleep_ok d c k) → inv d (alter (λ _, t') me ts) sn pd aq uq.
Proof.
  intros Hi Ht Hw Hs.
  assert (∀ me' r i0 i1 i2, own (alter (λ _, t') me ts) me' r i0 i1 i2 ↔ own ts me' r i0 i1 i2) as Hown.
  { intros. rewrite own_alter. split.
    - intros [(-> & _ & H)|[_ H]]; [exists t; by rewrite <- Hw|done].
    - intros H. destruct (decide (me' = me)) as [->|]; [left|by right].
      destruct H as (t1 & Ht1 & Hw1). simplify_eq. split_and!; [done|by eapply lookup_lt_Some|by rewrite Hw]. }
  destruct Hi. split; try done.
  - intros * H%Hown. eauto.
  - intros * H%Hown H'%Hown. eauto.
  - intros i (me' & r & i0 & i1 & i2 & H & ?)%iv_busy0. exists me', r, i0, i1, i2. by rewrite Hown.
  - intros h (me' & r & i1 & i2 & H)%iv_heads0. exists me', r, i1, i2. by rewrite Hown.
  - intros * H%Hown. eauto.
  - intros me' c k. rewrite list_lookup_alter. destruct (decide (me = me')) as [->|]; [|apply iv_sleep0].
    rewrite Ht. intros [= ->]. by apply Hs.
Qed.

(** Clearing descriptors nobody owns. *)
Lemma inv_desc d ts sn pd aq uq de :
  inv d ts sn pd aq uq → length de = length (desc d) →
  (∀ j, at_ (free d) j = Some false → at_ de j = at_ (desc d) j) → inv (with_desc de d) ts sn pd aq uq.
Proof.
  intros [] Hl Hag. split; try done.
  - cbn. rewrite Hl. done.
  - intros * H. destruct (iv_laid0 _ _ _ _ _ H) as [Hne Hf H0 H1 H2 Hop].
    split; cbn [with_desc desc free ops]; try done; rewrite Hag; try done; apply Hf; set_solver.
Qed.

Lemma queue_room d ts sn pd aq uq i :
  inv d ts sn pd aq uq → at_ (free d) i = Some true →
  (i ∉ aq ++ pd ++ uq.*1) ∧ Z.of_nat (length (aq ++ pd ++ uq.*1)) < NUM.
Proof.
  intros Hi Hf. destruct Hi. destruct iv_len0 as (_ & Hl & _).
  assert (i ∉ aq ++ pd ++ uq.*1) as Hni.
  { intros (me & r & i1 & i2 & H)%iv_heads0. destruct (iv_laid0 _ _ _ _ _ H) as [_ Hfr _ _ _ _].
    specialize (Hfr i ltac:(set_solver)). congruence. }
  split; [done|].
  assert (length (i :: aq ++ pd ++ uq.*1) ≤ length (seqZ 0 8))%nat as Hle; [|cbn [length] in Hle; rewrite length_seqZ in Hle; unfold NUM; lia].
  apply submseteq_length, NoDup_submseteq; [by constructor|]. intros h Hh. apply elem_of_seqZ.
  assert (∃ b, at_ (free d) h = Some b) as (b & Hb%at_range); [|rewrite Hl in Hb; unfold NUM in Hb; lia].
  apply elem_of_cons in Hh as [->|Hh]; [by exists true|].
  apply iv_heads0 in Hh as (me & r & i1 & i2 & H). exists false.
  destruct (iv_laid0 _ _ _ _ _ H) as [_ Hfr _ _ _ _]. apply Hfr. set_solver.
Qed.

(** ** Submitting a request *)

Definition after_submit (r : vreq) (i0 i1 i2 : Z) (d : VirtioDisk) : VirtioDisk :=
  VD (<[Z.to_nat i2 := VDesc (PStatus i0) 1 VRING_DESC_F_WRITE 0]>
        (<[Z.to_nat i1 := VDesc (PBuf (q_buf r)) SECTOR
            (Z.lor (if q_write r then 0 else VRING_DESC_F_WRITE) VRING_DESC_F_NEXT) i2]>
          (<[Z.to_nat i0 := VDesc (POp i0) 16 VRING_DESC_F_NEXT i1]> (desc d))))
    (u16 (avail_idx d + 1)) (<[Z.to_nat (avail_idx d mod NUM) := i0]> (avail_ring d))
    (used_ring_idx d) (used_ring d)
    (<[Z.to_nat i2 := false]> (<[Z.to_nat i1 := false]> (<[Z.to_nat i0 := false]> (free d))))
    (used_idx d)
    (<[Z.to_nat i0 := VInfo (q_buf r) false 0xff]> (info d))
    (<[Z.to_nat i0 := BlkReq (if q_write r then VIRTIO_BLK_T_OUT else VIRTIO_BLK_T_IN) 0 (q_sector r)]> (ops d)).

Ltac put_step :=
  match goal with |- (put_at ?f ?w ?i ?x ≫= ?k) ?s = _ =>
    let H := fresh in
    assert (0 ≤ i < Z.of_nat (length (f (vd s)))) as H;
    [cbn; rewrite ?length_insert; lia|rewrite (M_bind_Done k _ s _ _ (put_at_ok f w i x s H)); clear H]
  end.

Lemma submit_ok r i0 i1 i2 s :
  length (desc (vd s)) = Z.to_nat NUM → length (info (vd s)) = Z.to_nat NUM → length (ops (vd s)) = Z.to_nat NUM →
  length (avail_ring (vd s)) = Z.to_nat NUM →
  0 ≤ i0 < NUM → 0 ≤ i1 < NUM → 0 ≤ i2 < NUM →
  submit r (i0, i1, i2) (take_desc i2 (take_desc i1 (take_desc i0 s))) =
    Done (tt, VS (after_submit r i0 i1 i2 (vd s)) (tasks s) (vmem s)
      (regs s ++ [(VIRTIO_MMIO_QUEUE_NOTIFY, 0)]) (disk s) (seen s) (pending s)).
Proof.
  intros Hd Hi Ho Ha H0 H1 H2. destruct s as [[de ai ar ui ur fr ux inf op] ts m rg dk sn pd].
  cbn in Hd, Hi, Ho, Ha. unfold submit, put_op, put_desc, put_info, take_desc, set_vd.
  cbn [vd tasks vmem regs disk seen pending with_free free desc info ops avail_idx avail_ring used_ring_idx used_ring used_idx].
  assert (Z.of_nat (Z.to_nat NUM) = NUM) as HN by done.
  assert (0 ≤ ai mod NUM < NUM) by (apply Z.mod_pos_bound; done).
  do 5 put_step.
  match goal with |- (gets ?g ≫= ?k) ?s = _ => change ((gets g ≫= k) s) with (k (g s) s); cbv beta end.
  put_step. reflexivity.
Qed.

Lemma alter_lookup_own (ts : list vtask) (me : nat) t t' me' u :
  ts !! me = Some t → alter (λ _, t') me ts !! me' = Some u → (me' = me ∧ u = t') ∨ (me' ≠ me ∧ ts !! me' = Some u).
Proof.
  intros Ht. rewrite list_lookup_alter. destruct (decide (me = me')) as [->|]; [|by right].
  rewrite Ht. intros [= <-]. by left.
Qed.

Lemma inv_submit d ts sn pd aq uq me t r i0 i1 i2 :
  inv d ts sn pd aq uq → ts !! me = Some t → waits t = None →
  i0 ≠ i1 → i0 ≠ i2 → i1 ≠ i2 →
  at_ (free d) i0 = Some true → at_ (free d) i1 = Some true → at_ (free d) i2 = Some true →
  inv (after_submit r i0 i1 i2 d)
    (alter (λ _, TAsleep (ChBuf (q_buf r)) (KWait r (i0, i1, i2))) me ts) sn pd (aq ++ [i0]) uq.
Proof.
  intros Hi Ht Hw H01 H02 H12 F0 F1 F2. set (t' := TAsleep _ _).
  destruct (queue_room _ _ _ _ _ _ i0 Hi F0) as [Hni Hroom].
  pose proof (at_range _ _ _ F0) as R0. pose proof (at_range _ _ _ F1) as R1. pose proof (at_range _ _ _ F2) as R2.
  destruct Hi as [(Ld & Lf & Li & Lo) Haq Huq Hlaid Hexcl Hbusy Hq Hheads Hphase Hsleep].
  rewrite Lf in R0, R1, R2.
  (* the descriptors of the other calls are not touched *)
  assert (∀ me' r' j0 j1 j2 i, own ts me' r' j0 j1 j2 → i ∈ [j0; j1; j2] → i ≠ i0 ∧ i ≠ i1 ∧ i ≠ i2) as Hother.
  { intros * Ho Hin. apply Hlaid in Ho. apply Ho in Hin. split_and!; intros ->; congruence. }
  assert (∀ me' r' j0 j1 j2, own (alter (λ _, t') me ts) me' r' j0 j1 j2 →
    (me' = me ∧ r' = r ∧ j0 = i0 ∧ j1 = i1 ∧ j2 = i2) ∨ own ts me' r' j0 j1 j2) as Hown.
  { intros * [(-> & _ & [= -> -> -> ->])|[_ H]]%own_alter; [left; done|by right]. }
  assert (own (alter (λ _, t') me ts) me r i0 i1 i2) as Hme.
  { apply own_alter. left. split_and!; [done|by eapply lookup_lt_Some|done]. }
  assert (∀ me' r' j0 j1 j2, own ts me' r' j0 j1 j2 → own (alter (λ _, t') me ts) me' r' j0 j1 j2) as Hkeep.
  { intros * Ho. apply own_alter. right. split; [|done]. intros ->. destruct Ho as (t1 & ? & ?). congruence. }
  split; cbn [after_submit desc avail_idx avail_ring used_ring_idx used_ring free used_idx info ops];
    rewrite ?length_insert; try done.
  - apply ring_push; [done|]. rewrite length_app in Hroom. lia.
  - intros me' r' j0 j1 j2 [(-> & -> & -> & -> & ->)|Ho]%Hown.
    + split; cbn [after_submit free desc ops]; [done|..].
      * intros i Hin. destruct (decide (i = i2)) as [->|]; [by rewrite at_insert by (rewrite !length_insert; lia)|].
        rewrite at_insert_ne by (done || lia).
        destruct (decide (i = i1)) as [->|]; [by rewrite at_insert by (rewrite !length_insert; lia)|].
        rewrite at_insert_ne by (done || lia).
        assert (i = i0) as -> by set_solver. by rewrite at_insert by lia.
      * rewrite !at_insert_ne by (done || lia). by rewrite at_insert by lia.
      * rewrite at_insert_ne by (done || lia). by rewrite at_insert by (rewrite !length_insert; lia).
      * by rewrite at_insert by (rewrite !length_insert; lia).
      * by rewrite at_insert by lia.
    + pose proof (Hother _ _ _ _ _ j0 Ho ltac:(set_solver)) as (? & ? & ?).
      pose proof (Hother _ _ _ _ _ j1 Ho ltac:(set_solver)) as (? & ? & ?).
      pose proof (Hother _ _ _ _ _ j2 Ho ltac:(set_solver)) as (? & ? & ?).
      destruct (Hlaid _ _ _ _ _ Ho) as [Hne Hfr D0 D1 D2 Hop].
      split; cbn [after_submit free desc ops]; [done|..]; try (by rewrite !at_insert_ne by (done || lia)).
      intros i Hin. destruct (Hother _ _ _ _ _ i Ho Hin) as (? & ? & ?).
      rewrite !at_insert_ne by (done || lia). by apply Hfr.
  - intros me1 me2 r1 r2 i0' i1' i2' j0 j1 j2 i [(-> & -> & -> & -> & ->)|O1]%Hown [(-> & -> & -> & -> & ->)|O2]%Hown I1 I2;
      [done|..|by eapply Hexcl].
    + destruct (Hother _ _ _ _ _ i O2 I2) as (? & ? & ?). set_solver.
    + destruct (Hother _ _ _ _ _ i O1 I1) as (? & ? & ?). set_solver.
  - intros i H.
    apply at_insert_Some in H as [[<- _]|[_ H]]; [exists me, r, i0, i1, i2; split; [done|set_solver]| |lia].
    apply at_insert_Some in H as [[<- _]|[_ H]]; [exists me, r, i0, i1, i2; split; [done|set_solver]| |lia].
    apply at_insert_Some in H as [[<- _]|[_ H]]; [exists me, r, i0, i1, i2; split; [done|set_solver]| |lia].
    destruct (Hbusy i H) as (me' & r' & j0 & j1 & j2 & Ho & ?). exists me', r', j0, j1, j2. auto.
  - rewrite <- app_assoc. apply NoDup_app in Hq as (N1 & N2 & N3). rewrite !elem_of_app in Hni.
    apply NoDup_app. split; [done|]. split.
    + intros h Hh. rewrite !elem_of_app, list_elem_of_singleton. intros [->|H]; [tauto|].
      apply (N2 h Hh). by rewrite elem_of_app.
    + cbn. apply NoDup_cons. split; [by rewrite elem_of_app; tauto|done].
  - intros h. rewrite <- app_assoc. rewrite !elem_of_app, list_elem_of_singleton. intros Hh.
    destruct (decide (h = i0)) as [->|Hne]; [by exists me, r, i1, i2|].
    destruct (Hheads h) as (me' & r' & j1 & j2 & Ho); [rewrite !elem_of_app; tauto|].
    exists me', r', j1, j2. auto.
  - intros me' r' j0 j1 j2 [(-> & -> & -> & -> & ->)|Ho]%Hown; unfold phase_ok; cbn [after_submit info].
    + left. rewrite at_insert by lia. split; [done|]. set_solver.
    + pose proof (Hother _ _ _ _ _ j0 Ho ltac:(set_solver)) as (? & ? & ?).
      rewrite at_insert_ne by (done || lia).
      destruct (Hphase _ _ _ _ _ Ho) as [[E H']|[[E H']|[E H']]]; [left|right; left|right; right];
        (split; [done|]); set_solver.
  - intros me' c k H. apply (alter_lookup_own _ _ t) in H as [[-> H]|[Hne H]]; [| |done].
    + unfold t' in H. injection H as -> ->. cbn [after_submit asleep_ok info]. split; [done|]. eexists.
      by rewrite at_insert by lia.
    + pose proof (Hsleep _ _ _ H) as Hs. destruct c as [|a], k as [r'|r' [[j0 j1] j2]]; cbn [after_submit asleep_ok info free] in *; try done.
      * assert (n_free (free d) = S (n_free (<[Z.to_nat i0 := false]> (free d)))) as N0 by (by apply n_free_take).
        assert (at_ (<[Z.to_nat i0 := false]> (free d)) i1 = Some true) as F1' by (by rewrite at_insert_ne by (done || lia)).
        apply n_free_take in F1'.
        assert (at_ (<[Z.to_nat i1 := false]> (<[Z.to_nat i0 := false]> (free d))) i2 = Some true) as F2'
          by (by rewrite !at_insert_ne by (done || lia)).
        apply n_free_take in F2'. lia.
      * assert (own ts me' r' j0 j1 j2) as Ho by (by eexists).
        pose proof (Hother _ _ _ _ _ j0 Ho ltac:(set_solver)) as (? & ? & ?).
        by rewrite at_insert_ne by (done || lia).
Qed.
