(* ===== verification/VirtioRefine.v ===== *)
(** * The virtio driver refines the abstract block device *)
From S2P Require Import Prelude Mem KAlloc Buf Virtio VirtioProps.

(** ** The abstraction *)

Lemma phase_of_wake d c t : phase_of d (wake_one c t) = phase_of d t.
Proof. destruct t as [|c' k|k]; cbn; try done. by destruct (decide (c' = c)). Qed.
Lemma phase_of_ext d d' t :
  (∀ r i0 i1 i2, waits t = Some (r, (i0, i1, i2)) → is_served d' i0 = is_served d i0) → phase_of d' t = phase_of d t.
Proof.
  intros H. destruct t as [|c [r|r [[i0 i1] i2]]|[r|r [[i0 i1] i2]]]; try done; cbn; by rewrite (H r i0 i1 i2).
Qed.

(** The tasks of [abs] after one task changed and others were woken. *)
Lemma abs_tasks d d' ts ts' me t' :
  (me < length ts)%nat →
  (∀ i u, ts !! i = Some u → i ≠ me → ∃ u', ts' !! i = Some u' ∧ phase_of d' u' = phase_of d u) →
  ts' !! me = Some t' → length ts' = length ts →
  phase_of d' <$> ts' = <[me := phase_of d' t']> (phase_of d <$> ts).
Proof.
  intros Hl H Hme Hlen. apply list_eq. intros i. destruct (decide (i = me)) as [->|Hne].
  - rewrite list_lookup_insert_eq by (by rewrite length_fmap). by rewrite list_lookup_fmap, Hme.
  - rewrite list_lookup_insert_ne, !list_lookup_fmap by done. destruct (ts !! i) as [u|] eqn:E.
    + destruct (H i u E Hne) as (u' & -> & Hp). cbn. by rewrite Hp.
    + apply lookup_ge_None in E. rewrite (proj2 (lookup_ge_None ts' i)) by lia. done.
Qed.
Lemma abs_tasks_same d d' ts ts' :
  (∀ i u, ts !! i = Some u → ∃ u', ts' !! i = Some u' ∧ phase_of d' u' = phase_of d u) →
  length ts' = length ts → phase_of d' <$> ts' = phase_of d <$> ts.
Proof.
  intros H Hlen. apply list_eq. intros i. rewrite !list_lookup_fmap. destruct (ts !! i) as [u|] eqn:E.
  - destruct (H i u E) as (u' & -> & Hp). cbn. by rewrite Hp.
  - apply lookup_ge_None in E. rewrite (proj2 (lookup_ge_None ts' i)) by lia. done.
Qed.
Lemma alter_at (me : nat) (ts : list vtask) t t' : ts !! me = Some t → alter (λ _, t') me ts !! me = Some t'.
Proof. intros H. rewrite list_lookup_alter, decide_True by done. by rewrite H. Qed.
Lemma alter_other (me i : nat) (ts : list vtask) t' : i ≠ me → alter (λ _, t') me ts !! i = ts !! i.
Proof. intros H. by rewrite list_lookup_alter, decide_False. Qed.
Lemma wake_at c (ts : list vtask) (i : nat) t : ts !! i = Some t → (wake_one c <$> ts) !! i = Some (wake_one c t).
Proof. intros H. by rewrite list_lookup_fmap, H. Qed.
Lemma alter_twice (me : nat) (ts : list vtask) t t' : alter (λ _, t') me (alter (λ _, t) me ts) = alter (λ _, t') me ts.
Proof.
  revert me. induction ts as [|u ts IH]; intros [|me]; cbn; [done..|by rewrite IH].
Qed.

Definition with_phase (me : nat) (p : phase) (a : ast) : ast := AS (<[me := p]> (a_tasks a)) (a_mem a) (a_disk a).

(** ** Calls *)

Lemma VirtioRw_ok me r s t :
  Inv s → tasks s !! me = Some t → waits t = None →
  ∃ s', VirtioRw me r s = Done (VSlept, s') ∧ Inv s' ∧ abs s' = with_phase me (APending r) (abs s).
Proof.
  intros (aq & uq & Hi) Ht Hw. pose proof (iv_len _ _ _ _ _ _ Hi) as (Ld & Lf & Li & Lo).
  assert (me < length (tasks s))%nat as Hlt by (by eapply lookup_lt_Some). unfold VirtioRw.
  destruct (alloc3_desc_ok s Ld Lf) as [(i0 & i1 & i2 & H01 & H02 & H12 & F0 & F1 & F2 & E)|(Hn & s' & E & Hg)]; step E.
  - pose proof (at_range _ _ _ F0). pose proof (at_range _ _ _ F1). pose proof (at_range _ _ _ F2).
    assert (0 ≤ i0 < NUM ∧ 0 ≤ i1 < NUM ∧ 0 ≤ i2 < NUM) as (? & ? & ?) by (rewrite Lf in *; lia).
    step (submit_ok r i0 i1 i2 s Ld Li Lo (rg_len _ _ _ _ (iv_aq _ _ _ _ _ _ Hi)) ltac:(done) ltac:(done) ltac:(done)).
    set (d' := after_submit r i0 i1 i2 (vd s)).
    assert (at_ (info d') i0 = Some (VInfo (q_buf r) false 0xff)) as Hin.
    { unfold d'. cbn [after_submit info]. rewrite at_insert by (rewrite Li; done). done. }
    unfold wait_finish. erewrite M_bind_Done by (by apply get_at_ok). cbn [i_finish].
    unfold sleep, set_tasks, mbind, M_bind, modify, mret, M_ret. eexists. split; [done|].
    pose proof (inv_submit _ _ _ _ _ _ me t r i0 i1 i2 Hi Ht Hw H01 H02 H12 F0 F1 F2) as Hi'.
    split; [by exists (aq ++ [i0]), uq|].
    unfold abs, with_phase. cbn [vd tasks vmem disk a_tasks a_mem a_disk]. f_equal.
    replace (APending r) with (phase_of d' (TAsleep (ChBuf (q_buf r)) (KWait r (i0, i1, i2))))
      by (cbn; unfold is_served; by rewrite Hin).
    eapply abs_tasks; [done| |by eapply alter_at|by rewrite length_alter].
    intros i u Hu Hne. exists u. split; [by rewrite alter_other|]. apply phase_of_ext. intros r' j0 j1 j2 Hwu.
    assert (own (tasks s) i r' j0 j1 j2) as Ho by (by exists u).
    apply (iv_laid _ _ _ _ _ _ Hi) in Ho. apply ld_free with (i := j0) in Ho; [|set_solver].
    unfold is_served, d'. cbn [after_submit info]. rewrite at_insert_ne; [done|lia|]. intros <-. congruence.
  - destruct Hg as (de & ts & -> & Hlen & Hag & Hts). unfold sleep, set_tasks, mbind, M_bind, modify, mret, M_ret.
    eexists. split; [done|]. cbn [vd tasks vmem regs disk seen pending].
    assert (∃ u, ts !! me = Some u ∧ waits u = None) as (u & Hu & Hwu).
    { destruct Hts as [-> | ->]; [by exists t|]. exists (wake_one ChFree t). split; [by apply wake_at|].
      by rewrite waits_wake. }
    split.
    + exists aq, uq. cbn [vd tasks seen pending]. eapply inv_retask; [|done|by rewrite Hwu|].
      * apply inv_desc; [|done|done]. destruct Hts as [-> | ->]; [done|by apply inv_wake].
      * intros c k [= <- <-]. exact Hn.
    + unfold abs, with_phase. cbn [vd tasks vmem disk a_tasks a_mem a_disk]. f_equal.
      eapply (abs_tasks _ (with_desc de (vd s)) _ _ me (TAsleep ChFree (KAlloc r))); [done| |by eapply alter_at|].
      * intros i v Hv Hne. rewrite alter_other by done.
        destruct Hts as [-> | ->]; [by exists v|]. eexists. split; [by apply wake_at|]. by rewrite phase_of_wake.
      * rewrite length_alter. destruct Hts as [-> | ->]; by rewrite ?length_fmap.
Qed.

Lemma same_abs (s : vst) me r : a_tasks (abs s) !! me = Some (APending r) → with_phase me (APending r) (abs s) = abs s.
Proof. intros H. unfold with_phase. rewrite list_insert_id by done. by destruct (abs s). Qed.
Lemma abs_at s me t : tasks s !! me = Some t → a_tasks (abs s) !! me = Some (phase_of (vd s) t).
Proof. intros H. cbn. by rewrite list_lookup_fmap, H. Qed.
Lemma with_phase_twice me p p' a : with_phase me p (with_phase me p' a) = with_phase me p a.
Proof. unfold with_phase. cbn. by rewrite list_insert_insert_eq. Qed.

Lemma go_on_alloc me r s :
  Inv s → tasks s !! me = Some (TReady (KAlloc r)) →
  ∃ s', go_on me (KAlloc r) s = Done (VSlept, s') ∧ Inv s' ∧ abs s' = abs s.
Proof.
  intros (aq & uq & Hi) Ht. unfold go_on, set_tasks.
  set (s1 := VS (vd s) (alter (λ _, TIdle) me (tasks s)) (vmem s) (regs s) (disk s) (seen s) (pending s)).
  assert (Inv s1) as Hs1 by (exists aq, uq; by eapply inv_retask).
  destruct (VirtioRw_ok me r s1 TIdle Hs1 ltac:(by eapply alter_at) eq_refl) as (s' & E & Hs' & Ha).
  exists s'. split; [by rewrite (M_bind_Done _ _ _ tt s1 eq_refl)|]. split; [done|].
  rewrite Ha. assert (abs s1 = with_phase me AIdle (abs s)) as ->.
  { unfold abs, with_phase. cbn. f_equal.
    apply (abs_tasks _ _ _ _ me TIdle); [by eapply lookup_lt_Some| |by eapply alter_at|by rewrite length_alter].
    intros i u Hu Hne. exists u. by rewrite alter_other. }
  rewrite with_phase_twice. apply same_abs. by rewrite (abs_at _ _ _ Ht).
Qed.

(** *** The end of a request *)

Definition after_finish (i0 i1 i2 : Z) (st : Z) (d : VirtioDisk) : VirtioDisk :=
  VD (<[Z.to_nat i2 := VDesc PNull 0 0 0]> (<[Z.to_nat i1 := VDesc PNull 0 0 0]>
       (<[Z.to_nat i0 := VDesc PNull 0 0 0]> (desc d))))
    (avail_idx d) (avail_ring d) (used_ring_idx d) (used_ring d)
    (<[Z.to_nat i2 := true]> (<[Z.to_nat i1 := true]> (<[Z.to_nat i0 := true]> (free d))))
    (used_idx d) (<[Z.to_nat i0 := VInfo 0 true st]> (info d)) (ops d).

Lemma free_chain_ok r i0 i1 i2 s n :
  length (desc (vd s)) = Z.to_nat NUM → length (free (vd s)) = Z.to_nat NUM → laid (vd s) r i0 i1 i2 →
  free_chain (3 + n) i0 s = Done (tt, give_desc i2 (give_desc i1 (give_desc i0 s))).
Proof.
  intros Ld Lf [(H01 & H02 & H12) Hf D0 D1 D2 _].
  pose proof (at_range _ _ _ D0). pose proof (at_range _ _ _ D1). pose proof (at_range _ _ _ D2).
  cbn [free_chain Nat.add].
  step (get_at_ok desc i0 _ s D0). step (free_desc_ok i0 s Ld Lf (Hf i0 ltac:(set_solver))).
  cbn [d_flags d_next]. change (Z.land VRING_DESC_F_NEXT VRING_DESC_F_NEXT =? 0) with false. cbv iota.
  set (s1 := give_desc i0 s).
  assert (at_ (desc (vd s1)) i1 = Some _) as D1' by (cbn; rewrite at_insert_ne by (done || lia); exact D1).
  assert (at_ (free (vd s1)) i1 = Some false) as F1' by (cbn; rewrite at_insert_ne by (done || lia); apply Hf; set_solver).
  assert (length (desc (vd s1)) = Z.to_nat NUM) as Ld1 by (cbn; by rewrite length_insert).
  assert (length (free (vd s1)) = Z.to_nat NUM) as Lf1 by (cbn; by rewrite length_insert).
  step (get_at_ok desc i1 _ s1 D1'). step (free_desc_ok i1 s1 Ld1 Lf1 F1').
  cbn [d_flags d_next].
  assert ((Z.land (Z.lor (if q_write r then 0 else VRING_DESC_F_WRITE) VRING_DESC_F_NEXT) VRING_DESC_F_NEXT =? 0) = false) as ->
    by by destruct (q_write r).
  set (s2 := give_desc i1 s1).
  assert (at_ (desc (vd s2)) i2 = Some _) as D2' by (cbn; rewrite !at_insert_ne by (done || lia); exact D2).
  assert (at_ (free (vd s2)) i2 = Some false) as F2' by (cbn; rewrite !at_insert_ne by (done || lia); apply Hf; set_solver).
  assert (length (desc (vd s2)) = Z.to_nat NUM) as Ld2 by (cbn; by rewrite !length_insert).
  assert (length (free (vd s2)) = Z.to_nat NUM) as Lf2 by (cbn; by rewrite !length_insert).
  step (get_at_ok desc i2 _ s2 D2'). step (free_desc_ok i2 s2 Ld2 Lf2 F2'). reflexivity.
Qed.

Lemma no_free_sleeper (ts : list vtask) (me : nat) k : (wake_one ChFree <$> ts) !! me ≠ Some (TAsleep ChFree k).
Proof.
  rewrite list_lookup_fmap. destruct (ts !! me) as [[|c k'|k']|]; cbn; try done.
  destruct (decide (c = ChFree)) as [->|]; [done|]. by intros [= -> ->].
Qed.

Lemma inv_finish d ts sn pd aq uq me r i0 i1 i2 st :
  inv d ts sn pd aq uq → ts !! me = Some (TReady (KWait r (i0, i1, i2))) →
  i0 ∉ (aq ++ pd ++ uq.*1) →
  inv (after_finish i0 i1 i2 st d) (wake_one ChFree <$> alter (λ _, TIdle) me ts) sn pd aq uq.
Proof.
  intros [(Ld & Lf & Li & Lo) Haq Huq Hlaid Hexcl Hbusy Hq Hheads Hphase Hsleep] Ht Hni.
  assert (own ts me r i0 i1 i2) as Hme by (by eexists).
  pose proof (Hlaid _ _ _ _ _ Hme) as [(H01 & H02 & H12) Hf D0 D1 D2 _].
  pose proof (at_range _ _ _ D0) as R0. pose proof (at_range _ _ _ D1) as R1. pose proof (at_range _ _ _ D2) as R2.
  rewrite Ld in R0, R1, R2.
  set (ts' := wake_one ChFree <$> _).
  assert (∀ me' r' j0 j1 j2, own ts' me' r' j0 j1 j2 → me' ≠ me ∧ own ts me' r' j0 j1 j2) as Hown.
  { intros * [(_ & _ & H)|H]%own_wake%own_alter; done. }
  assert (∀ me' r' j0 j1 j2, own ts me' r' j0 j1 j2 → me' ≠ me → own ts' me' r' j0 j1 j2) as Hkeep.
  { intros * H Hne. apply own_wake, own_alter. by right. }
  assert (∀ me' r' j0 j1 j2 i, me' ≠ me → own ts me' r' j0 j1 j2 → i ∈ [j0; j1; j2] → i ≠ i0 ∧ i ≠ i1 ∧ i ≠ i2) as Hother.
  { intros * Hne Ho Hin. split_and!; intros ->; apply Hne; eapply Hexcl; try done; set_solver. }
  split; cbn [after_finish desc avail_idx avail_ring used_ring_idx used_ring free used_idx info ops];
    rewrite ?length_insert; try done.
  - intros me' r' j0 j1 j2 [Hne Ho]%Hown. pose proof (Hlaid _ _ _ _ _ Ho) as [Hne' Hfr E0 E1 E2 Hop].
    pose proof (Hother _ _ _ _ _ j0 Hne Ho ltac:(set_solver)) as (? & ? & ?).
    pose proof (Hother _ _ _ _ _ j1 Hne Ho ltac:(set_solver)) as (? & ? & ?).
    pose proof (Hother _ _ _ _ _ j2 Hne Ho ltac:(set_solver)) as (? & ? & ?).
    split; cbn [after_finish free desc ops]; try done; try (by rewrite !at_insert_ne by (done || lia)).
    intros i Hin. pose proof (Hother _ _ _ _ _ i Hne Ho Hin) as (? & ? & ?).
    rewrite !at_insert_ne by (done || lia). by apply Hfr.
  - intros * [? O1]%Hown [? O2]%Hown. by eapply Hexcl.
  - intros i H.
    apply at_insert_Some in H as [[<- ?]|[N2 H]]; [done| |lia].
    apply at_insert_Some in H as [[<- ?]|[N1 H]]; [done| |lia].
    apply at_insert_Some in H as [[<- ?]|[N0 H]]; [done| |lia].
    destruct (Hbusy i H) as (me' & r' & j0 & j1 & j2 & Ho & Hin). exists me', r', j0, j1, j2. split; [|done].
    apply Hkeep; [done|]. intros ->. destruct (own_det _ _ _ _ _ _ _ _ _ _ Hme Ho) as (-> & -> & -> & ->).
    set_solver.
  - intros h Hh. destruct (Hheads h Hh) as (me' & r' & j1 & j2 & Ho). exists me', r', j1, j2.
    apply Hkeep; [done|]. intros ->. destruct (own_det _ _ _ _ _ _ _ _ _ _ Hme Ho) as (-> & -> & -> & ->). done.
  - intros me' r' j0 j1 j2 [Hne Ho]%Hown. pose proof (Hother _ _ _ _ _ j0 Hne Ho ltac:(set_solver)) as (? & ? & ?).
    unfold phase_ok. cbn [after_finish info]. rewrite at_insert_ne by (done || lia). by eapply Hphase.
  - intros me' c k H. destruct c as [|a]; [by apply no_free_sleeper in H|].
    apply list_lookup_fmap_Some in H as (t & E & H).
    assert (t = TAsleep (ChBuf a) k) as ->.
    { destruct t as [|c k'|k']; cbn in E; try done. by destruct (decide (c = ChFree)); simplify_eq. }
    apply (alter_lookup_own _ _ (TReady (KWait r (i0, i1, i2)))) in H as [[-> H]|[Hne H]]; [done| |done].
    pose proof (Hsleep _ _ _ H) as Hs. destruct k as [r'|r' [[j0 j1] j2]]; cbn [asleep_ok after_finish info] in *; [done|].
    assert (own ts me' r' j0 j1 j2) as Ho by (by eexists).
    pose proof (Hother _ _ _ _ _ j0 Hne Ho ltac:(set_solver)) as (? & ? & ?).
    by rewrite at_insert_ne by (done || lia).
Qed.

Lemma go_on_wait me r i0 i1 i2 s :
  Inv s → tasks s !! me = Some (TReady (KWait r (i0, i1, i2))) →
  (∃ s', go_on me (KWait r (i0, i1, i2)) s = Done (VSlept, s') ∧ Inv s' ∧ abs s' = abs s) ∨
  (∃ s', go_on me (KWait r (i0, i1, i2)) s = Done (VRet, s') ∧ Inv s' ∧ abs s' = with_phase me AIdle (abs s) ∧
     a_tasks (abs s) !! me = Some (ADone r)).
Proof.
  intros (aq & uq & Hi) Ht. assert (own (tasks s) me r i0 i1 i2) as Hme by (by eexists).
  set (s1 := VS (vd s) (alter (λ _, TIdle) me (tasks s)) (vmem s) (regs s) (disk s) (seen s) (pending s)).
  assert (∃ fin st, at_ (info (vd s)) i0 = Some (VInfo (q_buf r) fin st) ∧
    (fin = true → st = 0 ∧ i0 ∉ (aq ++ pending s ++ uq.*1))) as (fin & st & Hin & Hfin).
  { destruct (iv_phase _ _ _ _ _ _ Hi _ _ _ _ _ Hme) as [[E _]|[[E _]|[E ?]]]; eauto 10; eexists _, _; by split. }
  unfold go_on, set_tasks. rewrite (M_bind_Done _ _ _ tt s1 eq_refl). unfold wait_finish.
  step (get_at_ok info i0 _ s1 Hin). cbn [i_finish]. destruct fin.
  - right. destruct (Hfin eq_refl) as [-> Hni]. pose proof (iv_len _ _ _ _ _ _ Hi) as (Ld & Lf & Li & Lo).
    pose proof (iv_laid _ _ _ _ _ _ Hi _ _ _ _ _ Hme) as Hl. pose proof (at_range _ _ _ Hin) as R0.
    unfold put_info. step (put_at_ok info with_info i0 (VInfo 0 true 0) s1 R0).
    set (s2 := set_vd _ s1). change (Z.to_nat NUM) with (3 + 5)%nat.
    assert (laid (vd s2) r i0 i1 i2) as Hl2 by (destruct Hl; by split).
    step (free_chain_ok r i0 i1 i2 s2 5 Ld Lf Hl2). eexists. split; [done|].
    pose proof (inv_finish _ _ _ _ _ _ me r i0 i1 i2 0 Hi Ht Hni) as Hi'.
    assert (∀ ts : list vtask, wake_one ChFree <$> (wake_one ChFree <$> (wake_one ChFree <$> ts)) = wake_one ChFree <$> ts) as Hw.
    { intros ts. rewrite <- !list_fmap_compose. apply list_fmap_ext. intros ? t _. cbn. by rewrite !wake_idem. }
    split_and!.
    + exists aq, uq. unfold give_desc, s2, s1. cbn. rewrite Hw. exact Hi'.
    + unfold give_desc, s2, s1, abs, with_phase. cbn. rewrite Hw. f_equal.
      apply (abs_tasks _ _ _ _ me TIdle); [by eapply lookup_lt_Some| | |by rewrite length_fmap, length_alter].
      * intros i u Hu Hne. exists (wake_one ChFree u). split; [apply wake_at; by rewrite alter_other|].
        rewrite phase_of_wake. apply phase_of_ext. intros r' j0 j1 j2 Hwu. unfold is_served. cbn.
        rewrite at_insert_ne; [done|lia|]. intros <-. apply Hne. symmetry.
        eapply (iv_excl _ _ _ _ _ _ Hi me i r r' i0 i1 i2 i0 j1 j2 i0); [done|by exists u|set_solver..].
      * by apply (wake_at ChFree _ _ TIdle), (alter_at _ _ (TReady (KWait r (i0, i1, i2)))).
    + rewrite (abs_at _ _ _ Ht). cbn. unfold is_served. by rewrite Hin.
  - left. eexists. split; [done|]. cbn [tasks s1]. unfold s1. cbn [vd tasks vmem regs disk seen pending].
    rewrite alter_twice. split.
    + exists aq, uq. eapply inv_retask; [done|done|done|]. intros c k [= <- <-]. split; [done|by eexists].
    + unfold abs. cbn [vd tasks vmem disk]. f_equal. apply abs_tasks_same; [|by rewrite length_alter].
      intros i u Hu. destruct (decide (i = me)) as [->|]; [|rewrite alter_other by done; by exists u].
      simplify_eq. eexists. split; [by eapply alter_at|done].
Qed.

(** ** The interrupt handler *)

Lemma inv_intr d ts sn pd aq h len uq :
  inv d ts sn pd aq ((h, len) :: uq) →
  ∃ a, at_ (info d) h = Some (VInfo a false 0) ∧
    inv (with_used_idx (u16 (used_idx d + 1)) (with_info (<[Z.to_nat h := VInfo a true 0]> (info d)) d))
      (wake_one (ChBuf a) <$> ts) sn pd aq uq.
Proof.
  intros [(Ld & Lf & Li & Lo) Haq Huq Hlaid Hexcl Hbusy Hq Hheads Hphase Hsleep]. cbn [fmap list_fmap fst] in *.
  destruct (Hheads h) as (me & r & i1 & i2 & Hme); [set_solver|].
  pose proof Hq as (_ & Hq1 & (_ & Hq2 & Hq3)%NoDup_app)%NoDup_app. apply NoDup_cons in Hq3 as [Hh3 Hq3].
  assert (h ∉ aq) as Hh1 by (intros H; apply (Hq1 h H); set_solver).
  assert (h ∉ pd) as Hh2 by (intros H; apply (Hq2 h H); set_solver).
  assert (at_ (info d) h = Some (VInfo (q_buf r) false 0)) as Hin.
  { destruct (Hphase _ _ _ _ _ Hme) as [[E H]|[[E H]|[E H]]]; [set_solver|done|set_solver]. }
  exists (q_buf r). split; [done|]. pose proof (at_range _ _ _ Hin) as R.
  destruct (ring_pop _ _ _ _ _ Huq) as [_ Huq'].
  split; cbn [with_used_idx with_info desc avail_idx avail_ring used_ring_idx used_ring free used_idx info ops];
    rewrite ?length_insert; try done.
  - intros * H%own_wake. destruct (Hlaid _ _ _ _ _ H). by split.
  - intros * H%own_wake H'%own_wake. by eapply Hexcl.
  - intros i (me' & r' & j0 & j1 & j2 & H & ?)%Hbusy. exists me', r', j0, j1, j2. by rewrite own_wake.
  - apply NoDup_app in Hq as (N1 & N2 & (M1 & M2 & M3)%NoDup_app). apply NoDup_cons in M3 as [? M3].
    apply NoDup_app. split; [done|]. split; [intros x Hx; specialize (N2 x Hx); set_solver|].
    apply NoDup_app. split; [done|]. split; [intros x Hx; specialize (M2 x Hx); set_solver|done].
  - intros x Hx. destruct (Hheads x) as (me' & r' & j1 & j2 & H); [set_solver|].
    exists me', r', j1, j2. by rewrite own_wake.
  - intros me' r' j0 j1 j2 H%own_wake. unfold phase_ok. cbn [with_used_idx with_info info].
    destruct (decide (j0 = h)) as [->|Hne].
    + assert (me' = me) as -> by (eapply (Hexcl me' me _ _ _ _ _ _ _ _ h); [exact H|exact Hme|set_solver|set_solver]).
      destruct (own_det _ _ _ _ _ _ _ _ _ _ Hme H) as (-> & _). right. right. rewrite at_insert by lia.
      split; [done|]. set_solver.
    + rewrite at_insert_ne by (done || lia).
      destruct (Hphase _ _ _ _ _ H) as [[E H']|[[E H']|[E H']]]; [left|right; left|right; right];
        (split; [done|]); set_solver.
  - intros me' c k (t & E & H)%list_lookup_fmap_Some.
    assert (t = TAsleep c k ∧ c ≠ ChBuf (q_buf r)) as [-> Hc].
    { destruct t as [|c' k'|k']; cbn in E; try done. destruct (decide (c' = ChBuf (q_buf r))); by simplify_eq. }
    pose proof (Hsleep _ _ _ H) as Hs. destruct c as [|a], k as [r'|r' [[j0 j1] j2]];
      cbn [asleep_ok with_used_idx with_info info free] in *; try done.
    destruct Hs as (-> & st & E'). split; [done|]. exists st. rewrite at_insert_ne; [done|lia|].
    intros <-. apply Hc. f_equal. congruence.
Qed.

Lemma intr_loop_ok fuel s aq uq :
  inv (vd s) (tasks s) (seen s) (pending s) aq uq → (length uq < fuel)%nat →
  ∃ s', intr_loop fuel s = Done (tt, s') ∧ inv (vd s') (tasks s') (seen s') (pending s') aq [] ∧ abs s' = abs s.
Proof.
  revert s fuel. induction uq as [|[h len] uq IH]; intros s [|fuel] Hi Hf; try (cbn in Hf; lia); cbn [intr_loop].
  all: rewrite (M_bind_Done _ _ _ (vd s) s eq_refl).
  - rewrite (proj2 (ring_empty _ _ _ _ (iv_uq _ _ _ _ _ _ Hi)) eq_refl), Z.eqb_refl. by exists s.
  - destruct (Z.eqb_spec (used_idx (vd s)) (used_ring_idx (vd s))) as [E|_].
    { apply (ring_empty _ _ _ _ (iv_uq _ _ _ _ _ _ Hi)) in E. done. }
    destruct (ring_pop _ _ _ _ _ (iv_uq _ _ _ _ _ _ Hi)) as [Hat _].
    step (get_at_ok used_ring _ _ s Hat). destruct (inv_intr _ _ _ _ _ _ _ _ Hi) as (a & Hin & Hi').
    step (get_at_ok info h _ s Hin). cbn [i_status i_data Z.eqb negb].
    unfold put_info. step (put_at_ok info with_info h (VInfo a true 0) s (at_range _ _ _ Hin)).
    set (s1 := VS (with_used_idx (u16 (used_idx (vd s) + 1)) (with_info (<[Z.to_nat h := VInfo a true 0]> (info (vd s))) (vd s)))
      (wake_one (ChBuf a) <$> tasks s) (vmem s) (regs s) (disk s) (seen s) (pending s)).
    destruct (IH s1 fuel Hi' ltac:(cbn in Hf; lia)) as (s' & E & Hs' & Ha). exists s'. split; [exact E|].
    split; [done|]. rewrite Ha. unfold abs, s1. cbn [vd tasks vmem disk]. f_equal.
    apply abs_tasks_same; [|by rewrite length_fmap]. intros i u Hu. eexists. split; [by apply wake_at|].
    rewrite phase_of_wake. apply phase_of_ext. intros r' j0 j1 j2 _. unfold is_served.
    cbn [with_used_idx with_info info]. destruct (decide (h = j0)) as [->|].
    + rewrite at_insert by (apply at_range in Hin; lia). by rewrite Hin.
    + rewrite at_insert_ne; [done|apply at_range in Hin; lia|done].
Qed.
