(* ===== verification/VirtioDriver.v ===== *)
(** * The driver with a device: the theorem *)
From S2P Require Import Prelude Mem KAlloc Buf Virtio VirtioProps VirtioRefine.

(** ** Steps of the device *)

Lemma alter_at_insert {A} (f : A → A) (l : list A) i v :
  at_ l i = Some v → alter f (Z.to_nat i) l = <[Z.to_nat i := f v]> l.
Proof.
  unfold at_. destruct (0 <=? i); [|done]. intros H. generalize (Z.to_nat i) H. clear.
  induction l as [|x l IH]; intros [|n] H; cbn in *; try done; [by injection H as ->|]. f_equal. by apply IH.
Qed.

Lemma chain_of_laid d r h i1 i2 :
  laid d r h i1 i2 → is_Some (at_ (info d) h) →
  chain_of d h = Some (BlkReq (if q_write r then VIRTIO_BLK_T_OUT else VIRTIO_BLK_T_IN) 0 (q_sector r),
    q_buf r, negb (q_write r), h).
Proof.
  intros [_ _ D0 D1 D2 Hop] Hin. unfold chain_of. rewrite D0, Hop, D1, D2.
  rewrite bool_decide_true by done. by destruct (q_write r).
Qed.

Lemma inv_fetch d ts sn pd aq uq h :
  inv d ts sn pd (h :: aq) uq → inv d ts (u16 (sn + 1)) (pd ++ [h]) aq uq.
Proof.
  intros [Hl Haq Huq Hlaid Hexcl Hbusy Hq Hheads Hphase Hsleep].
  assert (∀ x, x ∈ aq ++ (pd ++ [h]) ++ uq.*1 ↔ x ∈ (h :: aq) ++ pd ++ uq.*1) as Hin by set_solver.
  split; try done.
  - by eapply ring_pop.
  - eapply NoDup_Permutation_proper; [|exact Hq]. rewrite <- app_assoc. cbn.
    rewrite !app_assoc. rewrite <- Permutation_middle. by rewrite <- !app_assoc.
  - intros x Hx. by apply Hheads, Hin.
  - intros me r i0 i1 i2 Ho. destruct (Hphase _ _ _ _ _ Ho) as [[E H]|[[E H]|[E H]]];
      [left|right; left|right; right]; (split; [done|]); set_solver.
Qed.

Lemma inv_serve d ts sn p1 p2 aq uq h a len :
  inv d ts sn (p1 ++ h :: p2) aq uq → at_ (info d) h = Some (VInfo a false 0xff) →
  inv (VD (desc d) (avail_idx d) (avail_ring d) (u16 (used_ring_idx d + 1))
        (<[Z.to_nat (used_ring_idx d mod NUM) := (h, len)]> (used_ring d)) (free d) (used_idx d)
        (<[Z.to_nat h := VInfo a false 0]> (info d)) (ops d)) ts sn (p1 ++ p2) aq (uq ++ [(h, len)]).
Proof.
  intros Hi Hh. pose proof (at_range _ _ _ Hh) as R.
  destruct Hi as [(Ld & Lf & Li & Lo) Haq Huq Hlaid Hexcl Hbusy Hq Hheads Hphase Hsleep].
  rewrite Li in R.
  assert (aq ++ (p1 ++ p2) ++ (uq ++ [(h, len)]).*1 ≡ₚ aq ++ (p1 ++ h :: p2) ++ uq.*1) as Hperm.
  { rewrite fmap_app. cbn. solve_Permutation. }
  assert (∀ x, x ∈ (aq ++ (p1 ++ p2) ++ (uq ++ [(h, len)]).*1) ↔ x ∈ (aq ++ (p1 ++ h :: p2) ++ uq.*1)) as Hin.
  { intros x. by rewrite Hperm. }
  assert ((h ∉ aq) ∧ (h ∉ p1) ∧ (h ∉ p2) ∧ (h ∉ uq.*1)) as (Na & N1 & N2 & Nu).
  { assert (aq ++ (p1 ++ h :: p2) ++ uq.*1 ≡ₚ h :: (aq ++ p1 ++ p2 ++ uq.*1)) as E by solve_Permutation.
    rewrite E in Hq. apply NoDup_cons in Hq as [Hq _]. set_solver. }
  assert (∀ me r j0 j1 j2, own ts me r j0 j1 j2 → j0 = h → q_buf r = a) as Hbuf.
  { intros * Ho ->. destruct (Hphase _ _ _ _ _ Ho) as [[E _]|[[E _]|[E _]]]; congruence. }
  split; cbn [desc avail_idx avail_ring used_ring_idx used_ring free used_idx info ops]; rewrite ?length_insert; try done.
  - apply ring_push; [done|]. destruct (Hheads h ltac:(set_solver)) as (me & r & i1 & i2 & Ho).
    (* the queues hold different descriptors, [h] not among those in the used ring *)
    assert (length (h :: uq.*1) ≤ length (seqZ 0 8))%nat as Hle.
    { apply submseteq_length, NoDup_submseteq.
      - apply NoDup_cons. split; [done|]. apply NoDup_app in Hq as (_ & _ & (_ & _ & Hq)%NoDup_app). done.
      - intros x Hx. apply elem_of_seqZ. assert (∃ b, at_ (free d) x = Some b) as (b & Hb%at_range).
        { destruct (Hheads x) as (me' & r' & j1 & j2 & Ho'); [set_solver|].
          apply Hlaid in Ho'. exists false. apply (ld_free _ _ _ _ _ Ho'). set_solver. }
        rewrite Lf in Hb. unfold NUM in Hb. lia. }
    cbn [length] in Hle. rewrite length_fmap, length_seqZ in Hle. unfold NUM. lia.
  - intros * Ho. destruct (Hlaid _ _ _ _ _ Ho). by split.
  - by rewrite Hperm.
  - intros x Hx. by apply Hheads, Hin.
  - intros me r j0 j1 j2 Ho. unfold phase_ok. cbn [info]. destruct (decide (j0 = h)) as [->|Hne].
    + right. left. rewrite at_insert by lia. rewrite (Hbuf _ _ _ _ _ Ho eq_refl). split; [done|].
      rewrite fmap_app. set_solver.
    + rewrite at_insert_ne by (done || lia). rewrite fmap_app. cbn.
      destruct (Hphase _ _ _ _ _ Ho) as [[E H]|[[E H]|[E H]]]; [left|right; left|right; right];
        (split; [done|]); set_solver.
  - intros me c k H. pose proof (Hsleep _ _ _ H) as Hs.
    destruct c as [|b], k as [r'|r' [[j0 j1] j2]]; cbn [asleep_ok info free] in *; try done.
    destruct Hs as (Hb & st & E). split; [done|]. destruct (decide (h = j0)) as [->|].
    + exists 0. rewrite at_insert by lia. congruence.
    + exists st. by rewrite at_insert_ne by (done || lia).
Qed.

Lemma served_by_ok s s' :
  Inv s → served_by s s' → Inv s' ∧ (abs s' = abs s ∨ astep (abs s) None (abs s')).
Proof.
  intros Hs Hd. revert Hs.
  destruct Hd as [x h Hne Hat|x p1 h p2 q a w j len Hp Hc|x h x' Hp Hc]; intros (aq & uq & Hi).
  - destruct aq as [|h' aq].
    { destruct Hne. by apply (ring_empty _ _ _ _ (iv_aq _ _ _ _ _ _ Hi)). }
    destruct (ring_pop _ _ _ _ _ (iv_aq _ _ _ _ _ _ Hi)) as [Hat' _].
    assert (h' = h) as -> by congruence. split; [|by left]. exists aq, uq. by apply inv_fetch.
  - rewrite Hp in Hi. destruct (iv_heads _ _ _ _ _ _ Hi h) as (me & r & i1 & i2 & Ho); [set_solver|].
    assert (at_ (info (vd x)) h = Some (VInfo (q_buf r) false 0xff)) as Hin.
    { pose proof (iv_queue _ _ _ _ _ _ Hi) as Hq.
      assert (aq ++ (p1 ++ h :: p2) ++ uq.*1 ≡ₚ h :: (aq ++ p1 ++ p2 ++ uq.*1)) as E by solve_Permutation.
      rewrite E in Hq. apply NoDup_cons in Hq as [Hq _].
      destruct (iv_phase _ _ _ _ _ _ Hi _ _ _ _ _ Ho) as [[? _]|[[_ H]|[_ H]]]; [done|set_solver|set_solver]. }
    rewrite (chain_of_laid _ r _ i1 i2) in Hc; [|by eapply iv_laid|by eexists]. injection Hc as <- <- <- <-.
    pose proof (inv_serve _ _ _ _ _ _ _ _ _ len Hi Hin) as Hi'.
    unfold served. cbn [r_sector].
    destruct (transfer (negb (q_write r)) (q_buf r) (q_sector r) (vmem x) (disk x)) as [m d] eqn:Htr.
    rewrite (alter_at_insert _ _ _ _ Hin). split; [by exists aq, (uq ++ [(h, len)])|]. right.
    destruct Ho as (t & Ht & Hw).
    assert (phase_of (vd x) t = APending r) as Hph.
    { destruct t as [|c [|r' idx]|[|r' idx]]; try done; injection Hw as -> ->; cbn; unfold is_served; by rewrite Hin. }
    unfold abs. cbn [vd tasks vmem disk].
    match goal with |- astep _ _ (AS (phase_of ?D <$> _) _ _) => set (d' := D) end.
    rewrite (abs_tasks (vd x) d' (tasks x) (tasks x) me t); [|by eapply lookup_lt_Some| |done|done].
    + assert (phase_of d' t = ADone r) as ->.
      { destruct t as [|c [|r' idx]|[|r' idx]]; try done; injection Hw as -> ->; cbn [phase_of];
          unfold is_served, d'; cbn [info]; rewrite at_insert by (by eapply at_range); done. }
      apply a_serve; [by rewrite list_lookup_fmap, Ht, <- Hph|done].
    + intros i u Hu Hne. exists u. split; [done|]. apply phase_of_ext. intros r' j0 j1 j2 Hwu.
      unfold is_served, d'. cbn [info]. rewrite at_insert_ne; [done|apply at_range in Hin; lia|]. intros <-. apply Hne.
      eapply (iv_excl _ _ _ _ _ _ Hi i me r' r h j1 j2 h i1 i2 h); [by exists u|by exists t|set_solver..].
  - destruct (iv_heads _ _ _ _ _ _ Hi h) as (me & r & i1 & i2 & Ho); [set_solver|].
    rewrite (chain_of_laid _ r _ i1 i2) in Hc; [done|by eapply iv_laid|].
    destruct (iv_phase _ _ _ _ _ _ Hi _ _ _ _ _ Ho) as [[E _]|[[E _]|[E _]]]; by eexists.
Qed.

(** ** Start-up *)

(** The driver's state is in zeroed memory before [VirtioInit]; the queue of the
    device is empty and no task uses the disk. *)
Record booting (s : vst) : Prop := {
  bt_len : length (free (vd s)) = Z.to_nat NUM ∧ length (info (vd s)) = Z.to_nat NUM ∧ length (ops (vd s)) = Z.to_nat NUM;
  bt_used : used_idx (vd s) = 0;
  bt_seen : seen s = 0;
  bt_pending : pending s = [];
  bt_tasks : Forall (λ t, t = TIdle) (tasks s);
}.

(** A register write changes the log only. *)
Definition note (r v : Z) (s : vst) : vst :=
  VS (vd s) (tasks s) (vmem s) (regs s ++ [(r, v)]) (disk s) (seen s) (pending s).
Lemma wr_reg_bind {A} r v (k : VM A) s : (wr_reg r v;; k) s = k (note r v s).
Proof. reflexivity. Qed.

Lemma VirtioInit_done R pages s s' :
  VirtioInit R pages s = Done (tt, s') →
  vd s' = VD (replicate 8 (VDesc PNull 0 0 0)) 0 (replicate 8 0) 0 (replicate 8 (0, 0)) (replicate 8 true)
    (used_idx (vd s)) (info (vd s)) (ops (vd s)) ∧
  tasks s' = tasks s ∧ vmem s' = vmem s ∧ disk s' = disk s ∧ seen s' = seen s ∧ pending s' = pending s.
Proof.
  unfold VirtioInit. destruct (_ || _ : bool); [discriminate|]. cbv zeta. rewrite !wr_reg_bind.
  destruct (R VIRTIO_MMIO_QUEUE_NUM_MAX =? 0); [discriminate|].
  destruct (R VIRTIO_MMIO_QUEUE_NUM_MAX <? NUM); [discriminate|].
  rewrite wr_reg_bind. match goal with |- _ (note ?r ?v ?x) = _ → _ => set (s1 := note r v x) end.
  assert (vd s1 = vd s ∧ tasks s1 = tasks s ∧ vmem s1 = vmem s ∧ disk s1 = disk s ∧ seen s1 = seen s ∧
    pending s1 = pending s) as (<- & <- & <- & <- & <- & <-) by (split_and!; reflexivity).
  clearbody s1. intros [= <-]. split_and!; reflexivity.
Qed.

Lemma Inv_init R pages s s' : booting s → VirtioInit R pages s = Done (tt, s') → Inv s'.
Proof.
  intros [(Lf & Li & Lo) Hu Hs Hp Ht] (Hvd & Hts & _ & _ & Hsn & Hpd)%VirtioInit_done.
  assert (∀ me r i0 i1 i2, ¬ own (tasks s') me r i0 i1 i2) as Hno.
  { intros * (t & H & Hw). rewrite Hts in H. rewrite Forall_lookup in Ht. apply Ht in H as ->. done. }
  exists [], []. rewrite Hvd, Hpd, Hsn, Hp, Hs, Hu. split; cbn [desc free info ops avail_ring avail_idx used_ring used_ring_idx used_idx];
    try (by intros * []%Hno).
  - split_and!; done.
  - apply ring_nil; done.
  - apply ring_nil; done.
  - intros i H. exfalso. unfold at_ in H. destruct (0 <=? i); [|done].
    apply lookup_replicate in H as [? _]. done.
  - constructor.
  - intros h H. by apply not_elem_of_nil in H.
  - intros me c k H. rewrite Hts in H. rewrite Forall_lookup in Ht. by apply Ht in H.
Qed.

(** ** Runs *)

Inductive runs {A : Type} (step : A → option event → A → Prop) : A → list event → A → Prop :=
| runs_nil s : runs step s [] s
| runs_step s e s1 tr s2 : step s e s1 → runs step s1 tr s2 → runs step s (option_list e ++ tr) s2.

Section machine.
(** The device and its registers. *)
Context (dev : vst → vst → Prop) (R : Z → Z).

(** A task calls the driver, a woken task goes on with its call or returns
    from it, the interrupt handler runs, the device works. *)
Inductive vstep (s : vst) : option event → vst → Prop :=
| v_call me r s' : tasks s !! me = Some TIdle → VirtioRw me r s = Done (VSlept, s') → vstep s (Some (ECall me r)) s'
| v_go me k s' : tasks s !! me = Some (TReady k) → go_on me k s = Done (VSlept, s') → vstep s None s'
| v_return me k s' : tasks s !! me = Some (TReady k) → go_on me k s = Done (VRet, s') →
    vstep s (Some (EReturn me (req_of k))) s'
| v_intr s' : VirtioIntr R s = Done (tt, s') → vstep s None s'
| v_dev s' : dev s s' → vstep s None s'.

(** The device and the interrupt handler have nothing left to do. *)
Definition quiet (s : vst) : Prop :=
  seen s = avail_idx (vd s) ∧ pending s = [] ∧ used_idx (vd s) = used_ring_idx (vd s).

(** No call ever panics or hangs inside a step, and no wakeup is lost. *)
Record responsive (s : vst) : Prop := {
  rs_call : ∀ me r, tasks s !! me = Some TIdle → ∃ s', VirtioRw me r s = Done (VSlept, s');
  rs_go : ∀ me k, tasks s !! me = Some (TReady k) → ∃ res s', go_on me k s = Done (res, s');
  rs_intr : ∃ s', VirtioIntr R s = Done (tt, s');
  rs_wake : quiet s → (∃ me c k, tasks s !! me = Some (TAsleep c k)) → ∃ me k, tasks s !! me = Some (TReady k);
}.

Lemma VirtioIntr_ok s : Inv s → ∃ s', VirtioIntr R s = Done (tt, s') ∧ Inv s' ∧ abs s' = abs s.
Proof.
  intros (aq & uq & Hi). unfold VirtioIntr, wr_reg. rewrite (M_bind_Done _ _ _ tt _ eq_refl).
  match goal with |- context [intr_loop ?f ?x] => set (s1 := x) end.
  destruct (intr_loop_ok (S (Z.to_nat NUM)) s1 aq uq Hi) as (s' & E & H & Ha).
  - pose proof (rg_room _ _ _ _ (iv_uq _ _ _ _ _ _ Hi)). unfold NUM in *. lia.
  - exists s'. split_and!; [done|by eexists _, _|by rewrite Ha].
Qed.

Lemma Inv_responsive s : Inv s → responsive s.
Proof.
  intros HI. split.
  - intros me r Ht. destruct (VirtioRw_ok me r s TIdle HI Ht eq_refl) as (s' & E & _). by exists s'.
  - intros me [r|r [[i0 i1] i2]] Ht.
    + destruct (go_on_alloc me r s HI Ht) as (s' & E & _). eauto.
    + destruct (go_on_wait me r i0 i1 i2 s HI Ht) as [(s' & E & _)|(s' & E & _)]; eauto.
  - destruct (VirtioIntr_ok s HI) as (s' & E & _). by exists s'.
  - intros (Hsn & Hpd & Hu) (me & c & k & Ht). destruct HI as (aq & uq & Hi).
    apply (ring_empty _ _ _ _ (iv_aq _ _ _ _ _ _ Hi)) in Hsn as ->.
    apply (ring_empty _ _ _ _ (iv_uq _ _ _ _ _ _ Hi)) in Hu as ->. rewrite Hpd in Hi.
    assert (∀ me r i0 i1 i2, own (tasks s) me r i0 i1 i2 → at_ (info (vd s)) i0 = Some (VInfo (q_buf r) true 0)) as Hfin.
    { intros * Ho. destruct (iv_phase _ _ _ _ _ _ Hi _ _ _ _ _ Ho) as [[_ H]|[[_ H]|[H _]]];
        [by apply not_elem_of_nil in H|by apply not_elem_of_nil in H|done]. }
    assert (∀ me r i0 i1 i2, own (tasks s) me r i0 i1 i2 → tasks s !! me = Some (TReady (KWait r (i0, i1, i2)))) as Hready.
    { intros * Ho. pose proof (Hfin _ _ _ _ _ Ho) as E. destruct Ho as (t & Ht' & Hw).
      destruct t as [|c' [|r' idx]|[|r' idx]]; try done; injection Hw as -> ->; [|done].
      pose proof (iv_sleep _ _ _ _ _ _ Hi _ _ _ Ht') as Hs. destruct c' as [|a]; [done|].
      destruct Hs as (_ & st & E'). congruence. }
    pose proof (iv_sleep _ _ _ _ _ _ Hi _ _ _ Ht) as Hs.
    destruct c as [|a], k as [r|r [[i0 i1] i2]]; cbn in Hs; try done.
    + assert (∃ i, at_ (free (vd s)) i = Some false) as (i & Hfr).
      { destruct (iv_len _ _ _ _ _ _ Hi) as (_ & Lf & _). clear -Hs Lf.
        destruct (free (vd s)) as [|[] [|[] [|[] l]]]; try done;
          try (by exists 0); try (by exists 1); try (by exists 2).
        unfold n_free in Hs. rewrite !filter_cons_True in Hs by done. cbn in Hs. lia. }
      destruct (iv_busy _ _ _ _ _ _ Hi i Hfr) as (me' & r' & j0 & j1 & j2 & Ho & _). eauto.
    + exfalso. assert (own (tasks s) me r i0 i1 i2) as Ho by (by eexists).
      apply Hfin in Ho. destruct Hs as (_ & st & E). congruence.
Qed.

Lemma vstep_ok s e s' :
  (∀ s s', dev s s' → served_by s s') → Inv s → vstep s e s' →
  Inv s' ∧ ((e = None ∧ abs s' = abs s) ∨ astep (abs s) e (abs s')).
Proof.
  intros Hdev HI [me r x Ht Hrun|me k x Ht Hrun|me k x Ht Hrun|x Hrun|x Hrun].
  - destruct (VirtioRw_ok me r s TIdle HI Ht eq_refl) as (s1 & E & HI' & Ha). rewrite E in Hrun.
    injection Hrun as <-. split; [done|right]. rewrite Ha. apply a_call. by rewrite (list_lookup_fmap _ (tasks s)), Ht.
  - destruct k as [r|r [[i0 i1] i2]].
    + destruct (go_on_alloc me r s HI Ht) as (s1 & E & HI' & Ha). rewrite E in Hrun. injection Hrun as <-. auto.
    + destruct (go_on_wait me r i0 i1 i2 s HI Ht) as [(s1 & E & HI' & Ha)|(s1 & E & _)]; rewrite E in Hrun; [|done].
      injection Hrun as <-. auto.
  - destruct k as [r|r [[i0 i1] i2]].
    + destruct (go_on_alloc me r s HI Ht) as (s1 & E & _). by rewrite E in Hrun.
    + destruct (go_on_wait me r i0 i1 i2 s HI Ht) as [(s1 & E & _)|(s1 & E & HI' & Ha & Hd)]; rewrite E in Hrun; [done|].
      injection Hrun as <-. split; [done|right]. rewrite Ha. by apply a_return.
  - destruct (VirtioIntr_ok s HI) as (s1 & E & HI' & Ha). rewrite E in Hrun. injection Hrun as <-. auto.
  - destruct (served_by_ok s x HI (Hdev _ _ Hrun)) as [HI' [Ha|Ha]]; auto.
Qed.

Lemma runs_ok s tr s' :
  (∀ s s', dev s s' → served_by s s') → Inv s → runs vstep s tr s' → Inv s' ∧ runs astep (abs s) tr (abs s').
Proof.
  intros Hdev HI Hr. induction Hr as [s|s e s1 tr s2 Hs Hr IH]; [split; [done|constructor]|].
  destruct (vstep_ok s e s1 Hdev HI Hs) as [HI1 Ha]. destruct (IH HI1) as [HI2 IHr]. split; [done|].
  destruct Ha as [[-> Ha]|Ha]; [by rewrite Ha in IHr|]. by eapply runs_step.
Qed.

(** Claim C2. Together with any device that follows the virtio specification,
    the driver is a block device on which every request takes effect at one
    moment between its call and its return: what tasks see of a run, the calls,
    the returns, the buffers and the disk, is a run of the abstract device.  This
    holds for any number of tasks, however they, the interrupt handler and the
    device interleave and in whatever order the device serves requests, also
    after the 16-bit ring indices wrap.  In every state that is reached no call and no interrupt panics, and
    no wakeup is lost: when device and handler have nothing left to do, nobody
    is asleep unless a task is about to run that will give descriptors back. *)
Theorem virtio_refines_block_device (pages : Z) (s0 s : vst) (tr : list event) (s' : vst) :
  (∀ s s', dev s s' → served_by s s') →
  booting s0 → VirtioInit R pages s0 = Done (tt, s) → runs vstep s tr s' →
  runs astep (AS (map (λ _, AIdle) (tasks s0)) (vmem s0) (disk s0)) tr (abs s') ∧ responsive s'.
Proof.
  intros Hdev Hb Hinit Hr. pose proof (Inv_init _ _ _ _ Hb Hinit) as HI.
  destruct (runs_ok s tr s' Hdev HI Hr) as [HI' Ha]. split; [|by apply Inv_responsive].
  enough (AS (map (λ _, AIdle) (tasks s0)) (vmem s0) (disk s0) = abs s) as -> by done.
  apply VirtioInit_done in Hinit as (_ & Ht & Hm & Hd & _). unfold abs. rewrite Ht, Hm, Hd. f_equal.
  destruct Hb as [_ _ _ _ Hidle]. clear -Hidle. induction Hidle as [|t ts -> _ IH]; [done|]. cbn. by rewrite IH.
Qed.
End machine.

(** ** A concrete device and run *)
Module VirtioWitness.
(** Takes all chains it finds, and serves the last one first. *)
Definition device (s : vst) : option vst :=
  if negb (seen s =? avail_idx (vd s)) then
    h ← at_ (avail_ring (vd s)) (seen s mod NUM); Some (fetched h s)
  else
    match rev (pending s) with
    | [] => None
    | h :: p => '(q, a, w, j) ← chain_of (vd s) h; Some (served (rev p) h q a w j SECTOR s)
    end.
Definition dev s s' := device s = Some s'.

Lemma dev_ok s s' : dev s s' → served_by s s'.
Proof.
  unfold dev, device. destruct (Z.eqb_spec (seen s) (avail_idx (vd s))) as [E|E]; cbn.
  - destruct (rev (pending s)) as [|h p] eqn:Hp; [done|].
    destruct (chain_of (vd s) h) as [[[[q a] w] j]|] eqn:Hc; [|done]. intros [= <-].
    apply (f_equal (@rev Z)) in Hp. rewrite rev_involutive in Hp. cbn in Hp.
    rewrite <- (app_nil_r (rev p)). by eapply dev_done.
  - destruct (at_ (avail_ring (vd s)) _) as [h|] eqn:Hh; [|done]. intros [= <-]. by eapply dev_fetch.
Qed.

(** What the registers of QEMU's device read. *)
Definition regs0 (r : Z) : Z :=
  if r =? VIRTIO_MMIO_MAGIC_VALUE then 0x74726976 else if r =? VIRTIO_MMIO_VERSION then 1
  else if r =? VIRTIO_MMIO_DEVICE_ID then 2 else if r =? VIRTIO_MMIO_VENDOR_ID then 0x554d4551
  else if r =? VIRTIO_MMIO_QUEUE_NUM_MAX then 1024 else 0.

Inductive action := Call (me : nat) (r : vreq) | Go (me : nat) | Intr | Dev.
Definition act (a : action) (s : vst) : option (option event * vst) :=
  match a with
  | Call me r =>
      match tasks s !! me, VirtioRw me r s with
      | Some TIdle, Done (VSlept, s') => Some (Some (ECall me r), s')
      | _, _ => None
      end
  | Go me =>
      match tasks s !! me with
      | Some (TReady k) =>
          match go_on me k s with
          | Done (VSlept, s') => Some (None, s')
          | Done (VRet, s') => Some (Some (EReturn me (req_of k)), s')
          | _ => None
          end
      | _ => None
      end
  | Intr => match VirtioIntr regs0 s with Done (_, s') => Some (None, s') | _ => None end
  | Dev => s' ← device s; Some (None, s')
  end.
Fixpoint acts (l : list action) (s : vst) : option (list event * vst) :=
  match l with
  | [] => Some ([], s)
  | a :: l => '(e, s1) ← act a s; '(tr, s2) ← acts l s1; Some (option_list e ++ tr, s2)
  end.

Lemma act_step a s e s' : act a s = Some (e, s') → vstep dev regs0 s e s'.
Proof.
  destruct a as [me r|me| |]; unfold act.
  - destruct (tasks s !! me) as [[| |]|] eqn:Ht; try done.
    destruct (VirtioRw me r s) as [[[] s1]| |] eqn:E; try done. intros [= <- <-]. by apply v_call.
  - destruct (tasks s !! me) as [[| |k]|] eqn:Ht; try done.
    destruct (go_on me k s) as [[[] s1]| |] eqn:E; try done; intros [= <- <-]; [by eapply v_return|by eapply v_go].
  - destruct (VirtioIntr regs0 s) as [[[] s1]| |] eqn:E; try done. intros [= <- <-]. by apply v_intr.
  - destruct (device s) as [s1|] eqn:E; [|done]. intros [= <- <-]. by apply v_dev.
Qed.
Lemma acts_runs l s tr s' : acts l s = Some (tr, s') → runs (vstep dev regs0) s tr s'.
Proof.
  revert s tr. induction l as [|a l IH]; intros s tr; cbn; [intros [= <- <-]; constructor|].
  destruct (act a s) as [[e s1]|] eqn:E; [|done]. cbn.
  destruct (acts l s1) as [[tr' s2]|] eqn:E'; [|done]. intros [= <- ->].
  eapply runs_step; [by eapply act_step|by apply IH].
Qed.

(** Three tasks: one writes sector 2, one reads it, and the third, which reads
    sector 7, has to wait for descriptors. *)
Definition write2 := VReq 0x1000 2 true.
Definition read2 := VReq 0x2000 2 false.
Definition read7 := VReq 0x3000 7 false.
Definition idle0 : vst :=
  VS (VD [] 0 [] 0 [] (replicate 8 false) 0 (replicate 8 (VInfo 0 false 0)) (replicate 8 (BlkReq 0 0 0)))
    [TIdle; TIdle; TIdle] (λ a, a mod 251) [] (λ a, a mod 241) 0 [].
Definition ready0 : vst := match VirtioInit regs0 0x80700000 idle0 with Done (_, s) => s | _ => idle0 end.
Definition schedule : list action :=
  [Call 0 write2; Dev; Dev; Intr; Go 0; Call 1 read2; Call 0 write2; Call 2 read7; Dev; Dev; Dev; Intr; Go 0;
   Go 2; Dev; Dev; Dev; Intr; Go 2; Go 1].
Definition trace : list event :=
  [ECall 0 write2; EReturn 0 write2; ECall 1 read2; ECall 0 write2; ECall 2 read7; EReturn 0 write2;
   EReturn 2 read7; EReturn 1 read2].
Definition last0 : vst := match acts schedule ready0 with Some (_, s) => s | None => ready0 end.
Lemma schedule_trace : option_map fst (acts schedule ready0) = Some trace.
Proof. vm_compute. reflexivity. Qed.
(** The byte that was read is the byte that was written. *)
Lemma schedule_result :
  forallb (λ i, vmem last0 (0x2000 + i) =? (0x1000 + i) mod 251) (seqZ 0 512) = true ∧
  forallb (λ i, vmem last0 (0x3000 + i) =? (7 * 512 + i) mod 241) (seqZ 0 512) = true.
Proof. split; vm_compute; reflexivity. Qed.
Lemma init0 : option_map fst (match VirtioInit regs0 0x80700000 idle0 with Done x => Some x | _ => None end) = Some tt.
Proof. vm_compute. reflexivity. Qed.

Lemma virtio_refines_block_device_witness :
  runs astep (AS [AIdle; AIdle; AIdle] (vmem idle0) (disk idle0)) trace (abs last0) ∧ responsive regs0 last0.
Proof.
  apply (virtio_refines_block_device dev regs0 0x80700000 idle0 ready0 trace last0).
  - exact dev_ok.
  - split; [split_and!; reflexivity|reflexivity|reflexivity|reflexivity|by repeat constructor].
  - pose proof init0 as H. unfold ready0. destruct (VirtioInit regs0 0x80700000 idle0) as [[[] s]| |]; [reflexivity|discriminate H..].
  - pose proof schedule_trace as H. apply (acts_runs schedule). unfold last0.
    destruct (acts schedule ready0) as [[tr s]|]; [|discriminate H]. injection H as ->. reflexivity.
Defined.
End VirtioWitness.
