(* ===== verification/Fat32.v ===== *)
(** * The FAT32 file system: kernel/fs/fat32/fat32_file_system.cpp,
    kernel/include/fs/fat/fat.hpp

    The state is the buffer cache with the device behind it (Buf.v), the array
    [fat_cache_] in memory, the heap of inodes and the inode map (HashMap.v).
    Local arrays of the functions ([entry], [tmp_name], ...) are lists of
    bytes; a name is a pointer into a memory [nm] that the calls do not change.
    A copy to or from the caller's buffer is an argument, [out] or [inp], which
    the callers instantiate with [either_copyout], [either_copyin] or a local
    array. *)
From S2P Require Import Prelude Mem Buf HashMap Time.

(** fat.hpp *)
Definition kFatAttrDirentory : Z := 0x10.
Definition kFatAttrLongEntry : Z := 0xF.
Definition kEndOfCluster32 : Z := 0x0fffffff.
Definition kLongNameLength : Z := 13.
Definition kShortNameLength : Z := 12.
Definition kShortNameFillStuff : Z := 0x20.
Definition kMsdosEntrySize : Z := 32.
Definition kDeletedMark : Z := 0xe5.
Definition kFreeMark : Z := 0.
Definition kSectorSize : Z := 512.
Definition kMsdosRootIno : Z := 1.
(** lib/fcntl.h *)
Definition __S_IFMT : Z := 61440.
Definition __S_IFDIR : Z := 16384.
Definition __S_IFREG : Z := 32768.
Definition S_ISDIR (mode : Z) : bool := Z.land mode __S_IFMT =? __S_IFDIR.

(** ** Directory entries: 32 bytes *)

(** Overwriting an array from index [i] on; bytes past its end would go to
    whatever follows it and are dropped. *)
Fixpoint splice (l : list Z) (i : nat) (bs : list Z) : list Z :=
  match l, i with
  | [], _ => []
  | x :: l, S i => x :: splice l i bs
  | x :: l, O => match bs with [] => x :: l | b :: bs => b :: splice l O bs end
  end.
Definition byte (l : list Z) (i : nat) : Z := nth i l 0.
Definition half (l : list Z) (i : nat) : Z := byte l i + 256 * byte l (S i).
Definition word (l : list Z) (i : nat) : Z := half l i + 65536 * half l (S (S i)).
Definition le16 (v : Z) : list Z := [v mod 256; v / 256 mod 256].
Definition le32 (v : Z) : list Z := le16 (v mod 65536) ++ le16 (v / 65536).

(** Offsets of the fields of [ShortEntry] and [LongEntry]. *)
Definition O_ATTRIB : nat := 11.
Definition O_CTIME : nat := 14.
Definition O_CDATE : nat := 16.
Definition O_ADATE : nat := 18.
Definition O_CLUSTER_HIGH : nat := 20.
Definition O_MTIME : nat := 22.
Definition O_MDATE : nat := 24.
Definition O_CLUSTER_LOW : nat := 26.
Definition O_FILE_SIZE : nat := 28.
Definition O_NAME0_4 : nat := 1.
Definition O_CHECKSUM : nat := 13.
Definition O_NAME5_10 : nat := 14.
Definition O_NAME11_12 : nat := 28.

Definition IsLongEntry (entry : list Z) : bool := byte entry O_ATTRIB =? kFatAttrLongEntry.
Definition IsAllocated (entry : list Z) : bool := negb (byte entry 0 =? 0) && negb (byte entry 0 =? 0xe5).
Definition IsFree (entry : list Z) : bool := byte entry 0 =? kFreeMark.
Definition IsDeleted (entry : list Z) : bool := byte entry 0 =? kDeletedMark.
Definition GetStartCluster (entry : list Z) : Z :=
  Z.shiftl (half entry O_CLUSTER_HIGH) 16 + half entry O_CLUSTER_LOW.
(** One step of [FatChecksum], on an [unsigned char]. *)
Definition checksum_step (s c : Z) : Z := u8 (u8 (Z.shiftl s 7) + Z.shiftr s 1 + c).
Definition FatChecksum (name : list Z) : Z :=
  match take 11 name with s :: rest => fold_left checksum_step rest s | [] => 0 end.
Definition mkattr (mode : Z) : Z := if S_ISDIR mode then kFatAttrDirentory else 0.

(** A [struct inode] with its [MsdosInodeInfo].  [test_name] has 11 bytes and is
    followed by one byte of padding, which value-initialisation set to 0. *)
Record minode := MInode {
  i_start : Z; i_logi : Z; i_clus : Z; i_attrs : Z; i_pos : Z;
  idev : Z; inum : Z; test_name : list Z; iref : Z; ilocked : bool; imode : Z;
  iparent : Z; inlink : Z; isz : Z; is_mp_target : bool;
  iatime : Z; imtime : Z; ictime : Z;
}.
Definition zero_inode : minode := MInode 0 0 0 0 0 0 0 (replicate 11 0) 0 false 0 0 0 0 false 0 0 0.
Definition upd_cursor (logi clus : Z) (n : minode) : minode := MInode (i_start n) logi clus (i_attrs n)
  (i_pos n) (idev n) (inum n) (test_name n) (iref n) (ilocked n) (imode n) (iparent n) (inlink n)
  (isz n) (is_mp_target n) (iatime n) (imtime n) (ictime n).
Definition upd_isz (x : Z) (n : minode) : minode := MInode (i_start n) (i_logi n) (i_clus n) (i_attrs n)
  (i_pos n) (idev n) (inum n) (test_name n) (iref n) (ilocked n) (imode n) (iparent n) (inlink n)
  x (is_mp_target n) (iatime n) (imtime n) (ictime n).
Definition upd_iref (x : Z) (n : minode) : minode := MInode (i_start n) (i_logi n) (i_clus n) (i_attrs n)
  (i_pos n) (idev n) (inum n) (test_name n) x (ilocked n) (imode n) (iparent n) (inlink n)
  (isz n) (is_mp_target n) (iatime n) (imtime n) (ictime n).
Definition upd_ilocked (x : bool) (n : minode) : minode := MInode (i_start n) (i_logi n) (i_clus n) (i_attrs n)
  (i_pos n) (idev n) (inum n) (test_name n) (iref n) x (imode n) (iparent n) (inlink n)
  (isz n) (is_mp_target n) (iatime n) (imtime n) (ictime n).

(** The members of [Fat32Info] the operations read. *)
Record finfo := FInfo {
  bytes_per_cluster_ : Z;
  cluster_count_ : Z;
  first_data_sector_ : Z;
  bytes_per_sector_ : Z;
  sectors_per_cluster_ : Z;
  reserve_sectors_ : Z;
  root_directory_cluster_start : Z;
}.

(** [Init] from the boot sector; [bytes_per_cluster_] is 16 bits wide. *)
Definition finfo_init (bytes_per_sector sectors_per_cluster reserved_sectors number_of_fat
    total_sectors_long sectors_per_fat_v32 root : Z) : finfo := {|
  bytes_per_cluster_ := u16 (bytes_per_sector * sectors_per_cluster);
  cluster_count_ := total_sectors_long / sectors_per_cluster;
  first_data_sector_ := u32 (reserved_sectors + u32 (number_of_fat * sectors_per_fat_v32));
  bytes_per_sector_ := bytes_per_sector;
  sectors_per_cluster_ := sectors_per_cluster;
  reserve_sectors_ := reserved_sectors;
  root_directory_cluster_start := root;
|}.

Record fat (W : Type) := Fat {
  fbl : bl;
  fat_cache_ : mem;
  inodes : gmap Z minode;
  inode_cache_map_ : hst;
  local_ : list Z;
  fw : W;
}.
Arguments Fat {W}. Arguments fbl {W}. Arguments fat_cache_ {W}. Arguments inodes {W}.
Arguments inode_cache_map_ {W}. Arguments local_ {W}. Arguments fw {W}.

Section fat32.
Context {W : Type}.
(** [info_], [dev_], the address of [info_.root_.vfs_inode], [operator new] for
    map nodes and inodes, the clock ([CurrentTimeSpec]), and the address at
    which a local array is put to be compared with a string of [nm]. *)
Context (g : finfo) (dev_ root : Z) (new_node : gmap Z node → Z) (new_inode : gmap Z minode → Z).
Context (now : Z) (a_loc : Z).
(** Bound for the loops over clusters and directory entries. *)
Context (fuel : nat).
Abbreviation FM := (M (fat W)).

Definition on_bl {A : Type} (c : BM A) : FM A := λ s,
  match c (fbl s) with
  | Done (a, b) => Done (a, Fat b (fat_cache_ s) (inodes s) (inode_cache_map_ s) (local_ s) (fw s))
  | Panic e => Panic e
  | NoFuel => NoFuel
  end.
Definition on_map {A : Type} (c : M hst A) : FM A := λ s,
  match c (inode_cache_map_ s) with
  | Done (a, h) => Done (a, Fat (fbl s) (fat_cache_ s) (inodes s) h (local_ s) (fw s))
  | Panic e => Panic e
  | NoFuel => NoFuel
  end.
Definition on_w {A : Type} (c : M W A) : FM A := λ s,
  match c (fw s) with
  | Done (a, w) => Done (a, Fat (fbl s) (fat_cache_ s) (inodes s) (inode_cache_map_ s) (local_ s) w)
  | Panic e => Panic e
  | NoFuel => NoFuel
  end.
Definition MSDOS_I (ip : Z) : FM minode := λ s,
  match inodes s !! ip with Some n => Done (n, s) | None => Panic "bad inode" end.
Definition set_inode (ip : Z) (n : minode) : FM unit :=
  modify (λ s, Fat (fbl s) (fat_cache_ s) (<[ip := n]> (inodes s)) (inode_cache_map_ s) (local_ s) (fw s)).

(** ** Sectors, clusters and the table *)
Definition FirstSector (cluster : Z) : Z :=
  u32 (first_data_sector_ g + u32 (cluster - 2) * sectors_per_cluster_ g).
Definition ReadSector (sector : Z) (old : list Z) : FM (list Z) :=
  '(_, l) ← on_bl (RwDevRead dev_ old (sector * bytes_per_sector_ g) (bytes_per_sector_ g)); mret l.
Definition WriteSector (sector : Z) (l : list Z) : FM unit :=
  on_bl (RwDevWrite dev_ l (u32 (sector * kSectorSize)) kSectorSize);; mret tt.

Definition FatSectorOfCluster (cluster : Z) : Z :=
  u32 (reserve_sectors_ g + u32 (Z.shiftl cluster 2) / bytes_per_sector_ g).
Definition FatOffsetOfCluster (cluster : Z) : Z := u32 (Z.shiftl cluster 2) mod bytes_per_sector_ g.

Definition GetFatEntry (cluster : Z) : FM Z :=
  if cluster_count_ g <? cluster then mret (u32 (-1))
  else
    let fat_sector := FatSectorOfCluster cluster in
    let fat_offset := FatOffsetOfCluster cluster in
    if fat_sector <? 1024 then
      gets (λ s, ld32 (fat_cache_ s) ((fat_sector - reserve_sectors_ g) * 512 + fat_offset))
    else panic "get fat entry".

Definition SetFatEntey (cluster value : Z) : FM Z :=
  if cluster_count_ g <? cluster then mret (-1)
  else
    let fat_sector := FatSectorOfCluster cluster in
    let fat_offset := FatOffsetOfCluster cluster in
    if fat_sector <? 1024 then
      modify (λ s, Fat (fbl s)
        (st32 (fat_cache_ s) ((fat_sector - reserve_sectors_ g) * 512 + fat_offset) value)
        (inodes s) (inode_cache_map_ s) (local_ s) (fw s));;
      mret 0
    else panic "set fat entry".

Fixpoint zero_sectors (sector : Z) (n : nat) : FM unit :=
  match n with
  | O => mret tt
  | S n => WriteSector (i32 sector) (replicate 512 0);; zero_sectors (u32 (sector + 1)) n
  end.
Definition ZeroCluster (cluster : Z) : FM unit :=
  zero_sectors (FirstSector cluster) (Z.to_nat (sectors_per_cluster_ g)).

(** [for (int cluster = 2;; cluster++)] *)
Fixpoint AllocCluster_loop (fuel : nat) (cluster : Z) : FM Z :=
  match fuel with
  | O => λ _, NoFuel
  | S fuel =>
      e ← GetFatEntry cluster;
      if e =? 0 then
        SetFatEntey cluster kEndOfCluster32;;
        ZeroCluster cluster;;
        mret cluster
      else AllocCluster_loop fuel (cluster + 1)
  end.
Definition AllocCluster : FM Z := AllocCluster_loop fuel 2.

(** [while (cluster != kEndOfCluster32)]; [next_cluster] is an [int]. *)
Fixpoint FreeClusterChain_loop (fuel : nat) (cluster : Z) : FM unit :=
  match fuel with
  | O => λ _, NoFuel
  | S fuel =>
      if cluster =? kEndOfCluster32 then mret tt
      else
        next ← GetFatEntry cluster;
        SetFatEntey cluster 0;;
        FreeClusterChain_loop fuel next
  end.
Definition FreeClusterChain (cluster : Z) : FM unit := FreeClusterChain_loop fuel cluster.

(** The loop of [bmap]: [n] steps along the chain from [cur], at most. *)
Fixpoint bmap_loop (n : nat) (cur : Z) : FM Z :=
  match n with
  | O => mret cur
  | S n =>
      if cur =? kEndOfCluster32 then mret cur
      else
        now ← GetFatEntry cur;
        if now =? kEndOfCluster32 then
          now ← AllocCluster;
          SetFatEntey cur now;;
          bmap_loop n now
        else bmap_loop n now
  end.

(** The end of [bmap]: the cursor moves to the cluster that was found. *)
Definition set_cursor (ip logi_cluster cur : Z) : FM Z :=
  if cur =? kEndOfCluster32 then mret (-1)
  else
    msdos_info ← MSDOS_I ip;
    set_inode ip (upd_cursor (i32 logi_cluster) (i32 cur) msdos_info);;
    mret (i32 cur).

Definition bmap (ip logi_cluster : Z) : FM Z :=
  msdos_info ← MSDOS_I ip;
  let cur := u32 (i_start msdos_info) in
  let cur := if ip =? root then root_directory_cluster_start g else cur in
  let '(cur, i) :=
    if u32 (i_logi msdos_info) <=? logi_cluster
    then (u32 (i_clus msdos_info), u64 (i_logi msdos_info)) else (cur, 0) in
  cur ← bmap_loop (Z.to_nat (logi_cluster - i)) cur;
  set_cursor ip logi_cluster cur.

(** ** Reading and writing files

    [out i l] copies the bytes [l] to position [i] of the destination;
    [inp i l] gives what [n] bytes holding [l] hold after copying from position
    [i] of the source.  A negative result is an error. *)
Fixpoint ReadInode_loop (fuel : nat) (ip : Z) (out : Z → list Z → FM Z) (offset total n : Z) : FM Z :=
  match fuel with
  | O => λ _, NoFuel
  | S fuel =>
      if total <? n then
        cluster ← bmap ip (u32 (offset / bytes_per_cluster_ g));
        i ← on_bl (Buf.read dev_ (u32 cluster));
        b ← on_bl (buf_at i);
        let mod_ := offset mod bytes_per_cluster_ g in
        let nread := if n - total <? bytes_per_cluster_ g - mod_ then n - total
                     else bytes_per_cluster_ g - mod_ in
        r ← out total (take (Z.to_nat nread) (drop (Z.to_nat mod_) (bdata b)));
        if r <? 0 then mret (-1)
        else
          on_bl (freeBuffer i);;
          ReadInode_loop fuel ip out (u64 (offset + nread)) (total + nread) n
      else mret (i32 total)
  end.

Definition ReadInode (ip : Z) (out : Z → list Z → FM Z) (offset n : Z) : FM Z :=
  node ← MSDOS_I ip;
  if (isz node <? offset) || (u64 (offset + n) <? offset) then mret 0
  else
    let n := if isz node <? u64 (offset + n) then u32 (isz node - offset) else n in
    ReadInode_loop (S (Z.to_nat n)) ip out offset 0 n.

(** ** Names *)

(** [strrchr(name, '.')] and [strlen]. *)
Definition c_strlen (nm : mem) (name : Z) : FM Z := λ s,
  match strlen fuel nm name with Done n => Done (n, s) | Panic e => Panic e | NoFuel => NoFuel end.
Definition c_strrchr (nm : mem) (name c : Z) : FM Z := λ s,
  match strrchr fuel nm name c with Done n => Done (n, s) | Panic e => Panic e | NoFuel => NoFuel end.

Definition toUpCase (c : Z) : Z := if (97 <=? c) && (c <=? 122) then c - 32 else c.

(** [FillShortFile] on the 32 bytes [entry]. *)
Definition FillShortFile (entry : list Z) (nm : mem) (name cluster mode : Z) : FM (list Z) :=
  dot ← c_strrchr nm name 46;
  let entry := splice entry 0 (replicate 11 kShortNameFillStuff) in
  '(entry, len) ← (if negb (dot =? 0) then
      l ← c_strlen nm (dot + 1);
      let l := if 3 <? l then 3 else l in
      mret (splice entry 8 (rd_bytes nm (dot + 1) (Z.to_nat l)), dot - name)
    else l ← c_strlen nm name; mret (entry, l));
  let entry :=
    if 8 <? len then splice (splice entry 0 (rd_bytes nm name 6)) 6 [126; 49]
    else splice entry 0 (rd_bytes nm name (Z.to_nat len)) in
  let entry := (toUpCase <$> take (Z.to_nat len) entry) ++ drop (Z.to_nat len) entry in
  let entry := splice entry O_ATTRIB [mkattr mode] in
  let '(d, t) := UnixTime2Fat now in
  let entry := splice (splice entry O_CDATE (le16 d)) O_CTIME (le16 t) in
  let entry := splice (splice entry O_ADATE (le16 d)) O_CTIME (le16 t) in
  let entry := splice (splice entry O_MDATE (le16 d)) O_MTIME (le16 t) in
  let entry := splice entry O_CLUSTER_LOW (le16 (Z.land cluster 0xffff)) in
  let entry := splice entry O_CLUSTER_HIGH (le16 (Z.shiftr cluster 16)) in
  mret (splice entry O_FILE_SIZE (le32 0)).

(** [UpdateInode]: its [ShortEntry] is not initialised, [junk] is what it
    held.  [memmove(&entry.name, ip->test_name, 12)] copies the byte after the
    11 bytes of [test_name] too. *)
Definition a_pad : mem := λ x, nth (Z.to_nat x) [112; 97; 100; 0] 0.
Definition UpdateInode (junk : list Z) (ip : Z) : FM Z :=
  n ← MSDOS_I ip;
  entry ← FillShortFile junk a_pad 0 (u32 (i_start n)) (imode n);
  let entry := splice entry O_FILE_SIZE (le32 (isz n)) in
  let entry := splice entry 0 (take (Z.to_nat kShortNameLength) (test_name n ++ [0])) in
  let sector := i32 (i_pos n / bytes_per_sector_ g) in
  let off := i_pos n mod bytes_per_sector_ g in
  data ← ReadSector sector (replicate 512 0);
  WriteSector sector (splice data (Z.to_nat off) entry);;
  mret 0.

Fixpoint WriteInode_loop (fuel : nat) (ip : Z) (inp : Z → list Z → FM (Z * list Z)) (off total n : Z)
    : FM (Z * Z) :=
  match fuel with
  | O => λ _, NoFuel
  | S fuel =>
      if total <? n then
        cluster ← bmap ip (u32 (off / bytes_per_cluster_ g));
        i ← on_bl (Buf.read dev_ (u32 cluster));
        b ← on_bl (buf_at i);
        let mod_ := off mod bytes_per_cluster_ g in
        let nwrite := if n - total <? bytes_per_cluster_ g - mod_ then n - total
                      else bytes_per_cluster_ g - mod_ in
        '(r, l) ← inp total (take (Z.to_nat nwrite) (drop (Z.to_nat mod_) (bdata b)));
        on_bl (put_buf i (Buf (valid b) (bdev b) (blockno b) (last_use_tick b) (Buf.locked b) (refcnt b)
          (splice (bdata b) (Z.to_nat mod_) l)));;
        if r <? 0 then mret (-1, off)
        else
          on_bl (Buf.write i);;
          on_bl (freeBuffer i);;
          WriteInode_loop fuel ip inp (u64 (off + nwrite)) (total + nwrite) n
      else mret (i32 total, off)
  end.

Definition WriteInode (junk : list Z) (ip : Z) (inp : Z → list Z → FM (Z * list Z)) (off n : Z) : FM Z :=
  node ← MSDOS_I ip;
  if (isz node <? off) || (u64 (off + n) <? off) then mret (-1)
  else
    '(total, off) ← WriteInode_loop (S (Z.to_nat n)) ip inp off 0 n;
    node ← MSDOS_I ip;
    (if isz node <? off then set_inode ip (upd_isz (u32 off) node) else mret tt);;
    UpdateInode junk ip;;
    mret total.

(** ** Local arrays as destination and source: [local_] is the array. *)
Definition out_local (i : Z) (l : list Z) : FM Z :=
  modify (λ s, Fat (fbl s) (fat_cache_ s) (inodes s) (inode_cache_map_ s)
    (splice (local_ s) (Z.to_nat i) l) (fw s));;
  mret 0.
Definition set_local (l : list Z) : FM unit :=
  modify (λ s, Fat (fbl s) (fat_cache_ s) (inodes s) (inode_cache_map_ s) l (fw s)).
Definition inp_local (src : list Z) (i : Z) (l : list Z) : FM (Z * list Z) :=
  mret (0, take (length l) (drop (Z.to_nat i) src)).

(** [ReadInode(dir, false, &entry, off, 32)] over an [entry]: whether it gave
    32 bytes, and the new [entry]. *)
Definition read_entry (dir off : Z) (entry : list Z) : FM (bool * list Z) :=
  set_local entry;;
  r ← ReadInode dir out_local off kMsdosEntrySize;
  e ← gets local_;
  mret (r =? kMsdosEntrySize, e).

(** ** Directories *)

Fixpoint FindFreeEntry_loop (fuel : nat) (dir off nfree n : Z) (entry : list Z) : FM Z :=
  match fuel with
  | O => λ _, NoFuel
  | S fuel =>
      '(ok, entry) ← read_entry dir off entry;
      if (ok : bool) then
        let off := u64 (off + kMsdosEntrySize) in
        let nfree := if IsDeleted entry || IsFree entry then nfree + 1 else 0 in
        if nfree =? n then mret (u64 (off - nfree * kMsdosEntrySize))
        else FindFreeEntry_loop fuel dir off nfree n entry
      else panic "fat32:can't find free entry"
  end.
Definition FindFreeEntry (dir n : Z) : FM Z := FindFreeEntry_loop fuel dir 0 0 n (replicate 32 0).

(** [CopyCharToWchar(dst, src, n)] at index [i] of a local array. *)
Fixpoint wide (nm : mem) (src : Z) (n : nat) : list Z :=
  match n with O => [] | S n => nm src :: 0 :: wide nm (src + 1) n end.

(** The long entry number [seq] of [num] for the name at [name]. *)
Definition long_entry (nm : mem) (name seq num checksum : Z) : list Z :=
  let e := replicate 32 0xff in
  let e := splice e 0 [if seq =? num then Z.lor seq 0x40 else seq] in
  let e := splice e O_NAME0_4 (wide nm name 5) in
  let e := splice e O_NAME5_10 (wide nm (name + 5) 6) in
  let e := splice e O_NAME11_12 (wide nm (name + 11) 2) in
  let e := splice e O_CHECKSUM [checksum] in
  splice e O_ATTRIB [kFatAttrLongEntry].

(** [for (uint8_t seq = 1; seq <= lfn_num; seq++)] *)
Fixpoint write_long (n : nat) (junk : list Z) (dir : Z) (nm : mem) (name seq lfn_num checksum off : Z) : FM unit :=
  match n with
  | O => mret tt
  | S n =>
      WriteInode junk dir (inp_local (long_entry nm name seq lfn_num checksum)) off kMsdosEntrySize;;
      write_long n junk dir nm (name + kLongNameLength) (seq + 1) lfn_num checksum (u32 (off - kMsdosEntrySize))
  end.

Definition Create (junk : list Z) (dir : Z) (nm : mem) (name mode : Z) : FM Z :=
  name_len ← c_strlen nm name;
  let lfn_num := (name_len + kLongNameLength - 1) / kLongNameLength in
  free ← FindFreeEntry dir (lfn_num + 1);
  let off := u32 (free + lfn_num * kMsdosEntrySize) in
  cluster ← AllocCluster;
  short ← FillShortFile (replicate 32 0) nm name cluster mode;
  WriteInode junk dir (inp_local short) off kMsdosEntrySize;;
  '(_, short) ← read_entry dir off (replicate 32 0);
  let off := u32 (off - kMsdosEntrySize) in
  write_long (Z.to_nat lfn_num) junk dir nm name 1 lfn_num (FatChecksum short) off;;
  mret 0.

(** ** Inodes: vfs_file.cpp, [AllocInode], [GetInode], [BuildInode] *)
Definition asleep : FM unit := λ _, NoFuel.
Definition ilock (ip : Z) : FM unit :=
  n ← MSDOS_I ip;
  if ilocked n then asleep else set_inode ip (upd_ilocked true n).
Definition iunlock (ip : Z) : FM unit :=
  n ← MSDOS_I ip; set_inode ip (upd_ilocked false n).

Definition inode_dup (ip : Z) : FM Z :=
  ilock ip;;
  n ← MSDOS_I ip;
  set_inode ip (upd_iref (iref n + 1) n);;
  iunlock ip;;
  mret ip.

(** [delete MSDOS_I(inode)]: the memory is given back but not changed. *)
Definition DeleteInode (ip : Z) : FM unit :=
  n ← MSDOS_I ip;
  on_map (poll new_node fuel (i_pos n));;
  mret tt.

(** After the last reference is gone the inode is deleted, and then its lock
    released. *)
Definition inode_free (ip : Z) : FM unit :=
  ilock ip;;
  n ← MSDOS_I ip;
  if iref n <? 1 then panic "inode free"
  else
    set_inode ip (upd_iref (iref n - 1) n);;
    (if iref n - 1 =? 0 then DeleteInode ip else mret tt);;
    iunlock ip.

Definition inode_read (ip : Z) (out : Z → list Z → FM Z) (off n : Z) : FM Z :=
  ilock ip;; r ← ReadInode ip out off (u32 n); iunlock ip;; mret r.
Definition inode_write (junk : list Z) (ip : Z) (inp : Z → list Z → FM (Z * list Z)) (off n : Z) : FM Z :=
  ilock ip;; r ← WriteInode junk ip inp off (u32 n); iunlock ip;; mret r.

Definition GetRootInode : FM Z := inode_dup root.
Definition GetInode (pos : Z) : FM Z :=
  ip ← on_map (get fuel pos);
  if ip =? 0 then mret 0 else inode_dup ip.
Definition AllocInode : FM Z :=
  ip ← gets (λ s, new_inode (inodes s));
  set_inode ip zero_inode;;
  mret ip.

(** [mode] is a [short]: [__S_IFREG] makes it negative. *)
Definition BuildInode (entry : list Z) (pos parent : Z) : FM Z :=
  ip ← GetInode pos;
  if negb (ip =? 0) then mret ip
  else
    ip ← AllocInode;
    on_map (put new_node fuel pos ip);;
    p ← MSDOS_I parent;
    set_inode parent (upd_iref (iref p + 1) p);;
    let start := i32 (GetStartCluster entry) in
    let dir := negb (Z.land (byte entry O_ATTRIB) kFatAttrDirentory =? 0) in
    set_inode ip {|
      i_start := start; i_logi := 0; i_clus := start; i_attrs := 0; i_pos := pos;
      idev := dev_; inum := GetStartCluster entry; test_name := take 11 entry;
      iref := 1; ilocked := false; imode := if dir then __S_IFDIR else __S_IFREG - 65536;
      iparent := parent; inlink := 0; isz := if dir then u32 (-1) else word entry O_FILE_SIZE;
      is_mp_target := false;
      iatime := FatTime2Unix (half entry O_ADATE) 0;
      imtime := FatTime2Unix (half entry O_MDATE) (half entry O_MTIME);
      ictime := FatTime2Unix (half entry O_CDATE) (half entry O_CTIME);
    |};;
    mret ip.

(** ** Names in directory entries *)

(** The length of the bytes before the first space, at most [n]. *)
Fixpoint until_space (l : list Z) (n : nat) : nat :=
  match n, l with
  | S n, c :: l => if c =? 0x20 then O else S (until_space l n)
  | _, _ => O
  end.
(** [copysfn]: the length of the name and the new [dst]; without an extension
    no NUL is stored. *)
Definition copysfn (sfn dst : list Z) : Z * list Z :=
  let n := until_space sfn 8 in
  let dst := splice dst 0 (take n sfn) in
  let i := until_space (drop 8 sfn) 3 in
  if Nat.eqb i 0 then (Z.of_nat n, dst)
  else
    let dst := splice dst n [46] in
    let dst := splice dst (n + 1) (take i (drop 8 sfn)) in
    let n := (n + 1 + i)%nat in
    (Z.of_nat n, splice dst n [0]).

(** [CopyWcharToChar]: every other byte. *)
Fixpoint narrow (l : list Z) (i n : nat) : list Z :=
  match n with O => [] | S n => byte l i :: narrow l (i + 2) n end.
(** A name of more than 51 characters has a fifth long entry, whose name goes
    past the end of the callers' 64 bytes. *)
Definition copylfn (entry dst : list Z) : list Z :=
  let sno := Z.land (byte entry 0) (Z.lnot 0x40) in
  let offset := i32 (u32 (kLongNameLength * (sno - 1))) in
  let dst := splice dst (Z.to_nat offset) (narrow entry O_NAME0_4 5) in
  let dst := splice dst (Z.to_nat (offset + 5)) (narrow entry O_NAME5_10 6) in
  splice dst (Z.to_nat (offset + 11)) (narrow entry O_NAME11_12 2).

(** [for (int i = 1; i < nlfn; i++)]: [None] when an entry cannot be read. *)
Fixpoint rest_long (n : nat) (dir off : Z) (entry tmp : list Z) : FM (option (Z * list Z * list Z)) :=
  match n with
  | O => mret (Some (off, entry, tmp))
  | S n =>
      '(ok, entry) ← read_entry dir off entry;
      if (ok : bool) then rest_long n dir (off + kMsdosEntrySize) entry (copylfn entry tmp)
      else mret None
  end.

(** What one turn of the loops of [Lookup] and [Unlink] found at [off]: the
    end of the directory, or an entry, its name in [tmp], the offset behind it
    and the number of long entries of the last long name. *)
Inductive turn := TEnd | TEntry (entry tmp : list Z) (off nlfn : Z).

(** [short] says whether a short entry's name is copied ([Lookup] does). *)
Definition next_entry (short : bool) (dir off nlfn : Z) (entry tmp : list Z) : FM turn :=
  '(ok, entry) ← read_entry dir off entry;
  if negb ok then mret TEnd
  else
    let off := off + kMsdosEntrySize in
    if byte entry 0 =? 0 then mret TEnd
    else if negb (byte entry O_ATTRIB =? kFatAttrLongEntry) then
      mret (TEntry entry (if short then (copysfn entry tmp).2 else tmp) off nlfn)
    else if Z.land (byte entry 0) 0xc0 =? 0x40 then
      let nlfn := Z.land (byte entry 0) (Z.lnot 0x40) in
      r ← rest_long (Z.to_nat (nlfn - 1)) dir off entry (copylfn entry tmp);
      match r with
      | None => mret TEnd
      | Some (off, entry, tmp) =>
          '(ok, entry) ← read_entry dir off entry;
          if negb ok then panic "except sfn"
          else mret (TEntry entry tmp (off + kMsdosEntrySize) nlfn)
      end
    else mret (TEntry entry tmp off nlfn).

(** The disk position of the entry that ends at [off]. *)
Definition entry_pos (dir off : Z) : FM Z :=
  let cluster := (off - kMsdosEntrySize) / bytes_per_cluster_ g in
  c ← bmap dir (u32 cluster);
  mret (u64 (u32 (FirstSector (u32 c) * kSectorSize) + (off - kMsdosEntrySize) mod bytes_per_cluster_ g)).

(** Names are compared up to the length of [name] only. *)
Definition same_name (nocase : bool) (nm : mem) (name len : Z) (tmp : list Z) : bool :=
  let m := wr_bytes nm a_loc tmp in
  (if nocase then strncasecmp m name a_loc (Z.to_nat len) else strncmp m name a_loc (Z.to_nat len)) =? 0.

Fixpoint Lookup_loop (fuel : nat) (dir : Z) (nm : mem) (name off : Z) (entry tmp : list Z) : FM Z :=
  match fuel with
  | O => λ _, NoFuel
  | S fuel =>
      t ← next_entry true dir off 0 entry tmp;
      match t with
      | TEnd => mret 0
      | TEntry entry tmp off _ =>
          len ← c_strlen nm name;
          if negb (same_name true nm name len tmp) then Lookup_loop fuel dir nm name off entry tmp
          else
            pos ← entry_pos dir off;
            BuildInode entry pos dir
      end
  end.

(** [strncmp(".", name, strlen(name))]: also true of the empty name. *)
Definition is_prefix_of_dots (dots : list Z) (nm : mem) (name : Z) : FM bool :=
  len ← c_strlen nm name;
  mret (strncmp (wr_bytes nm a_loc (dots ++ [0])) a_loc name (Z.to_nat len) =? 0).

Definition Lookup (dir : Z) (nm : mem) (name : Z) (tmp0 : list Z) : FM Z :=
  dot ← is_prefix_of_dots [46] nm name;
  n ← MSDOS_I dir;
  if (dot : bool) then set_inode dir (upd_iref (iref n + 1) n);; mret dir
  else
    dotdot ← is_prefix_of_dots [46; 46] nm name;
    if (dotdot : bool) then
      p ← MSDOS_I (iparent n);
      set_inode (iparent n) (upd_iref (iref p + 1) p);;
      mret (iparent n)
    else Lookup_loop fuel dir nm name 0 (replicate 32 0) tmp0.

(** The two entries of the new directory are local and not initialised. *)
Definition Mkdir (junk : list Z) (dir : Z) (nm : mem) (name mode : Z) (tmp0 : list Z) : FM Z :=
  r ← Create junk dir nm name (Z.lor mode __S_IFDIR);
  if r <? 0 then mret (-1)
  else
    ip ← Lookup dir nm name tmp0;
    if ip =? 0 then panic "mkdir"
    else
      n ← MSDOS_I ip;
      e0 ← FillShortFile junk (λ _, 0) 1 (u32 (i_start n)) mode;
      d ← MSDOS_I dir;
      e1 ← FillShortFile junk (λ _, 0) 1 (u32 (i_start d)) (imode d);
      let e0 := splice e0 0 [46] in
      let e1 := splice e1 0 [46; 46] in
      WriteInode junk ip (inp_local (e0 ++ e1)) 0 64.

Fixpoint mark_loop (n : nat) (junk : list Z) (ip off flag : Z) (entry : list Z) : FM unit :=
  match n with
  | O => mret tt
  | S n =>
      '(ok, entry) ← read_entry ip off entry;
      if negb ok then mret tt
      else
        let entry := splice entry 0 [kDeletedMark] in
        r ← WriteInode junk ip (inp_local entry) off kMsdosEntrySize;
        if negb (r =? kMsdosEntrySize) then mret tt
        else mark_loop n junk ip (u32 (off + flag * kMsdosEntrySize)) flag entry
  end.
Definition MarkEntryDeleted (junk : list Z) (ip off n : Z) : FM unit :=
  if n =? 0 then mret tt
  else mark_loop (Z.to_nat (Z.abs n)) junk ip off (if 0 <? n then 1 else -1) (replicate 32 0).

(** [nlfn] keeps its value over short entries. *)
Fixpoint Unlink_loop (fuel : nat) (junk : list Z) (dir : Z) (nm : mem) (name off nlfn : Z)
    (entry tmp : list Z) : FM Z :=
  match fuel with
  | O => λ _, NoFuel
  | S fuel =>
      t ← next_entry false dir off nlfn entry tmp;
      match t with
      | TEnd => mret 0
      | TEntry entry tmp off nlfn =>
          len ← c_strlen nm name;
          if negb (same_name false nm name len tmp)
          then Unlink_loop fuel junk dir nm name off nlfn entry tmp
          else
            pos ← entry_pos dir off;
            ip ← GetInode pos;
            if negb (ip =? 0) then inode_free ip;; mret (-1)
            else
              MarkEntryDeleted junk dir (u32 (off - kMsdosEntrySize)) (- (nlfn + 1));;
              FreeClusterChain (u32 (GetStartCluster entry));;
              mret 0
      end
  end.
Definition Unlink (junk : list Z) (dir : Z) (nm : mem) (name : Z) (tmp0 : list Z) : FM Z :=
  Unlink_loop fuel junk dir nm name 0 0 (replicate 32 0) tmp0.
End fat32.
