(* ===== verification/Fat32Props.v ===== *)
(** * Properties of the FAT32 file system model: the cluster table, chains of
    clusters, reading and writing files *)
From S2P Require Import Prelude Mem Buf HashMap Time Fat32.

Section props.
Context {W : Type}.
Context (g : finfo) (dev_ root : Z) (now : Z) (fuel : nat).
Implicit Types s : fat W.

(** The disks the theorems speak of: sectors of 512 bytes, clusters of 4096,
    a table that [fat_cache_] holds entirely, data below 2 GB. *)
Record geometry s : Prop := {
  ge_bps : bytes_per_sector_ g = 512;
  ge_spc : sectors_per_cluster_ g = 8;
  ge_bpc : bytes_per_cluster_ g = 4096;
  ge_res : 0 ≤ reserve_sectors_ g;
  ge_tab : reserve_sectors_ g + 4 * cluster_count_ g / 512 < 1024;
  ge_count : 2 ≤ cluster_count_ g;
  ge_root : 0 ≤ root_directory_cluster_start g < 2 ^ 32;
  ge_fds : first_data_sector (fbl s) = first_data_sector_ g;
  ge_fspc : sectors_per_cluster (fbl s) = 8;
  ge_pos : 0 ≤ first_data_sector_ g;
  ge_size : (first_data_sector_ g + (cluster_count_ g - 1) * 8) * 512 < 2 ^ 31;
  ge_mem : mem_ok (fat_cache_ s);
}.

Definition in_table (c : Z) : Prop := 0 ≤ c ≤ cluster_count_ g.
Definition data_cluster (c : Z) : Prop := 2 ≤ c ≤ cluster_count_ g.

(** Entry [c] of the table in memory. *)
Definition fat_get s (c : Z) : Z := ld32 (fat_cache_ s) (4 * c).
Definition fat_set (c v : Z) s : fat W :=
  Fat (fbl s) (st32 (fat_cache_ s) (4 * c) v) (inodes s) (inode_cache_map_ s) (local_ s) (fw s).

Lemma count_bound s : geometry s → cluster_count_ g < 131072.
Proof. intros [_ _ _ Hr Ht _ _ _ _ _ _ _]. dlia. Qed.

Lemma fat_index s c :
  geometry s → in_table c →
  (cluster_count_ g <? c) = false ∧ (FatSectorOfCluster g c <? 1024) = true ∧
  (FatSectorOfCluster g c - reserve_sectors_ g) * 512 + FatOffsetOfCluster g c = 4 * c.
Proof.
  intros Hg Hc. pose proof (count_bound s Hg). destruct Hg as [Hb _ _ Hr Ht _ _ _ _ _ _ _].
  unfold in_table, FatSectorOfCluster, FatOffsetOfCluster in *. rewrite Hb, Z.shiftl_mul_pow2 by lia.
  rewrite (u32_small (c * 2 ^ 2)) by lia.
  assert (c * 2 ^ 2 / 512 ≤ 4 * cluster_count_ g / 512) by (apply Z.div_le_mono; lia).
  rewrite u32_small by dlia. split_and!; [apply Z.ltb_ge; lia|apply Z.ltb_lt; lia|dlia].
Qed.

Lemma GetFatEntry_ok s c : geometry s → in_table c → GetFatEntry g c s = Done (fat_get s c, s).
Proof.
  intros Hg Hc. destruct (fat_index s c Hg Hc) as (H1 & H2 & H3). unfold GetFatEntry.
  rewrite H1, H2. unfold gets. by rewrite H3.
Qed.
Lemma GetFatEntry_out s c : cluster_count_ g < c → GetFatEntry g c s = Done (2 ^ 32 - 1, s).
Proof. intros Hc. unfold GetFatEntry. apply Z.ltb_lt in Hc as ->. done. Qed.
Lemma SetFatEntey_ok s c v : geometry s → in_table c → SetFatEntey g c v s = Done (0, fat_set c v s).
Proof.
  intros Hg Hc. destruct (fat_index s c Hg Hc) as (H1 & H2 & H3). unfold SetFatEntey.
  rewrite H1, H2. unfold_M. by rewrite H3.
Qed.

Lemma fat_get_range s c : geometry s → 0 ≤ fat_get s c < 2 ^ 32.
Proof. intros Hg. apply (ld_range 4). apply Hg. Qed.
Lemma fat_get_set s c v : fat_get (fat_set c v s) c = u32 v.
Proof. apply (ld_st_same 4). Qed.
Lemma fat_get_set_ne s c c' v : c' ≠ c → fat_get (fat_set c v s) c' = fat_get s c'.
Proof. intros Hne. apply (ld_st_disjoint 4 4). lia. Qed.
Lemma geometry_set s c v : geometry s → geometry (fat_set c v s).
Proof. intros []. split; try done. by apply st_ok. Qed.

(** ** Chains of clusters *)
Fixpoint cchain (f : Z → Z) (c : Z) (cs : list Z) : Prop :=
  match cs with
  | [] => c = kEndOfCluster32
  | x :: cs => c = x ∧ data_cluster x ∧ cchain f (f x) cs
  end.

Lemma cchain_ext f f' c cs : (∀ x, x ∈ cs → f' x = f x) → cchain f c cs → cchain f' c cs.
Proof.
  revert c. induction cs as [|x cs IH]; intros c Hext; [done|]. cbn. intros (-> & Hx & Hc).
  split_and!; [done|done|]. rewrite Hext by (by left). apply IH; [|done]. intros y Hy. apply Hext. by right.
Qed.
Lemma cchain_data f c cs x : cchain f c cs → x ∈ cs → data_cluster x.
Proof.
  revert c. induction cs as [|y cs IH]; intros c; [by intros _ ?%elem_of_nil|].
  cbn. intros (-> & Hy & Hc) [->|Hx]%elem_of_cons; [done|by eapply IH].
Qed.
Lemma data_not_end s c : geometry s → data_cluster c → c ≠ kEndOfCluster32 ∧ in_table c.
Proof.
  intros Hg Hc. pose proof (count_bound s Hg). unfold data_cluster, in_table, kEndOfCluster32 in *. lia.
Qed.

Lemma FreeClusterChain_loop_spec n s c cs :
  geometry s → cchain (fat_get s) c cs → NoDup cs → (length cs < n)%nat →
  ∃ s', FreeClusterChain_loop g n c s = Done (tt, s') ∧ geometry s' ∧
    (∀ x, fat_get s' x = if decide (x ∈ cs) then 0 else fat_get s x) ∧
    fbl s' = fbl s ∧ inodes s' = inodes s ∧ inode_cache_map_ s' = inode_cache_map_ s ∧
    local_ s' = local_ s ∧ fw s' = fw s.
Proof.
  revert s c cs. induction n as [|n IH]; intros s c cs Hg Hc Hnd Hn; [lia|]. cbn [FreeClusterChain_loop].
  destruct cs as [|x cs].
  { cbn in Hc. subst c. rewrite Z.eqb_refl. exists s. by split_and!. }
  destruct Hc as (-> & Hx & Hc). destruct (data_not_end s x Hg Hx) as [Hne Hin].
  apply Z.eqb_neq in Hne as ->. unfold_M. rewrite GetFatEntry_ok, SetFatEntey_ok by done.
  apply NoDup_cons in Hnd as [Hnin Hnd].
  destruct (IH (fat_set x 0 s) (fat_get s x) cs) as (s' & Hrun & Hg' & Hfat & Hrest).
  - by apply geometry_set.
  - eapply cchain_ext; [|exact Hc]. intros y Hy. apply fat_get_set_ne. congruence.
  - done.
  - cbn in Hn. lia.
  - exists s'. split; [done|]. split; [done|]. split; [|done]. intros y. rewrite Hfat.
    destruct (decide (y ∈ cs)) as [Hy|Hy].
    + rewrite decide_True by (by right). done.
    + destruct (decide (y = x)) as [->|Hyx].
      * rewrite decide_True by (by left). by rewrite fat_get_set.
      * rewrite decide_False by (rewrite not_elem_of_cons; done). by apply fat_get_set_ne.
Qed.

(** ** Allocating a cluster

    [ZeroCluster] writes the device past the buffer cache: only the device
    changes, in the eight sectors of the cluster. *)
Definition bstart (c : Z) : Z := (first_data_sector_ g + (c - 2) * 8) * 512.
Definition in_cluster (c x : Z) : Prop := bstart c ≤ x < bstart c + 4096.

(** [s'] is [s] but for the table and the device; the device differs only
    where [D] holds. *)
Record disk_step (D : Z → Prop) s s' : Prop := {
  ds_cache : bufCache (fbl s') = bufCache (fbl s);
  ds_fds : first_data_sector (fbl s') = first_data_sector (fbl s);
  ds_spc : sectors_per_cluster (fbl s') = sectors_per_cluster (fbl s);
  ds_ticks : bticks (fbl s') = bticks (fbl s);
  ds_devs : ∀ dev x, dev ≠ dev_ → rw_devs (fbl s') dev x = rw_devs (fbl s) dev x;
  ds_dev : ∀ x, ¬ D x → rw_devs (fbl s') dev_ x = rw_devs (fbl s) dev_ x;
  ds_inodes : inodes s' = inodes s;
  ds_map : inode_cache_map_ s' = inode_cache_map_ s;
  ds_local : local_ s' = local_ s;
  ds_w : fw s' = fw s;
}.

Lemma disk_step_refl D s : disk_step D s s.
Proof. by split. Qed.
Lemma disk_step_trans D1 D2 (D : Z → Prop) s1 s2 s3 :
  disk_step D1 s1 s2 → disk_step D2 s2 s3 → (∀ x, D1 x → D x) → (∀ x, D2 x → D x) → disk_step D s1 s3.
Proof.
  intros [] [] H1 H2. split; try congruence.
  - intros dev x Hd. etransitivity; [apply ds_devs1|apply ds_devs0]; done.
  - intros x Hx. etransitivity; [apply ds_dev1|apply ds_dev0]; auto.
Qed.
Lemma disk_step_set D c v s : disk_step D s (fat_set c v s).
Proof. by split. Qed.
Lemma geometry_step D s s' :
  geometry s → disk_step D s s' → mem_ok (fat_cache_ s') → geometry s'.
Proof. intros [] [] Hm. split; try done; congruence. Qed.

Lemma WriteSector_ok s sector l :
  length l = 512%nat → 0 ≤ sector → sector * 512 + 512 < 2 ^ 31 →
  ∃ s', WriteSector dev_ sector l s = Done (tt, s') ∧ fat_cache_ s' = fat_cache_ s ∧
    disk_step (λ x, sector * 512 ≤ x < sector * 512 + 512) s s' ∧
    (∀ x, rw_devs (fbl s') dev_ x = wr_bytes (rw_devs (fbl s) dev_) (sector * 512) l x).
Proof.
  intros Hl H0 H1. unfold WriteSector, on_bl, RwDevWrite, kSectorSize. unfold_M.
  rewrite u32_small, i32_small by lia.
  destruct (VirtioDisk_write_ok (rw_devs (fbl s) dev_) l (sector * 512) 512) as (d & -> & Hd); [lia|lia|lia|dlia|done|lia|].
  eexists. split; [done|]. split; [done|]. split.
  - split; try done; cbn; [by intros dev x ->%Z.eqb_neq|]. intros x Hx. rewrite Z.eqb_refl, Hd.
    apply wr_bytes_out. lia.
  - intros x. cbn. by rewrite Z.eqb_refl.
Qed.

Lemma zero_sectors_ok n s sector :
  0 ≤ sector → (sector + Z.of_nat n) * 512 < 2 ^ 31 →
  ∃ s', zero_sectors dev_ sector n s = Done (tt, s') ∧ fat_cache_ s' = fat_cache_ s ∧
    disk_step (λ x, sector * 512 ≤ x < (sector + Z.of_nat n) * 512) s s' ∧
    (∀ x, sector * 512 ≤ x < (sector + Z.of_nat n) * 512 → rw_devs (fbl s') dev_ x = 0).
Proof.
  revert s sector. induction n as [|n IH]; intros s sector H0 H1; cbn [zero_sectors].
  { exists s. split_and!; [done|done|apply disk_step_refl|lia]. }
  rewrite i32_small by lia. unfold_M.
  destruct (WriteSector_ok s sector (replicate 512 0)) as (s1 & -> & Hf1 & Hs1 & Hd1); [by rewrite length_replicate|lia|lia|].
  rewrite u32_small by lia.
  destruct (IH s1 (sector + 1)) as (s2 & -> & Hf2 & Hs2 & Hd2); [lia|lia|].
  exists s2. split_and!; [done|congruence|eapply disk_step_trans; [done|done|cbn; lia..]|].
  intros x Hx. destruct (decide ((sector + 1) * 512 ≤ x)); [apply Hd2; lia|].
  rewrite (ds_dev _ _ _ Hs2), Hd1 by lia.
  replace x with (sector * 512 + Z.of_nat (Z.to_nat (x - sector * 512))) by lia.
  apply wr_bytes_in. rewrite lookup_replicate. split; [done|lia].
Qed.

Lemma ZeroCluster_ok s c :
  geometry s → data_cluster c →
  ∃ s', ZeroCluster g dev_ c s = Done (tt, s') ∧ fat_cache_ s' = fat_cache_ s ∧
    disk_step (in_cluster c) s s' ∧ (∀ x, in_cluster c x → rw_devs (fbl s') dev_ x = 0).
Proof.
  intros Hg Hc. destruct (Hg) as [_ Hs _ _ _ _ _ _ _ Hp Hz _]. unfold data_cluster in Hc.
  unfold ZeroCluster, FirstSector. rewrite Hs. pose proof (count_bound s Hg).
  rewrite (u32_small (c - 2)) by lia. rewrite u32_small by lia.
  destruct (zero_sectors_ok 8 s (first_data_sector_ g + (c - 2) * 8)) as (s' & Hrun & Hf & Hs' & Hd); [lia|lia|].
  exists s'. split; [done|]. split; [done|]. split.
  - eapply disk_step_trans; [apply (disk_step_refl (λ _, False))|exact Hs'|done|]. unfold in_cluster, bstart. cbn. lia.
  - intros x Hx. apply Hd. unfold in_cluster, bstart in Hx. lia.
Qed.

(** What [AllocCluster] does when [c] is the first free cluster. *)
Record allocated (c : Z) s s' : Prop := {
  al_geo : geometry s';
  al_fat : ∀ x, fat_get s' x = if decide (x = c) then kEndOfCluster32 else fat_get s x;
  al_step : disk_step (in_cluster c) s s';
  al_zero : ∀ x, in_cluster c x → rw_devs (fbl s') dev_ x = 0;
}.
Definition first_free s (from c : Z) : Prop :=
  from ≤ c ∧ data_cluster c ∧ fat_get s c = 0 ∧ ∀ x, from ≤ x < c → fat_get s x ≠ 0.

Lemma AllocCluster_loop_ok n s from c :
  geometry s → 2 ≤ from → first_free s from c → c - from < Z.of_nat n →
  ∃ s', AllocCluster_loop g dev_ n from s = Done (c, s') ∧ allocated c s s'.
Proof.
  intros Hg. revert from. induction n as [|n IH]; intros from H2 (Hle & Hc & Hfree & Hmin) Hn; [lia|].
  cbn [AllocCluster_loop]. unfold_M. rewrite GetFatEntry_ok by (unfold in_table, data_cluster in *; (done || lia)).
  destruct (decide (from = c)) as [->|Hne].
  - rewrite Hfree. cbn. destruct (data_not_end s c Hg Hc) as [_ Hin]. rewrite SetFatEntey_ok by done.
    destruct (ZeroCluster_ok (fat_set c kEndOfCluster32 s) c) as (s' & -> & Hf & Hs & Hd); [by apply geometry_set|done|].
    exists s'. split; [done|]. split; [..|done].
    + eapply geometry_step; [by apply (geometry_set s c kEndOfCluster32)|done|]. rewrite Hf. apply st_ok, Hg.
    + intros x. unfold fat_get at 1. rewrite Hf. fold (fat_get (fat_set c kEndOfCluster32 s) x).
      destruct (decide (x = c)) as [->|]; [by rewrite fat_get_set|by apply fat_get_set_ne].
    + eapply disk_step_trans; [apply (disk_step_set (λ _, False))|exact Hs|done|done].
  - assert (fat_get s from ≠ 0) as Hnz%Z.eqb_neq by (apply Hmin; lia). rewrite Hnz. apply IH; [lia| |lia].
    split_and!; [lia|done|done|]. intros x Hx. apply Hmin. lia.
Qed.

(** A full disk: the loop never ends. *)
Lemma AllocCluster_loop_full n s from :
  geometry s → 2 ≤ from → (∀ x, data_cluster x → fat_get s x ≠ 0) →
  AllocCluster_loop g dev_ n from s = NoFuel.
Proof.
  intros Hg Hfrom Hfull. revert from Hfrom. induction n as [|n IH]; intros from Hfrom; [done|].
  cbn [AllocCluster_loop]. unfold_M. destruct (decide (from ≤ cluster_count_ g)) as [Hle|Hgt].
  - rewrite GetFatEntry_ok by (done || unfold in_table; lia).
    assert (fat_get s from ≠ 0) as Hnz%Z.eqb_neq by (apply Hfull; unfold data_cluster; lia). rewrite Hnz.
    apply IH. lia.
  - rewrite GetFatEntry_out by lia. cbn. apply IH. lia.
Qed.

(** ** From a position in a file to its cluster *)
Lemma first_free_exists s c :
  data_cluster c → fat_get s c = 0 → ∃ c', first_free s 2 c' ∧ c' ≤ c.
Proof.
  intros [Hc2 Hc] Hf. assert (∀ n, ∀ c, c = 2 + Z.of_nat n → data_cluster c → fat_get s c = 0 →
    ∃ c', first_free s 2 c' ∧ c' ≤ c) as H; [|by apply (H (Z.to_nat (c - 2))); [lia|split|]].
  clear. intros n. induction (lt_wf n) as [n _ IH]. intros c -> Hc Hf.
  destruct (decide (Exists (λ k : nat, fat_get s (2 + Z.of_nat k) = 0) (seq 0 n))) as [Hex|Hno].
  - apply Exists_exists in Hex as (k & Hk & Hfk). apply elem_of_seq in Hk.
    destruct (IH k ltac:(lia) (2 + Z.of_nat k) eq_refl) as (c' & Hc' & Hle); [unfold data_cluster in *; lia|done|].
    exists c'. split; [done|lia].
  - exists (2 + Z.of_nat n). split; [|lia]. split_and!; [lia|done|done|]. intros x Hx Hfx. apply Hno.
    apply Exists_exists. exists (Z.to_nat (x - 2)). split; [apply elem_of_seq; lia|].
    by replace (2 + Z.of_nat (Z.to_nat (x - 2))) with x by lia.
Qed.

(** At least [k] data clusters are free. *)
Definition enough_free s (k : nat) : Prop :=
  ∃ X : gset Z, (k ≤ size X)%nat ∧ ∀ c, c ∈ X → data_cluster c ∧ fat_get s c = 0.

Lemma enough_free_step s s' c k :
  enough_free s (S k) → (∀ x, x ≠ c → fat_get s x = 0 → fat_get s' x = 0) → enough_free s' k.
Proof.
  intros (X & Hk & HX) Hf. exists (X ∖ {[c]}). split.
  - rewrite size_difference_alt. assert (size (X ∩ {[c]}) ≤ 1)%nat; [|lia].
    rewrite <- (size_singleton (C:=gset Z) c). apply subseteq_size. set_solver.
  - intros x [Hx Hxc]%elem_of_difference. rewrite elem_of_singleton in Hxc. destruct (HX x Hx) as [? ?].
    split; [done|by apply Hf].
Qed.

Lemma cchain_nonzero s c cs x : cchain (fat_get s) c cs → x ∈ cs → fat_get s x ≠ 0.
Proof.
  revert c. induction cs as [|y cs IH]; intros c; [by intros _ ?%elem_of_nil|].
  cbn. intros (-> & Hy & Hc) [->|Hx]%elem_of_cons; [|by eapply IH].
  destruct cs as [|z cs]; cbn in Hc; [by rewrite Hc|]. destruct Hc as (-> & [? _] & _). lia.
Qed.

(** The chain is long enough: [bmap] only walks it. *)
Lemma bmap_loop_walk n s cur cs c :
  geometry s → cchain (fat_get s) cur cs → cs !! n = Some c → bmap_loop g dev_ fuel n cur s = Done (c, s).
Proof.
  intros Hg. revert cur cs. induction n as [|n IH]; intros cur [|x cs] Hc Hn; try done; cbn [bmap_loop].
  - cbn in *. destruct Hc as (-> & _). injection Hn as ->. done.
  - destruct Hc as (-> & Hx & Hc). destruct (data_not_end s x Hg Hx) as [Hne%Z.eqb_neq Hin].
    rewrite Hne. unfold_M. rewrite GetFatEntry_ok by done. cbn in Hn.
    destruct cs as [|y cs]; [done|]. destruct (Hc) as (Hy & Hyd & _).
    destruct (data_not_end s y Hg Hyd) as [Hyne _]. rewrite <- Hy in Hyne. apply Z.eqb_neq in Hyne as ->.
    by eapply IH.
Qed.

(** [s'] extends the chain [cs] of [s] by the clusters [new]. *)
Record extended (cs new : list Z) s s' : Prop := {
  ex_geo : geometry s';
  ex_nodup : NoDup (cs ++ new);
  ex_free : ∀ x, x ∈ new → data_cluster x ∧ fat_get s x = 0;
  ex_other : ∀ x, x ∉ new → last cs ≠ Some x → fat_get s' x = fat_get s x;
  ex_step : disk_step (λ x, ∃ c, c ∈ new ∧ in_cluster c x) s s';
  ex_zero : ∀ c x, c ∈ new → in_cluster c x → rw_devs (fbl s') dev_ x = 0;
}.

Lemma bmap_loop_extend n s cur cs :
  geometry s → cchain (fat_get s) cur cs → NoDup cs → cs ≠ [] → (length cs ≤ S n)%nat →
  cluster_count_ g < Z.of_nat fuel → enough_free s (S n - length cs) →
  ∃ new s' c, bmap_loop g dev_ fuel n cur s = Done (c, s') ∧ extended cs new s s' ∧
    cchain (fat_get s') cur (cs ++ new) ∧ length (cs ++ new) = S n ∧ last (cs ++ new) = Some c.
Proof.
  revert s cur cs. induction n as [|n IH]; intros s cur cs Hg Hc Hnd Hne Hlen Hfuel Hfree.
  { destruct cs as [|x [|y cs]]; [done| |cbn in Hlen; lia]. cbn in Hc. destruct Hc as (-> & Hx).
    exists [], s, x. split; [done|]. split; [|done]. split; [done|by rewrite app_nil_r|by intros ? ?%elem_of_nil|done|
      apply disk_step_refl|by intros ? ? ?%elem_of_nil]. }
  destruct cs as [|x cs]; [done|]. destruct Hc as (-> & Hx & Hc). cbn [bmap_loop].
  destruct (data_not_end s x Hg Hx) as [Hxne Hxin]. apply Z.eqb_neq in Hxne as Hxne'. rewrite Hxne'.
  unfold_M. rewrite GetFatEntry_ok by done. apply NoDup_cons in Hnd as [Hnin Hnd].
  destruct cs as [|y cs].
  - cbn in Hc. rewrite Hc, Z.eqb_refl. cbn [length Nat.sub] in Hfree.
    destruct Hfree as (X & HX & Hfree). destruct (set_choose_L X) as [c0 Hc0].
    { intros ->. rewrite size_empty in HX. lia. }
    destruct (Hfree c0 Hc0) as [Hd0 Hf0]. destruct (first_free_exists s c0 Hd0 Hf0) as (c & Hff & Hle).
    destruct (AllocCluster_loop_ok fuel s 2 c Hg ltac:(lia) Hff) as (s1 & Hrun & [Hg1 Hfat1 Hs1 Hz1]).
    { destruct Hff as (_ & [_ ?] & _). lia. }
    unfold AllocCluster. rewrite Hrun, SetFatEntey_ok by done. destruct Hff as (_ & Hcd & Hcf & _).
    assert (x ≠ c) as Hxc. { intros ->. rewrite Hc in Hcf. done. }
    set (s2 := fat_set x c s1). destruct (data_not_end s c Hg Hcd) as [Hcne Hcin].
    assert (u32 c = c) as Hcu by (apply u32_small; pose proof (count_bound s Hg); destruct Hcd; lia).
    assert (∀ z, fat_get s2 z = if decide (z = x) then c else if decide (z = c) then kEndOfCluster32 else fat_get s z) as Hfat2.
    { intros z. destruct (decide (z = x)) as [->|Hzx]; unfold s2; [by rewrite fat_get_set|].
      by rewrite fat_get_set_ne, Hfat1. }
    destruct (IH s2 c [c]) as (new & s' & r & Hrun' & [Hg' Hnd' Hfr' Hoth' Hst' Hz'] & Hch' & Hlen' & Hlast').
    + by apply geometry_set.
    + cbn. split_and!; [done|done|]. rewrite Hfat2, decide_False, decide_True by done. done.
    + apply NoDup_singleton.
    + done.
    + cbn. lia.
    + done.
    + cbn [length Nat.sub]. rewrite Nat.sub_0_r. apply (enough_free_step s s2 c); [by exists X|].
      intros z Hz Hz0. rewrite Hfat2. destruct (decide (z = x)) as [->|]; [by rewrite Hc in Hz0|by rewrite decide_False].
    + cbn in Hlen'. exists (c :: new), s', r.
      assert (∀ z, z ∈ new → z ≠ x ∧ z ≠ c ∧ data_cluster z ∧ fat_get s z = 0) as Hnew.
      { intros z Hz. destruct (Hfr' z Hz) as [Hzd Hz0]. rewrite Hfat2 in Hz0.
        destruct (decide (z = x)); [destruct Hcd; lia|]. destruct (decide (z = c)); [done|]. done. }
      split; [done|]. split; [split|].
      * done.
      * cbn. apply NoDup_cons. split; [|exact Hnd'].
        rewrite elem_of_cons. intros [?|Hx']; [done|]. by apply Hnew in Hx' as [? _].
      * intros z [->|Hz]%elem_of_cons; [done|]. by destruct (Hnew z Hz) as (_ & _ & ? & ?).
      * intros z [Hzc Hz]%not_elem_of_cons Hl. cbn in Hl. rewrite Hoth'; [|done|cbn; congruence].
        rewrite Hfat2, decide_False, decide_False by congruence. done.
      * apply (disk_step_trans (in_cluster c) (λ w, ∃ d, d ∈ new ∧ in_cluster d w) _ s s1);
          [exact Hs1| |intros w Hw; exists c; split; [by left|done]|intros w (d & Hd & Hw); exists d; split; [by right|done]].
        apply (disk_step_trans (λ _, False) (λ w, ∃ d, d ∈ new ∧ in_cluster d w) _ s1 s2); [apply disk_step_set|exact Hst'|done|done].
      * intros d w [->|Hd]%elem_of_cons Hw; [|by eapply Hz'].
        rewrite (ds_dev _ _ _ Hst'); [by apply Hz1|]. intros (e & He & Hwe). destruct (Hnew e He) as (_ & Hec & _ & _).
        apply Hec. unfold in_cluster, bstart in *. lia.
      * split; [|split; [cbn; lia|done]]. cbn [app cchain]. split; [done|]. split; [done|].
        assert (fat_get s' x = c) as ->; [|exact Hch'].
        rewrite Hoth'; [by rewrite Hfat2, decide_True|by intros ?%Hnew; tauto|cbn; congruence].
  - destruct (Hc) as (Hy & Hyd & _). destruct (data_not_end s y Hg Hyd) as [Hyne _].
    rewrite <- Hy in Hyne. apply Z.eqb_neq in Hyne as ->.
    destruct (IH s (fat_get s x) (y :: cs)) as (new & s' & r & Hrun' & [Hg' Hnd' Hfr' Hoth' Hst' Hz'] & Hch' & Hlen' & Hlast');
      [done|done|done|done|cbn in *; lia|done|done|].
    assert (x ∉ new) as Hxnew.
    { intros Hx'. destruct (Hfr' x Hx') as [_ Hx0].
      apply (cchain_nonzero s x (x :: y :: cs) x); [by split_and!|by left|done]. }
    exists new, s', r. split; [done|]. split; [split|]; try done.
    + cbn. apply NoDup_cons. split; [|exact Hnd']. change (x ∉ (y :: cs) ++ new).
      rewrite elem_of_app. tauto.
    + change ((x :: y :: cs) ++ new) with (x :: ((y :: cs) ++ new)). split; [|split].
      * cbn [cchain]. split; [done|]. split; [done|]. rewrite Hoth'; [done|done|].
        intros Hl. apply Hnin. by apply last_Some_elem_of in Hl.
      * cbn in *. lia.
      * cbn in *. by rewrite Hlast'.
Qed.

(** [AllocCluster] gives the first free cluster, marks it as the end
    of a chain, zeroes its eight sectors on the device and changes nothing
    else; on a full disk its loop never ends, whatever the bound. *)
Theorem alloc_cluster_first_free (s : fat W) :
  geometry s → cluster_count_ g < Z.of_nat fuel →
  (∀ c, first_free s 2 c → ∃ s', AllocCluster g dev_ fuel s = Done (c, s') ∧ allocated c s s') ∧
  ((∀ x, data_cluster x → fat_get s x ≠ 0) → ∀ n, AllocCluster g dev_ n s = NoFuel) ∧
  ((∃ x, data_cluster x ∧ fat_get s x = 0) → ∃ c, first_free s 2 c).
Proof.
  intros Hg Hfuel. unfold AllocCluster. split_and!.
  - intros c Hc. apply AllocCluster_loop_ok; [done|lia|done|]. destruct Hc as (_ & [_ ?] & _). lia.
  - intros Hfull n. by apply AllocCluster_loop_full.
  - intros (x & Hx & Hx0). destruct (first_free_exists s x Hx Hx0) as (c & Hc & _). by exists c.
Qed.

(** Claim C36. [FreeClusterChain] ends, and frees exactly the clusters of the
    chain: their entries become 0, every other entry, the inodes and the
    device are as before. *)
Theorem free_chain_frees_exactly (s : fat W) (c : Z) (cs : list Z) :
  geometry s → cchain (fat_get s) c cs → NoDup cs → (length cs < fuel)%nat →
  ∃ s', FreeClusterChain g fuel c s = Done (tt, s') ∧ geometry s' ∧
    (∀ x, fat_get s' x = if decide (x ∈ cs) then 0 else fat_get s x) ∧
    fbl s' = fbl s ∧ inodes s' = inodes s ∧ inode_cache_map_ s' = inode_cache_map_ s.
Proof.
  intros Hg Hc Hnd Hf. destruct (FreeClusterChain_loop_spec fuel s c cs Hg Hc Hnd Hf)
    as (s' & Hrun & Hg' & Hfat & Hb & Hi & Hm & _). by exists s'.
Qed.
End props.
