(* ===== verification/Fat32Files.v ===== *)
(** * Properties of the FAT32 file system model: positions in files, reading and
    writing their contents, and updating directory entries *)
From S2P Require Import Prelude Mem Buf HashMap Time Fat32 Fat32Props.

(** ** Overwriting part of an array *)
Lemma length_splice l i bs : length (splice l i bs) = length l.
Proof.
  revert i bs. induction l as [|x l IH]; intros [|i] bs; cbn; try done; [|by rewrite IH].
  destruct bs; cbn; [done|by rewrite IH].
Qed.
Lemma splice_lookup l i bs j :
  splice l i bs !! j =
    if decide (i ≤ j < i + length bs)%nat then (if decide (j < length l)%nat then bs !! (j - i)%nat else None)
    else l !! j.
Proof.
  revert i bs j. induction l as [|x l IH]; intros i bs j.
  { destruct i; cbn; repeat case_decide; try done; lia. }
  destruct i as [|i]; cbn.
  - destruct bs as [|b bs]; [cbn; rewrite decide_False by (cbn; lia); done|].
    destruct j as [|j]; cbn.
    + rewrite !decide_True by (cbn; lia). done.
    + change ((b :: splice l 0 bs) !! S j) with (splice l 0 bs !! j). rewrite IH. repeat case_decide; cbn in *; try done; try lia.
      by rewrite Nat.sub_0_r.
  - destruct j as [|j].
    + rewrite decide_False by lia. done.
    + change ((x :: splice l i bs) !! S j) with (splice l i bs !! j). rewrite IH. repeat case_decide; cbn in *; try done; lia.
Qed.
Lemma splice_nil l i : splice l i [] = l.
Proof. apply list_eq. intros j. rewrite splice_lookup, decide_False by (cbn; lia). done. Qed.
Lemma splice_all l bs : length bs = length l → splice l 0 bs = bs.
Proof.
  intros Hl. apply list_eq. intros j. rewrite splice_lookup, Nat.sub_0_r. repeat case_decide; try done; [lia|].
  rewrite !lookup_ge_None_2; [done|lia|lia].
Qed.
Lemma splice_splice l i a b :
  splice (splice l i a) (i + length a) b = splice l i (a ++ b).
Proof.
  apply list_eq. intros j. rewrite !splice_lookup, length_splice, length_app.
  repeat case_decide; try done; try lia.
  - rewrite lookup_app_r by lia. f_equal. lia.
  - by rewrite lookup_app_l by lia.
Qed.
Lemma splice_app_r l1 l2 i bs :
  (length l1 ≤ i)%nat → splice (l1 ++ l2) i bs = l1 ++ splice l2 (i - length l1) bs.
Proof.
  revert i. induction l1 as [|x l1 IH]; intros i Hi; cbn; [by rewrite Nat.sub_0_r|].
  cbn in Hi. destruct i as [|i]; [lia|]. cbn. rewrite IH by lia. done.
Qed.
Lemma splice_app_l l1 l2 i bs :
  (i + length bs ≤ length l1)%nat → splice (l1 ++ l2) i bs = splice l1 i bs ++ l2.
Proof.
  intros Hi. apply list_eq. intros j. rewrite splice_lookup, !lookup_app, length_app, length_splice, splice_lookup.
  repeat case_decide; try done; try lia.
  destruct (bs !! (j - i)%nat) eqn:E; [done|]. apply lookup_ge_None_1 in E. lia.
Qed.

(** ** The bytes of a file *)

(** Clusters [cs] whose contents are given by [B]. *)
Definition contents (B : Z → list Z) (cs : list Z) : list Z := mjoin (B <$> cs).

Lemma contents_cons B c cs : contents B (c :: cs) = B c ++ contents B cs.
Proof. done. Qed.
Lemma length_contents B cs :
  (∀ c, length (B c) = Z.to_nat BSIZE) → length (contents B cs) = (Z.to_nat BSIZE * length cs)%nat.
Proof.
  intros HB. induction cs as [|c cs IH]; [cbn; lia|]. rewrite contents_cons, length_app, IH, HB. cbn [length]. lia.
Qed.
Lemma contents_ext B B' cs : (∀ c, c ∈ cs → B' c = B c) → contents B' cs = contents B cs.
Proof.
  intros HB. unfold contents. assert (B' <$> cs = B <$> cs) as ->; [|done].
  apply list_fmap_ext. intros i c Hc. apply HB. by eapply list_elem_of_lookup_2.
Qed.

(** Part of one cluster as part of the file. *)
Lemma contents_chunk B cs k c m n :
  (∀ c, length (B c) = Z.to_nat BSIZE) → cs !! k = Some c → (m + n ≤ Z.to_nat BSIZE)%nat →
  take n (drop m (B c)) = take n (drop (Z.to_nat BSIZE * k + m) (contents B cs)).
Proof.
  intros HB. revert k. induction cs as [|c' cs IH]; intros k Hk Hmn; [done|].
  rewrite contents_cons. destruct k as [|k].
  - injection Hk as ->. rewrite Nat.mul_0_r. cbn [Nat.add]. rewrite drop_app_le by (rewrite HB; lia).
    rewrite take_app_le; [done|]. rewrite length_drop, HB. lia.
  - cbn in Hk. rewrite (IH k Hk Hmn). rewrite drop_app_ge by (rewrite HB; lia). rewrite HB.
    do 2 f_equal. lia.
Qed.
Lemma contents_splice B B' cs k c m l :
  (∀ c, length (B c) = Z.to_nat BSIZE) → NoDup cs → cs !! k = Some c → (m + length l ≤ Z.to_nat BSIZE)%nat →
  B' c = splice (B c) m l → (∀ x, x ∈ cs → x ≠ c → B' x = B x) →
  contents B' cs = splice (contents B cs) (Z.to_nat BSIZE * k + m) l.
Proof.
  intros HB. revert k. induction cs as [|c' cs IH]; intros k Hnd Hk Hm Hc Hother; [done|].
  apply NoDup_cons in Hnd as [Hnin Hnd].
  rewrite !contents_cons. destruct k as [|k].
  - injection Hk as ->. rewrite (contents_ext B B').
    + rewrite Hc, Nat.mul_0_r. cbn [Nat.add]. by rewrite splice_app_l by (rewrite HB; lia).
    + intros x Hx. apply Hother; [by right|congruence].
  - cbn in Hk. rewrite (IH k), Hother; try done.
    + rewrite splice_app_r by (rewrite HB; lia). rewrite HB. do 2 f_equal. lia.
    + by left.
    + intros ->. apply Hnin. by eapply list_elem_of_lookup_2.
    + intros x Hx. apply Hother. by right.
Qed.

Section files.
Context {W : Type}.
Context (g : finfo) (dev_ root : Z) (now : Z) (fuel : nat).
Implicit Types s : fat W.

(** The first cluster of a file, as [bmap] computes it. *)
Definition start (ip : Z) (n : minode) : Z :=
  if ip =? root then root_directory_cluster_start g else u32 (i_start n).

(** The inode [n] at [ip] has the chain [cs], and its cursor [i_logi], [i_clus]
    is a position in it, or past its end. *)
Record chained s (ip : Z) (n : minode) (cs : list Z) : Prop := {
  cf_geo : geometry g s;
  cf_node : inodes s !! ip = Some n;
  cf_chain : cchain g (fat_get s) (start ip n) cs;
  cf_nodup : NoDup cs;
  cf_ne : cs ≠ [];
  cf_logi : 0 ≤ i_logi n < 2 ^ 31;
  cf_cursor : ∀ c, cs !! Z.to_nat (i_logi n) = Some c → i_clus n = c;
}.

(** [s] with the cursor of [ip] moved. *)
Definition moved (ip logi clus : Z) (n : minode) s : fat W :=
  Fat (fbl s) (fat_cache_ s) (<[ip := upd_cursor logi clus n]> (inodes s)) (inode_cache_map_ s) (local_ s) (fw s).

Lemma data_small s c : geometry g s → data_cluster g c → u32 c = c ∧ i32 c = c.
Proof.
  intros Hg Hc. pose proof (count_bound g s Hg). unfold data_cluster in Hc.
  split; [apply u32_small|apply i32_small]; lia.
Qed.

Lemma cchain_drop f c cs i x :
  cchain g f c cs → cs !! i = Some x → cchain g f x (drop i cs).
Proof.
  revert c cs. induction i as [|i IH]; intros c [|y cs] Hc Hi; try done.
  - injection Hi as ->. destruct (Hc) as (-> & _). by rewrite drop_0.
  - destruct Hc as (_ & _ & Hc). cbn. by eapply IH.
Qed.
Lemma cchain_tail f f' c cs i x new :
  cchain g f c cs → cs !! i = Some x → (∀ y, y ∈ take i cs → f' y = f y) →
  cchain g f' x (drop i cs ++ new) → cchain g f' c (cs ++ new).
Proof.
  revert c cs. induction i as [|i IH]; intros c [|y cs] Hc Hi Heq Htail; try done.
  - injection Hi as ->. destruct Hc as (-> & _). by rewrite drop_0 in Htail.
  - destruct Hc as (-> & Hy & Hc). cbn in *. split; [done|]. split; [done|].
    rewrite Heq by (by left). eapply IH; [done|done| |done]. intros z Hz. apply Heq. by right.
Qed.

Lemma set_cursor_ok s s1 ip l c n :
  geometry g s → data_cluster g c → 0 ≤ l < 2 ^ 31 → inodes s1 !! ip = Some n →
  set_cursor ip l c s1 = Done (c, moved ip l c n s1).
Proof.
  intros Hg Hc Hl Hn. destruct (data_not_end g s c Hg Hc) as [Hne%Z.eqb_neq _].
  unfold set_cursor, MSDOS_I. rewrite Hne. unfold_M. rewrite Hn. unfold set_inode, modify.
  destruct (data_small s c Hg Hc) as [_ ->]. by rewrite i32_small by lia.
Qed.

Lemma bmap_spec s ip n cs l :
  chained s ip n cs → 0 ≤ l < 2 ^ 31 →
  (Z.of_nat (length cs) ≤ l → i_logi n < Z.of_nat (length cs) ∨ l < i_logi n) →
  cluster_count_ g < Z.of_nat fuel → enough_free g s (S (Z.to_nat l) - length cs) →
  ∃ new s1 c, bmap g dev_ root fuel ip l s = Done (c, moved ip l c n s1) ∧
    extended g dev_ cs new s s1 ∧ cchain g (fat_get s1) (start ip n) (cs ++ new) ∧
    (cs ++ new) !! Z.to_nat l = Some c ∧ (l < Z.of_nat (length cs) → new = [] ∧ s1 = s) ∧
    length (cs ++ new) = (length cs `max` S (Z.to_nat l))%nat.
Proof.
  intros [Hg Hn Hch Hnd Hne Hlogi Hcur] Hl Hreach Hfuel Hfree.
  unfold bmap, MSDOS_I. unfold_M. rewrite Hn. fold (start ip n).
  rewrite (u32_small (i_logi n)), (u64_small (i_logi n)) by lia.
  set (i := if i_logi n <=? l then i_logi n else 0).
  set (cur := if i_logi n <=? l then u32 (i_clus n) else start ip n).
  assert ((if i_logi n <=? l then (u32 (i_clus n), i_logi n) else (start ip n, 0)) = (cur, i)) as ->.
  { unfold cur, i. by destruct (i_logi n <=? l). }
  assert (0 ≤ i ≤ l ∧ (Z.of_nat (length cs) ≤ l → i < Z.of_nat (length cs))) as [Hi Hil].
  { unfold i. destruct (Z.leb_spec (i_logi n) l); [split; [lia|]; intros Hx; destruct (Hreach Hx); lia|].
    split; [lia|]. intros _. destruct cs; [done|cbn; lia]. }
  assert (cs !! Z.to_nat i = Some cur) as Hcs.
  { unfold i, cur. destruct (Z.leb_spec (i_logi n) l) as [Hle|Hgt].
    - assert (Z.to_nat (i_logi n) < length cs)%nat as Hlt by (unfold i in *; destruct (Z.leb_spec (i_logi n) l); lia).
      destruct (lookup_lt_is_Some_2 cs _ Hlt) as [c Hc]. rewrite Hc. f_equal.
      pose proof (Hcur c Hc) as ->. symmetry.
      eapply data_small; [done|]. eapply cchain_data; [done|]. by eapply list_elem_of_lookup_2.
    - destruct cs as [|x cs]; [done|]. by destruct Hch as (-> & _). }
  pose proof (cchain_drop _ _ _ _ _ Hch Hcs) as Hdrop.
  destruct (decide (l < Z.of_nat (length cs))) as [Hin|Hout].
  - destruct (lookup_lt_is_Some_2 cs (Z.to_nat l)) as [c Hc]; [lia|].
    rewrite (bmap_loop_walk g dev_ fuel _ s cur (drop (Z.to_nat i) cs) c Hg Hdrop).
    2: { rewrite lookup_drop, <- Hc. f_equal. lia. }
    assert (data_cluster g c) as Hcd by (eapply cchain_data; [exact Hch|by eapply list_elem_of_lookup_2]).
    exists [], s, c. rewrite app_nil_r. rewrite (set_cursor_ok s s ip l c n) by done. split_and!; [done| |done|done|done|lia].
    split; [done|by rewrite app_nil_r|by intros ? ?%elem_of_nil|done|apply disk_step_refl|by intros ? ? ?%elem_of_nil].
  - assert (length (drop (Z.to_nat i) cs) = length cs - Z.to_nat i)%nat as Hdl by apply length_drop.
    destruct (bmap_loop_extend g dev_ fuel (Z.to_nat (l - i)) s cur (drop (Z.to_nat i) cs) Hg Hdrop)
      as (new & s1 & c & -> & [Hg1 Hnd1 Hfr1 Hoth1 Hst1 Hz1] & Hch1 & Hlen1 & Hlast1).
    + rewrite <- (take_drop (Z.to_nat i) cs) in Hnd. by apply NoDup_app in Hnd as (_ & _ & ?).
    + intros Hnil. rewrite Hnil in Hdl. cbn in Hdl. lia.
    + lia.
    + done.
    + replace (S (Z.to_nat (l - i)) - length (drop (Z.to_nat i) cs))%nat with (S (Z.to_nat l) - length cs)%nat by lia. done.
    + rewrite length_app in Hlen1.
      assert (data_cluster g c) as Hcd.
      { eapply cchain_data; [exact Hch1|]. by eapply last_Some_elem_of. }
      assert (∀ y, y ∈ take (Z.to_nat i) cs → fat_get s1 y = fat_get s y) as Heq.
      { intros y Hy. rewrite <- (take_drop (Z.to_nat i) cs) in Hnd. apply NoDup_app in Hnd as (_ & Hdisj & _).
        apply Hoth1.
        - intros Hyn. destruct (Hfr1 y Hyn) as [_ Hy0].
          apply (cchain_nonzero g s (start ip n) cs y Hch); [|done]. rewrite <- (take_drop (Z.to_nat i) cs).
          apply elem_of_app. by left.
        - intros Hlast. apply (Hdisj y Hy). by eapply last_Some_elem_of. }
      exists new, s1, c. pose proof (ds_inodes _ _ _ _ Hst1) as Hino.
      rewrite (set_cursor_ok s s1 ip l c n) by (done || congruence).
      split; [done|].
      assert (∀ x, x ∈ new → x ∉ cs) as Hnewcs.
      { intros x Hx Hxc. destruct (Hfr1 x Hx) as [_ Hx0]. by apply (cchain_nonzero g s (start ip n) cs x Hch). }
      split.
      { split; [done| |done| |done|done].
        - apply NoDup_app. split; [done|]. split; [intros x Hx Hx'; by apply (Hnewcs x)|].
          by apply NoDup_app in Hnd1 as (_ & _ & ?).
        - intros x Hx Hlast. apply Hoth1; [done|]. intros Hd. apply Hlast.
          rewrite <- (take_drop (Z.to_nat i) cs), last_app. by rewrite Hd. }
      split; [by eapply cchain_tail|]. rewrite !length_app. split; [|split; [lia|lia]].
      rewrite last_lookup, length_app, Hlen1 in Hlast1. cbn in Hlast1.
      rewrite <- (take_drop (Z.to_nat i) cs), <- app_assoc, lookup_app_r by (rewrite length_take; lia).
      rewrite length_take, <- Hlast1. f_equal. lia.
Qed.

(** ** Reading *)

(** A file whose blocks the cache may be asked for. *)
Record readable (P : Z → Prop) s (ip : Z) (n : minode) (cs : list Z) : Prop := {
  rf_chain : chained s ip n cs;
  rf_coh : coherent dev_ P (fbl s);
  rf_quiet : quiet (fbl s);
  rf_P : ∀ c, c ∈ cs → P c;
}.

(** The bytes of all clusters of a file. *)
Definition bytes s (cs : list Z) : list Z := contents (dblock (fbl s) dev_) cs.

Lemma data_vblock s c : geometry g s → data_cluster g c → vblock (fbl s) c ∧ base (fbl s) c = bstart g c.
Proof.
  intros [_ _ _ _ _ _ _ Hf _ Hp Hz _] [Hc1 Hc2]. unfold vblock, base, bstart, BSIZE. rewrite Hf.
  split; [|done]. split; [done|]. nia.
Qed.
Lemma length_block s c : length (dblock (fbl s) dev_ c) = Z.to_nat BSIZE.
Proof. pose proof (length_dblock (fbl s) dev_ c). lia. Qed.
Lemma length_bytes s cs : length (bytes s cs) = (Z.to_nat BSIZE * length cs)%nat.
Proof. apply length_contents, length_block. Qed.

Lemma bytes_eq s s' cs :
  rw_devs (fbl s') dev_ = rw_devs (fbl s) dev_ → first_data_sector (fbl s') = first_data_sector (fbl s) →
  bytes s' cs = bytes s cs.
Proof. intros Hd Hf. apply contents_ext. intros c _. by apply dblock_eq. Qed.

(** [s] after reads of the file: the cache, the cursor and [local_] changed. *)
Definition after_read (ip : Z) (bufs : list buf) (n' : minode) (loc : list Z) s : fat W :=
  Fat (set_bufs bufs (fbl s)) (fat_cache_ s) (<[ip := n']> (inodes s)) (inode_cache_map_ s) loc (fw s).

Lemma chained_moved s ip n cs l c bufs loc :
  chained s ip n cs → cs !! Z.to_nat l = Some c → 0 ≤ l < 2 ^ 31 →
  chained (after_read ip bufs (upd_cursor l c n) loc s) ip (upd_cursor l c n) cs.
Proof.
  intros [Hg Hn Hch Hnd Hne Hlogi Hcur] Hc Hl. split; cbn; try done.
  - by destruct Hg; split.
  - by rewrite lookup_insert_eq.
  - intros c' Hc'. congruence.
Qed.

Lemma bmap_in s ip n cs l :
  chained s ip n cs → 0 ≤ l < Z.of_nat (length cs) → l < 2 ^ 31 → cluster_count_ g < Z.of_nat fuel →
  ∃ c, cs !! Z.to_nat l = Some c ∧ data_cluster g c ∧ bmap g dev_ root fuel ip l s = Done (c, moved ip l c n s).
Proof.
  intros Hch Hl Hl2 Hfuel.
  destruct (bmap_spec s ip n cs l Hch) as (new & s1 & c & Hrun & _ & _ & Hc & Hin & _); try done; [lia|lia|..].
  { exists ∅. split; [|by intros ? ?%elem_of_empty]. rewrite size_empty. lia. }
  destruct (Hin ltac:(lia)) as [-> ->]. rewrite app_nil_r in Hc. exists c. split_and!; try done.
  eapply cchain_data; [apply Hch|]. by eapply list_elem_of_lookup_2.
Qed.

(** Buffers of the cache are used and given back: the file is as it was. *)
Lemma readable_after P s ip n cs l c bufs loc :
  readable P s ip n cs → cs !! Z.to_nat l = Some c → 0 ≤ l < 2 ^ 31 →
  coherent dev_ P (set_bufs bufs (fbl s)) → quiet (set_bufs bufs (fbl s)) →
  readable P (after_read ip bufs (upd_cursor l c n) loc s) ip (upd_cursor l c n) cs.
Proof. intros [Hch _ _ HP] Hc Hl Hco Hq. split; try done. by apply chained_moved. Qed.

Lemma out_local_run i l s :
  out_local i l s = Done (0, Fat (fbl s) (fat_cache_ s) (inodes s) (inode_cache_map_ s)
    (splice (local_ s) (Z.to_nat i) l) (fw s)).
Proof. done. Qed.

Lemma ReadInode_loop_spec k P s ip n cs off total m :
  readable P s ip n cs → cluster_count_ g < Z.of_nat fuel →
  0 ≤ total ≤ m → m < 2 ^ 31 → 0 ≤ off → off + (m - total) ≤ BSIZE * Z.of_nat (length cs) →
  off + (m - total) < 2 ^ 32 → m - total < Z.of_nat k →
  ∃ bufs lo cl loc, let s' := after_read ip bufs (upd_cursor lo cl n) loc s in
    ReadInode_loop g dev_ root fuel k ip out_local off total m s =
      Done (m, if decide (total < m) then s' else s) ∧
    (total < m → readable P s' ip (upd_cursor lo cl n) cs) ∧
    (total < m → loc = splice (local_ s) (Z.to_nat total)
      (take (Z.to_nat (m - total)) (drop (Z.to_nat off) (bytes s cs)))).
Proof.
  intros Hr Hfuel. revert s n Hr off total.
  induction k as [|k IH]; intros s n Hr off total Ht Hm Ho Hlen Ho2 Hk; [lia|]. cbn [ReadInode_loop].
  destruct (Z.ltb_spec total m) as [Hlt|Hge].
  2: { exists [], 0, 0, []. cbv zeta. rewrite decide_False by lia. rewrite i32_small by lia.
    replace total with m by lia. split_and!; [done|lia|lia]. }
  destruct Hr as [Hch Hco Hq HP]. destruct (Hch) as [Hg _ _ _ _ _ _]. destruct (Hg) as [_ _ Hbpc _ _ _ _ _ _ _ _ _].
  rewrite !Hbpc. assert (0 ≤ off / 4096 < Z.of_nat (length cs)) as Hl by (unfold BSIZE in *; dlia).
  rewrite (u32_small (off / 4096)) by dlia. unfold_M.
  destruct (bmap_in s ip n cs (off / 4096) Hch Hl ltac:(dlia) Hfuel) as (c & Hc & Hcd & ->).
  destruct (data_small s c Hg Hcd) as [-> _]. destruct (data_vblock s c Hg Hcd) as [Hv _].
  assert (c ∈ cs) as Hcin by (by eapply list_elem_of_lookup_2).
  destruct (read_free_spec dev_ P (fbl s) c Hco Hq Hv (HP c Hcin)) as (i & bufs & _ & Hrd & Hat & Hfr & Hco' & Hq').
  unfold on_bl. cbn [fbl moved]. rewrite Hrd. cbn [fbl]. rewrite Hat. cbn [got bdata].
  set (md := off mod 4096). set (nread := if m - total <? 4096 - md then m - total else 4096 - md).
  assert (0 ≤ md < 4096 ∧ off = 4096 * (off / 4096) + md) as [Hmd Hoff] by (unfold md; dlia).
  assert (0 < nread ≤ m - total ∧ md + nread ≤ 4096 ∧ (nread < m - total → md + nread = 4096)) as (Hnr & Hnr2 & Hnr3).
  { unfold nread. destruct (Z.ltb_spec (m - total) (4096 - md)); lia. }
  set (l := take (Z.to_nat nread) (drop (Z.to_nat md) (dblock (fbl s) dev_ c))).
  rewrite out_local_run. cbn [fbl fat_cache_ inodes inode_cache_map_ local_ fw]. cbn [Z.ltb Z.compare]. cbn [fbl]. rewrite Hfr.
  cbn [fbl fat_cache_ inodes inode_cache_map_ local_ fw moved].
  assert (l = take (Z.to_nat nread) (drop (Z.to_nat off) (bytes s cs))) as Hl'.
  { unfold l. rewrite (contents_chunk (dblock (fbl s) dev_) cs (Z.to_nat (off / 4096)) c) by
      (first [apply length_block|done|unfold BSIZE; lia]). do 2 f_equal. unfold BSIZE. lia. }
  assert (length l = Z.to_nat nread) as Hll.
  { unfold l. rewrite length_take, length_drop, length_block. unfold BSIZE. lia. }
  set (s1 := after_read ip bufs (upd_cursor (off / 4096) c n) (splice (local_ s) (Z.to_nat total) l) s).
  assert (readable P s1 ip (upd_cursor (off / 4096) c n) cs) as Hr1.
  { apply readable_after; try done. dlia. }
  rewrite u64_small by lia.
  destruct (IH s1 _ Hr1 (off + nread) (total + nread)) as (bufs2 & lo & cl & loc & Hrun & Hr2 & Hloc); try lia.
  change (Fat (set_bufs bufs (fbl s)) _ _ _ _ _) with s1. rewrite Hrun.
  destruct (decide (total + nread < m)) as [Hmore|Hdone].
  - exists bufs2, lo, cl, loc. cbv zeta. specialize (Hr2 Hmore). specialize (Hloc Hmore).
    assert (after_read ip bufs2 (upd_cursor lo cl (upd_cursor (off / 4096) c n)) loc s1 =
      after_read ip bufs2 (upd_cursor lo cl n) loc s) as Heq.
    { unfold after_read, s1. cbn. by rewrite insert_insert_eq. }
    change (upd_cursor lo cl (upd_cursor (off / 4096) c n)) with (upd_cursor lo cl n) in *.
    rewrite Heq in Hr2 |- *. rewrite decide_True by exact Hlt. split; [done|]. split; [done|]. intros _. rewrite Hloc. cbn [local_ s1 after_read].
    replace (Z.to_nat (total + nread)) with (Z.to_nat total + length l)%nat by lia.
    rewrite splice_splice. f_equal. rewrite Hl'. rewrite (bytes_eq s s1) by done.
    replace (Z.to_nat (m - total)) with (Z.to_nat nread + Z.to_nat (m - (total + nread)))%nat by lia.
    rewrite <- take_take_drop. f_equal. f_equal. rewrite drop_drop. f_equal. lia.
  - exists bufs, (off / 4096), c, (splice (local_ s) (Z.to_nat total) l).
    rewrite decide_True by exact Hlt. split; [done|]. split; [done|].
    intros _. rewrite Hl'. do 2 f_equal. lia.
Qed.

(** [s'] is [s] but for the buffers, the cursor of [ip] and [local_]. *)
Definition looked (ip : Z) s s' : Prop :=
  ∃ bufs lo cl loc n, inodes s !! ip = Some n ∧ s' = after_read ip bufs (upd_cursor lo cl n) loc s.

Lemma looked_refl ip n s : inodes s !! ip = Some n → looked ip s s.
Proof.
  intros Hn. exists (bufCache (fbl s)), (i_logi n), (i_clus n), (local_ s), n. split; [done|].
  destruct s as [b fc ino mp lo w], n, b. cbn in *. unfold after_read. cbn. by rewrite insert_id.
Qed.

Lemma ReadInode_ok (P : Z → Prop) (s : fat W) (ip : Z) (n : minode) (cs : list Z) (off m : Z) :
  readable P s ip n cs → cluster_count_ g < Z.of_nat fuel →
  0 ≤ isz n < 2 ^ 31 → isz n ≤ BSIZE * Z.of_nat (length cs) → 0 ≤ off < 2 ^ 31 → 0 ≤ m < 2 ^ 31 →
  let r := Z.max 0 (Z.min m (isz n - off)) in
  ∃ s' n', ReadInode g dev_ root fuel ip out_local off m s = Done (r, s') ∧
    looked ip s s' ∧ readable P s' ip n' cs ∧ isz n' = isz n ∧ bytes s' cs = bytes s cs ∧
    fat_cache_ s' = fat_cache_ s ∧ rw_devs (fbl s') = rw_devs (fbl s) ∧
    local_ s' = splice (local_ s) 0 (take (Z.to_nat r) (drop (Z.to_nat off) (bytes s cs))).
Proof.
  intros Hr Hfuel Hsz Hlen Ho Hm r. destruct (Hr) as [[_ Hn _ _ _ _ _] _ _ _].
  unfold ReadInode, MSDOS_I. unfold_M. rewrite Hn, u64_small by lia.
  destruct (Z.ltb_spec (isz n) off) as [Hpast|Hin]; cbn [orb].
  { exists s, n. replace r with 0 by lia. cbn. rewrite splice_nil. split_and!; try done. by eapply looked_refl. }
  destruct (Z.ltb_spec (off + m) off) as [?|_]; [lia|].
  set (m' := if isz n <? off + m then u32 (isz n - off) else m).
  assert (m' = r) as ->.
  { unfold m', r. destruct (Z.ltb_spec (isz n) (off + m)); [rewrite u32_small by lia|]; lia. }
  destruct (ReadInode_loop_spec (S (Z.to_nat r)) P s ip n cs off 0 r Hr Hfuel)
    as (bufs & lo & cl & loc & -> & Hr' & Hloc); try lia.
  destruct (decide (0 < r)) as [Hpos|Hz].
  - eexists. eexists. split; [done|]. split; [by exists bufs, lo, cl, loc, n|]. split; [by apply Hr'|].
    split; [done|]. split; [by apply bytes_eq|]. split; [done|]. split; [done|].
    cbn. rewrite Hloc by done. by rewrite Z.sub_0_r.
  - exists s, n. replace r with 0 by lia. cbn. rewrite splice_nil. split_and!; try done. by eapply looked_refl.
Qed.

(** [ReadInode] of a range inside the file copies exactly the bytes
    of the file in that range, cut at the file size, and returns their number;
    past the end it returns 0.  The file, the table and the device are as
    before. *)
Theorem read_inode_returns_contents (P : Z → Prop) (s : fat W) (ip : Z) (n : minode) (cs : list Z) (off m : Z) :
  readable P s ip n cs → cluster_count_ g < Z.of_nat fuel →
  0 ≤ isz n < 2 ^ 31 → isz n ≤ BSIZE * Z.of_nat (length cs) → 0 ≤ off < 2 ^ 31 → 0 ≤ m < 2 ^ 31 →
  let r := Z.max 0 (Z.min m (isz n - off)) in
  ∃ s' n', ReadInode g dev_ root fuel ip out_local off m s = Done (r, s') ∧
    readable P s' ip n' cs ∧ isz n' = isz n ∧ bytes s' cs = bytes s cs ∧
    fat_cache_ s' = fat_cache_ s ∧ rw_devs (fbl s') = rw_devs (fbl s) ∧
    local_ s' = splice (local_ s) 0 (take (Z.to_nat r) (drop (Z.to_nat off) (bytes s cs))).
Proof.
  intros Hr Hf Hs Hl Ho Hm r. destruct (ReadInode_ok P s ip n cs off m Hr Hf Hs Hl Ho Hm) as (s' & n' & E & _ & H).
  by exists s', n'.
Qed.

(** ** Writing *)

(** Only bytes of the device where [D] holds may differ. *)
Definition dev_changes (D : Z → Prop) s s' : Prop :=
  ∀ dev x, dev ≠ dev_ ∨ ¬ D x → rw_devs (fbl s') dev x = rw_devs (fbl s) dev x.
Definition in_clusters (cs : list Z) (x : Z) : Prop := ∃ c, c ∈ cs ∧ in_cluster g c x.

Record wrote (P : Z → Prop) (ip : Z) (n' : minode) (cs : list Z) s s' : Prop := {
  wr_readable : readable P s' ip n' cs;
  wr_dev : dev_changes (in_clusters cs) s s';
  wr_fat : fat_cache_ s' = fat_cache_ s;
  wr_inodes : inodes s' = <[ip := n']> (inodes s);
  wr_map : inode_cache_map_ s' = inode_cache_map_ s;
  wr_local : local_ s' = local_ s;
  wr_w : fw s' = fw s;
}.

Lemma length_src_chunk (src l : list Z) (t : nat) :
  (t + length l ≤ length src)%nat → length (take (length l) (drop t src)) = length l.
Proof. intros Hl. rewrite length_take, length_drop. lia. Qed.

Lemma write_chunk P s ip n cs k c m l :
  readable P s ip n cs → cs !! Z.to_nat k = Some c → 0 ≤ k < 2 ^ 31 → data_cluster g c →
  (m + length l ≤ Z.to_nat BSIZE)%nat →
  ∃ i b2 b3 b4 s', let b1 := set_bufs (<[i := got dev_ c (fbl s)]> (bufCache (fbl s))) (fbl s) in
    Buf.read dev_ c (fbl s) = Done (i, b1) ∧ buf_at i b1 = Done (got dev_ c (fbl s), b1) ∧
    put_buf i (Buf 1 dev_ c (bticks (fbl s)) true 1 (splice (dblock (fbl s) dev_ c) m l)) b1 = Done (tt, b2) ∧
    Buf.write i b2 = Done (tt, b3) ∧ freeBuffer i b3 = Done (tt, b4) ∧
    s' = Fat b4 (fat_cache_ s) (<[ip := upd_cursor k c n]> (inodes s)) (inode_cache_map_ s) (local_ s) (fw s) ∧
    wrote P ip (upd_cursor k c n) cs s s' ∧
    bytes s' cs = splice (bytes s cs) (Z.to_nat BSIZE * Z.to_nat k + m) l.
Proof.
  intros [Hch Hco Hq HP] Hc Hk Hcd Hm. destruct (Hch) as [Hg Hn Hcc Hnd Hne Hlogi Hcur].
  destruct (data_vblock s c Hg Hcd) as [Hv Hbase].
  assert (c ∈ cs) as Hcin by (by eapply list_elem_of_lookup_2).
  assert (Z.of_nat (length (splice (dblock (fbl s) dev_ c) m l)) = BSIZE) as Hlen.
  { rewrite length_splice, length_block. unfold BSIZE. lia. }
  destruct (read_write_spec dev_ P (fbl s) c (splice (dblock (fbl s) dev_ c) m l) Hco Hq Hv (HP c Hcin))
    as (i & bufs & d & b3 & _ & Hrd & Hat & Hput & Hwr & Hfr & Hd & Hco' & Hq').
  { exact Hlen. }
  assert (∀ x, ¬ in_cluster g c x → d x = rw_devs (fbl s) dev_ x) as Hout.
  { intros x Hx. rewrite Hd. apply wr_bytes_out. rewrite length_splice, length_block, Hbase.
    unfold in_cluster, BSIZE in *. lia. }
  do 5 eexists. cbv zeta. split; [exact Hrd|]. split; [exact Hat|]. split; [exact Hput|]. split; [exact Hwr|].
  split; [exact Hfr|]. split; [done|]. split; [split; try done; cbn|].
  - split; try done. split; cbn; try done.
    + by destruct Hg; split.
    + by rewrite lookup_insert_eq.
    + intros c' Hc'. congruence.
  - intros dev x Hx. cbn. destruct (Z.eqb_spec dev dev_) as [->|]; [|done]. apply Hout.
    destruct Hx as [?|Hx]; [done|]. intros Hin. apply Hx. by exists c.
  - unfold bytes. cbn [fbl].
    assert (dblock (set_dev dev_ d (set_bufs bufs (fbl s))) dev_ c = splice (dblock (fbl s) dev_ c) m l) as Hsame.
    { etransitivity; [|exact (wr_block_same (fbl s) dev_ c (splice (dblock (fbl s) dev_ c) m l) d Hlen Hd)].
      unfold dblock at 1. cbn [rw_devs set_dev]. by rewrite Z.eqb_refl. }
    eapply (contents_splice (dblock (fbl s) dev_));
      [intros; apply length_block|exact Hnd|exact Hc|exact Hm|exact Hsame|].
    intros x Hx Hxc. unfold dblock. cbn [rw_devs set_dev]. rewrite Z.eqb_refl.
    destruct (data_vblock s x Hg (cchain_data _ _ _ _ _ Hcc Hx)) as [Hvx _].
    apply (wr_block_other (fbl s) dev_ c x (splice (dblock (fbl s) dev_ c) m l)); [exact Hv|exact Hvx|exact Hxc| |exact Hd].
    rewrite length_splice, length_block. unfold BSIZE. lia.
Qed.

Lemma wrote_trans P ip n1 n2 cs s1 s2 s3 :
  wrote P ip n1 cs s1 s2 → wrote P ip n2 cs s2 s3 → wrote P ip n2 cs s1 s3.
Proof.
  intros [_ Hd1 Hf1 Hi1 Hm1 Hl1 Hw1] [Hr2 Hd2 Hf2 Hi2 Hm2 Hl2 Hw2]. split; [done| |congruence| |congruence..].
  - intros dev x Hx. by rewrite (Hd2 dev x Hx), (Hd1 dev x Hx).
  - by rewrite Hi2, Hi1, insert_insert_eq.
Qed.

Lemma inp_local_run src i l s : inp_local src i l s = Done ((0, take (length l) (drop (Z.to_nat i) src)), s).
Proof. done. Qed.

Lemma WriteInode_loop_spec k P s ip n cs src off total m :
  readable P s ip n cs → cluster_count_ g < Z.of_nat fuel → Z.of_nat (length src) = m →
  0 ≤ total ≤ m → m < 2 ^ 31 → 0 ≤ off → off + (m - total) ≤ BSIZE * Z.of_nat (length cs) →
  off + (m - total) < 2 ^ 32 → m - total < Z.of_nat k →
  ∃ lo cl s', WriteInode_loop g dev_ root fuel k ip (inp_local src) off total m s =
      Done ((m, off + (m - total)), if decide (total < m) then s' else s) ∧
    (total < m → wrote P ip (upd_cursor lo cl n) cs s s' ∧
       bytes s' cs = splice (bytes s cs) (Z.to_nat off) (drop (Z.to_nat total) src)).
Proof.
  intros Hr Hfuel Hsrc. revert s n Hr off total.
  induction k as [|k IH]; intros s n Hr off total Ht Hm Ho Hlen Ho2 Hk; [lia|]. cbn [WriteInode_loop].
  destruct (Z.ltb_spec total m) as [Hlt|Hge].
  2: { exists 0, 0, s. rewrite decide_False by lia. rewrite i32_small by lia.
    split; [|lia]. unfold_M. repeat f_equal; lia. }
  destruct (Hr) as [Hch _ _ _]. destruct (Hch) as [Hg _ _ _ _ _ _]. destruct (Hg) as [_ _ Hbpc _ _ _ _ _ _ _ _ _].
  rewrite !Hbpc. assert (0 ≤ off / 4096 < Z.of_nat (length cs)) as Hl by (unfold BSIZE in *; dlia).
  rewrite (u32_small (off / 4096)) by dlia. unfold_M.
  destruct (bmap_in s ip n cs (off / 4096) Hch Hl ltac:(dlia) Hfuel) as (c & Hc & Hcd & ->).
  destruct (data_small s c Hg Hcd) as [-> _].
  set (md := off mod 4096). set (nwrite := if m - total <? 4096 - md then m - total else 4096 - md).
  assert (0 ≤ md < 4096 ∧ off = 4096 * (off / 4096) + md) as [Hmd Hoff] by (unfold md; dlia).
  assert (0 < nwrite ≤ m - total ∧ md + nwrite ≤ 4096) as (Hnr & Hnr2).
  { unfold nwrite. destruct (Z.ltb_spec (m - total) (4096 - md)); lia. }
  set (l := take (Z.to_nat nwrite) (drop (Z.to_nat total) src)).
  assert (length (take (Z.to_nat nwrite) (drop (Z.to_nat md) (dblock (fbl s) dev_ c))) = Z.to_nat nwrite) as Hold.
  { rewrite length_take, length_drop, length_block. unfold BSIZE. lia. }
  assert (length l = Z.to_nat nwrite) as Hll by (unfold l; rewrite length_take, length_drop; lia).
  destruct (write_chunk P s ip n cs (off / 4096) c (Z.to_nat md) l Hr Hc ltac:(dlia) Hcd)
    as (i & b2 & b3 & b4 & s1 & Hrd & Hat & Hput & Hwr & Hfr & Hs1 & Hw1 & Hby); [unfold BSIZE; lia|].
  unfold on_bl. cbn [fbl moved]. rewrite Hrd. cbn [fbl]. rewrite Hat. cbn [got bdata].
  rewrite inp_local_run, Hold. fold l. cbn [fbl valid bdev blockno last_use_tick Buf.locked refcnt].
  cbv beta iota. cbn [fbl].
  match goal with |- context [put_buf ?a _ ?b] =>
    change (put_buf a _ b) with
      (put_buf a (Buf 1 dev_ c (bticks (fbl s)) true 1 (splice (dblock (fbl s) dev_ c) (Z.to_nat md) l)) b) end.
  rewrite Hput. cbn [fbl Z.ltb Z.compare]. rewrite Hwr. cbn [fbl]. rewrite Hfr.
  cbn [fbl fat_cache_ inodes inode_cache_map_ local_ fw moved]. rewrite <- Hs1.
  rewrite u64_small by lia.
  destruct (IH s1 _ (wr_readable _ _ _ _ _ _ Hw1) (off + nwrite) (total + nwrite)) as (lo & cl & s2 & Hrun & Hs2); try lia.
  rewrite Hrun.
  assert (Z.to_nat BSIZE * Z.to_nat (off / 4096) + Z.to_nat md = Z.to_nat off)%nat as Hpos by (unfold BSIZE; lia).
  rewrite Hpos in Hby.
  destruct (decide (total + nwrite < m)) as [Hmore|Hdone].
  - destruct (Hs2 Hmore) as [Hw2 Hb2]. exists lo, cl, s2. rewrite decide_True by exact Hlt.
    split; [by replace (off + nwrite + (m - (total + nwrite))) with (off + (m - total)) by lia|].
    intros _. split; [by eapply wrote_trans|]. rewrite Hb2, Hby.
    replace (Z.to_nat (off + nwrite)) with (Z.to_nat off + length l)%nat by lia. rewrite splice_splice. f_equal.
    unfold l. rewrite <- (take_drop (Z.to_nat nwrite) (drop (Z.to_nat total) src)) at 2. f_equal.
    rewrite drop_drop. f_equal. lia.
  - exists (off / 4096), c, s1. rewrite decide_True by exact Hlt.
    split; [by replace (off + nwrite + (m - (total + nwrite))) with (off + (m - total)) by lia|].
    intros _. split; [done|]. rewrite Hby. f_equal. unfold l. apply take_ge. rewrite length_drop. lia.
Qed.

(** ** Directory entries *)
Lemma length_upcase n (e : list Z) : length ((toUpCase <$> take n e) ++ drop n e) = length e.
Proof. rewrite length_app, length_fmap, <- length_app. by rewrite take_drop. Qed.

(** What [FillShortFile] makes of an entry for the name "pad". *)
Lemma FillShortFile_pad junk cluster mode s :
  (4 ≤ fuel)%nat → ∃ e, FillShortFile now fuel junk a_pad 0 cluster mode s = Done (e, s) ∧ length e = length junk.
Proof.
  intros Hf. destruct fuel as [|[|[|[|f]]]]; [lia..|]. unfold FillShortFile, c_strrchr, c_strlen.
  assert (strrchr (S (S (S (S f)))) a_pad 0 46 = Done 0) as Hr by reflexivity.
  assert (strlen (S (S (S (S f)))) a_pad 0 = Done 3) as Hl by reflexivity.
  unfold_M. rewrite Hr. cbn [negb Z.eqb]. rewrite Hl.
  change (8 <? 3) with false. destruct (UnixTime2Fat now) as [d t]. eexists. split; [done|].
  rewrite !length_splice. etransitivity; [apply (length_upcase (Z.to_nat 3))|]. by rewrite !length_splice.
Qed.

Lemma byte_lookup l i x : l !! i = Some x → byte l i = x.
Proof. intros Hl. unfold byte. by apply nth_lookup_Some. Qed.
Lemma word_le32 v l i : 0 ≤ v < 2 ^ 32 → (i + 4 ≤ length l)%nat → word (splice l i (le32 v)) i = v.
Proof.
  intros Hv Hi. unfold word, half, le32, le16.
  assert (∀ k b, (k < 4)%nat →
    ([v mod 65536 mod 256; v mod 65536 / 256 mod 256; v / 65536 mod 256; v / 65536 / 256 mod 256] !! k = Some b) →
    byte (splice l i ([v mod 65536 mod 256; v mod 65536 / 256 mod 256] ++ [v / 65536 mod 256; v / 65536 / 256 mod 256])) (i + k) = b) as Hb.
  { intros k b Hk Hb. apply byte_lookup. rewrite splice_lookup, decide_True by (cbn; lia).
    rewrite decide_True by lia. by replace (i + k - i)%nat with k by lia. }
  replace i with (i + 0)%nat at 2 by lia. replace (S i) with (i + 1)%nat by lia. replace (S (i + 1)) with (i + 2)%nat by lia.
  replace (S (i + 2)) with (i + 3)%nat by lia.
  rewrite (Hb 0%nat _ ltac:(lia) eq_refl), (Hb 1%nat _ ltac:(lia) eq_refl), (Hb 2%nat _ ltac:(lia) eq_refl), (Hb 3%nat _ ltac:(lia) eq_refl).
  dlia.
Qed.

(** The disk sector of the entry of an inode. *)
Definition entry_sector (n : minode) : Z := i_pos n / 512.
Definition in_entry_sector (n : minode) (x : Z) : Prop := entry_sector n * 512 ≤ x < entry_sector n * 512 + 512.
Record entry_ok (n : minode) : Prop := {
  eo_pos : 0 ≤ i_pos n < 2 ^ 31 - 512;
  eo_fits : i_pos n mod 512 + 32 ≤ 512;
  eo_name : length (test_name n) = 11%nat;
  eo_size : 0 ≤ isz n < 2 ^ 32;
}.

Lemma UpdateInode_ok junk s ip n :
  geometry g s → inodes s !! ip = Some n → entry_ok n → (4 ≤ fuel)%nat → length junk = 32%nat →
  ∃ entry s', UpdateInode g dev_ now fuel junk ip s = Done (0, s') ∧
    length entry = 32%nat ∧ take 11 entry = test_name n ∧ byte entry O_ATTRIB = 0 ∧ word entry O_FILE_SIZE = isz n ∧
    disk_step dev_ (in_entry_sector n) s s' ∧ fat_cache_ s' = fat_cache_ s ∧
    rd_bytes (rw_devs (fbl s') dev_) (i_pos n) 32 = entry ∧
    (∀ x, ¬ (i_pos n ≤ x < i_pos n + 32) → rw_devs (fbl s') dev_ x = rw_devs (fbl s) dev_ x).
Proof.
  intros Hg Hn [Hpos Hfit Hname Hsz] Hf Hj. destruct (Hg) as [Hbps _ _ _ _ _ _ _ _ _ _ _].
  unfold UpdateInode, MSDOS_I. unfold_M. rewrite Hn, Hbps.
  destruct (FillShortFile_pad junk (u32 (i_start n)) (imode n) s Hf) as (e & -> & He).
  set (entry := splice (splice e O_FILE_SIZE (le32 (isz n))) 0 (take (Z.to_nat kShortNameLength) (test_name n ++ [0]))).
  assert (length (test_name n ++ [0]) = 12%nat) as Hlen12 by (rewrite length_app; cbn; lia).
  assert (take (Z.to_nat kShortNameLength) (test_name n ++ [0]) = test_name n ++ [0]) as Htake by (apply take_ge; rewrite Hlen12; done).
  assert (length entry = 32%nat) as Hlen by (unfold entry; rewrite !length_splice; congruence).
  change (i_pos n / 512) with (entry_sector n).
  assert (0 ≤ entry_sector n ∧ entry_sector n * 512 + 512 < 2 ^ 31 ∧
    i_pos n = entry_sector n * 512 + i_pos n mod 512) as (Hs0 & Hs1 & Hpos') by (unfold entry_sector; dlia).
  rewrite (i32_small (entry_sector n)) by lia.
  unfold ReadSector, on_bl, RwDevRead, gets. unfold_M. rewrite Hbps, i32_small by lia.
  rewrite VirtioDisk_read_ok; [|lia|lia|lia|dlia|done|done].
  set (old := rd_bytes (rw_devs (fbl s) dev_) (entry_sector n * 512) (Z.to_nat 512)).
  set (off := Z.to_nat (i_pos n mod 512)).
  assert (length old = 512%nat) as Hold by (unfold old; rewrite length_rd_bytes; done).
  pose proof (Z.mod_pos_bound (i_pos n) 512 ltac:(lia)) as Hmod.
  assert (off + 32 ≤ 512)%nat as Hoff by (unfold off; lia).
  destruct (WriteSector_ok dev_ (Fat (fbl s) (fat_cache_ s) (inodes s) (inode_cache_map_ s) (local_ s) (fw s))
    (entry_sector n) (splice old off entry)) as (s' & Hwr & Hfat & Hst & Hdev); [by rewrite length_splice|lia|lia|].
  cbn [fbl] in *.
  exists entry, s'. split; [by rewrite Hwr|]. split; [done|].
  assert (∀ j, (j < 12)%nat → entry !! j = (test_name n ++ [0]) !! j) as Hhead.
  { intros j Hj'. unfold entry. rewrite Htake, splice_lookup, length_splice, decide_True by lia.
    rewrite decide_True by lia. by rewrite Nat.sub_0_r. }
  split; [|split; [|split; [|split; [|split; [done|split]]]]].
  - apply list_eq. intros j. destruct (decide (j < 11)%nat) as [Hj'|Hj'].
    + rewrite lookup_take_lt, Hhead by lia. by rewrite lookup_app_l by lia.
    + rewrite !lookup_ge_None_2; [done|lia|]. rewrite length_take. lia.
  - apply byte_lookup. rewrite Hhead by (unfold O_ATTRIB; lia). rewrite lookup_app_r by (unfold O_ATTRIB; lia).
    by rewrite Hname.
  - etransitivity; [|apply (word_le32 (isz n) e O_FILE_SIZE); unfold O_FILE_SIZE; lia].
    unfold word, half, byte, entry. rewrite !nth_lookup, Htake, !(splice_lookup (splice _ _ _)).
    by rewrite !decide_False by (rewrite Hlen12; unfold O_FILE_SIZE; lia).
  - destruct Hst. by split.
  - rewrite Hpos' at 1. apply list_eq. intros j. destruct (decide (j < 32)%nat) as [Hj'|Hj'].
    + rewrite rd_bytes_lookup, Hdev by done. destruct (lookup_lt_is_Some_2 entry j ltac:(lia)) as [y Hy]. rewrite Hy. f_equal.
      replace (entry_sector n * 512 + i_pos n mod 512 + Z.of_nat j) with (entry_sector n * 512 + Z.of_nat (off + j)) by (unfold off; lia).
      apply wr_bytes_in. rewrite splice_lookup, decide_True, decide_True by lia.
      by replace (off + j - off)%nat with j by lia.
    + rewrite !lookup_ge_None_2; [done|lia|]. rewrite length_rd_bytes. lia.
  - intros x Hx. rewrite Hdev. destruct (decide (in_entry_sector n x)) as [Hin|Hout].
    + unfold in_entry_sector in Hin.
      replace x with (entry_sector n * 512 + Z.of_nat (Z.to_nat (x - entry_sector n * 512))) at 1 by lia.
      apply wr_bytes_in. rewrite splice_lookup, decide_False by (unfold off; lia).
      unfold old. rewrite rd_bytes_lookup by lia. f_equal. cbn. f_equal. lia.
    + apply wr_bytes_out. rewrite length_splice, Hold. unfold in_entry_sector in Hout. lia.
Qed.

(** Writing a sector past the cache leaves the blocks outside it coherent. *)
Lemma readable_step (P : Z → Prop) s s' ip n n' cs (D : Z → Prop) :
  readable P s ip n cs → disk_step dev_ D s s' → geometry g s' → (∀ c, c ∈ cs → fat_get s' c = fat_get s c) → n' = n →
  (∀ c x, c ∈ cs → in_cluster g c x → ¬ D x) →
  readable (λ c, P c ∧ ∀ x, in_cluster g c x → ¬ D x) s' ip n' cs ∧ bytes s' cs = bytes s cs.
Proof.
  intros [Hch Hco Hq HP] Hst Hg' Hfat -> HD. destruct Hst as [Hcache Hfds Hspc Hticks Hdevs Hdev Hino Hmap Hloc Hw].
  destruct Hch as [Hg Hn Hcc Hnd Hne Hlogi Hcur].
  assert (∀ c, base (fbl s') c = base (fbl s) c) as Hbase by (intros; unfold base; by rewrite Hfds).
  assert (∀ dev c, vblock (fbl s) c → (∀ x, in_cluster g c x → ¬ D x) → dblock (fbl s') dev c = dblock (fbl s) dev c) as Hblk.
  { intros dev c Hv Hx. unfold dblock. rewrite Hbase. apply rd_bytes_ext. intros x Hr.
    destruct (decide (dev = dev_)) as [->|]; [|by apply Hdevs]. apply Hdev, Hx.
    pose proof (ge_fds g s Hg). unfold in_cluster, bstart, base, BSIZE in *. lia. }
  split.
  - split; [split; try done| |..].
    + by rewrite Hino.
    + eapply cchain_ext; [exact Hfat|exact Hcc].
    + destruct Hco as [H1 H2 H3 H4 H5 H6]. split; try (rewrite ?Hspc, ?Hfds, ?Hcache; done).
      intros i b Hb. rewrite Hcache in Hb. destruct (H4 i b Hb) as [Hl Hv Hd]. split; [done|..].
      * intros Hval. unfold vblock. rewrite Hbase. by apply Hv.
      * intros Hval [HPb HDb]. rewrite Hblk by (try done; by apply Hv). by apply Hd.
    + intros i b. rewrite Hcache. apply Hq.
    + intros c Hc. split; [by apply HP|]. intros x. by apply HD.
  - apply contents_ext. intros c Hc. apply Hblk; [|intros x; by apply HD].
    apply data_vblock; [done|]. by eapply cchain_data.
Qed.

(** The size of the file after a write that ended at [off]. *)
Definition grown (off : Z) (n : minode) : minode := if isz n <? off then upd_isz (u32 off) n else n.

Lemma readable_grown P s ip n cs off :
  readable P s ip n cs →
  let s' := Fat (fbl s) (fat_cache_ s) (<[ip := grown off n]> (inodes s)) (inode_cache_map_ s) (local_ s) (fw s) in
  readable P s' ip (grown off n) cs.
Proof.
  intros [[Hg Hn Hcc Hnd Hne Hlogi Hcur] Hco Hq HP]. cbv zeta. unfold grown.
  split; try done. split; try done; cbn.
  - by destruct Hg; split.
  - by rewrite lookup_insert_eq.
  - destruct (isz n <? off); done.
  - destruct (isz n <? off); done.
  - destruct (isz n <? off); done.
Qed.

(** The bytes of the devices that a write into the clusters [cs] of [n] may
    change: those of the clusters, and the 32 of the inode's own entry. *)
Definition written_in (n : minode) (cs : list Z) (x : Z) : Prop :=
  in_clusters cs x ∨ i_pos n ≤ x < i_pos n + 32.

(** What a write that ended at [off] leaves of the state besides the bytes: only
    the inode's cursor and size change. *)
Record rewrote (ip : Z) (n : minode) (cs : list Z) (off : Z) (n' : minode) s s' : Prop := {
  re_node : ∃ lo cl, n' = grown off (upd_cursor lo cl n);
  re_inodes : inodes s' = <[ip := n']> (inodes s);
  re_map : inode_cache_map_ s' = inode_cache_map_ s;
  re_local : local_ s' = local_ s;
  re_w : fw s' = fw s;
  re_dev : dev_changes (written_in n cs) s s';
}.

Lemma WriteInode_ok (P : Z → Prop) (s : fat W) (ip : Z) (n : minode) (cs src junk : list Z) (off m : Z) :
  readable P s ip n cs → cluster_count_ g < Z.of_nat fuel → (4 ≤ fuel)%nat →
  Z.of_nat (length src) = m → 0 ≤ off → off + m ≤ BSIZE * Z.of_nat (length cs) → off + m < 2 ^ 31 →
  entry_ok n → length junk = 32%nat → (∀ c x, c ∈ cs → in_cluster g c x → ¬ in_entry_sector n x) →
  (isz n < off → WriteInode g dev_ root now fuel junk ip (inp_local src) off m s = Done (-1, s)) ∧
  (off ≤ isz n →
   ∃ s' n' entry, WriteInode g dev_ root now fuel junk ip (inp_local src) off m s = Done (m, s') ∧
     readable (λ c, P c ∧ ∀ x, in_cluster g c x → ¬ in_entry_sector n x) s' ip n' cs ∧
     isz n' = Z.max (isz n) (off + m) ∧
     bytes s' cs = splice (bytes s cs) (Z.to_nat off) src ∧ fat_cache_ s' = fat_cache_ s ∧
     rd_bytes (rw_devs (fbl s') dev_) (i_pos n) 32 = entry ∧ take 11 entry = test_name n ∧
     word entry O_FILE_SIZE = isz n' ∧ byte entry O_ATTRIB = 0 ∧ rewrote ip n cs (off + m) n' s s').
Proof.
  intros Hr Hfuel Hf4 Hsrc Ho Hlen Ho2 He Hj HD. destruct (Hr) as [[Hg Hn _ _ _ _ _] _ _ _].
  unfold WriteInode, MSDOS_I. unfold_M. rewrite Hn, u64_small by lia. split.
  { intros Hlt%Z.ltb_lt. by rewrite Hlt. }
  intros Hle. destruct (Z.ltb_spec (isz n) off) as [?|_]; [lia|]. destruct (Z.ltb_spec (off + m) off) as [?|_]; [lia|].
  cbn [orb].
  destruct (WriteInode_loop_spec (S (Z.to_nat m)) P s ip n cs src off 0 m Hr Hfuel Hsrc) as (lo & cl & s1 & Hrun & Hw); try lia.
  rewrite Hrun. rewrite Z.sub_0_r.
  set (s2 := if decide (0 < m) then s1 else s) in *.
  assert (∃ n2, inodes s2 !! ip = Some n2 ∧ readable P s2 ip n2 cs ∧ isz n2 = isz n ∧ i_pos n2 = i_pos n ∧ test_name n2 = test_name n ∧
    bytes s2 cs = splice (bytes s cs) (Z.to_nat off) src ∧ fat_cache_ s2 = fat_cache_ s ∧ (∃ lo cl, n2 = upd_cursor lo cl n) ∧
    inodes s2 = <[ip := n2]> (inodes s) ∧ inode_cache_map_ s2 = inode_cache_map_ s ∧ local_ s2 = local_ s ∧ fw s2 = fw s ∧
    dev_changes (in_clusters cs) s s2)
    as (n2 & Hn2 & Hr2 & Hsz2 & Hpos2 & Hname2 & Hb2 & Hf2 & (lo2 & cl2 & Hcur2) & Hi2 & Hm2 & Hl2 & Hw2 & Hd2).
  { unfold s2. destruct (decide (0 < m)) as [Hpos|Hz].
    - destruct (Hw Hpos) as [Hw1 Hb1]. rewrite drop_0 in Hb1. exists (upd_cursor lo cl n). destruct Hw1. split_and!; try done.
      { by destruct wr_readable0 as [[_ ? _ _ _ _ _] _ _ _]. } by exists lo, cl.
    - exists n. destruct src; [|cbn in Hsrc; lia]. rewrite splice_nil, insert_id by done. split_and!; try done.
      by exists (i_logi n), (i_clus n); destruct n. }
  rewrite Hn2. set (n3 := grown (off + m) n2).
  set (s3 := Fat (fbl s2) (fat_cache_ s2) (<[ip := n3]> (inodes s2)) (inode_cache_map_ s2) (local_ s2) (fw s2)).
  assert ((if isz n2 <? off + m then set_inode ip (upd_isz (u32 (off + m)) n2) else λ s, Done ((), s)) s2 = Done ((), s3)) as ->.
  { unfold s3, n3, grown, set_inode, modify. destruct (isz n2 <? off + m); [done|]. rewrite insert_id by done. by destruct s2. }
  assert (isz n3 = Z.max (isz n) (off + m)) as Hsz3.
  { unfold n3, grown. rewrite <- Hsz2. destruct (Z.ltb_spec (isz n2) (off + m)); [cbn; rewrite u32_small by lia|]; lia. }
  assert (i_pos n3 = i_pos n ∧ test_name n3 = test_name n) as [Hpos3 Hname3].
  { unfold n3, grown. by destruct (isz n2 <? off + m). }
  pose proof (readable_grown P s2 ip n2 cs (off + m) Hr2) as Hr3. cbv zeta in Hr3. fold n3 s3 in Hr3.
  destruct (Hr3) as [[Hg3 Hn3 _ _ _ _ _] _ _ _].
  destruct (UpdateInode_ok junk s3 ip n3 Hg3 Hn3) as (entry & s' & Hup & _ & Hen & Hea & Hes & Hst & Hfat & Hrd & Hout).
  { destruct He as [H1 H2 H3 H4]. split; [by rewrite Hpos3|by rewrite Hpos3|by rewrite Hname3|rewrite Hsz3; lia]. }
  { done. } { done. }
  assert (∀ x, in_entry_sector n3 x ↔ in_entry_sector n x) as Hsec.
  { intros x. unfold in_entry_sector, entry_sector. by rewrite Hpos3. }
  destruct (readable_step P s3 s' ip n3 n3 cs (in_entry_sector n) Hr3) as [Hr' Hb']; [| | |done|done|].
  { destruct Hst. split; try done. intros x Hx. apply ds_dev. by rewrite Hsec. }
  { eapply geometry_step; [done|exact Hst|]. rewrite Hfat. by destruct Hg3. }
  { intros x _. unfold fat_get. by rewrite Hfat. }
  rewrite Hup. exists s', n3, entry. rewrite <- Hpos3. split; [done|]. split; [done|]. split; [done|].
  split; [rewrite Hb', <- Hb2; by apply bytes_eq|]. split; [by rewrite Hfat|]. split; [done|].
  split; [congruence|]. split; [done|]. split; [done|]. pose proof Hst as Hst0. destruct Hst as [_ _ _ _ _ _ Hino Hmap Hloc Hw']. split.
  - exists lo2, cl2. unfold n3. by rewrite Hcur2.
  - rewrite Hino. cbn. by rewrite Hi2, insert_insert_eq.
  - by rewrite Hmap.
  - by rewrite Hloc.
  - by rewrite Hw'.
  - intros dev x Hx. rewrite <- (Hd2 dev x) by (unfold written_in in Hx; tauto).
    destruct (decide (dev = dev_)) as [->|Hdev]; [|by apply (ds_devs _ _ _ _ Hst0)].
    change (rw_devs (fbl s2) dev_ x) with (rw_devs (fbl s3) dev_ x). apply Hout. rewrite Hpos3.
    destruct Hx as [?|Hx]; [done|]. unfold written_in in Hx. tauto.
Qed.

(** Claim C20. [WriteInode] inside the clusters of a file replaces exactly the
    bytes of the range, returns their number, grows the size when the range
    ends past it, and writes the directory entry with the name and the size,
    but with attribute 0 whatever the attribute was; no other byte of a device
    changes.  A range that starts past the end is refused. *)
Theorem write_inode_updates_file (P : Z → Prop) (s : fat W) (ip : Z) (n : minode) (cs src junk : list Z) (off m : Z) :
  readable P s ip n cs → cluster_count_ g < Z.of_nat fuel → (4 ≤ fuel)%nat →
  Z.of_nat (length src) = m → 0 ≤ off → off + m ≤ BSIZE * Z.of_nat (length cs) → off + m < 2 ^ 31 →
  entry_ok n → length junk = 32%nat → (∀ c x, c ∈ cs → in_cluster g c x → ¬ in_entry_sector n x) →
  (isz n < off → WriteInode g dev_ root now fuel junk ip (inp_local src) off m s = Done (-1, s)) ∧
  (off ≤ isz n →
   ∃ s' n' entry, WriteInode g dev_ root now fuel junk ip (inp_local src) off m s = Done (m, s') ∧
     readable (λ c, P c ∧ ∀ x, in_cluster g c x → ¬ in_entry_sector n x) s' ip n' cs ∧
     isz n' = Z.max (isz n) (off + m) ∧
     bytes s' cs = splice (bytes s cs) (Z.to_nat off) src ∧ fat_cache_ s' = fat_cache_ s ∧
     rd_bytes (rw_devs (fbl s') dev_) (i_pos n) 32 = entry ∧ take 11 entry = test_name n ∧
     word entry O_FILE_SIZE = isz n' ∧ byte entry O_ATTRIB = 0 ∧ dev_changes (written_in n cs) s s').
Proof.
  intros Hr Hfuel Hf4 Hsrc Ho Hlen Ho2 He Hj HD.
  destruct (WriteInode_ok P s ip n cs src junk off m Hr Hfuel Hf4 Hsrc Ho Hlen Ho2 He Hj HD) as [H1 H2]. split; [exact H1|].
  intros Hle. destruct (H2 Hle) as (s' & n' & entry & E & H3 & H4 & H5 & H6 & H7 & H8 & H9 & H10 & [_ _ _ _ _ H11]).
  exists s', n', entry. by split_and!.
Qed.

(** [bmap] gives the cluster of a position of a file.  Inside the
    chain it only moves the cursor; past its end it appends free clusters,
    zeroed on the device, until the position exists.  The file then has the
    longer chain and a valid cursor, and no other entry of the table changes. *)
Theorem bmap_follows_chain (s : fat W) (ip : Z) (n : minode) (cs : list Z) (l : Z) :
  chained s ip n cs → 0 ≤ l < 2 ^ 31 →
  (Z.of_nat (length cs) ≤ l → i_logi n < Z.of_nat (length cs) ∨ l < i_logi n) →
  cluster_count_ g < Z.of_nat fuel → enough_free g s (S (Z.to_nat l) - length cs) →
  ∃ new s' c, bmap g dev_ root fuel ip l s = Done (c, s') ∧
    (cs ++ new) !! Z.to_nat l = Some c ∧ (l < Z.of_nat (length cs) → new = []) ∧
    length (cs ++ new) = (length cs `max` S (Z.to_nat l))%nat ∧
    chained s' ip (upd_cursor l c n) (cs ++ new) ∧
    (∀ x, x ∈ new → data_cluster g x ∧ fat_get s x = 0) ∧
    (∀ x, x ∉ new → last cs ≠ Some x → fat_get s' x = fat_get s x) ∧
    (∀ c x, c ∈ new → in_cluster g c x → rw_devs (fbl s') dev_ x = 0) ∧
    (∀ x, (∀ c, c ∈ new → ¬ in_cluster g c x) → rw_devs (fbl s') dev_ x = rw_devs (fbl s) dev_ x).
Proof.
  intros Hch Hl Hreach Hfuel Hfree.
  destruct (bmap_spec s ip n cs l Hch Hl Hreach Hfuel Hfree)
    as (new & s1 & c & Hrun & [Hg1 Hnd1 Hfr1 Hoth1 Hst1 Hz1] & Hch1 & Hc & Hin & Hlen).
  destruct Hch as [Hg Hn Hcc Hnd Hne Hlogi Hcur].
  exists new, (moved ip l c n s1), c. split_and!; try done.
  - intros Hlt. by destruct (Hin Hlt).
  - split; try done; cbn.
    + by destruct Hg1; split.
    + by rewrite lookup_insert_eq.
    + by intros [? _]%app_eq_nil.
    + intros c' Hc'. congruence.
  - intros x Hx. apply (ds_dev _ _ _ _ Hst1). intros (d & Hd & Hxd). by apply (Hx d).
Qed.
End files.

(** ** Long names *)

(** Reading the name of one long entry back into a buffer of 64 bytes. *)
Lemma copylfn_long_entry nm p seq num ck tmp :
  1 ≤ seq ≤ 4 →
  copylfn (long_entry nm p seq num ck) tmp = splice tmp (Z.to_nat (13 * (seq - 1))) (rd_bytes nm p 13).
Proof.
  intros Hs.
  assert (copylfn (long_entry nm p seq num ck) tmp =
    splice (splice (splice tmp (Z.to_nat (13 * (seq - 1))) (rd_bytes nm p 5))
      (Z.to_nat (13 * (seq - 1)) + 5) (rd_bytes nm (p + 5) 6))
      (Z.to_nat (13 * (seq - 1)) + 11) (rd_bytes nm (p + 11) 2)) as ->.
  { assert (seq = 1 ∨ seq = 2 ∨ seq = 3 ∨ seq = 4) as [-> | [-> | [-> | ->]]] by lia;
      unfold copylfn, long_entry; (destruct (_ =? num); reflexivity). }
  replace (Z.to_nat (13 * (seq - 1)) + 11)%nat
    with (Z.to_nat (13 * (seq - 1)) + length (rd_bytes nm p 5 ++ rd_bytes nm (p + 5) 6))%nat by done.
  replace (Z.to_nat (13 * (seq - 1)) + 5)%nat
    with (Z.to_nat (13 * (seq - 1)) + length (rd_bytes nm p 5))%nat by done.
  rewrite !splice_splice. f_equal.
  pose proof (rd_bytes_app nm p 11 2) as E1. pose proof (rd_bytes_app nm p 5 6) as E2.
  change (5 + 6)%nat with 11%nat in E2. change (11 + 2)%nat with 13%nat in E1. by rewrite E1, E2.
Qed.

(** The long entries of a name in the order of the directory, the last part of
    the name first, as [write_long] lays them out. *)
Fixpoint long_entries (nm : mem) (p seq num ck : Z) (n : nat) : list (list Z) :=
  match n with
  | O => []
  | S n => long_entries nm (p + kLongNameLength) (seq + 1) num ck n ++ [long_entry nm p seq num ck]
  end.

Lemma long_entries_read nm p seq num ck n tmp :
  1 ≤ seq → seq + Z.of_nat n ≤ 5 →
  fold_left (λ t e, copylfn e t) (long_entries nm p seq num ck n) tmp =
    splice tmp (Z.to_nat (13 * (seq - 1))) (rd_bytes nm p (13 * n)).
Proof.
  revert p seq tmp. induction n as [|n IH]; intros p seq tmp H1 H2.
  { rewrite Nat.mul_0_r. by rewrite splice_nil. }
  cbn [long_entries]. rewrite fold_left_app, IH by lia. cbn [fold_left].
  rewrite copylfn_long_entry by lia. replace (13 * S n)%nat with (13 + 13 * n)%nat by lia.
  rewrite rd_bytes_app. apply list_eq. intros j. rewrite !splice_lookup, !length_app, !length_splice, !length_rd_bytes.
  unfold kLongNameLength. change (Z.of_nat 13) with 13.
  repeat case_decide; try done; try lia.
  - by rewrite lookup_app_l by (rewrite length_rd_bytes; lia).
  - rewrite lookup_app_r by (rewrite length_rd_bytes; lia). rewrite length_rd_bytes. f_equal. lia.
Qed.

(** A name of at most 51 characters survives being stored in long directory
    entries: reading the entries that [Create] writes back, in directory order,
    leaves the name and its NUL at the start of the buffer, unless its length is
    a multiple of 13, when the NUL is not stored. *)
Lemma long_name_read (nm : mem) (p num ck : Z) (l tmp : list Z) :
  cstr nm p l → (length l ≤ 51)%nat → length tmp = 64%nat →
  num = (Z.of_nat (length l) + kLongNameLength - 1) / kLongNameLength →
  let tmp' := fold_left (λ t e, copylfn e t) (long_entries nm p 1 num ck (Z.to_nat num)) tmp in
  take (length l) tmp' = l ∧ (Z.of_nat (length l) mod 13 ≠ 0 → tmp' !! length l = Some 0) ∧
  ∀ j, (13 * Z.to_nat num ≤ j)%nat → tmp' !! j = tmp !! j.
Proof.
  intros Hl Hlen Htmp Hnum. cbv zeta. unfold kLongNameLength in Hnum.
  assert (0 ≤ num ≤ 4 ∧ Z.of_nat (length l) ≤ 13 * num) as [Hn1 Hn2] by (clear -Hnum Hlen; dlia).
  rewrite long_entries_read by lia. change (Z.to_nat (13 * (1 - 1))) with 0%nat.
  assert (∀ i x, l !! i = Some x → nm (p + Z.of_nat i) = x) as Hbytes.
  { clear -Hl. revert p Hl. induction l as [|y l IH]; intros p Hl i x Hi; [done|].
    destruct Hl as (Hy & _ & Hl). destruct i as [|i]; cbn in Hi.
    - injection Hi as <-. by rewrite Z.add_0_r.
    - rewrite <- (IH (p + 1) Hl i x Hi). f_equal. lia. }
  assert (nm (p + Z.of_nat (length l)) = 0) as Hnul.
  { clear -Hl. revert p Hl. induction l as [|y l IH]; intros p Hl; cbn in *; [by rewrite Z.add_0_r|].
    destruct Hl as (_ & _ & Hl). rewrite <- (IH _ Hl). f_equal. lia. }
  split_and!.
  - apply list_eq. intros j. destruct (decide (j < length l)%nat) as [Hj|Hj].
    + rewrite lookup_take_lt, splice_lookup, length_rd_bytes, decide_True, decide_True, Nat.sub_0_r by lia.
      rewrite rd_bytes_lookup by lia. destruct (lookup_lt_is_Some_2 l j Hj) as [x Hx]. by rewrite Hx, (Hbytes j x).
    + rewrite !lookup_ge_None_2; [done|lia|]. rewrite length_take. lia.
  - intros Hmod. rewrite splice_lookup, length_rd_bytes, decide_True, decide_True, Nat.sub_0_r by
      (clear -Hmod Hn2 Htmp Hlen; dlia).
    rewrite rd_bytes_lookup by (clear -Hmod Hn2; dlia). by rewrite Hnul.
  - intros j Hj. by rewrite splice_lookup, length_rd_bytes, decide_False by lia.
Qed.
