(* ===== verification/Fat32Lookup.v ===== *)
(** * Directories of FAT32: what [Lookup] finds

    The entries of a directory as a list read off its bytes ([listing]), and the
    loops of [Lookup] against it: they visit the entries in this order and stop
    at the first one whose name the search accepts. *)
From S2P Require Import Prelude Mem Buf HashMap Time Fat32 Fat32Props Fat32Files.

(** ** The entries of a directory *)

(** The 32 bytes at [off]. *)
Definition ent (B : list Z) (off : Z) : list Z := take 32 (drop (Z.to_nat off) B).
Definition starts_long (e : list Z) : bool := Z.land (byte e 0) 0xc0 =? 0x40.
Definition n_long (e : list Z) : Z := Z.land (byte e 0) (Z.lnot 0x40).

(** [n] long entries from [off] on, copied over [tmp]. *)
Fixpoint long_name (n : nat) (B : list Z) (off : Z) (tmp : list Z) : list Z :=
  match n with
  | O => tmp
  | S n => long_name n B (off + kMsdosEntrySize) (copylfn (ent B off) tmp)
  end.

(** An entry with its name: the short entry, the buffer its name is in, and the
    offset behind it. *)
Record item := Item { it_entry : list Z; it_name : list Z; it_end : Z }.
Definition item_at (B : list Z) (off : Z) (tmp : list Z) : item :=
  let e := ent B off in
  if negb (byte e O_ATTRIB =? kFatAttrLongEntry) then Item e (copysfn e tmp).2 (off + kMsdosEntrySize)
  else if starts_long e then
    let n := Z.max 1 (n_long e) in
    Item (ent B (off + n * kMsdosEntrySize)) (long_name (Z.to_nat n) B off tmp) (off + (n + 1) * kMsdosEntrySize)
  else Item e tmp (off + kMsdosEntrySize).

(** The entries from [off] to the end mark; [None] when the bytes end before
    it.  What a name leaves of [tmp] unchanged is seen by the entries behind. *)
Fixpoint listing (n : nat) (B : list Z) (off : Z) (tmp : list Z) : option (list item) :=
  match n with
  | O => None
  | S n =>
      if Z.of_nat (length B) <? off + kMsdosEntrySize then None
      else if byte (ent B off) 0 =? 0 then Some []
      else
        let it := item_at B off tmp in
        if Z.of_nat (length B) <? it_end it then None
        else l ← listing n B (it_end it) (it_name it); Some (it :: l)
  end.

Lemma length_ent B off : 0 ≤ off → off + 32 ≤ Z.of_nat (length B) → length (ent B off) = 32%nat.
Proof. intros. unfold ent. rewrite length_take, length_drop. lia. Qed.

Lemma item_end_le B off tmp : off + 32 ≤ it_end (item_at B off tmp).
Proof.
  unfold item_at, kMsdosEntrySize. destruct (negb _); [cbn; lia|]. destruct (starts_long _); cbn; lia.
Qed.

Lemma length_copylfn e tmp : length (copylfn e tmp) = length tmp.
Proof. unfold copylfn. by rewrite !length_splice. Qed.
Lemma length_item_name B off tmp : length (it_name (item_at B off tmp)) = length tmp.
Proof.
  unfold item_at. destruct (negb _); cbn [it_name].
  - unfold copysfn. cbv zeta. destruct (Nat.eqb _ 0); cbn [snd]; by rewrite !length_splice.
  - destruct (starts_long _); cbn [it_name]; [|done]. generalize (Z.to_nat (1 `max` n_long (ent B off))). intros n.
    revert off tmp. induction n as [|n IH]; intros off tmp; cbn; [done|].
    by rewrite IH, length_copylfn.
Qed.

(** The comparison of names: up to the length of the name looked for. *)
Fixpoint accepts (e tmp : list Z) : bool :=
  match e, tmp with
  | [], _ => true
  | c :: e, d :: tmp => (toLowCase c =? toLowCase d) && accepts e tmp
  | _, [] => false
  end.
Definition first_accepted (e : list Z) (l : list item) : option item :=
  snd <$> list_find (λ it, accepts e (it_name it) = true) l.

(** ** Comparisons of strings *)
Lemma strncasecmp_loop_accepts m name q e : ∀ tmp,
  cstr m name e → bytes_at m q tmp → (length e ≤ length tmp)%nat → e ≠ [] →
  (strncasecmp_loop m name q (length e) =? 0) = accepts e tmp.
Proof.
  revert name q. induction e as [|c e IH]; intros name q [|d tmp] He Ht Hl Hne; cbn [length] in Hl; try done; try lia.
  cbn in He, Ht. destruct He as (Hc & Hc0 & He), Ht as [Hd Ht]. cbn [length strncasecmp_loop accepts]. rewrite Hc, Hd.
  destruct (Z.eqb_spec (toLowCase c) (toLowCase d)) as [Heq|Hneq].
  - rewrite (proj2 (Z.eqb_eq (toLowCase c - toLowCase d) 0)) by lia. rewrite (proj2 (Z.eqb_neq c 0)) by done.
    cbn [andb]. destruct e as [|c' e]; [cbn; lia|]. apply IH; [done..|cbn in *; lia|done].
  - rewrite (proj2 (Z.eqb_neq (toLowCase c - toLowCase d) 0)) by lia. cbn [andb]. apply Z.eqb_neq. lia.
Qed.

Lemma wr_bytes_read m a l : bytes_at (wr_bytes m a l) a l.
Proof.
  revert m a. induction l as [|b l IH]; intros m a; cbn; [done|]. split; [by rewrite upd_eq|].
  assert (∀ l m m' a, (∀ x, a ≤ x → m x = m' x) → bytes_at m' a l → bytes_at m a l) as Hext.
  { clear. induction l as [|b l IH]; intros m m' a Hm; cbn; [done|]. intros [Hb Hl].
    split; [rewrite Hm by lia; done|]. apply (IH _ m'); [|done]. intros x Hx. apply Hm. lia. }
  eapply Hext; [|apply (IH m)]. intros x Hx. by rewrite upd_ne by lia.
Qed.
Lemma cstr_wr_bytes m name e a l :
  cstr m name e → name + Z.of_nat (length e) < a → cstr (wr_bytes m a l) name e.
Proof. intros He Ha. eapply cstr_ext; [|exact He]. intros x Hx. symmetry. apply wr_bytes_out. lia. Qed.

Lemma same_name_accepts a nm name e tmp :
  cstr nm name e → (length e ≤ length tmp)%nat → name + Z.of_nat (length e) < a →
  same_name a true nm name (Z.of_nat (length e)) tmp = accepts e tmp.
Proof.
  intros He Hl Ha. unfold same_name, strncasecmp. rewrite Nat2Z.id. cbv zeta.
  rewrite (proj2 (Z.eqb_neq name a)) by lia. destruct e as [|c e]; [done|]. cbn [Nat.eqb length orb].
  apply (strncasecmp_loop_accepts _ _ _ (c :: e)); [by apply cstr_wr_bytes|apply wr_bytes_read|done|done].
Qed.

(** [strncmp(d, name, strlen(name)) == 0]: the name is a prefix of [d]. *)
Lemma strncmp_prefix m p q d : ∀ e, cstr m q e → cstr m p d →
  (strncmp m p q (length e) =? 0) = bool_decide (e `prefix_of` d).
Proof.
  revert p q. induction d as [|b d IH]; intros p q [|c e] He Hd.
  1,3: symmetry; apply bool_decide_eq_true_2, prefix_nil.
  - cbn in *. destruct He as (-> & Hc & _). rewrite Hd. cbn.
    rewrite bool_decide_eq_false_2; [apply Z.eqb_neq; lia|]. by intros ?%prefix_nil_inv.
  - cbn in He, Hd. destruct He as (Hq & Hc & He), Hd as (Hp & Hb & Hd). cbn [length strncmp]. rewrite Hp, Hq.
    rewrite (proj2 (Z.eqb_neq b 0)) by done. cbn [negb andb]. destruct (Z.eqb_spec b c) as [->|Hne].
    + rewrite (IH (p + 1) (q + 1) e) by done. apply bool_decide_ext. split; [apply prefix_cons|apply prefix_cons_inv_2].
    + rewrite bool_decide_eq_false_2; [apply Z.eqb_neq; lia|]. intros Hp2%prefix_cons_inv_1. congruence.
Qed.

(** ** Reading a directory *)
Section dirs.
Context {W : Type}.
Context (g : finfo) (dev_ root : Z) (fuel : nat) (P : Z → Prop).
Implicit Types s : fat W.

(** An open directory: its size is [-1], its clusters are [cs]. *)
Definition dir_at s (ip : Z) (cs : list Z) : Prop :=
  ∃ n, readable g dev_ root P s ip n cs ∧ isz n = u32 (-1).
Lemma looked_trans ip s1 s2 s3 : looked ip s1 s2 → looked ip s2 s3 → looked ip s1 s3.
Proof.
  intros (b1 & lo1 & cl1 & l1 & n1 & H1 & ->) (b2 & lo2 & cl2 & l2 & n2 & H2 & ->).
  cbn in H2. rewrite lookup_insert_eq in H2. injection H2 as <-. exists b2, lo2, cl2, l2, n1. split; [done|].
  unfold after_read. cbn. by rewrite insert_insert_eq.
Qed.
Lemma looked_bytes ip s s' cs : looked ip s s' → bytes dev_ s' cs = bytes dev_ s cs.
Proof. intros (b & lo & cl & l & n & _ & ->). by apply bytes_eq. Qed.
Lemma looked_inode ip s s' :
  looked ip s s' → (∀ q, q ≠ ip → inodes s' !! q = inodes s !! q) ∧
  ∃ n lo cl, inodes s !! ip = Some n ∧ inodes s' !! ip = Some (upd_cursor lo cl n).
Proof.
  intros (b & lo & cl & l & n & Hn & ->). cbn. split; [intros q Hq; by rewrite lookup_insert_ne|].
  exists n, lo, cl. by rewrite lookup_insert_eq.
Qed.

Lemma splice_whole (l bs : list Z) : length l = length bs → splice l 0 bs = bs.
Proof. intros. by apply splice_all. Qed.

Hypothesis fuel_clusters : cluster_count_ g < Z.of_nat fuel.

Lemma dir_small s ip cs : dir_at s ip cs → BSIZE * Z.of_nat (length cs) < 2 ^ 31 + BSIZE.
Proof.
  intros (n & [[Hg _ Hch Hnd _ _ _] _ _ _] & _). destruct Hg as [_ _ _ _ _ ? _ _ _ ? Hsz _].
  assert (length cs ≤ length (seqZ 2 (cluster_count_ g - 1)))%nat as Hlen.
  { apply submseteq_length, NoDup_submseteq; [done|]. intros c Hc. apply elem_of_seqZ.
    pose proof (cchain_data _ _ _ _ _ Hch Hc) as Hcd. unfold data_cluster in Hcd. lia. }
  rewrite length_seqZ in Hlen. unfold BSIZE. lia.
Qed.

(** [ReadInode] of one entry inside the directory. *)
Lemma read_entry_ok s ip cs off entry :
  dir_at s ip cs → length entry = 32%nat → 0 ≤ off → off + kMsdosEntrySize ≤ Z.of_nat (length (bytes dev_ s cs)) →
  ∃ s', read_entry g dev_ root fuel ip off entry s = Done ((true, ent (bytes dev_ s cs) off), s') ∧
    looked ip s s' ∧ dir_at s' ip cs.
Proof.
  intros Hd Hl Ho Hin. pose proof (dir_small _ _ _ Hd) as Hsm. destruct Hd as (n & Hr & Hsz).
  assert (off + kMsdosEntrySize ≤ BSIZE * Z.of_nat (length cs)) as Hin' by (rewrite length_bytes in Hin; unfold BSIZE in *; lia).
  unfold BSIZE, kMsdosEntrySize in *.
  unfold read_entry, set_local, ReadInode, MSDOS_I. unfold_M. cbn [inodes]. unfold kMsdosEntrySize.
  rewrite (cf_node _ _ _ _ _ _ (rf_chain _ _ _ _ _ _ _ _ Hr)), Hsz, u64_small by lia. change (u32 (-1)) with 4294967295.
  rewrite (proj2 (Z.ltb_ge 4294967295 off)), (proj2 (Z.ltb_ge (off + 32) off)) by lia. cbn [orb].
  rewrite (proj2 (Z.ltb_ge 4294967295 (off + 32))) by lia.
  assert (readable g dev_ root P (Fat (fbl s) (fat_cache_ s) (inodes s) (inode_cache_map_ s) entry (fw s)) ip n cs) as Hr1.
  { destruct Hr as [[Hg ? ? ? ? ? ?] ? ? ?]. split; [split|..]; try done. by destruct Hg; split. }
  destruct (ReadInode_loop_spec g dev_ root fuel 33 P _ ip n cs off 0 32 Hr1 fuel_clusters) as (bufs & lo & cl & loc & Hrun & Hr2 & Hloc);
    [unfold BSIZE; lia..|].
  change (S (Z.to_nat 32)) with 33%nat. rewrite Hrun. rewrite decide_True by lia.
  specialize (Hr2 ltac:(lia)). specialize (Hloc ltac:(lia)). cbn [local_] in Hloc.
  rewrite Z.sub_0_r in Hloc.
  assert (loc = ent (bytes dev_ s cs) off) as ->.
  { rewrite Hloc. apply splice_whole. rewrite Hl. symmetry. apply (length_ent (bytes dev_ s cs)); [lia|].
    exact Hin. }
  cbn [Z.eqb Pos.eqb local_ after_read]. eexists. split; [done|]. split.
  - exists bufs, lo, cl, (ent (bytes dev_ s cs) off), n. split; [apply Hr|done].
  - exists (upd_cursor lo cl n). done.
Qed.

(** The tests for "." and "..". *)
Lemma is_prefix_of_dots_ok (a_loc : Z) (dots : list Z) (nm : mem) (name : Z) (e : list Z) s :
  cstr nm name e → Forall (λ b, b ≠ 0) dots → (length e < fuel)%nat → name + Z.of_nat (length e) < a_loc →
  is_prefix_of_dots a_loc fuel dots nm name s = Done (bool_decide (e `prefix_of` dots), s).
Proof.
  intros He Hd Hf Ha. unfold is_prefix_of_dots, c_strlen. unfold_M. rewrite (strlen_cstr _ _ e) by done.
  rewrite Nat2Z.id, (strncmp_prefix _ _ _ dots e); [done|by apply cstr_wr_bytes|].
  apply cstr_intro; [|done|].
  - eapply proj1, bytes_at_split, wr_bytes_read.
  - apply (wr_bytes_in _ _ _ _ 0). by rewrite lookup_app_r, Nat.sub_diag.
Qed.

(** What remains the same while a directory is read. *)
Definition still ip cs s s' : Prop :=
  looked ip s s' ∧ dir_at s' ip cs ∧ bytes dev_ s' cs = bytes dev_ s cs.
Lemma still_trans ip cs s1 s2 s3 : still ip cs s1 s2 → still ip cs s2 s3 → still ip cs s1 s3.
Proof.
  intros (L1 & _ & B1) (L2 & D2 & B2). split_and!; [by eapply looked_trans|done|congruence].
Qed.
Lemma still_refl ip cs s : dir_at s ip cs → still ip cs s s.
Proof.
  intros Hd. split_and!; [|done..]. destruct Hd as (n & [Hc _ _ _] & _). eapply looked_refl, (cf_node _ _ _ _ _ _ Hc).
Qed.
Lemma still_read s ip cs off entry :
  dir_at s ip cs → length entry = 32%nat → 0 ≤ off → off + kMsdosEntrySize ≤ Z.of_nat (length (bytes dev_ s cs)) →
  ∃ s', read_entry g dev_ root fuel ip off entry s = Done ((true, ent (bytes dev_ s cs) off), s') ∧ still ip cs s s'.
Proof.
  intros Hd Hl Ho Hin. destruct (read_entry_ok s ip cs off entry) as (s' & E & L & D); [done..|].
  exists s'. split_and!; [done..|]. split_and!; [done..|by eapply looked_bytes].
Qed.

Lemma rest_long_ok ip cs n : ∀ s off entry tmp,
  dir_at s ip cs → length entry = 32%nat → 0 ≤ off →
  off + Z.of_nat n * kMsdosEntrySize ≤ Z.of_nat (length (bytes dev_ s cs)) →
  ∃ s' e', rest_long g dev_ root fuel n ip off entry tmp s =
      Done (Some (off + Z.of_nat n * kMsdosEntrySize, e', long_name n (bytes dev_ s cs) off tmp), s') ∧
    still ip cs s s' ∧ length e' = 32%nat.
Proof.
  induction n as [|n IH]; intros s off entry tmp Hd Hl Ho Hin; cbn [rest_long long_name].
  - exists s, entry. rewrite Z.add_0_r. split_and!; [done|by apply still_refl|done].
  - unfold kMsdosEntrySize in *.
    destruct (still_read s ip cs off entry Hd Hl Ho) as (s1 & E1 & T1); [unfold kMsdosEntrySize; lia|].
    erewrite M_bind_Done by exact E1. cbn match. destruct (T1) as (_ & D1 & B1).
    destruct (IH s1 (off + 32) (ent (bytes dev_ s cs) off) (copylfn (ent (bytes dev_ s cs) off) tmp) D1) as (s2 & e' & E2 & T2 & L2);
      [apply length_ent; lia|lia|rewrite B1; lia|].
    replace (off + Z.of_nat (S n) * 32) with (off + 32 + Z.of_nat n * 32) by lia.
    rewrite E2, B1. exists s2, e'. split; [reflexivity|split; [exact (still_trans _ _ _ _ _ T1 T2)|exact L2]].
Qed.

(** One turn of the loop. *)
Lemma next_entry_ok s ip cs off entry tmp :
  let B := bytes dev_ s cs in let it := item_at B off tmp in
  dir_at s ip cs → length entry = 32%nat → 0 ≤ off → it_end it ≤ Z.of_nat (length B) →
  byte (ent B off) 0 ≠ 0 →
  ∃ s' nlfn, next_entry g dev_ root fuel true ip off 0 entry tmp s =
      Done (TEntry (it_entry it) (it_name it) (it_end it) nlfn, s') ∧ still ip cs s s' ∧
    length (it_entry it) = 32%nat.
Proof.
  intros B it Hd Hl Ho Hin Hb. pose proof (item_end_le B off tmp) as Hle. fold it in Hle.
  destruct (still_read s ip cs off entry Hd Hl Ho) as (s1 & E1 & T1); [unfold kMsdosEntrySize; fold B; lia|]. fold B in E1.
  unfold next_entry. erewrite M_bind_Done by exact E1. cbn [negb]. rewrite (proj2 (Z.eqb_neq _ 0)) by done.
  assert (length (ent B off) = 32%nat) as Hle32 by (apply length_ent; lia).
  unfold it, item_at in *. destruct (negb (byte (ent B off) O_ATTRIB =? kFatAttrLongEntry)).
  { exists s1, 0. split_and!; [done..|]. done. }
  fold (starts_long (ent B off)). destruct (starts_long (ent B off)).
  2: { exists s1, 0. split_and!; [done..|]. done. }
  fold (n_long (ent B off)). set (n := n_long (ent B off)) in *. cbn [it_end it_entry it_name] in *.
  destruct (T1) as (_ & D1 & B1). fold B in B1. unfold kMsdosEntrySize in *.
  destruct (rest_long_ok ip cs (Z.to_nat (n - 1)) s1 (off + 32) (ent B off) (copylfn (ent B off) tmp) D1) as (s2 & e2 & E2 & T2 & L2);
    [done|lia|rewrite B1; unfold kMsdosEntrySize; lia|].
  erewrite M_bind_Done by exact E2. cbn match. rewrite B1 in *. destruct (T2) as (_ & D2 & B2). rewrite B1 in B2. unfold kMsdosEntrySize in *.
  destruct (still_read s2 ip cs (off + 32 + Z.of_nat (Z.to_nat (n - 1)) * 32) e2 D2 L2) as (s3 & E3 & T3);
    [lia|rewrite B2; unfold kMsdosEntrySize; lia|].
  erewrite M_bind_Done by exact E3. cbn [negb]. rewrite B2. exists s3, n.
  replace (off + Z.max 1 n * 32) with (off + 32 + Z.of_nat (Z.to_nat (n - 1)) * 32) by lia.
  replace (Z.to_nat (Z.max 1 n)) with (S (Z.to_nat (n - 1))) by lia. cbn [long_name]. unfold kMsdosEntrySize.
  replace (off + (Z.max 1 n + 1) * 32) with (off + 32 + Z.of_nat (Z.to_nat (n - 1)) * 32 + 32) by lia.
  split_and!; [done|exact (still_trans _ _ _ _ _ T1 (still_trans _ _ _ _ _ T2 T3))|apply length_ent; lia].
Qed.

(** The position of the entry that ends at [off], on the device. *)
Definition position (cs : list Z) (off : Z) : Z :=
  let o := off - kMsdosEntrySize in
  u64 (u32 (FirstSector g (default 0 (cs !! Z.to_nat (o / 4096))) * kSectorSize) + o mod 4096).

Lemma entry_pos_ok s ip cs off :
  dir_at s ip cs → kMsdosEntrySize ≤ off ≤ Z.of_nat (length (bytes dev_ s cs)) →
  ∃ s', entry_pos g dev_ root fuel ip off s = Done (position cs off, s') ∧ still ip cs s s'.
Proof.
  intros Hd Ho. pose proof (dir_small _ _ _ Hd) as Hsm. destruct (Hd) as (n & Hr & Hsz).
  pose proof (rf_chain _ _ _ _ _ _ _ _ Hr) as Hch. pose proof (cf_geo _ _ _ _ _ _ Hch) as Hg.
  assert (off ≤ BSIZE * Z.of_nat (length cs)) as Hin by (rewrite length_bytes in Ho; unfold BSIZE in *; lia).
  unfold entry_pos, position. rewrite (ge_bpc _ _ Hg). unfold BSIZE, kMsdosEntrySize in *.
  set (l := (off - 32) / 4096) in *. assert (0 ≤ l < Z.of_nat (length cs) ∧ l < 2 ^ 31) as [Hl Hl2] by (unfold l; dlia).
  rewrite (u32_small l) by lia.
  destruct (bmap_in g dev_ root fuel s ip n cs l Hch Hl Hl2 fuel_clusters) as (c & Hc & Hcd & Hrun).
  erewrite M_bind_Done by exact Hrun. destruct (data_small _ _ _ Hg Hcd) as [-> _]. rewrite Hc.
  assert (moved ip l c n s = after_read ip (bufCache (fbl s)) (upd_cursor l c n) (local_ s) s) as Hmv.
  { unfold moved, after_read. destruct s as [b ? ? ? ? ?], b. done. }
  eexists. split; [reflexivity|]. rewrite Hmv. split; [|split].
  - do 5 eexists. split; [apply Hr|reflexivity].
  - exists (upd_cursor l c n). split; [|done]. destruct Hr as [_ Hco Hq HP]. split; [|by destruct s as [[] ? ? ? ? ?]..|done].
    apply chained_moved; [done|done|lia].
  - by apply bytes_eq.
Qed.

Section lookup.
Context (new_node : gmap Z node → Z) (new_inode : gmap Z minode → Z) (a_loc : Z).
Context (nm : mem) (name : Z) (e : list Z).
Hypothesis name_at : cstr nm name e.
Hypothesis name_len : (length e < 64)%nat.
Hypothesis name_loc : name + Z.of_nat (length e) < a_loc.
Hypothesis name_fuel : (length e < fuel)%nat.
Abbreviation lookup_loop := (Lookup_loop g dev_ root new_node new_inode a_loc fuel).

(** One turn of the loop of [Lookup]. *)
Lemma Lookup_loop_turn ip cs k s off entry tmp :
  let B := bytes dev_ s cs in let it := item_at B off tmp in
  dir_at s ip cs → length entry = 32%nat → length tmp = 64%nat → 0 ≤ off → it_end it ≤ Z.of_nat (length B) →
  byte (ent B off) 0 ≠ 0 →
  ∃ s', still ip cs s s' ∧ length (it_entry it) = 32%nat ∧
    lookup_loop (S k) ip nm name off entry tmp s =
    if accepts e (it_name it)
    then BuildInode dev_ new_node new_inode fuel (it_entry it) (position cs (it_end it)) ip s'
    else lookup_loop k ip nm name (it_end it) (it_entry it) (it_name it) s'.
Proof.
  intros B it Hd Hle Hlt Ho Hin Hne. cbn [Lookup_loop].
  destruct (next_entry_ok s ip cs off entry tmp Hd Hle Ho Hin Hne) as (s1 & nlfn & E1 & T1 & L1).
  erewrite M_bind_Done by exact E1. cbn match. fold B it in L1 |- *. destruct (T1) as (_ & D1 & B1).
  pose proof (length_item_name B off tmp) as Hnl. fold it in Hnl.
  erewrite M_bind_Done by (unfold c_strlen; rewrite (strlen_cstr _ _ e) by done; reflexivity).
  rewrite (same_name_accepts a_loc nm name e) by (done || lia).
  destruct (accepts e (it_name it)); cbn [negb]; [|by exists s1].
  pose proof (item_end_le B off tmp) as Hle2. fold it in Hle2.
  destruct (entry_pos_ok s1 ip cs (it_end it) D1) as (s2 & E2 & T2); [rewrite B1; fold B; unfold kMsdosEntrySize; lia|].
  exists s2. split; [exact (still_trans _ _ _ _ _ T1 T2)|]. split; [done|]. by erewrite M_bind_Done by exact E2.
Qed.

(** The loop finds the first entry whose name is accepted. *)
Lemma Lookup_loop_finds ip cs k : ∀ s off entry tmp n l,
  dir_at s ip cs → length entry = 32%nat → length tmp = 64%nat → 0 ≤ off →
  listing n (bytes dev_ s cs) off tmp = Some l → (n ≤ k)%nat →
  ∃ s', still ip cs s s' ∧
    lookup_loop k ip nm name off entry tmp s =
    match first_accepted e l with
    | None => Done (0, s')
    | Some it => BuildInode dev_ new_node new_inode fuel (it_entry it) (position cs (it_end it)) ip s'
    end.
Proof.
  induction k as [|k IH]; intros s off entry tmp n l Hd Hle Hlt Ho Hls Hn;
    (destruct n as [|n]; [done|]); [lia|]. cbn [listing] in Hls.
  destruct (Z.ltb_spec (Z.of_nat (length (bytes dev_ s cs))) (off + kMsdosEntrySize)) as [|Hin]; [done|].
  destruct (Z.eqb_spec (byte (ent (bytes dev_ s cs) off) 0) 0) as [Hend|Hne].
  { injection Hls as <-. destruct (still_read s ip cs off entry Hd Hle Ho Hin) as (s1 & E1 & T1).
    exists s1. split; [done|]. cbn [Lookup_loop]. unfold next_entry. unfold_M. rewrite E1. cbn [negb]. by rewrite Hend. }
  set (it := item_at _ _ _) in *. destruct (Z.ltb_spec (Z.of_nat (length (bytes dev_ s cs))) (it_end it)) as [|Hin2]; [done|].
  destruct (listing n _ _ _) as [l'|] eqn:Hl'; [|done]. injection Hls as <-.
  destruct (Lookup_loop_turn ip cs k s off entry tmp Hd Hle Hlt Ho Hin2 Hne) as (s1 & T1 & L1 & ->).
  fold it in L1 |- *. destruct (T1) as (_ & D1 & B1). unfold first_accepted. cbn [list_find].
  destruct (accepts e (it_name it)).
  - rewrite decide_True by done. by exists s1.
  - rewrite decide_False by done. pose proof (item_end_le (bytes dev_ s cs) off tmp) as Hle2. fold it in Hle2.
    rewrite <- B1 in Hl'.
    destruct (IH s1 (it_end it) (it_entry it) (it_name it) n l' D1 L1) as (s2 & T2 & E2); [|lia|done|lia|].
    { unfold it. by rewrite length_item_name. }
    exists s2. split; [exact (still_trans _ _ _ _ _ T1 T2)|]. rewrite E2. unfold first_accepted.
    by destruct (list_find _ l') as [[? ?]|].
Qed.
End lookup.
End dirs.

(** ** The inode of an entry *)

(** The inode [BuildInode] makes for the entry at [pos]. *)
Definition built (dev_ : Z) (entry : list Z) (pos parent : Z) : minode :=
  let start := i32 (GetStartCluster entry) in
  let dir := negb (Z.land (byte entry O_ATTRIB) kFatAttrDirentory =? 0) in
  {|
    i_start := start; i_logi := 0; i_clus := start; i_attrs := 0; i_pos := pos;
    idev := dev_; inum := GetStartCluster entry; test_name := take 11 entry;
    iref := 1; ilocked := false; imode := if dir then __S_IFDIR else __S_IFREG - 65536;
    iparent := parent; inlink := 0; isz := if dir then u32 (-1) else word entry O_FILE_SIZE;
    is_mp_target := false;
    iatime := FatTime2Unix (half entry O_ADATE) 0;
    imtime := FatTime2Unix (half entry O_MDATE) (half entry O_MTIME);
    ictime := FatTime2Unix (half entry O_CDATE) (half entry O_CTIME);
  |}.

(** No inode is in memory for the entry: a new one is made and entered in the
    map, and holds a reference to its directory. *)
Lemma BuildInode_new {W : Type} dev_ new_node new_inode fuel entry pos parent (s : fat W) m n :
  (∀ hp, new_node hp ≠ 0 ∧ hp !! new_node hp = None) → inodes s !! new_inode (inodes s) = None →
  stored (inode_cache_map_ s) m → (size m < fuel)%nat → m !! pos = None → inodes s !! parent = Some n →
  let ip := new_inode (inodes s) in
  ∃ hs, stored hs (<[pos := ip]> m) ∧
    BuildInode dev_ new_node new_inode fuel entry pos parent s =
    Done (ip, Fat (fbl s) (fat_cache_ s)
      (<[ip := built dev_ entry pos parent]> (<[parent := upd_iref (iref n + 1) n]> (inodes s))) hs (local_ s) (fw s)).
Proof.
  intros Hnew Hip Hm Hsize Hpos Hn ip. assert (parent ≠ ip) as Hne by (unfold ip; congruence).
  assert (on_map (get fuel pos) s = Done (0, s)) as Eg.
  { unfold on_map. rewrite (get_stored fuel _ m) by done. rewrite Hpos. by destruct s. }
  destruct (put_stored new_node Hnew fuel (inode_cache_map_ s) m pos ip Hm Hsize Hpos) as (hs & Ep & Hm').
  exists hs. split; [done|]. unfold BuildInode, GetInode.
  erewrite M_bind_Done by (erewrite M_bind_Done by exact Eg; reflexivity). cbn [Z.eqb negb].
  erewrite M_bind_Done by reflexivity. fold ip.
  erewrite M_bind_Done by (unfold on_map; cbn [inode_cache_map_]; rewrite Ep; reflexivity).
  erewrite M_bind_Done by (unfold MSDOS_I; cbn [inodes]; rewrite lookup_insert_ne by done; rewrite Hn; reflexivity).
  erewrite M_bind_Done by reflexivity. unfold_M. cbn [inodes fbl fat_cache_ inode_cache_map_ local_ fw].
  fold (built dev_ entry pos parent). unfold set_inode. unfold_M. cbn [inodes fbl fat_cache_ inode_cache_map_ local_ fw].
  rewrite (insert_insert_ne (inodes s) parent ip), insert_insert_eq by done. done.
Qed.
