(* ===== verification/Fat32Create.v ===== *)
(** * Creating a file: the entries [Create] writes and the file [Lookup] finds

    [Create] takes the first run of unused entries that is long enough, the
    first free cluster, and writes the short entry and the long ones before it;
    the directory then has exactly these bytes more, and [Lookup] of the name
    gives an inode of the new file. *)
From S2P Require Import Prelude Mem Buf HashMap Time Fat32 Fat32Props Fat32Files Fat32Lookup.

(** ** Bytes of entries *)
Lemma byte_splice_out l i bs j :
  (j < i)%nat ∨ (i + length bs ≤ j)%nat → byte (splice l i bs) j = byte l j.
Proof. intros Hj. unfold byte. rewrite !nth_lookup, splice_lookup, decide_False by lia. done. Qed.
Lemma byte_splice_in l i bs j :
  (i ≤ j < i + length bs)%nat → (j < length l)%nat → byte (splice l i bs) j = byte bs (j - i).
Proof. intros Hj Hl. unfold byte. rewrite !nth_lookup, splice_lookup, !decide_True by lia. done. Qed.
Lemma half_splice_out l i bs j :
  (S j < i)%nat ∨ (i + length bs ≤ j)%nat → half (splice l i bs) j = half l j.
Proof. intros Hj. unfold half. by rewrite !byte_splice_out by lia. Qed.
Lemma half_le16 v l i : 0 ≤ v < 2 ^ 16 → (i + 2 ≤ length l)%nat → half (splice l i (le16 v)) i = v.
Proof.
  intros Hv Hi. unfold half. rewrite !byte_splice_in by (cbn; lia).
  replace (i - i)%nat with 0%nat by lia. replace (S i - i)%nat with 1%nat by lia. unfold byte, le16. cbn [nth]. dlia.
Qed.
Lemma splice_before l i a b :
  splice (splice l (i + length a) b) i a = splice l i (a ++ b).
Proof.
  apply list_eq. intros j. rewrite !splice_lookup, length_splice, length_app.
  repeat case_decide; try done; try lia.
  - by rewrite lookup_app_l by lia.
  - rewrite lookup_app_r by lia. f_equal. lia.
Qed.
Lemma take_splice l i bs n : take n (splice l i bs) = splice (take n l) i bs.
Proof.
  apply list_eq. intros j. destruct (decide (j < n)%nat) as [Hj|Hj].
  - rewrite lookup_take_lt, !splice_lookup, length_take by done. repeat case_decide; try done; try lia.
    by rewrite lookup_take_lt.
  - rewrite !lookup_ge_None_2; [done|rewrite length_splice, length_take; lia|rewrite length_take, length_splice; lia].
Qed.
Lemma splice_past l i bs : (length l ≤ i)%nat → splice l i bs = l.
Proof.
  intros Hi. apply list_eq. intros j. rewrite splice_lookup. repeat case_decide; try done; try lia.
  symmetry. apply lookup_ge_None_2. lia.
Qed.

Lemma ent_splice B off src :
  length src = 32%nat → 0 ≤ off → off + 32 ≤ Z.of_nat (length B) → ent (splice B (Z.to_nat off) src) off = src.
Proof.
  intros Hl Ho Hin. apply list_eq. intros j. unfold ent. destruct (decide (j < 32)%nat) as [Hj|Hj].
  - rewrite lookup_take_lt, lookup_drop, splice_lookup, !decide_True by lia. f_equal. lia.
  - rewrite !lookup_ge_None_2; [done|lia|]. rewrite length_take. lia.
Qed.

(** ** The short name *)

(** A name has an extension when there is a dot in it; of the characters before
    the last dot more than eight are cut to six and "~1". *)
Definition short_base_len (e : list Z) : nat := default (length e) (last_index 46 e).
Definition short_ext (e : list Z) : list Z :=
  match last_index 46 e with Some i => take 3 (drop (S i) e) | None => [] end.
(** As many characters are made upper case as there are before the dot, those
    of the extension among them. *)
Definition short_name (e : list Z) : list Z :=
  let n := short_base_len e in
  let base := if Nat.ltb 8 n then take 6 e ++ [126; 49] else take n e in
  let l := splice (splice (replicate 11 kShortNameFillStuff) 8 (short_ext e)) 0 base in
  (toUpCase <$> take n l) ++ drop n l.

Example short_name_cut :
  short_name [115; 116; 97; 114; 116; 95; 117; 112; 95; 46; 99; 102; 103] =
    [83; 84; 65; 82; 84; 95; 126; 49; 67; 102; 103].
Proof. reflexivity. Qed.

Lemma upcase_lookup n (l : list Z) j :
  ((toUpCase <$> take n l) ++ drop n l) !! j = if decide (j < n)%nat then toUpCase <$> l !! j else l !! j.
Proof.
  rewrite lookup_app, list_lookup_fmap, length_fmap, length_take. case_decide as Hj.
  - rewrite lookup_take_lt by done. destruct (l !! j) as [x|] eqn:E; [done|]. cbn.
    apply lookup_drop_None || (rewrite lookup_drop; apply lookup_ge_None_2; apply lookup_ge_None_1 in E; lia).
  - rewrite lookup_take_ge by lia. cbn. rewrite lookup_drop. destruct (decide (n ≤ length l)%nat).
    + f_equal. lia.
    + rewrite !lookup_ge_None_2; [done|lia|lia].
Qed.
Lemma upcase_take k n (l : list Z) :
  take k ((toUpCase <$> take n l) ++ drop n l) = (toUpCase <$> take n (take k l)) ++ drop n (take k l).
Proof.
  apply list_eq. intros j. rewrite upcase_lookup. destruct (decide (j < k)%nat) as [Hj|Hj].
  - by rewrite !lookup_take_lt, upcase_lookup by done.
  - rewrite !lookup_take_ge by lia. by case_decide.
Qed.

Lemma cstr_lookup m s l i x : cstr m s l → l !! i = Some x → m (s + Z.of_nat i) = x.
Proof.
  revert s i. induction l as [|y l IH]; intros s i Hl Hi; [done|]. destruct Hl as (Hy & _ & Hl).
  destruct i as [|i]; cbn in Hi.
  - injection Hi as <-. by rewrite Z.add_0_r.
  - rewrite <- (IH (s + 1) i Hl Hi). f_equal. lia.
Qed.
Lemma cstr_drop m s l i : cstr m s l → (i ≤ length l)%nat → cstr m (s + Z.of_nat i) (drop i l).
Proof.
  intros Hl Hi. rewrite <- (take_drop i l), cstr_app, length_take, Nat.min_l in Hl by done. apply Hl.
Qed.
Lemma rd_cstr m s l n : cstr m s l → (n ≤ length l)%nat → rd_bytes m s n = take n l.
Proof.
  intros Hl Hn. apply list_eq. intros j. destruct (decide (j < n)%nat) as [Hj|Hj].
  - rewrite rd_bytes_lookup, lookup_take_lt by done. destruct (lookup_lt_is_Some_2 l j) as [x Hx]; [lia|].
    rewrite Hx. f_equal. by eapply cstr_lookup.
  - rewrite !lookup_ge_None_2; [done|rewrite length_take; lia|rewrite length_rd_bytes; lia].
Qed.

(** What [FillShortFile] makes of the 32 bytes of an entry. *)
Record short_entry (e : list Z) (cluster mode : Z) (entry : list Z) : Prop := {
  sh_len : length entry = 32%nat;
  sh_name : take 11 entry = short_name e;
  sh_attr : byte entry O_ATTRIB = mkattr mode;
  sh_cluster : GetStartCluster entry = cluster;
  sh_size : word entry O_FILE_SIZE = 0;
}.

(** The bytes behind the name, whatever the time is. *)
Lemma fill_fields entry mode cluster d t e :
  length entry = 32%nat → take 11 entry = short_name e → 0 ≤ cluster < 2 ^ 32 →
  let entry := splice entry O_ATTRIB [mkattr mode] in
  let entry := splice (splice entry O_CDATE (le16 d)) O_CTIME (le16 t) in
  let entry := splice (splice entry O_ADATE (le16 d)) O_CTIME (le16 t) in
  let entry := splice (splice entry O_MDATE (le16 d)) O_MTIME (le16 t) in
  let entry := splice entry O_CLUSTER_LOW (le16 (Z.land cluster 0xffff)) in
  let entry := splice entry O_CLUSTER_HIGH (le16 (Z.shiftr cluster 16)) in
  short_entry e cluster mode (splice entry O_FILE_SIZE (le32 0)).
Proof.
  intros Hl Hn Hc. cbv zeta.
  unfold O_ATTRIB, O_CDATE, O_CTIME, O_ADATE, O_MDATE, O_MTIME, O_CLUSTER_LOW, O_CLUSTER_HIGH, O_FILE_SIZE.
  split; unfold O_ATTRIB, O_FILE_SIZE, GetStartCluster, O_CLUSTER_HIGH, O_CLUSTER_LOW.
  - by rewrite !length_splice.
  - rewrite !take_splice, Hn. assert (length (short_name e) = 11%nat) as H11 by (rewrite <- Hn, length_take; lia).
    by rewrite !splice_past by (rewrite ?length_splice; lia).
  - rewrite !byte_splice_out by (cbn; lia). rewrite byte_splice_in by (cbn; lia). done.
  - change 0xffff with (2 ^ 16 - 1). rewrite land_ones_mod, Z.shiftl_mul_pow2, Z.shiftr_div_pow2 by lia.
    rewrite !(half_splice_out _ 28) by (cbn; lia). rewrite half_le16 by (rewrite ?length_splice; dlia).
    rewrite half_splice_out by (cbn; lia). rewrite half_le16 by (rewrite ?length_splice; dlia). dlia.
  - apply word_le32; [lia|rewrite !length_splice; lia].
Qed.

(** The part of [FillShortFile] that finds the extension. *)
Lemma fill_ext {W : Type} (s : fat W) fuel entry nm name e :
  cstr nm name e → (length e < fuel)%nat → 0 < name →
  (dot ← c_strrchr fuel nm name 46;
   if negb (dot =? 0) then
     l ← c_strlen fuel nm (dot + 1);
     let l := if 3 <? l then 3 else l in
     mret (splice entry 8 (rd_bytes nm (dot + 1) (Z.to_nat l)), dot - name)
   else l ← c_strlen fuel nm name; mret (entry, l)) s =
  Done ((splice entry 8 (short_ext e), Z.of_nat (short_base_len e)), s).
Proof.
  intros He Hf Hname. unfold short_ext, short_base_len, c_strrchr, c_strlen. unfold_M.
  rewrite (strrchr_cstr _ _ e) by done. destruct (last_index 46 e) as [i|] eqn:Ei; cbn [default from_option id].
  - pose proof (last_index_lt _ _ _ Ei) as Hi. rewrite (proj2 (Z.eqb_neq (name + Z.of_nat i) 0)) by lia. cbn [negb].
    replace (name + Z.of_nat i + 1) with (name + Z.of_nat (S i)) by lia.
    pose proof (cstr_drop nm name e (S i) He Hi) as Hd. pose proof (length_drop e (S i)) as Hld.
    rewrite (strlen_cstr _ _ _ _ Hd) by lia. set (k := if _ <? _ then _ else _).
    assert (Z.to_nat k = Nat.min 3 (length (drop (S i) e))) as ->.
    { unfold k. destruct (Z.ltb_spec 3 (Z.of_nat (length (drop (S i) e)))); lia. }
    rewrite (rd_cstr _ _ _ _ Hd) by lia. replace (name + Z.of_nat i - name) with (Z.of_nat i) by lia. do 4 f_equal.
    destruct (decide (3 ≤ length (drop (S i) e))%nat); [by rewrite Nat.min_l|]. by rewrite Nat.min_r, !take_ge by lia.
  - cbn [negb Z.eqb]. rewrite (strlen_cstr _ _ e) by done. by rewrite splice_nil.
Qed.

Lemma FillShortFile_ok {W : Type} (s : fat W) now fuel entry nm name e cluster mode :
  cstr nm name e → (length e < fuel)%nat → 0 < name → length entry = 32%nat → 0 ≤ cluster < 2 ^ 32 →
  ∃ entry', FillShortFile now fuel entry nm name cluster mode s = Done (entry', s) ∧
    short_entry e cluster mode entry'.
Proof.
  intros He Hf Hname Hl Hc.
  pose proof (fill_ext s fuel (splice entry 0 (replicate 11 kShortNameFillStuff)) nm name e He Hf Hname) as Ext.
  apply M_bind_inv in Ext as (dot & s1 & Edot & Ext).
  assert (s1 = s) as -> by (unfold c_strrchr in Edot; destruct (strrchr _ _ _ _); congruence).
  unfold FillShortFile. erewrite M_bind_Done by exact Edot. cbv zeta in Ext |- *. erewrite M_bind_Done by exact Ext. cbn match.
  destruct (UnixTime2Fat now) as [d t]. rewrite Nat2Z.id. eexists. split; [reflexivity|].
  set (n := short_base_len e) in *.
  assert (n ≤ length e)%nat as Hn.
  { unfold n, short_base_len. destruct (last_index 46 e) eqn:Ei; cbn; [|lia]. by apply last_index_lt in Ei; lia. }
  apply fill_fields; [|..|done].
  - rewrite length_upcase. destruct (8 <? Z.of_nat n); by rewrite !length_splice.
  - rewrite upcase_take. unfold short_name. fold n. 
    assert (∀ b, take 11 (splice (splice (splice entry 0 (replicate 11 kShortNameFillStuff)) 8 (short_ext e)) 0 b) =
      splice (splice (replicate 11 kShortNameFillStuff) 8 (short_ext e)) 0 b) as Hb.
    { intros b. rewrite !take_splice. by rewrite (splice_all (take 11 entry)) by (rewrite length_take, length_replicate; lia). }
    destruct (Nat.ltb_spec 8 n) as [H8|H8].
    + rewrite (proj2 (Z.ltb_lt 8 (Z.of_nat n))) by lia. rewrite (rd_cstr _ _ e) by (done || lia).
      assert (∀ l, splice (splice l 0 (take 6 e)) 6 [126; 49] = splice l 0 (take 6 e ++ [126; 49])) as H6.
      { intros l. by rewrite <- splice_splice, length_take, Nat.min_l by lia. }
      by rewrite H6, Hb.
    + rewrite (proj2 (Z.ltb_ge 8 (Z.of_nat n))) by lia. rewrite (rd_cstr _ _ e) by done. by rewrite Hb.
Qed.

(** ** Unused entries *)
Definition unused (B : list Z) (i : nat) : bool :=
  let e := ent B (Z.of_nat i * kMsdosEntrySize) in IsDeleted e || IsFree e.
(** Entry number [o] starts the first [n] unused entries in a row. *)
Record free_slot (B : list Z) (n o : nat) : Prop := {
  fr_fits : (Z.of_nat o + Z.of_nat n) * kMsdosEntrySize ≤ Z.of_nat (length B);
  fr_unused : ∀ j, (o ≤ j < o + n)%nat → unused B j = true;
  fr_first : ∀ o', (o' < o)%nat → ∃ j, (o' ≤ j < o' + n)%nat ∧ unused B j = false;
}.

(** ** The long entries *)
Lemma length_long_entry nm p seq num ck : length (long_entry nm p seq num ck) = 32%nat.
Proof. unfold long_entry. by rewrite !length_splice. Qed.
Lemma length_long_entries nm p seq num ck n : length (long_entries nm p seq num ck n) = n.
Proof.
  revert p seq. induction n as [|n IH]; intros p seq; cbn; [done|]. rewrite length_app, IH. cbn. lia.
Qed.
Lemma long_entries_32 nm p seq num ck n : Forall (λ e, length e = 32%nat) (long_entries nm p seq num ck n).
Proof.
  revert p seq. induction n as [|n IH]; intros p seq; cbn; [constructor|]. apply Forall_app. split; [done|].
  constructor; [apply length_long_entry|constructor].
Qed.
Lemma join_snoc (les : list (list Z)) e : mjoin (les ++ [e]) = mjoin les ++ e.
Proof.
  induction les as [|l ls IH]; [exact (app_nil_r e)|].
  change (mjoin (l :: ls)) with (l ++ mjoin ls). by rewrite <- app_assoc, <- IH.
Qed.
(** The last part of a name comes first. *)
Lemma long_entries_head nm name seq num ck k :
  ∃ p, long_entries nm name seq num ck (S k) !! 0%nat = Some (long_entry nm p (seq + Z.of_nat k) num ck).
Proof.
  revert name seq. induction k as [|k IH]; intros name seq.
  - exists name. cbn. by rewrite Z.add_0_r.
  - change (long_entries nm name seq num ck (S (S k))) with
      (long_entries nm (name + kLongNameLength) (seq + 1) num ck (S k) ++ [long_entry nm name seq num ck]).
    rewrite lookup_app_l by (rewrite length_long_entries; lia).
    destruct (IH (name + kLongNameLength) (seq + 1)) as [p ->]. exists p. do 2 f_equal. lia.
Qed.
Lemma length_join_32 (les : list (list Z)) : Forall (λ e, length e = 32%nat) les → length (mjoin les) = (32 * length les)%nat.
Proof.
  induction 1 as [|e les He _ IH]; [done|]. change (mjoin (e :: les)) with (e ++ mjoin les).
  rewrite length_app, IH, He. cbn [length]. lia.
Qed.

(** The entries of a directory are those its bytes are joined from. *)
Lemma ent_join (B : list Z) (o : nat) (les : list (list Z)) i e :
  Forall (λ e, length e = 32%nat) les → les !! i = Some e →
  (o + 32 * length les ≤ length B)%nat → ent (splice B o (mjoin les)) (Z.of_nat (o + 32 * i)) = e.
Proof.
  intros Hall. revert o i B. induction Hall as [|e' les He' Hall IH]; intros o i B Hi HB; [done|].
  cbn [length] in HB.
  destruct i as [|i]; cbn in Hi.
  - injection Hi as <-. rewrite Nat.mul_0_r, Nat.add_0_r. change (mjoin (e' :: les)) with (e' ++ mjoin les).
    rewrite <- splice_before. rewrite <- (Nat2Z.id o) at 2. apply ent_splice; [done|lia|rewrite length_splice; lia].
  - change (mjoin (e' :: les)) with (e' ++ mjoin les). rewrite <- splice_splice, He'.
    replace (o + 32 * S i)%nat with (o + 32 + 32 * i)%nat by lia. apply IH; [done|]. rewrite length_splice. lia.
Qed.

Lemma fold_long_name (B : list Z) (les : list (list Z)) : ∀ (o : nat) tmp,
  (∀ i e, les !! i = Some e → ent B (Z.of_nat (o + 32 * i)) = e) →
  long_name (length les) B (Z.of_nat o) tmp = fold_left (λ t e, copylfn e t) les tmp.
Proof.
  induction les as [|e les IH]; intros o tmp He; cbn [length long_name fold_left]; [done|].
  rewrite <- (He 0%nat e eq_refl). replace (Z.of_nat (o + 32 * 0)) with (Z.of_nat o) by lia.
  replace (Z.of_nat o + kMsdosEntrySize) with (Z.of_nat (o + 32)) by (unfold kMsdosEntrySize; lia).
  apply IH. intros i e' Hi. rewrite <- (He (S i) e' Hi). f_equal. lia.
Qed.

Lemma accepts_take e : ∀ tmp, take (length e) tmp = e → accepts e tmp = true.
Proof.
  induction e as [|c e IH]; intros [|d tmp]; cbn; try done. intros [= -> Ht]. by rewrite Z.eqb_refl, IH.
Qed.

(** The item of a new file: its name is accepted, its entry is the short one. *)
Lemma item_new nm name e (B : list Z) (o : nat) (ck : Z) (short tmp : list Z) :
  let num := (Z.of_nat (length e) + kLongNameLength - 1) / kLongNameLength in
  let les := long_entries nm name 1 num ck (Z.to_nat num) in
  cstr nm name e → (0 < length e ≤ 51)%nat → length short = 32%nat → length tmp = 64%nat →
  (o + 32 * (Z.to_nat num + 1) ≤ length B)%nat →
  let B' := splice B o (mjoin les ++ short) in
  let it := item_at B' (Z.of_nat o) tmp in
  byte (ent B' (Z.of_nat o)) 0 ≠ 0 ∧ it_entry it = short ∧ it_end it = Z.of_nat (o + 32 * (Z.to_nat num + 1)) ∧
  accepts e (it_name it) = true.
Proof.
  intros num les He Hlen Hs Ht HB B'.
  assert (1 ≤ num ≤ 4) as Hnum by (unfold num, kLongNameLength; dlia).
  pose proof (join_snoc les short) as Hj. symmetry in Hj.
  assert (Forall (λ e, length e = 32%nat) (les ++ [short])) as Hall.
  { apply Forall_app. split; [apply long_entries_32|by repeat constructor]. }
  assert (length les = Z.to_nat num) as Hll by apply length_long_entries.
  assert (∀ i x, (les ++ [short]) !! i = Some x → ent B' (Z.of_nat (o + 32 * i)) = x) as Hent.
  { intros i x Hi. unfold B'. rewrite Hj. apply ent_join; [done..|]. rewrite length_app, Hll. cbn. lia. }
  destruct (long_entries_head nm name 1 num ck (Z.to_nat (num - 1))) as [p Hhead].
  replace (S (Z.to_nat (num - 1))) with (Z.to_nat num) in Hhead by lia.
  replace (1 + Z.of_nat (Z.to_nat (num - 1))) with num in Hhead by lia. fold les in Hhead.
  pose proof (Hent 0%nat _ ltac:(rewrite lookup_app_l by lia; exact Hhead)) as Hfirst.
  rewrite Nat.mul_0_r, Nat.add_0_r in Hfirst. cbv zeta. unfold item_at. rewrite Hfirst.
  assert (byte (long_entry nm p num num ck) O_ATTRIB = kFatAttrLongEntry) as -> by reflexivity.
  assert (byte (long_entry nm p num num ck) 0 = Z.lor num 0x40) as Hb0.
  { unfold long_entry. rewrite Z.eqb_refl. reflexivity. }
  unfold starts_long, n_long. rewrite Hb0.
  assert (Z.land (Z.lor num 64) 192 = 64 ∧ Z.land (Z.lor num 64) (Z.lnot 64) = num ∧ Z.lor num 64 ≠ 0) as (H1 & H2 & H3).
  { assert (num = 1 ∨ num = 2 ∨ num = 3 ∨ num = 4) as [-> | [-> | [-> | ->]]] by lia; done. }
  rewrite H1, H2. cbn [Z.eqb Pos.eqb negb kFatAttrLongEntry it_entry it_end it_name]. rewrite Z.max_r by lia. unfold kMsdosEntrySize.
  split; [done|]. split; [|split; [lia|]].
  - rewrite <- (Hent (Z.to_nat num) short). { f_equal. lia. } rewrite lookup_app_r by lia. by rewrite Hll, Nat.sub_diag.
  - rewrite <- Hll, (fold_long_name B' les).
    + apply accepts_take. refine (proj1 (long_name_read nm name num ck e tmp He _ Ht eq_refl)). lia.
    + intros i x Hi. apply Hent. by apply lookup_app_l_Some.
Qed.

(** ** Walking to an offset

    The loop of [Lookup] comes from [off] to [o] without accepting a name; the
    result is what its buffer then holds. *)
Fixpoint reaches (n : nat) (e B : list Z) (o off : Z) (tmp : list Z) : option (list Z) :=
  match n with
  | O => None
  | S n =>
      if off =? o then Some tmp
      else if byte (ent B off) 0 =? 0 then None
      else
        let it := item_at B off tmp in
        if (o <? it_end it) || accepts e (it_name it) then None else reaches n e B o (it_end it) (it_name it)
  end.

Lemma long_name_ext B B' o n : ∀ off tmp,
  (∀ x, 0 ≤ x → x + 32 ≤ o → ent B' x = ent B x) → 0 ≤ off → off + Z.of_nat n * 32 ≤ o →
  long_name n B' off tmp = long_name n B off tmp.
Proof.
  induction n as [|n IH]; intros off tmp Hag Ho Hn; cbn [long_name]; [done|].
  rewrite Hag by lia. apply IH; [done|unfold kMsdosEntrySize; lia..].
Qed.
Lemma item_at_ext B B' o off tmp :
  (∀ x, 0 ≤ x → x + 32 ≤ o → ent B' x = ent B x) → 0 ≤ off → it_end (item_at B off tmp) ≤ o →
  item_at B' off tmp = item_at B off tmp.
Proof.
  intros Hag Ho Hend. pose proof (item_end_le B off tmp) as Hle. unfold item_at in *. rewrite Hag by lia.
  destruct (negb _); [done|]. destruct (starts_long _); [|done]. cbn [it_end] in *. unfold kMsdosEntrySize in *.
  rewrite Hag by lia. by rewrite (long_name_ext B B' o) by (done || lia).
Qed.
Lemma reaches_ext B B' e o tmp' n : ∀ off tmp,
  (∀ x, 0 ≤ x → x + 32 ≤ o → ent B' x = ent B x) → 0 ≤ off →
  reaches n e B o off tmp = Some tmp' → reaches n e B' o off tmp = Some tmp'.
Proof.
  induction n as [|n IH]; intros off tmp Hag Ho; cbn [reaches]; [done|].
  destruct (off =? o); [done|]. destruct (Z.eqb_spec (byte (ent B off) 0) 0) as [|Hne]; [done|].
  pose proof (item_end_le B off tmp) as Hle.
  destruct (Z.ltb_spec o (it_end (item_at B off tmp))) as [|Hend]; [done|]. cbn [orb].
  rewrite (item_at_ext B B' o off tmp) by done. rewrite Hag by lia. rewrite (proj2 (Z.eqb_neq _ 0)) by done.
  rewrite (proj2 (Z.ltb_ge o _)) by done. cbn [orb].
  destruct (accepts _ _); [done|]. apply IH; [done|lia].
Qed.

Section create.
Context {W : Type}.
Context (g : finfo) (dev_ root : Z) (now : Z) (fuel : nat).
Implicit Types s : fat W.
Hypothesis fuel_clusters : cluster_count_ g < Z.of_nat fuel.

Lemma Lookup_loop_reaches P new_node new_inode a_loc nm name e ip cs o tmp' n : ∀ k s off entry tmp,
  cstr nm name e → (length e < 64)%nat → name + Z.of_nat (length e) < a_loc → (length e < fuel)%nat →
  dir_at g dev_ root P s ip cs → length entry = 32%nat → length tmp = 64%nat → 0 ≤ off →
  o ≤ Z.of_nat (length (bytes dev_ s cs)) → (n ≤ k)%nat →
  reaches n e (bytes dev_ s cs) o off tmp = Some tmp' →
  ∃ s' entry' k', still g dev_ root P ip cs s s' ∧ length entry' = 32%nat ∧ length tmp' = 64%nat ∧
    Lookup_loop g dev_ root new_node new_inode a_loc fuel k ip nm name off entry tmp s =
    Lookup_loop g dev_ root new_node new_inode a_loc fuel (S k') ip nm name o entry' tmp' s'.
Proof.
  induction n as [|n IH]; intros k s off entry tmp He Hel Hloc Hfu Hd Hle Hlt Ho Hin Hk; cbn [reaches]; [done|].
  destruct k as [|k]; [lia|]. destruct (Z.eqb_spec off o) as [->|Hne].
  { intros [= ->]. exists s, entry, k. split_and!; [by eapply still_refl|done..]. }
  destruct (Z.eqb_spec (byte (ent (bytes dev_ s cs) off) 0) 0) as [|Hmark]; [done|].
  destruct (Z.ltb_spec o (it_end (item_at (bytes dev_ s cs) off tmp))) as [|Hend]; [done|]. cbn [orb].
  destruct (accepts e _) eqn:Hacc; [done|]. intros Hr.
  destruct (Lookup_loop_turn g dev_ root fuel P fuel_clusters new_node new_inode a_loc nm name e He Hel Hloc Hfu ip cs k s off
    entry tmp Hd Hle Hlt Ho) as (s1 & T1 & L1 & E1); [lia|done|].
  rewrite Hacc in E1. destruct (T1) as (_ & D1 & B1). rewrite <- B1 in Hr.
  pose proof (item_end_le (bytes dev_ s cs) off tmp) as Hle2.
  destruct (IH k s1 (it_end (item_at (bytes dev_ s cs) off tmp)) _ (it_name (item_at (bytes dev_ s cs) off tmp)) He Hel Hloc Hfu D1 L1)
    as (s2 & entry' & k' & T2 & L2 & L3 & E2); [by rewrite length_item_name|lia|by rewrite B1|lia|by rewrite B1 in *|].
  exists s2, entry', k'. split; [exact (still_trans _ _ _ _ _ _ _ _ _ T1 T2)|]. split; [done|]. split; [done|]. by rewrite E1.
Qed.

(** ** Reading and writing entries of a directory

    A directory that can be written: its own entry is on the disk, outside the
    clusters that [P] holds of. *)
Record writable (P : Z → Prop) (n : minode) : Prop := {
  wd_size : isz n = u32 (-1);
  wd_entry : entry_ok n;
  wd_apart : ∀ c x, P c → in_cluster g c x → ¬ in_entry_sector n x;
}.

(** The directory's own entry on the device after a write into the directory:
    name and size, but no attribute. *)
Definition own_entry (n : minode) s : Prop :=
  let e := rd_bytes (rw_devs (fbl s) dev_) (i_pos n) 32 in
  take 11 e = test_name n ∧ byte e O_ATTRIB = 0 ∧ word e O_FILE_SIZE = isz n.

(** [s] is [s0] but for the buffers, the cursor of the directory, its bytes,
    which are [B], and its own entry. *)
Record dir_view (P : Z → Prop) s0 (ip : Z) (n : minode) (cs B : list Z) s : Prop := {
  dv_dir : ∃ lo cl, readable g dev_ root P s ip (upd_cursor lo cl n) cs ∧
             inodes s = <[ip := upd_cursor lo cl n]> (inodes s0);
  dv_bytes : bytes dev_ s cs = B;
  dv_fat : fat_cache_ s = fat_cache_ s0;
  dv_map : inode_cache_map_ s = inode_cache_map_ s0;
  dv_w : fw s = fw s0;
  dv_dev : dev_changes dev_ (written_in g n cs) s0 s;
}.

Lemma view_refl P s ip n cs : readable g dev_ root P s ip n cs → dir_view P s ip n cs (bytes dev_ s cs) s.
Proof.
  intros Hr. split; try done. exists (i_logi n), (i_clus n). replace (upd_cursor _ _ n) with n by (by destruct n).
  split; [done|]. rewrite insert_id; [done|]. apply Hr.
Qed.
Lemma view_dir P s0 ip n cs B s : writable P n → dir_view P s0 ip n cs B s → dir_at g dev_ root P s ip cs.
Proof. intros [Hsz _ _] [(lo & cl & Hr & _) _ _ _ _ _]. by exists (upd_cursor lo cl n). Qed.
Lemma view_looked P s0 ip n cs B s s' :
  dir_view P s0 ip n cs B s → still g dev_ root P ip cs s s' → dir_view P s0 ip n cs B s'.
Proof.
  intros [(lo & cl & Hr & Hi) HB Hf Hm Hw Hd] ((bufs & lo' & cl' & loc & n' & Hn' & ->) & (n2 & Hr2 & _) & HB').
  rewrite Hi, lookup_insert_eq in Hn'. injection Hn' as <-.
  assert (n2 = upd_cursor lo' cl' n) as ->.
  { destruct Hr2 as [[_ Hn2 _ _ _ _ _] _ _ _]. cbn in Hn2. rewrite lookup_insert_eq in Hn2. by injection Hn2. }
  split; [|congruence|done..]. exists lo', cl'. split; [done|]. cbn. by rewrite Hi, insert_insert_eq.
Qed.
Lemma view_read P s0 ip n cs B s off entry :
  writable P n → dir_view P s0 ip n cs B s → length entry = 32%nat → 0 ≤ off → off + kMsdosEntrySize ≤ Z.of_nat (length B) →
  ∃ s', read_entry g dev_ root fuel ip off entry s = Done ((true, ent B off), s') ∧ dir_view P s0 ip n cs B s' ∧
    (own_entry n s → own_entry n s').
Proof.
  intros Hw Hv Hl Ho Hin. pose proof (dv_bytes _ _ _ _ _ _ _ Hv) as <-.
  destruct (still_read g dev_ root fuel P fuel_clusters s ip cs off entry) as (s' & E & T); [by eapply view_dir|done..|].
  exists s'. split; [done|]. split; [by eapply view_looked|].
  destruct T as ((bufs & lo & cl & loc & n' & _ & ->) & _). done.
Qed.

Lemma readable_iff (P Q : Z → Prop) s ip n cs :
  (∀ c, P c ↔ Q c) → readable g dev_ root P s ip n cs → readable g dev_ root Q s ip n cs.
Proof.
  intros HPQ [Hch [H1 H2 H3 H4 H5 H6] Hq HP]. split; [done| |done|].
  - split; try done. intros i b Hb. destruct (H4 i b Hb) as [Hl Hv Hd]. split; [done..|]. intros Hval HQ. apply Hd; [done|].
    by apply HPQ.
  - intros c Hc. by apply HPQ, HP.
Qed.

Lemma view_write P s0 ip n cs B s src junk off :
  writable P n → dir_view P s0 ip n cs B s → length src = 32%nat → length junk = 32%nat → (4 ≤ fuel)%nat →
  0 ≤ off → off + kMsdosEntrySize ≤ Z.of_nat (length B) → off + kMsdosEntrySize < 2 ^ 31 →
  ∃ s', WriteInode g dev_ root now fuel junk ip (inp_local src) off kMsdosEntrySize s = Done (kMsdosEntrySize, s') ∧
    dir_view P s0 ip n cs (splice B (Z.to_nat off) src) s' ∧ own_entry n s'.
Proof.
  intros [Hsz [E1 E2 E3 E4] Hap] [(lo & cl & Hr & Hi) HB Hf Hm Hw Hd] Hl Hj Hfu Ho Hin Hsm.
  unfold kMsdosEntrySize in *. set (n1 := upd_cursor lo cl n) in *.
  assert (∀ c, (P c ∧ ∀ x, in_cluster g c x → ¬ in_entry_sector n1 x) ↔ P c) as HP.
  { intros c. split; [by intros [? _]|]. intros Hc. split; [done|]. intros x. by apply Hap. }
  destruct (WriteInode_ok g dev_ root now fuel P s ip n1 cs src junk off 32 Hr) as [_ H]; try done; try lia.
  { rewrite <- HB in Hin. rewrite length_bytes in Hin. unfold BSIZE in *. lia. }
  { intros c x Hc. apply Hap. by apply (rf_P _ _ _ _ _ _ _ _ Hr). }
  change (isz n1) with (isz n) in H. rewrite Hsz in H. change (u32 (-1)) with 4294967295 in H.
  destruct (H ltac:(lia)) as (s' & n' & entry & Hrun & Hr' & _ & HB' & Hf' & He' & He1 & He2 & He3 & [(lo' & cl' & Hn') Hi' Hm' _ Hw' Hd']).
  exists s'. split; [done|].
  assert (n' = upd_cursor lo' cl' n) as ->.
  { rewrite Hn'. unfold grown. change (isz (upd_cursor lo' cl' n1)) with (isz n). rewrite Hsz. change (u32 (-1)) with 4294967295.
    by rewrite (proj2 (Z.ltb_ge _ _)) by lia. }
  split.
  - split; [|congruence..|].
    + exists lo', cl'. split; [exact (readable_iff _ _ _ _ _ _ HP Hr')|]. by rewrite Hi', Hi, insert_insert_eq.
    + intros dev x Hx. rewrite (Hd' dev x Hx). by apply Hd.
  - unfold own_entry. change (i_pos n) with (i_pos n1). by rewrite He'.
Qed.

(** ** [FindFreeEntry] *)
Lemma FindFreeEntry_loop_ok P s0 ip n cs B k o : writable P n → free_slot B k o → Z.of_nat (length B) < 2 ^ 31 →
  ∀ f s i entry (nfree : nat), dir_view P s0 ip n cs B s → length entry = 32%nat →
  (nfree < k)%nat → (nfree ≤ i)%nat → (i - nfree ≤ o)%nat → (∀ j, (i - nfree ≤ j < i)%nat → unused B j = true) →
  (o + k ≤ i + f)%nat →
  ∃ s', FindFreeEntry_loop g dev_ root fuel f ip (Z.of_nat i * kMsdosEntrySize) (Z.of_nat nfree) (Z.of_nat k) entry s =
      Done (Z.of_nat o * kMsdosEntrySize, s') ∧ dir_view P s0 ip n cs B s'.
Proof.
  intros Hw [Hfit Hun Hfirst] Hsm. induction f as [|f IH]; intros s i entry nfree Hv Hl Hnf Hi Ho Hrun Hf; [lia|].
  cbn [FindFreeEntry_loop]. unfold kMsdosEntrySize in Hfit.
  destruct (view_read P s0 ip n cs B s (Z.of_nat i * kMsdosEntrySize) entry Hw Hv Hl) as (s1 & E1 & V1 & _);
    [unfold kMsdosEntrySize; lia..|].
  erewrite M_bind_Done by exact E1. cbn match.
  change (IsDeleted (ent B (Z.of_nat i * kMsdosEntrySize)) || IsFree (ent B (Z.of_nat i * kMsdosEntrySize))) with (unused B i).
  unfold kMsdosEntrySize in *. rewrite (u64_small (Z.of_nat i * 32 + 32)) by lia.
  assert (length (ent B (Z.of_nat i * 32)) = 32%nat) as Hle by (apply length_ent; lia).
  replace (Z.of_nat i * 32 + 32) with (Z.of_nat (S i) * 32) by lia.
  destruct (unused B i) eqn:Hu.
  - replace (Z.of_nat nfree + 1) with (Z.of_nat (S nfree)) by lia.
    destruct (Z.eqb_spec (Z.of_nat (S nfree)) (Z.of_nat k)) as [Hk|Hk].
    + assert (i - nfree = o)%nat as Heq.
      { destruct (decide (i - nfree < o)%nat) as [Hlt|]; [|lia]. destruct (Hfirst _ Hlt) as (j & Hj & Hju).
        destruct (decide (j = i)) as [->|]; [congruence|]. rewrite Hrun in Hju by lia. done. }
      exists s1. split; [|done]. unfold_M. rewrite u64_small by lia. do 2 f_equal. lia.
    + apply IH; [done..|lia|lia|lia| |lia]. intros j Hj. destruct (decide (j = i)) as [->|]; [done|]. apply Hrun. lia.
  - assert (i < o)%nat as Hio.
    { destruct (decide (i < o)%nat); [done|]. rewrite Hun in Hu by lia. done. }
    change 0 with (Z.of_nat 0). rewrite (proj2 (Z.eqb_neq _ _)) by lia. apply IH; [done..|lia|lia|lia| |lia]. lia.
Qed.

(** ** The long entries *)
Lemma write_long_ok P s0 ip n cs nm ck num junk : writable P n → length junk = 32%nat → (4 ≤ fuel)%nat →
  ∀ k s B name seq (o : nat), dir_view P s0 ip n cs B s → (32 * k ≤ o)%nat → (o ≤ length B)%nat → Z.of_nat o < 2 ^ 31 →
  ∃ s', write_long g dev_ root now fuel k junk ip nm name seq num ck (u32 (Z.of_nat o - kMsdosEntrySize)) s = Done (tt, s') ∧
    dir_view P s0 ip n cs (splice B (o - 32 * k) (mjoin (long_entries nm name seq num ck k))) s' ∧
    (own_entry n s → own_entry n s').
Proof.
  intros Hw Hj Hfu. induction k as [|k IH]; intros s B name seq o Hv Hk Ho Hsm; cbn [write_long long_entries].
  { exists s. split; [done|]. cbn. by rewrite splice_nil. }
  unfold kMsdosEntrySize in *. rewrite (u32_small (Z.of_nat o - 32)) by lia.
  destruct (view_write P s0 ip n cs B s (long_entry nm name seq num ck) junk (Z.of_nat o - 32) Hw Hv) as (s1 & E1 & V1 & O1);
    [apply length_long_entry|done|done|unfold kMsdosEntrySize; lia..|].
  unfold kMsdosEntrySize in *. erewrite M_bind_Done by exact E1.
  replace (Z.of_nat o - 32) with (Z.of_nat (o - 32)) in * by lia. rewrite Nat2Z.id in V1.
  destruct (IH s1 _ (name + kLongNameLength) (seq + 1) (o - 32)%nat V1) as (s2 & E2 & V2 & O2); [lia|rewrite length_splice; lia|lia|].
  exists s2. split; [exact E2|]. split; [|intros _; by apply O2].
  set (les := long_entries nm (name + kLongNameLength) (seq + 1) num ck k) in *.
  assert (length (mjoin les) = 32 * k)%nat as Hlen.
  { unfold les. by rewrite length_join_32, length_long_entries by apply long_entries_32. }
  replace (o - 32)%nat with (o - 32 * S k + length (mjoin les))%nat in V2 at 1 by lia.
  replace (o - 32 - 32 * k)%nat with (o - 32 * S k)%nat in V2 by lia. rewrite splice_before in V2.
  by rewrite join_snoc.
Qed.

(** ** [Create] *)
Definition long_count (e : list Z) : Z := (Z.of_nat (length e) + kLongNameLength - 1) / kLongNameLength.

(** A name can be created in the directory: there are [long_count e + 1] unused
    entries in a row, first at [o], and [c] is the first free cluster. *)
Record creatable (P : Z → Prop) s (ip : Z) (n : minode) (cs : list Z) (nm : mem) (name : Z) (e : list Z)
    (c : Z) (o : nat) : Prop := {
  cr_dir : readable g dev_ root P s ip n cs;
  cr_writable : writable P n;
  cr_name : cstr nm name e;
  cr_addr : 0 < name;
  cr_len : (0 < length e ≤ 32)%nat;
  cr_slot : free_slot (bytes dev_ s cs) (S (Z.to_nat (long_count e))) o;
  cr_cluster : first_free g s 2 c;
  cr_fuel : (length (bytes dev_ s cs) ≤ 32 * fuel)%nat;
}.

(** The blocks that still agree with the cache: not the new cluster's, which
    was zeroed on the device only. *)
Definition but_cluster (P : Z → Prop) (c d : Z) : Prop := P d ∧ ∀ x, in_cluster g d x → ¬ in_cluster g c x.

(** [s'] is [s] with the new file of name [e] in cluster [c]. *)
Record created (P : Z → Prop) s (ip : Z) (n : minode) (cs : list Z) (nm : mem) (name : Z) (e : list Z) (c : Z)
    (o : nat) (short : list Z) s' : Prop := {
  cd_dir : ∃ lo cl, readable g dev_ root (but_cluster P c) s' ip (upd_cursor lo cl n) cs ∧
             inodes s' = <[ip := upd_cursor lo cl n]> (inodes s);
  cd_bytes : bytes dev_ s' cs = splice (bytes dev_ s cs) (32 * o)
    (mjoin (long_entries nm name 1 (long_count e) (FatChecksum short) (Z.to_nat (long_count e))) ++ short);
  cd_fat : ∀ x, fat_get s' x = if decide (x = c) then kEndOfCluster32 else fat_get s x;
  cd_map : inode_cache_map_ s' = inode_cache_map_ s;
  cd_w : fw s' = fw s;
  cd_own : own_entry n s';
  cd_new : ∀ x, in_cluster g c x → ¬ (i_pos n ≤ x < i_pos n + 32) → rw_devs (fbl s') dev_ x = 0;
  cd_dev : dev_changes dev_ (λ x, written_in g n cs x ∨ in_cluster g c x) s s';
}.

Lemma free_not_in s ip n cs c : chained g root s ip n cs → fat_get s c = 0 → c ∉ cs.
Proof. intros [_ _ Hch _ _ _ _] Hc Hin. by apply (cchain_nonzero g s _ cs c Hch Hin). Qed.

(** A free cluster besides those of the directory: its offsets are small. *)
Lemma dir_room s ip n cs c :
  chained g root s ip n cs → data_cluster g c → c ∉ cs → 4096 * (Z.of_nat (length cs) + 1) ≤ 2 ^ 31.
Proof.
  intros [Hg _ Hch Hnd _ _ _] Hc Hnin. destruct Hg as [_ _ _ _ _ ? _ _ _ ? Hsz _].
  assert (length (c :: cs) ≤ length (seqZ 2 (cluster_count_ g - 1)))%nat as Hlen.
  { apply submseteq_length, NoDup_submseteq; [by constructor|]. intros d Hd. apply elem_of_seqZ.
    assert (data_cluster g d) as Hcd.
    { apply elem_of_cons in Hd as [->|Hd]; [done|]. by eapply cchain_data. }
    unfold data_cluster in Hcd. lia. }
  rewrite length_seqZ in Hlen. cbn [length] in Hlen. lia.
Qed.

(** Allocating a cluster does not change the directory. *)
Lemma alloc_view P s ip n cs c :
  readable g dev_ root P s ip n cs → writable P n → first_free g s 2 c →
  ∃ s', AllocCluster g dev_ fuel s = Done (c, s') ∧ allocated g dev_ c s s' ∧
    dir_view (but_cluster P c) s' ip n cs (bytes dev_ s cs) s' ∧ writable (but_cluster P c) n.
Proof.
  intros Hr [W1 W2 W3] Hff. pose proof (rf_chain _ _ _ _ _ _ _ _ Hr) as Hch. pose proof (cf_geo _ _ _ _ _ _ Hch) as Hg.
  pose proof Hff as (_ & Hc & Hfree & _). pose proof (free_not_in _ _ _ _ _ Hch Hfree) as Hnin.
  destruct (AllocCluster_loop_ok g dev_ fuel s 2 c Hg ltac:(lia) Hff) as (s' & Hrun & Hal).
  { unfold data_cluster in Hc. lia. }
  exists s'. split; [done|]. split; [done|]. destruct Hal as [Hg' Hfat Hst _].
  destruct (readable_step g dev_ root P s s' ip n n cs (in_cluster g c) Hr Hst Hg') as [Hr' HB]; [|done|..].
  { intros d Hd. rewrite Hfat, decide_False by congruence. done. }
  { intros d x Hd Hx Hx'. assert (d ≠ c) as Hne by congruence. unfold in_cluster, bstart in *. lia. }
  split; [rewrite <- HB; by apply view_refl|]. split; [done..|]. intros d x [Hd _]. by apply W3.
Qed.

Lemma Create_ok P s ip n cs nm name e c o mode junk :
  creatable P s ip n cs nm name e c o → length junk = 32%nat → (33 ≤ fuel)%nat →
  ∃ short s', Create g dev_ root now fuel junk ip nm name mode s = Done (0, s') ∧
    short_entry e c mode short ∧ created P s ip n cs nm name e c o short s'.
Proof.
  intros [Hr Hw He Hname Hlen Hslot Hff Hfu] Hj Hf33.
  pose proof (rf_chain _ _ _ _ _ _ _ _ Hr) as Hch. pose proof Hff as (_ & Hc & Hfree & _).
  pose proof (dir_room _ _ _ _ _ Hch Hc (free_not_in _ _ _ _ _ Hch Hfree)) as Hroom.
  pose proof (length_bytes dev_ s cs) as HlB. set (B := bytes dev_ s cs) in *. unfold BSIZE in HlB.
  pose proof (fr_fits _ _ _ Hslot) as Hfit. set (num := long_count e) in *.
  assert (1 ≤ num ≤ 3) as Hnum by (unfold num, long_count, kLongNameLength; dlia).
  assert (o + S (Z.to_nat num) ≤ fuel)%nat as Hof by (unfold kMsdosEntrySize in Hfit; lia).
  unfold Create. erewrite M_bind_Done by (unfold c_strlen; rewrite (strlen_cstr _ _ e) by (done || lia); reflexivity).
  fold (long_count e). fold num. replace (num + 1) with (Z.of_nat (S (Z.to_nat num))) by lia.
  pose proof (view_refl P s ip n cs Hr) as V0. fold B in V0.
  destruct (FindFreeEntry_loop_ok P s ip n cs B (S (Z.to_nat num)) o Hw Hslot ltac:(lia) fuel s 0 (replicate 32 0) 0 V0)
    as (s1 & E1 & V1); [done|lia|lia|lia|lia|lia|].
  unfold FindFreeEntry. erewrite M_bind_Done by exact E1.
  destruct V1 as [(lo & cl & Hr1 & Hi1) HB1 Hf1 Hm1 Hw1 Hd1].
  assert (writable P (upd_cursor lo cl n)) as Hwn.
  { destruct Hw as [W1 [W2 W3 W4 W5] W6]. split; [exact W1| |exact W6]. split; [exact W2|exact W3|exact W4|exact W5]. }
  assert (∀ x, fat_get s1 x = fat_get s x) as Hfg1 by (intros x; unfold fat_get; by rewrite Hf1).
  destruct (alloc_view P s1 ip _ cs c Hr1 Hwn) as (s2 & E2 & [_ Hfat2 Hst2 Hz2] & V2 & Hw2).
  { destruct Hff as (? & ? & ? & Hmin). split_and!; [done..|by rewrite Hfg1|]. intros x Hx. rewrite Hfg1. by apply Hmin. }
  erewrite M_bind_Done by exact E2. rewrite HB1 in V2.
  destruct (FillShortFile_ok s2 now fuel (replicate 32 0) nm name e c mode) as (short & E3 & Hshort);
    [done|lia|done|done|unfold data_cluster in Hc; pose proof (cf_geo _ _ _ _ _ _ Hch) as Hg; pose proof (count_bound _ _ Hg); lia|].
  erewrite M_bind_Done by exact E3.
  assert (u32 (Z.of_nat o * kMsdosEntrySize + num * kMsdosEntrySize) = Z.of_nat (32 * (o + Z.to_nat num))) as ->.
  { unfold kMsdosEntrySize in *. rewrite u32_small; lia. }
  set (off := (32 * (o + Z.to_nat num))%nat). unfold kMsdosEntrySize in Hfit.
  destruct (view_write _ s2 ip _ cs B s2 short junk (Z.of_nat off) Hw2 V2 (sh_len _ _ _ _ Hshort) Hj) as (s3 & E4 & V3 & O3);
    [lia|lia|unfold kMsdosEntrySize; lia..|].
  erewrite M_bind_Done by exact E4. rewrite Nat2Z.id in V3.
  destruct (view_read _ s2 ip _ cs _ s3 (Z.of_nat off) (replicate 32 0) Hw2 V3 eq_refl) as (s4 & E5 & V4 & O4);
    [lia|rewrite length_splice; unfold kMsdosEntrySize; lia|].
  erewrite M_bind_Done by exact E5. cbn match.
  assert (ent (splice B off short) (Z.of_nat off) = short) as ->.
  { rewrite <- (Nat2Z.id off) at 1. apply ent_splice; [apply Hshort|lia|lia]. }
  destruct (write_long_ok _ s2 ip _ cs nm (FatChecksum short) num junk Hw2 Hj ltac:(lia) (Z.to_nat num) s4 _ name 1 off V4)
    as (s5 & E6 & [(lo' & cl' & Hr5 & Hi5) HB5 Hf5 Hm5 Hw5 Hd5] & O5); [lia|rewrite length_splice; lia|lia|].
  erewrite M_bind_Done by exact E6. exists short, s5. split; [done|]. split; [done|].
  destruct Hst2 as [_ _ _ _ Hdevs Hdev Hino Hmap _ Hww]. split.
  - exists lo', cl'. split; [done|]. by rewrite Hi5, Hino, Hi1, insert_insert_eq.
  - rewrite HB5. fold B num. set (les := long_entries _ _ _ _ _ _).
    assert (length (mjoin les) = 32 * Z.to_nat num)%nat as Hl.
    { unfold les. by rewrite length_join_32, length_long_entries by apply long_entries_32. }
    replace (off - 32 * Z.to_nat num)%nat with (32 * o)%nat by (unfold off; lia).
    replace off with (32 * o + length (mjoin les))%nat by (unfold off; lia). by rewrite splice_before.
  - intros x. unfold fat_get at 1. rewrite Hf5. fold (fat_get s2 x). by rewrite Hfat2, Hfg1.
  - by rewrite Hm5, Hmap.
  - by rewrite Hw5, Hww.
  - by apply O5, O4.
  - intros x Hx Hown. rewrite Hd5; [by apply Hz2|]. right. intros [(d & Hd & Hxd)|?]; [|done].
    pose proof (free_not_in _ _ _ _ _ Hch Hfree). assert (d ≠ c) by congruence.
    unfold in_cluster, bstart in *. lia.
  - intros dev x Hx. rewrite (Hd5 dev x) by tauto. rewrite <- (Hd1 dev x) by tauto.
    destruct (decide (dev = dev_)) as [->|Hne]; [apply Hdev; tauto|by apply Hdevs].
Qed.

(** ** [Lookup] after [Create] *)
Lemma ent_splice_before B (o : nat) src x : 0 ≤ x → x + 32 ≤ Z.of_nat o → ent (splice B o src) x = ent B x.
Proof.
  intros Hx Ho. apply list_eq. intros j. unfold ent. destruct (decide (j < 32)%nat) as [Hj|Hj].
  - by rewrite !lookup_take_lt, !lookup_drop, splice_lookup, decide_False by lia.
  - by rewrite !lookup_take_ge by lia.
Qed.

Context (new_node : gmap Z node → Z) (new_inode : gmap Z minode → Z) (a_loc : Z).
Hypothesis new_node_fresh : ∀ hp, new_node hp ≠ 0 ∧ hp !! new_node hp = None.
Hypothesis new_inode_fresh : ∀ ino, new_inode ino ≠ 0 ∧ ino !! new_inode ino = None.

(** [Lookup] of the name comes to the new entry and builds an inode of it. *)
Lemma Lookup_created P s ip n cs nm name e c o mode short s1 tmp0 tmp' :
  creatable P s ip n cs nm name e c o → created P s ip n cs nm name e c o short s1 → short_entry e c mode short →
  reaches fuel e (bytes dev_ s cs) (Z.of_nat (32 * o)) 0 tmp0 = Some tmp' → length tmp0 = 64%nat → (33 ≤ fuel)%nat →
  ¬ e `prefix_of` [46] → ¬ e `prefix_of` [46; 46] → name + Z.of_nat (length e) < a_loc →
  ∃ s', still g dev_ root (but_cluster P c) ip cs s1 s' ∧
    Lookup g dev_ root new_node new_inode a_loc fuel ip nm name tmp0 s1 =
    BuildInode dev_ new_node new_inode fuel short
      (position g cs (Z.of_nat (32 * (o + Z.to_nat (long_count e) + 1)))) ip s'.
Proof.
  intros [_ [Hsz _ _] He _ Hlen Hslot _ _] [(lo & cl & Hr1 & _) HB1 _ _ _ _ _ _] Hsh Hreach Htmp Hf Hd1 Hd2 Hloc.
  assert (dir_at g dev_ root (but_cluster P c) s1 ip cs) as D1 by (by exists (upd_cursor lo cl n)).
  unfold Lookup.
  assert (∀ dots, Forall (λ b, b ≠ 0) dots → is_prefix_of_dots a_loc fuel dots nm name s1 =
    Done (bool_decide (e `prefix_of` dots), s1)) as Hdots by (intros; apply is_prefix_of_dots_ok; (done || lia)).
  erewrite M_bind_Done by (apply Hdots; by repeat constructor). rewrite bool_decide_eq_false_2 by done.
  erewrite M_bind_Done by (unfold MSDOS_I; rewrite (cf_node _ _ _ _ _ _ (rf_chain _ _ _ _ _ _ _ _ Hr1)); reflexivity).
  erewrite M_bind_Done by (apply Hdots; by repeat constructor). rewrite bool_decide_eq_false_2 by done.
  set (B := bytes dev_ s cs) in *. set (B1 := bytes dev_ s1 cs) in *. pose proof (fr_fits _ _ _ Hslot) as Hfit.
  set (num := long_count e) in *. unfold kMsdosEntrySize in Hfit.
  assert (length B1 = length B) as HlB by (rewrite HB1; apply length_splice).
  apply (reaches_ext B B1) in Hreach; [|intros x Hx Hxo; rewrite HB1; by apply ent_splice_before|lia].
  destruct (Lookup_loop_reaches (but_cluster P c) new_node new_inode a_loc nm name e ip cs (Z.of_nat (32 * o)) tmp' fuel fuel s1 0
    (replicate 32 0) tmp0 He ltac:(lia) Hloc ltac:(lia) D1 eq_refl Htmp ltac:(lia) ltac:(fold B1; lia) ltac:(lia) Hreach)
    as (s2 & entry' & k & T2 & L2 & Lt & ->).
  destruct (T2) as (_ & D2 & B2). fold B1 in B2.
  destruct (item_new nm name e B (32 * o) (FatChecksum short) short tmp' He) as (Hmark & Hent & Hend & Hacc);
    [lia|apply Hsh|done|fold (long_count e); fold num; lia|].
  fold (long_count e) in Hmark, Hent, Hend, Hacc. fold num in Hmark, Hent, Hend, Hacc. rewrite <- HB1 in Hmark, Hent, Hend, Hacc.
  destruct (Lookup_loop_turn g dev_ root fuel (but_cluster P c) fuel_clusters new_node new_inode a_loc nm name e He ltac:(lia) Hloc
    ltac:(lia) ip cs k s2 (Z.of_nat (32 * o)) entry' tmp' D2 L2 Lt) as (s3 & T3 & _ & E3); [lia|rewrite B2, Hend; lia|by rewrite B2|].
  rewrite B2, Hacc, Hent, Hend in E3. exists s3. split; [exact (still_trans _ _ _ _ _ _ _ _ _ T2 T3)|]. rewrite E3. do 2 f_equal. lia.
Qed.

End create.
