(* ===== verification/Fat32Witness.v ===== *)
(** * A concrete FAT32 disk for the theorems of Fat32Props.v and Fat32Files.v

    A table of 100 clusters: cluster 2 holds the root directory, clusters 3 and
    4 a file of 5000 bytes whose inode is at 100; the rest is free. *)
From S2P Require Import Prelude Mem Buf HashMap Time Fat32 Fat32Props Fat32Files.

Definition g0 : finfo := FInfo 4096 100 16 512 8 32 2.
Definition table0 : mem := st32 (st32 (st32 (st32 (st32 (λ _, 0) 0 0x0ffffff8) 4 kEndOfCluster32)
  8 kEndOfCluster32) 12 4) 16 kEndOfCluster32.
Definition node0 : minode := MInode 3 0 3 0 90112 0 3 (replicate 11 65) 1 false (__S_IFREG - 65536) 7 0 5000 false 0 0 0.
Definition fs0 : fat unit := Fat BufWitness.b0 table0 {[100 := node0]} (map_new 5 ∅) (replicate 32 0) tt.

Lemma geometry0 : geometry g0 fs0.
Proof. split; try done. repeat apply st_ok. intros x. lia. Qed.

Lemma chain0 : cchain g0 (fat_get fs0) 3 [3; 4].
Proof. cbn. unfold data_cluster. split_and!; try done. Qed.

Lemma chained0 : chained g0 7 fs0 100 node0 [3; 4].
Proof.
  split; [apply geometry0|done|apply chain0|repeat constructor; set_solver|done|done|].
  by intros c [= <-].
Qed.

Lemma readable0 : readable g0 0 7 (λ _, True) fs0 100 node0 [3; 4].
Proof. split; [apply chained0|apply BufWitness.b0_coherent|apply BufWitness.b0_coherent|done]. Qed.

Lemma free0 k : (k ≤ 95)%nat → enough_free g0 fs0 k.
Proof.
  intros Hk. exists (list_to_set (seqZ 5 95)). split.
  - rewrite size_list_to_set by apply NoDup_seqZ. by rewrite length_seqZ.
  - intros c Hc%elem_of_list_to_set%elem_of_seqZ. split; [unfold data_cluster; cbn; lia|].
    unfold fat_get, fs0, table0, ld32, st32. cbn [fat_cache_].
    rewrite !(ld_st_disjoint 4 4) by lia. done.
Qed.

Lemma first_free0 : first_free g0 fs0 2 5.
Proof.
  split_and!; [lia|unfold data_cluster; cbn; lia|done|]. intros x Hx.
  assert (x = 2 ∨ x = 3 ∨ x = 4) as [-> | [-> | ->]] by lia; done.
Qed.

Lemma alloc_cluster_first_free_witness :
  ∃ s', AllocCluster g0 0 200 fs0 = Done (5, s') ∧ allocated g0 0 5 fs0 s'.
Proof.
  exact (proj1 (alloc_cluster_first_free g0 0 200 fs0 geometry0 ltac:(done)) 5 first_free0).
Defined.

Lemma free_chain_frees_exactly_witness :
  ∃ s', FreeClusterChain g0 200 3 fs0 = Done (tt, s') ∧ fat_get s' 4 = 0.
Proof.
  destruct (free_chain_frees_exactly g0 200 fs0 3 [3; 4] geometry0 chain0
    ltac:(repeat constructor; set_solver) ltac:(cbn; lia)) as (s' & Hrun & _ & Hfat & _).
  exists s'. split; [exact Hrun|]. rewrite Hfat. reflexivity.
Defined.

Lemma bmap_follows_chain_witness :
  ∃ new s' c, bmap g0 0 7 200 100 3 fs0 = Done (c, s') ∧ ([3; 4] ++ new) !! 3%nat = Some c ∧
    chained g0 7 s' 100 (upd_cursor 3 c node0) ([3; 4] ++ new).
Proof.
  destruct (bmap_follows_chain g0 0 7 200 fs0 100 node0 [3; 4] 3 chained0 ltac:(lia) ltac:(intros; left; cbn; lia)
    ltac:(done) ltac:(apply free0; cbn; lia)) as (new & s' & c & Hrun & Hc & _ & _ & Hch & _).
  exists new, s', c. exact (conj Hrun (conj Hc Hch)).
Defined.

Lemma read_inode_returns_contents_witness :
  ∃ s' n', ReadInode g0 0 7 200 100 out_local 4990 32 fs0 = Done (10, s') ∧
    readable g0 0 7 (λ _, True) s' 100 n' [3; 4].
Proof.
  destruct (read_inode_returns_contents g0 0 7 200 (λ _, True) fs0 100 node0 [3; 4] 4990 32 readable0
    ltac:(done) ltac:(cbn; lia) ltac:(cbn; unfold BSIZE; lia) ltac:(lia) ltac:(lia)) as (s' & n' & Hrun & Hr & _).
  exists s', n'. exact (conj Hrun Hr).
Defined.

Lemma entry_ok0 : entry_ok node0.
Proof. split; try done; cbn; lia. Qed.

Lemma write_inode_updates_file_witness :
  ∃ s' n', WriteInode g0 0 7 0 200 (replicate 32 0) 100 (inp_local [1; 2; 3]) 4999 3 fs0 = Done (3, s') ∧
    isz n' = 5002 ∧ bytes 0 s' [3; 4] = splice (bytes 0 fs0 [3; 4]) 4999 [1; 2; 3].
Proof.
  destruct (write_inode_updates_file g0 0 7 0 200 (λ _, True) fs0 100 node0 [3; 4] [1; 2; 3] (replicate 32 0) 4999 3
    readable0 ltac:(done) ltac:(lia) ltac:(done) ltac:(lia) ltac:(cbn; unfold BSIZE; lia) ltac:(lia)
    entry_ok0 eq_refl) as [_ Hw].
  - intros c x Hc Hx. unfold in_entry_sector, entry_sector. unfold in_cluster, bstart in Hx.
    change (i_pos node0 / 512) with 176.
    apply elem_of_cons in Hc as [-> | [-> | Hc]%elem_of_cons]; cbn in Hx; [lia|lia|by apply elem_of_nil in Hc].
  - destruct (Hw ltac:(cbn; lia)) as (s' & n' & entry & Hrun & _ & Hsz & Hby & _).
    exists s', n'. exact (conj Hrun (conj Hsz Hby)).
Defined.

(** The name "startos.txt" at address 1. *)
Definition name0 : list Z := [115; 116; 97; 114; 116; 111; 115; 46; 116; 120; 116].
Definition nm0 : mem := wr_bytes (λ _, 0) 1 name0.
(** Names are compared only up to the length of the name looked for: "te"
    finds "test", and [Unlink] removes it. *)
Lemma prefix_is_the_same_name :
  same_name 1000 true (wr_bytes (λ _, 0) 1 [116; 101]) 1 2 [116; 101; 115; 116; 0] = true ∧
  same_name 1000 false (wr_bytes (λ _, 0) 1 [116; 101]) 1 2 [116; 101; 115; 116; 0] = true.
Proof. vm_compute. done. Qed.
