(* ===== verification/SList.v ===== *)
(** * The linked list: sstl/list.hpp

    A list object and its nodes live in a heap; [head_] is a node inside the
    object whose [next] starts the chain.  The spin lock is held only inside
    [insert]. *)
From S2P Require Import Prelude.

Record lnode := LNode { lnext : Z; ldata : Z }.
Record lobj := LObj { head_next : Z; sz_ : Z }.
Record lheap := LHeap { lnodes : gmap Z lnode; lobjs : gmap Z lobj }.

Section lists.
(** [operator new] for nodes. *)
Context (new_lnode : gmap Z lnode → Z).
Abbreviation LM := (M lheap).

Definition lobj_at (l : Z) : LM lobj := λ h,
  match lobjs h !! l with Some o => Done (o, h) | None => Panic "bad list" end.
Definition lnode_at (p : Z) : LM lnode := λ h,
  match lnodes h !! p with Some n => Done (n, h) | None => Panic "bad list node" end.

Definition list_new (l : Z) : LM unit :=
  modify (λ h, LHeap (lnodes h) (<[l := LObj 0 0]> (lobjs h))).

Definition insert (l data : Z) : LM unit :=
  n ← gets (λ h, new_lnode (lnodes h));
  o ← lobj_at l;
  modify (λ h, LHeap (<[n := LNode (head_next o) data]> (lnodes h))
    (<[l := LObj n (sz_ o + 1)]> (lobjs h))).

(** Iterators: [begin()], [operator++] and [operator->]. *)
Definition begin_ (l : Z) : LM Z := o ← lobj_at l; mret (head_next o).
Definition advance (p : Z) : LM Z := n ← lnode_at p; mret (lnext n).
Definition deref (p : Z) : LM Z := n ← lnode_at p; mret (ldata n).

(** [~list()]: the nodes are deleted one by one. *)
Fixpoint destroy_loop (fuel : nat) (now : Z) : LM unit :=
  match fuel with
  | O => λ _, NoFuel
  | S fuel =>
      if now =? 0 then mret tt
      else
        n ← lnode_at now;
        modify (λ h, LHeap (delete now (lnodes h)) (lobjs h));;
        destroy_loop fuel (lnext n)
  end.
Definition destroy (fuel : nat) (l : Z) : LM unit := o ← lobj_at l; destroy_loop fuel (head_next o).
End lists.

(** [lchain m p l]: from [p] the chain of nodes holds [l]. *)
Fixpoint lchain (m : gmap Z lnode) (p : Z) (l : list Z) : Prop :=
  match l with
  | [] => p = 0
  | x :: l => p ≠ 0 ∧ ∃ q, m !! p = Some (LNode q x) ∧ lchain m q l
  end.
(** The list object at [a] holds [l], first element first. *)
Definition holds (h : lheap) (a : Z) (l : list Z) : Prop :=
  ∃ o, lobjs h !! a = Some o ∧ lchain (lnodes h) (head_next o) l ∧ sz_ o = Z.of_nat (length l).

Lemma lchain_insert m p l k n : m !! k = None → lchain m p l → lchain (<[k := n]> m) p l.
Proof.
  intros Hk. revert p. induction l as [|x l IH]; intros p; cbn; [done|].
  intros (Hp & q & Hq & Hl). split; [done|]. exists q. split; [|by apply IH].
  rewrite lookup_insert_ne; [done|]. by intros ->; rewrite Hk in Hq.
Qed.

Lemma list_new_holds a h : ∃ h', list_new a h = Done (tt, h') ∧ holds h' a [] ∧ lnodes h' = lnodes h.
Proof. eexists. split; [reflexivity|]. split; [|done]. exists (LObj 0 0). cbn. by rewrite lookup_insert_eq. Qed.

(** [insert] puts the element in front. *)
Lemma insert_holds new_lnode a h l x :
  holds h a l → lnodes h !! new_lnode (lnodes h) = None → new_lnode (lnodes h) ≠ 0 →
  ∃ h', insert new_lnode a x h = Done (tt, h') ∧ holds h' a (x :: l).
Proof.
  intros (o & Ho & Hc & Hs) Hf Hn. unfold insert. unfold_M. unfold lobj_at. rewrite Ho.
  eexists. split; [reflexivity|]. eexists. cbn. rewrite lookup_insert_eq. split; [done|]. cbn.
  split; [|lia]. split; [done|]. exists (head_next o). rewrite lookup_insert_eq. split; [done|].
  by apply lchain_insert.
Qed.
