(* ===== verification/Dirent.v ===== *)
(** * Directory records: [filldir] of kernel/include/fs/vfs/file_system.hpp,
    [struct linux_dirent] of lib/file.h

    [getdents] fills the caller's buffer with records of 24 bytes and the name,
    rounded up to 8.  The copy to the buffer, [either_copyout], is the argument
    [out]. *)
From S2P Require Import Prelude Mem Buf Pipe Fat32.

Definition DT_DIR : Z := 4.
Definition DT_REG : Z := 8.
(** [sizeof(struct linux_dirent)] and the offset of [d_name]. *)
Definition DIRENT_SIZE : Z := 24.
Definition O_D_OFF : Z := 8.
Definition O_D_NAME : Z := 19.

Definition ALIGN (a base_align : Z) : Z := Z.land (a + base_align - 1) (Z.lnot (base_align - 1)).

Record ReadDirHeader := Hdr { direntData : Z; free : Z; used : Z; last_dirent : Z }.

Definition le64 (v : Z) : list Z := le32 (v mod 2 ^ 32) ++ le32 (v / 2 ^ 32).

Section filldir.
Context {S : Type} (out : Z → list Z → M S Z).
(** What the five bytes of padding of [de_tmp] held. *)
Context (junk : list Z).

(** [reclen > free] compares unsigned: [free] is an [int]. *)
Definition filldir (hdr : ReadDirHeader) (name : list Z) (ino type_ : Z) : M S (Z * ReadDirHeader) :=
  let buf := direntData hdr + used hdr in
  let reclen := u32 (ALIGN (DIRENT_SIZE + Z.of_nat (length name)) 8) in
  if u32 (free hdr) <? reclen then
    out (last_dirent hdr + O_D_OFF) (le64 0);;
    mret (-1, hdr)
  else
    let de_tmp := le64 (u64 ino) ++ le64 (u64 (buf + reclen)) ++ le16 reclen ++ [u8 type_] ++ take 5 junk in
    out buf de_tmp;;
    out (buf + O_D_NAME) name;;
    mret (0, Hdr (direntData hdr) (i32 (free hdr - reclen)) (i32 (used hdr + reclen)) buf).
End filldir.

(** ** What a sequence of [filldir] calls leaves in memory *)

(** [either_copyout] to kernel memory. *)
Definition out_mem (a : Z) (l : list Z) : M mem Z := modify (λ m, wr_bytes m a l);; mret 0.

Definition reclen_of (name : list Z) : Z := ALIGN (DIRENT_SIZE + Z.of_nat (length name)) 8.
Record dent := Dent { de_name : list Z; de_ino : Z; de_type : Z }.
Definition total (es : list dent) : Z := foldr (λ e a, reclen_of (de_name e) + a) 0 es.

(** The directory loop of a file system: entries until one does not fit. *)
Fixpoint fill_all (junk : list Z) (hdr : ReadDirHeader) (es : list dent) : M mem (Z * ReadDirHeader) :=
  match es with
  | [] => mret (0, hdr)
  | e :: es =>
      '(r, hdr) ← filldir out_mem junk hdr (de_name e) (de_ino e) (de_type e);
      if r <? 0 then mret (r, hdr) else fill_all junk hdr es
  end.

(** The record of [e] at [p]; [next] is its [d_off]. *)
Definition record_at (m : mem) (p next : Z) (e : dent) : Prop :=
  ld 8 m p = de_ino e ∧ ld 8 m (p + O_D_OFF) = next ∧ ld 2 m (p + 16) = reclen_of (de_name e) ∧
  m (p + 18) = de_type e ∧ bytes_at m (p + O_D_NAME) (de_name e).
(** [es] are the records from [p] on, each pointing at the next. *)
Fixpoint records (m : mem) (p : Z) (es : list dent) : Prop :=
  match es with
  | [] => True
  | e :: es => record_at m p (p + reclen_of (de_name e)) e ∧ records m (p + reclen_of (de_name e)) es
  end.

Definition dent_ok (e : dent) : Prop :=
  Z.of_nat (length (de_name e)) < 2 ^ 15 ∧ 0 ≤ de_ino e < 2 ^ 64 ∧ 0 ≤ de_type e < 256 ∧
  Forall (λ b, 0 ≤ b < 256) (de_name e).

Lemma reclen_bounds name :
  Z.of_nat (length name) < 2 ^ 15 → DIRENT_SIZE + Z.of_nat (length name) ≤ reclen_of name < 2 ^ 16.
Proof.
  intros H. unfold reclen_of, ALIGN, DIRENT_SIZE. replace (Z.lnot (8 - 1)) with (- 2 ^ 3) by done.
  rewrite land_lnot_ones by lia. dlia.
Qed.

(** The value of a little-endian list of bytes. *)
Fixpoint le_val (l : list Z) : Z := match l with [] => 0 | b :: l => b + 256 * le_val l end.
Lemma ld_bytes_at m a l : bytes_at m a l → ld (length l) m a = le_val l.
Proof. revert a. induction l as [|b l IH]; intros a; cbn; [done|]. intros [-> H]. by rewrite IH. Qed.
Lemma le_val_le16 v : le_val (le16 v) = v mod 2 ^ 16.
Proof. cbn. dlia. Qed.
Lemma le_val_app l1 l2 : le_val (l1 ++ l2) = le_val l1 + 256 ^ Z.of_nat (length l1) * le_val l2.
Proof.
  induction l1 as [|b l1 IH]; [cbn; lia|]. cbn [app le_val length]. rewrite IH, Nat2Z.inj_succ, Z.pow_succ_r by lia. lia.
Qed.
Lemma le_val_le32 v : le_val (le32 v) = v mod 2 ^ 32.
Proof. unfold le32. rewrite le_val_app, !le_val_le16. cbn [length le16 Z.of_nat]. dlia. Qed.
Lemma le_val_le64 v : 0 ≤ v < 2 ^ 64 → le_val (le64 v) = v.
Proof. intros H. unfold le64. rewrite le_val_app, !le_val_le32. cbn [length le32 le16 app Z.of_nat]. dlia. Qed.

Lemma bytes_at_wr m a l : bytes_at (wr_bytes m a l) a l.
Proof.
  revert m a. induction l as [|b l IH]; intros m a; cbn; [done|]. rewrite upd_eq. split; [done|].
  eapply bytes_at_ext; [|apply (IH m (a + 1))]. intros x Hx. by rewrite upd_ne by lia.
Qed.

Lemma filldir_full junk hdr name ino ty m :
  u32 (free hdr) < reclen_of name → Z.of_nat (length name) < 2 ^ 15 →
  filldir out_mem junk hdr name ino ty m = Done ((-1, hdr), wr_bytes m (last_dirent hdr + O_D_OFF) (le64 0)).
Proof.
  intros Hf Hn. pose proof (reclen_bounds name Hn) as Hr. unfold DIRENT_SIZE in *. unfold filldir.
  fold (reclen_of name). rewrite (u32_small (reclen_of name)) by lia.
  apply Z.ltb_lt in Hf as ->. reflexivity.
Qed.

Lemma filldir_fits junk hdr e m :
  dent_ok e → length junk = 5%nat → reclen_of (de_name e) ≤ free hdr < 2 ^ 31 → 0 ≤ used hdr →
  used hdr + free hdr < 2 ^ 31 → 0 ≤ direntData hdr → direntData hdr + used hdr + free hdr < 2 ^ 64 →
  let p := direntData hdr + used hdr in let r := reclen_of (de_name e) in
  ∃ m', filldir out_mem junk hdr (de_name e) (de_ino e) (de_type e) m
      = Done ((0, Hdr (direntData hdr) (free hdr - r) (used hdr + r) p), m') ∧
    record_at m' p (p + r) e ∧ ∀ x, ¬ (p ≤ x < p + r) → m' x = m x.
Proof.
  intros (Hn & Hino & Hty & Hb) Hj Hf Hu Huf Hd Hdf p r. pose proof (reclen_bounds (de_name e) Hn) as Hr.
  fold r in Hf, Hr. unfold DIRENT_SIZE in *. unfold filldir. fold (reclen_of (de_name e)). fold r p.
  rewrite (u32_small r), (u32_small (free hdr)), (proj2 (Z.ltb_ge _ _)) by lia.
  rewrite (u64_small (de_ino e)), (u64_small (p + r)), !i32_small by (unfold p; lia).
  rewrite u8_small by done.
  set (l := le64 (de_ino e) ++ le64 (p + r) ++ le16 r ++ [de_type e] ++ take 5 junk).
  set (m1 := wr_bytes m p l). set (m2 := wr_bytes m1 (p + O_D_NAME) (de_name e)).
  exists m2. split; [reflexivity|].
  assert (length l = 24%nat) as Hl.
  { unfold l. rewrite !length_app, length_take, Hj. done. }
  assert (bytes_at m2 p (le64 (de_ino e) ++ le64 (p + r) ++ le16 r ++ [de_type e])) as Hh.
  { pose proof (bytes_at_wr m p l) as H1. fold m1 in H1. unfold l in H1. rewrite !app_assoc in H1.
    apply bytes_at_split in H1 as [H1 _]. rewrite <- !app_assoc in H1.
    eapply bytes_at_ext; [|exact H1]. cbn. intros x Hx. unfold m2, O_D_NAME. rewrite wr_bytes_out by lia. done. }
  split.
  - rewrite !bytes_at_split in Hh. destruct Hh as (H1 & H2 & H3 & H4).
    unfold record_at. fold r. split_and!.
    + etransitivity; [exact (ld_bytes_at _ _ _ H1)|]. by apply le_val_le64.
    + etransitivity; [exact (ld_bytes_at _ _ _ H2)|]. apply le_val_le64. unfold p. lia.
    + replace (p + 16) with (p + Z.of_nat (length (le64 (de_ino e))) + Z.of_nat (length (le64 (p + r)))) by (cbn; lia).
      etransitivity; [exact (ld_bytes_at _ _ _ H3)|]. rewrite le_val_le16. apply Z.mod_small. lia.
    + destruct H4 as [H4 _]. rewrite <- H4. f_equal. cbn. lia.
    + apply bytes_at_wr.
  - intros x Hx. unfold m2, m1, O_D_NAME. rewrite !wr_bytes_out; [done|rewrite Hl; lia|lia].
Qed.

Lemma record_at_ext m m' p next e :
  dent_ok e → (∀ x, p ≤ x < p + reclen_of (de_name e) → m' x = m x) → record_at m p next e → record_at m' p next e.
Proof.
  intros (Hn & _) Hm (H1 & H2 & H3 & H4 & H5). pose proof (reclen_bounds _ Hn) as Hr.
  unfold DIRENT_SIZE, O_D_NAME, O_D_OFF in *.
  unfold record_at, O_D_NAME, O_D_OFF. split_and!.
  - rewrite <- H1. apply ld_ext. intros. apply Hm. lia.
  - rewrite <- H2. apply ld_ext. intros. apply Hm. lia.
  - rewrite <- H3. apply ld_ext. intros. apply Hm. lia.
  - rewrite <- H4. apply Hm. lia.
  - eapply bytes_at_ext; [|exact H5]. intros. symmetry. apply Hm. lia.
Qed.

(** The address of the last of [es], laid out from [p] on. *)
Definition last_at (p : Z) (es : list dent) (none : Z) : Z :=
  match es with [] => none | _ => p + total (removelast es) end.

Lemma total_nonneg es k : Forall dent_ok es → 0 ≤ total (take k es).
Proof.
  intros Hes. revert k. induction Hes as [|e es He Hes IH]; intros [|k]; cbn; try lia.
  pose proof (reclen_bounds _ (proj1 He)). specialize (IH k). unfold DIRENT_SIZE in *. unfold total in IH. lia.
Qed.

(** Claim C25. Filling a buffer of [free] bytes stores the longest prefix of the
    entries that fits, as consecutive records whose inode number, offset,
    length, type and name read back, and changes no byte outside of them; when
    an entry does not fit the result is -1 and the [d_off] of the last record
    is set to 0, which without any record is the word at address 8. *)
Theorem dirents_roundtrip junk hdr es m :
  Forall dent_ok es → length junk = 5%nat → 0 ≤ free hdr → 0 ≤ used hdr →
  used hdr + free hdr < 2 ^ 31 → 0 ≤ direntData hdr → direntData hdr + used hdr + free hdr < 2 ^ 64 →
  let p := direntData hdr + used hdr in
  ∃ k m1, let fit := take k es in
    let hdr' := Hdr (direntData hdr) (free hdr - total fit) (used hdr + total fit) (last_at p fit (last_dirent hdr)) in
    records m1 p fit ∧ total fit ≤ free hdr ∧ (∀ x, ¬ (p ≤ x < p + total fit) → m1 x = m x) ∧
    match drop k es with
    | [] => fill_all junk hdr es m = Done ((0, hdr'), m1)
    | e :: _ => free hdr < total fit + reclen_of (de_name e) ∧
        fill_all junk hdr es m = Done ((-1, hdr'), wr_bytes m1 (last_dirent hdr' + O_D_OFF) (le64 0))
    end.
Proof.
  intros Hes Hj. revert hdr m. induction Hes as [|e es He Hes IH]; intros hdr m Hf Hu Huf Hd Hdf p.
  { exists O, m. cbn. rewrite Z.sub_0_r, !Z.add_0_r. split_and!; try done. by destruct hdr. }
  destruct (decide (free hdr < reclen_of (de_name e))) as [Hfull|Hfits].
  - exists O, m. cbn [take drop total foldr records last_at]. split_and!; try done.
    rewrite Z.sub_0_r, Z.add_0_r. cbn [fill_all]. erewrite M_bind_Done.
    2: { apply filldir_full; [rewrite u32_small by lia; done|apply He]. }
    cbn. by destruct hdr.
  - destruct (filldir_fits junk hdr e m He Hj) as (m' & E & Hrec & Hout); try lia. fold p in E, Hrec, Hout.
    set (r := reclen_of (de_name e)) in *.
    pose proof (reclen_bounds _ (proj1 He)) as Hr. fold r in Hr. unfold DIRENT_SIZE in Hr.
    destruct (IH (Hdr (direntData hdr) (free hdr - r) (used hdr + r) p) m') as (k & m1 & Hk); cbn; try lia.
    cbn [direntData free used last_dirent] in Hk.
    replace (direntData hdr + (used hdr + r)) with (p + r) in Hk by (unfold p; lia).
    destruct Hk as (H1 & H2 & H3 & H4). exists (Datatypes.S k), m1. cbn [take drop records].
    change (total (e :: take k es)) with (r + total (take k es)).
    split; [split; [|exact H1]|split; [lia|split]].
    + apply (record_at_ext m'); [done| |done]. intros x Hx. apply H3. fold r in Hx. lia.
    + intros x Hx. pose proof (total_nonneg _ k Hes). rewrite H3, Hout by lia. done.
    + assert (last_at (p + r) (take k es) p = last_at p (e :: take k es) (last_dirent hdr)) as Hlast.
      { unfold last_at. destruct (take k es) as [|e2 l] eqn:El; [cbn; lia|].
        change (removelast (e :: e2 :: l)) with (e :: removelast (e2 :: l)).
        change (total (e :: removelast (e2 :: l))) with (r + total (removelast (e2 :: l))). lia. }
      rewrite Hlast in H4. cbn [fill_all]. rewrite (M_bind_Done _ _ _ _ _ E). cbn [Z.ltb Z.compare].
      replace (free hdr - r - total (take k es)) with (free hdr - (r + total (take k es))) in H4 by lia.
      replace (used hdr + r + total (take k es)) with (used hdr + (r + total (take k es))) in H4 by lia.
      destruct (drop k es); [done|]. split; [lia|]. apply H4.
Qed.
