(* ===== verification/Fat32Dir.v ===== *)
(** * Reading FAT32 directories and starting the file system

    [ReadDir] of fat32_file_system.cpp, on the directory records of Dirent.v,
    and the constructor's loading of the cluster table. *)
From S2P Require Import Prelude Mem Buf HashMap Pipe Fat32 Dirent.

Section fat32dir.
Context {W : Type}.
Context (g : finfo) (dev_ root : Z) (fuel : nat).
(** [either_copyout] to the caller's buffer and the padding of [de_tmp]. *)
Context (out : bool → Z → list Z → M (fat W) Z) (junk : list Z).
Abbreviation FM := (M (fat W)).

(** [while (off < 0)]: the two entries the root directory does not have. *)
Fixpoint dots_loop (n : nat) (user : bool) (hdr : ReadDirHeader) (off foff : Z) : FM (bool * ReadDirHeader * Z * Z) :=
  match n with
  | O => λ _, NoFuel
  | S n =>
      if off <? 0 then
        '(r, hdr) ← filldir (out user) junk hdr (take (Z.to_nat (off + 3)) [46; 46]) kMsdosRootIno DT_DIR;
        if r <? 0 then mret (false, hdr, off, foff)
        else dots_loop n user hdr (off + 1) (foff + 1)
      else mret (true, hdr, off, foff)
  end.

Definition d_type (entry : list Z) : Z :=
  if negb (Z.land (byte entry O_ATTRIB) kFatAttrDirentory =? 0) then DT_DIR else DT_REG.

(** The rest of a long name: [name_len] counts 13 for every long entry. *)
Fixpoint long_rest (n : nat) (ip off name_len : Z) (entry name : list Z)
    : FM (option (Z * Z * list Z * list Z)) :=
  match n with
  | O => mret (Some (off, name_len, entry, name))
  | S n =>
      '(ok, entry) ← read_entry g dev_ root fuel ip off entry;
      if (ok : bool) then
        long_rest n ip (off + kMsdosEntrySize) (name_len + kLongNameLength) entry (copylfn entry name)
      else mret None
  end.

(** The loop over the entries: the result is [begin_off] and the header. *)
Fixpoint entries_loop (n : nat) (user : bool) (hdr : ReadDirHeader) (ip off begin_off : Z)
    (entry name : list Z) : FM (Z * ReadDirHeader) :=
  match n with
  | O => λ _, NoFuel
  | S n =>
      '(ok, entry) ← read_entry g dev_ root fuel ip off entry;
      if negb ok then mret (begin_off, hdr)
      else
        let begin_off := off in
        let off := off + kMsdosEntrySize in
        if byte entry 0 =? 0 then mret (begin_off, hdr)
        else if negb (byte entry O_ATTRIB =? kFatAttrLongEntry) then
          let '(len, name) := copysfn entry name in
          '(r, hdr) ← filldir (out user) junk hdr (take (Z.to_nat len) name) (GetStartCluster entry) (d_type entry);
          if negb (r =? 0) then mret (begin_off, hdr)
          else entries_loop n user hdr ip off begin_off entry name
        else if Z.land (byte entry 0) 0xc0 =? 0x40 then
          let nlfn := Z.land (byte entry 0) (Z.lnot 0x40) in
          r ← long_rest (Z.to_nat (nlfn - 1)) ip off kLongNameLength entry (copylfn entry (replicate 64 0));
          match r with
          | None => mret (begin_off, hdr)
          | Some (off, name_len, entry, name) =>
              '(ok, entry) ← read_entry g dev_ root fuel ip off entry;
              if negb ok then mret (begin_off, hdr)
              else
                '(r, hdr) ← filldir (out user) junk hdr (take (Z.to_nat name_len) name)
                              (GetStartCluster entry) (d_type entry);
                if r <? 0 then mret (begin_off, hdr)
                else entries_loop n user hdr ip (off + kMsdosEntrySize) begin_off entry name
          end
        else entries_loop n user hdr ip off begin_off entry name
  end.

(** The result is the number of bytes and the new offset of the file, which
    directories other than the root do not start from. *)
Definition ReadDir (foff ip buf max_len : Z) (user : bool) (entry0 name0 : list Z) : FM (Z * Z) :=
  let hdr := Hdr buf max_len 0 0 in
  n ← MSDOS_I ip;
  '(go, hdr, off, foff) ← (if inum n =? kMsdosRootIno then dots_loop 3 user hdr (i32 (foff - 2)) foff
                           else mret (true, hdr, 0, foff));
  if negb go then mret (used hdr, foff)
  else
    '(begin_off, hdr) ← entries_loop fuel user hdr ip off off entry0 name0;
    mret (used hdr, u64 (begin_off + 2)).

(** The loop of the constructor that reads the cluster table. *)
Fixpoint load_fat (n : nat) (i : Z) : FM unit :=
  match n with
  | O => mret tt
  | S n =>
      m ← gets (@fat_cache_ W);
      let at_ := (i - reserve_sectors_ g) * 512 in
      l ← ReadSector g dev_ i (rd_bytes m at_ 512);
      modify (λ s, Fat (fbl s) (wr_bytes m at_ l) (inodes s) (inode_cache_map_ s) (local_ s) (fw s));;
      load_fat n (i + 1)
  end.
Definition Fat32FileSystem : FM unit := load_fat (Z.to_nat (1024 - reserve_sectors_ g)) (reserve_sectors_ g).
End fat32dir.
