(* ===== verification/Fat32Init.v ===== *)
(** * Starting a FAT32 file system: the constructor and [Init] of
    fs/fat32/fat32_file_system.cpp

    The boot sector gives the geometry [finfo] and the root inode; the sectors
    from the first one of the cluster table up to sector 1023 are loaded into the
    table.  The bytes of the boot sector are at the offsets of [FatBpb]. *)
From S2P Require Import Prelude Mem Buf HashMap Fat32 Fat32Dir Fat32Files.

Definition O_BYTES_PER_SECTOR : nat := 11.
Definition O_SECTORS_PER_CLUSTER : nat := 13.
Definition O_RESERVED_SECTORS : nat := 14.
Definition O_NUMBER_OF_FAT : nat := 16.
Definition O_TOTAL_SECTORS_LONG : nat := 32.
Definition O_SECTORS_PER_FAT_V32 : nat := 36.
Definition O_ROOT_CLUSTER : nat := 44.
Definition O_FS_INFO_SECTOR : nat := 48.

Definition bpb_info (b : list Z) : finfo :=
  finfo_init (half b O_BYTES_PER_SECTOR) (byte b O_SECTORS_PER_CLUSTER) (half b O_RESERVED_SECTORS)
    (byte b O_NUMBER_OF_FAT) (word b O_TOTAL_SECTORS_LONG) (word b O_SECTORS_PER_FAT_V32) (word b O_ROOT_CLUSTER).

(** The members of the root inode that [Init] sets. *)
Definition root_inode (g : finfo) (root : Z) (n : minode) : minode :=
  let start := root_directory_cluster_start g in
  MInode start (i_logi n) (i_clus n) (i_attrs n) (u32 (FirstSector g start * bytes_per_sector_ g))
    (idev n) kMsdosRootIno (47 :: 0 :: drop 2 (test_name n)) 1 false (Z.lor (imode n) __S_IFDIR)
    root (inlink n + 1) (u32 (-1)) (is_mp_target n) (iatime n) (imtime n) (ictime n).

Section init.
Context {W : Type} (dev_ root : Z).
Abbreviation FM := (M (fat W)).

(** The information sector is read at the byte offset that is its number; only
    the log shows it. *)
Definition Init : FM finfo :=
  '(_, b) ← on_bl (RwDevRead dev_ (replicate 512 0) 0 512);
  on_bl (RwDevRead dev_ (replicate 512 0) (half b O_FS_INFO_SECTOR) 512);;
  let g := bpb_info b in
  n ← MSDOS_I root;
  set_inode root (root_inode g root n);;
  mret g.

(** The constructor, once the cache of inodes is made. *)
Definition start : FM finfo :=
  g ← Init;
  on_bl (modify (λ s, BL (bufCache s) (rw_devs s) (first_data_sector_ g) (sectors_per_cluster_ g) (bticks s)));;
  Fat32FileSystem g dev_;;
  mret g.

(** ** One sector of a cluster after the other, through the buffers: nothing calls
    these two.  [WriteCluster] does not write its buffers back. *)
Fixpoint ReadCluster_loop (n : nat) (sector : Z) (out : Z → list Z → FM Z) (pos : Z) : FM Z :=
  match n with
  | O => mret 0
  | S n =>
      i ← on_bl (Buf.read dev_ sector);
      b ← on_bl (buf_at i);
      out pos (take (Z.to_nat kSectorSize) (bdata b));;
      on_bl (freeBuffer i);;
      ReadCluster_loop n (i32 (sector + 1)) out (pos + kSectorSize)
  end.
Definition ReadCluster (g : finfo) (cluster : Z) (out : Z → list Z → FM Z) : FM Z :=
  ReadCluster_loop (Z.to_nat (sectors_per_cluster_ g)) (i32 (FirstSector g cluster)) out 0.

Fixpoint WriteCluster_loop (k : nat) (sector : Z) (inp : Z → list Z → FM (Z * list Z)) (total n : Z) : FM Z :=
  match k with
  | O => mret 0
  | S k =>
      if total <? n then
        i ← on_bl (Buf.read dev_ sector);
        b ← on_bl (buf_at i);
        let nwrite := if n - total <? kSectorSize then n - total else kSectorSize in
        '(_, l) ← inp total (take (Z.to_nat nwrite) (bdata b));
        on_bl (put_buf i (Buf (valid b) (bdev b) (blockno b) (last_use_tick b) (Buf.locked b) (refcnt b)
          (splice (bdata b) 0 l)));;
        on_bl (freeBuffer i);;
        WriteCluster_loop k (i32 (sector + 1)) inp (total + nwrite) n
      else mret 0
  end.
Definition WriteCluster (g : finfo) (cluster : Z) (inp : Z → list Z → FM (Z * list Z)) (n : Z) : FM Z :=
  WriteCluster_loop (Z.to_nat (sectors_per_cluster_ g)) (i32 (FirstSector g cluster)) inp 0 n.

(** ** The loaded table *)
Implicit Types (s : fat W).

Lemma ReadSector_run g s sector old :
  bytes_per_sector_ g = 512 → 0 ≤ sector → sector * 512 + 512 < 2 ^ 31 → length old = 512%nat →
  ReadSector g dev_ sector old s = Done (rd_bytes (rw_devs (fbl s) dev_) (sector * 512) 512, s).
Proof.
  intros Hb Hs Hlt Hl. unfold ReadSector, on_bl, RwDevRead, gets. unfold_M. rewrite Hb, i32_small by lia.
  rewrite VirtioDisk_read_ok; [|lia|lia|lia|dlia|done|by rewrite Hl]. by destruct s.
Qed.

Definition with_table (m : mem) s : fat W := Fat (fbl s) m (inodes s) (inode_cache_map_ s) (local_ s) (fw s).

Lemma load_fat_run g s0 : bytes_per_sector_ g = 512 → 0 < reserve_sectors_ g →
  let d := rw_devs (fbl s0) dev_ in let R := reserve_sectors_ g in
  ∀ n i m, R ≤ i → i + Z.of_nat n ≤ 1024 →
  (∀ x, 0 ≤ x < (i - R) * 512 → m x = d (R * 512 + x)) →
  ∃ m', load_fat g dev_ n i (with_table m s0) = Done (tt, with_table m' s0) ∧
    (∀ x, 0 ≤ x < (i + Z.of_nat n - R) * 512 → m' x = d (R * 512 + x)) ∧
    (∀ x, ¬ (0 ≤ x < (i + Z.of_nat n - R) * 512) → m' x = m x).
Proof.
  intros Hb HR d R. induction n as [|n IH]; intros i m Hi Hn Hm.
  { exists m. rewrite Z.add_0_r. by split_and!. }
  cbn [load_fat]. erewrite M_bind_Done by reflexivity. cbn [with_table fat_cache_]. fold R.
  rewrite (M_bind_Done _ _ _ _ _ (ReadSector_run g _ i _ Hb ltac:(lia) ltac:(lia) (length_rd_bytes _ _ _))).
  cbn [fbl]. fold d. erewrite M_bind_Done by reflexivity. cbn [fbl inodes inode_cache_map_ local_ fw].
  set (m1 := wr_bytes m ((i - R) * 512) (rd_bytes d (i * 512) 512)).
  assert (∀ x, 0 ≤ x < (i + 1 - R) * 512 → m1 x = d (R * 512 + x)) as Hm1.
  { intros x Hx. destruct (decide (x < (i - R) * 512)).
    - unfold m1. rewrite wr_bytes_out by lia. apply Hm. lia.
    - replace x with ((i - R) * 512 + Z.of_nat (Z.to_nat (x - (i - R) * 512))) at 1 by lia.
      unfold m1. apply wr_bytes_in. rewrite rd_bytes_lookup by lia. do 2 f_equal. lia. }
  destruct (IH (i + 1) m1) as (m' & E & Hin & Hout); [lia|lia|done|].
  exists m'. split; [exact E|]. replace (i + Z.of_nat (S n)) with (i + 1 + Z.of_nat n) by lia. split; [done|].
  intros x Hx. rewrite Hout by done. unfold m1. apply wr_bytes_out. rewrite length_rd_bytes. lia.
Qed.

(** Starting the file system takes the geometry from the boot sector, sets up the
    root inode, and fills the table with the sectors of the disk from the first
    cluster table on; disk and buffers are as before. *)
Theorem start_loads_table s n :
  let d := rw_devs (fbl s) dev_ in
  let g := bpb_info (rd_bytes d 0 512) in
  let R := reserve_sectors_ g in
  inodes s !! root = Some n → bytes_per_sector_ g = 512 → 0 < R ≤ 1024 →
  ∃ s', start s = Done (g, s') ∧
    (∀ x, 0 ≤ x < (1024 - R) * 512 → fat_cache_ s' x = d (R * 512 + x)) ∧
    inodes s' = <[root := root_inode g root n]> (inodes s) ∧
    bufCache (fbl s') = bufCache (fbl s) ∧ rw_devs (fbl s') = rw_devs (fbl s) ∧
    first_data_sector (fbl s') = first_data_sector_ g ∧ sectors_per_cluster (fbl s') = sectors_per_cluster_ g ∧
    inode_cache_map_ s' = inode_cache_map_ s ∧ fw s' = fw s.
Proof.
  intros d g R Hroot Hb HR. unfold start.
  assert (Init s = Done (g, Fat (fbl s) (fat_cache_ s) (<[root := root_inode g root n]> (inodes s))
    (inode_cache_map_ s) (local_ s) (fw s))) as E1.
  { unfold Init. rewrite (M_bind_Done _ _ _ (512, rd_bytes d 0 512) s).
    - rewrite (M_bind_Done _ _ _ (VirtioDisk_read d (replicate 512 0) (i32 (half (rd_bytes d 0 512) O_FS_INFO_SECTOR)) 512) s)
        by (unfold on_bl, RwDevRead, gets; by destruct s).
      fold g. rewrite (M_bind_Done _ _ _ n s) by (unfold MSDOS_I; by rewrite Hroot). reflexivity.
    - unfold on_bl, RwDevRead, gets. rewrite i32_small by lia. fold d.
      rewrite VirtioDisk_read_ok by (done || lia). by destruct s. }
  step E1. erewrite M_bind_Done by reflexivity. cbn [fbl fat_cache_ inodes inode_cache_map_ local_ fw].
  set (s1 := Fat _ _ _ _ _ _).
  destruct (load_fat_run g s1 Hb ltac:(lia) (Z.to_nat (1024 - R)) R (fat_cache_ s1)) as (m' & E & Hin & _);
    [lia|lia|intros x Hx; lia|].
  unfold Fat32FileSystem. fold R. assert (with_table (fat_cache_ s1) s1 = s1) as Es by done. rewrite Es in E. step E.
  eexists. split; [reflexivity|]. split; [|done]. intros x Hx. cbn [with_table fat_cache_]. rewrite Hin by lia. done.
Qed.
End init.

(** The cluster count divides all sectors of the disk, the reserved ones and the
    tables included, so the last numbers are clusters behind the end of the disk:
    here cluster 65999 of a disk of 66000 sectors starts at sector 67029. *)
Example cluster_behind_the_disk :
  let g := finfo_init 512 1 32 2 66000 500 2 in
  (cluster_count_ g <? 65999) = false ∧ FirstSector g 65999 = 67029.
Proof. by vm_compute. Qed.
