(* ===== verification/DevFs.v ===== *)
(** * The device file system: kernel/fs/devfs/device_file_system.cpp

    Its inodes exist from the start: one for the root, one for every block
    device and one for the console, all children of the root in a list
    (SList.v).  A [DevInodeInfo] is addressed by its [vfs_inode]; its [name]
    lies in memory before it.  [console.read], [console.write], [RwDevRead] and
    [RwDevWrite] on the calls' buffers, and [either_copyout], are arguments. *)
From S2P Require Import Prelude Mem Buf SList Pipe Fat32 Dirent.

Definition __S_IFCHR : Z := 8192.
Definition __S_IFBLK : Z := 24576.
Definition kConsoleIno : Z := 5.
Definition kDevFsRootIno : Z := 1.
(** The offset of [vfs_inode] in [DevInodeInfo], after [name[10]] and
    [children_list]. *)
Definition VFS_INODE : Z := 24.

Record dnode := DNode {
  dn_children : Z; dn_dev : Z; dn_inum : Z; dn_ref : Z; dn_locked : bool; dn_mode : Z; dn_fs : Z;
  dn_parent : Z; dn_sz : Z; dn_target : bool;
}.
Definition dn_set_ref (x : Z) (n : dnode) : dnode := DNode (dn_children n) (dn_dev n) (dn_inum n) x
  (dn_locked n) (dn_mode n) (dn_fs n) (dn_parent n) (dn_sz n) (dn_target n).
Definition dn_set_locked (x : bool) (n : dnode) : dnode := DNode (dn_children n) (dn_dev n) (dn_inum n)
  (dn_ref n) x (dn_mode n) (dn_fs n) (dn_parent n) (dn_sz n) (dn_target n).
Definition dn_set_target (n : dnode) : dnode := DNode (dn_children n) (dn_dev n) (dn_inum n)
  (dn_ref n) (dn_locked n) (dn_mode n) (dn_fs n) (dn_parent n) (dn_sz n) true.

Record devs (W : Type) := Devs { dmem : mem; dnodes : gmap Z dnode; dlists : lheap; dworld : W }.
Arguments Devs {W}. Arguments dmem {W}. Arguments dnodes {W}. Arguments dlists {W}. Arguments dworld {W}.

Section devfs.
Context {W : Type}.
(** [this], the inode of [root_], [operator new] for [DevInodeInfo]s (the
    address of the inode), lists and list nodes, and the [ref] that [new] finds
    in memory: no code sets it. *)
Context (this root : Z) (new_info : gmap Z dnode → Z) (new_list : gmap Z lobj → Z)
  (new_lnode : gmap Z lnode → Z) (junk_ref : Z).
Context (console_read console_write : Z → bool → Z → M (devs W) Z).
Context (dev_read dev_write : Z → Z → Z → M (devs W) Z).
Context (out : bool → Z → list Z → M (devs W) Z) (junk : list Z).
Context (fuel : nat).
Abbreviation DM := (M (devs W)).

Definition on_lists {A : Type} (c : M lheap A) : DM A := λ s,
  match c (dlists s) with
  | Done (a, h) => Done (a, Devs (dmem s) (dnodes s) h (dworld s))
  | Panic e => Panic e
  | NoFuel => NoFuel
  end.
Definition info (ip : Z) : DM dnode := λ s,
  match dnodes s !! ip with Some n => Done (n, s) | None => Panic "bad inode" end.
Definition set_info (ip : Z) (n : dnode) : DM unit :=
  modify (λ s, Devs (dmem s) (<[ip := n]> (dnodes s)) (dlists s) (dworld s)).
Definition set_dmem (m : mem) : DM unit := modify (λ s, Devs m (dnodes s) (dlists s) (dworld s)).
Definition name_of (ip : Z) : Z := ip - VFS_INODE.

(** ** vfs_file.cpp on these inodes *)
Definition dasleep : DM unit := λ _, NoFuel.
Definition dlock (ip : Z) : DM unit :=
  n ← info ip;
  if dn_locked n then dasleep else set_info ip (dn_set_locked true n).
Definition dunlock (ip : Z) : DM unit := n ← info ip; set_info ip (dn_set_locked false n).
Definition ddup (ip : Z) : DM Z :=
  dlock ip;; n ← info ip; set_info ip (dn_set_ref (dn_ref n + 1) n);; dunlock ip;; mret ip.
Definition DeleteInode (ip : Z) : DM unit := mret tt.
Definition dfree (ip : Z) : DM unit :=
  dlock ip;;
  n ← info ip;
  if dn_ref n <? 1 then panic "inode free"
  else
    set_info ip (dn_set_ref (dn_ref n - 1) n);;
    (if dn_ref n - 1 =? 0 then DeleteInode ip else mret tt);;
    dunlock ip.

(** ** The file system *)
Definition AllocInode : DM Z :=
  ip ← gets (λ s, new_info (dnodes s));
  l ← gets (λ s, new_list (lobjs (dlists s)));
  on_lists (list_new l);;
  set_info ip (DNode l 0 0 junk_ref false 0 0 0 0 false);;
  mret ip.

Definition GetRootInode : DM Z := ddup root.
Definition Create (dir name mode : Z) : DM Z := mret 0.
Definition UpdateInode (ip : Z) : DM Z := mret 0.
Definition Mkdir (dir name mode : Z) : DM Z := mret (-1).
Definition Unlink (dir name : Z) : DM Z := mret (-1).

Definition ReadInode (ip : Z) (user : bool) (buf off n : Z) : DM Z :=
  i ← info ip;
  if dn_dev i =? kConsoleIno then console_read buf user n else dev_read (dn_dev i) buf n.
Definition WriteInode (ip : Z) (user : bool) (buf off n : Z) : DM Z :=
  i ← info ip;
  if dn_dev i =? kConsoleIno then console_write buf user n else dev_write (dn_dev i) buf n.
Definition dread (ip buf off n : Z) (user : bool) : DM Z :=
  dlock ip;; r ← ReadInode ip user buf off (u32 n); dunlock ip;; mret r.
Definition dwrite (ip buf off n : Z) (user : bool) : DM Z :=
  dlock ip;; r ← WriteInode ip user buf off (u32 n); dunlock ip;; mret r.

Definition d_strcmp (p q : Z) : DM Z := λ s,
  match strcmp fuel (dmem s) p q with Done r => Done (r, s) | Panic e => Panic e | NoFuel => NoFuel end.
Definition d_strlen (p : Z) : DM Z := λ s,
  match strlen fuel (dmem s) p with Done r => Done (r, s) | Panic e => Panic e | NoFuel => NoFuel end.

(** The loop over [root_->children_list]; the argument [dir] is not used. *)
Fixpoint Lookup_loop (n : nat) (iter name : Z) : DM Z :=
  match n with
  | O => λ _, NoFuel
  | S n =>
      if iter =? 0 then mret 0
      else
        ip ← on_lists (deref iter);
        r ← d_strcmp (name_of ip) name;
        if r =? 0 then ddup ip
        else iter ← on_lists (advance iter); Lookup_loop n iter name
  end.
Definition Lookup (dir name : Z) : DM Z :=
  r ← info root;
  iter ← on_lists (begin_ (dn_children r));
  Lookup_loop fuel iter name.

(** [ReadDir]: the offset of the file is [foff]; the result is the number of
    bytes and the new offset. *)
Fixpoint dots_loop (n : nat) (user : bool) (hdr : ReadDirHeader) (off foff : Z) : DM (bool * ReadDirHeader * Z * Z) :=
  match n with
  | O => λ _, NoFuel
  | S n =>
      if foff <? 2 then
        '(r, hdr) ← filldir (out user) junk hdr (take (Z.to_nat (off + 1)) [46; 46]) kDevFsRootIno DT_DIR;
        if r <? 0 then mret (false, hdr, off, foff)
        else dots_loop n user hdr (i32 (off + 1)) (foff + 1)
      else mret (true, hdr, off, foff)
  end.
Fixpoint skip_loop (n : nat) (i off iter : Z) : DM Z :=
  match n with
  | O => λ _, NoFuel
  | S n =>
      if (i <? off) && negb (iter =? 0) then iter ← on_lists (advance iter); skip_loop n (i + 1) off iter
      else mret iter
  end.
Fixpoint fill_loop (n : nat) (user : bool) (hdr : ReadDirHeader) (off iter : Z) : DM (bool * ReadDirHeader * Z) :=
  match n with
  | O => λ _, NoFuel
  | S n =>
      if iter =? 0 then mret (true, hdr, off)
      else
        ip ← on_lists (deref iter);
        len ← d_strlen (name_of ip);
        i ← info ip;
        name ← gets (λ s, rd_bytes (dmem s) (name_of ip) (Z.to_nat len));
        '(r, hdr) ← filldir (out user) junk hdr name (dn_inum i) DT_REG;
        if r <? 0 then mret (false, hdr, off)
        else iter ← on_lists (advance iter); fill_loop n user hdr (i32 (off + 1)) iter
  end.
Definition ReadDir (foff ip buf max_len : Z) (user : bool) : DM (Z * Z) :=
  let hdr := Hdr buf max_len 0 0 in
  let off := i32 foff in
  i ← info ip;
  '(go, hdr, off, foff) ← (if dn_inum i =? kDevFsRootIno then dots_loop 3 user hdr off foff
                           else mret (true, hdr, off, foff));
  if negb go then mret (used hdr, foff)
  else
    r ← info root;
    iter ← on_lists (begin_ (dn_children r));
    iter ← skip_loop fuel 2 off iter;
    '(go, hdr, off) ← fill_loop fuel user hdr off iter;
    if negb go then mret (used hdr, foff) else mret (used hdr, u64 off).

(** [FillInode]: takes a reference to [parent]. *)
Definition FillInode (ip parent dev ino mode : Z) : DM unit :=
  p ← ddup parent;
  n ← info ip;
  set_info ip (DNode (dn_children n) (u32 dev) ino (dn_ref n) (dn_locked n) mode this p (u32 (-1)) (dn_target n)).

(** One child of the root; [safestrcpy(info->name, name, n)] is not bounded by
    the ten bytes of [name]. *)
Definition add_child (name n dev ino mode : Z) : DM unit :=
  ip ← AllocInode;
  m ← gets dmem;
  set_dmem (safestrcpy m (name_of ip) name n);;
  FillInode ip root dev ino mode;;
  r ← info root;
  on_lists (insert new_lnode (dn_children r) ip).

(** The constructor up to its self-test: [root] is where the first [new] puts
    the inode, [rw_devs] are the names of the block
    devices, 0 for an empty slot; [s_tty] is the string "tty". *)
Fixpoint add_devs (rw_devs : list Z) (dev_no : Z) : DM unit :=
  match rw_devs with
  | [] => mret tt
  | 0 :: rw_devs => add_devs rw_devs dev_no
  | name :: rw_devs =>
      len ← d_strlen name;
      add_child name (len + 1) dev_no kConsoleIno __S_IFBLK;;
      add_devs rw_devs (dev_no + 1)
  end.
Definition DeviceFileSystem (rw_devs : list Z) (s_tty : Z) : DM unit :=
  AllocInode;;
  FillInode root root (-1) kDevFsRootIno __S_IFDIR;;
  add_devs rw_devs 2;;
  add_child s_tty 4 kConsoleIno kConsoleIno __S_IFCHR.
End devfs.
