(* ===== verification/Vfs.v ===== *)
(** * The virtual file system: kernel/fs/vfs/vfs.cpp

    [VfsManager] works on [struct inode] and [struct file] and reaches the file
    systems through the virtual functions of [FileSystem0]
    (kernel/include/fs/vfs/file_system.hpp).  That interface, with the members
    of [struct inode] that vfs.cpp reads, is the class [FsLayer]: Fat32.v and
    DevFs.v model the two file systems behind it.  Paths and names are pointers
    into the kernel's memory, [kmem].

    [ref_lock] of a [struct file] and [vfs_sleeplock_] are held only inside one
    call; what happens between taking and releasing them is one step here. *)
From S2P Require Import Prelude Mem Buf Pipe Fat32.

(** ** Inodes and file systems as vfs.cpp sees them *)
Class FsLayer (F : Type) := {
  kmem : F → mem;
  set_kmem : mem → F → F;
  ip_fs : Z → M F Z;
  ip_mode : Z → M F Z;
  ip_sz : Z → M F Z;
  ip_set_mp_target : Z → M F unit;
  ip_dup : Z → M F Z;
  ip_free : Z → M F unit;
  ip_lock : Z → M F unit;
  ip_unlock : Z → M F unit;
  ip_read : Z → Z → Z → Z → bool → M F Z;
  ip_write : Z → Z → Z → Z → bool → M F Z;
  fs_GetRootInode : Z → M F Z;
  fs_Lookup : Z → Z → Z → M F Z;
  fs_Create : Z → Z → Z → Z → M F Z;
  fs_Mkdir : Z → Z → Z → Z → M F Z;
  fs_Unlink : Z → Z → Z → M F Z;
  fs_ReadDir : Z → Z → Z → Z → Z → bool → M F (Z * Z);
  pipe_new : M F Z;
  pipe_read : Z → Z → Z → M F Z;
  pipe_write : Z → Z → Z → M F Z;
  pipe_close : Z → EndType → M F unit;
}.

(** ** Data: vfs_file.h, vfs.hpp, lib/fcntl.h *)
Inductive ftype := FD_NONE | FD_PIPE | FD_ENTRY | FD_DEVICE | FD_INODE.

(** [filepath] and [directory] are used by the old Vfs.cpp only. *)
Record file := File {
  f_size : Z;
  f_ref : Z;
  f_readable : bool;
  f_writable : bool;
  f_type : ftype;
  f_pipe : Z;
  f_inode : Z;
  f_offset : Z;
  f_mode : Z;
}.
Definition set_ref (x : Z) (f : file) : file := File (f_size f) x (f_readable f) (f_writable f)
  (f_type f) (f_pipe f) (f_inode f) (f_offset f) (f_mode f).
Definition set_offset (x : Z) (f : file) : file := File (f_size f) (f_ref f) (f_readable f)
  (f_writable f) (f_type f) (f_pipe f) (f_inode f) x (f_mode f).
Definition set_size (x : Z) (f : file) : file := File x (f_ref f) (f_readable f) (f_writable f)
  (f_type f) (f_pipe f) (f_inode f) (f_offset f) (f_mode f).

Definition MAXPATH : nat := 64.
Definition kMaxFileName : Z := 35.
Definition kMountPointNumber : nat := 5.
Definition O_WRONLY : Z := 0x1.
Definition O_RDWR : Z := 0x2.
Definition O_CREATE : Z := 0x40.
Definition O_TRUNC : Z := 0x400.
Definition O_APPEND : Z := 0x8.
Definition O_DIRECTORY : Z := 0x200000.

Record MountPoint := MkMount {
  mp_path : list Z;
  device_path : list Z;
  origin : Z;
  target : Z;
  mp_dev : Z;
  fs : Z;
}.
Definition no_mount : MountPoint := MkMount (replicate MAXPATH 0) (replicate MAXPATH 0) 0 0 0 0.

Record vst (F : Type) := VS {
  files : gmap Z file;
  mount_points_ : list MountPoint;
  root_ : Z;
  vw : F;
}.
Arguments VS {F}. Arguments files {F}. Arguments mount_points_ {F}. Arguments root_ {F}.
Arguments vw {F}.

(** [flags & O_X] as a condition. *)
Definition flag (flags bit : Z) : bool := negb (Z.land flags bit =? 0).

(** ** Path elements *)

(** [while ( *path == '/') path++;] and [while ( *path != '/' && *path != 0) path++;] *)
Fixpoint skip_slashes (fuel : nat) (m : mem) (path : Z) : outcome Z :=
  match fuel with
  | O => NoFuel
  | S fuel => if m path =? 47 then skip_slashes fuel m (path + 1) else Done path
  end.
Fixpoint skip_name (fuel : nat) (m : mem) (path : Z) : outcome Z :=
  match fuel with
  | O => NoFuel
  | S fuel => if negb (m path =? 47) && negb (m path =? 0) then skip_name fuel m (path + 1)
              else Done path
  end.

(** [SkipElememt(path, name)]: the pointer behind the element, 0 when there is
    none, and the memory with the element in [name].  An element of 35 bytes or
    more is cut and gets no NUL. *)
Definition SkipElememt (fuel : nat) (m : mem) (path name : Z) : outcome (Z * mem) :=
  path ← skip_slashes fuel m path;
  if m path =? 0 then Done (0, m)
  else
    let s := path in
    path ← skip_name fuel m path;
    let len := path - s in
    let m := if kMaxFileName <=? len then memmove m name s kMaxFileName
             else upd (memmove m name s len) (name + len) 0 in
    path ← skip_slashes fuel m path;
    Done (path, m).

Section vfs.
Context {F : Type} `{FsLayer F}.
(** Bound for the loops over paths, [operator new] for files, [myTask()->cwd],
    and the addresses of the string "dev" and of local arrays. *)
Context (fuel : nat) (new_file : gmap Z file → Z) (cwd : Z) (s_dev a_name : Z).
Abbreviation VM := (M (vst F)).

Definition on_fs {A : Type} (c : M F A) : VM A := λ s,
  match c (vw s) with
  | Done (a, w) => Done (a, VS (files s) (mount_points_ s) (root_ s) w)
  | Panic e => Panic e
  | NoFuel => NoFuel
  end.
Definition fref (fp : Z) : VM file := λ s,
  match files s !! fp with Some f => Done (f, s) | None => Panic "bad file" end.
Definition set_files (fs : gmap Z file) : VM unit :=
  modify (λ s, VS fs (mount_points_ s) (root_ s) (vw s)).
Definition put_file (fp : Z) (f : file) : VM unit :=
  modify (λ s, VS (<[fp := f]> (files s)) (mount_points_ s) (root_ s) (vw s)).
Definition set_mounts (l : list MountPoint) : VM unit :=
  modify (λ s, VS (files s) l (root_ s) (vw s)).
Definition set_root (x : Z) : VM unit :=
  modify (λ s, VS (files s) (mount_points_ s) x (vw s)).
Definition byte_at (p : Z) : VM Z := gets (λ s, kmem (vw s) p).

Definition skip_element (path name : Z) : VM Z := λ s,
  match SkipElememt fuel (kmem (vw s)) path name with
  | Done (p, m) => Done (p, VS (files s) (mount_points_ s) (root_ s) (set_kmem m (vw s)))
  | Panic e => Panic e
  | NoFuel => NoFuel
  end.

(** ** Names to inodes *)

(** The first mount point whose [origin] is [ip]. *)
Fixpoint find_mount (l : list MountPoint) (ip : Z) : option MountPoint :=
  match l with
  | [] => None
  | mp :: l => if origin mp =? ip then Some mp else find_mount l ip
  end.
Definition ConvertInodeByMp (ip : Z) : VM Z :=
  l ← gets mount_points_;
  match find_mount l ip with
  | Some mp => on_fs (ip_free ip);; on_fs (ip_dup (target mp))
  | None => mret ip
  end.

(** The [while] loop of [namex]; [parent] is its argument [nameiparent]. *)
Fixpoint namex_loop (n : nat) (fs ip path : Z) (parent : bool) (name : Z) : VM Z :=
  match n with
  | O => λ _, NoFuel
  | S n =>
      path ← skip_element path name;
      if path =? 0 then
        (if parent then on_fs (ip_free ip);; mret 0 else mret ip)
      else
        on_fs (ip_lock ip);;
        mode ← on_fs (ip_mode ip);
        if negb (S_ISDIR mode) then
          on_fs (ip_unlock ip);; on_fs (ip_free ip);; mret 0
        else
          c ← byte_at path;
          if parent && (c =? 0) then on_fs (ip_unlock ip);; mret ip
          else
            next ← on_fs (fs_Lookup fs ip name);
            if next =? 0 then
              on_fs (ip_unlock ip);; on_fs (ip_free ip);; mret 0
            else
              on_fs (ip_unlock ip);;
              on_fs (ip_free ip);;
              ip ← ConvertInodeByMp next;
              fs ← on_fs (ip_fs ip);
              namex_loop n fs ip path parent name
  end.
Definition namex (ip path : Z) (parent : bool) (name : Z) : VM Z :=
  fs ← on_fs (ip_fs ip);
  namex_loop fuel fs ip path parent name.

Definition namei (dir path : Z) : VM Z :=
  dir ← (if dir =? 0 then
           c ← byte_at path;
           if c =? 47 then r ← gets root_; on_fs (ip_dup r) else on_fs (ip_dup cwd)
         else mret dir);
  namex dir path false a_name.
Definition nameiparent (dir path name : Z) : VM Z := namex dir path true name.

(** ** Opening and closing *)

(** The end of [openat]: the new [struct file] for [ip]. *)
Definition open_file (ip flags : Z) : VM Z :=
  fp ← gets (λ s, new_file (files s));
  isz ← on_fs (ip_sz ip);
  mode ← on_fs (ip_mode ip);
  put_file fp {|
    f_size := isz; f_ref := 1;
    f_readable := negb (flag flags O_WRONLY);
    f_writable := flag flags O_WRONLY || flag flags O_RDWR;
    f_type := FD_INODE; f_pipe := 0; f_inode := ip;
    f_offset := if flag flags O_APPEND || flag flags O_TRUNC then isz else 0;
    f_mode := mode;
  |};;
  mret fp.

Definition openat (dir filepath flags mode : Z) : VM Z :=
  c ← byte_at filepath;
  dp ← (if negb (dir =? 0) then f ← fref dir; on_fs (ip_dup (f_inode f))
        else if c =? 47 then r ← gets root_; on_fs (ip_dup r)
        else on_fs (ip_dup cwd));
  ip ← (if flag flags O_CREATE then
          nameiparent dp filepath a_name;;
          fs ← on_fs (ip_fs dp);
          r ← on_fs (fs_Create fs dp a_name mode);
          if r <? 0 then panic "can't create file" else namei dp a_name
        else namei dp filepath);
  if ip =? 0 then mret 0 else open_file ip flags.

Definition unlinkat (dir name : Z) : VM Z :=
  f ← fref dir;
  fs ← on_fs (ip_fs (f_inode f));
  on_fs (fs_Unlink fs (f_inode f) name).

(** The file is deleted before what it refers to is released. *)
Definition close (fp : Z) : VM unit :=
  f ← fref fp;
  if f_ref f <? 1 then panic "vfs::close"
  else if 0 <? f_ref f - 1 then put_file fp (set_ref (f_ref f - 1) f)
  else
    fs ← gets files;
    set_files (delete fp fs);;
    match f_type f with
    | FD_PIPE =>
        (if f_writable f then on_fs (pipe_close (f_pipe f) WRITE_END) else mret tt);;
        (if f_readable f then on_fs (pipe_close (f_pipe f) READ_END) else mret tt)
    | FD_INODE => on_fs (ip_free (f_inode f))
    | _ => mret tt
    end.

Definition rewind (fp : Z) : VM Z :=
  f ← fref fp;
  if f_ref f <? 1 then panic "filerewind" else put_file fp (set_offset 0 f);; mret fp.

Definition dup (fp : Z) : VM Z :=
  f ← fref fp;
  if f_ref f <? 1 then panic "vfs::dup" else put_file fp (set_ref (f_ref f + 1) f);; mret fp.

(** ** Reading and writing *)

(** [offset] is a [size_t], [nread] an [int]. *)
Definition read (fp buf n : Z) (user : bool) : VM Z :=
  if fp =? 0 then panic "fp is nullptr"
  else
    f ← fref fp;
    nread ← match f_type f with
            | FD_PIPE => on_fs (pipe_read (f_pipe f) buf n)
            | FD_INODE => on_fs (ip_read (f_inode f) buf (u32 (f_offset f)) n user)
            | _ => panic "unknown file type"
            end;
    f ← fref fp;
    put_file fp (set_offset (u64 (f_offset f + nread)) f);;
    mret nread.

Definition write (fp buf n : Z) (user : bool) : VM Z :=
  if fp =? 0 then panic "fp is nullptr"
  else
    f ← fref fp;
    if negb (f_writable f) then mret (-1)
    else
      nwrite ← match f_type f with
               | FD_PIPE => on_fs (pipe_write (f_pipe f) buf n)
               | FD_INODE =>
                   r ← on_fs (ip_write (f_inode f) buf (u32 (f_offset f)) n user);
                   f ← fref fp;
                   let f := set_offset (u64 (f_offset f + r)) f in
                   let e := u64 (f_offset f + r) in
                   put_file fp (set_size (if f_size f <? e then e else f_size f) f);;
                   mret r
               | _ => panic "unknown file type"
               end;
      f ← fref fp;
      put_file fp (set_offset (u64 (f_offset f + nwrite)) f);;
      mret nwrite.

Definition ReadDir (fp buf max_len : Z) (user : bool) : VM Z :=
  f ← fref fp;
  if negb (f_readable f) then mret (-1)
  else
    fs ← on_fs (ip_fs (f_inode f));
    '(r, off) ← on_fs (fs_ReadDir fs (f_offset f) (f_inode f) buf max_len user);
    put_file fp (set_offset off f);;
    mret r.

(** [createPipe(fds)] up to the descriptors: the two files, the read end
    first.  What [new] leaves in the other members is [junk]. *)
Definition pipe_files (junk : file) : VM (Z * Z) :=
  f0 ← gets (λ s, new_file (files s));
  put_file f0 junk;;
  f1 ← gets (λ s, new_file (files s));
  put_file f1 junk;;
  p ← on_fs pipe_new;
  put_file f0 (File (f_size junk) 1 true false FD_PIPE p (f_inode junk) (f_offset junk) (f_mode junk));;
  put_file f1 (File (f_size junk) 1 false true FD_PIPE p (f_inode junk) (f_offset junk) (f_mode junk));;
  mret (f0, f1).

(** ** Mounting *)

(** The last mount point with an empty path. *)
Fixpoint free_mount (l : list MountPoint) (i : nat) (found : option nat) : option nat :=
  match l with
  | [] => found
  | mp :: l => free_mount l (S i) (if byte (mp_path mp) 0 =? 0 then Some i else found)
  end.

(** [strncpy(dst, s, strlen(s))] into an array: no NUL is stored, and bytes
    past the array's end would overwrite what follows it. *)
Definition copy_path (dst : list Z) (s : Z) : VM (list Z) := λ st,
  match strlen fuel (kmem (vw st)) s with
  | Done n => Done (splice dst 0 (rd_bytes (kmem (vw st)) s (Z.to_nat n)), st)
  | Panic e => Panic e
  | NoFuel => NoFuel
  end.

Definition Mount (source target_ : Z) : VM Z :=
  l ← gets mount_points_;
  match free_mount l 0 None with
  | None => panic "vfs::mount: haven't enough free mount point"
  | Some i =>
      let mp := nth i l no_mount in
      d ← copy_path (device_path mp) source;
      p ← copy_path (mp_path mp) target_;
      set_mounts (<[i := MkMount p d (origin mp) (target mp) (mp_dev mp) (fs mp)]> l);;
      mret 0
  end.

(** [new Fat32FileSystem(0)] and [new DeviceFileSystem(-1)] are [rootfs] and
    [devfs]. *)
Definition MountRoot (rootfs : Z) : VM unit :=
  l ← gets mount_points_;
  let mp := nth 0 l no_mount in
  set_mounts (<[0%nat := MkMount (splice (mp_path mp) 0 [47]) (device_path mp) (origin mp) (target mp)
    0 rootfs]> l);;
  r ← on_fs (fs_GetRootInode rootfs);
  set_root r.

Definition MountDev (devfs : Z) : VM unit :=
  l ← gets mount_points_;
  let mp := nth 1 l no_mount in
  let path := splice (mp_path mp) 0 [47; 100; 101; 118] in
  root ← gets root_;
  rfs ← on_fs (ip_fs root);
  dev ← on_fs (fs_Lookup rfs root s_dev);
  dev ← (if dev =? 0 then
           on_fs (fs_Mkdir rfs root s_dev O_DIRECTORY);;
           dev ← on_fs (fs_Lookup rfs root s_dev);
           if dev =? 0 then panic "expect dev directory" else mret dev
         else mret dev);
  t ← on_fs (fs_GetRootInode devfs);
  l ← gets mount_points_;
  set_mounts (<[1%nat := MkMount path (device_path mp) dev t 0 devfs]> l);;
  on_fs (ip_set_mp_target dev).

(** [Init] up to the files it writes for the boot script. *)
Definition Init (rootfs devfs : Z) : VM unit :=
  set_mounts (replicate kMountPointNumber no_mount);;
  MountRoot rootfs;;
  MountDev devfs.

(** The inner loop of [March] for mount point [i]: it stops at the end of the
    mount path or when byte [i], not [j], of the path is NUL. *)
Fixpoint march_match (mpath : list Z) (m : mem) (path : Z) (i : nat) (j : Z) : bool :=
  match mpath with
  | [] => true
  | c :: mpath =>
      if negb (c =? 0) && negb (m (path + Z.of_nat i) =? 0) then
        if c =? m (path + j) then march_match mpath m path i (j + 1) else false
      else true
  end.
Fixpoint len_to_nul (l : list Z) : Z :=
  match l with [] => 0 | c :: l => if c =? 0 then 0 else 1 + len_to_nul l end.
Fixpoint march_loop (l : list MountPoint) (m : mem) (path : Z) (i best : nat) (bestLength : Z) : nat :=
  match l with
  | [] => best
  | mp :: l =>
      if march_match (mp_path mp) m path i 0 && (bestLength <? len_to_nul (mp_path mp))
      then march_loop l m path (S i) i (len_to_nul (mp_path mp))
      else march_loop l m path (S i) best bestLength
  end.
(** The test for a file system looks at the first mount point on every turn. *)
Definition March (path : Z) : VM nat :=
  l ← gets mount_points_;
  m ← gets (λ s, kmem (vw s));
  mret (if fs (nth 0 l no_mount) =? 0 then 0%nat else march_loop l m path 0 0 0).
End vfs.
