(* ===== verification/VfsProps.v ===== *)
(** * What path resolution and open files promise

    The file systems enter through the class [FsLaws]: what [VfsManager] needs
    of the operations of [FsLayer], stated with the multiset of inode
    references that are held.  DevFs.v proves the laws for the device file
    system.  The theorems below are proved against the class. *)
From stdpp Require Import gmultiset.
From S2P Require Import Prelude Mem Pipe Fat32 Vfs.

(** ** Path elements of a string *)

(** The elements of a path: split at ['/'], empty elements left out. *)
Fixpoint elements_from (l cur : list Z) : list (list Z) :=
  match l with
  | [] => match cur with [] => [] | _ => [cur] end
  | c :: l =>
      if c =? 47 then match cur with [] => elements_from l [] | _ => cur :: elements_from l [] end
      else elements_from l (cur ++ [c])
  end.
Definition elements (l : list Z) : list (list Z) := elements_from l [].

Fixpoint strip (l : list Z) : list Z :=
  match l with c :: l' => if c =? 47 then strip l' else l | [] => [] end.
Fixpoint element (l : list Z) : list Z :=
  match l with c :: l' => if c =? 47 then [] else c :: element l' | [] => [] end.
Fixpoint after (l : list Z) : list Z :=
  match l with c :: l' => if c =? 47 then l else after l' | [] => [] end.

Lemma elements_strip l : elements (strip l) = elements l.
Proof.
  induction l as [|c l IH]; [done|]. cbn [strip]. destruct (c =? 47) eqn:E; [|done].
  rewrite IH. unfold elements. cbn [elements_from]. by rewrite E.
Qed.

Lemma elements_from_cur l cur :
  cur ≠ [] → elements_from l cur = (cur ++ element l) :: elements (after l).
Proof.
  revert cur. induction l as [|c l IH]; intros cur Hc; cbn [elements_from element after].
  - destruct cur; [done|]. by rewrite app_nil_r.
  - destruct (c =? 47) eqn:E.
    + destruct cur; [done|]. rewrite app_nil_r. unfold elements. cbn [elements_from]. by rewrite E.
    + rewrite IH by (by destruct cur). by rewrite <- app_assoc.
Qed.

Lemma elements_unfold l :
  elements l = match strip l with [] => [] | l1 => element l1 :: elements (strip (after l1)) end.
Proof.
  rewrite <- elements_strip. destruct (strip l) as [|c l1] eqn:E; [done|].
  assert ((c =? 47) = false) as Hc.
  { clear -E. induction l as [|d l IH]; [done|]. cbn in E. destruct (d =? 47) eqn:Ed; [by apply IH|].
    by injection E as -> _. }
  cbn [element after]. rewrite Hc, elements_strip. unfold elements at 1.
  cbn [elements_from]. rewrite Hc, elements_from_cur by done. done.
Qed.

Lemma strip_head l c l' : strip l = c :: l' → c ≠ 47.
Proof.
  induction l as [|d l IH]; [done|]. cbn. case_bool (d =? 47); [done|]. intros [= -> _]. done.
Qed.

(** The remaining path is empty exactly when no element remains. *)
Lemma elements_nil_strip l : elements (strip l) = [] ↔ strip l = [].
Proof.
  rewrite elements_strip, elements_unfold. destruct (strip l) eqn:E; naive_solver.
Qed.

Lemma skip_slashes_ok fuel m p l :
  cstr m p l → (length l < fuel)%nat →
  ∃ k : nat, skip_slashes fuel m p = Done (p + Z.of_nat k) ∧ cstr m (p + Z.of_nat k) (strip l) ∧
    (k + length (strip l) = length l)%nat.
Proof.
  revert p fuel. induction l as [|c l IH]; intros p [|fuel] Hl Hf; cbn in *; try lia.
  - exists O. rewrite Hl. cbn. rewrite Z.add_0_r. done.
  - destruct Hl as (Hp & Hc & Hl). rewrite Hp. destruct (c =? 47) eqn:E.
    + destruct (IH (p + 1) fuel Hl ltac:(lia)) as (k & Hk & Hs & Hlen).
      exists (Datatypes.S k). rewrite Hk.
      replace (p + Z.of_nat (Datatypes.S k)) with (p + 1 + Z.of_nat k) by lia. split_and!; [done..|lia].
    + exists O. rewrite Z.add_0_r. cbn [cstr length]. split_and!; done.
Qed.

Lemma skip_name_ok fuel m p l :
  cstr m p l → (length l < fuel)%nat →
  skip_name fuel m p = Done (p + Z.of_nat (length (element l))) ∧
  cstr m (p + Z.of_nat (length (element l))) (after l) ∧
  bytes_at m p (element l) ∧ Forall (λ b, b ≠ 0) (element l) ∧
  (length (element l) + length (after l) = length l)%nat.
Proof.
  revert p fuel. induction l as [|c l IH]; intros p [|fuel] Hl Hf; cbn in *; try lia.
  - rewrite Hl. cbn. rewrite Z.add_0_r. done.
  - destruct Hl as (Hp & Hc & Hl). rewrite Hp. destruct (c =? 47) eqn:E; cbn.
    + rewrite Z.add_0_r. split_and!; done.
    + apply Z.eqb_neq in Hc as Hc'. rewrite Hc'. cbn.
      destruct (IH (p + 1) fuel Hl ltac:(lia)) as (Hk & Hs & Hb & HF & Hlen).
      rewrite Hk.
      replace (p + Z.of_nat (Datatypes.S (length (element l)))) with (p + 1 + Z.of_nat (length (element l))) by lia.
      split_and!; try done; [by constructor|lia].
Qed.

Lemma bytes_at_moved m m' s d l :
  (∀ i, 0 ≤ i < Z.of_nat (length l) → m' (d + i) = m (s + i)) → bytes_at m s l → bytes_at m' d l.
Proof.
  revert s d. induction l as [|b l IH]; intros s d H; cbn [bytes_at length] in *; [done|].
  intros (<- & Hl). split; [specialize (H 0 ltac:(lia)); by rewrite !Z.add_0_r in H|].
  apply (IH (s + 1)); [|done]. intros i Hi. specialize (H (i + 1) ltac:(lia)).
  by replace (d + 1 + i) with (d + (i + 1)) by lia; replace (s + 1 + i) with (s + (i + 1)) by lia.
Qed.
Lemma bytes_at_take m s l n : bytes_at m s l → bytes_at m s (take n l).
Proof.
  revert s n. induction l as [|b l IH]; intros s [|n]; cbn; [done..|]. naive_solver.
Qed.
Lemma bytes_at_memmove m d s l n :
  n = Z.of_nat (length l) → n < 2 ^ 32 → bytes_at m s l → bytes_at (memmove m d s n) d l.
Proof.
  intros -> Hn. apply bytes_at_moved. intros i Hi. rewrite memmove_lookup, u32_small by lia.
  range_case. f_equal. lia.
Qed.

(** What [SkipElememt] leaves in [name] for the element [e]. *)
Definition named (m : mem) (name : Z) (e : list Z) : Prop :=
  if decide (length e < 35)%nat then cstr m name e else bytes_at m name (take 35 e).

Lemma store_element_ok m name s e :
  bytes_at m s e → Forall (λ b, b ≠ 0) e → Z.of_nat (length e) < 2 ^ 31 →
  let m' := if kMaxFileName <=? Z.of_nat (length e) then memmove m name s kMaxFileName
            else upd (memmove m name s (Z.of_nat (length e))) (name + Z.of_nat (length e)) 0 in
  named m' name e ∧ ∀ x, ¬ (name ≤ x < name + kMaxFileName) → m' x = m x.
Proof.
  intros Hb HF Hl. unfold named, kMaxFileName. cbn zeta.
  destruct (35 <=? Z.of_nat (length e)) eqn:E; bool_arith.
  - rewrite decide_False by lia. split.
    + apply bytes_at_memmove; [rewrite length_take; lia|lia|by apply bytes_at_take].
    + intros x Hx. by apply memmove_out.
  - rewrite decide_True by lia. split.
    + apply cstr_intro; [|done|apply upd_eq].
      eapply bytes_at_ext; [|apply (bytes_at_memmove m name s e _ eq_refl); [lia|done]].
      intros x Hx. rewrite upd_ne by lia. done.
    + intros x Hx. rewrite upd_ne by lia. apply memmove_out. rewrite u32_small by lia. lia.
Qed.

(** [SkipElememt] takes the first element off the path and stores it, cut at 35
    bytes, in [name]. *)
Lemma SkipElememt_ok fuel m p name l :
  cstr m p l → (length l < fuel)%nat → Z.of_nat (length l) < 2 ^ 31 → 0 < p →
  name + kMaxFileName ≤ p ∨ p + Z.of_nat (length l) + 1 ≤ name →
  match elements l with
  | [] => SkipElememt fuel m p name = Done (0, m)
  | e :: es => ∃ p' m' l',
      SkipElememt fuel m p name = Done (p', m') ∧ cstr m' p' l' ∧ elements l' = es ∧
      (m' p' = 0 ↔ es = []) ∧
      p < p' ∧ p' + Z.of_nat (length l') = p + Z.of_nat (length l) ∧
      (∀ x, ¬ (name ≤ x < name + kMaxFileName) → m' x = m x) ∧
      Forall (λ b, b ≠ 0) e ∧ named m' name e
  end.
Proof.
  intros Hl Hf Hlen Hp Hd. unfold SkipElememt.
  destruct (skip_slashes_ok fuel m p l Hl Hf) as (k & -> & Hs & Hk). cbn [mbind outcome_bind].
  rewrite elements_unfold. destruct (strip l) as [|c l1] eqn:El.
  { cbn in Hs. by rewrite Hs. }
  pose proof (strip_head _ _ _ El) as Hc47. rewrite <- El in Hs |- *. rewrite <- El in Hk.
  assert (m (p + Z.of_nat k) ≠ 0 ∧ (1 ≤ length (element (strip l)))%nat) as [Hnz Hne].
  { rewrite El in Hs |- *. destruct Hs as (-> & ? & _). split; [done|].
    cbn. apply Z.eqb_neq in Hc47 as ->. cbn. lia. }
  apply Z.eqb_neq in Hnz as ->.
  destruct (skip_name_ok fuel m (p + Z.of_nat k) (strip l) Hs ltac:(lia)) as (-> & Ha & Hb & HF & Hlen2).
  cbn [mbind outcome_bind].
  set (e := element (strip l)) in *. set (q := p + Z.of_nat k) in *.
  replace (q + Z.of_nat (length e) - q) with (Z.of_nat (length e)) by lia.
  destruct (store_element_ok m name q e Hb HF ltac:(lia)) as [Hn Hout]. cbn zeta in Hn, Hout.
  set (m2 := if kMaxFileName <=? Z.of_nat (length e) then _ else _) in *. unfold kMaxFileName in *.
  assert (cstr m2 (q + Z.of_nat (length e)) (after (strip l))) as Ha2.
  { eapply cstr_ext; [|exact Ha]. intros x Hx. symmetry. apply Hout. lia. }
  destruct (skip_slashes_ok fuel m2 _ _ Ha2 ltac:(lia)) as (k2 & -> & Hs2 & Hk2).
  exists (q + Z.of_nat (length e) + Z.of_nat k2), m2, (strip (after (strip l))).
  split; [done|]. split; [done|]. split; [done|]. split; [|split_and!; (done || lia)].
  rewrite elements_nil_strip. destruct (strip (after (strip l))) as [|b l2]; cbn in Hs2; [done|].
  destruct Hs2 as (-> & Hb2 & _). done.
Qed.

(** ** What path resolution needs of the file systems

    The files form a tree over file identities: [child] gives the file a name
    stands for in a directory.  [fid s ip] is the file behind the inode [ip].
    [fs_inv s h k]: the multiset [h] of references is held, [ip] being counted
    once for every holder, and [k] is the inode whose lock is held. *)
Abbreviation refs := (gmultiset Z).

Lemma held_singleton (x q : Z) (h : gmultiset Z) : q ≠ x → multiplicity q ({[+ x +]} ⊎ h) = multiplicity q h.
Proof. intros. rewrite multiplicity_disj_union, multiplicity_singleton_ne by done. lia. Qed.
Lemma held_here (x : Z) (h : gmultiset Z) : multiplicity x ({[+ x +]} ⊎ h) = Datatypes.S (multiplicity x h).
Proof. rewrite multiplicity_disj_union, multiplicity_singleton, decide_True by done. done. Qed.

Class FsLaws (F : Type) `{FsLayer F} := {
  isdir : Z → bool;
  child : Z → list Z → option Z;
  fsof : Z → Z;
  fid : F → Z → Z;
  fs_inv : F → refs → option Z → Prop;
  scratch : Z → Prop;
  inv_nonnull : ∀ s h k ip, fs_inv s h k → ip ∈ h → ip ≠ 0;
  inv_inj : ∀ s h k p q, fs_inv s h k → p ∈ h → q ∈ h → fid s p = fid s q → p = q;
  law_fs : ∀ s h k ip, fs_inv s h k → ip ∈ h → ip_fs ip s = Done (fsof (fid s ip), s);
  law_mode : ∀ s h k ip, fs_inv s h k → ip ∈ h →
    ∃ m, ip_mode ip s = Done (m, s) ∧ S_ISDIR m = isdir (fid s ip);
  law_sz : ∀ s h k ip, fs_inv s h k → ip ∈ h → ∃ z, ip_sz ip s = Done (z, s);
  law_lock : ∀ s h ip, fs_inv s h None → ip ∈ h →
    ∃ s', ip_lock ip s = Done (tt, s') ∧ fs_inv s' h (Some ip) ∧
      (∀ p, p ∈ h → fid s' p = fid s p) ∧ kmem s' = kmem s;
  law_unlock : ∀ s h ip, fs_inv s h (Some ip) → ip ∈ h →
    ∃ s', ip_unlock ip s = Done (tt, s') ∧ fs_inv s' h None ∧
      (∀ p, p ∈ h → fid s' p = fid s p) ∧ kmem s' = kmem s;
  law_dup : ∀ s h ip, fs_inv s h None → ip ∈ h →
    ∃ s', ip_dup ip s = Done (ip, s') ∧ fs_inv s' ({[+ ip +]} ⊎ h) None ∧
      (∀ p, p ∈ h → fid s' p = fid s p) ∧ kmem s' = kmem s;
  law_free : ∀ s h ip, fs_inv s ({[+ ip +]} ⊎ h) None →
    ∃ s', ip_free ip s = Done (tt, s') ∧ fs_inv s' h None ∧
      (∀ p, p ∈ h → fid s' p = fid s p) ∧ kmem s' = kmem s;
  law_lookup : ∀ s h dir name e,
    fs_inv s h (Some dir) → dir ∈ h → isdir (fid s dir) = true →
    cstr (kmem s) name e → (length e < 35)%nat →
    ∃ ip s', fs_Lookup (fsof (fid s dir)) dir name s = Done (ip, s') ∧
      (∀ p, p ∈ h → fid s' p = fid s p) ∧ kmem s' = kmem s ∧
      match child (fid s dir) e with
      | None => ip = 0 ∧ fs_inv s' h (Some dir)
      | Some f => ip ≠ 0 ∧ fid s' ip = f ∧ fs_inv s' ({[+ ip +]} ⊎ h) (Some dir)
      end;
  law_mem : ∀ s h k m, fs_inv s h k → (∀ x, m x ≠ kmem s x → scratch x) →
    fs_inv (set_kmem m s) h k ∧ kmem (set_kmem m s) = m ∧ ∀ p, fid (set_kmem m s) p = fid s p;
}.

Section laws.
Context {F : Type} `{FsLaws F}.
Context (fuel : nat) (new_file : gmap Z file → Z) (cwd : Z) (s_dev a_name : Z).
Implicit Types (s : vst F) (w : F) (h : refs).

(** The file a mount point puts in the place of [f]. *)
Fixpoint mount_over (fidf : Z → Z) (l : list MountPoint) (f : Z) : Z :=
  match l with
  | [] => f
  | mp :: l => if negb (origin mp =? 0) && (fidf (origin mp) =? f) then fidf (target mp)
               else mount_over fidf l f
  end.
(** The mount table holds references to the inodes it names. *)
Definition mounts_held (l : list MountPoint) (h : refs) : Prop :=
  Forall (λ mp, origin mp = 0 ∨ origin mp ∈ h ∧ target mp ∈ h) l.

(** Reference resolution of the elements of a path from the file [f]; with
    [parent] it stops at the directory that holds the last element. *)
Fixpoint walk (parent : bool) (conv : Z → Z) (f : Z) (es : list (list Z)) : option Z :=
  match es with
  | [] => if parent then None else Some f
  | e :: es =>
      if isdir f then
        if parent && match es with [] => true | _ => false end then Some f
        else match child f e with Some g => walk parent conv (conv g) es | None => None end
      else None
  end.

Definition wv w s : vst F := VS (files s) (mount_points_ s) (root_ s) w.
Lemma on_fs_run {A : Type} (c : M F A) s w w' (a : A) : c w = Done (a, w') → on_fs c (wv w s) = Done (a, wv w' s).
Proof. intros E. unfold on_fs. cbn. by rewrite E. Qed.

(** Run the next bind: a call of the file systems that [E] describes, or a step
    that computes. *)
Local Ltac run_fs E := erewrite M_bind_Done by (apply on_fs_run, E).
Local Ltac run_step := erewrite M_bind_Done by reflexivity.

Lemma on_fs_run_s {A : Type} (c : M F A) s w' (a : A) : c (vw s) = Done (a, w') → on_fs c s = Done (a, wv w' s).
Proof. intros E. unfold on_fs. by rewrite E. Qed.

Lemma mount_over_ext g1 g2 l h f :
  mounts_held l h → (∀ p, p ∈ h → g1 p = g2 p) → mount_over g1 l f = mount_over g2 l f.
Proof.
  intros Hl Hg. induction Hl as [|mp l Hmp _ IH]; [done|]. cbn.
  destruct (Z.eqb_spec (origin mp) 0) as [|]; [done|]. cbn.
  destruct Hmp as [|[Ho Ht]]; [done|]. rewrite (Hg _ Ho), (Hg _ Ht), IH. done.
Qed.

Lemma find_mount_ok w l h ip :
  fs_inv w ({[+ ip +]} ⊎ h) None → mounts_held l h →
  match find_mount l ip with
  | Some mp => target mp ∈ h ∧ mount_over (fid w) l (fid w ip) = fid w (target mp)
  | None => mount_over (fid w) l (fid w ip) = fid w ip
  end.
Proof.
  intros Hi Hl. induction Hl as [|mp l Hmp _ IH]; cbn; [done|].
  pose proof (inv_nonnull _ _ _ ip Hi ltac:(multiset_solver)) as Hn.
  destruct (Z.eqb_spec (origin mp) ip) as [E|E].
  - rewrite E. rewrite (proj2 (Z.eqb_neq ip 0) Hn), Z.eqb_refl. cbn.
    destruct Hmp as [|[_ ?]]; [congruence|done].
  - destruct (Z.eqb_spec (origin mp) 0) as [|E0]; [done|]. cbn.
    destruct (Z.eqb_spec (fid w (origin mp)) (fid w ip)) as [E2|]; [|done].
    destruct Hmp as [|[Ho _]]; [done|].
    destruct E. eapply (inv_inj _ _ _ _ _ Hi); [multiset_solver..|done].
Qed.

Lemma walk_ext parent conv1 conv2 f es :
  (∀ g, conv1 g = conv2 g) → walk parent conv1 f es = walk parent conv2 f es.
Proof.
  intros Hc. revert f. induction es as [|e es IH]; intros f; cbn; [done|].
  destruct (isdir f); [|done]. destruct (parent && _); [done|].
  destruct (child f e); [by rewrite Hc, IH|done].
Qed.

Lemma ConvertInodeByMp_ok w s h ip :
  fs_inv w ({[+ ip +]} ⊎ h) None → mounts_held (mount_points_ s) h →
  ∃ ip' w', ConvertInodeByMp ip (wv w s) = Done (ip', wv w' s) ∧ fs_inv w' ({[+ ip' +]} ⊎ h) None ∧
    fid w' ip' = mount_over (fid w) (mount_points_ s) (fid w ip) ∧
    (∀ p, p ∈ h → fid w' p = fid w p) ∧ kmem w' = kmem w.
Proof.
  intros Hi Hl. pose proof (find_mount_ok w (mount_points_ s) h ip Hi Hl) as Hm.
  unfold ConvertInodeByMp. run_step. cbn [wv mount_points_].
  destruct (find_mount (mount_points_ s) ip) as [mp|].
  - destruct Hm as [Ht ->].
    destruct (law_free w h ip Hi) as (w1 & E1 & I1 & F1 & K1).
    destruct (law_dup w1 h _ I1 Ht) as (w2 & E2 & I2 & F2 & K2).
    exists (target mp), w2.
    run_fs E1. rewrite (on_fs_run _ _ _ _ _ E2).
    split_and!; [done..| | |congruence].
    + by rewrite F2, F1.
    + intros p Hp. by rewrite F2, F1.
  - exists ip, w. by rewrite Hm.
Qed.

Lemma elements_length l : (length (elements l) ≤ length l)%nat.
Proof.
  assert (∀ cur, (length (elements_from l cur) ≤ length l + match cur with [] => 0 | _ => 1 end)%nat) as Hg.
  { induction l as [|c l IH]; intros cur; cbn [elements_from length].
    - destruct cur; cbn; lia.
    - destruct (c =? 47).
      + pose proof (IH []). destruct cur; cbn in *; lia.
      + pose proof (IH (cur ++ [c])). destruct cur; cbn in *; lia. }
  pose proof (Hg []) as Hi. cbn in Hi. unfold elements. lia.
Qed.

(** ** Resolution of paths *)

Definition result_ok (parent : bool) (w' : F) h (r : Z) (res : option Z) (name : Z) (es : list (list Z)) : Prop :=
  match res with
  | None => r = 0 ∧ fs_inv w' h None
  | Some f => r ≠ 0 ∧ fid w' r = f ∧ fs_inv w' ({[+ r +]} ⊎ h) None ∧
      (parent = true → ∃ e, last es = Some e ∧ cstr (kmem w') name e)
  end.

Lemma skip_element_run w s path name p m :
  SkipElememt fuel (kmem w) path name = Done (p, m) →
  skip_element fuel path name (wv w s) = Done (p, wv (set_kmem m w) s).
Proof. intros E. unfold skip_element. cbn. by rewrite E. Qed.

(** One turn of the loop with the element [e] in [name] and a directory that
    is to be searched: the inode it goes on with, or none. *)
Definition search_turn (ip name fs : Z) : M (vst F) (option Z) :=
  next ← on_fs (fs_Lookup fs ip name);
  if next =? 0 then on_fs (ip_unlock ip);; on_fs (ip_free ip);; mret None
  else
    on_fs (ip_unlock ip);; on_fs (ip_free ip);; ip ← ConvertInodeByMp next; mret (Some ip).

Lemma search_turn_bind (k : Z → M (vst F) Z) ip name fs st :
  (next ← on_fs (fs_Lookup fs ip name);
   if next =? 0 then on_fs (ip_unlock ip);; on_fs (ip_free ip);; mret 0
   else on_fs (ip_unlock ip);; on_fs (ip_free ip);; ip ← ConvertInodeByMp next; k ip) st
  = (r ← search_turn ip name fs; match r with None => mret 0 | Some ip => k ip end) st.
Proof.
  unfold search_turn. unfold mbind, M_bind, mret, M_ret.
  repeat (case_match; simplify_eq/=; try done).
Qed.

Lemma search_turn_ok w s h ip name e :
  fs_inv w ({[+ ip +]} ⊎ h) (Some ip) → isdir (fid w ip) = true → mounts_held (mount_points_ s) h →
  cstr (kmem w) name e → (length e < 35)%nat →
  ∃ r w', search_turn ip name (fsof (fid w ip)) (wv w s) = Done (r, wv w' s) ∧
    (∀ p, p ∈ h → fid w' p = fid w p) ∧ kmem w' = kmem w ∧
    match child (fid w ip) e with
    | None => r = None ∧ fs_inv w' h None
    | Some g => ∃ ip', r = Some ip' ∧ fid w' ip' = mount_over (fid w) (mount_points_ s) g ∧
        fs_inv w' ({[+ ip' +]} ⊎ h) None
    end.
Proof.
  intros Hi Hd Hm He Hl.
  destruct (law_lookup w _ ip name e Hi ltac:(multiset_solver) Hd He Hl) as (next & w1 & E1 & F1 & K1 & R1).
  unfold search_turn. run_fs E1. destruct (child (fid w ip) e) as [g|].
  - destruct R1 as (Hn & Hg & I1). apply Z.eqb_neq in Hn as ->.
    destruct (law_unlock w1 _ ip I1 ltac:(multiset_solver)) as (w2 & E2 & I2 & F2 & K2).
    run_fs E2.
    destruct (law_free w2 ({[+ next +]} ⊎ h) ip) as (w3 & E3 & I3 & F3 & K3).
    { by replace ({[+ ip +]} ⊎ ({[+ next +]} ⊎ h)) with ({[+ next +]} ⊎ ({[+ ip +]} ⊎ h)) by multiset_solver. }
    run_fs E3.
    destruct (ConvertInodeByMp_ok w3 s h next I3 Hm) as (ip' & w4 & E4 & I4 & G4 & F4 & K4).
    erewrite M_bind_Done by exact E4.
    assert (∀ p, p ∈ h → fid w3 p = fid w p) as F13.
    { intros p Hp. rewrite F3, F2, F1 by multiset_solver. done. }
    exists (Some ip'), w4. split_and!; [done| |congruence|].
    + intros p Hp. rewrite F4, F13 by done. done.
    + exists ip'. split_and!; [done| |done]. rewrite G4, F3, F2, Hg by multiset_solver.
      by apply (mount_over_ext _ _ _ h).
  - destruct R1 as (-> & I1). cbn [Z.eqb].
    destruct (law_unlock w1 _ ip I1 ltac:(multiset_solver)) as (w2 & E2 & I2 & F2 & K2).
    run_fs E2. destruct (law_free w2 h ip I2) as (w3 & E3 & I3 & F3 & K3).
    run_fs E3. exists None, w3. split_and!; [done| |congruence|done..].
    intros p Hp. rewrite F3, F2, F1 by multiset_solver. done.
Qed.

Lemma namex_loop_ok parent name s h (conv : Z → Z) n : ∀ w ip path l,
  (length (elements l) < n)%nat → Forall (λ e, (length e < 35)%nat) (elements l) →
  cstr (kmem w) path l → (length l < fuel)%nat → Z.of_nat (length l) < 2 ^ 31 → 0 < path →
  name + kMaxFileName ≤ path ∨ path + Z.of_nat (length l) + 1 ≤ name →
  (∀ x, name ≤ x < name + kMaxFileName → scratch x) →
  fs_inv w ({[+ ip +]} ⊎ h) None → mounts_held (mount_points_ s) h →
  (∀ f, mount_over (fid w) (mount_points_ s) f = conv f) →
  ∃ r w', namex_loop fuel n (fsof (fid w ip)) ip path parent name (wv w s) = Done (r, wv w' s) ∧
    (∀ p, p ∈ h → fid w' p = fid w p) ∧
    (∀ x, ¬ (name ≤ x < name + kMaxFileName) → kmem w' x = kmem w x) ∧
    result_ok parent w' h r (walk parent conv (fid w ip) (elements l)) name (elements l).
Proof.
  induction n as [|n IH]; intros w ip path l Hn Hs Hl Hf Hlen Hp Hd Hscr Hi Hm Hc; [lia|].
  pose proof (SkipElememt_ok fuel (kmem w) path name l Hl Hf Hlen Hp Hd) as Hk.
  assert (ip ≠ 0) as Hip by (eapply (inv_nonnull _ _ _ ip Hi); multiset_solver).
  cbn [namex_loop]. destruct (elements l) as [|e es] eqn:Ees.
  - erewrite M_bind_Done by (apply skip_element_run, Hk). rewrite Z.eqb_refl.
    destruct (law_mem w _ _ (kmem w) Hi ltac:(done)) as (I1 & K1 & F1). rewrite <- F1.
    destruct parent; cbn [walk result_ok].
    + destruct (law_free _ h ip I1) as (w2 & E2 & I2 & F2 & K2). run_fs E2.
      exists 0, w2. split; [done|]. split; [intros p Hp'; by rewrite F2|].
      split; [intros x _; by rewrite K2, K1|done].
    + exists ip, (set_kmem (kmem w) w). split; [done|]. split; [done|].
      split; [intros x _; by rewrite K1|]. rewrite F1. done.
  - destruct Hk as (p' & m' & l' & E & Hl' & Hes & Hnil & Hp' & Hlen' & Hout & HFe & Hnm).
    erewrite M_bind_Done by (apply skip_element_run, E).
    apply Forall_cons in Hs as [He Hs]. unfold named in Hnm. rewrite decide_True in Hnm by done.
    destruct (law_mem w _ _ m' Hi) as (I1 & K1 & F1).
    { intros x Hx. apply Hscr. destruct (decide (name ≤ x < name + kMaxFileName)); [done|]. by destruct Hx; apply Hout. }
    set (w1 := set_kmem m' w) in *.
    rewrite (proj2 (Z.eqb_neq p' 0)) by lia.
    destruct (law_lock w1 _ ip I1 ltac:(multiset_solver)) as (w2 & E2 & I2 & F2 & K2). run_fs E2.
    destruct (law_mode w2 _ _ ip I2 ltac:(multiset_solver)) as (mode & E3 & Hmode). run_fs E3.
    rewrite Hmode.
    assert (fid w2 ip = fid w ip) as Hfid by (rewrite F2, F1 by multiset_solver; done). rewrite Hfid.
    assert (∀ p, p ∈ h → fid w2 p = fid w p) as F12 by (intros p ?; rewrite F2, F1 by multiset_solver; done).
    cbn [walk]. destruct (isdir (fid w ip)) eqn:Hdir; cbn [negb].
    2: { destruct (law_unlock w2 _ ip I2 ltac:(multiset_solver)) as (w3 & E3' & I3 & F3 & K3). run_fs E3'.
      destruct (law_free w3 h ip I3) as (w4 & E4 & I4 & F4 & K4). run_fs E4.
      exists 0, w4. split; [done|]. split; [intros p ?; rewrite F4, F3, F12 by multiset_solver; done|].
      split; [|done]. intros x Hx. rewrite K4, K3, K2, K1. by apply Hout. }
    run_step. cbn [wv vw]. rewrite K2, K1.
    destruct (parent && (m' p' =? 0)) eqn:Epar.
    + apply andb_true_iff in Epar as [-> Ez]. apply Z.eqb_eq, Hnil in Ez as ->. cbn [andb].
      destruct (law_unlock w2 _ ip I2 ltac:(multiset_solver)) as (w3 & E3' & I3 & F3 & K3). run_fs E3'.
      exists ip, w3. split; [done|]. split; [intros p ?; rewrite F3, F12 by multiset_solver; done|].
      split; [intros x Hx; rewrite K3, K2, K1; by apply Hout|].
      split; [done|]. split; [rewrite F3, Hfid by multiset_solver; done|]. split; [done|].
      intros _. exists e. split; [done|]. by rewrite K3, K2, K1.
    + replace (parent && match es with [] => true | _ => false end) with false.
      2: { symmetry. destruct parent; [|done]. cbn in Epar |- *. apply Z.eqb_neq in Epar.
        destruct es; [|done]. tauto. }
      rewrite search_turn_bind.
      destruct (search_turn_ok w2 s h ip name e I2) as (r & w3 & E3' & F3 & K3 & R3);
        [congruence|done|by rewrite K2, K1|done|].
      rewrite Hfid in E3', R3. erewrite M_bind_Done by exact E3'.
      assert (∀ p, p ∈ h → fid w3 p = fid w p) as F13 by (intros p ?; rewrite F3, F12 by done; done).
      assert (∀ x, ¬ (name ≤ x < name + kMaxFileName) → kmem w3 x = kmem w x) as K13.
      { intros x Hx. rewrite K3, K2, K1. by apply Hout. }
      destruct (child (fid w ip) e) as [g|].
      2: { destruct R3 as [-> I3]. by exists 0, w3. }
      destruct R3 as (ip' & -> & Hg & I3).
      assert (mount_over (fid w2) (mount_points_ s) g = conv g) as Hcv.
      { rewrite <- Hc. apply (mount_over_ext _ _ _ h); done. }
      erewrite M_bind_Done by (apply on_fs_run, (law_fs w3 _ _ ip' I3); multiset_solver).
      edestruct (IH w3 ip' p' l') as (r & w4 & E4 & F4 & K4 & R4); rewrite ?Hes; try done; try lia.
      * cbn in Hn. lia.
      * by rewrite K3, K2, K1.
      * intros f. rewrite <- Hc. by apply (mount_over_ext _ _ _ h).
      * exists r, w4. split; [done|]. split; [intros p ?; rewrite F4, F13 by done; done|].
        split; [intros x Hx; rewrite K4, K13 by done; done|].
        rewrite Hes, Hg, Hcv in R4. unfold result_ok in *. destruct (walk parent conv (conv g) es); [|done].
        destruct R4 as (? & ? & ? & Hl4). split_and!; [done..|]. intros Hpar. destruct (Hl4 Hpar) as (e' & He' & ?).
        exists e'. split; [|done]. destruct es; [done|exact He'].
Qed.

(** A string that the path loops can read: [path] points to it, it ends before
    the bound, and the array [name] lies elsewhere in scratch memory. *)
Definition readable_path (m : mem) (path name : Z) (l : list Z) : Prop :=
  cstr m path l ∧ (length l < fuel)%nat ∧ Z.of_nat (length l) < 2 ^ 31 ∧ 0 < path ∧
  (name + kMaxFileName ≤ path ∨ path + Z.of_nat (length l) + 1 ≤ name) ∧
  (∀ x, name ≤ x < name + kMaxFileName → scratch x) ∧
  Forall (λ e, (length e < 35)%nat) (elements l).

Lemma namex_ok parent name s h ip path l :
  readable_path (kmem (vw s)) path name l →
  fs_inv (vw s) ({[+ ip +]} ⊎ h) None → mounts_held (mount_points_ s) h →
  ∃ r w', namex fuel ip path parent name s = Done (r, wv w' s) ∧
    (∀ p, p ∈ h → fid w' p = fid (vw s) p) ∧
    (∀ x, ¬ (name ≤ x < name + kMaxFileName) → kmem w' x = kmem (vw s) x) ∧
    result_ok parent w' h r
      (walk parent (mount_over (fid (vw s)) (mount_points_ s)) (fid (vw s) ip) (elements l)) name (elements l).
Proof.
  intros (Hl & Hf & Hlen & Hp & Hd & Hscr & Hs) Hi Hm.
  pose proof (law_fs _ _ _ ip Hi ltac:(multiset_solver)) as E.
  unfold namex. erewrite M_bind_Done by (apply on_fs_run_s, E).
  apply namex_loop_ok; try done. pose proof (elements_length l). lia.
Qed.

(** Claim C4: [namei] started at a held directory resolves a path the way the
    reference [walk] does over the files of the mounted file systems, crossing
    mount points, and [nameiparent] ends at the directory that holds the last
    element, whose name it stores; the start reference is given up, the result
    carries one, no lock stays held, every other reference and all memory but
    [name] is as before; when an element is missing or not a directory the
    result is null. *)
Theorem namex_resolves_path (parent : bool) (name : Z) s h (ip path : Z) (l : list Z) :
  readable_path (kmem (vw s)) path (if parent then name else a_name) l →
  fs_inv (vw s) ({[+ ip +]} ⊎ h) None → mounts_held (mount_points_ s) h →
  ∃ r w',
    (if parent then nameiparent fuel ip path name s else namei fuel cwd a_name ip path s)
      = Done (r, VS (files s) (mount_points_ s) (root_ s) w') ∧
    (∀ p, p ∈ h → fid w' p = fid (vw s) p) ∧
    (∀ x, let b := if parent then name else a_name in
          ¬ (b ≤ x < b + kMaxFileName) → kmem w' x = kmem (vw s) x) ∧
    result_ok parent w' h r
      (walk parent (mount_over (fid (vw s)) (mount_points_ s)) (fid (vw s) ip) (elements l))
      (if parent then name else a_name) (elements l).
Proof.
  intros Hl Hi Hm.
  pose proof (inv_nonnull _ _ _ ip Hi ltac:(multiset_solver)) as Hn.
  destruct (namex_ok parent (if parent then name else a_name) s h ip path l Hl Hi Hm) as (r & w' & E & HF & HK & HR).
  exists r, w'. split; [|done]. destruct parent; [exact E|].
  unfold namei. rewrite (proj2 (Z.eqb_neq ip 0) Hn). by run_step.
Qed.

(** ** Open files *)

(** The inode a path is resolved from. *)
Definition start_inode s (dir path : Z) : Z :=
  if dir =? 0 then (if kmem (vw s) path =? 47 then root_ s else cwd)
  else match files s !! dir with Some f => f_inode f | None => 0 end.

Definition opened (isz mode ip flags : Z) : file := {|
  f_size := isz; f_ref := 1;
  f_readable := negb (flag flags O_WRONLY);
  f_writable := flag flags O_WRONLY || flag flags O_RDWR;
  f_type := FD_INODE; f_pipe := 0; f_inode := ip;
  f_offset := if flag flags O_APPEND || flag flags O_TRUNC then isz else 0;
  f_mode := mode |}.

Lemma openat_ok s h (dir path flags mode : Z) (l : list Z) :
  flag flags O_CREATE = false →
  readable_path (kmem (vw s)) path a_name l →
  fs_inv (vw s) h None → mounts_held (mount_points_ s) h →
  start_inode s dir path ∈ h → (dir ≠ 0 → is_Some (files s !! dir)) →
  ∃ fp fs' w', openat fuel new_file cwd a_name dir path flags mode s
      = Done (fp, VS fs' (mount_points_ s) (root_ s) w') ∧
    (∀ p, p ∈ h → fid w' p = fid (vw s) p) ∧
    match walk false (mount_over (fid (vw s)) (mount_points_ s)) (fid (vw s) (start_inode s dir path)) (elements l) with
    | None => fp = 0 ∧ fs' = files s ∧ fs_inv w' h None
    | Some f => fp = new_file (files s) ∧ ∃ ip isz m,
        fid w' ip = f ∧ fs_inv w' ({[+ ip +]} ⊎ h) None ∧ ip_sz ip w' = Done (isz, w') ∧
        ip_mode ip w' = Done (m, w') ∧ fs' = <[fp := opened isz m ip flags]> (files s)
    end.
Proof.
  intros Hc Hl Hi Hm Hst Hdir.
  destruct (law_dup _ _ _ Hi Hst) as (w1 & E1 & I1 & F1 & K1).
  pose proof (inv_nonnull _ _ _ _ Hi Hst) as Hn.
  assert (openat fuel new_file cwd a_name dir path flags mode s =
    (ip ← namei fuel cwd a_name (start_inode s dir path) path; if ip =? 0 then mret 0 else open_file new_file ip flags) (wv w1 s)) as ->.
  { unfold openat. run_step. rewrite Hc. unfold start_inode in *. destruct (Z.eqb_spec dir 0) as [->|Hd]; cbn [negb].
    - destruct (kmem (vw s) path =? 47); erewrite M_bind_Done by
        ((erewrite M_bind_Done by reflexivity; apply on_fs_run_s; exact E1) || (apply on_fs_run_s; exact E1));
        reflexivity.
    - destruct (Hdir Hd) as [f Ef]. rewrite Ef in *.
      erewrite M_bind_Done; [reflexivity|].
      erewrite M_bind_Done by (unfold fref; rewrite Ef; reflexivity).
      by apply on_fs_run_s. }
  rewrite <- K1 in Hl.
  destruct (namex_ok false a_name (wv w1 s) h _ path l Hl I1 Hm) as (r & w2 & E2 & F2 & K2 & R2).
  unfold namei. rewrite (proj2 (Z.eqb_neq _ 0) Hn).
  erewrite M_bind_Done by (run_step; exact E2).
  cbn [wv vw files root_ mount_points_] in *. rewrite F1 in R2 by done.
  rewrite (walk_ext _ _ (mount_over (fid (vw s)) (mount_points_ s))) in R2
    by (intros g; by apply (mount_over_ext _ _ _ h)).
  assert (∀ p, p ∈ h → fid w2 p = fid (vw s) p) as F12 by (intros p ?; rewrite F2, F1 by done; done).
  destruct (walk _ _ _ _) as [f|].
  - destruct R2 as (Hr & Hf & I2 & _). rewrite (proj2 (Z.eqb_neq r 0) Hr).
    destruct (law_sz w2 _ _ r I2 ltac:(multiset_solver)) as (isz & Esz).
    destruct (law_mode w2 _ _ r I2 ltac:(multiset_solver)) as (m & Em & _).
    unfold open_file. run_step.
    erewrite M_bind_Done by (apply on_fs_run_s, Esz). erewrite M_bind_Done by (apply on_fs_run_s, Em).
    eexists _, _, w2. split; [reflexivity|]. split; [done|]. split; [done|]. by exists r, isz, m.
  - destruct R2 as (-> & I2). by exists 0, (files s), w2.
Qed.

(** Claim C37: [openat] without [O_CREATE] opens the file the reference
    resolution gives from the directory, the root or the working directory: a
    new [struct file] with one reference, the access bits of the flags, the
    size and mode of its inode, and offset 0, or, for [O_APPEND] and also for
    [O_TRUNC], which truncates nothing, the size; when there is no such file it
    returns null and opens nothing, and either way no inode reference is lost
    or left over. *)
Theorem openat_opens_path s h (dir path flags mode : Z) (l : list Z) :
  flag flags O_CREATE = false →
  readable_path (kmem (vw s)) path a_name l →
  fs_inv (vw s) h None → mounts_held (mount_points_ s) h →
  start_inode s dir path ∈ h → (dir ≠ 0 → is_Some (files s !! dir)) →
  ∃ fp fs' w', openat fuel new_file cwd a_name dir path flags mode s
      = Done (fp, VS fs' (mount_points_ s) (root_ s) w') ∧
    (∀ p, p ∈ h → fid w' p = fid (vw s) p) ∧
    match walk false (mount_over (fid (vw s)) (mount_points_ s)) (fid (vw s) (start_inode s dir path)) (elements l) with
    | None => fp = 0 ∧ fs' = files s ∧ fs_inv w' h None
    | Some f => fp = new_file (files s) ∧ ∃ ip isz m,
        fid w' ip = f ∧ fs_inv w' ({[+ ip +]} ⊎ h) None ∧ ip_sz ip w' = Done (isz, w') ∧
        ip_mode ip w' = Done (m, w') ∧ fs' = <[fp := opened isz m ip flags]> (files s)
    end.
Proof. apply openat_ok. Qed.

(** ** The table of open files *)

Definition inode_ref (f : file) : refs := match f_type f with FD_INODE => {[+ f_inode f +]} | _ => ∅ end.
Definition inode_refs (m : gmap Z file) : refs := map_fold (λ _ f acc, inode_ref f ⊎ acc) ∅ m.

Lemma inode_refs_insert m fp f : m !! fp = None → inode_refs (<[fp := f]> m) = inode_ref f ⊎ inode_refs m.
Proof. intros Hn. unfold inode_refs. rewrite map_fold_insert_L; [done| |done]. intros. multiset_solver. Qed.
Lemma inode_refs_delete m fp f : m !! fp = Some f → inode_refs m = inode_ref f ⊎ inode_refs (delete fp m).
Proof.
  intros Hf. rewrite <- (inode_refs_insert (delete fp m) fp f) by apply lookup_delete_eq.
  by rewrite insert_delete_id.
Qed.
Lemma inode_refs_update m fp f f' :
  m !! fp = Some f → inode_ref f' = inode_ref f → inode_refs (<[fp := f']> m) = inode_refs m.
Proof.
  intros Hf Hr. rewrite (inode_refs_delete (<[fp := f']> m) fp f') by apply lookup_insert_eq.
  by rewrite delete_insert_eq, (inode_refs_delete m fp f), Hr.
Qed.
Lemma inode_refs_elem m fp f : m !! fp = Some f → f_type f = FD_INODE → f_inode f ∈ inode_refs m.
Proof. intros Hf Ht. rewrite (inode_refs_delete m fp f Hf). unfold inode_ref. rewrite Ht. multiset_solver. Qed.

(** The holders of open files form the multiset [T]; [h] are the inode
    references of others: the mount table, the root, the working directory. *)
Record files_ok (h T : refs) (s : vst F) : Prop := {
  fo_inv : fs_inv (vw s) (inode_refs (files s) ⊎ h) None;
  fo_mounts : mounts_held (mount_points_ s) h;
  fo_root : root_ s ∈ h;
  fo_cwd : cwd ∈ h;
  fo_files : ∀ fp f, files s !! fp = Some f →
    fp ≠ 0 ∧ f_type f = FD_INODE ∧ f_ref f = Z.of_nat (multiplicity fp T) ∧ fp ∈ T;
  fo_held : ∀ fp, fp ∈ T → is_Some (files s !! fp);
}.

Inductive fop := OOpen (dir path flags mode : Z) | ODup (fp : Z) | OClose (fp : Z) | ORewind (fp : Z).
Definition run_fop (o : fop) : M (vst F) Z :=
  match o with
  | OOpen dir path flags mode => openat fuel new_file cwd a_name dir path flags mode
  | ODup fp => dup fp
  | OClose fp => close fp;; mret fp
  | ORewind fp => rewind fp
  end.
(** A caller names a file it holds; it opens without [O_CREATE]. *)
Definition allowed s (T : refs) (o : fop) : Prop :=
  match o with
  | OOpen dir path flags _ => flag flags O_CREATE = false ∧ (dir ≠ 0 → dir ∈ T) ∧
      ∃ l, readable_path (kmem (vw s)) path a_name l
  | ODup fp | OClose fp | ORewind fp => fp ∈ T
  end.
Definition holders (o : fop) (r : Z) (T : refs) : refs :=
  match o with
  | OOpen _ _ _ _ => if r =? 0 then T else {[+ r +]} ⊎ T
  | ODup fp => {[+ fp +]} ⊎ T
  | OClose fp => T ∖ {[+ fp +]}
  | ORewind _ => T
  end.

Context (new_file_fresh : ∀ m, m !! new_file m = None ∧ new_file m ≠ 0).

Lemma files_ok_update h T T' s fp f f' :
  files_ok h T s → files s !! fp = Some f → f_type f' = f_type f → f_inode f' = f_inode f →
  f_ref f' = Z.of_nat (multiplicity fp T') → fp ∈ T' → (∀ q, q ≠ fp → multiplicity q T' = multiplicity q T) →
  files_ok h T' (VS (<[fp := f']> (files s)) (mount_points_ s) (root_ s) (vw s)).
Proof.
  intros [Hi Hm Hr Hc Hf Hh] Ef Et Ei Er Hin Hq. split; cbn [wv files mount_points_ root_ vw]; try done.
  - rewrite (inode_refs_update _ fp f f'); [done..|]. unfold inode_ref. by rewrite Et, Ei.
  - intros q g Hg. destruct (decide (q = fp)) as [->|Hne].
    + rewrite lookup_insert_eq in Hg. injection Hg as <-.
      destruct (Hf fp f Ef) as (? & ? & _ & _). split_and!; congruence || done.
    + rewrite lookup_insert_ne in Hg by done. destruct (Hf q g Hg) as (? & ? & ? & Hq').
      split_and!; [done|done| |]; [by rewrite Hq|]. unfold elem_of, gmultiset_elem_of in *. by rewrite Hq.
  - intros q Hq'. destruct (decide (q = fp)) as [->|Hne]; [rewrite lookup_insert_eq; by eexists|].
    rewrite lookup_insert_ne by done. apply Hh. unfold elem_of, gmultiset_elem_of in *. by rewrite <- Hq.
Qed.

Lemma multiplicity_elem (x : Z) (T : refs) : x ∈ T ↔ 0 < Z.of_nat (multiplicity x T).
Proof. unfold elem_of, gmultiset_elem_of. lia. Qed.

Lemma elem_here (x : Z) (T : refs) : x ∈ {[+ x +]} ⊎ T.
Proof. multiset_solver. Qed.
Lemma elem_there (x y : Z) (T : refs) : y ∈ T → y ∈ {[+ x +]} ⊎ T.
Proof. multiset_solver. Qed.

Lemma open_step h T s dir path flags mode :
  files_ok h T s → allowed s T (OOpen dir path flags mode) →
  ∃ r s', run_fop (OOpen dir path flags mode) s = Done (r, s') ∧
    files_ok h (holders (OOpen dir path flags mode) r T) s'.
Proof.
  intros Hok (Hc & Hd & l & Hl). pose proof Hok as [Hi Hm Hr Hcw Hf Hh].
  assert (start_inode s dir path ∈ inode_refs (files s) ⊎ h) as Hst.
  { unfold start_inode. destruct (Z.eqb_spec dir 0) as [|Hd0].
    - destruct (kmem (vw s) path =? 47); multiset_solver.
    - destruct (Hh dir (Hd Hd0)) as [f Ef]. rewrite Ef. destruct (Hf dir f Ef) as (_ & Ht & _).
      pose proof (inode_refs_elem _ _ _ Ef Ht). multiset_solver. }
  assert (mounts_held (mount_points_ s) (inode_refs (files s) ⊎ h)) as Hm'.
  { eapply Forall_impl; [exact Hm|]. cbn. intros mp [?|[? ?]]; [by left|right; multiset_solver]. }
  destruct (openat_ok s _ dir path flags mode l Hc Hl Hi Hm' Hst) as (fp & fs' & w' & E & HF & HR).
  { intros Hd0. apply Hh, Hd, Hd0. }
  exists fp. eexists. split; [exact E|]. cbn [holders].
  destruct (walk _ _ _ _) as [f|].
  - destruct HR as (-> & ip & isz & m & _ & Hi' & _ & _ & ->).
    destruct (new_file_fresh (files s)) as [Hfr Hn0]. rewrite (proj2 (Z.eqb_neq _ 0) Hn0).
    assert (new_file (files s) ∉ T) as Hnot.
    { intros Hin. destruct (Hh _ Hin) as [? E2]. congruence. }
    rewrite multiplicity_elem in Hnot.
    split; cbn [wv files mount_points_ root_ vw]; try done.
    + rewrite inode_refs_insert by done. cbn [inode_ref opened f_type f_inode].
      by rewrite <- (assoc_L (⊎)).
    + intros q g Hg. destruct (decide (q = new_file (files s))) as [->|Hne].
      * rewrite lookup_insert_eq in Hg. injection Hg as <-. split_and!; [done|done| |apply elem_here].
        cbn [opened f_ref]. rewrite multiplicity_disj_union, multiplicity_singleton, decide_True by done. lia. 
      * rewrite lookup_insert_ne in Hg by done. destruct (Hf q g Hg) as (? & ? & ? & ?).
        split_and!; [done|done| |by apply elem_there].
        rewrite multiplicity_disj_union, multiplicity_singleton_ne by done. lia.
    + intros q Hq. destruct (decide (q = new_file (files s))) as [->|Hne]; [rewrite lookup_insert_eq; by eexists|].
      rewrite lookup_insert_ne by done. apply Hh. apply gmultiset_elem_of_disj_union in Hq as [Hq|]; [|done].
      by apply gmultiset_elem_of_singleton in Hq.
  - destruct HR as (-> & -> & Hi'). split; done.
Qed.

Lemma held_file h T s fp : files_ok h T s → fp ∈ T →
  ∃ f, files s !! fp = Some f ∧ f_type f = FD_INODE ∧ f_ref f = Z.of_nat (multiplicity fp T) ∧ 0 < f_ref f.
Proof.
  intros Hok Hin. destruct (fo_held _ _ _ Hok fp Hin) as [f Ef].
  destruct (fo_files _ _ _ Hok fp f Ef) as (_ & ? & Hr & _). exists f. split_and!; try done.
  rewrite Hr. by apply multiplicity_elem.
Qed.

Lemma close_step h T s fp :
  files_ok h T s → fp ∈ T → ∃ s', close fp s = Done (tt, s') ∧ files_ok h (T ∖ {[+ fp +]}) s'.
Proof.
  intros Hok Hin. pose proof Hok as [Hi Hm Hr Hcw Hf Hh].
  destruct (held_file _ _ _ _ Hok Hin) as (f & Ef & Ht & Href & Hpos).
  unfold close. erewrite M_bind_Done by (unfold fref; rewrite Ef; reflexivity).
  rewrite (proj2 (Z.ltb_ge (f_ref f) 1)) by lia. destruct (0 <? f_ref f - 1) eqn:E1; bool_arith.
  - eexists. split; [reflexivity|].
    assert (fp ∈ T ∖ {[+ fp +]}).
    { apply multiplicity_elem. rewrite multiplicity_difference, multiplicity_singleton, decide_True by done. lia. }
    apply (files_ok_update h T _ s fp f); try done.
    + cbn [set_ref f_ref]. rewrite multiplicity_difference, multiplicity_singleton, decide_True by done. lia.
    + intros q Hq. rewrite multiplicity_difference, multiplicity_singleton_ne by done. lia.
  - run_step. run_step. cbn [files mount_points_ root_ vw]. rewrite Ht.
    pose proof (inode_refs_delete _ _ _ Ef) as Hdel. unfold inode_ref in Hdel at 1. rewrite Ht in Hdel.
    rewrite Hdel, <- (assoc_L (⊎)) in Hi.
    destruct (law_free _ _ _ Hi) as (w' & E & I' & _).
    eexists. split; [apply on_fs_run_s; exact E|]. split; cbn [wv files mount_points_ root_ vw]; try done.
    + intros q g Hg. destruct (decide (q = fp)) as [->|Hne]; [by rewrite lookup_delete_eq in Hg|].
      rewrite lookup_delete_ne in Hg by done. destruct (Hf q g Hg) as (? & ? & ? & ?).
      assert (multiplicity q (T ∖ {[+ fp +]}) = multiplicity q T) as Hq.
      { rewrite multiplicity_difference, multiplicity_singleton_ne by done. lia. }
      split_and!; [done|done|by rewrite Hq|]. apply multiplicity_elem. rewrite Hq. by apply multiplicity_elem.
    + intros q Hq. destruct (decide (q = fp)) as [->|Hne].
      * apply multiplicity_elem in Hq. rewrite multiplicity_difference, multiplicity_singleton, decide_True in Hq by done. lia.
      * rewrite lookup_delete_ne by done. apply Hh, multiplicity_elem. apply multiplicity_elem in Hq.
        rewrite multiplicity_difference in Hq. lia.
Qed.

Lemma fop_step h T s o :
  files_ok h T s → allowed s T o →
  ∃ r s', run_fop o s = Done (r, s') ∧ files_ok h (holders o r T) s'.
Proof.
  intros Hok Ha. destruct o as [dir path flags mode|fp|fp|fp]; cbn [allowed] in Ha.
  - by apply open_step.
  - destruct (held_file _ _ _ _ Hok Ha) as (f & Ef & Ht & Href & Hpos).
    cbn [run_fop holders]. unfold dup. erewrite M_bind_Done by (unfold fref; rewrite Ef; reflexivity).
    rewrite (proj2 (Z.ltb_ge (f_ref f) 1)) by lia. eexists _, _. split; [reflexivity|].
    apply (files_ok_update h T _ s fp f); try done; [|apply elem_here|].
    + cbn [set_ref f_ref]. rewrite multiplicity_disj_union, multiplicity_singleton, decide_True by done. lia.
    + intros q Hq. rewrite multiplicity_disj_union, multiplicity_singleton_ne by done. lia.
  - destruct (close_step _ _ _ _ Hok Ha) as (s' & E & Hok'). cbn [run_fop holders].
    eexists _, s'. erewrite M_bind_Done by exact E. done.
  - destruct (held_file _ _ _ _ Hok Ha) as (f & Ef & Ht & Href & Hpos).
    cbn [run_fop holders]. unfold rewind. erewrite M_bind_Done by (unfold fref; rewrite Ef; reflexivity).
    rewrite (proj2 (Z.ltb_ge (f_ref f) 1)) by lia. eexists _, _. split; [reflexivity|].
    by apply (files_ok_update h T T s fp f).
Qed.

(** What a sequence of calls of the holders leads to. *)
Inductive reached (s0 : vst F) (T0 : refs) : vst F → refs → Prop :=
| reached_start : reached s0 T0 s0 T0
| reached_call s T o r s' :
    reached s0 T0 s T → allowed s T o → run_fop o s = Done (r, s') →
    reached s0 T0 s' (holders o r T).

(** Claim C12: for files backed by an inode (no pipe ends), and opens without
    [O_CREATE], which panics when [Create] fails: however the holders open,
    duplicate, close and rewind files they hold, no call panics or blocks; the
    table of open files stays consistent.  [ref] of
    a file is the number of its holders, a file is deleted, and its inode
    reference given back, exactly when the last holder closes it, and the inode
    of every open file stays referenced. *)
Theorem file_table_invariant h T0 s0 s T :
  files_ok h T0 s0 → reached s0 T0 s T →
  files_ok h T s ∧ ∀ o, allowed s T o → ∃ r s', run_fop o s = Done (r, s') ∧ files_ok h (holders o r T) s'.
Proof.
  intros Hs0 Hr. assert (files_ok h T s) as Hok; [|split; [done|intros o Ho; by apply fop_step]].
  induction Hr as [|s T o r s' _ IH Ho E]; [done|].
  destruct (fop_step _ _ _ _ IH Ho) as (r2 & s2 & E2 & Hok). rewrite E in E2. by injection E2 as <- <-.
Qed.
End laws.
