(* ===== verification/DevFsProps.v ===== *)
(** * The device file system as a file system of the VFS

    The operations of DevFs.v are an instance of [FsLayer], and they satisfy
    [FsLaws], so that the theorems of VfsProps.v hold of it. *)
From stdpp Require Import gmultiset.
From S2P Require Import Prelude Mem Buf SList Pipe Fat32 Dirent DevFs Vfs VfsProps.

Section instance_.
Context {W : Type} (this root : Z).
Context (console_read console_write : Z → bool → Z → M (devs W) Z).
Context (dev_read dev_write : Z → Z → Z → M (devs W) Z).
Context (out : bool → Z → list Z → M (devs W) Z) (junk : list Z) (fuel : nat).
Context (pnew : M (devs W) Z) (pread pwrite : Z → Z → Z → M (devs W) Z) (pclose : Z → EndType → M (devs W) unit).

(** [file_system] of the inode selects the operations; here there is only one
    file system, so the argument is not looked at. *)
#[local] Instance devfs_layer : FsLayer (devs W) := {|
  kmem := dmem;
  set_kmem m s := Devs m (dnodes s) (dlists s) (dworld s);
  ip_fs ip := n ← info ip; mret (dn_fs n);
  ip_mode ip := n ← info ip; mret (dn_mode n);
  ip_sz ip := n ← info ip; mret (dn_sz n);
  ip_set_mp_target ip := n ← info ip; set_info ip (dn_set_target n);
  ip_dup := ddup; ip_free := dfree; ip_lock := dlock; ip_unlock := dunlock;
  ip_read := dread console_read dev_read;
  ip_write := dwrite console_write dev_write;
  fs_GetRootInode _ := GetRootInode root;
  fs_Lookup _ := Lookup root fuel;
  fs_Create _ := Create;
  fs_Mkdir _ := Mkdir;
  fs_Unlink _ := Unlink;
  fs_ReadDir _ := DevFs.ReadDir root out junk fuel;
  pipe_new := pnew; pipe_read := pread; pipe_write := pwrite; pipe_close := pclose;
|}.

(** The children of the root and their names. *)
Context (cs : list Z) (nm : Z → list Z).
Context (root_nonnull : root ≠ 0) (root_fresh : root ∉ cs) (cs_nonnull : 0 ∉ cs).
Context (names_ok : ∀ ip, ip ∈ cs → Forall (λ b, 0 < b) (nm ip) ∧ (length (nm ip) < fuel)%nat).
Context (fuel_ok : (length cs < fuel)%nat).

Definition node_ok (s : devs W) (h : gmultiset Z) (k : option Z) (ip : Z) (n : dnode) : Prop :=
  dn_fs n = this ∧ dn_locked n = bool_decide (k = Some ip) ∧ Z.of_nat (multiplicity ip h) ≤ dn_ref n ∧
  S_ISDIR (dn_mode n) = bool_decide (ip = root) ∧ (ip = root → SList.holds (dlists s) (dn_children n) cs).
Record dinv (s : devs W) (h : gmultiset Z) (k : option Z) : Prop := {
  di_nodes : ∀ ip, ip = root ∨ ip ∈ cs → ∃ n, dnodes s !! ip = Some n ∧ node_ok s h k ip n;
  di_held : ∀ ip, ip ∈ h → ip = root ∨ ip ∈ cs;
  di_names : ∀ ip, ip ∈ cs → cstr (dmem s) (name_of ip) (nm ip);
}.

(** The files are the inodes; a name stands for the first child that has it. *)
Definition dchild (f : Z) (e : list Z) : option Z :=
  if decide (f = root) then snd <$> list_find (λ ip, nm ip = e) cs else None.
Definition outside_names (x : Z) : Prop :=
  ∀ ip, ip ∈ cs → ¬ (name_of ip ≤ x < name_of ip + Z.of_nat (length (nm ip)) + 1).

Lemma dinv_get s h k ip : dinv s h k → ip ∈ h → ∃ n, dnodes s !! ip = Some n ∧ node_ok s h k ip n.
Proof. intros Hi Hin. apply (di_nodes _ _ _ Hi), (di_held _ _ _ Hi), Hin. Qed.

(** One inode gets another lock state and reference count. *)
Lemma dinv_update s h k h' k' ip n b r :
  dinv s h k → dnodes s !! ip = Some n → node_ok s h k ip n → (ip = root ∨ ip ∈ cs) →
  (∀ q, q ≠ ip → multiplicity q h' = multiplicity q h) → (∀ q, q ≠ ip → (k' = Some q ↔ k = Some q)) →
  b = bool_decide (k' = Some ip) → Z.of_nat (multiplicity ip h') ≤ r →
  dinv (Devs (dmem s) (<[ip := DNode (dn_children n) (dn_dev n) (dn_inum n) r b (dn_mode n) (dn_fs n)
    (dn_parent n) (dn_sz n) (dn_target n)]> (dnodes s)) (dlists s) (dworld s)) h' k'.
Proof.
  intros [Hn Hh Hnm] En (H1 & H2 & H3 & H4 & H5) Hip Hq Hk Hb Hr. split; cbn; [| |done].
  - intros q Hqc. destruct (decide (q = ip)) as [->|Hne].
    + rewrite lookup_insert_eq. eexists. split; [done|]. by split_and!.
    + rewrite lookup_insert_ne by done. destruct (Hn q Hqc) as (m & Em & G1 & G2 & G3 & G4 & G5).
      exists m. split; [done|]. split_and!; try done; [|by rewrite Hq].
      rewrite G2. apply bool_decide_ext. by rewrite Hk.
  - intros q Hqh. destruct (decide (q = ip)) as [->|Hne]; [done|]. apply Hh.
    unfold elem_of, gmultiset_elem_of in *. by rewrite <- Hq.
Qed.

Implicit Types s : (devs W).

Lemma dlock_run s ip n : dnodes s !! ip = Some n → dn_locked n = false →
  dlock ip s = Done (tt, Devs (dmem s) (<[ip := dn_set_locked true n]> (dnodes s)) (dlists s) (dworld s)).
Proof. intros E Hl. unfold dlock, info. unfold_M. rewrite E, Hl. done. Qed.
Lemma dunlock_run s ip n : dnodes s !! ip = Some n →
  dunlock ip s = Done (tt, Devs (dmem s) (<[ip := dn_set_locked false n]> (dnodes s)) (dlists s) (dworld s)).
Proof. intros E. unfold dunlock, info. unfold_M. rewrite E. done. Qed.

Lemma ddup_run s ip n : dnodes s !! ip = Some n → dn_locked n = false →
  ddup ip s = Done (ip, Devs (dmem s) (<[ip := DNode (dn_children n) (dn_dev n) (dn_inum n) (dn_ref n + 1) false
    (dn_mode n) (dn_fs n) (dn_parent n) (dn_sz n) (dn_target n)]> (dnodes s)) (dlists s) (dworld s)).
Proof.
  intros E Hl. unfold ddup. rewrite (M_bind_Done _ _ _ _ _ (dlock_run s ip n E Hl)).
  erewrite M_bind_Done by (unfold info; cbn; rewrite lookup_insert_eq; reflexivity).
  erewrite M_bind_Done by reflexivity. cbn [dnodes dmem dlists dworld].
  erewrite M_bind_Done by (apply dunlock_run; cbn; apply lookup_insert_eq).
  cbn. by rewrite !insert_insert_eq.
Qed.
Lemma dfree_run s ip n : dnodes s !! ip = Some n → dn_locked n = false → 1 ≤ dn_ref n →
  dfree ip s = Done (tt, Devs (dmem s) (<[ip := DNode (dn_children n) (dn_dev n) (dn_inum n) (dn_ref n - 1) false
    (dn_mode n) (dn_fs n) (dn_parent n) (dn_sz n) (dn_target n)]> (dnodes s)) (dlists s) (dworld s)).
Proof.
  intros E Hl Hr. unfold dfree. rewrite (M_bind_Done _ _ _ _ _ (dlock_run s ip n E Hl)).
  erewrite M_bind_Done by (unfold info; cbn; rewrite lookup_insert_eq; reflexivity).
  cbn [dn_ref dn_set_locked]. rewrite (proj2 (Z.ltb_ge (dn_ref n) 1)) by lia.
  erewrite M_bind_Done by reflexivity. erewrite M_bind_Done by (destruct (dn_ref n - 1 =? 0); reflexivity).
  rewrite (dunlock_run _ _ _ (lookup_insert_eq _ _ _)). cbn. by rewrite !insert_insert_eq.
Qed.

Lemma free_locked k (ip : Z) : k = None → bool_decide (k = Some ip) = false.
Proof. by intros ->. Qed.

Lemma devfs_dup s h k ip :
  dinv s h k → ip = root ∨ ip ∈ cs → k ≠ Some ip →
  ∃ s', ddup ip s = Done (ip, s') ∧ dinv s' ({[+ ip +]} ⊎ h) k ∧ dmem s' = dmem s ∧ dlists s' = dlists s.
Proof.
  intros Hi Hip Hk. destruct (di_nodes _ _ _ Hi ip Hip) as (n & En & Hn). pose proof Hn as (_ & Hl & Hr & _).
  rewrite bool_decide_eq_false_2 in Hl by done.
  eexists. split; [by apply ddup_run|]. split; [|done].
  apply (dinv_update s h k _ _ ip n); try done.
  - intros q Hq. by apply held_singleton.
  - by rewrite bool_decide_eq_false_2.
  - rewrite held_here. lia.
Qed.
Lemma devfs_free s h ip :
  dinv s ({[+ ip +]} ⊎ h) None → ∃ s', dfree ip s = Done (tt, s') ∧ dinv s' h None ∧ dmem s' = dmem s.
Proof.
  intros Hi. destruct (dinv_get _ _ _ ip Hi ltac:(multiset_solver)) as (n & En & Hn).
  pose proof Hn as (_ & Hl & Hr & _). rewrite held_here in Hr. cbn in Hl.
  eexists. split; [apply (dfree_run _ _ n); [done..|lia]|]. split; [|done].
  apply (dinv_update s ({[+ ip +]} ⊎ h) None h None ip n); try done; [|intros q Hq; symmetry; by apply held_singleton|lia].
  apply (di_held _ _ _ Hi). multiset_solver.
Qed.
Lemma devfs_lock s h ip :
  dinv s h None → ip ∈ h → ∃ s', dlock ip s = Done (tt, s') ∧ dinv s' h (Some ip) ∧ dmem s' = dmem s.
Proof.
  intros Hi Hin. destruct (dinv_get _ _ _ ip Hi Hin) as (n & En & Hn). pose proof Hn as (_ & Hl & Hr & _).
  eexists. split; [by apply (dlock_run _ _ n)|]. split; [|done].
  apply (dinv_update s h None h (Some ip) ip n true (dn_ref n)); try done; [by apply (di_held _ _ _ Hi)|naive_solver|].
  by rewrite bool_decide_eq_true_2.
Qed.
Lemma devfs_unlock s h ip :
  dinv s h (Some ip) → ip ∈ h → ∃ s', dunlock ip s = Done (tt, s') ∧ dinv s' h None ∧ dmem s' = dmem s.
Proof.
  intros Hi Hin. destruct (dinv_get _ _ _ ip Hi Hin) as (n & En & Hn). pose proof Hn as (_ & Hl & Hr & _).
  eexists. split; [by apply (dunlock_run _ _ n)|]. split; [|done].
  apply (dinv_update s h (Some ip) h None ip n false (dn_ref n)); try done; [by apply (di_held _ _ _ Hi)|naive_solver].
Qed.

Lemma lex_diff_zero (l1 l2 : list Z) :
  lex_diff l1 l2 = 0 → Forall (λ b, 0 < b) l1 → Forall (λ b, b ≠ 0) l2 → l1 = l2.
Proof.
  revert l2. induction l1 as [|a l1 IH]; intros [|b l2]; cbn; intros E HF HG; try done.
  - inversion HG; lia.
  - inversion HF; lia.
  - inversion HF; inversion HG; subst. destruct (Z.eqb_spec a b) as [->|]; [f_equal; auto|lia].
Qed.

Lemma Lookup_loop_ok s h dir name e l : ∀ n iter,
  dinv s h (Some dir) → dir = root → cstr (dmem s) name e → lchain (lnodes (dlists s)) iter l →
  (length l < n)%nat → (∀ ip, ip ∈ l → ip ∈ cs) →
  ∃ s', Lookup_loop fuel n iter name s = Done (match list_find (λ ip, nm ip = e) l with
      Some (_, ip) => ip | None => 0 end, s') ∧ dmem s' = dmem s ∧
    dinv s' (match list_find (λ ip, nm ip = e) l with Some (_, ip) => {[+ ip +]} ⊎ h | None => h end) (Some dir).
Proof.
  induction l as [|ip l IH]; intros [|n] iter Hi Hdir He Hc Hn Hl; cbn [length] in Hn; try lia; cbn [Lookup_loop].
  - cbn in Hc. subst iter. by exists s.
  - destruct Hc as (Hnz & q & Hq & Hc). rewrite (proj2 (Z.eqb_neq iter 0) Hnz).
    assert (on_lists (deref iter) s = Done (ip, s)) as E1.
    { unfold on_lists, deref, lnode_at. unfold_M. rewrite Hq. by destruct s. }
    rewrite (M_bind_Done _ _ _ _ _ E1).
    assert (ip ∈ cs) as Hip by (apply Hl; left). destruct (names_ok ip Hip) as [Hpos Hlen].
    assert (d_strcmp fuel (name_of ip) name s = Done (lex_diff (nm ip) e, s)) as E2.
    { unfold d_strcmp. rewrite (strcmp_cstr _ _ _ (nm ip) e); [done|by apply (di_names _ _ _ Hi)|done|done]. }
    rewrite (M_bind_Done _ _ _ _ _ E2). cbn [list_find].
    destruct (decide (nm ip = e)) as [Heq|Hne].
    + rewrite (proj2 (Z.eqb_eq _ 0)).
      2: { subst e. apply lex_diff_eq; done. }
      destruct (devfs_dup s h (Some dir) ip Hi) as (s' & E3 & I3 & M3 & _); [by right|congruence|].
      by exists s'.
    + rewrite (proj2 (Z.eqb_neq _ 0)).
      2: { intros E0. apply Hne, lex_diff_zero; [done|done|].
        rewrite <- (app_nil_r e) in He. by apply cstr_app in He as (_ & ? & _). }
      assert (on_lists (advance iter) s = Done (q, s)) as E3.
      { unfold on_lists, advance, lnode_at. unfold_M. rewrite Hq. by destruct s. }
      rewrite (M_bind_Done _ _ _ _ _ E3).
      destruct (IH n q Hi Hdir He Hc ltac:(lia)) as (s' & E4 & H4).
      { intros x Hx. apply Hl. by right. }
      rewrite E4. exists s'. by destruct (list_find (λ ip, nm ip = e) l) as [[? ?]|].
Qed.

Lemma devfs_lookup s h dir name e :
  dinv s h (Some dir) → dir = root → dir ∈ h → cstr (dmem s) name e →
  ∃ s', Lookup root fuel dir name s = Done (default 0 (dchild dir e), s') ∧ dmem s' = dmem s ∧
    dinv s' (match dchild dir e with Some ip => {[+ ip +]} ⊎ h | None => h end) (Some dir).
Proof.
  intros Hi Hdir Hin He. unfold Lookup.
  destruct (di_nodes _ _ _ Hi root (or_introl eq_refl)) as (n & En & _ & _ & _ & _ & Hholds).
  destruct (Hholds eq_refl) as (o & Ho & Hc & _).
  erewrite M_bind_Done by (unfold info; rewrite En; reflexivity).
  assert (on_lists (begin_ (dn_children n)) s = Done (head_next o, s)) as E1.
  { unfold on_lists, begin_, lobj_at. unfold_M. rewrite Ho. by destruct s. }
  rewrite (M_bind_Done _ _ _ _ _ E1).
  destruct (Lookup_loop_ok s h dir name e cs fuel (head_next o) Hi Hdir He Hc fuel_ok) as (s' & E2 & H2); [done|].
  exists s'. unfold dchild. rewrite decide_True by done.
  rewrite E2. destruct (list_find (λ ip, nm ip = e) cs) as [[? ip]|]; done.
Qed.

#[local] Program Instance devfs_laws : FsLaws (devs W) := {|
  isdir f := bool_decide (f = root);
  child := dchild;
  fsof _ := this;
  fid _ ip := ip;
  fs_inv := dinv;
  scratch := outside_names;
|}.
Next Obligation.
  intros s h k ip Hi Hin ->. destruct (di_held _ _ _ Hi 0 Hin); congruence.
Qed.
Next Obligation. done. Qed.
Next Obligation.
  intros s h k ip Hi Hin. destruct (dinv_get _ _ _ ip Hi Hin) as (n & En & Hn & _).
  cbn. unfold info. unfold_M. rewrite En. by rewrite Hn.
Qed.
Next Obligation.
  intros s h k ip Hi Hin. destruct (dinv_get _ _ _ ip Hi Hin) as (n & En & _ & _ & _ & Hm & _).
  exists (dn_mode n). cbn. unfold info. unfold_M. by rewrite En.
Qed.
Next Obligation.
  intros s h k ip Hi Hin. destruct (dinv_get _ _ _ ip Hi Hin) as (n & En & _).
  exists (dn_sz n). cbn. unfold info. unfold_M. by rewrite En.
Qed.
Next Obligation.
  intros s h ip Hi Hin. destruct (devfs_lock s h ip Hi Hin) as (s' & E & I & M). by exists s'.
Qed.
Next Obligation.
  intros s h ip Hi Hin. destruct (devfs_unlock s h ip Hi Hin) as (s' & E & I & M). by exists s'.
Qed.
Next Obligation.
  intros s h ip Hi Hin. destruct (devfs_dup s h None ip Hi) as (s' & E & I & M & _); [by apply (di_held _ _ _ Hi)|done|].
  by exists s'.
Qed.
Next Obligation.
  intros s h ip Hi. destruct (devfs_free s h ip Hi) as (s' & E & I & M). by exists s'.
Qed.
Next Obligation.
  intros s h dir name e Hi Hin Hd He _. cbn in Hd. apply bool_decide_eq_true in Hd.
  destruct (devfs_lookup s h dir name e Hi Hd Hin He) as (s' & E & M & I).
  eexists _, s'. split; [exact E|]. split; [done|]. split; [done|].
  destruct (dchild dir e) as [ip|] eqn:Ec; [|done]. split_and!; [|done..]. cbn. intros ->.
  unfold dchild in Ec. destruct (decide (dir = root)); [|done].
  destruct (list_find (λ ip, nm ip = e) cs) as [[i ip]|] eqn:El; [|done].
  apply list_find_Some in El as (El & _). cbn in Ec. injection Ec as ->. by apply cs_nonnull, (list_elem_of_lookup_2 _ i).
Qed.
Next Obligation.
  intros s h k m [Hn Hh Hnm] Hm. split; [|done]. split; [done|done|]. cbn.
  intros ip Hip. eapply cstr_ext; [|by apply Hnm]. intros x Hx.
  destruct (decide (m x = dmem s x)) as [|Hne]; [done|]. destruct (Hm x Hne ip Hip). lia.
Qed.
End instance_.
