(* ===== verification/VfsWitness.v ===== *)
(** * A concrete device file system for the theorems of VfsProps.v, Dirent.v

    The constructor of the device file system, run on an empty heap with one
    block device "vda"; its result satisfies the invariant the laws need. *)
From stdpp Require Import gmultiset.
From S2P Require Import Prelude Mem Buf SList Pipe Fat32 Dirent DevFs Vfs VfsProps DevFsProps.

(** "vda" at 100, "tty" at 200, the path "//tty" at 300, "nothing/x" at 340. *)
Definition kmem0 : mem := wr_bytes (wr_bytes (wr_bytes (wr_bytes (λ _, 0) 100 [118; 100; 97]) 200 [116; 116; 121])
  300 [47; 47; 116; 116; 121]) 340 [110; 111; 47; 120].
Definition fresh_info (m : gmap Z dnode) : Z := 1000 + 100 * Z.of_nat (size m).
Definition fresh_list (m : gmap Z lobj) : Z := 5000 + Z.of_nat (size m).
Definition fresh_lnode (m : gmap Z lnode) : Z := 6000 + Z.of_nat (size m).
Definition no_io : Z → bool → Z → M (devs unit) Z := λ _ _ n, mret n.
Definition no_dev : Z → Z → Z → M (devs unit) Z := λ _ _ n, mret n.
Definition no_out : bool → Z → list Z → M (devs unit) Z := λ _ a l, set_dmem (λ x, x);; mret 0.
Definition start0 : devs unit := Devs kmem0 ∅ (LHeap ∅ ∅) tt.
Definition boot0 : outcome (unit * devs unit) :=
  DeviceFileSystem 500 1000 fresh_info fresh_list fresh_lnode 0x05050505 20 [0; 100] 200 start0.
Definition dev0 : devs unit := match boot0 with Done (_, s) => s | _ => start0 end.
Definition names0 (ip : Z) : list Z := if ip =? 1100 then [118; 100; 97] else [116; 116; 121].
Definition held0 : gmultiset Z := {[+ 1000; 1000 +]}.

Lemma held0_root : 1000 ∈ held0.
Proof. unfold held0. multiset_solver. Qed.

Lemma boot0_done : match boot0 with Done _ => true | _ => false end = true.
Proof. vm_compute. reflexivity. Qed.

Lemma dev0_inv : dinv 500 1000 [1200; 1100] names0 dev0 held0 None.
Proof.
  split.
  - intros ip Hip. assert (ip = 1000 ∨ ip = 1200 ∨ ip = 1100) as Hc by set_solver.
    destruct Hc as [-> | [-> | ->]]; eexists; (split; [vm_compute; reflexivity|]);
      (split; [vm_compute; reflexivity|]); (split; [vm_compute; reflexivity|]); (split; [vm_compute; discriminate|]);
      (split; [vm_compute; reflexivity|]); intros Hroot; try discriminate Hroot.
    exists (LObj 6001 2). split; [vm_compute; reflexivity|]. split; [|reflexivity].
    split; [discriminate|]. exists 6000. split; [vm_compute; reflexivity|].
    split; [discriminate|]. exists 0. split; [vm_compute; reflexivity|done].
  - intros ip Hip. left. unfold held0 in Hip. multiset_solver.
  - intros ip Hip. assert (ip = 1200 ∨ ip = 1100) as [-> | ->] by set_solver;
      vm_compute; split_and!; done.
Qed.

#[local] Instance layer0 : FsLayer (devs unit) :=
  devfs_layer 1000 no_io no_io no_dev no_dev no_out [] 20 (mret 0) (λ _ _ n, mret n) (λ _ _ n, mret n)
    (λ _ _, mret tt).
Lemma names0_ok ip : ip ∈ [1200; 1100] → Forall (λ b, 0 < b) (names0 ip) ∧ (length (names0 ip) < 20)%nat.
Proof.
  intros Hip. assert (ip = 1200 ∨ ip = 1100) as [-> | ->] by set_solver; (split; [repeat constructor|cbn; lia]).
Qed.
#[local] Instance laws0 : FsLaws (devs unit) :=
  devfs_laws 500 1000 no_io no_io no_dev no_dev no_out [] 20 (mret 0) (λ _ _ n, mret n) (λ _ _ n, mret n)
    (λ _ _, mret tt) [1200; 1100] names0 ltac:(done) ltac:(set_solver) ltac:(set_solver) names0_ok ltac:(cbn; lia).

(** The VFS with this file system at the root and as the working directory. *)
Definition vfs0 : vst (devs unit) :=
  VS ∅ [MkMount (47 :: replicate 63 0) (replicate 64 0) 0 1000 0 500] 1000 dev0.
Definition fresh_file (m : gmap Z file) : Z := fresh (dom m ∪ {[0]}).
Lemma fresh_file_ok m : m !! fresh_file m = None ∧ fresh_file m ≠ 0.
Proof.
  unfold fresh_file. pose proof (is_fresh (dom m ∪ {[0]})) as H. split; [apply not_elem_of_dom|]; set_solver.
Qed.

Lemma mounts0 h : mounts_held (mount_points_ vfs0) h.
Proof. constructor; [by left|constructor]. Qed.

Lemma path0 p name l :
  ((p = 300 ∧ l = [47; 47; 116; 116; 121]) ∨ (p = 340 ∧ l = [110; 111; 47; 120])) →
  name = 400 → readable_path 20 (kmem (vw vfs0)) p name l.
Proof.
  intros Hp ->. assert (∀ x, 400 ≤ x < 400 + kMaxFileName → outside_names [1200; 1100] names0 x) as Hscr.
  { intros x Hx ip Hip. assert (ip = 1200 ∨ ip = 1100) as [-> | ->] by set_solver;
      unfold name_of, VFS_INODE, names0, kMaxFileName in *; cbn; lia. }
  destruct Hp as [[-> ->]|[-> ->]]; (split; [vm_compute; split_and!; done|]);
    (split; [cbn; lia|]); (split; [cbn; lia|]); (split; [lia|]);
    (split; [right; cbn; lia|]); (split; [exact Hscr|]); cbn; repeat constructor; cbn; lia.
Qed.

Lemma vfs0_inv : fs_inv (vw vfs0) held0 None.
Proof. exact dev0_inv. Qed.

Lemma namex_resolves_path_witness :
  ∃ r w', namei 20 1000 400 1000 300 vfs0 = Done (r, VS ∅ (mount_points_ vfs0) 1000 w') ∧
    result_ok false w' {[+ 1000 +]} r (Some 1200) 400 [[116; 116; 121]].
Proof.
  destruct (namex_resolves_path 20 1000 400 false 0 vfs0 {[+ 1000 +]} 1000 300 _
    (path0 300 400 _ (or_introl (conj eq_refl eq_refl)) eq_refl) vfs0_inv (mounts0 _)) as (r & w' & E & _ & _ & R).
  exists r, w'. split; [exact E|exact R].
Defined.

Lemma openat_opens_path_witness :
  ∃ fp fs' w', openat 20 fresh_file 1000 400 0 340 O_RDWR 0 vfs0 = Done (fp, VS fs' (mount_points_ vfs0) 1000 w') ∧
    fp = 0 ∧ fs' = ∅.
Proof.
  destruct (openat_opens_path 20 fresh_file 1000 400 vfs0 held0 0 340 O_RDWR 0 _ eq_refl
    (path0 340 400 _ (or_intror (conj eq_refl eq_refl)) eq_refl) vfs0_inv (mounts0 _)
    held0_root ltac:(done)) as (fp & fs' & w' & E & _ & R).
  exists fp, fs', w'. split; [exact E|]. split; [exact (proj1 R)|exact (proj1 (proj2 R))].
Defined.

Lemma files0_ok : files_ok 1000 held0 ∅ vfs0.
Proof.
  split; try done.
  - cbn [files vfs0]. unfold inode_refs. rewrite map_fold_empty. rewrite (left_id_L ∅ (⊎)). exact vfs0_inv.
  - apply mounts0.
  - exact held0_root.
  - exact held0_root.
  - intros fp Hfp. multiset_solver.
Qed.

(** "//tty" is opened as file 1, duplicated and closed once: one holder is left,
    and its close succeeds too. *)
Abbreviation call0 := (run_fop 20 fresh_file 1000 400).
Definition after0 (o : fop) (s : vst (devs unit)) : vst (devs unit) :=
  match call0 o s with Done (_, s') => s' | _ => s end.
Definition opened0 : vst (devs unit) := after0 (OOpen 0 300 O_RDWR 0) vfs0.
Definition dupped0 : vst (devs unit) := after0 (ODup 1) opened0.
Definition closed0 : vst (devs unit) := after0 (OClose 1) dupped0.

Lemma reached0 : reached 20 fresh_file 1000 400 vfs0 ∅ closed0 (({[+ 1 +]} ⊎ ({[+ 1 +]} ⊎ ∅)) ∖ {[+ 1 +]}).
Proof.
  apply (reached_call _ _ _ _ _ _ dupped0 ({[+ 1 +]} ⊎ ({[+ 1 +]} ⊎ ∅)) (OClose 1) 1);
    [|by apply gmultiset_elem_of_disj_union; left; apply gmultiset_elem_of_singleton|vm_compute; reflexivity].
  apply (reached_call _ _ _ _ _ _ opened0 ({[+ 1 +]} ⊎ ∅) (ODup 1) 1); [|by apply gmultiset_elem_of_disj_union; left; apply gmultiset_elem_of_singleton|vm_compute; reflexivity].
  apply (reached_call _ _ _ _ _ _ vfs0 ∅ (OOpen 0 300 O_RDWR 0) 1); [constructor| |vm_compute; reflexivity].
  split; [reflexivity|]. split; [done|]. eexists. apply (path0 300 400 _ (or_introl (conj eq_refl eq_refl)) eq_refl).
Qed.

Lemma file_table_invariant_witness :
  let T := ({[+ 1 +]} ⊎ ({[+ 1 +]} ⊎ ∅)) ∖ {[+ 1 +]} in
  f_ref <$> files closed0 !! 1 = Some 1 ∧ files_ok 1000 held0 T closed0 ∧
  ∃ r s', call0 (OClose 1) closed0 = Done (r, s') ∧ files_ok 1000 held0 (T ∖ {[+ 1 +]}) s'.
Proof.
  destruct (file_table_invariant 20 fresh_file 1000 400 fresh_file_ok held0 ∅ vfs0 closed0 _ files0_ok reached0) as [H1 H2].
  split; [vm_compute; reflexivity|]. split; [exact H1|]. apply (H2 (OClose 1)).
  change (1 ∈ ({[+ 1 +]} ⊎ ({[+ 1 +]} ⊎ ∅)) ∖ ({[+ 1 +]} : refs)). multiset_solver.
Defined.

Lemma dirents_roundtrip_witness :
  ∃ m1, records m1 1000 [Dent [46] 1 4] ∧
    fill_all (replicate 5 0) (Hdr 1000 40 0 0) [Dent [46] 1 4; Dent [116; 116; 121] 5 8] (λ _, 0) =
    Done ((-1, Hdr 1000 8 32 1000), wr_bytes m1 (1000 + O_D_OFF) (le64 0)).
Proof.
  destruct (dirents_roundtrip (replicate 5 0) (Hdr 1000 40 0 0) [Dent [46] 1 4; Dent [116; 116; 121] 5 8] (λ _, 0))
    as (k & m1 & Hk); try (cbn; lia); try done.
  { repeat constructor; cbn; lia. }
  destruct k as [|[|k]].
  - destruct Hk as (_ & _ & _ & H & _). exfalso. vm_compute in H. discriminate H.
  - destruct Hk as (H1 & _ & _ & _ & H). exists m1. split; [exact H1|exact H].
  - destruct Hk as (_ & H & _). exfalso. destruct k; vm_compute in H; exact (H eq_refl).
Defined.
