(* ===== verification/Fat32Tree.v ===== *)
(** * FAT32 as a file system of the VFS

    The operations of Fat32.v as an instance of [FsLayer], and the proof that
    they satisfy [FsLaws] on a disk whose directories form a tree: the map of
    inodes, the reference counts, the locks and the cursors are kept such that
    [Lookup] finds what the bytes of the directories say.  With it the theorems
    of VfsProps.v hold of paths on a FAT32 disk. *)
From stdpp Require Import gmultiset.
From S2P Require Import Prelude Mem Buf HashMap Pipe Fat32 Fat32Props Fat32Files Fat32Lookup Dirent Fat32Dir Vfs VfsProps.

(** A file is named by the position of its entry on the device; the root
    directory, which has none, by -1. *)
Definition ROOT : Z := -1.
(** A file of the disk: whether it is a directory, its size (-1 for one), its
    clusters, and the directory it is in. *)
Record dfile := DFile { d_dir : bool; d_size : Z; d_cs : list Z; d_parent : Z }.
Definition is_dir_entry (e : list Z) : bool := negb (Z.land (byte e O_ATTRIB) kFatAttrDirentory =? 0).

Section tree.
Context (g : finfo) (dev_ root this : Z) (now : Z) (fuel : nat) (P : Z → Prop).
Context (new_node : gmap Z node → Z) (new_inode : gmap Z minode → Z).
(** [tmp0] is what the local buffer for names held before. *)
Context (tmp0 entry0 name0 junk : list Z).
Abbreviation F := (fat mem).
Abbreviation FM := (M F).
Context (out : bool → Z → Z → list Z → FM Z) (inp : bool → Z → Z → list Z → FM (Z * list Z)).
Context (out_dir : bool → Z → list Z → FM Z).
Context (pnew : FM Z) (pread pwrite : Z → Z → Z → FM Z) (pclose : Z → EndType → FM unit).

(** The buffer of names is a local array, away from the name looked for. *)
Definition a_loc (name : Z) : Z := name + 4096.
#[local] Instance fat_layer : FsLayer F := {|
  kmem := fw;
  set_kmem m s := Fat (fbl s) (fat_cache_ s) (inodes s) (inode_cache_map_ s) (local_ s) m;
  ip_fs ip := MSDOS_I ip;; mret this;
  ip_mode ip := n ← MSDOS_I ip; mret (imode n);
  ip_sz ip := n ← MSDOS_I ip; mret (isz n);
  ip_set_mp_target ip := n ← MSDOS_I ip; set_inode ip (MInode (i_start n) (i_logi n) (i_clus n) (i_attrs n)
    (i_pos n) (idev n) (inum n) (test_name n) (iref n) (ilocked n) (imode n) (iparent n) (inlink n)
    (isz n) true (iatime n) (imtime n) (ictime n));
  ip_dup := inode_dup; ip_free := inode_free new_node fuel; ip_lock := ilock; ip_unlock := iunlock;
  ip_read ip buf off n user := inode_read g dev_ root fuel ip (out user buf) off n;
  ip_write ip buf off n user := inode_write g dev_ root now fuel junk ip (inp user buf) off n;
  fs_GetRootInode _ := GetRootInode root;
  fs_Lookup _ dir name s := Lookup g dev_ root new_node new_inode (a_loc name) fuel dir (fw s) name tmp0 s;
  fs_Create _ dir name mode s := Create g dev_ root now fuel junk dir (fw s) name mode s;
  fs_Mkdir _ dir name mode s :=
    Mkdir g dev_ root new_node new_inode now (a_loc name) fuel junk dir (fw s) name mode tmp0 s;
  fs_Unlink _ dir name s := Unlink g dev_ root new_node now (a_loc name) fuel junk dir (fw s) name tmp0 s;
  fs_ReadDir _ off ip buf n user := Fat32Dir.ReadDir g dev_ root fuel out_dir junk off ip buf n user entry0 name0;
  pipe_new := pnew; pipe_read := pread; pipe_write := pwrite; pipe_close := pclose;
|}.

(** ** The disk

    [D0] is the device, [F0] the cluster table, [dtree] the files. *)
Context (D0 F0 : mem) (dtree : gmap Z dfile) (positions : gset Z).
Definition file_bytes (d : dfile) : list Z :=
  contents (λ c, rd_bytes D0 (bstart g c) (Z.to_nat BSIZE)) (d_cs d).
Definition entries (d : dfile) : option (list item) := listing fuel (file_bytes d) 0 tmp0.
Definition item_pos (d : dfile) (it : item) : Z := position g (d_cs d) (it_end it).

(** The clusters [d_cs d] are the chain from [c]; an empty file may have none. *)
Definition chain_from (c : Z) (d : dfile) : Prop :=
  d_cs d ≠ [] → cchain g (λ c, ld32 F0 (4 * c)) c (d_cs d).
(** The entry [it] of the directory [f] says what the file is. *)
Definition entry_fits (f : Z) (d : dfile) (it : item) : Prop :=
  let p := item_pos d it in let e := it_entry it in
  p ≠ f ∧ p ∈ positions ∧
  ∃ d', dtree !! p = Some d' ∧ d_parent d' = f ∧ d_dir d' = is_dir_entry e ∧
    d_size d' = (if is_dir_entry e then u32 (-1) else word e O_FILE_SIZE) ∧
    chain_from (u32 (i32 (GetStartCluster e))) d'.
Record disk_ok : Prop := {
  dk_root : ∃ d, dtree !! ROOT = Some d ∧ d_parent d = ROOT ∧ d_dir d = true ∧ d_size d = u32 (-1) ∧
    chain_from (root_directory_cluster_start g) d;
  dk_clusters : ∀ f d, dtree !! f = Some d → NoDup (d_cs d) ∧ ∀ c, c ∈ d_cs d → P c;
  dk_dir : ∀ f d, dtree !! f = Some d → d_dir d = true →
    d_cs d ≠ [] ∧ d_size d = u32 (-1) ∧ ∃ l, entries d = Some l ∧ Forall (entry_fits f d) l;
  dk_size : ∀ f d, dtree !! f = Some d → d_dir d = false →
    0 ≤ d_size d < 2 ^ 31 ∧ d_size d ≤ BSIZE * Z.of_nat (length (d_cs d));
  dk_pos : ROOT ∉ positions;
  dk_fuel : (size positions < fuel)%nat;
}.

(** The reference: what a name stands for in a directory. *)
Definition fchild (f : Z) (e : list Z) : option Z :=
  d ← dtree !! f;
  if negb (d_dir d) then None
  else if bool_decide (e `prefix_of` [46]) then Some f
  else if bool_decide (e `prefix_of` [46; 46]) then Some (d_parent d)
  else l ← entries d; item_pos d <$> first_accepted e l.

(** ** The inodes in memory *)

(** [ip] is the inode of the file [f]. *)
Definition live (m : gmap Z Z) (f ip : Z) : Prop :=
  if decide (f = ROOT) then ip = root else m !! f = Some ip.

(** What an inode says of its file. *)
Definition shows (ip f : Z) (n : minode) : Prop :=
  (f = ROOT ↔ ip = root) ∧ (f ≠ ROOT → i_pos n = f) ∧
  ∃ d, dtree !! f = Some d ∧ S_ISDIR (imode n) = d_dir d ∧ isz n = d_size d ∧
    chain_from (start g root ip n) d ∧ 0 ≤ i_logi n < 2 ^ 31 ∧
    (∀ c, d_cs d !! Z.to_nat (i_logi n) = Some c → i_clus n = c).

(** Its count is at least the number of references held, and one more when
    the inode of a file in it names it as its parent, or for the root. *)
Record node_ok (m : gmap Z Z) (h : refs) (k : option Z) (f ip : Z) (n : minode) : Prop := {
  no_shows : shows ip f n;
  no_lock : ilocked n = bool_decide (k = Some ip);
  no_ref : Z.of_nat (multiplicity ip h) ≤ iref n;
  no_kept : f = ROOT ∨ (∃ f' ip' d', m !! f' = Some ip' ∧ dtree !! f' = Some d' ∧ d_parent d' = f) →
    Z.of_nat (multiplicity ip h) + 1 ≤ iref n;
  no_parent : ∀ d, dtree !! f = Some d → live m (d_parent d) (iparent n);
}.
Record inodes_ok (m : gmap Z Z) (h : refs) (k : option Z) (ino : gmap Z minode) : Prop := {
  io_map : ∀ f ip, m !! f = Some ip → ip ≠ 0 ∧ ip ≠ root ∧ f ∈ positions;
  io_node : ∀ f ip, live m f ip → ∃ n, ino !! ip = Some n ∧ node_ok m h k f ip n;
  io_held : ∀ ip, ip ∈ h → ∃ f, live m f ip;
}.
Record finv (s : F) (h : refs) (k : option Z) : Prop := {
  fi_geo : geometry g s;
  fi_coh : coherent dev_ P (fbl s);
  fi_quiet : quiet (fbl s);
  fi_dev : rw_devs (fbl s) dev_ = D0;
  fi_fat : fat_cache_ s = F0;
  fi_ino : ∃ m, stored (inode_cache_map_ s) m ∧ inodes_ok m h k (inodes s);
}.
Definition ffid (s : F) (ip : Z) : Z :=
  if ip =? root then ROOT else match inodes s !! ip with Some n => i_pos n | None => 0 end.

Hypothesis root_nonnull : root ≠ 0.
Hypothesis disk : disk_ok.
Hypothesis fuel_clusters : cluster_count_ g < Z.of_nat fuel.
Hypothesis fuel_name : (35 ≤ fuel)%nat.
Hypothesis new_node_fresh : ∀ hp, new_node hp ≠ 0 ∧ hp !! new_node hp = None.
Hypothesis new_inode_fresh : ∀ ino, new_inode ino ≠ 0 ∧ ino !! new_inode ino = None.
Hypothesis tmp0_len : length tmp0 = 64%nat.

Lemma live_root m : live m ROOT root.
Proof. done. Qed.
Lemma live_inj m h k ino f f' ip : inodes_ok m h k ino → live m f ip → live m f' ip → f = f'.
Proof.
  intros Hi H1 H2. destruct (io_node _ _ _ _ Hi f ip H1) as (n & En & [(Hr & Hp & _) _ _ _ _]).
  destruct (io_node _ _ _ _ Hi f' ip H2) as (n' & En' & [(Hr' & Hp' & _) _ _ _ _]).
  assert (n' = n) as -> by congruence.
  destruct (decide (f = ROOT)) as [->|Hf]; [symmetry; by apply Hr', Hr|].
  rewrite <- Hp by done. apply Hp'. intros ->. apply Hf, Hr. by apply Hr'.
Qed.
Lemma live_fid s m h k f ip : inodes_ok m h k (inodes s) → live m f ip → ffid s ip = f.
Proof.
  intros Hi Hl. destruct (io_node _ _ _ _ Hi f ip Hl) as (n & En & [(Hr & Hp & _) _ _ _ _]). unfold ffid.
  destruct (Z.eqb_spec ip root) as [->|Hne]; [symmetry; by apply Hr|].
  rewrite En. apply Hp. intros ->. apply Hne. by apply Hr.
Qed.
Lemma live_nonnull m h k ino f ip : inodes_ok m h k ino → live m f ip → ip ≠ 0.
Proof.
  intros Hi. unfold live. case_decide; [by intros ->|]. intros Hm. by apply (io_map _ _ _ _ Hi) in Hm as [? _].
Qed.
Lemma map_size m h k ino : inodes_ok m h k ino → (size m < fuel)%nat.
Proof.
  intros Hi. pose proof (dk_fuel disk). assert (size (dom m) ≤ size positions)%nat as Hs.
  { apply subseteq_size. intros f [ip Hf]%elem_of_dom. by apply (io_map _ _ _ _ Hi) in Hf as (_ & _ & ?). }
  rewrite size_dom in Hs. lia.
Qed.

(** ** One inode changes *)
Implicit Types s : F.

Lemma held_live m h k ino ip : inodes_ok m h k ino → ip ∈ h → ∃ f n, live m f ip ∧ ino !! ip = Some n ∧ node_ok m h k f ip n.
Proof.
  intros Hi Hin. destruct (io_held _ _ _ _ Hi ip Hin) as [f Hf]. destruct (io_node _ _ _ _ Hi f ip Hf) as (n & ? & ?).
  by exists f, n.
Qed.

(** Counts may change as long as what the holders do not account for does not
    shrink. *)
Lemma ino_update m h k h' k' ino f ip n n' :
  inodes_ok m h k ino → live m f ip → ino !! ip = Some n → shows ip f n' → iparent n' = iparent n →
  (∀ q, q ≠ ip → multiplicity q h' = multiplicity q h) → (∀ q, q ≠ ip → (k' = Some q ↔ k = Some q)) →
  ilocked n' = bool_decide (k' = Some ip) →
  Z.of_nat (multiplicity ip h') + iref n ≤ Z.of_nat (multiplicity ip h) + iref n' →
  inodes_ok m h' k' (<[ip := n']> ino).
Proof.
  intros Hi Hl En Hs Hp Hq Hk Hb Hr. split; [apply Hi|..].
  - intros f2 ip2 Hl2. destruct (io_node _ _ _ _ Hi f2 ip2 Hl2) as (n2 & En2 & [G1 G2 G3 G4 G5]).
    destruct (decide (ip2 = ip)) as [->|Hne].
    + rewrite lookup_insert_eq. exists n'. split; [done|]. assert (n2 = n) as -> by congruence.
      pose proof (live_inj _ _ _ _ _ _ _ Hi Hl Hl2) as ->. split; [done|done|lia|..].
      * intros Hkept. specialize (G4 Hkept). lia.
      * intros d Hd. rewrite Hp. by apply G5.
    + rewrite lookup_insert_ne by done. exists n2. split; [done|]. split; [done| |by rewrite Hq|by rewrite Hq|done].
      rewrite G2. apply bool_decide_ext. by rewrite Hk.
  - intros q Hqh. destruct (decide (q = ip)) as [->|Hne]; [by exists f|]. apply (io_held _ _ _ _ Hi).
    unfold elem_of, gmultiset_elem_of in *. by rewrite <- Hq.
Qed.

Definition with_inodes (ino : gmap Z minode) (s : F) : F :=
  Fat (fbl s) (fat_cache_ s) ino (inode_cache_map_ s) (local_ s) (fw s).
Lemma finv_with s h k h' k' m ino :
  finv s h k → stored (inode_cache_map_ s) m → inodes_ok m h' k' ino → finv (with_inodes ino s) h' k'.
Proof.
  intros [Hg Hc Hq Hd Hf _] Hm Hno. split; try done; [by destruct Hg; split|by exists m].
Qed.
(** [ip] is the inode of some file. *)
Definition in_use s h k (ip : Z) : Prop :=
  ∃ m f, stored (inode_cache_map_ s) m ∧ inodes_ok m h k (inodes s) ∧ live m f ip.
(** The same for a change of one inode. *)
Lemma finv_update s h k h' k' ip n n' :
  finv s h k → inodes s !! ip = Some n → in_use s h k ip →
  (∀ f, shows ip f n → shows ip f n') → iparent n' = iparent n → i_pos n' = i_pos n →
  (∀ q, q ≠ ip → multiplicity q h' = multiplicity q h) → (∀ q, q ≠ ip → (k' = Some q ↔ k = Some q)) →
  ilocked n' = bool_decide (k' = Some ip) →
  Z.of_nat (multiplicity ip h') + iref n ≤ Z.of_nat (multiplicity ip h) + iref n' →
  finv (with_inodes (<[ip := n']> (inodes s)) s) h' k' ∧
  (∀ q, ffid (with_inodes (<[ip := n']> (inodes s)) s) q = ffid s q).
Proof.
  intros Hi En (m & f & Hst & Hm & Hf) Hs Hp Hpos Hq Hk Hb Hr. split.
  - eapply finv_with; [done..|].
    destruct (io_node _ _ _ _ Hm f ip Hf) as (n2 & En2 & Hno). assert (n2 = n) as -> by congruence.
    eapply ino_update; try done. by apply Hs, Hno.
  - intros q. unfold ffid. cbn. destruct (q =? root); [done|]. destruct (decide (q = ip)) as [->|Hne].
    + by rewrite lookup_insert_eq, En.
    + by rewrite lookup_insert_ne.
Qed.
Lemma held_node s h k ip : finv s h k → ip ∈ h →
  (∃ n, inodes s !! ip = Some n ∧ ilocked n = bool_decide (k = Some ip) ∧ Z.of_nat (multiplicity ip h) ≤ iref n) ∧
  in_use s h k ip.
Proof.
  intros Hi Hin. destruct (fi_ino _ _ _ Hi) as (m & Hst & Hm).
  destruct (held_live _ _ _ _ ip Hm Hin) as (f & n & Hf & En & [_ Hl Hr _ _]).
  split; [by exists n|by exists m, f].
Qed.

(** ** Locks and reference counts *)
Lemma ilock_run s ip n : inodes s !! ip = Some n → ilocked n = false →
  ilock ip s = Done (tt, with_inodes (<[ip := upd_ilocked true n]> (inodes s)) s).
Proof. intros E Hl. unfold ilock, MSDOS_I. unfold_M. rewrite E, Hl. done. Qed.
Lemma iunlock_run s ip n : inodes s !! ip = Some n →
  iunlock ip s = Done (tt, with_inodes (<[ip := upd_ilocked false n]> (inodes s)) s).
Proof. intros E. unfold iunlock, MSDOS_I. unfold_M. rewrite E. done. Qed.
Lemma ilock_local s ip s' : ilock ip s = Done (tt, s') → local_ s' = local_ s.
Proof.
  unfold ilock, MSDOS_I. unfold_M. destruct (inodes s !! ip) as [n|]; [|done]. destruct (ilocked n); [done|].
  by intros [= <-].
Qed.
Lemma iunlock_local s ip s' : iunlock ip s = Done (tt, s') → local_ s' = local_ s.
Proof. unfold iunlock, MSDOS_I. unfold_M. destruct (inodes s !! ip) as [n|]; [|done]. by intros [= <-]. Qed.
Lemma MSDOS_I_run s ip n : inodes s !! ip = Some n → MSDOS_I ip s = Done (n, s).
Proof. intros E. unfold MSDOS_I. by rewrite E. Qed.
Lemma inode_dup_run s ip n : inodes s !! ip = Some n → ilocked n = false →
  inode_dup ip s = Done (ip, with_inodes (<[ip := upd_iref (iref n + 1) (upd_ilocked false n)]> (inodes s)) s).
Proof.
  intros E Hl. unfold inode_dup. erewrite M_bind_Done by (by apply ilock_run).
  erewrite M_bind_Done by (apply MSDOS_I_run; cbn; apply lookup_insert_eq).
  erewrite M_bind_Done by reflexivity. cbn [with_inodes inodes fbl fat_cache_ inode_cache_map_ local_ fw].
  erewrite M_bind_Done by (apply iunlock_run; cbn; apply lookup_insert_eq).
  unfold with_inodes. cbn. by rewrite !insert_insert_eq.
Qed.

Lemma fat_lock s h ip : finv s h None → ip ∈ h →
  ∃ s', ilock ip s = Done (tt, s') ∧ finv s' h (Some ip) ∧ (∀ q, ffid s' q = ffid s q) ∧ fw s' = fw s.
Proof.
  intros Hi Hin. destruct (held_node s h None ip Hi Hin) as [(n & En & Hl & Hr) Hlive].
  eexists. split; [by apply (ilock_run _ _ n)|]. split_and!; [..|done];
    apply (finv_update s h None h (Some ip) ip n); try done; by rewrite ?bool_decide_eq_true_2; naive_solver.
Qed.
Lemma fat_unlock s h ip : finv s h (Some ip) → ip ∈ h →
  ∃ s', iunlock ip s = Done (tt, s') ∧ finv s' h None ∧ (∀ q, ffid s' q = ffid s q) ∧ fw s' = fw s.
Proof.
  intros Hi Hin. destruct (held_node s h _ ip Hi Hin) as [(n & En & Hl & Hr) Hlive].
  eexists. split; [by apply (iunlock_run _ _ n)|]. split_and!; [..|done];
    apply (finv_update s h (Some ip) h None ip n); try done; naive_solver.
Qed.
(** A reference to an inode that is in use and not locked. *)
Lemma fat_dup s h k ip : finv s h k → k ≠ Some ip → in_use s h k ip →
  ∃ s', inode_dup ip s = Done (ip, s') ∧ finv s' ({[+ ip +]} ⊎ h) k ∧ (∀ q, ffid s' q = ffid s q) ∧ fw s' = fw s.
Proof.
  intros Hi Hk Hlive. destruct (Hlive) as (m & f & _ & Hm & Hf).
  destruct (io_node _ _ _ _ Hm f ip Hf) as (n & En & [_ Hl _ _ _]). rewrite bool_decide_eq_false_2 in Hl by done.
  eexists. split; [by apply (inode_dup_run _ _ n)|]. split_and!; [..|done];
    (apply (finv_update s h k ({[+ ip +]} ⊎ h) k ip n); try done;
      [intros q Hq; by apply held_singleton|by rewrite bool_decide_eq_false_2|rewrite held_here; cbn; lia]).
Qed.

(** ** Giving back a reference *)
Lemma live_delete m h k ino f ip f2 ip2 :
  inodes_ok m h k ino → live m f ip → f ≠ ROOT → live (delete f m) f2 ip2 → f2 ≠ f ∧ ip2 ≠ ip ∧ live m f2 ip2.
Proof.
  intros Hi Hl Hf Hl2. assert (f2 ≠ f ∧ live m f2 ip2) as [Hne Hl3].
  { unfold live in *. case_decide as Hr; [by split; [congruence|]|].
    apply lookup_delete_Some in Hl2 as [? ?]. by split. }
  split_and!; [done| |done]. intros ->. apply Hne. by eapply live_inj.
Qed.

(** The last reference goes: the inode leaves the map. *)
Lemma ino_delete m h ino f ip n :
  inodes_ok m ({[+ ip +]} ⊎ h) None ino → live m f ip → ino !! ip = Some n → iref n = 1 →
  f ≠ ROOT ∧ m !! f = Some ip ∧ inodes_ok (delete f m) h None (<[ip := upd_iref 0 n]> ino).
Proof.
  intros Hi Hl En Hr. destruct (io_node _ _ _ _ Hi f ip Hl) as (n0 & En0 & [_ _ G3 G4 _]).
  assert (n0 = n) as -> by congruence. rewrite held_here in G3, G4.
  assert (f ≠ ROOT ∧ ∀ f' ip' d', m !! f' = Some ip' → dtree !! f' = Some d' → d_parent d' ≠ f) as [Hf Hch].
  { split; [intros ->; specialize (G4 (or_introl eq_refl)); lia|].
    intros f' ip' d' H1 H2 H3. specialize (G4 (or_intror (ex_intro _ f' (ex_intro _ ip' (ex_intro _ d' (conj H1 (conj H2 H3))))))).
    lia. }
  split; [done|]. split; [unfold live in Hl; by rewrite decide_False in Hl|]. split.
  - intros f2 ip2 [_ H2]%lookup_delete_Some. by apply (io_map _ _ _ _ Hi) in H2.
  - intros f2 ip2 Hl2. destruct (live_delete _ _ _ _ _ _ _ _ Hi Hl Hf Hl2) as (Hne & Hip & Hl3).
    rewrite lookup_insert_ne by done. destruct (io_node _ _ _ _ Hi f2 ip2 Hl3) as (n2 & En2 & [K1 K2 K3 K4 K5]).
    rewrite held_singleton in K3, K4 by done. exists n2. split; [done|]. split; [done|done|done|..].
    + intros Hkept. apply K4. destruct Hkept as [?|(f' & ip' & d' & Hm' & ?)]; [by left|right].
      apply lookup_delete_Some in Hm' as [_ Hm']. by exists f', ip', d'.
    + intros d Hd. specialize (K5 d Hd). unfold live in K5 |- *. case_decide as Hroot; [done|].
      rewrite lookup_delete_ne; [done|]. intros Heq. destruct (decide (f2 = ROOT)) as [->|Hr2].
      * destruct (dk_root disk) as (d0 & E0 & E1 & _). congruence.
      * unfold live in Hl3. rewrite decide_False in Hl3 by done. by apply (Hch f2 ip2 d).
  - intros q Hq. assert (q ≠ ip) as Hne.
    { intros ->. rewrite elem_of_multiplicity in Hq. lia. }
    destruct (io_held _ _ _ _ Hi q) as [f2 Hl2].
    { rewrite elem_of_multiplicity, held_singleton by done. by rewrite elem_of_multiplicity in Hq. }
    exists f2. unfold live in *. case_decide; [done|]. rewrite lookup_delete_ne; [done|].
    intros ->. rewrite decide_False in Hl by done. congruence.
Qed.

Lemma poll_run m hs f ip :
  stored hs m → m !! f = Some ip → (size m < fuel)%nat →
  ∃ hs', poll new_node fuel f hs = Done (ip, hs') ∧ stored hs' (delete f m).
Proof.
  intros [B Hr] Hf Hs. destruct (poll_spec new_node new_node_fresh fuel hs B m f Hr Hs) as [_ Hp].
  destruct Hp as (k & v & hs' & B' & E & Hv & _ & Hk & Hr' & _).
  { intros Hnil. apply (r_map _ _ _ Hr) in Hf as [a Ha]. rewrite Hnil in Ha. by apply elem_of_nil in Ha. }
  rewrite Hk in * by congruence. exists hs'. split; [by rewrite E; repeat f_equal; congruence|by exists B'].
Qed.

Lemma fat_free s h ip : finv s ({[+ ip +]} ⊎ h) None →
  ∃ s', inode_free new_node fuel ip s = Done (tt, s') ∧ finv s' h None ∧ (∀ q, ffid s' q = ffid s q) ∧ fw s' = fw s.
Proof.
  intros Hi. destruct (held_node s _ None ip Hi ltac:(multiset_solver)) as [(n & En & Hl & Hr) Hlive].
  rewrite held_here in Hr. cbn in Hl. unfold inode_free.
  erewrite M_bind_Done by (by apply (ilock_run _ _ n)).
  erewrite M_bind_Done by (apply MSDOS_I_run; cbn; apply lookup_insert_eq).
  cbn [iref upd_ilocked]. rewrite (proj2 (Z.ltb_ge (iref n) 1)) by lia. erewrite M_bind_Done by reflexivity.
  cbn [with_inodes inodes fbl fat_cache_ inode_cache_map_ local_ fw]. rewrite insert_insert_eq.
  set (n1 := upd_iref (iref n - 1) (upd_ilocked true n)). set (s1 := Fat _ _ (<[ip := n1]> _) _ _ _).
  destruct (Z.eqb_spec (iref n - 1) 0) as [Hz|Hnz].
  - destruct Hlive as (m & f & Hm & Hio & Hf).
    destruct (ino_delete m h (inodes s) f ip n Hio Hf En ltac:(lia)) as (Hfr & Hmf & Hio').
    destruct (poll_run m (inode_cache_map_ s) f ip Hm Hmf (map_size _ _ _ _ Hio)) as (hs' & Ep & Hm').
    destruct (io_node _ _ _ _ Hio f ip Hf) as (n0 & En0 & [(_ & Hpos & _) _ _ _ _]). assert (n0 = n) as -> by congruence.
    assert (DeleteInode new_node fuel ip s1 = Done (tt, Fat (fbl s) (fat_cache_ s) (<[ip := n1]> (inodes s)) hs' (local_ s) (fw s))) as Ed.
    { unfold DeleteInode. erewrite M_bind_Done by (apply MSDOS_I_run; cbn; apply lookup_insert_eq).
      change (i_pos n1) with (i_pos n). rewrite Hpos by done. unfold on_map. unfold_M. cbn. by rewrite Ep. }
    erewrite M_bind_Done by exact Ed.
    eexists. split; [apply iunlock_run; cbn; apply lookup_insert_eq|]. unfold with_inodes. cbn. rewrite insert_insert_eq.
    assert (upd_ilocked false n1 = upd_iref 0 n) as ->.
    { unfold n1, upd_ilocked, upd_iref. cbn. rewrite Hz. by rewrite Hl. }
    split_and!; [|intros q; unfold ffid; cbn; destruct (q =? root); [done|]|done].
    + destruct Hi as [Hg Hc Hq Hd Hff _]. split; try done; [by destruct Hg; split|by exists (delete f m)].
    + destruct (decide (q = ip)) as [->|Hne]; [by rewrite lookup_insert_eq, En|by rewrite lookup_insert_ne].
  - erewrite M_bind_Done by reflexivity. eexists. split; [apply iunlock_run; cbn; apply lookup_insert_eq|].
    unfold with_inodes. cbn. rewrite insert_insert_eq.
    destruct (finv_update s ({[+ ip +]} ⊎ h) None h None ip n (upd_ilocked false n1)) as [H1 H2]; try done.
    + intros q Hq. symmetry. by apply held_singleton.
    + rewrite held_here. cbn. lia.
Qed.

(** ** Reading a file that is held *)
Lemma open_file s h k f ip d :
  finv s h k → ip ∈ h → ffid s ip = f → dtree !! f = Some d → d_cs d ≠ [] →
  (∃ n, readable g dev_ root P s ip n (d_cs d) ∧ isz n = d_size d) ∧ bytes dev_ s (d_cs d) = file_bytes d.
Proof.
  intros Hi Hin Hfid Hd Hne. destruct Hi as [Hg Hc Hq Hdev Hfat (m & Hm & Hio)].
  destruct (held_live _ _ _ _ ip Hio Hin) as (f' & n & Hl & En & [(_ & _ & d' & Hd' & _ & Hsz & Hch & Hlo & Hcu) _ _ _ _]).
  rewrite (live_fid _ _ _ _ _ _ Hio Hl) in Hfid. subst f'. assert (d' = d) as -> by congruence.
  destruct (dk_clusters disk f d Hd) as (Hnd & HP). split.
  - exists n. split; [|done]. split; [split|..]; try done.
    unfold fat_get. rewrite Hfat. by apply Hch.
  - apply contents_ext. intros c _. unfold dblock, base. rewrite Hdev, (ge_fds _ _ Hg). done.
Qed.

Lemma looked_finv s h k ip d n' s' :
  finv s h k → ip ∈ h → dtree !! ffid s ip = Some d → looked ip s s' → readable g dev_ root P s' ip n' (d_cs d) →
  finv s' h k ∧ (∀ q, ffid s' q = ffid s q) ∧ fw s' = fw s.
Proof.
  intros Hi Hin Hd (bufs & lo & cl & loc & n & En & ->) [[Hg' En' _ _ _ Hlo Hcu] Hc' Hq' _].
  cbn in En'. rewrite lookup_insert_eq in En'. injection En' as <-.
  split; [|split; [|done]].
  - destruct Hi as [Hg Hc Hq Hdev Hfat (m & Hm & Hio)]. split; try done. exists m. split; [done|].
    destruct (held_live _ _ _ _ ip Hio Hin) as (f' & n' & Hl & En' & [(S1 & S2 & d' & Hd' & S3 & S4 & S5 & _) Hlk Hr _ _]).
    assert (n' = n) as -> by congruence. rewrite (live_fid _ _ _ _ _ _ Hio Hl) in Hd.
    assert (d' = d) as -> by congruence.
    eapply ino_update; try done. split; [done|]. split; [done|]. by exists d.
  - intros q. unfold ffid. cbn. destruct (q =? root); [done|]. destruct (decide (q = ip)) as [->|Hne].
    + by rewrite lookup_insert_eq, En.
    + by rewrite lookup_insert_ne.
Qed.

Lemma open_dir s h k f dir d :
  finv s h k → dir ∈ h → ffid s dir = f → dtree !! f = Some d → d_dir d = true →
  dir_at g dev_ root P s dir (d_cs d) ∧ bytes dev_ s (d_cs d) = file_bytes d.
Proof.
  intros Hi Hin Hf Hd Hdir. destruct (dk_dir disk f d Hd Hdir) as (Hne & Hsz & _).
  destruct (open_file s h k f dir d Hi Hin Hf Hd Hne) as [(n & Hr & Hn) Hb]. split; [|done].
  exists n. by rewrite Hn.
Qed.
Lemma still_finv s h k f dir d s' :
  finv s h k → dir ∈ h → ffid s dir = f → dtree !! f = Some d → still g dev_ root P dir (d_cs d) s s' →
  finv s' h k ∧ (∀ q, ffid s' q = ffid s q) ∧ fw s' = fw s.
Proof. intros Hi Hin <- Hd (Hl & (n' & Hr & _) & _). by eapply looked_finv. Qed.

(** ** The inode of an entry *)
Lemma live_insert m p ip f ip' : m !! p = None → live m f ip' → live (<[p := ip]> m) f ip'.
Proof. unfold live. case_decide; [done|]. intros Hp Hf. rewrite lookup_insert_ne; [done|congruence]. Qed.
Lemma live_fun m f ip ip' : live m f ip → live m f ip' → ip = ip'.
Proof. unfold live. case_decide; congruence. Qed.

Lemma ino_build m h ino f d it dir n ip nb :
  let p := item_pos d it in
  inodes_ok m h (Some dir) ino → live m f dir → ino !! dir = Some n → dtree !! f = Some d → entry_fits f d it →
  m !! p = None → ino !! ip = None → ip ≠ 0 →
  shows ip p nb → ilocked nb = false → iref nb = 1 → iparent nb = dir →
  inodes_ok (<[p := ip]> m) ({[+ ip +]} ⊎ h) (Some dir) (<[ip := nb]> (<[dir := upd_iref (iref n + 1) n]> ino)).
Proof.
  intros p Hi Hl En Hd (Hpf & Hpp & Hfit) Hmp Eip Hip0 Hsh Hlk Href Hpar. fold p in Hpf, Hpp, Hfit.
  assert (p ≠ ROOT) as Hpr. { intros Heq. rewrite Heq in Hpp. by apply (dk_pos disk). }
  assert (∀ f2 ip2, live m f2 ip2 → ip2 ≠ ip) as Hold.
  { intros f2 ip2 Hl2 ->. destruct (io_node _ _ _ _ Hi f2 ip Hl2) as (n2 & En2 & _). congruence. }
  assert (multiplicity ip h = 0%nat) as Hmul.
  { destruct (decide (ip ∈ h)) as [Hin|Hnin].
    - destruct (io_held _ _ _ _ Hi ip Hin) as [f2 Hl2]. by apply Hold in Hl2.
    - rewrite elem_of_multiplicity in Hnin. lia. }
  assert (∀ d', dtree !! p = Some d' → d_parent d' = f) as Hdp.
  { intros d' Hd'. destruct Hfit as (d2 & E2 & E3 & _). congruence. }
  split.
  - intros f2 ip2. destruct (decide (f2 = p)) as [->|Hne].
    + rewrite lookup_insert_eq. intros [= <-]. split_and!; [done| |done].
      intros ->. by apply (Hold ROOT root).
    + rewrite lookup_insert_ne by done. apply (io_map _ _ _ _ Hi).
  - intros f2 ip2 Hl2. destruct (decide (f2 = p)) as [->|Hne].
    + unfold live in Hl2. rewrite decide_False, lookup_insert_eq in Hl2 by done. injection Hl2 as <-.
      rewrite lookup_insert_eq. exists nb. split; [done|]. split; [done|..].
      * rewrite Hlk, bool_decide_eq_false_2; [done|]. intros [= ->]. by apply (Hold f ip).
      * rewrite held_here. lia.
      * intros [?|(f' & ip' & d' & Hm' & Hd' & Hp')]; [done|]. exfalso.
        destruct (decide (f' = p)) as [->|Hne']; [rewrite (Hdp d' Hd') in Hp'; congruence|].
        rewrite lookup_insert_ne in Hm' by done.
        assert (live m f' ip') as Hl'.
        { unfold live. rewrite decide_False; [done|]. intros ->. destruct (dk_root disk) as (d0 & E0 & E1 & _).
          rewrite E0 in Hd'. injection Hd' as <-. congruence. }
        destruct (io_node _ _ _ _ Hi f' ip' Hl') as (n' & _ & [_ _ _ _ Hpn]). specialize (Hpn d' Hd').
        rewrite Hp' in Hpn. unfold live in Hpn. rewrite decide_False in Hpn by done. congruence.
      * intros d' Hd'. rewrite (Hdp d' Hd'), Hpar. by apply live_insert.
    + assert (live m f2 ip2) as Hl3.
      { unfold live in *. case_decide; [done|]. by rewrite lookup_insert_ne in Hl2. }
      rewrite (lookup_insert_ne _ ip) by (apply not_eq_sym; by eapply Hold).
      destruct (io_node _ _ _ _ Hi f2 ip2 Hl3) as (n2 & En2 & [K1 K2 K3 K4 K5]).
      assert (∀ d', dtree !! f2 = Some d' → live (<[p:=ip]> m) (d_parent d') (iparent n2)) as K5'.
      { intros d' Hd'. by apply live_insert, K5. }
      destruct (decide (ip2 = dir)) as [->|Hdir].
      * rewrite lookup_insert_eq. assert (n2 = n) as -> by congruence. eexists. split; [done|].
        split; [done|done| | |done]; rewrite held_singleton by (by eapply Hold); cbn; lia.
      * rewrite lookup_insert_ne by done. exists n2. split; [done|].
        split; [done|done| | |done]; rewrite held_singleton by (by eapply Hold); [done|].
        intros [?|(f' & ip' & d' & Hm' & Hd' & Hp')]; [apply K4; by left|]. apply K4. right.
        destruct (decide (f' = p)) as [->|Hne']; [|rewrite lookup_insert_ne in Hm' by done; by exists f', ip', d'].
        exfalso. apply Hdir. rewrite (Hdp d' Hd') in Hp'. subst f2. exact (live_fun _ _ _ _ Hl3 Hl).
  - intros q Hq. destruct (decide (q = ip)) as [->|Hne].
    + exists p. unfold live. by rewrite decide_False, lookup_insert_eq by done.
    + destruct (io_held _ _ _ _ Hi q) as [f2 Hl2].
      { rewrite elem_of_multiplicity in Hq |- *. by rewrite held_singleton in Hq. }
      exists f2. by apply live_insert.
Qed.

Lemma i32_u32 x c : 0 ≤ c < 2 ^ 31 → u32 (i32 x) = c → i32 x = c.
Proof.
  unfold u32, i32. intros Hc Hx. set (y := (x + 2 ^ 31) mod 2 ^ 32) in *.
  assert (0 ≤ y < 2 ^ 32) by (apply Z.mod_pos_bound; lia). dlia.
Qed.

Lemma fat_build s h dir f d it :
  finv s h (Some dir) → dir ∈ h → ffid s dir = f → dtree !! f = Some d → entry_fits f d it →
  ∃ ip s', BuildInode dev_ new_node new_inode fuel (it_entry it) (item_pos d it) dir s = Done (ip, s') ∧
    finv s' ({[+ ip +]} ⊎ h) (Some dir) ∧ ip ≠ 0 ∧ ffid s' ip = item_pos d it ∧
    (∀ q, q ∈ h → ffid s' q = ffid s q) ∧ fw s' = fw s.
Proof.
  intros Hi Hin Hfid Hd Hfit. set (p := item_pos d it). pose proof Hfit as (Hpf & Hpp & Hty). fold p in Hpf, Hpp, Hty.
  assert (p ≠ ROOT) as Hpr. { intros Heq. rewrite Heq in Hpp. by apply (dk_pos disk). }
  destruct (fi_ino _ _ _ Hi) as (m & Hm & Hio). pose proof (map_size _ _ _ _ Hio) as Hsize.
  destruct (held_live _ _ _ _ dir Hio Hin) as (f' & n & Hl & En & Hno).
  pose proof (live_fid _ _ _ _ _ _ Hio Hl) as Hf'. rewrite Hfid in Hf'. subst f'.
  assert (on_map (get fuel p) s = Done (default 0 (m !! p), s)) as Eg.
  { unfold on_map. rewrite (get_stored fuel _ m) by done. by destruct s. }
  destruct (m !! p) as [ip|] eqn:Emp; cbn [default from_option id] in Eg.
  - unfold BuildInode, GetInode. assert (live m p ip) as Hlp by (unfold live; by rewrite decide_False).
    pose proof (live_nonnull _ _ _ _ _ _ Hio Hlp) as Hip0.
    destruct (fat_dup s h (Some dir) ip Hi) as (s' & Ed & Hi' & Hfid' & Hw').
    { intros [= ->]. apply Hpf. by eapply live_inj. }
    { by exists m, p. }
    exists ip, s'. erewrite M_bind_Done by (erewrite M_bind_Done by exact Eg; rewrite (proj2 (Z.eqb_neq ip 0)) by done; exact Ed).
    rewrite (proj2 (Z.eqb_neq ip 0)) by done. cbn [negb].
    split_and!; [done..| |by intros q _|done]. rewrite Hfid'. by eapply live_fid.
  - clear Eg. destruct (new_inode_fresh (inodes s)) as [Hip0 Hipf].
    destruct (BuildInode_new dev_ new_node new_inode fuel (it_entry it) p dir s m n new_node_fresh Hipf Hm Hsize Emp En)
      as (hs' & Hm' & Eb).
    set (ip := new_inode (inodes s)) in *. set (nb := built dev_ (it_entry it) p dir) in *.
    eexists ip, _. split; [exact Eb|].
    assert (shows ip p nb) as Hsh.
    { split; [|split; [done|]].
      - split; [done|]. intros ->. exfalso. destruct (io_node _ _ _ _ Hio ROOT root (live_root m)) as (nr & Er & _). congruence.
      - destruct Hty as (d' & Ed' & _ & Hdir & Hsz & Hch). exists d'. split; [done|]. unfold nb, built.
        cbn [imode isz i_start i_logi i_clus]. rewrite Hdir, Hsz. unfold is_dir_entry, start in *. cbn [i_start].
        rewrite (proj2 (Z.eqb_neq ip root)).
        2: { intros Heq. destruct (io_node _ _ _ _ Hio ROOT root (live_root m)) as (nr & Er & _). congruence. }
        split_and!; [by destruct (negb _)|done..|]. intros c Hc. unfold chain_from in Hch.
        destruct (d_cs d') as [|c' cs']; [done|]. injection Hc as ->.
        destruct (Hch ltac:(done)) as (Hc & Hcd & _).
        apply i32_u32; [|done]. destruct Hcd as [? Hcc]. pose proof (fi_geo _ _ _ Hi) as [_ _ _ _ _ _ _ _ _ ? ? _]. lia. }
    pose proof (ino_build m h (inodes s) f d it dir n ip nb Hio Hl En Hd Hfit Emp Hipf Hip0 Hsh eq_refl eq_refl eq_refl) as Hio'.
    split_and!; [|done| | |done].
    + destruct Hi as [Hg Hc Hq Hdev Hff _]. split; try done; [by destruct Hg; split|by exists (<[p := ip]> m)].
    + unfold ffid. cbn. rewrite lookup_insert_eq. destruct (Z.eqb_spec ip root) as [Heq|]; [|done].
      symmetry. by apply Hsh.
    + intros q Hq. assert (q ≠ ip) as Hqi.
      { intros ->. destruct (held_live _ _ _ _ ip Hio Hq) as (? & ? & _ & ? & _). congruence. }
      unfold ffid. cbn. destruct (q =? root); [done|]. rewrite lookup_insert_ne by done.
      destruct (decide (q = dir)) as [->|]; [by rewrite lookup_insert_eq, En|by rewrite lookup_insert_ne].
Qed.

(** ** Looking up a name *)
Lemma fat_ref s h dir ip n k :
  finv s h k → in_use s h k ip → inodes s !! ip = Some n → k = Some dir →
  let s' := with_inodes (<[ip := upd_iref (iref n + 1) n]> (inodes s)) s in
  finv s' ({[+ ip +]} ⊎ h) k ∧ (∀ q, ffid s' q = ffid s q).
Proof.
  intros Hi Hu En Hk. destruct (Hu) as (m & f & _ & Hm & Hf).
  destruct (io_node _ _ _ _ Hm f ip Hf) as (n' & En' & [_ Hl _ _ _]). assert (n' = n) as -> by congruence.
  apply (finv_update s h k ({[+ ip +]} ⊎ h) k ip n (upd_iref (iref n + 1) n)); try done.
  - intros q Hq. by apply held_singleton.
  - rewrite held_here. cbn. lia.
Qed.

Lemma fat_lookup s h dir name e d :
  finv s h (Some dir) → dir ∈ h → dtree !! ffid s dir = Some d → d_dir d = true → cstr (fw s) name e → (length e < 35)%nat →
  ∃ ip s', fs_Lookup this dir name s = Done (ip, s') ∧ (∀ q, q ∈ h → ffid s' q = ffid s q) ∧ fw s' = fw s ∧
    match fchild (ffid s dir) e with
    | None => ip = 0 ∧ finv s' h (Some dir)
    | Some f => ip ≠ 0 ∧ ffid s' ip = f ∧ finv s' ({[+ ip +]} ⊎ h) (Some dir)
    end.
Proof.
  intros Hi Hin Hd Hdir He Hlen. cbn [fs_Lookup fat_layer]. unfold Lookup.
  destruct (fi_ino _ _ _ Hi) as (m & Hm & Hio).
  destruct (held_live _ _ _ _ dir Hio Hin) as (f & n & Hl & En & Hno).
  pose proof (live_fid _ _ _ _ _ _ Hio Hl) as Hf. rewrite Hf in Hd |- *. unfold fchild. rewrite Hd. cbn [mbind option_bind]. rewrite Hdir. cbn [negb].
  assert (name + Z.of_nat (length e) < a_loc name) as Ha by (unfold a_loc; lia).
  assert (length e < fuel)%nat as Hfl by lia.
  assert (∀ dots, Forall (λ b, b ≠ 0) dots → is_prefix_of_dots (a_loc name) fuel dots (fw s) name s =
    Done (bool_decide (e `prefix_of` dots), s)) as Hdots by (intros; by apply is_prefix_of_dots_ok).
  erewrite M_bind_Done by (apply Hdots; by repeat constructor).
  erewrite M_bind_Done by (by apply MSDOS_I_run).
  case_bool_decide as Hdot.
  - erewrite M_bind_Done by reflexivity.
    destruct (fat_ref s h dir dir n (Some dir) Hi) as [Hi' Hfid]; [by exists m, f|done..|].
    eexists dir, _. split; [reflexivity|]. split; [by intros q _|]. split; [done|].
    split; [by eapply live_nonnull|]. split; [by rewrite <- Hf|done].
  - erewrite M_bind_Done by (apply Hdots; by repeat constructor).
    case_bool_decide as Hdd.
    + pose proof (no_parent _ _ _ _ _ _ Hno d Hd) as Hlp.
      destruct (io_node _ _ _ _ Hio _ _ Hlp) as (np & Ep & _).
      erewrite M_bind_Done by (by apply MSDOS_I_run). erewrite M_bind_Done by reflexivity.
      destruct (fat_ref s h dir (iparent n) np (Some dir) Hi) as [Hi' Hfid]; [by exists m, (d_parent d)|done..|].
      eexists (iparent n), _. split; [reflexivity|]. split; [by intros q _|]. split; [done|].
      split; [by eapply live_nonnull|]. split; [|done]. rewrite Hfid. by eapply live_fid.
    + destruct (open_dir s h (Some dir) f dir d Hi Hin Hf Hd Hdir) as [Hat Hby].
      destruct (dk_dir disk f d Hd Hdir) as (_ & _ & l & Hls & Hall). rewrite Hls.
      destruct (Lookup_loop_finds g dev_ root fuel P fuel_clusters new_node new_inode (a_loc name) (fw s) name e
        He ltac:(lia) Ha Hfl dir (d_cs d) fuel s 0 (replicate 32 0) tmp0 fuel l Hat) as (s1 & Hst & Erun);
        first [done|lia|by rewrite Hby|idtac].
      destruct (still_finv s h (Some dir) f dir d s1 Hi Hin Hf Hd Hst) as (Hi1 & Hfid1 & Hw1). rewrite Erun.
      cbn [mbind option_bind]. unfold first_accepted.
      destruct (list_find (λ it, accepts e (it_name it) = true) l) as [[j it]|] eqn:Hfind; cbn [fmap option_fmap option_map snd].
      * apply list_find_Some in Hfind as (Hj & _ & _).
        pose proof (proj1 (Forall_lookup _ _) Hall j it Hj) as Hfit.
        destruct (fat_build s1 h dir f d it Hi1 Hin) as (ip & s' & Eb & Hi' & Hip & Hfip & Hq & Hw'); [by rewrite Hfid1|done..|].
        exists ip, s'. split; [exact Eb|]. split; [intros q Hqh; by rewrite Hq, Hfid1|]. split; [congruence|]. split; [done|]. split; [exact Hfip|exact Hi'].
      * exists 0, s1. split; [done|]. split; [by intros q _|]. by split.
Qed.

#[local] Program Instance fat_laws : FsLaws F := {|
  isdir f := match dtree !! f with Some d => d_dir d | None => false end;
  child := fchild;
  fsof _ := this;
  fid := ffid;
  fs_inv := finv;
  scratch _ := True;
|}.
Next Obligation.
  intros s h k ip Hi Hin. destruct (fi_ino _ _ _ Hi) as (m & _ & Hio).
  destruct (held_live _ _ _ _ ip Hio Hin) as (f & n & Hl & _). by eapply live_nonnull.
Qed.
Next Obligation.
  intros s h k p q Hi Hp Hq Heq. destruct (fi_ino _ _ _ Hi) as (m & _ & Hio).
  destruct (held_live _ _ _ _ p Hio Hp) as (f & n & Hl & _), (held_live _ _ _ _ q Hio Hq) as (f' & n' & Hl' & _).
  cbn in Heq. rewrite (live_fid _ _ _ _ _ _ Hio Hl), (live_fid _ _ _ _ _ _ Hio Hl') in Heq. subst f'.
  by eapply live_fun.
Qed.
Next Obligation.
  intros s h k ip Hi Hin. destruct (held_node s h k ip Hi Hin) as [(n & En & _) _].
  cbn. by erewrite M_bind_Done by (by apply MSDOS_I_run).
Qed.
Next Obligation.
  intros s h k ip Hi Hin. destruct (fi_ino _ _ _ Hi) as (m & _ & Hio).
  destruct (held_live _ _ _ _ ip Hio Hin) as (f & n & Hl & En & [(_ & _ & d & Hd & Hm & _) _ _ _ _]). exists (imode n).
  cbn. erewrite M_bind_Done by (by apply MSDOS_I_run). split; [done|]. rewrite (live_fid _ _ _ _ _ _ Hio Hl).
  by rewrite Hd.
Qed.
Next Obligation.
  intros s h k ip Hi Hin. destruct (held_node s h k ip Hi Hin) as [(n & En & _) _]. exists (isz n).
  cbn. by erewrite M_bind_Done by (by apply MSDOS_I_run).
Qed.
Next Obligation.
  intros s h ip Hi Hin. destruct (fat_lock s h ip Hi Hin) as (s' & E & I & Hf & Hw). by exists s'.
Qed.
Next Obligation.
  intros s h ip Hi Hin. destruct (fat_unlock s h ip Hi Hin) as (s' & E & I & Hf & Hw). by exists s'.
Qed.
Next Obligation.
  intros s h ip Hi Hin. destruct (held_node s h None ip Hi Hin) as [_ Hu].
  destruct (fat_dup s h None ip Hi ltac:(done) Hu) as (s' & E & I & Hf & Hw). by exists s'.
Qed.
Next Obligation.
  intros s h ip Hi. destruct (fat_free s h ip Hi) as (s' & E & I & Hf & Hw). by exists s'.
Qed.
Next Obligation.
  intros s h dir name e Hi Hin Hd He Hlen. cbn in Hd. destruct (dtree !! ffid s dir) as [d|] eqn:Ed; [|done].
  exact (fat_lookup s h dir name e d Hi Hin Ed Hd He Hlen).
Qed.
Next Obligation.
  intros s h k m [Hg Hc Hq Hd Hf Hino] _. split; [|done]. split; try done. by destruct Hg; split.
Qed.

(** ** From a path to the bytes of a file *)

(** Reading a regular file that is held, into a kernel buffer. *)
Lemma fat_read s h ip d off n :
  finv s h None → ip ∈ h → dtree !! ffid s ip = Some d → d_dir d = false →
  0 ≤ off < 2 ^ 31 → 0 ≤ n < 2 ^ 31 → let r := Z.max 0 (Z.min n (d_size d - off)) in
  ∃ s', inode_read g dev_ root fuel ip out_local off n s = Done (r, s') ∧ finv s' h None ∧
    local_ s' = splice (local_ s) 0 (take (Z.to_nat r) (drop (Z.to_nat off) (file_bytes d))).
Proof.
  intros Hi Hin Hd Hdir Ho Hn r. destruct (fat_lock s h ip Hi Hin) as (s1 & E1 & I1 & F1 & _).
  pose proof (ilock_local _ _ _ E1) as L1.
  destruct (dk_size disk _ d Hd Hdir) as [Hsz Hlen].
  assert (∃ s2, ReadInode g dev_ root fuel ip out_local off n s1 = Done (r, s2) ∧ finv s2 h (Some ip) ∧
    local_ s2 = splice (local_ s1) 0 (take (Z.to_nat r) (drop (Z.to_nat off) (file_bytes d)))) as (s2 & E2 & I2 & L2).
  { destruct (decide (d_cs d = [])) as [Hnil|Hne].
    - rewrite Hnil in Hlen. cbn in Hlen. exists s1. replace r with 0 by lia. cbn [Z.to_nat take]. rewrite splice_nil.
      split; [|done]. destruct (fi_ino _ _ _ I1) as (m & _ & Hio).
      destruct (held_live _ _ _ _ ip Hio Hin) as (f & nd & Hl & En & [(_ & _ & d' & Hd' & _ & Hsz' & _) _ _ _ _]).
      rewrite <- F1, (live_fid _ _ _ _ _ _ Hio Hl) in Hd. assert (d' = d) as -> by congruence.
      unfold ReadInode, MSDOS_I. unfold_M. rewrite En, Hsz', u64_small by lia. replace (d_size d) with 0 by lia.
      destruct (Z.ltb_spec 0 off); [done|]. cbn [orb]. destruct (Z.ltb_spec (off + n) off); [done|].
      destruct (Z.ltb_spec 0 (off + n)).
      + replace (u32 (0 - off)) with 0 by (rewrite u32_small; lia). done.
      + replace n with 0 by lia. done.
    - rewrite <- F1 in Hd.
      destruct (open_file s1 h (Some ip) _ ip d I1 Hin eq_refl Hd Hne) as [(nd & Hr & Hnd) Hb].
      destruct (ReadInode_ok g dev_ root fuel P s1 ip nd (d_cs d) off n Hr fuel_clusters) as (s2 & n' & E2 & T2 & R2 & _ & _ & _ & _ & L2);
        [by rewrite Hnd..|done|done|].
      rewrite Hnd in E2, L2. fold r in E2, L2. exists s2. rewrite Hb in L2. split; [exact E2|]. split; [|exact L2].
      by eapply looked_finv. }
  destruct (fat_unlock s2 h ip I2 Hin) as (s3 & E3 & I3 & _ & _). exists s3. split; [|split; [done|]].
  - unfold inode_read. rewrite (M_bind_Done _ _ _ _ _ E1), (u32_small n) by lia.
    rewrite (M_bind_Done _ _ _ _ _ E2), (M_bind_Done _ _ _ _ _ E3). done.
  - rewrite (iunlock_local _ _ _ E3), L2. by rewrite L1.
Qed.

(** Claim C1. A path leads to the bytes on the disk: from an inode that is
    held, [namei] returns null exactly when the walk over the entries of the
    directories, as their bytes list them, finds nothing; otherwise it returns
    an inode of the file found, with one more reference, and reading that inode
    gives the bytes of the clusters of the file, cut at its size.  The map of
    inodes, the counts, the locks, the cursors and the buffers stay in order. *)
Theorem path_reads_file (cwd a_name : Z) (s : vst F) (h : refs) (ip path : Z) (l : list Z) (off n : Z) :
  readable_path fuel (fw (vw s)) path a_name l →
  finv (vw s) ({[+ ip +]} ⊎ h) None → mounts_held (mount_points_ s) h →
  0 ≤ off < 2 ^ 31 → 0 ≤ n < 2 ^ 31 →
  ∃ r w, namei fuel cwd a_name ip path s = Done (r, VS (Vfs.files s) (mount_points_ s) (root_ s) w) ∧
    match walk false (mount_over (ffid (vw s)) (mount_points_ s)) (ffid (vw s) ip) (elements l) with
    | None => r = 0 ∧ finv w h None
    | Some f => r ≠ 0 ∧ ffid w r = f ∧ finv w ({[+ r +]} ⊎ h) None ∧
        ∀ d, dtree !! f = Some d → d_dir d = false →
          let c := Z.max 0 (Z.min n (d_size d - off)) in
          ∃ w', inode_read g dev_ root fuel r out_local off n w = Done (c, w') ∧ finv w' ({[+ r +]} ⊎ h) None ∧
            local_ w' = splice (local_ w) 0 (take (Z.to_nat c) (drop (Z.to_nat off) (file_bytes d)))
    end.
Proof.
  intros Hp Hi Hm Ho Hn.
  destruct (namex_ok fuel false a_name s h ip path l Hp Hi Hm) as (r & w & E & _ & _ & Hres). exists r, w. split.
  - unfold namei. rewrite (proj2 (Z.eqb_neq ip 0)) by (eapply (inv_nonnull (vw s)); [exact Hi|multiset_solver]).
    by erewrite M_bind_Done by reflexivity.
  - unfold result_ok in Hres. destruct (walk _ _ _ _) as [f|]; [|exact Hres].
    destruct Hres as (Hr & Hf & Hi' & _). split; [done|]. split; [done|]. split; [done|]. intros d Hd Hdir c.
    apply fat_read; [done|multiset_solver| |done..]. by rewrite <- Hd, <- Hf.
Qed.
End tree.
