(* ===== verification/Fat32TreeWitness.v ===== *)
(** * A concrete FAT32 disk with directories, for the theorem of Fat32Tree.v

    The root directory (cluster 2) has the directory SUB (cluster 3), which has
    the file A.TXT (cluster 4) of five bytes. *)
From stdpp Require Import gmultiset.
From S2P Require Import Prelude Mem Buf HashMap Pipe Fat32 Fat32Props Fat32Files Fat32Lookup Dirent Fat32Dir Vfs VfsProps.
From S2P Require Import Fat32Tree.

Definition g1 : finfo := FInfo 4096 100 16 512 8 32 2.
(** A short entry: 11 characters, attributes, first cluster, size. *)
Definition short (name : list Z) (attr cluster size : Z) : list Z :=
  name ++ [attr] ++ replicate 14 0 ++ le16 cluster ++ le32 size.
Definition disk1 : mem :=
  wr_bytes (wr_bytes (wr_bytes (λ _, 0) 8192 (short [83; 85; 66; 32; 32; 32; 32; 32; 32; 32; 32] 0x10 3 0))
    12288 (short [65; 32; 32; 32; 32; 32; 32; 32; 84; 88; 84] 0x20 4 5))
    16384 [104; 101; 108; 108; 111].
Definition table1 : mem := st32 (st32 (st32 (λ _, 0) 8 kEndOfCluster32) 12 kEndOfCluster32) 16 kEndOfCluster32.
Definition stack1 : list Z := replicate 64 7.

Definition root1 : minode :=
  MInode 2 0 2 0 8192 0 1 (replicate 11 0) 2 false __S_IFDIR 50 1 (u32 (-1)) false 0 0 0.
(** "/sub/a.txt" at 100. *)
Definition text1 : list Z := [47; 115; 117; 98; 47; 97; 46; 116; 120; 116].
Definition fs1 : fat mem :=
  Fat (BL (replicate BUFFER_NUM zero_buf) (λ _, disk1) 16 8 7) table1 {[50 := root1]} (map_new 5 ∅)
    (replicate 8 0) (wr_bytes (λ _, 0) 100 text1).
Definition tree1 : gmap Z dfile :=
  {[ ROOT := DFile true (u32 (-1)) [2] ROOT; 8192 := DFile true (u32 (-1)) [3] ROOT; 12288 := DFile false 5 [4] 8192 ]}.
Definition new_inode1 (m : gmap Z minode) : Z := fresh (dom m ∪ {[0]}).
Lemma new_inode1_fresh m : new_inode1 m ≠ 0 ∧ m !! new_inode1 m = None.
Proof.
  unfold new_inode1. pose proof (is_fresh (dom m ∪ {[0]})) as H. split; [|apply not_elem_of_dom]; set_solver.
Qed.

Lemma tree1_cases f d : tree1 !! f = Some d →
  (f = ROOT ∧ d = DFile true (u32 (-1)) [2] ROOT) ∨ (f = 8192 ∧ d = DFile true (u32 (-1)) [3] ROOT) ∨
  (f = 12288 ∧ d = DFile false 5 [4] 8192).
Proof.
  unfold tree1. rewrite !lookup_insert_Some, lookup_singleton_Some. naive_solver.
Qed.

#[local] Abbreviation fits := (entry_fits g1 table1 tree1 {[8192; 12288]}).
Lemma root_entries :
  ∃ l, entries g1 200 stack1 disk1 (DFile true (u32 (-1)) [2] ROOT) = Some l ∧
    Forall (fits ROOT (DFile true (u32 (-1)) [2] ROOT)) l.
Proof.
  eexists. split; [vm_compute; reflexivity|]. constructor; [|constructor].
  split; [vm_compute; discriminate|]. split; [apply (bool_decide_unpack _); vm_compute; exact I|].
  eexists. split; [vm_compute; reflexivity|]. split; [done|]. split; [done|]. split; [done|].
  intros _. vm_compute. split_and!; done.
Qed.
Lemma sub_entries :
  ∃ l, entries g1 200 stack1 disk1 (DFile true (u32 (-1)) [3] ROOT) = Some l ∧
    Forall (fits 8192 (DFile true (u32 (-1)) [3] ROOT)) l.
Proof.
  eexists. split; [vm_compute; reflexivity|]. constructor; [|constructor].
  split; [vm_compute; discriminate|]. split; [apply (bool_decide_unpack _); vm_compute; exact I|].
  eexists. split; [vm_compute; reflexivity|]. split; [done|]. split; [done|]. split; [done|].
  intros _. vm_compute. split_and!; done.
Qed.
Lemma disk1_ok : disk_ok g1 200 (λ _, True) stack1 disk1 table1 tree1 {[8192; 12288]}.
Proof.
  split.
  - eexists. split; [reflexivity|]. split_and!; [done..|]. intros _. vm_compute. split_and!; done.
  - intros f d [[-> ->]|[[-> ->]|[-> ->]]]%tree1_cases; (split; [repeat constructor; set_solver|done]).
  - intros f d [[-> ->]|[[-> ->]|[-> ->]]]%tree1_cases Hd; [| |done]; (split; [done|]; split; [done|]).
    + exact root_entries.
    + exact sub_entries.
  - intros f d [[-> ->]|[[-> ->]|[-> ->]]]%tree1_cases Hd; by vm_compute.
  - set_solver.
  - rewrite size_union by set_solver. rewrite !size_singleton. lia.
Qed.

(** The caller holds the root directory once; the file system once more. *)
Lemma fs1_inv : finv g1 0 50 (λ _, True) disk1 table1 tree1 {[8192; 12288]} fs1 ({[+ 50 +]} ⊎ ∅) None.
Proof.
  split.
  - split; try done. repeat apply st_ok. intros x. lia.
  - split; try done.
    + intros i b [-> _]%lookup_replicate. split; [|done|done]. unfold zero_buf. cbn [bdata]. by rewrite length_replicate.
    + by intros i b [-> _]%lookup_replicate.
    + by intros i j b b' [-> _]%lookup_replicate [-> _]%lookup_replicate.
  - by intros i b [-> _]%lookup_replicate.
  - done.
  - done.
  - exists ∅. split; [by apply map_new_stored|]. split.
    + intros f ip. by rewrite lookup_empty.
    + intros f ip Hl. unfold live in Hl. case_decide as Hf; [|by rewrite lookup_empty in Hl]. rewrite Hf, Hl. clear f ip Hf Hl.
      exists root1. split; [done|]. split; [|done|vm_compute; discriminate|..].
      * split; [done|]. split; [done|]. eexists. split; [reflexivity|]. split_and!; try done.
        -- intros c Hc. vm_compute in Hc |- *. congruence.
      * intros _. vm_compute. discriminate.
      * intros d [= <-]. vm_compute. reflexivity.
    + intros ip Hip. assert (ip = 50) as -> by multiset_solver. by exists ROOT.
Qed.

Definition no_read : bool → Z → Z → list Z → M (fat mem) Z := λ _ _ _ _, mret 0.
Definition no_write : bool → Z → Z → list Z → M (fat mem) (Z * list Z) := λ _ _ _ l, mret (0, l).
Definition vfs1 : vst (fat mem) :=
  VS ∅ [MkMount (47 :: replicate 63 0) (replicate 64 0) 0 50 0 500] 50 fs1.

#[local] Instance layer1 : FsLayer (fat mem) :=
  fat_layer g1 0 50 500 0 200 MapWitness.new0 new_inode1 stack1 [] [] []
    no_read no_write (λ _ _ _, mret 0) (mret 0) (λ _ _ _, mret 0) (λ _ _ _, mret 0) (λ _ _, mret tt).

Lemma path_reads_file_witness :
  ∃ r w w', namei 200 50 400 50 100 vfs1 = Done (r, VS ∅ (mount_points_ vfs1) 50 w) ∧ r ≠ 0 ∧
    inode_read g1 0 50 200 r out_local 1 8 w = Done (4, w') ∧
    local_ w' = splice (local_ w) 0 [101; 108; 108; 111].
Proof.
  destruct (path_reads_file g1 0 50 500 0 200 (λ _, True) MapWitness.new0 new_inode1 stack1 [] [] []
    no_read no_write (λ _ _ _, mret 0) (mret 0) (λ _ _ _, mret 0) (λ _ _ _, mret 0) (λ _ _, mret tt)
    disk1 table1 tree1 {[8192; 12288]} ltac:(done) disk1_ok ltac:(done) ltac:(lia) MapWitness.new0_fresh new_inode1_fresh
    eq_refl 50 400 vfs1 ∅ 50 100 text1 1 8) as (r & w & E & H).
  - split; [vm_compute; split_and!; done|]. split; [cbn; lia|]. split; [cbn; lia|]. split; [lia|].
    split; [right; cbn; lia|]. split; [done|]. repeat constructor; cbn; lia.
  - exact fs1_inv.
  - constructor; [by left|constructor].
  - lia.
  - lia.
  - match type of H with match ?x with _ => _ end => replace x with (Some 12288) in H by (vm_compute; reflexivity) end.
    destruct H as (Hr & _ & _ & Hread).
    destruct (Hread (DFile false 5 [4] 8192) eq_refl eq_refl) as (w' & E2 & _ & L2).
    exists r, w, w'. split; [exact E|]. split; [exact Hr|]. split; [exact E2|].
    rewrite L2. reflexivity.
Defined.
