(* ===== verification/Fat32CreateWitness.v ===== *)
(** * A concrete directory for the theorem of Fat32Create.v

    The disk of Fat32TreeWitness.v: the directory SUB is open, with its inode at
    60, and has one entry, A.TXT; a file "startos.txt" is created in it. *)
From stdpp Require Import gmultiset.
From S2P Require Import Prelude Mem Buf HashMap Time Fat32 Fat32Props Fat32Files Fat32Lookup Fat32Create Fat32Witness Fat32TreeWitness.

Definition sub1 : minode :=
  MInode 3 0 3 0 8192 0 3 [83; 85; 66; 32; 32; 32; 32; 32; 32; 32; 32] 1 false __S_IFDIR 50 0 (u32 (-1)) false 0 0 0.
Definition fs2 : fat unit :=
  Fat (BL (replicate BUFFER_NUM zero_buf) (λ _, disk1) 16 8 7) table1 (<[60 := sub1]> {[50 := root1]}) (map_new 5 ∅)
    (replicate 8 0) tt.
(** The entry of SUB is in cluster 2. *)
Definition cached2 (c : Z) : Prop := c ≠ 2.

Lemma readable2 : readable g1 0 50 cached2 fs2 60 sub1 [3].
Proof.
  split; [|split; try done|..].
  - split; try done.
    + split; try done. repeat apply st_ok. intros x. lia.
    + apply NoDup_singleton.
    + by intros c [= <-].
  - intros i b [-> _]%lookup_replicate. split; [|done|done]. unfold zero_buf. cbn [bdata]. by rewrite length_replicate.
  - by intros i b [-> _]%lookup_replicate.
  - by intros i j b b' [-> _]%lookup_replicate [-> _]%lookup_replicate.
  - by intros i b [-> _]%lookup_replicate.
  - by intros c ->%list_elem_of_singleton.
Qed.
Lemma writable2 : writable g1 cached2 sub1.
Proof.
  split; [done|split; [cbn; lia|done|done|vm_compute; split; [discriminate|reflexivity]]|].
  intros c x Hc Hx Hs. unfold in_entry_sector, entry_sector in Hs. unfold in_cluster, bstart in Hx.
  change (i_pos sub1 / 512) with 16 in Hs. cbn in Hx. unfold cached2 in Hc. lia.
Qed.
Lemma slot2 : free_slot (bytes 0 fs2 [3]) 2 1.
Proof.
  split.
  - rewrite length_bytes. unfold BSIZE, kMsdosEntrySize. cbn. lia.
  - intros j Hj. assert (j = 1 ∨ j = 2)%nat as [-> | ->] by lia; by vm_compute.
  - intros o Ho. exists 0%nat. split; [lia|]. by vm_compute.
Qed.
Lemma first_free2 : first_free g1 fs2 2 5.
Proof.
  split_and!; [lia|unfold data_cluster; cbn; lia|by vm_compute|]. intros x Hx.
  assert (x = 2 ∨ x = 3 ∨ x = 4) as [-> | [-> | ->]] by lia; by vm_compute.
Qed.
Lemma creatable2 : creatable g1 0 50 200 cached2 fs2 60 sub1 [3] nm0 1 name0 5 1.
Proof.
  split; [apply readable2|apply writable2|vm_compute; split_and!; done|lia|cbn; lia|apply slot2|apply first_free2|].
  rewrite length_bytes. unfold BSIZE. cbn. lia.
Qed.

