(* ===== verification/OldVfs.v ===== *)
(** * The old file layer: kernel/fs/vfs/Vfs.cpp, kernel/fs/devfs/DeviceFileSystem.cpp

    Before vfs.cpp the functions of Vfs.cpp were the virtual file system: paths
    are made absolute as text and given to the file system whose mount point
    [getFs] finds.  mkdirat, chdir, mount and umount still call them, and [exit]
    closes the open files of a task with the old [close].

    The file systems are objects with a mount point; that of DeviceFileSystem.cpp
    is modelled here, the FAT library of Fat.cpp is the class [OldWorld].
    A [struct file] is one of Vfs.v's, at the same address; its members
    [filepath] and [directory], which only this layer uses, are in maps of their
    own.  [char] arrays are lists of 64 bytes; writing past the end of one, or
    looking there for the NUL, is the panic "path overrun". *)
From S2P Require Import Prelude Mem Buf Pipe Fat32 Locks Sched Vfs.

Definition NFILESYSTEM : nat := 5.
Definition AT_FDCWD : Z := -100.
Definition O_RDONLY : Z := 0.
Inductive FileSystemType := FAT32 | SYSFS | DEVFS | PROCFS | UNKNOWN.

(** ** FileSystem.hpp: the members of a file system *)
Record ofs := OFs { o_type : FileSystemType; mountPoint : list Z; o_dev : Z; specialDev : list Z }.
Record ovst := OV {
  mountedFS : list (option ofs);
  filepath_ : gmap Z (list Z);
  directory_ : gmap Z bool;
}.

(** The state of this layer in [F], the devices and the old FAT file system:
    [open] gives the size of the file and whether it is a directory. *)
Class OldWorld (F : Type) := {
  ov : F → ovst;
  set_ov : ovst → F → F;
  FindDevByName : list Z → M F Z;
  oconsole_read : Z → bool → Z → M F Z;
  oconsole_write : Z → bool → Z → M F Z;
  odev_read : Z → Z → Z → Z → M F unit;
  odev_write : Z → Z → Z → Z → M F unit;
  fat_init : ofs → M F unit;
  fat_open : ofs → list Z → Z → M F (option (Z * bool));
  fat_read : ofs → list Z → bool → Z → Z → Z → M F Z;
  fat_write : ofs → list Z → bool → Z → Z → Z → M F Z;
  fat_mkdir : ofs → list Z → M F Z;
  fat_rm : ofs → list Z → M F Z;
  fat_ls : ofs → list Z → Z → Z → bool → M F Z;
}.

(** ** Strings in arrays *)

(** The characters before the NUL. *)
Definition arr_str (l : list Z) : list Z := take (strlen_arr l) l.
(** [memmove(l + k, q, strlen(q))] in the array [l]. *)
Definition put_str {S : Type} (l : list Z) (k : nat) (q : list Z) : M S (list Z) :=
  if Nat.leb (k + length q) (length l) then mret (splice l k q) else panic "path overrun".
(** [strlen] of what an array holds. *)
Definition strlen_in {S : Type} (l : list Z) : M S nat :=
  if Nat.ltb (strlen_arr l) (length l) then mret (strlen_arr l) else panic "path overrun".
(** [safestrcpy(l, q, strlen(q) + 1)] of the string [q]. *)
Definition copy_in {S : Type} (l q : list Z) : M S (list Z) :=
  if Nat.ltb (length q) (length l) then mret (safestrcpy_arr l q (Datatypes.S (length q))) else panic "path overrun".
(** [strncmp] of two strings in arrays. *)
Fixpoint strncmp_arr (p q : list Z) (n : nat) : Z :=
  match n with
  | O => 0
  | S n => let a := hd 0 p in let b := hd 0 q in
           if negb (a =? 0) && (a =? b) then strncmp_arr (tail p) (tail q) n else a - b
  end.
(** [strrchr(s, c) + 1], or [None] where the result is 0 + 1. *)
Fixpoint after_last (c : Z) (l : list Z) : option (list Z) :=
  match l with
  | [] => None
  | x :: l => match after_last c l with Some r => Some r | None => if x =? c then Some l else None end
  end.

(** "/dev", "/", "/dev/hda1", "/dev/tty", "/dev/vda2". *)
Definition s_slash : list Z := [47].
Definition s_dev_dir : list Z := [47; 100; 101; 118].
Definition s_hda1 : list Z := s_dev_dir ++ [47; 104; 100; 97; 49].
Definition s_tty : list Z := s_dev_dir ++ [47; 116; 116; 121].
Definition s_vda2 : list Z := s_dev_dir ++ [47; 118; 100; 97; 50].

(** ** [getFs] *)

(** The inner loop; [fi] is [filepath[i]], where [i] numbers the slot. *)
Fixpoint mp_match (mp path : list Z) (fi : Z) : bool :=
  match mp with
  | [] => true
  | c :: mp =>
      if negb (c =? 0) && negb (fi =? 0) then
        if negb (c =? hd 0 path) then false else mp_match mp (tail path) fi
      else true
  end.
Fixpoint getFs_loop (l : list (option ofs)) (i : nat) (path : list Z) (bestMatch bestLength : nat) : nat :=
  match l with
  | [] => bestMatch
  | None :: l => getFs_loop l (S i) path bestMatch bestLength
  | Some fs :: l =>
      let n := strlen_arr (mountPoint fs) in
      if mp_match (mountPoint fs) path (nth i path 0) && Nat.ltb bestLength n
      then getFs_loop l (S i) path i n
      else getFs_loop l (S i) path bestMatch bestLength
  end.
Definition getFs_index (l : list (option ofs)) (path : list Z) : nat := getFs_loop l 0 path 0 0.

Section oldvfs.
Context {F : Type} `{FsLayer F, OldWorld F}.
(** The addresses of [fileTable], what [filepath] of a file that this layer did
    not open holds, and whether the board is a K210. *)
Context (ftab : nat → Z) (junk_path : Z → list Z) (k210 : bool).
Abbreviation VM := (M (vst F)).
Abbreviation K := (M (ks (vst F))).

Definition get_ov : VM ovst := on_fs (gets ov).
Definition put_ov (o : ovst) : VM unit := on_fs (modify (set_ov o)).
Definition filepath (fp : Z) : VM (list Z) := o ← get_ov; mret (default (junk_path fp) (filepath_ o !! fp)).
Definition set_filepath (fp : Z) (l : list Z) : VM unit :=
  o ← get_ov; put_ov (OV (mountedFS o) (<[fp := l]> (filepath_ o)) (directory_ o)).
Definition directory (fp : Z) : VM bool := o ← get_ov; mret (default false (directory_ o !! fp)).
Definition set_directory (fp : Z) (b : bool) : VM unit :=
  o ← get_ov; put_ov (OV (mountedFS o) (filepath_ o) (<[fp := b]> (directory_ o))).
Definition set_mounted (l : list (option ofs)) : VM unit :=
  o ← get_ov; put_ov (OV l (filepath_ o) (directory_ o)).

(** ** DeviceFileSystem.cpp *)
Definition DeviceFileSystem (mp special : list Z) : VM ofs :=
  m ← copy_in (replicate MAXPATH 0) mp;
  sp ← copy_in (replicate MAXPATH 0) special;
  d ← on_fs (FindDevByName special);
  mret (OFs DEVFS m d sp).
Definition dev_open (fp : Z) : VM Z :=
  f ← fref fp;
  put_file fp (File (f_size f) (f_ref f) (f_readable f) (f_writable f) FD_DEVICE (f_pipe f) (f_inode f) (f_offset f) (f_mode f));;
  set_directory fp false;;
  mret 0.
Definition dev_mkdir : VM Z := mret (-1).
(** [strncmp(path, "/dev/tty", strlen(path)) == 0]: any prefix will do. *)
Definition is_path (path s : list Z) (n : nat) : bool := strncmp_arr path s n =? 0.
Definition dev_read (path : list Z) (user : bool) (buf offset n : Z) : VM Z :=
  let len := strlen_arr path in
  if is_path path s_tty len then on_fs (oconsole_read buf user n)
  else if negb k210 then mret 0
  else if is_path path s_vda2 len then on_fs (odev_read 0 buf offset n);; mret 0
  else if is_path path s_hda1 9 then on_fs (odev_read 0 buf offset n);; mret 0
  else panic "not support path".
Definition dev_write (path : list Z) (user : bool) (buf offset n : Z) : VM Z :=
  if is_path path s_tty (strlen_arr path) then on_fs (oconsole_write buf user n)
  else if negb k210 then mret 0
  else if is_path path s_vda2 9 then on_fs (odev_write 0 buf offset n);; mret 0
  else if is_path path s_hda1 9 then on_fs (odev_write 0 buf offset n);; mret 0
  else panic "not support path".
Definition dev_rm : VM Z := mret 0.
Definition dev_ls : VM Z := mret 0.

(** ** The virtual functions *)
Definition fs_init (fs : ofs) : VM unit :=
  match o_type fs with DEVFS => mret tt | _ => on_fs (fat_init fs) end.
(** What the FAT library sets in the file. *)
Definition fat_open_file (fs : ofs) (path : list Z) (flags fp : Z) : VM Z :=
  r ← on_fs (fat_open fs path flags);
  match r with
  | None => mret (-1)
  | Some (size, dir) =>
      f ← fref fp;
      put_file fp (File size (f_ref f) (f_readable f) (f_writable f) FD_ENTRY (f_pipe f) (f_inode f) (f_offset f) (f_mode f));;
      set_directory fp dir;;
      mret 0
  end.
Definition fs_open (fs : ofs) (path : list Z) (flags fp : Z) : VM Z :=
  match o_type fs with DEVFS => dev_open fp | _ => fat_open_file fs path flags fp end.
Definition fs_read (fs : ofs) (path : list Z) (user : bool) (buf offset n : Z) : VM Z :=
  match o_type fs with DEVFS => dev_read path user buf offset n | _ => on_fs (fat_read fs path user buf offset n) end.
Definition fs_write (fs : ofs) (path : list Z) (user : bool) (buf offset n : Z) : VM Z :=
  match o_type fs with DEVFS => dev_write path user buf offset n | _ => on_fs (fat_write fs path user buf offset n) end.
Definition fs_mkdir (fs : ofs) (path : list Z) : VM Z :=
  match o_type fs with DEVFS => dev_mkdir | _ => on_fs (fat_mkdir fs path) end.
Definition fs_rm (fs : ofs) (path : list Z) : VM Z :=
  match o_type fs with DEVFS => dev_rm | _ => on_fs (fat_rm fs path) end.
Definition fs_ls (fs : ofs) (path : list Z) (contents len : Z) (user : bool) : VM Z :=
  match o_type fs with DEVFS => dev_ls | _ => on_fs (fat_ls fs path contents len user) end.

(** The constructor of [Fat32FileSystem] looks for a slash in the device's name
    and goes on from a null pointer where there is none. *)
Definition Fat32FileSystem (mp special : list Z) : VM ofs :=
  m ← copy_in (replicate MAXPATH 0) mp;
  sp ← copy_in (replicate MAXPATH 0) special;
  match after_last 47 special with
  | None => panic "null pointer"
  | Some name => d ← on_fs (FindDevByName name); mret (OFs FAT32 m d sp)
  end.
Definition createFileSystem (type : FileSystemType) (mp special : list Z) : VM ofs :=
  match type with
  | DEVFS => DeviceFileSystem mp special
  | FAT32 => Fat32FileSystem mp special
  | _ => panic "create file system"
  end.

(** ** File handles *)
Definition file0 : file := File 0 0 false false FD_NONE 0 0 0 0.
Definition is_none (t : ftype) : bool := match t with FD_NONE => true | _ => false end.
Fixpoint allocFileHandle_loop (i n : nat) : VM Z :=
  match n with
  | O => panic "alloc file"
  | S n =>
      f ← fref (ftab i);
      if (f_ref f =? 0) && is_none (f_type f) then put_file (ftab i) (set_ref 1 f);; mret (ftab i)
      else allocFileHandle_loop (S i) n
  end.
Definition allocFileHandle : VM Z := allocFileHandle_loop 0 (Z.to_nat NFILE).
(** [memset(f, 0, sizeof(struct file))], and [FD_NONE] is 0. *)
Definition freeFileHandle (fp : Z) : VM unit :=
  put_file fp file0;; set_filepath fp (replicate MAXPATH 0);; set_directory fp false.

(** [fileTableLock] is held inside one call only. *)
Definition close (fp : Z) : VM unit :=
  f ← fref fp;
  if f_ref f <? 1 then panic "vfs::close"
  else
    put_file fp (set_ref (f_ref f - 1) f);;
    if 0 <? f_ref f - 1 then mret tt
    else
      freeFileHandle fp;;
      match f_type f with
      | FD_PIPE =>
          (if f_writable f then on_fs (pipe_close (f_pipe f) WRITE_END) else mret tt);;
          (if f_readable f then on_fs (pipe_close (f_pipe f) READ_END) else mret tt)
      | _ => mret tt
      end.
Definition dup (fp : Z) : VM Z :=
  f ← fref fp;
  if f_ref f <? 1 then panic "vfs::dup" else put_file fp (set_ref (f_ref f + 1) f);; mret fp.
Definition rewind (fp : Z) : VM Z :=
  f ← fref fp;
  if f_ref f <? 1 then panic "filerewind" else put_file fp (set_offset 0 f);; mret fp.

(** ** Paths *)
Definition getFs (path : list Z) : VM ofs :=
  o ← get_ov;
  match mountedFS o !! getFs_index (mountedFS o) path with
  | Some (Some fs) => mret fs
  | _ => panic "null pointer"
  end.

(** [getAbsolutePath(path, newPath)] on the string [path]: the 64 bytes of
    [newPath]. *)
Definition getAbsolutePath (path : list Z) : K (list Z) :=
  p ← myTask;
  i ← deref p;
  t ← tsk i;
  let curdir := arr_str (currentDir t) in
  let newPath := replicate MAXPATH 0 in
  let oldpath := match path with a :: b :: r => if (a =? 46) && (b =? 47) then r else path | _ => path end in
  if hd 0 oldpath =? 47 then put_str newPath 0 oldpath
  else
    lock (LTask i);;
    newPath ← put_str newPath 0 curdir;
    newPath ← put_str newPath (length curdir) oldpath;
    unlock (LTask i);;
    mret newPath.

(** What mkdirat, openat and rm make of a descriptor and a path. *)
Definition path_at (dirfd : Z) (path : list Z) : K (list Z) :=
  if dirfd =? AT_FDCWD then getAbsolutePath path
  else if hd 0 path =? 47 then put_str (replicate MAXPATH 0) 0 path
  else
    fp ← getFileByfd dirfd;
    in_world (fref fp);;
    d ← in_world (filepath fp);
    let d := arr_str d in
    newpath ← put_str (replicate MAXPATH 0) 0 d;
    put_str newpath (length d) path.

(** ** The calls *)

(** The end of [open]. *)
Definition open_path (path : list Z) (flags : Z) : K Z :=
  fs ← in_world (getFs path);
  fp ← in_world allocFileHandle;
  r ← in_world (fs_open fs path flags fp);
  if r =? -1 then in_world (freeFileHandle fp);; mret (-1)
  else
    d ← in_world (filepath fp);
    n ← strlen_in path;
    in_world (set_filepath fp (safestrcpy_arr d path (S n)));;
    f ← in_world (fref fp);
    in_world (put_file fp (File (f_size f) (f_ref f) (negb (flag flags O_WRONLY))
      (flag flags O_WRONLY || flag flags O_RDWR) (f_type f) (f_pipe f) (f_inode f) (f_offset f) (f_mode f)));;
    registerFileHandle fp (-1).
Definition open (filename : list Z) (flags : Z) : K Z := path ← getAbsolutePath filename; open_path path flags.

(** [openat(dirfd, filename, flags, mode)]: the path is never absolute. *)
Definition openat4 (dirfd : Z) (filename : list Z) (flags : Z) : K Z :=
  fp ← getFileByfd dirfd;
  if fp =? 0 then mret (-1)
  else
    in_world (fref fp);;
    d ← in_world (filepath fp);
    let d := arr_str d in
    path ← put_str (replicate MAXPATH 0) 0 d;
    path ← put_str path (length d) [47];
    path ← put_str path (S (length d)) filename;
    open_path path flags.
(** [openat(dirfd, filepath, flags)] computes the path and opens the name. *)
Definition openat (dirfd : Z) (name : list Z) (flags : Z) : K Z := path_at dirfd name;; open name flags.

Definition read_file (fp : Z) (user : bool) (dst n : Z) : VM Z :=
  if fp =? 0 then mret (-1)
  else
    f ← fref fp;
    if negb (f_readable f) then mret (-1)
    else
      path ← filepath fp;
      fs ← getFs path;
      match f_type f with
      | FD_PIPE => pr ← on_fs (pipe_read (f_pipe f) dst (i32 n)); mret pr
      | FD_DEVICE => r ← fs_read fs path user dst 0 (i32 n); mret (i32 r)
      | FD_ENTRY =>
          r ← fs_read fs path user dst (i32 (f_offset f)) (i32 n);
          f ← fref fp;
          put_file fp (set_offset (u64 (f_offset f + i32 r)) f);;
          mret (i32 r)
      | _ => panic "vfs::read"
      end.
Definition read (fd : Z) (user : bool) (dst n : Z) : K Z :=
  fp ← getFileByfd fd;
  if fp =? 0 then mret (-1) else in_world (read_file fp user dst n).

Definition write_file (fp : Z) (user : bool) (src n : Z) : VM Z :=
  if fp =? 0 then mret (-1)
  else
    f ← fref fp;
    if negb (f_writable f) then mret (-1)
    else
      path ← filepath fp;
      fs ← getFs path;
      match f_type f with
      | FD_PIPE => pr ← on_fs (pipe_write (f_pipe f) src (i32 n)); mret pr
      | FD_DEVICE => r ← fs_write fs path user src 0 (i32 n); mret (i32 r)
      | FD_ENTRY =>
          r ← fs_write fs path user src (i32 (f_offset f)) (i32 n);
          f ← fref fp;
          let e := u64 (f_offset f + i32 r) in
          put_file fp (set_offset e (set_size (if e <? f_size f then f_size f else e) f));;
          mret (i32 r)
      | _ => panic "vfs::write"
      end.
Definition write (fd : Z) (user : bool) (src n : Z) : K Z :=
  fp ← getFileByfd fd;
  if fp =? 0 then mret (-1) else in_world (write_file fp user src n).

Definition mkdirat (dirfd : Z) (name : list Z) : K Z :=
  path ← path_at dirfd name;
  in_world (fs ← getFs path; fs_mkdir fs path).
Definition rm (dirfd : Z) (name : list Z) : K Z :=
  path ← path_at dirfd name;
  in_world (fs ← getFs path; fs_rm fs path).
Definition ls (fd buffer len : Z) (user : bool) : K Z :=
  fp ← getFileByfd fd;
  if fp =? 0 then mret (-1)
  else
    d ← in_world (directory fp);
    if negb d then mret (-1)
    else in_world (path ← filepath fp; fs ← getFs path; fs_ls fs path buffer len user).
Definition mounts : K Z := mret 0.

Fixpoint free_mounted (l : list (option ofs)) (i : nat) : option nat :=
  match l with [] => None | None :: _ => Some i | Some _ :: l => free_mounted l (S i) end.
Definition mount (type : FileSystemType) (mp special : list Z) : K Z :=
  absolutMp ← getAbsolutePath mp;
  n ← strlen_in absolutMp;
  in_world (
    fs ← createFileSystem type (take n absolutMp) special;
    fs_init fs;;
    o ← get_ov;
    match free_mounted (mountedFS o) 0 with
    | Some i => set_mounted (<[i := Some fs]> (mountedFS o));; mret 0
    | None => panic "mount file system"
    end).

(** The slot [umount] finds. *)
Fixpoint find_mounted (l : list (option ofs)) (mp : list Z) (i : nat) : option nat :=
  match l with
  | [] => None
  | None :: l => find_mounted l mp (S i)
  | Some fs :: l =>
      let n := strlen_arr (mountPoint fs) in
      if strncmp_arr (mountPoint fs) mp (Nat.max n (strlen_arr mp)) =? 0 then Some i else find_mounted l mp (S i)
  end.
Definition umount (mpdir : list Z) : K Z :=
  absolutMp ← getAbsolutePath mpdir;
  strlen_in absolutMp;;
  in_world (
    o ← get_ov;
    match find_mounted (mountedFS o) absolutMp 0 with
    | Some i => set_mounted (<[i := None]> (mountedFS o));; mret 0
    | None => mret (-1)
    end).

Definition direct_read (file : list Z) (buffer count offset : Z) : VM Z :=
  fs ← getFs file; r ← fs_read fs file false buffer (i32 offset) (i32 count); mret (i32 r).
Definition direct_write (file : list Z) (buffer count offset : Z) : VM Z :=
  fs ← getFs file; r ← fs_write fs file false buffer (i32 offset) (i32 count); mret (i32 r).

(** A handle is taken before the file system is asked, and given back on two of
    the three ways out. *)
Definition chdir (name : list Z) : K Z :=
  p ← myTask;
  i ← deref p;
  fp ← in_world allocFileHandle;
  path ← getAbsolutePath name;
  fs ← in_world (getFs path);
  r ← in_world (fs_open fs path O_RDONLY fp);
  if r <? 0 then mret (-1)
  else
    d ← in_world (directory fp);
    if negb d then in_world (freeFileHandle fp);; mret (-1)
    else
      n ← strlen_in path;
      path ← match n with
             | O => panic "path[-1]"
             | S n' => if negb (nth n' path 0 =? 47) then put_str path n [47; 0] else mret path
             end;
      lock (LTask i);;
      n ← strlen_in path;
      upd_task i (λ t, set_currentDir (safestrcpy_arr (currentDir t) path (S n)) t);;
      unlock (LTask i);;
      in_world (freeFileHandle fp);;
      mret 0.

(** The constructor of [Pipe] sets the members of the two files. *)
Definition createPipe : K (Z * Z) :=
  f0 ← in_world allocFileHandle;
  f1 ← in_world allocFileHandle;
  p ← in_world (on_fs pipe_new);
  let end_ (f : file) r w := File (f_size f) (f_ref f) r w FD_PIPE p (f_inode f) (f_offset f) (f_mode f) in
  a ← in_world (fref f0);
  in_world (put_file f0 (end_ a true false));;
  b ← in_world (fref f1);
  in_world (put_file f1 (end_ b false true));;
  fd0 ← registerFileHandle f0 (-1);
  fd1 ← registerFileHandle f1 (-1);
  mret (fd0, fd1).

(** The loop of [init] over [fileTable]. *)
Fixpoint init_files (i n : nat) : VM unit :=
  match n with O => mret tt | S n => freeFileHandle (ftab i);; init_files (S i) n end.
Definition init : K Z :=
  in_world (set_mounted (replicate NFILESYSTEM None));;
  in_world (init_files 0 (Z.to_nat NFILE));;
  mount DEVFS s_dev_dir [];;
  mount FAT32 s_slash s_hda1.
End oldvfs.
