(* ===== verification/VfsCalls.v ===== *)
(** * The file layer as tasks, [exec] and the system calls use it

    [FileLayer] (Sched.v) is what the task code needs of the file layer and
    [FileCalls], below, what [exec] and the system calls need beyond it.  Both
    are implemented by the virtual file system of Vfs.v.

    What depends on the calling task is an argument: its working directory
    [cwd], and its page table [pgt], through which [either_copyin] and
    [either_copyout] reach the user's buffers.  So the file systems are given as
    a family [L pgt] of layers over one state. *)
From S2P Require Import Prelude Mem KAlloc Vm Pipe Fat32 Locks Sched Vfs OldVfs.

Class FileCalls (W : Type) := {
  fc_namei (cwd path : Z) : M W Z;
  fc_openat (cwd dir path flags mode : Z) : M W Z;
  fc_unlink (cwd path : Z) : M W Z;
  fc_read (pgt fp buf n : Z) : M W Z;
  fc_write (pgt fp buf n : Z) : M W Z;
  fc_readdir (pgt fp buf len : Z) : M W Z;
  fc_pipe_files : M W (Z * Z);
  fc_file (fp : Z) : M W file;
  fc_set_offset (fp off : Z) : M W unit;
  fc_inode_mode (ip : Z) : M W Z;
}.

(** ** Physical pages under the virtual file system *)
Section pages.
Context {F : Type} `{PageAllocator F}.

Definition with_vw (w : F) (s : vst F) : vst F := VS (files s) (mount_points_ s) (root_ s) w.

#[export] Program Instance vst_pages : PageAllocator (vst F) := {|
  pg_alloc := on_fs pg_alloc;
  pg_free p := on_fs (pg_free p);
  pg_mem s := pg_mem (vw s);
  pg_set_mem m s := with_vw (pg_set_mem m (vw s)) s;
  pg_inv s l := pg_inv (vw s) l;
  pg_managed := pg_managed (S := F);
|}.
Next Obligation. intros m s. apply pg_get_set. Qed.
Next Obligation. intros s l. apply pg_inv_pages. Qed.
Next Obligation. intros s l. apply pg_inv_mem. Qed.
Next Obligation. intros s l m. apply pg_inv_set_mem. Qed.
Next Obligation. intros s Hi. unfold on_fs. rewrite pg_alloc_none by done. by destruct s. Qed.
Next Obligation.
  intros s p l Hi. destruct (pg_alloc_some _ _ _ Hi) as (w & E & Hw & Hm).
  eexists. unfold on_fs. rewrite E. by split.
Qed.
Next Obligation.
  intros s p l Hi Hp Hg Hn. destruct (pg_free_ok _ _ _ Hi Hp Hg Hn) as (w & E & Hw & Hm).
  eexists. unfold on_fs. rewrite E. by split.
Qed.
End pages.

(** ** The implementation *)
Section calls.
Context {F : Type} `{OldWorld F} (L : Z → FsLayer F) (fuel : nat) (new_file : gmap Z file → Z) (a_name : Z).
(** What [new] leaves in a file whose members nothing sets; the members only the
    old file layer uses, and whether the board is a K210. *)
Context (junk : file) (junk_path : Z → list Z) (k210 : bool).
(** No copy to user memory is involved. *)
Abbreviation L0 := (L 0).

#[export] Instance vst_file_layer : FileLayer (vst F) := {|
  vfs_dup := Vfs.dup;
  vfs_close fp := @Vfs.close F L0 fp;
  vfs_old_close fp := @OldVfs.close F L0 _ fp;
  vfs_rewind fp := OldVfs.rewind fp;; mret tt;
  vfs_write pgt fp user src n off := @OldVfs.write_file F (L pgt) _ junk_path k210 fp user src n;
  inode_dup ip := on_fs (@ip_dup F L0 ip);
  inode_free ip := on_fs (@ip_free F L0 ip);
  inode_read ip buf off n user := on_fs (@ip_read F L0 ip buf off n user);
|}.

#[export] Instance vst_file_calls : FileCalls (vst F) := {|
  fc_namei cwd path := @namei F L0 fuel cwd a_name 0 path;
  fc_openat cwd dir path flags mode := @Vfs.openat F L0 fuel new_file cwd a_name dir path flags mode;
  fc_unlink cwd path := fs ← on_fs (@ip_fs F L0 cwd); on_fs (@fs_Unlink F L0 fs cwd path);
  fc_read pgt fp buf n := @Vfs.read F (L pgt) fp buf n true;
  fc_write pgt fp buf n := @Vfs.write F (L pgt) fp buf n true;
  fc_readdir pgt fp buf len := @Vfs.ReadDir F (L pgt) fp buf len true;
  fc_pipe_files := @pipe_files F L0 new_file junk;
  fc_file := fref;
  fc_set_offset fp off := f ← fref fp; put_file fp (set_offset off f);
  fc_inode_mode ip := on_fs (@ip_mode F L0 ip);
|}.
End calls.
