(* ===== verification/Exec.v ===== *)
(** * Program loading: kernel/os/Exec.cpp, kernel/startos/binformat.cpp

    [exec] reads an ELF file, describes its segments as memory areas that are
    loaded on the first access (LoadIfContain of mmap.cpp, in Sched.v), and puts
    arguments, environment and auxiliary vector on a new user stack.

    Local structures and arrays ([elf], [ph], [ustack], ...) lie in the kernel's
    memory at the addresses [a_elf], [a_ph], ...; [lit] gives the address of a
    string literal. *)
From S2P Require Import Prelude Mem KAlloc Vm Buf Locks Sched VfsCalls.

(** ** Elf.hpp *)
Definition ELF_MAGIC : Z := 0x464C457F.
Definition ELF_PROG_LOAD : Z := 1.
Definition ELF_PROG_FLAG_EXEC : Z := 1.
Definition ELF_PROG_FLAG_WRITE : Z := 2.
Definition ELF_PROG_FLAG_READ : Z := 4.
Definition sizeof_elfhdr : Z := 64.
Definition sizeof_proghdr : Z := 56.

(** The members the code uses, at their offsets. *)
Record elfhdr := Elf { e_magic : Z; e_entry : Z; e_phoff : Z; e_phnum : Z }.
Definition get_elfhdr (m : mem) (a : Z) : elfhdr :=
  Elf (ld32 m a) (ld64 m (a + 24)) (ld64 m (a + 32)) (ld 2 m (a + 56)).
Record proghdr := Ph { ph_type : Z; ph_flags : Z; ph_off : Z; ph_vaddr : Z; ph_filesz : Z; ph_memsz : Z }.
Definition get_proghdr (m : mem) (a : Z) : proghdr :=
  Ph (ld32 m a) (ld32 m (a + 4)) (ld64 m (a + 8)) (ld64 m (a + 16)) (ld64 m (a + 32)) (ld64 m (a + 40)).

Definition ELF_PAGESTART (v : Z) : Z := Z.land v (- PGSIZE).
Definition ELF_PAGEOFFSET (v : Z) : Z := Z.land v (PGSIZE - 1).

Definition MAXARG : Z := 64.
Definition MAP_PRIVATE : Z := 2.
Definition PROG : Z := 0.

(** Trap frame members beyond those of Sched.v. *)
Definition TF_RA : Z := 40.
Definition TF_A1 : Z := 120.

(** ** binformat.hpp *)
Record BinProgram := Bin {
  b_sp : Z; b_stackbase : Z; b_pagetable : Z; b_argc : Z; b_envc : Z; b_ustack : Z; b_stack_top : Z;
}.
Definition set_b_sp (x : Z) (b : BinProgram) : BinProgram :=
  Bin x (b_stackbase b) (b_pagetable b) (b_argc b) (b_envc b) (b_ustack b) (b_stack_top b).
Definition set_b_argc (x : Z) (b : BinProgram) : BinProgram :=
  Bin (b_sp b) (b_stackbase b) (b_pagetable b) x (b_envc b) (b_ustack b) (b_stack_top b).
Definition set_b_envc (x : Z) (b : BinProgram) : BinProgram :=
  Bin (b_sp b) (b_stackbase b) (b_pagetable b) (b_argc b) x (b_ustack b) (b_stack_top b).
Definition set_b_stack_top (x : Z) (b : BinProgram) : BinProgram :=
  Bin (b_sp b) (b_stackbase b) (b_pagetable b) (b_argc b) (b_envc b) (b_ustack b) x.

Section exec.
Context {W : Type} `{PageAllocator W, FileLayer W, FileCalls W}.
Context (trampoline : Z) (fuel : nat) (lit : string → Z).
(** [env], and the local variables of [exec] and [CreateUserStack]. *)
Context (env_ a_elf a_ph a_ustack a_argc : Z).
Abbreviation K := (M (ks W)).

Definition kstrlen (p : Z) : M W Z := λ w,
  match strlen fuel (pg_mem w) p with
  | Done n => Done (n, w)
  | Panic e => Panic e
  | NoFuel => NoFuel
  end.

(** [sp -= n; sp -= sp % 16;] *)
Definition push (sp n : Z) : Z := let sp := u64 (sp - n) in u64 (sp - sp mod 16).

(** The loop of [CopyString2Stack]: index [i] runs through both [strs] and
    [ustack]. *)
Fixpoint CopyString2Stack_loop (n : nat) (b : BinProgram) (strs i : Z) : M W (BinProgram * Z) :=
  match n with
  | O => λ _, NoFuel
  | S n =>
      p ← rd64 (strs + 8 * i);
      if p =? 0 then
        wr64 (b_ustack b + 8 * i) 0;;
        mret (set_b_stack_top (i + 1) b, i - b_stack_top b)
      else if MAXARG <? i then mret (b, -1)
      else
        l ← kstrlen p;
        let b := set_b_sp (push (b_sp b) (l + 1)) b in
        if b_sp b <? b_stackbase b then mret (b, -1)
        else
          r ← copyout fuel (b_pagetable b) (b_sp b) p (i32 (l + 1));
          if r <? 0 then mret (b, -1)
          else
            wr64 (b_ustack b + 8 * i) (b_sp b);;
            CopyString2Stack_loop n b strs (i + 1)
  end.
Definition CopyString2Stack (b : BinProgram) (strs : Z) : M W (BinProgram * Z) :=
  CopyString2Stack_loop fuel b strs (b_stack_top b).

Definition CopyString (b : BinProgram) (s : Z) : M W (BinProgram * Z) :=
  l ← kstrlen s;
  let b := set_b_sp (push (b_sp b) (l + 1)) b in
  r ← copyout fuel (b_pagetable b) (b_sp b) s (i32 (l + 1));
  if r <? 0 then mret (b, u64 (-1)) else mret (b, b_sp b).

(** The entries of the auxiliary vector, in order. *)
Definition aux_entries (elf : elfhdr) (filename : Z) : list (Z * Z) :=
  [(0x28, 0); (0x29, 0); (0x2a, 0); (0x2b, 0); (0x2c, 0); (0x2d, 0);
   (3, e_phoff elf); (4, sizeof_proghdr); (5, e_phnum elf); (6, 0x1000); (7, 0); (8, 0);
   (9, e_entry elf); (11, 0); (12, 0); (13, 0); (14, 0); (16, 0x112d); (17, 64);
   (31, filename); (0, 0)].
(** [NEW_AUX_ENT] for each: the words go to [ustack] from [index] on. *)
Fixpoint new_aux_ents (ustack index : Z) (l : list (Z * Z)) : M W Z :=
  match l with
  | [] => mret index
  | (id, val) :: l =>
      wr64 (ustack + 8 * index) id;;
      wr64 (ustack + 8 * (index + 1)) val;;
      new_aux_ents ustack (index + 2) l
  end.

Definition CreateUserStack (b : BinProgram) (elf : elfhdr) : M W (BinProgram * Z) :=
  let index := i32 (b_argc b + b_envc b + 2) in
  '(b, filename) ← CopyString b (lit "./busybox");
  index ← new_aux_ents (b_ustack b) index (aux_entries elf filename);
  let b := set_b_sp (u64 (b_sp b - 8 * index)) b in
  r ← copyout fuel (b_pagetable b) (b_sp b) (b_ustack b) (i32 (8 * index));
  if negb (r =? 0) then mret (b, u64 (-1))
  else
    wr64 a_argc (u64 (b_argc b));;
    let b := set_b_sp (u64 (b_sp b - 8)) b in
    copyout fuel (b_pagetable b) (b_sp b) a_argc 8;;
    mret (b, 0).

(** ** Segments *)

Definition seg_prot (flags : Z) : Z :=
  let p := 0 in
  let p := if negb (Z.land flags ELF_PROG_FLAG_EXEC =? 0) then Z.lor p PROT_EXEC else p in
  let p := if negb (Z.land flags ELF_PROG_FLAG_READ =? 0) then Z.lor p PROT_READ else p in
  if negb (Z.land flags ELF_PROG_FLAG_WRITE =? 0) then Z.lor p PROT_WRITE else p.

(** The area of a segment; [f] is what the table entry holds. *)
Definition seg_vma (ph : proghdr) (ip f : Z) : vma := {|
  v_addr := ELF_PAGESTART (ph_vaddr ph);
  v_type := PROG;
  v_length := i32 (u64 (ph_filesz ph + ELF_PAGEOFFSET (ph_vaddr ph)));
  v_prot := seg_prot (ph_flags ph);
  v_flag := MAP_PRIVATE;
  v_f := f;
  v_ip := ip;
  v_offset := u32 (u64 (ph_off ph - ELF_PAGEOFFSET (ph_vaddr ph)));
|}.

(** The first free slot of [task->vma]. *)
Fixpoint free_slot (vs : list (option nat)) (k : nat) : option nat :=
  match vs with
  | [] => None
  | None :: _ => Some k
  | Some _ :: vs => free_slot vs (S k)
  end.

Definition LazyLoadSeg (i : nat) (ip : Z) (ph : proghdr) : K Z :=
  v ← allocVma;
  ip' ← in_world (inode_dup ip);
  upd_vma v (λ a, seg_vma ph ip' (v_f a));;
  t ← tsk i;
  match free_slot (tvma t) 0 with
  | Some k => upd_task i (λ t, set_tvma (<[k := Some v]> (tvma t)) t);; mret 0
  | None => panic "lazy load segment"
  end.

(** The loop of [exec] that drops the areas of the old program. *)
Fixpoint drop_prog_vmas (i k n : nat) : K unit :=
  match n with
  | O => mret tt
  | S n =>
      t ← tsk i;
      match tvma t !! k with
      | Some (Some v) =>
          a ← vma_at v;
          if v_type a =? PROG then
            vma_free v;; upd_task i (λ t, set_tvma (<[k := None]> (tvma t)) t)
          else mret tt
      | _ => mret tt
      end;;
      drop_prog_vmas i (S k) n
  end.

(** The loop over the program headers, [n] of them left: [inr sz], or [inl sz]
    where the code goes to [bad].  [off] is an [int]. *)
Fixpoint load_segments (i : nat) (ip off sz : Z) (n : nat) : K (Z + Z) :=
  match n with
  | O => mret (inr sz)
  | S n =>
      r ← in_world (inode_read ip a_ph (u32 off) sizeof_proghdr false);
      if negb (r =? sizeof_proghdr) then mret (inl sz)
      else
        ph ← in_world (gets (λ w, get_proghdr (pg_mem w) a_ph));
        if negb (ph_type ph =? ELF_PROG_LOAD) then load_segments i ip (i32 (off + sizeof_proghdr)) sz n
        else if ph_memsz ph <? ph_filesz ph then mret (inl sz)
        else if u64 (ph_vaddr ph + ph_memsz ph) <? ph_vaddr ph then mret (inl sz)
        else
          let sz := u64 (ph_vaddr ph + ph_memsz ph) in
          r ← LazyLoadSeg i ip ph;
          if r <? 0 then mret (inl sz) else load_segments i ip (i32 (off + sizeof_proghdr)) sz n
  end.

(** [for (last = s = path; *s; s++) if ( *s == '/') last = s + 1;] *)
Fixpoint base_name (n : nat) (m : mem) (s last : Z) : outcome Z :=
  match n with
  | O => NoFuel
  | S n => if m s =? 0 then Done last
           else base_name n m (s + 1) (if m s =? 47 then s + 1 else last)
  end.

(** The label [bad]. *)
Definition exec_bad (ip pagetable sz a0 : Z) : K Z :=
  in_world (inode_free ip);;
  (if negb (pagetable =? 0) then in_world (FreeTaskPagetable fuel pagetable sz) else mret tt);;
  mret a0.

(** The user stack: the page above the program, filled from the top. *)
Definition build_stack (pagetable sz argv : Z) (elf : elfhdr) : M W Z :=
  let b := Bin (u64 (sz - 8)) (u64 (sz - PGSIZE)) pagetable 0 0 a_ustack 0 in
  '(b, argc) ← CopyString2Stack b argv;
  let b := set_b_argc argc b in
  '(b, envc) ← CopyString2Stack b env_;
  let b := set_b_envc envc b in
  '(b, _) ← CreateUserStack b elf;
  mret (b_sp b).

(** What [exec] does once everything is loaded: the task takes the new page
    table and loses the old one, of [oldsz] bytes. *)
Definition commit_exec (i : nat) (ip path pagetable sz sp oldsz entry : Z) : K Z :=
  t ← tsk i;
  in_world (wr64 (trapframe t + TF_A1) sp);;
  last ← in_world (λ w, match base_name fuel (pg_mem w) path path with
                        | Done p => Done (p, w) | Panic e => Panic e | NoFuel => NoFuel end);
  src ← in_world (gets (λ w, rd_bytes (pg_mem w) last 17));
  upd_task i (λ t, set_name (safestrcpy_arr (name t) src 17) t);;
  in_world (wr64 (trapframe t + TF_RA) 0);;
  upd_task i (λ t, set_sz (i32 sz) (set_pagetable pagetable t));;
  in_world (wr64 (trapframe t + TF_EPC) entry);;
  in_world (wr64 (trapframe t + TF_SP) sp);;
  in_world (FreeTaskPagetable fuel (Sched.pagetable t) (u64 oldsz));;
  in_world (inode_free ip);;
  lock (LTask i);;
  unlock (LTask i);;
  mret 0.

Definition exec (path argv : Z) : K Z :=
  p ← myTask;
  i ← deref p;
  t ← tsk i;
  pagetable ← in_world (taskPagetable trampoline fuel (trapframe t));
  if pagetable =? 0 then mret 0
  else
    ip ← in_world (fc_namei (cwd t) path);
    if ip =? 0 then mret 0
    else
      in_world (kmemset a_elf 0 sizeof_elfhdr);;
      n ← in_world (inode_read ip a_elf 0 sizeof_elfhdr false);
      if negb (n =? sizeof_elfhdr) then exec_bad ip pagetable 0 0
      else
        drop_prog_vmas i 0 NOMMAPFILE;;
        elf ← in_world (gets (λ w, get_elfhdr (pg_mem w) a_elf));
        if negb (e_magic elf =? ELF_MAGIC) then exec_bad ip pagetable 0 0
        else
          t ← tsk i;
          let oldsz := sz t in
          r ← load_segments i ip (i32 (e_phoff elf)) 0 (Z.to_nat (e_phnum elf));
          match r with
          | inl sz => exec_bad ip pagetable sz 0
          | inr sz =>
              let sz := u64 (PGROUNDUP sz) in
              sz1 ← in_world (userAlloc fuel pagetable sz (u64 (sz + PGSIZE)));
              if sz1 =? 0 then exec_bad ip pagetable sz 0
              else
                sp ← in_world (build_stack pagetable sz1 argv elf);
                commit_exec i ip path pagetable sz1 sp oldsz (e_entry elf)
          end.

(** ** Loading a segment at once: not called any more *)

(** [i], [newsz] and [n] are unsigned 32-bit, [read] gives an [int]. *)
Fixpoint loadseg_loop (n : nat) (pagetable va ip offset newsz i : Z) : M W Z :=
  match n with
  | O => λ _, NoFuel
  | S n =>
      if i <? newsz then
        pa ← walkAddr pagetable (u64 (va + i));
        if pa =? 0 then panic "loadseg: address should exist"
        else
          let pa := u64 (pa + (u64 (va + i)) mod PGSIZE) in
          let len := if newsz - i <? PGSIZE - pa mod PGSIZE then newsz - i else PGSIZE - pa mod PGSIZE in
          r ← inode_read ip pa (u32 (offset + i)) len false;
          if negb (u32 r =? len) then mret (-1)
          else loadseg_loop n pagetable va ip offset newsz (u32 (i + len))
      else mret 0
  end.
Definition loadseg (pagetable va ip offset sz : Z) : M W Z :=
  loadseg_loop fuel pagetable va ip offset (if 10 * PGSIZE <? sz then 10 * PGSIZE else sz) 0.
End exec.
