(* ===== verification/OldCalls.v ===== *)
(** * The system calls that go through the old file layer

    [OldCalls] is what mkdirat, chdir, mount and umount need of Vfs.cpp, with
    paths as pointers to strings in memory; [old_calls] implements it by
    OldVfs.v. *)
From S2P Require Import Prelude Mem KAlloc Vm Buf Pipe Fat32 Locks Sched Vfs OldVfs VfsCalls Exec.

Class OldCalls (W : Type) := {
  old_mkdirat (fd path : Z) : M (ks W) Z;
  old_chdir (path : Z) : M (ks W) Z;
  old_mount (dir special : Z) : M (ks W) Z;
  old_umount (dir : Z) : M (ks W) Z;
}.

Section old_calls.
Context {F : Type} `{PageAllocator F, OldWorld F} (fuel : nat).
Context (ftab : nat → Z) (junk_path : Z → list Z).

(** The string at an address. *)
Definition path_string (p : Z) : M (vst F) (list Z) :=
  n ← kstrlen fuel p; m ← gets pg_mem; mret (rd_bytes m p (Z.to_nat n)).

#[export] Instance old_calls : OldCalls (vst F) := {|
  old_mkdirat fd path := name ← in_world (path_string path); OldVfs.mkdirat junk_path fd name;
  old_chdir path := name ← in_world (path_string path); OldVfs.chdir ftab name;
  old_mount dir special :=
    mp ← in_world (path_string dir); sp ← in_world (path_string special); OldVfs.mount FAT32 mp sp;
  old_umount dir := mp ← in_world (path_string dir); OldVfs.umount mp;
|}.
End old_calls.
