(* ===== verification/LazyLoad.v ===== *)
(** * Loading a segment on its first access

    [LazyLoadSeg] (Exec.v) turns a program header into a memory area and reads
    nothing; [LoadIfContain] (Sched.v), called for an address that is not
    mapped, fetches one page of it.  Together they have to put the bytes of the
    file where the header wants them. *)
From S2P Require Import Prelude Mem KAlloc Vm VmFacts VmProps VmWitness Buf Pipe Fat32 Locks Sched VfsCalls Exec.

Section load.
Context {W : Type} `{PageAllocator W, FileLayer W}.
Implicit Types (w : W) (ip : Z) (bytes : list Z).

(** [inode::read] of a file with these bytes into kernel memory: what
    [Fat32Files.read_inode_returns_contents] shows of a FAT32 inode.  It keeps
    the free pages as far as its own store leaves them alone. *)
Definition reads_file ip bytes : Prop := ∀ w dst off n, 0 ≤ off → 0 ≤ n →
  let got := take (Z.to_nat n) (drop (Z.to_nat off) bytes) in
  ∃ w', inode_read ip dst off n false w = Done (Z.of_nat (length got), w') ∧
    pg_mem w' = wr_bytes (pg_mem w) dst got ∧
    ∀ l, pg_inv (pg_set_mem (pg_mem w') w) l → pg_inv w' l.

(** ** A page from the free list *)

Lemma free_page_ok w root p l : space w root (p :: l) → page_ok p ∧ p ∉ l.
Proof.
  intros Hs. destruct (pg_inv_pages _ _ (sp_inv _ _ _ Hs)) as [[Hn _]%NoDup_cons [[Hp _] _]%Forall_cons]. done.
Qed.

(** The tables and the other free pages lie outside a page that was free. *)
Lemma apart w root p l x :
  space w root (p :: l) → in_page p x →
  ¬ in_tables (pg_mem w) root x ∧ ∀ q, q ∈ l → ¬ in_page q x.
Proof.
  intros Hs Hx. pose proof (free_page_ok _ _ _ _ Hs) as [Hp Hn]. split.
  - intros Ht. by destruct (in_tables_not_free w root (p :: l) p x Hs ltac:(by left) Ht).
  - intros q Hq. apply (MemAllocator.pages_disjoint p q x Hp); [|by intros ->|done].
    destruct (pg_inv_pages _ _ (sp_inv _ _ _ Hs)) as [_ Hok]. rewrite Forall_forall in Hok. apply Hok. by right.
Qed.

(** The space keeps its shape when only a page outside it changes. *)
Lemma space_outside w w' root l l' :
  space w root l → pg_inv w' l' → (∀ q, q ∈ l' → q ∈ l) →
  (∀ x, in_tables (pg_mem w) root x → pg_mem w' x = pg_mem w x) → space w' root l'.
Proof.
  intros Hs Hi Hl Hag. split; [done|by eapply tree_frame, sp_tree|].
  intros q t Hq. rewrite (node_frame _ _ _ _ Hag) by done. intros Ht Hin.
  eapply (sp_free _ _ _ Hs); [done..|by apply Hl].
Qed.

Definition zero_page (p : Z) (w1 : W) : W := pg_set_mem (memset (pg_mem w1) p 0 PGSIZE) w1.

Lemma alloc_zeroed w root p l :
  space w root (p :: l) →
  ∃ w1, pg_alloc w = Done (p, w1) ∧ space (zero_page p w1) root l ∧
    (∀ x, in_page p x → pg_mem (zero_page p w1) x = 0) ∧
    (∀ x, ¬ in_page p x → pg_mem (zero_page p w1) x = pg_mem w x).
Proof.
  intros Hs. destruct (pg_alloc_some _ _ _ (sp_inv _ _ _ Hs)) as (w1 & E & Hi & Hout).
  exists w1. split; [done|]. unfold zero_page. rewrite !pg_get_set.
  assert (∀ x, in_page p x → memset (pg_mem w1) p 0 PGSIZE x = 0) as Hin.
  { intros x Hx. by apply memset_in. }
  assert (∀ x, ¬ in_page p x → memset (pg_mem w1) p 0 PGSIZE x = pg_mem w1 x) as Hx1.
  { intros x Hx. by apply memset_out. }
  split_and!; [|done|intros x Hx; rewrite Hx1 by done; by apply Hout].
  apply (space_outside w _ root (p :: l)); [done| |by right|].
  - apply pg_inv_set_mem; [done|apply memset_ok; by eapply pg_inv_mem|].
    intros q x Hq Hx. apply Hx1. intros Hp.
    by eapply (proj2 (apart w root p l x Hs Hp)).
  - intros x Hx. rewrite pg_get_set, Hx1, Hout; [done|..]; intros Hp;
      by apply (proj1 (apart w root p l x Hs Hp)).
Qed.

(** ** Mapping and filling it *)

(** [mappages] of one page at an unmapped address, with two free pages for the
    tables that may be missing. *)
Lemma map_page fuel w root l P p perm :
  space w root l → P mod PGSIZE = 0 → 0 ≤ P → P + PGSIZE ≤ MAXVA → entry (pg_mem w) root P = None →
  page_ok p → 0 ≤ perm < 1024 → (2 ≤ length l)%nat → (0 < fuel)%nat →
  ∃ w' l', mappages fuel root P PGSIZE p perm w = Done (0, w') ∧ evolves root w l w' l' ∧
    ∀ va, 0 ≤ va < MAXVA → entry (pg_mem w') root va =
      if va / PGSIZE =? P / PGSIZE then Some (mk_entry p perm) else entry (pg_mem w) root va.
Proof.
  intros Hs Hal HP Hmax Hn Hp Hperm Hl Hf. destruct fuel as [|fuel]; [lia|]. unfold mappages.
  rewrite !MemAllocator.PGROUNDDOWN_spec, u64_small by (change MAXVA with (2 ^ 38) in *; unfold PGSIZE in *; lia).
  replace (P - P mod PGSIZE) with P by lia.
  replace (P + PGSIZE - 1 - (P + PGSIZE - 1) mod PGSIZE) with P by (unfold PGSIZE in *; dlia).
  destruct (mappages_step fuel root P P p perm w l) as (w' & l' & Hev & [(_ & ? & _)|(_ & _ & _ & Hent & Hrun)]); try done.
  - unfold PGSIZE in *; lia.
  - lia.
  - exists w', l'. rewrite Hrun, Z.eqb_refl. split_and!; [done..|]. intros va Hva. rewrite Hent by done.
    unfold mapped. destruct (Z.eqb_spec (va / PGSIZE) (P / PGSIZE)) as [E|E].
    + rewrite E, Z.add_0_r, !Z.leb_refl. cbn. by rewrite Z.sub_diag, Z.add_0_r.
    + destruct (_ && _) eqn:E2; [bool_arith; lia|done].
Qed.

Lemma wr_bytes_ok m a bs : mem_ok m → Forall (λ b, 0 ≤ b < 256) bs → mem_ok (wr_bytes m a bs).
Proof.
  intros Hm Hb x. rewrite wr_bytes_at. destruct (decide (a ≤ x)); [|apply Hm].
  destruct (bs !! Z.to_nat (x - a)) as [b|] eqn:E; [|apply Hm]. by eapply (Forall_lookup_1 _ _ _ _ Hb).
Qed.

(** A page of the file at [P]: [n] bytes from [off], the rest zero. *)
Definition page_bytes bytes (off n k : Z) : Z := if k <? n then default 0 (bytes !! Z.to_nat (off + k)) else 0.

Lemma got_lookup bytes off n k :
  0 ≤ off → 0 ≤ k → take (Z.to_nat n) (drop (Z.to_nat off) bytes) !! Z.to_nat k =
    if k <? n then bytes !! Z.to_nat (off + k) else None.
Proof.
  intros Ho Hk. destruct (Z.ltb_spec k n).
  - rewrite lookup_take_lt, lookup_drop by lia. f_equal. lia.
  - rewrite lookup_take_ge by lia. done.
Qed.

(** A page apart from the tables and the free pages stays apart. *)
Lemma apart_evolves root w l w' l' p :
  evolves root w l w' l' →
  (∀ x, in_page p x → ¬ in_tables (pg_mem w) root x ∧ ∀ q, q ∈ l → ¬ in_page q x) →
  ∀ x, in_page p x → ¬ in_tables (pg_mem w') root x ∧ ∀ q, q ∈ l' → ¬ in_page q x.
Proof.
  intros Hev Hsep x Hx. destruct (ev_new _ _ _ _ _ Hev) as [new Hnew]. split.
  - intros (q & t & Hq & Ht & Hxt). destruct (ev_from _ _ _ _ _ Hev q t Hq Ht) as [Ht'|Ht'].
    + apply (proj1 (Hsep x Hx)). by exists q, t.
    + by apply (proj2 (Hsep x Hx) t Ht').
  - intros q Hq. apply (proj2 (Hsep x Hx)). rewrite Hnew. apply elem_of_app. by right.
Qed.

(** What [load_page] leaves: page [p] at [P], with [n] bytes of the file. *)
Record loaded w root P p perm bytes off n (w' : W) (l' : list Z) : Prop := {
  ld_space : space w' root l';
  ld_entry : ∀ va, 0 ≤ va < MAXVA → entry (pg_mem w') root va =
    if va / PGSIZE =? P / PGSIZE then Some (mk_entry p perm) else entry (pg_mem w) root va;
  ld_bytes : ∀ k, 0 ≤ k < PGSIZE → pg_mem w' (p + k) = page_bytes bytes off n k;
}.

Lemma load_page fuel w root p l ip bytes P off n perm :
  space w root (p :: l) → (2 ≤ length l)%nat → P mod PGSIZE = 0 → 0 ≤ P → P + PGSIZE ≤ MAXVA →
  entry (pg_mem w) root P = None → 0 ≤ perm < 1024 → 0 ≤ off → 0 ≤ n ≤ PGSIZE →
  reads_file ip bytes → Forall (λ b, 0 ≤ b < 256) bytes → (0 < fuel)%nat →
  ∃ w1 w2 w3 r l', pg_alloc w = Done (p, w1) ∧
    mappages fuel root P PGSIZE p perm (zero_page p w1) = Done (0, w2) ∧
    inode_read ip p off n false w2 = Done (r, w3) ∧ loaded w root P p perm bytes off n w3 l'.
Proof.
  intros Hs Hl Hal HP Hmax Hn Hperm Hoff Hlen Hr Hb Hf.
  destruct (free_page_ok _ _ _ _ Hs) as [Hp Hpl].
  destruct (alloc_zeroed _ _ _ _ Hs) as (w1 & E1 & Hs1 & Hz & Hag1).
  assert (∀ x, in_tables (pg_mem w) root x → pg_mem (zero_page p w1) x = pg_mem w x) as Htab1.
  { intros x Hx. apply Hag1. intros Hx'. by apply (proj1 (apart w root p l x Hs Hx')). }
  assert (∀ x, in_page p x → ¬ in_tables (pg_mem (zero_page p w1)) root x ∧ ∀ q, q ∈ l → ¬ in_page q x) as Hsep1.
  { intros x Hx. rewrite (in_tables_agree _ _ _ _ Htab1). by apply (apart w _ p). }
  assert (∀ va, 0 ≤ va → entry (pg_mem (zero_page p w1)) root va = entry (pg_mem w) root va) as He1.
  { intros va Hva. by apply entry_frame. }
  destruct (map_page fuel _ root l P p perm Hs1 Hal HP Hmax ltac:(by rewrite He1) Hp Hperm Hl Hf)
    as (w2 & l2 & E2 & Hev & He2).
  pose proof (apart_evolves _ _ _ _ _ _ Hev Hsep1) as Hsep2.
  destruct (Hr w2 p off n Hoff ltac:(lia)) as (w3 & E3 & Em & Hinv).
  exists w1, w2, w3. eexists. exists l2. split_and!; [done..|].
  set (got := take (Z.to_nat n) (drop (Z.to_nat off) bytes)) in *.
  assert (∀ x, ¬ in_page p x → pg_mem w3 x = pg_mem w2 x) as Hout.
  { intros x Hx. rewrite Em. apply wr_bytes_out. unfold in_page, PGSIZE in *.
    assert (length got ≤ Z.to_nat n)%nat by (unfold got; rewrite length_take; lia). lia. }
  assert (∀ x, in_tables (pg_mem w2) root x → pg_mem w3 x = pg_mem w2 x) as Htab.
  { intros x Hx. apply Hout. intros Hx'. by apply (proj1 (Hsep2 x Hx')). }
  split.
  - apply (space_outside w2 _ root l2); [apply Hev| |done|done].
    apply Hinv, pg_inv_set_mem; [apply Hev| |].
    + rewrite Em. apply wr_bytes_ok; [eapply pg_inv_mem, Hev|]. by apply Forall_take, Forall_drop.
    + intros q x Hq Hx. apply Hout. intros Hx'. by apply (proj2 (Hsep2 x Hx') q Hq).
  - intros va Hva. rewrite (entry_frame (pg_mem w2)) by (done || lia). rewrite He2 by done.
    destruct (_ =? _); [done|]. apply He1. lia.
  - intros k Hk. rewrite Em, wr_bytes_at, decide_True by lia. replace (p + k - p) with k by lia.
    unfold got. rewrite got_lookup by lia. unfold page_bytes.
    assert (pg_mem w2 (p + k) = 0) as ->.
    { assert (in_page p (p + k)) as Hx by (unfold in_page; lia).
      rewrite (ev_frame _ _ _ _ _ Hev); [by apply Hz|by apply Hsep1..]. }
    destruct (k <? n); [|done]. by destruct (bytes !! _).
Qed.

(** ** The area of a segment *)

(** A header [exec] can place: below [MAXVA], less than 2 GB, with the file
    offset congruent enough to start the first page before the segment. *)
Record seg_ok (ph : proghdr) : Prop := {
  so_vaddr : 0 ≤ ph_vaddr ph;
  so_size : 0 < ph_filesz ph < 2 ^ 31 - PGSIZE;
  so_top : ph_vaddr ph + ph_filesz ph ≤ MAXVA;
  so_off : ph_vaddr ph mod PGSIZE ≤ ph_off ph;
  so_file : ph_off ph + ph_filesz ph < 2 ^ 31;
}.
Definition seg_start (ph : proghdr) : Z := ph_vaddr ph - ph_vaddr ph mod PGSIZE.
Definition seg_stop (ph : proghdr) : Z := ph_vaddr ph + ph_filesz ph.
Definition seg_perm (ph : proghdr) : Z := prot_perm (Z.lor PTE_V PTE_U) (seg_prot (ph_flags ph)).

Lemma seg_vma_fields ph ip f :
  seg_ok ph →
  v_addr (seg_vma ph ip f) = seg_start ph ∧
  u64 (v_addr (seg_vma ph ip f) + v_length (seg_vma ph ip f)) = seg_stop ph ∧
  v_offset (seg_vma ph ip f) = ph_off ph - ph_vaddr ph mod PGSIZE.
Proof.
  intros [H1 H2 H3 H4 H5]. cbn [seg_vma v_addr v_length v_offset].
  unfold ELF_PAGESTART, ELF_PAGEOFFSET, seg_start, seg_stop. change MAXVA with (2 ^ 38) in *.
  change (- PGSIZE) with (- 2 ^ 12). change (PGSIZE - 1) with (2 ^ 12 - 1).
  rewrite land_lnot_ones, land_ones_mod by lia. change (2 ^ 12) with PGSIZE.
  pose proof (Z.mod_pos_bound (ph_vaddr ph) PGSIZE ltac:(done)) as Hm. unfold PGSIZE in Hm, H2 |- *.
  rewrite (u64_small (ph_filesz ph + _)), i32_small, (u64_small (ph_vaddr ph - _ + _)), (u64_small (ph_off ph - _)),
    u32_small by (unfold PGSIZE in *; lia).
  split_and!; [done|lia|done].
Qed.

Lemma prot_bits prot : 0 ≤ prot_perm (Z.lor PTE_V PTE_U) prot < 1024 ∧ Z.testbit (prot_perm (Z.lor PTE_V PTE_U) prot) 4 = true.
Proof.
  unfold prot_perm. destruct (negb (Z.land prot PROT_READ =? 0)), (negb (Z.land prot PROT_WRITE =? 0)),
    (negb (Z.land prot PROT_EXEC =? 0)); vm_compute; split_and!; done.
Qed.

(** The page of an address. *)
Lemma page_start va : (va - va mod PGSIZE) mod PGSIZE = 0 ∧ (va - va mod PGSIZE) / PGSIZE = va / PGSIZE.
Proof. unfold PGSIZE. dlia. Qed.
Lemma page_start_same a b : a / PGSIZE = b / PGSIZE → a - a mod PGSIZE = b - b mod PGSIZE.
Proof. unfold PGSIZE. dlia. Qed.
Lemma page_start_above b va : b mod PGSIZE = 0 → b ≤ va → b ≤ va - va mod PGSIZE ≤ va.
Proof. unfold PGSIZE. dlia. Qed.
Lemma page_roundup P : P mod PGSIZE = 0 → 0 ≤ P < 2 ^ 62 → PGROUNDUP (P + 1) = P + PGSIZE.
Proof.
  intros HP Hb. destruct (MemAllocator.PGROUNDUP_spec (P + 1) ltac:(lia)) as [H1 H2]. unfold PGSIZE in *. dlia.
Qed.
(** An address from the last byte up to the end of its page. *)
Lemma page_last stop va :
  0 < stop < 2 ^ 62 → stop ≤ va < PGROUNDUP stop → (stop - 1) / PGSIZE = va / PGSIZE.
Proof.
  intros Hs Hva. destruct (MemAllocator.PGROUNDUP_spec stop ltac:(lia)) as [H1 H2]. unfold PGSIZE in *. dlia.
Qed.

(** [LoadIfContain] on such an area, up to the calls that change the state. *)
Lemma LoadIfContain_seg fuel ph ip f root va w :
  seg_ok ph → ip ≠ 0 → seg_start ph ≤ va < PGROUNDUP (seg_stop ph) →
  tree (pg_mem w) root → entry (pg_mem w) root va = None →
  let P := va - va mod PGSIZE in
  LoadIfContain fuel (seg_vma ph ip f) root va w =
  (mem ← pg_alloc;
   kmemset mem 0 PGSIZE;;
   mappages fuel root P PGSIZE mem (seg_perm ph);;
   inode_read ip mem (ph_off ph - ph_vaddr ph mod PGSIZE + (P - seg_start ph))
     (Z.min PGSIZE (seg_stop ph - P)) false;;
   mret true) w.
Proof.
  intros Hok Hip Hva Htr Hn P. destruct (seg_vma_fields ph ip f Hok) as (Ea & Es & Eo).
  destruct Hok as [H1 H2 H3 H4 H5].
  assert (0 ≤ ph_vaddr ph mod PGSIZE < PGSIZE) as Hm by (apply Z.mod_pos_bound; done).
  assert (seg_start ph mod PGSIZE = 0) as Hal by (unfold seg_start, PGSIZE; dlia).
  change MAXVA with (2 ^ 38) in *.
  assert (0 ≤ seg_start ph ∧ seg_start ph < seg_stop ph ≤ 2 ^ 38) as Hst by (unfold seg_start, seg_stop, PGSIZE in *; dlia).
  unfold LoadIfContain. rewrite Es, Ea, Eo. cbn [v_prot v_ip seg_vma].
  rewrite MemAllocator.PGROUNDDOWN_spec, Hal, Z.sub_0_r.
  rewrite (proj2 (Z.ltb_ge va (seg_start ph))), (proj2 (Z.leb_gt (PGROUNDUP (seg_stop ph)) va)) by lia. cbn [orb].
  (* the address looked up lies in the same page *)
  set (va2 := if seg_stop ph <=? va then u64 (seg_stop ph - 1) else va).
  assert (0 ≤ va2 < seg_stop ph ∧ va2 / PGSIZE = va / PGSIZE) as [Hv2 Hpg].
  { unfold va2. destruct (Z.leb_spec (seg_stop ph) va); [|lia].
    rewrite u64_small by lia. split; [lia|apply page_last; lia]. }
  assert (walkAddr root va2 w = Done (0, w)) as Ew.
  { rewrite walkAddr_spec by (done || lia). unfold translate.
    rewrite (entry_page _ _ va2 va), Hn by (done || lia). by destruct (MAXVA <=? va2). }
  rewrite (M_bind_Done _ _ _ _ _ Ew). cbn [Z.eqb negb].
  assert (PGROUNDDOWN va2 = P) as EP.
  { rewrite MemAllocator.PGROUNDDOWN_spec. by apply page_start_same. }
  assert (seg_start ph ≤ P < seg_stop ph ∧ P mod PGSIZE = 0) as [HP HPm].
  { pose proof (page_start_above _ va Hal ltac:(lia)). pose proof (page_start_same _ _ Hpg).
    assert (P ≤ va2) by (pose proof (Z.mod_pos_bound va2 PGSIZE ltac:(done)); unfold P; lia).
    split; [unfold P in *; lia|apply page_start]. }
  rewrite EP, (proj2 (Z.eqb_neq ip 0)), (proj2 (Z.ltb_ge P (seg_start ph))) by lia.
  rewrite (u64_small (P + 1)) by lia.
  rewrite page_roundup by (done || lia).
  assert (∀ mem, mem + P - PGROUNDDOWN P = mem) as Emem.
  { intros mem. rewrite MemAllocator.PGROUNDDOWN_spec, HPm. lia. }
  assert (i32 ((if seg_stop ph <? P + PGSIZE then seg_stop ph else P + PGSIZE) - P) = Z.min PGSIZE (seg_stop ph - P)) as ->.
  { destruct (Z.ltb_spec (seg_stop ph) (P + PGSIZE)); rewrite i32_small by (unfold PGSIZE in *; lia);
      unfold PGSIZE in *; lia. }
  rewrite (proj2 (Z.ltb_ge PGSIZE (Z.min PGSIZE (seg_stop ph - P)))) by lia.
  rewrite u32_small by (unfold seg_start, seg_stop, PGSIZE in *; lia).
  fold (seg_perm ph). unfold mbind, M_bind. destruct (pg_alloc w) as [[mem w1]| |]; [|done..]. by rewrite Emem.
Qed.

(** What the program finds at [x]: the bytes of the file up to the end of the
    segment, zeros in the rest of its last page. *)
Definition seg_byte bytes (ph : proghdr) (x : Z) : Z :=
  if x <? seg_stop ph then default 0 (bytes !! Z.to_nat (ph_off ph + (x - ph_vaddr ph))) else 0.

Lemma loaded_phys w root P p perm bytes off n w' l' x :
  loaded w root P p perm bytes off n w' l' → page_ok p → 0 ≤ perm < 1024 → Z.testbit perm 4 = true →
  0 ≤ x < MAXVA → x / PGSIZE = P / PGSIZE → phys (pg_mem w') root x = Some (p + x mod PGSIZE).
Proof.
  intros Hl Hp Hperm Hu Hx HxP. unfold phys, translate.
  rewrite (proj2 (Z.leb_gt MAXVA x)), (ld_entry _ _ _ _ _ _ _ _ _ _ Hl), HxP, Z.eqb_refl by lia.
  rewrite mk_entry_U, Hu, mk_entry_pa by done.
  destruct Hp as (_ & ? & _). by rewrite (proj2 (Z.eqb_neq p 0)) by lia.
Qed.

Lemma seg_page ph va :
  seg_ok ph → seg_start ph ≤ va < PGROUNDUP (seg_stop ph) →
  let P := va - va mod PGSIZE in
  seg_start ph ≤ P < seg_stop ph ∧ P ≤ va ∧ 0 ≤ seg_start ph ≤ ph_vaddr ph ∧ 0 ≤ va < MAXVA ∧ P + PGSIZE ≤ MAXVA.
Proof.
  intros [H1 H2 H3 H4 H5] Hva P. change MAXVA with (2 ^ 38) in *.
  assert (seg_start ph mod PGSIZE = 0 ∧ 0 ≤ seg_start ph ≤ ph_vaddr ph) as (Hal & Hst).
  { pose proof (page_start (ph_vaddr ph)). unfold seg_start, PGSIZE in *. split; [tauto|dlia]. }
  pose proof (page_start_above _ va Hal ltac:(lia)) as HP. fold P in HP.
  unfold seg_stop in *. destruct (MemAllocator.PGROUNDUP_spec (ph_vaddr ph + ph_filesz ph) ltac:(lia)) as [Hu1 Hu2].
  unfold P, PGSIZE in *. split_and!; try lia; dlia.
Qed.

(** Claim C13. A page of a program appears on its first access.  If [va] lies in
    the pages of a segment that [exec] described with [LazyLoadSeg], is not
    mapped, and three pages are free, one for the data and two for tables, then
    [LoadIfContain] succeeds and the whole page of [va] is there: at each of its
    addresses the program finds the byte of the file that the header puts
    there, and zeros behind the end of the segment; the page has the header's
    permissions; no other mapping changes. *)
Theorem segment_page_loads fuel ph ip f root va w p l bytes :
  seg_ok ph → ip ≠ 0 → reads_file ip bytes → Forall (λ b, 0 ≤ b < 256) bytes →
  seg_start ph ≤ va < PGROUNDUP (seg_stop ph) →
  space w root (p :: l) → (2 ≤ length l)%nat → entry (pg_mem w) root va = None → (0 < fuel)%nat →
  ∃ w' l', ⟪ LoadIfContain fuel (seg_vma ph ip f) root va ⟫ w ⇓ (true, w') ∧ space w' root l' ∧
    (∀ x, x / PGSIZE = va / PGSIZE →
       phys (pg_mem w') root x = Some (p + x mod PGSIZE) ∧
       pg_mem w' (p + x mod PGSIZE) = seg_byte bytes ph x) ∧
    entry (pg_mem w') root va = Some (mk_entry p (seg_perm ph)) ∧
    (∀ x, 0 ≤ x < MAXVA → x / PGSIZE ≠ va / PGSIZE → entry (pg_mem w') root x = entry (pg_mem w) root x).
Proof.
  intros Hok Hip Hrd Hb Hva Hs Hl Hn Hf. destruct (prot_bits (seg_prot (ph_flags ph))) as [Hperm Hu].
  fold (seg_perm ph) in Hperm, Hu. rewrite LoadIfContain_seg by (done || apply Hs).
  destruct (free_page_ok _ _ _ _ Hs) as [Hp _]. destruct Hok as [H1 H2 H3 H4 H5].
  set (P := va - va mod PGSIZE). destruct (page_start va) as [HPm HPd]. fold P in HPm, HPd.
  destruct (seg_page ph va (Build_seg_ok _ H1 H2 H3 H4 H5) Hva) as (HP & HPva & Hst & Hva0 & HPmax). fold P in HP, HPva, HPmax.
  destruct (load_page fuel w root p l ip bytes P (ph_off ph - ph_vaddr ph mod PGSIZE + (P - seg_start ph))
    (Z.min PGSIZE (seg_stop ph - P)) (seg_perm ph)) as (w1 & w2 & w3 & r & l' & E1 & E2 & E3 & Hld);
    try done; try lia. 
  { by rewrite (entry_page _ _ P va) by (done || lia). }
  { unfold PGSIZE in *. lia. }
  exists w3, l'. split; [|split_and!; [apply Hld| | |]].
  - rewrite (M_bind_Done _ _ _ _ _ E1).
    erewrite M_bind_Done by reflexivity. fold (zero_page p w1).
    by rewrite (M_bind_Done _ _ _ _ _ E2), (M_bind_Done _ _ _ _ _ E3).
  - intros x Hx. assert (x mod PGSIZE = x - P ∧ 0 ≤ x < MAXVA) as [Hxm Hx0].
    { change MAXVA with (2 ^ 38) in *. unfold P, PGSIZE in *. dlia. }
    pose proof (Z.mod_pos_bound x PGSIZE ltac:(done)) as Hxr.
    split; [by apply (loaded_phys _ _ _ _ _ _ _ _ _ _ _ Hld); try congruence|].
    rewrite (ld_bytes _ _ _ _ _ _ _ _ _ _ Hld), Hxm by lia. unfold page_bytes, seg_byte, seg_start.
    replace (x - P <? Z.min PGSIZE (seg_stop ph - P)) with (x <? seg_stop ph)
      by (destruct (Z.ltb_spec x (seg_stop ph)), (Z.ltb_spec (x - P) (Z.min PGSIZE (seg_stop ph - P))); lia).
    destruct (x <? seg_stop ph); [|done]. do 3 f_equal. lia.
  - rewrite (ld_entry _ _ _ _ _ _ _ _ _ _ Hld) by done. by rewrite HPd, Z.eqb_refl.
  - intros x Hx Hne. rewrite (ld_entry _ _ _ _ _ _ _ _ _ _ Hld) by done.
    by rewrite (proj2 (Z.eqb_neq _ _)) by congruence.
Qed.
End load.

(** ** Witness: a segment of 100 bytes at 0x1010 in an empty address space *)
Module LazyWitness.
Definition file0 : list Z := replicate 200 7.
#[local] Instance pages1 : PageAllocator kmem := pa0.
#[local] Instance read0 : FileLayer kmem := {|
  vfs_dup fp := mret fp; vfs_close _ := mret tt; vfs_old_close _ := mret tt; vfs_rewind _ := mret tt;
  vfs_write _ _ _ _ n _ := mret n; inode_dup ip := mret ip; inode_free _ := mret tt;
  inode_read _ dst off n _ :=
    let got := take (Z.to_nat n) (drop (Z.to_nat off) file0) in
    modify (λ w, pg_set_mem (wr_bytes (pg_mem w) dst got) w);; mret (Z.of_nat (length got)) |}.

Lemma read0_reads : reads_file 9 file0.
Proof.
  intros w dst off n Ho Hn got. exists (pg_set_mem (wr_bytes (pg_mem w) dst got) w).
  split; [reflexivity|]. rewrite pg_get_set.
  split; [done|]. intros l Hi. exact Hi.
Qed.

Definition ph0 : proghdr := Ph ELF_PROG_LOAD ELF_PROG_FLAG_READ 0x10 0x1010 100 200.

Lemma segment_page_loads_witness :
  ∃ w' l', LoadIfContain 1 (seg_vma ph0 9 0) R 0x1800 s0 = Done (true, w') ∧ space w' R l' ∧
    (∀ x, x / PGSIZE = 1 → phys (pg_mem w') R x = Some (P1 + x mod PGSIZE) ∧
       pg_mem w' (P1 + x mod PGSIZE) = seg_byte file0 ph0 x).
Proof.
  destruct (segment_page_loads 1 ph0 9 0 R 0x1800 s0 P1 [P2; P3] file0) as (w' & l' & E & Hs & Hb & _).
  - split; cbn; change MAXVA with (2 ^ 38); unfold PGSIZE; lia || (vm_compute; discriminate).
  - done.
  - exact read0_reads.
  - unfold file0. apply Forall_replicate. lia.
  - vm_compute. split; [discriminate|done].
  - exact space0.
  - cbn. lia.
  - apply entry0. lia.
  - lia.
  - exists w', l'. split; [exact E|]. split; [exact Hs|]. exact Hb.
Defined.
End LazyWitness.
