(* ===== verification/Syscall.v ===== *)
(** * System calls: kernel/os/syscall.cpp, SyscallFile.cpp, syscallProc.cpp

    A handler gives [Some r], the value of its [return], or [None] when the
    task has given up the CPU inside it (or has exited): the task then goes on
    where [Sched.resume] continues it, and what the handler does after that, to
    return its result, is not followed.

    Local arrays and structures lie at the addresses [a_path], [a_buf], ... of
    the kernel's memory, so what a handler does not set keeps the bytes it had;
    [uninit] is the value of a local variable that is read before it is set.
    [log_trace] and [printf] output is left out. *)
From S2P Require Import Prelude Mem KAlloc Vm Buf Locks Sched Vfs VfsCalls Exec OldCalls.

Definition TF_A7 : Z := 168.
Definition MAXFSTYPE : Z := 10.
Definition INTERVAL : Z := 100.
Definition CLOCK_REALTIME : Z := 0.
Definition CLOCK_REALTIME_COARSE : Z := 5.
Definition SEEK_SET : Z := 0.
Definition SEEK_CUR : Z := 1.
Definition SEEK_END : Z := 2.
Definition sizeof_kstat : Z := 128.

Section syscalls.
Context {W : Type} `{PageAllocator W, FileLayer W, FileCalls W, OldCalls W}.
Context (trampoline : Z) (fuel : nat) (xstate_at : nat → Z) (lit : string → Z).
Context (env_ a_elf a_ph a_ustack a_argc : Z).
Context (a_path a_dir a_fstype a_word a_vec a_buf a_argv a_newpath : Z) (uninit : Z).
(** [memAllocator]'s counters, the clock that [CurrentTimeSpec] reads and the
    [TimeVal] of [sys_gettimeofday], which only a K210 sets. *)
Context (FreeMemOfBytes TotalMemOfBytes : W → Z) (now_ts : Z * Z) (tv : list Z).
Abbreviation K := (M (ks W)).

Definition ret (r : Z) : K (option Z) := mret (Some r).
(** The running task. *)
Definition me : K nat := p ← myTask; deref p.
Definition my_pagetable : K Z := i ← me; t ← tsk i; mret (pagetable t).
Definition get_mem : K mem := in_world (gets pg_mem).
Definition upd_mem (f : mem → mem) : K unit := in_world (modify (λ w, pg_set_mem (f (pg_mem w)) w)).
Definition copyout_ (dst src len : Z) : K Z := pgt ← my_pagetable; in_world (copyout fuel pgt dst src len).
Definition copyin_ (dst src len : Z) : K Z := pgt ← my_pagetable; in_world (copyin fuel pgt dst src len).

(** ** Arguments: syscall.cpp *)

Definition argraw (n : Z) : K Z :=
  i ← me;
  t ← tsk i;
  if (0 <=? n) && (n <=? 5) then in_world (rd64 (trapframe t + TF_A0 + 8 * n)) else panic "argraw".

(** [None] for the result -1. *)
Definition fetchaddr (addr : Z) : K (option Z) :=
  i ← me;
  t ← tsk i;
  if (u64 (sz t) <=? addr) || (u64 (sz t) <? u64 (addr + 8)) then mret None
  else
    r ← in_world (copyin fuel (pagetable t) a_word addr 8);
    if negb (r =? 0) then mret None else v ← in_world (rd64 a_word); mret (Some v).

Definition argint (n : Z) : K Z := r ← argraw n; mret (i32 r).

Definition argfd (n : Z) : K (option (Z * Z)) :=
  fd ← argint n;
  f ← getFileByfd fd;
  if f =? 0 then mret None else mret (Some (fd, f)).

Definition argaddr (n : Z) : K Z :=
  addr ← argraw n;
  i ← me;
  LoadIfValid fuel i addr;;
  mret addr.

Definition fetchstr (addr buf max : Z) : K Z :=
  i ← me;
  t ← tsk i;
  err ← in_world (copyinstr fuel (pagetable t) buf addr max);
  if err <? 0 then mret err else in_world (kstrlen fuel buf).

Definition argstr (n buf max : Z) : K Z := addr ← argaddr n; fetchstr addr buf max.
Definition MAXPATH_ : Z := Z.of_nat Sched.MAXPATH.

(** ** Processes: syscallProc.cpp *)

Definition sys_exit : K (option Z) := n ← argint 0; exit fuel n;; mret None.
Definition sys_exit_group : K (option Z) := n ← argint 0; exit fuel n;; mret None.
Definition sys_fork : K (option Z) := r ← fork trampoline fuel; ret r.

Definition sys_clone : K (option Z) :=
  flags ← argint 0;
  stackHighAddr ← argaddr 1;
  if stackHighAddr =? 0 then r ← fork trampoline fuel; ret r
  else r ← clone trampoline fuel stackHighAddr flags; ret r.

(** [calAbsolute] of fs/vfs/Vfs.cpp. *)
Definition calAbsolute (path : Z) : K unit :=
  upd_mem (λ m, memset m a_newpath 0 MAXPATH_);;
  i ← me;
  t ← tsk i;
  m ← get_mem;
  let oldpath := if (m path =? 46) && (m (path + 1) =? 47) then path + 2 else path in
  n ← in_world (kstrlen fuel oldpath);
  (if m oldpath =? 47 then upd_mem (λ m, memmove m a_newpath oldpath n)
   else
     let curdir := take (strlen_arr (currentDir t)) (currentDir t) in
     lock (LTask i);;
     upd_mem (λ m, memmove (wr_bytes m a_newpath curdir) (a_newpath + Z.of_nat (length curdir)) oldpath n);;
     unlock (LTask i));;
  upd_mem (λ m, memmove m path a_newpath MAXPATH_).

(** The loop of [sys_exec] over the argument vector: whether it succeeds. *)
Fixpoint fetch_args (n : nat) (i uargv uarg : Z) : K bool :=
  match n with
  | O => λ _, NoFuel
  | S n =>
      if MAXARG <? i then mret false
      else
        r ← (if negb (uargv =? 0) then fetchaddr (u64 (uargv + 8 * i)) else mret (Some uarg));
        match r with
        | None => mret false
        | Some uarg =>
            if (uarg =? 0) || (uargv =? 0) then in_world (wr64 (a_argv + 8 * i) 0);; mret true
            else
              p ← in_world pg_alloc;
              in_world (wr64 (a_argv + 8 * i) p);;
              if p =? 0 then mret false
              else
                r ← fetchstr uarg p PGSIZE;
                if r <? 0 then mret false else fetch_args n (i + 1) uargv uarg
        end
  end.

(** [for (int i = 0; i <= MAXARG && argv[i] != 0; i++) free(argv[i]);] *)
Fixpoint free_args (n : nat) (i : Z) : K unit :=
  match n with
  | O => mret tt
  | S n =>
      p ← in_world (rd64 (a_argv + 8 * i));
      if p =? 0 then mret tt else in_world (pg_free p);; free_args n (i + 1)
  end.

Definition sys_exec : K (option Z) :=
  r ← argstr 0 a_path MAXPATH_;
  if r <? 0 then ret (-1)
  else
    uargv ← argaddr 1;
    l ← in_world (kstrlen fuel a_path);
    if l <? 1 then ret (-1)
    else
      upd_mem (λ m, memset m a_argv 0 (8 * MAXARG));;
      ok ← fetch_args (Z.to_nat (MAXARG + 2)) 0 uargv 0;
      if (ok : bool) then
        calAbsolute a_path;;
        r ← exec trampoline fuel lit env_ a_elf a_ph a_ustack a_argc a_path a_argv;
        free_args (Z.to_nat (MAXARG + 1)) 0;;
        ret r
      else free_args (Z.to_nat (MAXARG + 1)) 0;; ret (-1).

Definition sys_wait : K (option Z) := vaddr ← argaddr 0; wait fuel xstate_at vaddr.
Definition sys_wait4 : K (option Z) :=
  pid ← argint 0;
  uaddr ← argaddr 1;
  if pid =? -1 then wait fuel xstate_at uaddr else wait4 fuel xstate_at pid uaddr.

Definition sys_getpid : K (option Z) := i ← me; t ← tsk i; ret (pid t).
Definition sys_getuid : K (option Z) := ret 0.
Definition sys_geteuid : K (option Z) := ret 0.
Definition sys_setpgid : K (option Z) := ret 0.
Definition sys_getpgid : K (option Z) := ret 0.
Definition sys_getppid : K (option Z) := i ← me; t ← tsk i; j ← deref (parent t); q ← tsk j; ret (pid q).
Definition sys_gettid : K (option Z) := i ← me; t ← tsk i; ret (pid t).
Definition sys_sched_yield : K (option Z) := yield;; mret None.

Definition sys_sbrk : K (option Z) :=
  n ← argaddr 0;
  i ← me;
  t ← tsk i;
  if n =? 0 then ret (sz t) else growtask fuel (i32 n);; ret (sz t).

Definition sys_brk : K (option Z) :=
  addr ← argaddr 0;
  i ← me;
  t ← tsk i;
  if addr =? 0 then ret (sz t)
  else growtask fuel (i32 (addr - sz t));; t ← tsk i; ret (sz t).

Fixpoint copy_names (addr : Z) (l : list (Z * string)) : K unit :=
  match l with
  | [] => mret tt
  | (off, s) :: l =>
      n ← in_world (kstrlen fuel (lit s));
      either_copyout fuel true (u64 (addr + off)) (lit s) n;;
      copy_names addr l
  end.
(** Members of 65 bytes; the domain name goes to the version's place too. *)
Definition sys_uname : K (option Z) :=
  addr ← argaddr 0;
  copy_names addr [(0, "linux"); (65, "debian"); (130, "5.8.0-59-generic");
    (195, "#66~20.04.1-Ubuntu"); (260, "QEMU emulator version 4.2.1"); (195, "NIS domain name")]%string;;
  ret 0.

Definition sys_times : K (option Z) :=
  start ← gets ticks;
  utmaddr ← argaddr 0;
  r ← taskTimes;
  let '(st, ut, cu, cs) := r in
  upd_mem (λ m, st64 (st64 (st64 (st64 m a_buf ut) (a_buf + 8) st) (a_buf + 16) cu) (a_buf + 24) cs);;
  copyout_ utmaddr a_buf 32;;
  now ← gets ticks;
  ret (i32 (now - start)).

Definition sys_gettimeofday : K (option Z) :=
  addr ← argaddr 0;
  upd_mem (λ m, wr_bytes m a_buf tv);;
  copyout_ addr a_buf 16;;
  ret 0.

Definition after_sleep (r : Z) (c : K (option unit)) : K (option Z) :=
  o ← c; match o with Some _ => ret r | None => mret None end.

(** The request is the second argument. *)
Definition sys_nanosleep : K (option Z) :=
  addr ← argaddr 1;
  r ← copyin_ a_buf addr 16;
  if r <? 0 then ret (-1)
  else
    m ← get_mem;
    after_sleep 0 (sleepTime (u64 (ld64 m a_buf * 1000 + ld64 m (a_buf + 8) / 1000) / INTERVAL)).

(** [argint(0, ..) < 0 && argaddr(1, ..) < 0]: the address is never fetched. *)
Definition sys_clock_gettime : K (option Z) :=
  clock_id ← argint 0;
  let addr := uninit in
  if negb (clock_id =? CLOCK_REALTIME_COARSE) && negb (clock_id =? CLOCK_REALTIME) then
    panic "clock only support CLOCK_REALTIME_COARSE"
  else
    upd_mem (λ m, st64 (st64 m a_buf (fst now_ts)) (a_buf + 8) (snd now_ts));;
    copyout_ addr a_buf 16;;
    ret 0.

(** [tv_sec] of the request is overwritten. *)
Definition sys_clock_nanosleep : K (option Z) :=
  upd_mem (λ m, st64 (st64 m (a_buf + 8) 0) a_buf 0);;
  argint 0;;
  argint 1;;
  request_addr ← argaddr 2;
  argaddr 3;;
  r ← copyin_ a_buf request_addr 16;
  if r <? 0 then ret (-1)
  else
    m ← get_mem;
    after_sleep 1 (sleepTime (u64 (1 * 1000 + ld64 m (a_buf + 8) / 1000000) / INTERVAL)).

Definition sys_rt_sigaction : K (option Z) := ret 0.
Definition sys_rt_sigprocmask : K (option Z) :=
  argint 0;; argaddr 1;; argaddr 2;; argint 3;; ret 0.
Definition sys_set_tid_address : K (option Z) := ret 0.
Definition sys_kill : K (option Z) := pid ← argint 0; sig ← argint 1; r ← kill pid sig; ret r.

(** [loads], [totalswap] and [_f] are not set. *)
Definition sys_sysinfo : K (option Z) :=
  uaddr ← argaddr 0;
  t ← gets ticks;
  free ← in_world (gets FreeMemOfBytes);
  total ← in_world (gets TotalMemOfBytes);
  procs ← gets CountOfTask;
  upd_mem (λ m, st64 m a_buf (Z.quot (i32 (t * INTERVAL)) 1000));;
  upd_mem (λ m, st64 m (a_buf + 40) free);;
  upd_mem (λ m, st64 m (a_buf + 32) total);;
  upd_mem (λ m, st64 m (a_buf + 48) 0);;
  upd_mem (λ m, st64 m (a_buf + 72) 0);;
  upd_mem (λ m, st64 m (a_buf + 56) 0);;
  upd_mem (λ m, st 2 m (a_buf + 80) (Z.of_nat procs));;
  r ← either_copyout fuel true uaddr a_buf 104;
  if r <? 0 then ret (-1) else ret 0.

(** ** Files: SyscallFile.cpp *)

Definition sys_getcwd : K (option Z) :=
  userBuf ← argaddr 0;
  n ← argint 1;
  i ← me;
  t ← tsk i;
  let len := Z.of_nat (strlen_arr (currentDir t)) in
  if n <? len then ret (-1)
  else
    upd_mem (λ m, wr_bytes m a_buf (take (strlen_arr (currentDir t)) (currentDir t)));;
    r ← either_copyout fuel true userBuf a_buf len;
    if r <? 0 then ret 0 else ret userBuf.

Definition my_openat (dir path flags mode : Z) : K Z :=
  i ← me; t ← tsk i; in_world (fc_openat (cwd t) dir path flags mode).

Definition sys_open : K (option Z) :=
  n ← argstr 0 a_path MAXPATH_;
  if n <? 0 then ret (-1)
  else
    flag ← argint 1;
    fp ← my_openat 0 a_path flag 0;
    if fp =? 0 then ret (-1) else r ← registerFileHandle fp (-1); ret r.

Definition sys_unlinkat : K (option Z) :=
  argint 0;;
  n ← argstr 1 a_path MAXPATH_;
  if n <? 0 then ret (-1)
  else
    argint 2;;
    i ← me;
    t ← tsk i;
    in_world (fc_unlink (cwd t) a_path);;
    ret 0.

Definition sys_openat : K (option Z) :=
  i ← me;
  lock (LTask i);;
  unlock (LTask i);;
  dirfd ← argint 0;
  n ← argstr 1 a_path MAXPATH_;
  if n <? 0 then ret (-1)
  else
    flags ← argint 2;
    mode ← argint 3;
    dirfp ← getFileByfd dirfd;
    fp ← my_openat dirfp a_path flags mode;
    if fp =? 0 then ret (-1) else r ← registerFileHandle fp (-1); ret r.

(** [openFiles[fd] = fp] under the task's lock or, for a [struct file *] the
    task owns alone, without it. *)
Definition set_fd (i : nat) (fd fp : Z) : K unit :=
  t ← tsk i;
  match (if fd <? 0 then None else openFiles t !! Z.to_nat fd) with
  | None => panic "openFiles index"
  | Some _ => upd_task i (set_openFiles (<[Z.to_nat fd := fp]> (openFiles t)))
  end.

Definition sys_close : K (option Z) :=
  fd ← argint 0;
  if fd <? 0 then ret (-1)
  else
    fp ← getFileByfd fd;
    i ← me;
    in_world (vfs_close fp);;
    lock (LTask i);;
    set_fd i fd 0;;
    unlock (LTask i);;
    ret 0.

Definition my_write (fp buf n : Z) : K Z := pgt ← my_pagetable; in_world (fc_write pgt fp buf n).
Definition my_read (fp buf n : Z) : K Z := pgt ← my_pagetable; in_world (fc_read pgt fp buf n).

Definition sys_write : K (option Z) :=
  fd ← argint 0;
  n ← argint 2;
  uaddr ← argaddr 1;
  fp ← getFileByfd fd;
  r ← my_write fp uaddr n;
  ret r.

(** The loop over [vec]: [n] elements from [i] on; [acc] is an [int]. *)
Fixpoint each_iovec (op : Z → Z → Z → K Z) (fp : Z) (n : nat) (i acc : Z) : K Z :=
  match n with
  | O => mret acc
  | S n =>
      base ← in_world (rd64 (a_vec + 16 * i));
      len ← in_world (rd64 (a_vec + 16 * i + 8));
      r ← op fp base (i32 len);
      each_iovec op fp n (i + 1) (i32 (acc + r))
  end.
(** [n * sizeof(struct iovec)] is unsigned: a negative [n] asks for more than
    [vec] holds. *)
Definition vectored (op : Z → Z → Z → K Z) : K (option Z) :=
  fd ← argint 0;
  n ← argint 2;
  iovec_addr ← argaddr 1;
  if 10 <? n then ret (-1)
  else
    r ← copyin_ a_vec iovec_addr (u64 (n * 16));
    if r <? 0 then ret (-1)
    else
      fp ← getFileByfd fd;
      r ← each_iovec op fp (Z.to_nat n) 0 0;
      ret r.
Definition sys_writev : K (option Z) := vectored my_write.
Definition sys_readv : K (option Z) := vectored my_read.

Definition sys_read : K (option Z) :=
  fd ← argint 0;
  n ← argint 2;
  uaddr ← argaddr 1;
  fp ← getFileByfd fd;
  r ← my_read fp uaddr n;
  ret r.

(** One byte more than the array is copied. *)
Definition sys_readlinkat : K (option Z) :=
  argint 0;;
  n ← argstr 1 a_path MAXPATH_;
  if n <? 0 then ret (-1)
  else
    ubuf ← argaddr 2;
    argint 3;;
    upd_mem (λ m, wr_bytes m a_buf [47; 98; 117; 115; 121; 98; 111; 120; 0]);;
    copyout_ ubuf a_buf 10;;
    ret 9.

Definition sys_dup : K (option Z) :=
  fd ← argint 0;
  fp ← getFileByfd fd;
  if fp =? 0 then ret (-1)
  else fp ← in_world (vfs_dup fp); r ← registerFileHandle fp (-1); ret r.

(** [if (openFiles[fd] != nullptr) { close(openFiles[fd]); openFiles[fd] = nullptr; }] *)
Definition close_old (i : nat) (fd : Z) : K unit :=
  t ← tsk i;
  match (if fd <? 0 then None else openFiles t !! Z.to_nat fd) with
  | None => panic "openFiles index"
  | Some old => if negb (old =? 0) then in_world (vfs_close old);; set_fd i fd 0 else mret tt
  end.
Definition sys_dup3 : K (option Z) :=
  oldfd ← argint 0;
  newfd ← argint 1;
  fp ← getFileByfd oldfd;
  fp ← in_world (vfs_dup fp);
  i ← me;
  close_old i newfd;;
  ansfd ← registerFileHandle fp newfd;
  (if ansfd <? 0 then in_world (vfs_close fp) else mret tt);;
  ret ansfd.

Definition sys_mkdirat : K (option Z) :=
  fd ← argint 0;
  n ← argstr 1 a_path MAXPATH_;
  if n <? 0 then ret (-1) else old_mkdirat fd a_path;; ret 0.

Definition sys_chdir : K (option Z) :=
  upd_mem (λ m, memset m a_path 0 MAXPATH_);;
  n ← argstr 0 a_path MAXPATH_;
  if n <? 0 then ret (-1) else r ← old_chdir a_path; ret r.

(** [createPipe] and the copies of the descriptors; when a copy fails the files
    are closed but stay in the table. *)
Definition sys_pipe : K (option Z) :=
  fdarray ← argaddr 0;
  '(f0, f1) ← in_world fc_pipe_files;
  fd0 ← registerFileHandle f0 (-1);
  fd1 ← registerFileHandle f1 (-1);
  upd_mem (λ m, st32 (st32 m a_buf fd0) (a_buf + 4) fd1);;
  r ← copyout_ fdarray a_buf 4;
  r ← (if r <? 0 then mret r else copyout_ (u64 (fdarray + 4)) (a_buf + 4) 4);
  if r <? 0 then
    f0 ← getFileByfd fd0;
    in_world (vfs_close f0);;
    f1 ← getFileByfd fd1;
    in_world (vfs_close f1);;
    ret (-1)
  else ret 0.

(** [argaddr] returns 0: the tests for a nonzero result never succeed. *)
Definition sys_getdents64 : K (option Z) :=
  fd ← argint 0;
  addr ← argaddr 1;
  len ← argint 2;
  fp ← getFileByfd fd;
  pgt ← my_pagetable;
  r ← in_world (fc_readdir pgt fp addr len);
  ret r.

Definition sys_mount : K (option Z) :=
  n ← argstr 0 a_path MAXPATH_;
  if n <? 0 then ret (-1)
  else
    n ← argstr 1 a_dir MAXPATH_;
    if n <? 0 then ret (-1)
    else
      n ← argstr 2 a_fstype MAXFSTYPE;
      if n <? 0 then ret (-1)
      else
        m ← get_mem;
        if strncmp m a_fstype (lit "vfat") 4 =? 0 then old_mount a_dir a_path;; ret 0 else ret (-1).

Definition sys_umount2 : K (option Z) :=
  n ← argstr 0 a_dir MAXPATH_;
  if n <? 0 then ret (-1) else argint 1;; r ← old_umount a_dir; ret r.

(** [memset(&kst, 0, ..)] and the members that are set. *)
Definition set_kstat (size mode : Z) (m : mem) : mem :=
  let m := memset m a_buf 0 sizeof_kstat in
  st32 (st32 (st64 (st64 m a_buf 1) (a_buf + 48) size) (a_buf + 20) 1) (a_buf + 16) (u32 mode).

Definition sys_fstat : K (option Z) :=
  o ← argfd 0;
  match o with
  | None => ret (-1)
  | Some (_, fp) =>
      kstAddr ← argaddr 1;
      f ← in_world (fc_file fp);
      upd_mem (set_kstat (f_size f) (f_mode f));;
      r ← copyout_ kstAddr a_buf sizeof_kstat;
      ret r
  end.

Definition sys_fstatat : K (option Z) :=
  argint 0;;
  n ← argstr 1 a_path MAXPATH_;
  if n <? 0 then ret (-1)
  else
    kst_addr ← argaddr 2;
    fp ← my_openat 0 a_path O_RDWR 0;
    if fp =? 0 then ret (-1)
    else
      f ← in_world (fc_file fp);
      mode ← in_world (fc_inode_mode (f_inode f));
      upd_mem (set_kstat (f_size f) mode);;
      in_world (vfs_close fp);;
      r ← copyout_ kst_addr a_buf sizeof_kstat;
      if r <? 0 then ret (-1) else ret 0.

(** [vmasz]: an [int]. *)
Fixpoint vma_lengths (vs : list (option nat)) (acc : Z) : K Z :=
  match vs with
  | [] => mret acc
  | None :: vs => vma_lengths vs acc
  | Some v :: vs => a ← vma_at v; vma_lengths vs (i32 (acc + v_length a))
  end.

Definition sys_mmap : K (option Z) :=
  i ← me;
  argaddr 0;;
  length ← argint 1;
  prot ← argint 2;
  flags ← argint 3;
  fd ← argint 4;
  argint 5;;
  f ← getFileByfd fd;
  if negb (f =? 0) then panic "sys_mmap"
  else
    v ← allocVma;
    t ← tsk i;
    vmasz ← vma_lengths (tvma t) 0;
    let addr := PGROUNDDOWN (u64 (MAXVA - PGSIZE * 1024 - vmasz - i32 (PGROUNDUP length))) in
    upd_vma v (λ a, Vma addr (v_type a) length
      (Z.lor (Z.lor (Z.lor prot PROT_READ) PROT_WRITE) PROT_EXEC) flags 0 0 (v_offset a));;
    match free_slot (tvma t) 0 with
    | Some k => upd_task i (λ t, set_tvma (<[k := Some v]> (tvma t)) t);; ret addr
    | None => panic "mmap: not enough vma im task"
    end.

(** The first area that contains [addr], with its slot. *)
Fixpoint find_vma (vs : list (option nat)) (addr : Z) (k : nat) : K (option (nat * nat)) :=
  match vs with
  | [] => mret None
  | None :: vs => find_vma vs addr (S k)
  | Some v :: vs =>
      a ← vma_at v;
      if (v_addr a <=? addr) && (addr <? u64 (v_addr a + v_length a)) then mret (Some (v, k))
      else find_vma vs addr (S k)
  end.

Definition sys_munmap : K (option Z) :=
  i ← me;
  addr ← argaddr 0;
  argint 1;;
  t ← tsk i;
  o ← find_vma (tvma t) addr 0;
  match o with
  | None => panic "null pointer"
  | Some (v, k) =>
      a ← vma_at v;
      if negb (v_ip a =? 0) then ret (-1)
      else
        in_world (userUnmap fuel (pagetable t) (v_addr a) (Z.quot (i32 (PGROUNDUP (v_length a))) PGSIZE) true);;
        vma_free v;;
        upd_task i (λ t, set_tvma (<[k := None]> (tvma t)) t);;
        ret 0
  end.

Definition sys_ioctl : K (option Z) := ret 0.

Definition sys_fcntl : K (option Z) :=
  fd ← argint 0;
  cmd ← argint 1;
  if (cmd =? 2) || (cmd =? 4) then ret 0
  else
    new_fd ← argint 2;
    fp ← getFileByfd fd;
    if cmd =? 3 then f ← in_world (fc_file fp); ret (f_mode f)
    else
      fp ← in_world (vfs_dup fp);
      i ← me;
      new_fd ← AllocFd i new_fd (-1);
      r ← registerFileHandle fp new_fd;
      ret r.

Definition sys_ppoll : K (option Z) :=
  fds_addr ← argaddr 0;
  nfd ← argint 1;
  if negb (nfd =? 1) then panic "only support 1 pollfd"
  else
    r ← copyin_ a_vec fds_addr (u64 (8 * nfd));
    if negb (r =? 0) then ret (-1) else ret 1.

Definition sys_mprotect : K (option Z) := ret 0.

Definition sys_faccessat : K (option Z) :=
  dirfd ← argint 0;
  n ← argstr 1 a_path MAXPATH_;
  if n <? 0 then ret (-1)
  else
    flags ← argint 2;
    mode ← argint 3;
    dirfp ← getFileByfd dirfd;
    fp ← my_openat dirfp a_path flags mode;
    if fp =? 0 then ret (-1) else in_world (vfs_close fp);; ret 0.

Definition sys_utimensat : K (option Z) :=
  dirfd ← argint 0;
  n ← argstr 1 a_path MAXPATH_;
  if n <? 0 then ret (-1)
  else
    flags ← argint 3;
    dirfp ← getFileByfd dirfd;
    fp ← my_openat dirfp a_path flags 0;
    fp ← (if fp =? 0 then
            fp ← my_openat dirfp a_path (Z.lor flags O_CREATE) 0;
            if fp =? 0 then panic "create fp error" else mret fp
          else mret fp);
    in_world (vfs_close fp);;
    ret 0.

Definition sys_sendfile : K (option Z) := ret (-1).

(** [argint(0, ..) < 0 && argint(1, ..) < 0]: the offset is never fetched. *)
Definition sys_lseek : K (option Z) :=
  fd ← argint 0;
  let offset := uninit in
  whence ← argint 2;
  fp ← getFileByfd fd;
  if fp =? 0 then ret (-1)
  else
    f ← in_world (fc_file fp);
    now_off ← (if whence =? SEEK_END then mret (i32 (f_size f + offset))
               else if whence =? SEEK_SET then mret offset
               else if whence =? SEEK_CUR then mret (i32 (f_offset f + offset))
               else panic "only handler SEEK END");
    if now_off <? 0 then ret (-1)
    else in_world (fc_set_offset fp now_off);; ret now_off.

Definition sys_prlimit64 : K (option Z) :=
  upd_mem (λ m, st64 (st64 m a_buf 1000) (a_buf + 8) 10000);;
  argint 0;;
  argint 1;;
  argaddr 2;;
  old_limit ← argaddr 3;
  if negb (old_limit =? 0) then r ← either_copyout fuel true old_limit a_buf 16; ret r else ret 0.

(** [len > sizeof(log)] compares unsigned values. *)
Definition sys_syslog : K (option Z) :=
  argint 0;;
  uaddr ← argaddr 1;
  len ← argint 2;
  let len := if 15 <? u64 len then 15 else len in
  upd_mem (λ m, wr_bytes m a_buf [115; 116; 97; 114; 116; 111; 115; 32; 115; 116; 97; 114; 116; 10; 0]);;
  either_copyout fuel true uaddr a_buf len;;
  ret len.

(** ** Dispatch *)

(** [syscalls], as [syscall_init] fills it. *)
Definition syscalls : list (Z * K (option Z)) :=
  [(221, sys_exec); (2, sys_open); (64, sys_write); (65, sys_readv); (66, sys_writev);
   (78, sys_readlinkat); (63, sys_read); (23, sys_dup); (24, sys_dup3); (25, sys_fcntl);
   (29, sys_ioctl); (17, sys_getcwd); (154, sys_setpgid); (155, sys_getpgid); (172, sys_getpid);
   (173, sys_getppid); (174, sys_getuid); (175, sys_geteuid); (178, sys_gettid); (1, sys_fork);
   (220, sys_clone); (93, sys_exit); (94, sys_exit_group); (3, sys_wait); (260, sys_wait4);
   (48, sys_faccessat); (49, sys_chdir); (57, sys_close); (34, sys_mkdirat); (56, sys_openat);
   (124, sys_sched_yield); (214, sys_brk); (4, sys_sbrk); (160, sys_uname); (59, sys_pipe);
   (61, sys_getdents64); (62, sys_lseek); (40, sys_mount); (39, sys_umount2); (129, sys_kill);
   (134, sys_rt_sigaction); (135, sys_rt_sigprocmask); (153, sys_times); (169, sys_gettimeofday);
   (179, sys_sysinfo); (222, sys_mmap); (215, sys_munmap); (79, sys_fstatat); (80, sys_fstat);
   (88, sys_utimensat); (35, sys_unlinkat); (101, sys_nanosleep); (115, sys_clock_nanosleep);
   (113, sys_clock_gettime); (71, sys_sendfile); (73, sys_ppoll); (96, sys_set_tid_address);
   (226, sys_mprotect); (261, sys_prlimit64); (116, sys_syslog)].

(** The entry of [syscalls], null when the number is not in the table. *)
Fixpoint handler_in (l : list (Z * K (option Z))) (num : Z) : option (K (option Z)) :=
  match l with
  | [] => None
  | (k, h) :: l => if k =? num then Some h else handler_in l num
  end.

Definition syscall : K unit :=
  i ← me;
  t ← tsk i;
  num ← in_world (rd64 (trapframe t + TF_A7));
  let num := i32 num in
  match (if (0 <? num) && (num <? 400) then handler_in syscalls num else None) with
  | Some h =>
      r ← h;
      match r with
      | Some r => in_world (wr64 (trapframe t + TF_A0) (u64 r))
      | None => mret tt
      end
  | None =>
      argstr 1 a_buf 50;;
      in_world (wr64 (trapframe t + TF_A0) 0);;
      panic "syscall error"
  end.
End syscalls.
