(* ===== verification/SyscallProps.v ===== *)
(** * Descriptors and open files across system calls

    The descriptor tables of all tasks hold the open files: the multiset [descs]
    of the files they name is what the file layer counts references for.  The
    class [FileTable] states what the file layer promises about references;
    the theorem is proved against it, and [vfs_file_table] shows that the
    virtual file system keeps the promise. *)
From stdpp Require Import gmultiset.
From S2P Require Import Prelude Mem KAlloc Vm Pipe Fat32 Locks Sched SchedProps Vfs VfsProps OldVfs VfsCalls Exec OldCalls Syscall.

Abbreviation refs := (gmultiset Z).

(** [held T w]: the references to open files are those of [T].  [unread]: the
    file layer does not look at this address. *)
Class FileTable (W : Type) `{PageAllocator W, FileLayer W} := {
  held : refs → W → Prop;
  unread : Z → Prop;
  held_store : ∀ T w a v, (∀ x, a ≤ x < a + 8 → unread x) → held T w →
    held T (pg_set_mem (st64 (pg_mem w) a v) w);
  held_dup : ∀ T w fp, held T w → fp ∈ T →
    ∃ w', vfs_dup fp w = Done (fp, w') ∧ held ({[+ fp +]} ⊎ T) w';
  held_close : ∀ T w fp, held T w → fp ∈ T →
    ∃ w', vfs_close fp w = Done (tt, w') ∧ held (T ∖ {[+ fp +]}) w';
  held_null : ∀ T w, held T w → (∃ e, vfs_dup 0 w = Panic e) ∧ (∃ e, vfs_close 0 w = Panic e);
}.

(** ** Files named by descriptors *)

Definition fds_refs (fds : list Z) : refs := list_to_set_disj (filter (λ fp, fp ≠ 0) fds).
#[global] Arguments fds_refs : simpl never.
Fixpoint descs (ts : list task) : refs :=
  match ts with [] => ∅ | t :: ts => fds_refs (openFiles t) ⊎ descs ts end.

(** The abstract descriptor table: the result and the new table, [None] where
    the kernel panics or loses a reference. *)
Inductive fd_call := CDup (fd : Z) | CDup3 (oldfd newfd : Z) | CClose (fd : Z) | CDupFd (fd from : Z).

Definition fd_spec (c : fd_call) (fds : list Z) : option (Z * list Z) :=
  match c with
  | CDup fd =>
      let fp := fd_file fds fd in
      if fp =? 0 then Some (-1, fds)
      else k ← lowest_closed fds 0; Some (Z.of_nat k, <[k := fp]> fds)
  | CDup3 oldfd newfd =>
      let fp := fd_file fds oldfd in
      if (fp =? 0) || (newfd <? 0) || (NFILE <? newfd) then None
      else Some (newfd, <[Z.to_nat newfd := fp]> fds)
  | CClose fd =>
      if fd <? 0 then Some (-1, fds)
      else if fd_file fds fd =? 0 then None else Some (0, <[Z.to_nat fd := 0]> fds)
  | CDupFd fd from =>
      let fp := fd_file fds fd in
      if fp =? 0 then None
      else
        k ← lowest_closed (drop (Z.to_nat (Z.max 0 from)) fds) (Z.to_nat (Z.max 0 from));
        if NFILE <? Z.of_nat k then None else Some (Z.of_nat k, <[k := fp]> fds)
  end.

(** The registers of the trap frame at [tf] that make the call; [getFileByfd]
    is not asked for the descriptor that it does not check. *)
Definition reg (m : mem) (tf n : Z) : Z := i32 (ld64 m (tf + TF_A0 + 8 * n)).
Definition makes_call (m : mem) (tf : Z) (c : fd_call) : Prop :=
  match c with
  | CDup fd => i32 (ld64 m (tf + TF_A7)) = 23 ∧ reg m tf 0 = fd ∧ fd ≠ Z.of_nat NOFILE
  | CDup3 oldfd newfd => i32 (ld64 m (tf + TF_A7)) = 24 ∧ reg m tf 0 = oldfd ∧ reg m tf 1 = newfd ∧
      oldfd ≠ Z.of_nat NOFILE
  | CClose fd => i32 (ld64 m (tf + TF_A7)) = 57 ∧ reg m tf 0 = fd ∧ fd ≠ Z.of_nat NOFILE
  | CDupFd fd from => i32 (ld64 m (tf + TF_A7)) = 25 ∧ reg m tf 0 = fd ∧ reg m tf 2 = from ∧
      (reg m tf 1 = 0 ∨ reg m tf 1 = 1 ∨ reg m tf 1 = 12) ∧ fd ≠ Z.of_nat NOFILE
  end.
(** A call on a closed descriptor that dereferences null. *)
Definition null_call (c : fd_call) (fds : list Z) : Prop :=
  match c with
  | CDup _ => False
  | CDup3 fd _ | CDupFd fd _ => fd_file fds fd = 0
  | CClose fd => 0 ≤ fd ∧ fd_file fds fd = 0
  end.

Definition one (fp : Z) : refs := if fp =? 0 then ∅ else {[+ fp +]}.

Lemma fds_refs_cons fp fds : fds_refs (fp :: fds) = one fp ⊎ fds_refs fds.
Proof.
  unfold fds_refs, one. destruct (Z.eqb_spec fp 0) as [->|Hfp].
  - rewrite filter_cons_False by (intros H; by apply H). by rewrite (left_id_L ∅ (⊎)).
  - by rewrite filter_cons_True.
Qed.

(** The references without those of one descriptor. *)
Lemma fds_refs_slot fds k old :
  fds !! k = Some old →
  ∃ R, fds_refs fds = one old ⊎ R ∧ ∀ fp, fds_refs (<[k := fp]> fds) = one fp ⊎ R.
Proof.
  revert k. induction fds as [|x fds IH]; intros [|k]; cbn; try done.
  - intros [= ->]. exists (fds_refs fds). split; [apply fds_refs_cons|]. intros. apply fds_refs_cons.
  - intros (R & E & Hs)%IH. exists (one x ⊎ R). rewrite fds_refs_cons, E.
    split; [multiset_solver|]. intros fp. rewrite fds_refs_cons, Hs. multiset_solver.
Qed.

Definition with_fd (i k : nat) (fp : Z) (t : task) (ts : list task) : list task :=
  <[i := set_openFiles (<[k := fp]> (openFiles t)) t]> ts.

Lemma descs_slot ts i t k old :
  ts !! i = Some t → openFiles t !! k = Some old →
  ∃ R, descs ts = one old ⊎ R ∧ ∀ fp, descs (with_fd i k fp t ts) = one fp ⊎ R.
Proof.
  unfold with_fd. intros Hi Hk. destruct (fds_refs_slot _ _ _ Hk) as (R1 & E1 & S1).
  revert i Hi. induction ts as [|t' ts IH]; intros [|i]; cbn; try done.
  - intros [= ->]. exists (R1 ⊎ descs ts). rewrite E1. split; [multiset_solver|].
    intros fp. rewrite S1. multiset_solver.
  - intros (R & E & Hs)%IH. exists (fds_refs (openFiles t') ⊎ R). rewrite E.
    split; [multiset_solver|]. intros fp. rewrite Hs. multiset_solver.
Qed.

Lemma one_nonzero fp : fp ≠ 0 → one fp = {[+ fp +]}.
Proof. intros. unfold one. by rewrite (proj2 (Z.eqb_neq fp 0)). Qed.
Lemma one_zero : one 0 = ∅.
Proof. done. Qed.

Lemma fd_file_lookup fds fd : fd_file fds fd ≠ 0 →
  0 ≤ fd ∧ fds !! Z.to_nat fd = Some (fd_file fds fd).
Proof.
  unfold fd_file. case_bool (fd <? 0); [done|]. destruct (fds !! Z.to_nat fd) eqn:E; cbn; [done|]. done.
Qed.

Lemma descs_fd_file ts i t fd :
  ts !! i = Some t → fd_file (openFiles t) fd ≠ 0 → fd_file (openFiles t) fd ∈ descs ts.
Proof.
  intros Hi Hn. destruct (fd_file_lookup _ _ Hn) as [_ Hl].
  destruct (descs_slot _ _ _ _ _ Hi Hl) as (R & -> & _). rewrite one_nonzero by done. multiset_solver.
Qed.

Lemma difference_here (x : Z) (T : refs) : ({[+ x +]} ⊎ T) ∖ {[+ x +]} = T.
Proof. multiset_solver. Qed.

(** ** Running the steps of a handler *)
Section steps.
Context {W : Type} `{PageAllocator W, FileLayer W}.
Implicit Types (s : ks W) (w : W).

(** Task [i] runs, outside critical sections; the tables are [ts], the world
    is [w]. *)
Record ready (i : nat) (ts : list task) (w : W) s : Prop := {
  rd_wf : wf s;
  rd_cur : cur_task s = Some i;
  rd_tasks : tasks s = ts;
  rd_world : world s = w;
}.

Lemma ready_quiet i ts w s s' : ready i ts w s → quiet s s' → ready i ts w s'.
Proof.
  intros [Hwf Hc Ht Hw] (Hwf' & E & _ & _ & Ec & _ & _ & Ew). split; congruence.
Qed.
Lemma ready_stored i ts w s s' k t fp :
  ready i ts w s → stored s s' i k t fp → ready i (with_fd i k fp t ts) w s'.
Proof.
  intros [Hwf Hc Ht Hw] (Hwf' & (_ & _ & Ec & _ & _ & Ew) & E).
  split; [done|congruence| |congruence]. unfold with_fd. congruence.
Qed.
Lemma ready_world i ts w w' s : ready i ts w s → ready i ts w' (set_world w' s).
Proof. intros [[Hh Ht] Hc E _]. split; [|done..]. split; [|done]. by eapply holds_ext, Hh. Qed.

Lemma run_world {A} i ts w w' s (c : M W A) (a : A) :
  ready i ts w s → c w = Done (a, w') →
  ∃ s', ⟪ in_world c ⟫ s ⇓ (a, s') ∧ ready i ts w' s'.
Proof.
  intros Hr E. exists (set_world w' s). split; [|by apply (ready_world i ts w)].
  unfold in_world. by rewrite (rd_world _ _ _ _ Hr), E.
Qed.
Lemma run_world_panic {A} i ts w s (c : M W A) e :
  ready i ts w s → c w = Panic e → in_world c s = Panic e.
Proof. intros Hr E. unfold in_world. by rewrite (rd_world _ _ _ _ Hr), E. Qed.

Lemma run_me i ts w s : ready i ts w s → ∃ s', ⟪ me ⟫ s ⇓ (i, s') ∧ ready i ts w s'.
Proof.
  intros Hr. pose proof Hr as [[Hh Ht] Hc E Ew].
  destruct (wp_done me (λ r s', r = i ∧ ready i ts w s') s) as (r & s' & E' & -> & Hr'); [|by exists s'].
  apply wp_bind. eapply wp_myTask; [done|cbn; lia|]. intros s1 R1 Hh1.
  apply relocked_rest in R1 as [E1 R1]. pose proof R1 as (_ & _ & Ec & _). rewrite Ec, Hc.
  apply wp_deref. split; [done|]. apply (ready_quiet _ _ _ s); [done|].
  split_and!; [by apply (wf_same_rest s)|done|done].
Qed.

Lemma run_tsk i ts w s k t : ready i ts w s → ts !! k = Some t → tsk k s = Done (t, s).
Proof. intros [_ _ E _] Hk. unfold tsk. by rewrite E, Hk. Qed.

Lemma run_argint i ts w s t n :
  ready i ts w s → ts !! i = Some t → 0 ≤ n ≤ 5 →
  ∃ s', ⟪ argint n ⟫ s ⇓ (reg (pg_mem w) (trapframe t) n, s') ∧ ready i ts w s'.
Proof.
  intros Hr Hi Hn. destruct (run_me _ _ _ _ Hr) as (s1 & E1 & Hr1). unfold argint, argraw.
  destruct (run_world i ts w w s1 (rd64 (trapframe t + TF_A0 + 8 * n)) _ Hr1 eq_refl) as (s2 & E2 & Hr2).
  exists s2. split; [|done].
  assert (argraw n s = Done (ld64 (pg_mem w) (trapframe t + TF_A0 + 8 * n), s2)) as E.
  { unfold argraw. rewrite (M_bind_Done _ _ _ _ _ E1), (M_bind_Done _ _ _ _ _ (run_tsk _ _ _ _ _ _ Hr1 Hi)).
    rewrite (proj2 (Z.leb_le 0 n)), (proj2 (Z.leb_le n 5)) by lia. exact E2. }
  by rewrite (M_bind_Done _ _ _ _ _ E).
Qed.

Lemma run_get i ts w s t fd :
  ready i ts w s → ts !! i = Some t → fd ≠ Z.of_nat NOFILE →
  ∃ s', ⟪ getFileByfd fd ⟫ s ⇓ (fd_file (openFiles t) fd, s') ∧ ready i ts w s'.
Proof.
  intros Hr Hi Hfd. pose proof Hr as [Hwf Hc E Ew].
  destruct (wp_done (getFileByfd fd) (λ r s', r = fd_file (openFiles t) fd ∧ ready i ts w s') s)
    as (r & s' & E' & -> & Hr'); [|by exists s'].
  apply (wp_getFileByfd False s i t); [done|done|congruence|done|].
  intros s' Hq. split; [done|by eapply ready_quiet].
Qed.

Lemma run_register i ts w s t fp fd k :
  ready i ts w s → ts !! i = Some t → fp ≠ 0 → fd ≤ NFILE → slot_for (openFiles t) fd = Some k →
  ∃ s', ⟪ registerFileHandle fp fd ⟫ s ⇓ (Z.of_nat k, s') ∧ ready i (with_fd i k fp t ts) w s'.
Proof.
  intros Hr Hi Hfp Hfd Hk. pose proof Hr as [Hwf Hc E Ew].
  destruct (wp_done (registerFileHandle fp fd) (λ r s', r = Z.of_nat k ∧ ready i (with_fd i k fp t ts) w s') s)
    as (r & s' & E' & -> & Hr'); [|by exists s'].
  apply (wp_registerFileHandle False s i t); [done|done|congruence|done|done|].
  rewrite Hk. intros s' Hst. split; [done|by eapply ready_stored].
Qed.

Lemma run_set_fd i ts w s t fd old fp :
  ready i ts w s → ts !! i = Some t → 0 ≤ fd → openFiles t !! Z.to_nat fd = Some old →
  ∃ s', ⟪ set_fd i fd fp ⟫ s ⇓ (tt, s') ∧ ready i (with_fd i (Z.to_nat fd) fp t ts) w s'.
Proof.
  intros Hr Hi Hfd Hold. pose proof Hr as [[Hh Ht] Hc E Ew].
  eexists. split.
  - unfold set_fd. rewrite (M_bind_Done _ _ _ _ _ (run_tsk _ _ _ _ _ _ Hr Hi)).
    rewrite (proj2 (Z.ltb_ge fd 0)), Hold by done. reflexivity.
  - assert (tasks s !! i = Some t) as Hi' by congruence.
    split; [split| | |]; [by eapply holds_ext, Hh| |done| |done]; cbn [tasks set_tasks cur_task initTask].
    + rewrite (alter_as_insert _ _ _ _ Hi'). by apply tasks_ok_fd.
    + rewrite (alter_as_insert _ _ _ _ Hi'). unfold with_fd. by rewrite E.
Qed.

(** [lock; openFiles[fd] = 0; unlock; return 0] of [sys_close]. *)
Lemma run_locked_set_fd i ts w s t fd old :
  ready i ts w s → ts !! i = Some t → 0 ≤ fd → openFiles t !! Z.to_nat fd = Some old →
  ∃ s', (lock (LTask i);; set_fd i fd 0;; unlock (LTask i);; ret 0) s = Done (Some 0, s') ∧
    ready i (with_fd i (Z.to_nat fd) 0 t ts) w s'.
Proof.
  intros Hr Hi Hfd Hold. pose proof Hr as [[Hh Ht] Hc E Ew].
  assert (tasks s !! i = Some t) as Hi' by congruence.
  destruct (wp_done (lock (LTask i);; set_fd i fd 0;; unlock (LTask i);; ret 0)
    (λ r s', r = Some 0 ∧ ready i (with_fd i (Z.to_nat fd) 0 t ts) w s') s)
    as (r & s' & E' & -> & Hr'); [|by exists s'].
  apply wp_bind. eapply wp_lock; [done|by apply not_elem_of_nil|cbn; lia|]. intros s1 R1 Hh1.
  apply relocked_rest in R1 as [E1 R1]. unfold set_fd. apply wp_bind, wp_bind, (wp_tsk _ _ t); [congruence|].
  rewrite (proj2 (Z.ltb_ge fd 0)), Hold by done.
  pose proof (wp_store_fd False s i t (Z.to_nat fd) 0 0 (λ _ s', ready i (with_fd i (Z.to_nat fd) 0 t ts) w s') s1
    (conj Hh Ht) Hi' Hh1 E1 R1 (λ s', ready_stored i ts w s s' _ t 0 Hr)) as Hst.
  apply wp_bind_inv in Hst. eapply wp_mono; [exact Hst|]. cbn. intros _ s2 Hst2.
  apply wp_bind_inv in Hst2. apply wp_bind. eapply wp_mono; [exact Hst2|]. cbn. intros _ s3 Hr3.
  unfold ret. apply (wp_ret False). split; [done|exact Hr3].
Qed.

Lemma run_AllocFd i ts w s t from k :
  ready i ts w s → ts !! i = Some t →
  lowest_closed (drop (Z.to_nat (Z.max 0 from)) (openFiles t)) (Z.to_nat (Z.max 0 from)) = Some k →
  ∃ s', ⟪ AllocFd i from (-1) ⟫ s ⇓ (Z.of_nat k, s') ∧ ready i ts w s'.
Proof.
  intros Hr Hi Hk. pose proof Hr as [[Hh Ht] Hc E Ew].
  assert (tasks s !! i = Some t) as Hi' by congruence.
  destruct (ok_task _ _ _ Ht i t Hi') as [_ _ _ _ _ Hlen].
  destruct (wp_done (AllocFd i from (-1)) (λ r s', r = Z.of_nat k ∧ ready i ts w s') s)
    as (r & s' & E' & -> & Hr'); [|by exists s'].
  unfold AllocFd. apply wp_bind. eapply wp_lock; [done|by apply not_elem_of_nil|cbn; lia|]. intros s1 R1 Hh1.
  apply relocked_rest in R1 as [E1 R1]. apply wp_bind, (wp_tsk _ _ t); [congruence|].
  change (-1 <? 0) with true. cbn iota.
  assert ((if from <? 0 then 0 else from) = Z.max 0 from) as -> by (case_bool (from <? 0); lia).
  set (n := Z.to_nat (Z.max 0 from)) in *.
  assert (n < NOFILE)%nat as Hn.
  { destruct (decide (n < NOFILE)%nat); [done|]. rewrite drop_ge in Hk by lia. done. }
  apply wp_bind. unfold wp at 1, lift.
  replace (Z.to_nat (Z.of_nat NOFILE - Z.max 0 from)) with (NOFILE - n)%nat by lia.
  rewrite first_closed_lowest, Hk by lia.
  pose proof (wp_leave_task False s s1 i (Z.of_nat k) (λ r s', r = Z.of_nat k ∧ ready i ts w s')
    (conj Hh Ht) Hh1 E1 R1 (λ s' Hq, conj eq_refl (ready_quiet _ _ _ _ _ Hr Hq))) as Hl. exact Hl.
Qed.
End steps.

Section calls.
Context {W : Type} `{PageAllocator W, FileLayer W, FileCalls W, OldCalls W, !FileTable W}.
Implicit Types (s : ks W) (w : W).

(** The handler [h] gives [r] and leaves the table [fds'] and references that
    match it. *)
Definition serves (h : M (ks W) (option Z)) (i : nat) (t : task) (ts : list task) w s (r : Z) (fds' : list Z) : Prop :=
  ∃ s' w', ⟪ h ⟫ s ⇓ (Some r, s') ∧ ready i (<[i := set_openFiles fds' t]> ts) w' s' ∧
    held (descs (<[i := set_openFiles fds' t]> ts)) w'.

Lemma set_openFiles_id (ts : list task) (i : nat) t : ts !! i = Some t → <[i := set_openFiles (openFiles t) t]> ts = ts.
Proof. intros Hi. apply list_insert_id. rewrite Hi. by destruct t. Qed.

Lemma serves_same h i t ts w s s' r :
  ts !! i = Some t → h s = Done (Some r, s') → ready i ts w s' → held (descs ts) w →
  serves h i t ts w s r (openFiles t).
Proof. intros Hi E Hr Hh. exists s', w. by rewrite set_openFiles_id. Qed.

Lemma serve_dup i t ts w s fd r fds' :
  ready i ts w s → ts !! i = Some t → held (descs ts) w →
  reg (pg_mem w) (trapframe t) 0 = fd → fd ≠ Z.of_nat NOFILE →
  fd_spec (CDup fd) (openFiles t) = Some (r, fds') →
  serves sys_dup i t ts w s r fds'.
Proof.
  intros Hr Hi Hh Hfd Hn Hs. cbn in Hs.
  destruct (run_argint _ _ _ _ _ 0 Hr Hi ltac:(lia)) as (s1 & E1 & R1). rewrite Hfd in E1.
  destruct (run_get _ _ _ _ _ _ R1 Hi Hn) as (s2 & E2 & R2).
  destruct (fd_file (openFiles t) fd =? 0) eqn:E0.
  - injection Hs as <- <-. apply (serves_same _ _ _ _ _ _ s2); [done| |done|done].
    unfold sys_dup. step E1. step E2. by rewrite E0.
  - bool_arith. destruct (lowest_closed (openFiles t) 0) as [k|] eqn:Ek; [|done]. injection Hs as <- <-.
    destruct (held_dup _ _ _ Hh (descs_fd_file _ _ _ _ Hi E0)) as (w' & Ew & Hh').
    destruct (run_world _ _ _ w' _ _ _ R2 Ew) as (s3 & E3 & R3).
    destruct (run_register _ _ _ _ _ _ (-1) k R3 Hi E0 ltac:(unfold NFILE; lia)) as (s4 & E4 & R4).
    { by unfold slot_for. }
    exists s4, w'. split; [|split; [exact R4|]].
    + unfold sys_dup. step E1. step E2. rewrite (proj2 (Z.eqb_neq _ 0) E0). step E3. by step E4.
    + pose proof (slot_for_closed (openFiles t) (-1) k Ek) as Hk.
      destruct (descs_slot _ _ _ _ _ Hi Hk) as (R & Ed & Hd).
      unfold with_fd in Hd. rewrite Hd, one_nonzero by done. rewrite Ed, one_zero, (left_id_L ∅ (⊎)) in Hh'. done.
Qed.

Lemma serve_close i t ts w s fd r fds' :
  ready i ts w s → ts !! i = Some t → held (descs ts) w →
  reg (pg_mem w) (trapframe t) 0 = fd → fd ≠ Z.of_nat NOFILE →
  fd_spec (CClose fd) (openFiles t) = Some (r, fds') →
  serves sys_close i t ts w s r fds'.
Proof.
  intros Hr Hi Hh Hfd Hn Hs. cbn in Hs.
  destruct (run_argint _ _ _ _ _ 0 Hr Hi ltac:(lia)) as (s1 & E1 & R1). rewrite Hfd in E1.
  destruct (fd <? 0) eqn:E0.
  - injection Hs as <- <-. apply (serves_same _ _ _ _ _ _ s1); [done| |done|done].
    unfold sys_close. step E1. by rewrite E0.
  - destruct (Z.eqb_spec (fd_file (openFiles t) fd) 0) as [|Hf]; [done|]. injection Hs as <- <-.
    destruct (fd_file_lookup _ _ Hf) as [Hfd0 Hl].
    destruct (run_get _ _ _ _ _ _ R1 Hi Hn) as (s2 & E2 & R2).
    destruct (run_me _ _ _ _ R2) as (s3 & E3 & R3).
    destruct (held_close _ _ _ Hh (descs_fd_file _ _ _ _ Hi Hf)) as (w' & Ew & Hh').
    destruct (run_world _ _ _ w' _ _ _ R3 Ew) as (s4 & E4 & R4).
    destruct (run_locked_set_fd _ _ _ _ _ _ _ R4 Hi Hfd0 Hl) as (s5 & E5 & R5).
    exists s5, w'. split; [|split; [exact R5|]].
    + unfold sys_close. step E1. rewrite E0. step E2. step E3. step E4. exact E5.
    + destruct (descs_slot _ _ _ _ _ Hi Hl) as (R & Ed & Hd).
      unfold with_fd in Hd. rewrite Hd, one_zero, (left_id_L ∅ (⊎)).
      by rewrite Ed, one_nonzero, difference_here in Hh' by done.
Qed.

Lemma serve_dupfd i t ts w s fd from r fds' :
  ready i ts w s → ts !! i = Some t → held (descs ts) w →
  reg (pg_mem w) (trapframe t) 0 = fd → fd ≠ Z.of_nat NOFILE →
  (reg (pg_mem w) (trapframe t) 1 = 0 ∨ reg (pg_mem w) (trapframe t) 1 = 1 ∨ reg (pg_mem w) (trapframe t) 1 = 12) →
  reg (pg_mem w) (trapframe t) 2 = from →
  fd_spec (CDupFd fd from) (openFiles t) = Some (r, fds') →
  serves sys_fcntl i t ts w s r fds'.
Proof.
  intros Hr Hi Hh Hfd Hn Hcmd Hfrom Hs. cbn in Hs.
  destruct (Z.eqb_spec (fd_file (openFiles t) fd) 0) as [|Hf]; [done|].
  destruct (lowest_closed (drop _ _) _) as [k|] eqn:Ek; [|done]. cbn in Hs.
  case_bool (NFILE <? Z.of_nat k); [done|]. injection Hs as <- <-.
  destruct (run_argint _ _ _ _ _ 0 Hr Hi ltac:(lia)) as (s1 & E1 & R1). rewrite Hfd in E1.
  destruct (run_argint _ _ _ _ _ 1 R1 Hi ltac:(lia)) as (s2 & E2 & R2).
  destruct (run_argint _ _ _ _ _ 2 R2 Hi ltac:(lia)) as (s3 & E3 & R3). rewrite Hfrom in E3.
  destruct (run_get _ _ _ _ _ _ R3 Hi Hn) as (s4 & E4 & R4).
  destruct (held_dup _ _ _ Hh (descs_fd_file _ _ _ _ Hi Hf)) as (w' & Ew & Hh').
  destruct (run_world _ _ _ w' _ _ _ R4 Ew) as (s5 & E5 & R5).
  destruct (run_me _ _ _ _ R5) as (s6 & E6 & R6).
  destruct (run_AllocFd _ _ _ _ _ _ _ R6 Hi Ek) as (s7 & E7 & R7).
  assert (openFiles t !! k = Some 0) as Hk.
  { pose proof (lowest_closed_spec (drop (Z.to_nat (Z.max 0 from)) (openFiles t)) (Z.to_nat (Z.max 0 from))) as Hsp.
    rewrite Ek in Hsp. destruct Hsp as (Hle & Hl & _). rewrite lookup_drop in Hl. rewrite <- Hl. f_equal. lia. }
  destruct (run_register _ _ _ _ _ _ (Z.of_nat k) k R7 Hi Hf ltac:(lia)) as (s8 & E8 & R8).
  { unfold slot_for. by rewrite (proj2 (Z.ltb_ge _ 0)), Nat2Z.id, decide_True by (done || lia). }
  exists s8, w'. split; [|split; [exact R8|]].
  - unfold sys_fcntl. step E1. step E2.
    assert ((reg (pg_mem w) (trapframe t) 1 =? 2) = false ∧ (reg (pg_mem w) (trapframe t) 1 =? 4) = false ∧
      (reg (pg_mem w) (trapframe t) 1 =? 3) = false) as (-> & -> & C3) by (rewrite !Z.eqb_neq; lia).
    cbn [orb]. step E3. step E4. rewrite C3. step E5. step E6. step E7. by step E8.
  - destruct (descs_slot _ _ _ _ _ Hi Hk) as (R & Ed & Hd).
    unfold with_fd in Hd. rewrite Hd, one_nonzero by done. by rewrite Ed, one_zero, (left_id_L ∅ (⊎)) in Hh'.
Qed.

(** [close_old] leaves a closed descriptor. *)
Lemma run_close_old i t ts w s fd T :
  ready i ts w s → ts !! i = Some t → 0 ≤ fd ≤ NFILE → length (openFiles t) = NOFILE →
  held (T ⊎ descs ts) w →
  ∃ s' w' t' ts', ⟪ close_old i fd ⟫ s ⇓ (tt, s') ∧ ready i ts' w' s' ∧ held (T ⊎ descs ts') w' ∧
    ts' !! i = Some t' ∧ openFiles t' !! Z.to_nat fd = Some 0 ∧
    ∀ fp, with_fd i (Z.to_nat fd) fp t' ts' = with_fd i (Z.to_nat fd) fp t ts.
Proof.
  intros Hr Hi Hfd Hlen Hh.
  destruct (lookup_lt_is_Some_2 (openFiles t) (Z.to_nat fd)) as [old Hl].
  { rewrite Hlen. unfold NFILE, NOFILE in *. lia. }
  unfold close_old. step (run_tsk _ _ _ _ _ _ Hr Hi). rewrite (proj2 (Z.ltb_ge fd 0)), Hl by lia.
  destruct (Z.eqb_spec old 0) as [->|Hne]; cbn [negb]; [by exists s, w, t, ts|].
  destruct (descs_slot _ _ _ _ _ Hi Hl) as (R & Ed & Hd). rewrite Ed, one_nonzero in Hh by done.
  destruct (held_close _ _ old Hh ltac:(multiset_solver)) as (w2 & Ew2 & Hh2).
  destruct (run_world _ _ _ w2 _ _ _ Hr Ew2) as (s1 & E1 & R1).
  destruct (run_set_fd _ _ _ _ _ fd old 0 R1 Hi ltac:(lia) Hl) as (s2 & E2 & R2).
  pose proof (lookup_lt_Some _ _ _ Hi). pose proof (lookup_lt_Some _ _ _ Hl).
  exists s2, w2, (set_openFiles (<[Z.to_nat fd := 0]> (openFiles t)) t), (with_fd i (Z.to_nat fd) 0 t ts).
  split_and!; [by step E1|exact R2| |by apply list_lookup_insert_eq|by apply list_lookup_insert_eq|].
  - rewrite Hd, one_zero, (left_id_L ∅ (⊎)).
    replace (T ⊎ R) with ((T ⊎ ({[+ old +]} ⊎ R)) ∖ {[+ old +]}) by multiset_solver. done.
  - intros fp. unfold with_fd. cbn [openFiles set_openFiles]. rewrite !list_insert_insert_eq. by destruct t.
Qed.

Lemma serve_dup3 i t ts w s oldfd newfd r fds' :
  ready i ts w s → ts !! i = Some t → held (descs ts) w → length (openFiles t) = NOFILE →
  reg (pg_mem w) (trapframe t) 0 = oldfd → reg (pg_mem w) (trapframe t) 1 = newfd → oldfd ≠ Z.of_nat NOFILE →
  fd_spec (CDup3 oldfd newfd) (openFiles t) = Some (r, fds') →
  serves sys_dup3 i t ts w s r fds'.
Proof.
  intros Hr Hi Hh Hlen Hold Hnew Hn Hs. cbn in Hs.
  destruct (Z.eqb_spec (fd_file (openFiles t) oldfd) 0) as [|Hf]; [done|].
  case_bool (newfd <? 0); [done|]. cbn in Hs. case_bool (NFILE <? newfd); [done|]. injection Hs as <- <-.
  destruct (run_argint _ _ _ _ _ 0 Hr Hi ltac:(lia)) as (s1 & E1 & R1). rewrite Hold in E1.
  destruct (run_argint _ _ _ _ _ 1 R1 Hi ltac:(lia)) as (s2 & E2 & R2). rewrite Hnew in E2.
  destruct (run_get _ _ _ _ _ _ R2 Hi Hn) as (s3 & E3 & R3).
  destruct (held_dup _ _ _ Hh (descs_fd_file _ _ _ _ Hi Hf)) as (w1 & Ew1 & Hh1).
  destruct (run_world _ _ _ w1 _ _ _ R3 Ew1) as (s4 & E4 & R4).
  destruct (run_me _ _ _ _ R4) as (s5 & E5 & R5).
  destruct (run_close_old _ _ _ _ _ newfd _ R5 Hi ltac:(lia) Hlen Hh1)
    as (s6 & w2 & t2 & ts2 & E6 & R6 & Hh2 & Hi2 & Hz2 & Ets).
  destruct (run_register _ _ _ _ _ _ newfd (Z.to_nat newfd) R6 Hi2 Hf ltac:(lia)) as (s8 & E8 & R8).
  { unfold slot_for. by rewrite (proj2 (Z.ltb_ge _ 0)), decide_True by (done || lia). }
  rewrite Z2Nat.id in E8 by lia. destruct (descs_slot _ _ _ _ _ Hi2 Hz2) as (R & Ed & Hd).
  rewrite Ed, one_zero, (left_id_L ∅ (⊎)) in Hh2.
  pose proof (Hd (fd_file (openFiles t) oldfd)) as Hd'. rewrite Ets in R8, Hd'.
  exists s8, w2. split; [|split; [exact R8|]].
  - unfold sys_dup3. step E1. step E2. step E3. step E4. step E5. step E6. step E8.
    by rewrite (proj2 (Z.ltb_ge newfd 0)) by lia.
  - unfold with_fd in Hd'. by rewrite Hd', one_nonzero.
Qed.

(** ** The dispatcher *)
Context (trampoline : Z) (fuel : nat) (xstate_at : nat → Z) (lit : string → Z)
  (env_ a_elf a_ph a_ustack a_argc a_path a_dir a_fstype a_word a_vec a_buf a_argv a_newpath uninit : Z)
  (FreeMemOfBytes TotalMemOfBytes : W → Z) (now_ts : Z * Z) (tv : list Z).
Abbreviation syscall_ := (syscall trampoline fuel xstate_at lit env_ a_elf a_ph a_ustack a_argc a_path a_dir
  a_fstype a_word a_vec a_buf a_argv a_newpath uninit FreeMemOfBytes TotalMemOfBytes now_ts tv).
Abbreviation table := (syscalls trampoline fuel xstate_at lit env_ a_elf a_ph a_ustack a_argc a_path a_dir
  a_fstype a_word a_vec a_buf a_argv a_newpath uninit FreeMemOfBytes TotalMemOfBytes now_ts tv).

(** The state in which the handler starts. *)
Lemma dispatch i ts w s t num h :
  ready i ts w s → ts !! i = Some t → i32 (ld64 (pg_mem w) (trapframe t + TF_A7)) = num →
  0 < num < 400 → handler_in table num = Some h →
  ∃ s1, ready i ts w s1 ∧
    syscall_ s = (r ← h;
      match r with
      | Some r => in_world (wr64 (trapframe t + TF_A0) (u64 r))
      | None => mret tt
      end) s1.
Proof.
  intros Hr Hi Hnum Hrange Hh. destruct (run_me _ _ _ _ Hr) as (s1 & E1 & R1).
  destruct (run_world i ts w w s1 (rd64 (trapframe t + TF_A7)) _ R1 eq_refl) as (s2 & E2 & R2).
  exists s2. split; [done|]. unfold syscall. step E1. step (run_tsk _ _ _ _ _ _ R1 Hi). step E2.
  cbv zeta. rewrite Hnum, (proj2 (Z.ltb_lt 0 num)), (proj2 (Z.ltb_lt num 400)), Hh by lia. done.
Qed.

Lemma syscall_serves i ts w s t num h r fds' :
  ready i ts w s → ts !! i = Some t → i32 (ld64 (pg_mem w) (trapframe t + TF_A7)) = num →
  0 < num < 400 → handler_in table num = Some h →
  (∀ x, trapframe t + TF_A0 ≤ x < trapframe t + TF_A0 + 8 → unread x) →
  (∀ s1, ready i ts w s1 → serves h i t ts w s1 r fds') →
  ∃ s' w', ⟪ syscall_ ⟫ s ⇓ (tt, s') ∧ ready i (<[i := set_openFiles fds' t]> ts) w' s' ∧
    held (descs (<[i := set_openFiles fds' t]> ts)) w' ∧ ld64 (pg_mem w') (trapframe t + TF_A0) = u64 r.
Proof.
  intros Hr Hi Hnum Hrange Hh Hu Hs. destruct (dispatch _ _ _ _ _ _ _ Hr Hi Hnum Hrange Hh) as (s1 & R1 & ->).
  destruct (Hs s1 R1) as (s2 & w2 & E2 & R2 & Hh2). step E2.
  destruct (run_world _ _ w2 _ s2 (wr64 (trapframe t + TF_A0) (u64 r)) tt R2 eq_refl) as (s3 & E3 & R3).
  exists s3. eexists. split; [exact E3|]. split; [exact R3|]. split; [by apply held_store|].
  rewrite pg_get_set. apply ld64_st64_same, u64_range.
Qed.

Lemma step_panic {A B} (c : M (ks W) A) (f : A → M (ks W) B) s e :
  c s = Panic e → (c ≫= f) s = Panic e.
Proof. apply M_bind_Panic. Qed.

(** A null call ends in the panic of the null access. *)
Lemma null_dup3 i t ts w s oldfd e :
  ready i ts w s → ts !! i = Some t → reg (pg_mem w) (trapframe t) 0 = oldfd →
  oldfd ≠ Z.of_nat NOFILE → fd_file (openFiles t) oldfd = 0 → vfs_dup 0 w = Panic e →
  sys_dup3 s = Panic e.
Proof.
  intros Hr Hi Hold Hn Hf Hp.
  destruct (run_argint _ _ _ _ _ 0 Hr Hi ltac:(lia)) as (s1 & E1 & R1). rewrite Hold in E1.
  destruct (run_argint _ _ _ _ _ 1 R1 Hi ltac:(lia)) as (s2 & E2 & R2).
  destruct (run_get _ _ _ _ _ _ R2 Hi Hn) as (s3 & E3 & R3). rewrite Hf in E3.
  unfold sys_dup3. step E1. step E2. step E3. by eapply step_panic, run_world_panic.
Qed.
Lemma null_dupfd i t ts w s fd e :
  ready i ts w s → ts !! i = Some t → reg (pg_mem w) (trapframe t) 0 = fd →
  (reg (pg_mem w) (trapframe t) 1 = 0 ∨ reg (pg_mem w) (trapframe t) 1 = 1 ∨ reg (pg_mem w) (trapframe t) 1 = 12) →
  fd ≠ Z.of_nat NOFILE → fd_file (openFiles t) fd = 0 → vfs_dup 0 w = Panic e →
  sys_fcntl s = Panic e.
Proof.
  intros Hr Hi Hold Hcmd Hn Hf Hp.
  destruct (run_argint _ _ _ _ _ 0 Hr Hi ltac:(lia)) as (s1 & E1 & R1). rewrite Hold in E1.
  destruct (run_argint _ _ _ _ _ 1 R1 Hi ltac:(lia)) as (s2 & E2 & R2).
  destruct (run_argint _ _ _ _ _ 2 R2 Hi ltac:(lia)) as (s3 & E3 & R3).
  destruct (run_get _ _ _ _ _ _ R3 Hi Hn) as (s4 & E4 & R4). rewrite Hf in E4.
  unfold sys_fcntl. step E1. step E2.
  assert ((reg (pg_mem w) (trapframe t) 1 =? 2) = false ∧ (reg (pg_mem w) (trapframe t) 1 =? 4) = false ∧
    (reg (pg_mem w) (trapframe t) 1 =? 3) = false) as (-> & -> & C3) by (rewrite !Z.eqb_neq; lia).
  cbn [orb]. step E3. step E4. rewrite C3. by eapply step_panic, run_world_panic.
Qed.
Lemma null_close i t ts w s fd e :
  ready i ts w s → ts !! i = Some t → reg (pg_mem w) (trapframe t) 0 = fd → 0 ≤ fd →
  fd ≠ Z.of_nat NOFILE → fd_file (openFiles t) fd = 0 → vfs_close 0 w = Panic e →
  sys_close s = Panic e.
Proof.
  intros Hr Hi Hold Hfd Hn Hf Hp.
  destruct (run_argint _ _ _ _ _ 0 Hr Hi ltac:(lia)) as (s1 & E1 & R1). rewrite Hold in E1.
  destruct (run_get _ _ _ _ _ _ R1 Hi Hn) as (s2 & E2 & R2). rewrite Hf in E2.
  destruct (run_me _ _ _ _ R2) as (s3 & E3 & R3).
  unfold sys_close. step E1. rewrite (proj2 (Z.ltb_ge fd 0)) by done. step E2. step E3.
  by eapply step_panic, run_world_panic.
Qed.

(** The number of a call and its handler. *)
Definition call_num (c : fd_call) : Z :=
  match c with CDup _ => 23 | CDup3 _ _ => 24 | CClose _ => 57 | CDupFd _ _ => 25 end.
Definition call_handler (c : fd_call) : M (ks W) (option Z) :=
  match c with CDup _ => sys_dup | CDup3 _ _ => sys_dup3 | CClose _ => sys_close | CDupFd _ _ => sys_fcntl end.

Lemma makes_call_num m tf c : makes_call m tf c → i32 (ld64 m (tf + TF_A7)) = call_num c.
Proof. destruct c; cbn; intros; destruct_and!; done. Qed.
Lemma call_in_table c : handler_in table (call_num c) = Some (call_handler c) ∧ 0 < call_num c < 400.
Proof. by destruct c. Qed.

Lemma handler_serves c i t ts w s r fds' :
  ready i ts w s → ts !! i = Some t → held (descs ts) w → length (openFiles t) = NOFILE →
  makes_call (pg_mem w) (trapframe t) c → fd_spec c (openFiles t) = Some (r, fds') →
  serves (call_handler c) i t ts w s r fds'.
Proof.
  intros Hr Hi Hh Hlen Hc Hs. destruct c; cbn [makes_call] in Hc; destruct_and!; cbn [call_handler].
  - by eapply serve_dup.
  - by eapply serve_dup3.
  - by eapply serve_close.
  - by eapply serve_dupfd.
Qed.

Lemma handler_null c i t ts w s :
  ready i ts w s → ts !! i = Some t → held (descs ts) w →
  makes_call (pg_mem w) (trapframe t) c → null_call c (openFiles t) → ∃ e, call_handler c s = Panic e.
Proof.
  intros Hr Hi Hh Hc Hn. destruct (held_null _ _ Hh) as [[e1 Hd] [e2 Hcl]].
  destruct c; cbn [makes_call null_call call_handler] in *; destruct_and?; [done|..].
  - exists e1. by eapply null_dup3.
  - exists e2. by eapply null_close.
  - exists e1. by eapply null_dupfd.
Qed.

(** Claim C9. Duplicating and closing descriptors, from the trap frame of the
    call to its result in [a0].  Whatever tasks there are, [dup], [dup3],
    [close] and [fcntl]'s [F_DUPFD] do what the abstract table [fd_spec] says
    to the caller's descriptors and nothing to anyone else's; the scheduler's
    invariant holds afterwards; and the references that the file layer counts
    are still exactly the descriptors of all tasks, so a file is released when
    its last descriptor anywhere goes.  [dup3], [fcntl] and [close] of a
    descriptor that is not open panic instead of returning an error. *)
Theorem descriptors_hold_files s i t c :
  wf s → cur_task s = Some i → tasks s !! i = Some t →
  held (descs (tasks s)) (world s) →
  (∀ x, trapframe t + TF_A0 ≤ x < trapframe t + TF_A0 + 8 → unread x) →
  makes_call (pg_mem (world s)) (trapframe t) c →
  (∀ r fds', fd_spec c (openFiles t) = Some (r, fds') →
     ∃ s', ⟪ syscall_ ⟫ s ⇓ (tt, s') ∧ wf s' ∧ cur_task s' = Some i ∧
       tasks s' = <[i := set_openFiles fds' t]> (tasks s) ∧
       held (descs (tasks s')) (world s') ∧ ld64 (pg_mem (world s')) (trapframe t + TF_A0) = u64 r) ∧
  (null_call c (openFiles t) → ∃ e, syscall_ s = Panic e).
Proof.
  intros Hwf Hc Hi Hh Hu Hcall.
  assert (ready i (tasks s) (world s) s) as Hr by by split.
  destruct (ok_task _ _ _ (proj2 Hwf) i t Hi) as [_ _ _ _ _ Hlen].
  destruct (call_in_table c) as [Hin Hrange]. pose proof (makes_call_num _ _ _ Hcall) as Hnum. split.
  - intros r fds' Hs.
    destruct (syscall_serves _ _ _ _ _ _ _ r fds' Hr Hi Hnum Hrange Hin Hu) as (s' & w' & E & [? ? E' Ew] & Hh' & Ha).
    { intros s1 R1. by apply (handler_serves c). }
    exists s'. rewrite E', Ew. by split_and!.
  - intros Hn. destruct (dispatch _ _ _ _ _ _ _ Hr Hi Hnum Hrange Hin) as (s1 & R1 & ->).
    destruct (handler_null c _ _ _ _ _ R1 Hi Hh Hcall Hn) as [e E]. exists e. by apply step_panic.
Qed.
End calls.

(** ** The virtual file system counts references as promised *)
Section vfs_file_table.
Context {F : Type} `{PageAllocator F, OldWorld F} (L : Z → FsLayer F) {HL : @FsLaws F (L 0)}.
Context (junk_path : Z → list Z) (k210 : bool).
Context (cwd : Z) (others : VfsProps.refs).
(** One memory: that of the page allocator is that of the file systems. *)
Context (one_memory : ∀ w : F, pg_mem w = @Vfs.kmem F (L 0) w).
Context (one_set : ∀ m (w : F), pg_set_mem m w = @set_kmem F (L 0) m w).

#[local] Instance layer_ : FileLayer (vst F) := vst_file_layer L junk_path k210.

#[local] Program Instance vfs_file_table : FileTable (vst F) := {|
  held T s := @files_ok F (L 0) HL cwd others T s;
  unread := @scratch F (L 0) HL;
|}.
Next Obligation.
  intros T s a v Hu [Hi Hm Hr Hc Hf Hh]. cbn in *.
  destruct (@law_mem F (L 0) HL _ _ _ (st64 (@Vfs.kmem F (L 0) (vw s)) a v) Hi) as [Hi' _].
  { intros x Hx. apply Hu. destruct (decide (a ≤ x < a + 8)); [done|]. by rewrite st64_other in Hx. }
  by split; cbn [with_vw vw files mount_points_ root_]; rewrite ?one_set, ?one_memory.
Qed.
Next Obligation.
  intros T s fp Hok Hin. destruct (@held_file F (L 0) HL cwd others T s fp Hok Hin) as (f & Ef & _ & _ & Hpos).
  destruct (@fop_step F (L 0) HL 0 (λ m, fresh (dom m ∪ {[0]})) cwd 0) with (h := others) (T := T) (s := s)
    (o := ODup fp) as (r & s' & E & Hok'); [|done|done|].
  { intros m. pose proof (is_fresh (dom m ∪ {[0]})) as Hfr. split; [apply not_elem_of_dom|]; set_solver. }
  exists s'. split; [|done]. cbn [run_fop vfs_dup layer_ vst_file_layer] in *.
  unfold Vfs.dup in *. assert (fref fp s = Done (f, s)) as E1 by (unfold fref; by rewrite Ef).
  rewrite (M_bind_Done _ _ _ _ _ E1) in E |- *. rewrite (proj2 (Z.ltb_ge (f_ref f) 1)) in E |- * by lia.
  cbn in E |- *. by injection E as <- <-.
Qed.
Next Obligation.
  intros T s fp Hok Hin. exact (@close_step F (L 0) HL (λ _, 0) cwd others T s fp Hok Hin).
Qed.
Next Obligation.
  intros T s [_ _ _ _ Hf _].
  assert (fref 0 s = Panic "bad file") as E.
  { unfold fref. destruct (files s !! 0) as [f|] eqn:Ef; [|done]. by destruct (Hf 0 f Ef). }
  split; exists "bad file"; cbn [vfs_dup vfs_close vst_file_layer layer_].
  - unfold Vfs.dup. by apply M_bind_Panic.
  - unfold Vfs.close. by apply M_bind_Panic.
Qed.
End vfs_file_table.
