(* ===== verification/SyscallWitness.v ===== *)
(** * A concrete kernel for the theorem of SyscallProps.v

    Init sleeps; its child runs with descriptor 0 open on the root of the device
    file system of VfsWitness.v, and asks for [dup(0)].  Its trap frame is at
    2000, in the memory of the file systems; no page is free. *)
From stdpp Require Import gmultiset.
From S2P Require Import Prelude Mem KAlloc Vm Buf SList Pipe Fat32 Dirent Locks.
From S2P Require Import Sched SchedProps DevFs Vfs VfsProps DevFsProps VfsWitness OldVfs VfsCalls Exec OldCalls Syscall SyscallProps.

(** A page allocator that has run out of pages. *)
#[local] Program Instance no_pages : PageAllocator (devs unit) := {|
  pg_alloc := mret 0;
  pg_free _ := mret tt;
  pg_mem := dmem;
  pg_set_mem m s := Devs m (dnodes s) (dlists s) (dworld s);
  pg_inv s l := l = [] ∧ mem_ok (dmem s);
  pg_managed _ := False;
|}.
Next Obligation. done. Qed.
Next Obligation. intros s l [-> _]. split; constructor. Qed.
Next Obligation. intros s l [_ ?]. done. Qed.
Next Obligation. intros s l m [-> _] ? _. done. Qed.
Next Obligation. done. Qed.
Next Obligation. intros s p l [[=] _]. Qed.
Next Obligation. intros s p l _ _ []. Qed.

Definition layers (pgt : Z) : FsLayer (devs unit) := layer0.
(** No old file system is mounted. *)
#[local] Instance no_fat : OldWorld (devs unit) := {|
  ov _ := OV (replicate NFILESYSTEM None) ∅ ∅; set_ov _ s := s;
  FindDevByName _ := mret (-1);
  oconsole_read _ _ _ := mret 0; oconsole_write _ _ n := mret n;
  odev_read _ _ _ _ := mret tt; odev_write _ _ _ _ := mret tt;
  fat_init _ := mret tt; fat_open _ _ _ := mret None;
  fat_read _ _ _ _ _ _ := mret (-1); fat_write _ _ _ _ _ _ := mret (-1);
  fat_mkdir _ _ := mret (-1); fat_rm _ _ := mret (-1); fat_ls _ _ _ _ _ := mret (-1);
|}.
Definition no_paths (fp : Z) : list Z := [].
#[local] Instance old0 : OldCalls (vst (devs unit)) := old_calls 20 (λ i, 3000 + Z.of_nat i) no_paths.
#[local] Instance flayer0 : FileLayer (vst (devs unit)) := vst_file_layer layers no_paths false.
#[local] Instance fcalls0 : FileCalls (vst (devs unit)) :=
  vst_file_calls layers 20 fresh_file 400 (File 0 0 false false FD_NONE 0 0 0 0).
#[local] Instance ftable0 : FileTable (vst (devs unit)) :=
  @vfs_file_table (devs unit) no_pages no_fat layers laws0 no_paths false 1000 {[+ 1000 +]} (λ _, eq_refl) (λ _ _, eq_refl).

(** File 700 is the root directory, open for reading. *)
Definition regs0 (m : mem) : mem := st64 (st64 m (2000 + TF_A0) 0) (2000 + TF_A7) 23.
Definition dev1 : devs unit := Devs (regs0 (dmem dev0)) (dnodes dev0) (dlists dev0) (dworld dev0).
Definition vfs1 : vst (devs unit) :=
  VS {[700 := File 0 1 true false FD_INODE 0 1000 0 0]} (mount_points_ vfs0) 1000 dev1.

Lemma regs_scratch x : 2000 ≤ x < 2300 → outside_names [1200; 1100] names0 x.
Proof.
  intros Hx ip Hip. assert (ip = 1200 ∨ ip = 1100) as [-> | ->] by set_solver;
    unfold name_of, VFS_INODE, names0; cbn; lia.
Qed.

Lemma dev1_inv : dinv 500 1000 [1200; 1100] names0 dev1 held0 None.
Proof.
  destruct (@law_mem _ layer0 laws0 dev0 held0 None (regs0 (dmem dev0)) dev0_inv) as [Hi _]; [|exact Hi].
  intros x Hx. apply regs_scratch. destruct (decide (2000 ≤ x < 2300)); [done|].
  unfold regs0, TF_A0, TF_A7 in Hx. rewrite !st64_other in Hx by lia. done.
Qed.

Lemma vfs1_inv : @fs_inv _ layer0 laws0 dev1 ({[+ 1000 +]} ⊎ {[+ 1000 +]}) None.
Proof. exact dev1_inv. Qed.
Lemma refs1 : inode_refs (files vfs1) = {[+ 1000 +]}.
Proof.
  unfold inode_refs. cbn [files vfs1]. rewrite map_fold_singleton. unfold inode_ref. cbn [f_type f_inode].
  by rewrite (right_id_L ∅ (⊎)).
Qed.

Lemma vfs1_ok : @files_ok (devs unit) layer0 laws0 1000 {[+ 1000 +]} {[+ 700 +]} vfs1.
Proof.
  split.
  - rewrite refs1. exact vfs1_inv.
  - unfold mounts_held. cbn [mount_points_ vfs1 vfs0]. constructor; [by left|constructor].
  - multiset_solver.
  - multiset_solver.
  - intros fp f Hf. cbn [files vfs1] in Hf. apply lookup_singleton_Some in Hf as [<- <-]. cbn [f_type f_ref].
    split_and!; [done|done| |multiset_solver]. by rewrite multiplicity_singleton, decide_True.
  - intros fp Hfp. assert (fp = 700) as -> by multiset_solver.
    eexists. cbn [files vfs1]. apply lookup_singleton_eq.
Qed.

Definition caller : task :=
  set_trapframe 2000 (set_openFiles (700 :: replicate 119 0) (SchedWitness.mk_task 2 RUNNING (Some 1%nat) NoChan KForkret)).
Definition kernel1 : ks (vst (devs unit)) :=
  SchedWitness.kernel_in vfs1
    (SchedWitness.mk_task 1 SLEEPING None (ChTask 1) (KSleep true (LTask 1) (InWait 0))) caller 2.

Lemma kernel1_wf : wf kernel1.
Proof.
  apply SchedWitness.kernel_wf; try done; [by right| |].
  - split; cbn; try done. intros _. split; [done|]. by exists true, (LTask 1), (InWait 0).
  - split; cbn; try done. intros j [= <-]. unfold NTASK. lia.
Qed.

Lemma kernel1_descs : descs (tasks kernel1) = {[+ 700 +]}.
Proof. vm_compute. reflexivity. Qed.

Definition syscall1 : M (ks (vst (devs unit))) unit :=
  syscall 3000 20 (λ _, 0) (λ _, 0) 0 0 0 0 0 0 0 0 0 0 0 0 0 0 (λ _, 0) (λ _, 0) (0, 0) [].

Lemma descriptors_hold_files_witness :
  ∃ s', syscall1 kernel1 = Done (tt, s') ∧ wf s' ∧
    tasks s' = <[2%nat := set_openFiles (700 :: 700 :: replicate 118 0) caller]> (tasks kernel1) ∧
    ld64 (pg_mem (world s')) (2000 + TF_A0) = 1.
Proof.
  destruct (descriptors_hold_files 3000 20 (λ _, 0) (λ _, 0) 0 0 0 0 0 0 0 0 0 0 0 0 0 0 (λ _, 0) (λ _, 0) (0, 0) []
    kernel1 2 caller (CDup 0) kernel1_wf eq_refl eq_refl) as [H _].
  - rewrite kernel1_descs. exact vfs1_ok.
  - intros x Hx. apply regs_scratch. cbn in Hx. unfold TF_A0 in Hx. lia.
  - split; [|split; [|done]].
    + change (i32 (ld64 (regs0 (dmem dev0)) (2000 + TF_A7)) = 23). unfold regs0.
      rewrite ld64_st64_same by lia. reflexivity.
    + change (i32 (ld64 (regs0 (dmem dev0)) (2000 + TF_A0 + 8 * 0)) = 0). unfold regs0, TF_A0, TF_A7.
      rewrite ld64_st64_ne, ld64_st64_same by lia. reflexivity.
  - destruct (H 1 (700 :: 700 :: replicate 118 0) eq_refl) as (s' & E & Hwf & _ & Et & _ & Ea).
    exists s'. split; [exact E|]. split; [exact Hwf|]. split; [exact Et|]. exact Ea.
Defined.
