(* ===== verification/OldVfsProps.v ===== *)
(** * What the old file layer promises

    [getFs] finds the longest mount point; [chdir] on every branch, errors
    included; what [close], which [exit] calls, does not give back.  The old FAT
    library is any [OldWorld] that keeps this layer's state ([OldLaws]). *)
From stdpp Require Import gmultiset.
From S2P Require Import Prelude Mem Fat32 Fat32Files Locks Sched SchedProps Vfs OldVfs Syscall SyscallProps.

(** What this layer needs of the world behind it. *)
Class OldLaws (F : Type) `{OldWorld F} := {
  ov_set o (x : F) : ov (set_ov o x) = o;
  set_ov_twice o o' (x : F) : set_ov o (set_ov o' x) = set_ov o x;
  fat_open_keeps fs path flags (x : F) r x' : fat_open fs path flags x = Done (r, x') → ov x' = ov x;
}.

(** ** Strings in arrays *)
Definition is_str (p : list Z) : Prop := Forall (λ c, c ≠ 0) p.
(** The array of 64 bytes with the string [p]. *)
Definition arr (p : list Z) : list Z := p ++ replicate (MAXPATH - length p) 0.

Lemma strlen_app p q : is_str p → strlen_arr (p ++ q) = (length p + strlen_arr q)%nat.
Proof.
  induction 1 as [|c p Hc Hp IH]; [done|]. cbn [app strlen_arr length]. apply Z.eqb_neq in Hc as ->. by rewrite IH.
Qed.
Lemma strlen_zeros n : strlen_arr (replicate n 0) = 0%nat.
Proof. by destruct n. Qed.
Lemma strlen_arr_arr p : is_str p → strlen_arr (arr p) = length p.
Proof. intros Hp. unfold arr. rewrite strlen_app, strlen_zeros by done. lia. Qed.
Lemma arr_str_arr p : is_str p → arr_str (arr p) = p.
Proof. intros Hp. unfold arr_str. rewrite strlen_arr_arr by done. unfold arr. by rewrite take_app_length. Qed.
Lemma length_arr p : (length p ≤ MAXPATH)%nat → length (arr p) = MAXPATH.
Proof. intros Hp. unfold arr. rewrite length_app, length_replicate. lia. Qed.

Lemma splice_arr p q : (length p + length q ≤ MAXPATH)%nat → splice (arr p) (length p) q = arr (p ++ q).
Proof.
  intros Hl. unfold arr. rewrite splice_app_r, Nat.sub_diag by done. rewrite length_app, <- app_assoc. f_equal.
  replace (MAXPATH - length p)%nat with (length q + (MAXPATH - (length p + length q)))%nat by lia.
  rewrite replicate_add, splice_app_l by (rewrite length_replicate; lia).
  by rewrite splice_all by by rewrite length_replicate.
Qed.
Lemma splice_empty q : (length q ≤ MAXPATH)%nat → splice (replicate MAXPATH 0) 0 q = arr q.
Proof. intros Hl. exact (splice_arr [] q Hl). Qed.

Lemma put_empty {S : Type} q (s : S) :
  put_str (replicate MAXPATH 0) 0 q s = if decide (length q ≤ MAXPATH)%nat then Done (arr q, s) else Panic "path overrun".
Proof.
  unfold put_str. rewrite length_replicate. destruct (Nat.leb_spec (0 + length q) MAXPATH), (decide _); try lia; [|done].
  by rewrite splice_empty.
Qed.
Lemma put_arr {S : Type} p q (s : S) : (length p ≤ MAXPATH)%nat →
  put_str (arr p) (length p) q s =
  if decide (length p + length q ≤ MAXPATH)%nat then Done (arr (p ++ q), s) else Panic "path overrun".
Proof.
  intros Hp. unfold put_str. rewrite length_arr by done.
  destruct (Nat.leb_spec (length p + length q) MAXPATH), (decide _); try lia; [|done]. by rewrite splice_arr.
Qed.
Lemma strlen_in_arr {S : Type} p (s : S) : is_str p → (length p ≤ MAXPATH)%nat →
  strlen_in (arr p) s = if decide (length p < MAXPATH)%nat then Done (length p, s) else Panic "path overrun".
Proof.
  intros Hp Hl. unfold strlen_in. rewrite strlen_arr_arr, length_arr by done.
  by destruct (Nat.ltb_spec (length p) MAXPATH), (decide _); try lia.
Qed.

Lemma safestrcpy_str p : ∀ d z, is_str p →
  safestrcpy_arr d (p ++ z) (S (length p)) = p ++ 0 :: drop (S (length p)) d.
Proof.
  induction p as [|c p IH]; intros d z Hp; [by destruct z|]. apply Forall_cons in Hp as [Hc Hp].
  change (length (c :: p)) with (S (length p)). remember (S (length p)) as n eqn:Hn.
  cbn [app safestrcpy_arr]. subst n. apply Z.eqb_neq in Hc as ->. rewrite IH by done. cbn [drop app].
  by rewrite drop_drop.
Qed.
Lemma arr_str_app p q : is_str p → arr_str (p ++ 0 :: q) = p.
Proof.
  intros Hp. unfold arr_str. rewrite strlen_app by done. cbn [strlen_arr Z.eqb].
  by rewrite Nat.add_0_r, take_app_length.
Qed.
Lemma is_str_arr_str l : is_str (arr_str l).
Proof.
  unfold arr_str. induction l as [|c l IH]; cbn [strlen_arr]; [constructor|].
  destruct (c =? 0) eqn:E; [constructor|]. cbn [take]. apply Z.eqb_neq in E. by constructor.
Qed.

(** ** [getFs] *)
Definition mount_str (fs : ofs) : list Z := arr_str (mountPoint fs).
(** Slot [i] is considered for [path]. *)
Definition fits (path : list Z) (i : nat) (fs : ofs) : Prop :=
  nth i path 0 = 0 ∨ mount_str fs `prefix_of` path.

Lemma length_arr_str l : length (arr_str l) = strlen_arr l.
Proof.
  unfold arr_str. apply length_take_le. induction l as [|c l IH]; cbn; [lia|]. destruct (c =? 0); cbn; lia.
Qed.

Lemma mp_match_iff mp path fi : mp_match mp path fi = true ↔ fi = 0 ∨ arr_str mp `prefix_of` path.
Proof.
  revert path. induction mp as [|c mp IH]; intros path; unfold arr_str; cbn [mp_match strlen_arr take].
  { split; [|done]. intros _. right. apply prefix_nil. }
  destruct (Z.eqb_spec c 0) as [->|Hc]; cbn [negb andb take]; [split; [intros _; right; apply prefix_nil|done]|].
  destruct (Z.eqb_spec fi 0) as [->|Hf]; cbn [negb]; [split; [by left|done]|].
  destruct path as [|d path]; cbn [hd tail].
  { rewrite (proj2 (Z.eqb_neq c 0)) by done. cbn. split; [done|]. intros [?|Hp]; [done|].
    by apply prefix_nil_inv in Hp. }
  destruct (Z.eqb_spec c d) as [->|Hd]; cbn [negb].
  - rewrite IH. unfold arr_str. split; intros [?|Hp]; try done; right; [by apply prefix_cons|by eapply prefix_cons_inv_2].
  - split; [done|]. intros [?|Hp]; [done|]. by apply prefix_cons_inv_1 in Hp.
Qed.

(** What is known when the slots before [i] have been looked at. *)
Definition best_of (l : list (option ofs)) (path : list Z) (n r len : nat) : Prop :=
  (∀ i fs, (i < n)%nat → l !! i = Some (Some fs) → fits path i fs →
    (length (mount_str fs) ≤ len)%nat ∧ (length (mount_str fs) = len → mount_str fs = [] ∨ (r ≤ i)%nat)) ∧
  ((len = 0 ∧ r = 0)%nat ∨
   ∃ fs, l !! r = Some (Some fs) ∧ fits path r fs ∧ length (mount_str fs) = len ∧ (0 < len)%nat ∧ (r < n)%nat).

Lemma getFs_loop_best l path : ∀ k n r len, (n + k = length l)%nat → best_of l path n r len →
  ∃ len', best_of l path (length l) (getFs_loop (drop n l) n path r len) len'.
Proof.
  induction k as [|k IH]; intros n r len Hn Hb.
  { rewrite drop_ge by lia. exists len. by replace (length l) with n by lia. }
  destruct (lookup_lt_is_Some_2 l n) as [o Ho]; [lia|]. rewrite (drop_S _ _ _ Ho).
  assert (∀ r' len', best_of l path (S n) r' len' →
    ∃ len'', best_of l path (length l) (getFs_loop (drop (S n) l) (S n) path r' len') len'') as Hgo
    by (intros; eapply IH; [lia|done]).
  destruct Hb as [Hall Hr]. cbn [getFs_loop]. destruct o as [fs|].
  - rewrite <- length_arr_str. fold (mount_str fs).
    destruct (mp_match (mountPoint fs) path (nth n path 0)) eqn:Em; cbn [andb].
    + apply mp_match_iff in Em. destruct (Nat.ltb_spec len (length (mount_str fs))) as [Hlt|Hge]; apply Hgo; split.
      * intros i fs' Hi Hfs' Hf. destruct (decide (i = n)) as [->|]; [split; [|by right]; by simplify_eq|].
        destruct (Hall i fs') as [? _]; [lia|done..|]. split; [lia|]. lia.
      * right. exists fs. split_and!; [done..|lia|lia].
      * intros i fs' Hi Hfs' Hf. destruct (decide (i = n)) as [->|]; [|apply Hall; [lia|done..]].
        simplify_eq. split; [done|]. intros E. destruct Hr as [[-> ->]|(? & ? & ? & ? & ? & ?)]; [|right; lia].
        left. by apply length_zero_iff_nil.
      * destruct Hr as [?|(fs' & ? & ? & ? & ? & ?)]; [by left|]. right. exists fs'. split_and!; [done..|lia].
    + apply Hgo. split.
      * intros i fs' Hi Hfs' Hf. destruct (decide (i = n)) as [->|]; [|apply Hall; [lia|done..]].
        simplify_eq. apply mp_match_iff in Hf. congruence.
      * destruct Hr as [?|(fs' & ? & ? & ? & ? & ?)]; [by left|]. right. exists fs'. split_and!; [done..|lia].
  - apply Hgo. split.
    + intros i fs' Hi Hfs' Hf. destruct (decide (i = n)) as [->|]; [by simplify_eq|apply Hall; [lia|done..]].
    + destruct Hr as [?|(fs' & ? & ? & ? & ? & ?)]; [by left|]. right. exists fs'. split_and!; [done..|lia].
Qed.

(** [getFs] is the search for the longest mount point: the slot it
    gives holds a file system that fits the path, no other one that fits has a
    longer mount point, and none of the same length has a smaller number; it is
    slot 0 when nothing but empty mount points fits.  A mount point fits when it
    is a prefix of the path, but also, whatever it is, when the byte of the path
    at the number of the slot is NUL. *)
Theorem getFs_longest_mount l path :
  let r := getFs_index l path in
  (r = 0%nat ∧ ∀ i fs, l !! i = Some (Some fs) → fits path i fs → mount_str fs = []) ∨
  (∃ fs, l !! r = Some (Some fs) ∧ fits path r fs ∧ mount_str fs ≠ [] ∧
    ∀ i fs', l !! i = Some (Some fs') → fits path i fs' →
      (length (mount_str fs') ≤ length (mount_str fs))%nat ∧
      (length (mount_str fs') = length (mount_str fs) → (r ≤ i)%nat)).
Proof.
  destruct (getFs_loop_best l path (length l) 0 0 0) as (len & Hall & Hr); [lia|split; [intros; lia|by left]|].
  unfold getFs_index. rewrite drop_0 in *.
  destruct Hr as [[-> Hr]|(fs & Hfs & Hf & Hlen & Hpos & Hlt)]; [left|right].
  - split; [done|]. intros i fs Hi Hf. pose proof (lookup_lt_Some _ _ _ Hi).
    destruct (Hall i fs) as [? _]; [done..|]. apply length_zero_iff_nil. lia.
  - exists fs. split_and!; [done|done|by intros E; rewrite E in Hlen; cbn in Hlen; lia|].
    intros i fs' Hi Hf'. pose proof (lookup_lt_Some _ _ _ Hi). rewrite Hlen.
    destruct (Hall i fs') as [? Heq]; [done..|]. split; [done|]. intros E. destruct (Heq E) as [E'|]; [|done].
    rewrite E' in E. cbn in E. lia.
Qed.

(** "/" goes to the third file system, which is mounted on "/mnt". *)
Example root_goes_to_mount :
  getFs_index [Some (OFs DEVFS (arr s_dev_dir) 0 []); Some (OFs FAT32 (arr s_slash) 0 []);
               Some (OFs FAT32 (arr [47; 109; 110; 116]) 0 [])] (arr s_slash) = 2%nat.
Proof. reflexivity. Qed.

(** ** [chdir] *)

(** The path the calls make of a name and the working directory. *)
Definition absolute (cd name : list Z) : list Z :=
  let name := match name with a :: b :: r => if (a =? 46) && (b =? 47) then r else name | _ => name end in
  if hd 0 name =? 47 then name else cd ++ name.
Definition with_slash (p : list Z) : list Z := if nth (length p - 1) p 0 =? 47 then p else p ++ s_slash.

Lemma with_slash_arr {S : Type} p (s : S) : is_str p → (length p < MAXPATH)%nat → p ≠ [] →
  (if negb (nth (length p - 1) (arr p) 0 =? 47) then put_str (arr p) (length p) [47; 0] else mret (arr p)) s =
  if decide (length (with_slash p) < MAXPATH)%nat then Done (arr (with_slash p), s) else Panic "path overrun".
Proof.
  intros Hp Hl Hne. unfold with_slash.
  assert (nth (length p - 1) (arr p) 0 = nth (length p - 1) p 0) as ->.
  { unfold arr. apply app_nth1. destruct p; [done|cbn; lia]. }
  destruct (nth (length p - 1) p 0 =? 47); cbn [negb]; [by rewrite decide_True|].
  rewrite put_arr, length_app by lia. cbn [length s_slash].
  destruct (decide _), (decide _); try lia; [|done]. do 2 f_equal. unfold arr, s_slash.
  rewrite !length_app, <- !app_assoc. f_equal.
  cbn [length app]. by replace (MAXPATH - (length p + 1))%nat with (Datatypes.S (MAXPATH - (length p + 2))) by lia.
Qed.
Lemma is_str_with_slash p : is_str p → is_str (with_slash p).
Proof. intros Hp. unfold with_slash. case_match; [done|]. apply Forall_app. split; [done|by constructor]. Qed.

Section chdir.
Context {F : Type} `{OldLaws F} (ftab : nat → Z).
Implicit Types (s : ks (vst F)) (w : vst F).

Lemma run_my {A} i ts w s (f : nat → M (ks (vst F)) A) : ready i ts w s →
  ∃ s', (p ← myTask; i ← deref p; f i) s = f i s' ∧ ready i ts w s'.
Proof.
  intros Hr. destruct (run_me _ _ _ _ Hr) as (s' & E & Hr'). exists s'. split; [|done].
  unfold me in E. revert E. unfold mbind, M_bind.
  destruct (myTask s) as [[p s1]| |]; [|done..]. by intros ->.
Qed.

(** A change of the calling task under its lock. *)
Lemma run_locked {A} i ts w s t (g : task → task) (c : M (ks (vst F)) A) :
  ready i ts w s → ts !! i = Some t →
  state (g t) = state t → pid (g t) = pid t → parent (g t) = parent t → ctx (g t) = ctx t → tchan (g t) = tchan t →
  length (openFiles (g t)) = length (openFiles t) →
  ∃ s', (lock (LTask i);; upd_task i g;; unlock (LTask i);; c) s = c s' ∧ ready i (<[i := g t]> ts) w s'.
Proof.
  intros Hr Hi E1 E2 E3 E4 E5 E6. pose proof Hr as [[Hh Ht] Hc E Ew].
  assert (tasks s !! i = Some t) as Hi' by congruence.
  destruct (wp_done (lock (LTask i);; upd_task i g;; unlock (LTask i);; mret tt)
    (λ r s', ready i (<[i := g t]> ts) w s') s) as (r & s' & E' & Hr').
  - apply wp_bind. eapply wp_lock; [done|by apply not_elem_of_nil|cbn; lia|]. intros s1 R1 Hh1.
    apply relocked_rest in R1 as [T1 (V1 & S1 & C1 & I1 & K1 & W1)]. apply wp_bind, wp_modify, wp_bind.
    eapply wp_unlock; [by eapply holds_ext, Hh1|cbn; lia|]. intros s2 R2 Hh2.
    apply relocked_rest in R2 as [T2 (V2 & S2 & C2 & I2 & K2 & W2)]. apply wp_ret.
    assert (tasks s2 = <[i := g t]> ts) as ET.
    { rewrite T2. cbn. rewrite T1, E. by apply alter_as_insert; rewrite <- E. }
    cbn in *. split; [split; [done|]| |done|]; [|congruence..].
    rewrite C2, I2, C1, I1, ET, <- E. by apply (tasks_ok_keep _ _ _ _ _ g Ht Hi').
  - exists s'. split; [|done]. revert E'. unfold mbind, M_bind.
    destruct (lock (LTask i) s) as [[? s1]| |]; [|done..]. destruct (upd_task i g s1) as [[? s2]| |]; [|done..].
    destruct (unlock (LTask i) s2) as [[? s3]| |]; [|done..]. by intros [= _ ->].
Qed.

Lemma run_absolute i ts w s t name :
  let p := absolute (arr_str (currentDir t)) name in
  ready i ts w s → ts !! i = Some t →
  if decide (length p ≤ MAXPATH)%nat then ∃ s', getAbsolutePath name s = Done (arr p, s') ∧ ready i ts w s'
  else getAbsolutePath name s = Panic "path overrun".
Proof.
  intros p Hr Hi. subst p. unfold getAbsolutePath, absolute in *.
  edestruct (run_my (A := list Z) i ts w s) as (s1 & E1 & Hr1); [exact Hr|]. rewrite E1. clear E1.
  rewrite (M_bind_Done _ _ _ _ _ (run_tsk _ _ _ _ _ _ Hr1 Hi)). cbv zeta.
  set (name' := match name with _ :: _ :: _ => _ | _ => _ end) in *. clearbody name'.
  destruct (hd 0 name' =? 47).
  { rewrite put_empty. destruct (decide _); [by exists s1|done]. }
  rewrite length_app. pose proof Hr1 as [[Hh Ht] Hc E Ew]. set (cd := arr_str (currentDir t)).
  destruct (wp_done (lock (LTask i)) (λ _ s2, relocked s1 s2 ∧ holds [LTask i] s2) s1) as ([] & s2 & E2 & R2 & Hh2).
  { eapply wp_lock; [done|by apply not_elem_of_nil|cbn; lia|]. done. }
  destruct (decide (length cd + length name' ≤ MAXPATH)%nat) as [Hl|Hl].
  2: { step E2. unfold mbind at 1, M_bind at 1. rewrite put_empty. destruct (decide _); [|done].
    unfold mbind at 1, M_bind at 1. by rewrite put_arr, decide_False. }
  step E2. unfold mbind at 1, M_bind at 1. rewrite put_empty, decide_True by lia.
  unfold mbind at 1, M_bind at 1. rewrite put_arr, decide_True by lia.
  apply relocked_rest in R2 as [T2 R2].
  destruct (wp_done (unlock (LTask i);; mret (arr (cd ++ name')))
    (λ r s', r = arr (cd ++ name') ∧ ready i ts w s') s2) as (r & s' & E' & -> & Hr'); [|by exists s'].
  eapply (wp_leave_task False s1 s2); [by split|done|done|done|]. intros s3 Hq. split; [done|by eapply ready_quiet].
Qed.
(** File handles. *)
Definition free_file (f : file) : bool := (f_ref f =? 0) && is_none (f_type f).
Definition handle_is (b : bool) w (k : nat) : Prop := ∃ f, files w !! ftab k = Some f ∧ free_file f = b.
Definition with_file (fp : Z) (f : file) (x : F) w : vst F := VS (<[fp := f]> (files w)) (mount_points_ w) (root_ w) x.

Lemma fref_ok w fp f : files w !! fp = Some f → fref fp w = Done (f, w).
Proof. intros E. unfold fref. by rewrite E. Qed.

Lemma alloc_loop_first w k f : files w !! ftab k = Some f → free_file f = true →
  ∀ n i, (i ≤ k < i + n)%nat → (∀ j, (i ≤ j < k)%nat → handle_is false w j) →
  allocFileHandle_loop ftab i n w = Done (ftab k, with_file (ftab k) (set_ref 1 f) (vw w) w).
Proof.
  intros Hf Hfree. induction n as [|n IH]; intros i Hi Hbusy; [lia|]. cbn [allocFileHandle_loop].
  destruct (decide (i = k)) as [->|Hne].
  - step (fref_ok _ _ _ Hf). unfold free_file in Hfree. by rewrite Hfree.
  - destruct (Hbusy i) as (g & Hg & Hgb); [lia|]. step (fref_ok _ _ _ Hg). unfold free_file in Hgb. rewrite Hgb.
    apply IH; [lia|]. intros j Hj. apply Hbusy. lia.
Qed.
Lemma alloc_loop_full w : ∀ n i, (∀ j, (i ≤ j < i + n)%nat → handle_is false w j) →
  allocFileHandle_loop ftab i n w = Panic "alloc file".
Proof.
  induction n as [|n IH]; intros i Hbusy; [done|]. cbn [allocFileHandle_loop].
  destruct (Hbusy i) as (g & Hg & Hgb); [lia|]. step (fref_ok _ _ _ Hg). unfold free_file in Hgb. rewrite Hgb.
  apply IH. intros j Hj. apply Hbusy. lia.
Qed.

(** The file system that serves a path, and what it answers when a path is
    opened: whether it is a directory, if it is there. *)
Definition serving w (path : list Z) : option ofs :=
  match mountedFS (ov (vw w)) !! getFs_index (mountedFS (ov (vw w))) path with Some (Some fs) => Some fs | _ => None end.
Definition answers (fs : ofs) (path : list Z) (x : F) (r : option bool) (x' : F) : Prop :=
  match o_type fs with
  | DEVFS => r = Some false ∧ x' = x
  | _ => ∃ a, fat_open fs path O_RDONLY x = Done (a, x') ∧ r = snd <$> a
  end.

Lemma answers_ov fs path x r x' : answers fs path x r x' → ov x' = ov x.
Proof.
  unfold answers. destruct (o_type fs); [| |by intros [_ ->]|..];
    intros (a & E & _); exact (fat_open_keeps _ _ _ _ _ _ E).
Qed.

Lemma get_ov_run w : get_ov w = Done (ov (vw w), w).
Proof. by destruct w. Qed.
Lemma put_ov_run o w : put_ov o w = Done (tt, VS (files w) (mount_points_ w) (root_ w) (set_ov o (vw w))).
Proof. done. Qed.
Lemma getFs_run w path fs : serving w path = Some fs → getFs path w = Done (fs, w).
Proof.
  intros Hs. unfold getFs, serving in *. step (get_ov_run w). destruct (_ !! getFs_index _ _) as [[fs'|]|]; by simplify_eq.
Qed.

(** The state of the layer when [fp] has been given back and the world is [x]. *)
Definition released (fp : Z) (x : F) w : vst F :=
  let o := ov (vw w) in
  with_file fp file0
    (set_ov (OV (mountedFS o) (<[fp := replicate MAXPATH 0]> (filepath_ o)) (<[fp := false]> (directory_ o))) x) w.

Lemma free_run fp w f x (d : bool) :
  ov x = ov (vw w) →
  freeFileHandle fp (with_file fp f (set_ov (OV (mountedFS (ov x)) (filepath_ (ov x)) (<[fp := d]> (directory_ (ov x)))) x) w) =
  Done (tt, released fp x w).
Proof.
  intros E. unfold freeFileHandle, put_file, modify, set_filepath, set_directory, released, with_file.
  erewrite M_bind_Done by reflexivity. cbn [files mount_points_ root_ vw]. rewrite insert_insert_eq.
  erewrite M_bind_Done; [|by rewrite (M_bind_Done _ _ _ _ _ (get_ov_run _)), put_ov_run].
  rewrite (M_bind_Done _ _ _ _ _ (get_ov_run _)), put_ov_run. cbn [files mount_points_ root_ vw].
  rewrite !ov_set, !set_ov_twice. cbn [mountedFS filepath_ directory_]. by rewrite E, insert_insert_eq.
Qed.

Lemma fat_run fs path fp f a x w :
  files w !! fp = Some f → fat_open fs path O_RDONLY (vw w) = Done (a, x) →
  match snd <$> a with
  | None => fat_open_file fs path O_RDONLY fp w = Done (-1, VS (files w) (mount_points_ w) (root_ w) x)
  | Some d => ov x = ov (vw w) ∧ ∃ g, fat_open_file fs path O_RDONLY fp w =
      Done (0, with_file fp g (set_ov (OV (mountedFS (ov x)) (filepath_ (ov x)) (<[fp := d]> (directory_ (ov x)))) x) w)
  end.
Proof.
  intros Hf E. pose proof (fat_open_keeps _ _ _ _ _ _ E) as Ek. unfold fat_open_file.
  assert (on_fs (fat_open fs path O_RDONLY) w = Done (a, VS (files w) (mount_points_ w) (root_ w) x)) as E'
    by (unfold on_fs; by rewrite E).
  destruct a as [[size d]|]; cbn [fmap option_fmap option_map snd]; rewrite (M_bind_Done _ _ _ _ _ E'); [|done].
  split; [done|]. eexists.
  rewrite (M_bind_Done _ _ _ f (VS (files w) (mount_points_ w) (root_ w) x)); [reflexivity|by apply fref_ok].
Qed.

Lemma open_run fs path fp f r x w :
  files w !! fp = Some f → answers fs path (vw w) r x →
  match r with
  | None => fs_open fs path O_RDONLY fp w = Done (-1, VS (files w) (mount_points_ w) (root_ w) x)
  | Some d => ov x = ov (vw w) ∧ ∃ g, fs_open fs path O_RDONLY fp w =
      Done (0, with_file fp g (set_ov (OV (mountedFS (ov x)) (filepath_ (ov x)) (<[fp := d]> (directory_ (ov x)))) x) w)
  end.
Proof.
  intros Hf. unfold answers, fs_open. destruct (o_type fs) eqn:Et.
  3: { intros [-> ->]. split; [done|]. unfold dev_open. eexists. rewrite (M_bind_Done _ _ _ _ _ (fref_ok _ _ _ Hf)). reflexivity. }
  all: intros (a & E & ->); by apply fat_run with (f := f).
Qed.
Lemma release_taken fp f x w : released fp x (with_file fp f (vw w) w) = released fp x w.
Proof. unfold released, with_file. cbn [files mount_points_ root_ vw]. by rewrite insert_insert_eq. Qed.
Lemma file_taken fp f w : files (with_file fp f (vw w) w) !! fp = Some f.
Proof. apply lookup_insert_eq. Qed.

Lemma chdir_full i ts w s name :
  ready i ts w s → (∀ k, (k < Z.to_nat NFILE)%nat → handle_is false w k) → chdir ftab name s = Panic "alloc file".
Proof.
  intros Hr Hfull. unfold chdir. edestruct (run_my (A := Z) i ts w s) as (s1 & E1 & Hr1); [exact Hr|]. rewrite E1.
  apply M_bind_Panic. apply (run_world_panic i ts w); [done|]. apply alloc_loop_full. intros j Hj. apply Hfull. lia.
Qed.

Lemma getFs_null w path : serving w path = None → getFs path w = Panic "null pointer".
Proof.
  intros Hs. unfold getFs, serving in *. step (get_ov_run w). by destruct (_ !! getFs_index _ _) as [[fs'|]|].
Qed.
Lemma after_lock {S A B : Type} (c : M S unit) (d : M S A) (v : A) (k : A → M S B) (z : S) :
  (∀ z', d z' = Done (v, z')) → (c;; (x ← d; k x)) z = (c;; k v) z.
Proof.
  intros Hd. unfold mbind, M_bind. destruct (c z) as [[[] z']| |]; [by rewrite Hd|done..].
Qed.
Lemma absolute_str l name : is_str name → is_str (absolute (arr_str l) name).
Proof.
  intros Hn. unfold absolute. set (name' := match name with _ :: _ :: _ => _ | _ => _ end).
  assert (is_str name') as Hn'.
  { unfold name', is_str in *. destruct name as [|a [|b r]]; [done..|]. destruct (_ && _); [|done].
    by do 2 apply Forall_inv_tail in Hn. }
  destruct (hd 0 name' =? 47); [done|]. apply Forall_app. split; [apply is_str_arr_str|done].
Qed.

Section outcomes.
Context (i : nat) (ts : list task) (t : task) (name p : list Z).
Context (my_task : ts !! i = Some t) (is_path : p = absolute (arr_str (currentDir t)) name) (path_str : is_str p).

(** The last part of [chdir], from a directory's path on; [fp] is the handle. *)
Definition enter (fp : Z) (path : list Z) : M (ks (vst F)) Z :=
  n ← strlen_in path;
  path ← match n with
         | O => panic "path[-1]"
         | S n' => if negb (nth n' path 0 =? 47) then put_str path n [47; 0] else mret path
         end;
  lock (LTask i);;
  n ← strlen_in path;
  upd_task i (λ t, set_currentDir (safestrcpy_arr (currentDir t) path (S n)) t);;
  unlock (LTask i);;
  in_world (freeFileHandle fp);;
  mret 0.

Lemma enter_run s w w' fp :
  ready i ts w s → freeFileHandle fp w = Done (tt, w') → (length p ≤ MAXPATH)%nat →
  if decide (p = []) then enter fp (arr p) s = Panic "path[-1]"
  else if decide (length (with_slash p) < MAXPATH)%nat then
    ∃ s' cd, enter fp (arr p) s = Done (0, s') ∧ arr_str cd = with_slash p ∧ 0 ∈ cd ∧
      ready i (<[i := set_currentDir cd t]> ts) w' s'
  else enter fp (arr p) s = Panic "path overrun".
Proof.
  intros Hr Efree Hl. pose proof (strlen_in_arr p s path_str Hl) as En.
  assert (length p ≤ length (with_slash p))%nat as Hle
    by (unfold with_slash; destruct (_ =? 47); [done|rewrite length_app; lia]).
  unfold enter. destruct (decide (p = [])) as [Hp|Hne].
  { rewrite Hp in En |- *. by rewrite (M_bind_Done _ _ _ _ _ En). }
  destruct (decide (length p < MAXPATH)%nat) as [Hlt|].
  2: { rewrite decide_False by lia. by apply M_bind_Panic. }
  assert (∃ n, length p = S n) as [n El] by (destruct p; [done|by eexists]).
  pose proof (with_slash_arr p s path_str Hlt Hne) as Ews. rewrite El in Ews, En.
  replace (S n - 1)%nat with n in Ews by lia.
  destruct (decide (length (with_slash p) < MAXPATH)%nat) as [Hws|].
  2: { rewrite (M_bind_Done _ _ _ _ _ En). by apply M_bind_Panic. }
  pose proof (is_str_with_slash p path_str) as Hstr.
  set (g := λ t0, set_currentDir (safestrcpy_arr (currentDir t0) (arr (with_slash p)) (S (length (with_slash p)))) t0).
  destruct (run_locked i ts w s t g (in_world (freeFileHandle fp);; mret 0) Hr my_task eq_refl eq_refl
    eq_refl eq_refl eq_refl eq_refl) as (s7 & E7 & Hr7).
  destruct (run_world i _ w _ s7 _ _ Hr7 Efree) as (s8 & E8 & Hr8). exists s8. eexists.
  split_and!; [| |..|exact Hr8].
  - rewrite (M_bind_Done _ _ _ _ _ En), (M_bind_Done _ _ _ _ _ Ews).
    etransitivity; [apply (after_lock (lock (LTask i)) _ (length (with_slash p)))|etransitivity; [exact E7|by step E8]].
    intros s'. by rewrite strlen_in_arr, decide_True by (done || lia).
  - unfold arr at 1. rewrite safestrcpy_str by done. by apply arr_str_app.
  - unfold arr at 1. rewrite safestrcpy_str by done. apply elem_of_app. right. apply list_elem_of_here.
Qed.

(** [chdir] from a free handle on. *)
Lemma chdir_asks s w k f :
  ready i ts w s → (k < Z.to_nat NFILE)%nat →
  files w !! ftab k = Some f → free_file f = true → (∀ j, (j < k)%nat → handle_is false w j) →
  let fp := ftab k in
  ((MAXPATH < length p)%nat → chdir ftab name s = Panic "path overrun") ∧
  ((length p ≤ MAXPATH)%nat → serving w (arr p) = None → chdir ftab name s = Panic "null pointer") ∧
  (∀ fs r x, (length p ≤ MAXPATH)%nat → serving w (arr p) = Some fs → answers fs (arr p) (vw w) r x →
    match r with
    | None => ∃ s', chdir ftab name s = Done (-1, s') ∧ ready i ts (with_file fp (set_ref 1 f) x w) s'
    | Some false => ∃ s', chdir ftab name s = Done (-1, s') ∧ ready i ts (released fp x w) s'
    | Some true =>
        if decide (p = []) then chdir ftab name s = Panic "path[-1]"
        else if decide (length (with_slash p) < MAXPATH)%nat then
          ∃ s' cd, chdir ftab name s = Done (0, s') ∧ arr_str cd = with_slash p ∧ 0 ∈ cd ∧
            ready i (<[i := set_currentDir cd t]> ts) (released fp x w) s'
        else chdir ftab name s = Panic "path overrun"
    end).
Proof.
  intros Hr Hk Hf Hfree Hbusy fp. unfold chdir.
  edestruct (run_my (A := Z) i ts w s) as (s1 & E1 & Hr1); [exact Hr|]. rewrite E1. clear E1.
  destruct (run_world i ts w _ s1 _ _ Hr1 (alloc_loop_first w k f Hf Hfree (Z.to_nat NFILE) 0 ltac:(lia)
    (λ j Hj, Hbusy j (proj2 Hj)))) as (s2 & E2 & Hr2).
  rewrite (M_bind_Done _ _ _ _ _ E2). clear E2. fold fp in Hr2 |- *. set (w1 := with_file fp (set_ref 1 f) (vw w) w) in *.
  pose proof (run_absolute i ts w1 s2 t name Hr2 my_task) as Habs. cbv zeta in Habs. rewrite <- is_path in Habs.
  destruct (decide (length p ≤ MAXPATH)%nat) as [Hl|Hl].
  2: { split; [intros _; by apply M_bind_Panic|]. split; intros; lia. }
  destruct Habs as (s3 & E3 & Hr3). rewrite (M_bind_Done _ _ _ _ _ E3). clear E3. split; [lia|]. split.
  { intros _ Hs. apply M_bind_Panic, (run_world_panic i ts w1); [done|]. by apply getFs_null. }
  intros fs r x _ Hs Ha.
  destruct (run_world i ts w1 w1 s3 (getFs (arr p)) fs Hr3 (getFs_run w1 _ _ Hs)) as (s4 & E4 & Hr4).
  rewrite (M_bind_Done _ _ _ _ _ E4). clear E4.
  pose proof (open_run fs (arr p) fp (set_ref 1 f) r x w1 (file_taken _ _ _) Ha) as Ho.
  destruct r as [d|].
  2: { destruct (run_world i ts w1 _ s4 _ _ Hr4 Ho) as (s5 & E5 & Hr5). step E5. by exists s5. }
  destruct Ho as (Eov & g & Eo). destruct (run_world i ts w1 _ s4 _ _ Hr4 Eo) as (s5 & E5 & Hr5).
  rewrite (M_bind_Done _ _ _ _ _ E5). clear E5. change (0 <? 0) with false. cbn iota.
  set (w2 := with_file fp g _ w1) in *.
  assert (directory fp w2 = Done (d, w2)) as Ed.
  { unfold directory. step (get_ov_run w2). cbn [w2 with_file vw]. rewrite ov_set. cbn [directory_].
    by rewrite lookup_insert_eq. }
  destruct (run_world i ts w2 _ s5 _ _ Hr5 Ed) as (s6 & E6 & Hr6). rewrite (M_bind_Done _ _ _ _ _ E6). clear E6.
  pose proof (free_run fp w1 g x d Eov) as Efree. unfold w1 in Efree at 2. rewrite release_taken in Efree.
  destruct d; cbn [negb].
  - exact (enter_run s6 w2 _ fp Hr6 Efree Hl).
  - destruct (run_world i ts w2 _ s6 _ _ Hr6 Efree) as (s7 & E7 & Hr7). step E7. by exists s7.
Qed.
End outcomes.

(** Claim C28: [chdir] on every branch, for any string as name; [p] is the path
    it stands for in the task's working directory.  When no file handle is free
    it panics.  Otherwise, with [f] the first free handle: a path longer than the
    64 bytes of the local array is written past its end; a path that no file
    system serves is a null pointer; when the file system does not find the
    path, or it is not a directory, the result is -1, and the working directory
    and all tasks are unchanged; when it is a directory the result is 0 and the
    calling task's working directory is the path, with a slash at its end - if
    there is a path (the empty one reads [path[-1]]) and it fits into 64 bytes
    with the slash and the NUL (if not, they go past the array's end).  In the
    last two cases the handle is free again and the other files are unchanged.
    When the path is not found the handle stays taken, with a reference count of
    1, which nothing gives back. *)
Theorem chdir_outcomes i ts w s t name :
  let p := absolute (arr_str (currentDir t)) name in
  ready i ts w s → ts !! i = Some t → is_str name →
  ((∀ k, (k < Z.to_nat NFILE)%nat → handle_is false w k) → chdir ftab name s = Panic "alloc file") ∧
  (∀ k f, (k < Z.to_nat NFILE)%nat → files w !! ftab k = Some f → free_file f = true →
    (∀ j, (j < k)%nat → handle_is false w j) →
    ((MAXPATH < length p)%nat → chdir ftab name s = Panic "path overrun") ∧
    ((length p ≤ MAXPATH)%nat → serving w (arr p) = None → chdir ftab name s = Panic "null pointer") ∧
    (∀ fs r x, (length p ≤ MAXPATH)%nat → serving w (arr p) = Some fs → answers fs (arr p) (vw w) r x →
      match r with
      | None => ∃ s', chdir ftab name s = Done (-1, s') ∧ ready i ts (with_file (ftab k) (set_ref 1 f) x w) s'
      | Some false => ∃ s', chdir ftab name s = Done (-1, s') ∧ ready i ts (released (ftab k) x w) s'
      | Some true =>
          if decide (p = []) then chdir ftab name s = Panic "path[-1]"
          else if decide (length (with_slash p) < MAXPATH)%nat then
            ∃ s' cd, chdir ftab name s = Done (0, s') ∧ arr_str cd = with_slash p ∧ 0 ∈ cd ∧
              ready i (<[i := set_currentDir cd t]> ts) (released (ftab k) x w) s'
          else chdir ftab name s = Panic "path overrun"
      end)).
Proof.
  intros p Hr Hi Hname. split.
  - intros Hfull. eapply chdir_full; [exact Hr|]. exact Hfull.
  - intros k f Hk Hf Hfree Hbusy.
    exact (chdir_asks i ts t name p Hi eq_refl (absolute_str _ _ Hname) s w k f Hr Hk Hf Hfree Hbusy).
Qed.

(** [n] calls of [chdir] with the same name, all of them with the result -1. *)
Inductive fails (name : list Z) : nat → ks (vst F) → ks (vst F) → Prop :=
| fails_0 s : fails name 0 s s
| fails_S n s s1 s' : chdir ftab name s = Done (-1, s1) → fails name n s1 s' → fails name (S n) s s'.

Lemma fails_from i ts t name p fs o :
  ts !! i = Some t → p = absolute (arr_str (currentDir t)) name →
  is_str p → (length p ≤ MAXPATH)%nat →
  (∀ x, ov x = o → ∃ x', answers fs (arr p) x None x') →
  (∀ j k, (j < Z.to_nat NFILE)%nat → (k < Z.to_nat NFILE)%nat → ftab j = ftab k → j = k) →
  ∀ m j w s, (j + m = Z.to_nat NFILE)%nat → ready i ts w s → ov (vw w) = o → serving w (arr p) = Some fs →
  (∀ k, (k < j)%nat → handle_is false w k) →
  (∀ k, (j ≤ k < Z.to_nat NFILE)%nat → ∃ b, handle_is b w k) →
  ∃ n s', (n ≤ m)%nat ∧ fails name n s s' ∧ chdir ftab name s' = Panic "alloc file".
Proof.
  intros Hi Hp Hstr Hl Hmiss Hinj. induction m as [|m IH]; intros j w s Hj Hr Ho Hs Hbusy Hall.
  { exists 0%nat, s. split_and!; [done|constructor|]. eapply chdir_full; [exact Hr|]. intros k Hk. apply Hbusy. lia. }
  destruct (Hall j) as [[|] (f & Hf & Hb)]; [lia| |].
  - destruct (Hmiss (vw w) Ho) as (x & Ha). pose proof (answers_ov _ _ _ _ _ Ha) as Hx.
    destruct (chdir_asks i ts t name p Hi Hp Hstr s w j f Hr) as (_ & _ & Hask); [lia|done..|].
    destruct (Hask fs None x Hl Hs Ha) as (s1 & E1 & Hr1).
    assert (∀ k b, (k < Z.to_nat NFILE)%nat → k ≠ j → handle_is b w k → handle_is b (with_file (ftab j) (set_ref 1 f) x w) k)
      as Hkeep.
    { intros k b Hk Hkj (g & Hg & Hgb). exists g. split; [|done]. cbn [with_file files].
      rewrite lookup_insert_ne; [done|]. intros E. apply Hkj. symmetry. apply Hinj; [lia|lia|done]. }
    destruct (IH (S j) (with_file (ftab j) (set_ref 1 f) x w) s1) as (n & s' & Hn & Hfails & Hpanic); [lia|done|by rewrite <- Ho| | | |].
    + unfold serving in *. cbn [with_file vw]. by rewrite Hx.
    + intros k Hk. destruct (decide (k = j)) as [->|].
      * exists (set_ref 1 f). split; [apply lookup_insert_eq|done].
      * apply Hkeep; [lia|done|apply Hbusy; lia].
    + intros k Hk. destruct (Hall k) as [b Hb']; [lia|]. exists b. apply Hkeep; [lia..|done].
    + exists (S n), s'. split_and!; [lia|by econstructor|done].
  - destruct (IH (S j) w s) as (n & s' & Hn & Hfails & Hpanic); [lia|done..| | |].
    + intros k Hk. destruct (decide (k = j)) as [->|]; [by exists f|apply Hbusy; lia].
    + intros k Hk. apply Hall. lia.
    + exists n, s'. split_and!; [lia|done..].
Qed.

(** The handles that failed calls leave behind run out.  When [chdir]
    is called again and again with a path that the file system does not find,
    the first calls, at most [NFILE] of them, return -1, and the next one stops
    the kernel. *)
Theorem missing_directory_exhausts_handles i ts w s t name fs :
  let p := absolute (arr_str (currentDir t)) name in
  ready i ts w s → ts !! i = Some t →
  is_str name → (length p ≤ MAXPATH)%nat → serving w (arr p) = Some fs →
  (∀ x, ov x = ov (vw w) → ∃ x', answers fs (arr p) x None x') →
  (∀ j k, (j < Z.to_nat NFILE)%nat → (k < Z.to_nat NFILE)%nat → ftab j = ftab k → j = k) →
  (∀ k, (k < Z.to_nat NFILE)%nat → is_Some (files w !! ftab k)) →
  ∃ n s', (n ≤ Z.to_nat NFILE)%nat ∧ fails name n s s' ∧ chdir ftab name s' = Panic "alloc file".
Proof.
  intros p Hr Hi Hstr Hl Hs Hmiss Hinj Hall.
  apply (fails_from i ts t name p fs (ov (vw w)) Hi eq_refl (absolute_str _ _ Hstr) Hl Hmiss Hinj (Z.to_nat NFILE) 0 w s); try done.
  - intros k Hk. lia.
  - intros k Hk. destruct (Hall k) as [f Hf]; [lia|]. by exists (free_file f), f.
Qed.

(** ** What [exit] leaves behind: the last reference to a file goes, the
    reference the file had on its inode stays. *)
Lemma close_keeps_inode `{FsLayer F} w fp f :
  files w !! fp = Some f → f_ref f = 1 → f_type f = FD_INODE → close fp w = Done (tt, released fp (vw w) w).
Proof.
  intros Hf Hr Ht. unfold close. step (fref_ok _ _ _ Hf). rewrite Hr. change (1 <? 1) with false. cbn iota.
  erewrite M_bind_Done by reflexivity. change (0 <? 1 - 1) with false. cbn iota.
  unfold freeFileHandle, put_file, modify, set_filepath, set_directory.
  erewrite M_bind_Done.
  2:{ erewrite M_bind_Done by reflexivity. erewrite M_bind_Done; [|by rewrite (M_bind_Done _ _ _ _ _ (get_ov_run _)), put_ov_run].
    by rewrite (M_bind_Done _ _ _ _ _ (get_ov_run _)), put_ov_run. }
  rewrite Ht. unfold mret, M_ret, released, with_file. cbn [files mount_points_ root_ vw].
  by rewrite insert_insert_eq, !ov_set, !set_ov_twice.
Qed.
End chdir.

(** ** A concrete kernel: one FAT file system on "/" with the directory "/a" *)
Module ChdirWitness.
#[local] Instance tiny : OldWorld ovst := {|
  ov o := o; set_ov o _ := o;
  FindDevByName _ := mret 0;
  oconsole_read _ _ _ := mret 0; oconsole_write _ _ n := mret n;
  odev_read _ _ _ _ := mret tt; odev_write _ _ _ _ := mret tt;
  fat_init _ := mret tt;
  fat_open _ path _ := mret (if bool_decide (path = arr [47; 97]) then Some (0, true) else None);
  fat_read _ _ _ _ _ _ := mret 0; fat_write _ _ _ _ _ _ := mret 0;
  fat_mkdir _ _ := mret 0; fat_rm _ _ := mret 0; fat_ls _ _ _ _ _ := mret 0;
|}.
#[local] Program Instance tiny_laws : OldLaws ovst := {}.
Next Obligation. done. Qed.
Next Obligation. done. Qed.
Next Obligation. intros fs path fl x r x' [= _ <-]. done. Qed.

Definition root_fs : ofs := OFs FAT32 (arr s_slash) 0 (arr s_hda1).
Definition handles (k : nat) : Z := 5000 + 200 * Z.of_nat k.
Definition world0 : vst ovst :=
  VS (list_to_map ((λ k, (handles k, file0)) <$> seq 0 (Z.to_nat NFILE))) [] 0
    (OV [None; Some root_fs; None; None; None] ∅ ∅).
Definition runs : task := set_currentDir (arr s_slash) (SchedWitness.mk_task 2 RUNNING (Some 1%nat) NoChan KForkret).
Definition kernel2 : ks (vst ovst) :=
  SchedWitness.kernel_in world0
    (SchedWitness.mk_task 1 SLEEPING None (ChTask 1) (KSleep true (LTask 1) (InWait 0))) runs 2.
Lemma kernel2_ready : ready 2 (tasks kernel2) world0 kernel2.
Proof.
  split; [|done..]. apply SchedWitness.kernel_wf; try done; [by right| |].
  - split; cbn; try done. intros _. split; [done|]. by exists true, (LTask 1), (InWait 0).
  - split; cbn; try done. intros j [= <-]. unfold NTASK. lia.
Qed.
Lemma handle_ok k : (k < Z.to_nat NFILE)%nat → files world0 !! handles k = Some file0.
Proof.
  intros Hk. cbn [files world0]. apply elem_of_list_to_map_1.
  - rewrite <- list_fmap_compose. apply NoDup_fmap; [|apply NoDup_seq]. intros a b. unfold handles. cbn. lia.
  - apply list_elem_of_fmap. exists k. split; [done|]. apply elem_of_seq. lia.
Qed.

(** [chdir("a")] in "/" gives "/a/"; "/aaa..." of 65 bytes goes past the array. *)
Lemma chdir_outcomes_witness :
  (∃ s' cd, chdir handles [97] kernel2 = Done (0, s') ∧ arr_str cd = [47; 97; 47] ∧
    tasks s' = <[2%nat := set_currentDir cd runs]> (tasks kernel2)) ∧
  chdir handles (replicate 64 97) kernel2 = Panic "path overrun".
Proof.
  split.
  - destruct (chdir_outcomes handles 2 (tasks kernel2) world0 kernel2 runs [97] kernel2_ready eq_refl
      ltac:(by repeat constructor)) as [_ H].
    destruct (H 0%nat file0 ltac:(vm_compute; lia) (handle_ok 0 ltac:(vm_compute; lia)) eq_refl
      ltac:(intros; lia)) as (_ & _ & Hr).
    destruct (Hr root_fs (Some true) (vw world0) ltac:(vm_compute; lia) eq_refl ltac:(exists (Some (0, true)); done))
      as (s' & cd & E & Ecd & _ & Hrd).
    exists s', cd. split; [exact E|]. split; [exact Ecd|exact (rd_tasks _ _ _ _ Hrd)].
  - destruct (chdir_outcomes handles 2 (tasks kernel2) world0 kernel2 runs (replicate 64 97) kernel2_ready eq_refl
      ltac:(by repeat constructor)) as [_ H].
    apply (H 0%nat file0 ltac:(vm_compute; lia) (handle_ok 0 ltac:(vm_compute; lia)) eq_refl ltac:(intros; lia)).
    vm_compute. lia.
Defined.

(** [chdir("b")] again and again. *)
Lemma missing_directory_exhausts_handles_witness :
  ∃ n s', (n ≤ Z.to_nat NFILE)%nat ∧ fails handles [98] n kernel2 s' ∧ chdir handles [98] s' = Panic "alloc file".
Proof.
  apply (missing_directory_exhausts_handles handles 2 (tasks kernel2) world0 kernel2 runs [98] root_fs kernel2_ready eq_refl).
  - by repeat constructor.
  - vm_compute. lia.
  - reflexivity.
  - intros x _. exists x, None. split; reflexivity.
  - intros j k _ _. unfold handles. lia.
  - intros k Hk. exists file0. by apply handle_ok.
Defined.
End ChdirWitness.
