(* ===== verification/OldFat.v ===== *)
(** * The FAT library of the old file layer: kernel/fs/fat32/Fat.cpp

    One sector of the disk is kept in a buffer, which is written back when another
    one is fetched.  A [TFFile *] is the number of a file: the handles are 0 to 4,
    file 5 is the copy that [tf_choose_sfn] searches with.  A C string is the list
    of its characters before the NUL, a pointer into it a suffix.  A directory
    entry is its 32 bytes; [junk] is what a local one holds before it is read.
    Messages are left out, and so is creation of parent directories: every caller
    passes 0 for [mkParents].  [W] is the rest of the kernel, for copies to and
    from the memory of programs. *)
From S2P Require Import Prelude Mem Buf Dirent Vfs OldVfs.

(** ** include/fs/fat/Fat32.hpp *)
Definition TF_MAX_PATH : Z := 256.
Definition TF_FILE_HANDLES : nat := 5.
Definition TF_FLAG_DIRTY : Z := 0x01.
Definition TF_FLAG_OPEN : Z := 0x02.
Definition TF_FLAG_SIZECHANGED : Z := 0x04.
Definition TF_FLAG_ROOT : Z := 0x08.
Definition TF_MARK_EOC32 : Z := 0x0fffffff.
Definition TF_MARK_EOC16 : Z := 0xfff8.
Definition LFN_ENTRY_CAPACITY : Z := 13.
Definition LFN_NAME_CAPACITY : Z := 26.
Definition TF_ATTR_DIRECTORY : Z := 0x10.
Definition TF_ATTR_LONG_NAME : Z := 0x0f.
Definition TF_MODE_READ : Z := 0x01.
Definition TF_MODE_WRITE : Z := 0x02.
Definition TF_MODE_OVERWRITE : Z := 0x08.
Definition TF_ERR_BAD_FS_TYPE : Z := 2.
Definition TF_ERR_INVALID_SEEK : Z := 1.
Definition TF_TYPE_FAT32 : Z := 1.
Definition SECTOR_SIZE : Z := 512.

Record TFInfo := Info {
  type : Z; sectorsPerCluster : Z; firstDataSector : Z; totalSectors : Z; reservedSectors : Z;
  currentSector : Z; sectorFlags : Z; rootDirectorySize : Z; buffer : list Z;
}.
Record TFFile := File {
  parentStartCluster : Z; startCluster : Z; currentClusterIdx : Z; currentCluster : Z;
  fcurrentSector : Z; currentByte : Z; pos : Z; flags : Z; attributes : Z; mode : Z; size : Z;
  filename : list Z;
}.
Record ofat (W : Type) := OFat { tf_info : TFInfo; tf_files : list TFFile; disk : mem; sleep_lock : bool; world : W }.
Arguments OFat {W}. Arguments tf_info {W}. Arguments tf_files {W}. Arguments disk {W}. Arguments sleep_lock {W}. Arguments world {W}.

(** ** Bytes *)
Definition byte_at (l : list Z) (i : Z) : Z := nth (Z.to_nat i) l 0.
Definition get16 (l : list Z) (i : Z) : Z := byte_at l i + 256 * byte_at l (i + 1).
Definition get32 (l : list Z) (i : Z) : Z := get16 l i + 65536 * get16 l (i + 2).
Definition put_at (l : list Z) (i : Z) (new : list Z) : list Z :=
  take (Z.to_nat i) l ++ new ++ drop (Z.to_nat i + length new) l.
Definition bytes16 (v : Z) : list Z := [v mod 256; v / 256 mod 256].
Definition bytes32 (v : Z) : list Z := bytes16 v ++ bytes16 (v / 65536).
Definition slice (l : list Z) (i n : Z) : list Z := take (Z.to_nat n) (drop (Z.to_nat i) l).
Definition i16 (z : Z) : Z := (z + 2 ^ 15) mod 2 ^ 16 - 2 ^ 15.
Definition clear_flag (f v : Z) : Z := Z.land v (u8 (Z.lnot f)).
Definition has (f v : Z) : bool := negb (Z.land v f =? 0).

Section tinyfat.
Context {W : Type} (either_copyout : bool → Z → list Z → M W Z) (either_copyin : bool → Z → list Z → M W (Z * list Z)).
Context (junk : list Z) (fuel : nat).
Abbreviation FM := (M (ofat W)).

Definition in_world {A} (c : M W A) : FM A := λ s,
  match c (world s) with
  | Done (a, w) => Done (a, OFat (tf_info s) (tf_files s) (disk s) (sleep_lock s) w)
  | Panic e => Panic e
  | NoFuel => NoFuel
  end.
Definition info : FM TFInfo := gets tf_info.
Definition set_info (i : TFInfo) : FM unit := modify (λ s, OFat i (tf_files s) (disk s) (sleep_lock s) (world s)).
Definition set_buffer (sector fl : Z) (b : list Z) : FM unit :=
  i ← info;
  set_info (Info (type i) (sectorsPerCluster i) (firstDataSector i) (totalSectors i) (reservedSectors i) sector fl
              (rootDirectorySize i) b).
Definition file (fp : nat) : FM TFFile := λ s,
  match tf_files s !! fp with Some f => Done (f, s) | None => Panic "TFFile" end.
Definition put_file (fp : nat) (f : TFFile) : FM unit :=
  modify (λ s, OFat (tf_info s) (<[fp := f]> (tf_files s)) (disk s) (sleep_lock s) (world s)).
Definition upd_file (fp : nat) (g : TFFile → TFFile) : FM unit := f ← file fp; put_file fp (g f).
Definition set_flags (v : Z) (f : TFFile) : TFFile :=
  File (parentStartCluster f) (startCluster f) (currentClusterIdx f) (currentCluster f) (fcurrentSector f) (currentByte f)
    (pos f) v (attributes f) (mode f) (size f) (filename f).
Definition set_size (v : Z) (f : TFFile) : TFFile :=
  File (parentStartCluster f) (startCluster f) (currentClusterIdx f) (currentCluster f) (fcurrentSector f) (currentByte f)
    (pos f) (flags f) (attributes f) (mode f) v (filename f).
Definition set_mode (v : Z) (f : TFFile) : TFFile :=
  File (parentStartCluster f) (startCluster f) (currentClusterIdx f) (currentCluster f) (fcurrentSector f) (currentByte f)
    (pos f) (flags f) (attributes f) v (size f) (filename f).
Definition set_cluster (idx c : Z) (f : TFFile) : TFFile :=
  File (parentStartCluster f) (startCluster f) idx c (fcurrentSector f) (currentByte f)
    (pos f) (flags f) (attributes f) (mode f) (size f) (filename f).
Definition set_pos (b p : Z) (f : TFFile) : TFFile :=
  File (parentStartCluster f) (startCluster f) (currentClusterIdx f) (currentCluster f) (fcurrentSector f) b
    p (flags f) (attributes f) (mode f) (size f) (filename f).
Definition set_filename (l : list Z) (f : TFFile) : TFFile :=
  File (parentStartCluster f) (startCluster f) (currentClusterIdx f) (currentCluster f) (fcurrentSector f) (currentByte f)
    (pos f) (flags f) (attributes f) (mode f) (size f) l.
Definition or_flags (v : Z) (f : TFFile) : TFFile := set_flags (Z.lor (flags f) v) f.

(** ** Sectors: the offset is an [int] *)
Definition read_sector (old : list Z) (sector : Z) : FM (list Z) :=
  gets (λ s, (VirtioDisk_read (disk s) old (i32 (u32 (sector * 512))) 512).2).
Definition write_sector (data : list Z) (sector : Z) : FM unit :=
  modify (λ s, OFat (tf_info s) (tf_files s) (VirtioDisk_write (disk s) data (i32 (u32 (sector * 512))) 512).2
                 (sleep_lock s) (world s)).
Definition tf_store : FM Z :=
  i ← info;
  set_buffer (currentSector i) (clear_flag TF_FLAG_DIRTY (sectorFlags i)) (buffer i);;
  write_sector (buffer i) (currentSector i);;
  mret 0.
Definition tf_fetch (sector : Z) : FM Z :=
  i ← info;
  if sector =? currentSector i then mret 0
  else
    (if has TF_FLAG_DIRTY (sectorFlags i) then tf_store else mret 0);;
    i ← info;
    b ← read_sector (buffer i) sector;
    set_buffer sector (sectorFlags i) b;;
    mret 0.
(** The bytes [off], [off + 1], ... of the buffer are replaced. *)
Definition write_buffer (off : Z) (l : list Z) : FM unit :=
  i ← info; set_buffer (currentSector i) (Z.lor (sectorFlags i) TF_FLAG_DIRTY) (put_at (buffer i) off l).

(** ** The cluster table *)
Definition fat_sector (i : TFInfo) (cluster : Z) : Z := u32 (reservedSectors i + u32 (cluster * 4) / 512).
Definition tf_get_fat_entry (cluster : Z) : FM Z :=
  i ← info;
  tf_fetch (fat_sector i cluster);;
  i ← info;
  mret (get32 (buffer i) (u32 (cluster * 4) mod 512)).
Definition tf_set_fat_entry (cluster value : Z) : FM Z :=
  i ← info;
  rc ← tf_fetch (fat_sector i cluster);
  i ← info;
  let off := u32 (cluster * 4) mod 512 in
  (if get32 (buffer i) off =? value then mret tt else write_buffer off (bytes32 value));;
  mret rc.
Definition tf_first_sector (i : TFInfo) (cluster : Z) : Z :=
  u32 (u32 (cluster - 2) * sectorsPerCluster i + firstDataSector i).

(** [for (i = ...; i < totalClusters; i++)], [n] turns left. *)
Fixpoint find_free_loop (n : nat) (i : Z) : FM Z :=
  match n with
  | O => mret i
  | S n =>
      entry ← tf_get_fat_entry i;
      if Z.land entry 0x0fffffff =? 0 then mret i else find_free_loop n (i + 1)
  end.
Definition totalClusters (i : TFInfo) : Z := totalSectors i / sectorsPerCluster i.
Definition tf_find_free_cluster : FM Z := i ← info; find_free_loop (Z.to_nat (totalClusters i)) 0.
Definition tf_find_free_cluster_from (c : Z) : FM Z :=
  inf ← info;
  i ← find_free_loop (Z.to_nat (totalClusters inf - c)) c;
  if i =? totalClusters inf then tf_find_free_cluster else mret i.

Fixpoint free_clusterchain_loop (n : nat) (cluster fat_entry : Z) : FM unit :=
  match n with
  | O => λ _, NoFuel
  | S n =>
      if fat_entry <? TF_MARK_EOC32 then
        if fat_entry <=? 2 then mret tt
        else
          tf_set_fat_entry cluster 0;;
          fat_entry ← tf_get_fat_entry fat_entry;
          free_clusterchain_loop n fat_entry fat_entry
      else mret tt
  end.
Definition tf_free_clusterchain (cluster : Z) : FM Z :=
  fat_entry ← tf_get_fat_entry cluster;
  free_clusterchain_loop fuel cluster fat_entry;;
  mret 0.

(** ** Positions *)

(** The loop over the chain; [true] when it returns TF_ERR_INVALID_SEEK. *)
Fixpoint seek_loop (n : nat) (mark : Z) (fp : nat) : FM bool :=
  match n with
  | O => mret false
  | S n =>
      f ← file fp;
      temp ← tf_get_fat_entry (currentCluster f);
      next ← (if negb (Z.land temp 0x0fffffff =? mark) then mret temp
              else
                temp ← tf_find_free_cluster_from (currentCluster f);
                tf_set_fat_entry (currentCluster f) temp;;
                tf_set_fat_entry temp mark;;
                mret temp);
      upd_file fp (λ f, set_cluster (currentClusterIdx f) next f);;
      if (mark <=? next) && negb (Nat.eqb n 0) then mret true else seek_loop n mark fp
  end.
(** [base] is an [int32_t], [offset] a [long]. *)
Definition tf_unsafe_fseek (fp : nat) (base offset : Z) : FM Z :=
  i ← info;
  f ← file fp;
  let p := i64 (base + offset) in
  let mark := if type i =? 0 then TF_MARK_EOC16 else TF_MARK_EOC32 in
  let bytes := sectorsPerCluster i * 512 in
  if size f <? p then mret TF_ERR_INVALID_SEEK
  else
    (if p =? size f then upd_file fp (λ f, or_flags TF_FLAG_SIZECHANGED (set_size (u32 (size f + 1)) f)) else mret tt);;
    let cluster_idx := u32 (Z.quot p bytes) in
    bad ← (if cluster_idx =? currentClusterIdx f then mret false
           else
             let after := currentClusterIdx f <? cluster_idx in
             let steps := if after then cluster_idx - currentClusterIdx f else cluster_idx in
             upd_file fp (λ f, set_cluster cluster_idx (if after then currentCluster f else startCluster f) f);;
             seek_loop (Z.to_nat steps) mark fp);
    if (bad : bool) then mret TF_ERR_INVALID_SEEK
    else upd_file fp (set_pos (i16 (Z.rem p bytes)) (u32 p));; mret 0.
(** [base] is a [size_t]. *)
Definition tf_fseek (fp : nat) (base offset : Z) : FM Z :=
  f ← file fp;
  let p := i64 (u64 (u64 base + offset)) in
  if size f <? p then mret TF_ERR_INVALID_SEEK else tf_unsafe_fseek fp (i32 base) offset.

(** ** Reading and writing: [out] and [src] copy the bytes at an offset of the
    caller's buffer. *)
Fixpoint fread_loop (fuel : nat) (out : Z → list Z → FM unit) (sz n : Z) (fp : nat) (acc : list Z) : FM (list Z) :=
  match fuel with
  | O => λ _, NoFuel
  | S fuel =>
      f ← file fp;
      if (u32 n <=? size f) && (0 <? sz) then
        i ← info;
        tf_fetch (u32 (tf_first_sector i (currentCluster f) + Z.quot (currentByte f) 512));;
        i ← info;
        let off := Z.rem (currentByte f) 512 in
        if off <? 0 then panic "tf_info.buffer"
        else
          let x := SECTOR_SIZE - off in
          let room := u32 (size f - pos f) in
          let x := if room <? x then room else x in
          let x := if sz <? x then sz else x in
          let l := slice (buffer i) off x in
          out n l;;
          rc ← tf_fseek fp 0 (pos f + x);
          let acc := acc ++ l in
          if rc =? 0 then fread_loop fuel out (sz - x) (n + x) fp acc else mret acc
      else mret acc
  end.
Definition tf_fread (out : Z → list Z → FM unit) (sz : Z) (fp : nat) : FM (list Z) :=
  f ← file fp;
  fread_loop fuel out (if size f <? u32 sz then i32 (size f) else sz) 0 fp [].
Fixpoint fwrite_loop (fuel : nat) (src : Z → list Z → FM (list Z)) (sz n : Z) (fp : nat) : FM Z :=
  match fuel with
  | O => λ _, NoFuel
  | S fuel =>
      if 0 <? sz then
        f ← file fp;
        i ← info;
        tf_fetch (u32 (tf_first_sector i (currentCluster f) + Z.quot (currentByte f) 512));;
        i ← info;
        let tracking := Z.rem (currentByte f) 512 in
        if tracking <? 0 then panic "tf_info.buffer"
        else
          let x := SECTOR_SIZE - tracking in
          let room := u32 (size f - pos f) in
          let x := if room <? x then room else x in
          let x := if sz <? x then sz else x in
          new ← src n (slice (buffer i) tracking x);
          write_buffer tracking new;;
          (if size f <? pos f + x then upd_file fp (λ f, set_size (u32 (x + pos f)) (or_flags TF_FLAG_SIZECHANGED f)) else mret tt);;
          rc ← tf_unsafe_fseek fp 0 (pos f + x);
          if rc =? 0 then fwrite_loop fuel src (sz - x) (n + x) fp else mret (-1)
      else mret n
  end.
Definition tf_fwrite (src : Z → list Z → FM (list Z)) (sz : Z) (fp : nat) : FM Z :=
  upd_file fp (or_flags TF_FLAG_DIRTY);;
  fwrite_loop fuel src sz 0 fp.

(** Local buffers, and memory of the kernel or of a program. *)
Definition no_copy (n : Z) (l : list Z) : FM unit := mret tt.
Definition out_mem (user : bool) (dest n : Z) (l : list Z) : FM unit := in_world (either_copyout user (dest + n) l);; mret tt.
Definition src_list (l : list Z) (n : Z) (old : list Z) : FM (list Z) := mret (slice l n (Z.of_nat (length old))).
Definition src_mem (user : bool) (a n : Z) (old : list Z) : FM (list Z) :=
  r ← in_world (either_copyin user (a + n) old); mret r.2.
(** [tf_fread((char * )&entry, sizeof(FatFileEntry), fp)]: what was read, and how
    much. *)
Definition read_entry (entry : list Z) (fp : nat) : FM (list Z * Z) :=
  l ← tf_fread no_copy 32 fp; mret (l ++ drop (length l) entry, Z.of_nat (length l)).
Definition tf_fputs (l : list Z) (fp : nat) : FM Z := tf_fwrite (src_list l) (Z.of_nat (length l)) fp.
Definition write_entry (entry : list Z) (fp : nat) : FM Z := tf_fwrite (src_list entry) 32 fp.

(** ** Handles *)
Fixpoint get_free_handle_loop (n i : nat) : FM (option nat) :=
  match n with
  | O => mret None
  | S n =>
      f ← file i;
      if has TF_FLAG_OPEN (flags f) then get_free_handle_loop n (S i)
      else put_file i (set_flags TF_FLAG_OPEN f);; mret (Some i)
  end.
Definition tf_get_free_handle : FM (option nat) := get_free_handle_loop TF_FILE_HANDLES 0.
Definition tf_release_handle (fp : nat) : FM unit := upd_file fp (λ f, set_flags (clear_flag TF_FLAG_OPEN (flags f)) f).
(** The macro [min(x, y)] is [(x < y) ? x : y] without brackets around it, so that
    [i < min(TF_FILE_HANDLES, 64)] is [(i < (5 < 64)) ? 5 : 64]. *)
Definition handles_left (i : nat) : bool :=
  let less := if Nat.ltb TF_FILE_HANDLES 64 then 1%nat else 0%nat in
  negb (Nat.eqb (if Nat.ltb i less then TF_FILE_HANDLES else 64) 0).
Fixpoint get_open_handles_loop (fuel i : nat) (retval : Z) : FM Z :=
  match fuel with
  | O => λ _, NoFuel
  | S fuel =>
      if negb (handles_left i) then mret retval
      else if Nat.leb TF_FILE_HANDLES i then panic "tf_file_handles"
      else
        f ← file i;
        let retval := u64 (Z.shiftl retval 1) in
        get_open_handles_loop fuel (S i) (if has TF_FLAG_OPEN (flags f) then Z.lor retval 1 else retval)
  end.
Definition tf_get_open_handles : FM Z := get_open_handles_loop fuel 0 0.

(** ** Names *)
Definition strncasecmp_loop := fix go (p q : list Z) (n : nat) : Z :=
  match n with
  | O => 0
  | S n => let result := toLowCase (hd 0 p) - toLowCase (hd 0 q) in
           if (result =? 0) && negb (hd 0 p =? 0) && negb (Nat.eqb n 0) then go (tail p) (tail q) n else result
  end.
Definition strncasecmp (p q : list Z) (n : nat) : Z := if Nat.eqb n 0 then 0 else strncasecmp_loop p q n.
Definition upper (c : Z) : Z := if (97 <=? c) && (c <=? 122) then c - 32 else c.

Definition sequence_number (e : list Z) : Z := byte_at e 0.
Definition e_attributes (e : list Z) : Z := byte_at e 11.
Definition eaIndex (e : list Z) : Z := get16 e 20.
Definition firstCluster (e : list Z) : Z := get16 e 26.
Definition fileSize (e : list Z) : Z := get32 e 28.
(** The low bytes of the characters of a long entry. *)
Definition lfn_chars (e : list Z) (off : Z) (n : nat) : list Z := (λ k, byte_at e (off + 2 * Z.of_nat k)) <$> seq 0 n.

(** [reformatted_file], the NUL and the zeros behind it left out. *)
Definition reformatted (e : list Z) : list Z :=
  if negb (e_attributes e =? TF_ATTR_LONG_NAME) then
    let no_space := filter (λ c, c ≠ 32) in
    let ext := no_space (slice e 8 3) in
    no_space (slice e 0 8) ++ match ext with [] => [] | _ => 46 :: ext end
  else lfn_chars e 1 5 ++ lfn_chars e 14 6 ++ lfn_chars e 28 2.
(** The characters up to the next slash. *)
Fixpoint segment_length (name : list Z) : nat :=
  match name with [] => O | c :: name => if c =? 47 then O else S (segment_length name) end.
Definition tf_compare_filename_segment (entry name : list Z) : bool :=
  let r := reformatted entry in
  let i := segment_length name in
  if Nat.ltb 13 i then strncasecmp name r 13 =? 0
  else (byte_at r (Z.of_nat i) =? 0) && (strncasecmp name r i =? 0).

Fixpoint lfn_loop (n : nat) (i : Z) (entry compare_name : list Z) (fp : nat) : FM bool :=
  match n with
  | O => mret true
  | S n =>
      f ← file fp;
      tf_fseek fp (-32) (pos f);;
      '(entry, _) ← read_entry entry fp;
      f ← file fp;
      if negb (tf_compare_filename_segment entry compare_name) then tf_fseek fp (i * 32) (pos f);; mret false
      else tf_fseek fp (-32) (pos f);; lfn_loop n (i + 1) entry (drop 13 compare_name) fp
  end.
(** 1: the entry matches, 0: it does not, -1: no entry. *)
Definition tf_compare_filename (fp : nat) (name : list Z) : FM Z :=
  '(entry, _) ← read_entry junk fp;
  f ← file fp;
  if byte_at entry 0 =? 0 then mret (-1)
  else if negb (e_attributes entry =? TF_ATTR_LONG_NAME) then
    if tf_compare_filename_segment entry name then tf_fseek fp (-32) (pos f);; mret 1 else mret 0
  else if Z.land (sequence_number entry) 0xc0 =? 0x40 then
    let lfn_entries := clear_flag 0x40 (sequence_number entry) in
    tf_fseek fp (u32 (32 * (lfn_entries - 1))) (pos f);;
    if negb ((Z.of_nat (length name) + 12) / LFN_ENTRY_CAPACITY =? lfn_entries) then mret 0
    else
      ok ← lfn_loop (Z.to_nat lfn_entries) 0 entry name fp;
      if (ok : bool) then f ← file fp; tf_fseek fp (u32 (32 * lfn_entries)) (pos f);; mret 1 else mret 0
  else mret (-1).
Fixpoint find_file_loop (fuel : nat) (dir : nat) (name : list Z) : FM Z :=
  match fuel with
  | O => λ _, NoFuel
  | S fuel =>
      rc ← tf_compare_filename dir name;
      if rc <? 0 then mret (-1) else if rc =? 1 then mret 0 else find_file_loop fuel dir name
  end.
Definition tf_find_file (dir : nat) (name : list Z) : FM Z :=
  tf_fseek dir 0 0;; find_file_loop fuel dir name.

(** ** Opening *)
Fixpoint to_slash (name : list Z) : list Z :=
  match name with [] => [] | c :: l => if c =? 47 then name else to_slash l end.
Definition entry_cluster (e : list Z) : Z := Z.lor (Z.shiftl (eaIndex e) 16) (firstCluster e).
Definition is_dir (attr : Z) : bool := has TF_ATTR_DIRECTORY attr.
(** The rest of the path, [None] at its end. *)
Definition tf_walk (name : list Z) (fp : nat) : FM (option (list Z)) :=
  let name := if hd 0 name =? 47 then tail name else name in
  match name with
  | [] => mret None
  | _ =>
      rc ← tf_find_file fp name;
      if negb (rc =? 0) then upd_file fp (set_flags 0xff);; mret None
      else
        '(entry, _) ← read_entry junk fp;
        let rest := tail (to_slash name) in
        upd_file fp (λ f,
          File (startCluster f) (entry_cluster entry) 0 (entry_cluster entry) 0 0 0 TF_FLAG_OPEN (e_attributes entry)
            (mode f) (if is_dir (e_attributes entry) then 0xffffffff else fileSize entry) (filename f));;
        mret (match rest with [] => None | _ => Some rest end)
  end.
(** [while (temp_filename != NULL)]: [false] when the path is not found. *)
Fixpoint walk_loop (fuel : nat) (name : list Z) (fp : nat) : FM bool :=
  match fuel with
  | O => λ _, NoFuel
  | S fuel =>
      next ← tf_walk name fp;
      f ← file fp;
      if flags f =? 0xff then tf_release_handle fp;; mret false
      else match next with Some name => walk_loop fuel name fp | None => mret true end
  end.

(** "r", "w", "rw" and "+": the modes that reach [tf_fnopen]. *)
Definition m_r : list Z := [114].
Definition m_w : list Z := [119].
Definition m_rw : list Z := [114; 119].
Definition m_plus : list Z := [43].
Definition in_mode (c : Z) (m : list Z) : bool := existsb (Z.eqb c) m.

(** Truncation: all clusters of the file but the first. *)
Definition truncate_file (fp : nat) : FM unit :=
  upd_file fp (set_size 0);;
  tf_unsafe_fseek fp 0 0;;
  f ← file fp;
  cluster ← tf_get_fat_entry (startCluster f);
  if cluster =? TF_MARK_EOC32 then mret tt
  else tf_free_clusterchain cluster;; tf_set_fat_entry (startCluster f) TF_MARK_EOC32;; mret tt.
Definition tf_fnopen (name md : list Z) (n : Z) : FM (option nat) :=
  fp ← tf_get_free_handle;
  match fp with
  | None => mret None
  | Some fp =>
      if (n <? 0) || (TF_MAX_PATH <=? n) then panic "myfile"
      else
        let myfile := take (Z.to_nat n) name in
        upd_file fp (λ f, File 0xffffffff 2 0 2 0 0 0 (Z.lor (flags f) TF_FLAG_ROOT) TF_ATTR_DIRECTORY
          (Z.lor (Z.lor TF_MODE_READ TF_MODE_WRITE) TF_MODE_OVERWRITE) 0xffffffff (filename f));;
        found ← walk_loop fuel myfile fp;
        if negb found then mret None
        else
          let more (v : Z) := upd_file fp (λ f, set_mode (Z.lor (mode f) v) f) in
          (if in_mode 114 md then more TF_MODE_READ else mret tt);;
          (if in_mode 97 md then
             f ← file fp; tf_unsafe_fseek fp (i32 (size f)) 0;; more (Z.lor TF_MODE_WRITE TF_MODE_OVERWRITE)
           else mret tt);;
          (if in_mode 43 md then more (Z.lor TF_MODE_OVERWRITE TF_MODE_WRITE) else mret tt);;
          (if in_mode 119 md then
             f ← file fp;
             (if is_dir (attributes f) then mret tt else truncate_file fp);;
             more TF_MODE_WRITE
           else mret tt);;
          upd_file fp (set_filename myfile);;
          mret (Some fp)
  end.

(** The part before the last slash, and behind it. *)
Definition tf_parent (name : list Z) : FM (option nat) :=
  match after_last 47 name with
  | None => panic "strrchr"
  | Some rest => tf_fnopen name m_rw (Z.of_nat (length name - length rest - 1))
  end.
Definition base_name (name : list Z) : FM (list Z) :=
  match after_last 47 name with None => panic "strrchr" | Some rest => mret rest end.
Definition deref_file (fp : option nat) : FM nat := match fp with Some fp => mret fp | None => panic "TFFile" end.

(** ** Closing: the parent's entry of a file whose size has changed is rewritten;
    [k] bounds the number of files closed inside each other. *)
Fixpoint tf_fflush (k : nat) (fp : nat) : FM Z :=
  match k with
  | O => λ _, NoFuel
  | S k =>
      f ← file fp;
      if negb (has TF_FLAG_DIRTY (flags f)) then mret 0
      else
        i ← info;
        rc ← (if has TF_FLAG_DIRTY (sectorFlags i) then tf_store else mret 0);
        (if has TF_FLAG_SIZECHANGED (flags f) then
           (if is_dir (attributes f) then mret tt
            else
              dir ← tf_parent (filename f);
              dir ← deref_file dir;
              nm ← base_name (filename f);
              tf_find_file dir nm;;
              '(entry, _) ← read_entry junk dir;
              d ← file dir;
              tf_fseek dir (-32) (pos d);;
              f ← file fp;
              write_entry (put_at entry 28 (bytes32 (u32 (size f - 1)))) dir;;
              tf_fflush k dir;;
              tf_release_handle dir);;
           upd_file fp (λ f, set_flags (clear_flag TF_FLAG_SIZECHANGED (flags f)) f)
         else mret tt);;
        upd_file fp (λ f, set_flags (clear_flag TF_FLAG_DIRTY (flags f)) f);;
        mret rc
  end.
Definition tf_fclose (fp : nat) : FM Z := rc ← tf_fflush fuel fp; tf_release_handle fp;; mret rc.

(** ** Short and long names *)
Definition valid_char (c : Z) : bool :=
  (c <? 0x7f) && (20 <? c) &&
  negb (existsb (Z.eqb c) [0x22; 0x2a; 0x2e; 0x2f; 0x3a; 0x3c; 0x3e; 0x3f; 0x5b; 0x5c; 0x5d; 0x7c]).
Fixpoint skip_bad (l : list Z) : list Z :=
  match l with [] => [] | c :: l' => if valid_char c then l else skip_bad l' end.
(** [strrchr(src, '.')]: the suffix from the last dot on. *)
Definition last_dot (src : list Z) : option (list Z) := cons 46 <$> after_last 46 src.
Fixpoint copy_ext (n : nat) (i : Z) (tmp : list Z) (dest : list Z) : list Z :=
  match n with
  | O => dest
  | S n =>
      match skip_bad tmp with
      | [] => copy_ext n (i + 1) [] (put_at dest (8 + i) [32])
      | c :: tmp => copy_ext n (i + 1) tmp (put_at dest (8 + i) [upper c])
      end
  end.
Fixpoint copy_base (n : nat) (i : Z) (src : list Z) (dot : option nat) (dest : list Z) : list Z :=
  match n with
  | O => dest
  | S n =>
      if bool_decide (dot = Some (length src)) then copy_base n (i + 1) src dot (put_at dest i [32])
      else if hd 0 dest =? 32 then copy_base n (i + 1) src dot dest
      else
        match skip_bad src with
        | [] => copy_base n (i + 1) [] dot (put_at dest i [32])
        | c :: rest =>
            if existsb (Z.eqb c) [44; 91; 93] then copy_base n (i + 1) (c :: rest) dot (put_at dest i [95])
            else copy_base n (i + 1) rest dot (put_at dest i [upper c])
        end
  end.
(** Where the first space is, if there is one before a NUL. *)
Fixpoint find_space (l : list Z) (i : Z) : option Z :=
  match l with [] => None | c :: l => if c =? 32 then Some i else if c =? 0 then None else find_space l (i + 1) end.
(** [dest]: the 11 bytes of the name and the extension. *)
Definition tf_shorten_filename (dest src : list Z) (num : Z) : list Z :=
  let dest := copy_ext 3 0 (default [] (last_dot src)) dest in
  let dest := copy_base 8 0 src (length <$> last_dot src) dest in
  if 4 <? num then put_at dest 7 [49]
  else
    match find_space (take 7 dest) 0 with
    | None => put_at dest 6 [126; u8 (num + 0x30)]
    | Some p => put_at dest p [126; u8 (num + 0x30)]
    end.
Fixpoint choose_sfn_loop (fuel : nat) (num : Z) (dest src : list Z) : FM (list Z) :=
  match fuel with
  | O => λ _, NoFuel
  | S fuel =>
      let dest := tf_shorten_filename dest src (u8 num) in
      rc ← tf_find_file 5 (arr_str (take 8 dest ++ [46] ++ slice dest 8 3));
      if rc <? 0 then mret dest else choose_sfn_loop fuel (num + 1) dest src
  end.
Definition tf_choose_sfn (dest src : list Z) (fp : nat) : FM (list Z) :=
  f ← file fp; put_file 5 f;; choose_sfn_loop fuel 1 dest src.

(** The character of a long entry at [k]: the name, its NUL, 0xffff. *)
Definition lfn_char (name : list Z) (k : nat) : Z :=
  if Nat.ltb k (length name) then nth k name 0 else if Nat.eqb k (length name) then 0 else 0xffff.
Definition lfn_bytes (name : list Z) (from n : nat) : list Z := concat ((λ k, bytes16 (lfn_char name k)) <$> seq from n).
Definition tf_create_lfn_entry (name entry : list Z) : option (list Z) * list Z :=
  let e := put_at entry 1 (lfn_bytes name 0 5) in
  let e := put_at e 14 (lfn_bytes name 5 6) in
  let e := put_at e 28 (lfn_bytes name 11 2) in
  let e := put_at (put_at (put_at e 11 [TF_ATTR_LONG_NAME]) 12 [0]) 26 (bytes16 0) in
  (if Nat.ltb 13 (length name) then Some (drop 13 name) else None, e).
Definition tf_lfn_checksum (sfn : list Z) : Z :=
  fold_left (λ sum c, u8 (Z.shiftl (Z.land sum 1) 7 + Z.shiftr sum 1 + c)) (take 11 sfn) 0.
(** The entries a name takes: at least one. *)
Definition lfn_entries (name : list Z) : nat := Nat.max 1 ((length name + 12) / 13).
Fixpoint place_lfn_loop (n : nat) (seq : Z) (name sfn entry : list Z) (fp : nat) : FM unit :=
  match n with
  | O => mret tt
  | S n =>
      let e := (tf_create_lfn_entry (drop (13 * n) name) entry).2 in
      let e := put_at (put_at e 0 [seq]) 13 [tf_lfn_checksum sfn] in
      write_entry e fp;;
      place_lfn_loop n (u8 (clear_flag 0x40 seq - 1)) name sfn e fp
  end.
Definition tf_place_lfn_chain (fp : nat) (name sfn : list Z) : FM unit :=
  let entries := lfn_entries name in
  place_lfn_loop entries (u8 (Z.lor (Z.of_nat entries) 0x40)) name sfn junk fp.

(** ** Creating and removing *)

(** [do { tf_fread(&entry) } while (entry.msdos.filename[0] != 0)]: the entry, and
    the number of turns. *)
Fixpoint to_end_loop (fuel : nat) (n : Z) (entry : list Z) (fp : nat) : FM (list Z * Z) :=
  match fuel with
  | O => λ _, NoFuel
  | S fuel =>
      '(entry, _) ← read_entry entry fp;
      if byte_at entry 0 =? 0 then mret (entry, n + 1) else to_end_loop fuel (n + 1) entry fp
  end.
(** The members set one by one; [reserved] and the name stay. *)
Definition fill_entry (attr cluster : Z) (e : list Z) : list Z :=
  let e := put_at e 11 [attr] in
  let e := put_at e 13 [0x25] in
  let e := put_at e 14 (bytes16 0x7e3c) in
  let e := put_at e 16 (bytes16 0x4262) in
  let e := put_at e 18 (bytes16 0x4262) in
  let e := put_at e 20 (bytes16 (Z.land (Z.shiftr cluster 16) 0xffff)) in
  let e := put_at e 22 (bytes16 0x7e3c) in
  let e := put_at e 24 (bytes16 0x4262) in
  let e := put_at e 26 (bytes16 (Z.land cluster 0xffff)) in
  put_at e 28 (bytes32 0).
Definition blank : list Z := replicate 32 0.
(** The new entry behind the last one of the directory [fp]; the entry. *)
Definition append_entry (attr : Z) (name : list Z) (fp : nat) : FM (list Z) :=
  '(entry, _) ← to_end_loop fuel 0 junk fp;
  f ← file fp;
  tf_fseek fp (-32) (pos f);;
  cluster ← tf_find_free_cluster;
  tf_set_fat_entry cluster TF_MARK_EOC32;;
  let entry := fill_entry attr cluster entry in
  nm ← base_name name;
  sfn ← tf_choose_sfn (take 11 entry) nm fp;
  let entry := put_at entry 0 sfn in
  tf_place_lfn_chain fp nm entry;;
  write_entry entry fp;;
  write_entry blank fp;;
  tf_fclose fp;;
  mret entry.
Definition tf_create (name : list Z) : FM Z :=
  fp ← tf_parent name;
  match fp with
  | None => mret 1
  | Some fp =>
      tf_fclose fp;;
      fp ← tf_parent name;
      fp ← deref_file fp;
      append_entry 0 name fp;;
      mret 0
  end.
(** "/../" is refused, "/." is left out. *)
Definition dot_dot (name : list Z) : bool :=
  (byte_at name 0 =? 47) && (byte_at name 1 =? 46) && (byte_at name 2 =? 46) && (byte_at name 3 =? 47).
Definition tf_fopen (name md : list Z) : FM (option nat) :=
  if dot_dot name then mret None
  else
    let name := if (byte_at name 0 =? 47) && (byte_at name 1 =? 46) then drop 2 name else name in
    fp ← tf_fnopen name md (Z.of_nat (length name));
    match fp with
    | Some fp => mret (Some fp)
    | None =>
        (if in_mode 43 md || in_mode 119 md || in_mode 97 md then tf_create name else mret 0);;
        tf_fnopen name md (Z.of_nat (length name))
    end.
Definition tf_mkdir (name : list Z) : FM Z :=
  let name := if (byte_at name 0 =? 47) && (byte_at name 1 =? 46) && (byte_at name 2 =? 47) then drop 2 name else name in
  if dot_dot name then mret 0
  else
    let orig_fn := take 255 name in
    fp ← tf_fopen name m_r;
    match fp with
    | Some fp => tf_fclose fp;; tf_release_handle fp;; mret 1
    | None =>
        fp ← tf_parent name;
        match fp with
        | None => mret 1
        | Some fp =>
            entry ← append_entry TF_ATTR_DIRECTORY name fp;
            tf_release_handle fp;;
            fp ← tf_fopen orig_fn m_w;
            fp ← deref_file fp;
            let entry := put_at entry 0 (46 :: replicate 10 32) in
            write_entry entry fp;;
            let entry := put_at entry 0 (46 :: 46 :: replicate 9 32) in
            write_entry entry fp;;
            write_entry blank fp;;
            tf_fclose fp;;
            tf_release_handle fp;;
            mret 0
        end
    end.
(** The entries behind the removed one move down by one. *)
Fixpoint shift_loop (fuel : nat) (entry : list Z) (fp : nat) : FM unit :=
  match fuel with
  | O => λ _, NoFuel
  | S fuel =>
      f ← file fp;
      rc ← tf_fseek fp 32 (pos f);
      if negb (rc =? 0) then mret tt
      else
        '(entry, _) ← read_entry entry fp;
        f ← file fp;
        tf_fseek fp (-96) (pos f);;
        write_entry entry fp;;
        if byte_at entry 0 =? 0 then mret tt else shift_loop fuel entry fp
  end.
Definition tf_remove (name : list Z) : FM Z :=
  fp ← tf_fopen name m_r;
  match fp with
  | None => mret (-1)
  | Some fp =>
      f ← file fp;
      tf_fclose fp;;
      dir ← tf_parent name;
      dir ← deref_file dir;
      nm ← base_name name;
      rc ← tf_find_file dir nm;
      (if rc =? 0 then
         shift_loop fuel junk dir;;
         upd_file dir (λ f, or_flags TF_FLAG_SIZECHANGED (set_size (u32 (size f - 32)) f))
       else mret tt);;
      tf_fclose dir;;
      tf_free_clusterchain (startCluster f);;
      mret 0
  end.

(** ** Start *)
Definition zero_file : TFFile := File 0 0 0 0 0 0 0 0 0 0 0 [].
Definition bpb_ok (b : list Z) : bool :=
  ((byte_at b 0 =? 0xEB) && (byte_at b 2 =? 0x90) || (byte_at b 0 =? 0xE9))
  && (get16 b 11 =? 512) && negb (get16 b 14 =? 0)
  && ((byte_at b 21 =? 0xF0) || (0xF8 <=? byte_at b 21)).
Definition bpb_info (b : list Z) (i : TFInfo) : TFInfo :=
  let fat_size := if get16 b 22 =? 0 then get32 b 36 else get16 b 22 in
  let root_dir_sectors := u32 (get16 b 17 * 32 + 511) / 512 in
  let total := if get16 b 19 =? 0 then get32 b 32 else get16 b 19 in
  Info TF_TYPE_FAT32 (byte_at b 13) (u32 (get16 b 14 + byte_at b 16 * fat_size + root_dir_sectors)) total (get16 b 14)
    (currentSector i) (sectorFlags i) 0xffffffff (buffer i).
Definition tf_init : FM Z :=
  i ← info;
  set_buffer 0xffffffff 0 (buffer i);;
  tf_fetch 0;;
  i ← info;
  if negb (bpb_ok (buffer i)) then mret TF_ERR_BAD_FS_TYPE
  else
    set_info (bpb_info (buffer i) i);;
    fp ← tf_fopen [47] m_r;
    fp ← deref_file fp;
    '(_, turns) ← to_end_loop fuel 0 junk fp;
    tf_fclose fp;;
    i ← info;
    set_info (Info (type i) (sectorsPerCluster i) (firstDataSector i) (totalSectors i) (reservedSectors i) (currentSector i)
                (sectorFlags i) (u32 (32 * turns)) (buffer i));;
    modify (λ s, OFat (tf_info s) (replicate TF_FILE_HANDLES zero_file ++ drop TF_FILE_HANDLES (tf_files s)) (disk s) (sleep_lock s) (world s));;
    tf_fclose fp;;
    tf_release_handle fp;;
    mret 0.

(** ** The file system's operations *)
Definition lock : FM unit := λ s,
  if sleep_lock s then NoFuel else Done (tt, OFat (tf_info s) (tf_files s) (disk s) true (world s)).
Definition unlock : FM unit := modify (λ s, OFat (tf_info s) (tf_files s) (disk s) false (world s)).
Definition init : FM unit :=
  modify (λ s, OFat (tf_info s) (tf_files s) (disk s) false (world s));;
  rc ← tf_init;
  if rc =? 0 then mret tt else panic "fat32 init".
(** The size of the file and whether it is a directory. *)
Definition open (path : list Z) (fl : Z) : FM (option (Z * bool)) :=
  lock;;
  fp ← tf_fopen path (if has O_CREATE fl then m_w else m_r);
  fp ← match fp with
       | Some fp => mret (Some fp)
       | None => if fl =? O_DIRECTORY then tf_mkdir path;; tf_fopen path m_r else mret None
       end;
  match fp with
  | None => unlock;; mret None
  | Some fp =>
      f ← file fp;
      if (fl =? O_DIRECTORY) && negb (is_dir (attributes f)) then tf_fclose fp;; unlock;; mret None
      else tf_fclose fp;; unlock;; mret (Some (size f, is_dir (attributes f)))
  end.
Definition mkdir (path : list Z) : FM Z := lock;; code ← tf_mkdir path; unlock;; mret code.
Definition read (path : list Z) (user : bool) (buf offset n : Z) : FM Z :=
  lock;;
  fp ← tf_fopen path m_r;
  match fp with
  | None => unlock;; mret (u64 (-1))
  | Some fp =>
      f ← file fp;
      if size f <=? u32 offset then mret 0
      else
        tf_fseek fp 0 offset;;
        l ← tf_fread (out_mem user buf) n fp;
        tf_fclose fp;;
        unlock;;
        mret (u64 (Z.of_nat (length l)))
  end.
Definition write (path : list Z) (user : bool) (buf offset n : Z) : FM Z :=
  lock;;
  fp ← tf_fopen path m_plus;
  fp ← deref_file fp;
  tf_fseek fp 0 offset;;
  x ← tf_fwrite (src_mem user buf) n fp;
  tf_fclose fp;;
  unlock;;
  mret (u64 x).
Definition clear : FM Z := mret 0.
Definition truncate : FM Z := mret 0.
(** The result, and the size when there is one. *)
Definition get_file (path : list Z) : FM (option Z) :=
  fp ← tf_fopen path m_r;
  match fp with
  | None => mret None
  | Some fp => f ← file fp; tf_fclose fp;; mret (Some (size f))
  end.
Definition touch (path : list Z) : FM Z := tf_create path;; mret 0.
Definition rm (path : list Z) : FM Z := tf_remove path;; mret 0.

(** ** Listing a directory *)
Definition DT_FIFO : Z := 1.
Definition DT_DIR : Z := 4.
Definition DIENT_BASE_LEN : Z := 19.
(** [d_ino], [d_off], [d_reclen] and [d_type] of a [linux_dirent]. *)
Definition dirent_bytes (ino off reclen ty : Z) : list Z :=
  bytes32 ino ++ bytes32 (ino / 2 ^ 32) ++ bytes32 off ++ bytes32 (off / 2 ^ 32) ++ bytes16 reclen ++ [u8 ty].
Fixpoint until (stop : Z) (l : list Z) : list Z :=
  match l with [] => [] | c :: l => if c =? stop then [] else c :: until stop l end.
Definition put_out (user : bool) (dst : Z) (l : list Z) : FM Z := in_world (either_copyout user dst l).
Definition copysfn (sfn : list Z) (dst : Z) (user : bool) : FM Z :=
  let name := until 32 (take 8 sfn) in
  let ext := until 32 (slice sfn 8 3) in
  let n := Z.of_nat (length name) in
  put_out user dst name;;
  match ext with
  | [] => mret n
  | _ =>
      put_out user (u64 (dst + n)) [46];;
      put_out user (u64 (dst + n + 1)) ext;;
      mret (n + 1 + Z.of_nat (length ext))
  end.
(** One of the three arrays: the characters before 0xffff, cut to bytes. *)
Definition lfn_part (e : list Z) (off : Z) (n : nat) : list Z :=
  u8 <$> until 0xffff ((λ k, get16 e (off + 2 * Z.of_nat k)) <$> seq 0 n).
Definition copylfn (e : list Z) (dst : Z) (user : bool) : FM Z :=
  let offset := 13 * (clear_flag 0x40 (sequence_number e) - 1) in
  let part1 := lfn_part e 1 5 in
  let part2 := lfn_part e 14 6 in
  let part3 := lfn_part e 28 2 in
  let n1 := Z.of_nat (length part1) in
  let n2 := n1 + Z.of_nat (length part2) in
  r ← put_out user (u64 (dst + offset)) part1;
  if r <? 0 then panic "either copyout"
  else
    put_out user (u64 (dst + n1 + offset)) part2;;
    put_out user (u64 (dst + n2 + offset)) part3;;
    mret (n2 + Z.of_nat (length part3)).
Definition dirent_type (e : list Z) : Z := if is_dir (e_attributes e) then DT_DIR else DT_FIFO.
(** The rest of a chain of long entries: the entry and the length of the name;
    [None] when one is missing. *)
Fixpoint ls_lfn_loop (k : nat) (n : Z) (entry : list Z) (d_name : Z) (user : bool) (fp : nat) : FM (option (list Z * Z)) :=
  match k with
  | O => mret (Some (entry, n))
  | S k =>
      '(entry, got) ← read_entry entry fp;
      if negb (got =? 32) || negb (e_attributes entry =? TF_ATTR_LONG_NAME) then mret None
      else m ← copylfn entry d_name user; ls_lfn_loop k (n + m) entry d_name user fp
  end.
Fixpoint ls_loop (fuel : nat) (entry : list Z) (contents readn len : Z) (user : bool) (fp : nat) : FM Z :=
  match fuel with
  | O => λ _, NoFuel
  | S fuel =>
      '(entry, got) ← read_entry entry fp;
      if negb (got =? 32) then tf_fclose fp;; unlock;; mret readn
      else if (byte_at entry 0 =? 0) || (u64 len <=? readn + 8) then unlock;; mret readn
      else if negb (e_attributes entry =? TF_ATTR_LONG_NAME) then
        n ← copysfn (take 11 entry) (contents + DIENT_BASE_LEN) user;
        let reclen := u16 (DIENT_BASE_LEN + n) in
        put_out user contents (dirent_bytes (firstCluster entry) (u64 (contents + reclen)) reclen (dirent_type entry));;
        ls_loop fuel entry (u64 (contents + reclen)) (readn + reclen) len user fp
      else if Z.land (sequence_number entry) 0xc0 =? 0x40 then
        let lfn_entries := clear_flag 0x40 (sequence_number entry) in
        if len <=? lfn_entries * LFN_NAME_CAPACITY + readn then tf_fclose fp;; unlock;; mret readn
        else
          n ← copylfn entry (contents + DIENT_BASE_LEN) user;
          rest ← ls_lfn_loop (Z.to_nat (lfn_entries - 1)) n entry (contents + DIENT_BASE_LEN) user fp;
          match rest with
          | None => tf_fclose fp;; unlock;; mret (-1)
          | Some (entry, n) =>
              '(entry, got) ← read_entry entry fp;
              if negb (got =? 32) then tf_fclose fp;; unlock;; mret (-1)
              else
                let reclen := u16 (ALIGN (u16 (DIENT_BASE_LEN + n)) 8) in
                put_out user contents (dirent_bytes (firstCluster entry) (u64 (contents + reclen)) reclen (dirent_type entry));;
                ls_loop fuel entry (u64 (contents + reclen)) (readn + reclen) len user fp
          end
      else ls_loop fuel entry contents readn len user fp
  end.
Definition ls (path : list Z) (contents len : Z) (user : bool) : FM Z :=
  lock;;
  fp ← tf_fopen path m_r;
  match fp with
  | None => unlock;; mret (-1)
  | Some fp =>
      f ← file fp;
      if negb (is_dir (attributes f)) then unlock;; mret (-1)
      else ls_loop fuel junk contents 0 len user fp
  end.
End tinyfat.
