(* ===== verification/OldFatProps.v ===== *)
(** * The FAT library of the old file layer: its sectors, its table, its lock

    [sectors]: the disk as the library sees it, its buffer included.  Reading and
    writing the cluster table through the buffer is reading and writing the table;
    what [tf_free_clusterchain] does to a chain; and the lock that [read] keeps. *)
From S2P Require Import Prelude Mem Buf OldVfs OldFat.

Section sectors.
Context {W : Type}.
Implicit Types s : ofat W.

Definition sectors s (k : Z) : list Z :=
  if k =? currentSector (tf_info s) then buffer (tf_info s) else rd_bytes (disk s) (k * 512) 512.
(** A disk of less than 2 GiB: the offsets fit an [int]. *)
Definition on_disk (k : Z) : Prop := 0 ≤ k < 2 ^ 22 - 1.
(** The buffer holds a sector, and is the disk's unless it is marked. *)
Record buffered s : Prop := {
  bu_length : length (buffer (tf_info s)) = 512%nat;
  bu_clean : has TF_FLAG_DIRTY (sectorFlags (tf_info s)) = false →
    on_disk (currentSector (tf_info s)) →
    buffer (tf_info s) = rd_bytes (disk s) (currentSector (tf_info s) * 512) 512;
  bu_dirty : has TF_FLAG_DIRTY (sectorFlags (tf_info s)) = true → on_disk (currentSector (tf_info s));
}.
(** What stays: all but the buffer and the disk under it. *)
Definition same_volume s s' : Prop :=
  tf_files s' = tf_files s ∧ sleep_lock s' = sleep_lock s ∧ world s' = world s ∧
  type (tf_info s') = type (tf_info s) ∧ sectorsPerCluster (tf_info s') = sectorsPerCluster (tf_info s) ∧
  firstDataSector (tf_info s') = firstDataSector (tf_info s) ∧ totalSectors (tf_info s') = totalSectors (tf_info s) ∧
  reservedSectors (tf_info s') = reservedSectors (tf_info s).
Lemma same_volume_trans s1 s2 s3 : same_volume s1 s2 → same_volume s2 s3 → same_volume s1 s3.
Proof.
  intros (? & ? & ? & ? & ? & ? & ? & ?) (? & ? & ? & ? & ? & ? & ? & ?). split_and!; congruence.
Qed.

Lemma offset_int k : on_disk k → i32 (u32 (k * 512)) = k * 512.
Proof. unfold on_disk. intros. rewrite u32_small, i32_small by lia. done. Qed.
Lemma old_read_sector_run old k s : on_disk k → length old = 512%nat →
  read_sector old k s = Done (rd_bytes (disk s) (k * 512) 512, s).
Proof.
  intros Hk Hl. unfold read_sector, gets. rewrite offset_int by done. unfold VirtioDisk_read, bad_range, n_sectors.
  rewrite (Z.rem_mul k 512) by lia. change (Z.rem 512 512) with 0. cbn [negb orb Z.eqb].
  unfold on_disk in Hk. rewrite i32_small by lia.
  rewrite (Z.quot_mul k 512) by lia. replace (k * 512 + 512) with ((k + 1) * 512) by lia. rewrite Z.quot_mul by lia.
  replace (Z.to_nat (k + 1 - k)) with 1%nat by lia. cbn [rd_sectors snd]. rewrite app_nil_r, length_rd_bytes.
  rewrite drop_ge, app_nil_r by (rewrite Hl; lia). done.
Qed.
Lemma old_write_sector_run l k s : on_disk k → length l = 512%nat →
  write_sector l k s = Done (tt, OFat (tf_info s) (tf_files s) (wr_bytes (disk s) (k * 512) l) (sleep_lock s) (world s)).
Proof.
  intros Hk Hl. unfold write_sector, modify. rewrite offset_int by done. unfold VirtioDisk_write, bad_range, n_sectors.
  rewrite (Z.rem_mul k 512) by lia. change (Z.rem 512 512) with 0. cbn [negb orb Z.eqb].
  unfold on_disk in Hk. rewrite i32_small by lia.
  rewrite (Z.quot_mul k 512) by lia. replace (k * 512 + 512) with ((k + 1) * 512) by lia. rewrite Z.quot_mul by lia.
  replace (Z.to_nat (k + 1 - k)) with 1%nat by lia. cbn [wr_sectors snd]. rewrite take_ge by (rewrite Hl; lia). done.
Qed.

Lemma clear_flag_has f v : has f (clear_flag f v) = false.
Proof.
  unfold has, clear_flag. apply negb_false_iff, Z.eqb_eq. apply Z.bits_inj'. intros n Hn.
  rewrite !Z.land_spec, Z.bits_0. unfold u8. destruct (decide (n < 8)).
  - rewrite Z.mod_pow2_bits_low, Z.lnot_spec by lia. by destruct (Z.testbit v n), (Z.testbit f n).
  - rewrite Z.mod_pow2_bits_high by lia. by rewrite andb_false_r.
Qed.
Lemma rd_other_sector d k j l : k ≠ j → length l = 512%nat →
  rd_bytes (wr_bytes d (k * 512) l) (j * 512) 512 = rd_bytes d (j * 512) 512.
Proof. intros Hne Hl. apply rd_bytes_ext. intros x Hx. apply wr_bytes_out. rewrite Hl. lia. Qed.
Lemma rd_same_sector d k l : length l = 512%nat → rd_bytes (wr_bytes d (k * 512) l) (k * 512) 512 = l.
Proof. intros Hl. rewrite <- Hl. apply rd_wr_bytes. Qed.

(** Writing the buffer back. *)
Lemma tf_store_run s : buffered s → on_disk (currentSector (tf_info s)) →
  ∃ s', tf_store s = Done (0, s') ∧ buffered s' ∧ same_volume s s' ∧ tf_info s' = Info (type (tf_info s))
      (sectorsPerCluster (tf_info s)) (firstDataSector (tf_info s)) (totalSectors (tf_info s)) (reservedSectors (tf_info s))
      (currentSector (tf_info s)) (clear_flag TF_FLAG_DIRTY (sectorFlags (tf_info s))) (rootDirectorySize (tf_info s)) (buffer (tf_info s)) ∧
    (∀ j, sectors s' j = sectors s j) ∧ rd_bytes (disk s') (currentSector (tf_info s) * 512) 512 = buffer (tf_info s).
Proof.
  intros [Hl Hc Hd] Hk. unfold tf_store, set_buffer, set_info, info. unfold_M.
  rewrite old_write_sector_run by done. eexists. split; [done|]. cbn [tf_info disk].
  split; [split; cbn [tf_info disk currentSector buffer sectorFlags]|split; [by split_and!|split; [done|]]].
  - done.
  - intros _ _. by rewrite rd_same_sector.
  - by rewrite clear_flag_has.
  - split; [|by apply rd_same_sector]. intros j. unfold sectors. cbn [tf_info disk currentSector buffer].
    destruct (Z.eqb_spec j (currentSector (tf_info s))) as [|Hne]; [done|]. by apply rd_other_sector.
Qed.

(** Reading another sector into a clean buffer. *)
Lemma refill_run k s : on_disk k → buffered s → has TF_FLAG_DIRTY (sectorFlags (tf_info s)) = false →
  k ≠ currentSector (tf_info s) →
  ∃ s', (i ← info; b ← read_sector (buffer i) k; set_buffer k (sectorFlags i) b;; mret 0) s = Done (0, s') ∧
    buffered s' ∧ same_volume s s' ∧ currentSector (tf_info s') = k ∧ buffer (tf_info s') = sectors s k ∧
    (∀ j, on_disk j → sectors s' j = sectors s j).
Proof.
  intros Hk [Hl Hc Hd] Hclean Hne. unfold set_buffer, set_info, info. unfold_M. rewrite old_read_sector_run by done.
  assert (sectors s k = rd_bytes (disk s) (k * 512) 512) as Hv by (unfold sectors; by rewrite (proj2 (Z.eqb_neq _ _) Hne)).
  eexists. split; [done|]. cbn [tf_info disk currentSector buffer sectorFlags].
  split; [split; cbn [tf_info disk currentSector buffer sectorFlags]|split; [by split_and!|split; [done|split; [done|]]]].
  - apply length_rd_bytes.
  - done.
  - by rewrite Hclean.
  - intros j Hj. unfold sectors. cbn [tf_info disk currentSector buffer].
    destruct (Z.eqb_spec j k) as [->|Hjk]; [by rewrite (proj2 (Z.eqb_neq _ _) Hne)|].
    destruct (Z.eqb_spec j (currentSector (tf_info s))) as [->|]; [|done]. by rewrite Hc.
Qed.

(** [tf_fetch] changes nothing that can be seen. *)
Lemma tf_fetch_run k s : on_disk k → buffered s →
  ∃ s', tf_fetch k s = Done (0, s') ∧ buffered s' ∧ same_volume s s' ∧
    currentSector (tf_info s') = k ∧ buffer (tf_info s') = sectors s k ∧
    (∀ j, on_disk j → sectors s' j = sectors s j).
Proof.
  intros Hk Hb. unfold tf_fetch. erewrite M_bind_Done by reflexivity.
  destruct (Z.eqb_spec k (currentSector (tf_info s))) as [->|Hne].
  { exists s. split; [done|]. split; [done|]. split; [by split_and!|]. unfold sectors. rewrite Z.eqb_refl. done. }
  destruct (has TF_FLAG_DIRTY (sectorFlags (tf_info s))) eqn:Hdirty.
  - destruct (tf_store_run s Hb (bu_dirty _ Hb Hdirty)) as (s1 & E1 & Hb1 & Hv1 & Hi1 & Hs1 & _). step E1.
    destruct (refill_run k s1 Hk Hb1) as (s2 & E2 & Hb2 & Hv2 & Hc2 & Hbuf & Hs2);
      [by rewrite Hi1; apply clear_flag_has|by rewrite Hi1|].
    exists s2. split; [exact E2|]. split; [done|]. split; [exact (same_volume_trans _ _ _ Hv1 Hv2)|].
    split; [done|]. split; [by rewrite Hbuf|]. intros j Hj. by rewrite Hs2.
  - erewrite M_bind_Done by reflexivity. destruct (refill_run k s Hk Hb Hdirty Hne) as (s2 & E2 & H2). by exists s2.
Qed.

(** ** The cluster table *)
Definition table_sector s (c : Z) : Z := fat_sector (tf_info s) c.
Definition fat s (c : Z) : Z := get32 (sectors s (table_sector s c)) (u32 (c * 4) mod 512).
(** A cluster whose entry is on the disk. *)
Definition in_table s (c : Z) : Prop := 0 ≤ c < 2 ^ 30 ∧ on_disk (reservedSectors (tf_info s) + c / 128) ∧ 0 ≤ reservedSectors (tf_info s).
Lemma table_sector_eq s c : in_table s c → table_sector s c = reservedSectors (tf_info s) + c / 128.
Proof.
  unfold in_table, on_disk, table_sector, fat_sector. intros (Hc & Hd & Hr). rewrite (u32_small (c * 4)) by lia.
  replace (c * 4 / 512) with (c / 128) by dlia. apply u32_small. lia.
Qed.
Lemma in_table_volume s s' c : same_volume s s' → in_table s c → in_table s' c.
Proof. intros (_ & _ & _ & _ & _ & _ & _ & E). unfold in_table. by rewrite E. Qed.
Lemma table_sector_volume s s' c : same_volume s s' → table_sector s' c = table_sector s c.
Proof. intros (_ & _ & _ & _ & _ & _ & _ & E). unfold table_sector, fat_sector. by rewrite E. Qed.

Lemma tf_get_fat_entry_run c s : in_table s c → buffered s →
  ∃ s', tf_get_fat_entry c s = Done (fat s c, s') ∧ buffered s' ∧ same_volume s s' ∧
    (∀ j, on_disk j → sectors s' j = sectors s j).
Proof.
  intros Hc Hb. unfold tf_get_fat_entry. erewrite M_bind_Done by reflexivity.
  assert (on_disk (fat_sector (tf_info s) c)) as Hd by (change (on_disk (table_sector s c)); rewrite (table_sector_eq s c Hc); apply Hc).
  destruct (tf_fetch_run _ s Hd Hb) as (s' & E & Hb' & Hv & Hcur & Hbuf & Hs). step E.
  exists s'. split; [|done]. erewrite M_bind_Done by reflexivity. by rewrite Hbuf.
Qed.

(** *** Writing one entry *)
Lemma put_at_length l i new : 0 ≤ i → i + Z.of_nat (length new) ≤ Z.of_nat (length l) → length (put_at l i new) = length l.
Proof. intros. unfold put_at. rewrite !length_app, length_take, length_drop. lia. Qed.
Lemma byte_at_put_at l i new j : 0 ≤ i → i + Z.of_nat (length new) ≤ Z.of_nat (length l) → 0 ≤ j →
  byte_at (put_at l i new) j = if (i <=? j) && (j <? i + Z.of_nat (length new)) then byte_at new (j - i) else byte_at l j.
Proof.
  intros Hi Hl Hj. unfold byte_at, put_at. destruct (Z.leb_spec i j) as [Hij|Hij]; cbn [andb].
  - rewrite app_nth2 by (rewrite length_take; lia). rewrite length_take.
    replace (Z.to_nat j - _ `min` _)%nat with (Z.to_nat (j - i)) by lia. destruct (Z.ltb_spec j (i + Z.of_nat (length new))).
    + by rewrite app_nth1 by lia.
    + rewrite app_nth2 by lia. rewrite nth_skipn. f_equal. lia.
  - rewrite app_nth1 by (rewrite length_take; lia). rewrite nth_firstn. by rewrite (proj2 (Nat.ltb_lt _ _)) by lia.
Qed.
Lemma get32_put_same l i v : 0 ≤ i → i + 4 ≤ Z.of_nat (length l) → 0 ≤ v < 2 ^ 32 → get32 (put_at l i (bytes32 v)) i = v.
Proof.
  intros Hi Hl Hv. unfold get32, get16. rewrite !byte_at_put_at by (cbn; lia).
  change (Z.of_nat (length (bytes32 v))) with 4.
  rewrite !(proj2 (Z.leb_le _ _)), !(proj2 (Z.ltb_lt _ _)) by lia. cbn [andb].
  replace (i + 1 - i) with 1 by lia. replace (i + 2 + 1 - i) with 3 by lia. replace (i + 2 - i) with 2 by lia.
  rewrite Z.sub_diag. unfold byte_at, bytes32, bytes16.
  change (Z.to_nat 0) with 0%nat; change (Z.to_nat 1) with 1%nat; change (Z.to_nat 2) with 2%nat; change (Z.to_nat 3) with 3%nat.
  cbn [app nth]. clear Hl Hi. dlia.
Qed.
Lemma get32_put_other l i j new : 0 ≤ i → i + 4 ≤ Z.of_nat (length l) → length new = 4%nat → 0 ≤ j → j + 4 ≤ i ∨ i + 4 ≤ j →
  get32 (put_at l i new) j = get32 l j.
Proof.
  intros Hi Hl Hn Hj Hij. assert (∀ k, 0 ≤ k → k < i ∨ i + 4 ≤ k → byte_at (put_at l i new) k = byte_at l k) as E.
  { intros k Hk Hik. rewrite byte_at_put_at by lia. rewrite Hn.
    destruct (Z.leb_spec i k), (Z.ltb_spec k (i + Z.of_nat 4)); cbn [andb]; first [done|lia]. }
  unfold get32, get16. by rewrite !E by lia.
Qed.

Lemma write_buffer_run off l s : buffered s → on_disk (currentSector (tf_info s)) →
  0 ≤ off → off + Z.of_nat (length l) ≤ 512 →
  ∃ s', write_buffer off l s = Done (tt, s') ∧ buffered s' ∧ same_volume s s' ∧
    sectors s' (currentSector (tf_info s)) = put_at (buffer (tf_info s)) off l ∧
    (∀ j, j ≠ currentSector (tf_info s) → sectors s' j = sectors s j).
Proof.
  intros [Hl Hc Hd] Hk Ho Hol. unfold write_buffer, set_buffer, set_info, info. unfold_M. eexists. split; [done|].
  assert (has TF_FLAG_DIRTY (Z.lor (sectorFlags (tf_info s)) TF_FLAG_DIRTY) = true) as Hdirty.
  { unfold has. apply negb_true_iff, Z.eqb_neq. intros E. apply (f_equal (λ z, Z.testbit z 0)) in E.
    rewrite Z.land_spec, Z.lor_spec, Z.bits_0 in E. change (Z.testbit TF_FLAG_DIRTY 0) with true in E.
    by rewrite orb_true_r in E. }
  split; [split; cbn [tf_info disk currentSector buffer sectorFlags]|split; [by split_and!|]].
  - rewrite put_at_length; rewrite ?Hl; lia.
  - by rewrite Hdirty.
  - done.
  - unfold sectors. cbn [tf_info disk currentSector buffer]. rewrite Z.eqb_refl. split; [done|].
    intros j Hj. by rewrite (proj2 (Z.eqb_neq _ _) Hj).
Qed.

(** Two clusters have their entries apart. *)
Lemma entries_apart s c d : in_table s c → in_table s d → c ≠ d → table_sector s c = table_sector s d →
  u32 (d * 4) mod 512 + 4 ≤ u32 (c * 4) mod 512 ∨ u32 (c * 4) mod 512 + 4 ≤ u32 (d * 4) mod 512.
Proof.
  intros Hc Hd Hne. rewrite (table_sector_eq s c Hc), (table_sector_eq s d Hd). destruct Hc as (Hc & _), Hd as (Hd & _).
  rewrite !u32_small by lia. replace (c * 4) with (4 * c) by lia. replace (d * 4) with (4 * d) by lia.
  change 512 with (4 * 128). rewrite !Zmult_mod_distr_l. intros E. dlia.
Qed.
Lemma entry_offset c : 0 ≤ u32 (c * 4) mod 512 ∧ u32 (c * 4) mod 512 + 4 ≤ 512.
Proof.
  unfold u32. change 512 with (4 * 128). change (2 ^ 32) with (4 * 2 ^ 30). rewrite (Z.mul_comm c 4), !Zmult_mod_distr_l. dlia.
Qed.

Lemma tf_set_fat_entry_run c v s : in_table s c → buffered s → 0 ≤ v < 2 ^ 32 →
  ∃ s', tf_set_fat_entry c v s = Done (0, s') ∧ buffered s' ∧ same_volume s s' ∧
    fat s' c = v ∧ (∀ d, in_table s d → d ≠ c → fat s' d = fat s d) ∧
    (∀ j, on_disk j → j ≠ table_sector s c → sectors s' j = sectors s j).
Proof.
  intros Hc Hb Hv. unfold tf_set_fat_entry. erewrite M_bind_Done by reflexivity.
  assert (on_disk (table_sector s c)) as Hd by (rewrite (table_sector_eq s c Hc); apply Hc).
  destruct (tf_fetch_run _ s Hd Hb) as (s1 & E1 & Hb1 & Hv1 & Hcur & Hbuf & Hs1).
  change (fat_sector (tf_info s) c) with (table_sector s c). step E1. erewrite M_bind_Done by reflexivity. cbn zeta.
  rewrite Hbuf. fold (fat s c). destruct (entry_offset c) as [Ho1 Ho2].
  destruct (Z.eqb_spec (fat s c) v) as [Hsame|Hnew].
  - exists s1. split; [done|]. split; [done|]. split; [done|].
    assert (∀ d, in_table s d → fat s1 d = fat s d) as Hall.
    { intros d Hd'. unfold fat. rewrite (table_sector_volume s s1 d Hv1), Hs1; [done|].
      rewrite (table_sector_eq s d Hd'). apply Hd'. }
    split; [by rewrite Hall|]. split; [intros; by apply Hall|]. intros. by apply Hs1.
  - destruct (write_buffer_run (u32 (c * 4) mod 512) (bytes32 v) s1 Hb1) as (s2 & E2 & Hb2 & Hv2 & Hnew2 & Hs2);
      [by rewrite Hcur|done|done|].
    step E2. exists s2. split; [done|]. split; [done|]. rewrite Hcur, Hbuf in Hnew2. rewrite Hcur in Hs2.
    pose proof (same_volume_trans _ _ _ Hv1 Hv2) as Hv12. split; [done|].
    assert (length (sectors s (table_sector s c)) = 512%nat) as Hl by (rewrite <- Hbuf; apply Hb1).
    unfold fat. split.
    { rewrite (table_sector_volume s s2 c Hv12), Hnew2. apply get32_put_same; [done|by rewrite Hl|done]. }
    split.
    { intros d Hd' Hne. rewrite (table_sector_volume s s2 d Hv12).
      assert (on_disk (table_sector s d)) as Hdd by (rewrite (table_sector_eq s d Hd'); apply Hd').
      destruct (Z.eq_dec (table_sector s d) (table_sector s c)) as [Heq|Hneq].
      - rewrite Heq, Hnew2. apply get32_put_other; [done|by rewrite Hl|done|apply entry_offset|].
        exact (entries_apart s c d Hc Hd' (not_eq_sym Hne) (eq_sym Heq)).
      - by rewrite Hs2, Hs1. }
    intros j Hj Hne. by rewrite Hs2, Hs1.
Qed.

(** *** Freeing a chain *)
Lemma fat_kept s s' c : same_volume s s' → (∀ j, on_disk j → sectors s' j = sectors s j) → in_table s c → fat s' c = fat s c.
Proof.
  intros Hv Hs Hc. unfold fat. rewrite (table_sector_volume s s' c Hv), Hs; [done|].
  rewrite (table_sector_eq s c Hc). apply Hc.
Qed.
(** Reading an entry, as the table sees it. *)
Lemma tf_get_fat_entry_table c s : in_table s c → buffered s →
  ∃ s', tf_get_fat_entry c s = Done (fat s c, s') ∧ buffered s' ∧ same_volume s s' ∧ (∀ d, in_table s d → fat s' d = fat s d).
Proof.
  intros Hc Hb. destruct (tf_get_fat_entry_run c s Hc Hb) as (s' & E & Hb' & Hv & Hs).
  exists s'. do 3 (split; [done|]). intros d Hd. by apply fat_kept.
Qed.

(** One turn of the loop: the entry of [c] is cleared, and that of [next] read. *)
Lemma free_turn n c next s : in_table s c → in_table s next → buffered s → 2 < next < TF_MARK_EOC32 → next ≠ c →
  ∃ s', free_clusterchain_loop (S n) c next s = free_clusterchain_loop n (fat s next) (fat s next) s' ∧
    buffered s' ∧ same_volume s s' ∧ fat s' c = 0 ∧ (∀ d, in_table s d → d ≠ c → fat s' d = fat s d).
Proof.
  intros Hc Hn Hb Hrange Hne. cbn [free_clusterchain_loop].
  rewrite (proj2 (Z.ltb_lt next _)), (proj2 (Z.leb_gt next 2)) by lia.
  destruct (tf_set_fat_entry_run c 0 s Hc Hb) as (s1 & E1 & Hb1 & Hv1 & Hz & Hs1 & _); [done|]. step E1.
  destruct (tf_get_fat_entry_table next s1 (in_table_volume _ _ _ Hv1 Hn) Hb1) as (s2 & E2 & Hb2 & Hv2 & Hs2). step E2.
  rewrite (Hs1 next Hn Hne). exists s2. do 2 (split; [done|]). split; [exact (same_volume_trans _ _ _ Hv1 Hv2)|].
  split; [by rewrite (Hs2 c (in_table_volume _ _ _ Hv1 Hc))|].
  intros d Hd Hdc. by rewrite (Hs2 d (in_table_volume _ _ _ Hv1 Hd)), Hs1.
Qed.
(** The turn that clears the entry it then reads. *)
Lemma free_turn_self n c s : in_table s c → buffered s → 2 < c < TF_MARK_EOC32 →
  ∃ s', free_clusterchain_loop (S (S n)) c c s = Done (tt, s') ∧
    buffered s' ∧ same_volume s s' ∧ fat s' c = 0 ∧ (∀ d, in_table s d → d ≠ c → fat s' d = fat s d).
Proof.
  intros Hc Hb Hrange. cbn [free_clusterchain_loop].
  rewrite (proj2 (Z.ltb_lt c _)), (proj2 (Z.leb_gt c 2)) by lia.
  destruct (tf_set_fat_entry_run c 0 s Hc Hb) as (s1 & E1 & Hb1 & Hv1 & Hz & Hs1 & _); [done|]. step E1.
  destruct (tf_get_fat_entry_table c s1 (in_table_volume _ _ _ Hv1 Hc) Hb1) as (s2 & E2 & Hb2 & Hv2 & Hs2). step E2.
  rewrite Hz. exists s2. do 2 (split; [done|]). split; [exact (same_volume_trans _ _ _ Hv1 Hv2)|].
  split; [by rewrite (Hs2 c (in_table_volume _ _ _ Hv1 Hc))|].
  intros d Hd Hdc. by rewrite (Hs2 d (in_table_volume _ _ _ Hv1 Hd)), Hs1.
Qed.

(** [tf_free_clusterchain] on a chain of three clusters or more frees the first
    and the third: the entry of the third is read after it is cleared, so the loop
    ends there; the second, and all after the third, stay in use. *)
Theorem free_clusterchain_first_and_third fuel c0 c1 c2 s : (3 ≤ fuel)%nat → buffered s →
  in_table s c0 → in_table s c1 → in_table s c2 → fat s c0 = c1 → fat s c1 = c2 →
  2 < c1 < TF_MARK_EOC32 → 2 < c2 < TF_MARK_EOC32 → c1 ≠ c0 → c2 ≠ c0 →
  ∃ s', tf_free_clusterchain fuel c0 s = Done (0, s') ∧ buffered s' ∧ same_volume s s' ∧ fat s' c0 = 0 ∧ fat s' c2 = 0 ∧
    (∀ d, in_table s d → d ≠ c0 → d ≠ c2 → fat s' d = fat s d).
Proof.
  intros Hf Hb H0 H1 H2 E01 E12 R1 R2 N1 N2. unfold tf_free_clusterchain.
  destruct (tf_get_fat_entry_table c0 s H0 Hb) as (s1 & E1 & Hb1 & Hv1 & Hs1). step E1. rewrite E01.
  destruct fuel as [|[|[|n]]]; [lia..|].
  destruct (free_turn (S (S n)) c0 c1 s1) as (s2 & E2 & Hb2 & Hv2 & Hz2 & Hs2);
    [by eapply in_table_volume|by eapply in_table_volume|done..|].
  rewrite (Hs1 c1 H1), E12 in E2. pose proof (same_volume_trans _ _ _ Hv1 Hv2) as Hv12.
  destruct (free_turn_self n c2 s2 (in_table_volume _ _ _ Hv12 H2) Hb2 R2) as (s3 & E3 & Hb3 & Hv3 & Hz3 & Hs3).
  rewrite E3 in E2. step E2. exists s3. do 2 (split; [done|]). split; [exact (same_volume_trans _ _ _ Hv12 Hv3)|].
  split; [rewrite (Hs3 c0 (in_table_volume _ _ _ Hv12 H0)) by done; exact Hz2|]. split; [exact Hz3|].
  intros d Hd Nd0 Nd2. rewrite (Hs3 d (in_table_volume _ _ _ Hv12 Hd)) by done.
  rewrite (Hs2 d (in_table_volume _ _ _ Hv1 Hd)) by done. by apply Hs1.
Qed.
(** A chain of two: the last cluster stays in use. *)
Theorem free_clusterchain_keeps_last fuel c0 c1 s : (2 ≤ fuel)%nat → buffered s →
  in_table s c0 → in_table s c1 → fat s c0 = c1 → TF_MARK_EOC32 ≤ fat s c1 → 2 < c1 < TF_MARK_EOC32 → c1 ≠ c0 →
  ∃ s', tf_free_clusterchain fuel c0 s = Done (0, s') ∧ buffered s' ∧ same_volume s s' ∧ fat s' c0 = 0 ∧
    (∀ d, in_table s d → d ≠ c0 → fat s' d = fat s d).
Proof.
  intros Hf Hb H0 H1 E01 Hend R1 N1. unfold tf_free_clusterchain.
  destruct (tf_get_fat_entry_table c0 s H0 Hb) as (s1 & E1 & Hb1 & Hv1 & Hs1). step E1. rewrite E01.
  destruct fuel as [|[|n]]; [lia..|].
  destruct (free_turn (S n) c0 c1 s1) as (s2 & E2 & Hb2 & Hv2 & Hz2 & Hs2);
    [by eapply in_table_volume|by eapply in_table_volume|done..|].
  rewrite (Hs1 c1 H1) in E2. cbn [free_clusterchain_loop] in E2. rewrite (proj2 (Z.ltb_ge _ _) Hend) in E2. step E2.
  exists s2. do 2 (split; [done|]). split; [exact (same_volume_trans _ _ _ Hv1 Hv2)|]. split; [exact Hz2|].
  intros d Hd Nd0. rewrite (Hs2 d (in_table_volume _ _ _ Hv1 Hd)) by done. by apply Hs1.
Qed.

(** [tf_get_open_handles] never returns: the bound of its loop is no bound. *)
Lemma tf_get_open_handles_runs_out fuel s r : tf_get_open_handles fuel s ≠ Done r.
Proof.
  unfold tf_get_open_handles. generalize 0 as v, 0%nat as i. revert s. induction fuel as [|n IH]; intros s v i; [done|].
  cbn [get_open_handles_loop]. assert (handles_left i = true) as ->
    by (unfold handles_left; cbn [TF_FILE_HANDLES Nat.ltb Nat.leb]; by destruct i).
  cbn [negb]. case_match; [done|]. intros (f & s1 & _ & E)%M_bind_inv. exact (IH _ _ _ E).
Qed.
End sectors.

(** ** The lock

    No function of the library under the operations touches [sleep_lock]. *)
Section locking.
Context {W : Type} (either_copyout : bool → Z → list Z → M W Z) (either_copyin : bool → Z → list Z → M W (Z * list Z)).
Context (junk : list Z) (fuel : nat).
Abbreviation FM := (M (ofat W)).
Implicit Types s : ofat W.

Class KeepsLock {A} (c : FM A) : Prop := keeps_lock : ∀ s a s', c s = Done (a, s') → sleep_lock s' = sleep_lock s.
#[local] Instance keeps_ret {A} (a : A) : KeepsLock (mret a).
Proof. by intros s b s' [= _ <-]. Qed.
#[local] Instance keeps_bind {A B} (c : FM A) (f : A → FM B) : KeepsLock c → (∀ a, KeepsLock (f a)) → KeepsLock (c ≫= f).
Proof. intros Hc Hf s b s' (a & s1 & E1 & E2)%M_bind_inv. rewrite (Hf a s1 b s' E2). exact (Hc _ _ _ E1). Qed.
#[local] Instance keeps_panic {A} msg : KeepsLock (panic msg : FM A).
Proof. by intros s a s' E. Qed.
#[local] Instance keeps_no_fuel {A} : KeepsLock ((λ _, NoFuel) : FM A).
Proof. by intros s a s' E. Qed.
#[local] Instance keeps_gets {A} (f : ofat W → A) : KeepsLock (gets f).
Proof. by intros s a s' [= _ <-]. Qed.
#[local] Instance keeps_info : KeepsLock info.
Proof. apply _. Qed.
#[local] Instance keeps_set_info i : KeepsLock (set_info i).
Proof. by intros s a s' [= _ <-]. Qed.
#[local] Instance keeps_file fp : KeepsLock (file fp).
Proof. unfold KeepsLock, file. intros s a s' E. by case_match; simplify_eq. Qed.
#[local] Instance keeps_put_file fp f : KeepsLock (put_file fp f).
Proof. by intros s a s' [= _ <-]. Qed.
#[local] Instance keeps_write_sector l k : KeepsLock (write_sector l k).
Proof. by intros s a s' [= _ <-]. Qed.
#[local] Instance keeps_in_world {A} (c : M W A) : KeepsLock (in_world c).
Proof. unfold KeepsLock, in_world. intros s a s' E. by repeat case_match; simplify_eq. Qed.

(** The bodies: binds, tests and the functions before. *)
Ltac keep := repeat first [apply _ | apply keeps_bind; [|intros] | case_match | progress intros].
#[local] Instance keeps_set_buffer k fl b : KeepsLock (set_buffer k fl b).
Proof. unfold set_buffer. keep. Qed.
#[local] Instance keeps_upd_file fp g : KeepsLock (upd_file fp g).
Proof. unfold upd_file. keep. Qed.
#[local] Instance keeps_read_sector old k : KeepsLock (read_sector old k).
Proof. apply _. Qed.
#[local] Instance keeps_tf_store : KeepsLock tf_store.
Proof. unfold tf_store. keep. Qed.
#[local] Instance keeps_tf_fetch k : KeepsLock (tf_fetch k).
Proof. unfold tf_fetch. keep. Qed.
#[local] Instance keeps_write_buffer off l : KeepsLock (write_buffer off l).
Proof. unfold write_buffer. keep. Qed.
#[local] Instance keeps_tf_get_fat_entry c : KeepsLock (tf_get_fat_entry c).
Proof. unfold tf_get_fat_entry. keep. Qed.
#[local] Instance keeps_tf_set_fat_entry c v : KeepsLock (tf_set_fat_entry c v).
Proof. unfold tf_set_fat_entry. keep. Qed.
#[local] Instance keeps_find_free_loop n i : KeepsLock (find_free_loop n i).
Proof. revert i. induction n; intros; cbn [find_free_loop]; keep. Qed.
#[local] Instance keeps_tf_find_free_cluster : KeepsLock tf_find_free_cluster.
Proof. unfold tf_find_free_cluster. keep. Qed.
#[local] Instance keeps_tf_find_free_cluster_from c : KeepsLock (tf_find_free_cluster_from c).
Proof. unfold tf_find_free_cluster_from. keep. Qed.
#[local] Instance keeps_free_clusterchain_loop n c e : KeepsLock (free_clusterchain_loop n c e).
Proof. revert c e. induction n; intros; cbn [free_clusterchain_loop]; keep. Qed.
#[local] Instance keeps_tf_free_clusterchain c : KeepsLock (tf_free_clusterchain fuel c).
Proof. unfold tf_free_clusterchain. keep. Qed.
#[local] Instance keeps_seek_loop n mark fp : KeepsLock (seek_loop n mark fp).
Proof. induction n; cbn [seek_loop]; keep. Qed.
#[local] Instance keeps_tf_unsafe_fseek fp b o : KeepsLock (tf_unsafe_fseek fp b o).
Proof. unfold tf_unsafe_fseek. keep. Qed.
#[local] Instance keeps_tf_fseek fp b o : KeepsLock (tf_fseek fp b o).
Proof. unfold tf_fseek. keep. Qed.
#[local] Instance keeps_fread_loop n out sz k fp acc : (∀ n l, KeepsLock (out n l)) → KeepsLock (fread_loop n out sz k fp acc).
Proof. revert sz k acc. induction n; intros; cbn [fread_loop]; keep. Qed.
#[local] Instance keeps_tf_fread out sz fp : (∀ n l, KeepsLock (out n l)) → KeepsLock (tf_fread fuel out sz fp).
Proof. unfold tf_fread. keep. Qed.
#[local] Instance keeps_fwrite_loop n src sz k fp : (∀ n l, KeepsLock (src n l)) → KeepsLock (fwrite_loop n src sz k fp).
Proof. revert sz k. induction n; intros; cbn [fwrite_loop]; keep. Qed.
#[local] Instance keeps_tf_fwrite src sz fp : (∀ n l, KeepsLock (src n l)) → KeepsLock (tf_fwrite fuel src sz fp).
Proof. unfold tf_fwrite. keep. Qed.
#[local] Instance keeps_no_copy n l : KeepsLock (no_copy n l).
Proof. unfold no_copy. keep. Qed.
#[local] Instance keeps_out_mem user d n l : KeepsLock (out_mem either_copyout user d n l).
Proof. unfold out_mem. keep. Qed.
#[local] Instance keeps_src_list l n old : KeepsLock (src_list l n old).
Proof. unfold src_list. keep. Qed.
#[local] Instance keeps_src_mem user a n old : KeepsLock (src_mem either_copyin user a n old).
Proof. unfold src_mem. keep. Qed.
#[local] Instance keeps_read_entry e fp : KeepsLock (read_entry fuel e fp).
Proof. unfold read_entry. keep. Qed.
#[local] Instance keeps_write_entry e fp : KeepsLock (write_entry fuel e fp).
Proof. unfold write_entry. keep. Qed.
#[local] Instance keeps_get_free_handle_loop n i : KeepsLock (get_free_handle_loop n i).
Proof. revert i. induction n; intros; cbn [get_free_handle_loop]; keep. Qed.
#[local] Instance keeps_tf_get_free_handle : KeepsLock (tf_get_free_handle).
Proof. unfold tf_get_free_handle. keep. Qed.
#[local] Instance keeps_tf_release_handle fp : KeepsLock (tf_release_handle fp).
Proof. unfold tf_release_handle. keep. Qed.
#[local] Instance keeps_lfn_loop n i e l fp : KeepsLock (lfn_loop fuel n i e l fp).
Proof. revert i e l. induction n; intros; cbn [lfn_loop]; keep. Qed.
#[local] Instance keeps_tf_compare_filename fp name : KeepsLock (tf_compare_filename junk fuel fp name).
Proof. unfold tf_compare_filename. keep. Qed.
#[local] Instance keeps_find_file_loop n dir name : KeepsLock (find_file_loop junk fuel n dir name).
Proof. induction n; intros; cbn [find_file_loop]; keep. Qed.
#[local] Instance keeps_tf_find_file dir name : KeepsLock (tf_find_file junk fuel dir name).
Proof. unfold tf_find_file. keep. Qed.
#[local] Instance keeps_tf_walk name fp : KeepsLock (tf_walk junk fuel name fp).
Proof. unfold tf_walk. keep. Qed.
#[local] Instance keeps_walk_loop n name fp : KeepsLock (walk_loop junk fuel n name fp).
Proof. revert name. induction n; intros; cbn [walk_loop]; keep. Qed.
#[local] Instance keeps_truncate_file fp : KeepsLock (truncate_file fuel fp).
Proof. unfold truncate_file. keep. Qed.
#[local] Instance keeps_tf_fnopen name md n : KeepsLock (tf_fnopen junk fuel name md n).
Proof. unfold tf_fnopen. keep. Qed.
#[local] Instance keeps_tf_parent name : KeepsLock (tf_parent junk fuel name).
Proof. unfold tf_parent. keep. Qed.
#[local] Instance keeps_base_name name : KeepsLock (base_name name).
Proof. unfold base_name. keep. Qed.
#[local] Instance keeps_deref_file fp : KeepsLock (deref_file fp).
Proof. unfold deref_file. keep. Qed.
#[local] Instance keeps_tf_fflush k fp : KeepsLock (tf_fflush junk fuel k fp).
Proof. revert fp. induction k; intros; cbn [tf_fflush]; keep. Qed.
#[local] Instance keeps_tf_fclose fp : KeepsLock (tf_fclose junk fuel fp).
Proof. unfold tf_fclose. keep. Qed.
#[local] Instance keeps_choose_sfn_loop n num dest src : KeepsLock (choose_sfn_loop junk fuel n num dest src).
Proof. revert num dest. induction n; intros; cbn [choose_sfn_loop]; keep. Qed.
#[local] Instance keeps_tf_choose_sfn dest src fp : KeepsLock (tf_choose_sfn junk fuel dest src fp).
Proof. unfold tf_choose_sfn. keep. Qed.
#[local] Instance keeps_place_lfn_loop n q name sfn e fp : KeepsLock (place_lfn_loop fuel n q name sfn e fp).
Proof. revert q e. induction n; intros; cbn [place_lfn_loop]; keep. Qed.
#[local] Instance keeps_tf_place_lfn_chain fp name sfn : KeepsLock (tf_place_lfn_chain junk fuel fp name sfn).
Proof. unfold tf_place_lfn_chain. keep. Qed.
#[local] Instance keeps_to_end_loop n k e fp : KeepsLock (to_end_loop fuel n k e fp).
Proof. revert k e. induction n; intros; cbn [to_end_loop]; keep. Qed.
#[local] Instance keeps_append_entry attr name fp : KeepsLock (append_entry junk fuel attr name fp).
Proof. unfold append_entry. keep. Qed.
#[local] Instance keeps_tf_create name : KeepsLock (tf_create junk fuel name).
Proof. unfold tf_create. keep. Qed.
#[local] Instance keeps_tf_fopen name md : KeepsLock (tf_fopen junk fuel name md).
Proof. unfold tf_fopen. keep. Qed.
#[local] Instance keeps_tf_mkdir name : KeepsLock (tf_mkdir junk fuel name).
Proof. unfold tf_mkdir. keep. Qed.

(** *** The operations *)
Abbreviation open := (open junk fuel).
Abbreviation mkdir := (mkdir junk fuel).
Abbreviation read := (read either_copyout junk fuel).
Abbreviation write := (write either_copyin junk fuel).
Abbreviation ls := (ls either_copyout junk fuel).
Definition locked s : ofat W := OFat (tf_info s) (tf_files s) (disk s) true (world s).

(** While the lock is kept, each of them waits for ever. *)
Lemma kept_lock_blocks s : sleep_lock s = true →
  (∀ path fl, open path fl s = NoFuel) ∧ (∀ path, mkdir path s = NoFuel) ∧
  (∀ path user buf off n, read path user buf off n s = NoFuel) ∧
  (∀ path user buf off n, write path user buf off n s = NoFuel) ∧ (∀ path dst n user, ls path dst n user s = NoFuel).
Proof.
  intros Hl. assert (lock s = NoFuel) as E by (unfold lock; by rewrite Hl).
  assert (∀ A (k : unit → FM A), (lock ≫= k) s = NoFuel) as Hk by (intros; unfold mbind, M_bind; by rewrite E).
  split_and!; intros; apply Hk.
Qed.

(** What is run between [lock] and [unlock] leaves the lock free. *)
Definition Releases {A} (c : FM A) : Prop := ∀ s a s', c s = Done (a, s') → sleep_lock s' = false.
Lemma releases_bind {A B} (c : FM A) (f : A → FM B) : (∀ a, Releases (f a)) → Releases (c ≫= f).
Proof. intros Hf s b s' (a & s1 & _ & E)%M_bind_inv. exact (Hf _ _ _ _ E). Qed.
Lemma releases_unlock {A} (a : A) : Releases (unlock;; mret a).
Proof. by intros s b s' [= _ <-]. Qed.
Lemma releases_panic {A} msg : Releases (panic msg : FM A).
Proof. by intros s a s'. Qed.
Ltac release := repeat first [apply releases_unlock | apply releases_panic | apply releases_bind; intros | case_match].

Lemma open_releases path fl : Releases (open path fl).
Proof. unfold OldFat.open. release. Qed.
Lemma mkdir_releases path : Releases (mkdir path).
Proof. unfold OldFat.mkdir. release. Qed.
Lemma write_releases path user buf off n : Releases (write path user buf off n).
Proof. unfold OldFat.write. release. Qed.
Lemma ls_loop_releases k e c readn n user fp : Releases (ls_loop either_copyout junk fuel k e c readn n user fp).
Proof. revert e c readn. induction k; intros; cbn [ls_loop]; [by intros ? ? ?|]. release; auto. Qed.
Lemma ls_releases path dst n user : Releases (ls path dst n user).
Proof. unfold OldFat.ls. release. apply ls_loop_releases. Qed.

(** [read] returns 0 for an offset at the end of the file or behind it, and does
    so with the lock taken: no operation of the file system completes after it. *)
Theorem read_past_end_blocks path user buf off n s fp f s1 : sleep_lock s = false →
  tf_fopen junk fuel path m_r (locked s) = Done (Some fp, s1) → tf_files s1 !! fp = Some f → size f ≤ u32 off →
  read path user buf off n s = Done (0, s1) ∧
  (∀ p fl, open p fl s1 = NoFuel) ∧ (∀ p, mkdir p s1 = NoFuel) ∧ (∀ p us b o k, read p us b o k s1 = NoFuel) ∧
  (∀ p us b o k, write p us b o k s1 = NoFuel) ∧ (∀ p d k us, ls p d k us s1 = NoFuel).
Proof.
  intros Hfree E Hf Hsize. split.
  - unfold OldFat.read. assert (lock s = Done (tt, locked s)) as El by (unfold lock; by rewrite Hfree).
    step El. step E. assert (file fp s1 = Done (f, s1)) as Ef by (unfold file; by rewrite Hf). step Ef.
    by rewrite (proj2 (Z.leb_le _ _) Hsize).
  - apply kept_lock_blocks. exact (keeps_tf_fopen path m_r _ _ _ E).
Qed.
(** In every other case [read] gives the lock back. *)
Theorem read_releases path user buf off n s r s' : read path user buf off n s = Done (r, s') →
  sleep_lock s' = false ∨ ∃ fp f, r = 0 ∧ tf_fopen junk fuel path m_r (locked s) = Done (Some fp, s') ∧
    tf_files s' !! fp = Some f ∧ size f ≤ u32 off.
Proof.
  unfold OldFat.read. intros (? & s0 & E0 & E)%M_bind_inv.
  assert (s0 = locked s) as -> by (unfold lock in E0; by case_match; simplify_eq).
  apply M_bind_inv in E as ([fp|] & s1 & E1 & E); [|left; exact (releases_unlock _ _ _ _ E)].
  apply M_bind_inv in E as (f & s2 & E2 & E). unfold file in E2.
  destruct (tf_files s1 !! fp) as [f'|] eqn:Hf; simplify_eq.
  destruct (Z.leb_spec (size f) (u32 off)) as [Hle|_].
  - injection E as <- <-. right. by exists fp, f.
  - left. revert E. match goal with |- ?c _ = _ → _ => assert (Releases c) as Hr by release end. apply Hr.
Qed.
End locking.
