(* ===== verification/Boot.v ===== *)
(** * The start of the first task, and the timer

    [forkret] of os/TaskScheduler.cpp starts the file layers when it runs for the
    first time; [init] and [setTimeout] of os/Timer.cpp ask for the next timer
    interrupt. *)
From S2P Require Import Prelude Mem KAlloc Vm Pipe Fat32 Locks Sched Vfs OldVfs.

(** ** [forkret] *)
Section forkret.
Context {F : Type} `{FsLayer F, OldWorld F} (fuel : nat) (a_name : Z) (ftab : nat → Z).
(** The file systems that [VfsManager::Init] creates, and the literals "/" and
    "dev". *)
Context (rootfs devfs l_slash l_dev : Z).
Abbreviation K := (M (ks (vst F))).

(** [first] says whether no task has run yet; [usertrapret] follows. *)
Definition forkret (first : bool) (i : nat) : K unit :=
  unlock (LTask i);;
  if first then
    in_world (Init l_dev rootfs devfs);;
    p ← myTask;
    i ← deref p;
    t ← tsk i;
    ip ← in_world (namei fuel (cwd t) a_name 0 l_slash);
    upd_task i (set_cwd ip);;
    OldVfs.init ftab;;
    mret tt
  else mret tt.
End forkret.

(** ** The timer *)
Definition interval (k210 : bool) : Z := if k210 then 390000000 / 200 else 1000000.

(** [int t = r_time() + interval; sbi_set_timer(t);]: the time in the argument of
    the SBI call. *)
Definition setTimeout (k210 : bool) (now : Z) : Z := u64 (i32 (u64 (now + interval k210))).

Definition timer_init {W} (k210 : bool) (now : Z) : M (ks W) Z :=
  modify (λ s, set_locks (<[LTimer := SpinLock.init 0]> (locks s)) (set_ticks 0 s));;
  mret (setTimeout k210 now).

(** The next interrupt comes after the interval while the time fits an [int];
    from then on, in every second span of 2^31 ticks, the time asked for lies
    beyond 2^63: there will be no further interrupt. *)
Lemma setTimeout_deadline k210 now :
  0 ≤ now → now + interval k210 < 2 ^ 63 →
  (now + interval k210 < 2 ^ 31 → setTimeout k210 now = now + interval k210) ∧
  (2 ^ 31 ≤ (now + interval k210) mod 2 ^ 32 → 2 ^ 63 ≤ setTimeout k210 now).
Proof.
  intros Hn Hb. unfold setTimeout.
  assert (0 < interval k210) as Hi by (destruct k210; vm_compute; done).
  rewrite (u64_small (now + _)) by lia. split; intros Hs.
  - rewrite i32_small by lia. apply u64_small. lia.
  - unfold i32, u64. set (x := now + interval k210) in *. dlia.
Qed.
Example first_deadline_lost : setTimeout false (2 ^ 31 - 1000000) = 2 ^ 64 - 2 ^ 31.
Proof. reflexivity. Qed.
