(* ===== verification/Console.v ===== *)
(** * The console: kernel/device/Console.cpp

    Input is a ring of [INPUT_BUF] bytes with two counters; [console_intr] puts
    in what the UART received and echoes it, [read] takes it out up to the end
    of a line.  [sout] is what went to the SBI console, byte by byte.  What
    [read] does before it sleeps, and each interrupt, is one step; a sleeping
    [read] is the continuation [CSlept] it goes on with. *)
From S2P Require Import Prelude.

Definition INPUT_BUF : Z := 128.
Definition BACKSPACE : Z := 0x100.
Definition CTRL (x : Z) : Z := x - 64.

Record console (W : Type) := Con {
  cbuf : list Z;
  read_index : Z;
  write_index : Z;
  sout : list Z;
  woken : bool;
  cw : W;
}.
Arguments Con {W}. Arguments cbuf {W}. Arguments read_index {W}. Arguments write_index {W}.
Arguments sout {W}. Arguments woken {W}. Arguments cw {W}.

(** The end of a step of [read]: its result, or where it sleeps. *)
Inductive cres := CRet (r : Z) | CSlept (dst n : Z).

Section console.
Context {W : Type}.
(** [either_copyout(user, dst, &c, 1)], [either_copyin(user, &c, src, 1)] with
    the byte it fetched, the debug output of three keys, and the platform. *)
Context (copyout1 : bool → Z → Z → M W Z) (copyin1 : bool → Z → M W (Z * Z)).
Context (debug : Z → M (console W) unit) (k210 : bool).
Abbreviation CM := (M (console W)).

Definition in_w {A : Type} (c : M W A) : CM A := λ s,
  match c (cw s) with
  | Done (a, w) => Done (a, Con (cbuf s) (read_index s) (write_index s) (sout s) (woken s) w)
  | Panic e => Panic e
  | NoFuel => NoFuel
  end.
Definition sbi_console_putchar (c : Z) : CM unit :=
  modify (λ s, Con (cbuf s) (read_index s) (write_index s) (sout s ++ [u8 c]) (woken s) (cw s)).
Definition set_indices (r w : Z) : CM unit :=
  modify (λ s, Con (cbuf s) r w (sout s) (woken s) (cw s)).
Definition wakeup : CM unit :=
  modify (λ s, Con (cbuf s) (read_index s) (write_index s) (sout s) true (cw s)).

(** [buf[i % INPUT_BUF]]: [%] truncates, a negative index is no element. *)
Definition slot (i : Z) : option nat :=
  let k := Z.rem i INPUT_BUF in if k <? 0 then None else Some (Z.to_nat k).
Definition get_slot (i : Z) : CM Z := λ s,
  match slot i with Some k => Done (nth k (cbuf s) 0, s) | None => Panic "console index" end.
Definition put_slot (i c : Z) : CM unit := λ s,
  match slot i with
  | Some k => Done (tt, Con (<[k := c]> (cbuf s)) (read_index s) (write_index s) (sout s) (woken s) (cw s))
  | None => Panic "console index"
  end.

Definition init : CM unit := set_indices 0 0.

Definition putc (c : Z) : CM unit :=
  if c =? BACKSPACE then
    sbi_console_putchar 8;; sbi_console_putchar 32;; sbi_console_putchar 8
  else sbi_console_putchar c.

(** The loop of [read]: [m] bytes are still wanted of the [expect] asked for. *)
Fixpoint read_loop (user : bool) (dst expect : Z) (m : nat) : CM cres :=
  match m with
  | O => mret (CRet expect)
  | S m' =>
      s ← get;
      if read_index s =? write_index s then mret (CSlept dst (Z.of_nat m))
      else
        c ← get_slot (read_index s);
        set_indices (i32 (read_index s + 1)) (write_index s);;
        r ← in_w (copyout1 user dst c);
        if r <? 0 then mret (CRet (expect - Z.of_nat m))
        else if c =? 10 then mret (CRet (expect - Z.of_nat m'))
        else read_loop user (u64 (dst + 1)) expect m'
  end.
Definition read (dst : Z) (user : bool) (n : Z) : CM cres :=
  if 0 <? n then read_loop user dst n (Z.to_nat n) else mret (CRet 0).
(** Going on after a wakeup; [expect] is what the call asked for. *)
Definition read_resume (dst : Z) (user : bool) (n expect : Z) : CM cres := read_loop user dst expect (Z.to_nat n).

Fixpoint write_loop (user : bool) (src i : Z) (m : nat) : CM Z :=
  match m with
  | O => mret i
  | S m =>
      '(r, c) ← in_w (copyin1 user (u64 (src + i)));
      if r =? -1 then mret i
      else sbi_console_putchar c;; write_loop user src (i + 1) m
  end.
Definition write (src : Z) (user : bool) (n : Z) : CM Z := write_loop user src 0 (Z.to_nat n).

(** [console_intr]; the key ['P'] of CTRL does nothing. *)
Definition console_intr (c : Z) : CM unit :=
  if (c =? 8) || (c =? 127) then
    s ← get;
    if negb (read_index s =? write_index s) then
      set_indices (read_index s) (i32 (write_index s - 1));;
      putc BACKSPACE;;
      putc 7
    else mret tt
  else if c =? CTRL 80 then mret tt
  else if (c =? 126) || (c =? 36) || (c =? 35) then debug c
  else if k210 && (c =? 13) then mret tt
  else
    let c := if c =? 13 then 10 else c in
    putc c;;
    s ← get;
    put_slot (write_index s) c;;
    set_indices (read_index s) (i32 (write_index s + 1));;
    if c =? 10 then wakeup else mret tt.

(** ** Abstract specification: the queue of unread input *)

(** What a key does to the unread input, what is echoed, whether a reader is
    woken. *)
Definition key (q : list Z) (c : Z) : list Z * list Z * bool :=
  if (c =? 8) || (c =? 127) then
    match q with [] => ([], [], false) | _ => (removelast q, [8; 32; 8; 7], false) end
  else if (c =? CTRL 80) || (k210 && (c =? 13)) then (q, [], false)
  else let c := if c =? 13 then 10 else c in (q ++ [c], [c], c =? 10).

(** Taking at most [m] bytes, a newline at the end: the copies are made one by
    one, and a byte whose copy fails is gone too. *)
Fixpoint take_line (user : bool) (dst expect : Z) (m : nat) (q : list Z) : M W (cres * list Z) :=
  match m with
  | O => mret (CRet expect, q)
  | S m' =>
      match q with
      | [] => mret (CSlept dst (Z.of_nat m), [])
      | c :: q =>
          r ← copyout1 user dst c;
          if r <? 0 then mret (CRet (expect - Z.of_nat m), q)
          else if c =? 10 then mret (CRet (expect - Z.of_nat m'), q)
          else take_line user (u64 (dst + 1)) expect m' q
      end
  end.

(** The ring holds the unread input [q]; the counters have not wrapped. *)
Record unread (s : console W) (q : list Z) : Prop := {
  un_len : length (cbuf s) = Z.to_nat INPUT_BUF;
  un_fits : Z.of_nat (length q) ≤ INPUT_BUF;
  un_idx : 0 ≤ read_index s ∧ write_index s = read_index s + Z.of_nat (length q) ∧ write_index s < 2 ^ 31 - 1;
  un_at : ∀ i c, q !! i = Some c → cbuf s !! Z.to_nat ((read_index s + Z.of_nat i) mod INPUT_BUF) = Some c;
}.

Lemma slot_ok i : 0 ≤ i → slot i = Some (Z.to_nat (i mod INPUT_BUF)).
Proof.
  intros Hi. unfold slot, INPUT_BUF. rewrite Z.rem_mod_nonneg by lia.
  pose proof (Z.mod_pos_bound i 128). by rewrite (proj2 (Z.ltb_ge _ _)) by lia.
Qed.
(** Positions less than a ring apart are different slots. *)
Lemma slot_inj r i j : 0 ≤ i < INPUT_BUF → 0 ≤ j < INPUT_BUF → 0 ≤ r →
  Z.to_nat ((r + i) mod INPUT_BUF) = Z.to_nat ((r + j) mod INPUT_BUF) → i = j.
Proof.
  unfold INPUT_BUF. intros Hi Hj Hr E. apply Z2Nat.inj in E; try (apply Z.mod_pos_bound; lia). dlia.
Qed.

Lemma unread_pop s c q :
  unread s (c :: q) → unread (Con (cbuf s) (i32 (read_index s + 1)) (write_index s) (sout s) (woken s) (cw s)) q.
Proof.
  intros [Hl Hf (Hr & Hw & Hb) Ha]. cbn [length] in *. split; cbn; [done|lia| |].
  - rewrite i32_small by lia. lia.
  - intros i x Hx. rewrite i32_small by lia. specialize (Ha (Datatypes.S i) x Hx).
    by replace (read_index s + 1 + Z.of_nat i) with (read_index s + Z.of_nat (Datatypes.S i)) by lia.
Qed.

Lemma read_loop_ok user expect m : ∀ dst s q,
  unread s q →
  match take_line user dst expect m q (cw s) with
  | Done ((r, q'), w) => ∃ s', read_loop user dst expect m s = Done (r, s') ∧ unread s' q' ∧
      cw s' = w ∧ sout s' = sout s ∧ woken s' = woken s
  | Panic e => read_loop user dst expect m s = Panic e
  | NoFuel => read_loop user dst expect m s = NoFuel
  end.
Proof.
  induction m as [|m IH]; intros dst s q Hu; [by exists s|].
  pose proof Hu as [Hl Hf (Hr & Hw & Hb) Ha]. destruct q as [|c q]; cbn [length] in Hw.
  { cbn [take_line read_loop]. erewrite M_bind_Done by reflexivity.
    rewrite (proj2 (Z.eqb_eq (read_index s) (write_index s))) by lia. by exists s. }
  pose proof (unread_pop s c q Hu) as Hu'. set (s1 := Con _ _ _ _ _ _) in *.
  assert (read_loop user dst expect (Datatypes.S m) s =
    (r ← in_w (copyout1 user dst c);
     if r <? 0 then mret (CRet (expect - Z.of_nat (Datatypes.S m)))
     else if c =? 10 then mret (CRet (expect - Z.of_nat m))
     else read_loop user (u64 (dst + 1)) expect m) s1) as ->.
  { cbn [read_loop]. erewrite M_bind_Done by reflexivity.
    rewrite (proj2 (Z.eqb_neq (read_index s) (write_index s))) by lia.
    assert (get_slot (read_index s) s = Done (c, s)) as Eg.
    { unfold get_slot. rewrite slot_ok by lia. specialize (Ha O c eq_refl). cbn in Ha. rewrite Z.add_0_r in Ha.
      by rewrite (nth_lookup_Some _ _ _ _ Ha). }
    rewrite (M_bind_Done _ _ _ _ _ Eg). by erewrite M_bind_Done by reflexivity. }
  cbn [take_line]. unfold mbind, M_bind, in_w. cbn [cw s1].
  destruct (copyout1 user dst c (cw s)) as [[r w]|e|]; [|done..].
  set (s2 := Con _ _ _ _ _ _). assert (unread s2 q) as Hu2 by (by destruct Hu'; split).
  destruct (r <? 0); [by exists s2|]. destruct (c =? 10); [by exists s2|].
  apply (IH (u64 (dst + 1)) s2 q Hu2).
Qed.

Lemma unread_push s c q :
  unread s q → Z.of_nat (length q) < INPUT_BUF → write_index s + 1 < 2 ^ 31 - 1 →
  unread (Con (<[Z.to_nat (write_index s mod INPUT_BUF) := c]> (cbuf s)) (read_index s)
    (i32 (write_index s + 1)) (sout s) (woken s) (cw s)) (q ++ [c]).
Proof.
  intros [Hl Hf (Hr & Hw & Hb) Ha] Hlen Hb'. unfold INPUT_BUF in *. split; cbn.
  - by rewrite length_insert.
  - rewrite length_app. cbn. unfold INPUT_BUF. lia.
  - rewrite i32_small, length_app by lia. cbn. lia.
  - intros i x Hx. apply lookup_app_Some in Hx as [Hx|[Hi Hx]].
    + pose proof (lookup_lt_Some _ _ _ Hx). rewrite list_lookup_insert_ne; [by apply Ha|].
      rewrite Hw. intros E. apply slot_inj in E; unfold INPUT_BUF in *; lia.
    + apply list_lookup_singleton_Some in Hx as [Hi0 <-].
      replace (read_index s + Z.of_nat i) with (write_index s) by lia.
      apply list_lookup_insert_eq. rewrite Hl. unfold INPUT_BUF.
      pose proof (Z.mod_pos_bound (write_index s) 128). lia.
Qed.

Lemma unread_back s q : unread s q → q ≠ [] →
  unread (Con (cbuf s) (read_index s) (i32 (write_index s - 1)) (sout s) (woken s) (cw s)) (removelast q).
Proof.
  intros [Hl Hf (Hr & Hw & Hb) Ha] Hq.
  destruct (exists_last Hq) as (q1 & c & ->). rewrite removelast_last. rewrite length_app in *. cbn in *.
  split; cbn; [done|lia| |].
  - rewrite i32_small by lia. lia.
  - intros i x Hx. apply Ha. by apply lookup_app_l_Some.
Qed.

(** A queue of one key and the state the console is left in. *)
Lemma console_intr_ok s q c :
  unread s q → (c =? 126) || (c =? 36) || (c =? 35) = false → 0 ≤ c < 256 →
  write_index s + 1 < 2 ^ 31 - 1 →
  let '(q', echo, wake) := key q c in
  Z.of_nat (length q') ≤ INPUT_BUF →
  ∃ s', console_intr c s = Done (tt, s') ∧ unread s' q' ∧ sout s' = sout s ++ echo ∧
    woken s' = woken s || wake ∧ cw s' = cw s.
Proof.
  intros Hu Hd Hc Hb. pose proof Hu as [Hl Hf (Hr & Hw & _) _]. unfold key, console_intr.
  destruct ((c =? 8) || (c =? 127)) eqn:Eb.
  - erewrite M_bind_Done by reflexivity. destruct q as [|x q]; cbn [length] in Hw.
    + rewrite (proj2 (Z.eqb_eq (read_index s) _)) by lia. intros _. exists s.
      rewrite app_nil_r, orb_false_r. done.
    + rewrite (proj2 (Z.eqb_neq (read_index s) _)) by lia. intros _.
      pose proof (unread_back s (x :: q) Hu ltac:(done)) as Hu'.
      eexists. split; [reflexivity|]. cbn [sout woken cw]. rewrite orb_false_r, <- !app_assoc.
      split; [|done]. by destruct Hu'; split.
  - destruct (c =? CTRL 80); cbn [orb].
    { intros _. exists s. rewrite app_nil_r, orb_false_r. done. }
    rewrite Hd. destruct (k210 && (c =? 13)); cbn [orb].
    { intros _. exists s. rewrite app_nil_r, orb_false_r. done. }
    set (d := if c =? 13 then 10 else c). assert (0 ≤ d < 256) as Hdd by (unfold d; destruct (c =? 13); lia).
    rewrite length_app. cbn [length]. intros Hlen.
    pose proof (unread_push s d q Hu ltac:(lia) Hb) as Hu'.
    assert (putc d s = Done (tt, Con (cbuf s) (read_index s) (write_index s) (sout s ++ [d]) (woken s) (cw s))) as Ep.
    { unfold putc, BACKSPACE. rewrite (proj2 (Z.eqb_neq d _)) by lia. unfold sbi_console_putchar, modify.
      by rewrite u8_small by lia. }
    rewrite (M_bind_Done _ _ _ _ _ Ep). erewrite M_bind_Done by reflexivity. cbn [read_index write_index].
    erewrite M_bind_Done by (unfold put_slot; rewrite slot_ok by lia; reflexivity).
    erewrite M_bind_Done by reflexivity. cbn [cbuf read_index write_index sout woken cw].
    destruct (d =? 10); eexists; (split; [reflexivity|]); cbn [sout woken cw];
      rewrite ?orb_true_r, ?orb_false_r; (split; [by destruct Hu'; split|done]).
Qed.

End console.

Module ConsoleWitness.
(** Copies always succeed; the world is the list of the bytes copied out. *)
Definition put1 : bool → Z → Z → M (list Z) Z := λ _ _ c w, Done (0, w ++ [c]).
Definition get1 : bool → Z → M (list Z) (Z * Z) := λ _ src, mret (0, src).
Definition con0 : console (list Z) := Con (replicate 128 0) 0 0 [] false [].
Definition keys (cs : list Z) : M (console (list Z)) unit :=
  foldr (λ c k, console_intr (λ _, mret tt) false c;; k) (mret tt) cs.
Definition con1 : console (list Z) := match keys [104; 120; 8; 105; 13; 106] con0 with Done (_, s) => s | _ => con0 end.

Lemma con1_unread : unread con1 [104; 105; 10; 106].
Proof.
  split; [reflexivity|cbn; unfold INPUT_BUF; lia|vm_compute; intuition congruence|].
  intros [|[|[|[|i]]]] c Hc; cbn in Hc; simplify_eq; reflexivity.
Qed.


(** The ring has no bound: the 129th unread byte replaces the first. *)
Lemma full_ring_overwrites :
  match keys (65 :: replicate 127 66 ++ [67]) con0 with
  | Done (_, s) => read put1 1000 true 1 s = Done (CRet 1, Con (cbuf s) 1 129 (sout s) false [67])
  | _ => False
  end.
Proof. vm_compute. reflexivity. Qed.
End ConsoleWitness.
