(* ===== verification/Bits.v ===== *)
(** * Bit fields of device registers

    Reading and writing [n] bits of a word from bit [lsb] on, as the compiler
    does for a C bit field. *)
From S2P Require Import Prelude.

Definition get_bits (w lsb n : Z) : Z := Z.land (Z.shiftr w lsb) (Z.ones n).
Definition set_bits (w lsb n v : Z) : Z :=
  Z.lor (Z.ldiff w (Z.shiftl (Z.ones n) lsb)) (Z.shiftl (v mod 2 ^ n) lsb).

Lemma get_bits_spec w lsb n i :
  0 ≤ lsb → 0 ≤ n → Z.testbit (get_bits w lsb n) i = (0 <=? i) && (i <? n) && Z.testbit w (i + lsb).
Proof.
  intros Hl Hn. unfold get_bits. rewrite Z.land_spec. destruct (Z.leb_spec 0 i); cbn.
  - rewrite Z.shiftr_spec, Z.testbit_ones_nonneg by lia. destruct (i <? n); [by rewrite andb_true_r|by rewrite andb_false_r].
  - by rewrite !Z.testbit_neg_r by lia.
Qed.

Lemma set_bits_spec w lsb n v i :
  0 ≤ lsb → 0 ≤ n → 0 ≤ i →
  Z.testbit (set_bits w lsb n v) i = if (lsb <=? i) && (i <? lsb + n) then Z.testbit v (i - lsb) else Z.testbit w i.
Proof.
  intros Hl Hn Hi. unfold set_bits. rewrite Z.lor_spec, Z.ldiff_spec, !Z.shiftl_spec by lia.
  destruct (Z.leb_spec lsb i); cbn.
  - rewrite Z.testbit_ones_nonneg by lia. destruct (Z.ltb_spec i (lsb + n)).
    + rewrite (proj2 (Z.ltb_lt (i - lsb) n)) by lia. cbn. rewrite andb_false_r. cbn. apply Z.mod_pow2_bits_low. lia.
    + rewrite (proj2 (Z.ltb_ge (i - lsb) n)) by lia. cbn.
      rewrite Z.mod_pow2_bits_high by lia. by rewrite andb_true_r, orb_false_r.
  - rewrite (Z.testbit_neg_r (Z.ones n)), (Z.testbit_neg_r (v mod 2 ^ n)) by lia. cbn. by rewrite andb_true_r, orb_false_r.
Qed.

Lemma get_bits_range w lsb n : 0 ≤ lsb → 0 ≤ n → 0 ≤ get_bits w lsb n < 2 ^ n.
Proof.
  intros Hl Hn. unfold get_bits. rewrite Z.land_ones by done. apply Z.mod_pos_bound. lia.
Qed.

Lemma get_set_same w lsb n v : 0 ≤ lsb → 0 ≤ n → get_bits (set_bits w lsb n v) lsb n = v mod 2 ^ n.
Proof.
  intros Hl Hn. apply Z.bits_inj'. intros i Hi. rewrite get_bits_spec by done.
  destruct (Z.leb_spec 0 i); [|lia]. destruct (Z.ltb_spec i n); cbn.
  - rewrite set_bits_spec by lia. rewrite (proj2 (Z.leb_le lsb (i + lsb))), (proj2 (Z.ltb_lt (i + lsb) (lsb + n))) by lia.
    cbn. rewrite Z.mod_pow2_bits_low by lia. f_equal. lia.
  - by rewrite Z.mod_pow2_bits_high by lia.
Qed.
Lemma get_set_small w lsb n v : 0 ≤ lsb → 0 ≤ n → 0 ≤ v < 2 ^ n → get_bits (set_bits w lsb n v) lsb n = v.
Proof. intros. rewrite get_set_same by done. by apply Z.mod_small. Qed.

Lemma get_set_other w lsb n v lsb' n' :
  0 ≤ lsb → 0 ≤ n → 0 ≤ lsb' → 0 ≤ n' → lsb + n ≤ lsb' ∨ lsb' + n' ≤ lsb →
  get_bits (set_bits w lsb n v) lsb' n' = get_bits w lsb' n'.
Proof.
  intros Hl Hn Hl' Hn' Hd. apply Z.bits_inj'. intros i Hi. rewrite !get_bits_spec by done.
  destruct (Z.leb_spec 0 i); [|lia]. destruct (Z.ltb_spec i n'); [|done]. cbn. rewrite set_bits_spec by lia.
  destruct (Z.leb_spec lsb (i + lsb')), (Z.ltb_spec (i + lsb') (lsb + n)); cbn; try done. lia.
Qed.

Lemma set_set_same w lsb n v v' : 0 ≤ lsb → 0 ≤ n → set_bits (set_bits w lsb n v) lsb n v' = set_bits w lsb n v'.
Proof.
  intros Hl Hn. apply Z.bits_inj'. intros i Hi. rewrite !set_bits_spec by done. by destruct (_ && _).
Qed.
Lemma set_get_id w lsb n : 0 ≤ lsb → 0 ≤ n → set_bits w lsb n (get_bits w lsb n) = w.
Proof.
  intros Hl Hn. apply Z.bits_inj'. intros i Hi. rewrite set_bits_spec by done.
  destruct (Z.leb_spec lsb i), (Z.ltb_spec i (lsb + n)); cbn; try done. rewrite get_bits_spec by done.
  rewrite (proj2 (Z.leb_le 0 (i - lsb))), (proj2 (Z.ltb_lt (i - lsb) n)) by lia. cbn. f_equal. lia.
Qed.
