(* ===== verification/Sysctl.v ===== *)
(** * The system controller of the K210: kernel/driver/sysctl.c

    Clock gates, resets, dividers and phase-locked loops are bit fields of the
    registers of one device; the state is the value of every register.  The
    delays ([usleep]) are left out. *)
From S2P Require Import Prelude Bits.

(** ** include/driver/sysctl.hpp *)
Inductive sysctl_pll_t :=
  | SYSCTL_PLL0 | SYSCTL_PLL1 | SYSCTL_PLL2 | SYSCTL_PLL_MAX.
Inductive sysctl_clock_source_t :=
  | SYSCTL_SOURCE_IN0 | SYSCTL_SOURCE_PLL0 | SYSCTL_SOURCE_PLL1 | SYSCTL_SOURCE_PLL2
  | SYSCTL_SOURCE_ACLK | SYSCTL_SOURCE_MAX.
Inductive sysctl_dma_channel_t :=
  | SYSCTL_DMA_CHANNEL_0 | SYSCTL_DMA_CHANNEL_1 | SYSCTL_DMA_CHANNEL_2 | SYSCTL_DMA_CHANNEL_3
  | SYSCTL_DMA_CHANNEL_4 | SYSCTL_DMA_CHANNEL_5 | SYSCTL_DMA_CHANNEL_MAX.
Inductive sysctl_clock_t :=
  | SYSCTL_CLOCK_PLL0 | SYSCTL_CLOCK_PLL1 | SYSCTL_CLOCK_PLL2 | SYSCTL_CLOCK_CPU
  | SYSCTL_CLOCK_SRAM0 | SYSCTL_CLOCK_SRAM1 | SYSCTL_CLOCK_APB0 | SYSCTL_CLOCK_APB1
  | SYSCTL_CLOCK_APB2 | SYSCTL_CLOCK_ROM | SYSCTL_CLOCK_DMA | SYSCTL_CLOCK_AI | SYSCTL_CLOCK_DVP
  | SYSCTL_CLOCK_FFT | SYSCTL_CLOCK_GPIO | SYSCTL_CLOCK_SPI0 | SYSCTL_CLOCK_SPI1
  | SYSCTL_CLOCK_SPI2 | SYSCTL_CLOCK_SPI3 | SYSCTL_CLOCK_I2S0 | SYSCTL_CLOCK_I2S1
  | SYSCTL_CLOCK_I2S2 | SYSCTL_CLOCK_I2C0 | SYSCTL_CLOCK_I2C1 | SYSCTL_CLOCK_I2C2
  | SYSCTL_CLOCK_UART1 | SYSCTL_CLOCK_UART2 | SYSCTL_CLOCK_UART3 | SYSCTL_CLOCK_AES
  | SYSCTL_CLOCK_FPIOA | SYSCTL_CLOCK_TIMER0 | SYSCTL_CLOCK_TIMER1 | SYSCTL_CLOCK_TIMER2
  | SYSCTL_CLOCK_WDT0 | SYSCTL_CLOCK_WDT1 | SYSCTL_CLOCK_SHA | SYSCTL_CLOCK_OTP | SYSCTL_CLOCK_RTC
  | SYSCTL_CLOCK_ACLK | SYSCTL_CLOCK_HCLK | SYSCTL_CLOCK_IN0 | SYSCTL_CLOCK_MAX.
Inductive sysctl_clock_select_t :=
  | SYSCTL_CLOCK_SELECT_PLL0_BYPASS | SYSCTL_CLOCK_SELECT_PLL1_BYPASS
  | SYSCTL_CLOCK_SELECT_PLL2_BYPASS | SYSCTL_CLOCK_SELECT_PLL2 | SYSCTL_CLOCK_SELECT_ACLK
  | SYSCTL_CLOCK_SELECT_SPI3 | SYSCTL_CLOCK_SELECT_TIMER0 | SYSCTL_CLOCK_SELECT_TIMER1
  | SYSCTL_CLOCK_SELECT_TIMER2 | SYSCTL_CLOCK_SELECT_SPI3_SAMPLE | SYSCTL_CLOCK_SELECT_MAX.
Inductive sysctl_threshold_t :=
  | SYSCTL_THRESHOLD_ACLK | SYSCTL_THRESHOLD_APB0 | SYSCTL_THRESHOLD_APB1 | SYSCTL_THRESHOLD_APB2
  | SYSCTL_THRESHOLD_SRAM0 | SYSCTL_THRESHOLD_SRAM1 | SYSCTL_THRESHOLD_AI | SYSCTL_THRESHOLD_DVP
  | SYSCTL_THRESHOLD_ROM | SYSCTL_THRESHOLD_SPI0 | SYSCTL_THRESHOLD_SPI1 | SYSCTL_THRESHOLD_SPI2
  | SYSCTL_THRESHOLD_SPI3 | SYSCTL_THRESHOLD_TIMER0 | SYSCTL_THRESHOLD_TIMER1
  | SYSCTL_THRESHOLD_TIMER2 | SYSCTL_THRESHOLD_I2S0 | SYSCTL_THRESHOLD_I2S1 | SYSCTL_THRESHOLD_I2S2
  | SYSCTL_THRESHOLD_I2S0_M | SYSCTL_THRESHOLD_I2S1_M | SYSCTL_THRESHOLD_I2S2_M
  | SYSCTL_THRESHOLD_I2C0 | SYSCTL_THRESHOLD_I2C1 | SYSCTL_THRESHOLD_I2C2 | SYSCTL_THRESHOLD_WDT0
  | SYSCTL_THRESHOLD_WDT1 | SYSCTL_THRESHOLD_MAX.
Inductive sysctl_reset_t :=
  | SYSCTL_RESET_SOC | SYSCTL_RESET_ROM | SYSCTL_RESET_DMA | SYSCTL_RESET_AI | SYSCTL_RESET_DVP
  | SYSCTL_RESET_FFT | SYSCTL_RESET_GPIO | SYSCTL_RESET_SPI0 | SYSCTL_RESET_SPI1
  | SYSCTL_RESET_SPI2 | SYSCTL_RESET_SPI3 | SYSCTL_RESET_I2S0 | SYSCTL_RESET_I2S1
  | SYSCTL_RESET_I2S2 | SYSCTL_RESET_I2C0 | SYSCTL_RESET_I2C1 | SYSCTL_RESET_I2C2
  | SYSCTL_RESET_UART1 | SYSCTL_RESET_UART2 | SYSCTL_RESET_UART3 | SYSCTL_RESET_AES
  | SYSCTL_RESET_FPIOA | SYSCTL_RESET_TIMER0 | SYSCTL_RESET_TIMER1 | SYSCTL_RESET_TIMER2
  | SYSCTL_RESET_WDT0 | SYSCTL_RESET_WDT1 | SYSCTL_RESET_SHA | SYSCTL_RESET_RTC | SYSCTL_RESET_MAX.
(** The registers of [sysctl_t]. *)
Inductive sysctl_reg :=
  | R_git_id | R_clk_freq | R_pll0 | R_pll1 | R_pll2 | R_pll_lock | R_rom_error | R_clk_sel0
  | R_clk_sel1 | R_clk_en_cent | R_clk_en_peri | R_soft_reset | R_peri_reset | R_clk_th0
  | R_clk_th1 | R_clk_th2 | R_clk_th3 | R_clk_th4 | R_clk_th5 | R_clk_th6 | R_misc | R_peri
  | R_spi_sleep | R_reset_status | R_dma_sel0 | R_dma_sel1 | R_power_sel.
(** The bit fields the code uses: register, first bit, width. *)
Record field := Fld { f_reg : sysctl_reg; f_lsb : Z; f_width : Z }.
Definition git_id : field := Fld R_git_id 0 32.
Definition clk_freq : field := Fld R_clk_freq 0 32.
Definition clkr0 : field := Fld R_pll0 0 4.
Definition clkf0 : field := Fld R_pll0 4 6.
Definition clkod0 : field := Fld R_pll0 10 4.
Definition pll_bypass0 : field := Fld R_pll0 23 1.
Definition pll_out_en0 : field := Fld R_pll0 25 1.
Definition clkr1 : field := Fld R_pll1 0 4.
Definition clkf1 : field := Fld R_pll1 4 6.
Definition clkod1 : field := Fld R_pll1 10 4.
Definition pll_bypass1 : field := Fld R_pll1 23 1.
Definition pll_out_en1 : field := Fld R_pll1 25 1.
Definition clkr2 : field := Fld R_pll2 0 4.
Definition clkf2 : field := Fld R_pll2 4 6.
Definition clkod2 : field := Fld R_pll2 10 4.
Definition pll_bypass2 : field := Fld R_pll2 23 1.
Definition pll_out_en2 : field := Fld R_pll2 25 1.
Definition pll_ckin_sel2 : field := Fld R_pll2 26 2.
Definition aclk_sel : field := Fld R_clk_sel0 0 1.
Definition aclk_divider_sel : field := Fld R_clk_sel0 1 2.
Definition apb0_clk_sel : field := Fld R_clk_sel0 3 3.
Definition apb1_clk_sel : field := Fld R_clk_sel0 6 3.
Definition apb2_clk_sel : field := Fld R_clk_sel0 9 3.
Definition spi3_clk_sel : field := Fld R_clk_sel0 12 1.
Definition timer0_clk_sel : field := Fld R_clk_sel0 13 1.
Definition timer1_clk_sel : field := Fld R_clk_sel0 14 1.
Definition timer2_clk_sel : field := Fld R_clk_sel0 15 1.
Definition spi3_sample_clk_sel : field := Fld R_clk_sel1 0 1.
Definition cpu_clk_en : field := Fld R_clk_en_cent 0 1.
Definition sram0_clk_en : field := Fld R_clk_en_cent 1 1.
Definition sram1_clk_en : field := Fld R_clk_en_cent 2 1.
Definition apb0_clk_en : field := Fld R_clk_en_cent 3 1.
Definition apb1_clk_en : field := Fld R_clk_en_cent 4 1.
Definition apb2_clk_en : field := Fld R_clk_en_cent 5 1.
Definition rom_clk_en : field := Fld R_clk_en_peri 0 1.
Definition dma_clk_en : field := Fld R_clk_en_peri 1 1.
Definition ai_clk_en : field := Fld R_clk_en_peri 2 1.
Definition dvp_clk_en : field := Fld R_clk_en_peri 3 1.
Definition fft_clk_en : field := Fld R_clk_en_peri 4 1.
Definition gpio_clk_en : field := Fld R_clk_en_peri 5 1.
Definition spi0_clk_en : field := Fld R_clk_en_peri 6 1.
Definition spi1_clk_en : field := Fld R_clk_en_peri 7 1.
Definition spi2_clk_en : field := Fld R_clk_en_peri 8 1.
Definition spi3_clk_en : field := Fld R_clk_en_peri 9 1.
Definition i2s0_clk_en : field := Fld R_clk_en_peri 10 1.
Definition i2s1_clk_en : field := Fld R_clk_en_peri 11 1.
Definition i2s2_clk_en : field := Fld R_clk_en_peri 12 1.
Definition i2c0_clk_en : field := Fld R_clk_en_peri 13 1.
Definition i2c1_clk_en : field := Fld R_clk_en_peri 14 1.
Definition i2c2_clk_en : field := Fld R_clk_en_peri 15 1.
Definition uart1_clk_en : field := Fld R_clk_en_peri 16 1.
Definition uart2_clk_en : field := Fld R_clk_en_peri 17 1.
Definition uart3_clk_en : field := Fld R_clk_en_peri 18 1.
Definition aes_clk_en : field := Fld R_clk_en_peri 19 1.
Definition fpioa_clk_en : field := Fld R_clk_en_peri 20 1.
Definition timer0_clk_en : field := Fld R_clk_en_peri 21 1.
Definition timer1_clk_en : field := Fld R_clk_en_peri 22 1.
Definition timer2_clk_en : field := Fld R_clk_en_peri 23 1.
Definition wdt0_clk_en : field := Fld R_clk_en_peri 24 1.
Definition wdt1_clk_en : field := Fld R_clk_en_peri 25 1.
Definition sha_clk_en : field := Fld R_clk_en_peri 26 1.
Definition otp_clk_en : field := Fld R_clk_en_peri 27 1.
Definition rtc_clk_en : field := Fld R_clk_en_peri 29 1.
Definition soft_reset : field := Fld R_soft_reset 0 1.
Definition rom_reset : field := Fld R_peri_reset 0 1.
Definition dma_reset : field := Fld R_peri_reset 1 1.
Definition ai_reset : field := Fld R_peri_reset 2 1.
Definition dvp_reset : field := Fld R_peri_reset 3 1.
Definition fft_reset : field := Fld R_peri_reset 4 1.
Definition gpio_reset : field := Fld R_peri_reset 5 1.
Definition spi0_reset : field := Fld R_peri_reset 6 1.
Definition spi1_reset : field := Fld R_peri_reset 7 1.
Definition spi2_reset : field := Fld R_peri_reset 8 1.
Definition spi3_reset : field := Fld R_peri_reset 9 1.
Definition i2s0_reset : field := Fld R_peri_reset 10 1.
Definition i2s1_reset : field := Fld R_peri_reset 11 1.
Definition i2s2_reset : field := Fld R_peri_reset 12 1.
Definition i2c0_reset : field := Fld R_peri_reset 13 1.
Definition i2c1_reset : field := Fld R_peri_reset 14 1.
Definition i2c2_reset : field := Fld R_peri_reset 15 1.
Definition uart1_reset : field := Fld R_peri_reset 16 1.
Definition uart2_reset : field := Fld R_peri_reset 17 1.
Definition uart3_reset : field := Fld R_peri_reset 18 1.
Definition aes_reset : field := Fld R_peri_reset 19 1.
Definition fpioa_reset : field := Fld R_peri_reset 20 1.
Definition timer0_reset : field := Fld R_peri_reset 21 1.
Definition timer1_reset : field := Fld R_peri_reset 22 1.
Definition timer2_reset : field := Fld R_peri_reset 23 1.
Definition wdt0_reset : field := Fld R_peri_reset 24 1.
Definition wdt1_reset : field := Fld R_peri_reset 25 1.
Definition sha_reset : field := Fld R_peri_reset 26 1.
Definition rtc_reset : field := Fld R_peri_reset 29 1.
Definition sram0_gclk_threshold : field := Fld R_clk_th0 0 4.
Definition sram1_gclk_threshold : field := Fld R_clk_th0 4 4.
Definition ai_gclk_threshold : field := Fld R_clk_th0 8 4.
Definition dvp_gclk_threshold : field := Fld R_clk_th0 12 4.
Definition rom_gclk_threshold : field := Fld R_clk_th0 16 4.
Definition spi0_clk_threshold : field := Fld R_clk_th1 0 8.
Definition spi1_clk_threshold : field := Fld R_clk_th1 8 8.
Definition spi2_clk_threshold : field := Fld R_clk_th1 16 8.
Definition spi3_clk_threshold : field := Fld R_clk_th1 24 8.
Definition timer0_clk_threshold : field := Fld R_clk_th2 0 8.
Definition timer1_clk_threshold : field := Fld R_clk_th2 8 8.
Definition timer2_clk_threshold : field := Fld R_clk_th2 16 8.
Definition i2s0_clk_threshold : field := Fld R_clk_th3 0 16.
Definition i2s1_clk_threshold : field := Fld R_clk_th3 16 16.
Definition i2s2_clk_threshold : field := Fld R_clk_th4 0 16.
Definition i2s0_mclk_threshold : field := Fld R_clk_th4 16 8.
Definition i2s1_mclk_threshold : field := Fld R_clk_th4 24 8.
Definition i2s2_mclk_threshold : field := Fld R_clk_th5 0 8.
Definition i2c0_clk_threshold : field := Fld R_clk_th5 8 8.
Definition i2c1_clk_threshold : field := Fld R_clk_th5 16 8.
Definition i2c2_clk_threshold : field := Fld R_clk_th5 24 8.
Definition wdt0_clk_threshold : field := Fld R_clk_th6 0 8.
Definition wdt1_clk_threshold : field := Fld R_clk_th6 8 8.
Definition dma_sel0 : field := Fld R_dma_sel0 0 6.
Definition dma_sel1 : field := Fld R_dma_sel0 6 6.
Definition dma_sel2 : field := Fld R_dma_sel0 12 6.
Definition dma_sel3 : field := Fld R_dma_sel0 18 6.
Definition dma_sel4 : field := Fld R_dma_sel0 24 6.
Definition dma_sel5 : field := Fld R_dma_sel1 0 6.
(** The field each case of [sysctl_clock_get_threshold] reads. *)
Definition threshold_field (x : sysctl_threshold_t) : option field :=
  match x with
  | SYSCTL_THRESHOLD_ACLK => Some aclk_divider_sel
  | SYSCTL_THRESHOLD_APB0 => Some apb0_clk_sel
  | SYSCTL_THRESHOLD_APB1 => Some apb1_clk_sel
  | SYSCTL_THRESHOLD_APB2 => Some apb2_clk_sel
  | SYSCTL_THRESHOLD_SRAM0 => Some sram0_gclk_threshold
  | SYSCTL_THRESHOLD_SRAM1 => Some sram1_gclk_threshold
  | SYSCTL_THRESHOLD_AI => Some ai_gclk_threshold
  | SYSCTL_THRESHOLD_DVP => Some dvp_gclk_threshold
  | SYSCTL_THRESHOLD_ROM => Some rom_gclk_threshold
  | SYSCTL_THRESHOLD_SPI0 => Some spi0_clk_threshold
  | SYSCTL_THRESHOLD_SPI1 => Some spi1_clk_threshold
  | SYSCTL_THRESHOLD_SPI2 => Some spi2_clk_threshold
  | SYSCTL_THRESHOLD_SPI3 => Some spi3_clk_threshold
  | SYSCTL_THRESHOLD_TIMER0 => Some timer0_clk_threshold
  | SYSCTL_THRESHOLD_TIMER1 => Some timer1_clk_threshold
  | SYSCTL_THRESHOLD_TIMER2 => Some timer2_clk_threshold
  | SYSCTL_THRESHOLD_I2S0 => Some i2s0_clk_threshold
  | SYSCTL_THRESHOLD_I2S1 => Some i2s1_clk_threshold
  | SYSCTL_THRESHOLD_I2S2 => Some i2s2_clk_threshold
  | SYSCTL_THRESHOLD_I2S0_M => Some i2s0_mclk_threshold
  | SYSCTL_THRESHOLD_I2S1_M => Some i2s1_mclk_threshold
  | SYSCTL_THRESHOLD_I2S2_M => Some i2s2_mclk_threshold
  | SYSCTL_THRESHOLD_I2C0 => Some i2c0_clk_threshold
  | SYSCTL_THRESHOLD_I2C1 => Some i2c1_clk_threshold
  | SYSCTL_THRESHOLD_I2C2 => Some i2c2_clk_threshold
  | SYSCTL_THRESHOLD_WDT0 => Some wdt0_clk_threshold
  | SYSCTL_THRESHOLD_WDT1 => Some wdt1_clk_threshold
  | _ => None
  end.
(** The field each case of [sysctl_reset_ctl] writes. *)
Definition reset_field (x : sysctl_reset_t) : option field :=
  match x with
  | SYSCTL_RESET_SOC => Some soft_reset
  | SYSCTL_RESET_ROM => Some rom_reset
  | SYSCTL_RESET_DMA => Some dma_reset
  | SYSCTL_RESET_AI => Some ai_reset
  | SYSCTL_RESET_DVP => Some dvp_reset
  | SYSCTL_RESET_FFT => Some fft_reset
  | SYSCTL_RESET_GPIO => Some gpio_reset
  | SYSCTL_RESET_SPI0 => Some spi0_reset
  | SYSCTL_RESET_SPI1 => Some spi1_reset
  | SYSCTL_RESET_SPI2 => Some spi2_reset
  | SYSCTL_RESET_SPI3 => Some spi3_reset
  | SYSCTL_RESET_I2S0 => Some i2s0_reset
  | SYSCTL_RESET_I2S1 => Some i2s1_reset
  | SYSCTL_RESET_I2S2 => Some i2s2_reset
  | SYSCTL_RESET_I2C0 => Some i2c0_reset
  | SYSCTL_RESET_I2C1 => Some i2c1_reset
  | SYSCTL_RESET_I2C2 => Some i2c2_reset
  | SYSCTL_RESET_UART1 => Some uart1_reset
  | SYSCTL_RESET_UART2 => Some uart2_reset
  | SYSCTL_RESET_UART3 => Some uart3_reset
  | SYSCTL_RESET_AES => Some aes_reset
  | SYSCTL_RESET_FPIOA => Some fpioa_reset
  | SYSCTL_RESET_TIMER0 => Some timer0_reset
  | SYSCTL_RESET_TIMER1 => Some timer1_reset
  | SYSCTL_RESET_TIMER2 => Some timer2_reset
  | SYSCTL_RESET_WDT0 => Some wdt0_reset
  | SYSCTL_RESET_WDT1 => Some wdt1_reset
  | SYSCTL_RESET_SHA => Some sha_reset
  | SYSCTL_RESET_RTC => Some rtc_reset
  | _ => None
  end.
(** The bus clock of a device, [sysctl_clock_bus_en]. *)
Definition bus_field (x : sysctl_clock_t) : option field :=
  match x with
  | SYSCTL_CLOCK_GPIO | SYSCTL_CLOCK_SPI2 | SYSCTL_CLOCK_I2S0 | SYSCTL_CLOCK_I2S1 | SYSCTL_CLOCK_I2S2 | SYSCTL_CLOCK_I2C0 | SYSCTL_CLOCK_I2C1 | SYSCTL_CLOCK_I2C2 | SYSCTL_CLOCK_UART1 | SYSCTL_CLOCK_UART2 | SYSCTL_CLOCK_UART3 | SYSCTL_CLOCK_FPIOA | SYSCTL_CLOCK_TIMER0 | SYSCTL_CLOCK_TIMER1 | SYSCTL_CLOCK_TIMER2 | SYSCTL_CLOCK_SHA => Some apb0_clk_en
  | SYSCTL_CLOCK_AES | SYSCTL_CLOCK_WDT0 | SYSCTL_CLOCK_WDT1 | SYSCTL_CLOCK_OTP | SYSCTL_CLOCK_RTC => Some apb1_clk_en
  | SYSCTL_CLOCK_SPI0 | SYSCTL_CLOCK_SPI1 => Some apb2_clk_en
  | _ => None
  end.
(** The clock gate of a device, [sysctl_clock_device_en]. *)
Definition device_field (x : sysctl_clock_t) : option field :=
  match x with
  | SYSCTL_CLOCK_PLL0 => Some pll_out_en0
  | SYSCTL_CLOCK_PLL1 => Some pll_out_en1
  | SYSCTL_CLOCK_PLL2 => Some pll_out_en2
  | SYSCTL_CLOCK_CPU => Some cpu_clk_en
  | SYSCTL_CLOCK_SRAM0 => Some sram0_clk_en
  | SYSCTL_CLOCK_SRAM1 => Some sram1_clk_en
  | SYSCTL_CLOCK_APB0 => Some apb0_clk_en
  | SYSCTL_CLOCK_APB1 => Some apb1_clk_en
  | SYSCTL_CLOCK_APB2 => Some apb2_clk_en
  | SYSCTL_CLOCK_ROM => Some rom_clk_en
  | SYSCTL_CLOCK_DMA => Some dma_clk_en
  | SYSCTL_CLOCK_AI => Some ai_clk_en
  | SYSCTL_CLOCK_DVP => Some dvp_clk_en
  | SYSCTL_CLOCK_FFT => Some fft_clk_en
  | SYSCTL_CLOCK_SPI3 => Some spi3_clk_en
  | SYSCTL_CLOCK_GPIO => Some gpio_clk_en
  | SYSCTL_CLOCK_SPI2 => Some spi2_clk_en
  | SYSCTL_CLOCK_I2S0 => Some i2s0_clk_en
  | SYSCTL_CLOCK_I2S1 => Some i2s1_clk_en
  | SYSCTL_CLOCK_I2S2 => Some i2s2_clk_en
  | SYSCTL_CLOCK_I2C0 => Some i2c0_clk_en
  | SYSCTL_CLOCK_I2C1 => Some i2c1_clk_en
  | SYSCTL_CLOCK_I2C2 => Some i2c2_clk_en
  | SYSCTL_CLOCK_UART1 => Some uart1_clk_en
  | SYSCTL_CLOCK_UART2 => Some uart2_clk_en
  | SYSCTL_CLOCK_UART3 => Some uart3_clk_en
  | SYSCTL_CLOCK_FPIOA => Some fpioa_clk_en
  | SYSCTL_CLOCK_TIMER0 => Some timer0_clk_en
  | SYSCTL_CLOCK_TIMER1 => Some timer1_clk_en
  | SYSCTL_CLOCK_TIMER2 => Some timer2_clk_en
  | SYSCTL_CLOCK_SHA => Some sha_clk_en
  | SYSCTL_CLOCK_AES => Some aes_clk_en
  | SYSCTL_CLOCK_WDT0 => Some wdt0_clk_en
  | SYSCTL_CLOCK_WDT1 => Some wdt1_clk_en
  | SYSCTL_CLOCK_OTP => Some otp_clk_en
  | SYSCTL_CLOCK_RTC => Some rtc_clk_en
  | SYSCTL_CLOCK_SPI0 => Some spi0_clk_en
  | SYSCTL_CLOCK_SPI1 => Some spi1_clk_en
  | _ => None
  end.
(** The field each case of [sysctl_clock_get_clock_select] reads. *)
Definition select_field (x : sysctl_clock_select_t) : option field :=
  match x with
  | SYSCTL_CLOCK_SELECT_PLL0_BYPASS => Some pll_bypass0
  | SYSCTL_CLOCK_SELECT_PLL1_BYPASS => Some pll_bypass1
  | SYSCTL_CLOCK_SELECT_PLL2_BYPASS => Some pll_bypass2
  | SYSCTL_CLOCK_SELECT_PLL2 => Some pll_ckin_sel2
  | SYSCTL_CLOCK_SELECT_ACLK => Some aclk_sel
  | SYSCTL_CLOCK_SELECT_SPI3 => Some spi3_clk_sel
  | SYSCTL_CLOCK_SELECT_TIMER0 => Some timer0_clk_sel
  | SYSCTL_CLOCK_SELECT_TIMER1 => Some timer1_clk_sel
  | SYSCTL_CLOCK_SELECT_TIMER2 => Some timer2_clk_sel
  | SYSCTL_CLOCK_SELECT_SPI3_SAMPLE => Some spi3_sample_clk_sel
  | _ => None
  end.
#[global] Instance sysctl_reg_eq_dec : EqDecision sysctl_reg.
Proof. solve_decision. Defined.
#[global] Instance sysctl_clock_eq_dec : EqDecision sysctl_clock_t.
Proof. solve_decision. Defined.

(** ** Registers *)
Abbreviation regs := (sysctl_reg → Z).
Abbreviation SM := (M regs).

Definition rd (f : field) (r : regs) : Z := get_bits (r (f_reg f)) (f_lsb f) (f_width f).
Definition wr (f : field) (v : Z) (r : regs) : regs :=
  λ x, if decide (x = f_reg f) then set_bits (r x) (f_lsb f) (f_width f) v else r x.

Definition sysctl_get_git_id : SM Z := gets (rd git_id).
Definition sysctl_get_freq : SM Z := gets (rd clk_freq).

Definition sysctl_clock_get_threshold (which : sysctl_threshold_t) : SM Z :=
  gets (λ r, match threshold_field which with Some f => rd f r | None => 0 end).
Definition sysctl_clock_get_clock_select (which : sysctl_clock_select_t) : SM Z :=
  gets (λ r, match select_field which with Some f => rd f r | None => 0 end).
Definition write_field (f : option field) (v : Z) : SM unit :=
  modify (λ r, match f with Some f => wr f v r | None => r end).
Definition sysctl_reset_ctl (reset : sysctl_reset_t) (rst_value : Z) : SM unit :=
  write_field (reset_field reset) rst_value.
Definition sysctl_clock_bus_en (clock : sysctl_clock_t) (en : Z) : SM Z :=
  (if en =? 0 then mret tt else write_field (bus_field clock) en);; mret 0.
Definition sysctl_clock_device_en (clock : sysctl_clock_t) (en : Z) : SM Z :=
  write_field (device_field clock) en;; mret 0.
Definition sysctl_clock_enable (clock : sysctl_clock_t) : SM Z :=
  match clock with
  | SYSCTL_CLOCK_MAX => mret (-1)
  | _ => sysctl_clock_bus_en clock 1;; sysctl_clock_device_en clock 1;; mret 0
  end.
Definition sysctl_reset (reset : sysctl_reset_t) : SM unit := sysctl_reset_ctl reset 1;; sysctl_reset_ctl reset 0.

(** Both selector registers are read and written back. *)
Definition sysctl_dma_select (channel : sysctl_dma_channel_t) (select : Z) : SM Z :=
  match channel with
  | SYSCTL_DMA_CHANNEL_0 => modify (wr dma_sel0 select);; mret 0
  | SYSCTL_DMA_CHANNEL_1 => modify (wr dma_sel1 select);; mret 0
  | SYSCTL_DMA_CHANNEL_2 => modify (wr dma_sel2 select);; mret 0
  | SYSCTL_DMA_CHANNEL_3 => modify (wr dma_sel3 select);; mret 0
  | SYSCTL_DMA_CHANNEL_4 => modify (wr dma_sel4 select);; mret 0
  | SYSCTL_DMA_CHANNEL_5 => modify (wr dma_sel5 select);; mret 0
  | SYSCTL_DMA_CHANNEL_MAX => mret (-1)
  end.

(** ** Frequencies *)
Definition SYSCTRL_CLOCK_FREQ_IN0 : Z := 26000000.
Definition get_source_pll2 (select : Z) : option sysctl_clock_source_t :=
  match select with
  | 0 => Some SYSCTL_SOURCE_IN0
  | 1 => Some SYSCTL_SOURCE_PLL0
  | 2 => Some SYSCTL_SOURCE_PLL1
  | _ => None
  end.
(** [freq_in / nr * nf / od] on [uint32_t]. *)
Definition pll_out (freq_in nr nf od : Z) : Z := u32 (freq_in / nr * nf) / od.

(** How the clock of a device is derived ([sysctl_clock_get_freq]): a source, the
    selector that chooses between IN0 and PLL0, and the divider. *)
Inductive divider := Undivided | Gated (t : sysctl_threshold_t) | Even (t : sysctl_threshold_t).
Inductive derivation :=
  | FromSource (s : sysctl_clock_source_t) (d : divider)
  | Selected (w : sysctl_clock_select_t) (d : divider)
  | AclkDomain
  | SameAs (c : sysctl_clock_t)
  | NoClock.
Definition derive (clock : sysctl_clock_t) : derivation :=
  match clock with
  | SYSCTL_CLOCK_IN0 => FromSource SYSCTL_SOURCE_IN0 Undivided
  | SYSCTL_CLOCK_PLL0 => FromSource SYSCTL_SOURCE_PLL0 Undivided
  | SYSCTL_CLOCK_PLL1 => FromSource SYSCTL_SOURCE_PLL1 Undivided
  | SYSCTL_CLOCK_PLL2 => FromSource SYSCTL_SOURCE_PLL2 Undivided
  | SYSCTL_CLOCK_CPU | SYSCTL_CLOCK_DMA | SYSCTL_CLOCK_FFT | SYSCTL_CLOCK_ACLK | SYSCTL_CLOCK_HCLK => AclkDomain
  | SYSCTL_CLOCK_SRAM0 => FromSource SYSCTL_SOURCE_ACLK (Gated SYSCTL_THRESHOLD_SRAM0)
  | SYSCTL_CLOCK_SRAM1 => FromSource SYSCTL_SOURCE_ACLK (Gated SYSCTL_THRESHOLD_SRAM1)
  | SYSCTL_CLOCK_ROM => FromSource SYSCTL_SOURCE_ACLK (Gated SYSCTL_THRESHOLD_ROM)
  | SYSCTL_CLOCK_DVP => FromSource SYSCTL_SOURCE_ACLK (Gated SYSCTL_THRESHOLD_DVP)
  | SYSCTL_CLOCK_APB0 => FromSource SYSCTL_SOURCE_ACLK (Gated SYSCTL_THRESHOLD_APB0)
  | SYSCTL_CLOCK_APB1 => FromSource SYSCTL_SOURCE_ACLK (Gated SYSCTL_THRESHOLD_APB1)
  | SYSCTL_CLOCK_APB2 => FromSource SYSCTL_SOURCE_ACLK (Gated SYSCTL_THRESHOLD_APB2)
  | SYSCTL_CLOCK_AI => FromSource SYSCTL_SOURCE_PLL1 (Gated SYSCTL_THRESHOLD_AI)
  | SYSCTL_CLOCK_I2S0 => FromSource SYSCTL_SOURCE_PLL2 (Even SYSCTL_THRESHOLD_I2S0)
  | SYSCTL_CLOCK_I2S1 => FromSource SYSCTL_SOURCE_PLL2 (Even SYSCTL_THRESHOLD_I2S1)
  | SYSCTL_CLOCK_I2S2 => FromSource SYSCTL_SOURCE_PLL2 (Even SYSCTL_THRESHOLD_I2S2)
  | SYSCTL_CLOCK_WDT0 => FromSource SYSCTL_SOURCE_IN0 (Even SYSCTL_THRESHOLD_WDT0)
  | SYSCTL_CLOCK_WDT1 => FromSource SYSCTL_SOURCE_IN0 (Even SYSCTL_THRESHOLD_WDT1)
  | SYSCTL_CLOCK_SPI0 => FromSource SYSCTL_SOURCE_PLL0 (Even SYSCTL_THRESHOLD_SPI0)
  | SYSCTL_CLOCK_SPI1 => FromSource SYSCTL_SOURCE_PLL0 (Even SYSCTL_THRESHOLD_SPI1)
  | SYSCTL_CLOCK_SPI2 => FromSource SYSCTL_SOURCE_PLL0 (Even SYSCTL_THRESHOLD_SPI2)
  | SYSCTL_CLOCK_I2C0 => FromSource SYSCTL_SOURCE_PLL0 (Even SYSCTL_THRESHOLD_I2C0)
  | SYSCTL_CLOCK_I2C1 => FromSource SYSCTL_SOURCE_PLL0 (Even SYSCTL_THRESHOLD_I2C1)
  | SYSCTL_CLOCK_I2C2 => FromSource SYSCTL_SOURCE_PLL0 (Even SYSCTL_THRESHOLD_I2C2)
  | SYSCTL_CLOCK_SPI3 => Selected SYSCTL_CLOCK_SELECT_SPI3 (Even SYSCTL_THRESHOLD_SPI3)
  | SYSCTL_CLOCK_TIMER0 => Selected SYSCTL_CLOCK_SELECT_TIMER0 (Even SYSCTL_THRESHOLD_TIMER0)
  | SYSCTL_CLOCK_TIMER1 => Selected SYSCTL_CLOCK_SELECT_TIMER1 (Even SYSCTL_THRESHOLD_TIMER1)
  | SYSCTL_CLOCK_TIMER2 => Selected SYSCTL_CLOCK_SELECT_TIMER2 (Even SYSCTL_THRESHOLD_TIMER2)
  | SYSCTL_CLOCK_GPIO | SYSCTL_CLOCK_UART1 | SYSCTL_CLOCK_UART2 | SYSCTL_CLOCK_UART3
  | SYSCTL_CLOCK_FPIOA | SYSCTL_CLOCK_SHA => SameAs SYSCTL_CLOCK_APB0
  | SYSCTL_CLOCK_AES | SYSCTL_CLOCK_OTP => SameAs SYSCTL_CLOCK_APB1
  | SYSCTL_CLOCK_RTC => FromSource SYSCTL_SOURCE_IN0 Undivided
  | SYSCTL_CLOCK_MAX => NoClock
  end.
Definition divide (source : Z) (d : divider) : SM Z :=
  match d with
  | Undivided => mret source
  | Gated t => n ← sysctl_clock_get_threshold t; mret (source / (n + 1))
  | Even t => n ← sysctl_clock_get_threshold t; mret (source / ((n + 1) * 2))
  end.

(** The three functions call each other; [fuel] bounds the depth. *)
Fixpoint sysctl_clock_source_get_freq (fuel : nat) (input : sysctl_clock_source_t) : SM Z :=
  match fuel with
  | O => λ _, NoFuel
  | S fuel =>
      match input with
      | SYSCTL_SOURCE_IN0 => mret SYSCTRL_CLOCK_FREQ_IN0
      | SYSCTL_SOURCE_PLL0 => sysctl_pll_get_freq fuel SYSCTL_PLL0
      | SYSCTL_SOURCE_PLL1 => sysctl_pll_get_freq fuel SYSCTL_PLL1
      | SYSCTL_SOURCE_PLL2 => sysctl_pll_get_freq fuel SYSCTL_PLL2
      | SYSCTL_SOURCE_ACLK => sysctl_clock_get_freq fuel SYSCTL_CLOCK_ACLK
      | SYSCTL_SOURCE_MAX => mret 0
      end
  end
with sysctl_pll_get_freq (fuel : nat) (pll : sysctl_pll_t) : SM Z :=
  match fuel with
  | O => λ _, NoFuel
  | S fuel =>
      match pll with
      | SYSCTL_PLL0 =>
          freq_in ← sysctl_clock_source_get_freq fuel SYSCTL_SOURCE_IN0;
          nr ← gets (rd clkr0); nf ← gets (rd clkf0); od ← gets (rd clkod0);
          mret (pll_out freq_in (nr + 1) (nf + 1) (od + 1))
      | SYSCTL_PLL1 =>
          freq_in ← sysctl_clock_source_get_freq fuel SYSCTL_SOURCE_IN0;
          nr ← gets (rd clkr1); nf ← gets (rd clkf1); od ← gets (rd clkod1);
          mret (pll_out freq_in (nr + 1) (nf + 1) (od + 1))
      | SYSCTL_PLL2 =>
          select ← gets (rd pll_ckin_sel2);
          match get_source_pll2 select with
          | Some source =>
              freq_in ← sysctl_clock_source_get_freq fuel source;
              nr ← gets (rd clkr2); nf ← gets (rd clkf2); od ← gets (rd clkod2);
              mret (pll_out freq_in (nr + 1) (nf + 1) (od + 1))
          | None => mret 0
          end
      | SYSCTL_PLL_MAX => mret 0
      end
  end
with sysctl_clock_get_freq (fuel : nat) (clock : sysctl_clock_t) : SM Z :=
  match fuel with
  | O => λ _, NoFuel
  | S fuel =>
      match derive clock with
      | FromSource s d => source ← sysctl_clock_source_get_freq fuel s; divide source d
      | Selected w d =>
          sel ← sysctl_clock_get_clock_select w;
          source ← (if sel =? 0 then sysctl_clock_source_get_freq fuel SYSCTL_SOURCE_IN0
                    else sysctl_clock_source_get_freq fuel SYSCTL_SOURCE_PLL0);
          divide source d
      | AclkDomain =>
          sel ← sysctl_clock_get_clock_select SYSCTL_CLOCK_SELECT_ACLK;
          if sel =? 0 then sysctl_clock_source_get_freq fuel SYSCTL_SOURCE_IN0
          else
            source ← sysctl_clock_source_get_freq fuel SYSCTL_SOURCE_PLL0;
            n ← sysctl_clock_get_threshold SYSCTL_THRESHOLD_ACLK;
            mret (source / Z.shiftl 2 n)
      | SameAs c => sysctl_clock_get_freq fuel c
      | NoClock => mret 0
      end
  end.
