(* ===== verification/SysctlProps.v ===== *)
(** * What the system controller promises

    The reference is written in bits of registers, as the data sheet has it: the
    gates and reset lines of each device, and the formula of each clock.  The
    theorem relates the functions of Sysctl.v to it for every register content. *)
From S2P Require Import Prelude Bits Sysctl.

(** ** The reference *)

(** Register and bit of the gates of a clock, its bus first. *)
Definition gates (c : sysctl_clock_t) : list (sysctl_reg * Z) :=
  match c with
  | SYSCTL_CLOCK_PLL0 => [(R_pll0, 25)]
  | SYSCTL_CLOCK_PLL1 => [(R_pll1, 25)]
  | SYSCTL_CLOCK_PLL2 => [(R_pll2, 25)]
  | SYSCTL_CLOCK_CPU => [(R_clk_en_cent, 0)]
  | SYSCTL_CLOCK_SRAM0 => [(R_clk_en_cent, 1)]
  | SYSCTL_CLOCK_SRAM1 => [(R_clk_en_cent, 2)]
  | SYSCTL_CLOCK_APB0 => [(R_clk_en_cent, 3)]
  | SYSCTL_CLOCK_APB1 => [(R_clk_en_cent, 4)]
  | SYSCTL_CLOCK_APB2 => [(R_clk_en_cent, 5)]
  | SYSCTL_CLOCK_ROM => [(R_clk_en_peri, 0)]
  | SYSCTL_CLOCK_DMA => [(R_clk_en_peri, 1)]
  | SYSCTL_CLOCK_AI => [(R_clk_en_peri, 2)]
  | SYSCTL_CLOCK_DVP => [(R_clk_en_peri, 3)]
  | SYSCTL_CLOCK_FFT => [(R_clk_en_peri, 4)]
  | SYSCTL_CLOCK_GPIO => [(R_clk_en_cent, 3); (R_clk_en_peri, 5)]
  | SYSCTL_CLOCK_SPI0 => [(R_clk_en_cent, 5); (R_clk_en_peri, 6)]
  | SYSCTL_CLOCK_SPI1 => [(R_clk_en_cent, 5); (R_clk_en_peri, 7)]
  | SYSCTL_CLOCK_SPI2 => [(R_clk_en_cent, 3); (R_clk_en_peri, 8)]
  | SYSCTL_CLOCK_SPI3 => [(R_clk_en_peri, 9)]
  | SYSCTL_CLOCK_I2S0 => [(R_clk_en_cent, 3); (R_clk_en_peri, 10)]
  | SYSCTL_CLOCK_I2S1 => [(R_clk_en_cent, 3); (R_clk_en_peri, 11)]
  | SYSCTL_CLOCK_I2S2 => [(R_clk_en_cent, 3); (R_clk_en_peri, 12)]
  | SYSCTL_CLOCK_I2C0 => [(R_clk_en_cent, 3); (R_clk_en_peri, 13)]
  | SYSCTL_CLOCK_I2C1 => [(R_clk_en_cent, 3); (R_clk_en_peri, 14)]
  | SYSCTL_CLOCK_I2C2 => [(R_clk_en_cent, 3); (R_clk_en_peri, 15)]
  | SYSCTL_CLOCK_UART1 => [(R_clk_en_cent, 3); (R_clk_en_peri, 16)]
  | SYSCTL_CLOCK_UART2 => [(R_clk_en_cent, 3); (R_clk_en_peri, 17)]
  | SYSCTL_CLOCK_UART3 => [(R_clk_en_cent, 3); (R_clk_en_peri, 18)]
  | SYSCTL_CLOCK_AES => [(R_clk_en_cent, 4); (R_clk_en_peri, 19)]
  | SYSCTL_CLOCK_FPIOA => [(R_clk_en_cent, 3); (R_clk_en_peri, 20)]
  | SYSCTL_CLOCK_TIMER0 => [(R_clk_en_cent, 3); (R_clk_en_peri, 21)]
  | SYSCTL_CLOCK_TIMER1 => [(R_clk_en_cent, 3); (R_clk_en_peri, 22)]
  | SYSCTL_CLOCK_TIMER2 => [(R_clk_en_cent, 3); (R_clk_en_peri, 23)]
  | SYSCTL_CLOCK_WDT0 => [(R_clk_en_cent, 4); (R_clk_en_peri, 24)]
  | SYSCTL_CLOCK_WDT1 => [(R_clk_en_cent, 4); (R_clk_en_peri, 25)]
  | SYSCTL_CLOCK_SHA => [(R_clk_en_cent, 3); (R_clk_en_peri, 26)]
  | SYSCTL_CLOCK_OTP => [(R_clk_en_cent, 4); (R_clk_en_peri, 27)]
  | SYSCTL_CLOCK_RTC => [(R_clk_en_cent, 4); (R_clk_en_peri, 29)]
  | SYSCTL_CLOCK_ACLK | SYSCTL_CLOCK_HCLK | SYSCTL_CLOCK_IN0 | SYSCTL_CLOCK_MAX => []
  end.
Definition reset_line (d : sysctl_reset_t) : option (sysctl_reg * Z) :=
  match d with
  | SYSCTL_RESET_SOC => Some (R_soft_reset, 0)
  | SYSCTL_RESET_ROM => Some (R_peri_reset, 0)
  | SYSCTL_RESET_DMA => Some (R_peri_reset, 1)
  | SYSCTL_RESET_AI => Some (R_peri_reset, 2)
  | SYSCTL_RESET_DVP => Some (R_peri_reset, 3)
  | SYSCTL_RESET_FFT => Some (R_peri_reset, 4)
  | SYSCTL_RESET_GPIO => Some (R_peri_reset, 5)
  | SYSCTL_RESET_SPI0 => Some (R_peri_reset, 6)
  | SYSCTL_RESET_SPI1 => Some (R_peri_reset, 7)
  | SYSCTL_RESET_SPI2 => Some (R_peri_reset, 8)
  | SYSCTL_RESET_SPI3 => Some (R_peri_reset, 9)
  | SYSCTL_RESET_I2S0 => Some (R_peri_reset, 10)
  | SYSCTL_RESET_I2S1 => Some (R_peri_reset, 11)
  | SYSCTL_RESET_I2S2 => Some (R_peri_reset, 12)
  | SYSCTL_RESET_I2C0 => Some (R_peri_reset, 13)
  | SYSCTL_RESET_I2C1 => Some (R_peri_reset, 14)
  | SYSCTL_RESET_I2C2 => Some (R_peri_reset, 15)
  | SYSCTL_RESET_UART1 => Some (R_peri_reset, 16)
  | SYSCTL_RESET_UART2 => Some (R_peri_reset, 17)
  | SYSCTL_RESET_UART3 => Some (R_peri_reset, 18)
  | SYSCTL_RESET_AES => Some (R_peri_reset, 19)
  | SYSCTL_RESET_FPIOA => Some (R_peri_reset, 20)
  | SYSCTL_RESET_TIMER0 => Some (R_peri_reset, 21)
  | SYSCTL_RESET_TIMER1 => Some (R_peri_reset, 22)
  | SYSCTL_RESET_TIMER2 => Some (R_peri_reset, 23)
  | SYSCTL_RESET_WDT0 => Some (R_peri_reset, 24)
  | SYSCTL_RESET_WDT1 => Some (R_peri_reset, 25)
  | SYSCTL_RESET_SHA => Some (R_peri_reset, 26)
  | SYSCTL_RESET_RTC => Some (R_peri_reset, 29)
  | SYSCTL_RESET_MAX => None
  end.
(** Register and first bit of the six bits that select a channel's request. *)
Definition dma_line (c : sysctl_dma_channel_t) : option (sysctl_reg * Z) :=
  match c with
  | SYSCTL_DMA_CHANNEL_0 => Some (R_dma_sel0, 0)
  | SYSCTL_DMA_CHANNEL_1 => Some (R_dma_sel0, 6)
  | SYSCTL_DMA_CHANNEL_2 => Some (R_dma_sel0, 12)
  | SYSCTL_DMA_CHANNEL_3 => Some (R_dma_sel0, 18)
  | SYSCTL_DMA_CHANNEL_4 => Some (R_dma_sel0, 24)
  | SYSCTL_DMA_CHANNEL_5 => Some (R_dma_sel1, 0)
  | SYSCTL_DMA_CHANNEL_MAX => None
  end.

(** The [n] bits of a word from bit [lo] on. *)
Definition bits (w lo n : Z) : Z := w / 2 ^ lo mod 2 ^ n.
Section formulas.
Context (r : regs).
(** The three loops: input / NR * NF / OD; a 32-bit product for the third,
    which another loop can feed. *)
Definition pll0_hz : Z := 26000000 / (bits (r R_pll0) 0 4 + 1) * (bits (r R_pll0) 4 6 + 1) / (bits (r R_pll0) 10 4 + 1).
Definition pll1_hz : Z := 26000000 / (bits (r R_pll1) 0 4 + 1) * (bits (r R_pll1) 4 6 + 1) / (bits (r R_pll1) 10 4 + 1).
Definition pll2_hz : Z :=
  let sel := bits (r R_pll2) 26 2 in
  if sel =? 3 then 0
  else
    let input := if sel =? 0 then 26000000 else if sel =? 1 then pll0_hz else pll1_hz in
    (input / (bits (r R_pll2) 0 4 + 1) * (bits (r R_pll2) 4 6 + 1)) mod 2 ^ 32 / (bits (r R_pll2) 10 4 + 1).
Definition aclk_hz : Z :=
  if bits (r R_clk_sel0) 0 1 =? 0 then 26000000 else pll0_hz / (2 * 2 ^ bits (r R_clk_sel0) 1 2).
(** The crystal or PLL0, as bit [i] of the first selector says. *)
Definition in0_or_pll0 (i : Z) : Z := if bits (r R_clk_sel0) i 1 =? 0 then 26000000 else pll0_hz.
End formulas.
Definition clock_hz (r : regs) (c : sysctl_clock_t) : Z :=
  match c with
  | SYSCTL_CLOCK_IN0 | SYSCTL_CLOCK_RTC => 26000000
  | SYSCTL_CLOCK_PLL0 => pll0_hz r
  | SYSCTL_CLOCK_PLL1 => pll1_hz r
  | SYSCTL_CLOCK_PLL2 => pll2_hz r
  | SYSCTL_CLOCK_CPU | SYSCTL_CLOCK_DMA | SYSCTL_CLOCK_FFT | SYSCTL_CLOCK_ACLK | SYSCTL_CLOCK_HCLK => aclk_hz r
  | SYSCTL_CLOCK_SRAM0 => aclk_hz r / (bits (r R_clk_th0) 0 4 + 1)
  | SYSCTL_CLOCK_SRAM1 => aclk_hz r / (bits (r R_clk_th0) 4 4 + 1)
  | SYSCTL_CLOCK_DVP => aclk_hz r / (bits (r R_clk_th0) 12 4 + 1)
  | SYSCTL_CLOCK_ROM => aclk_hz r / (bits (r R_clk_th0) 16 4 + 1)
  | SYSCTL_CLOCK_AI => pll1_hz r / (bits (r R_clk_th0) 8 4 + 1)
  | SYSCTL_CLOCK_APB0 | SYSCTL_CLOCK_GPIO | SYSCTL_CLOCK_UART1 | SYSCTL_CLOCK_UART2 | SYSCTL_CLOCK_UART3 | SYSCTL_CLOCK_FPIOA | SYSCTL_CLOCK_SHA => aclk_hz r / (bits (r R_clk_sel0) 3 3 + 1)
  | SYSCTL_CLOCK_APB1 | SYSCTL_CLOCK_AES | SYSCTL_CLOCK_OTP => aclk_hz r / (bits (r R_clk_sel0) 6 3 + 1)
  | SYSCTL_CLOCK_APB2 => aclk_hz r / (bits (r R_clk_sel0) 9 3 + 1)
  | SYSCTL_CLOCK_I2S0 => pll2_hz r / ((bits (r R_clk_th3) 0 16 + 1) * 2)
  | SYSCTL_CLOCK_I2S1 => pll2_hz r / ((bits (r R_clk_th3) 16 16 + 1) * 2)
  | SYSCTL_CLOCK_I2S2 => pll2_hz r / ((bits (r R_clk_th4) 0 16 + 1) * 2)
  | SYSCTL_CLOCK_WDT0 => 26000000 / ((bits (r R_clk_th6) 0 8 + 1) * 2)
  | SYSCTL_CLOCK_WDT1 => 26000000 / ((bits (r R_clk_th6) 8 8 + 1) * 2)
  | SYSCTL_CLOCK_SPI0 => pll0_hz r / ((bits (r R_clk_th1) 0 8 + 1) * 2)
  | SYSCTL_CLOCK_SPI1 => pll0_hz r / ((bits (r R_clk_th1) 8 8 + 1) * 2)
  | SYSCTL_CLOCK_SPI2 => pll0_hz r / ((bits (r R_clk_th1) 16 8 + 1) * 2)
  | SYSCTL_CLOCK_I2C0 => pll0_hz r / ((bits (r R_clk_th5) 8 8 + 1) * 2)
  | SYSCTL_CLOCK_I2C1 => pll0_hz r / ((bits (r R_clk_th5) 16 8 + 1) * 2)
  | SYSCTL_CLOCK_I2C2 => pll0_hz r / ((bits (r R_clk_th5) 24 8 + 1) * 2)
  | SYSCTL_CLOCK_SPI3 => in0_or_pll0 r 12 / ((bits (r R_clk_th1) 24 8 + 1) * 2)
  | SYSCTL_CLOCK_TIMER0 => in0_or_pll0 r 13 / ((bits (r R_clk_th2) 0 8 + 1) * 2)
  | SYSCTL_CLOCK_TIMER1 => in0_or_pll0 r 14 / ((bits (r R_clk_th2) 8 8 + 1) * 2)
  | SYSCTL_CLOCK_TIMER2 => in0_or_pll0 r 15 / ((bits (r R_clk_th2) 16 8 + 1) * 2)
  | SYSCTL_CLOCK_MAX => 0
  end.

(** ** Fields *)

Lemma rd_bits f r : 0 ≤ f_lsb f → 0 ≤ f_width f → rd f r = bits (r (f_reg f)) (f_lsb f) (f_width f).
Proof.
  intros Hl Hw. unfold rd, get_bits, bits. by rewrite Z.land_ones, Z.shiftr_div_pow2.
Qed.
Lemma bits_range w lo n : 0 ≤ n → 0 ≤ bits w lo n < 2 ^ n.
Proof. intros Hn. apply Z.mod_pos_bound. lia. Qed.

(** Bit [i] of register [g] after a write of a field. *)
Lemma wr_testbit f v r g i :
  0 ≤ f_lsb f → 0 ≤ f_width f → 0 ≤ i →
  Z.testbit (wr f v r g) i =
  if decide (g = f_reg f ∧ f_lsb f ≤ i < f_lsb f + f_width f) then Z.testbit v (i - f_lsb f) else Z.testbit (r g) i.
Proof.
  intros Hl Hw Hi. unfold wr. destruct (decide (g = f_reg f)) as [->|Hne].
  - rewrite set_bits_spec by done.
    destruct (Z.leb_spec (f_lsb f) i), (Z.ltb_spec i (f_lsb f + f_width f)), (decide _); cbn [andb]; (done || (exfalso; intuition lia)).
  - rewrite decide_False; [done|]. by intros [? _].
Qed.
(** A single bit. *)
Definition bit_of (f : field) : sysctl_reg * Z := (f_reg f, f_lsb f).
Lemma wr_bit f v r g i :
  0 ≤ f_lsb f → f_width f = 1 → 0 ≤ i →
  Z.testbit (wr f v r g) i = if decide ((g, i) = bit_of f) then Z.odd v else Z.testbit (r g) i.
Proof.
  intros Hl Hw Hi. rewrite wr_testbit by lia. rewrite Hw. unfold bit_of.
  destruct (decide ((g, i) = (f_reg f, f_lsb f))) as [[= -> ->]|Hne].
  - rewrite decide_True by (split; [done|lia]). by rewrite Z.sub_diag, Z.bit0_odd.
  - rewrite decide_False; [done|]. intros [-> ?]. apply Hne. f_equal. lia.
Qed.

(** ** Gates, reset lines, DMA requests *)

Lemma gates_fields c :
  gates c = omap (fmap bit_of) [bus_field c; device_field c] ∧
  Forall (λ f, 0 ≤ f_lsb f ∧ f_width f = 1) (omap id [bus_field c; device_field c]).
Proof. destruct c; (split; [reflexivity|repeat constructor; cbn; lia]). Qed.

Lemma enable_gates c r : c ≠ SYSCTL_CLOCK_MAX → ∃ r', sysctl_clock_enable c r = Done (0, r') ∧
  ∀ g i, 0 ≤ i → Z.testbit (r' g) i = bool_decide ((g, i) ∈ gates c) || Z.testbit (r g) i.
Proof.
  intros Hc. destruct (gates_fields c) as [-> Hf].
  exists (let r1 := match bus_field c with Some f => wr f 1 r | None => r end in
          match device_field c with Some f => wr f 1 r1 | None => r1 end). split; [by destruct c|].
  intros g i Hi. cbv zeta. revert Hf.
  destruct (bus_field c) as [b|], (device_field c) as [e|]; cbn [omap list_omap fmap option_fmap option_map id];
    rewrite ?Forall_cons; intros Hf; rewrite ?wr_bit by tauto;
    repeat match goal with |- context [decide ((g, i) = ?x)] => destruct (decide ((g, i) = x)) end; cbn [Z.odd];
    first [rewrite bool_decide_true by (rewrite ?elem_of_cons; tauto); done
    |rewrite bool_decide_false by (rewrite ?elem_of_cons, elem_of_nil; tauto); done].
Qed.

Lemma reset_fields d :
  reset_line d = bit_of <$> reset_field d ∧ (∀ f, reset_field d = Some f → 0 ≤ f_lsb f ∧ f_width f = 1).
Proof. destruct d; (split; [reflexivity|]); intros f [= <-]; cbn; lia. Qed.
(** The line is pulled up and then down; nothing else changes. *)
Lemma reset_pulse d r : ∃ r1 r2,
  sysctl_reset_ctl d 1 r = Done (tt, r1) ∧ sysctl_reset_ctl d 0 r1 = Done (tt, r2) ∧ sysctl_reset d r = Done (tt, r2) ∧
  ∀ g i, 0 ≤ i → (Z.testbit (r1 g) i, Z.testbit (r2 g) i) =
    if decide (reset_line d = Some (g, i)) then (true, false) else (Z.testbit (r g) i, Z.testbit (r g) i).
Proof.
  destruct (reset_fields d) as [-> Hf]. do 2 eexists. do 3 (split; [reflexivity|]). intros g i Hi. cbv beta.
  destruct (reset_field d) as [f|]; cbn [fmap option_fmap option_map]; [|by rewrite decide_False].
  destruct (Hf f eq_refl). rewrite !wr_bit by done.
  destruct (decide ((g, i) = bit_of f)) as [E|E]; [by rewrite E, decide_True|by rewrite decide_False by congruence].
Qed.

Lemma dma_select_bits ch sel r :
  match dma_line ch with
  | None => sysctl_dma_select ch sel r = Done (-1, r)
  | Some (g0, lo) => ∃ r', sysctl_dma_select ch sel r = Done (0, r') ∧
      ∀ g i, 0 ≤ i → Z.testbit (r' g) i =
        if decide (g = g0 ∧ lo ≤ i < lo + 6) then Z.testbit sel (i - lo) else Z.testbit (r g) i
  end.
Proof.
  destruct ch; cbn [dma_line]; [..|reflexivity]; (eexists; split; [reflexivity|]); intros g i Hi;
    rewrite wr_testbit by (cbn; lia); reflexivity.
Qed.

(** ** Frequencies *)

Lemma pll_out_exact fin nr nf od :
  0 ≤ fin → 0 < nr → 0 < nf ≤ 64 → fin * 64 < 2 ^ 32 → pll_out fin nr nf od = fin / nr * nf / od.
Proof.
  intros. unfold pll_out. rewrite u32_small; [done|].
  assert (0 ≤ fin / nr ≤ fin) as [? ?].
  { split; [apply Z.div_pos; lia|apply Z.div_le_upper_bound; nia]. }
  nia.
Qed.

Section frequencies.
Context (r : regs).

Lemma pll0_freq fuel : (2 ≤ fuel)%nat → sysctl_pll_get_freq fuel SYSCTL_PLL0 r = Done (pll0_hz r, r).
Proof.
  intros Hf. destruct fuel as [|[|fuel]]; try lia. cbn. unfold mbind, M_bind, gets, mret, M_ret. cbn.
  rewrite !rd_bits by (cbn; lia). cbn [f_reg f_lsb f_width clkr0 clkf0 clkod0].
  pose proof (bits_range (r R_pll0) 0 4). pose proof (bits_range (r R_pll0) 4 6).
  unfold SYSCTRL_CLOCK_FREQ_IN0. by rewrite pll_out_exact by lia.
Qed.
Lemma pll1_freq fuel : (2 ≤ fuel)%nat → sysctl_pll_get_freq fuel SYSCTL_PLL1 r = Done (pll1_hz r, r).
Proof.
  intros Hf. destruct fuel as [|[|fuel]]; try lia. cbn. unfold mbind, M_bind, gets, mret, M_ret. cbn.
  rewrite !rd_bits by (cbn; lia). cbn [f_reg f_lsb f_width clkr1 clkf1 clkod1].
  pose proof (bits_range (r R_pll1) 0 4). pose proof (bits_range (r R_pll1) 4 6).
  unfold SYSCTRL_CLOCK_FREQ_IN0. by rewrite pll_out_exact by lia.
Qed.
Lemma pll2_freq fuel : (4 ≤ fuel)%nat → sysctl_pll_get_freq fuel SYSCTL_PLL2 r = Done (pll2_hz r, r).
Proof.
  intros Hf. destruct fuel as [|[|fuel]]; try lia. cbn [sysctl_pll_get_freq].
  erewrite M_bind_Done by reflexivity. rewrite rd_bits by (cbn; lia). unfold pll2_hz.
  cbn [f_reg f_lsb f_width pll_ckin_sel2]. pose proof (bits_range (r R_pll2) 26 2) as Hs.
  set (sel := bits (r R_pll2) 26 2) in *. clearbody sel.
  assert (sel = 0 ∨ sel = 1 ∨ sel = 2 ∨ sel = 3) as [-> | [-> | [-> | ->]]] by lia; [| | |done];
    cbn [get_source_pll2 Z.eqb Pos.eqb sysctl_clock_source_get_freq].
  - erewrite M_bind_Done by reflexivity. unfold mbind, M_bind, gets, mret, M_ret. by rewrite !rd_bits by (cbn; lia).
  - rewrite (M_bind_Done _ _ _ _ _ (pll0_freq fuel ltac:(lia))). unfold mbind, M_bind, gets, mret, M_ret.
    by rewrite !rd_bits by (cbn; lia).
  - rewrite (M_bind_Done _ _ _ _ _ (pll1_freq fuel ltac:(lia))). unfold mbind, M_bind, gets, mret, M_ret.
    by rewrite !rd_bits by (cbn; lia).
Qed.
Lemma aclk_freq fuel c : (4 ≤ fuel)%nat → derive c = AclkDomain → sysctl_clock_get_freq fuel c r = Done (aclk_hz r, r).
Proof.
  intros Hf Hc. destruct fuel as [|[|fuel]]; try lia. cbn [sysctl_clock_get_freq]. rewrite Hc.
  erewrite M_bind_Done by reflexivity. cbn [select_field]. rewrite rd_bits by (cbn; lia). unfold aclk_hz.
  cbn [f_reg f_lsb f_width aclk_sel]. destruct (_ =? 0); [done|]. cbn [sysctl_clock_source_get_freq].
  rewrite (M_bind_Done _ _ _ _ _ (pll0_freq fuel ltac:(lia))). erewrite M_bind_Done by reflexivity.
  cbn [threshold_field]. rewrite rd_bits by (cbn; lia). cbn [f_reg f_lsb f_width aclk_divider_sel].
  pose proof (bits_range (r R_clk_sel0) 1 2). by rewrite Z.shiftl_mul_pow2 by lia.
Qed.

Definition source_hz (s : sysctl_clock_source_t) : Z :=
  match s with
  | SYSCTL_SOURCE_IN0 => 26000000 | SYSCTL_SOURCE_PLL0 => pll0_hz r | SYSCTL_SOURCE_PLL1 => pll1_hz r
  | SYSCTL_SOURCE_PLL2 => pll2_hz r | SYSCTL_SOURCE_ACLK => aclk_hz r | SYSCTL_SOURCE_MAX => 0
  end.
Lemma source_freq fuel s : (6 ≤ fuel)%nat → sysctl_clock_source_get_freq fuel s r = Done (source_hz s, r).
Proof.
  intros Hf. destruct fuel as [|fuel]; [lia|]. destruct s; cbn [sysctl_clock_source_get_freq];
    [done|apply pll0_freq; lia|apply pll1_freq; lia|apply pll2_freq; lia|apply aclk_freq; [lia|done]|done].
Qed.

(** What a threshold and a selector register hold. *)
Definition threshold_hz (t : sysctl_threshold_t) : Z := match threshold_field t with Some f => rd f r | None => 0 end.
Definition divided (src : Z) (d : divider) : Z :=
  match d with Undivided => src | Gated t => src / (threshold_hz t + 1) | Even t => src / ((threshold_hz t + 1) * 2) end.
Lemma divide_run src d : divide src d r = Done (divided src d, r).
Proof. by destruct d. Qed.

(** Every clock, from what its source gives. *)
Lemma clock_freq fuel c : (8 ≤ fuel)%nat →
  sysctl_clock_get_freq fuel c r = Done (
    match derive c with
    | FromSource s d => divided (source_hz s) d
    | Selected w d =>
        divided (if match select_field w with Some f => rd f r | None => 0 end =? 0 then 26000000 else pll0_hz r) d
    | AclkDomain => aclk_hz r
    | SameAs c => match derive c with FromSource s d => divided (source_hz s) d | _ => 0 end
    | NoClock => 0
    end, r).
Proof.
  intros Hf. destruct fuel as [|[|fuel]]; try lia. destruct (derive c) as [s d|w d| |c'|] eqn:E.
  - cbn [sysctl_clock_get_freq]. rewrite E. by rewrite (M_bind_Done _ _ _ _ _ (source_freq (S fuel) s ltac:(lia))), divide_run.
  - cbn [sysctl_clock_get_freq]. rewrite E. erewrite M_bind_Done by reflexivity. destruct (_ =? 0).
    + by rewrite (M_bind_Done _ _ _ _ _ (source_freq (S fuel) SYSCTL_SOURCE_IN0 ltac:(lia))), divide_run.
    + by rewrite (M_bind_Done _ _ _ _ _ (source_freq (S fuel) SYSCTL_SOURCE_PLL0 ltac:(lia))), divide_run.
  - by apply aclk_freq; [lia|].
  - cbn [sysctl_clock_get_freq]. rewrite E. destruct c; simplify_eq/=;
      (rewrite (M_bind_Done _ _ _ _ _ (source_freq fuel SYSCTL_SOURCE_ACLK ltac:(lia))); reflexivity).
  - cbn [sysctl_clock_get_freq]. by rewrite E.
Qed.

(** The table of the data sheet. *)
Lemma clock_freq_table fuel c : (8 ≤ fuel)%nat → sysctl_clock_get_freq fuel c r = Done (clock_hz r c, r).
Proof.
  intros Hf. rewrite clock_freq by done. do 2 f_equal.
  destruct c; cbn [derive clock_hz divided source_hz select_field]; unfold threshold_hz, in0_or_pll0;
    cbn [threshold_field]; try reflexivity; by rewrite !rd_bits by (cbn; lia).
Qed.

(** ** Ranges *)
Definition MAX_PLL : Z := 1664000000.
Lemma quot_range a b n : 0 ≤ a < n → 0 < b → 0 ≤ a / b < n.
Proof. intros Ha Hb. split; [apply Z.div_pos; lia|apply Z.div_lt_upper_bound; nia]. Qed.
Lemma pll_range w : 0 ≤ 26000000 / (bits w 0 4 + 1) * (bits w 4 6 + 1) / (bits w 10 4 + 1) < MAX_PLL + 1.
Proof.
  pose proof (bits_range w 0 4). pose proof (bits_range w 4 6). pose proof (bits_range w 10 4).
  pose proof (quot_range 26000000 (bits w 0 4 + 1) 26000001). apply quot_range; [unfold MAX_PLL; nia|lia].
Qed.
Lemma pll2_range : 0 ≤ pll2_hz r < 2 ^ 32.
Proof.
  unfold pll2_hz. destruct (_ =? 3); [lia|]. pose proof (bits_range (r R_pll2) 10 4).
  apply quot_range; [by apply Z.mod_pos_bound|lia].
Qed.
Lemma aclk_range : 0 ≤ aclk_hz r < MAX_PLL + 1.
Proof.
  unfold aclk_hz, MAX_PLL. destruct (_ =? 0); [lia|]. pose proof (bits_range (r R_clk_sel0) 1 2).
  pose proof (Z.pow_pos_nonneg 2 (bits (r R_clk_sel0) 1 2)). apply quot_range; [apply pll_range|lia].
Qed.
Lemma in0_or_pll0_range i : 0 ≤ in0_or_pll0 r i < MAX_PLL + 1.
Proof. unfold in0_or_pll0. destruct (_ =? 0); [unfold MAX_PLL; lia|apply pll_range]. Qed.
Lemma clock_hz_range c : 0 ≤ clock_hz r c < 2 ^ 32.
Proof.
  assert (∀ a reg lo n, 0 ≤ n → 0 ≤ a < 2 ^ 32 → 0 ≤ a / (bits (r reg) lo n + 1) < 2 ^ 32) as H1.
  { intros a reg lo n Hn Ha. pose proof (bits_range (r reg) lo n Hn). apply quot_range; lia. }
  assert (∀ a reg lo n, 0 ≤ n → 0 ≤ a < 2 ^ 32 → 0 ≤ a / ((bits (r reg) lo n + 1) * 2) < 2 ^ 32) as H2.
  { intros a reg lo n Hn Ha. pose proof (bits_range (r reg) lo n Hn). apply quot_range; lia. }
  pose proof (pll_range (r R_pll0)). pose proof (pll_range (r R_pll1)). pose proof pll2_range. pose proof aclk_range.
  unfold MAX_PLL in *. fold (pll0_hz r) in *. fold (pll1_hz r) in *.
  destruct c; cbn [clock_hz]; try (apply H1; lia); try (apply H2; try lia; pose proof (in0_or_pll0_range 12);
    pose proof (in0_or_pll0_range 13); pose proof (in0_or_pll0_range 14); pose proof (in0_or_pll0_range 15);
    unfold MAX_PLL in *; lia); lia.
Qed.
End frequencies.


(** PLL2 can be fed by PLL0; then the 32-bit product wraps. *)
Example pll2_wraps :
  let r := wr pll_ckin_sel2 1 (wr clkf2 63 (wr clkf0 63 (λ _, 0))) in
  sysctl_pll_get_freq 9 SYSCTL_PLL2 r = Done (u32 (1664000000 * 64), r) ∧ u32 (1664000000 * 64) = 3416784896.
Proof. split; vm_compute; reflexivity. Qed.

(** SPI0 on registers where PLL0 runs at 26 MHz * 31 and the divider is 3. *)
Definition spi_regs : regs := wr clkf0 30 (wr spi0_clk_threshold 3 (λ _, 0)).
