(* ===== verification/Rtc.v ===== *)
(** * The real-time clock of the K210: kernel/driver/rtc.c and device/Clock.cpp

    The state is the registers the code uses, field by field (reserved bits are
    left out), and [rtc_instance].  Registers keep what is written: the clock
    does not advance between two operations.  The delay loop of
    [rtc_timer_set_mode] is left out. *)
From S2P Require Import Prelude Time Bits Sysctl.

(** ** include/driver/rtc.h *)
Inductive rtc_timer_mode_t := RTC_TIMER_PAUSE | RTC_TIMER_RUNNING | RTC_TIMER_SETTING | RTC_TIMER_MAX.
Definition RTC_INT_SECOND : Z := 0.
Definition RTC_INT_MINUTE : Z := 1.
Definition RTC_INT_HOUR : Z := 2.
Definition RTC_INT_DAY : Z := 3.
Definition RTC_INT_MAX : Z := 4.

(** [rtc_mask_t] without its reserved bit, and the byte it is. *)
Record rtc_mask_t := Mask {
  m_second : bool; m_minute : bool; m_hour : bool; m_week : bool; m_day : bool; m_month : bool; m_year : bool;
}.
Definition mask_byte (m : rtc_mask_t) : Z :=
  2 * Z.b2z (m_second m) + 4 * Z.b2z (m_minute m) + 8 * Z.b2z (m_hour m) + 16 * Z.b2z (m_week m) +
  32 * Z.b2z (m_day m) + 64 * Z.b2z (m_month m) + 128 * Z.b2z (m_year m).
Definition byte_mask (b : Z) : rtc_mask_t :=
  Mask (Z.testbit b 1) (Z.testbit b 2) (Z.testbit b 3) (Z.testbit b 4) (Z.testbit b 5) (Z.testbit b 6) (Z.testbit b 7).

(** [rtc_date_t] and [rtc_time_t] (the alarm's have the same fields). *)
Record rtc_date_t := Date { d_week : Z; d_day : Z; d_month : Z; d_year : Z }.
Record rtc_time_t := Clk { t_second : Z; t_minute : Z; t_hour : Z }.
Record rtc_interrupt_ctrl_t := IntCtrl { tick_enable : Z; alarm_enable : Z; tick_int_mode : Z; alarm_compare_mask : Z }.
Record rtc_register_ctrl_t := RegCtrl {
  read_enable : Z; write_enable : Z; timer_mask : Z; alarm_mask : Z; initial_count_mask : Z; interrupt_register_mask : Z;
}.
Record rtc_t := Rtc {
  date : rtc_date_t;
  time : rtc_time_t;
  alarm_date : rtc_date_t;
  alarm_time : rtc_time_t;
  initial_count : Z;
  current_count : Z;
  interrupt_ctrl : rtc_interrupt_ctrl_t;
  register_ctrl : rtc_register_ctrl_t;
  century : Z;
}.

(** [rtc_instance_t]; a callback is the address of a function. *)
Record rtc_instance_t := Inst {
  rtc_tick_callback : Z;
  tick_ctx : Z;
  rtc_alarm_callback : Z;
  alarm_ctx : Z;
  tick_is_single_shot : bool;
  alarm_is_single_shot : bool;
  tick_enable_by_alarm : bool;
  tick_enable_by_user : bool;
  tick_mode_by_user : Z;
  tick_mode_by_alarm : Z;
}.
(** [.tick_mode_by_user = -1]: the enumeration is unsigned. *)
Definition rtc_instance0 : rtc_instance_t := Inst 0 0 0 0 false false false false (u32 (-1)) RTC_INT_MAX.

(** The callbacks that were called, with their arguments. *)
Record rst := RS { rtc : rtc_t; rtc_instance : rtc_instance_t; called : list (Z * Z); sysctl : sysctl_reg → Z }.
Abbreviation RM := (M rst).

Definition set_rtc (f : rtc_t → rtc_t) : RM unit :=
  modify (λ s, RS (f (rtc s)) (rtc_instance s) (called s) (sysctl s)).
Definition set_instance (f : rtc_instance_t → rtc_instance_t) : RM unit :=
  modify (λ s, RS (rtc s) (f (rtc_instance s)) (called s) (sysctl s)).
Definition put_date (x : rtc_date_t) (r : rtc_t) : rtc_t :=
  Rtc x (time r) (alarm_date r) (alarm_time r) (initial_count r) (current_count r) (interrupt_ctrl r) (register_ctrl r) (century r).
Definition put_time (x : rtc_time_t) (r : rtc_t) : rtc_t :=
  Rtc (date r) x (alarm_date r) (alarm_time r) (initial_count r) (current_count r) (interrupt_ctrl r) (register_ctrl r) (century r).
Definition put_century (x : Z) (r : rtc_t) : rtc_t :=
  Rtc (date r) (time r) (alarm_date r) (alarm_time r) (initial_count r) (current_count r) (interrupt_ctrl r) (register_ctrl r) x.
Definition put_alarm_date (x : rtc_date_t) (r : rtc_t) : rtc_t :=
  Rtc (date r) (time r) x (alarm_time r) (initial_count r) (current_count r) (interrupt_ctrl r) (register_ctrl r) (century r).
Definition put_alarm_time (x : rtc_time_t) (r : rtc_t) : rtc_t :=
  Rtc (date r) (time r) (alarm_date r) x (initial_count r) (current_count r) (interrupt_ctrl r) (register_ctrl r) (century r).
Definition put_initial (x : Z) (r : rtc_t) : rtc_t :=
  Rtc (date r) (time r) (alarm_date r) (alarm_time r) x (current_count r) (interrupt_ctrl r) (register_ctrl r) (century r).
Definition put_current (x : Z) (r : rtc_t) : rtc_t :=
  Rtc (date r) (time r) (alarm_date r) (alarm_time r) (initial_count r) x (interrupt_ctrl r) (register_ctrl r) (century r).
Definition put_int (x : rtc_interrupt_ctrl_t) (r : rtc_t) : rtc_t :=
  Rtc (date r) (time r) (alarm_date r) (alarm_time r) (initial_count r) (current_count r) x (register_ctrl r) (century r).
Definition put_reg (x : rtc_register_ctrl_t) (r : rtc_t) : rtc_t :=
  Rtc (date r) (time r) (alarm_date r) (alarm_time r) (initial_count r) (current_count r) (interrupt_ctrl r) x (century r).

(** ** The timer's mode *)
Definition rtc_timer_set_mode (timer_mode : rtc_timer_mode_t) : RM Z :=
  c ← gets (λ s, register_ctrl (rtc s));
  let '(r, w) :=
    match timer_mode with
    | RTC_TIMER_PAUSE => (0, 0)
    | RTC_TIMER_RUNNING => (1, 0)
    | RTC_TIMER_SETTING => (0, 1)
    | RTC_TIMER_MAX => (0, 0)
    end in
  set_rtc (put_reg (RegCtrl r w (timer_mask c) (alarm_mask c) (initial_count_mask c) (interrupt_register_mask c)));;
  mret 0.
Definition rtc_timer_get_mode : RM rtc_timer_mode_t :=
  c ← gets (λ s, register_ctrl (rtc s));
  if (read_enable c =? 0) && (write_enable c =? 0) then mret RTC_TIMER_PAUSE
  else if negb (read_enable c =? 0) && (write_enable c =? 0) then mret RTC_TIMER_RUNNING
  else if (read_enable c =? 0) && negb (write_enable c =? 0) then mret RTC_TIMER_RUNNING
  else rtc_timer_set_mode RTC_TIMER_PAUSE;; mret RTC_TIMER_PAUSE.

(** ** Date and time *)
Record tm := Tm {
  tm_sec : Z; tm_min : Z; tm_hour : Z; tm_mday : Z; tm_mon : Z; tm_year : Z; tm_wday : Z; tm_yday : Z; tm_isdst : Z;
}.
Definition rtc_in_range (value min max : Z) : bool := (min <=? value) && (value <=? max).
(** The checks of [rtc_timer_set_tm] and [rtc_alarm_set_tm] in order, and the
    register contents they build: date, time and century. *)
Definition checked_tm (t : tm) : option (rtc_date_t * rtc_time_t * Z) :=
  if negb (rtc_in_range (tm_sec t) 0 59) then None
  else if negb (rtc_in_range (tm_min t) 0 59) then None
  else if negb (rtc_in_range (tm_hour t) 0 23) then None
  else if negb (rtc_in_range (tm_mday t) 1 31) then None
  else if negb (rtc_in_range (tm_mon t) 0 11) then None
  else
    let human_year := i32 (tm_year t + 1900) in
    let rtc_year := Z.rem human_year 100 in
    let rtc_century := Z.quot human_year 100 in
    if negb (rtc_in_range rtc_year 0 99 && rtc_in_range rtc_century 0 31) then None
    else if negb (rtc_in_range (tm_wday t) 0 6) then None
    else Some (Date (tm_wday t mod 2 ^ 3) (tm_mday t mod 2 ^ 5) ((tm_mon t + 1) mod 2 ^ 4) (rtc_year mod 2 ^ 12),
               Clk (tm_sec t mod 2 ^ 6) (tm_min t mod 2 ^ 6) (tm_hour t mod 2 ^ 5), rtc_century mod 2 ^ 5).

(** [None] is a null pointer. *)
Definition rtc_timer_set_tm (t : option tm) : RM Z :=
  match t with
  | None => mret 0
  | Some t =>
      match checked_tm t with
      | None => mret (-1)
      | Some (d, c, cent) =>
          rtc_timer_set_mode RTC_TIMER_SETTING;;
          set_rtc (put_date d);;
          set_rtc (put_time c);;
          set_rtc (put_century cent);;
          rtc_timer_set_mode RTC_TIMER_RUNNING;;
          mret 0
      end
  end.
Definition rtc_alarm_set_tm (t : option tm) : RM Z :=
  match t with
  | None => mret 0
  | Some t =>
      match checked_tm t with
      | None => mret (-1)
      | Some (d, c, _) =>
          rtc_timer_set_mode RTC_TIMER_SETTING;;
          set_rtc (put_alarm_date d);;
          set_rtc (put_alarm_time c);;
          rtc_timer_set_mode RTC_TIMER_RUNNING;;
          mret 0
      end
  end.

Definition rtc_year_is_leap (year : Z) : bool :=
  ((Z.rem year 4 =? 0) && negb (Z.rem year 100 =? 0)) || (Z.rem year 400 =? 0).
Definition rtc_days : list (list Z) :=
  [[0; 0; 31; 59; 90; 120; 151; 181; 212; 243; 273; 304; 334];
   [0; 0; 31; 60; 91; 121; 152; 182; 213; 244; 274; 305; 335]].
(** [days] has thirteen columns: another month reads outside the table. *)
Definition rtc_get_yday (year month day : Z) : RM Z :=
  if (0 <=? month) && (month <=? 12) then
    mret (i32 (nth (Z.to_nat month) (nth (if rtc_year_is_leap year then 1%nat else 0%nat) rtc_days []) 0 + day))
  else panic "days index".
(** The sums are of [int]s; wrapping them once, at the end, is the same. *)
Definition rtc_get_wday (year month day : Z) : Z :=
  let '(day, year) := if month <? 3 then (day + year, i32 (year - 1)) else (day + (year - 2), year) in
  Z.rem (i32 (Z.quot (i32 (23 * month)) 9 + day + 4 + Z.quot year 4 - Z.quot year 100 + Z.quot year 400)) 7.

(** The [struct tm] that date, time and century registers mean. *)
Definition tm_of (d : rtc_date_t) (t : rtc_time_t) (cent : Z) : RM tm :=
  let mday := d_day d mod 32 in
  let mon := Z.rem (d_month d - 1) 12 in
  let year := d_year d mod 100 + cent * 100 - 1900 in
  yday ← rtc_get_yday (year + 1900) (mon + 1) mday;
  mret (Tm (t_second t mod 61) (t_minute t mod 60) (t_hour t mod 24) mday mon year (d_week d mod 7)
    (Z.rem yday 366) (-1)).
Definition is_running (m : rtc_timer_mode_t) : bool := match m with RTC_TIMER_RUNNING => true | _ => false end.
Definition rtc_timer_get_tm : RM (option tm) :=
  m ← rtc_timer_get_mode;
  if negb (is_running m) then mret None
  else r ← gets rtc; t ← tm_of (date r) (time r) (century r); mret (Some t).
Definition rtc_alarm_get_tm : RM (option tm) :=
  m ← rtc_timer_get_mode;
  if negb (is_running m) then mret None
  else r ← gets rtc; t ← tm_of (alarm_date r) (alarm_time r) (century r); mret (Some t).

Definition tm_from (year month day hour minute second : Z) : RM tm :=
  yday ← rtc_get_yday year month day;
  mret (Tm second minute hour day (i32 (month - 1)) (i32 (year - 1900)) (rtc_get_wday year month day) yday (-1)).
Definition rtc_timer_set (year month day hour minute second : Z) : RM Z :=
  t ← tm_from year month day hour minute second; rtc_timer_set_tm (Some t).
Definition rtc_alarm_set (year month day hour minute second : Z) : RM Z :=
  t ← tm_from year month day hour minute second; rtc_alarm_set_tm (Some t).
(** The six results, or [None] for -1; no pointer is null here. *)
Definition six (t : tm) : list Z := [tm_year t + 1900; tm_mon t + 1; tm_mday t; tm_hour t; tm_min t; tm_sec t].
Definition rtc_timer_get : RM (option (list Z)) := t ← rtc_timer_get_tm; mret (six <$> t).
Definition rtc_alarm_get : RM (option (list Z)) := t ← rtc_alarm_get_tm; mret (six <$> t).

(** ** Counters and interrupts *)
Definition setting (c : RM unit) : RM Z :=
  rtc_timer_set_mode RTC_TIMER_SETTING;; c;; rtc_timer_set_mode RTC_TIMER_RUNNING;; mret 0.
Definition rtc_timer_set_clock_frequency (frequency : Z) : RM Z := setting (set_rtc (put_initial (u32 frequency))).
Definition rtc_timer_get_clock_frequency : RM Z := gets (λ s, initial_count (rtc s)).
Definition rtc_timer_set_clock_count_value (count : Z) : RM Z := setting (set_rtc (put_current (u32 count))).
Definition rtc_timer_get_clock_count_value : RM Z := gets (λ s, current_count (rtc s)).
Definition int_ctrl : RM rtc_interrupt_ctrl_t := gets (λ s, interrupt_ctrl (rtc s)).
Definition rtc_tick_set_interrupt (enable : Z) : RM Z :=
  c ← int_ctrl;
  setting (set_rtc (put_int (IntCtrl (enable mod 2) (alarm_enable c) (tick_int_mode c) (alarm_compare_mask c)))).
Definition rtc_tick_get_interrupt : RM Z := c ← int_ctrl; mret (tick_enable c).
Definition rtc_tick_set_interrupt_mode (mode : Z) : RM Z :=
  c ← int_ctrl;
  setting (set_rtc (put_int (IntCtrl (tick_enable c) (alarm_enable c) (mode mod 4) (alarm_compare_mask c)))).
Definition rtc_tick_get_interrupt_mode : RM Z := c ← int_ctrl; mret (tick_int_mode c).
Definition rtc_alarm_set_interrupt (enable : Z) : RM Z :=
  c ← int_ctrl;
  setting (set_rtc (put_int (IntCtrl (tick_enable c) (enable mod 2) (tick_int_mode c) (alarm_compare_mask c)))).
Definition rtc_alarm_get_interrupt : RM Z := c ← int_ctrl; mret (alarm_enable c).
Definition rtc_alarm_set_mask (mask : rtc_mask_t) : RM Z :=
  c ← int_ctrl;
  setting (set_rtc (put_int (IntCtrl (tick_enable c) (alarm_enable c) (tick_int_mode c) (mask_byte mask)))).
Definition rtc_alarm_get_mask : RM rtc_mask_t := c ← int_ctrl; mret (byte_mask (alarm_compare_mask c)).

Definition rtc_protect_set (enable : Z) : RM Z :=
  c ← gets (λ s, register_ctrl (rtc s));
  let mask := mask_byte (Mask true true true true true true true) in
  let unmask := mask_byte (Mask false false false false false false false) in
  set_rtc (put_reg (
    if negb (enable =? 0) then RegCtrl (read_enable c) (write_enable c) unmask unmask 0 0
    else RegCtrl (read_enable c) (write_enable c) mask mask 1 1));;
  mret 0.

(** A call of the system controller. *)
Definition in_sysctl {A : Type} (c : M (sysctl_reg → Z) A) : RM A := λ s,
  match c (sysctl s) with
  | Done (a, r) => Done (a, RS (rtc s) (rtc_instance s) (called s) r)
  | Panic e => Panic e
  | NoFuel => NoFuel
  end.
Definition rtc_init : RM Z :=
  in_sysctl (sysctl_reset SYSCTL_RESET_RTC);;
  in_sysctl (sysctl_clock_enable SYSCTL_CLOCK_RTC);;
  rtc_protect_set 0;;
  f ← in_sysctl (sysctl_clock_get_freq 8 SYSCTL_CLOCK_IN0);
  rtc_timer_set_clock_frequency f;;
  rtc_timer_set_clock_count_value 1;;
  rtc_timer_set_mode RTC_TIMER_RUNNING;;
  mret 0.

(** ** Ticks and alarms *)
Definition get_inst : RM rtc_instance_t := gets rtc_instance.
Definition invoke (callback ctx : Z) : RM unit :=
  if callback =? 0 then mret tt
  else modify (λ s, RS (rtc s) (rtc_instance s) (called s ++ [(callback, ctx)]) (sysctl s)).
(** A tick that was programmed for the alarm goes back to what the user asked for. *)
Definition restore_tick (i : rtc_instance_t) : RM unit :=
  if tick_enable_by_user i then
    m ← rtc_tick_get_interrupt_mode;
    if m <? tick_mode_by_user i then
      rtc_tick_set_interrupt 0;; rtc_tick_set_interrupt_mode (tick_mode_by_user i);; rtc_tick_set_interrupt 1;; mret tt
    else mret tt
  else rtc_tick_set_interrupt 0;; mret tt.
Definition no_alarm_tick (i : rtc_instance_t) : rtc_instance_t :=
  Inst (rtc_tick_callback i) (tick_ctx i) (rtc_alarm_callback i) (alarm_ctx i) (tick_is_single_shot i)
    (alarm_is_single_shot i) false (tick_enable_by_user i) (tick_mode_by_user i) RTC_INT_MAX.
Definition no_user_tick (i : rtc_instance_t) : rtc_instance_t :=
  Inst (rtc_tick_callback i) (tick_ctx i) (rtc_alarm_callback i) (alarm_ctx i) (tick_is_single_shot i)
    (alarm_is_single_shot i) (tick_enable_by_alarm i) false (u32 (-1)) (tick_mode_by_alarm i).

(** Whether the fields the mask selects agree; an alarm with no mask never fires. *)
Definition alarm_matches (m : rtc_mask_t) (now alarm : tm) : bool :=
  negb (Z.land (mask_byte m) 0xFE =? 0) &&
  (negb (m_year m) || (tm_year now =? tm_year alarm)) && (negb (m_month m) || (tm_mon now =? tm_mon alarm)) &&
  (negb (m_day m) || (tm_mday now =? tm_mday alarm)) && (negb (m_hour m) || (tm_hour now =? tm_hour alarm)) &&
  (negb (m_minute m) || (tm_min now =? tm_min alarm)) && (negb (m_second m) || (tm_sec now =? tm_sec alarm)).
Definition tick_due (mode : Z) (now : tm) : bool :=
  if mode =? RTC_INT_MINUTE then tm_sec now =? 0
  else if mode =? RTC_INT_HOUR then (tm_sec now =? 0) && (tm_min now =? 0)
  else if mode =? RTC_INT_DAY then (tm_sec now =? 0) && (tm_min now =? 0) && (tm_hour now =? 0)
  else true.
Definition need_tm (t : option tm) : RM tm := match t with Some t => mret t | None => panic "null tm" end.

(** A null [tm] is only followed where a field of it is compared. *)
Definition alarm_part (now : option tm) : RM unit :=
  a ← rtc_alarm_get_interrupt;
  if a =? 0 then mret tt
  else
    alarm ← rtc_alarm_get_tm;
    m ← rtc_alarm_get_mask;
    fires ← (if Z.land (mask_byte m) 0xFE =? 0 then mret false
             else if m_year m || m_month m || m_day m || m_hour m || m_minute m || m_second m
             then n ← need_tm now; al ← need_tm alarm; mret (alarm_matches m n al)
             else mret true);
    if negb fires then mret tt
    else
      i ← get_inst;
      (if alarm_is_single_shot i then
         rtc_alarm_set_interrupt 0;;
         set_instance no_alarm_tick;;
         i ← get_inst;
         restore_tick i
       else mret tt);;
      i ← get_inst;
      invoke (rtc_alarm_callback i) (alarm_ctx i).
Definition tick_part (now : option tm) : RM unit :=
  i ← get_inst;
  if negb (tick_enable_by_user i) then mret tt
  else
    due ← (if (tick_mode_by_user i =? RTC_INT_MINUTE) || (tick_mode_by_user i =? RTC_INT_HOUR) ||
              (tick_mode_by_user i =? RTC_INT_DAY)
           then n ← need_tm now; mret (tick_due (tick_mode_by_user i) n) else mret true);
    if negb due then mret tt
    else
      (if tick_is_single_shot i then rtc_tick_set_interrupt 0;; set_instance no_user_tick else mret tt);;
      invoke (rtc_tick_callback i) (tick_ctx i).
Definition rtc_irq_callback : RM Z :=
  now ← rtc_timer_get_tm;
  alarm_part now;;
  tick_part now;;
  mret 0.

Definition rtc_tick_irq_register (is_single_shot : bool) (mode callback ctx : Z) : RM Z :=
  rtc_tick_set_interrupt 0;;
  set_instance (λ i, Inst callback ctx (rtc_alarm_callback i) (alarm_ctx i) is_single_shot (alarm_is_single_shot i)
    (tick_enable_by_alarm i) true mode (tick_mode_by_alarm i));;
  i ← get_inst;
  m ← rtc_tick_get_interrupt_mode;
  (if negb (tick_enable_by_alarm i) || (tick_enable_by_alarm i && (mode <? m))
   then rtc_tick_set_interrupt_mode mode;; mret tt else mret tt);;
  rtc_tick_set_interrupt 1;;
  mret 0.
Definition rtc_tick_irq_unregister : RM unit :=
  a ← rtc_alarm_get_interrupt;
  (if a =? 0 then rtc_tick_set_interrupt 0;; mret tt else mret tt);;
  set_instance (λ i, Inst 0 0 (rtc_alarm_callback i) (alarm_ctx i) (tick_is_single_shot i) (alarm_is_single_shot i)
    (tick_enable_by_alarm i) false (u32 (-1)) (tick_mode_by_alarm i)).
(** The finest unit the mask selects. *)
Definition alarm_mode (m : rtc_mask_t) : Z :=
  if m_second m then RTC_INT_SECOND else if m_minute m then RTC_INT_MINUTE else if m_hour m then RTC_INT_HOUR
  else RTC_INT_DAY.
Definition rtc_alarm_irq_register (is_single_shot : bool) (mask : rtc_mask_t) (callback ctx : Z) : RM Z :=
  rtc_tick_set_interrupt 0;;
  rtc_alarm_set_interrupt 0;;
  set_instance (λ i, Inst (rtc_tick_callback i) (tick_ctx i) callback ctx (tick_is_single_shot i) is_single_shot
    true (tick_enable_by_user i) (tick_mode_by_user i) (alarm_mode mask));;
  i ← get_inst;
  m ← rtc_tick_get_interrupt_mode;
  (if (tick_enable_by_user i && (tick_mode_by_alarm i <? m)) || negb (tick_enable_by_user i)
   then rtc_tick_set_interrupt_mode (tick_mode_by_alarm i);; mret tt else mret tt);;
  rtc_alarm_set_mask mask;;
  rtc_alarm_set_interrupt 1;;
  rtc_tick_set_interrupt 1;;
  mret 0.
Definition rtc_alarm_irq_unregister : RM unit :=
  rtc_alarm_set_interrupt 0;;
  set_instance (λ i, Inst (rtc_tick_callback i) (tick_ctx i) 0 0 (tick_is_single_shot i) (alarm_is_single_shot i)
    false (tick_enable_by_user i) (tick_mode_by_user i) RTC_INT_MAX);;
  i ← get_inst;
  restore_tick i.
