(* ===== verification/Clock.v ===== *)
(** * Wall-clock time: device/Clock.cpp and [CurrentTimeSpec] of os/time.cpp

    The clients of the real-time clock, and what setting and reading it
    promise: the round trip through the registers, and the seconds since 1970. *)
From S2P Require Import Prelude Time Bits Sysctl Rtc.

(** ** os/time.cpp, built for the K210 *)

(** [junk]: what the six uninitialised variables hold; they are only replaced
    when the clock is running. *)
Definition CurrentTimeSpec (junk : list Z) : RM (Z * Z) :=
  t ← rtc_timer_get;
  let v := default junk t in
  let arg (i : nat) := u32 (nth i v 0) in
  let unix_time := i64 (mktime (arg 0%nat) (arg 1%nat) (arg 2%nat) (arg 3%nat) (arg 4%nat) (arg 5%nat)) in
  count ← rtc_timer_get_clock_count_value;
  freq ← in_sysctl (sysctl_clock_get_freq 8 SYSCTL_CLOCK_IN0);
  let us := Z.quot (Z.rem count freq) (Z.quot freq 1000000) in
  mret (unix_time, us * 1000).
(** Built for the emulator there is no clock to read. *)
Definition CurrentTimeSpec_qemu : Z * Z := (1626699516, 69527494).

(** ** device/Clock.cpp *)
Definition setDateTime (year month day hour minute second : Z) : RM Z := rtc_timer_set year month day hour minute second.
Definition getDateTime : RM (option (list Z)) := rtc_timer_get.

(** [leapYears[0 .. i]] after [i] rounds of the loop of [initLeapYears]. *)
Fixpoint leapYears_upto (i : nat) : list Z :=
  match i with
  | O => [0]
  | S i' =>
      let l := leapYears_upto i' in
      let year := Z.of_nat i + 1970 in
      let before := nth i' l 0 in
      l ++ [if ((Z.rem year 4 =? 0) && negb (Z.rem year 100 =? 0)) || (Z.rem year 400 =? 0)
            then before + 1 else before]
  end.
Definition initLeapYears : list Z := leapYears_upto 99.

(** Seconds and microseconds; outside the array there is no value to read. *)
Definition getTimeVal (leapYears : list Z) (freq : Z) : RM (Z * Z) :=
  t ← rtc_timer_get_tm;
  tm ← need_tm t;
  let off := i32 (tm_year tm - 70) in
  if (off - 1 <? 0) || (Z.of_nat (length leapYears) <=? off - 1) then panic "leapYears out of range"
  else
    let leaps := nth (Z.to_nat (off - 1)) leapYears 0 in
    let days := leaps * 366 + (off - leaps) * 365 + tm_yday tm in
    let sec := u64 (days * 86400 + tm_hour tm * 3600 + tm_sec tm) in
    count ← rtc_timer_get_clock_count_value;
    let us := Z.quot (Z.rem count freq) (Z.quot freq 1000000) in
    mret (sec, us).
(** The leap-year table and the frequency it leaves. *)
Definition init : RM (list Z * Z) :=
  rtc_init;;
  freq ← in_sysctl (sysctl_clock_get_freq 8 SYSCTL_CLOCK_IN0);
  rtc_timer_set 2021 6 1 23 59 59;;
  mret (initLeapYears, freq).

(** ** Setting the clock *)

(** The registers after [rtc_timer_set_tm] wrote a date, a time and a century. *)
Definition clock_set (d : rtc_date_t) (t : rtc_time_t) (c : Z) (s : rst) : rst :=
  let g := register_ctrl (rtc s) in
  RS (put_reg (RegCtrl 1 0 (timer_mask g) (alarm_mask g) (initial_count_mask g) (interrupt_register_mask g))
        (put_century c (put_time t (put_date d (rtc s)))))
     (rtc_instance s) (called s) (sysctl s).

Lemma rtc_timer_set_tm_run t s :
  rtc_timer_set_tm (Some t) s =
  match checked_tm t with
  | None => Done (-1, s)
  | Some (d, c, cent) => Done (0, clock_set d c cent s)
  end.
Proof.
  unfold rtc_timer_set_tm. destruct (checked_tm t) as [[[d c] cent]|]; reflexivity.
Qed.

(** On a day of the Gregorian calendar nothing wraps. *)
Lemma rtc_get_wday_small y m d :
  0 ≤ y < 3200 → 1 ≤ m ≤ 12 → 1 ≤ d ≤ 31 →
  rtc_get_wday y m d =
  Z.rem (if m <? 3 then Z.quot (23 * m) 9 + (d + y) + 4 + Z.quot (y - 1) 4 - Z.quot (y - 1) 100 + Z.quot (y - 1) 400
         else Z.quot (23 * m) 9 + (d + (y - 2)) + 4 + Z.quot y 4 - Z.quot y 100 + Z.quot y 400) 7.
Proof.
  intros Hy Hm Hd. unfold rtc_get_wday.
  destruct (Z.ltb_spec m 3); cbv beta iota;
    rewrite ?(i32_small (y - 1)), (i32_small (23 * m)), i32_small by (lia || dlia); reflexivity.
Qed.

Lemma rtc_get_wday_range y m d :
  0 ≤ y < 3200 → 1 ≤ m ≤ 12 → 1 ≤ d ≤ 31 → 0 ≤ rtc_get_wday y m d ≤ 6.
Proof.
  intros Hy Hm Hd. rewrite rtc_get_wday_small by done. destruct (Z.ltb_spec m 3); dlia.
Qed.

(** What is accepted: the code checks each field alone, so February 31st passes. *)
Definition accepted (y m d h mi s : Z) : Prop :=
  0 ≤ y < 3200 ∧ 1 ≤ m ≤ 12 ∧ 1 ≤ d ≤ 31 ∧ 0 ≤ h < 24 ∧ 0 ≤ mi < 60 ∧ 0 ≤ s < 60.

Lemma rtc_in_range_true v a b : a ≤ v ≤ b → rtc_in_range v a b = true.
Proof. intros. unfold rtc_in_range. apply andb_true_iff. split; apply Z.leb_le; lia. Qed.
Lemma rtc_in_range_false v a b : ¬ (a ≤ v ≤ b) → rtc_in_range v a b = false.
Proof.
  intros. unfold rtc_in_range. destruct (Z.leb_spec a v), (Z.leb_spec v b); (reflexivity || lia).
Qed.

(** The year's day, counted from 1, of a month inside the table. *)
Definition yday_value (y m d : Z) : Z :=
  i32 (nth (Z.to_nat m) (nth (if rtc_year_is_leap y then 1%nat else 0%nat) rtc_days []) 0 + d).
Lemma rtc_get_yday_run y m d s :
  rtc_get_yday y m d s = if decide (0 ≤ m ≤ 12) then Done (yday_value y m d, s) else Panic "days index".
Proof.
  unfold rtc_get_yday. destruct (Z.leb_spec 0 m), (Z.leb_spec m 12), (decide _); (reflexivity || lia).
Qed.
(** The [struct tm] [rtc_timer_set] makes of a month inside the table. *)
Definition tm_value (y m d h mi s : Z) : tm :=
  Tm s mi h d (i32 (m - 1)) (i32 (y - 1900)) (rtc_get_wday y m d) (yday_value y m d) (-1).
Lemma tm_from_run y m d h mi sec s :
  tm_from y m d h mi sec s =
  if decide (0 ≤ m ≤ 12) then Done (tm_value y m d h mi sec, s) else Panic "days index".
Proof.
  unfold tm_from, mbind, M_bind. rewrite rtc_get_yday_run. by destruct (decide _).
Qed.

Lemma checked_tm_from y m d h mi s :
  accepted y m d h mi s →
  checked_tm (tm_value y m d h mi s) =
  Some (Date (rtc_get_wday y m d) d m (y mod 100), Clk s mi h, y / 100).
Proof.
  intros (Hy & Hm & Hd & Hh & Hmi & Hs). pose proof (rtc_get_wday_range y m d Hy Hm Hd).
  unfold checked_tm, tm_value. cbn -[rtc_in_range rtc_get_wday Z.sub Z.add Z.rem Z.quot Z.modulo Z.pow i32].
  rewrite (i32_small (m - 1)), (i32_small (y - 1900)), i32_small by lia.
  replace (y - 1900 + 1900) with y by lia. rewrite Z.rem_mod_nonneg, Z.quot_div_nonneg by lia.
  rewrite !rtc_in_range_true by (try lia; dlia). cbn [negb andb].
  replace (m - 1 + 1) with m by lia.
  rewrite (Z.mod_small (rtc_get_wday _ _ _)), (Z.mod_small d), (Z.mod_small m), (Z.mod_small (y mod 100)),
    (Z.mod_small s), (Z.mod_small mi), (Z.mod_small h), (Z.mod_small (y / 100)) by (try lia; dlia).
  reflexivity.
Qed.

Lemma checked_tm_rejects y m d h mi s :
  - 2 ^ 31 ≤ y < 2 ^ 31 → 0 ≤ m ≤ 12 → ¬ accepted y m d h mi s →
  checked_tm (tm_value y m d h mi s) = None.
Proof.
  intros Hy Hm Hn. unfold checked_tm, tm_value.
  cbn -[rtc_in_range rtc_get_wday Z.sub Z.add Z.rem Z.quot Z.modulo Z.pow i32].
  rewrite (i32_small (m - 1)) by lia.
  assert (i32 (i32 (y - 1900) + 1900) = y) as -> by (unfold i32; dlia). unfold accepted in Hn.
  repeat (match goal with |- context [rtc_in_range ?v ?a ?b] =>
    destruct (decide (a ≤ v ≤ b)) as [?|?];
    [rewrite (rtc_in_range_true v a b) by done|rewrite (rtc_in_range_false v a b) by done; cbn [negb andb]; reflexivity || (rewrite ?andb_false_r; reflexivity)]; cbn [negb andb] end).
  exfalso. apply Hn. split_and!; try lia; dlia.
Qed.

(** ** The weekday *)

(** The leap years up to [y]. *)
Definition leaps_to (y : Z) : Z := y / 4 - y / 100 + y / 400.

Lemma leaps_to_step y : leaps_to y = leaps_to (y - 1) + (if gregorian_leap y then 1 else 0).
Proof.
  destruct (gregorian_leap_cases y) as [H1 H2]. unfold leaps_to.
  destruct (gregorian_leap y); [specialize (H1 eq_refl)|specialize (H2 eq_refl)]; dlia.
Qed.

(** [23 * month / 9] is the days before the month, up to weeks and the two days
    February lacks. *)
Lemma month_weeks m :
  1 ≤ m ≤ 12 → ∃ k, 23 * m / 9 - (if 2 <? m then 2 else 0) + 719528 - days_in_year m = 7 * k.
Proof.
  intros Hm. assert (∃ n, (n < 12)%nat ∧ m = 1 + Z.of_nat n) as (n & Hn & ->).
  { exists (Z.to_nat (m - 1)). lia. }
  do 12 (destruct n as [|n]; [match goal with |- ∃ k, ?x = _ =>
    let v := eval vm_compute in (x / 7) in exists v; reflexivity end|]). lia.
Qed.

Lemma rtc_get_wday_gregorian y m d :
  1970 ≤ y < 3200 → 1 ≤ m ≤ 12 → 1 ≤ d ≤ 31 → rtc_get_wday y m d = (civil_days y m d + 4) mod 7.
Proof.
  intros Hy Hm Hd. unfold civil_days. rewrite months_days_table, years_days_closed, Z2Nat.id by lia.
  replace (1970 + (y - 1970)) with y by lia. destruct (month_weeks m Hm) as [k Hk].
  pose proof (leaps_to_step y) as Hl. unfold leaps_to in Hl. rewrite rtc_get_wday_small by lia.
  assert (0 ≤ 23 * m / 9) by dlia. assert (0 ≤ y / 4 - y / 100) by dlia.
  assert (0 ≤ (y - 1) / 4 - (y - 1) / 100) by dlia. assert (0 ≤ y / 400) by dlia.
  assert (0 ≤ (y - 1) / 400) by dlia.
  destruct (Z.ltb_spec m 3), (Z.ltb_spec 2 m); try lia;
    rewrite !Z.quot_div_nonneg, Z.rem_mod_nonneg by lia.
  - rewrite andb_false_r.
    rewrite <- (Z.mod_add (365 * _ + _ - _ + _ - _ + _ + _ + 4) (k - 52 * y) 7) by lia. f_equal. lia.
  - rewrite andb_true_r.
    rewrite <- (Z.mod_add (365 * _ + _ - _ + _ - _ + _ + _ + 4) (k - 52 * y) 7) by lia. f_equal. lia.
Qed.

(** ** Reading the clock *)

(** The registers [rtc_timer_set] leaves. *)
Definition clock_at (y m d h mi s : Z) : rst → rst :=
  clock_set (Date (rtc_get_wday y m d) d m (y mod 100)) (Clk s mi h) (y / 100).

Lemma rtc_timer_set_run y m d h mi sec s :
  - 2 ^ 31 ≤ y < 2 ^ 31 →
  (accepted y m d h mi sec → rtc_timer_set y m d h mi sec s = Done (0, clock_at y m d h mi sec s)) ∧
  (0 ≤ m ≤ 12 → ¬ accepted y m d h mi sec → rtc_timer_set y m d h mi sec s = Done (-1, s)) ∧
  (¬ (0 ≤ m ≤ 12) → rtc_timer_set y m d h mi sec s = Panic "days index").
Proof.
  intros Hy. unfold rtc_timer_set, mbind, M_bind. rewrite tm_from_run. split_and!.
  - intros Ha. pose proof Ha as (_ & Hm & _). rewrite decide_True by lia.
    by rewrite rtc_timer_set_tm_run, checked_tm_from.
  - intros Hm Ha. rewrite decide_True by done. by rewrite rtc_timer_set_tm_run, checked_tm_rejects.
  - intros Hm. by rewrite decide_False.
Qed.

(** What registers mean that hold an accepted date, in the century [c]. *)
Definition shown (y m d h mi sec w c : Z) : tm :=
  let y' := c * 100 + y mod 100 in
  Tm sec mi h d (m - 1) (y' - 1900) w (Z.rem (yday_value y' m d) 366) (-1).
Lemma tm_of_accepted y m d h mi sec w c s :
  accepted y m d h mi sec → 0 ≤ w ≤ 6 →
  tm_of (Date w d m (y mod 100)) (Clk sec mi h) c s = Done (shown y m d h mi sec w c, s).
Proof.
  intros (Hy & Hm & Hd & Hh & Hmi & Hs) Hw. unfold tm_of, shown.
  cbn -[rtc_get_yday Z.sub Z.add Z.rem Z.modulo Z.mul Z.div yday_value].
  rewrite (Z.mod_small sec), (Z.mod_small mi), (Z.mod_small h), (Z.mod_small d), (Z.mod_small w) by lia.
  rewrite Z.rem_mod_nonneg, (Z.mod_small (m - 1)), Z.mod_mod by lia.
  replace (m - 1 + 1) with m by lia. rewrite (Z.add_comm (y mod 100)).
  replace (c * 100 + y mod 100 - 1900 + 1900) with (c * 100 + y mod 100) by lia.
  unfold mbind, M_bind. by rewrite rtc_get_yday_run, decide_True by lia.
Qed.

Lemma six_shown y m d h mi sec w c :
  six (shown y m d h mi sec w c) = [c * 100 + y mod 100; m; d; h; mi; sec].
Proof.
  unfold six, shown. cbn -[Z.sub Z.add Z.mul Z.modulo]. replace (m - 1 + 1) with m by lia. f_equal. lia.
Qed.

(** A running clock shows what its registers mean. *)
Lemma rtc_timer_get_tm_running s t :
  read_enable (register_ctrl (rtc s)) = 1 → write_enable (register_ctrl (rtc s)) = 0 →
  tm_of (date (rtc s)) (time (rtc s)) (century (rtc s)) s = Done (t, s) →
  rtc_timer_get_tm s = Done (Some t, s).
Proof.
  intros Hr Hw E. unfold rtc_timer_get_tm, rtc_timer_get_mode, gets, mbind, M_bind. rewrite Hr, Hw. cbn -[tm_of].
  by rewrite E.
Qed.
Lemma rtc_alarm_get_tm_running s t :
  read_enable (register_ctrl (rtc s)) = 1 → write_enable (register_ctrl (rtc s)) = 0 →
  tm_of (alarm_date (rtc s)) (alarm_time (rtc s)) (century (rtc s)) s = Done (t, s) →
  rtc_alarm_get_tm s = Done (Some t, s).
Proof.
  intros Hr Hw E. unfold rtc_alarm_get_tm, rtc_timer_get_mode, gets, mbind, M_bind. rewrite Hr, Hw. cbn -[tm_of].
  by rewrite E.
Qed.

Lemma rtc_timer_get_tm_set y m d h mi sec s :
  accepted y m d h mi sec →
  let s' := clock_at y m d h mi sec s in
  rtc_timer_get_tm s' =
  Done (Some (Tm sec mi h d (m - 1) (y - 1900) (rtc_get_wday y m d) (Z.rem (yday_value y m d) 366) (-1)), s').
Proof.
  intros Ha. cbv zeta. pose proof Ha as (Hy & Hm & Hd & _).
  pose proof (tm_of_accepted y m d h mi sec (rtc_get_wday y m d) (y / 100) (clock_at y m d h mi sec s) Ha
    ltac:(by apply rtc_get_wday_range)) as E.
  unfold shown in E. replace (y / 100 * 100 + y mod 100) with y in E by dlia.
  by apply rtc_timer_get_tm_running.
Qed.

Lemma rtc_timer_get_set y m d h mi sec s :
  accepted y m d h mi sec →
  let s' := clock_at y m d h mi sec s in rtc_timer_get s' = Done (Some [y; m; d; h; mi; sec], s').
Proof.
  intros Ha. cbv zeta. unfold rtc_timer_get. step (rtc_timer_get_tm_set y m d h mi sec s Ha).
  unfold six, mret, M_ret. cbn -[Z.sub Z.add].
  replace (m - 1 + 1) with m by lia. by replace (y - 1900 + 1900) with y by lia.
Qed.

Lemma in_freq s : in_sysctl (sysctl_clock_get_freq 8 SYSCTL_CLOCK_IN0) s = Done (26000000, s).
Proof. by destruct s. Qed.

Lemma civil_secs_bound y m d h mi s :
  1970 ≤ y → accepted y m d h mi s → 0 ≤ civil_secs y m d h mi s < 2 ^ 40.
Proof.
  intros Hy (Hy' & Hm & Hd & Hh & Hmi & Hs). unfold civil_secs, civil_days.
  rewrite months_days_table, years_days_closed, Z2Nat.id by lia.
  assert (0 ≤ days_in_year m ≤ 334).
  { assert (∃ n, (n < 12)%nat ∧ m = 1 + Z.of_nat n) as (n & Hn & ->).
    { exists (Z.to_nat (m - 1)). lia. }
    do 12 (destruct n as [|n]; [vm_compute; split; discriminate|]). lia. }
  destruct (gregorian_leap y && (2 <? m)); dlia.
Qed.

Lemma CurrentTimeSpec_set junk y m d h mi sec s :
  1970 ≤ y → accepted y m d h mi sec → 0 ≤ current_count (rtc s) →
  let s' := clock_at y m d h mi sec s in
  ∃ nsec, 0 ≤ nsec < 1000000000 ∧
    CurrentTimeSpec junk s' = Done ((civil_secs y m d h mi sec, nsec), s').
Proof.
  intros Hy Ha Hc. cbv zeta. pose proof Ha as (Hy' & Hm & Hd & Hh & Hmi & Hs).
  exists (Z.quot (Z.rem (current_count (rtc s)) 26000000) 26 * 1000). split.
  - rewrite Z.rem_mod_nonneg, Z.quot_div_nonneg by dlia. dlia.
  - unfold CurrentTimeSpec. step (rtc_timer_get_set y m d h mi sec s Ha).
    unfold rtc_timer_get_clock_count_value, gets, mbind at 1, M_bind at 1. cbv beta iota zeta.
    step (in_freq (clock_at y m d h mi sec s)). cbn [nth default from_option id].
    rewrite !u32_small by lia. rewrite mktime_civil by (done || lia).
    rewrite i64_small; [reflexivity|]. pose proof (civil_secs_bound _ _ _ _ _ _ Hy Ha). lia.
Qed.

(** ** The alarm *)

(** The alarm's registers keep no century: what is read back is in the clock's. *)
Lemma rtc_alarm_set_run y m d h mi sec s t :
  accepted y m d h mi sec →
  (∀ s', tm_of (date (rtc s)) (time (rtc s)) (century (rtc s)) s' = Done (t, s')) →
  ∃ s', rtc_alarm_set y m d h mi sec s = Done (0, s') ∧
    rtc_timer_get s' = Done (Some (six t), s') ∧
    rtc_alarm_get s' = Done (Some [century (rtc s) * 100 + y mod 100; m; d; h; mi; sec], s').
Proof.
  intros Ha Ht. pose proof Ha as (Hy & Hm & Hd & Hh & Hmi & Hs).
  unfold rtc_alarm_set, mbind, M_bind. rewrite tm_from_run, decide_True by lia.
  unfold rtc_alarm_set_tm. rewrite checked_tm_from by done. eexists. split; [reflexivity|]. split.
  - unfold rtc_timer_get. erewrite M_bind_Done; [|apply rtc_timer_get_tm_running; [done..|apply Ht]]. done.
  - unfold rtc_alarm_get. erewrite M_bind_Done.
    2: { apply rtc_alarm_get_tm_running; [done..|]. cbn -[tm_of].
      apply (tm_of_accepted y m d h mi sec); [done|by apply rtc_get_wday_range]. }
    unfold mret, M_ret. cbn [fmap option_fmap option_map]. by rewrite six_shown.
Qed.

(** ** [getTimeVal] *)

Lemma leapYears_table : forallb (λ i, nth i initLeapYears 0 =? leaps_to (1970 + Z.of_nat i) - 477) (List.seq 0 100) = true.
Proof. vm_compute. reflexivity. Qed.

Lemma leapYears_at y : 1971 ≤ y < 2070 → nth (Z.to_nat (y - 1971)) initLeapYears 0 = leaps_to (y - 1) - 477.
Proof.
  intros Hy. pose proof leapYears_table as H. rewrite List.forallb_forall in H.
  specialize (H (Z.to_nat (y - 1971)) ltac:(apply List.in_seq; lia)). cbv beta in H. apply Z.eqb_eq in H.
  rewrite H. do 2 f_equal. lia.
Qed.

Lemma yday_value_eq y m d :
  0 ≤ y → 1 ≤ m ≤ 12 → 1 ≤ d ≤ 31 →
  yday_value y m d = months_days (gregorian_leap y) (Z.to_nat (m - 1)) + d.
Proof.
  intros Hy Hm Hd. unfold yday_value.
  assert (rtc_year_is_leap y = gregorian_leap y) as ->.
  { unfold rtc_year_is_leap, gregorian_leap. rewrite !Z.rem_mod_nonneg by lia.
    destruct (Z.eqb_spec (y mod 4) 0), (Z.eqb_spec (y mod 100) 0), (Z.eqb_spec (y mod 400) 0);
      cbn; try done; dlia. }
  assert (∃ n, (n < 12)%nat ∧ m = 1 + Z.of_nat n) as (n & Hn & ->).
  { exists (Z.to_nat (m - 1)). lia. }
  do 12 (destruct n as [|n]; [destruct (gregorian_leap y);
    match goal with |- i32 (?a + d) = _ => let v := eval vm_compute in a in change a with v end; rewrite i32_small by lia; reflexivity|]). lia.
Qed.

Lemma day_of_year_range y m d :
  1 ≤ m ≤ 12 → valid_date y m d → (gregorian_leap y && (m =? 12) && (d =? 31)) = false →
  0 < months_days (gregorian_leap y) (Z.to_nat (m - 1)) + d < 366.
Proof.
  intros Hm [_ Hd] Hlast. pose proof (months_days_range _ m d Hm Hd) as Hr.
  destruct (gregorian_leap y); [|lia]. split; [lia|].
  destruct (Z.eqb_spec m 12) as [->|Hm12].
  - change (months_days true (Z.to_nat (12 - 1))) with 335. change (month_length true 12) with 31 in Hd.
    destruct (Z.eqb_spec d 31); [discriminate|]. lia.
  - pose proof (month_length_bound true m). rewrite months_days_table by done.
    assert (days_in_year m ≤ 304).
    { assert (∃ n, (n < 11)%nat ∧ m = 1 + Z.of_nat n) as (n & Hn & ->).
      { exists (Z.to_nat (m - 1)). lia. }
      do 11 (destruct n as [|n]; [vm_compute; discriminate|]). lia. }
    destruct (true && (2 <? m)); lia.
Qed.

(** [getTimeVal] counts the current day as past and drops the minutes. *)
Lemma getTimeVal_set y m d h mi sec s :
  1971 ≤ y < 2070 → accepted y m d h mi sec → valid_date y m d →
  (gregorian_leap y && (m =? 12) && (d =? 31)) = false →
  let s' := clock_at y m d h mi sec s in
  ∃ us, getTimeVal initLeapYears 26000000 s' =
    Done ((civil_secs y m d h mi sec + 86400 - 60 * mi, us), s').
Proof.
  intros Hy Ha Hv Hlast. cbv zeta. pose proof Ha as (Hy' & Hm & Hd' & Hh & Hmi & Hs).
  pose proof (day_of_year_range y m d Hm Hv Hlast) as Hr.
  pose proof (civil_secs_bound y m d h mi sec ltac:(lia) Ha) as Hb.
  unfold getTimeVal. step (rtc_timer_get_tm_set y m d h mi sec s Ha).
  unfold need_tm. unfold mbind, M_bind at 1, mret, M_ret at 1. cbv beta iota zeta.
  cbn [tm_year tm_yday tm_hour tm_sec].
  rewrite i32_small by lia. replace (y - 1900 - 70 - 1) with (y - 1971) by lia.
  change (Z.of_nat (length initLeapYears)) with 100.
  destruct (Z.ltb_spec (y - 1971) 0), (Z.leb_spec 100 (y - 1971)); try lia. cbn [orb].
  eexists. unfold rtc_timer_get_clock_count_value, gets, mbind, M_bind, mret, M_ret. do 3 f_equal.
  rewrite leapYears_at, yday_value_eq, Z.rem_small by lia.
  unfold civil_secs, civil_days in Hb |- *. rewrite years_days_closed, Z2Nat.id in Hb |- * by lia.
  unfold leaps_to. replace (1970 + (y - 1970) - 1) with (y - 1) in Hb |- * by lia.
  rewrite u64_small by lia. lia.
Qed.

(** ** The clock keeps what it is given *)

(** Claim C24. Setting and reading the clock, for every six [int]s.  A date and
    time every field of which the code accepts - the year from 0 to 3199 - is
    what the clock shows after [setDateTime]: [getDateTime] returns the six
    numbers; from 1970 on the weekday register holds the Gregorian day of the
    week and, with a tick counter that is not negative, [CurrentTimeSpec]
    returns the seconds of the Gregorian calendar since 1970, with less than a
    second of nanoseconds.  An alarm set after that leaves the time alone and
    reads back in the clock's century, not its own.  Any other date whose month
    is in 0..12 is refused with -1 and changes no register; with another month
    [days] is read outside its bounds before anything is checked. *)
Theorem clock_set_read (s : rst) (y m d h mi sec : Z) :
  - 2 ^ 31 ≤ y < 2 ^ 31 → 0 ≤ current_count (rtc s) →
  (accepted y m d h mi sec → ∃ s',
     setDateTime y m d h mi sec s = Done (0, s') ∧
     getDateTime s' = Done (Some [y; m; d; h; mi; sec], s') ∧
     (1970 ≤ y →
        d_week (date (rtc s')) = (civil_days y m d + 4) mod 7 ∧
        ∀ junk, ∃ nsec, 0 ≤ nsec < 1000000000 ∧
          CurrentTimeSpec junk s' = Done ((civil_secs y m d h mi sec, nsec), s')) ∧
     (∀ y' m' d' h' mi' sec', accepted y' m' d' h' mi' sec' → ∃ s'',
        rtc_alarm_set y' m' d' h' mi' sec' s' = Done (0, s'') ∧
        getDateTime s'' = Done (Some [y; m; d; h; mi; sec], s'') ∧
        rtc_alarm_get s'' = Done (Some [y / 100 * 100 + y' mod 100; m'; d'; h'; mi'; sec'], s''))) ∧
  (0 ≤ m ≤ 12 → ¬ accepted y m d h mi sec → setDateTime y m d h mi sec s = Done (-1, s)) ∧
  (¬ (0 ≤ m ≤ 12) → setDateTime y m d h mi sec s = Panic "days index").
Proof.
  intros Hy Hc. destruct (rtc_timer_set_run y m d h mi sec s Hy) as [H1 H2].
  split; [|exact H2]. intros Ha. exists (clock_at y m d h mi sec s).
  pose proof Ha as (Hy0 & Hm & Hd & _).
  split; [by apply H1|]. split; [by apply rtc_timer_get_set|]. split.
  - intros Hy'. split; [apply rtc_get_wday_gregorian; lia|]. intros junk. by apply CurrentTimeSpec_set.
  - intros y' m' d' h' mi' sec' Ha'.
    destruct (rtc_alarm_set_run y' m' d' h' mi' sec' (clock_at y m d h mi sec s)
      (shown y m d h mi sec (rtc_get_wday y m d) (y / 100)) Ha') as (s'' & E & E' & Eg).
    { intros s'. apply tm_of_accepted; [done|by apply rtc_get_wday_range]. }
    exists s''. split; [done|]. split; [|exact Eg]. unfold getDateTime. rewrite E', six_shown.
    by replace (y / 100 * 100 + y mod 100) with y by dlia.
Qed.

(** A clock whose registers are all zero. *)
Definition zero_rst : rst :=
  RS (Rtc (Date 0 0 0 0) (Clk 0 0 0) (Date 0 0 0 0) (Clk 0 0 0) 0 0
        (IntCtrl 0 0 0 0) (RegCtrl 0 0 0 0 0 0) 0) rtc_instance0 [] (λ _, 0).
Lemma clock_set_read_witness :
  (∃ s', setDateTime 2021 6 1 23 59 59 zero_rst = Done (0, s') ∧
     getDateTime s' = Done (Some [2021; 6; 1; 23; 59; 59], s') ∧ d_week (date (rtc s')) = 2 ∧
     ∃ s'', rtc_alarm_set 1999 12 31 0 0 1 s' = Done (0, s'') ∧
       rtc_alarm_get s'' = Done (Some [2099; 12; 31; 0; 0; 1], s'')) ∧
  setDateTime 2021 0 1 0 0 0 zero_rst = Done (-1, zero_rst) ∧
  setDateTime 2021 13 1 0 0 0 zero_rst = Panic "days index".
Proof.
  split; [|split].
  - destruct (clock_set_read zero_rst 2021 6 1 23 59 59 ltac:(lia) ltac:(done)) as [H _].
    destruct H as (s' & H1 & H2 & H3 & H4); [unfold accepted; lia|]. exists s'.
    destruct (H3 ltac:(lia)) as [Hw _].
    destruct (H4 1999 12 31 0 0 1) as (s'' & E & _ & Eg); [unfold accepted; lia|].
    split; [exact H1|]. split; [exact H2|]. split; [rewrite Hw; vm_compute; reflexivity|].
    exists s''. split; [exact E|exact Eg].
  - apply (clock_set_read zero_rst 2021 0 1 0 0 0); [lia|done|lia|unfold accepted; lia].
  - apply (clock_set_read zero_rst 2021 13 1 0 0 0); [lia|done|lia].
Defined.
