(* ===== verification/FpioaTable.v ===== *)
(** * The pin multiplexer of the K210: the table of kernel/driver/fpioa.c

    The numbers of the 256 functions a pin can have (include/driver/fpioa.hpp)
    and the configuration each of them needs, row by row as the code has them;
    the rows of one device are one definition. *)
From S2P Require Import Prelude.

Definition FUNC_JTAG_TCLK : Z := 0.
Definition FUNC_JTAG_TDI : Z := 1.
Definition FUNC_JTAG_TMS : Z := 2.
Definition FUNC_JTAG_TDO : Z := 3.
Definition FUNC_SPI0_D0 : Z := 4.
Definition FUNC_SPI0_D1 : Z := 5.
Definition FUNC_SPI0_D2 : Z := 6.
Definition FUNC_SPI0_D3 : Z := 7.
Definition FUNC_SPI0_D4 : Z := 8.
Definition FUNC_SPI0_D5 : Z := 9.
Definition FUNC_SPI0_D6 : Z := 10.
Definition FUNC_SPI0_D7 : Z := 11.
Definition FUNC_SPI0_SS0 : Z := 12.
Definition FUNC_SPI0_SS1 : Z := 13.
Definition FUNC_SPI0_SS2 : Z := 14.
Definition FUNC_SPI0_SS3 : Z := 15.
Definition FUNC_SPI0_ARB : Z := 16.
Definition FUNC_SPI0_SCLK : Z := 17.
Definition FUNC_UARTHS_RX : Z := 18.
Definition FUNC_UARTHS_TX : Z := 19.
Definition FUNC_RESV6 : Z := 20.
Definition FUNC_RESV7 : Z := 21.
Definition FUNC_CLK_SPI1 : Z := 22.
Definition FUNC_CLK_I2C1 : Z := 23.
Definition FUNC_GPIOHS0 : Z := 24.
Definition FUNC_GPIOHS1 : Z := 25.
Definition FUNC_GPIOHS2 : Z := 26.
Definition FUNC_GPIOHS3 : Z := 27.
Definition FUNC_GPIOHS4 : Z := 28.
Definition FUNC_GPIOHS5 : Z := 29.
Definition FUNC_GPIOHS6 : Z := 30.
Definition FUNC_GPIOHS7 : Z := 31.
Definition FUNC_GPIOHS8 : Z := 32.
Definition FUNC_GPIOHS9 : Z := 33.
Definition FUNC_GPIOHS10 : Z := 34.
Definition FUNC_GPIOHS11 : Z := 35.
Definition FUNC_GPIOHS12 : Z := 36.
Definition FUNC_GPIOHS13 : Z := 37.
Definition FUNC_GPIOHS14 : Z := 38.
Definition FUNC_GPIOHS15 : Z := 39.
Definition FUNC_GPIOHS16 : Z := 40.
Definition FUNC_GPIOHS17 : Z := 41.
Definition FUNC_GPIOHS18 : Z := 42.
Definition FUNC_GPIOHS19 : Z := 43.
Definition FUNC_GPIOHS20 : Z := 44.
Definition FUNC_GPIOHS21 : Z := 45.
Definition FUNC_GPIOHS22 : Z := 46.
Definition FUNC_GPIOHS23 : Z := 47.
Definition FUNC_GPIOHS24 : Z := 48.
Definition FUNC_GPIOHS25 : Z := 49.
Definition FUNC_GPIOHS26 : Z := 50.
Definition FUNC_GPIOHS27 : Z := 51.
Definition FUNC_GPIOHS28 : Z := 52.
Definition FUNC_GPIOHS29 : Z := 53.
Definition FUNC_GPIOHS30 : Z := 54.
Definition FUNC_GPIOHS31 : Z := 55.
Definition FUNC_GPIO0 : Z := 56.
Definition FUNC_GPIO1 : Z := 57.
Definition FUNC_GPIO2 : Z := 58.
Definition FUNC_GPIO3 : Z := 59.
Definition FUNC_GPIO4 : Z := 60.
Definition FUNC_GPIO5 : Z := 61.
Definition FUNC_GPIO6 : Z := 62.
Definition FUNC_GPIO7 : Z := 63.
Definition FUNC_UART1_RX : Z := 64.
Definition FUNC_UART1_TX : Z := 65.
Definition FUNC_UART2_RX : Z := 66.
Definition FUNC_UART2_TX : Z := 67.
Definition FUNC_UART3_RX : Z := 68.
Definition FUNC_UART3_TX : Z := 69.
Definition FUNC_SPI1_D0 : Z := 70.
Definition FUNC_SPI1_D1 : Z := 71.
Definition FUNC_SPI1_D2 : Z := 72.
Definition FUNC_SPI1_D3 : Z := 73.
Definition FUNC_SPI1_D4 : Z := 74.
Definition FUNC_SPI1_D5 : Z := 75.
Definition FUNC_SPI1_D6 : Z := 76.
Definition FUNC_SPI1_D7 : Z := 77.
Definition FUNC_SPI1_SS0 : Z := 78.
Definition FUNC_SPI1_SS1 : Z := 79.
Definition FUNC_SPI1_SS2 : Z := 80.
Definition FUNC_SPI1_SS3 : Z := 81.
Definition FUNC_SPI1_ARB : Z := 82.
Definition FUNC_SPI1_SCLK : Z := 83.
Definition FUNC_SPI_SLAVE_D0 : Z := 84.
Definition FUNC_SPI_SLAVE_SS : Z := 85.
Definition FUNC_SPI_SLAVE_SCLK : Z := 86.
Definition FUNC_I2S0_MCLK : Z := 87.
Definition FUNC_I2S0_SCLK : Z := 88.
Definition FUNC_I2S0_WS : Z := 89.
Definition FUNC_I2S0_IN_D0 : Z := 90.
Definition FUNC_I2S0_IN_D1 : Z := 91.
Definition FUNC_I2S0_IN_D2 : Z := 92.
Definition FUNC_I2S0_IN_D3 : Z := 93.
Definition FUNC_I2S0_OUT_D0 : Z := 94.
Definition FUNC_I2S0_OUT_D1 : Z := 95.
Definition FUNC_I2S0_OUT_D2 : Z := 96.
Definition FUNC_I2S0_OUT_D3 : Z := 97.
Definition FUNC_I2S1_MCLK : Z := 98.
Definition FUNC_I2S1_SCLK : Z := 99.
Definition FUNC_I2S1_WS : Z := 100.
Definition FUNC_I2S1_IN_D0 : Z := 101.
Definition FUNC_I2S1_IN_D1 : Z := 102.
Definition FUNC_I2S1_IN_D2 : Z := 103.
Definition FUNC_I2S1_IN_D3 : Z := 104.
Definition FUNC_I2S1_OUT_D0 : Z := 105.
Definition FUNC_I2S1_OUT_D1 : Z := 106.
Definition FUNC_I2S1_OUT_D2 : Z := 107.
Definition FUNC_I2S1_OUT_D3 : Z := 108.
Definition FUNC_I2S2_MCLK : Z := 109.
Definition FUNC_I2S2_SCLK : Z := 110.
Definition FUNC_I2S2_WS : Z := 111.
Definition FUNC_I2S2_IN_D0 : Z := 112.
Definition FUNC_I2S2_IN_D1 : Z := 113.
Definition FUNC_I2S2_IN_D2 : Z := 114.
Definition FUNC_I2S2_IN_D3 : Z := 115.
Definition FUNC_I2S2_OUT_D0 : Z := 116.
Definition FUNC_I2S2_OUT_D1 : Z := 117.
Definition FUNC_I2S2_OUT_D2 : Z := 118.
Definition FUNC_I2S2_OUT_D3 : Z := 119.
Definition FUNC_RESV0 : Z := 120.
Definition FUNC_RESV1 : Z := 121.
Definition FUNC_RESV2 : Z := 122.
Definition FUNC_RESV3 : Z := 123.
Definition FUNC_RESV4 : Z := 124.
Definition FUNC_RESV5 : Z := 125.
Definition FUNC_I2C0_SCLK : Z := 126.
Definition FUNC_I2C0_SDA : Z := 127.
Definition FUNC_I2C1_SCLK : Z := 128.
Definition FUNC_I2C1_SDA : Z := 129.
Definition FUNC_I2C2_SCLK : Z := 130.
Definition FUNC_I2C2_SDA : Z := 131.
Definition FUNC_CMOS_XCLK : Z := 132.
Definition FUNC_CMOS_RST : Z := 133.
Definition FUNC_CMOS_PWDN : Z := 134.
Definition FUNC_CMOS_VSYNC : Z := 135.
Definition FUNC_CMOS_HREF : Z := 136.
Definition FUNC_CMOS_PCLK : Z := 137.
Definition FUNC_CMOS_D0 : Z := 138.
Definition FUNC_CMOS_D1 : Z := 139.
Definition FUNC_CMOS_D2 : Z := 140.
Definition FUNC_CMOS_D3 : Z := 141.
Definition FUNC_CMOS_D4 : Z := 142.
Definition FUNC_CMOS_D5 : Z := 143.
Definition FUNC_CMOS_D6 : Z := 144.
Definition FUNC_CMOS_D7 : Z := 145.
Definition FUNC_SCCB_SCLK : Z := 146.
Definition FUNC_SCCB_SDA : Z := 147.
Definition FUNC_UART1_CTS : Z := 148.
Definition FUNC_UART1_DSR : Z := 149.
Definition FUNC_UART1_DCD : Z := 150.
Definition FUNC_UART1_RI : Z := 151.
Definition FUNC_UART1_SIR_IN : Z := 152.
Definition FUNC_UART1_DTR : Z := 153.
Definition FUNC_UART1_RTS : Z := 154.
Definition FUNC_UART1_OUT2 : Z := 155.
Definition FUNC_UART1_OUT1 : Z := 156.
Definition FUNC_UART1_SIR_OUT : Z := 157.
Definition FUNC_UART1_BAUD : Z := 158.
Definition FUNC_UART1_RE : Z := 159.
Definition FUNC_UART1_DE : Z := 160.
Definition FUNC_UART1_RS485_EN : Z := 161.
Definition FUNC_UART2_CTS : Z := 162.
Definition FUNC_UART2_DSR : Z := 163.
Definition FUNC_UART2_DCD : Z := 164.
Definition FUNC_UART2_RI : Z := 165.
Definition FUNC_UART2_SIR_IN : Z := 166.
Definition FUNC_UART2_DTR : Z := 167.
Definition FUNC_UART2_RTS : Z := 168.
Definition FUNC_UART2_OUT2 : Z := 169.
Definition FUNC_UART2_OUT1 : Z := 170.
Definition FUNC_UART2_SIR_OUT : Z := 171.
Definition FUNC_UART2_BAUD : Z := 172.
Definition FUNC_UART2_RE : Z := 173.
Definition FUNC_UART2_DE : Z := 174.
Definition FUNC_UART2_RS485_EN : Z := 175.
Definition FUNC_UART3_CTS : Z := 176.
Definition FUNC_UART3_DSR : Z := 177.
Definition FUNC_UART3_DCD : Z := 178.
Definition FUNC_UART3_RI : Z := 179.
Definition FUNC_UART3_SIR_IN : Z := 180.
Definition FUNC_UART3_DTR : Z := 181.
Definition FUNC_UART3_RTS : Z := 182.
Definition FUNC_UART3_OUT2 : Z := 183.
Definition FUNC_UART3_OUT1 : Z := 184.
Definition FUNC_UART3_SIR_OUT : Z := 185.
Definition FUNC_UART3_BAUD : Z := 186.
Definition FUNC_UART3_RE : Z := 187.
Definition FUNC_UART3_DE : Z := 188.
Definition FUNC_UART3_RS485_EN : Z := 189.
Definition FUNC_TIMER0_TOGGLE1 : Z := 190.
Definition FUNC_TIMER0_TOGGLE2 : Z := 191.
Definition FUNC_TIMER0_TOGGLE3 : Z := 192.
Definition FUNC_TIMER0_TOGGLE4 : Z := 193.
Definition FUNC_TIMER1_TOGGLE1 : Z := 194.
Definition FUNC_TIMER1_TOGGLE2 : Z := 195.
Definition FUNC_TIMER1_TOGGLE3 : Z := 196.
Definition FUNC_TIMER1_TOGGLE4 : Z := 197.
Definition FUNC_TIMER2_TOGGLE1 : Z := 198.
Definition FUNC_TIMER2_TOGGLE2 : Z := 199.
Definition FUNC_TIMER2_TOGGLE3 : Z := 200.
Definition FUNC_TIMER2_TOGGLE4 : Z := 201.
Definition FUNC_CLK_SPI2 : Z := 202.
Definition FUNC_CLK_I2C2 : Z := 203.
Definition FUNC_INTERNAL0 : Z := 204.
Definition FUNC_INTERNAL1 : Z := 205.
Definition FUNC_INTERNAL2 : Z := 206.
Definition FUNC_INTERNAL3 : Z := 207.
Definition FUNC_INTERNAL4 : Z := 208.
Definition FUNC_INTERNAL5 : Z := 209.
Definition FUNC_INTERNAL6 : Z := 210.
Definition FUNC_INTERNAL7 : Z := 211.
Definition FUNC_INTERNAL8 : Z := 212.
Definition FUNC_INTERNAL9 : Z := 213.
Definition FUNC_INTERNAL10 : Z := 214.
Definition FUNC_INTERNAL11 : Z := 215.
Definition FUNC_INTERNAL12 : Z := 216.
Definition FUNC_INTERNAL13 : Z := 217.
Definition FUNC_INTERNAL14 : Z := 218.
Definition FUNC_INTERNAL15 : Z := 219.
Definition FUNC_INTERNAL16 : Z := 220.
Definition FUNC_INTERNAL17 : Z := 221.
Definition FUNC_CONSTANT : Z := 222.
Definition FUNC_INTERNAL18 : Z := 223.
Definition FUNC_DEBUG0 : Z := 224.
Definition FUNC_DEBUG1 : Z := 225.
Definition FUNC_DEBUG2 : Z := 226.
Definition FUNC_DEBUG3 : Z := 227.
Definition FUNC_DEBUG4 : Z := 228.
Definition FUNC_DEBUG5 : Z := 229.
Definition FUNC_DEBUG6 : Z := 230.
Definition FUNC_DEBUG7 : Z := 231.
Definition FUNC_DEBUG8 : Z := 232.
Definition FUNC_DEBUG9 : Z := 233.
Definition FUNC_DEBUG10 : Z := 234.
Definition FUNC_DEBUG11 : Z := 235.
Definition FUNC_DEBUG12 : Z := 236.
Definition FUNC_DEBUG13 : Z := 237.
Definition FUNC_DEBUG14 : Z := 238.
Definition FUNC_DEBUG15 : Z := 239.
Definition FUNC_DEBUG16 : Z := 240.
Definition FUNC_DEBUG17 : Z := 241.
Definition FUNC_DEBUG18 : Z := 242.
Definition FUNC_DEBUG19 : Z := 243.
Definition FUNC_DEBUG20 : Z := 244.
Definition FUNC_DEBUG21 : Z := 245.
Definition FUNC_DEBUG22 : Z := 246.
Definition FUNC_DEBUG23 : Z := 247.
Definition FUNC_DEBUG24 : Z := 248.
Definition FUNC_DEBUG25 : Z := 249.
Definition FUNC_DEBUG26 : Z := 250.
Definition FUNC_DEBUG27 : Z := 251.
Definition FUNC_DEBUG28 : Z := 252.
Definition FUNC_DEBUG29 : Z := 253.
Definition FUNC_DEBUG30 : Z := 254.
Definition FUNC_DEBUG31 : Z := 255.
Definition FUNC_MAX : Z := 256.

(** [fpioa_assign_t], the fields in the order of the initialisers of the table. *)
Record fpioa_assign := Row {
  ch_sel : Z; ds : Z; oe_en : Z; oe_inv : Z; do_sel : Z; do_inv : Z; pu : Z; pd : Z; resv1 : Z;
  sl : Z; ie_en : Z; ie_inv : Z; di_inv : Z; st : Z; tie_en : Z; tie_val : Z; resv0 : Z; pad_di : Z;
}.

Definition config_JTAG : list fpioa_assign := [
  Row FUNC_JTAG_TCLK 0x0 0 0 0 0 0 0 0 0 1 0 0 1 0 0 0 0;
  Row FUNC_JTAG_TDI 0x0 0 0 0 0 0 0 0 0 1 0 0 1 0 0 0 0;
  Row FUNC_JTAG_TMS 0x0 0 0 0 0 0 0 0 0 1 0 0 1 0 0 0 0;
  Row FUNC_JTAG_TDO 0xf 1 0 0 0 0 0 0 0 0 0 0 0 0 0 0 0].
Definition config_SPI0_0 : list fpioa_assign := [
  Row FUNC_SPI0_D0 0xf 1 1 0 0 0 0 0 0 1 1 0 1 0 0 0 0;
  Row FUNC_SPI0_D1 0xf 1 1 0 0 0 0 0 0 1 1 0 1 0 0 0 0;
  Row FUNC_SPI0_D2 0xf 1 1 0 0 0 0 0 0 1 1 0 1 0 0 0 0;
  Row FUNC_SPI0_D3 0xf 1 1 0 0 0 0 0 0 1 1 0 1 0 0 0 0;
  Row FUNC_SPI0_D4 0xf 1 1 0 0 0 0 0 0 1 1 0 1 0 0 0 0;
  Row FUNC_SPI0_D5 0xf 1 1 0 0 0 0 0 0 1 1 0 1 0 0 0 0;
  Row FUNC_SPI0_D6 0xf 1 1 0 0 0 0 0 0 1 1 0 1 0 0 0 0;
  Row FUNC_SPI0_D7 0xf 1 1 0 0 0 0 0 0 1 1 0 1 0 0 0 0].
Definition config_SPI0_1 : list fpioa_assign := [
  Row FUNC_SPI0_SS0 0xf 1 0 0 0 0 0 0 0 0 0 0 0 0 0 0 0;
  Row FUNC_SPI0_SS1 0xf 1 0 0 0 0 0 0 0 0 0 0 0 0 0 0 0;
  Row FUNC_SPI0_SS2 0xf 1 0 0 0 0 0 0 0 0 0 0 0 0 0 0 0;
  Row FUNC_SPI0_SS3 0xf 1 0 0 0 0 0 0 0 0 0 0 0 0 0 0 0;
  Row FUNC_SPI0_ARB 0x0 0 0 0 0 0 0 0 0 1 0 0 1 1 1 0 0;
  Row FUNC_SPI0_SCLK 0xf 1 0 0 0 0 0 0 0 0 0 0 0 0 0 0 0].
Definition config_UARTHS : list fpioa_assign := [
  Row FUNC_UARTHS_RX 0x0 0 0 0 0 0 0 0 0 1 0 0 1 0 0 0 0;
  Row FUNC_UARTHS_TX 0xf 1 0 0 0 0 0 0 0 0 0 0 0 0 0 0 0;
  Row FUNC_RESV6 0x0 0 0 0 0 0 0 0 0 1 0 0 1 0 0 0 0;
  Row FUNC_RESV7 0x0 0 0 0 0 0 0 0 0 1 0 0 1 0 0 0 0].
Definition config_CLK_0 : list fpioa_assign := [
  Row FUNC_CLK_SPI1 0xf 1 0 0 0 0 0 0 0 0 0 0 0 0 0 0 0;
  Row FUNC_CLK_I2C1 0xf 1 0 0 0 0 0 0 0 0 0 0 0 0 0 0 0].
Definition config_GPIOHS_0 : list fpioa_assign := [
  Row FUNC_GPIOHS0 0xf 1 0 0 0 0 0 0 0 1 0 0 1 0 0 0 0;
  Row FUNC_GPIOHS1 0xf 1 0 0 0 0 0 0 0 1 0 0 1 0 0 0 0;
  Row FUNC_GPIOHS2 0xf 1 0 0 0 0 0 0 0 1 0 0 1 0 0 0 0;
  Row FUNC_GPIOHS3 0xf 1 0 0 0 0 0 0 0 1 0 0 1 0 0 0 0;
  Row FUNC_GPIOHS4 0xf 1 0 0 0 0 0 0 0 1 0 0 1 0 0 0 0;
  Row FUNC_GPIOHS5 0xf 1 0 0 0 0 0 0 0 1 0 0 1 0 0 0 0;
  Row FUNC_GPIOHS6 0xf 1 0 0 0 0 0 0 0 1 0 0 1 0 0 0 0;
  Row FUNC_GPIOHS7 0xf 1 0 0 0 0 0 0 0 1 0 0 1 0 0 0 0].
Definition config_GPIOHS_1 : list fpioa_assign := [
  Row FUNC_GPIOHS8 0xf 1 0 0 0 0 0 0 0 1 0 0 1 0 0 0 0;
  Row FUNC_GPIOHS9 0xf 1 0 0 0 0 0 0 0 1 0 0 1 0 0 0 0;
  Row FUNC_GPIOHS10 0xf 1 0 0 0 0 0 0 0 1 0 0 1 0 0 0 0;
  Row FUNC_GPIOHS11 0xf 1 0 0 0 0 0 0 0 1 0 0 1 0 0 0 0;
  Row FUNC_GPIOHS12 0xf 1 0 0 0 0 0 0 0 1 0 0 1 0 0 0 0;
  Row FUNC_GPIOHS13 0xf 1 0 0 0 0 0 0 0 1 0 0 1 0 0 0 0;
  Row FUNC_GPIOHS14 0xf 1 0 0 0 0 0 0 0 1 0 0 1 0 0 0 0;
  Row FUNC_GPIOHS15 0xf 1 0 0 0 0 0 0 0 1 0 0 1 0 0 0 0].
Definition config_GPIOHS_2 : list fpioa_assign := [
  Row FUNC_GPIOHS16 0xf 1 0 0 0 0 0 0 0 1 0 0 1 0 0 0 0;
  Row FUNC_GPIOHS17 0xf 1 0 0 0 0 0 0 0 1 0 0 1 0 0 0 0;
  Row FUNC_GPIOHS18 0xf 1 0 0 0 0 0 0 0 1 0 0 1 0 0 0 0;
  Row FUNC_GPIOHS19 0xf 1 0 0 0 0 0 0 0 1 0 0 1 0 0 0 0;
  Row FUNC_GPIOHS20 0xf 1 0 0 0 0 0 0 0 1 0 0 1 0 0 0 0;
  Row FUNC_GPIOHS21 0xf 1 0 0 0 0 0 0 0 1 0 0 1 0 0 0 0;
  Row FUNC_GPIOHS22 0xf 1 0 0 0 0 0 0 0 1 0 0 1 0 0 0 0;
  Row FUNC_GPIOHS23 0xf 1 0 0 0 0 0 0 0 1 0 0 1 0 0 0 0].
Definition config_GPIOHS_3 : list fpioa_assign := [
  Row FUNC_GPIOHS24 0xf 1 0 0 0 0 0 0 0 1 0 0 1 0 0 0 0;
  Row FUNC_GPIOHS25 0xf 1 0 0 0 0 0 0 0 1 0 0 1 0 0 0 0;
  Row FUNC_GPIOHS26 0xf 1 0 0 0 0 0 0 0 1 0 0 1 0 0 0 0;
  Row FUNC_GPIOHS27 0xf 1 0 0 0 0 0 0 0 1 0 0 1 0 0 0 0;
  Row FUNC_GPIOHS28 0xf 1 0 0 0 0 0 0 0 1 0 0 1 0 0 0 0;
  Row FUNC_GPIOHS29 0xf 1 0 0 0 0 0 0 0 1 0 0 1 0 0 0 0;
  Row FUNC_GPIOHS30 0xf 1 0 0 0 0 0 0 0 1 0 0 1 0 0 0 0;
  Row FUNC_GPIOHS31 0xf 1 0 0 0 0 0 0 0 1 0 0 1 0 0 0 0].
Definition config_GPIO : list fpioa_assign := [
  Row FUNC_GPIO0 0xf 1 0 0 0 0 0 0 0 1 0 0 1 0 0 0 0;
  Row FUNC_GPIO1 0xf 1 0 0 0 0 0 0 0 1 0 0 1 0 0 0 0;
  Row FUNC_GPIO2 0xf 1 0 0 0 0 0 0 0 1 0 0 1 0 0 0 0;
  Row FUNC_GPIO3 0xf 1 0 0 0 0 0 0 0 1 0 0 1 0 0 0 0;
  Row FUNC_GPIO4 0xf 1 0 0 0 0 0 0 0 1 0 0 1 0 0 0 0;
  Row FUNC_GPIO5 0xf 1 0 0 0 0 0 0 0 1 0 0 1 0 0 0 0;
  Row FUNC_GPIO6 0xf 1 0 0 0 0 0 0 0 1 0 0 1 0 0 0 0;
  Row FUNC_GPIO7 0xf 1 0 0 0 0 0 0 0 1 0 0 1 0 0 0 0].
Definition config_UART1_0 : list fpioa_assign := [
  Row FUNC_UART1_RX 0x0 0 0 0 0 0 0 0 0 1 0 0 1 0 0 0 0;
  Row FUNC_UART1_TX 0xf 1 0 0 0 0 0 0 0 0 0 0 0 0 0 0 0].
Definition config_UART2_0 : list fpioa_assign := [
  Row FUNC_UART2_RX 0x0 0 0 0 0 0 0 0 0 1 0 0 1 0 0 0 0;
  Row FUNC_UART2_TX 0xf 1 0 0 0 0 0 0 0 0 0 0 0 0 0 0 0].
Definition config_UART3_0 : list fpioa_assign := [
  Row FUNC_UART3_RX 0x0 0 0 0 0 0 0 0 0 1 0 0 1 0 0 0 0;
  Row FUNC_UART3_TX 0xf 1 0 0 0 0 0 0 0 0 0 0 0 0 0 0 0].
Definition config_SPI1_0 : list fpioa_assign := [
  Row FUNC_SPI1_D0 0xf 1 1 0 0 0 0 0 0 1 1 0 1 0 0 0 0;
  Row FUNC_SPI1_D1 0xf 1 1 0 0 0 0 0 0 1 1 0 1 0 0 0 0;
  Row FUNC_SPI1_D2 0xf 1 1 0 0 0 0 0 0 1 1 0 1 0 0 0 0;
  Row FUNC_SPI1_D3 0xf 1 1 0 0 0 0 0 0 1 1 0 1 0 0 0 0;
  Row FUNC_SPI1_D4 0xf 1 1 0 0 0 0 0 0 1 1 0 1 0 0 0 0;
  Row FUNC_SPI1_D5 0xf 1 1 0 0 0 0 0 0 1 1 0 1 0 0 0 0;
  Row FUNC_SPI1_D6 0xf 1 1 0 0 0 0 0 0 1 1 0 1 0 0 0 0;
  Row FUNC_SPI1_D7 0xf 1 1 0 0 0 0 0 0 1 1 0 1 0 0 0 0].
Definition config_SPI1_1 : list fpioa_assign := [
  Row FUNC_SPI1_SS0 0xf 1 0 0 0 0 0 0 0 0 0 0 0 0 0 0 0;
  Row FUNC_SPI1_SS1 0xf 1 0 0 0 0 0 0 0 0 0 0 0 0 0 0 0;
  Row FUNC_SPI1_SS2 0xf 1 0 0 0 0 0 0 0 0 0 0 0 0 0 0 0;
  Row FUNC_SPI1_SS3 0xf 1 0 0 0 0 0 0 0 0 0 0 0 0 0 0 0;
  Row FUNC_SPI1_ARB 0x0 0 0 0 0 0 0 0 0 1 0 0 1 1 1 0 0;
  Row FUNC_SPI1_SCLK 0xf 1 0 0 0 0 0 0 0 0 0 0 0 0 0 0 0].
Definition config_SPI_SLAVE : list fpioa_assign := [
  Row FUNC_SPI_SLAVE_D0 0xf 1 1 0 0 0 0 0 0 1 1 0 1 0 0 0 0;
  Row FUNC_SPI_SLAVE_SS 0x0 0 0 0 0 0 0 0 0 1 0 0 1 0 0 0 0;
  Row FUNC_SPI_SLAVE_SCLK 0x0 0 0 0 0 0 0 0 0 1 0 0 1 0 0 0 0].
Definition config_I2S0_0 : list fpioa_assign := [
  Row FUNC_I2S0_MCLK 0xf 1 0 0 0 0 0 0 0 0 0 0 0 0 0 0 0;
  Row FUNC_I2S0_SCLK 0xf 1 0 0 0 0 0 0 0 0 0 0 0 0 0 0 0;
  Row FUNC_I2S0_WS 0xf 1 0 0 0 0 0 0 0 0 0 0 0 0 0 0 0;
  Row FUNC_I2S0_IN_D0 0x0 0 0 0 0 0 0 0 0 1 0 0 1 0 0 0 0;
  Row FUNC_I2S0_IN_D1 0x0 0 0 0 0 0 0 0 0 1 0 0 1 0 0 0 0;
  Row FUNC_I2S0_IN_D2 0x0 0 0 0 0 0 0 0 0 1 0 0 1 0 0 0 0;
  Row FUNC_I2S0_IN_D3 0x0 0 0 0 0 0 0 0 0 1 0 0 1 0 0 0 0;
  Row FUNC_I2S0_OUT_D0 0xf 1 0 0 0 0 0 0 0 0 0 0 0 0 0 0 0].
Definition config_I2S0_1 : list fpioa_assign := [
  Row FUNC_I2S0_OUT_D1 0xf 1 0 0 0 0 0 0 0 0 0 0 0 0 0 0 0;
  Row FUNC_I2S0_OUT_D2 0xf 1 0 0 0 0 0 0 0 0 0 0 0 0 0 0 0;
  Row FUNC_I2S0_OUT_D3 0xf 1 0 0 0 0 0 0 0 0 0 0 0 0 0 0 0].
Definition config_I2S1_0 : list fpioa_assign := [
  Row FUNC_I2S1_MCLK 0xf 1 0 0 0 0 0 0 0 0 0 0 0 0 0 0 0;
  Row FUNC_I2S1_SCLK 0xf 1 0 0 0 0 0 0 0 0 0 0 0 0 0 0 0;
  Row FUNC_I2S1_WS 0xf 1 0 0 0 0 0 0 0 0 0 0 0 0 0 0 0;
  Row FUNC_I2S1_IN_D0 0x0 0 0 0 0 0 0 0 0 1 0 0 1 0 0 0 0;
  Row FUNC_I2S1_IN_D1 0x0 0 0 0 0 0 0 0 0 1 0 0 1 0 0 0 0;
  Row FUNC_I2S1_IN_D2 0x0 0 0 0 0 0 0 0 0 1 0 0 1 0 0 0 0;
  Row FUNC_I2S1_IN_D3 0x0 0 0 0 0 0 0 0 0 1 0 0 1 0 0 0 0;
  Row FUNC_I2S1_OUT_D0 0xf 1 0 0 0 0 0 0 0 0 0 0 0 0 0 0 0].
Definition config_I2S1_1 : list fpioa_assign := [
  Row FUNC_I2S1_OUT_D1 0xf 1 0 0 0 0 0 0 0 0 0 0 0 0 0 0 0;
  Row FUNC_I2S1_OUT_D2 0xf 1 0 0 0 0 0 0 0 0 0 0 0 0 0 0 0;
  Row FUNC_I2S1_OUT_D3 0xf 1 0 0 0 0 0 0 0 0 0 0 0 0 0 0 0].
Definition config_I2S2_0 : list fpioa_assign := [
  Row FUNC_I2S2_MCLK 0xf 1 0 0 0 0 0 0 0 0 0 0 0 0 0 0 0;
  Row FUNC_I2S2_SCLK 0xf 1 0 0 0 0 0 0 0 0 0 0 0 0 0 0 0;
  Row FUNC_I2S2_WS 0xf 1 0 0 0 0 0 0 0 0 0 0 0 0 0 0 0;
  Row FUNC_I2S2_IN_D0 0x0 0 0 0 0 0 0 0 0 1 0 0 1 0 0 0 0;
  Row FUNC_I2S2_IN_D1 0x0 0 0 0 0 0 0 0 0 1 0 0 1 0 0 0 0;
  Row FUNC_I2S2_IN_D2 0x0 0 0 0 0 0 0 0 0 1 0 0 1 0 0 0 0;
  Row FUNC_I2S2_IN_D3 0x0 0 0 0 0 0 0 0 0 1 0 0 1 0 0 0 0;
  Row FUNC_I2S2_OUT_D0 0xf 1 0 0 0 0 0 0 0 0 0 0 0 0 0 0 0].
Definition config_I2S2_1 : list fpioa_assign := [
  Row FUNC_I2S2_OUT_D1 0xf 1 0 0 0 0 0 0 0 0 0 0 0 0 0 0 0;
  Row FUNC_I2S2_OUT_D2 0xf 1 0 0 0 0 0 0 0 0 0 0 0 0 0 0 0;
  Row FUNC_I2S2_OUT_D3 0xf 1 0 0 0 0 0 0 0 0 0 0 0 0 0 0 0;
  Row FUNC_RESV0 0x0 0 0 0 0 0 0 0 0 0 0 0 0 0 0 0 0].
Definition config_RESV : list fpioa_assign := [
  Row FUNC_RESV1 0x0 0 0 0 0 0 0 0 0 0 0 0 0 0 0 0 0;
  Row FUNC_RESV2 0x0 0 0 0 0 0 0 0 0 0 0 0 0 0 0 0 0;
  Row FUNC_RESV3 0x0 0 0 0 0 0 0 0 0 0 0 0 0 0 0 0 0;
  Row FUNC_RESV4 0x0 0 0 0 0 0 0 0 0 0 0 0 0 0 0 0 0;
  Row FUNC_RESV5 0x0 0 0 0 0 0 0 0 0 0 0 0 0 0 0 0 0].
Definition config_I2C0 : list fpioa_assign := [
  Row FUNC_I2C0_SCLK 0x0 1 0 0 0 1 0 0 1 1 0 0 1 0 0 0 0;
  Row FUNC_I2C0_SDA 0x0 1 0 0 0 1 0 0 1 1 0 0 1 0 0 0 0].
Definition config_I2C1 : list fpioa_assign := [
  Row FUNC_I2C1_SCLK 0x0 1 0 0 0 1 0 0 1 1 0 0 1 0 0 0 0;
  Row FUNC_I2C1_SDA 0x0 1 0 0 0 1 0 0 1 1 0 0 1 0 0 0 0].
Definition config_I2C2 : list fpioa_assign := [
  Row FUNC_I2C2_SCLK 0x0 1 0 0 0 1 0 0 1 1 0 0 1 0 0 0 0;
  Row FUNC_I2C2_SDA 0x0 1 0 0 0 1 0 0 1 1 0 0 1 0 0 0 0].
Definition config_CMOS_0 : list fpioa_assign := [
  Row FUNC_CMOS_XCLK 0xf 1 0 0 0 0 0 0 0 0 0 0 0 0 0 0 0;
  Row FUNC_CMOS_RST 0xf 1 0 0 0 0 0 0 0 0 0 0 0 0 0 0 0;
  Row FUNC_CMOS_PWDN 0xf 1 0 0 0 0 0 0 0 0 0 0 0 0 0 0 0;
  Row FUNC_CMOS_VSYNC 0x0 0 0 0 0 0 0 0 0 1 0 0 1 0 0 0 0;
  Row FUNC_CMOS_HREF 0x0 0 0 0 0 0 0 0 0 1 0 0 1 0 0 0 0;
  Row FUNC_CMOS_PCLK 0x0 0 0 0 0 0 0 0 0 1 0 0 1 0 0 0 0;
  Row FUNC_CMOS_D0 0x0 0 0 0 0 0 0 0 0 1 0 0 1 0 0 0 0;
  Row FUNC_CMOS_D1 0x0 0 0 0 0 0 0 0 0 1 0 0 1 0 0 0 0].
Definition config_CMOS_1 : list fpioa_assign := [
  Row FUNC_CMOS_D2 0x0 0 0 0 0 0 0 0 0 1 0 0 1 0 0 0 0;
  Row FUNC_CMOS_D3 0x0 0 0 0 0 0 0 0 0 1 0 0 1 0 0 0 0;
  Row FUNC_CMOS_D4 0x0 0 0 0 0 0 0 0 0 1 0 0 1 0 0 0 0;
  Row FUNC_CMOS_D5 0x0 0 0 0 0 0 0 0 0 1 0 0 1 0 0 0 0;
  Row FUNC_CMOS_D6 0x0 0 0 0 0 0 0 0 0 1 0 0 1 0 0 0 0;
  Row FUNC_CMOS_D7 0x0 0 0 0 0 0 0 0 0 1 0 0 1 0 0 0 0].
Definition config_SCCB : list fpioa_assign := [
  Row FUNC_SCCB_SCLK 0x0 1 1 0 0 1 0 0 1 1 0 0 1 0 0 0 0;
  Row FUNC_SCCB_SDA 0x0 1 1 0 0 1 0 0 1 1 0 0 1 0 0 0 0].
Definition config_UART1_1 : list fpioa_assign := [
  Row FUNC_UART1_CTS 0x0 0 0 0 0 0 0 0 0 1 0 0 1 0 0 0 0;
  Row FUNC_UART1_DSR 0x0 0 0 0 0 0 0 0 0 1 0 0 1 0 0 0 0;
  Row FUNC_UART1_DCD 0x0 0 0 0 0 0 0 0 0 1 0 0 1 0 0 0 0;
  Row FUNC_UART1_RI 0x0 0 0 0 0 0 0 0 0 1 0 0 1 0 0 0 0;
  Row FUNC_UART1_SIR_IN 0x0 0 0 0 0 0 0 0 0 1 0 0 1 0 0 0 0;
  Row FUNC_UART1_DTR 0xf 1 0 0 0 0 0 0 0 0 0 0 0 0 0 0 0;
  Row FUNC_UART1_RTS 0xf 1 0 0 0 0 0 0 0 0 0 0 0 0 0 0 0;
  Row FUNC_UART1_OUT2 0xf 1 0 0 0 0 0 0 0 0 0 0 0 0 0 0 0].
Definition config_UART1_2 : list fpioa_assign := [
  Row FUNC_UART1_OUT1 0xf 1 0 0 0 0 0 0 0 0 0 0 0 0 0 0 0;
  Row FUNC_UART1_SIR_OUT 0xf 1 0 0 0 0 0 0 0 0 0 0 0 0 0 0 0;
  Row FUNC_UART1_BAUD 0xf 1 0 0 0 0 0 0 0 0 0 0 0 0 0 0 0;
  Row FUNC_UART1_RE 0xf 1 0 0 0 0 0 0 0 0 0 0 0 0 0 0 0;
  Row FUNC_UART1_DE 0xf 1 0 0 0 0 0 0 0 0 0 0 0 0 0 0 0;
  Row FUNC_UART1_RS485_EN 0xf 1 0 0 0 0 0 0 0 0 0 0 0 0 0 0 0].
Definition config_UART2_1 : list fpioa_assign := [
  Row FUNC_UART2_CTS 0x0 0 0 0 0 0 0 0 0 1 0 0 1 0 0 0 0;
  Row FUNC_UART2_DSR 0x0 0 0 0 0 0 0 0 0 1 0 0 1 0 0 0 0;
  Row FUNC_UART2_DCD 0x0 0 0 0 0 0 0 0 0 1 0 0 1 0 0 0 0;
  Row FUNC_UART2_RI 0x0 0 0 0 0 0 0 0 0 1 0 0 1 0 0 0 0;
  Row FUNC_UART2_SIR_IN 0x0 0 0 0 0 0 0 0 0 1 0 0 1 0 0 0 0;
  Row FUNC_UART2_DTR 0xf 1 0 0 0 0 0 0 0 0 0 0 0 0 0 0 0;
  Row FUNC_UART2_RTS 0xf 1 0 0 0 0 0 0 0 0 0 0 0 0 0 0 0;
  Row FUNC_UART2_OUT2 0xf 1 0 0 0 0 0 0 0 0 0 0 0 0 0 0 0].
Definition config_UART2_2 : list fpioa_assign := [
  Row FUNC_UART2_OUT1 0xf 1 0 0 0 0 0 0 0 0 0 0 0 0 0 0 0;
  Row FUNC_UART2_SIR_OUT 0xf 1 0 0 0 0 0 0 0 0 0 0 0 0 0 0 0;
  Row FUNC_UART2_BAUD 0xf 1 0 0 0 0 0 0 0 0 0 0 0 0 0 0 0;
  Row FUNC_UART2_RE 0xf 1 0 0 0 0 0 0 0 0 0 0 0 0 0 0 0;
  Row FUNC_UART2_DE 0xf 1 0 0 0 0 0 0 0 0 0 0 0 0 0 0 0;
  Row FUNC_UART2_RS485_EN 0xf 1 0 0 0 0 0 0 0 0 0 0 0 0 0 0 0].
Definition config_UART3_1 : list fpioa_assign := [
  Row FUNC_UART3_CTS 0x0 0 0 0 0 0 0 0 0 1 0 0 1 0 0 0 0;
  Row FUNC_UART3_DSR 0x0 0 0 0 0 0 0 0 0 1 0 0 1 0 0 0 0;
  Row FUNC_UART3_DCD 0x0 0 0 0 0 0 0 0 0 1 0 0 1 0 0 0 0;
  Row FUNC_UART3_RI 0x0 0 0 0 0 0 0 0 0 1 0 0 1 0 0 0 0;
  Row FUNC_UART3_SIR_IN 0x0 0 0 0 0 0 0 0 0 1 0 0 1 0 0 0 0;
  Row FUNC_UART3_DTR 0xf 1 0 0 0 0 0 0 0 0 0 0 0 0 0 0 0;
  Row FUNC_UART3_RTS 0xf 1 0 0 0 0 0 0 0 0 0 0 0 0 0 0 0;
  Row FUNC_UART3_OUT2 0xf 1 0 0 0 0 0 0 0 0 0 0 0 0 0 0 0].
Definition config_UART3_2 : list fpioa_assign := [
  Row FUNC_UART3_OUT1 0xf 1 0 0 0 0 0 0 0 0 0 0 0 0 0 0 0;
  Row FUNC_UART3_SIR_OUT 0xf 1 0 0 0 0 0 0 0 0 0 0 0 0 0 0 0;
  Row FUNC_UART3_BAUD 0xf 1 0 0 0 0 0 0 0 0 0 0 0 0 0 0 0;
  Row FUNC_UART3_RE 0xf 1 0 0 0 0 0 0 0 0 0 0 0 0 0 0 0;
  Row FUNC_UART3_DE 0xf 1 0 0 0 0 0 0 0 0 0 0 0 0 0 0 0;
  Row FUNC_UART3_RS485_EN 0xf 1 0 0 0 0 0 0 0 0 0 0 0 0 0 0 0].
Definition config_TIMER0 : list fpioa_assign := [
  Row FUNC_TIMER0_TOGGLE1 0xf 1 0 0 0 0 0 0 0 0 0 0 0 0 0 0 0;
  Row FUNC_TIMER0_TOGGLE2 0xf 1 0 0 0 0 0 0 0 0 0 0 0 0 0 0 0;
  Row FUNC_TIMER0_TOGGLE3 0xf 1 0 0 0 0 0 0 0 0 0 0 0 0 0 0 0;
  Row FUNC_TIMER0_TOGGLE4 0xf 1 0 0 0 0 0 0 0 0 0 0 0 0 0 0 0].
Definition config_TIMER1 : list fpioa_assign := [
  Row FUNC_TIMER1_TOGGLE1 0xf 1 0 0 0 0 0 0 0 0 0 0 0 0 0 0 0;
  Row FUNC_TIMER1_TOGGLE2 0xf 1 0 0 0 0 0 0 0 0 0 0 0 0 0 0 0;
  Row FUNC_TIMER1_TOGGLE3 0xf 1 0 0 0 0 0 0 0 0 0 0 0 0 0 0 0;
  Row FUNC_TIMER1_TOGGLE4 0xf 1 0 0 0 0 0 0 0 0 0 0 0 0 0 0 0].
Definition config_TIMER2 : list fpioa_assign := [
  Row FUNC_TIMER2_TOGGLE1 0xf 1 0 0 0 0 0 0 0 0 0 0 0 0 0 0 0;
  Row FUNC_TIMER2_TOGGLE2 0xf 1 0 0 0 0 0 0 0 0 0 0 0 0 0 0 0;
  Row FUNC_TIMER2_TOGGLE3 0xf 1 0 0 0 0 0 0 0 0 0 0 0 0 0 0 0;
  Row FUNC_TIMER2_TOGGLE4 0xf 1 0 0 0 0 0 0 0 0 0 0 0 0 0 0 0].
Definition config_CLK_1 : list fpioa_assign := [
  Row FUNC_CLK_SPI2 0xf 1 0 0 0 0 0 0 0 0 0 0 0 0 0 0 0;
  Row FUNC_CLK_I2C2 0xf 1 0 0 0 0 0 0 0 0 0 0 0 0 0 0 0;
  Row FUNC_INTERNAL0 0xf 1 0 0 0 0 0 0 0 0 0 0 0 0 0 0 0;
  Row FUNC_INTERNAL1 0xf 1 0 0 0 0 0 0 0 0 0 0 0 0 0 0 0].
Definition config_OTHER_0 : list fpioa_assign := [
  Row FUNC_INTERNAL2 0xf 1 0 0 0 0 0 0 0 0 0 0 0 0 0 0 0;
  Row FUNC_INTERNAL3 0xf 1 0 0 0 0 0 0 0 0 0 0 0 0 0 0 0;
  Row FUNC_INTERNAL4 0xf 1 0 0 0 0 0 0 0 0 0 0 0 0 0 0 0;
  Row FUNC_INTERNAL5 0xf 1 0 0 0 0 0 0 0 0 0 0 0 0 0 0 0;
  Row FUNC_INTERNAL6 0xf 1 0 0 0 0 0 0 0 0 0 0 0 0 0 0 0;
  Row FUNC_INTERNAL7 0xf 1 0 0 0 0 0 0 0 0 0 0 0 0 0 0 0;
  Row FUNC_INTERNAL8 0xf 1 0 0 0 0 0 0 0 0 0 0 0 0 0 0 0;
  Row FUNC_INTERNAL9 0x0 0 0 0 0 0 0 0 0 1 0 0 1 0 0 0 0].
Definition config_OTHER_1 : list fpioa_assign := [
  Row FUNC_INTERNAL10 0x0 0 0 0 0 0 0 0 0 1 0 0 1 0 0 0 0;
  Row FUNC_INTERNAL11 0x0 0 0 0 0 0 0 0 0 1 0 0 1 0 0 0 0;
  Row FUNC_INTERNAL12 0x0 0 0 0 0 0 0 0 0 1 0 0 1 0 0 0 0;
  Row FUNC_INTERNAL13 0x0 0 0 0 0 1 0 0 0 1 0 0 1 0 0 0 0;
  Row FUNC_INTERNAL14 0xf 1 0 0 0 1 0 0 1 1 0 0 1 0 0 0 0;
  Row FUNC_INTERNAL15 0x0 0 0 0 0 0 0 0 0 1 0 0 1 0 0 0 0;
  Row FUNC_INTERNAL16 0x0 0 0 0 0 0 0 0 0 1 0 0 1 0 0 0 0;
  Row FUNC_INTERNAL17 0x0 0 0 0 0 0 0 0 0 1 0 0 1 0 0 0 0].
Definition config_OTHER_2 : list fpioa_assign := [
  Row FUNC_CONSTANT 0x0 0 0 0 0 0 0 0 0 0 0 0 0 0 0 0 0;
  Row FUNC_INTERNAL18 0x0 0 0 0 0 0 0 0 0 1 0 0 1 0 0 0 0].
Definition config_DEBUG_0 : list fpioa_assign := [
  Row FUNC_DEBUG0 0xf 1 0 0 0 0 0 0 0 0 0 0 0 0 0 0 0;
  Row FUNC_DEBUG1 0xf 1 0 0 0 0 0 0 0 0 0 0 0 0 0 0 0;
  Row FUNC_DEBUG2 0xf 1 0 0 0 0 0 0 0 0 0 0 0 0 0 0 0;
  Row FUNC_DEBUG3 0xf 1 0 0 0 0 0 0 0 0 0 0 0 0 0 0 0;
  Row FUNC_DEBUG4 0xf 1 0 0 0 0 0 0 0 0 0 0 0 0 0 0 0;
  Row FUNC_DEBUG5 0xf 1 0 0 0 0 0 0 0 0 0 0 0 0 0 0 0;
  Row FUNC_DEBUG6 0xf 1 0 0 0 0 0 0 0 0 0 0 0 0 0 0 0;
  Row FUNC_DEBUG7 0xf 1 0 0 0 0 0 0 0 0 0 0 0 0 0 0 0].
Definition config_DEBUG_1 : list fpioa_assign := [
  Row FUNC_DEBUG8 0xf 1 0 0 0 0 0 0 0 0 0 0 0 0 0 0 0;
  Row FUNC_DEBUG9 0xf 1 0 0 0 0 0 0 0 0 0 0 0 0 0 0 0;
  Row FUNC_DEBUG10 0xf 1 0 0 0 0 0 0 0 0 0 0 0 0 0 0 0;
  Row FUNC_DEBUG11 0xf 1 0 0 0 0 0 0 0 0 0 0 0 0 0 0 0;
  Row FUNC_DEBUG12 0xf 1 0 0 0 0 0 0 0 0 0 0 0 0 0 0 0;
  Row FUNC_DEBUG13 0xf 1 0 0 0 0 0 0 0 0 0 0 0 0 0 0 0;
  Row FUNC_DEBUG14 0xf 1 0 0 0 0 0 0 0 0 0 0 0 0 0 0 0;
  Row FUNC_DEBUG15 0xf 1 0 0 0 0 0 0 0 0 0 0 0 0 0 0 0].
Definition config_DEBUG_2 : list fpioa_assign := [
  Row FUNC_DEBUG16 0xf 1 0 0 0 0 0 0 0 0 0 0 0 0 0 0 0;
  Row FUNC_DEBUG17 0xf 1 0 0 0 0 0 0 0 0 0 0 0 0 0 0 0;
  Row FUNC_DEBUG18 0xf 1 0 0 0 0 0 0 0 0 0 0 0 0 0 0 0;
  Row FUNC_DEBUG19 0xf 1 0 0 0 0 0 0 0 0 0 0 0 0 0 0 0;
  Row FUNC_DEBUG20 0xf 1 0 0 0 0 0 0 0 0 0 0 0 0 0 0 0;
  Row FUNC_DEBUG21 0xf 1 0 0 0 0 0 0 0 0 0 0 0 0 0 0 0;
  Row FUNC_DEBUG22 0xf 1 0 0 0 0 0 0 0 0 0 0 0 0 0 0 0;
  Row FUNC_DEBUG23 0xf 1 0 0 0 0 0 0 0 0 0 0 0 0 0 0 0].
Definition config_DEBUG_3 : list fpioa_assign := [
  Row FUNC_DEBUG24 0xf 1 0 0 0 0 0 0 0 0 0 0 0 0 0 0 0;
  Row FUNC_DEBUG25 0xf 1 0 0 0 0 0 0 0 0 0 0 0 0 0 0 0;
  Row FUNC_DEBUG26 0xf 1 0 0 0 0 0 0 0 0 0 0 0 0 0 0 0;
  Row FUNC_DEBUG27 0xf 1 0 0 0 0 0 0 0 0 0 0 0 0 0 0 0;
  Row FUNC_DEBUG28 0xf 1 0 0 0 0 0 0 0 0 0 0 0 0 0 0 0;
  Row FUNC_DEBUG29 0xf 1 0 0 0 0 0 0 0 0 0 0 0 0 0 0 0;
  Row FUNC_DEBUG30 0xf 1 0 0 0 0 0 0 0 0 0 0 0 0 0 0 0;
  Row FUNC_DEBUG31 0xf 1 0 0 0 0 0 0 0 0 0 0 0 0 0 0 0].

Definition function_config : list fpioa_assign :=
  config_JTAG ++ config_SPI0_0 ++ config_SPI0_1 ++ config_UARTHS ++ config_CLK_0 ++ config_GPIOHS_0 ++
  config_GPIOHS_1 ++ config_GPIOHS_2 ++ config_GPIOHS_3 ++ config_GPIO ++ config_UART1_0 ++ config_UART2_0 ++
  config_UART3_0 ++ config_SPI1_0 ++ config_SPI1_1 ++ config_SPI_SLAVE ++ config_I2S0_0 ++ config_I2S0_1 ++
  config_I2S1_0 ++ config_I2S1_1 ++ config_I2S2_0 ++ config_I2S2_1 ++ config_RESV ++ config_I2C0 ++
  config_I2C1 ++ config_I2C2 ++ config_CMOS_0 ++ config_CMOS_1 ++ config_SCCB ++ config_UART1_1 ++
  config_UART1_2 ++ config_UART2_1 ++ config_UART2_2 ++ config_UART3_1 ++ config_UART3_2 ++ config_TIMER0 ++
  config_TIMER1 ++ config_TIMER2 ++ config_CLK_1 ++ config_OTHER_0 ++ config_OTHER_1 ++ config_OTHER_2 ++
  config_DEBUG_0 ++ config_DEBUG_1 ++ config_DEBUG_2 ++ config_DEBUG_3.
