(* ===== verification/Fpioa.v ===== *)
(** * The pin multiplexer of the K210: kernel/driver/fpioa.c

    The state is the 48 pin registers, 32-bit words; the commented-out part of
    the file is not modelled. *)
From S2P Require Import Prelude Bits FpioaTable.

Definition FPIOA_NUM_IO : Z := 48.

(** [fpioa_io_config_t] as the word its bit fields make; [resv] and [pad_di]
    are zero where the code writes it. *)
Definition field (w off v : Z) : Z := Z.shiftl (v mod 2 ^ w) off.
Definition io_word (a : fpioa_assign) : Z :=
  Z.lor (field 8 0 (ch_sel a)) (Z.lor (field 4 8 (ds a)) (Z.lor (field 1 12 (oe_en a)) (Z.lor (field 1 13 (oe_inv a))
  (Z.lor (field 1 14 (do_sel a)) (Z.lor (field 1 15 (do_inv a)) (Z.lor (field 1 16 (pu a)) (Z.lor (field 1 17 (pd a))
  (Z.lor (field 1 19 (sl a)) (Z.lor (field 1 20 (ie_en a)) (Z.lor (field 1 21 (ie_inv a)) (Z.lor (field 1 22 (di_inv a))
  (field 1 23 (st a))))))))))))).
Definition io_ch_sel (w : Z) : Z := Z.land w 0xff.

Abbreviation FM := (M (list Z)).
Definition bad_pin (number function : Z) : bool :=
  (number <? 0) || (FPIOA_NUM_IO <=? number) || (function <? 0) || (FUNC_MAX <=? function).

Inductive fpioa_pull_t := FPIOA_PULL_NONE | FPIOA_PULL_DOWN | FPIOA_PULL_UP | FPIOA_PULL_MAX.
Definition set_pull (w pu pd : Z) : Z := set_bits (set_bits w 16 1 pu) 17 1 pd.
Definition fpioa_set_io_pull (number : Z) (pull : fpioa_pull_t) : FM Z :=
  match pull with
  | FPIOA_PULL_MAX => mret (-1)
  | _ =>
      if (number <? 0) || (FPIOA_NUM_IO <=? number) then mret (-1)
      else
        io ← get;
        match io !! Z.to_nat number with
        | None => panic "fpioa->io"
        | Some cfg =>
            let cfg := match pull with
                       | FPIOA_PULL_NONE => set_pull cfg 0 0
                       | FPIOA_PULL_DOWN => set_pull cfg 0 1
                       | FPIOA_PULL_UP => set_pull cfg 1 0
                       | FPIOA_PULL_MAX => cfg
                       end in
            modify (<[Z.to_nat number := cfg]>);;
            mret 0
        end
  end.

Definition fpioa_set_function_raw (number function : Z) : FM Z :=
  if bad_pin number function then mret (-1)
  else
    match function_config !! Z.to_nat function with
    | Some a => modify (<[Z.to_nat number := io_word a]>);; mret 0
    | None => panic "function_config"
    end.

(** The loop over all pins from [index] on; [n] are left. *)
Fixpoint release_loop (number function index : Z) (n : nat) : FM unit :=
  match n with
  | O => mret tt
  | S n =>
      io ← get;
      match io !! Z.to_nat index with
      | Some w =>
          (if (io_ch_sel w =? function) && negb (index =? number)
           then fpioa_set_function_raw index FUNC_RESV0;; mret tt else mret tt);;
          release_loop number function (index + 1) n
      | None => panic "fpioa->io"
      end
  end.
Definition fpioa_set_function (number function : Z) : FM Z :=
  if bad_pin number function then mret (-1)
  else if function =? FUNC_RESV0 then fpioa_set_function_raw number FUNC_RESV0;; mret 0
  else
    release_loop number function 0 (Z.to_nat FPIOA_NUM_IO);;
    fpioa_set_function_raw number function;;
    mret 0.

Fixpoint find_loop (io : list Z) (function index : Z) : Z :=
  match io with
  | [] => -1
  | w :: io => if io_ch_sel w =? function then index else find_loop io function (index + 1)
  end.
Definition fpioa_get_io_by_function (function : Z) : FM Z := gets (λ io, find_loop io function 0).

Definition fpioa_pin_init : FM unit :=
  fpioa_set_function 27 FUNC_SPI0_SCLK;;
  fpioa_set_function 28 FUNC_SPI0_D0;;
  fpioa_set_function 26 FUNC_SPI0_D1;;
  fpioa_set_function 32 FUNC_GPIOHS7;;
  fpioa_set_function 29 FUNC_SPI0_SS3;;
  mret tt.

(** ** The table *)

Definition bit (v : Z) : bool := (v =? 0) || (v =? 1).
(** A row that fits the register and selects its own channel. *)
Definition row_ok (f : nat) (a : fpioa_assign) : bool :=
  (ch_sel a =? Z.of_nat f) && (0 <=? ds a) && (ds a <? 16) &&
  forallb bit [oe_en a; oe_inv a; do_sel a; do_inv a; pu a; pd a; sl a; ie_en a; ie_inv a; di_inv a; st a] &&
  negb ((pu a =? 1) && (pd a =? 1)) &&
  (io_ch_sel (io_word a) =? Z.of_nat f) && (0 <=? io_word a) && (io_word a <? 2 ^ 32).
Lemma table_length : length function_config = Z.to_nat FUNC_MAX.
Proof. vm_compute. reflexivity. Qed.
Lemma table_ok : forallb (λ '(f, a), row_ok f a) (zip (seq 0 256) function_config) = true.
Proof. vm_compute. reflexivity. Qed.

Lemma table_row f : 0 ≤ f < FUNC_MAX → ∃ a, function_config !! Z.to_nat f = Some a ∧ row_ok (Z.to_nat f) a = true.
Proof.
  intros Hf. destruct (lookup_lt_is_Some_2 function_config (Z.to_nat f)) as [a Ha].
  { rewrite table_length. lia. }
  exists a. split; [done|]. pose proof table_ok as H. rewrite forallb_forall in H.
  apply (H (Z.to_nat f, a)). apply list_elem_of_In, list_elem_of_lookup. exists (Z.to_nat f).
  apply lookup_zip_Some. split; [|done]. apply lookup_seq. unfold FUNC_MAX in Hf. lia.
Qed.
(** The word that selects function [f]. *)
Definition word_of (f : Z) : Z := match function_config !! Z.to_nat f with Some a => io_word a | None => 0 end.
Lemma word_of_ch f : 0 ≤ f < FUNC_MAX → io_ch_sel (word_of f) = f.
Proof.
  intros Hf. destruct (table_row f Hf) as (a & Ha & Hok). unfold word_of. rewrite Ha. unfold row_ok in Hok.
  rewrite !andb_true_iff in Hok. destruct Hok as [[[_ H] _] _]. apply Z.eqb_eq in H. lia.
Qed.

(** ** What the operations do *)

Lemma bad_pin_false number f : 0 ≤ number < FPIOA_NUM_IO → 0 ≤ f < FUNC_MAX → bad_pin number f = false.
Proof.
  intros. unfold bad_pin. rewrite !orb_false_iff, !Z.ltb_ge, !Z.leb_gt. lia.
Qed.
Lemma set_raw_ok number f io :
  0 ≤ number < FPIOA_NUM_IO → 0 ≤ f < FUNC_MAX →
  fpioa_set_function_raw number f io = Done (0, <[Z.to_nat number := word_of f]> io).
Proof.
  intros Hn Hf. unfold fpioa_set_function_raw. rewrite bad_pin_false by done.
  destruct (table_row f Hf) as (a & Ha & _). unfold word_of. by rewrite Ha.
Qed.

(** What is left of a pin when [function] goes to [number]. *)
Definition released (number function : Z) (j : nat) (w : Z) : Z :=
  if (io_ch_sel w =? function) && negb (Z.of_nat j =? number) then word_of FUNC_RESV0 else w.

Lemma release_loop_ok number f n index io :
  0 ≤ f < FUNC_MAX → 0 ≤ index → index + Z.of_nat n = FPIOA_NUM_IO → length io = Z.to_nat FPIOA_NUM_IO →
  ∃ io', release_loop number f index n io = Done (tt, io') ∧ length io' = length io ∧
    ∀ j w, io !! j = Some w → io' !! j = Some (if (Z.to_nat index <=? j)%nat then released number f j w else w).
Proof.
  intros Hf. revert index io. induction n as [|n IH]; intros index io Hi Hn Hl.
  { exists io. split; [done|]. split; [done|]. intros j w Hw. pose proof (lookup_lt_Some _ _ _ Hw).
    destruct (Nat.leb_spec (Z.to_nat index) j); [lia|done]. }
  cbn [release_loop]. rewrite (M_bind_Done _ _ _ io io eq_refl).
  destruct (lookup_lt_is_Some_2 io (Z.to_nat index)) as [w Hw]; [lia|]. rewrite Hw.
  set (io1 := <[Z.to_nat index := released number f (Z.to_nat index) w]> io).
  assert ((if (io_ch_sel w =? f) && negb (index =? number)
    then fpioa_set_function_raw index FUNC_RESV0;; mret tt else mret tt) io = Done (tt, io1)) as E.
  { unfold io1, released. rewrite Z2Nat.id by done. destruct (_ && _).
    - by step (set_raw_ok index FUNC_RESV0 io ltac:(lia) ltac:(done)).
    - by rewrite list_insert_id. }
  step E. destruct (IH (index + 1) io1) as (io' & E' & Hlen & H); [lia|lia|by unfold io1; rewrite length_insert|].
  exists io'. split; [done|]. split; [by rewrite Hlen; unfold io1; rewrite length_insert|].
  intros j v Hv. destruct (decide (j = Z.to_nat index)) as [->|Hne].
  - assert (v = w) as -> by congruence.
    specialize (H (Z.to_nat index) (released number f (Z.to_nat index) w)).
    rewrite Nat.leb_refl. rewrite H by (unfold io1; apply list_lookup_insert_eq; lia).
    destruct (Nat.leb_spec (Z.to_nat (index + 1)) (Z.to_nat index)); [lia|done].
  - rewrite (H j v) by (unfold io1; by rewrite list_lookup_insert_ne).
    destruct (Nat.leb_spec (Z.to_nat (index + 1)) j), (Nat.leb_spec (Z.to_nat index) j); try lia; done.
Qed.

(** Every function but RESV0 is on one pin at most. *)
Definition exclusive (io : list Z) : Prop :=
  ∀ i j v w, io !! i = Some v → io !! j = Some w → io_ch_sel v = io_ch_sel w → io_ch_sel v ≠ FUNC_RESV0 → i = j.

Lemma find_loop_spec io f index :
  (∃ j w, io !! j = Some w ∧ io_ch_sel w = f ∧ find_loop io f index = index + Z.of_nat j) ∨
  ((∀ j w, io !! j = Some w → io_ch_sel w ≠ f) ∧ find_loop io f index = -1).
Proof.
  revert index. induction io as [|w io IH]; intros index; cbn; [by right|].
  destruct (Z.eqb_spec (io_ch_sel w) f) as [E|E].
  - left. exists 0%nat, w. split_and!; [done..|lia].
  - destruct (IH (index + 1)) as [(j & v & Hj & Hv & ->)|[H ->]].
    + left. exists (S j), v. split_and!; [done..|lia].
    + right. split; [|done]. intros [|j] v Hv; cbn in Hv; [by simplify_eq|by eapply H].
Qed.

Lemma set_pull_ch w pu pd : io_ch_sel (set_pull w pu pd) = io_ch_sel w.
Proof.
  assert (∀ v, io_ch_sel v = get_bits v 0 8) as E by (intros v; unfold get_bits; by rewrite Z.shiftr_0_r).
  rewrite !E. unfold set_pull. by rewrite !get_set_other by lia.
Qed.

(** What [fpioa_set_function] leaves in the registers. *)
Definition gave (number function : Z) (io io' : list Z) : Prop :=
  length io' = length io ∧ io' !! Z.to_nat number = Some (word_of function) ∧
  ∀ j w, j ≠ Z.to_nat number → io !! j = Some w →
    io' !! j = Some (if function =? FUNC_RESV0 then w else released number function j w).

Lemma set_function_run number function io :
  length io = Z.to_nat FPIOA_NUM_IO → 0 ≤ number < FPIOA_NUM_IO → 0 ≤ function < FUNC_MAX →
  ∃ io', fpioa_set_function number function io = Done (0, io') ∧ gave number function io io'.
Proof.
  intros Hl Hn Hf. unfold fpioa_set_function. rewrite bad_pin_false by done. unfold gave.
  destruct (Z.eqb_spec function FUNC_RESV0) as [->|Hne].
  - step (set_raw_ok number FUNC_RESV0 io Hn Hf). eexists. split; [done|]. split; [by rewrite length_insert|].
    split; [by rewrite list_lookup_insert_eq by (rewrite Hl; lia)|]. intros. by rewrite list_lookup_insert_ne.
  - destruct (release_loop_ok number function (Z.to_nat FPIOA_NUM_IO) 0 io) as (io1 & E & Hlen & H); [done..|].
    step E. step (set_raw_ok number function io1 Hn Hf). eexists. split; [done|]. split; [by rewrite length_insert|].
    split; [by rewrite list_lookup_insert_eq by (rewrite Hlen, Hl; lia)|].
    intros j w Hj Hw. rewrite list_lookup_insert_ne by done. by apply H.
Qed.

(** A pin other than [number] that has a function had it before, and it is not
    the one that was given away. *)
Lemma gave_others number function io io' j w :
  0 ≤ number < FPIOA_NUM_IO → gave number function io io' →
  j ≠ Z.to_nat number → io' !! j = Some w → io_ch_sel w ≠ FUNC_RESV0 →
  io !! j = Some w ∧ io_ch_sel w ≠ function.
Proof.
  intros Hn (Hlen & _ & H) Hj Hw Hr. destruct (lookup_lt_is_Some_2 io j) as [v Hv].
  { apply lookup_lt_Some in Hw. lia. }
  rewrite (H j v Hj Hv) in Hw. injection Hw as <-.
  destruct (Z.eqb_spec function FUNC_RESV0) as [->|Hne]; [done|]. unfold released in *.
  destruct (Z.eqb_spec (io_ch_sel v) function) as [Ev|Ev]; [|done].
  destruct (Z.eqb_spec (Z.of_nat j) number); cbn in *; [lia|]. by rewrite word_of_ch in Hr.
Qed.

Lemma gave_exclusive number function io io' :
  0 ≤ number < FPIOA_NUM_IO → 0 ≤ function < FUNC_MAX → gave number function io io' → exclusive io → exclusive io'.
Proof.
  intros Hn Hf Hg Hex i j v w Hv Hw Heq Hr.
  pose proof (gave_others number function io io') as Hback. destruct Hg as (Hlen & Hat & H).
  destruct (decide (i = Z.to_nat number)) as [->|Hi], (decide (j = Z.to_nat number)) as [->|Hj]; [done|..].
  - rewrite Hat in Hv. injection Hv as <-. rewrite word_of_ch in * by done.
    destruct (Hback j w) as [_ ?]; (done || congruence).
  - rewrite Hat in Hw. injection Hw as <-. rewrite word_of_ch in * by done.
    destruct (Hback i v) as [_ ?]; (done || congruence).
  - destruct (Hback i v) as [? _], (Hback j w) as [? _]; try (done || congruence). by eapply Hex.
Qed.

Lemma gave_found number function io io' :
  0 ≤ number < FPIOA_NUM_IO → 0 ≤ function < FUNC_MAX → gave number function io io' → function ≠ FUNC_RESV0 →
  fpioa_get_io_by_function function io' = Done (number, io').
Proof.
  intros Hn Hf Hg Hne. unfold fpioa_get_io_by_function, gets. do 2 f_equal.
  destruct (find_loop_spec io' function 0) as [(j & w & Hj & Hw & ->)|[Hno _]].
  - destruct (decide (j = Z.to_nat number)) as [->|Hjn]; [lia|].
    destruct (gave_others number function io io' j w) as [_ ?]; (done || congruence).
  - exfalso. destruct Hg as (_ & Hat & _). eapply Hno; [exact Hat|]. by apply word_of_ch.
Qed.

Lemma set_io_pull_run number pull io :
  length io = Z.to_nat FPIOA_NUM_IO → exclusive io →
  ∃ r io', fpioa_set_io_pull number pull io = Done (r, io') ∧ length io' = length io ∧ exclusive io' ∧
    io_ch_sel <$> io' = io_ch_sel <$> io.
Proof.
  intros Hl Hex. unfold fpioa_set_io_pull.
  assert (∀ f : Z → Z, (∀ w, io_ch_sel (f w) = io_ch_sel w) → ∀ n w, io !! n = Some w →
    length (<[n := f w]> io) = length io ∧ exclusive (<[n := f w]> io) ∧
    io_ch_sel <$> <[n := f w]> io = io_ch_sel <$> io) as Hset.
  { intros f Hf n w Hw.
    assert (io_ch_sel <$> <[n := f w]> io = io_ch_sel <$> io) as E.
    { rewrite list_fmap_insert, Hf, list_insert_id; [done|]. by rewrite list_lookup_fmap, Hw. }
    split; [apply length_insert|]. split; [|done].
    intros i j v v' Hv Hv' Heq Hr.
    assert (∀ k x, <[n := f w]> io !! k = Some x → ∃ y, io !! k = Some y ∧ io_ch_sel y = io_ch_sel x) as Hb.
    { intros k x Hx. assert ((io_ch_sel <$> io) !! k = Some (io_ch_sel x)) as Hk.
      { by rewrite <- E, list_lookup_fmap, Hx. }
      rewrite list_lookup_fmap in Hk. destruct (io !! k) as [y|]; [|done]. injection Hk as Hk. eauto. }
    destruct (Hb _ _ Hv) as (y & Hy & Ey), (Hb _ _ Hv') as (y' & Hy' & Ey').
    eapply Hex; [exact Hy|exact Hy'|congruence..]. }
  destruct pull; try (by exists (-1), io).
  all: destruct (Z.ltb_spec number 0), (Z.leb_spec FPIOA_NUM_IO number); cbn [orb]; try (by exists (-1), io).
  all: destruct (lookup_lt_is_Some_2 io (Z.to_nat number)) as [w Hw]; [lia|].
  all: unfold get, modify, mbind, M_bind; rewrite Hw; eexists 0, _; split; [reflexivity|];
    first [apply (Hset (λ w, set_pull w 0 0))|apply (Hset (λ w, set_pull w 0 1))|apply (Hset (λ w, set_pull w 1 0))];
    [intros; apply set_pull_ch|done].
Qed.

(** Claim C40. Every row of the table of 256 functions fits the bit fields of a
    pin register, selects its own channel and never pulls a pin up and down at
    once.  [fpioa_set_function] of a pin and a function in range puts the word
    of the function into the pin's register, sets every other pin that had the
    function to RESV0 and leaves the rest alone; each function but RESV0 stays on
    one pin at most, also when a pull is set, and [fpioa_get_io_by_function] then
    finds the pin.  Out of range it returns -1 and writes nothing. *)
Theorem fpioa_set_function_exclusive (io : list Z) (number function : Z) :
  length io = Z.to_nat FPIOA_NUM_IO →
  (∀ f, 0 ≤ f < FUNC_MAX → ∃ a, function_config !! Z.to_nat f = Some a ∧ row_ok (Z.to_nat f) a = true) ∧
  (¬ (0 ≤ number < FPIOA_NUM_IO ∧ 0 ≤ function < FUNC_MAX) → fpioa_set_function number function io = Done (-1, io)) ∧
  (0 ≤ number < FPIOA_NUM_IO → 0 ≤ function < FUNC_MAX →
   ∃ io', fpioa_set_function number function io = Done (0, io') ∧ length io' = length io ∧
     io' !! Z.to_nat number = Some (word_of function) ∧
     (∀ j w, j ≠ Z.to_nat number → io !! j = Some w →
        io' !! j = Some (if function =? FUNC_RESV0 then w else released number function j w)) ∧
     (exclusive io → exclusive io') ∧
     (function ≠ FUNC_RESV0 → fpioa_get_io_by_function function io' = Done (number, io'))) ∧
  (∀ pull, exclusive io → ∃ r io', fpioa_set_io_pull number pull io = Done (r, io') ∧ length io' = length io ∧
     exclusive io' ∧ io_ch_sel <$> io' = io_ch_sel <$> io).
Proof.
  intros Hl. split; [apply table_row|]. split.
  { intros Hb. unfold fpioa_set_function. assert (bad_pin number function = true) as ->; [|done].
    unfold bad_pin. rewrite !orb_true_iff, !Z.ltb_lt, !Z.leb_le. lia. }
  split; [|intros pull Hex; by apply set_io_pull_run].
  intros Hn Hf. destruct (set_function_run number function io Hl Hn Hf) as (io' & E & Hg).
  exists io'. pose proof Hg as (Hlen & Hat & Hrest). split_and!; [done..| |].
  - by apply gave_exclusive with number function.
  - by apply gave_found with io.
Qed.

(** After [fpioa_pin_init] the card's pins are where the hardware has them. *)
Lemma pin_init_pins :
  match fpioa_pin_init (replicate 48 0) with
  | Done (_, io) => map (λ f, find_loop io f 0) [FUNC_SPI0_SCLK; FUNC_SPI0_D0; FUNC_SPI0_D1; FUNC_GPIOHS7; FUNC_SPI0_SS3]
  | _ => []
  end = [27; 28; 26; 32; 29].
Proof. vm_compute. reflexivity. Qed.

(** GPIOHS7 moves from pin 5 to pin 32. *)
Definition pins0 : list Z := <[5%nat := word_of FUNC_GPIOHS7]> (replicate 48 (word_of FUNC_RESV0)).
Lemma fpioa_set_function_exclusive_witness :
  ∃ io', fpioa_set_function 32 FUNC_GPIOHS7 pins0 = Done (0, io') ∧ io' !! 5%nat = Some (word_of FUNC_RESV0) ∧
    fpioa_get_io_by_function FUNC_GPIOHS7 io' = Done (32, io').
Proof.
  destruct (fpioa_set_function_exclusive pins0 32 FUNC_GPIOHS7 eq_refl) as (_ & _ & H & _).
  destruct H as (io' & H1 & _ & _ & H4 & _ & H6); [unfold FPIOA_NUM_IO; lia|unfold FUNC_GPIOHS7, FUNC_MAX; lia|].
  exists io'. split; [exact H1|]. split.
  - rewrite (H4 5%nat (word_of FUNC_GPIOHS7)); [reflexivity|discriminate|reflexivity].
  - apply H6. discriminate.
Defined.
