(* ===== verification/Utils.v ===== *)
(** * Bits of device registers: kernel/driver/utils.cpp

    The registers are 32 bits wide; a function that changes one gives its new
    value. *)
From S2P Require Import Prelude.

Definition set_bit (bits mask value : Z) : Z := Z.lor (Z.land bits (u32 (Z.lnot mask))) (Z.land value mask).
Definition set_bit_offset (bits mask offset value : Z) : Z :=
  set_bit bits (u32 (Z.shiftl mask offset)) (u32 (Z.shiftl value offset)).
Definition set_gpio_bit (bits offset value : Z) : Z := set_bit_offset bits 1 offset value.
Definition get_bit (bits mask offset : Z) : Z := Z.shiftr (Z.land bits (u32 (Z.shiftl mask offset))) offset.
Definition get_gpio_bit (bits offset : Z) : Z := get_bit bits 1 offset.

(** ** One bit of a register *)
Lemma testbit_1 i : 0 ≤ i → Z.testbit 1 i = (i =? 0).
Proof. intros Hi. destruct (Z.eqb_spec i 0) as [->|]; [done|]. apply (Z.pow2_bits_false 0 i). lia. Qed.
Lemma u32_bit z i : 0 ≤ i → Z.testbit (u32 z) i = (i <? 32) && Z.testbit z i.
Proof.
  intros Hi. unfold u32. destruct (Z.ltb_spec i 32).
  - by rewrite Z.mod_pow2_bits_low by lia.
  - by rewrite Z.mod_pow2_bits_high by lia.
Qed.

(** [set_gpio_bit] changes one bit. *)
Lemma set_gpio_bit_spec w p (v : bool) i : 0 ≤ w < 2 ^ 32 → 0 ≤ p < 32 → 0 ≤ i →
  Z.testbit (set_gpio_bit w p (Z.b2z v)) i = if i =? p then v else Z.testbit w i.
Proof.
  intros Hw Hp Hi. unfold set_gpio_bit, set_bit_offset, set_bit.
  rewrite Z.lor_spec, !Z.land_spec, !u32_bit, Z.lnot_spec, u32_bit, !Z.shiftl_spec by done.
  destruct (Z.ltb_spec i 32) as [H32|H32]; cbn [andb].
  - destruct (Z.eqb_spec i p) as [->|Hne].
    + rewrite Z.sub_diag. destruct v; cbn; by rewrite ?andb_false_r.
    + assert (Z.testbit 1 (i - p) = false) as ->.
      { destruct (Z.ltb_spec i p); [by apply Z.testbit_neg_r; lia|]. rewrite testbit_1 by lia. apply Z.eqb_neq. lia. }
      by rewrite andb_true_r, andb_false_r, orb_false_r.
  - rewrite (proj2 (Z.eqb_neq i p)), andb_false_r by lia. symmetry.
    apply (Z.bits_above_log2 w i); [lia|]. destruct (decide (w = 0)) as [->|]; [cbn; lia|]. apply Z.log2_lt_pow2; [lia|].
    apply (Z.lt_le_trans _ (2 ^ 32)); [lia|]. apply Z.pow_le_mono_r; lia.
Qed.
Lemma get_gpio_bit_spec w p : 0 ≤ p < 32 → get_gpio_bit w p = Z.b2z (Z.testbit w p).
Proof.
  intros Hp. unfold get_gpio_bit, get_bit. apply Z.bits_inj'. intros i Hi.
  rewrite Z.shiftr_spec, Z.land_spec, u32_bit, Z.shiftl_spec by lia. replace (i + p - p) with i by lia.
  rewrite testbit_1 by done. destruct (Z.eqb_spec i 0) as [->|Hne].
  - rewrite Z.add_0_l, Z.b2z_bit0, (proj2 (Z.ltb_lt p 32)) by lia. by rewrite andb_true_r.
  - rewrite !andb_false_r. destruct (Z.testbit w p); cbn; [|by rewrite Z.bits_0]. rewrite testbit_1 by done. symmetry. by apply Z.eqb_neq.
Qed.
