(* ===== verification/Plic.v ===== *)
(** * The interrupt controller: kernel/driver/Plic.cpp

    The controller is memory-mapped: [PlicHw] says what its 32-bit registers do.
    [qemu] is the board the kernel is built for, [hart] what [Cpu::cpuid] gives. *)
From S2P Require Import Prelude Utils.

Class PlicHw (D : Type) := {
  plic_rd : Z → D → Z * D;
  plic_wr : Z → Z → D → D;
}.

(** ** include/memlayout.hpp and include/driver/Plic.hpp *)
Definition PLIC : Z := 0x0c000000.
Definition PLIC_MENABLE (hart : Z) : Z := PLIC + 0x2000 + hart * 0x100.
Definition PLIC_SENABLE (hart : Z) : Z := PLIC + 0x2080 + hart * 0x100.
Definition PLIC_SPRIORITY (hart : Z) : Z := PLIC + 0x201000 + hart * 0x2000.
Definition PLIC_MCLAIM (hart : Z) : Z := PLIC + 0x200004 + hart * 0x2000.
Definition PLIC_SCLAIM (hart : Z) : Z := PLIC + 0x201004 + hart * 0x2000.
Definition UART_IRQ (qemu : bool) : Z := if qemu then 10 else 33.
Definition VIRTIO_IRQ : Z := 1.
Definition DMA0_IRQ : Z := 27.

(** ** Plic.cpp *)
Section plic.
Context {D : Type} `{PlicHw D} (qemu : bool).
Abbreviation PM := (M D).
Definition readd (a : Z) : PM Z := λ d, let '(v, d) := plic_rd a d in Done (v, d).
Definition writed (a v : Z) : PM unit := modify (plic_wr a v).

Definition init : PM unit :=
  writed (PLIC + UART_IRQ qemu * 4) 1;;
  if qemu then writed (PLIC + VIRTIO_IRQ * 4) 1 else writed (PLIC + DMA0_IRQ * 4) 1.

Definition initHart (hart : Z) : PM unit :=
  if qemu then
    writed (PLIC_SENABLE hart) (Z.lor (Z.shiftl 1 (UART_IRQ qemu)) (Z.shiftl 1 VIRTIO_IRQ));;
    writed (PLIC_SPRIORITY hart) 0
  else
    let hart_m_enable := PLIC_MENABLE hart in
    v ← readd hart_m_enable;
    writed hart_m_enable (Z.lor v (Z.shiftl 1 DMA0_IRQ));;
    let hart0_m_int_enable_high := hart_m_enable + 4 in
    v ← readd hart0_m_int_enable_high;
    writed hart0_m_int_enable_high (Z.lor v (Z.shiftl 1 (UART_IRQ qemu mod 32))).

Definition claim_reg (hart : Z) : Z := if qemu then PLIC_SCLAIM hart else PLIC_MCLAIM hart.
(** The result is an [int]. *)
Definition claim (hart : Z) : PM Z := irq ← readd (claim_reg hart); mret (i32 irq).
Definition complete (hart irq : Z) : PM unit := writed (claim_reg hart) (u32 irq).
End plic.

(** ** Which interrupts reach a hart *)

(** Registers that hold what is written to them. *)
#[local] Instance plain : PlicHw (Z → Z) := {|
  plic_rd a d := (d a, d);
  plic_wr a v d := λ x, if x =? a then v else d x;
|}.
(** The enable bit of a source: of the supervisor's context under QEMU, of the
    machine's on the K210. *)
Definition enabled (qemu : bool) (hart irq : Z) (d : Z → Z) : bool :=
  Z.testbit (d ((if qemu then PLIC_SENABLE hart else PLIC_MENABLE hart) + 4 * (irq / 32))) (irq mod 32).
Definition disk_irq (qemu : bool) : Z := if qemu then VIRTIO_IRQ else DMA0_IRQ.

Lemma shift_1_bit k i : 0 ≤ k → 0 ≤ i → Z.testbit (Z.shiftl 1 k) i = (i =? k).
Proof.
  intros Hk Hi. rewrite Z.shiftl_spec by done. destruct (Z.ltb_spec i k).
  - rewrite Z.testbit_neg_r by lia. symmetry. apply Z.eqb_neq. lia.
  - rewrite testbit_1 by lia. destruct (Z.eqb_spec i k); [apply Z.eqb_eq|apply Z.eqb_neq]; lia.
Qed.

(** A hart takes the interrupts of the console and of the disk; the other sources
    of the same words stay as they were on the K210 and are off under QEMU. *)
Theorem initHart_enables (qemu : bool) (hart : Z) (d : Z → Z) (irq : Z) : 0 ≤ irq < (if qemu then 32 else 64) →
  ∃ d', initHart qemu hart d = Done (tt, d') ∧
    enabled qemu hart irq d' =
      (irq =? UART_IRQ qemu) || (irq =? disk_irq qemu) || (negb qemu && enabled qemu hart irq d).
Proof.
  intros Hi. destruct qemu; eexists; (split; [unfold initHart, readd, writed, plain; unfold_M; cbn [plic_rd plic_wr]; reflexivity|]); unfold enabled, plain, disk_irq; cbn [plic_wr plic_rd UART_IRQ].
  - rewrite Z.div_small, Z.mod_small, Z.add_0_r by lia.
    rewrite (proj2 (Z.eqb_neq (PLIC_SENABLE hart) (PLIC_SPRIORITY hart))) by (unfold PLIC_SENABLE, PLIC_SPRIORITY; lia).
    rewrite Z.eqb_refl, Z.lor_spec, !shift_1_bit by (done || lia). by rewrite orb_false_r.
  - set (a := PLIC_MENABLE hart). rewrite (proj2 (Z.eqb_neq (a + 4) a)) by lia. change (33 mod 32) with 1.
    assert (irq = 32 * (irq / 32) + irq mod 32) as Hq by (apply Z.div_mod; lia). pose proof (Z.mod_pos_bound irq 32 ltac:(lia)).
    assert (irq / 32 = 0 ∨ irq / 32 = 1) as [E|E] by lia; rewrite E in *.
    + rewrite Z.add_0_r, (proj2 (Z.eqb_neq a (a + 4))), Z.eqb_refl, Z.lor_spec, shift_1_bit by (done || lia).
      rewrite (proj2 (Z.eqb_neq irq 33)) by lia. cbn [orb negb andb]. rewrite orb_comm. do 2 f_equal. lia.
    + rewrite Z.mul_1_r, Z.eqb_refl, Z.lor_spec, shift_1_bit by (done || lia).
      rewrite (proj2 (Z.eqb_neq irq DMA0_IRQ)) by (unfold DMA0_IRQ; lia). cbn [negb andb]. rewrite orb_false_r, orb_comm. f_equal.
      destruct (Z.eqb_spec irq 33); [apply Z.eqb_eq|apply Z.eqb_neq]; lia.
Qed.
