(* ===== verification/Dmac.v ===== *)
(** * The DMA controller of the K210: kernel/driver/dmac.cpp

    The registers are those of the device: a read may change it, and what the
    hardware does is the class [DmacHw].  While a task sleeps on the controller,
    other tasks and the device run; [dma_sleep] is [None] when nothing wakes the
    task up. *)
From S2P Require Import Prelude Bits Sysctl.

(** ** include/driver/dmac.hpp *)
Inductive dmac_master_number_t := DMAC_MASTER1 | DMAC_MASTER2.
Inductive dmac_sw_hw_hs_select_t := DMAC_HS_HARDWARE | DMAC_HS_SOFTWARE.
Inductive dmac_transfer_flow_t :=
  | DMAC_MEM2MEM_DMA | DMAC_MEM2PRF_DMA | DMAC_PRF2MEM_DMA | DMAC_PRF2PRF_DMA
  | DMAC_PRF2MEM_PRF | DMAC_PRF2PRF_SRCPRF | DMAC_MEM2PRF_PRF | DMAC_PRF2PRF_DSTPRF.
Inductive dmac_burst_trans_length_t :=
  | DMAC_MSIZE_1 | DMAC_MSIZE_4 | DMAC_MSIZE_8 | DMAC_MSIZE_16
  | DMAC_MSIZE_32 | DMAC_MSIZE_64 | DMAC_MSIZE_128 | DMAC_MSIZE_256.
Inductive dmac_address_increment_t := DMAC_ADDR_INCREMENT | DMAC_ADDR_NOCHANGE.
Inductive dmac_transfer_width_t :=
  | DMAC_TRANS_WIDTH_8 | DMAC_TRANS_WIDTH_16 | DMAC_TRANS_WIDTH_32
  | DMAC_TRANS_WIDTH_64 | DMAC_TRANS_WIDTH_128 | DMAC_TRANS_WIDTH_256.
Definition master_val (m : dmac_master_number_t) : Z := match m with DMAC_MASTER1 => 0 | DMAC_MASTER2 => 1 end.
Definition hs_val (h : dmac_sw_hw_hs_select_t) : Z := match h with DMAC_HS_HARDWARE => 0 | DMAC_HS_SOFTWARE => 1 end.
Definition flow_val (f : dmac_transfer_flow_t) : Z :=
  match f with
  | DMAC_MEM2MEM_DMA => 0 | DMAC_MEM2PRF_DMA => 1 | DMAC_PRF2MEM_DMA => 2 | DMAC_PRF2PRF_DMA => 3
  | DMAC_PRF2MEM_PRF => 4 | DMAC_PRF2PRF_SRCPRF => 5 | DMAC_MEM2PRF_PRF => 6 | DMAC_PRF2PRF_DSTPRF => 7
  end.
Definition msize_val (b : dmac_burst_trans_length_t) : Z :=
  match b with
  | DMAC_MSIZE_1 => 0 | DMAC_MSIZE_4 => 1 | DMAC_MSIZE_8 => 2 | DMAC_MSIZE_16 => 3
  | DMAC_MSIZE_32 => 4 | DMAC_MSIZE_64 => 5 | DMAC_MSIZE_128 => 6 | DMAC_MSIZE_256 => 7
  end.
Definition inc_val (i : dmac_address_increment_t) : Z :=
  match i with DMAC_ADDR_INCREMENT => 0 | DMAC_ADDR_NOCHANGE => 1 end.
Definition width_val (w : dmac_transfer_width_t) : Z :=
  match w with
  | DMAC_TRANS_WIDTH_8 => 0 | DMAC_TRANS_WIDTH_16 => 1 | DMAC_TRANS_WIDTH_32 => 2
  | DMAC_TRANS_WIDTH_64 => 3 | DMAC_TRANS_WIDTH_128 => 4 | DMAC_TRANS_WIDTH_256 => 5
  end.

(** The registers of a channel, and of the controller. *)
Inductive channel_reg :=
  | Ch_sar | Ch_dar | Ch_block_ts | Ch_ctl | Ch_cfg | Ch_llp | Ch_status | Ch_swhssrc | Ch_swhsdst | Ch_blk_tfr
  | Ch_axi_id | Ch_axi_qos | Ch_intstatus_en | Ch_intstatus | Ch_intsignal_en | Ch_intclear.
Inductive dmac_reg :=
  | R_id | R_compver | R_cfg | R_chen | R_intstatus | R_com_intclear | R_com_intstatus_en | R_com_intsignal_en
  | R_com_intstatus | R_reset | R_channel (n : Z) (r : channel_reg).

(** A bit field of a 64-bit register: first bit and width. *)
Record bits := Bits { b_lsb : Z; b_width : Z }.
Definition putf (f : bits) (v w : Z) : Z := set_bits w (b_lsb f) (b_width f) v.
Definition getf (f : bits) (w : Z) : Z := get_bits w (b_lsb f) (b_width f).
Definition dmac_en : bits := Bits 0 1.
Definition int_en : bits := Bits 1 1.
Definition ch1_en : bits := Bits 0 1.
Definition ch2_en : bits := Bits 1 1.
Definition ch3_en : bits := Bits 2 1.
Definition ch4_en : bits := Bits 3 1.
Definition ch5_en : bits := Bits 4 1.
Definition ch6_en : bits := Bits 5 1.
Definition ch1_en_we : bits := Bits 8 1.
Definition ch2_en_we : bits := Bits 9 1.
Definition ch3_en_we : bits := Bits 10 1.
Definition ch4_en_we : bits := Bits 11 1.
Definition ch5_en_we : bits := Bits 12 1.
Definition ch6_en_we : bits := Bits 13 1.
Definition clear_slvif_dec_err_intstat : bits := Bits 0 1.
Definition clear_slvif_wr2ro_err_intstat : bits := Bits 1 1.
Definition clear_slvif_rd2wo_err_intstat : bits := Bits 2 1.
Definition clear_slvif_wronhold_err_intstat : bits := Bits 3 1.
Definition clear_slvif_undefinedreg_dec_err_intstat : bits := Bits 8 1.
Definition enable_slvif_dec_err_intstat : bits := Bits 0 1.
Definition enable_slvif_wr2ro_err_intstat : bits := Bits 1 1.
Definition enable_slvif_rd2wo_err_intstat : bits := Bits 2 1.
Definition enable_slvif_wronhold_err_intstat : bits := Bits 3 1.
Definition enable_slvif_undefinedreg_dec_err_intstat : bits := Bits 8 1.
Definition enable_slvif_dec_err_intsignal : bits := Bits 0 1.
Definition enable_slvif_wr2ro_err_intsignal : bits := Bits 1 1.
Definition enable_slvif_rd2wo_err_intsignal : bits := Bits 2 1.
Definition enable_slvif_wronhold_err_intsignal : bits := Bits 3 1.
Definition enable_slvif_undefinedreg_dec_err_intsignal : bits := Bits 8 1.
Definition rst : bits := Bits 0 1.
Definition sms : bits := Bits 0 1.
Definition dms : bits := Bits 2 1.
Definition sinc : bits := Bits 4 1.
Definition dinc : bits := Bits 6 1.
Definition src_tr_width : bits := Bits 8 3.
Definition dst_tr_width : bits := Bits 11 3.
Definition src_msize : bits := Bits 14 4.
Definition dst_msize : bits := Bits 18 4.
Definition src_multblk_type : bits := Bits 0 2.
Definition dst_multblk_type : bits := Bits 2 2.
Definition tt_fc : bits := Bits 32 3.
Definition hs_sel_src : bits := Bits 35 1.
Definition hs_sel_dst : bits := Bits 36 1.
Definition src_per : bits := Bits 39 4.
Definition dst_per : bits := Bits 44 4.

(** ** dmac.cpp *)
Class DmacHw (D : Type) := {
  dmac_rd : dmac_reg → D → Z * D;
  dmac_wr : dmac_reg → Z → D → D;
  dma_sleep : D → option D;
  dma_wakeup : D → D;
  sys_get : D → regs;
  sys_put : regs → D → D;
}.

(** [address] is memory that the controller reaches without handshakes. *)
Definition mem_len : Z := 6 * 1024 * 1024.
Definition mem_no_cache_len : Z := 8 * 1024 * 1024.
Definition is_memory (address : Z) : bool :=
  ((0x80000000 <=? address) && (address <? 0x80000000 + mem_len))
  || ((0x40000000 <=? address) && (address <? 0x40000000 + mem_no_cache_len))
  || (address =? 0x50450040).

Section dmac.
Context {D : Type} `{DmacHw D}.
Abbreviation DM := (M D).

Definition readq (r : dmac_reg) : DM Z := λ d, let '(v, d) := dmac_rd r d in Done (v, d).
Definition writeq (v : Z) (r : dmac_reg) : DM unit := modify (dmac_wr r v).
Definition on_sysctl {A} (c : M regs A) : DM A := λ d,
  match c (sys_get d) with
  | Done (a, r) => Done (a, sys_put r d)
  | Panic e => Panic e
  | NoFuel => NoFuel
  end.

Definition dmac_read_id : DM Z := readq R_id.
Definition dmac_read_version : DM Z := readq R_compver.
Definition dmac_read_channel_id (channel_num : Z) : DM Z := readq (R_channel channel_num Ch_axi_id).

Definition dmac_enable : DM unit := cfg ← readq R_cfg; writeq (putf int_en 1 (putf dmac_en 1 cfg)) R_cfg.
Definition dmac_disable : DM unit := cfg ← readq R_cfg; writeq (putf int_en 0 (putf dmac_en 0 cfg)) R_cfg.

(** The enable bit of a channel and the bit that lets it be written. *)
Definition channel_bits (channel_num : Z) : option (bits * bits) :=
  match channel_num with
  | 0 => Some (ch1_en, ch1_en_we)
  | 1 => Some (ch2_en, ch2_en_we)
  | 2 => Some (ch3_en, ch3_en_we)
  | 3 => Some (ch4_en, ch4_en_we)
  | 4 => Some (ch5_en, ch5_en_we)
  | 5 => Some (ch6_en, ch6_en_we)
  | _ => None
  end.
Definition put_channel (channel_num en chen : Z) : Z :=
  match channel_bits channel_num with
  | Some (b, we) => putf we 1 (putf b en chen)
  | None => chen
  end.
Definition dmac_channel_enable (channel_num : Z) : DM unit :=
  chen ← readq R_chen; writeq (put_channel channel_num 1 chen) R_chen.
Definition dmac_channel_disable (channel_num : Z) : DM unit :=
  chen ← readq R_chen; writeq (put_channel channel_num 0 chen) R_chen.

Definition dmac_enable_common_interrupt_status : DM unit :=
  v ← readq R_com_intstatus_en;
  let v := putf enable_slvif_dec_err_intstat 1 v in
  let v := putf enable_slvif_wr2ro_err_intstat 1 v in
  let v := putf enable_slvif_rd2wo_err_intstat 1 v in
  let v := putf enable_slvif_wronhold_err_intstat 1 v in
  let v := putf enable_slvif_undefinedreg_dec_err_intstat 1 v in
  writeq v R_com_intstatus_en.
Definition dmac_enable_common_interrupt_signal : DM unit :=
  v ← readq R_com_intsignal_en;
  let v := putf enable_slvif_dec_err_intsignal 1 v in
  let v := putf enable_slvif_wr2ro_err_intsignal 1 v in
  let v := putf enable_slvif_rd2wo_err_intsignal 1 v in
  let v := putf enable_slvif_wronhold_err_intsignal 1 v in
  let v := putf enable_slvif_undefinedreg_dec_err_intsignal 1 v in
  writeq v R_com_intsignal_en.

Definition dmac_enable_channel_interrupt (channel_num : Z) : DM unit :=
  writeq 0xffffffff (R_channel channel_num Ch_intclear);;
  writeq 0x2 (R_channel channel_num Ch_intstatus_en).
Definition dmac_disable_channel_interrupt (channel_num : Z) : DM unit :=
  writeq 0 (R_channel channel_num Ch_intstatus_en).
Definition dmac_chanel_interrupt_clear (channel_num : Z) : DM unit :=
  writeq 0xffffffff (R_channel channel_num Ch_intclear).

Definition flow_control (src dest : Z) : dmac_transfer_flow_t :=
  match is_memory src, is_memory dest with
  | false, false => DMAC_PRF2PRF_DMA
  | true, false => DMAC_MEM2PRF_DMA
  | false, true => DMAC_PRF2MEM_DMA
  | true, true => DMAC_MEM2MEM_DMA
  end.
Definition handshake (memory : bool) : dmac_sw_hw_hs_select_t := if memory then DMAC_HS_SOFTWARE else DMAC_HS_HARDWARE.
Definition channel_cfg (channel_num src dest cfg : Z) : Z :=
  let cfg := putf tt_fc (flow_val (flow_control src dest)) cfg in
  let cfg := putf hs_sel_src (hs_val (handshake (is_memory src))) cfg in
  let cfg := putf hs_sel_dst (hs_val (handshake (is_memory dest))) cfg in
  let cfg := putf src_per channel_num cfg in
  let cfg := putf dst_per channel_num cfg in
  let cfg := putf src_multblk_type 0 cfg in
  putf dst_multblk_type 0 cfg.
Definition channel_ctl (src_inc dest_inc : dmac_address_increment_t) (burst : dmac_burst_trans_length_t)
    (width : dmac_transfer_width_t) (ctl : Z) : Z :=
  let ctl := putf sms (master_val DMAC_MASTER1) ctl in
  let ctl := putf dms (master_val DMAC_MASTER2) ctl in
  let ctl := putf sinc (inc_val src_inc) ctl in
  let ctl := putf dinc (inc_val dest_inc) ctl in
  let ctl := putf src_tr_width (width_val width) ctl in
  let ctl := putf dst_tr_width (width_val width) ctl in
  let ctl := putf src_msize (msize_val burst) ctl in
  putf dst_msize (msize_val burst) ctl.

(** [blockSize] is a [uint32_t]. *)
Definition dmac_set_channel_param (channel_num src dest : Z) (src_inc dest_inc : dmac_address_increment_t)
    (burst : dmac_burst_trans_length_t) (width : dmac_transfer_width_t) (blockSize : Z) : DM Z :=
  cfg ← readq (R_channel channel_num Ch_cfg);
  writeq (channel_cfg channel_num src dest cfg) (R_channel channel_num Ch_cfg);;
  writeq src (R_channel channel_num Ch_sar);;
  writeq dest (R_channel channel_num Ch_dar);;
  ctl ← readq (R_channel channel_num Ch_ctl);
  writeq (channel_ctl src_inc dest_inc burst width ctl) (R_channel channel_num Ch_ctl);;
  writeq (u32 (blockSize - 1)) (R_channel channel_num Ch_block_ts);;
  mret 0.

(** [while(dmac_reset.reset.rst)] after the write, and [while(readq(&dmac->cfg))]. *)
Fixpoint reset_loop (fuel : nat) (reset : Z) : DM unit :=
  match fuel with
  | O => λ _, NoFuel
  | S fuel => if getf rst reset =? 0 then mret tt else reset ← readq R_reset; reset_loop fuel reset
  end.
Fixpoint cfg_loop (fuel : nat) : DM unit :=
  match fuel with
  | O => λ _, NoFuel
  | S fuel => cfg ← readq R_cfg; if cfg =? 0 then mret tt else cfg_loop fuel
  end.
Definition dmac_init (fuel : nat) : DM unit :=
  on_sysctl (sysctl_clock_enable SYSCTL_CLOCK_DMA);;
  reset ← readq R_reset;
  writeq (putf rst 1 reset) R_reset;;
  reset_loop fuel (putf rst 1 reset);;
  v ← readq R_com_intclear;
  let v := putf clear_slvif_dec_err_intstat 1 v in
  let v := putf clear_slvif_wr2ro_err_intstat 1 v in
  let v := putf clear_slvif_rd2wo_err_intstat 1 v in
  let v := putf clear_slvif_wronhold_err_intstat 1 v in
  let v := putf clear_slvif_undefinedreg_dec_err_intstat 1 v in
  writeq v R_com_intclear;;
  dmac_disable;;
  cfg_loop fuel;;
  tmp ← readq R_chen;
  writeq (Z.land tmp (u64 (Z.lnot 0xf))) R_chen;;
  dmac_enable.

Definition dmac_is_done (channel_num : Z) : DM Z :=
  v ← readq (R_channel channel_num Ch_intstatus); mret (if Z.land v 2 =? 0 then 0 else 1).
Definition dmac_is_idle (channel_num : Z) : DM Z :=
  chen ← readq R_chen; mret (if Z.land (Z.shiftr chen channel_num) 1 =? 0 then 1 else 0).

(** The task sleeps on [dmac_chan] while the channel is busy. *)
Definition sleep_dmac : DM unit := λ d, match dma_sleep d with Some d => Done (tt, d) | None => NoFuel end.
Fixpoint dmac_wait_idle (fuel : nat) (channel_num : Z) : DM unit :=
  match fuel with
  | O => λ _, NoFuel
  | S fuel =>
      idle ← dmac_is_idle channel_num;
      if idle =? 0 then sleep_dmac;; dmac_wait_idle fuel channel_num else mret tt
  end.
Definition dmac_wait_done (fuel : nat) (channel_num : Z) : DM unit := dmac_wait_idle fuel channel_num.

Definition dmac_set_single_mode (fuel : nat) (channel_num src dest : Z) (src_inc dest_inc : dmac_address_increment_t)
    (burst : dmac_burst_trans_length_t) (width : dmac_transfer_width_t) (block_size : Z) : DM unit :=
  dmac_chanel_interrupt_clear channel_num;;
  dmac_channel_disable channel_num;;
  dmac_wait_idle fuel channel_num;;
  dmac_set_channel_param channel_num src dest src_inc dest_inc burst width (u32 block_size);;
  dmac_enable;;
  dmac_enable_channel_interrupt channel_num;;
  dmac_channel_enable channel_num.

Definition dmac_intr (channel_num : Z) : DM unit :=
  dmac_chanel_interrupt_clear channel_num;; modify dma_wakeup.
End dmac.

(** ** The fields of a register *)
Lemma getf_put_same f v w : 0 ≤ b_lsb f → 0 ≤ b_width f → getf f (putf f v w) = v mod 2 ^ b_width f.
Proof. apply get_set_same. Qed.
Lemma getf_put_other f g v w :
  0 ≤ b_lsb f → 0 ≤ b_width f → 0 ≤ b_lsb g → 0 ≤ b_width g →
  b_lsb g + b_width g ≤ b_lsb f ∨ b_lsb f + b_width f ≤ b_lsb g → getf f (putf g v w) = getf f w.
Proof. intros. by apply get_set_other. Qed.
Ltac fields :=
  repeat (rewrite getf_put_other by (cbn; lia)); rewrite getf_put_same by (cbn; lia).

(** What the configuration of a channel says. *)
Record transfer := Transfer {
  t_flow : Z; t_hs_src : Z; t_hs_dst : Z; t_src_per : Z; t_dst_per : Z; t_multblk : Z * Z;
  t_sms : Z; t_dms : Z; t_sinc : Z; t_dinc : Z; t_widths : Z * Z; t_bursts : Z * Z;
}.
Definition decode (cfg ctl : Z) : transfer := Transfer
  (getf tt_fc cfg) (getf hs_sel_src cfg) (getf hs_sel_dst cfg) (getf src_per cfg) (getf dst_per cfg)
  (getf src_multblk_type cfg, getf dst_multblk_type cfg)
  (getf sms ctl) (getf dms ctl) (getf sinc ctl) (getf dinc ctl)
  (getf src_tr_width ctl, getf dst_tr_width ctl) (getf src_msize ctl, getf dst_msize ctl).

(** Peripheral sides handshake in hardware on the channel's own line, memory sides
    do not; there is one block, between the two masters. *)
Definition transfer_of (n src dest : Z) (si di : dmac_address_increment_t) (b : dmac_burst_trans_length_t)
    (w : dmac_transfer_width_t) : transfer := Transfer
  (flow_val (flow_control src dest)) (Z.b2z (is_memory src)) (Z.b2z (is_memory dest)) n n (0, 0)
  0 1 (inc_val si) (inc_val di) (width_val w, width_val w) (msize_val b, msize_val b).

Lemma decode_channel n src dest si di b w cfg ctl : 0 ≤ n < 16 →
  decode (channel_cfg n src dest cfg) (channel_ctl si di b w ctl) = transfer_of n src dest si di b w.
Proof.
  intros Hn. unfold decode, transfer_of, channel_cfg, channel_ctl, flow_control, handshake.
  f_equal; [| | | | |f_equal| | | | |f_equal|f_equal]; fields; try reflexivity; try (apply Z.mod_small; cbn; lia).
  - by destruct (is_memory src), (is_memory dest).
  - by destruct (is_memory src).
  - by destruct (is_memory dest).
  - by destruct si.
  - by destruct di.
  - by destruct w.
  - by destruct w.
  - by destruct b.
  - by destruct b.
Qed.

(** ** What the hardware keeps *)
Definition config_reg (r : channel_reg) : Prop :=
  match r with Ch_sar | Ch_dar | Ch_block_ts | Ch_ctl | Ch_cfg => True | _ => False end.
(** The configuration registers of a channel hold the value written last. *)
Class DmacLaws (D : Type) `{DmacHw D} := {
  creg : D → Z → channel_reg → Z;
  creg_wr : ∀ n r v d, config_reg r → creg (dmac_wr (R_channel n r) v d) n r = v;
  creg_wr_other : ∀ reg v n r d, config_reg r → reg ≠ R_channel n r → creg (dmac_wr reg v d) n r = creg d n r;
  creg_rd : ∀ reg v n r d d', config_reg r → dmac_rd reg d = (v, d') → creg d' n r = creg d n r;
}.

Section laws.
Context {D : Type} `{DmacLaws D}.

Lemma readq_inv r d v d' : readq r d = Done (v, d') → dmac_rd r d = (v, d').
Proof. unfold readq. destruct (dmac_rd r d). by intros [= -> ->]. Qed.

Lemma set_channel_param_writes n src dest si di b w block_size d x d' :
  0 ≤ n < 16 → dmac_set_channel_param n src dest si di b w block_size d = Done (x, d') →
  creg d' n Ch_sar = src ∧ creg d' n Ch_dar = dest ∧ creg d' n Ch_block_ts = u32 (block_size - 1) ∧
  decode (creg d' n Ch_cfg) (creg d' n Ch_ctl) = transfer_of n src dest si di b w.
Proof.
  intros Hn E. unfold dmac_set_channel_param, writeq in E.
  apply M_bind_inv in E as (cfg & d1 & E1%readq_inv & E). apply M_bind_inv in E as (? & d2 & [= _ <-] & E).
  apply M_bind_inv in E as (? & d3 & [= _ <-] & E). apply M_bind_inv in E as (? & d4 & [= _ <-] & E).
  apply M_bind_inv in E as (ctl & d5 & E5%readq_inv & E). apply M_bind_inv in E as (? & d6 & [= _ <-] & E).
  apply M_bind_inv in E as (? & d7 & [= _ <-] & [= _ <-]).
  assert (∀ r, config_reg r → creg d5 n r = creg _ n r) as H5 by (intros r Hr; exact (creg_rd _ _ n r _ _ Hr E5)).
  repeat first [rewrite creg_wr by done | rewrite creg_wr_other by done | rewrite H5 by done].
  split_and!; try done. by apply decode_channel.
Qed.

(** A channel is enabled with the configuration asked for. *)
Theorem dmac_set_single_mode_programs fuel n src dest si di b w block_size d d' :
  0 ≤ n < 6 →
  dmac_set_single_mode fuel n src dest si di b w block_size d = Done (tt, d') →
  ∃ d0 chen, d' = dmac_wr R_chen (put_channel n 1 chen) d0 ∧
    creg d0 n Ch_sar = src ∧ creg d0 n Ch_dar = dest ∧ creg d0 n Ch_block_ts = u32 (u32 block_size - 1) ∧
    decode (creg d0 n Ch_cfg) (creg d0 n Ch_ctl) = transfer_of n src dest si di b w.
Proof.
  intros Hn E. unfold dmac_set_single_mode in E.
  apply M_bind_inv in E as (? & d1 & _ & E). apply M_bind_inv in E as (? & d2 & _ & E).
  apply M_bind_inv in E as (? & d3 & _ & E). apply M_bind_inv in E as (? & d4 & E4 & E).
  apply M_bind_inv in E as (? & d5 & E5 & E). apply M_bind_inv in E as (? & d6 & E6 & E).
  unfold dmac_channel_enable in E. apply M_bind_inv in E as (chen & d7 & Er%readq_inv & [= <-]).
  exists d7, chen. split; [done|].
  assert (∀ r, config_reg r → creg d7 n r = creg d4 n r) as Hkeep.
  { intros r Hr. rewrite (creg_rd _ _ _ _ _ _ Hr Er).
    unfold dmac_enable_channel_interrupt, writeq in E6. apply M_bind_inv in E6 as (? & d8 & [= _ <-] & [= _ <-]).
    rewrite !creg_wr_other by (first [done | intros [= <-]; done]).
    unfold dmac_enable in E5. apply M_bind_inv in E5 as (? & d8 & Er8%readq_inv & [= _ <-]).
    rewrite creg_wr_other by done. by rewrite (creg_rd _ _ _ _ _ _ Hr Er8). }
  rewrite !Hkeep by done. assert (0 ≤ n < 16) as Hn16 by lia. exact (set_channel_param_writes _ _ _ _ _ _ _ _ _ _ _ Hn16 E4).
Qed.
End laws.

(** What [dmac_init] writes to disable "all channels": none of the bits that allow
    an enable bit to be written is set, and channels 5 and 6 are not covered. *)
Example dmac_init_channels : Z.land 0x3f (u64 (Z.lnot 0xf)) = 0x30.
Proof. reflexivity. Qed.
