(* ===== verification/Spi.v ===== *)
(** * The SPI controller of the K210: kernel/driver/spi.cpp

    Registers are accessed through the class [SpiHw]; DMA transfers go through
    Dmac.v, and the buffers of the code come from the page allocator. *)
From S2P Require Import Prelude Mem KAlloc Bits Sysctl Utils Dmac.

(** ** include/driver/spi.hpp *)
Inductive spi_reg :=
  | Spi_ctrlr0 | Spi_ctrlr1 | Spi_ssienr | Spi_mwcr | Spi_ser | Spi_baudr | Spi_txftlr | Spi_rxftlr | Spi_txflr
  | Spi_rxflr | Spi_sr | Spi_imr | Spi_isr | Spi_risr | Spi_txoicr | Spi_rxoicr | Spi_rxuicr | Spi_msticr | Spi_icr
  | Spi_dmacr | Spi_dmatdlr | Spi_dmardlr | Spi_idr | Spi_ssic_version_id | Spi_dr0 | Spi_rx_sample_delay
  | Spi_spi_ctrlr0 | Spi_resv | Spi_xip_mode_bits | Spi_xip_incr_inst | Spi_xip_wrap_inst | Spi_xip_ctrl | Spi_xip_ser
  | Spi_xrxoicr | Spi_xip_cnt_time_out | Spi_endian.
Inductive spi_frame_format_t := SPI_FF_STANDARD | SPI_FF_DUAL | SPI_FF_QUAD | SPI_FF_OCTAL.
Definition frame_format_val (f : spi_frame_format_t) : Z :=
  match f with SPI_FF_STANDARD => 0 | SPI_FF_DUAL => 1 | SPI_FF_QUAD => 2 | SPI_FF_OCTAL => 3 end.
Inductive spi_transfer_mode_t := SPI_TMOD_TRANS_RECV | SPI_TMOD_TRANS | SPI_TMOD_RECV | SPI_TMOD_EEROM.
Definition tmod_val (t : spi_transfer_mode_t) : Z :=
  match t with SPI_TMOD_TRANS_RECV => 0 | SPI_TMOD_TRANS => 1 | SPI_TMOD_RECV => 2 | SPI_TMOD_EEROM => 3 end.
Inductive spi_transfer_width_t := SPI_TRANS_CHAR | SPI_TRANS_SHORT | SPI_TRANS_INT.
(** The bytes of a frame. *)
Definition frame_bytes (w : spi_transfer_width_t) : nat :=
  match w with SPI_TRANS_CHAR => 1 | SPI_TRANS_SHORT => 2 | SPI_TRANS_INT => 4 end.
Abbreviation width w := (Z.of_nat (frame_bytes w)).

(** The addresses of [spi[spi_num]] and of its data register. *)
Definition spi_base (spi_num : Z) : Z :=
  match spi_num with 0 => 0x52000000 | 1 => 0x53000000 | 2 => 0x50240000 | _ => 0x54000000 end.
Definition dr_addr (spi_num : Z) : Z := spi_base spi_num + 0x60.

(** Bit offsets in [ctrlr0]. *)
Definition dfs_offset (spi_num : Z) : Z := match spi_num with 0 | 1 => 16 | _ => 0 end.
Definition frf_offset (spi_num : Z) : Z := match spi_num with 0 | 1 => 21 | 2 => 0 | _ => 22 end.
Definition work_mode_offset (spi_num : Z) : Z := match spi_num with 0 | 1 => 6 | 2 => 0 | _ => 8 end.
Definition tmod_offset (spi_num : Z) : Z := match spi_num with 0 | 1 | 2 => 8 | _ => 10 end.

Class SpiHw (D : Type) := {
  spi_rd : Z → spi_reg → D → Z * D;
  spi_wr : Z → spi_reg → Z → D → D;
}.

Section spi.
Context {D : Type} `{SpiHw D, PageAllocator D}.
Abbreviation PM := (M D).

Definition rd_reg (spi_num : Z) (r : spi_reg) : PM Z := λ d, let '(v, d) := spi_rd spi_num r d in Done (v, d).
Definition wr_reg (spi_num : Z) (r : spi_reg) (v : Z) : PM unit := modify (spi_wr spi_num r v).
Definition with_mem (f : mem → mem) : PM unit := modify (λ d, pg_set_mem (f (pg_mem d)) d).

Definition spi_init (spi_num work_mode : Z) (frame_format : spi_frame_format_t) (data_bit_length endian : Z) : PM unit :=
  baudr ← rd_reg spi_num Spi_baudr;
  (if baudr =? 0 then wr_reg spi_num Spi_baudr 0x14 else mret tt);;
  wr_reg spi_num Spi_imr 0;;
  wr_reg spi_num Spi_dmacr 0;;
  wr_reg spi_num Spi_dmatdlr 0x10;;
  wr_reg spi_num Spi_dmardlr 0;;
  wr_reg spi_num Spi_ser 0;;
  wr_reg spi_num Spi_ssienr 0;;
  wr_reg spi_num Spi_ctrlr0
    (u32 (Z.lor (Z.lor (Z.shiftl work_mode (work_mode_offset spi_num))
                       (Z.shiftl (frame_format_val frame_format) (frf_offset spi_num)))
                (Z.shiftl (u64 (data_bit_length - 1)) (dfs_offset spi_num))));;
  wr_reg spi_num Spi_spi_ctrlr0 0;;
  wr_reg spi_num Spi_endian endian.

Definition spi_set_tmod (spi_num : Z) (tmod : spi_transfer_mode_t) : PM unit :=
  bits ← rd_reg spi_num Spi_ctrlr0;
  wr_reg spi_num Spi_ctrlr0
    (set_bit bits (Z.shiftl 3 (tmod_offset spi_num)) (Z.shiftl (tmod_val tmod) (tmod_offset spi_num))).

Definition spi_get_frame_size (data_bit_length : Z) : spi_transfer_width_t :=
  if data_bit_length <? 8 then SPI_TRANS_CHAR
  else if data_bit_length <? 16 then SPI_TRANS_SHORT
  else SPI_TRANS_INT.
(** [(ctrlr0 >> dfs_offset) & 0x1F] is the length of a frame in bits, less one. *)
Definition frame_width (spi_num : Z) : PM spi_transfer_width_t :=
  ctrlr0 ← rd_reg spi_num Spi_ctrlr0;
  mret (spi_get_frame_size (Z.land (Z.shiftr ctrlr0 (dfs_offset spi_num)) 0x1f)).
Definition spi_get_frame_format (spi_num : Z) : PM Z :=
  ctrlr0 ← rd_reg spi_num Spi_ctrlr0; mret (Z.land (Z.shiftr ctrlr0 (frf_offset spi_num)) 3).

(** ** Through the data register *)

(** [misalign]: frames are copied out of the buffer, [i] counts bytes; else [i]
    counts frames. *)
Fixpoint send_words (n : nat) (spi_num : Z) (w : spi_transfer_width_t) (misalign : bool) (tx_buff i : Z) : PM Z :=
  match n with
  | O => mret i
  | S n =>
      m ← gets pg_mem;
      let at_i := if misalign then i else width w * i in
      wr_reg spi_num Spi_dr0 (ld (frame_bytes w) m (tx_buff + at_i));;
      send_words n spi_num w misalign tx_buff (u32 (i + if misalign then width w else 1))
  end.
Fixpoint tx_loop (fuel : nat) (spi_num : Z) (w : spi_transfer_width_t) (misalign : bool) (tx_buff tx_len i : Z) : PM unit :=
  match fuel with
  | O => λ _, NoFuel
  | S fuel =>
      if tx_len =? 0 then mret tt
      else
        level ← rd_reg spi_num Spi_txflr;
        let fifo_len := u32 (32 - level) in
        let fifo_len := if fifo_len <? tx_len then fifo_len else tx_len in
        let words := fifo_len / width w in
        i ← send_words (Z.to_nat words) spi_num w misalign tx_buff i;
        tx_loop fuel spi_num w misalign tx_buff (tx_len - words * width w) i
  end.
(** [while((sr & 0x05) != 0x04)]. *)
Fixpoint drain_loop (fuel : nat) (spi_num : Z) : PM unit :=
  match fuel with
  | O => λ _, NoFuel
  | S fuel => sr ← rd_reg spi_num Spi_sr; if Z.land sr 5 =? 4 then mret tt else drain_loop fuel spi_num
  end.
Definition spi_send_data_normal (fuel : nat) (spi_num chip_select tx_buff tx_len : Z) : PM unit :=
  spi_set_tmod spi_num SPI_TMOD_TRANS;;
  w ← frame_width spi_num;
  wr_reg spi_num Spi_ssienr 1;;
  wr_reg spi_num Spi_ser (Z.shiftl 1 chip_select);;
  tx_loop fuel spi_num w (negb (tx_buff mod width w =? 0)) tx_buff tx_len 0;;
  drain_loop fuel spi_num;;
  wr_reg spi_num Spi_ser 0;;
  wr_reg spi_num Spi_ssienr 0.

Definition spi_send_data_standard (fuel : nat) (spi_num chip_select cmd_buff cmd_len tx_buff tx_len : Z) : PM unit :=
  v_buf ← pg_alloc;
  with_mem (λ m, copy_forward m v_buf cmd_buff (Z.to_nat cmd_len));;
  with_mem (λ m, copy_forward m (v_buf + cmd_len) tx_buff (Z.to_nat tx_len));;
  spi_send_data_normal fuel spi_num chip_select v_buf (u64 (cmd_len + tx_len));;
  pg_free v_buf.

Fixpoint cmd_words (n : nat) (spi_num : Z) (w : spi_transfer_width_t) (cmd_buff i : Z) : PM Z :=
  match n with
  | O => mret i
  | S n =>
      m ← gets pg_mem;
      wr_reg spi_num Spi_dr0 (ld (frame_bytes w) m (cmd_buff + width w * i));;
      cmd_words n spi_num w cmd_buff (u32 (i + 1))
  end.
Fixpoint cmd_loop (fuel : nat) (spi_num chip_select : Z) (w : spi_transfer_width_t) (cmd_buff v_cmd_len i : Z) : PM unit :=
  match fuel with
  | O => λ _, NoFuel
  | S fuel =>
      if v_cmd_len =? 0 then mret tt
      else
        level ← rd_reg spi_num Spi_txflr;
        let fifo_len := u32 (32 - level) in
        let fifo_len := if fifo_len <? v_cmd_len then fifo_len else v_cmd_len in
        i ← cmd_words (Z.to_nat fifo_len) spi_num w cmd_buff i;
        wr_reg spi_num Spi_ser (Z.shiftl 1 chip_select);;
        cmd_loop fuel spi_num chip_select w cmd_buff (v_cmd_len - fifo_len) i
  end.
Fixpoint rx_words (n : nat) (spi_num : Z) (w : spi_transfer_width_t) (rx_buff i : Z) : PM Z :=
  match n with
  | O => mret i
  | S n =>
      v ← rd_reg spi_num Spi_dr0;
      with_mem (λ m, st (frame_bytes w) m (rx_buff + width w * i) v);;
      rx_words n spi_num w rx_buff (u32 (i + 1))
  end.
Fixpoint rx_loop (fuel : nat) (spi_num : Z) (w : spi_transfer_width_t) (rx_buff v_rx_len i : Z) : PM unit :=
  match fuel with
  | O => λ _, NoFuel
  | S fuel =>
      if v_rx_len =? 0 then mret tt
      else
        fifo_len ← rd_reg spi_num Spi_rxflr;
        let fifo_len := if fifo_len <? v_rx_len then fifo_len else v_rx_len in
        i ← rx_words (Z.to_nat fifo_len) spi_num w rx_buff i;
        rx_loop fuel spi_num w rx_buff (u32 (v_rx_len - fifo_len)) i
  end.
Definition spi_receive_data_standard (fuel : nat) (spi_num chip_select cmd_buff cmd_len rx_buff rx_len : Z) : PM unit :=
  spi_set_tmod spi_num (if cmd_len =? 0 then SPI_TMOD_RECV else SPI_TMOD_EEROM);;
  w ← frame_width spi_num;
  let v_cmd_len := cmd_len / width w in
  let v_rx_len := u32 (rx_len / width w) in
  wr_reg spi_num Spi_ctrlr1 (u32 (v_rx_len - 1));;
  wr_reg spi_num Spi_ssienr 1;;
  cmd_loop fuel spi_num chip_select w cmd_buff v_cmd_len 0;;
  (if cmd_len =? 0 then
     wr_reg spi_num Spi_dr0 0xffffffff;;
     wr_reg spi_num Spi_ser (Z.shiftl 1 chip_select)
   else mret tt);;
  rx_loop fuel spi_num w rx_buff v_rx_len 0;;
  wr_reg spi_num Spi_ser 0;;
  wr_reg spi_num Spi_ssienr 0.
(** ** Through the DMA controller *)
Context `{DmacHw D}.
Definition dma_channel (n : Z) : sysctl_dma_channel_t :=
  match n with
  | 0 => SYSCTL_DMA_CHANNEL_0 | 1 => SYSCTL_DMA_CHANNEL_1 | 2 => SYSCTL_DMA_CHANNEL_2
  | 3 => SYSCTL_DMA_CHANNEL_3 | 4 => SYSCTL_DMA_CHANNEL_4 | 5 => SYSCTL_DMA_CHANNEL_5
  | _ => SYSCTL_DMA_CHANNEL_MAX
  end.
Definition SYSCTL_DMA_SELECT_SSI0_RX_REQ : Z := 0.
Definition SYSCTL_DMA_SELECT_SSI0_TX_REQ : Z := 1.
Definition dma_select (channel_num select : Z) : PM Z := on_sysctl (sysctl_dma_select (dma_channel channel_num) select).

Definition spi_receive_data_normal_dma (fuel : nat) (dma_send_channel_num dma_receive_channel_num spi_num chip_select
    cmd_buff cmd_len rx_buff rx_len : Z) : PM unit :=
  spi_set_tmod spi_num (if cmd_len =? 0 then SPI_TMOD_RECV else SPI_TMOD_EEROM);;
  wr_reg spi_num Spi_ctrlr1 (u32 (rx_len - 1));;
  wr_reg spi_num Spi_dmacr 3;;
  wr_reg spi_num Spi_ssienr 1;;
  (if cmd_len =? 0 then mret 0 else dma_select dma_send_channel_num (SYSCTL_DMA_SELECT_SSI0_TX_REQ + spi_num * 2));;
  dma_select dma_receive_channel_num (SYSCTL_DMA_SELECT_SSI0_RX_REQ + spi_num * 2);;
  dmac_set_single_mode fuel dma_receive_channel_num (dr_addr spi_num) rx_buff DMAC_ADDR_NOCHANGE DMAC_ADDR_INCREMENT
    DMAC_MSIZE_1 DMAC_TRANS_WIDTH_32 rx_len;;
  (if cmd_len =? 0 then mret tt
   else dmac_set_single_mode fuel dma_send_channel_num cmd_buff (dr_addr spi_num) DMAC_ADDR_INCREMENT DMAC_ADDR_NOCHANGE
          DMAC_MSIZE_4 DMAC_TRANS_WIDTH_32 cmd_len);;
  (if cmd_len =? 0 then
     format ← spi_get_frame_format spi_num;
     if format =? frame_format_val SPI_FF_STANDARD then wr_reg spi_num Spi_dr0 0xffffffff else mret tt
   else mret tt);;
  wr_reg spi_num Spi_ser (Z.shiftl 1 chip_select);;
  (if cmd_len =? 0 then mret tt else dmac_wait_done fuel dma_send_channel_num);;
  dmac_wait_done fuel dma_receive_channel_num;;
  wr_reg spi_num Spi_ser 0;;
  wr_reg spi_num Spi_ssienr 0.

(** [n] frames of [w] at [src] become 32-bit words at [dst], and back. *)
Fixpoint widen (n : nat) (w : spi_transfer_width_t) (m : mem) (dst src : Z) : mem :=
  match n with
  | O => m
  | S n => widen n w (st32 m dst (ld (frame_bytes w) m src)) (dst + 4) (src + width w)
  end.
Fixpoint narrow (n : nat) (w : spi_transfer_width_t) (m : mem) (dst src : Z) : mem :=
  match n with
  | O => m
  | S n => narrow n w (st (frame_bytes w) m dst (ld32 m src)) (dst + width w) (src + 4)
  end.

Definition spi_send_data_normal_dma (fuel : nat) (channel_num spi_num chip_select tx_buff tx_len : Z)
    (spi_transfer_width : spi_transfer_width_t) : PM unit :=
  spi_set_tmod spi_num SPI_TMOD_TRANS;;
  buf ← match spi_transfer_width with
        | SPI_TRANS_INT => mret tx_buff
        | w => buf ← pg_alloc; with_mem (λ m, widen (Z.to_nat tx_len) w m buf tx_buff);; mret buf
        end;
  wr_reg spi_num Spi_dmacr 2;;
  wr_reg spi_num Spi_ssienr 1;;
  dma_select channel_num (SYSCTL_DMA_SELECT_SSI0_TX_REQ + spi_num * 2);;
  dmac_set_single_mode fuel channel_num buf (dr_addr spi_num) DMAC_ADDR_INCREMENT DMAC_ADDR_NOCHANGE
    DMAC_MSIZE_4 DMAC_TRANS_WIDTH_32 tx_len;;
  wr_reg spi_num Spi_ser (Z.shiftl 1 chip_select);;
  dmac_wait_done fuel channel_num;;
  match spi_transfer_width with SPI_TRANS_INT => mret tt | _ => pg_free buf end;;
  drain_loop fuel spi_num;;
  wr_reg spi_num Spi_ser 0;;
  wr_reg spi_num Spi_ssienr 0.

Definition spi_receive_data_standard_dma (fuel : nat) (dma_send_channel_num dma_receive_channel_num spi_num chip_select
    cmd_buff cmd_len rx_buff rx_len : Z) : PM unit :=
  w ← frame_width spi_num;
  write_cmd ← pg_alloc;
  let v_cmd_len := cmd_len / width w in
  let v_recv_len := rx_len / width w in
  with_mem (λ m, widen (Z.to_nat v_cmd_len) w m write_cmd cmd_buff);;
  let read_buf := write_cmd + 4 * v_cmd_len in
  spi_receive_data_normal_dma fuel dma_send_channel_num dma_receive_channel_num spi_num chip_select
    write_cmd v_cmd_len read_buf v_recv_len;;
  with_mem (λ m, narrow (Z.to_nat v_recv_len) w m rx_buff read_buf);;
  pg_free write_cmd.

Definition spi_send_data_standard_dma (fuel : nat) (channel_num spi_num chip_select cmd_buff cmd_len tx_buff tx_len : Z)
    : PM unit :=
  w ← frame_width spi_num;
  buf ← pg_alloc;
  with_mem (λ m, widen (Z.to_nat (cmd_len / width w)) w m buf cmd_buff);;
  with_mem (λ m, widen (Z.to_nat (tx_len / width w)) w m (buf + 4 * (cmd_len / width w)) tx_buff);;
  spi_send_data_normal_dma fuel channel_num spi_num chip_select buf (u64 (cmd_len + tx_len) / width w) SPI_TRANS_INT;;
  pg_free buf.
End spi.
