(* ===== verification/SpiProps.v ===== *)
(** * Bytes over the SPI bus

    [ssi] is the K210's SPI controller as its documentation describes it, as far as
    transfers without DMA go: two queues of 32 frames, and a bus that moves frames
    at its own pace.  With it, and any page allocator, the driver of Spi.v puts
    exactly the bytes it is given on the bus, in order, and stores exactly the
    bytes that come in. *)
From S2P Require Import Prelude Mem KAlloc Buf Bits Utils Sysctl Dmac Spi VmWitness.

(** ** The controller *)

(** [wire]: the frames sent so far.  [coming]: the frames that the other side will
    send.  [to_receive]: how many of them the running transfer still takes.
    [pace]: how many frames can move between two accesses of a register. *)
Record ssi := Ssi {
  ctrlr0 : Z; ctrlr1 : Z; baudr : Z; enabled : bool; ser : Z;
  tx_fifo : list Z; wire : list Z;
  rx_fifo : list Z; coming : nat → Z; to_receive : nat;
  clock : nat; pace : nat → nat;
}.
Definition tmod (s : ssi) : Z := get_bits (ctrlr0 s) 8 2.
Definition frame_bits (s : ssi) : Z := get_bits (ctrlr0 s) 16 5 + 1.
Definition running (s : ssi) : bool := enabled s && negb (ser s =? 0).

(** What happens between two accesses. *)
Definition moved_out (s : ssi) : nat :=
  if running s && (tmod s =? 1) then Nat.min (pace s (clock s)) (length (tx_fifo s)) else 0.
Definition moved_in (s : ssi) : nat :=
  if running s && (tmod s =? 2)
  then Nat.min (Nat.min (pace s (clock s)) (to_receive s)) (32 - length (rx_fifo s)) else 0.
Definition tick (s : ssi) : ssi :=
  let k := moved_out s in let j := moved_in s in
  Ssi (ctrlr0 s) (ctrlr1 s) (baudr s) (enabled s) (ser s)
    (drop k (tx_fifo s)) (wire s ++ take k (tx_fifo s))
    (rx_fifo s ++ map (coming s) (seq 0 j)) (λ i, coming s (j + i)%nat) (to_receive s - j)
    (S (clock s)) (pace s).

Definition load (r : spi_reg) (s : ssi) : Z * ssi :=
  match r with
  | Spi_ctrlr0 => (ctrlr0 s, s)
  | Spi_ctrlr1 => (ctrlr1 s, s)
  | Spi_ssienr => (Z.b2z (enabled s), s)
  | Spi_ser => (ser s, s)
  | Spi_baudr => (baudr s, s)
  | Spi_txflr => (Z.of_nat (length (tx_fifo s)), s)
  | Spi_rxflr => (Z.of_nat (length (rx_fifo s)), s)
  | Spi_sr =>
      (Z.lor (match tx_fifo s with [] => 4 | _ => 0 end)
             (match tx_fifo s, to_receive s with [], O => 0 | _, _ => 1 end), s)
  | Spi_dr0 =>
      match rx_fifo s with
      | [] => (0, s)
      | x :: l => (x, Ssi (ctrlr0 s) (ctrlr1 s) (baudr s) (enabled s) (ser s) (tx_fifo s) (wire s)
                       l (coming s) (to_receive s) (clock s) (pace s))
      end
  | _ => (0, s)
  end.
(** A frame that finds the queue full, or the controller disabled, is lost; in
    receive mode the first one starts the transfer of [ctrlr1 + 1] frames. *)
Definition store_frame (v : Z) (s : ssi) : ssi :=
  let push := enabled s && negb (tmod s =? 2) && Nat.ltb (length (tx_fifo s)) 32 in
  Ssi (ctrlr0 s) (ctrlr1 s) (baudr s) (enabled s) (ser s)
    (if push then tx_fifo s ++ [v mod 2 ^ frame_bits s] else tx_fifo s) (wire s)
    (rx_fifo s) (coming s)
    (if enabled s && (tmod s =? 2) then Z.to_nat (ctrlr1 s + 1) else to_receive s) (clock s) (pace s).
Definition store (r : spi_reg) (v : Z) (s : ssi) : ssi :=
  match r with
  | Spi_ctrlr0 => Ssi v (ctrlr1 s) (baudr s) (enabled s) (ser s) (tx_fifo s) (wire s) (rx_fifo s) (coming s) (to_receive s) (clock s) (pace s)
  | Spi_ctrlr1 => Ssi (ctrlr0 s) (v mod 2 ^ 16) (baudr s) (enabled s) (ser s) (tx_fifo s) (wire s) (rx_fifo s) (coming s) (to_receive s) (clock s) (pace s)
  | Spi_baudr => Ssi (ctrlr0 s) (ctrlr1 s) v (enabled s) (ser s) (tx_fifo s) (wire s) (rx_fifo s) (coming s) (to_receive s) (clock s) (pace s)
  | Spi_ser => Ssi (ctrlr0 s) (ctrlr1 s) (baudr s) (enabled s) v (tx_fifo s) (wire s) (rx_fifo s) (coming s) (to_receive s) (clock s) (pace s)
  | Spi_ssienr =>
      if v =? 0
      then Ssi (ctrlr0 s) (ctrlr1 s) (baudr s) false (ser s) [] (wire s) [] (coming s) 0 (clock s) (pace s)
      else Ssi (ctrlr0 s) (ctrlr1 s) (baudr s) true (ser s) (tx_fifo s) (wire s) (rx_fifo s) (coming s) (to_receive s) (clock s) (pace s)
  | Spi_dr0 => store_frame v s
  | _ => s
  end.

(** The machine: pages and memory of [S], and the controller of SPI 0. *)
#[export] Instance ssi_hw {S} : SpiHw (S * ssi) := {|
  spi_rd n r d := if n =? 0 then let '(v, s) := load r (tick d.2) in (v, (d.1, s)) else (0, d);
  spi_wr n r v d := if n =? 0 then (d.1, store r v (tick d.2)) else d;
|}.

Section pages.
Context {S : Type} `{PageAllocator S}.
Definition on_pages {A} (c : M S A) : M (S * ssi) A := λ d,
  match c d.1 with
  | Done (a, s) => Done (a, (s, d.2))
  | Panic e => Panic e
  | NoFuel => NoFuel
  end.
#[export] Program Instance ssi_pages : PageAllocator (S * ssi) := {|
  pg_alloc := on_pages pg_alloc;
  pg_free p := on_pages (pg_free p);
  pg_mem d := pg_mem d.1;
  pg_set_mem m d := (pg_set_mem m d.1, d.2);
  pg_inv d l := pg_inv d.1 l;
  pg_managed := pg_managed (S := S);
|}.
Next Obligation. intros m s. apply pg_get_set. Qed.
Next Obligation. intros s l. apply pg_inv_pages. Qed.
Next Obligation. intros s l. apply pg_inv_mem. Qed.
Next Obligation. intros s l m. apply pg_inv_set_mem. Qed.
Next Obligation. intros s Hi. unfold on_pages. rewrite pg_alloc_none by done. by destruct s. Qed.
Next Obligation.
  intros s p l Hi. destruct (pg_alloc_some _ _ _ Hi) as (w & E & Hw & Hm).
  eexists. unfold on_pages. rewrite E. by split.
Qed.
Next Obligation.
  intros s p l Hi Hp Hg Hn. destruct (pg_free_ok _ _ _ Hi Hp Hg Hn) as (w & E & Hw & Hm).
  eexists. unfold on_pages. rewrite E. by split.
Qed.
End pages.

(** ** Sending *)
Section proofs.
Context {S : Type} `{PageAllocator S}.
Implicit Types (s : S) (c : ssi).
(** The bus moves at least one frame in any [L + 1] accesses. *)
Definition patience (L : nat) c : Prop := ∀ t, ∃ k, (k ≤ L)%nat ∧ (0 < pace c (t + k))%nat.

Lemma rd_run r s c : rd_reg 0 r (s, c) = Done ((load r (tick c)).1, (s, (load r (tick c)).2)).
Proof. unfold rd_reg. cbn. by destruct (load r (tick c)). Qed.
Lemma wr_run r v s c : wr_reg 0 r v (s, c) = Done (tt, (s, store r v (tick c))).
Proof. done. Qed.

(** Sending frames of 8 bits; [q]: the frames sent, or waiting in the queue. *)
Record sending (q : list Z) c : Prop := {
  se_on : running c = true;
  se_mode : tmod c = 1;
  se_bits : frame_bits c = 8;
  se_queue : wire c ++ tx_fifo c = q;
  se_room : (length (tx_fifo c) ≤ 32)%nat;
  se_idle : to_receive c = 0%nat;
}.
(** What sending leaves alone. *)
Definition kept c c' : Prop := pace c' = pace c ∧ coming c' = coming c ∧ baudr c' = baudr c.
Lemma kept_trans c1 c2 c3 : kept c1 c2 → kept c2 c3 → kept c1 c3.
Proof. intros (? & ? & ?) (? & ? & ?). split_and!; congruence. Qed.

Lemma tick_sending q c : sending q c →
  sending q (tick c) ∧ kept c (tick c) ∧ clock (tick c) = Datatypes.S (clock c) ∧
  (length (tx_fifo (tick c)) ≤ length (tx_fifo c))%nat ∧
  ((0 < pace c (clock c))%nat → tx_fifo c ≠ [] → (length (tx_fifo (tick c)) < length (tx_fifo c))%nat).
Proof.
  intros [Hon Hm Hb Hq Hr Hz]. assert (moved_in c = 0%nat) as Hi by (unfold moved_in; by rewrite Hm, andb_false_r).
  assert (moved_out c = Nat.min (pace c (clock c)) (length (tx_fifo c))) as Ho by (unfold moved_out; by rewrite Hon, Hm).
  split_and!; [split| | |..]; try done.
  - cbn. by rewrite <- app_assoc, take_drop.
  - cbn. rewrite length_drop. lia.
  - cbn. by rewrite Hz.
  - unfold kept, tick. cbn. by rewrite Hi.
  - cbn. rewrite length_drop. lia.
  - intros Hp Hne. cbn. rewrite length_drop, Ho. destruct (tx_fifo c); [done|]. cbn [length]. lia.
Qed.

Lemma push_sending q c x : sending q c → (length (tx_fifo c) < 32)%nat →
  sending (q ++ [x mod 256]) (store_frame x c) ∧ kept c (store_frame x c) ∧ clock (store_frame x c) = clock c ∧
  length (tx_fifo (store_frame x c)) = Datatypes.S (length (tx_fifo c)).
Proof.
  intros [Hon Hm Hb Hq Hr Hz] Hl.
  assert (enabled c = true) as He by (unfold running in Hon; by apply andb_true_iff in Hon as [? _]).
  unfold store_frame. rewrite He, Hm, Hb. rewrite (proj2 (Nat.ltb_lt _ _) Hl). cbn.
  split_and!; [split| | |]; cbn; try done.
  - unfold running in Hon. by apply andb_true_iff in Hon as [_ ?].
  - by rewrite app_assoc, Hq.
  - rewrite length_app. cbn. lia.
  - rewrite length_app. cbn. lia.
Qed.

Lemma send_words_run a : ∀ n i s c q, sending q c → (length (tx_fifo c) + n ≤ 32)%nat → mem_ok (pg_mem s) →
  0 ≤ i → i + Z.of_nat n < 2 ^ 32 →
  ∃ c', send_words n 0 SPI_TRANS_CHAR false a i (s, c) = Done (i + Z.of_nat n, (s, c')) ∧
    sending (q ++ rd_bytes (pg_mem s) (a + i) n) c' ∧ kept c c'.
Proof.
  induction n as [|n IH]; intros i s c q Hs Hl Hm Hi Hb; cbn [send_words rd_bytes].
  - exists c. rewrite app_nil_r, Z.add_0_r. by split_and!.
  - destruct (tick_sending q c Hs) as (Hs1 & Hk1 & _ & Hl1 & _).
    assert (ld 1 (pg_mem s) (a + 1 * i) mod 256 = pg_mem s (a + i)) as Hx.
    { cbn [ld]. rewrite !Z.mul_1_l, Z.mul_0_r, Z.add_0_r. apply Z.mod_small, Hm. }
    destruct (push_sending q (tick c) (ld 1 (pg_mem s) (a + 1 * i)) Hs1 ltac:(lia)) as (Hs2 & Hk2 & _ & Hl2).
    rewrite Hx in Hs2.
    destruct (IH (i + 1) s _ _ Hs2 ltac:(lia) Hm ltac:(lia) ltac:(lia)) as (c' & E & Hs3 & Hk3).
    exists c'. split_and!.
    + unfold mbind, M_bind. cbn -[Z.add Z.mul Z.of_nat ld send_words]. cbn [frame_bytes].
      change (Z.of_nat 1) with 1. rewrite u32_small by lia. rewrite E. do 2 f_equal. lia.
    + rewrite Z.add_assoc in Hs3. by rewrite <- app_assoc in Hs3.
    + exact (kept_trans _ _ _ (kept_trans _ _ _ Hk1 Hk2) Hk3).
Qed.
Lemma patience_kept L c c' : patience L c → kept c c' → patience L c'.
Proof. intros Hp (E & _ & _) t. rewrite E. apply Hp. Qed.

Lemma tx_loop_run L a s : mem_ok (pg_mem s) → ∀ fuel len i c q k,
  sending q c → patience L c → (k ≤ L)%nat → (0 < pace c (clock c + k))%nat →
  0 ≤ i → i + Z.of_nat len < 2 ^ 32 → (len * (L + 1) + k + 1 ≤ fuel)%nat →
  ∃ c', tx_loop fuel 0 SPI_TRANS_CHAR false a (Z.of_nat len) i (s, c) = Done (tt, (s, c')) ∧
    sending (q ++ rd_bytes (pg_mem s) (a + i) len) c' ∧ kept c c'.
Proof.
  intros Hm. induction fuel as [|fuel IH]; intros len i c q k Hs Hp Hk Hpk Hi Hb Hf; [lia|]. cbn [tx_loop].
  destruct len as [|len]; [exists c; rewrite app_nil_r; by split_and!|].
  set (n := Datatypes.S len) in *. rewrite (proj2 (Z.eqb_neq (Z.of_nat n) 0)) by lia.
  destruct (tick_sending q c Hs) as (Hs1 & Hk1 & Hc1 & Hl1 & Hless).
  step (rd_run Spi_txflr s c). cbn [load fst snd]. pose proof (se_room _ _ Hs1) as Hr.
  set (level := length (tx_fifo (tick c))) in *. rewrite u32_small by lia.
  set (j := Nat.min (32 - level) n).
  replace (if 32 - Z.of_nat level <? Z.of_nat n then 32 - Z.of_nat level else Z.of_nat n) with (Z.of_nat j)
    by (destruct (Z.ltb_spec (32 - Z.of_nat level) (Z.of_nat n)); lia).
  change (width SPI_TRANS_CHAR) with 1. rewrite Z.div_1_r, Z.mul_1_r, Nat2Z.id.
  destruct (send_words_run a j i s (tick c) q Hs1 ltac:(lia) Hm Hi ltac:(lia)) as (c2 & E & Hs2 & Hk2).
  step E. replace (Z.of_nat n - Z.of_nat j) with (Z.of_nat (n - j)) by lia.
  pose proof (kept_trans _ _ _ Hk1 Hk2) as Hk'.
  assert (∃ c', tx_loop fuel 0 SPI_TRANS_CHAR false a (Z.of_nat (n - j)) (i + Z.of_nat j) (s, c2) = Done (tt, (s, c')) ∧
    sending ((q ++ rd_bytes (pg_mem s) (a + i) j) ++ rd_bytes (pg_mem s) (a + (i + Z.of_nat j)) (n - j)) c' ∧ kept c2 c')
    as (c' & E' & Hs' & Hk3).
  { destruct (decide (level = 32%nat)) as [Hfull|Hroom].
    - assert (j = 0%nat) as Hj by lia. rewrite Hj in E. injection E as _ <-.
      destruct k as [|k].
      { rewrite Nat.add_0_r in Hpk. pose proof (se_room _ _ Hs). assert (tx_fifo c ≠ []) as Hne by (intros Ef; rewrite Ef in Hl1; cbn [length] in Hl1; lia).
        specialize (Hless Hpk Hne). lia. }
      apply (IH _ _ _ _ k Hs2 (patience_kept _ _ _ Hp Hk')); try lia.
      destruct Hk' as (-> & _). rewrite Hc1. by replace (Datatypes.S (clock c) + k)%nat with (clock c + Datatypes.S k)%nat by lia.
    - destruct (Hp (clock c2)) as (k2 & Hk2' & Hpk2).
      apply (IH _ _ _ _ k2 Hs2 (patience_kept _ _ _ Hp Hk')); try lia; try nia.
      by destruct Hk' as (-> & _). }
  exists c'. split_and!; [exact E'| |exact (kept_trans _ _ _ Hk' Hk3)].
  rewrite <- app_assoc, Z.add_assoc, <- rd_bytes_app in Hs'. by replace (j + (n - j))%nat with n in Hs' by lia.
Qed.

Lemma drain_run L s : ∀ fuel c q k,
  sending q c → patience L c → (k ≤ L)%nat → (0 < pace c (clock c + k))%nat →
  (length (tx_fifo c) * (L + 1) + k + 1 ≤ fuel)%nat →
  ∃ c', drain_loop fuel 0 (s, c) = Done (tt, (s, c')) ∧ sending q c' ∧ tx_fifo c' = [] ∧ kept c c'.
Proof.
  induction fuel as [|fuel IH]; intros c q k Hs Hp Hk Hpk Hf; [lia|]. cbn [drain_loop].
  destruct (tick_sending q c Hs) as (Hs1 & Hk1 & Hc1 & Hl1 & Hless).
  step (rd_run Spi_sr s c). cbn [load fst snd]. rewrite (se_idle _ _ Hs1).
  destruct (tx_fifo (tick c)) as [|x l] eqn:Ef; cbn [Z.lor Z.land Z.eqb]; [by exists (tick c)|].
  assert (tx_fifo c ≠ []) as Hne by (intros E; rewrite E in Hl1; cbn in Hl1; lia).
  assert (∃ k2, (k2 ≤ L)%nat ∧ (0 < pace (tick c) (clock (tick c) + k2))%nat ∧
    (length (tx_fifo (tick c)) * (L + 1) + k2 + 1 ≤ fuel)%nat) as (k2 & H2 & Hpk2 & Hf2).
  { rewrite Ef. destruct Hk1 as (-> & _). rewrite Hc1. destruct k as [|k].
    - rewrite Nat.add_0_r in Hpk. specialize (Hless Hpk Hne). destruct (Hp (Datatypes.S (clock c))) as (k2 & ? & ?).
      exists k2. split_and!; [done|done|nia].
    - exists k. replace (Datatypes.S (clock c) + k)%nat with (clock c + Datatypes.S k)%nat by lia. split_and!; [lia|done|nia]. }
  destruct (IH _ _ _ Hs1 (patience_kept _ _ _ Hp Hk1) H2 Hpk2 Hf2) as (c' & E & Hs' & Hn & Hk').
  exists c'. split_and!; [|done|done|exact (kept_trans _ _ _ Hk1 Hk')].
  rewrite <- E. by destruct (Z.eqb_spec (Z.land (Z.lor 0 1) 5) 4).
Qed.
(** ** A transfer *)
Lemma tick_off c : running c = false →
  tick c = Ssi (ctrlr0 c) (ctrlr1 c) (baudr c) (enabled c) (ser c) (tx_fifo c) (wire c) (rx_fifo c) (coming c) (to_receive c)
    (Datatypes.S (clock c)) (pace c).
Proof.
  intros Hr. unfold tick, moved_out, moved_in. rewrite Hr. cbn.
  by rewrite !app_nil_r, Nat.sub_0_r, drop_0.
Qed.
(** Register accesses while the bus is at rest. *)
Lemma wr_off r v s c : running c = false → wr_reg 0 r v (s, c) = Done (tt, (s, store r v (Ssi (ctrlr0 c) (ctrlr1 c) (baudr c)
  (enabled c) (ser c) (tx_fifo c) (wire c) (rx_fifo c) (coming c) (to_receive c) (Datatypes.S (clock c)) (pace c)))).
Proof. intros Hr. by rewrite wr_run, tick_off. Qed.
Ltac fields := cbn [store ctrlr0 ctrlr1 baudr enabled ser tx_fifo wire rx_fifo coming to_receive clock pace Z.eqb].
Ltac wr := erewrite M_bind_Done by (apply wr_off; reflexivity); fields.

Lemma spi_init_run s c : enabled c = false → ∃ b n,
  spi_init 0 0 SPI_FF_STANDARD 8 0 (s, c) =
  Done (tt, (s, Ssi 0x70000 (ctrlr1 c) b false 0 [] (wire c) [] (coming c) 0 n (pace c))).
Proof.
  destruct c as [c0 c1 b en se tf w rf co tr k p]. cbn [enabled]. intros ->. unfold spi_init.
  step (rd_run Spi_baudr s (Ssi c0 c1 b false se tf w rf co tr k p)).
  rewrite tick_off by done. cbn [load fst snd]. fields.
  destruct (b =? 0); [exists 0x14|exists b]; eexists.
  - wr. wr. wr. wr. wr. wr. wr. wr. wr. rewrite wr_off by done. fields. done.
  - erewrite M_bind_Done by done. wr. wr. wr. wr. wr. wr. wr. wr. rewrite wr_off by done. fields. done.
Qed.

(** The controller between transfers, as [spi_init] leaves it. *)
Definition at_rest (cr b : Z) (w : list Z) (co : nat → Z) (n : nat) (f : nat → nat) : ssi :=
  Ssi 0x70000 cr b false 0 [] w [] co 0 n f.
Definition mode_ctrlr0 (t : spi_transfer_mode_t) : Z := Z.lor 0x70000 (Z.shiftl (tmod_val t) 8).

Lemma set_tmod_run t s cr b w co n f :
  spi_set_tmod 0 t (s, at_rest cr b w co n f) =
  Done (tt, (s, Ssi (mode_ctrlr0 t) cr b false 0 [] w [] co 0 (2 + n) f)).
Proof.
  unfold spi_set_tmod, at_rest. step (rd_run Spi_ctrlr0 s (Ssi 0x70000 cr b false 0 [] w [] co 0 n f)).
  rewrite tick_off by done. cbn [load fst snd]. fields. rewrite wr_off by done. fields. by destruct t.
Qed.
Lemma frame_width_run t s cr b w co n f :
  frame_width 0 (s, Ssi (mode_ctrlr0 t) cr b false 0 [] w [] co 0 n f) =
  Done (SPI_TRANS_CHAR, (s, Ssi (mode_ctrlr0 t) cr b false 0 [] w [] co 0 (1 + n) f)).
Proof.
  unfold frame_width. step (rd_run Spi_ctrlr0 s (Ssi (mode_ctrlr0 t) cr b false 0 [] w [] co 0 n f)).
  rewrite tick_off by done. cbn [load fst snd]. fields. by destruct t.
Qed.

(** Deselecting the card and disabling the controller, with the queue empty. *)
Definition rest (w : list Z) (co : nat → Z) (f : nat → nat) c : Prop :=
  enabled c = false ∧ wire c = w ∧ coming c = co ∧ pace c = f.

Lemma send_normal_run L fuel s cr b w co n f a len :
  mem_ok (pg_mem s) → (∀ t, ∃ k, (k ≤ L)%nat ∧ (0 < f (t + k))%nat) →
  Z.of_nat len < 2 ^ 32 → ((len + 33) * (L + 1) ≤ fuel)%nat →
  ∃ c', spi_send_data_normal fuel 0 3 a (Z.of_nat len) (s, at_rest cr b w co n f) = Done (tt, (s, c')) ∧
    rest (w ++ rd_bytes (pg_mem s) a len) co f c'.
Proof.
  intros Hm Hp Hl Hf. unfold spi_send_data_normal. step (set_tmod_run SPI_TMOD_TRANS s cr b w co n f).
  step (frame_width_run SPI_TMOD_TRANS s cr b w co (2 + n) f). wr. wr.
  match goal with |- context [(s, ?c)] => set (c0 := c) end.
  assert (sending w c0) as Hs by (split; try done; [apply app_nil_r|cbn; lia]).
  change (width SPI_TRANS_CHAR) with 1. rewrite Z.mod_1_r. change (negb (0 =? 0)) with false.
  destruct (Hp (clock c0)) as (k & Hk & Hpk).
  destruct (tx_loop_run L a s Hm fuel len 0 c0 w k Hs Hp Hk Hpk ltac:(lia) ltac:(lia) ltac:(nia)) as (c1 & E1 & Hs1 & Hk1).
  step E1. clear E1. rewrite Z.add_0_r in Hs1. set (q := w ++ _) in *. pose proof (patience_kept L c0 c1 Hp Hk1) as Hp1.
  destruct (Hp1 (clock c1)) as (k1 & Hk1' & Hpk1). pose proof (se_room _ _ Hs1) as Hr1.
  destruct (drain_run L s fuel c1 q k1 Hs1 Hp1 Hk1' Hpk1 ltac:(nia)) as (c2 & E2 & Hs2 & He2 & Hk2).
  step E2. clear E2. step (wr_run Spi_ser 0 s c2). destruct (tick_sending q c2 Hs2) as (Hs3 & Hk3 & _ & Hl3 & _).
  destruct (kept_trans _ _ _ Hk1 (kept_trans _ _ _ Hk2 Hk3)) as (Hf3 & Hco3 & _).
  pose proof (se_queue _ _ Hs3) as Hq3. rewrite He2 in Hl3. destruct (tx_fifo (tick c2)) eqn:Ef; [|cbn in Hl3; lia].
  rewrite app_nil_r in Hq3. destruct (tick c2) as [? ? ? en ? ? ? ? ? ? ? ?]. cbn in Hf3, Hco3, Hq3. subst.
  rewrite wr_off by (cbn; by destruct en). eexists. split; [done|]. by split_and!.
Qed.

Lemma copy_forward_ok m d a n : mem_ok m → mem_ok (copy_forward m d a n).
Proof.
  revert m d a. induction n as [|n IH]; intros m d a Hm; cbn [copy_forward]; [done|]. apply IH, mem_ok_upd; [done|apply Hm].
Qed.
(** Two buffers, outside a page, end up one behind the other in it. *)
Lemma gather m p cmd n1 tx n2 :
  (n1 + n2 ≤ 4096)%nat → (cmd + Z.of_nat n1 ≤ p ∨ p + PGSIZE ≤ cmd) → (tx + Z.of_nat n2 ≤ p ∨ p + PGSIZE ≤ tx) →
  let m' := copy_forward (copy_forward m p cmd n1) (p + Z.of_nat n1) tx n2 in
  rd_bytes m' p (n1 + n2) = rd_bytes m cmd n1 ++ rd_bytes m tx n2 ∧ same_outside p m m'.
Proof.
  intros Hn Hd1 Hd2 m'. change PGSIZE with 4096 in *.
  assert (∀ x, m' x = if in_range x (p + Z.of_nat n1) (Z.of_nat n2) then m (tx - (p + Z.of_nat n1) + x)
                      else if in_range x p (Z.of_nat n1) then m (cmd - p + x) else m x) as Hm'.
  { intros x. unfold m'. rewrite copy_forward_lookup by lia.
    destruct (in_range x (p + Z.of_nat n1) (Z.of_nat n2)) eqn:Ex; rewrite copy_forward_lookup by lia; [|done].
    apply in_range_true in Ex. by rewrite (proj2 (in_range_false (tx - (p + Z.of_nat n1) + x) p (Z.of_nat n1))) by lia. }
  split.
  - rewrite rd_bytes_app. f_equal; apply list_eq; intros i.
    + destruct (decide (i < n1)%nat); [|by rewrite !lookup_ge_None_2 by (rewrite length_rd_bytes; lia)].
      rewrite !rd_bytes_lookup, Hm' by done. rewrite (proj2 (in_range_false _ _ _)), (proj2 (in_range_true _ _ _)) by lia.
      do 2 f_equal. lia.
    + destruct (decide (i < n2)%nat); [|by rewrite !lookup_ge_None_2 by (rewrite length_rd_bytes; lia)].
      rewrite !rd_bytes_lookup, Hm' by done. rewrite (proj2 (in_range_true _ _ _)) by lia. do 2 f_equal. lia.
  - intros x Hx. change PGSIZE with 4096 in Hx. rewrite Hm'.
    by rewrite !(proj2 (in_range_false _ _ _)) by lia.
Qed.
(** A page that is in use can be written. *)
Lemma pg_write s p free m : pg_inv s free → page_ok p → pg_managed (S := S) p → p ∉ free →
  mem_ok m → same_outside p (pg_mem s) m → pg_inv (pg_set_mem m s) free.
Proof.
  intros Hi Hp _ Hn Hm Hout. apply pg_inv_set_mem; [done|done|]. intros q x Hq Hx. apply Hout.
  destruct (pg_inv_pages _ _ Hi) as [_ Hok]. rewrite Forall_forall in Hok.
  apply (MemAllocator.pages_disjoint q p); [apply Hok, Hq|done|by intros ->|done].
Qed.

(** A transfer as the SD card driver makes it: [spi_init], then the bytes of both
    buffers, whatever the pace of the bus. *)
Theorem spi_send_puts_bytes_on_wire L fuel s c p free cmd n1 tx n2 :
  pg_inv s (p :: free) → enabled c = false → patience L c →
  (n1 + n2 ≤ 4096)%nat → (cmd + Z.of_nat n1 ≤ p ∨ p + PGSIZE ≤ cmd) → (tx + Z.of_nat n2 ≤ p ∨ p + PGSIZE ≤ tx) →
  ((n1 + n2 + 33) * (L + 1) ≤ fuel)%nat →
  ∃ s' c', (spi_init 0 0 SPI_FF_STANDARD 8 0;; spi_send_data_standard fuel 0 3 cmd (Z.of_nat n1) tx (Z.of_nat n2)) (s, c) =
      Done (tt, (s', c')) ∧
    rest (wire c ++ rd_bytes (pg_mem s) cmd n1 ++ rd_bytes (pg_mem s) tx n2) (coming c) (pace c) c' ∧
    pg_inv s' (p :: free) ∧ same_outside p (pg_mem s) (pg_mem s').
Proof.
  intros Hi He Hp Hn Hd1 Hd2 Hf.
  destruct (spi_init_run s c He) as (b & n & E0). step E0. unfold spi_send_data_standard.
  destruct (pg_alloc_some _ _ _ Hi) as (s1 & E1 & Hi1 & Hm1).
  erewrite M_bind_Done by (cbn [pg_alloc ssi_pages]; unfold on_pages; cbn [fst]; rewrite E1; done). cbn [snd].
  unfold with_mem. erewrite M_bind_Done by done. erewrite M_bind_Done by done. cbn [pg_set_mem pg_mem ssi_pages fst snd].
  rewrite !pg_get_set, !Nat2Z.id.
  destruct (pg_inv_pages _ _ Hi) as [[Hnin _]%NoDup_cons [[Hpok Hman] _]%Forall_cons].
  destruct (gather (pg_mem s1) p cmd n1 tx n2 Hn Hd1 Hd2) as [Hg Hout].
  set (m2 := copy_forward (pg_mem s1) p cmd n1) in *. set (m3 := copy_forward m2 (p + Z.of_nat n1) tx n2) in *.
  pose proof (pg_inv_mem _ _ Hi1) as Hok1.
  assert (pg_inv (pg_set_mem m2 s1) free) as Hi2.
  { apply (pg_write _ p); [done..|by unfold m2; apply copy_forward_ok|].
    exact (proj2 (gather (pg_mem s1) p cmd n1 tx 0 ltac:(lia) Hd1 ltac:(lia))). }
  assert (mem_ok m3) as Hok3 by (by unfold m3; apply copy_forward_ok, copy_forward_ok).
  assert (same_outside p m2 m3) as Hout23.
  { intros x Hx. unfold m3. rewrite copy_forward_lookup by (change PGSIZE with 4096 in *; lia).
    by rewrite (proj2 (in_range_false _ _ _)) by (change PGSIZE with 4096 in Hx; lia). }
  assert (pg_inv (pg_set_mem m3 (pg_set_mem m2 s1)) free) as Hi3.
  { apply (pg_write _ p); try done. by rewrite pg_get_set. }
  set (s3 := pg_set_mem m3 _) in *. assert (pg_mem s3 = m3) as Hm3 by apply pg_get_set.
  rewrite u64_small by lia. rewrite <- Nat2Z.inj_add.
  destruct (send_normal_run L fuel s3 (ctrlr1 c) b (wire c) (coming c) n (pace c) p (n1 + n2)) as (c' & E3 & Hr);
    [by rewrite Hm3|exact Hp|lia|done|].
  unfold at_rest in E3. step E3. rewrite Hm3, Hg in Hr.
  destruct (pg_free_ok _ _ _ Hi3 Hpok Hman Hnin) as (s4 & E4 & Hi4 & Hm4).
  exists s4, c'. split_and!; [by cbn [pg_free ssi_pages]; unfold on_pages; cbn [fst snd]; rewrite E4| |done|].
  - rewrite (rd_bytes_ext (pg_mem s1) (pg_mem s) cmd), (rd_bytes_ext (pg_mem s1) (pg_mem s) tx); [done| |];
      intros x Hx; symmetry; apply Hm1; lia.
  - intros x Hx. rewrite Hm4, Hm3, Hout, Hm1 by done. done.
Qed.
(** ** Receiving *)

(** [l]: the frames of the running transfer that have not been read.  [after]: what
    comes behind them. *)
Definition after c (i : nat) : Z := coming c (to_receive c + i)%nat.
Record receiving (l : list Z) c : Prop := {
  re_on : running c = true;
  re_mode : tmod c = 2;
  re_frames : rx_fifo c ++ map (coming c) (seq 0 (to_receive c)) = l;
  re_room : (length (rx_fifo c) ≤ 32)%nat;
}.
Definition kept_rx c c' : Prop := pace c' = pace c ∧ wire c' = wire c ∧ ∀ i, after c' i = after c i.
Lemma kept_rx_trans c1 c2 c3 : kept_rx c1 c2 → kept_rx c2 c3 → kept_rx c1 c3.
Proof. intros (P1 & W1 & A1) (P2 & W2 & A2). split_and!; [congruence..|]. intros i. by rewrite A2, A1. Qed.

Lemma map_seq_shift (f : nat → Z) j n : map (λ i, f (j + i)%nat) (seq 0 n) = map f (seq j n).
Proof.
  replace (seq j n) with (seq (j + 0) n) by (f_equal; lia). generalize 0%nat as a. induction n as [|n IH]; intros a; cbn; [done|].
  by rewrite IH, Nat.add_succ_r.
Qed.

Lemma tick_receiving l c : receiving l c →
  receiving l (tick c) ∧ kept_rx c (tick c) ∧ clock (tick c) = Datatypes.S (clock c) ∧
  (length (rx_fifo c) ≤ length (rx_fifo (tick c)))%nat ∧
  ((0 < pace c (clock c))%nat → l ≠ [] → (0 < length (rx_fifo (tick c)))%nat).
Proof.
  intros [Hon Hm Hl Hr]. assert (moved_out c = 0%nat) as Ho by (unfold moved_out; by rewrite Hm, andb_false_r).
  set (j := Nat.min (Nat.min (pace c (clock c)) (to_receive c)) (32 - length (rx_fifo c))).
  assert (moved_in c = j) as Hi by (unfold moved_in; by rewrite Hon, Hm).
  assert (to_receive c = j + (to_receive c - j))%nat as Ej by lia.
  split_and!; [split| | |..]; try done.
  - cbn. rewrite Hi, map_seq_shift, <- app_assoc, <- map_app, <- seq_app. by rewrite <- Ej.
  - cbn. rewrite Hi, length_app, length_map, length_seq. lia.
  - split_and!; [done| |].
    + cbn. by rewrite Ho, app_nil_r.
    + intros i. unfold after. cbn. rewrite Hi. f_equal. lia.
  - cbn. rewrite Hi, length_app, length_map, length_seq. lia.
  - intros Hp Hne. cbn. rewrite Hi, length_app, length_map, length_seq.
    destruct (rx_fifo c) eqn:Ef; cbn [length] in *; [|lia].
    assert (to_receive c ≠ 0%nat); [|lia]. intros E. rewrite E in Hl. cbn in Hl. by subst l.
Qed.
(** The bytes [l] have been stored at [a]. *)
Definition stored (a : Z) (l : list Z) s s' : Prop :=
  rd_bytes (pg_mem s') a (length l) = l ∧
  (∀ x, ¬ (a ≤ x < a + Z.of_nat (length l)) → pg_mem s' x = pg_mem s x) ∧
  (∀ free, pg_inv s free → Forall (λ q, a + Z.of_nat (length l) ≤ q ∨ q + PGSIZE ≤ a) free → pg_inv s' free).
Lemma stored_nil a s : stored a [] s s.
Proof. by split_and!. Qed.
Lemma stored_app a l1 l2 s s1 s2 :
  stored a l1 s s1 → stored (a + Z.of_nat (length l1)) l2 s1 s2 → stored a (l1 ++ l2) s s2.
Proof.
  intros (R1 & O1 & I1) (R2 & O2 & I2). split_and!.
  - rewrite length_app, rd_bytes_app, R2. f_equal. rewrite <- R1 at 2. apply rd_bytes_ext.
    intros x Hx. apply O2. lia.
  - intros x Hx. rewrite length_app in Hx. rewrite O2, O1 by lia. done.
  - intros free Hi Hd. rewrite length_app in Hd. apply I2; [apply I1; [done|]|]; (eapply Forall_impl; [exact Hd|]); cbn; lia.
Qed.
Lemma stored_one a v s : stored a [u8 v] s (pg_set_mem (st 1 (pg_mem s) a v) s).
Proof.
  unfold stored. rewrite pg_get_set. cbn [rd_bytes length st]. split_and!.
  - by rewrite upd_eq.
  - intros x Hx. apply upd_ne. lia.
  - intros free Hi Hd. apply pg_inv_set_mem; [done|apply mem_ok_upd; [exact (pg_inv_mem _ _ Hi)|apply u8_range]|].
    intros q x Hq Hx. rewrite Forall_forall in Hd. specialize (Hd q Hq). apply upd_ne. change PGSIZE with 4096 in *. lia.
Qed.

Lemma rx_words_run a : ∀ n i s c l, receiving l c → (n ≤ length (rx_fifo c))%nat → 0 ≤ i → i + Z.of_nat n < 2 ^ 32 →
  ∃ s' c', rx_words n 0 SPI_TRANS_CHAR a i (s, c) = Done (i + Z.of_nat n, (s', c')) ∧
    receiving (drop n l) c' ∧ kept_rx c c' ∧ stored (a + i) (map u8 (take n l)) s s'.
Proof.
  induction n as [|n IH]; intros i s c l Hs Hn Hi Hb; cbn [rx_words].
  - exists s, c. rewrite Z.add_0_r, drop_0. split; [done|split; [done|split; [done|apply stored_nil]]].
  - destruct (tick_receiving l c Hs) as (Hs1 & Hk1 & _ & Hl1 & _). step (rd_run Spi_dr0 s c). cbn [load].
    destruct Hs1 as [Hon Hm Hf Hr]. destruct (rx_fifo (tick c)) as [|v fifo] eqn:Ef; [cbn in Hl1; lia|]. cbn [fst snd].
    set (c1 := Ssi _ _ _ _ _ _ _ _ _ _ _ _).
    set (rest := fifo ++ map (coming (tick c)) (seq 0 (to_receive (tick c)))).
    assert (l = v :: rest) as -> by (by rewrite <- Hf).
    assert (receiving rest c1) as Hs1 by (split; [done|done|done|cbn in *; lia]).
    unfold with_mem. erewrite M_bind_Done by done. cbn [pg_set_mem pg_mem ssi_pages fst snd frame_bytes].
    change (Z.of_nat 1) with 1. rewrite Z.mul_1_l, u32_small by lia.
    destruct (IH (i + 1) (pg_set_mem (st 1 (pg_mem s) (a + i) v) s) c1 rest Hs1) as (s' & c' & E & Hs' & Hk' & Hst);
      [cbn in *; lia|lia|lia|].
    exists s', c'. split; [rewrite E; do 2 f_equal; lia|]. split; [done|]. split.
    + apply (kept_rx_trans _ _ _ Hk1), (kept_rx_trans _ c1); [|done]. by split_and!.
    + cbn [take map]. apply (stored_app _ [u8 v] _ s (pg_set_mem (st 1 (pg_mem s) (a + i) v) s)); [apply stored_one|].
      cbn [length]. by rewrite Z.add_assoc in Hst.
Qed.

Lemma patience_rx L c c' : patience L c → kept_rx c c' → patience L c'.
Proof. intros Hp (E & _ & _) t. rewrite E. apply Hp. Qed.

Lemma rx_loop_run L a : ∀ fuel l i s c k,
  receiving l c → patience L c → (k ≤ L)%nat → (0 < pace c (clock c + k))%nat →
  0 ≤ i → i + Z.of_nat (length l) < 2 ^ 32 → (length l * (L + 1) + k + 1 ≤ fuel)%nat →
  ∃ s' c', rx_loop fuel 0 SPI_TRANS_CHAR a (Z.of_nat (length l)) i (s, c) = Done (tt, (s', c')) ∧
    receiving [] c' ∧ kept_rx c c' ∧ stored (a + i) (map u8 l) s s'.
Proof.
  induction fuel as [|fuel IH]; intros l i s c k Hs Hp Hk Hpk Hi Hb Hf; [lia|]. cbn [rx_loop].
  destruct (decide (l = [])) as [->|Hne]; [exists s, c; split; [done|split; [done|split; [done|apply stored_nil]]]|].
  assert (length l ≠ 0%nat) as Hlen by (by destruct l).
  rewrite (proj2 (Z.eqb_neq (Z.of_nat (length l)) 0)) by lia.
  destruct (tick_receiving l c Hs) as (Hs1 & Hk1 & Hc1 & Hl1 & Hgot).
  step (rd_run Spi_rxflr s c). cbn [load fst snd].
  set (level := length (rx_fifo (tick c))) in *. set (j := Nat.min level (length l)).
  replace (if Z.of_nat level <? Z.of_nat (length l) then Z.of_nat level else Z.of_nat (length l)) with (Z.of_nat j)
    by (destruct (Z.ltb_spec (Z.of_nat level) (Z.of_nat (length l))); lia).
  rewrite Nat2Z.id.
  destruct (rx_words_run a j i s (tick c) l Hs1 ltac:(lia) Hi ltac:(lia)) as (s2 & c2 & E & Hs2 & Hk2 & Hst).
  step E. rewrite u32_small by lia. replace (Z.of_nat (length l) - Z.of_nat j) with (Z.of_nat (length (drop j l))) by (rewrite length_drop; lia).
  pose proof (kept_rx_trans _ _ _ Hk1 Hk2) as Hk'. pose proof (patience_rx _ _ _ Hp Hk') as Hp2.
  assert (∃ k2, (k2 ≤ L)%nat ∧ (0 < pace c2 (clock c2 + k2))%nat ∧ (length (drop j l) * (L + 1) + k2 + 1 ≤ fuel)%nat)
    as (k2 & H2 & Hpk2 & Hf2).
  { rewrite length_drop. destruct (decide (level = 0%nat)) as [Hz|Hnz].
    - assert (j = 0%nat) as Hj by lia. rewrite Hj in E |- *. injection E as _ _ <-.
      destruct k as [|k]; [rewrite Nat.add_0_r in Hpk; specialize (Hgot Hpk Hne); lia|].
      exists k. destruct Hk1 as (-> & _). rewrite Hc1.
      replace (Datatypes.S (clock c) + k)%nat with (clock c + Datatypes.S k)%nat by lia. split_and!; [lia|done|nia].
    - destruct (Hp2 (clock c2)) as (k2 & ? & ?). exists k2. split_and!; [done|done|nia]. }
  destruct (IH _ (i + Z.of_nat j) s2 c2 k2 Hs2 Hp2 H2 Hpk2) as (s' & c' & E' & Hs' & Hk3 & Hst');
    [lia|rewrite length_drop; lia|done|].
  exists s', c'. split; [exact E'|]. split; [done|]. split; [exact (kept_rx_trans _ _ _ Hk' Hk3)|].
  rewrite <- (take_drop j l), map_app. apply (stored_app _ _ _ _ _ _ Hst).
  rewrite length_map, length_take. replace (Nat.min j (length l)) with j by lia. by rewrite <- Z.add_assoc.
Qed.

(** A transfer as the SD card driver makes it: [spi_init], then [n] bytes into
    the buffer, whatever the pace of the bus. *)
Theorem spi_receive_stores_bytes L fuel s c cmd rx n :
  enabled c = false → patience L c → 1 ≤ Z.of_nat n ≤ 65536 → ((n + 2) * (L + 1) ≤ fuel)%nat →
  ∃ s' c', (spi_init 0 0 SPI_FF_STANDARD 8 0;; spi_receive_data_standard fuel 0 3 cmd 0 rx (Z.of_nat n)) (s, c) =
      Done (tt, (s', c')) ∧
    stored rx (map u8 (map (coming c) (seq 0 n))) s s' ∧
    enabled c' = false ∧ wire c' = wire c ∧ pace c' = pace c ∧ ∀ i, coming c' i = coming c (n + i)%nat.
Proof.
  intros He Hp Hn Hf. destruct (spi_init_run s c He) as (b & m & E0). step E0. clear E0.
  unfold spi_receive_data_standard. cbn [Z.eqb].
  step (set_tmod_run SPI_TMOD_RECV s (ctrlr1 c) b (wire c) (coming c) m (pace c)).
  step (frame_width_run SPI_TMOD_RECV s (ctrlr1 c) b (wire c) (coming c) (2 + m) (pace c)).
  change (width SPI_TRANS_CHAR) with 1. rewrite Z.div_1_r, Z.div_0_l, (u32_small (Z.of_nat n)), (u32_small (_ - 1)) by lia.
  wr. wr. destruct fuel as [|fuel']; [lia|]. set (fuel := Datatypes.S fuel') in *.
  erewrite M_bind_Done by reflexivity.
  set (k := Datatypes.S (Datatypes.S _)).
  set (c0 := Ssi (mode_ctrlr0 SPI_TMOD_RECV) ((Z.of_nat n - 1) mod 2 ^ 16) b true (Z.shiftl 1 3) [] (wire c) [] (coming c) n
               (2 + k) (pace c)).
  erewrite (M_bind_Done _ _ _ tt (s, c0)).
  2: { erewrite M_bind_Done by (apply wr_off; reflexivity). rewrite wr_off by done. unfold c0. cbn [store]. unfold store_frame.
       fields. change (tmod _ =? 2) with true. cbn [andb negb].
       by rewrite Z.mod_small, Z.sub_add, Nat2Z.id by lia. }
  set (l := map (coming c) (seq 0 n)).
  assert (length l = n) as Hlen by (unfold l; by rewrite length_map, length_seq).
  assert (receiving l c0) as Hs by (split; [done|done|done|cbn; lia]).
  destruct (Hp (clock c0)) as (k0 & Hk0 & Hpk0).
  destruct (rx_loop_run L rx fuel l 0 s c0 k0 Hs Hp Hk0 Hpk0) as (s1 & c1 & E1 & Hs1 & (Hf1 & Hw1 & Ha1) & Hst); [lia|lia|nia|].
  rewrite Hlen in E1. step E1. rewrite Z.add_0_r in Hst. step (wr_run Spi_ser 0 s1 c1).
  destruct (tick_receiving [] c1 Hs1) as (Hs2 & (Hf2 & Hw2 & Ha2) & _ & _).
  destruct (app_eq_nil _ _ (re_frames _ _ Hs2)) as [_ Hz].
  assert (to_receive (tick c1) = 0%nat) as Hz' by (by destruct (to_receive (tick c1))).
  rewrite wr_off by (unfold running; cbn [store enabled ser]; apply andb_false_r).
  exists s1. eexists. split; [done|]. split; [done|]. fields. split_and!; [done|by rewrite Hw2, Hw1|by rewrite Hf2, Hf1|].
  intros x. specialize (Ha1 x). specialize (Ha2 x). unfold after in Ha1, Ha2. rewrite Hz', Nat.add_0_l in Ha2.
  rewrite Ha2, Ha1. done.
Qed.

(** Claim C23: On the controller of SPI 0, whatever the pace at which the bus moves frames and
    with any page allocator: sending a command and data puts exactly these bytes on
    the bus, in order, and receiving [n] bytes then stores exactly the next [n] bytes
    from the other side in the buffer; nothing else in memory changes but the page
    that the driver allocates and gives back, and the bus is at rest again. *)
Theorem spi_exchanges_bytes L fuel s c p free cmd n1 tx n2 rx n :
  pg_inv s (p :: free) → enabled c = false → patience L c →
  (n1 + n2 ≤ 4096)%nat → 1 ≤ Z.of_nat n ≤ 65536 →
  (cmd + Z.of_nat n1 ≤ p ∨ p + PGSIZE ≤ cmd) → (tx + Z.of_nat n2 ≤ p ∨ p + PGSIZE ≤ tx) →
  Forall (λ q, rx + Z.of_nat n ≤ q ∨ q + PGSIZE ≤ rx) (p :: free) →
  ((n1 + n2 + n + 33) * (L + 1) ≤ fuel)%nat →
  ∃ s' c', (spi_init 0 0 SPI_FF_STANDARD 8 0;; spi_send_data_standard fuel 0 3 cmd (Z.of_nat n1) tx (Z.of_nat n2);;
            spi_init 0 0 SPI_FF_STANDARD 8 0;; spi_receive_data_standard fuel 0 3 0 0 rx (Z.of_nat n)) (s, c) =
      Done (tt, (s', c')) ∧
    wire c' = wire c ++ rd_bytes (pg_mem s) cmd n1 ++ rd_bytes (pg_mem s) tx n2 ∧
    rd_bytes (pg_mem s') rx n = map u8 (map (coming c) (seq 0 n)) ∧
    (∀ x, ¬ (p ≤ x < p + PGSIZE) → ¬ (rx ≤ x < rx + Z.of_nat n) → pg_mem s' x = pg_mem s x) ∧
    pg_inv s' (p :: free) ∧
    enabled c' = false ∧ pace c' = pace c ∧ ∀ i, coming c' i = coming c (n + i)%nat.
Proof.
  intros Hi He Hp Hn Hr Hd1 Hd2 Hrx Hf.
  destruct (spi_send_puts_bytes_on_wire L fuel s c p free cmd n1 tx n2 Hi He Hp Hn Hd1 Hd2 ltac:(nia))
    as (s1 & c1 & E1 & (He1 & Hw1 & Hco1 & Hp1) & Hi1 & Hm1).
  destruct (spi_receive_stores_bytes L fuel s1 c1 0 rx n He1) as (s2 & c2 & E2 & (Hrd & Hout & Hi2) & He2 & Hw2 & Hp2 & Hco2);
    [by unfold patience; rewrite Hp1|done|nia|].
  exists s2, c2. rewrite !length_map, length_seq in *. split; [|split_and!].
  - apply M_bind_inv in E1 as (u & d1 & E0 & E1). step E0. step E1. exact E2.
  - by rewrite Hw2, Hw1.
  - by rewrite Hrd, Hco1.
  - intros x Hx Hx'. by rewrite Hout, Hm1.
  - by apply Hi2.
  - done.
  - by rewrite Hp2, Hp1.
  - intros i. by rewrite Hco2, Hco1.
Qed.
End proofs.

(** With frames of 32 bits a rest of one to three bytes is never sent, whatever the
    controller does: the loop goes on for ever. *)
Lemma odd_length_never_ends {D} `{SpiHw D, PageAllocator D} num mis a len : 0 < len < 4 →
  ∀ fuel i (d : D), tx_loop fuel num SPI_TRANS_INT mis a len i d = NoFuel.
Proof.
  intros Hl. induction fuel as [|fuel IH]; intros i d; cbn [tx_loop]; [done|].
  rewrite (proj2 (Z.eqb_neq len 0)) by lia. unfold rd_reg, mbind, M_bind. destruct (spi_rd num Spi_txflr d) as [level d'].
  change (width SPI_TRANS_INT) with 4.
  assert ((if u32 (32 - level) <? len then u32 (32 - level) else len) / 4 = 0) as ->.
  { pose proof (u32_range (32 - level)). apply Z.div_small. destruct (Z.ltb_spec (u32 (32 - level)) len); lia. }
  cbn [Z.to_nat send_words]. unfold mret, M_ret. rewrite Z.mul_0_l, Z.sub_0_r. apply IH.
Qed.

(** ** A concrete exchange *)
Module SpiWitness.
(** The bus moves two frames at every third access; the other side counts. *)
Definition slow (t : nat) : nat := if Nat.eqb (t mod 3) 2 then 2 else 0.
Definition ssi0 : ssi := Ssi 0 0 0 false 0 [] [7] [] (λ i, Z.of_nat i + 250) 0 0 slow.
Lemma slow_patience : patience 2 ssi0.
Proof.
  intros t. cbn [pace ssi0]. pose proof (Nat.mod_upper_bound t 3 ltac:(lia)). exists (2 - t mod 3)%nat. split; [lia|].
  unfold slow. rewrite (Nat.Div0.add_mod t (2 - t mod 3) 3).
  assert (t mod 3 = 0 ∨ t mod 3 = 1 ∨ t mod 3 = 2)%nat as [-> | [-> | ->]] by lia; cbn; lia.
Qed.

#[local] Instance pages : PageAllocator kmem := pa0.
(** Two command bytes at [D + 64], three data bytes at [D + 128]; eight bytes are
    received at [D]. *)
Definition sent : kmem := pg_set_mem (wr_bytes (wr_bytes mem0 (D + 64) [0x58; 9]) (D + 128) [1; 2; 3]) s0.
Lemma sent_inv : pg_inv sent free0.
Proof.
  apply (pg_inv_set_mem s0); [exact inv0| |].
  - intros x. cbn [wr_bytes]. unfold upd. repeat case_match; try lia. apply inv0.
  - intros q x Hq Hx. cbn [wr_bytes]. rewrite !upd_ne; [done|..]; unfold free0, D, P1, P2, P3, PGSIZE in *; set_unfold; lia.
Qed.

Lemma spi_exchanges_bytes_witness :
  ∃ s' c', (spi_init 0 0 SPI_FF_STANDARD 8 0;; spi_send_data_standard 200 0 3 (D + 64) (Z.of_nat 2) (D + 128) (Z.of_nat 3);;
      spi_init 0 0 SPI_FF_STANDARD 8 0;; spi_receive_data_standard 200 0 3 0 0 D (Z.of_nat 8)) (sent, ssi0) = Done (tt, (s', c')) ∧
    wire c' = [7; 0x58; 9; 1; 2; 3] ∧ rd_bytes (pg_mem s') D 8 = [250; 251; 252; 253; 254; 255; 0; 1].
Proof.
  destruct (spi_exchanges_bytes 2 200 sent ssi0 P1 [P2; P3] (D + 64) 2 (D + 128) 3 D 8 sent_inv eq_refl slow_patience)
    as (s' & c' & E & Hw & Hr & _);
    [lia|lia|unfold D, P1, PGSIZE; lia|unfold D, P1, PGSIZE; lia|repeat constructor; unfold D, P1, P2, P3, PGSIZE; lia|lia|].
  exists s', c'. split; [exact E|]. split; [rewrite Hw; vm_compute; reflexivity|rewrite Hr; vm_compute; reflexivity].
Defined.
End SpiWitness.
