(* ===== verification/Gpiohs.v ===== *)
(** * High-speed GPIO pins: kernel/driver/gpiohs.cpp

    The state is the pin multiplexer of Fpioa.v and the registers that are
    written. *)
From S2P Require Import Prelude FpioaTable Fpioa Utils.

Inductive gpio_drive_mode_t := GPIO_DM_INPUT | GPIO_DM_INPUT_PULL_DOWN | GPIO_DM_INPUT_PULL_UP | GPIO_DM_OUTPUT.
Record gpio := Gpio { fpioa_io : list Z; input_en : Z; output_en : Z; output_val : Z }.
Abbreviation GM := (M gpio).

Definition on_fpioa {A} (c : M (list Z) A) : GM A := λ s,
  match c (fpioa_io s) with
  | Done (a, io) => Done (a, Gpio io (input_en s) (output_en s) (output_val s))
  | Panic e => Panic e
  | NoFuel => NoFuel
  end.

Definition drive_pull (mode : gpio_drive_mode_t) : fpioa_pull_t :=
  match mode with
  | GPIO_DM_INPUT => FPIOA_PULL_NONE
  | GPIO_DM_INPUT_PULL_DOWN => FPIOA_PULL_DOWN
  | GPIO_DM_INPUT_PULL_UP => FPIOA_PULL_UP
  | GPIO_DM_OUTPUT => FPIOA_PULL_DOWN
  end.
Definition drive_dir (mode : gpio_drive_mode_t) : bool := match mode with GPIO_DM_OUTPUT => true | _ => false end.

Definition gpiohs_set_drive_mode (pin : Z) (mode : gpio_drive_mode_t) : GM unit :=
  io_number ← on_fpioa (fpioa_get_io_by_function (FUNC_GPIOHS0 + pin));
  on_fpioa (fpioa_set_io_pull io_number (drive_pull mode));;
  modify (λ s,
    if drive_dir mode
    then Gpio (fpioa_io s) (set_gpio_bit (input_en s) pin 0) (set_gpio_bit (output_en s) pin 1) (output_val s)
    else Gpio (fpioa_io s) (set_gpio_bit (input_en s) pin 1) (set_gpio_bit (output_en s) pin 0) (output_val s)).

(** [value] is GPIO_PV_HIGH. *)
Definition gpiohs_set_pin (pin : Z) (value : bool) : GM unit :=
  modify (λ s, Gpio (fpioa_io s) (input_en s) (output_en s) (set_gpio_bit (output_val s) pin (Z.b2z value))).

Definition reg_ok (w : Z) : Prop := 0 ≤ w < 2 ^ 32.

(** A pin is an input or an output, never both; the direction and the value of the
    other pins stay, and so does the value of this one. *)
Theorem drive_mode_direction s pin mode s' :
  reg_ok (input_en s) → reg_ok (output_en s) → 0 ≤ pin < 32 →
  gpiohs_set_drive_mode pin mode s = Done (tt, s') →
  (∀ i, 0 ≤ i → Z.testbit (output_en s') i = (if i =? pin then drive_dir mode else Z.testbit (output_en s) i) ∧
                Z.testbit (input_en s') i = (if i =? pin then negb (drive_dir mode) else Z.testbit (input_en s) i)) ∧
  output_val s' = output_val s.
Proof.
  intros Hi Ho Hp E. unfold gpiohs_set_drive_mode in E.
  apply M_bind_inv in E as (io & s1 & E1 & E). apply M_bind_inv in E as (r & s2 & E2 & E).
  assert (∀ {A} (c : M (list Z) A) a s s', on_fpioa c s = Done (a, s') →
    input_en s' = input_en s ∧ output_en s' = output_en s ∧ output_val s' = output_val s) as Hkeep.
  { intros A c a w w' Ew. unfold on_fpioa in Ew. destruct (c (fpioa_io w)) as [[? ?]| |]; by simplify_eq. }
  destruct (Hkeep _ _ _ _ _ E1) as (I1 & O1 & V1), (Hkeep _ _ _ _ _ E2) as (I2 & O2 & V2).
  unfold modify in E. injection E as <-.
  split; [|destruct (drive_dir mode); cbn; congruence].
  intros i Hi'. destruct (drive_dir mode); cbn [input_en output_en negb];
    rewrite I2, O2, I1, O1; split.
  - exact (set_gpio_bit_spec (output_en s) pin true i Ho Hp Hi').
  - exact (set_gpio_bit_spec (input_en s) pin false i Hi Hp Hi').
  - exact (set_gpio_bit_spec (output_en s) pin false i Ho Hp Hi').
  - exact (set_gpio_bit_spec (input_en s) pin true i Hi Hp Hi').
Qed.
