(* ===== verification/Printk.v ===== *)
(** * Formatted console output: kernel/common/printk.cpp

    The output is the list of bytes given to [console.putc]; arguments of
    [printf] are 64-bit words.  [pr.lock] is held inside one call only. *)
From S2P Require Import Prelude Mem.

Definition digits (d : Z) : Z := if d <? 10 then 48 + d else 87 + d.

Record pst := PSt { pmem : mem; pout : list Z }.
Abbreviation PM := (M pst).
Definition putc (c : Z) : PM unit := modify (λ s, PSt (pmem s) (pout s ++ [u8 c])).
Definition p_byte (a : Z) : PM Z := gets (λ s, pmem s a).

Section printk.
Context (fuel : nat).

(** [do buf[i++] = digits[x % base]; while ((x /= base) != 0);] into the 16
    bytes of [buf], last byte first in [acc]; [room] bytes are left. *)
Fixpoint digits_loop (room : nat) (x base : Z) (acc : list Z) : outcome (list Z) :=
  match room with
  | O => Panic "buf[16]"
  | S room =>
      let acc := digits (x mod base) :: acc in
      if x / base =? 0 then Done acc else digits_loop room (x / base) base acc
  end.
Fixpoint puts (l : list Z) : PM unit :=
  match l with [] => mret tt | c :: l => putc c;; puts l end.

(** [-xx] is an [int]; [x] is unsigned. *)
Definition printint (xx base : Z) (sign : bool) : PM unit :=
  let neg := sign && (xx <? 0) in
  let x := if neg then u32 (i32 (- xx)) else u32 xx in
  match digits_loop 16 x base [] with
  | Done l =>
      if neg then (if Nat.eqb (length l) 16 then panic "buf[16]" else puts (45 :: l)) else puts l
  | Panic e => panic e
  | NoFuel => λ _, NoFuel
  end.

Fixpoint ptr_loop (n : nat) (x : Z) : PM unit :=
  match n with
  | O => mret tt
  | S n => putc (digits (Z.shiftr x 60));; ptr_loop n (u64 (Z.shiftl x 4))
  end.
Definition printptr (x : Z) : PM unit := putc 48;; putc 120;; ptr_loop 16 x.

Fixpoint printstr_loop (n : nat) (s : Z) : PM unit :=
  match n with
  | O => λ _, NoFuel
  | S n => c ← p_byte s; if c =? 0 then mret tt else putc c;; printstr_loop n (s + 1)
  end.
Definition printstr (s : Z) : PM unit := printstr_loop fuel s.

(** One conversion: [c] is the character after the percent sign, [a] the next
    argument word; the result says whether the argument was used. *)
Definition conversion (c a : Z) : PM bool :=
  if c =? 100 then printint (i32 a) 10 true;; mret true
  else if c =? 120 then printint (i32 a) 16 true;; mret true
  else if c =? 112 then printptr a;; mret true
  else if c =? 115 then
    (if a =? 0 then puts [40; 110; 117; 108; 108; 41] else printstr a);; mret true
  else if c =? 37 then putc 37;; mret false
  else putc 37;; putc c;; mret false.

(** [printf] from [fmt] on; [k] arguments were used. *)
Fixpoint printf_loop (n : nat) (fmt : Z) (args : nat → Z) (k : nat) : PM unit :=
  match n with
  | O => λ _, NoFuel
  | S n =>
      c ← p_byte fmt;
      if c =? 0 then mret tt
      else if negb (c =? 37) then putc c;; printf_loop n (fmt + 1) args k
      else
        c ← p_byte (fmt + 1);
        if c =? 0 then mret tt
        else
          used ← conversion c (args k);
          printf_loop n (fmt + 2) args (if (used : bool) then S k else k)
  end.
Definition printf (fmt : Z) (args : nat → Z) : PM unit :=
  if fmt =? 0 then panic "null fmt" else printf_loop fuel fmt args 0.

(** ** Numbers *)

Definition val_digit (c : Z) : Z := if c <? 58 then c - 48 else c - 87.
Definition value (base : Z) (l : list Z) : Z := fold_left (λ v c, base * v + val_digit c) l 0.

Lemma digits_val base d : 2 ≤ base ≤ 16 → 0 ≤ d < base → val_digit (digits d) = d.
Proof. intros Hb Hd. unfold digits, val_digit. destruct (d <? 10) eqn:E; bool_arith;
  [rewrite (proj2 (Z.ltb_lt (48 + d) 58)) by lia|rewrite (proj2 (Z.ltb_ge (87 + d) 58)) by lia]; lia. Qed.
Lemma digits_range d : 0 ≤ d < 16 → 48 ≤ digits d < 103.
Proof. intros. unfold digits. destruct (d <? 10) eqn:E; bool_arith; lia. Qed.

(** The digits of [x], most significant first, put before [acc]. *)
Lemma digits_loop_ok base room x acc : 2 ≤ base ≤ 16 → 0 ≤ x < base ^ Z.of_nat room → (0 < room)%nat →
  ∃ ds, digits_loop room x base acc = Done (ds ++ acc) ∧ value base ds = x ∧
    (1 ≤ length ds ≤ room)%nat ∧ Forall (λ c, 48 ≤ c < 103) ds ∧
    (∀ k, 0 ≤ k → x < base ^ k → Z.of_nat (length ds) ≤ Z.max 1 k) ∧
    (0 < x → ds !! O ≠ Some 48).
Proof.
  intros Hb. revert x acc. induction room as [|room IH]; intros x acc Hx Hr; [lia|].
  pose proof (Z.mod_pos_bound x base ltac:(lia)) as Hm.
  pose proof (Z.div_mod x base ltac:(lia)) as Hdm.
  cbn [digits_loop]. destruct (Z.eqb_spec (x / base) 0) as [E|E].
  - exists [digits (x mod base)]. split; [done|].
    assert (x mod base = x) as Hxm by lia. split_and!; try (cbn; lia).
    + unfold value. cbn. rewrite (digits_val base) by lia. lia.
    + repeat constructor; pose proof (digits_range (x mod base)); lia.
    + intros H [= H0]. rewrite Hxm in H0. unfold digits in H0. destruct (Z.ltb_spec x 10); lia.
  - assert (0 < x / base) as Hpos by (pose proof (Z.div_pos x base); lia).
    rewrite Nat2Z.inj_succ, Z.pow_succ_r in Hx by lia.
    assert (x / base < base ^ Z.of_nat room) as Hlt by (apply Z.div_lt_upper_bound; lia).
    assert (0 < room)%nat as Hr' by (destruct room; [cbn in Hlt; lia|lia]).
    destruct (IH (x / base) (digits (x mod base) :: acc) ltac:(lia) Hr') as (ds & -> & Hv & Hl & HF & Hk & Hz).
    exists (ds ++ [digits (x mod base)]). rewrite <- app_assoc. split; [done|].
    split; [|split; [|split; [|split]]].
    + unfold value in *. rewrite fold_left_app, Hv. cbn. rewrite (digits_val base) by lia. lia.
    + rewrite length_app. cbn. lia.
    + apply Forall_app. split; [done|]. repeat constructor; pose proof (digits_range (x mod base)); lia.
    + intros k Hk0 Hxk. rewrite length_app. cbn [length].
      assert (1 < k) as Hk1.
      { destruct (decide (k ≤ 1)); [|lia]. assert (k = 0 ∨ k = 1) as [-> | ->] by lia; [cbn in Hxk; lia|].
        rewrite Z.pow_1_r in Hxk. rewrite Z.div_small in Hpos; lia. }
      specialize (Hk (k - 1) ltac:(lia)). rewrite Nat2Z.inj_add. cbn [Z.of_nat Pos.of_succ_nat].
      assert (x / base < base ^ (k - 1)); [|lia]. apply Z.div_lt_upper_bound; [lia|].
      rewrite <- Z.pow_succ_r by lia. by replace (Z.succ (k - 1)) with k by lia.
    + intros _. rewrite lookup_app_l by lia. by apply Hz.
Qed.

(** ** What a printed number is

    The digits of the positional system, most significant first: as many places
    as the number needs, at least one. *)
Definition glyph (d : Z) : Z :=
  nth (Z.to_nat d) [48; 49; 50; 51; 52; 53; 54; 55; 56; 57; 97; 98; 99; 100; 101; 102] 0.
(** The [w] lowest places of [x]. *)
Definition places (base x : Z) (w : nat) : list Z := (λ k, glyph (x / base ^ Z.of_nat k mod base)) <$> rev (seq 0 w).
(** The least number of places that holds [x]; the bound is that of 64 bits. *)
Definition width (base x : Z) : nat :=
  match list_find (λ w, x < base ^ Z.of_nat w) (seq 1 64) with Some (_, w) => w | None => 0%nat end.
Definition int_text (base xx : Z) : list Z :=
  let l := places base (Z.abs xx) (width base (Z.abs xx)) in if xx <? 0 then 45 :: l else l.
(** A pointer is "0x" and its sixteen digits. *)
Definition ptr_text (x : Z) : list Z := 48 :: 120 :: places 16 x 16.

Lemma digits_glyph d : 0 ≤ d < 16 → digits d = glyph d.
Proof.
  intros Hd. assert (∃ n, (n < 16)%nat ∧ d = Z.of_nat n) as (n & Hn & ->) by (exists (Z.to_nat d); lia).
  do 16 (destruct n as [|n]; [reflexivity|]). lia.
Qed.
Lemma width_least base x w : (1 ≤ w ≤ 64)%nat → x < base ^ Z.of_nat w →
  (∀ v, (1 ≤ v < w)%nat → base ^ Z.of_nat v ≤ x) → width base x = w.
Proof.
  intros Hw Hx Hmin. unfold width.
  assert (list_find (λ w, x < base ^ Z.of_nat w) (seq 1 64) = Some ((w - 1)%nat, w)) as ->; [|done].
  apply list_find_Some. split_and!; [apply lookup_seq; lia|done|].
  intros j y [-> Hj]%lookup_seq Hlt. specialize (Hmin (1 + j)%nat ltac:(lia)). lia.
Qed.
Lemma places_succ base x w : 0 < base →
  places base x (Datatypes.S w) = places base (x / base) w ++ [glyph (x mod base)].
Proof.
  intros Hb. unfold places. change (seq 0 (Datatypes.S w)) with (0%nat :: seq 1 w). rewrite <- seq_shift. cbn [rev].
  rewrite fmap_app. cbn [fmap list_fmap]. rewrite Z.pow_0_r, Z.div_1_r. f_equal.
  rewrite <- map_rev.
  etransitivity; [apply map_map|]. apply map_ext. intros k.
  rewrite Nat2Z.inj_succ, Z.pow_succ_r, Z.div_div by lia. done.
Qed.
(** The loop of [printint] finds the places. *)
Lemma digits_loop_places base room : 2 ≤ base ≤ 16 → ∀ x acc, 0 ≤ x < base ^ Z.of_nat room → (0 < room ≤ 64)%nat →
  digits_loop room x base acc = Done (places base x (width base x) ++ acc) ∧
  (1 ≤ width base x ≤ room)%nat ∧ x < base ^ Z.of_nat (width base x) ∧
  (∀ v, (1 ≤ v < width base x)%nat → base ^ Z.of_nat v ≤ x).
Proof.
  intros Hb. induction room as [|room IH]; intros x acc Hx Hr; [lia|].
  pose proof (Z.mod_pos_bound x base ltac:(lia)) as Hm. pose proof (Z.div_mod x base ltac:(lia)) as Hdm.
  cbn [digits_loop]. destruct (Z.eqb_spec (x / base) 0) as [E|E].
  - assert (x < base) by lia. assert (width base x = 1%nat) as ->.
    { apply width_least; [lia|cbn; lia|lia]. }
    rewrite places_succ by lia. rewrite digits_glyph by lia. split_and!; [done|lia|lia|cbn; lia|lia].
  - assert (0 < x / base) as Hpos by (pose proof (Z.div_pos x base); lia).
    rewrite Nat2Z.inj_succ, Z.pow_succ_r in Hx by lia.
    assert (x / base < base ^ Z.of_nat room) as Hlt by (apply Z.div_lt_upper_bound; lia).
    assert (0 < room)%nat as Hr' by (destruct room; [cbn in Hlt; lia|lia]).
    destruct (IH (x / base) (digits (x mod base) :: acc) ltac:(lia) ltac:(lia)) as (-> & Hw & Hlt' & Hmin).
    assert (x < base ^ Z.of_nat (Datatypes.S (width base (x / base)))) as Hx'.
    { rewrite Nat2Z.inj_succ, Z.pow_succ_r by lia. nia. }
    assert (∀ v, (1 ≤ v < Datatypes.S (width base (x / base)))%nat → base ^ Z.of_nat v ≤ x) as Hmin'.
    { intros v Hv. destruct v as [|v]; [lia|]. rewrite Nat2Z.inj_succ, Z.pow_succ_r by lia.
      assert (base ^ Z.of_nat v ≤ x / base); [|nia]. destruct v as [|v]; [cbn; lia|]. apply Hmin. lia. }
    assert (width base x = Datatypes.S (width base (x / base))) as -> by (apply width_least; [lia|done|done]).
    rewrite places_succ, <- app_assoc, digits_glyph by lia. split_and!; [done|lia|lia|done|done].
Qed.

Fixpoint ptr_digits (n : nat) (x : Z) : list Z :=
  match n with O => [] | S n => digits (Z.shiftr x 60) :: ptr_digits n (u64 (Z.shiftl x 4)) end.

(** The number a printed text stands for. *)
Definition read_int (base : Z) (l : list Z) : Z :=
  match l with c :: l' => if c =? 45 then - value base l' else value base l | [] => 0 end.

Definition emit (l : list Z) (s : pst) : pst := PSt (pmem s) (pout s ++ l).
Lemma emit_nil s : emit [] s = s.
Proof. destruct s. unfold emit. cbn. by rewrite app_nil_r. Qed.
Lemma emit_app l1 l2 s : emit l2 (emit l1 s) = emit (l1 ++ l2) s.
Proof. unfold emit. cbn. by rewrite app_assoc. Qed.
Lemma putc_run c s : 0 ≤ c < 256 → putc c s = Done (tt, emit [c] s).
Proof. intros. unfold putc, modify. by rewrite u8_small. Qed.
Lemma puts_run l s : Forall (λ c, 0 ≤ c < 256) l → puts l s = Done (tt, emit l s).
Proof.
  intros Hl. revert s. induction Hl as [|c l Hc _ IH]; intros s; cbn; [by rewrite emit_nil|].
  rewrite (M_bind_Done _ _ _ _ _ (putc_run c s Hc)), IH. by rewrite emit_app.
Qed.

Lemma abs_int xx : - 2 ^ 31 ≤ xx < 2 ^ 31 → (if xx <? 0 then u32 (i32 (- xx)) else u32 xx) = Z.abs xx.
Proof.
  intros H. destruct (Z.ltb_spec xx 0); [|rewrite u32_small; lia].
  destruct (decide (xx = - 2 ^ 31)) as [->|]; [done|]. rewrite i32_small, u32_small; lia.
Qed.

Lemma int_digits base xx : base = 10 ∨ base = 16 → - 2 ^ 31 ≤ xx < 2 ^ 31 →
  ∃ ds, digits_loop 16 (Z.abs xx) base [] = Done ds ∧ value base ds = Z.abs xx ∧
    (1 ≤ length ds ≤ 10)%nat ∧ Forall (λ c, 48 ≤ c < 103) ds ∧ (xx ≠ 0 → ds !! O ≠ Some 48).
Proof.
  intros Hb Hx. destruct (digits_loop_ok base 16 (Z.abs xx) []) as (ds & -> & Hv & Hl & HF & Hk & Hz).
  { lia. } { destruct Hb as [-> | ->]; cbn; lia. } { lia. }
  exists ds. rewrite app_nil_r. split_and!; try done; [lia| |intros; apply Hz; lia].
  specialize (Hk 10 ltac:(lia)). destruct Hb as [-> | ->]; specialize (Hk ltac:(cbn; lia)); lia.
Qed.

Lemma int_places base xx : base = 10 ∨ base = 16 → - 2 ^ 31 ≤ xx < 2 ^ 31 →
  digits_loop 16 (Z.abs xx) base [] = Done (places base (Z.abs xx) (width base (Z.abs xx))).
Proof.
  intros Hb Hx. rewrite <- (app_nil_r (places _ _ _)). apply digits_loop_places; [lia| |lia].
  destruct Hb as [-> | ->]; cbn; lia.
Qed.

Lemma printint_run base xx s : base = 10 ∨ base = 16 → - 2 ^ 31 ≤ xx < 2 ^ 31 →
  printint xx base true s = Done (tt, emit (int_text base xx) s) ∧
  Forall (λ c, 0 ≤ c < 256) (int_text base xx).
Proof.
  intros Hb Hx. unfold printint, int_text. cbn [andb]. rewrite !abs_int by done.
  destruct (int_digits base xx Hb Hx) as (ds & E & _ & Hl & HF & _). rewrite E.
  rewrite int_places in E by done. injection E as ->.
  assert (Forall (λ c, 0 ≤ c < 256) ds) as HF' by (eapply Forall_impl; [exact HF|cbn; lia]).
  destruct (xx <? 0).
  - rewrite (proj2 (Nat.eqb_neq (length ds) 16)) by lia.
    assert (Forall (λ c, 0 ≤ c < 256) (45 :: ds)) by (constructor; [lia|done]). split; [by apply puts_run|done].
  - split; [by apply puts_run|done].
Qed.

(** [printint] of any [int] in base 10 or 16 never leaves its 16-byte
    buffer: it prints a sign exactly for negative numbers and at most ten
    digits without leading zeros, and the text reads back as the number, the
    least [int] included. *)
Theorem printint_roundtrip (base xx : Z) (s : pst) :
  base = 10 ∨ base = 16 → - 2 ^ 31 ≤ xx < 2 ^ 31 →
  ∃ l, printint xx base true s = Done (tt, PSt (pmem s) (pout s ++ l)) ∧ read_int base l = xx ∧
    (length l ≤ 11)%nat ∧ (xx ≠ 0 → l !! O ≠ Some 48).
Proof.
  intros Hb Hx. exists (int_text base xx). split; [by apply printint_run|].
  unfold int_text. destruct (int_digits base xx Hb Hx) as (ds & E & Hv & Hl & HF & Hz).
  rewrite int_places in E by done. injection E as ->.
  unfold read_int. destruct (Z.ltb_spec xx 0) as [Hneg|Hpos].
  - rewrite Z.eqb_refl. cbn [length]. split_and!; [lia|lia|]. intros _ [=].
  - destruct ds as [|c ds]; [cbn in Hl; lia|]. apply Forall_cons in HF as [Hc _].
    rewrite (proj2 (Z.eqb_neq c 45)) by lia. split_and!; [lia|lia|done].
Qed.

Lemma ptr_loop_run n x s : 0 ≤ x < 2 ^ 64 →
  ptr_loop n x s = Done (tt, emit (ptr_digits n x) s) ∧ Forall (λ c, 0 ≤ c < 256) (ptr_digits n x).
Proof.
  revert x s. induction n as [|n IH]; intros x s Hx; cbn [ptr_loop ptr_digits]; [by rewrite emit_nil|].
  assert (0 ≤ Z.shiftr x 60 < 16) as Hd by (rewrite Z.shiftr_div_pow2 by lia; dlia).
  pose proof (digits_range _ Hd).
  destruct (IH (u64 (Z.shiftl x 4)) (emit [digits (Z.shiftr x 60)] s) (u64_range _)) as [E HF].
  rewrite (M_bind_Done _ _ _ _ _ (putc_run (digits (Z.shiftr x 60)) s ltac:(lia))), E, emit_app.
  split; [done|]. constructor; [lia|done].
Qed.
Lemma ptr_digits_places n : ∀ x, (n ≤ 16)%nat → 0 ≤ x < 2 ^ 64 →
  ptr_digits n x = (λ k, glyph (x / 16 ^ Z.of_nat k mod 16)) <$> rev (seq (16 - n) n).
Proof.
  induction n as [|n IH]; intros x Hn Hx; [done|]. cbn [ptr_digits].
  rewrite (seq_S n (16 - Datatypes.S n)), rev_app_distr. cbn [rev app].
  replace (16 - Datatypes.S n + n)%nat with 15%nat by lia. rewrite fmap_cons. f_equal.
  - rewrite Z.shiftr_div_pow2 by lia. rewrite digits_glyph by dlia. f_equal. change (16 ^ Z.of_nat 15) with (2 ^ 60). dlia.
  - rewrite IH by (lia || apply u64_range). replace (16 - n)%nat with (Datatypes.S (16 - Datatypes.S n)) by lia.
    rewrite <- seq_shift, <- map_rev. etransitivity; [apply map_map|]. apply list_fmap_ext. intros i k Hk.
    apply list_elem_of_lookup_2, list_elem_of_In, in_rev, in_seq in Hk. f_equal.
    rewrite Nat2Z.inj_succ, Z.pow_succ_r by lia. rewrite <- Z.div_div by lia.
    assert (u64 (Z.shiftl x 4) = (x mod 2 ^ 60) * 16) as ->.
    { rewrite Z.shiftl_mul_pow2 by lia. unfold u64. dlia. }
    rewrite Z.div_mul by lia.
    assert (2 ^ 60 = 16 ^ Z.of_nat k * (16 * 16 ^ Z.of_nat (14 - k))) as E.
    { rewrite <- (Z.pow_succ_r 16) by lia. rewrite <- Z.pow_add_r by lia.
      replace (Z.of_nat k + Z.succ (Z.of_nat (14 - k))) with 15 by lia. done. }
    assert (0 < 16 ^ Z.of_nat k) by lia. assert (0 < 16 ^ Z.of_nat (14 - k)) by lia.
    rewrite (Z.div_mod x (2 ^ 60)) at 2 by lia. rewrite E at 2.
    replace (16 ^ Z.of_nat k * (16 * 16 ^ Z.of_nat (14 - k)) * (x / 2 ^ 60) + x mod 2 ^ 60)
      with ((16 ^ Z.of_nat (14 - k) * (x / 2 ^ 60) * 16) * 16 ^ Z.of_nat k + x mod 2 ^ 60) by lia.
    by rewrite Z.div_add_l, (Z.add_comm _ (_ / _)), Z.mod_add by lia.
Qed.

Lemma printptr_run x s : 0 ≤ x < 2 ^ 64 → printptr x s = Done (tt, emit (ptr_text x) s).
Proof.
  intros Hx. unfold printptr. rewrite (M_bind_Done _ _ _ _ _ (putc_run 48 s ltac:(lia))).
  rewrite (M_bind_Done _ _ _ _ _ (putc_run 120 _ ltac:(lia))). rewrite (proj1 (ptr_loop_run 16 x _ Hx)).
  rewrite ptr_digits_places by lia. by rewrite !emit_app.
Qed.

(** The sixteen digits read back as the pointer. *)
Lemma ptr_digits_value n x : (n ≤ 16)%nat → 0 ≤ x < 2 ^ 64 →
  value 16 (ptr_digits n x) = x / 2 ^ (64 - 4 * Z.of_nat n).
Proof.
  assert (∀ l v, fold_left (λ v c, 16 * v + val_digit c) l v = 16 ^ Z.of_nat (length l) * v + value 16 l) as Hfold.
  { induction l as [|c l IH]; intros v; [unfold value; cbn; lia|]. unfold value. cbn [fold_left length].
    rewrite (IH (16 * v + _)), (IH (16 * 0 + _)), Nat2Z.inj_succ, Z.pow_succ_r by lia. lia. }
  assert (∀ n x, length (ptr_digits n x) = n) as Hlen by (intros n0; induction n0 as [|n0 IH0]; intros; cbn; [done|by rewrite IH0]).
  revert x. induction n as [|n IH]; intros x Hn Hx.
  { cbn. rewrite Z.div_small; [done|lia]. }
  unfold value. cbn [ptr_digits fold_left]. rewrite Hfold, Hlen, IH by (lia || apply u64_range).
  rewrite Z.shiftr_div_pow2, Z.shiftl_mul_pow2 by lia. rewrite (digits_val 16) by dlia.
  unfold u64. replace (64 - 4 * Z.of_nat n) with (64 - 4 * Z.of_nat (Datatypes.S n) + 4) by lia.
  set (k := 64 - 4 * Z.of_nat (Datatypes.S n)).
  assert (16 ^ Z.of_nat n = 2 ^ (60 - k)) as ->.
  { replace 16 with (2 ^ 4) by done. rewrite <- Z.pow_mul_r by lia. f_equal. unfold k. lia. }
  assert (x * 2 ^ 4 mod 2 ^ 64 = (x mod 2 ^ 60) * 2 ^ 4) as ->.
  { replace (2 ^ 64) with (2 ^ 60 * 2 ^ 4) by done. rewrite Z.mul_mod_distr_r by lia. done. }
  rewrite Z.pow_add_r by (unfold k; lia). rewrite Z.div_mul_cancel_r by lia.
  assert (2 ^ 60 = 2 ^ (60 - k) * 2 ^ k) as H60.
  { rewrite <- Z.pow_add_r by (unfold k; lia). f_equal. lia. }
  rewrite (Z.div_mod x (2 ^ 60)) at 3 by lia. rewrite H60 at 3.
  replace (2 ^ (60 - k) * 2 ^ k * (x / 2 ^ 60) + x mod 2 ^ 60)
    with ((2 ^ (60 - k) * (x / 2 ^ 60)) * 2 ^ k + x mod 2 ^ 60) by lia.
  rewrite Z.div_add_l by lia. lia.
Qed.

(** ** Format strings *)

(** The parts of a format string with their argument words. *)
Inductive item :=
| ILit (c : Z)
| IDec (a : Z)
| IHex (a : Z)
| IPtr (a : Z)
| IStr (a : Z) (l : list Z)
| INull
| IPct
| IOther (c : Z).

Definition item_fmt (i : item) : list Z :=
  match i with
  | ILit c => [c] | IDec _ => [37; 100] | IHex _ => [37; 120] | IPtr _ => [37; 112]
  | IStr _ _ | INull => [37; 115] | IPct => [37; 37] | IOther c => [37; c]
  end.
Definition item_args (i : item) : list Z :=
  match i with IDec a | IHex a | IPtr a | IStr a _ => [a] | INull => [0] | _ => [] end.
Definition item_text (i : item) : list Z :=
  match i with
  | ILit c => [c] | IDec a => int_text 10 (i32 a) | IHex a => int_text 16 (i32 a) | IPtr a => ptr_text a
  | IStr _ l => l | INull => [40; 110; 117; 108; 108; 41] | IPct => [37] | IOther c => [37; c]
  end.
Definition item_ok (m : mem) (i : item) : Prop :=
  match i with
  | ILit c => 0 < c < 256 ∧ c ≠ 37
  | IPtr a => 0 ≤ a < 2 ^ 64
  | IStr a l => a ≠ 0 ∧ cstr m a l ∧ (length l < fuel)%nat ∧ Forall (λ c, 0 ≤ c < 256) l
  | IOther c => 0 < c < 256 ∧ c ∉ [100; 120; 112; 115; 37]
  | _ => True
  end.

Lemma i32_range z : - 2 ^ 31 ≤ i32 z < 2 ^ 31.
Proof. unfold i32. pose proof (Z.mod_pos_bound (z + 2 ^ 31) (2 ^ 32)). lia. Qed.

Lemma printstr_run l n a s : cstr (pmem s) a l → (length l < n)%nat → Forall (λ c, 0 ≤ c < 256) l →
  printstr_loop n a s = Done (tt, emit l s).
Proof.
  revert n a s. induction l as [|c l IH]; intros [|n] a s Hl Hn HF; cbn [length cstr] in *; try lia; cbn [printstr_loop].
  - erewrite M_bind_Done by reflexivity. rewrite Hl. by rewrite emit_nil.
  - destruct Hl as (Ha & Hc & Hl). apply Forall_cons in HF as [Hb HF].
    erewrite M_bind_Done by reflexivity. rewrite Ha. apply Z.eqb_neq in Hc as ->.
    rewrite (M_bind_Done _ _ _ _ _ (putc_run c s Hb)), IH by (done || lia). by rewrite emit_app.
Qed.

(** A conversion prints the text of its item. *)
Lemma conversion_run i c a s :
  item_ok (pmem s) i → item_fmt i = [37; c] → (∀ x, x ∈ item_args i → a = x) →
  conversion c a s = Done (match item_args i with [] => false | _ => true end, emit (item_text i) s).
Proof.
  intros Hok Hf Ha. unfold conversion. destruct i as [|x|x|x|x l| | |d]; cbn in Hf; simplify_eq; cbn [Z.eqb Pos.eqb item_args item_text].
  - rewrite (Ha x) by left. by erewrite M_bind_Done by (apply printint_run; [by left|apply i32_range]).
  - rewrite (Ha x) by left. by erewrite M_bind_Done by (apply printint_run; [by right|apply i32_range]).
  - rewrite (Ha x) by left. by erewrite M_bind_Done by (by apply printptr_run).
  - rewrite (Ha x) by left. destruct Hok as (Hx & Hl & Hn & HF). apply Z.eqb_neq in Hx as ->.
    by erewrite M_bind_Done by (by apply printstr_run).
  - rewrite (Ha 0) by left. by erewrite M_bind_Done by (apply puts_run; repeat constructor; lia).
  - by erewrite M_bind_Done by (apply putc_run; lia).
  - destruct Hok as (Hc & Hn). rewrite !not_elem_of_cons in Hn.
    destruct Hn as (H1 & H2 & H3 & H4 & H5 & _).
    repeat match goal with H : c ≠ _ |- _ => apply Z.eqb_neq in H; rewrite H end.
    erewrite M_bind_Done by (apply putc_run; lia). erewrite M_bind_Done by (apply putc_run; lia).
    by rewrite emit_app.
Qed.

Lemma item_fmt_cases i : (∃ c, i = ILit c) ∨ ∃ c, item_fmt i = [37; c].
Proof. destruct i; cbn; eauto. Qed.

Lemma printf_loop_run (args : nat → Z) items : ∀ n fmt k s,
  cstr (pmem s) fmt (concat (item_fmt <$> items)) → Forall (item_ok (pmem s)) items →
  (length items < n)%nat → (∀ j x, concat (item_args <$> items) !! j = Some x → args (k + j)%nat = x) →
  printf_loop n fmt args k s = Done (tt, emit (concat (item_text <$> items)) s).
Proof.
  induction items as [|i items IH]; intros [|n] fmt k s Hf Hok Hn Ha; cbn [length] in Hn; try lia; cbn [printf_loop].
  - erewrite M_bind_Done by reflexivity. cbn in Hf. rewrite Hf. by rewrite emit_nil.
  - apply Forall_cons in Hok as [Hi Hok]. erewrite M_bind_Done by reflexivity.
    destruct (item_fmt_cases i) as [[c ->]|[c Ec]].
    + cbn in Hf, Ha. destruct Hf as (Hb & Hc & Hf). rewrite Hb. apply Z.eqb_neq in Hc as ->.
      destruct Hi as [Hr H37]. rewrite (proj2 (Z.eqb_neq c 37) H37). cbn [negb].
      rewrite (M_bind_Done _ _ _ _ _ (putc_run c s ltac:(lia))), (IH n (fmt + 1) k) by (done || lia).
      by rewrite emit_app.
    + rewrite !fmap_cons in Hf, Ha. cbn [concat] in *. rewrite Ec in Hf. cbn [app cstr] in Hf.
      destruct Hf as (Hb & _ & Hb1 & Hc & Hf). rewrite Hb. cbn [Z.eqb Pos.eqb negb].
      erewrite M_bind_Done by reflexivity. rewrite Hb1. apply Z.eqb_neq in Hc as ->.
      assert (∀ x, x ∈ item_args i → args k = x) as Hai.
      { intros x Hx. rewrite <- (Nat.add_0_r k). apply Ha. destruct i; cbn in Hx |- *;
          try (apply list_elem_of_singleton in Hx as ->; done); by apply elem_of_nil in Hx. }
      rewrite (M_bind_Done _ _ _ _ _ (conversion_run i c (args k) s Hi Ec Hai)).
      rewrite IH; [rewrite emit_app; done|by replace (fmt + 2) with (fmt + 1 + 1) by lia|done|lia|].
      intros j x Hj. destruct (item_args i) as [|y [|z l]] eqn:Ea; [by apply Ha| |by destruct i].
      rewrite <- (Ha (Datatypes.S j) x); [f_equal; lia|done].
Qed.

(** Claim C38: [printf] of a format string made of literal characters and
    conversions prints, in order, each literal, the low 32 bits of the argument
    words as signed decimal or signed hexadecimal numerals - the places of the
    positional system, as many as needed, after a minus sign - pointers as "0x"
    and sixteen hexadecimal places, the strings the arguments point to or
    "(null)", and unknown conversions verbatim; each conversion takes the next
    argument. *)
Theorem printf_formats (args : nat → Z) items fmt s :
  fmt ≠ 0 → cstr (pmem s) fmt (concat (item_fmt <$> items)) → Forall (item_ok (pmem s)) items →
  (length items < fuel)%nat → (∀ j x, concat (item_args <$> items) !! j = Some x → args j = x) →
  printf fmt args s = Done (tt, PSt (pmem s) (pout s ++ concat (item_text <$> items))).
Proof.
  intros Hf Hc Hok Hn Ha. unfold printf. rewrite (proj2 (Z.eqb_neq fmt 0) Hf). by apply printf_loop_run.
Qed.
End printk.

Module PrintkWitness.
(** "x=%d %s" at 100 and "ok" at 200. *)
Fixpoint store (m : mem) (a : Z) (l : list Z) : mem :=
  match l with [] => m | b :: l => store (upd m a b) (a + 1) l end.
Definition pm : mem := store (store (λ _, 0) 100 [120; 61; 37; 100; 32; 37; 115]) 200 [111; 107].

Lemma printint_roundtrip_witness :
  ∃ l, printint (- 2147483648) 10 true (PSt pm []) = Done (tt, PSt pm ([] ++ l)) ∧ read_int 10 l = - 2147483648.
Proof.
  destruct (printint_roundtrip 10 (- 2147483648) (PSt pm []) ltac:(by left) ltac:(lia)) as (l & E & R & _).
  exists l. split; [exact E|exact R].
Defined.

Lemma printf_formats_witness :
  printf 50 100 (λ k, match k with O => 2 ^ 64 - 7 | _ => 200 end) (PSt pm []) =
  Done (tt, PSt pm [120; 61; 45; 55; 32; 111; 107]).
Proof.
  refine (printf_formats 50 (λ k, match k with O => 2 ^ 64 - 7 | _ => 200 end)
    [ILit 120; ILit 61; IDec (2 ^ 64 - 7); ILit 32; IStr 200 [111; 107]] 100 (PSt pm []) _ _ _ _ _).
  - lia.
  - vm_compute. split_and!; done.
  - repeat constructor; cbn; lia || (vm_compute; split_and!; done).
  - cbn. lia.
  - intros [|[|[|j]]] x Hx; cbn in Hx; simplify_eq; reflexivity.
Defined.
End PrintkWitness.
