(* ===== verification/Panic.v ===== *)
(** * The last words of the kernel: [backtrace], [cpudump] and [panic] of
    kernel/common/printk.cpp

    The frames of the stack are read from memory: the return address is 8 bytes
    and the caller's frame pointer 16 bytes below the frame pointer.  What
    [panic] does is given up to its last loop, which never ends. *)
From S2P Require Import Prelude Mem KAlloc Printk.

Section panic.
Context (fuel : nat).
(** The addresses of the format strings, and what [va_arg] finds where no
    argument was passed. *)
Context (l_backtrace l_frame l_context l_cpu l_taskid l_panic l_newline : Z) (no_args : nat → Z).

Definition args1 (a : Z) (k : nat) : Z := match k with O => a | _ => no_args k end.
Definition args2 (a b : Z) (k : nat) : Z := match k with O => a | S O => b | _ => no_args k end.

(** [while (fp != stack_top && fp != stack_bottom)] *)
Fixpoint backtrace_loop (n : nat) (fp stack_top stack_bottom : Z) : PM unit :=
  match n with
  | O => λ _, NoFuel
  | S n =>
      if negb (fp =? stack_top) && negb (fp =? stack_bottom) then
        ra ← gets (λ s, ld64 (pmem s) (u64 (fp - 8)));
        printf fuel l_frame (args1 ra);;
        fp ← gets (λ s, ld64 (pmem s) (u64 (fp - 16)));
        backtrace_loop n fp stack_top stack_bottom
      else mret tt
  end.
Definition backtrace (s0 : Z) : PM unit :=
  printf fuel l_backtrace no_args;;
  backtrace_loop fuel s0 (PGROUNDUP s0) (PGROUNDDOWN s0).

Definition contextdump (ra sp : Z) : PM unit := printf fuel l_context (args2 ra sp).
Definition cpudump (cpuid task ra sp : Z) : PM unit :=
  printf fuel l_cpu (args2 cpuid task);; contextdump ra sp.

(** [pr.locking = false] lets the output through while another CPU prints;
    [pid] is that of the running task. *)
Definition panic_output (s0 pid s : Z) : PM unit :=
  backtrace s0;;
  printf fuel l_taskid (args1 pid);;
  printf fuel l_panic no_args;;
  printf fuel s no_args;;
  printf fuel l_newline no_args.

(** ** What is printed *)

(** The return addresses of the frames from [fp] to the end of the page. *)
Inductive frames (m : mem) (bottom top : Z) : Z → list Z → Prop :=
| frames_end fp : fp = top ∨ fp = bottom → frames m bottom top fp []
| frames_call fp l : bottom < fp < top →
    frames m bottom top (ld64 m (u64 (fp - 16))) l → frames m bottom top fp (ld64 m (u64 (fp - 8)) :: l).

(** Frames that lead up the page reach its end. *)
Lemma linked_frames m bottom top fp :
  (∀ x, bottom < x < top → x < ld64 m (u64 (x - 16)) ≤ top) → bottom ≤ fp ≤ top →
  ∃ l, frames m bottom top fp l ∧ Z.of_nat (length l) ≤ top - bottom.
Proof.
  intros Hl Hfp.
  cut (∀ n x, bottom ≤ x ≤ top → top - x ≤ Z.of_nat n → ∃ l, frames m bottom top x l ∧ Z.of_nat (length l) ≤ top - x).
  { intros Hn. destruct (Hn (Z.to_nat (top - fp)) fp) as (l & Hf & Hle); [lia|lia|]. exists l. split; [done|lia]. }
  induction n as [|n IH]; intros x Hx Hn.
  - exists []. split; [constructor; lia|cbn; lia].
  - destruct (decide (bottom < x < top)) as [Hin|Hout].
    + destruct (IH (ld64 m (u64 (x - 16)))) as (l & Hf & Hle); [specialize (Hl x Hin); lia..|].
      exists (ld64 m (u64 (x - 8)) :: l). split; [by constructor|]. specialize (Hl x Hin). cbn [length]. lia.
    + exists []. split; [constructor; lia|cbn; lia].
Qed.

(** "backtrace:\n", "%p\n", "taskid=%d\n", "panic: " and "\n". *)
Definition t_newline : list Z := [10].
Definition t_backtrace : list Z := [98; 97; 99; 107; 116; 114; 97; 99; 101; 58; 10].
Definition t_taskid : list Z := [116; 97; 115; 107; 105; 100; 61].
Definition t_panic : list Z := [112; 97; 110; 105; 99; 58; 32].
Definition text (l : list Z) : list item := ILit <$> l.

Record strings_at (m : mem) : Prop := {
  at_backtrace : l_backtrace ≠ 0 ∧ cstr m l_backtrace t_backtrace;
  at_frame : l_frame ≠ 0 ∧ cstr m l_frame ([37; 112] ++ t_newline);
  at_taskid : l_taskid ≠ 0 ∧ cstr m l_taskid (t_taskid ++ [37; 100] ++ t_newline);
  at_panic : l_panic ≠ 0 ∧ cstr m l_panic t_panic;
  at_newline : l_newline ≠ 0 ∧ cstr m l_newline t_newline;
}.

Lemma concat_text_fmt l : concat (item_fmt <$> text l) = l.
Proof. unfold text. induction l as [|c l IH]; [done|]. cbn. by f_equal. Qed.
Lemma concat_text_args l : concat (item_args <$> text l) = [].
Proof. unfold text. by induction l. Qed.
Lemma concat_text_text l : concat (item_text <$> text l) = l.
Proof. unfold text. induction l as [|c l IH]; [done|]. cbn. by f_equal. Qed.
Lemma text_ok m l : Forall (λ c, 0 < c < 256 ∧ c ≠ 37) l → Forall (item_ok fuel m) (text l).
Proof. intros Hl. unfold text. apply Forall_fmap. exact Hl. Qed.

Lemma printf_items fmt args items s :
  fmt ≠ 0 → cstr (pmem s) fmt (concat (item_fmt <$> items)) → Forall (item_ok fuel (pmem s)) items →
  (length items < fuel)%nat → (∀ j x, concat (item_args <$> items) !! j = Some x → args j = x) →
  printf fuel fmt args s = Done (tt, emit (concat (item_text <$> items)) s).
Proof.
  intros Hf Hc Hok Hn Ha. unfold printf. rewrite (proj2 (Z.eqb_neq fmt 0) Hf).
  by apply (printf_loop_run fuel args items).
Qed.
(** A literal string. *)
Lemma printf_text fmt args l s :
  fmt ≠ 0 ∧ cstr (pmem s) fmt l → Forall (λ c, 0 < c < 256 ∧ c ≠ 37) l → (length l < fuel)%nat →
  printf fuel fmt args s = Done (tt, emit l s).
Proof.
  intros [Hf Hc] Hl Hn. rewrite <- (concat_text_text l) at 1. apply printf_items; [done| |by apply text_ok| |].
  - by rewrite concat_text_fmt.
  - unfold text. by rewrite length_fmap.
  - intros j x. by rewrite concat_text_args.
Qed.

Hypothesis enough_fuel : (4096 < fuel)%nat.

Definition frame_text (ra : Z) : list Z := ptr_text ra ++ t_newline.

Lemma backtrace_loop_run m bottom top : mem_ok m → cstr m l_frame ([37; 112] ++ t_newline) → l_frame ≠ 0 →
  ∀ l n fp s, frames m bottom top fp l → (length l < n)%nat → pmem s = m →
  backtrace_loop n fp top bottom s = Done (tt, emit (concat (frame_text <$> l)) s).
Proof.
  intros Hm Hfmt Hne. induction l as [|ra l IH]; intros [|n] fp s Hf Hn Es; cbn [length] in Hn; try lia;
    inversion Hf as [x Hx|x l' Hx Hl']; subst; cbn [backtrace_loop].
  - destruct (Z.eqb_spec fp top); [by rewrite emit_nil|]. destruct (Z.eqb_spec fp bottom); [by rewrite emit_nil|lia].
  - rewrite (proj2 (Z.eqb_neq fp top)), (proj2 (Z.eqb_neq fp bottom)) by lia. cbn [negb andb].
    erewrite M_bind_Done by reflexivity.
    rewrite (M_bind_Done _ _ _ tt (emit (frame_text (ld64 (pmem s) (u64 (fp - 8)))) s)).
    + erewrite M_bind_Done by reflexivity. cbn [pmem emit]. rewrite IH; [|done|lia|done].
      by rewrite emit_app, fmap_cons.
    + rewrite (printf_items l_frame _ [IPtr (ld64 (pmem s) (u64 (fp - 8))); ILit 10]); [done|done|done| |cbn; lia|].
      * constructor; [by apply ld64_range|]. constructor; [cbn; lia|constructor].
      * intros [|j] x; [by intros [= <-]|done].
Qed.

(** [panic] prints the return addresses of the frames on the current page of the
    stack, innermost first, the running task and the message: for a stack whose
    saved frame pointers lead up the page and a message without percent signs it
    terminates, and the text is exactly this. *)
Theorem panic_prints_frames s0 pid msg l s :
  let m := pmem s in
  mem_ok m → strings_at m → 0 ≤ s0 < 2 ^ 63 →
  (∀ x, PGROUNDDOWN s0 < x < PGROUNDUP s0 → x < ld64 m (u64 (x - 16)) ≤ PGROUNDUP s0) →
  msg ≠ 0 ∧ cstr m msg l → Forall (λ c, 0 < c < 256 ∧ c ≠ 37) l → (length l < fuel)%nat →
  ∃ ras, frames m (PGROUNDDOWN s0) (PGROUNDUP s0) s0 ras ∧
    panic_output s0 pid msg s =
      Done (tt, emit (t_backtrace ++ concat (frame_text <$> ras) ++ (t_taskid ++ int_text 10 (i32 pid) ++ t_newline) ++
                      t_panic ++ l ++ t_newline) s).
Proof.
  intros m Hm Hstr Hs0 Hlink Hmsg Hl Hn.
  pose proof (MemAllocator.PGROUNDDOWN_spec s0) as Hdown. pose proof (MemAllocator.PGROUNDUP_spec s0 ltac:(lia)) as Hup.
  destruct (linked_frames m (PGROUNDDOWN s0) (PGROUNDUP s0) s0 Hlink) as (ras & Hf & Hlen).
  { unfold PGSIZE in *. dlia. }
  exists ras. split; [done|]. destruct Hstr as [Hbt [Hfr0 Hfr] Htask Hpan Hnl].
  assert (Forall (λ c, 0 < c < 256 ∧ c ≠ 37) t_newline) as Hnlc by (repeat constructor; lia).
  unfold panic_output, backtrace.
  rewrite (M_bind_Done _ _ _ tt (emit (concat (frame_text <$> ras)) (emit t_backtrace s))).
  2:{ rewrite (M_bind_Done _ _ _ tt (emit t_backtrace s)).
      - apply (backtrace_loop_run m (PGROUNDDOWN s0) (PGROUNDUP s0)); [done..| |done].
        unfold PGSIZE in *. dlia.
      - apply printf_text; [done|repeat constructor; lia|cbn; lia]. }
  rewrite emit_app. set (s1 := emit _ s). assert (pmem s1 = m) as E1 by done.
  rewrite (M_bind_Done _ _ _ tt (emit (t_taskid ++ int_text 10 (i32 pid) ++ t_newline) s1)).
  2:{ rewrite (printf_items l_taskid _ (text t_taskid ++ [IDec pid; ILit 10])); try done.
      - by destruct Htask.
      - by destruct Htask.
      - apply Forall_app. split; [apply text_ok; repeat constructor; lia|]. repeat constructor; lia.
      - cbn. lia.
      - intros [|j] x; [by intros [= <-]|done]. }
  rewrite (M_bind_Done _ _ _ tt (emit t_panic (emit (t_taskid ++ int_text 10 (i32 pid) ++ t_newline) s1))).
  2:{ apply printf_text; [done|repeat constructor; lia|cbn; lia]. }
  rewrite (M_bind_Done _ _ _ tt (emit l (emit t_panic (emit (t_taskid ++ int_text 10 (i32 pid) ++ t_newline) s1)))).
  2:{ by apply printf_text. }
  rewrite (printf_text l_newline _ t_newline); [|done|done|cbn; lia].
  unfold s1. by rewrite !emit_app, <- !app_assoc.
Qed.
End panic.

(** ** The lock of the output

    [pr.lock] keeps the output of two CPUs apart; [pr_held] says whether it is
    taken.  Whoever takes it while it is held waits for ever on one CPU, as in
    Locks.v. *)
Record prs := Prs { pr_held : bool; pr_locking : bool; pr_out : pst }.
Section lock.
Context (fuel : nat).
Definition on_out {A} (c : PM A) : M prs A := λ s,
  match c (pr_out s) with
  | Done (a, o) => Done (a, Prs (pr_held s) (pr_locking s) o)
  | Panic e => Panic e
  | NoFuel => NoFuel
  end.
Definition pr_lock : M prs unit := λ s, if pr_held s then NoFuel else Done (tt, Prs true (pr_locking s) (pr_out s)).
Definition pr_unlock : M prs unit := modify (λ s, Prs false (pr_locking s) (pr_out s)).
Definition printfinit : M prs unit := modify (λ s, Prs false true (pr_out s)).
(** [printf] with its lock; a null format panics in between. *)
Definition printf_locked (fmt : Z) (args : nat → Z) : M prs unit :=
  locking ← gets pr_locking;
  (if (locking : bool) then pr_lock else mret tt);;
  on_out (printf fuel fmt args);;
  (if (locking : bool) then pr_unlock else mret tt).
(** [panic] clears [locking] first; [out] stands for the calls that follow. *)
Definition panic_unlocked (out : M prs unit) : M prs unit :=
  modify (λ s, Prs (pr_held s) false (pr_out s));; out.

(** Between calls the lock is free, and each call does what [printf] does. *)
Lemma printf_locked_run fmt args locking o o' :
  printf fuel fmt args o = Done (tt, o') →
  printf_locked fmt args (Prs false locking o) = Done (tt, Prs false locking o').
Proof. intros E. unfold printf_locked, on_out. destruct locking; unfold_M; cbn; by rewrite E. Qed.
(** After [locking] has been cleared a call does not wait, whoever holds the lock:
    [panic] is heard even when it interrupts [printf]. *)
Lemma panic_is_heard fmt args held locking o o' :
  printf fuel fmt args o = Done (tt, o') →
  panic_unlocked (printf_locked fmt args) (Prs held locking o) = Done (tt, Prs held false o').
Proof. intros E. unfold panic_unlocked, printf_locked, on_out. unfold_M. cbn. by rewrite E. Qed.
Lemma printf_waits fmt args o : printf_locked fmt args (Prs true true o) = NoFuel.
Proof. done. Qed.
End lock.
