(* ===== verification/Trap.v ===== *)
(** * Traps: kernel/os/trap.cpp

    The control and status registers and the trap frame of the current task
    are a record; the operations the handlers call ([syscall], [exit],
    [yield], the device handlers, ...) are the members of [TrapOps], which may
    change all of the state, the registers included: a task that yields runs
    on after other tasks have trapped.  [exit] does not return, so a handler
    ends in [Exited], or back in user mode, or back in the kernel. *)
From S2P Require Import Prelude Mem KAlloc Vm.

Definition SSTATUS_SPP : Z := Z.shiftl 1 8.
Definition SSTATUS_SPIE : Z := Z.shiftl 1 5.
Definition SSTATUS_SIE : Z := Z.shiftl 1 1.
Definition SIE_SEIE : Z := Z.shiftl 1 9.
Definition SIE_STIE : Z := Z.shiftl 1 5.
Definition SIE_SSIE : Z := Z.shiftl 1 1.
Definition VIRTIO_IRQ : Z := 1.
Definition DMA0_IRQ : Z := 27.

Record csrs := Csrs {
  sstatus : Z; scause : Z; sepc : Z; stval : Z; stvec : Z; satp : Z; sip : Z; sie : Z; tp : Z;
}.
(** The members of [struct trapframe] the handlers use. *)
Record trapframe := TF { kernel_satp : Z; kernel_sp : Z; kernel_trap : Z; epc : Z; kernel_hartid : Z }.

Record tst (W : Type) := TSt {
  csr : csrs;
  tf : trapframe;
  killed : bool;
  running : bool;
  has_task : bool;
  kstack : Z;
  pagetable : Z;
  tw : W;
}.
Arguments TSt {W}. Arguments csr {W}. Arguments tf {W}. Arguments killed {W}. Arguments running {W}.
Arguments has_task {W}. Arguments kstack {W}. Arguments pagetable {W}. Arguments tw {W}.

Class TrapOps (W : Type) := {
  syscall : M (tst W) unit;
  LoadIfValid : Z → M (tst W) bool;
  exit : Z → M (tst W) unit;
  yield : M (tst W) unit;
  timer_handleIntr : M (tst W) unit;
  plic_claim : M (tst W) Z;
  plic_complete : Z → M (tst W) unit;
  sbi_console_getchar : M (tst W) Z;
  console_intr : Z → M (tst W) unit;
  VirtioIntr : M (tst W) unit;
  dmac_intr : M (tst W) unit;
  sbi_set_mie : M (tst W) unit;
}.

(** How a handler ends: in [userret] with its two arguments, in [exit], or
    with [sret] back to the kernel code that was interrupted. *)
Inductive tend := ToUser (frame satp : Z) | Exited | ToKernel.

Section trap.
Context {W : Type} `{TrapOps W}.
(** The platform and the addresses of the assembly code and of [usertrap]. *)
Context (qemu : bool) (UART_IRQ : Z).
Context (kernelvec trampoline uservec userret usertrap_addr : Z).
Abbreviation TM := (M (tst W)).

Definition set_csr (c : csrs) : TM unit :=
  modify (λ s, TSt c (tf s) (killed s) (running s) (has_task s) (kstack s) (pagetable s) (tw s)).
Definition set_tf (f : trapframe) : TM unit :=
  modify (λ s, TSt (csr s) f (killed s) (running s) (has_task s) (kstack s) (pagetable s) (tw s)).
Definition set_killed (b : bool) : TM unit :=
  modify (λ s, TSt (csr s) (tf s) b (running s) (has_task s) (kstack s) (pagetable s) (tw s)).
Definition r (f : csrs → Z) : TM Z := gets (λ s, f (csr s)).
Definition w_sstatus (x : Z) : TM unit :=
  c ← gets csr; set_csr (Csrs x (scause c) (sepc c) (stval c) (stvec c) (satp c) (sip c) (sie c) (tp c)).
Definition w_sepc (x : Z) : TM unit :=
  c ← gets csr; set_csr (Csrs (sstatus c) (scause c) x (stval c) (stvec c) (satp c) (sip c) (sie c) (tp c)).
Definition w_stvec (x : Z) : TM unit :=
  c ← gets csr; set_csr (Csrs (sstatus c) (scause c) (sepc c) (stval c) x (satp c) (sip c) (sie c) (tp c)).
Definition w_sip (x : Z) : TM unit :=
  c ← gets csr; set_csr (Csrs (sstatus c) (scause c) (sepc c) (stval c) (stvec c) (satp c) x (sie c) (tp c)).
Definition w_sie (x : Z) : TM unit :=
  c ← gets csr; set_csr (Csrs (sstatus c) (scause c) (sepc c) (stval c) (stvec c) (satp c) (sip c) x (tp c)).
Definition intr_on : TM unit := x ← r sstatus; w_sstatus (Z.lor x SSTATUS_SIE).
Definition intr_off : TM unit := x ← r sstatus; w_sstatus (Z.land x (Z.lnot SSTATUS_SIE)).
Definition intr_get : TM bool := x ← r sstatus; mret (negb (Z.land x SSTATUS_SIE =? 0)).
Definition set_epc (x : Z) : TM unit :=
  f ← gets tf; set_tf (TF (kernel_satp f) (kernel_sp f) (kernel_trap f) x (kernel_hartid f)).

Definition trapinit : TM unit := w_stvec kernelvec.
(** Up to [timer::setTimeout], which programs the next timer interrupt. *)
Definition trapinithart : TM unit :=
  w_stvec kernelvec;;
  x ← r sstatus; w_sstatus (Z.lor x SSTATUS_SIE);;
  x ← r sie; w_sie (Z.lor x (Z.lor SIE_SEIE (Z.lor SIE_SSIE SIE_STIE))).

(** [device_intr]: 2 for the timer, 1 for another device, 0 unknown. *)
Definition external (scause stval : Z) : bool :=
  if qemu then negb (Z.land scause (2 ^ 63) =? 0) && (Z.land scause 0xff =? 9)
  else (scause =? 2 ^ 63 + 1) && (stval =? 9).
Definition device_intr : TM Z :=
  cause ← r scause;
  tval ← r stval;
  if external cause tval then
    irq ← plic_claim;
    (if UART_IRQ =? irq then
       c ← sbi_console_getchar;
       if -1 =? c then mret tt else console_intr c
     else if DMA0_IRQ =? irq then (if qemu then mret tt else dmac_intr)
     else if VIRTIO_IRQ =? irq then (if qemu then VirtioIntr else mret tt)
     else mret tt);;
    (if negb (irq =? 0) then plic_complete irq else mret tt);;
    (if qemu then mret tt
     else x ← r sip; w_sip (Z.land x (Z.lnot 2));; sbi_set_mie);;
    mret 1
  else if cause =? 2 ^ 63 + 5 then timer_handleIntr;; mret 2
  else mret 0.

Definition usertrapret : TM tend :=
  intr_off;;
  w_stvec (u64 (TRAMPOLINE + (uservec - trampoline)));;
  f ← gets tf;
  c ← gets csr;
  ks ← gets kstack;
  set_tf (TF (satp c) (u64 (ks + PGSIZE)) usertrap_addr (epc f) (tp c));;
  x ← r sstatus;
  w_sstatus (Z.lor (Z.land x (Z.lnot SSTATUS_SPP)) SSTATUS_SPIE);;
  w_sepc (epc f);;
  p ← gets pagetable;
  mret (ToUser TRAPFRAME (MAKE_SATP p)).

(** [exit(-1)] and the end of the task. *)
Definition die : TM tend := exit (-1);; mret Exited.

(** The causes that are page faults. *)
Definition page_fault (cause : Z) : bool :=
  (cause =? 1) || (cause =? 13) || (cause =? 5) || (cause =? 12) || (cause =? 15) || (cause =? 7).

(** After the cause was handled: [which_dev] as returned by [device_intr]. *)
Definition usertrap_end (which_dev : Z) : TM tend :=
  k ← gets killed;
  if (k : bool) then die
  else
    (if which_dev =? 2 then yield else mret tt);;
    usertrapret.

(** [usertrap]; the two messages it may print are left out. *)
Definition usertrap : TM tend :=
  x ← r sstatus;
  if negb (Z.land x SSTATUS_SPP =? 0) then panic "usertrap: not from user mode"
  else
    w_stvec kernelvec;;
    cause ← r scause;
    pc ← r sepc;
    set_epc pc;;
    if cause =? 8 then
      k ← gets killed;
      if (k : bool) then die
      else
        set_epc (u64 (pc + 4));;
        intr_on;;
        syscall;;
        usertrap_end 0
    else if page_fault cause then
      eaddr ← r stval;
      loaded ← LoadIfValid eaddr;
      (if (loaded : bool) then mret tt else set_killed true);;
      usertrap_end 0
    else
      which_dev ← device_intr;
      if negb (which_dev =? 0) then usertrap_end which_dev
      else
        cause ← r scause;
        (if cause =? 3 then f ← gets tf; set_epc (u64 (epc f + 4)) else set_killed true);;
        usertrap_end 0.

Definition kerneltrap : TM tend :=
  task ← gets has_task;
  pc ← r sepc;
  status ← r sstatus;
  if Z.land status SSTATUS_SPP =? 0 then panic "kerneltrap: not from supervisor mode"
  else
    on ← intr_get;
    if (on : bool) then panic "kerneltrap: interrupts enabled"
    else
      which_dev ← device_intr;
      if which_dev =? 0 then panic "kerneltrap"
      else
        run ← gets running;
        (if (which_dev =? 2) && task && run then yield else mret tt);;
        w_sepc pc;;
        w_sstatus status;;
        mret ToKernel.

(** ** What a return from a trap guarantees *)

(** The registers and the trap frame [sret] to user mode finds. *)
Record user_ready (s : tst W) : Prop := {
  ur_spp : Z.testbit (sstatus (csr s)) 8 = false;
  ur_spie : Z.testbit (sstatus (csr s)) 5 = true;
  ur_sie : Z.testbit (sstatus (csr s)) 1 = false;
  ur_sepc : sepc (csr s) = epc (tf s);
  ur_stvec : stvec (csr s) = u64 (TRAMPOLINE + (uservec - trampoline));
  ur_frame : tf s = TF (satp (csr s)) (u64 (kstack s + PGSIZE)) usertrap_addr (epc (tf s)) (tp (csr s));
}.

Lemma usertrapret_ok s : ∃ s', usertrapret s = Done (ToUser TRAPFRAME (MAKE_SATP (pagetable s)), s') ∧
  user_ready s' ∧ epc (tf s') = epc (tf s) ∧ killed s' = killed s ∧ pagetable s' = pagetable s.
Proof.
  eexists. split; [reflexivity|]. split; [|done].
  split; cbn [csr tf sstatus sepc stvec satp tp kstack epc]; try done;
    rewrite ?Z.lor_spec, ?Z.land_spec, ?Z.lnot_spec by lia; unfold SSTATUS_SPP, SSTATUS_SPIE, SSTATUS_SIE;
    rewrite !Z.shiftl_1_l; rewrite ?Z.pow2_bits_eqb by lia; cbn [Z.eqb Pos.eqb negb];
    rewrite ?andb_false_r, ?orb_true_r, ?orb_false_r; done.
Qed.

(** A run of [c] that ends in user mode ends in a ready state, with the task
    not killed, or killed while it had yielded. *)
Definition safe_end (c : TM tend) : Prop := ∀ s e s', c s = Done (e, s') →
  match e with
  | ToUser frame sa => frame = TRAPFRAME ∧ sa = MAKE_SATP (pagetable s') ∧ user_ready s' ∧
      (killed s' = false ∨ ∃ s1 s2, killed s1 = false ∧ yield s1 = Done (tt, s2) ∧ killed s2 = true)
  | Exited => ∃ s1, exit (-1) s1 = Done (tt, s')
  | ToKernel => False
  end.

Lemma safe_bind {A : Type} (c : TM A) (k : A → TM tend) : (∀ a, safe_end (k a)) → safe_end (c ≫= k).
Proof.
  intros Hk s e s' E. apply M_bind_inv in E as (a & s1 & _ & E). by apply (Hk a s1).
Qed.
Lemma safe_panic msg : safe_end (panic msg).
Proof. by intros s e s'. Qed.
Lemma safe_die : safe_end die.
Proof.
  intros s e s' E. unfold die in E. apply M_bind_inv in E as ([] & s1 & Ex & E).
  injection E as <- <-. by exists s.
Qed.

Lemma safe_usertrap_end d : safe_end (usertrap_end d).
Proof.
  intros s e s' E. unfold usertrap_end in E. unfold mbind at 1, M_bind in E. cbn [gets] in E.
  destruct (killed s) eqn:Hk; [by apply (safe_die s)|].
  destruct (d =? 2).
  - unfold mbind, M_bind in E. destruct (yield s) as [[[] s1]|?|] eqn:Ey; [|done..].
    destruct (usertrapret_ok s1) as (s2 & E2 & Hr & _ & Hk2 & Hp). rewrite E2 in E. injection E as <- <-.
    split; [done|]. rewrite Hp. split; [done|]. split; [done|]. rewrite Hk2.
    destruct (killed s1) eqn:Hk1; [|by left]. right. by exists s, s1.
  - unfold mbind, M_bind in E. cbn [mret M_ret] in E.
    destruct (usertrapret_ok s) as (s2 & E2 & Hr & _ & Hk2 & Hp). rewrite E2 in E. injection E as <- <-.
    split; [done|]. rewrite Hp. split; [done|]. split; [done|]. left. by rewrite Hk2.
Qed.

Lemma safe_usertrap : safe_end usertrap.
Proof.
  unfold usertrap. repeat first
    [ apply safe_panic | apply safe_die | apply safe_usertrap_end
    | apply safe_bind; intros ? | case_match ].
Qed.

Lemma bit_test x k : 0 ≤ k → (Z.land x (Z.shiftl 1 k) =? 0) = negb (Z.testbit x k).
Proof.
  intros Hk. rewrite Z.shiftl_1_l. destruct (Z.testbit x k) eqn:E; cbn.
  - apply Z.eqb_neq. intros H0. assert (Z.testbit (Z.land x (2 ^ k)) k = true) as Hb.
    { by rewrite Z.land_spec, E, Z.pow2_bits_true. }
    by rewrite H0, Z.bits_0 in Hb.
  - apply Z.eqb_eq. apply Z.bits_inj'. intros n Hn. rewrite Z.land_spec, Z.bits_0, Z.pow2_bits_eqb by done.
    destruct (Z.eqb_spec k n) as [->|]; [by rewrite E|by rewrite andb_false_r].
Qed.

Lemma kerneltrap_ok s e s' : kerneltrap s = Done (e, s') →
  e = ToKernel ∧ sepc (csr s') = sepc (csr s) ∧ sstatus (csr s') = sstatus (csr s) ∧
  Z.testbit (sstatus (csr s)) 8 = true ∧ Z.testbit (sstatus (csr s)) 1 = false.
Proof.
  intros E. unfold kerneltrap in E. do 3 (erewrite M_bind_Done in E by reflexivity).
  unfold SSTATUS_SPP in E. rewrite (bit_test _ 8) in E by lia.
  destruct (Z.testbit (sstatus (csr s)) 8); cbn [negb] in E; [|done].
  unfold intr_get, SSTATUS_SIE in E.
  erewrite M_bind_Done in E by (erewrite M_bind_Done by reflexivity; reflexivity). rewrite (bit_test _ 1) in E by lia.
  rewrite negb_involutive in E. destruct (Z.testbit (sstatus (csr s)) 1); [done|].
  apply M_bind_inv in E as (d & s1 & _ & E). destruct (d =? 0); [done|].
  erewrite M_bind_Done in E by reflexivity. apply M_bind_inv in E as (_ & s2 & _ & E).
  cbn in E. by injection E as <- <-.
Qed.

(** Claim C7: whatever the handlers do, a trap from user mode ends in [exit] or
    in user mode with the trap frame and the registers of a user task (user
    privilege, interrupts off until [sret], [sepc] from the frame, the user
    vector), and with the task not killed unless it was killed after yielding;
    a system call goes on behind its [ecall]; a trap inside the kernel only
    returns from a device or timer interrupt and restores [sepc] and
    [sstatus]. *)
Theorem traps_return_safely s e s' :
  (usertrap s = Done (e, s') →
   match e with
   | ToUser frame sa => frame = TRAPFRAME ∧ sa = MAKE_SATP (pagetable s') ∧ user_ready s' ∧
       (killed s' = false ∨ ∃ s1 s2, killed s1 = false ∧ yield s1 = Done (tt, s2) ∧ killed s2 = true)
   | Exited => ∃ s1, exit (-1) s1 = Done (tt, s')
   | ToKernel => False
   end) ∧
  (∀ s2, let c := csr s in let f := tf s in
   let s1 := TSt (Csrs (Z.lor (sstatus c) SSTATUS_SIE) 8 (sepc c) (stval c) kernelvec (satp c) (sip c) (sie c) (tp c))
     (TF (kernel_satp f) (kernel_sp f) (kernel_trap f) (u64 (sepc c + 4)) (kernel_hartid f))
     (killed s) (running s) (has_task s) (kstack s) (pagetable s) (tw s) in
   Z.testbit (sstatus c) 8 = false → scause c = 8 → killed s = false →
   syscall s1 = Done (tt, s2) → killed s2 = false → epc (tf s2) = epc (tf s1) →
   ∃ s3, usertrap s = Done (ToUser TRAPFRAME (MAKE_SATP (pagetable s2)), s3) ∧ sepc (csr s3) = u64 (sepc c + 4)) ∧
  (kerneltrap s = Done (e, s') →
   e = ToKernel ∧ sepc (csr s') = sepc (csr s) ∧ sstatus (csr s') = sstatus (csr s) ∧
   Z.testbit (sstatus (csr s)) 8 = true ∧ Z.testbit (sstatus (csr s)) 1 = false).
Proof.
  split; [by apply safe_usertrap|]. split; [|by apply kerneltrap_ok].
  intros s2 c f s1 Hspp Hc Hk Hsys Hk2 Hepc.
  destruct (usertrapret_ok s2) as (s3 & E3 & Hr & He & _). exists s3.
  split; [|rewrite (ur_sepc _ Hr), He, Hepc; done].
  unfold usertrap. erewrite M_bind_Done by reflexivity. unfold SSTATUS_SPP.
  rewrite (bit_test _ 8) by lia. subst c f. rewrite Hspp. cbn [negb].
  do 4 (erewrite M_bind_Done by reflexivity). cbn [csr scause]. rewrite Hc. cbn [Z.eqb Pos.eqb].
  erewrite M_bind_Done by reflexivity. cbn [killed]. rewrite Hk.
  do 2 (erewrite M_bind_Done by reflexivity).
  erewrite M_bind_Done by (etransitivity; [|exact Hsys]; f_equal; unfold s1; rewrite <- Hc, ?Hk; reflexivity).
  unfold usertrap_end. erewrite M_bind_Done by reflexivity. rewrite Hk2. cbn [Z.eqb].
  erewrite M_bind_Done by reflexivity. exact E3.
Qed.
End trap.

Module TrapWitness.
#[local] Instance ops0 : TrapOps unit := {|
  syscall := mret tt; LoadIfValid _ := mret true; exit _ := mret tt; yield := mret tt;
  timer_handleIntr := mret tt; plic_claim := mret 0; plic_complete _ := mret tt;
  sbi_console_getchar := mret (-1); console_intr _ := mret tt; VirtioIntr := mret tt;
  dmac_intr := mret tt; sbi_set_mie := mret tt |}.
Definition s0 : tst unit :=
  TSt (Csrs 0x20 8 0x1000 0 0x5000 77 0 0 0) (TF 0 0 0 0 0) false true true 0x9000 0x80300000 tt.

Lemma traps_return_safely_witness :
  ∃ s3, usertrap true 10 0x80200000 0x80201000 0x80201000 0x80202000 s0 =
    Done (ToUser TRAPFRAME (MAKE_SATP 0x80300000), s3) ∧ sepc (csr s3) = 0x1004.
Proof.
  exact (proj1 (proj2 (traps_return_safely true 10 0x80200000 0x80201000 0x80201000 0x80202000 s0 Exited s0))
    _ eq_refl eq_refl eq_refl eq_refl eq_refl eq_refl).
Defined.
End TrapWitness.
