(* ===== verification/User.v ===== *)
(** * User programs: what they ask of the kernel, and their library

    A program is the system calls it makes, a [proc]: each call with what the
    program does with its result.  A string is the list of its characters.
    user/printf.c: what the formats give; user/ulib.c on memory is in Ulib.v.
    The programs echo, cat, wc and init. *)
From S2P Require Import Prelude.

(** The characters of a literal. *)
Definition chars (s : string) : list Z := (λ a, Z.of_N (Ascii.N_of_ascii a)) <$> String.list_ascii_of_string s.
Definition nl : list Z := [10].

(** ** System calls

    [Read]: the bytes, [None] for an error, none at the end of the file.  [Dup]'s
    and [Close]'s results are not used.  [Fault]: the program is killed for what
    it does to memory.  [Forever]: a loop that the model does not follow. *)
Inductive proc :=
| Exit (status : Z)
| Execve (path : list Z) (argv : list (list Z)) (fails : proc)
| Close (fd : Z) (k : proc)
| Open (path : list Z) (mode : Z) (k : Z → proc)
| Fork (k : Z → proc)
| Wait (k : Z → proc)
| Pipe2 (k : Z → Z → Z → proc)
| Dup (fd : Z) (k : proc)
| Write (fd : Z) (bytes : list Z) (k : Z → proc)
| Read (fd n : Z) (k : option (list Z) → proc)
| Chdir (path : list Z) (k : Z → proc)
| Fault
| Forever.
Definition O_RDONLY : Z := 0.
Definition O_WRONLY : Z := 1.
Definition O_RDWR : Z := 2.
Definition O_CREATE : Z := 0x40.
Definition O_TRUNC : Z := 0x400.

(** ** printf.c *)
Definition digits : list Z := chars "0123456789ABCDEF".
Definition digit (x : Z) : Z := nth (Z.to_nat x) digits 0.
(** The digits, the last one first. *)
Fixpoint digits_loop (n : nat) (x base : Z) : list Z :=
  match n with O => [] | S n => digit (x mod base) :: (if x / base =? 0 then [] else digits_loop n (x / base) base) end.
(** [xx] is an [int]; a 32-bit number has at most 32 digits. *)
Definition printint (xx base : Z) (sgn : bool) : list Z :=
  let neg := sgn && (xx <? 0) in
  let x := u32 (if neg then - xx else xx) in
  (if neg then [45] else []) ++ rev (digits_loop 32 x base).
Fixpoint printptr_loop (n : nat) (x : Z) : list Z :=
  match n with O => [] | S n => digit (Z.shiftr x 60) :: printptr_loop n (u64 (Z.shiftl x 4)) end.
Definition printptr (x : Z) : list Z := [48; 120] ++ printptr_loop 16 x.
(** An argument: a number, or a string, [None] for a null pointer. *)
Inductive arg := ANum (v : Z) | AStr (s : option (list Z)).
(** [va_arg]; an argument that is missing or of the other kind is undefined in C
    and 0 or null here. *)
Definition va_num (ap : list arg) : Z := match ap with ANum v :: _ => v | _ => 0 end.
Definition va_str (ap : list arg) : option (list Z) := match ap with AStr s :: _ => s | _ => None end.
Fixpoint vprintf_loop (fmt : list Z) (state : bool) (ap : list arg) : list Z :=
  match fmt with
  | [] => []
  | c :: fmt =>
      if negb state then
        if c =? 37 then vprintf_loop fmt true ap else c :: vprintf_loop fmt false ap
      else if c =? 100 then printint (i32 (va_num ap)) 10 true ++ vprintf_loop fmt false (tail ap)
      else if c =? 108 then printint (i32 (va_num ap)) 10 false ++ vprintf_loop fmt false (tail ap)
      else if c =? 120 then printint (i32 (va_num ap)) 16 false ++ vprintf_loop fmt false (tail ap)
      else if c =? 112 then printptr (u64 (va_num ap)) ++ vprintf_loop fmt false (tail ap)
      else if c =? 115 then default (chars "(null)") (va_str ap) ++ vprintf_loop fmt false (tail ap)
      else if c =? 99 then u8 (va_num ap) :: vprintf_loop fmt false (tail ap)
      else if c =? 37 then c :: vprintf_loop fmt false ap
      else 37 :: c :: vprintf_loop fmt false ap
  end.
Definition vprintf (fmt : string) (ap : list arg) : list Z := vprintf_loop (chars fmt) false ap.
(** One [write] for every character. *)
Definition putc (fd c : Z) (k : proc) : proc := Write fd [c] (λ _, k).
Definition fprintf (fd : Z) (fmt : string) (ap : list arg) (k : proc) : proc := fold_right (putc fd) k (vprintf fmt ap).
Definition printf (fmt : string) (ap : list arg) (k : proc) : proc := fprintf 1 fmt ap k.
Definition str_arg (s : list Z) : arg := AStr (Some s).
(** ["...\n"] *)
Definition line (s : string) : string := String.append s (String (Ascii.ascii_of_nat 10) EmptyString).

(** ** ulib.c: [strchr] of a literal, and [gets] *)
Definition strchr (l : list Z) (c : Z) : bool := existsb (Z.eqb c) l.
(** At most [n] characters, up to the end of a line. *)
Fixpoint gets_loop (n : nat) (acc : list Z) (k : list Z → proc) : proc :=
  match n with
  | O => k acc
  | S n =>
      Read 0 1 (λ r,
        match r with
        | Some (c :: _) => if (c =? 10) || (c =? 13) then k (acc ++ [c]) else gets_loop n (acc ++ [c]) k
        | _ => k acc
        end)
  end.
Definition gets (max : nat) (k : list Z → proc) : proc := gets_loop (max - 1) [] k.

(** ** echo.c *)
Fixpoint echo_loop (argv : list (list Z)) : proc :=
  match argv with
  | [] => Exit 0
  | a :: argv =>
      Write 1 a (λ _,
        match argv with
        | [] => Write 1 nl (λ _, echo_loop argv)
        | _ => Write 1 [32] (λ _, echo_loop argv)
        end)
  end.
Definition echo_main (argv : list (list Z)) : proc := echo_loop (tail argv).

(** ** cat.c *)
Fixpoint cat (n : nat) (fd : Z) (k : proc) : proc :=
  match n with
  | O => Forever
  | S n =>
      Read fd 512 (λ r,
        match r with
        | None => fprintf 2 (line "cat: read error") [] (Exit 1)
        | Some [] => k
        | Some l =>
            Write 1 l (λ w,
              if w =? Z.of_nat (length l) then cat n fd k else fprintf 2 (line "cat: write error") [] (Exit 1))
        end)
  end.
Fixpoint cat_files (n : nat) (argv : list (list Z)) : proc :=
  match argv with
  | [] => Exit 0
  | a :: argv =>
      Open a 0 (λ fd,
        if fd <? 0 then fprintf 2 (line "cat: cannot open %s") [str_arg a] (Exit 1)
        else cat n fd (Close fd (cat_files n argv)))
  end.
Definition cat_main (n : nat) (argv : list (list Z)) : proc :=
  match tail argv with [] => cat n 0 (Exit 0) | argv => cat_files n argv end.

(** ** wc.c *)
Record wcs := Wc { wc_l : Z; wc_w : Z; wc_c : Z; inword : bool }.
Definition blanks : list Z := [32; 13; 9; 10; 11].
Definition wc_char (s : wcs) (c : Z) : wcs :=
  let n := wc_c s + 1 in
  let l := if c =? 10 then wc_l s + 1 else wc_l s in
  if strchr blanks c then Wc l (wc_w s) n false
  else if negb (inword s) then Wc l (wc_w s + 1) n true
  else Wc l (wc_w s) n true.
Fixpoint wc_loop (n : nat) (fd : Z) (name : list Z) (s : wcs) (k : proc) : proc :=
  match n with
  | O => Forever
  | S n =>
      Read fd 512 (λ r,
        match r with
        | None => printf (line "wc: read error") [] (Exit 1)
        | Some [] => printf (line "%d %d %d %s") [ANum (wc_l s); ANum (wc_w s); ANum (wc_c s); str_arg name] k
        | Some l => wc_loop n fd name (fold_left wc_char l s) k
        end)
  end.
Definition wc (n : nat) (fd : Z) (name : list Z) (k : proc) : proc := wc_loop n fd name (Wc 0 0 0 false) k.
Fixpoint wc_files (n : nat) (argv : list (list Z)) : proc :=
  match argv with
  | [] => Exit 0
  | a :: argv =>
      Open a 0 (λ fd,
        if fd <? 0 then printf (line "wc: cannot open %s") [str_arg a] (Exit 1)
        else wc n fd a (Close fd (wc_files n argv)))
  end.
Definition wc_main (n : nat) (argv : list (list Z)) : proc :=
  match tail argv with [] => wc n 0 [] (Exit 0) | argv => wc_files n argv end.

(** ** init.c *)

(** [for (;;) wpid = wait(0); ...]: when the shell has exited, the loop that
    should start it again never ends. *)
Fixpoint init_wait (n : nat) (pid : Z) : proc :=
  match n with
  | O => Forever
  | S n =>
      Wait (λ wpid,
        if wpid =? pid then Forever
        else if wpid <? 0 then printf (line "init: wait returned an error") [] (Exit 1)
        else init_wait n pid)
  end.
Definition init_main (n : nat) : proc :=
  Open (chars "/dev/tty") O_RDWR (λ _,
    Dup 0 (Dup 0 (printf (line "init: starting sh") [] (Fork (λ pid,
      if pid <? 0 then printf (line "init: fork failed") [] (Exit 1)
      else if pid =? 0 then
        Execve (chars "shell") [chars "sh"] (printf (line "init: exec sh failed") [] (Exit 1))
      else init_wait n pid))))).
