(* ===== verification/Ulib.v ===== *)
(** * The library of user programs: user/ulib.c on memory

    Its string and block routines; [atoi] reads back what [printint] prints.
    [gets] and [strchr] of a literal are in User.v.  The functions that
    common/string.cpp of the kernel has too are shown to do what those do. *)
From S2P Require Import Prelude Mem User.

Module Ulib.
(** [while (( *s++ = *t++) != 0);] *)
Fixpoint strcpy (fuel : nat) (m : mem) (s t : Z) : outcome mem :=
  match fuel with
  | O => NoFuel
  | S fuel => let m' := upd m s (m t) in if m t =? 0 then Done m' else strcpy fuel m' (s + 1) (t + 1)
  end.
(** [while ( *p && *p == *q) p++, q++;] *)
Fixpoint strcmp (fuel : nat) (m : mem) (p q : Z) : outcome Z :=
  match fuel with
  | O => NoFuel
  | S fuel => if negb (m p =? 0) && (m p =? m q) then strcmp fuel m (p + 1) (q + 1) else Done (m p - m q)
  end.
(** The count is an [int], the result an [unsigned int]. *)
Fixpoint strlen (fuel : nat) (m : mem) (s n : Z) : outcome Z :=
  match fuel with
  | O => NoFuel
  | S fuel => if m (s + n) =? 0 then Done (u32 n) else strlen fuel m s (n + 1)
  end.
Fixpoint memset_loop (n : nat) (m : mem) (dst c i : Z) : mem :=
  match n with O => m | S n => memset_loop n (upd m (dst + i) (u8 c)) dst c (i + 1) end.
Definition memset (m : mem) (dst c n : Z) : mem := memset_loop (Z.to_nat (u32 n)) m dst c 0.
Fixpoint strchr (fuel : nat) (m : mem) (s c : Z) : outcome Z :=
  match fuel with
  | O => NoFuel
  | S fuel => if m s =? 0 then Done 0 else if m s =? c then Done s else strchr fuel m (s + 1) c
  end.
(** [while ('0' <= *s && *s <= '9') n = n*10 + *s++ - '0';] *)
Fixpoint atoi_loop (fuel : nat) (m : mem) (s n : Z) : outcome Z :=
  match fuel with
  | O => NoFuel
  | S fuel =>
      if (48 <=? m s) && (m s <=? 57) then atoi_loop fuel m (s + 1) (i32 (n * 10 + m s - 48)) else Done n
  end.
Definition atoi (fuel : nat) (m : mem) (s : Z) : outcome Z := atoi_loop fuel m s 0.
(** [n] is an [int]. *)
Definition memmove (m : mem) (vdst vsrc n : Z) : mem :=
  if vdst <? vsrc then copy_forward m vdst vsrc (Z.to_nat n) else copy_backward m (vdst + n) (vsrc + n) (Z.to_nat n).
Fixpoint memcmp (m : mem) (p1 p2 : Z) (n : nat) : Z :=
  match n with
  | O => 0
  | S n => if negb (m p1 =? m p2) then m p1 - m p2 else memcmp m (p1 + 1) (p2 + 1) n
  end.
Definition memcpy (m : mem) (dst src n : Z) : mem := memmove m dst src (i32 n).
End Ulib.

(** ** They do what the kernel's do *)
Lemma ulib_memmove m dst src n x : 0 ≤ n < 2 ^ 31 → Ulib.memmove m dst src n x = memmove m dst src n x.
Proof.
  intros Hn. rewrite memmove_lookup, u32_small by lia. unfold Ulib.memmove. destruct (Z.ltb_spec dst src).
  - rewrite copy_forward_lookup by lia. by rewrite Z2Nat.id by lia.
  - rewrite copy_backward_lookup by lia. rewrite Z2Nat.id by lia. replace (dst + n - n) with dst by lia.
    replace (src + n - (dst + n)) with (src - dst) by lia. done.
Qed.
Lemma ulib_memset_loop n m dst c i x : Ulib.memset_loop n m dst c i x = if in_range x (dst + i) (Z.of_nat n) then u8 c else m x.
Proof.
  revert m i. induction n as [|n IH]; intros m i; cbn [Ulib.memset_loop].
  - by range_case.
  - rewrite IH. unfold upd. range_case; done || lia.
Qed.
Lemma ulib_memset m dst c n x : Ulib.memset m dst c n x = memset m dst c n x.
Proof. unfold Ulib.memset, memset. rewrite ulib_memset_loop, Z.add_0_r, Z2Nat.id by apply u32_range. done. Qed.
Lemma ulib_memcmp m p q n : Ulib.memcmp m p q n = memcmp m p q n.
Proof. revert p q. induction n as [|n IH]; intros p q; cbn; [done|]. rewrite IH. by destruct (m p =? m q). Qed.
Lemma ulib_strcmp fuel m p q : Ulib.strcmp fuel m p q = strcmp fuel m p q.
Proof.
  revert p q. induction fuel as [|fuel IH]; intros p q; cbn; [done|]. rewrite IH.
  destruct (Z.eqb_spec (m p) 0), (Z.eqb_spec (m p) (m q)), (Z.eqb_spec (m q) 0); cbn; try done. congruence.
Qed.
Lemma ulib_strchr fuel m s c : Ulib.strchr fuel m s c = Mem.strchr fuel m s c.
Proof. done. Qed.
Lemma ulib_strlen m s l fuel n : cstr m (s + n) l → 0 ≤ n → n + Z.of_nat (length l) < 2 ^ 31 → (length l < fuel)%nat →
  Ulib.strlen fuel m s n = Done (n + Z.of_nat (length l)).
Proof.
  revert n fuel. induction l as [|b l IH]; intros n [|fuel] Hl Hn Hb Hf; cbn [cstr Ulib.strlen length] in *; try lia.
  - rewrite Hl. cbn. rewrite u32_small by lia. by rewrite Z.add_0_r.
  - destruct Hl as (-> & Hnz & Hl). rewrite (proj2 (Z.eqb_neq _ _) Hnz). rewrite <- Z.add_assoc in Hl.
    rewrite IH by (done || lia). f_equal. lia.
Qed.

(** [strcpy] to where the string is not. *)
Lemma ulib_strcpy m s t l fuel : cstr m t l → (length l < fuel)%nat →
  s + Z.of_nat (length l) < t ∨ t + Z.of_nat (length l) < s →
  ∃ m', Ulib.strcpy fuel m s t = Done m' ∧ cstr m' s l ∧ (∀ x, ¬ (s ≤ x ≤ s + Z.of_nat (length l)) → m' x = m x).
Proof.
  revert m s t fuel. induction l as [|b l IH]; intros m s t [|fuel] Hl Hf Hd; cbn [length] in *; try lia.
  - cbn in Hl. cbn [Ulib.strcpy]. rewrite Hl. exists (upd m s 0). split; [done|]. split; [apply upd_eq|].
    intros x Hx. apply upd_ne. lia.
  - cbn [Ulib.strcpy]. destruct Hl as (Hb & Hnz & Hl). rewrite Hb, (proj2 (Z.eqb_neq _ _) Hnz).
    destruct (IH (upd m s b) (s + 1) (t + 1) fuel) as (m' & E & Hc & Ho); [|lia|lia|].
    + eapply cstr_ext; [|exact Hl]. intros x Hx. symmetry. apply upd_ne. lia.
    + exists m'. split; [done|]. split; [split_and!; [rewrite Ho by lia; apply upd_eq|done|done]|].
      intros x Hx. rewrite Ho by lia. apply upd_ne. lia.
Qed.

(** ** [atoi] reads what [printint] prints *)
Definition value10 (l : list Z) (n : Z) : Z := fold_left (λ n c, n * 10 + c - 48) l n.
Definition is_digit (c : Z) : Prop := 48 ≤ c ≤ 57.
Lemma value10_ge l n : Forall is_digit l → 0 ≤ n → n ≤ value10 l n.
Proof.
  intros Hl. revert n. induction Hl as [|c l Hc Hl IH]; intros n Hn; cbn; [lia|]. unfold is_digit in Hc.
  etrans; [|apply IH]; lia.
Qed.
Lemma atoi_loop_run m l : ∀ fuel s n, bytes_at m s l → Forall is_digit l → ¬ is_digit (m (s + Z.of_nat (length l))) →
  (length l < fuel)%nat → 0 ≤ n → value10 l n < 2 ^ 31 → Ulib.atoi_loop fuel m s n = Done (value10 l n).
Proof.
  induction l as [|c l IH]; intros [|fuel] s n Hb Hd Hend Hf Hn Hv; cbn [length] in *; try lia; cbn [Ulib.atoi_loop].
  - rewrite Z.add_0_r in Hend. destruct (Z.leb_spec 48 (m s)), (Z.leb_spec (m s) 57); cbn; try done.
    exfalso. apply Hend. by unfold is_digit.
  - destruct Hb as [-> Hb]. apply Forall_cons in Hd as [Hc Hd]. unfold is_digit in Hc.
    rewrite (proj2 (Z.leb_le 48 c)), (proj2 (Z.leb_le c 57)) by lia. cbn [andb value10 fold_left] in *.
    assert (0 ≤ n * 10 + c - 48) as Hn' by lia. pose proof (value10_ge l _ Hd Hn') as Hge. unfold value10 in Hge.
    rewrite i32_small by lia. apply IH; [done|done| |lia|lia|done].
    replace (s + 1 + Z.of_nat (length l)) with (s + Z.of_nat (S (length l))) by lia. done.
Qed.

Lemma digit_10 d : 0 ≤ d < 10 → digit d = 48 + d.
Proof.
  intros. assert (d = 0 ∨ d = 1 ∨ d = 2 ∨ d = 3 ∨ d = 4 ∨ d = 5 ∨ d = 6 ∨ d = 7 ∨ d = 8 ∨ d = 9) as Hd by lia.
  by repeat (destruct Hd as [->|Hd]); subst.
Qed.
Lemma digits_loop_10 n x : 0 ≤ x < 10 ^ Z.of_nat n → (0 < n)%nat →
  Forall is_digit (digits_loop n x 10) ∧ (∀ k, value10 (rev (digits_loop n x 10)) k = k * 10 ^ Z.of_nat (length (digits_loop n x 10)) + x) ∧
  (length (digits_loop n x 10) ≤ n)%nat.
Proof.
  revert x. induction n as [|n IH]; intros x Hx Hn; [lia|]. cbn [digits_loop].
  pose proof (Z.mod_pos_bound x 10 ltac:(lia)). pose proof (Z.div_mod x 10 ltac:(lia)).
  assert (is_digit (digit (x mod 10))) as Hd by (unfold is_digit; rewrite digit_10 by lia; lia).
  destruct (Z.eqb_spec (x / 10) 0) as [E|E].
  - split; [by constructor|]. split; [|cbn; lia]. intros k. unfold value10. cbn [rev app fold_left length]. rewrite digit_10 by lia. lia.
  - destruct n as [|n].
    { exfalso. apply E. apply Z.div_small. cbn in Hx. lia. }
    assert (0 ≤ x / 10 < 10 ^ Z.of_nat (S n)) as Hx'.
    { rewrite (Nat2Z.inj_succ (S n)), Z.pow_succ_r in Hx by lia. split; [apply Z.div_pos; lia|].
      apply Z.div_lt_upper_bound; lia. }
    destruct (IH (x / 10) Hx' ltac:(lia)) as (H1 & H2 & H3). split; [by constructor|]. split; [|cbn [length]; lia].
    intros k. cbn [rev length]. unfold value10 in *. rewrite fold_left_app, H2. cbn [fold_left]. rewrite digit_10 by lia.
    rewrite Nat2Z.inj_succ, Z.pow_succ_r by lia. lia.
Qed.
Lemma atoi_printint m s x fuel : 0 ≤ x < 2 ^ 31 → bytes_at m s (printint x 10 true) →
  ¬ is_digit (m (s + Z.of_nat (length (printint x 10 true)))) → (32 < fuel)%nat → Ulib.atoi fuel m s = Done x.
Proof.
  intros Hx. unfold printint. rewrite (proj2 (Z.ltb_ge x 0)) by lia. cbn [andb app]. rewrite u32_small by lia.
  destruct (digits_loop_10 32 x) as (H1 & H2 & H3); [cbn; lia|lia|]. intros Hb Hend Hf. unfold Ulib.atoi.
  assert (value10 (rev (digits_loop 32 x 10)) 0 = x) as Ev by (rewrite H2; lia).
  rewrite (atoi_loop_run m (rev (digits_loop 32 x 10))); rewrite ?Ev; [done|done|by apply Forall_rev|done| |lia|lia].
  rewrite length_rev. lia.
Qed.
