(* ===== verification/UserProps.v ===== *)
(** * cat, wc and echo: what comes out

    [io]: a program run on an input that is delivered in pieces, every call
    succeeding: what it writes, and its exit status.  cat copies its input and wc
    counts it, however it is cut. *)
From S2P Require Import Prelude User.

(** The writes are joined per call; [None]: the program does not exit by itself. *)
Fixpoint io (p : proc) (input : list (list Z)) : list (Z * list Z) * option Z :=
  match p with
  | Exit s => ([], Some s)
  | Execve _ _ _ | Fault | Forever => ([], None)
  | Close _ p | Dup _ p => io p input
  | Open _ _ κ => io (κ 3) input
  | Fork κ => io (κ 1) input
  | Wait κ | Chdir _ κ => io (κ 0) input
  | Pipe2 κ => io (κ 0 3 4) input
  | Write fd l κ => let '(o, r) := io (κ (Z.of_nat (length l))) input in ((fd, l) :: o, r)
  | Read _ _ κ => match input with [] => io (κ (Some [])) [] | l :: input => io (κ (Some l)) input end
  end.
(** What is written to a descriptor. *)
Definition output (fd : Z) (o : list (Z * list Z)) : list Z := concat (snd <$> List.filter (λ w, w.1 =? fd) o).
Definition io_out (fd : Z) (p : proc) (input : list (list Z)) : list Z := output fd (io p input).1.

Lemma io_write fd l κ input : io_out fd (Write fd l κ) input = l ++ io_out fd (κ (Z.of_nat (length l))) input.
Proof. unfold io_out, output. cbn. destruct (io _ input) as [o r]. cbn. by rewrite Z.eqb_refl. Qed.
Lemma io_status_write fd l κ input : (io (Write fd l κ) input).2 = (io (κ (Z.of_nat (length l))) input).2.
Proof. cbn. by destruct (io _ input). Qed.
Lemma io_puts fd text k input : io_out fd (fold_right (putc fd) k text) input = text ++ io_out fd k input.
Proof. induction text as [|c text IH]; [done|]. cbn [fold_right]. unfold putc at 1. rewrite io_write. cbn [app]. by rewrite IH. Qed.
Lemma io_status_puts fd text k input : (io (fold_right (putc fd) k text) input).2 = (io k input).2.
Proof. induction text as [|c text IH]; [done|]. cbn [fold_right]. unfold putc at 1. by rewrite io_status_write, IH. Qed.

Lemma io_read_end f fd n κ : io_out f (Read fd n κ) [] = io_out f (κ (Some [])) [].
Proof. reflexivity. Qed.
Lemma io_read f fd n κ l input : io_out f (Read fd n κ) (l :: input) = io_out f (κ (Some l)) input.
Proof. reflexivity. Qed.

(** ** cat *)
Lemma cat_run n fd k input : Forall (λ l, l ≠ []) input → (length input < n)%nat →
  io_out 1 (cat n fd k) input = concat input ++ io_out 1 k [] ∧ (io (cat n fd k) input).2 = (io k []).2.
Proof.
  revert n. induction input as [|l input IH]; intros n Hne Hn; (destruct n as [|n]; [cbn in Hn; lia|]).
  - done.
  - apply Forall_cons in Hne as [Hl Hne]. cbn [length] in Hn. destruct (IH n Hne ltac:(lia)) as [H1 H2].
    destruct l as [|c l]; [done|]. change (io_out 1 (cat (S n) fd k) ((c :: l) :: input)) with
      (io_out 1 (Write 1 (c :: l) (λ w, if w =? Z.of_nat (length (c :: l)) then cat n fd k
         else fprintf 2 (line "cat: write error") [] (Exit 1))) input).
    change (io (cat (S n) fd k) ((c :: l) :: input)) with
      (io (Write 1 (c :: l) (λ w, if w =? Z.of_nat (length (c :: l)) then cat n fd k
         else fprintf 2 (line "cat: write error") [] (Exit 1))) input).
    rewrite io_write, io_status_write, Z.eqb_refl, H1, H2. split; [|done]. cbn [concat]. by rewrite (assoc_L (++)).
Qed.
(** Standard input comes out as it went in. *)
Lemma cat_copies n input : Forall (λ l, l ≠ []) input → (length input < n)%nat →
  io_out 1 (cat_main n [chars "cat"]) input = concat input ∧ (io (cat_main n [chars "cat"]) input).2 = Some 0.
Proof. intros Hne Hn. unfold cat_main. cbn [tail]. destruct (cat_run n 0 (Exit 0) input Hne Hn) as [-> ->]. by rewrite app_nil_r. Qed.

(** ** wc *)

(** The words of a text: the characters that are no blank and have none before. *)
Fixpoint words_after (prev_blank : bool) (l : list Z) : Z :=
  match l with
  | [] => 0
  | c :: l => (if prev_blank && negb (strchr blanks c) then 1 else 0) + words_after (strchr blanks c) l
  end.
Definition lines (l : list Z) : Z := Z.of_nat (length (List.filter (Z.eqb 10) l)).
Lemma wc_fold l s : let r := fold_left wc_char l s in
  wc_l r = wc_l s + lines l ∧ wc_w r = wc_w s + words_after (negb (inword s)) l ∧ wc_c r = wc_c s + Z.of_nat (length l).
Proof.
  cbn zeta. revert s. induction l as [|c l IH]; intros s; cbn [fold_left].
  - unfold lines. cbn [List.filter length words_after]. lia.
  - destruct (IH (wc_char s c)) as (-> & -> & ->). unfold wc_char, lines. cbn [words_after List.filter length].
    rewrite (Z.eqb_sym 10 c). destruct (Z.eqb_spec c 10), (strchr blanks c), (inword s); cbn -[Z.of_nat]; lia.
Qed.
Lemma wc_run n fd name s k input : Forall (λ l, l ≠ []) input → (length input < n)%nat →
  let r := fold_left wc_char (concat input) s in
  io_out 1 (wc_loop n fd name s k) input =
    vprintf (line "%d %d %d %s") [ANum (wc_l r); ANum (wc_w r); ANum (wc_c r); str_arg name] ++ io_out 1 k [].
Proof.
  cbn zeta. revert n s. induction input as [|l input IH]; intros n s Hne Hn; (destruct n as [|n]; [cbn in Hn; lia|]).
  - cbn [wc_loop]. rewrite io_read_end. cbv beta iota. unfold printf, fprintf. apply io_puts.
  - apply Forall_cons in Hne as [Hl Hne]. cbn [length] in Hn. destruct l as [|c l]; [done|].
    cbn [wc_loop]. rewrite io_read. cbv beta iota.
    rewrite IH by (done || lia). change (concat ((c :: l) :: input)) with ((c :: l) ++ concat input).
    by rewrite fold_left_app.
Qed.
(** The counts of standard input, however it is cut. *)
Lemma wc_counts n input : Forall (λ l, l ≠ []) input → (length input < n)%nat →
  let text := concat input in
  io_out 1 (wc_main n [chars "wc"]) input =
    vprintf (line "%d %d %d %s") [ANum (lines text); ANum (words_after true text); ANum (Z.of_nat (length text)); str_arg []].
Proof.
  intros Hne Hn. cbn zeta. unfold wc_main. cbn [tail]. unfold wc. rewrite wc_run by done. rewrite app_nil_r.
  destruct (wc_fold (concat input) (Wc 0 0 0 false)) as (-> & -> & ->). by cbn [wc_l wc_w wc_c inword negb].
Qed.

(** ** echo *)
Fixpoint join (l : list (list Z)) : list Z :=
  match l with [] => [] | [a] => a ++ nl | a :: l => a ++ 32 :: join l end.
Lemma echo_joins argv input : io_out 1 (echo_main argv) input = join (tail argv).
Proof.
  unfold echo_main. induction (tail argv) as [|a [|b l] IH]; [done| |].
  - cbn [echo_loop]. rewrite !io_write. by rewrite app_nil_r.
  - change (echo_loop (a :: b :: l)) with (Write 1 a (λ _, Write 1 [32] (λ _, echo_loop (b :: l)))).
    rewrite !io_write, IH. done.
Qed.
