(* ===== verification/Shell.v ===== *)
(** * The shell: user/shell.c

    The line is a list of characters with a NUL behind it; a [char *] into it is
    an offset, so [es] is the length.  A command is a tree; [malloc_left] says how
    many more blocks [malloc] hands out, and a null pointer that is filled is
    [Panic].  [panic] of the shell, which prints and exits, is [Panic] in the
    parser.  [runcmd] and [main] are the system calls they make. *)
From S2P Require Import Prelude User.

(** ** Commands *)
Definition MAXARGS : nat := 10.

(** An argument: [argv[i]] and [eargv[i]]. *)
Definition slice : Type := nat * nat.
Inductive cmd :=
| EXEC (argv : list slice)
| REDIR (c : cmd) (file : slice) (mode fd : Z)
| PIPE (left right : cmd)
| LIST (left right : cmd)
| BACK (c : cmd).

Record pst := Pst { ps : nat; malloc_left : nat }.
Abbreviation P := (M pst).
Definition set_ps (s : nat) : P unit := modify (λ st, Pst s (malloc_left st)).
(** The block of a constructor. *)
Definition node (c : cmd) : P cmd := λ st,
  match malloc_left st with O => Panic "memset" | S n => Done (c, Pst (ps st) n) end.

(** ** Tokens *)
Definition whitespace : list Z := [32; 9; 13; 10; 11].
Definition symbols : list Z := chars "<|>&;()".

Section parser.
Context (line : list Z).
Definition es : nat := length line.
Definition ch (s : nat) : Z := nth s line 0.

(** [while (s < es && p( *s)) s++;] *)
Fixpoint skip (p : Z → bool) (n s : nat) : nat :=
  match n with
  | O => s
  | S n => if Nat.ltb s es && p (ch s) then skip p n (S s) else s
  end.
Definition skip_white (s : nat) : nat := skip (strchr whitespace) (es - s) s.
Definition plain (c : Z) : bool := negb (strchr whitespace c) && negb (strchr symbols c).

(** The token and, for [q] and [eq], where it is. *)
Definition gettoken : P (Z * slice) :=
  st ← get;
  let q := skip_white (ps st) in
  let c := ch q in
  let '(ret, eq) :=
    if c =? 0 then (c, q)
    else if existsb (Z.eqb c) (chars "|();&<") then (c, S q)
    else if c =? 62 then (if ch (S q) =? 62 then (43, S (S q)) else (c, S q))
    else (97, skip plain (es - q) q) in
  set_ps (skip_white eq);;
  mret (ret, (q, eq)).
Definition peek (toks : list Z) : P bool :=
  st ← get;
  let s := skip_white (ps st) in
  set_ps s;;
  mret (negb (ch s =? 0) && strchr toks (ch s)).

(** ** The parser *)

(** [while (peek(ps, es, "&")) ...] *)
Fixpoint back_loop (n : nat) (c : cmd) : P cmd :=
  match n with
  | O => λ _, NoFuel
  | S n => b ← peek (chars "&"); if (b : bool) then gettoken;; c ← node (BACK c); back_loop n c else mret c
  end.
Definition redir (c : cmd) (tok : Z) (file : slice) : P cmd :=
  if tok =? 60 then node (REDIR c file O_RDONLY 0)
  else if tok =? 62 then node (REDIR c file (Z.lor (Z.lor O_WRONLY O_CREATE) O_TRUNC) 1)
  else if tok =? 43 then node (REDIR c file (Z.lor O_WRONLY O_CREATE) 1)
  else mret c.
Fixpoint parseredirs (n : nat) (c : cmd) : P cmd :=
  match n with
  | O => λ _, NoFuel
  | S n =>
      b ← peek (chars "<>");
      if (b : bool) then
        '(tok, _) ← gettoken;
        '(t, file) ← gettoken;
        if negb (t =? 97) then panic "missing file for redirection" else c ← redir c tok file; parseredirs n c
      else mret c
  end.
(** The node of [execcmd] is inside the redirections that [ret] grows by. *)
Fixpoint put_argv (argv : list slice) (ret : cmd) : cmd :=
  match ret with EXEC _ => EXEC argv | REDIR c file mode fd => REDIR (put_argv argv c) file mode fd | _ => ret end.
Fixpoint parseexec_loop (n : nat) (argv : list slice) (ret : cmd) : P cmd :=
  match n with
  | O => λ _, NoFuel
  | S n =>
      b ← peek (chars "|)&;");
      if (b : bool) then mret (put_argv argv ret)
      else
        '(tok, a) ← gettoken;
        if tok =? 0 then mret (put_argv argv ret)
        else if negb (tok =? 97) then panic "syntax"
        else
          let argv := argv ++ [a] in
          if Nat.leb MAXARGS (length argv) then panic "too many args"
          else ret ← parseredirs n ret; parseexec_loop n argv ret
  end.

Fixpoint parseline (n : nat) : P cmd :=
  match n with
  | O => λ _, NoFuel
  | S n =>
      c ← parsepipe n;
      c ← back_loop n c;
      b ← peek (chars ";");
      if (b : bool) then gettoken;; r ← parseline n; node (LIST c r) else mret c
  end
with parsepipe (n : nat) : P cmd :=
  match n with
  | O => λ _, NoFuel
  | S n =>
      c ← parseexec n;
      b ← peek (chars "|");
      if (b : bool) then gettoken;; r ← parsepipe n; node (PIPE c r) else mret c
  end
with parseexec (n : nat) : P cmd :=
  match n with
  | O => λ _, NoFuel
  | S n =>
      b ← peek (chars "(");
      if (b : bool) then parseblock n
      else ret ← node (EXEC []); ret ← parseredirs n ret; parseexec_loop n [] ret
  end
with parseblock (n : nat) : P cmd :=
  match n with
  | O => λ _, NoFuel
  | S n =>
      b ← peek (chars "(");
      if negb b then panic "parseblock"
      else
        gettoken;;
        c ← parseline n;
        b ← peek (chars ")");
        if negb b then panic "syntax - missing )" else gettoken;; parseredirs n c
  end.
End parser.

(** [*p = 0] *)
Definition put_nul (p : nat) (buf : list Z) : list Z := <[p := 0]> buf.
(** NUL behind every string; [buf] is the line and its NUL. *)
Fixpoint nulterminate (c : cmd) (buf : list Z) : list Z :=
  match c with
  | EXEC argv => fold_left (λ buf a, put_nul (snd a) buf) argv buf
  | REDIR c file _ _ => put_nul file.2 (nulterminate c buf)
  | PIPE l r | LIST l r => nulterminate r (nulterminate l buf)
  | BACK c => nulterminate c buf
  end.
(** The tree, and where the parser stopped. *)
Definition parse (fuel malloc_left : nat) (line : list Z) : outcome (cmd * nat) :=
  match (c ← parseline line fuel; peek line []%list;; st ← get; mret (c, ps st)) (Pst 0 malloc_left) with
  | Done (r, _) => Done r
  | Panic e => Panic e
  | NoFuel => NoFuel
  end.
(** The tree and the buffer. *)
Definition parsecmd (fuel malloc_left : nat) (line : list Z) : outcome (cmd * list Z) :=
  '(c, s) ← parse fuel malloc_left line;
  if Nat.eqb s (es line) then Done (c, nulterminate c (line ++ [0])) else Panic "syntax".

(** ** What runs *)
Definition panic_exit (s : string) : proc := fprintf 2 (line "%s") [str_arg (chars s)] (Exit 1).
Definition fork1 (k : Z → proc) : proc := Fork (λ pid, if pid =? -1 then panic_exit "fork" else k pid).

Section runcmd.
Context (buf : list Z).
Fixpoint until_nul (l : list Z) : list Z :=
  match l with [] => [] | c :: l => if c =? 0 then [] else c :: until_nul l end.
Definition str (p : nat) : list Z := until_nul (drop p buf).

Fixpoint runcmd (c : cmd) : proc :=
  match c with
  | EXEC [] => Exit 1
  | EXEC (((p, _) :: _) as argv) =>
      Execve (str p) (str ∘ fst <$> argv) (fprintf 2 (line "exec %s failed") [str_arg (str p)] (Exit 0))
  | REDIR c (p, _) mode fd =>
      Close fd (Open (str p) mode (λ r,
        if r <? 0 then fprintf 2 (line "open %s failed") [str_arg (str p)] (Exit 1) else runcmd c))
  | LIST l r => fork1 (λ pid, if pid =? 0 then runcmd l else Wait (λ _, runcmd r))
  | PIPE l r =>
      Pipe2 (λ rc p0 p1,
        if rc <? 0 then panic_exit "pipe"
        else
          fork1 (λ pid,
            if pid =? 0 then Close 1 (Dup p1 (Close p0 (Close p1 (runcmd l))))
            else
              fork1 (λ pid,
                if pid =? 0 then Close 0 (Dup p0 (Close p0 (Close p1 (runcmd r))))
                else Close p0 (Close p1 (Wait (λ _, Wait (λ _, Exit 0)))))))
  | BACK c => fork1 (λ pid, if pid =? 0 then runcmd c else Exit 0)
  end.
End runcmd.

(** ** The loop over lines *)

(** The string in the buffer, [None] at the end of the input. *)
Definition getcmd (k : option (list Z) → proc) : proc :=
  fprintf 2 "$ " [] (gets 100 (λ l, match until_nul l with [] => k None | s => k (Some s) end)).
(** [runcmd(parsecmd(buf))] with the messages of the parser. *)
Definition child (fuel malloc_left : nat) (line : list Z) : proc :=
  match parse fuel malloc_left line with
  | Done (_, s) =>
      match parsecmd fuel malloc_left line with
      | Done (c, buf) => runcmd buf c
      | _ => fprintf 2 (User.line "leftovers: %s") [str_arg (drop s line)] (panic_exit "syntax")
      end
  | Panic e => if String.eqb e "memset" then Fault else panic_exit e
  | NoFuel => Forever
  end.
Fixpoint main_loop (n fuel malloc_left : nat) : proc :=
  match n with
  | O => Forever
  | S n =>
      getcmd (λ line,
        match line with
        | None => Exit 0
        | Some line =>
            if bool_decide (take 3 line = chars "cd ") then
              let path := drop 3 (removelast line) in
              Chdir path (λ r,
                if r <? 0 then fprintf 2 (User.line "cannot cd %s") [str_arg path] (main_loop n fuel malloc_left)
                else main_loop n fuel malloc_left)
            else fork1 (λ pid, if pid =? 0 then child fuel malloc_left line else Wait (λ _, main_loop n fuel malloc_left))
        end)
  end.
(** [while ((fd = open("/dev/tty", O_RDWR)) >= 0) ...] *)
Fixpoint open_tty (n : nat) (k : proc) : proc :=
  match n with
  | O => Forever
  | S n => Open (chars "/dev/tty") O_RDWR (λ fd, if fd <? 0 then k else if 3 <=? fd then Close fd k else open_tty n k)
  end.
Definition main (n fuel malloc_left : nat) : proc := open_tty n (main_loop n fuel malloc_left).
