(* ===== verification/ShellProps.v ===== *)
(** * The shell: its grammar, and what a line runs

    [spells]: the characters of a sequence of tokens, with any blanks between
    them.  [G]: the grammar.  The parser gives the tree of every line that spells
    a sentence, and stops on every line.  [den]: the programs a command runs and
    the descriptors they start with. *)
From S2P Require Import Prelude User Shell.

(** ** Tokens *)
Inductive tok := TOp (c : Z) | TApp | TWord (w : list Z).
Definition is_white (c : Z) : Prop := strchr whitespace c = true.
Definition is_plain (c : Z) : Prop := c ≠ 0 ∧ plain c = true.
Definition is_op (c : Z) : Prop := strchr (chars "|();&<>") c = true.
(** No character of a word is at the front. *)
Definition breaks (l : list Z) : Prop := match l with [] => True | c :: _ => plain c = false end.
Definition not_white (l : list Z) : Prop := match l with [] => True | c :: _ => strchr whitespace c = false end.

Inductive spells : list Z → list tok → Prop :=
| sp_end ws : Forall is_white ws → spells ws []
| sp_op ws c l ts : Forall is_white ws → is_op c → (c = 62 → hd 0 l ≠ 62) → spells l ts → spells (ws ++ c :: l) (TOp c :: ts)
| sp_app ws l ts : Forall is_white ws → spells l ts → spells (ws ++ 62 :: 62 :: l) (TApp :: ts)
| sp_word ws w l ts : Forall is_white ws → w ≠ [] → Forall is_plain w → breaks l → spells l ts →
    spells (ws ++ w ++ l) (TWord w :: ts).
(** The same without the blanks in front. *)
Inductive bare : list Z → list tok → Prop :=
| ba_end : bare [] []
| ba_op c l ts : is_op c → (c = 62 → hd 0 l ≠ 62) → spells l ts → bare (c :: l) (TOp c :: ts)
| ba_app l ts : spells l ts → bare (62 :: 62 :: l) (TApp :: ts)
| ba_word w l ts : w ≠ [] → Forall is_plain w → breaks l → spells l ts → bare (w ++ l) (TWord w :: ts).

Lemma strchr_elem l c : strchr l c = true → c ∈ l.
Proof. unfold strchr. intros (x & Hin & ->%Z.eqb_eq)%existsb_exists. by apply list_elem_of_In. Qed.
Lemma op_symbol c : is_op c → strchr symbols c = true ∧ strchr whitespace c = false ∧ c ≠ 0.
Proof.
  intros H%strchr_elem. change (chars "|();&<>") with [124; 40; 41; 59; 38; 60; 62] in H.
  repeat (apply elem_of_cons in H as [->|H]; [done|]). by apply not_elem_of_nil in H.
Qed.
Lemma plain_symbol c : is_plain c → strchr symbols c = false ∧ strchr whitespace c = false.
Proof. unfold is_plain, plain. intros [_ H]. by destruct (strchr whitespace c), (strchr symbols c). Qed.
Lemma not_symbol c : strchr symbols c = false → existsb (Z.eqb c) (chars "|();&<") = false ∧ c ≠ 62.
Proof.
  unfold strchr. change symbols with [60; 124; 62; 38; 59; 40; 41]. change (chars "|();&<") with [124; 40; 41; 59; 38; 60].
  cbn [existsb]. intros H. repeat (apply orb_false_iff in H as [? H]). split; [|by apply Z.eqb_neq].
  by repeat (apply orb_false_iff; split).
Qed.
Lemma bare_spells l ts : bare l ts → spells l ts.
Proof.
  intros []; [by apply (sp_end [])|by apply (sp_op [])|by apply (sp_app [])|by apply (sp_word [])].
Qed.
Lemma bare_not_white l ts : bare l ts → not_white l.
Proof.
  intros [|c l' ts' (_ & Hw & _)%op_symbol|l' ts'|[|c w] l' ts' Hne Hw Hb Hs]; cbn; try done.
  apply Forall_cons in Hw as [(_ & H)%plain_symbol _]. done.
Qed.
Lemma spells_bare l ts : spells l ts → ∃ ws l', l = ws ++ l' ∧ Forall is_white ws ∧ bare l' ts.
Proof.
  intros [ws Hw|ws c l' ts' Hw|ws l' ts' Hw|ws w l' ts' Hw]; exists ws.
  - exists []. rewrite app_nil_r. split_and!; [done..|constructor].
  - exists (c :: l'). split_and!; [done..|by constructor].
  - eexists. split_and!; [done..|by constructor].
  - eexists. split_and!; [done..|by constructor].
Qed.

(** ** Skipping *)
Section line.
Context (line : list Z).
Abbreviation ch := (ch line).
Abbreviation es := (es line).

Lemma ch_drop s : ch s = hd 0 (drop s line).
Proof.
  unfold Shell.ch. revert s. induction line as [|c l IH]; intros [|s]; cbn; [done..|]. apply IH.
Qed.
Lemma drop_cons s c l : drop s line = c :: l → drop (S s) line = l ∧ (s < es)%nat.
Proof.
  intros E. split.
  - replace (S s) with (s + 1)%nat by lia. by rewrite <- drop_drop, E.
  - destruct (decide (s < es)%nat); [done|]. rewrite drop_ge in E; [done|]. unfold Shell.es in n. lia.
Qed.
Lemma drop_split s w l : drop s line = w ++ l → drop (s + length w) line = l.
Proof. intros E. rewrite <- drop_drop, E. apply drop_app_length. Qed.
Lemma split_bound s w l : (s ≤ es)%nat → drop s line = w ++ l → (s + length w ≤ es)%nat.
Proof. intros Hs E. apply (f_equal length) in E. rewrite length_drop, length_app in E. unfold Shell.es in *. lia. Qed.

Lemma skip_run (p : Z → bool) n s w l : drop s line = w ++ l → Forall (λ c, p c = true) w →
  match l with [] => True | c :: _ => p c = false end → (length w ≤ n)%nat → skip line p n s = (s + length w)%nat.
Proof.
  intros E Hw Hl. revert n s E. induction Hw as [|c w Hc Hw IH]; intros n s E Hn.
  - cbn [length]. rewrite Nat.add_0_r. destruct n as [|n]; cbn [skip]; [done|]. rewrite ch_drop, E. destruct l as [|c l]; cbn [app hd].
    + rewrite (proj2 (Nat.ltb_ge _ _)); [done|]. apply (f_equal length) in E. rewrite length_drop in E. cbn in E.
      unfold Shell.es. lia.
    + by rewrite Hl, andb_false_r.
  - destruct n as [|n]; cbn in Hn; [lia|]. cbn [skip]. rewrite ch_drop, E. cbn [app hd]. rewrite Hc.
    destruct (drop_cons s c (w ++ l) E) as [E' Hlt]. rewrite (proj2 (Nat.ltb_lt _ _) Hlt). cbn [andb].
    rewrite IH by (done || lia). cbn. lia.
Qed.
Lemma skip_white_run s ws l : (s ≤ es)%nat → drop s line = ws ++ l → Forall is_white ws → not_white l →
  skip_white line s = (s + length ws)%nat.
Proof.
  intros Hs E Hw Hl. unfold skip_white. apply (skip_run _ _ _ _ l); [done..|].
  pose proof (split_bound s ws l Hs E). unfold Shell.es in *. lia.
Qed.

(** ** The position, and the tokens from there *)
Definition at_ (s : nat) (ts : list tok) : Prop := (s ≤ es)%nat ∧ spells (drop s line) ts.
Definition at_bare (s : nat) (ts : list tok) : Prop := (s ≤ es)%nat ∧ bare (drop s line) ts.
Lemma at_skip s ts : at_ s ts → at_bare (skip_white line s) ts.
Proof.
  intros (Hs & (ws & l & E & Hw & Hb)%spells_bare).
  rewrite (skip_white_run s ws l Hs E Hw (bare_not_white _ _ Hb)). split.
  - exact (split_bound _ _ _ Hs E).
  - by rewrite (drop_split _ _ _ E).
Qed.
Lemma at_bare_at s ts : at_bare s ts → at_ s ts.
Proof. intros (Hs & H). split; [done|by apply bare_spells]. Qed.

(** A word, by its place in the line. *)
Definition slice_is (a : slice) (w : list Z) : Prop :=
  drop a.1 line = w ++ drop a.2 line ∧ (a.2 = a.1 + length w)%nat ∧ (a.2 ≤ es)%nat ∧
  w ≠ [] ∧ Forall is_plain w ∧ breaks (drop a.2 line).

Definition code (ts : list tok) : Z := match ts with [] => 0 | TOp c :: _ => c | TApp :: _ => 43 | TWord _ :: _ => 97 end.
Lemma gettoken_run st ts : at_ (ps st) ts →
  ∃ a s, gettoken line st = Done ((code ts, a), Pst s (malloc_left st)) ∧ at_ s (tail ts) ∧
    (∀ w ts', ts = TWord w :: ts' → slice_is a w).
Proof.
  intros (Hs & Hb)%at_skip. unfold gettoken, set_ps. unfold_M. rewrite !ch_drop. set (q := skip_white line (ps st)) in *.
  inversion Hb as [E|c l ts' Hop Happ Hsp E|l ts' Hsp E|w l ts' Hne Hw Hbr Hsp E].
  - cbn [hd]. eexists _, _. split; [done|]. split; [|done]. apply at_bare_at, at_skip. split; [done|].
    rewrite <- E. by apply (sp_end []).
  - symmetry in E. cbn [hd]. destruct (drop_cons q c l E) as [E1 Hlt].
    destruct (op_symbol c Hop) as (_ & _ & Hnz). rewrite (proj2 (Z.eqb_neq _ _) Hnz).
    assert (at_ (S q) ts') as Hat by (split; [lia|by rewrite E1]).
    apply strchr_elem in Hop. change (chars "|();&<>") with [124; 40; 41; 59; 38; 60; 62] in Hop. destruct (decide (c = 62)) as [->|Hn].
    + cbn [existsb Z.eqb]. change (existsb (Z.eqb 62) (chars "|();&<")) with false. change (62 =? 62) with true. cbn iota.
      rewrite E1, (proj2 (Z.eqb_neq _ _) (Happ eq_refl)).
      eexists _, _. split; [done|]. split; [|done]. by apply at_bare_at, at_skip.
    + assert (existsb (Z.eqb c) (chars "|();&<") = true) as ->.
      { repeat (apply elem_of_cons in Hop as [->|Hop]; [done|]). by apply not_elem_of_nil in Hop. }
      eexists _, _. split; [done|]. split; [|done]. by apply at_bare_at, at_skip.
  - symmetry in E. cbn [hd]. destruct (drop_cons q _ _ E) as [E1 Hlt]. destruct (drop_cons _ _ _ E1) as [E2 Hlt2].
    change (62 =? 0) with false. change (existsb (Z.eqb 62) (chars "|();&<")) with false. change (62 =? 62) with true. cbn iota.
    rewrite E1. cbn [hd]. change (62 =? 62) with true. cbn iota.
    eexists _, _. split; [done|]. split; [|done]. apply at_bare_at, at_skip. split; [lia|by rewrite E2].
  - symmetry in E. destruct w as [|c w]; [done|]. cbn [hd app].
    pose proof (proj1 (Forall_inv Hw)) as Hnz. pose proof (proj1 (plain_symbol c (Forall_inv Hw))) as Hsym.
    rewrite (proj2 (Z.eqb_neq _ _) Hnz).
    destruct (not_symbol c Hsym) as [-> Hgt]. rewrite (proj2 (Z.eqb_neq _ _) Hgt).
    assert (skip line plain (es - q) q = (q + length (c :: w))%nat) as ->.
    { apply (skip_run _ _ _ _ l); [done| |by destruct l|].
      - eapply Forall_impl; [exact Hw|]. by intros x [_ Hx].
      - pose proof (split_bound q (c :: w) l Hs E). lia. }
    pose proof (split_bound q (c :: w) l Hs E) as Hle. pose proof (drop_split q (c :: w) l E) as El.
    eexists _, _. split; [done|]. split.
    + apply at_bare_at, at_skip. split; [done|by rewrite El].
    + intros w' ts'' [= <- <-]. split_and!; cbn [fst snd]; rewrite ?El; done.
Qed.

Definition head_in (l : list Z) (ts : list tok) : bool :=
  match ts with TOp c :: _ => strchr l c | TApp :: _ => strchr l 62 | _ => false end.
Lemma peek_run l st ts : at_ (ps st) ts → forallb (strchr symbols) l = true →
  ∃ s, peek line l st = Done (head_in l ts, Pst s (malloc_left st)) ∧ at_ s ts.
Proof.
  intros Hat%at_skip Hl. exists (skip_white line (ps st)). split; [|by apply at_bare_at].
  destruct Hat as (_ & Hb). unfold peek, set_ps. unfold_M. rewrite !ch_drop.
  assert (negb (hd 0 (drop (skip_white line (ps st)) line) =? 0) && strchr l (hd 0 (drop (skip_white line (ps st)) line))
          = head_in l ts) as ->; [|done].
  inversion Hb as [|c l' ts' Hop| |w l' ts' Hne Hw]; cbn [hd head_in]; [done| |done|].
  - destruct (op_symbol c Hop) as (_ & _ & Hnz). by rewrite (proj2 (Z.eqb_neq _ _) Hnz).
  - destruct w as [|c w]; [done|]. cbn [app hd]. pose proof (proj1 (plain_symbol c (Forall_inv Hw))) as Hsym.
    apply andb_false_iff. right. apply not_true_iff_false. intros Hin%strchr_elem.
    rewrite (proj1 (forallb_forall _ _) Hl c) in Hsym; [done|by apply list_elem_of_In].
Qed.

(** ** The grammar *)
Inductive rk := Rin | Rout | Rapp.
Inductive scmd :=
| SExec (argv : list (list Z))
| SRedir (c : scmd) (k : rk) (file : list Z)
| SPipe (l r : scmd)
| SList (l r : scmd)
| SBack (c : scmd).
Inductive item := IWord (w : list Z) | IRedir (k : rk) (f : list Z).
Definition rtok (k : rk) : tok := match k with Rin => TOp 60 | Rout => TOp 62 | Rapp => TApp end.
Definition item_toks (i : item) : list tok := match i with IWord w => [TWord w] | IRedir k f => [rtok k; TWord f] end.
Definition words (its : list item) : list (list Z) := omap (λ i, match i with IWord w => Some w | _ => None end) its.
Definition wrap (c : scmd) (its : list item) : scmd :=
  fold_left (λ c i, match i with IWord _ => c | IRedir k f => SRedir c k f end) its c.
Definition is_redir (i : item) : bool := match i with IWord _ => false | _ => true end.

Inductive level := Exec | Pipe | Back | Line.
Inductive G : level → list tok → scmd → Prop :=
| g_exec its : (length (words its) < MAXARGS)%nat → G Exec (its ≫= item_toks) (wrap (SExec (words its)) its)
| g_block ts c its : forallb is_redir its = true → G Line ts c →
    G Exec (TOp 40 :: ts ++ TOp 41 :: (its ≫= item_toks)) (wrap c its)
| g_pipe1 ts c : G Exec ts c → G Pipe ts c
| g_pipe ts1 ts2 a b : G Exec ts1 a → G Pipe ts2 b → G Pipe (ts1 ++ TOp 124 :: ts2) (SPipe a b)
| g_back1 ts c : G Pipe ts c → G Back ts c
| g_back ts c : G Back ts c → G Back (ts ++ [TOp 38]) (SBack c)
| g_line1 ts c : G Back ts c → G Line ts c
| g_line ts1 ts2 a b : G Back ts1 a → G Line ts2 b → G Line (ts1 ++ TOp 59 :: ts2) (SList a b).

(** A tree of the parser for a tree of the grammar. *)
Definition mode_of (k : rk) : Z := match k with Rin => O_RDONLY | Rout => 0x441 | Rapp => 0x41 end.
Definition fd_of (k : rk) : Z := match k with Rin => 0 | _ => 1 end.
Inductive tree : cmd → scmd → Prop :=
| t_exec argv ws : Forall2 slice_is argv ws → tree (EXEC argv) (SExec ws)
| t_redir t c file k f : tree t c → slice_is file f → tree (REDIR t file (mode_of k) (fd_of k)) (SRedir c k f)
| t_pipe t1 t2 a b : tree t1 a → tree t2 b → tree (PIPE t1 t2) (SPipe a b)
| t_list t1 t2 a b : tree t1 a → tree t2 b → tree (LIST t1 t2) (SList a b)
| t_back t c : tree t c → tree (BACK t) (SBack c).
Fixpoint nodes (c : scmd) : nat :=
  match c with SExec _ => 1 | SRedir c _ _ | SBack c => S (nodes c) | SPipe a b | SList a b => S (nodes a + nodes b) end.

(** ** Redirections and arguments *)

(** [c] run from [st] at tokens [ts] gives [r], and [ts'] and [n] blocks are left. *)
Definition runs_to {A} (c : P A) (st : pst) (r : A → Prop) (ts' : list tok) (n : nat) : Prop :=
  ∃ a s, c st = Done (a, Pst s n) ∧ r a ∧ at_ s ts'.
Definition no_redir (ts : list tok) : Prop := head_in (chars "<>") ts = false.
Definition n_redirs (its : list item) : nat := length (List.filter is_redir its).

Lemma redir_run t c k file f n : tree t c → slice_is file f → ∀ s,
  redir t (code [rtok k]) file (Pst s (S n)) = Done (REDIR t file (mode_of k) (fd_of k), Pst s n).
Proof. intros _ _ s. by destruct k. Qed.
Lemma parseredirs_run its ts c : forallb is_redir its = true → no_redir ts →
  ∀ fuel t st n, (length its < fuel)%nat → at_ (ps st) ((its ≫= item_toks) ++ ts) → tree t c →
  malloc_left st = (length its + n)%nat →
  runs_to (parseredirs line fuel t) st (λ t', tree t' (wrap c its)) ts n.
Proof.
  intros Hits Hts. revert c. induction its as [|[w|k f] its IH]; intros c fuel t st n Hf Hat Ht Hm; [| done|];
    (destruct fuel as [|fuel]; [cbn in Hf; lia|]); unfold runs_to; cbn [parseredirs].
  - destruct (peek_run (chars "<>") st ts Hat eq_refl) as (s & E & Hat'). step E. rewrite Hts.
    exists t, s. rewrite Hm. done.
  - cbn [mbind list_bind item_toks app] in Hat.
    destruct (peek_run (chars "<>") st _ Hat eq_refl) as (s1 & E1 & Hat1). step E1.
    assert (head_in (chars "<>") (rtok k :: TWord f :: (its ≫= item_toks) ++ ts) = true) as -> by by destruct k.
    destruct (gettoken_run (Pst s1 (malloc_left st)) _ Hat1) as (a & s2 & E2 & Hat2 & _).
    assert (code (rtok k :: TWord f :: (its ≫= item_toks) ++ ts) = code [rtok k]) as Ek by by destruct k.
    rewrite Ek in E2. step E2.
    destruct (gettoken_run (Pst s2 (malloc_left st)) _ Hat2) as (file & s3 & E3 & Hat3 & Hfile). step E3.
    cbn [tail] in *. change (code (TWord f :: _)) with 97. change (negb (97 =? 97)) with false. cbn iota.
    pose proof (Hfile _ _ eq_refl) as Hslice. cbn [malloc_left] in *. rewrite Hm. cbn [length Nat.add].
    step (redir_run t c k file f (length its + n) Ht Hslice s3).
    cbn [wrap fold_left]. cbn in Hf, Hits. apply (IH Hits (SRedir c k f)); [lia|done|by constructor|done].
Qed.

Lemma wrap_snoc c its i : wrap c (its ++ [i]) = match i with IWord _ => wrap c its | IRedir k f => SRedir (wrap c its) k f end.
Proof. unfold wrap. rewrite fold_left_app. by destruct i. Qed.
Lemma wrap_app c its1 its2 : wrap c (its1 ++ its2) = wrap (wrap c its1) its2.
Proof. apply fold_left_app. Qed.
Lemma put_argv_tree argv ws its ret : Forall2 slice_is argv ws → tree ret (wrap (SExec []) its) →
  tree (put_argv argv ret) (wrap (SExec ws) its).
Proof.
  intros Ha. revert ret. induction its as [|[w|k f] its IH] using rev_ind; intros ret Ht.
  - inversion Ht; subst. by constructor.
  - rewrite wrap_snoc in *. by apply IH.
  - rewrite wrap_snoc in *. inversion Ht; subst. cbn [put_argv]. constructor; [by apply IH|done].
Qed.
(** Redirections, then nothing or a word. *)
Lemma split_redirs its : ∃ rs rest, its = rs ++ rest ∧ forallb is_redir rs = true ∧
  (rest = [] ∨ ∃ w its', rest = IWord w :: its').
Proof.
  induction its as [|[w|k f] its (rs & rest & E & Hrs & Hrest)].
  - exists [], []. auto.
  - exists [], (IWord w :: its). eauto 6.
  - exists (IRedir k f :: rs), rest. rewrite E. auto.
Qed.
Lemma words_redirs rs : forallb is_redir rs = true → words rs = [] ∧ n_redirs rs = length rs.
Proof.
  unfold words, n_redirs. induction rs as [|[w|k f] rs IH]; cbn; [done..|]. intros H. destruct (IH H) as [E1 E2].
  by rewrite E2.
Qed.
Lemma words_app l1 l2 : words (l1 ++ l2) = words l1 ++ words l2.
Proof. apply omap_app. Qed.
Lemma n_redirs_app l1 l2 : n_redirs (l1 ++ l2) = (n_redirs l1 + n_redirs l2)%nat.
Proof. unfold n_redirs. by rewrite List.filter_app, length_app. Qed.

Definition ends_exec (ts : list tok) : Prop := head_in (chars "|)&;") ts = true ∨ ts = [].
Lemma ends_exec_no_redir ts : ends_exec ts → no_redir ts.
Proof.
  unfold ends_exec, no_redir. intros [H| ->]; [|done]. destruct ts as [|[c| |w] ts]; [done| |done..]. cbn [head_in] in *.
  apply strchr_elem in H. change (chars "|)&;") with [124; 41; 38; 59] in H.
  repeat (apply elem_of_cons in H as [->|H]; [done|]). by apply not_elem_of_nil in H.
Qed.
Lemma M_bind_assoc_run {A B} (c : P A) (f : A → P B) st a st' : c st = Done (a, st') → (c ≫= f) st = f a st'.
Proof. apply M_bind_Done. Qed.

Lemma exec_items_run ts : ends_exec ts → ∀ m its its0 ws0 argv ret fuel st n, (length its ≤ m)%nat → (length its < fuel)%nat →
  at_ (ps st) ((its ≫= item_toks) ++ ts) → tree ret (wrap (SExec []) its0) → Forall2 slice_is argv ws0 →
  (length ws0 + length (words its) < MAXARGS)%nat → malloc_left st = (n_redirs its + n)%nat →
  runs_to (ret ← parseredirs line fuel ret; parseexec_loop line fuel argv ret) st
    (λ t, tree t (wrap (SExec (ws0 ++ words its)) (its0 ++ its))) ts n.
Proof.
  intros Hend. induction m as [|m IH]; intros its its0 ws0 argv ret fuel st n Hm Hf Hat Ht Hargv Hmax Hleft.
  all: destruct (split_redirs its) as (rs & rest & -> & Hrs & Hrest); destruct (words_redirs rs Hrs) as [Hw Hn].
  all: rewrite bind_app, <- (assoc_L (++)) in Hat; rewrite n_redirs_app, Hn in Hleft; rewrite words_app, Hw in *; cbn [app] in *.
  all: rewrite length_app in *.
  all: assert (no_redir ((rest ≫= item_toks) ++ ts)) as Hno
      by (destruct Hrest as [->|(w & its' & ->)]; [by apply ends_exec_no_redir|done]).
  all: destruct (parseredirs_run rs _ _ Hrs Hno fuel ret st (n_redirs rest + n)%nat ltac:(lia) Hat Ht ltac:(lia))
    as (ret1 & s1 & E1 & Ht1 & Hat1); unfold runs_to; step E1; rewrite <- wrap_app in Ht1.
  all: destruct fuel as [|fuel]; [lia|]; cbn [parseexec_loop].
  all: destruct (peek_run (chars "|)&;") (Pst s1 (n_redirs rest + n)) _ Hat1 eq_refl) as (s2 & E2 & Hat2); step E2.
  all: destruct Hrest as [->|(w & its' & ->)]; [|first [cbn in Hm; lia|idtac]].
  1,2: cbn [mbind list_bind app n_redirs List.filter length Nat.add] in *; rewrite !app_nil_r.
  1,2: destruct Hend as [Hh| ->]; [rewrite Hh; eexists _, s2; split; [done|]; split; [by apply put_argv_tree|done]|].
  1,2: cbn [head_in malloc_left]; destruct (gettoken_run (Pst s2 n) [] Hat2) as (a & s3 & E3 & Hat3 & _); step E3;
       eexists _, s3; split; [done|]; split; [by apply put_argv_tree|done].
  cbn [mbind list_bind item_toks app head_in malloc_left] in *.
  destruct (gettoken_run (Pst s2 (n_redirs (IWord w :: its') + n)) _ Hat2) as (a & s3 & E3 & Hat3 & Hslice). step E3.
  change (code (TWord w :: _)) with 97. change (97 =? 0) with false. change (negb (97 =? 97)) with false. cbn iota zeta.
  pose proof (Hslice _ _ eq_refl) as Ha. cbn [tail] in Hat3.
  assert (Forall2 slice_is (argv ++ [a]) (ws0 ++ [w])) as Hargv' by (apply Forall2_app; [done|by constructor]).
  pose proof (Forall2_length _ _ _ Hargv') as Hlen. rewrite length_app in Hlen.
  change (words (IWord w :: its')) with (w :: words its') in *. change (n_redirs (IWord w :: its')) with (n_redirs its') in *.
  cbn [length] in *.
  rewrite (proj2 (Nat.leb_gt _ _)) by (rewrite length_app; cbn [length]; rewrite length_app in Hlen; cbn [length] in Hlen; lia).
  destruct (IH its' (its0 ++ rs ++ [IWord w]) (ws0 ++ [w]) (argv ++ [a]) ret1 fuel (Pst s3 (n_redirs its' + n)) n)
    as (t & s4 & E4 & Ht4 & Hat4).
  - lia.
  - lia.
  - done.
  - rewrite (assoc_L (++)), wrap_snoc. done.
  - done.
  - rewrite length_app. cbn [length]. lia.
  - done.
  - exists t, s4. split; [exact E4|]. split; [|done]. rewrite <- !(assoc_L (++)) in Ht4. exact Ht4.
Qed.

(** ** The parser accepts the grammar *)
Definition ends_pipe (ts : list tok) : Prop := head_in (chars ")&;") ts = true ∨ ts = [].
Definition ends_line (ts : list tok) : Prop := head_in (chars ")") ts = true ∨ ts = [].
(** A test of the next token that what may follow decides. *)
Lemma ends_next l1 l2 ts : forallb (λ c, strchr l2 c) l1 = true →
  head_in l1 ts = true ∨ ts = [] → head_in l2 ts = true ∨ ts = [].
Proof.
  intros Hl [H| ->]; [left|by right]. destruct ts as [|[c| |w] ts]; [done| | |done]; cbn [head_in] in *;
    apply strchr_elem, list_elem_of_In in H; exact (proj1 (forallb_forall _ _) Hl _ H).
Qed.
Lemma ends_not l1 l2 ts : forallb (λ c, negb (strchr l2 c)) l1 = true →
  head_in l1 ts = true ∨ ts = [] → head_in l2 ts = false.
Proof.
  intros Hl [H| ->]; [|done]. destruct ts as [|[c| |w] ts]; [done| | |done]; cbn [head_in] in *;
    apply strchr_elem, list_elem_of_In in H; apply negb_true_iff; exact (proj1 (forallb_forall _ _) Hl _ H).
Qed.

Definition need (lv : level) (ts : list tok) : nat :=
  (4 * length ts + match lv with Exec => 2 | Pipe | Back => 3 | Line => 4 end)%nat.
Definition parses_at (run : nat → P cmd) (ends : list tok → Prop) (lv : level) ts c : Prop :=
  ∀ n st rest k, (need lv ts ≤ n)%nat → ends rest → at_ (ps st) (ts ++ rest) → malloc_left st = (nodes c + k)%nat →
    runs_to (run n) st (λ t, tree t c) rest k.
Definition parses (lv : level) (ts : list tok) (c : scmd) : Prop :=
  match lv with
  | Exec => parses_at (parseexec line) ends_exec lv ts c
  | Pipe => parses_at (parsepipe line) ends_pipe lv ts c
  | Line => parses_at (parseline line) ends_line lv ts c
  | Back => ∀ n m st rest k, (need lv ts ≤ n)%nat → (length ts < m)%nat → ends_pipe rest → at_ (ps st) (ts ++ rest) →
      malloc_left st = (nodes c + k)%nat →
      ∃ t s m', (c ← parsepipe line n; back_loop line m c) st = back_loop line m' t (Pst s k) ∧
        tree t c ∧ at_ s rest ∧ (m ≤ m' + length ts)%nat
  end.

Lemma bind_regroup {A B C} (c : P A) (f : A → P B) (g : B → P C) st r :
  (c ≫= f) st = Done r → (x ← c; y ← f x; g y) st = g r.1 r.2.
Proof. unfold mbind, M_bind. destruct (c st) as [[a st1]|e|]; [|done..]. intros ->. by destruct r. Qed.
Lemma nodes_wrap c its : nodes (wrap c its) = (nodes c + n_redirs its)%nat.
Proof.
  unfold n_redirs. induction its as [|i its IH] using rev_ind; [cbn; lia|]. rewrite wrap_snoc, List.filter_app, length_app.
  destruct i; cbn; rewrite IH; lia.
Qed.
Lemma items_length its : (length its ≤ length (its ≫= item_toks))%nat.
Proof. induction its as [|[w|k f] its IH]; cbn in *; lia. Qed.

Lemma parses_exec its : (length (words its) < MAXARGS)%nat → parses Exec (its ≫= item_toks) (wrap (SExec (words its)) its).
Proof.
  intros Hmax n st rest k Hn Hend Hat Hleft. unfold runs_to. rewrite nodes_wrap in Hleft. cbn [nodes] in Hleft.
  pose proof (items_length its). unfold need in Hn. destruct n as [|n]; [lia|]. cbn [parseexec].
  destruct (peek_run (chars "(") st _ Hat eq_refl) as (s1 & E1 & Hat1). step E1.
  assert (head_in (chars "(") ((its ≫= item_toks) ++ rest) = false) as ->.
  { destruct its as [|[w|[] f] its]; [|done..]. by apply (ends_not (chars "|)&;")). }
  cbn [malloc_left]. rewrite Hleft. cbn [Nat.add]. erewrite M_bind_Done by reflexivity.
  destruct (exec_items_run rest Hend (length its) its [] [] [] (EXEC []) n (Pst s1 (n_redirs its + k)) k) as (t & s & E & Ht & Hs);
    [lia|lia|done|by repeat constructor|done|done|done|]. exists t, s. done.
Qed.
Lemma parses_block ts c its : forallb is_redir its = true → parses Line ts c →
  parses Exec (TOp 40 :: ts ++ TOp 41 :: (its ≫= item_toks)) (wrap c its).
Proof.
  intros Hits IH n st rest k Hn Hend Hat Hleft. unfold runs_to. rewrite nodes_wrap in Hleft.
  rewrite (proj2 (words_redirs its Hits)) in Hleft. cbn [app] in Hat. rewrite <- (assoc_L (++)) in Hat. cbn [app] in Hat.
  pose proof (items_length its). unfold need in Hn. cbn [length] in Hn. rewrite length_app in Hn. cbn [length] in Hn.
  destruct n as [|[|n]]; [lia..|]. cbn [parseexec].
  destruct (peek_run (chars "(") st _ Hat eq_refl) as (s1 & E1 & Hat1). step E1. cbn [head_in].
  change (strchr (chars "(") 40) with true. cbn iota. cbn [parseblock].
  destruct (peek_run (chars "(") (Pst s1 (malloc_left st)) _ Hat1 eq_refl) as (s2 & E2 & Hat2). step E2. cbn [head_in].
  change (negb (strchr (chars "(") 40)) with false. cbn iota.
  destruct (gettoken_run (Pst s2 (malloc_left st)) _ Hat2) as (a & s3 & E3 & Hat3 & _). step E3. cbn [tail malloc_left] in *.
  destruct (IH n (Pst s3 (malloc_left st)) (TOp 41 :: (its ≫= item_toks) ++ rest) (length its + k)%nat) as (t & s4 & E4 & Ht & Hat4);
    [unfold need; lia|by left|done|cbn; lia|]. step E4.
  destruct (peek_run (chars ")") (Pst s4 (length its + k)) _ Hat4 eq_refl) as (s5 & E5 & Hat5). step E5. cbn [head_in].
  change (negb (strchr (chars ")") 41)) with false. cbn iota. cbn [malloc_left].
  destruct (gettoken_run (Pst s5 (length its + k)) _ Hat5) as (a' & s6 & E6 & Hat6 & _). step E6. cbn [tail malloc_left] in *.
  exact (parseredirs_run its rest c Hits (ends_exec_no_redir _ Hend) n t (Pst s6 (length its + k)) k ltac:(lia) Hat6 Ht eq_refl).
Qed.

Lemma parses_pipe1 ts c : parses Exec ts c → parses Pipe ts c.
Proof.
  intros IH n st rest k Hn Hend Hat Hleft. unfold runs_to, need in *. destruct n as [|n]; [lia|]. cbn [parsepipe].
  destruct (IH n st rest k) as (t & s & E & Ht & Hs); [unfold need; lia|by apply (ends_next (chars ")&;"))|done..|]. step E.
  destruct (peek_run (chars "|") (Pst s k) _ Hs eq_refl) as (s1 & E1 & Hat1). step E1.
  rewrite (ends_not (chars ")&;") (chars "|") rest eq_refl Hend). by exists t, s1.
Qed.
Lemma parses_pipe ts1 ts2 a b : parses Exec ts1 a → parses Pipe ts2 b → parses Pipe (ts1 ++ TOp 124 :: ts2) (SPipe a b).
Proof.
  intros IH1 IH2 n st rest k Hn Hend Hat Hleft. unfold runs_to, need in *. rewrite length_app in Hn. cbn [length nodes] in *.
  rewrite <- (assoc_L (++)) in Hat. cbn [app] in Hat. destruct n as [|n]; [lia|]. cbn [parsepipe].
  destruct (IH1 n st (TOp 124 :: ts2 ++ rest) (nodes b + S k)%nat) as (t & s & E & Ht & Hs);
    [unfold need; lia|by left|exact Hat|lia|]. step E.
  destruct (peek_run (chars "|") (Pst s (nodes b + S k)) _ Hs eq_refl) as (s1 & E1 & Hat1). step E1. cbn [head_in].
  change (strchr (chars "|") 124) with true. cbn iota.
  destruct (gettoken_run (Pst s1 (nodes b + S k)) _ Hat1) as (x & s2 & E2 & Hat2 & _). step E2. cbn [tail malloc_left] in *.
  destruct (IH2 n (Pst s2 (nodes b + S k)) rest (S k)) as (t2 & s3 & E3 & Ht2 & Hs3); [unfold need; lia|done..|]. step E3.
  exists (PIPE t t2), s3. split; [done|]. split; [by constructor|done].
Qed.
Lemma parses_back1 ts c : parses Pipe ts c → parses Back ts c.
Proof.
  intros IH n m st rest k Hn Hm Hend Hat Hleft. destruct (IH n st rest k) as (t & s & E & Ht & Hs); [done..|].
  exists t, s, m. rewrite (M_bind_Done _ _ _ _ _ E). split; [done|]. split; [done|]. split; [done|lia].
Qed.
Lemma parses_back ts c : parses Back ts c → parses Back (ts ++ [TOp 38]) (SBack c).
Proof.
  intros IH n m st rest k Hn Hm Hend Hat Hleft. unfold need in Hn. rewrite length_app in *. cbn [length nodes] in *.
  rewrite <- (assoc_L (++)) in Hat. cbn [app] in Hat.
  destruct (IH n m st (TOp 38 :: rest) (S k)) as (t & s & m' & E & Ht & Hs & Hm'); [unfold need; lia|lia|by left|done|lia|].
  destruct m' as [|m']; [lia|]. rewrite E. cbn [back_loop].
  destruct (peek_run (chars "&") (Pst s (S k)) _ Hs eq_refl) as (s1 & E1 & Hat1). step E1. cbn [head_in].
  change (strchr (chars "&") 38) with true. cbn iota.
  destruct (gettoken_run (Pst s1 (S k)) _ Hat1) as (x & s2 & E2 & Hat2 & _). step E2. cbn [tail malloc_left] in *.
  exists (BACK t), s2, m'. split; [done|]. split; [by constructor|]. split; [done|lia].
Qed.
(** The loop over [&] at its end. *)
Lemma back_loop_end t c m rest s k : (0 < m)%nat → tree t c → at_ s rest → head_in (chars "&") rest = false →
  ∃ s', back_loop line m t (Pst s k) = Done (t, Pst s' k) ∧ at_ s' rest.
Proof.
  intros Hm Ht Hs Hno. destruct m as [|m]; [lia|]. cbn [back_loop].
  destruct (peek_run (chars "&") (Pst s k) _ Hs eq_refl) as (s1 & E1 & Hat1). step E1. rewrite Hno. by exists s1.
Qed.
Lemma parses_line1 ts c : parses Back ts c → parses Line ts c.
Proof.
  intros IH n st rest k Hn Hend Hat Hleft. unfold runs_to, need in *. destruct n as [|n]; [lia|]. cbn [parseline].
  destruct (IH n n st rest k) as (t & s & m' & E & Ht & Hs & Hm'); [unfold need; lia|lia|by apply (ends_next (chars ")"))|done..|].
  destruct (back_loop_end t c m' rest s k) as (s1 & E1 & Hs1); [lia|done|done|by apply (ends_not (chars ")"))|].
  rewrite E1 in E. rewrite (bind_regroup _ _ _ _ _ E). cbn [fst snd].
  destruct (peek_run (chars ";") (Pst s1 k) _ Hs1 eq_refl) as (s2 & E2 & Hat2). step E2.
  rewrite (ends_not (chars ")") (chars ";") rest eq_refl Hend). by exists t, s2.
Qed.
Lemma parses_line ts1 ts2 a b : parses Back ts1 a → parses Line ts2 b → parses Line (ts1 ++ TOp 59 :: ts2) (SList a b).
Proof.
  intros IH1 IH2 n st rest k Hn Hend Hat Hleft. unfold runs_to, need in *. rewrite length_app in Hn. cbn [length nodes] in *.
  rewrite <- (assoc_L (++)) in Hat. cbn [app] in Hat. destruct n as [|n]; [lia|]. cbn [parseline].
  destruct (IH1 n n st (TOp 59 :: ts2 ++ rest) (nodes b + S k)%nat) as (t & s & m' & E & Ht & Hs & Hm');
    [unfold need; lia|lia|by left|done|lia|].
  destruct (back_loop_end t a m' _ s (nodes b + S k) ltac:(lia) Ht Hs eq_refl) as (s1 & E1 & Hs1).
  rewrite E1 in E. rewrite (bind_regroup _ _ _ _ _ E). cbn [fst snd].
  destruct (peek_run (chars ";") (Pst s1 (nodes b + S k)) _ Hs1 eq_refl) as (s2 & E2 & Hat2). step E2. cbn [head_in].
  change (strchr (chars ";") 59) with true. cbn iota.
  destruct (gettoken_run (Pst s2 (nodes b + S k)) _ Hat2) as (x & s3 & E3 & Hat3 & _). step E3. cbn [tail malloc_left] in *.
  destruct (IH2 n (Pst s3 (nodes b + S k)) rest (S k)) as (t2 & s4 & E4 & Ht2 & Hs4); [unfold need; lia|done..|]. step E4.
  exists (LIST t t2), s4. split; [done|]. split; [by constructor|done].
Qed.
Lemma grammar_parses lv ts c : G lv ts c → parses lv ts c.
Proof.
  induction 1; [by apply parses_exec|by apply parses_block|by apply parses_pipe1|by apply parses_pipe|by apply parses_back1
               |by apply parses_back|by apply parses_line1|by apply parses_line].
Qed.

(** The whole line. *)
Lemma parse_run ts c fuel n : spells line ts → G Line ts c → (4 * length ts + 4 ≤ fuel)%nat → (nodes c ≤ n)%nat →
  ∃ t, parse fuel n line = Done (t, es) ∧ tree t c.
Proof.
  intros Hsp Hg Hf Hn.
  assert (at_ 0 (ts ++ [])) as Hat by (split; [lia|by rewrite app_nil_r]).
  destruct (grammar_parses _ _ _ Hg fuel (Pst 0 n) [] (n - nodes c)%nat Hf (or_intror eq_refl) Hat) as (t & s & E & Ht & Hs);
    [cbn; lia|].
  unfold parse. step E. destruct (peek_run [] (Pst s (n - nodes c)) [] Hs eq_refl) as (s1 & E1 & Hs1).
  pose proof (at_skip s [] Hs) as Hb. unfold peek, set_ps. unfold_M. cbn [ps malloc_left].
  exists t. split; [|done]. do 2 f_equal. destruct Hb as (Hle & Hb). inversion Hb as [E0| | |w l ? Hne _ _ _ E0]. symmetry in E0.
  apply (f_equal length) in E0. rewrite length_drop in E0. cbn in E0. unfold Shell.es in *. lia.
Qed.

(** ** The strings of the tree *)
Fixpoint ends (t : cmd) : list nat :=
  match t with
  | EXEC argv => snd <$> argv
  | REDIR t file _ _ => ends t ++ [file.2]
  | PIPE l r | LIST l r => ends l ++ ends r
  | BACK t => ends t
  end.
Lemma nulterminate_ends t buf : nulterminate t buf = fold_left (λ buf e, put_nul e buf) (ends t) buf.
Proof.
  revert buf. induction t as [argv|t IH file mode fd|l IHl r IHr|l IHl r IHr|t IH]; intros buf; cbn [nulterminate ends].
  - revert buf. induction argv as [|a argv IH]; intros buf; cbn; [done|]. apply IH.
  - by rewrite fold_left_app, IH.
  - by rewrite fold_left_app, IHl, IHr.
  - by rewrite fold_left_app, IHl, IHr.
  - apply IH.
Qed.
Lemma nul_out es' i buf : i ∉ es' → fold_left (λ buf e, put_nul e buf) es' buf !! i = buf !! i.
Proof.
  revert buf. induction es' as [|e es' IH]; intros buf; cbn [fold_left]; [done|].
  intros [Hne Hi]%not_elem_of_cons. rewrite IH by done. unfold put_nul. by apply list_lookup_insert_ne.
Qed.
Lemma nul_length es' buf : length (fold_left (λ buf e, put_nul e buf) es' buf) = length buf.
Proof. revert buf. induction es' as [|e es' IH]; intros buf; cbn [fold_left]; [done|]. rewrite IH. apply length_insert. Qed.
Lemma nul_in es' i buf : i ∈ es' → (i < length buf)%nat → fold_left (λ buf e, put_nul e buf) es' buf !! i = Some 0.
Proof.
  revert buf. induction es' as [|e es' IH]; intros buf; [by intros ?%not_elem_of_nil|]. cbn [fold_left]. intros Hi Hl.
  destruct (decide (i ∈ es')) as [|Hn]; [apply IH; [done|unfold put_nul; by rewrite length_insert]|].
  apply elem_of_cons in Hi as [->|]; [|done]. rewrite nul_out by done. unfold put_nul. by apply list_lookup_insert_eq.
Qed.
Lemma until_nul_word w l : Forall is_plain w → (∀ i, (i < length w)%nat → l !! i = w !! i) → l !! length w = Some 0 → until_nul l = w.
Proof.
  intros Hw. revert l. induction Hw as [|c w [Hc _] Hw IH]; intros [|x l] Hl Hend; try done.
  - by injection Hend as ->.
  - pose proof (Hl 0%nat ltac:(cbn; lia)) as H0. injection H0 as ->. cbn [until_nul]. rewrite (proj2 (Z.eqb_neq _ _) Hc).
    f_equal. apply IH; [|done]. intros i Hi. apply (Hl (S i)). cbn. lia.
Qed.

Definition marks (e : nat) : Prop := (e ≤ es)%nat ∧ breaks (drop e line).
Lemma tree_marks t c : tree t c → Forall marks (ends t).
Proof.
  induction 1 as [argv ws H| | | |]; cbn [ends].
  - induction H as [|a w argv ws (_ & _ & ? & _ & _ & ?)]; by constructor.
  - apply Forall_app. split; [done|]. constructor; [|done]. destruct H0 as (_ & _ & ? & _ & _ & ?). done.
  - by apply Forall_app.
  - by apply Forall_app.
  - done.
Qed.
Lemma slice_str es' a w : Forall marks es' → slice_is a w → a.2 ∈ es' →
  str (fold_left (λ buf e, put_nul e buf) es' (line ++ [0])) a.1 = w.
Proof.
  intros Hm (E & Ha2 & Hle & _ & Hw & _) Hin. unfold str. apply until_nul_word; [done| |].
  - intros i Hi. rewrite lookup_drop. destruct (lookup_lt_is_Some_2 w i Hi) as [c Hc].
    assert (line !! (a.1 + i)%nat = Some c) as El by (by rewrite <- lookup_drop, E, lookup_app_l).
    rewrite nul_out; [by rewrite Hc, lookup_app_l by (unfold Shell.es in *; lia)|].
    intros [_ Hb]%(proj1 (Forall_forall _ _) Hm). rewrite (drop_S _ c) in Hb by done.
    cbn in Hb. pose proof (proj2 (proj1 (Forall_forall _ _) Hw c (list_elem_of_lookup_2 _ _ _ Hc))). congruence.
  - rewrite lookup_drop, <- Ha2. apply nul_in; [done|]. rewrite length_app. cbn. unfold Shell.es in *. lia.
Qed.

End line.

(** The tree with the strings that the buffer holds. *)
Inductive reads (buf : list Z) : cmd → scmd → Prop :=
| r_exec argv ws : str buf ∘ fst <$> argv = ws → reads buf (EXEC argv) (SExec ws)
| r_redir t c file k f : reads buf t c → str buf file.1 = f → reads buf (REDIR t file (mode_of k) (fd_of k)) (SRedir c k f)
| r_pipe t1 t2 a b : reads buf t1 a → reads buf t2 b → reads buf (PIPE t1 t2) (SPipe a b)
| r_list t1 t2 a b : reads buf t1 a → reads buf t2 b → reads buf (LIST t1 t2) (SList a b)
| r_back t c : reads buf t c → reads buf (BACK t) (SBack c).
Lemma tree_reads line es' t c : Forall (marks line) es' → tree line t c → (∀ e, e ∈ ends t → e ∈ es') →
  reads (fold_left (λ buf e, put_nul e buf) es' (line ++ [0])) t c.
Proof.
  intros Hm. induction 1 as [argv ws H|t c file k f Ht IH Hf|t1 t2 a b H1 IH1 H2 IH2|t1 t2 a b H1 IH1 H2 IH2|t c Ht IH];
    cbn [ends]; intros Hin; constructor.
  - induction H as [|a w argv ws Ha H IH]; [done|]. cbn [fmap list_fmap]. f_equal; [|apply IH; intros; apply Hin; by right].
    apply (slice_str line es' a w Hm Ha). apply Hin. by left.
  - apply IH. intros e He. apply Hin, elem_of_app. by left.
  - apply (slice_str line es' file f Hm Hf). apply Hin, elem_of_app. right. by left.
  - apply IH1. intros e He. apply Hin, elem_of_app. by left.
  - apply IH2. intros e He. apply Hin, elem_of_app. by right.
  - apply IH1. intros e He. apply Hin, elem_of_app. by left.
  - apply IH2. intros e He. apply Hin, elem_of_app. by right.
  - apply IH. done.
Qed.
Lemma parsecmd_run line ts c fuel n : spells line ts → G Line ts c → (4 * length ts + 4 ≤ fuel)%nat → (nodes c ≤ n)%nat →
  ∃ t buf, parsecmd fuel n line = Done (t, buf) ∧ reads buf t c ∧ ∃ p, parse fuel n line = Done p.
Proof.
  intros Hsp Hg Hf Hn. destruct (parse_run line ts c fuel n Hsp Hg Hf Hn) as (t & E & Ht).
  exists t, (nulterminate t (line ++ [0])). unfold parsecmd. rewrite E. cbn. rewrite Nat.eqb_refl. split; [done|].
  split; [|by eexists]. rewrite nulterminate_ends. apply tree_reads; [by eapply tree_marks|done|done].
Qed.

(** ** What runs

    The kernel gives the lowest free descriptor, calls succeed, a child has a copy
    of its parent's descriptors; a pipe is known by its number. *)
Inductive obj := File (path : list Z) (mode : Z) | PipeR (k : nat) | PipeW (k : nat) | Other (n : Z).
Abbreviation fdt := (gmap Z obj).
Fixpoint low_from (n : nat) (i : Z) (fds : fdt) : Z :=
  match n with O => i | S n => match fds !! i with None => i | Some _ => low_from n (i + 1) fds end end.
Definition low (fds : fdt) : Z := low_from (S (size fds)) 0 fds.

(** The programs that start, each with its path, its arguments and its
    descriptors. *)
Definition started : Type := list (list Z * list (list Z) * fdt).
Fixpoint interp (p : proc) (k : nat) (fds : fdt) : started * nat :=
  match p with
  | Exit _ | Fault | Forever => ([], k)
  | Execve path argv _ => ([(path, argv, fds)], k)
  | Close fd p => interp p k (delete fd fds)
  | Open path mode κ => interp (κ (low fds)) k (<[low fds := File path mode]> fds)
  | Fork κ => let '(l1, k) := interp (κ 0) k fds in let '(l2, k) := interp (κ 1) k fds in (l1 ++ l2, k)
  | Pipe2 κ =>
      let fds1 := <[low fds := PipeR k]> fds in
      interp (κ 0 (low fds) (low fds1)) (S k) (<[low fds1 := PipeW k]> fds1)
  | Dup fd p => interp p k (match fds !! fd with Some o => <[low fds := o]> fds | None => fds end)
  | Wait κ => interp (κ 0) k fds
  | Write _ bytes κ => interp (κ (Z.of_nat (length bytes))) k fds
  | Read _ _ κ => interp (κ None) k fds
  | Chdir _ κ => interp (κ 0) k fds
  end.
(** The meaning of a command. *)
Fixpoint den (c : scmd) (k : nat) (fds : fdt) : started * nat :=
  match c with
  | SExec [] => ([], k)
  | SExec (w :: ws) => ([(w, w :: ws, fds)], k)
  | SRedir c r f => den c k (<[fd_of r := File f (mode_of r)]> fds)
  | SPipe a b =>
      let '(l1, k1) := den a (S k) (<[1 := PipeW k]> fds) in
      let '(l2, k2) := den b k1 (<[0 := PipeR k]> fds) in (l1 ++ l2, k2)
  | SList a b => let '(l1, k1) := den a k fds in let '(l2, k2) := den b k1 fds in (l1 ++ l2, k2)
  | SBack c => den c k fds
  end.
Definition std (fds : fdt) : Prop := ∀ i, 0 ≤ i < 3 → is_Some (fds !! i).

(** *** The lowest free descriptor *)
Lemma low_from_spec n i fds : let r := low_from n i fds in
  i ≤ r ≤ i + Z.of_nat n ∧ (∀ j, i ≤ j < r → is_Some (fds !! j)) ∧ (r < i + Z.of_nat n → fds !! r = None).
Proof.
  revert i. induction n as [|n IH]; intros i; cbn [low_from]; cbn zeta; [split; [lia|]; split; intros; lia|].
  destruct (fds !! i) eqn:E; [|split; [lia|]; split; [intros; lia|done]].
  specialize (IH (i + 1)). cbn zeta in IH. destruct IH as (H1 & H2 & H3). split; [lia|]. split.
  - intros j Hj. destruct (decide (j = i)) as [->|]; [by rewrite E|]. apply H2. lia.
  - intros Hr. apply H3. lia.
Qed.
Lemma low_spec fds : 0 ≤ low fds ∧ fds !! low fds = None ∧ ∀ j, 0 ≤ j < low fds → is_Some (fds !! j).
Proof.
  destruct (low_from_spec (S (size fds)) 0 fds) as (H1 & H2 & H3). fold (low fds) in *.
  split; [lia|]. split; [|done]. apply H3. apply Z.nle_gt. intros Hge.
  assert (list_to_set (seqZ 0 (Z.of_nat (S (size fds)))) ⊆ dom fds) as Hsub.
  { intros j. rewrite elem_of_list_to_set, elem_of_seqZ, elem_of_dom. intros Hj. apply H2. lia. }
  apply subseteq_size in Hsub. rewrite size_list_to_set, length_seqZ, size_dom in Hsub by apply NoDup_seqZ. lia.
Qed.
Lemma low_eq fds i : 0 ≤ i → fds !! i = None → (∀ j, 0 ≤ j < i → is_Some (fds !! j)) → low fds = i.
Proof.
  intros Hi Hn Hs. destruct (low_spec fds) as (H1 & H2 & H3). destruct (Z.lt_trichotomy (low fds) i) as [H|[H|H]]; [|done|].
  - destruct (Hs (low fds) ltac:(lia)) as [? E]. congruence.
  - destruct (H3 i ltac:(lia)) as [? E]. congruence.
Qed.
Lemma low_std fds : std fds → 3 ≤ low fds.
Proof.
  intros Hs. apply Z.nlt_ge. intros Hlt. destruct (low_spec fds) as (H1 & H2 & _).
  destruct (Hs (low fds) ltac:(lia)) as [? E]. congruence.
Qed.
Lemma std_insert fds i o : std fds → std (<[i := o]> fds).
Proof. intros Hs j Hj. rewrite lookup_insert_is_Some'. right. by apply Hs. Qed.

(** [close(fd); open(...)] and [close(fd); dup(p)] put it at [fd]. *)
Lemma low_closed fds fd : std fds → fd = 0 ∨ fd = 1 → low (delete fd fds) = fd.
Proof.
  intros Hs Hfd. apply low_eq; [lia|apply lookup_delete_eq|]. intros j Hj.
  rewrite lookup_delete_ne by lia. apply Hs. lia.
Qed.
(** An end of a pipe moved to [fd], and both closed. *)
Lemma pipe_end_moved fds a b ra rb fd o : std fds → fd = 0 ∨ fd = 1 → fds !! a = None → fds !! b = None → 3 ≤ a → 3 ≤ b →
  delete b (delete a (<[fd := o]> (delete fd (<[b := rb]> (<[a := ra]> fds))))) = <[fd := o]> fds.
Proof.
  intros Hs Hfd Ha Hb Ha3 Hb3. apply map_eq. intros i.
  destruct (decide (i = b)) as [->|]; [rewrite lookup_delete_eq, lookup_insert_ne by lia; by rewrite Hb|].
  rewrite lookup_delete_ne by lia.
  destruct (decide (i = a)) as [->|]; [rewrite lookup_delete_eq, lookup_insert_ne by lia; by rewrite Ha|].
  rewrite lookup_delete_ne by lia.
  destruct (decide (i = fd)) as [->|]; [by rewrite !lookup_insert_eq|].
  rewrite !lookup_insert_ne, lookup_delete_ne, !lookup_insert_ne by lia. done.
Qed.

Lemma fd_of_std r : fd_of r = 0 ∨ fd_of r = 1.
Proof. destruct r; cbn; lia. Qed.
Lemma runcmd_den buf t c : reads buf t c → ∀ k fds, std fds → interp (runcmd buf t) k fds = den c k fds.
Proof.
  induction 1 as [argv ws <-|t c file r f Ht IH <-|t1 t2 a b H1 IH1 H2 IH2|t1 t2 a b H1 IH1 H2 IH2|t c Ht IH]; intros k fds Hs.
  - destruct argv as [|[q eq] argv]; done.
  - destruct file as [q eq]. cbn [runcmd interp den fst]. rewrite (low_closed fds _ Hs (fd_of_std r)).
    rewrite (proj2 (Z.ltb_ge _ _)) by (destruct (fd_of_std r); lia). rewrite insert_delete_eq. apply IH. by apply std_insert.
  - cbn [runcmd interp den fork1]. change (0 <? 0) with false. cbn iota.
    set (a' := low fds). set (fds1 := <[a' := PipeR k]> fds). set (b' := low fds1).
    destruct (low_spec fds) as (_ & Ha & _). pose proof (low_std fds Hs) as Ha3. fold a' in Ha, Ha3.
    pose proof (std_insert fds a' (PipeR k) Hs) as Hs1. fold fds1 in Hs1.
    destruct (low_spec fds1) as (_ & Hb & _). pose proof (low_std fds1 Hs1) as Hb3. fold b' in Hb, Hb3.
    assert (a' ≠ b') as Hab by (intros E; rewrite <- E in Hb; unfold fds1 in Hb; by rewrite lookup_insert_eq in Hb).
    assert (fds !! b' = None) as Hb0 by (unfold fds1 in Hb; by rewrite lookup_insert_ne in Hb).
    pose proof (std_insert fds1 b' (PipeW k) Hs1) as Hs2. set (fds2 := <[b' := PipeW k]> fds1) in *.
    unfold fork1. cbn [interp]. change (0 =? -1) with false. change (0 =? 0) with true. change (1 =? -1) with false.
    change (1 =? 0) with false. cbn iota. cbn [interp]. change (0 =? -1) with false. change (0 =? 0) with true.
    change (1 =? -1) with false. change (1 =? 0) with false. cbn iota. cbn [interp].
    rewrite (lookup_delete_ne fds2 1 b') by lia. unfold fds2 at 1. rewrite lookup_insert_eq.
    rewrite (low_closed fds2 1 Hs2) by lia.
    unfold fds2 at 1, fds1 at 1. rewrite (pipe_end_moved fds a' b' (PipeR k) (PipeW k) 1 (PipeW k)) by (done || lia).
    rewrite (IH1 (S k) _ (std_insert _ _ _ Hs)). destruct (den a (S k) (<[1:=PipeW k]> fds)) as [l1 k1].
    rewrite (lookup_delete_ne fds2 0 a') by lia. unfold fds2 at 1, fds1 at 1.
    rewrite lookup_insert_ne, lookup_insert_eq by lia. rewrite (low_closed fds2 0 Hs2) by lia.
    unfold fds2 at 1, fds1 at 1. rewrite (pipe_end_moved fds a' b' (PipeR k) (PipeW k) 0 (PipeR k)) by (done || lia).
    rewrite (IH2 k1 _ (std_insert _ _ _ Hs)). destruct (den b k1 (<[0:=PipeR k]> fds)) as [l2 k2]. by rewrite app_nil_r.
  - cbn [runcmd interp den fork1]. unfold fork1. cbn [interp]. change (0 =? -1) with false. change (0 =? 0) with true.
    change (1 =? -1) with false. change (1 =? 0) with false. cbn iota. cbn [interp].
    rewrite (IH1 k fds Hs). destruct (den a k fds) as [l1 k1]. by rewrite (IH2 k1 fds Hs).
  - cbn [runcmd interp den]. unfold fork1. cbn [interp]. change (0 =? -1) with false. change (0 =? 0) with true.
    change (1 =? -1) with false. change (1 =? 0) with false. cbn iota. cbn [interp].
    rewrite (IH k fds Hs). destruct (den c k fds) as [l1 k1]. by rewrite app_nil_r.
Qed.

(** Claim C26: for every line that spells a sentence of the grammar, with any
    blanks, what the child of the shell runs is the meaning of the command: the
    same programs start, each with its words as arguments and with exactly the
    descriptors that the redirections and pipes say.  [std] asks that 0, 1 and 2
    are open, [n] that [malloc] has a block for every node; the fuel is four
    turns for every token. *)
Theorem line_runs_commands line ts c fuel n k fds : spells line ts → G Line ts c → (4 * length ts + 4 ≤ fuel)%nat →
  (nodes c ≤ n)%nat → std fds → interp (child fuel n line) k fds = den c k fds.
Proof.
  intros Hsp Hg Hf Hn Hs. destruct (parsecmd_run line ts c fuel n Hsp Hg Hf Hn) as (t & buf & E & Hr & [t' s] & E').
  unfold child. rewrite E', E. by apply runcmd_den.
Qed.

(** *** A line: [cat<f|wc] *)
Definition cat_line : list Z := chars "cat<f|wc".
Definition cat_toks : list tok := [TWord (chars "cat"); TOp 60; TWord (chars "f"); TOp 124; TWord (chars "wc")].
Definition cat_cmd : scmd := SPipe (SRedir (SExec [chars "cat"]) Rin (chars "f")) (SExec [chars "wc"]).
Definition tty : fdt := {[0 := Other 0; 1 := Other 0; 2 := Other 0]}.
Lemma plain_word l : forallb (λ c, negb (c =? 0) && plain c) l = true → Forall is_plain l.
Proof.
  intros H. apply Forall_forall. intros c Hc%list_elem_of_In. pose proof (proj1 (forallb_forall _ _) H c Hc) as E.
  apply andb_true_iff in E as [E1 E2]. split; [|done]. apply negb_true_iff, Z.eqb_neq in E1. exact E1.
Qed.
Lemma cat_spells : spells cat_line cat_toks.
Proof.
  apply (sp_word [] (chars "cat") (chars "<f|wc")); [done|done|by apply plain_word|done|].
  apply (sp_op [] 60 (chars "f|wc")); [done|done|done|].
  apply (sp_word [] (chars "f") (chars "|wc")); [done|done|by apply plain_word|done|].
  apply (sp_op [] 124 (chars "wc")); [done|done|done|].
  apply (sp_word [] (chars "wc") []); [done|done|by apply plain_word|done|]. by apply sp_end.
Qed.
Lemma cat_sentence : G Line cat_toks cat_cmd.
Proof.
  apply g_line1, g_back1, (g_pipe [TWord (chars "cat"); TOp 60; TWord (chars "f")] [TWord (chars "wc")]).
  - apply (g_exec [IWord (chars "cat"); IRedir Rin (chars "f")]). unfold MAXARGS. cbn. lia.
  - apply g_pipe1, (g_exec [IWord (chars "wc")]). unfold MAXARGS. cbn. lia.
Qed.
Lemma tty_std : std tty.
Proof. intros i Hi. assert (i = 0 ∨ i = 1 ∨ i = 2) as [->|[->| ->]] by lia; by eexists. Qed.
Lemma line_runs_commands_witness : std tty ∧ interp (child 100 10 cat_line) 0 tty =
  ([(chars "cat", [chars "cat"], <[0 := File (chars "f") 0]> (<[1 := PipeW 0]> tty)); (chars "wc", [chars "wc"], <[0 := PipeR 0]> tty)], 1%nat).
Proof.
  split; [exact tty_std|]. rewrite (line_runs_commands cat_line cat_toks cat_cmd 100 10 0 tty cat_spells cat_sentence);
    [reflexivity|cbn; lia|cbn; lia|exact tty_std].
Defined.
