(* ===== verification/ShellSound.v ===== *)
(** * The shell: the parser accepts nothing but the grammar, and stops

    Every line has its tokens ([spells_total]).  What the parser accepts is a
    sentence ([parse_sound]), and it runs out of no fuel ([parse_stops]). *)
From S2P Require Import Prelude User Shell ShellProps.

(** ** Every line has tokens *)
Lemma spells_white ws l ts : Forall is_white ws → spells l ts → spells (ws ++ l) ts.
Proof.
  intros Hw [ws' Hw'|ws' c l' ts' Hw' Hop Happ Hs|ws' l' ts' Hw' Hs|ws' w l' ts' Hw' Hne Hpl Hb Hs]; rewrite ?(assoc_L (++)).
  - constructor. by apply Forall_app.
  - constructor; [by apply Forall_app|done..].
  - constructor; [by apply Forall_app|done].
  - rewrite <- (assoc_L (++) (ws ++ ws')). constructor; [by apply Forall_app|done..].
Qed.
Lemma char_kinds c : c ≠ 0 → is_white c ∨ is_op c ∨ is_plain c.
Proof.
  intros Hc. unfold is_white, is_op, is_plain, plain. destruct (strchr whitespace c) eqn:Ew; [by left|].
  destruct (strchr symbols c) eqn:Es; [|by right; right]. right. left.
  unfold strchr in *. change symbols with [60; 124; 62; 38; 59; 40; 41] in Es. change (chars "|();&<>") with [124; 40; 41; 59; 38; 60; 62].
  cbn [existsb] in *. by destruct (c =? 60), (c =? 124), (c =? 62), (c =? 38), (c =? 59), (c =? 40), (c =? 41).
Qed.
Lemma split_plain l : ∃ w l', l = w ++ l' ∧ Forall (λ c, plain c = true) w ∧ breaks l'.
Proof.
  induction l as [|c l (w & l' & -> & Hw & Hb)]; [by exists [], []|].
  destruct (plain c) eqn:E; [exists (c :: w), l'; split_and!; [done|by constructor|done]|by exists [], (c :: w ++ l')].
Qed.
Lemma spells_total_le m l : (length l ≤ m)%nat → Forall (λ c, c ≠ 0) l → ∃ ts, spells l ts ∧ (length ts ≤ length l)%nat.
Proof.
  revert l. induction m as [|m IH]; intros [|c l] Hm Hnz; cbn [length] in *; try lia.
  1,2: exists []; split; [by constructor|done].
  apply Forall_cons in Hnz as [Hc Hnz]. destruct (char_kinds c Hc) as [Hw|[Hop|Hp]].
  - destruct (IH l ltac:(lia) Hnz) as (ts & Hs & Hl). exists ts. split; [|lia]. by apply (spells_white [c]); [constructor|].
  - destruct (IH l ltac:(lia) Hnz) as (ts & Hs & Hl). destruct (decide (c = 62 ∧ hd 0 l = 62)) as [[-> Hh]|Hno].
    + destruct l as [|c' l]; [done|]. cbn in Hh. subst c'. apply Forall_cons in Hnz as [_ Hnz]. cbn [length] in *.
      destruct (IH l ltac:(lia) Hnz) as (ts' & Hs' & Hl'). exists (TApp :: ts'). split; [by apply (sp_app [])|cbn; lia].
    + exists (TOp c :: ts). split; [|cbn; lia]. apply (sp_op []); [done|done| |done]. intros -> Hh. by apply Hno.
  - destruct (split_plain l) as (w & l' & -> & Hpl & Hb). apply Forall_app in Hnz as [Hnz1 Hnz2]. rewrite length_app in *.
    destruct (IH l' ltac:(lia) Hnz2) as (ts & Hs & Hl). exists (TWord (c :: w) :: ts). split; [|cbn; lia].
    apply (sp_word [] (c :: w)); [done|done| |done|done]. constructor; [done|]. apply Forall_forall. intros x Hx.
    split; [exact (proj1 (Forall_forall _ _) Hnz1 x Hx)|exact (proj1 (Forall_forall _ _) Hpl x Hx)].
Qed.
Lemma spells_total l : Forall (λ c, c ≠ 0) l → ∃ ts, spells l ts ∧ (length ts ≤ length l)%nat.
Proof. by apply (spells_total_le (length l)). Qed.

(** ** What the parser has read *)
Section line.
Context (line : list Z).
Abbreviation at_ := (at_ line).
Abbreviation tree := (tree line).

(** [t] stands for a part of grammar [Gr] at the front of [ts], and the rest is next. *)
Definition read_off (Gr : list tok → scmd → Prop) (ts : list tok) (t : cmd) (st' : pst) : Prop :=
  ∃ ts1 ts2 c, ts = ts1 ++ ts2 ∧ Gr ts1 c ∧ tree t c ∧ at_ (ps st') ts2.
Definition sound (run : P cmd) (Gr : list tok → scmd → Prop) : Prop :=
  ∀ st ts t st', at_ (ps st) ts → run st = Done (t, st') → read_off Gr ts t st'.

Lemma op_of_at s c ts : at_ s (TOp c :: ts) → is_op c.
Proof. intros (_ & H). by inversion H. Qed.
Lemma code_word s ts : at_ s ts → code ts = 97 → ∃ w ts', ts = TWord w :: ts'.
Proof.
  intros Hat. destruct ts as [|[c| |w] ts]; cbn [code]; [done| |done|by eauto]. intros ->.
  by pose proof (op_of_at _ _ _ Hat).
Qed.
Lemma code_end s ts : at_ s ts → code ts = 0 → ts = [].
Proof.
  intros Hat. destruct ts as [|[c| |w] ts]; cbn [code]; [done| |done|done]. intros ->.
  by pose proof (op_of_at _ _ _ Hat).
Qed.
(** A test for one character that succeeds. *)
Lemma head_in_one l x s ts : at_ s ts → l = [x] → x ≠ 62 → head_in l ts = true → ∃ ts', ts = TOp x :: ts'.
Proof.
  intros _ -> Hx. destruct ts as [|[c| |w] ts]; cbn [head_in]; [done| | |done].
  - intros H%strchr_elem%list_elem_of_singleton. subst. by eexists.
  - intros H%strchr_elem%list_elem_of_singleton. done.
Qed.
Lemma node_inv t st t' st' : node t st = Done (t', st') → t' = t ∧ ps st' = ps st.
Proof. unfold node. destruct (malloc_left st); [done|]. by intros [= <- <-]. Qed.

(** One test and, when it succeeds, one token. *)
Lemma peek_inv l st ts b st' : at_ (ps st) ts → forallb (strchr symbols) l = true → peek line l st = Done (b, st') →
  b = head_in l ts ∧ at_ (ps st') ts.
Proof. intros Hat Hl E. destruct (peek_run line l st ts Hat Hl) as (s & E' & Hs). rewrite E' in E. by injection E as <- <-. Qed.
Lemma gettoken_inv st ts r st' : at_ (ps st) ts → gettoken line st = Done (r, st') →
  r.1 = code ts ∧ at_ (ps st') (tail ts) ∧ (∀ w ts', ts = TWord w :: ts' → slice_is line r.2 w).
Proof. intros Hat E. destruct (gettoken_run line st ts Hat) as (a & s & E' & Hs & Hw). rewrite E' in E. by injection E as <- <-. Qed.

Lemma redir_inv t c k file f st t' st' : tree t c → slice_is line file f → redir t (code [rtok k]) file st = Done (t', st') →
  tree t' (SRedir c k f) ∧ ps st' = ps st.
Proof.
  intros Ht Hf E. assert (redir t (code [rtok k]) file = node (REDIR t file (mode_of k) (fd_of k))) as Er by by destruct k.
  rewrite Er in E. apply node_inv in E as [-> ->]. split; [by constructor|done].
Qed.
Lemma head_redir s ts : at_ s ts → head_in (chars "<>") ts = true → ∃ k ts', ts = rtok k :: ts' ∧ code ts = code [rtok k].
Proof.
  intros _. destruct ts as [|[c| |w] ts]; cbn [head_in]; [done| | |done]; intros H%strchr_elem.
  - change (chars "<>") with [60; 62] in H. apply elem_of_cons in H as [->|H%list_elem_of_singleton]; [by exists Rin, ts|].
    subst. by exists Rout, ts.
  - by exists Rapp, ts.
Qed.
Lemma parseredirs_sound n : ∀ t c st ts t' st', tree t c → at_ (ps st) ts → parseredirs line n t st = Done (t', st') →
  ∃ its ts2, ts = (its ≫= item_toks) ++ ts2 ∧ forallb is_redir its = true ∧ tree t' (wrap c its) ∧ at_ (ps st') ts2.
Proof.
  induction n as [|n IH]; intros t c st ts t' st' Ht Hat; [done|]. cbn [parseredirs]. intros (b & s1 & E1 & E)%M_bind_inv.
  apply (peek_inv _ _ ts) in E1 as [-> Hat1]; [|done..]. destruct (head_in (chars "<>") ts) eqn:Hh.
  2: { injection E as <- <-. by exists [], ts. }
  apply M_bind_inv in E as ([tok q] & s2 & E2 & E). apply (gettoken_inv _ ts) in E2 as (Htok & Hat2 & _); [|done].
  destruct (head_redir _ ts Hat Hh) as (k & ts1 & -> & Ek). cbn [fst tail] in *. subst tok.
  apply M_bind_inv in E as ([tw file] & s3 & E3 & E). apply (gettoken_inv _ ts1) in E3 as (Htw & Hat3 & Hw); [|done].
  cbn [fst snd] in *. destruct (Z.eqb_spec tw 97) as [->|]; [|done]. cbn [negb] in E.
  destruct (code_word _ _ Hat2 (eq_sym Htw)) as (w & ts2 & ->). apply M_bind_inv in E as (t1 & s4 & E4 & E).
  rewrite Ek in E4. apply (redir_inv t c k file w) in E4 as [Ht1 Hp]; [|done|by eapply Hw].
  apply (IH t1 (SRedir c k w) s4 ts2) in E as (its & ts3 & -> & Hits & Ht' & Hat'); [|done|by rewrite Hp].
  exists (IRedir k w :: its), ts3. split; [done|]. split; [done|]. split; [exact Ht'|done].
Qed.

Lemma exec_loop_sound n : ∀ argv ret its0 st ts t' st', tree ret (wrap (SExec []) its0) → Forall2 (slice_is line) argv (words its0) →
  (length (words its0) < MAXARGS)%nat → at_ (ps st) ts → parseexec_loop line n argv ret st = Done (t', st') →
  ∃ its ts2, ts = (its ≫= item_toks) ++ ts2 ∧ (length (words (its0 ++ its)) < MAXARGS)%nat ∧
    tree t' (wrap (SExec (words (its0 ++ its))) (its0 ++ its)) ∧ at_ (ps st') ts2.
Proof.
  induction n as [|n IH]; intros argv ret its0 st ts t' st' Ht Hargv Hmax Hat; [done|]. cbn [parseexec_loop].
  intros (b & s1 & E1 & E)%M_bind_inv. apply (peek_inv _ _ ts) in E1 as [-> Hat1]; [|done..].
  destruct (head_in (chars "|)&;") ts) eqn:Hh.
  { injection E as <- <-. exists [], ts. rewrite !app_nil_r. split_and!; [done..| |done]. by apply put_argv_tree. }
  apply M_bind_inv in E as ([tok a] & s2 & E2 & E). apply (gettoken_inv _ ts) in E2 as (Htok & Hat2 & Hw); [|done].
  cbn [fst snd] in *. destruct (Z.eqb_spec tok 0) as [->|].
  { injection E as <- <-. rewrite (code_end _ ts Hat (eq_sym Htok)) in *. exists [], []. rewrite !app_nil_r.
    split_and!; [done..| |done]. by apply put_argv_tree. }
  destruct (Z.eqb_spec tok 97) as [->|]; [|done]. cbn [negb] in E. cbn zeta in E.
  destruct (code_word _ _ Hat (eq_sym Htok)) as (w & ts1 & ->). specialize (Hw _ _ eq_refl). cbn [tail] in Hat2.
  destruct (Nat.leb_spec MAXARGS (length (argv ++ [a]))) as [|Hlt]; [done|].
  apply M_bind_inv in E as (ret1 & s3 & E3 & E).
  apply (parseredirs_sound _ _ (wrap (SExec []) its0) _ ts1) in E3 as (its1 & ts2 & -> & Hits1 & Ht1 & Hat3); [|done..].
  destruct (words_redirs its1 Hits1) as [Hw1 _]. pose proof (Forall2_length _ _ _ Hargv) as Hlen.
  assert (words (its0 ++ IWord w :: its1) = words its0 ++ [w]) as Ew by (rewrite words_app; f_equal; exact (f_equal (cons w) Hw1)).
  apply (IH (argv ++ [a]) ret1 (its0 ++ IWord w :: its1) s3 ts2) in E as (its & ts3 & -> & Hmax' & Ht' & Hat').
  - exists (IWord w :: its1 ++ its), ts3. rewrite <- (assoc_L (++)) in Hmax', Ht'. split_and!; [|done..].
    cbn [mbind list_bind item_toks app]. by rewrite bind_app, <- (assoc_L (++)).
  - rewrite wrap_app. exact Ht1.
  - rewrite Ew. apply Forall2_app; [done|by constructor].
  - rewrite Ew, length_app. rewrite length_app in Hlt. cbn [length] in *. lia.
  - done.
Qed.

Lemma back_loop_sound n : ∀ t c ts0 st ts t' st', tree t c → G Back ts0 c → at_ (ps st) ts → back_loop line n t st = Done (t', st') →
  ∃ ts1 ts2 c', ts = ts1 ++ ts2 ∧ G Back (ts0 ++ ts1) c' ∧ tree t' c' ∧ at_ (ps st') ts2.
Proof.
  induction n as [|n IH]; intros t c ts0 st ts t' st' Ht Hg Hat; [done|]. cbn [back_loop]. intros (b & s1 & E1 & E)%M_bind_inv.
  apply (peek_inv _ _ ts) in E1 as [-> Hat1]; [|done..]. destruct (head_in (chars "&") ts) eqn:Hh.
  2: { injection E as <- <-. exists [], ts, c. by rewrite app_nil_r. }
  destruct (head_in_one _ 38 _ ts Hat eq_refl ltac:(done) Hh) as (ts1 & ->).
  apply M_bind_inv in E as (r & s2 & E2 & E). apply (gettoken_inv _ (TOp 38 :: ts1)) in E2 as (_ & Hat2 & _); [|done]. cbn [tail] in Hat2.
  apply M_bind_inv in E as (t1 & s3 & E3 & E). apply node_inv in E3 as [-> Hp].
  apply (IH _ (SBack c) (ts0 ++ [TOp 38]) s3 ts1) in E as (ts2 & ts3 & c' & -> & Hg' & Ht' & Hat'); [|by constructor|by constructor|by rewrite Hp].
  exists (TOp 38 :: ts2), ts3, c'. split; [done|]. rewrite <- (assoc_L (++)) in Hg'. done.
Qed.

Lemma parser_sound n : sound (parseline line n) (G Line) ∧ sound (parsepipe line n) (G Pipe) ∧
  sound (parseexec line n) (G Exec) ∧ sound (parseblock line n) (G Exec).
Proof.
  induction n as [|n (IHl & IHp & IHe & IHb)]; [by split_and!; intros st ts t st' Hat E|].
  split_and!; intros st ts t st' Hat; cbn [parseline parsepipe parseexec parseblock].
  - intros (t1 & s1 & E1 & E)%M_bind_inv. apply (IHp _ _ _ _ Hat) in E1 as (ts1 & ts2 & c1 & -> & Hg1 & Ht1 & Hat1).
    apply M_bind_inv in E as (t2 & s2 & E2 & E).
    apply (back_loop_sound _ _ c1 ts1 _ ts2) in E2 as (ts3 & ts4 & c2 & -> & Hg2 & Ht2 & Hat2); [|done|by constructor|done].
    apply M_bind_inv in E as (b & s3 & E3 & E). apply (peek_inv _ _ ts4) in E3 as [-> Hat3]; [|done..].
    destruct (head_in (chars ";") ts4) eqn:Hh.
    2: { injection E as <- <-. exists (ts1 ++ ts3), ts4, c2. rewrite (assoc_L (++)). split_and!; [done|by constructor|done..]. }
    destruct (head_in_one _ 59 _ ts4 Hat2 eq_refl ltac:(done) Hh) as (ts5 & ->).
    apply M_bind_inv in E as (r & s4 & E4 & E). apply (gettoken_inv _ (TOp 59 :: ts5)) in E4 as (_ & Hat4 & _); [|done]. cbn [tail] in Hat4.
    apply M_bind_inv in E as (t3 & s5 & E5 & E). apply (IHl _ _ _ _ Hat4) in E5 as (ts6 & ts7 & c3 & -> & Hg3 & Ht3 & Hat5).
    apply node_inv in E as [-> Hp]. exists ((ts1 ++ ts3) ++ TOp 59 :: ts6), ts7, (SList c2 c3).
    rewrite <- !(assoc_L (++)). cbn [app]. split; [done|]. rewrite Hp. split_and!; [|by constructor|done].
    rewrite (assoc_L (++)). by constructor.
  - intros (t1 & s1 & E1 & E)%M_bind_inv. apply (IHe _ _ _ _ Hat) in E1 as (ts1 & ts2 & c1 & -> & Hg1 & Ht1 & Hat1).
    apply M_bind_inv in E as (b & s3 & E3 & E). apply (peek_inv _ _ ts2) in E3 as [-> Hat3]; [|done..].
    destruct (head_in (chars "|") ts2) eqn:Hh.
    2: { injection E as <- <-. exists ts1, ts2, c1. split_and!; [done|by constructor|done..]. }
    destruct (head_in_one _ 124 _ ts2 Hat1 eq_refl ltac:(done) Hh) as (ts5 & ->).
    apply M_bind_inv in E as (r & s4 & E4 & E). apply (gettoken_inv _ (TOp 124 :: ts5)) in E4 as (_ & Hat4 & _); [|done]. cbn [tail] in Hat4.
    apply M_bind_inv in E as (t3 & s5 & E5 & E). apply (IHp _ _ _ _ Hat4) in E5 as (ts6 & ts7 & c3 & -> & Hg3 & Ht3 & Hat5).
    apply node_inv in E as [-> Hp]. exists (ts1 ++ TOp 124 :: ts6), ts7, (SPipe c1 c3).
    rewrite <- !(assoc_L (++)). split; [done|]. rewrite Hp. split_and!; [by constructor|by constructor|done].
  - intros (b & s1 & E1 & E)%M_bind_inv. apply (peek_inv _ _ ts) in E1 as [-> Hat1]; [|done..].
    destruct (head_in (chars "(") ts); [exact (IHb _ _ _ _ Hat1 E)|].
    apply M_bind_inv in E as (t1 & s2 & E2 & E). apply node_inv in E2 as [-> Hp].
    apply M_bind_inv in E as (t2 & s3 & E3 & E).
    apply (parseredirs_sound _ _ (SExec []) _ ts) in E3 as (its1 & ts2 & -> & Hits1 & Ht2 & Hat2); [|by repeat constructor|by rewrite Hp].
    destruct (words_redirs its1 Hits1) as [Hw1 _].
    apply (exec_loop_sound _ _ _ its1 _ ts2) in E as (its2 & ts3 & -> & Hmax & Ht' & Hat');
      [|done|by rewrite Hw1|by rewrite Hw1; cbn; unfold MAXARGS; lia|done].
    exists ((its1 ++ its2) ≫= item_toks), ts3, (wrap (SExec (words (its1 ++ its2))) (its1 ++ its2)).
    split_and!; [by rewrite bind_app, (assoc_L (++))|by constructor|done..].
  - intros (b & s1 & E1 & E)%M_bind_inv. apply (peek_inv _ _ ts) in E1 as [-> Hat1]; [|done..].
    destruct (head_in (chars "(") ts) eqn:Hh; [|done]. cbn [negb] in E.
    destruct (head_in_one _ 40 _ ts Hat eq_refl ltac:(done) Hh) as (ts1 & ->).
    apply M_bind_inv in E as (r & s2 & E2 & E). apply (gettoken_inv _ (TOp 40 :: ts1)) in E2 as (_ & Hat2 & _); [|done]. cbn [tail] in Hat2.
    apply M_bind_inv in E as (t1 & s3 & E3 & E). apply (IHl _ _ _ _ Hat2) in E3 as (ts2 & ts3 & c & -> & Hg & Ht & Hat3).
    apply M_bind_inv in E as (b & s4 & E4 & E). apply (peek_inv _ _ ts3) in E4 as [-> Hat4]; [|done..].
    destruct (head_in (chars ")") ts3) eqn:Hh2; [|done]. cbn [negb] in E.
    destruct (head_in_one _ 41 _ ts3 Hat3 eq_refl ltac:(done) Hh2) as (ts4 & ->).
    apply M_bind_inv in E as (r' & s5 & E5 & E). apply (gettoken_inv _ (TOp 41 :: ts4)) in E5 as (_ & Hat5 & _); [|done]. cbn [tail] in Hat5.
    apply (parseredirs_sound _ _ c _ ts4) in E as (its & ts5 & -> & Hits & Ht' & Hat'); [|done..].
    exists (TOp 40 :: ts2 ++ TOp 41 :: (its ≫= item_toks)), ts5, (wrap c its). cbn [app]. rewrite <- (assoc_L (++)).
    split_and!; [done|by constructor|done..].
Qed.

(** ** The parser stops *)
Definition stops {A} (c : P A) (st : pst) : Prop := c st ≠ NoFuel.
Lemma bind_stops {A B} (c : P A) (f : A → P B) st : stops c st → (∀ a s, c st = Done (a, s) → stops (f a) s) → stops (c ≫= f) st.
Proof. unfold stops, mbind, M_bind. intros Hc Hf. destruct (c st) as [[a s]|e|]; [by apply Hf|done|done]. Qed.
Lemma peek_stops l st : stops (peek line l) st.
Proof. done. Qed.
Lemma gettoken_stops st : stops (gettoken line) st.
Proof. unfold stops, gettoken. unfold_M. by repeat case_match. Qed.
Lemma node_stops t st : stops (node t) st.
Proof. unfold stops, node. by destruct (malloc_left st). Qed.
Lemma redir_stops t tok f st : stops (redir t tok f) st.
Proof. unfold redir. repeat case_match; first [apply node_stops|done]. Qed.
Lemma redir_ps t tok f st t' st' : redir t tok f st = Done (t', st') → ps st' = ps st.
Proof. unfold redir. repeat case_match; intros E; first [by apply node_inv in E as [_ ->]|by injection E as <- <-]. Qed.

Lemma parseredirs_stops n : ∀ t st ts, (length ts < n)%nat → at_ (ps st) ts → stops (parseredirs line n t) st.
Proof.
  induction n as [|n IH]; intros t st ts Hn Hat; [lia|]. cbn [parseredirs]. apply bind_stops; [apply peek_stops|].
  intros b s1 E1. apply (peek_inv _ _ ts) in E1 as [-> Hat1]; [|done..]. destruct (head_in (chars "<>") ts) eqn:Hh; [|done].
  destruct (head_redir _ ts Hat Hh) as (k & ts1 & -> & _). apply bind_stops; [apply gettoken_stops|].
  intros [tok q] s2 E2. apply (gettoken_inv _ (rtok k :: ts1)) in E2 as (_ & Hat2 & _); [|done]. cbn [tail length] in *.
  apply bind_stops; [apply gettoken_stops|]. intros [t' file] s3 E3. apply (gettoken_inv _ ts1) in E3 as (_ & Hat3 & _); [|done].
  case_match; [done|]. apply bind_stops; [apply redir_stops|]. intros t1 s4 E4%redir_ps. apply (IH _ _ (tail ts1)).
  - destruct ts1; cbn in *; lia.
  - by rewrite E4.
Qed.
Lemma exec_loop_stops n : ∀ argv ret its0 st ts, tree ret (wrap (SExec []) its0) → (length ts < n)%nat → at_ (ps st) ts →
  stops (parseexec_loop line n argv ret) st.
Proof.
  induction n as [|n IH]; intros argv ret its0 st ts Ht Hn Hat; [lia|]. cbn [parseexec_loop]. apply bind_stops; [apply peek_stops|].
  intros b s1 E1. apply (peek_inv _ _ ts) in E1 as [-> Hat1]; [|done..]. case_match; [done|].
  apply bind_stops; [apply gettoken_stops|]. intros [tok a] s2 E2. apply (gettoken_inv _ ts) in E2 as (Htok & Hat2 & _); [|done].
  cbn [fst] in Htok. case_match; [done|]. destruct (Z.eqb_spec tok 97) as [->|]; [|done]. cbn [negb]. cbn zeta.
  destruct (code_word _ _ Hat (eq_sym Htok)) as (w & ts1 & ->). cbn [tail length] in *. case_match; [done|].
  apply bind_stops; [apply (parseredirs_stops _ _ _ ts1); [lia|done]|]. intros ret1 s3 E3.
  apply (parseredirs_sound _ _ (wrap (SExec []) its0) _ ts1) in E3 as (its1 & ts2 & -> & _ & Ht1 & Hat3); [|done..].
  rewrite length_app in Hn. rewrite <- wrap_app in Ht1. apply (IH _ _ _ _ ts2 Ht1); [lia|done].
Qed.
(** After an operator the parser goes on with fewer tokens. *)
Lemma after_op {A} c ts st (k : P A) : at_ (ps st) (TOp c :: ts) → (∀ s, at_ (ps s) ts → stops k s) → stops (gettoken line;; k) st.
Proof.
  intros Hat Hk. apply bind_stops; [apply gettoken_stops|]. intros r s E.
  apply (gettoken_inv _ (TOp c :: ts)) in E as (_ & Hat' & _); [|done]. by apply Hk.
Qed.
Lemma back_loop_stops n : ∀ t st ts, (length ts < n)%nat → at_ (ps st) ts → stops (back_loop line n t) st.
Proof.
  induction n as [|n IH]; intros t st ts Hn Hat; [lia|]. cbn [back_loop]. apply bind_stops; [apply peek_stops|].
  intros b s1 E1. apply (peek_inv _ _ ts) in E1 as [-> Hat1]; [|done..]. destruct (head_in (chars "&") ts) eqn:Hh; [|done].
  destruct (head_in_one _ 38 _ ts Hat eq_refl ltac:(done) Hh) as (ts1 & ->). apply (after_op 38 ts1); [done|].
  intros s2 Hat2. cbn [length] in *. apply bind_stops; [apply node_stops|]. intros t1 s3 [-> Hp]%node_inv.
  apply (IH _ _ ts1); [lia|by rewrite Hp].
Qed.
Lemma back_loop_fewer n : ∀ t st ts t' st', at_ (ps st) ts → back_loop line n t st = Done (t', st') →
  ∃ ts', at_ (ps st') ts' ∧ (length ts' ≤ length ts)%nat.
Proof.
  induction n as [|n IH]; intros t st ts t' st' Hat E; [done|]. cbn [back_loop] in E.
  apply M_bind_inv in E as (b & s3 & E3 & E). apply (peek_inv _ _ ts) in E3 as [-> Hat3]; [|done..].
  destruct (head_in (chars "&") ts); [|injection E as <- <-; by exists ts].
  apply M_bind_inv in E as (r & s4 & E4 & E). apply (gettoken_inv _ ts) in E4 as (_ & Hat4 & _); [|done].
  apply M_bind_inv in E as (t3 & s5 & [_ Hp]%node_inv & E). rewrite <- Hp in Hat4.
  destruct (IH _ _ _ _ _ Hat4 E) as (ts3 & H & Hl). exists ts3. split; [done|]. destruct ts; cbn in *; lia.
Qed.

Definition run_stops (run : P cmd) (k : nat) (n : nat) : Prop :=
  ∀ st ts, (4 * length ts + k ≤ n)%nat → at_ (ps st) ts → stops run st.
Lemma parser_stops n : run_stops (parseline line n) 4 n ∧ run_stops (parsepipe line n) 3 n ∧
  run_stops (parseexec line n) 2 n ∧ run_stops (parseblock line n) 1 n.
Proof.
  induction n as [|n (IHl & IHp & IHe & IHb)]; [by split_and!; intros st ts Hn; lia|].
  destruct (parser_sound n) as (Sl & Sp & Se & _).
  split_and!; intros st ts Hn Hat; cbn [parseline parsepipe parseexec parseblock].
  - apply bind_stops; [apply (IHp st ts); [lia|done]|]. intros t1 s1 (ts1 & ts2 & c1 & -> & _ & _ & Hat1)%(Sp _ _ _ _ Hat).
    rewrite length_app in Hn. apply bind_stops; [apply (back_loop_stops _ _ _ ts2); [lia|done]|].
    intros t2 s2 (ts3 & Hat2 & Hle)%(back_loop_fewer _ _ _ _ _ _ Hat1).
    apply bind_stops; [apply peek_stops|]. intros b s3 E3. apply (peek_inv _ _ ts3) in E3 as [-> Hat3]; [|done..].
    destruct (head_in (chars ";") ts3) eqn:Hh; [|done]. destruct (head_in_one _ 59 _ ts3 Hat2 eq_refl ltac:(done) Hh) as (ts4 & ->).
    apply (after_op 59 ts4); [done|]. intros s4 Hat4. cbn [length] in *. apply bind_stops; [apply (IHl s4 ts4); [lia|done]|].
    intros; apply node_stops.
  - apply bind_stops; [apply (IHe st ts); [lia|done]|]. intros t1 s1 (ts1 & ts2 & c1 & -> & _ & _ & Hat1)%(Se _ _ _ _ Hat).
    rewrite length_app in Hn. apply bind_stops; [apply peek_stops|]. intros b s3 E3. apply (peek_inv _ _ ts2) in E3 as [-> Hat3]; [|done..].
    destruct (head_in (chars "|") ts2) eqn:Hh; [|done]. destruct (head_in_one _ 124 _ ts2 Hat1 eq_refl ltac:(done) Hh) as (ts4 & ->).
    apply (after_op 124 ts4); [done|]. intros s4 Hat4. cbn [length] in *. apply bind_stops; [apply (IHp s4 ts4); [lia|done]|].
    intros; apply node_stops.
  - apply bind_stops; [apply peek_stops|]. intros b s1 E1. apply (peek_inv _ _ ts) in E1 as [-> Hat1]; [|done..].
    case_match; [apply (IHb s1 ts); [lia|done]|]. apply bind_stops; [apply node_stops|]. intros t1 s2 [-> Hp]%node_inv.
    rewrite <- Hp in Hat1. apply bind_stops; [apply (parseredirs_stops _ _ _ ts); [lia|done]|]. intros ret s3 E3.
    apply (parseredirs_sound _ _ (SExec []) _ ts) in E3 as (its & ts2 & -> & Hits & Ht & Hat3); [|by repeat constructor|done].
    rewrite length_app in Hn. apply (exec_loop_stops _ _ _ its _ ts2); [done|lia|done].
  - apply bind_stops; [apply peek_stops|]. intros b s1 E1. apply (peek_inv _ _ ts) in E1 as [-> Hat1]; [|done..].
    destruct (head_in (chars "(") ts) eqn:Hh; [|done]. cbn [negb]. destruct (head_in_one _ 40 _ ts Hat eq_refl ltac:(done) Hh) as (ts1 & ->).
    apply (after_op 40 ts1); [done|]. intros s2 Hat2. cbn [length] in *. apply bind_stops; [apply (IHl s2 ts1); [lia|done]|].
    intros t s3 (ts2 & ts3 & c & -> & _ & _ & Hat3)%(Sl _ _ _ _ Hat2). rewrite length_app in Hn.
    apply bind_stops; [apply peek_stops|]. intros b s4 E4. apply (peek_inv _ _ ts3) in E4 as [-> Hat4]; [|done..].
    destruct (head_in (chars ")") ts3) eqn:Hh2; [|done]. cbn [negb]. destruct (head_in_one _ 41 _ ts3 Hat3 eq_refl ltac:(done) Hh2) as (ts4 & ->).
    apply (after_op 41 ts4); [done|]. intros s5 Hat5. cbn [length] in *. apply (parseredirs_stops _ _ _ ts4); [lia|done].
Qed.
End line.

(** ** Parsing decides the grammar *)
Lemma spells_length l ts : spells l ts → (length ts ≤ length l)%nat.
Proof. induction 1 as [| | |ws [|c w] l ts Hw Hne]; [..|done|]; cbn [length] in *; rewrite ?length_app in *; cbn [length] in *; rewrite ?length_app; lia. Qed.
Lemma nodes_bound lv ts c : G lv ts c → (nodes c ≤ 2 * length ts + 1)%nat.
Proof.
  assert (∀ its, (n_redirs its ≤ length (its ≫= item_toks))%nat) as Hits.
  { intros its. etrans; [apply List.filter_length_le|apply items_length]. }
  induction 1 as [its H|ts c its H Hg IH| | | | | |]; rewrite ?nodes_wrap; cbn [nodes length]; rewrite ?length_app; cbn [length]; try lia.
  - pose proof (Hits its). lia.
  - pose proof (Hits its). lia.
Qed.
Lemma parse_stops line fuel n : Forall (λ c, c ≠ 0) line → (4 * length line + 4 ≤ fuel)%nat → parse fuel n line ≠ NoFuel.
Proof.
  intros Hnz Hf. destruct (spells_total line Hnz) as (ts & Hsp & Hlen).
  assert (stops (c ← parseline line fuel; peek line []%list;; st ← get; mret (c, ps st)) (Pst 0 n)) as Hs.
  { apply bind_stops; [apply (proj1 (parser_stops line fuel) _ ts); [lia|split; [cbn; lia|done]]|]. by intros. }
  unfold parse, stops in *. by destruct ((c ← parseline line fuel; _) _) as [[]| |].
Qed.
Lemma parse_sound line fuel n t : Forall (λ c, c ≠ 0) line → parse fuel n line = Done (t, length line) →
  ∃ ts c, spells line ts ∧ G Line ts c ∧ tree line t c.
Proof.
  intros Hnz E. destruct (spells_total line Hnz) as (ts & Hsp & _). unfold parse in E.
  destruct ((c ← parseline line fuel; _) _) as [[[t' p] s]|e|] eqn:Ep; [|done..]. injection E as -> ->.
  apply M_bind_inv in Ep as (t1 & s1 & E1 & E2). apply (proj1 (parser_sound line fuel) _ ts) in E1; [|split; [cbn; lia|done]].
  destruct E1 as (ts1 & ts2 & c & -> & Hg & Ht & Hat1). apply M_bind_inv in E2 as (b & s2 & E2 & E3).
  apply (peek_inv _ _ _ ts2) in E2 as [_ (_ & Hat2)]; [|done..]. injection E3 as -> Hp _. rewrite Hp, drop_all in Hat2.
  apply spells_length in Hat2. destruct ts2; [|cbn in Hat2; lia]. rewrite app_nil_r in *. by exists ts1, c.
Qed.
Definition sentence (line : list Z) : Prop := ∃ ts c, spells line ts ∧ G Line ts c.
(** Claim C27: the parser accepts a whole line if and only if it is a sentence of the grammar,
    and stops on every line. *)
Theorem parse_decides_grammar line fuel n : Forall (λ c, c ≠ 0) line →
  (4 * length line + 4 ≤ fuel)%nat → (2 * length line + 1 ≤ n)%nat →
  parse fuel n line ≠ NoFuel ∧
  ((∃ t, parse fuel n line = Done (t, length line)) ↔ sentence line).
Proof.
  intros Hnz Hf Hn. split; [by apply parse_stops|]. split.
  - intros (t & (ts & c & H1 & H2 & _)%parse_sound); [by exists ts, c|done].
  - intros (ts & c & Hsp & Hg). pose proof (spells_length _ _ Hsp). pose proof (nodes_bound _ _ _ Hg).
    destruct (parse_run line ts c fuel n Hsp Hg ltac:(lia) ltac:(lia)) as (t & E & _). by exists t.
Qed.
Lemma parse_decides_grammar_witness : Forall (λ c, c ≠ 0) cat_line ∧ parse 100 20 cat_line ≠ NoFuel ∧
  ∃ t, parse 100 20 cat_line = Done (t, length cat_line).
Proof.
  assert (Forall (λ c, c ≠ 0) cat_line) as Hnz by (repeat constructor; done). split; [done|].
  destruct (parse_decides_grammar cat_line 100 20 Hnz) as [H1 H2]; [cbn; lia|cbn; lia|].
  split; [done|]. apply H2. exists cat_toks, cat_cmd. split; [exact cat_spells|exact cat_sentence].
Defined.
