(* ===== verification/Main.v ===== *)
(** * The start of the kernel: boot/main.cpp on two CPUs

    [main] is the sequence of what a CPU does; the components it starts are in
    their own files.  The CPUs run independently of each other, one instruction at
    a time, and share [started]. *)
From S2P Require Import Prelude.

(** What [main] calls; [Tp] is [inithartid], which keeps the lowest bit. *)
Inductive call :=
| Tp (tp : Z) | CpuInit (i : Z) | ConsoleInit | PrintfInit | PrintLogo | CallGlobalConstructor
| MemAllocatorInit | BuddyAllocInit | InitKernelVm | InitHartVm | TimerInit | BufferLayerInit | TrapInitHart
| SyscallInit | PlicInit | PlicInitHart | DevInit | InitTaskTable | InitFirstTask | SbiSendIpi (mask : Z)
| PrintFinish (tp : Z) | IntrOff | Scheduler.
(** A call; [started = 1]; [while (started == 0) ;]; [while (1) {}]. *)
Inductive instr := Call (c : call) | SetStarted | WaitStarted | Spin.
#[export] Instance call_eq_dec : EqDecision call.
Proof. solve_decision. Defined.

Definition NCPU : Z := 2.
(** [for (int i = 1; i < NCPU; i++) sbi_send_ipi(&mask)] *)
Definition send_ipis : list instr := (λ i, Call (SbiSendIpi (u64 (i32 (Z.shiftl 1 i))))) <$> seqZ 1 (NCPU - 1).
Definition main (hartid : Z) : list instr :=
  let tp := Z.land hartid 1 in
  [Call (Tp tp); Call (CpuInit hartid)] ++
  (if hartid =? 0 then
     (Call <$> [ConsoleInit; PrintfInit; PrintLogo; CallGlobalConstructor; MemAllocatorInit; BuddyAllocInit; InitKernelVm;
                InitHartVm; TimerInit; BufferLayerInit; TrapInitHart; SyscallInit; PlicInit; PlicInitHart; DevInit;
                InitTaskTable; InitFirstTask]) ++
     send_ipis ++ [Call (PrintFinish tp); SetStarted]
   else
     [Call IntrOff; WaitStarted] ++ (Call <$> [InitHartVm; TrapInitHart; PlicInitHart; PrintFinish tp]) ++ [Spin]) ++
  [Call Scheduler].

(** ** Two CPUs *)
Record boot := Boot { started : bool; todo : Z → list instr; trace : list (Z * call) }.
Definition set_todo (h : Z) (l : list instr) (s : boot) : Z → list instr := λ h', if h' =? h then l else todo s h'.
Inductive step : boot → boot → Prop :=
| s_call s h c l : todo s h = Call c :: l → step s (Boot (started s) (set_todo h l s) (trace s ++ [(h, c)]))
| s_set s h l : todo s h = SetStarted :: l → step s (Boot true (set_todo h l s) (trace s))
| s_wait s h l : todo s h = WaitStarted :: l →
    step s (Boot (started s) (set_todo h (if started s then l else WaitStarted :: l) s) (trace s))
| s_spin s h l : todo s h = Spin :: l → step s s.
Definition power_on : boot := Boot false (λ h, if (h =? 0) || (h =? 1) then main h else []) [].
Definition reachable : boot → Prop := rtc step power_on.

(** What is still to do of what is started. *)
Definition calls_of (h : Z) (tr : list (Z * call)) : list call := snd <$> filter (λ e, e.1 = h) tr.
Definition instr_call (i : instr) : option call := match i with Call c => Some c | _ => None end.
(** The calls of hart 0 before it lets the other one go on. *)
Definition initialisation : list call := omap instr_call (take 22 (main 0)).
(** What hart 1 does after the wait. *)
Definition second : list call := [InitHartVm; TrapInitHart; PlicInitHart; PrintFinish 1].

(** [n] instructions of [main h] are done. *)
Record done_upto (h : Z) (n : nat) (s : boot) : Prop := {
  du_todo : todo s h = drop n (main h);
  du_calls : calls_of h (trace s) = omap instr_call (take n (main h));
}.
Lemma calls_of_snoc h tr h' c : calls_of h (tr ++ [(h', c)]) = calls_of h tr ++ (if h' =? h then [c] else []).
Proof.
  unfold calls_of. rewrite filter_app, fmap_app. f_equal. rewrite filter_cons, filter_nil.
  destruct (Z.eqb_spec h' h); [by rewrite decide_True|by rewrite decide_False].
Qed.
Lemma omap_take_snoc {A B} (f : A → option B) n l x : l !! n = Some x →
  omap f (take (S n) l) = omap f (take n l) ++ match f x with Some b => [b] | None => [] end.
Proof. intros E. rewrite (take_S_r _ _ _ E), omap_app. done. Qed.
Lemma drop_next {A} n (l : list A) x r : drop n l = x :: r → l !! n = Some x ∧ r = drop (S n) l.
Proof.
  intros E. split.
  - rewrite <- (Nat.add_0_r n), <- lookup_drop, E. done.
  - replace (S n) with (n + 1)%nat by lia. by rewrite <- drop_drop, E.
Qed.

(** How far the CPUs are: hart 0 has set [started] when it is behind instruction
    21, and hart 1 is behind its wait, instruction 3, only when that is so. *)
Definition inv (s : boot) : Prop :=
  ∃ n0 n1, done_upto 0 n0 s ∧ done_upto 1 n1 s ∧ (∀ h, h ≠ 0 → h ≠ 1 → todo s h = []) ∧
    (started s = true ↔ (22 ≤ n0)%nat) ∧ ((4 ≤ n1)%nat → started s = true).
Lemma main0_set n : main 0 !! n = Some SetStarted ↔ n = 21%nat.
Proof. split; [|by intros ->]. intros E. do 23 (destruct n as [|n]; [first [done|discriminate E]|]). discriminate E. Qed.
Lemma main1_no_set n : main 1 !! n ≠ Some SetStarted.
Proof. intros E. do 10 (destruct n as [|n]; [discriminate E|]). discriminate E. Qed.
Lemma main1_wait n : main 1 !! n = Some WaitStarted ↔ n = 3%nat.
Proof. split; [|by intros ->]. intros E. do 10 (destruct n as [|n]; [first [done|discriminate E]|]). discriminate E. Qed.
Lemma main0_no_wait n : main 0 !! n ≠ Some WaitStarted.
Proof. intros E. do 23 (destruct n as [|n]; [discriminate E|]). discriminate E. Qed.
Lemma set_todo_eq h l s : set_todo h l s h = l.
Proof. unfold set_todo. by rewrite Z.eqb_refl. Qed.
Lemma set_todo_ne h h' l s : h' ≠ h → set_todo h l s h' = todo s h'.
Proof. intros. unfold set_todo. by rewrite (proj2 (Z.eqb_neq _ _)). Qed.

(** An instruction of [h] is done: [tr] is what it adds to the trace. *)
Lemma done_step h n s i l b : done_upto h n s → todo s h = i :: l →
  main h !! n = Some i ∧
  done_upto h (S n) (Boot b (set_todo h l s) (trace s ++ match instr_call i with Some c => [(h, c)] | None => [] end)).
Proof.
  intros [Ht Hc] E. rewrite Ht in E. destruct (drop_next _ _ _ _ E) as [Hi ->]. split; [done|]. split; cbn [todo trace].
  - apply set_todo_eq.
  - rewrite (omap_take_snoc _ _ _ _ Hi), <- Hc. destruct (instr_call i) as [c|]; [|by rewrite !app_nil_r].
    by rewrite calls_of_snoc, Z.eqb_refl.
Qed.
Lemma done_other h h' n s l b i : h' ≠ h → done_upto h n s →
  done_upto h n (Boot b (set_todo h' l s) (trace s ++ match instr_call i with Some c => [(h', c)] | None => [] end)).
Proof.
  intros Hne [Ht Hc]. split; cbn [todo trace]; [by rewrite set_todo_ne|].
  destruct (instr_call i) as [c|]; [|by rewrite app_nil_r].
  by rewrite calls_of_snoc, (proj2 (Z.eqb_neq _ _) Hne), app_nil_r.
Qed.
Lemma others_idle h l s : (h = 0 ∨ h = 1) → (∀ h', h' ≠ 0 → h' ≠ 1 → todo s h' = []) →
  ∀ h', h' ≠ 0 → h' ≠ 1 → set_todo h l s h' = [].
Proof. intros Hh Ho h' H0 H1. rewrite set_todo_ne by (destruct Hh; congruence). by apply Ho. Qed.
Lemma busy_hart s h i l : (∀ h', h' ≠ 0 → h' ≠ 1 → todo s h' = []) → todo s h = i :: l → h = 0 ∨ h = 1.
Proof.
  intros Ho E. destruct (Z.eq_dec h 0), (Z.eq_dec h 1); auto. by rewrite Ho in E.
Qed.
Lemma boot_inv_step s s' : inv s → step s s' → inv s'.
Proof.
  intros (n0 & n1 & D0 & D1 & Ho & Hst & Hw) Hs. destruct Hs as [s h c l E|s h l E|s h l E|s h l E].
  - destruct (busy_hart s h _ _ Ho E) as [->| ->].
    + destruct (done_step 0 n0 s _ l (started s) D0 E) as [Hi D]. exists (S n0), n1. split_and!; [exact D| | |cbn|exact Hw].
      * exact (done_other 1 0 n1 s l _ (Call c) ltac:(done) D1).
      * apply others_idle; auto.
      * rewrite Hst. assert (n0 ≠ 21%nat) by (intros ->; done). lia.
    + destruct (done_step 1 n1 s _ l (started s) D1 E) as [Hi D]. exists n0, (S n1). split_and!; [|exact D| |exact Hst|cbn].
      * exact (done_other 0 1 n0 s l _ (Call c) ltac:(done) D0).
      * apply others_idle; auto.
      * intros Hn. apply Hw. assert (n1 ≠ 3%nat) by (intros ->; done). lia.
  - destruct (busy_hart s h _ _ Ho E) as [->| ->].
    + destruct (done_step 0 n0 s _ l true D0 E) as [Hi D]. apply main0_set in Hi as ->. cbn [instr_call] in D. rewrite app_nil_r in D.
      exists 22%nat, n1. split_and!; [exact D| | |done|done].
      * pose proof (done_other 1 0 n1 s l true SetStarted ltac:(done) D1) as D'. cbn [instr_call] in D'. by rewrite app_nil_r in D'.
      * apply others_idle; auto.
    + destruct (done_step 1 n1 s _ l true D1 E) as [Hi _]. by apply main1_no_set in Hi.
  - destruct (busy_hart s h _ _ Ho E) as [->| ->].
    { destruct (done_step 0 n0 s _ l true D0 E) as [Hi _]. by apply main0_no_wait in Hi. }
    destruct (started s) eqn:Es.
    + destruct (done_step 1 n1 s _ l true D1 E) as [Hi D]. cbn [instr_call] in D. rewrite app_nil_r in D.
      exists n0, (S n1). split_and!; [|exact D| |exact Hst|done].
      * pose proof (done_other 0 1 n0 s l true WaitStarted ltac:(done) D0) as D'. cbn [instr_call] in D'. by rewrite app_nil_r in D'.
      * apply others_idle; auto.
    + exists n0, n1. split_and!; [| | |exact Hst|exact Hw].
      * pose proof (done_other 0 1 n0 s (WaitStarted :: l) false WaitStarted ltac:(done) D0) as D'. cbn [instr_call] in D'. by rewrite app_nil_r in D'.
      * destruct D1 as [Ht Hc]. split; cbn [todo trace]; [by rewrite set_todo_eq, <- E|done].
      * apply others_idle; auto.
  - by exists n0, n1.
Qed.
Lemma inv_power_on : inv power_on.
Proof.
  exists 0%nat, 0%nat. split_and!; [by split|by split| |split; [done|lia]|lia].
  intros h H0 H1. unfold power_on. cbn. by rewrite (proj2 (Z.eqb_neq _ _) H0), (proj2 (Z.eqb_neq _ _) H1).
Qed.
Lemma reachable_inv s : reachable s → inv s.
Proof. unfold reachable. intros H. pattern s. eapply rtc_ind_r; [apply inv_power_on| |exact H]. intros. by eapply boot_inv_step. Qed.

Lemma calls_of_elem h c tr : (h, c) ∈ tr → c ∈ calls_of h tr.
Proof. intros H. unfold calls_of. apply list_elem_of_fmap. exists (h, c). split; [done|]. by apply list_elem_of_filter. Qed.
(** Whenever hart 1 has turned paging on, or done anything behind that, hart 0 has
    finished the initialisation: the kernel's page table and all tables are there. *)
Theorem second_hart_waits s c : reachable s → c ∈ second → (1, c) ∈ trace s → initialisation `prefix_of` calls_of 0 (trace s).
Proof.
  intros (n0 & n1 & [_ H0] & [_ H1] & _ & Hst & Hw)%reachable_inv Hc Hin%calls_of_elem. rewrite H1 in Hin.
  assert (4 ≤ n1)%nat as Hn1.
  { apply Nat.nlt_ge. intros Hlt. assert (omap instr_call (take n1 (main 1)) `prefix_of` [Tp 1; CpuInit 1; IntrOff]) as [k Hk].
    { destruct n1 as [|[|[|[|n1]]]]; [by eexists| by eexists|by eexists|by exists []|lia]. }
    assert (c ∈ [Tp 1; CpuInit 1; IntrOff]) as Hc' by (rewrite Hk; apply elem_of_app; by left).
    clear -Hc Hc'. revert Hc Hc'. unfold second. rewrite !elem_of_cons, !elem_of_nil. naive_solver. }
  apply Hw, Hst in Hn1. rewrite H0. unfold initialisation. exists (omap instr_call (drop 22 (take n0 (main 0)))).
  rewrite <- omap_app. f_equal. rewrite <- (take_drop 22 (take n0 (main 0))) at 1. f_equal. rewrite take_take. f_equal. lia.
Qed.

(** A run by turns: both CPUs get to their ends. *)
Definition run1 (s : boot) (h : Z) : boot :=
  match todo s h with
  | Call c :: l => Boot (started s) (set_todo h l s) (trace s ++ [(h, c)])
  | SetStarted :: l => Boot true (set_todo h l s) (trace s)
  | WaitStarted :: l => Boot (started s) (set_todo h (if started s then l else WaitStarted :: l) s) (trace s)
  | Spin :: _ | [] => s
  end.
Lemma run_reachable turns s : reachable s → reachable (fold_left run1 turns s).
Proof.
  revert s. induction turns as [|h turns IH]; intros s Hs; [done|]. cbn [fold_left]. apply IH.
  unfold run1. destruct (todo s h) as [|[c| | |] l] eqn:E; try done; (eapply rtc_r; [exact Hs|]).
  - by apply s_call.
  - by apply s_set.
  - by apply s_wait.
Qed.
Example both_harts_start : ∃ s, reachable s ∧ calls_of 0 (trace s) = initialisation ++ [Scheduler] ∧
  calls_of 1 (trace s) = [Tp 1; CpuInit 1; IntrOff] ++ second ∧ todo s 1 = [Spin; Call Scheduler].
Proof.
  exists (fold_left run1 (replicate 5 1 ++ replicate 23 0 ++ replicate 5 1) power_on).
  split; [by apply run_reachable, rtc_refl|by vm_compute].
Qed.
