(* ===== verification/New.v ===== *)
(** * [new] and [delete]: kernel/StartOS.cpp over the buddy allocator

    A request of more than a page stops the kernel; the last sizes below a page
    pass this test, but with the allocator's header they need more than a page. *)
From S2P Require Import Prelude KAlloc Buddy.

Section new.
Context {P : Type} `{PageAllocator P} (fuel : nat).
Definition operator_new (size : Z) : M (buddy P) Z :=
  if PGSIZE <? size then panic "operator new" else BuddyAllocator.alloc fuel size.
Definition operator_delete (p : Z) : M (buddy P) unit := BuddyAllocator.free fuel p.
Definition operator_new_array (size : Z) : M (buddy P) Z :=
  if PGSIZE <? size then panic "operator new[]" else BuddyAllocator.alloc fuel size.
Definition operator_delete_array (p : Z) : M (buddy P) unit := BuddyAllocator.free fuel p.

(** The sizes that the test lets through and the allocator has no list for. *)
Lemma operator_new_page_end (s : buddy P) (T : blocks) (l : list Z) size : inv s T l → 4088 < size < 4096 → (10 < fuel)%nat →
  operator_new size s = Panic "freelist index" ∧ operator_new_array size s = Panic "freelist index".
Proof.
  intros Hs Hsize Hf. unfold operator_new, operator_new_array. rewrite (proj2 (Z.ltb_ge PGSIZE size)) by (unfold PGSIZE; lia).
  pose proof (alloc_too_big s T l size fuel Hs Hsize Hf). done.
Qed.
End new.
